(* ===== verification/_CoqProject ===== *)
-Q . S2P
Prelude.v
NvmeControl.v
AdminPayload.v
AdminState.v
AdminRing.v
Frontend.v
FrontendClient.v
ReadMirror.v
SeraRtc.v
RtcSeed.v
BootRtc.v
CpuPstate.v
GuestRam.v
MemoryMap.v
DartTranslate.v
HvMap.v
FastPath.v
FastPathClient.v
Adapter.v
AdapterProof.v
GuestPtr.v
Wire.v
Channel.v
Delivery.v
DeliveryLink.v
IoCore.v
HandoffLayout.v
CrcrLatch.v
AfkRing.v
Bitfield.v
Emulate.v
DataAbort.v
PaAccess.v
UploadReceiver.v
Upload.v
UploadLink.v
