(* ===== verification/Prelude.v ===== *)
(** * NWOAS: a verification library for the C core of the project

    NWOAS boots Windows on an Apple M1 machine under a small hypervisor (m1n1).
    The repository keeps one directory per development stage under
    [src/NWOAS/nwoas_scripts/]; the files named below are the latest copies.

    ** The program

    Windows sees a synthetic NVMe controller.  Its PCI configuration space and
    control registers are a model in C ([native-s209]); the admin queue is a ring
    engine ([native-s227]) over an admin command state ([native-s226]) that gets
    its response pages from a response builder ([native-s225]); a frontend
    ([native-s228]) owns the control model and the ring and connects them.  Reads
    of the registers may be answered from a published copy ([native-s224]).  The
    I/O queue is served by a fast path inside the hypervisor's trap handler
    ([nvme-s208/hv_vm-s208.c]), which finds the guest's queues through the stage-2
    page tables of the same file.  An adapter ([native-s230]) makes the frontend and
    the fast path one device.  Around it: a DART (IOMMU) translation set up in
    one transaction ([usb-s175]); UEFI firmware that lays out guest RAM
    ([memory-s161]), splits and hides parts of the memory map and reserves the
    handoff range ([firmware-s216]), reads the clock of the PMU over SPMI, seeds
    the boot clock from it, and switches the CPU performance state; a loader that
    places the firmware image ([loader-s215]); and, inside Windows, two clients that
    fetch a file from the host ([file-delivery-s168]) and send one to it
    ([file-upload-s169]) through blocks of the virtual disk, and a test of the disk's
    integrity ([storage-s195]).

    ** Files

    - [Prelude]: words of a given width, byte buffers, records with lenses, the
      state monad [M] with its predicate transformer [mwp], early returns
      ([proc]), and the tactics [wp_go], [bitwise], [dlia], [keeps_run].
    - [NvmeControl] <- native-s209/model.c, model.h: [nwoas_control], the PCI and
      register reads and writes, reset, the pending update.
    - [AdminPayload] <- native-s225/admin_payload.c: Identify and Get Log Page.
    - [AdminState] <- native-s226/admin_state.c: queue creation and deletion,
      features, aborts, asynchronous events.
    - [AdminRing] <- native-s227/admin_ring.c: fetch, execute, publish and
      acknowledge, over caller-owned memory.
    - [Frontend] <- native-s228/frontend.c: the two joined, each through the
      callback table it is given.
    - [FrontendClient]: the classes [Seen] and [FrontendOwner], what the owner of a
      frontend must promise of its hooks, and what it gets back.
    - [ReadMirror] <- native-s224/read_mirror.h.
    - [HvMap] <- hv_vm-s208.c, lines 121-620: the stage-2 tables, [hv_map] and
      [hv_pt_walk].
    - [FastPath] <- hv_vm-s208.c, lines 1150-1724: the I/O queue.
    - [FastPathClient]: the class [FpClient], the same for the fast path.
    - [Adapter], [AdapterProof] <- native-s230/adapter.inc: frontend and fast path
      as one device; the hooks are instances of [FrontendOwner], the fast path's
      environment is one of [FpClient].
    - [GuestPtr]: [FastPath] and [HvMap] joined.
    - [SeraRtc], [RtcSeed], [BootRtc] <- firmware-s216/NwoasHardwareBootRtcLib:
      the bus transaction, the clock arithmetic, the UEFI library on both.
    - [CpuPstate] <- firmware-s216/Include/Library/NwoasCpuPstate.h.
    - [GuestRam] <- memory-s161/.../NwoasGuestRam.h, firmware-s216/NwoasHandoffRanges.h.
    - [MemoryMap] <- firmware-s216/.../NwoasSplitMemoryMap.h and
      NwoasHideHighRamDxe-s167.c.
    - [DartTranslate] <- usb-s175/s175_dart1_translate.c.
    - [Wire] <- file-delivery-s168/client/wire.h: the CRC, the request block, the
      parser of the response window.
    - [Channel] <- file-delivery-s168/channel.py: the host's side of the channel.
    - [Delivery] <- file-delivery-s168/client/nwoas_client.c: the client.
    - [DeliveryLink]: the client against the channel, on a machine described by the
      class [Link].
    - [UploadReceiver] <- file-upload-s169/receiver.py: the host's side of an upload.
    - [Upload] <- file-upload-s169/client/nwput.c: the client.
    - [UploadLink]: the client against the receiver, on a machine described by the
      class [UploadMachine].
    - [IoCore] <- storage-s195/iocore.h: the storage integrity loop.
    - [HandoffLayout] <- loader-s215/handoff_layout.h, payload-s215.c.
    - [CrcrLatch] <- usb-s182/crcr_latch.h.
    - [AfkRing] <- .../m1n1_windows/added/src/afk_ring.h.
    - [Bitfield]: instruction words as packed fields, and which row of a table of mask
      tests matches one, decided on what is known of its bits.
    - [Emulate] <- hv_vm-s208.c, lines 622-951: [emulate_load] and [emulate_store],
      and the instructions as the architecture encodes and executes them.
    - [DataAbort] <- hv_vm-s208.c, lines 4091-4407: [hv_emulate_rw] and
      [hv_handle_dabort], from the exception to the guest's registers; the park of a
      CPU that storms; the UART ring.
    - [PaAccess] <- hv_vm-s208.c, lines 978-1072: the guarded accesses to physical
      memory, and [DataAbort] with a device that is memory behind them.

    ** How code becomes definitions

    A C structure is a record of the same name; an enum an inductive type; an
    unsigned integer of [w] bits a [Z] with [wrap w] where the code can overflow.
    A function that changes state is a function in the monad [M S] for any store
    [S] with a lens to the structure it owns, so that structures nest as they do
    in C and callbacks run on the enclosing store.  Hardware, the operating
    system, m1n1 functions outside the repository and user callbacks are records
    of functions (environments), and what is assumed of them is a class
    ([FrontendEnv], [FpEnv], [Allocator], [Link], ...) with an instance on a concrete
    store, which the witnesses use.  Loops are structural on the list or count
    they run over, or take fuel with a theorem that the code's own bound is
    enough.

    ** Theorems

    - Invariants over every sequence of operations: [control_reach_inv],
      [admin_reach_inv], [ring_reach_inv], [frontend_reach_inv], [fp_reach_inv],
      [boot_map_invariant], and the type of the page-table store
      ([hv_map_typed]).
    - The composed device: the joint invariant of frontend, fast path and adapter
      ([adapter_reach_inv]), over every sequence of calls in which the host's control
      action 1 does not succeed in arming the fast path by hand (its refusals and all
      other actions are included; [hand_armed] shows that after such an arming the
      fast path need not serve the guest's queues); the line the guest sees as a function of the state
      ([adapter_line_exact]), the commands the controller is given
      ([adapter_device_guard]), the range check of the admin ring's accesses
      ([s229_contains_exact]).
    - Refinement and equivalence: register reads, response pages and the read
      copy against byte-level specifications; the page tables against a map from
      addresses to backings ([hv_pt_refines_map]); civil dates against a calendar
      that counts days; the wire parser against the encodings ([wire_parse_exact]).
    - What a step does, on every branch: admin commands, ring service, I/O
      doorbells, the DART transaction, the memory-map wrapper, clock readings.
    - Safety of the outside world: no device command outside the writable window
      ([fp_device_guard]), bus and MMIO discipline ([dart_bus_discipline],
      [sera_bus_discipline], [pstate_bus_session]), buffers that are what the
      guest sees at its own addresses ([guest_ptr_backed]), no write of the client
      outside the request block and its own file ([delivery_writes]).
    - Histories: a poll of the admin ring publishes exactly the completions of the
      commands it fetched, in their order and with the results and data of their
      execution, up to the service that fails ([ring_poll_publishes],
      [frontend_poll_delivers]); a clock snapshot is made of the words that the
      controller replied, in their places ([sera_snapshot_correct]).
    - Liveness and termination: retries suffice,
      waits end within their bound; against the host's channel the client ends with
      the whole artifact in its file ([delivery_completes]), and on a medium that
      keeps its data the integrity loop passes ([write_read_back]).
    - The upload, over a machine where any call may fail and any frame be lost: the
      client ends, its success means that the host has the file, and where nothing
      fails it succeeds ([upload_exact]); the host publishes nothing but the whole
      artifact, whatever it is sent ([receiver_publishes]), and a frame may be repeated
      ([receiver_retry]).
    - Instructions: the two emulation functions against the architecture's effect of
      every encoding they support, at the architecture's effective address
      ([load_ea], [store_ea]), under the condition that the code's choice of address
      needs ([load_addressed], [store_addressed]: the exception was taken at the
      first byte of the access, and an address the code computes is not based on SP)
      ([emulate_load_arch], [emulate_store_arch]); the whole handler, split at pages
      and chunks, against one access of the guest ([dabort_load_exact],
      [dabort_store_exact]).  Outside that condition the code accesses other bytes
      ([second_page_load], [second_page_store], [sp_base_load], [sp_base_store]).
      A CPU is parked at every sixteenth
      abort in a row and at no other ([park_exact]).

    ** Bounds and fuel

    Polling loops take the iteration counts of the code (for instance the busy
    waits of [SeraRtc], [CpuPstate] and [DartTranslate]).  [HvMap] bounds the
    number of live tables by the argument [limit] of the class [Allocator]; a
    mapping of [n] bytes adds at most [cost n] tables.  The client's download loop
    has [DOWNLOAD_FUEL] rounds, two more than the full payloads of the artifact
    ([download_fuel]), and its write loop one per byte that is left: each round
    makes progress or ends the loop.  The upload's has [TRANSFER_FUEL] rounds, one per
    full payload, one for the rest and one to leave ([transfer_fuel]).  [IoCore] runs one round per block of the
    region; [Adapter] walks the pages of a guest range with [page_fuel], more than
    the range can touch.
    [hv_emulate_rw] runs one round per byte, and every chunk has at least one; its
    callers prove that the fuel is enough.

    ** Not modelled

    The body of [hv_emulate_rw_aligned], which dispatches over the kinds of
    page-table entry and holds the USB experiments, is a function of the environment
    of [DataAbort], as are the guest's own translation and the registers of the
    exception; [PaAccess] gives it for plain memory.
    Interrupt injection, the USB experiments of the hypervisor's MMIO path, exception
    entry, the payload loader but its placement, Windows
    glue and the host link workers are left out: register-level bring-up and
    diagnostics, operating-system glue, generated tables and third-party code.
    Diagnostic printing and counters that no code reads back are dropped, memory
    barriers are events only where a theorem is about their order, and concurrency
    is the interleaving of whole operations, as the code runs them under one lock.

    ** Plan

    The dispatch of [hv_emulate_rw_aligned] over the kinds of page-table entries. *)

From stdpp Require Export prelude list numbers.
From Stdlib Require Export ZArith.
From Stdlib Require Ascii String.
Export String.StringSyntax.
#[global] Set Default Goal Selector "!".
#[global] Open Scope Z_scope.

(** ** Machine words

    A C unsigned integer of [w] bits is a [Z] in [0, 2^w); [wrap w] is the
    conversion to that type (C11 6.3.1.3p2).  [truthy] is C's test of a
    scalar against zero and [cnot w] is [~] at width [w]. *)

Definition wrap (w z : Z) : Z := z mod 2 ^ w.
Definition in_w (w z : Z) : Prop := 0 <= z < 2 ^ w.
Definition truthy (z : Z) : bool := negb (z =? 0).
Definition cnot (w z : Z) : Z := wrap w (Z.lnot z).
Definition b2z (b : bool) : Z := if b then 1 else 0.

Abbreviation u8 := (wrap 8).
Abbreviation u16 := (wrap 16).
Abbreviation u32 := (wrap 32).
Abbreviation u64 := (wrap 64).
Abbreviation UINT64_MAX := 18446744073709551615 (only parsing).
Abbreviation UINT32_MAX := 4294967295 (only parsing).

Declare Scope word_scope.
Delimit Scope word_scope with word.
Infix ".&" := Z.land (at level 40, left associativity) : word_scope.
Infix ".|" := Z.lor (at level 50, left associativity) : word_scope.
Infix ".^" := Z.lxor (at level 45, left associativity) : word_scope.
Infix ".<<" := Z.shiftl (at level 39, left associativity) : word_scope.
Infix ".>>" := Z.shiftr (at level 39, left associativity) : word_scope.
#[global] Open Scope word_scope.

#[global] Arguments wrap : simpl never.
#[global] Arguments cnot : simpl never.
#[global] Arguments Z.testbit : simpl never.
#[global] Arguments Z.land : simpl never.
#[global] Arguments Z.lor : simpl never.
#[global] Arguments Z.shiftl : simpl never.
#[global] Arguments Z.shiftr : simpl never.
#[global] Arguments Z.pow : simpl never.
#[global] Arguments Z.of_nat : simpl never.
#[global] Arguments Z.to_nat : simpl never.

(** ** Byte buffers

    A buffer is a list of bytes, each a [Z].  [le_val] and [le_bytes] are the
    little-endian reading and writing of a value; [or_bytes f n] is the loop
    [for (i = 0; i < n; i++) v |= (uint64_t)f(i) << (8*i)]. *)

Fixpoint le_val (l : list Z) : Z :=
  match l with
  | [] => 0
  | b :: l' => b .| (le_val l' .<< 8)
  end.

Fixpoint le_bytes (n : nat) (v : Z) : list Z :=
  match n with
  | O => []
  | S n' => u8 v :: le_bytes n' (v .>> 8)
  end.

Fixpoint or_bytes (f : Z -> Z) (n : nat) : Z :=
  match n with
  | O => 0
  | S k => or_bytes f k .| (f (Z.of_nat k) .<< (8 * Z.of_nat k))
  end.

Definition bytes_ok (l : list Z) : Prop := Forall (in_w 8) l.

(** Buffers are indexed by [Z]: [byte_at l i] is [l[i]], [overwrite off bs l]
    stores the bytes [bs] at [l + off], [zeros n] is [n] zero bytes.  They are
    meant in bounds; every use is covered by a length precondition. *)
Definition zlen {A} (l : list A) : Z := Z.of_nat (length l).
Definition byte_at (l : list Z) (i : Z) : Z := nth (Z.to_nat i) l 0.
Definition zeros (n : Z) : list Z := replicate (Z.to_nat n) 0.
Definition ztake {A} (n : Z) (l : list A) : list A := take (Z.to_nat n) l.
Definition zdrop {A} (n : Z) (l : list A) : list A := drop (Z.to_nat n) l.
Definition overwrite (off : Z) (bs l : list Z) : list Z :=
  ztake off l ++ bs ++ zdrop (off + zlen bs) l.
(** The bytes of a string literal, without the terminating NUL. *)
Definition chars (s : String.string) : list Z :=
  map (fun a => Z.of_N (Ascii.N_of_ascii a)) (String.list_ascii_of_string s).

#[global] Arguments chars s%_string_scope.

(** [slice off n l] is the [n] bytes of [l] at [off]. *)
Definition slice (off n : nat) (l : list Z) : list Z := take n (drop off l).

(** ** Record update

    [r <| f := v |>] is the record [r] with field [f] set to [v]; a record
    type declares its constructor once through an [Eta] instance. *)

Class Eta (R : Type) := eta : R -> R.

Ltac setter f :=
  match type of f with
  | ?R -> ?T =>
      let e := eval hnf in (@eta R _) in
      match eval pattern f in e with
      | ?g _ =>
          let h := eval cbv beta in (fun (v : T) => g (fun _ => v)) in
          exact h
      end
  end.

Notation "r <| f := v |>" := ((ltac:(setter f)) v r)
  (at level 1, left associativity, f constr at level 11, v at level 200,
   only parsing).

(** ** Stateful code

    [M S A] is a C function over a store [S] with result [A].  [proc S R A]
    is a statement list inside a function with return type [R]: it either
    returns early with [inl r] or falls through with a local value [inr a].
    [body] closes a statement list into a function. *)

Definition M (S A : Type) : Type := S -> A * S.
Definition proc (S R A : Type) : Type := S -> (R + A) * S.

#[global] Instance M_ret S : MRet (M S) := fun A a s => (a, s).
#[global] Instance M_bind S : MBind (M S) :=
  fun A B f m s => let r := m s in f r.1 r.2.
#[global] Instance proc_ret S R : MRet (proc S R) := fun A a s => (inr a, s).
#[global] Instance proc_bind S R : MBind (proc S R) :=
  fun A B f m s =>
    let r := m s in
    match r.1 with
    | inl e => (inl e, r.2)
    | inr a => f a r.2
    end.

Definition gets {S A} (f : S -> A) : M S A := fun s => (f s, s).
Definition modify {S} (f : S -> S) : M S unit := fun s => (tt, f s).
Definition call {S R A} (m : M S A) : proc S R A :=
  fun s => let r := m s in (inr r.1, r.2).
Definition exit {S R A} (r : R) : proc S R A := fun s => (inl r, s).
Definition when {S R} (b : bool) (m : proc S R unit) : proc S R unit :=
  if b then m else mret tt.
Definition body {S R} (m : proc S R R) : M S R :=
  fun s => let r := m s in match r.1 with inl a | inr a => (a, r.2) end.

(** A program with globals [C] on an operating system with state [W]: system calls,
    reads and writes of the globals. *)
Definition os {C W A} (m : M W A) : M (C * W) A := fun s => let r := m s.2 in (r.1, (s.1, r.2)).
Definition get {C W A} (f : C -> A) : M (C * W) A := fun s => (f s.1, s).
Definition put {C W} (f : C -> C) : M (C * W) unit := fun s => (tt, (f s.1, s.2)).

(** ** Queue geometry

    What every queue policy of the project demands of a ring of [depth]
    entries of [stride] bytes at [base]: 2..256 entries, page aligned, not at
    zero and inside the 64-bit address space. *)
Definition queue_geometry (base depth stride : Z) : Prop :=
  2 <= depth <= 256 /\ base <> 0 /\ base .& 4095 = 0 /\
  base <= UINT64_MAX - depth * stride.

(** ** Lenses

    A component's operations act on any store that holds the component's
    structure: the enclosing object of a callback's [opaque] pointer contains
    the callee's own state, so callbacks and operations share one store. *)

Class Lens (S A : Type) := {
  lget : S -> A;
  lset : A -> S -> S;
  lget_lset a s : lget (lset a s) = a;
  lset_lget s : lset (lget s) s = s;
  lset_lset a b s : lset a (lset b s) = lset a s;
}.
#[global] Arguments lget {S A} {_} _ : simpl never.
#[global] Arguments lset {S A} {_} _ _ : simpl never.

Definition lgets {S A B} `{!Lens S A} (f : A -> B) : M S B :=
  fun s => (f (lget s), s).
Definition lmodify {S A} `{!Lens S A} (f : A -> A) : M S unit :=
  fun s => (tt, lset (f (lget s)) s).

Program Definition lens_fst {A B} : Lens (A * B) A :=
  {| lget := fst; lset a s := (a, s.2) |}.
Solve All Obligations with (intros; simplify_eq/=; by repeat case_match || auto using surjective_pairing).

Program Definition lens_comp {S A B} (l : Lens S A) (k : Lens A B) : Lens S B :=
  {| lget s := @lget _ _ k (@lget _ _ l s);
     lset b s := @lset _ _ l (@lset _ _ k b (@lget _ _ l s)) s |}.
Next Obligation. intros S A B l k b s. cbv beta. by rewrite (@lget_lset _ _ l), (@lget_lset _ _ k). Qed.
Next Obligation. intros S A B l k s. cbv beta. by rewrite (@lset_lget _ _ k), (@lset_lget _ _ l). Qed.
Next Obligation.
  intros S A B l k a b s. cbv beta.
  by rewrite (@lget_lset _ _ l), (@lset_lset _ _ l), (@lset_lset _ _ k).
Qed.

(** ** Weakest preconditions

    [mwp m Q s]: running [m] from [s] ends in a result and store related by
    [Q]; [wp] is the same for statement lists. *)

Definition mwp {S A} (m : M S A) (Q : A -> S -> Prop) (s : S) : Prop :=
  Q (m s).1 (m s).2.
Definition wp {S R A} (m : proc S R A) (Q : R + A -> S -> Prop) (s : S) : Prop :=
  Q (m s).1 (m s).2.

(** [keeps f m]: the function [m] leaves the observation [f] of the store
    unchanged. *)
Definition keeps {S A B} (f : S -> B) (m : M S A) : Prop :=
  forall s, f (m s).2 = f s.

(** ** Lemmas on machine words *)

Create HintDb words.
Create Rewrite HintDb lens.
Create Rewrite HintDb zbits.

Lemma wrap_range w z : 0 <= w -> in_w w (wrap w z).
Proof. intros. apply Z.mod_pos_bound, Z.pow_pos_nonneg; lia. Qed.

Lemma wrap_small w z : in_w w z -> wrap w z = z.
Proof. apply Z.mod_small. Qed.

Lemma wrap_wrap w z : wrap w (wrap w z) = wrap w z.
Proof. unfold wrap. apply Zmod_mod. Qed.

Lemma testbit_wrap w z i :
  0 <= w -> Z.testbit (wrap w z) i = (i <? w) && Z.testbit z i.
Proof.
  intros. unfold wrap. destruct (Z.ltb_spec i w).
  - by rewrite Z.mod_pow2_bits_low.
  - by rewrite Z.mod_pow2_bits_high.
Qed.

Lemma testbit_cnot w z i :
  0 <= w -> 0 <= i -> Z.testbit (cnot w z) i = (i <? w) && negb (Z.testbit z i).
Proof. intros. unfold cnot. by rewrite testbit_wrap, Z.lnot_spec. Qed.

Lemma testbit_ones_ltb n i :
  0 <= n -> 0 <= i -> Z.testbit (Z.ones n) i = (i <? n).
Proof.
  intros. destruct (Z.ltb_spec i n).
  - by rewrite Z.ones_spec_low by lia.
  - by rewrite Z.ones_spec_high by lia.
Qed.

Lemma testbit_pow2_eqb k i : 0 <= k -> Z.testbit (2 ^ k) i = (i =? k).
Proof.
  intros. rewrite Z.pow2_bits_eqb by lia. apply Z.eqb_sym.
Qed.

Lemma testbit_in_w w z i : in_w w z -> 0 <= w <= i -> Z.testbit z i = false.
Proof.
  intros Hz Hi. rewrite <- (wrap_small w z Hz), testbit_wrap by lia.
  by destruct (Z.ltb_spec i w); [lia |].
Qed.

Lemma in_w_testbit w z :
  0 <= w -> 0 <= z -> (forall i, w <= i -> Z.testbit z i = false) -> in_w w z.
Proof.
  intros Hw Hz H. assert (z = wrap w z) as ->; [| by apply wrap_range].
  apply Z.bits_inj'. intros i Hi. rewrite testbit_wrap by done.
  destruct (Z.ltb_spec i w); [done |]. by rewrite H.
Qed.

Lemma in_w_land w a b : 0 <= w -> in_w w a -> in_w w (a .& b).
Proof.
  intros Hw Ha. apply in_w_testbit; [done | apply Z.land_nonneg; left; apply Ha |].
  intros i Hi. by rewrite Z.land_spec, (testbit_in_w w a) by (done || lia).
Qed.

Lemma in_w_land_r w a b : 0 <= w -> in_w w b -> in_w w (a .& b).
Proof. rewrite Z.land_comm. apply in_w_land. Qed.

Lemma in_w_lor w a b : 0 <= w -> in_w w a -> in_w w b -> in_w w (a .| b).
Proof.
  intros Hw Ha Hb. apply in_w_testbit; [done | |].
  - apply Z.lor_nonneg. split; [apply Ha | apply Hb].
  - intros i Hi. by rewrite Z.lor_spec, (testbit_in_w w a), (testbit_in_w w b) by (done || lia).
Qed.

Lemma in_w_0 w : 0 <= w -> in_w w 0.
Proof. intros. split; [done |]. by apply Z.pow_pos_nonneg. Qed.

Lemma in_w_cnot w z : 0 <= w -> in_w w (cnot w z).
Proof. apply wrap_range. Qed.

Lemma in_w_mono v w z : v <= w -> in_w v z -> in_w w z.
Proof.
  intros Hv [H1 H2]. split; [done |].
  destruct (Z.lt_ge_cases v 0) as [Hn|Hn].
  - rewrite Z.pow_neg_r in H2 by done. lia.
  - pose proof (Z.pow_le_mono_r 2 v w). lia.
Qed.

Lemma in_w_shiftr w k z : 0 <= k -> 0 <= w -> in_w (w + k) z -> in_w w (z .>> k).
Proof.
  intros Hk Hw Hz. apply in_w_testbit; [done | apply Z.shiftr_nonneg, Hz |].
  intros i Hi. rewrite Z.shiftr_spec by lia. apply (testbit_in_w (w + k)); [done | lia].
Qed.

Lemma in_w_shiftl w k W z : 0 <= k -> w + k <= W -> in_w w z -> in_w W (z .<< k).
Proof.
  intros Hk HW Hz. destruct (Z.lt_ge_cases w 0) as [Hn|Hn].
  { unfold in_w in Hz. rewrite Z.pow_neg_r in Hz by done. lia. }
  apply in_w_testbit; [lia | apply Z.shiftl_nonneg, Hz |].
  intros i Hi. rewrite Z.shiftl_spec by lia. apply (testbit_in_w w); [done | lia].
Qed.

(** Or-ing a word shifted above [a] is adding it. *)
Lemma lor_shiftl_add k a b : 0 <= k -> in_w k a -> a .| (b .<< k) = a + 2 ^ k * b.
Proof.
  intros Hk Ha. rewrite <- Z.add_nocarry_lor.
  - rewrite Z.shiftl_mul_pow2 by done. lia.
  - apply Z.bits_inj'; intros i Hi. rewrite Z.land_spec, Z.shiftl_spec, Z.bits_0 by done.
    destruct (Z.lt_ge_cases i k).
    + by rewrite (Z.testbit_neg_r b), andb_false_r by lia.
    + by rewrite (testbit_in_w k a) by (done || lia).
Qed.

Lemma land_ones_mod k z : 0 <= k -> z .& (2 ^ k - 1) = z mod 2 ^ k.
Proof. intros. rewrite <- Z.land_ones, Z.ones_equiv by done. done. Qed.

(** Clearing the low bits rounds down. *)
Lemma land_cnot_mask k x : 0 <= k <= 64 -> in_w 64 x -> x .& cnot 64 (2 ^ k - 1) = x / 2 ^ k * 2 ^ k.
Proof.
  intros Hk Hx. rewrite <- Z.shiftl_mul_pow2, <- Z.shiftr_div_pow2 by lia. apply Z.bits_inj'. intros i Hi.
  replace (2 ^ k - 1) with (Z.ones k) by (rewrite Z.ones_equiv; lia).
  rewrite Z.land_spec, testbit_cnot, Z.shiftl_spec by lia. rewrite testbit_ones_ltb by lia.
  destruct (Z.ltb_spec i k).
  - rewrite (Z.testbit_neg_r _ (i - k)) by lia. cbn. by rewrite !andb_false_r.
  - rewrite Z.shiftr_spec by lia. replace (i - k + k) with i by lia. cbn [negb]. rewrite andb_true_r.
    destruct (Z.ltb_spec i 64); [by rewrite andb_true_r |]. by rewrite (testbit_in_w 64 x i) by (done || lia).
Qed.

Lemma byte_wrap w z i :
  0 <= i -> 8 * i + 8 <= w -> u8 (wrap w z .>> (8 * i)) = u8 (z .>> (8 * i)).
Proof.
  intros. apply Z.bits_inj'; intros j Hj.
  rewrite !testbit_wrap, !Z.shiftr_spec, testbit_wrap by lia.
  destruct (Z.ltb_spec j 8); [| done]. by destruct (Z.ltb_spec (j + 8 * i) w); [| lia].
Qed.

Lemma lor_halves v : wrap 32 v .| ((v .>> 32) .<< 32) = v.
Proof.
  apply Z.bits_inj'; intros j Hj. rewrite Z.lor_spec, testbit_wrap, Z.shiftl_spec by lia.
  destruct (Z.ltb_spec j 32).
  - rewrite (Z.testbit_neg_r _ (j - 32)) by lia. by rewrite orb_false_r.
  - rewrite Z.shiftr_spec by lia. simpl. f_equal. lia.
Qed.

Lemma truthy_spec z : truthy z = true <-> z <> 0.
Proof. unfold truthy. destruct (Z.eqb_spec z 0); naive_solver. Qed.

Lemma truthy_false z : truthy z = false <-> z = 0.
Proof. unfold truthy. destruct (Z.eqb_spec z 0); naive_solver. Qed.

(** [x & (1 << k)] tested for truth reads bit [k]. *)
Lemma truthy_bit k x : 0 <= k -> truthy (x .& 2 ^ k) = Z.testbit x k.
Proof.
  intros Hk. unfold truthy. destruct (Z.testbit x k) eqn:E.
  - assert (x .& 2 ^ k <> 0) as Hn; [| by destruct (Z.eqb_spec (x .& 2 ^ k) 0)].
    intros H0. apply (f_equal (fun z => Z.testbit z k)) in H0.
    by rewrite Z.land_spec, E, Z.pow2_bits_true, Z.bits_0 in H0.
  - assert (x .& 2 ^ k = 0) as ->; [| done].
    apply Z.bits_inj'. intros i Hi. rewrite Z.land_spec, testbit_pow2_eqb, Z.bits_0 by done.
    destruct (Z.eqb_spec i k) as [->|]; [by rewrite E | by rewrite andb_false_r].
Qed.

Lemma truthy_b2z b : truthy (b2z b) = b.
Proof. by destruct b. Qed.

Lemma shiftr_shiftr_byte v i j :
  0 <= j -> (v .>> i) .>> j = v .>> (i + j).
Proof. intros. by rewrite Z.shiftr_shiftr. Qed.

#[export] Hint Rewrite Z.land_spec Z.lor_spec Z.lxor_spec Z.ldiff_spec Z.bits_0 : zbits.
#[export] Hint Rewrite testbit_wrap testbit_cnot testbit_ones_ltb testbit_pow2_eqb
  Z.shiftl_spec Z.shiftr_spec Z.lnot_spec using lia : zbits.
#[export] Hint Rewrite andb_true_r andb_true_l andb_false_r andb_false_l
  orb_true_r orb_true_l orb_false_r orb_false_l : zbits.
#[export] Hint Extern 4 (_ <= _) => lia : words.
#[export] Hint Resolve wrap_range in_w_0 in_w_cnot in_w_land in_w_lor : words.

(** Linear arithmetic with constant divisions and remainders. *)
Ltac dlia := Z.div_mod_to_equations; lia.

(** Prove an equation of words bit by bit. *)
Ltac split_ltb :=
  repeat match goal with
  | |- context [?a <? ?b] =>
      first [ assert_succeeds (assert (a < b) by lia);
              replace (a <? b) with true by (symmetry; apply Z.ltb_lt; lia)
            | assert_succeeds (assert (b <= a) by lia);
              replace (a <? b) with false by (symmetry; apply Z.ltb_ge; lia)
            | destruct (Z.ltb_spec a b) ]
  | |- context [?a =? ?b] =>
      first [ assert_succeeds (assert (a <> b) by lia);
              replace (a =? b) with false by (symmetry; apply Z.eqb_neq; lia)
            | destruct (Z.eqb_spec a b) ]
  end.
Ltac bit_step i :=
  autorewrite with zbits; split_ltb; rewrite ?Z.testbit_neg_r by lia;
  repeat match goal with
  | |- context [Z.testbit ?x ?e] =>
      first [constr_eq e i; fail 1 | replace e with i by lia]
  end; autorewrite with zbits.
Ltac bitwise :=
  apply Z.bits_inj'; let i := fresh "i" in let Hi := fresh "Hi" in
  intros i Hi; repeat (progress bit_step i); try done; try (f_equal; lia).

(** ** Lemmas on byte buffers *)

Lemma length_le_bytes n v : length (le_bytes n v) = n.
Proof. revert v; induction n; intros v; simpl; auto. Qed.

Lemma le_bytes_ok n v : bytes_ok (le_bytes n v).
Proof.
  revert v; induction n; intros v; constructor; [by apply wrap_range | apply IHn].
Qed.

(** The value of a byte with the rest of a word above it. *)
Lemma testbit_low_byte b v i :
  in_w 8 b -> 0 <= i ->
  Z.testbit (b .| (v .<< 8)) i = if i <? 8 then Z.testbit b i else Z.testbit v (i - 8).
Proof.
  intros Hb Hi. rewrite Z.lor_spec, Z.shiftl_spec by done. destruct (Z.ltb_spec i 8).
  - by rewrite (Z.testbit_neg_r v) by lia; rewrite orb_false_r.
  - by rewrite (testbit_in_w 8 b) by (done || lia).
Qed.

Lemma le_bytes_app n m v :
  le_bytes (n + m) v = le_bytes n v ++ le_bytes m (v .>> (8 * Z.of_nat n)).
Proof.
  revert v. induction n as [|n IH]; intros v; cbn [le_bytes Nat.add app].
  - by rewrite Z.mul_0_r, Z.shiftr_0_r.
  - rewrite IH, Z.shiftr_shiftr by lia. do 3 f_equal. f_equal. lia.
Qed.

Lemma le_val_bytes n v : le_val (le_bytes n v) = wrap (8 * Z.of_nat n) v.
Proof.
  revert v; induction n as [|n IH]; intros v; cbn [le_val le_bytes].
  - unfold wrap. by rewrite Z.mod_1_r.
  - rewrite IH. apply Z.bits_inj'; intros i Hi.
    rewrite testbit_low_byte by (try apply wrap_range; lia).
    rewrite !testbit_wrap by lia.
    destruct (Z.ltb_spec i 8).
    + destruct (Z.ltb_spec i (8 * Z.of_nat (S n))); [done | lia].
    + rewrite Z.shiftr_spec by lia. replace (i - 8 + 8) with i by lia.
      destruct (Z.ltb_spec (i - 8) (8 * Z.of_nat n)), (Z.ltb_spec i (8 * Z.of_nat (S n)));
        (done || lia).
Qed.

Lemma le_val_range l : bytes_ok l -> in_w (8 * Z.of_nat (length l)) (le_val l).
Proof.
  induction 1 as [|b l Hb Hl IH]; cbn [le_val length]; [done |].
  apply in_w_testbit; [lia | |].
  - apply Z.lor_nonneg. split; [apply Hb | apply Z.shiftl_nonneg, IH].
  - intros i Hi. rewrite testbit_low_byte by (done || lia).
    destruct (Z.ltb_spec i 8); [lia |].
    rewrite (testbit_in_w _ _ _ IH); [done | lia].
Qed.

Lemma le_bytes_val l : bytes_ok l -> le_bytes (length l) (le_val l) = l.
Proof.
  induction 1 as [|b l Hb Hl IH]; cbn [le_val le_bytes length]; [done |].
  assert (u8 (b .| (le_val l .<< 8)) = b) as ->.
  { apply Z.bits_inj'; intros i Hi. rewrite testbit_wrap, testbit_low_byte by (done || lia).
    destruct (Z.ltb_spec i 8); [done |]. by rewrite (testbit_in_w 8 b) by (done || lia). }
  assert ((b .| (le_val l .<< 8)) .>> 8 = le_val l) as ->; [| by rewrite IH].
  apply Z.bits_inj'; intros i Hi. rewrite Z.shiftr_spec, testbit_low_byte by (done || lia).
  destruct (Z.ltb_spec (i + 8) 8); [lia |]. f_equal. lia.
Qed.

Lemma in_w_or_bytes f n :
  (forall i, 0 <= i < Z.of_nat n -> in_w 8 (f i)) -> in_w (8 * Z.of_nat n) (or_bytes f n).
Proof.
  induction n as [|n IH]; intros Hf; cbn [or_bytes]; [done |].
  apply in_w_lor; [lia | |].
  - eapply in_w_mono, IH; [lia |]. intros; apply Hf; lia.
  - assert (Hb : in_w 8 (f (Z.of_nat n))) by (apply Hf; lia).
    apply in_w_testbit; [lia | apply Z.shiftl_nonneg, Hb |].
    intros i Hi. rewrite Z.shiftl_spec by lia. apply (testbit_in_w 8); [done | lia].
Qed.

(** Assembling consecutive bytes of a value reads a slice of its bits. *)
Lemma or_bytes_slice f v k n :
  0 <= k ->
  (forall i, 0 <= i < Z.of_nat n -> f i = u8 (v .>> (8 * (k + i)))) ->
  or_bytes f n = wrap (8 * Z.of_nat n) (v .>> (8 * k)).
Proof.
  intros Hk. induction n as [|n IH]; intros Hf; cbn [or_bytes].
  { unfold wrap. by rewrite Z.mod_1_r. }
  rewrite IH by (intros; apply Hf; lia). rewrite Hf by lia.
  apply Z.bits_inj'; intros i Hi.
  rewrite Z.lor_spec, Z.shiftl_spec, !testbit_wrap, Z.shiftr_spec by lia.
  destruct (Z.lt_ge_cases i (8 * Z.of_nat n)) as [Hlt|Hge].
  - rewrite (Z.testbit_neg_r _ (i - _)) by lia.
    destruct (Z.ltb_spec i (8 * Z.of_nat n)), (Z.ltb_spec i (8 * Z.of_nat (S n)));
      try lia. autorewrite with zbits. by rewrite ?orb_false_r, ?andb_false_r.
  - destruct (Z.ltb_spec i (8 * Z.of_nat n)); [lia |]. rewrite Z.shiftr_spec by lia.
    replace (i - 8 * Z.of_nat n + 8 * (k + Z.of_nat n)) with (i + 8 * k) by lia.
    destruct (Z.ltb_spec (i - 8 * Z.of_nat n) 8), (Z.ltb_spec i (8 * Z.of_nat (S n)));
      (done || lia).
Qed.

Lemma or_bytes_ext f g n :
  (forall i, 0 <= i < Z.of_nat n -> f i = g i) -> or_bytes f n = or_bytes g n.
Proof.
  induction n as [|n IH]; intros H; cbn [or_bytes]; [done |].
  rewrite IH by (intros; apply H; lia). by rewrite H by lia.
Qed.

(** Assembling [n + m] bytes is assembling the low [n] and the high [m]. *)
Lemma or_bytes_split f n m :
  or_bytes f (n + m) =
  or_bytes f n .| (or_bytes (fun i => f (Z.of_nat n + i)) m .<< (8 * Z.of_nat n)).
Proof.
  induction m as [|m IH]; cbn [or_bytes].
  - by rewrite Nat.add_0_r, Z.shiftl_0_l, Z.lor_0_r.
  - rewrite Nat.add_succ_r. cbn [or_bytes]. rewrite IH, Z.shiftl_lor, Z.lor_assoc.
    rewrite Z.shiftl_shiftl by lia. do 2 f_equal; [f_equal |]; lia.
Qed.

Lemma or_bytes_value f v n :
  in_w (8 * Z.of_nat n) v ->
  (forall i, 0 <= i < Z.of_nat n -> f i = u8 (v .>> (8 * i))) -> or_bytes f n = v.
Proof.
  intros Hv Hf. rewrite (or_bytes_slice f v 0); [| lia | by intros; rewrite Hf].
  rewrite Z.mul_0_r, Z.shiftr_0_r. by apply wrap_small.
Qed.

(** *** Lengths and in-bounds writes *)

Lemma zlen_nonneg {A} (l : list A) : 0 <= zlen l.
Proof. unfold zlen. lia. Qed.

Lemma zlen_nil {A} : zlen (@nil A) = 0.
Proof. done. Qed.

Lemma zlen_cons {A} (x : A) l : zlen (x :: l) = 1 + zlen l.
Proof. unfold zlen. simpl. lia. Qed.

Lemma zlen_app {A} (l k : list A) : zlen (l ++ k) = zlen l + zlen k.
Proof. unfold zlen. rewrite length_app. lia. Qed.

Lemma zlen_zeros n : 0 <= n -> zlen (zeros n) = n.
Proof. intros. unfold zlen, zeros. rewrite length_replicate. lia. Qed.

Lemma zlen_le_bytes n v : zlen (le_bytes n v) = Z.of_nat n.
Proof. unfold zlen. by rewrite length_le_bytes. Qed.

Lemma zdrop_zdrop {A} m n (l : list A) :
  0 <= m -> 0 <= n -> zdrop m (zdrop n l) = zdrop (n + m) l.
Proof. intros. unfold zdrop. rewrite drop_drop. f_equal. lia. Qed.

Lemma zlen_zdrop {A} n (l : list A) : 0 <= n <= zlen l -> zlen (zdrop n l) = zlen l - n.
Proof. unfold zlen, zdrop. intros. rewrite length_drop. lia. Qed.

Lemma zlen_ztake {A} n (l : list A) : 0 <= n <= zlen l -> zlen (ztake n l) = n.
Proof. unfold zlen, ztake. intros. rewrite length_take. lia. Qed.

Lemma ztake_app {A} (l k : list A) n : n = zlen l -> ztake n (l ++ k) = l.
Proof. intros ->. unfold ztake, zlen. rewrite Nat2Z.id. apply take_app_length. Qed.

Lemma zdrop_app {A} (l k : list A) n : n = zlen l -> zdrop n (l ++ k) = k.
Proof. intros ->. unfold zdrop, zlen. rewrite Nat2Z.id. apply drop_app_length. Qed.

Lemma ztake_zdrop {A} n (l : list A) : ztake n l ++ zdrop n l = l.
Proof. apply take_drop. Qed.

Lemma zeros_app a b : 0 <= a -> 0 <= b -> zeros a ++ zeros b = zeros (a + b).
Proof. intros. unfold zeros. rewrite <- replicate_add. f_equal. lia. Qed.

Lemma zeros_0 : zeros 0 = [].
Proof. done. Qed.

Lemma zlen_overwrite off bs l :
  0 <= off -> off + zlen bs <= zlen l -> zlen (overwrite off bs l) = zlen l.
Proof.
  intros. pose proof (zlen_nonneg bs). unfold overwrite.
  rewrite !zlen_app, zlen_ztake, zlen_zdrop by lia. lia.
Qed.

Lemma overwrite_app a old b bs off :
  off = zlen a -> zlen old = zlen bs -> overwrite off bs (a ++ old ++ b) = a ++ bs ++ b.
Proof.
  intros -> Hl. unfold overwrite. rewrite ztake_app by done. do 2 f_equal.
  rewrite app_assoc. rewrite zdrop_app; [done |]. rewrite zlen_app. lia.
Qed.

(** A write past a prefix, and a write inside a block of zeros. *)
Lemma overwrite_skip a l bs off :
  zlen a <= off -> overwrite off bs (a ++ l) = a ++ overwrite (off - zlen a) bs l.
Proof.
  intros H. pose proof (zlen_nonneg bs). pose proof (zlen_nonneg a).
  unfold overwrite, ztake, zdrop. unfold zlen in *.
  rewrite take_app, drop_app, take_ge by lia. rewrite drop_ge by lia.
  rewrite <- app_assoc. simpl. do 2 f_equal; [f_equal; lia |]. do 2 f_equal. lia.
Qed.

Lemma overwrite_zeros n l bs off :
  0 <= off -> off + zlen bs <= n ->
  overwrite off bs (zeros n ++ l) = zeros off ++ bs ++ zeros (n - off - zlen bs) ++ l.
Proof.
  intros H1 H2. pose proof (zlen_nonneg bs).
  assert (zeros n = zeros off ++ zeros (zlen bs) ++ zeros (n - off - zlen bs)) as ->.
  { rewrite !zeros_app by lia. f_equal. lia. }
  rewrite <- !app_assoc. rewrite overwrite_app; [done | |]; by rewrite zlen_zeros by lia.
Qed.

Lemma bytes_ok_app l k : bytes_ok (l ++ k) <-> bytes_ok l /\ bytes_ok k.
Proof. apply Forall_app. Qed.

Lemma bytes_ok_cons x l : in_w 8 x -> bytes_ok l -> bytes_ok (x :: l).
Proof. by constructor. Qed.

Lemma bytes_ok_nil : bytes_ok [].
Proof. by constructor. Qed.

Lemma bytes_ok_zeros n : bytes_ok (zeros n).
Proof. apply Forall_replicate. by split. Qed.

Lemma bytes_ok_ztake n l : bytes_ok l -> bytes_ok (ztake n l).
Proof. apply Forall_take. Qed.

Lemma bytes_ok_zdrop n l : bytes_ok l -> bytes_ok (zdrop n l).
Proof. apply Forall_drop. Qed.

Lemma bytes_ok_overwrite off bs l :
  bytes_ok bs -> bytes_ok l -> bytes_ok (overwrite off bs l).
Proof.
  intros. unfold overwrite. rewrite !bytes_ok_app.
  auto using bytes_ok_ztake, bytes_ok_zdrop.
Qed.

Lemma byte_at_ok l i : bytes_ok l -> in_w 8 (byte_at l i).
Proof.
  intros H. unfold byte_at. destruct (nth_in_or_default (Z.to_nat i) l 0) as [Hin| ->].
  - unfold bytes_ok in H. rewrite Forall_forall in H. by apply H.
  - by split.
Qed.

Lemma byte_at_app_r a l i : 0 <= i -> byte_at (a ++ l) (zlen a + i) = byte_at l i.
Proof.
  intros. unfold byte_at, zlen. rewrite app_nth2 by lia. f_equal. lia.
Qed.

Lemma byte_at_app_l a l i : 0 <= i < zlen a -> byte_at (a ++ l) i = byte_at a i.
Proof. intros. unfold byte_at, zlen in *. by rewrite app_nth1 by lia. Qed.

Lemma byte_at_zeros n i : byte_at (zeros n) i = 0.
Proof. unfold byte_at, zeros. rewrite nth_lookup. destruct (_ !! _) as [x|] eqn:E; [| done].
  by apply lookup_replicate in E as [-> _]. Qed.

#[export] Hint Resolve le_bytes_ok bytes_ok_nil bytes_ok_cons bytes_ok_zeros bytes_ok_overwrite byte_at_ok
  bytes_ok_ztake bytes_ok_zdrop : words.
Create Rewrite HintDb lens_z.
#[export] Hint Rewrite @zlen_nil @zlen_cons @zlen_app zlen_le_bytes : lens_z.
#[export] Hint Rewrite zlen_zeros using lia : lens_z.
#[export] Hint Rewrite length_le_bytes : zbits.

(** ** Lemmas on stateful code *)

Section wp.
Context {S R : Type}.

Lemma wp_bind {A B} (m : proc S R A) (f : A -> proc S R B) Q s :
  wp m (fun r s' => match r with inl e => Q (inl e) s' | inr a => wp (f a) Q s' end) s ->
  wp (m ≫= f) Q s.
Proof. unfold wp, mbind, proc_bind. destruct (m s) as [[e|a] s']; auto. Qed.

Lemma wp_ret {A} (a : A) (Q : R + A -> S -> Prop) s : Q (inr a) s -> wp (mret a) Q s.
Proof. auto. Qed.

Lemma wp_exit {A} r (Q : R + A -> S -> Prop) s : Q (inl r) s -> wp (exit r) Q s.
Proof. auto. Qed.

Lemma wp_call {A} (m : M S A) (Q : R + A -> S -> Prop) s :
  mwp m (fun a s' => Q (inr a) s') s -> wp (call m) Q s.
Proof. auto. Qed.

Lemma wp_when b (m : proc S R unit) Q s :
  (b = true -> wp m Q s) -> (b = false -> Q (inr tt) s) -> wp (when b m) Q s.
Proof. intros H1 H2. destruct b; [by apply H1 | by apply H2]. Qed.

Lemma wp_mono {A} (m : proc S R A) (Q Q' : R + A -> S -> Prop) s :
  wp m Q s -> (forall r s', Q r s' -> Q' r s') -> wp m Q' s.
Proof. unfold wp; auto. Qed.

Lemma mwp_body (m : proc S R R) Q s :
  wp m (fun r s' => Q (match r with inl a | inr a => a end) s') s -> mwp (body m) Q s.
Proof. unfold wp, mwp, body. by destruct (m s) as [[a|a] s']. Qed.

Lemma mwp_bind {A B} (m : M S A) (f : A -> M S B) Q s :
  mwp m (fun a s' => mwp (f a) Q s') s -> mwp (m ≫= f) Q s.
Proof. auto. Qed.

Lemma mwp_ret {A} (a : A) (Q : A -> S -> Prop) s : Q a s -> mwp (mret a) Q s.
Proof. auto. Qed.

Lemma mwp_mono {A} (m : M S A) (Q Q' : A -> S -> Prop) s :
  mwp m Q s -> (forall a s', Q a s' -> Q' a s') -> mwp m Q' s.
Proof. unfold mwp; auto. Qed.

Lemma mwp_keeps {A B} (m : M S A) (f : S -> B) s :
  keeps f m -> mwp m (fun _ s' => f s' = f s) s.
Proof. intros H. apply H. Qed.
End wp.

(** [wp_step] runs one statement of a function; [wp_run] all of them, up to
    the calls of callbacks. *)
Lemma mwp_lgets {S A B} `{!Lens S A} (f : A -> B) (Q : B -> S -> Prop) s :
  Q (f (lget s)) s -> mwp (lgets f) Q s.
Proof. auto. Qed.

Lemma mwp_lmodify {S A} `{!Lens S A} (f : A -> A) (Q : unit -> S -> Prop) s :
  (forall s', s' = lset (f (lget s)) s -> lget s' = f (lget s) -> Q tt s') ->
  mwp (lmodify f) Q s.
Proof. intros H. apply H; [done | apply lget_lset]. Qed.

Lemma mwp_if {S A} (b : bool) (m1 m2 : M S A) Q s :
  (b = true -> mwp m1 Q s) -> (b = false -> mwp m2 Q s) -> mwp (if b then m1 else m2) Q s.
Proof. destruct b; auto. Qed.

Lemma wp_if {S R A} (b : bool) (m1 m2 : proc S R A) Q s :
  (b = true -> wp m1 Q s) -> (b = false -> wp m2 Q s) -> wp (if b then m1 else m2) Q s.
Proof. destruct b; auto. Qed.

Lemma mwp_cb {S A B} (f : S -> B) (m : M S A) (Q : A -> S -> Prop) s :
  keeps f m -> (forall a s', f s' = f s -> Q a s') -> mwp m Q s.
Proof. intros Hk HQ. apply HQ, Hk. Qed.

Lemma mwp_iff {S A} (m : M S A) Q s : mwp m Q s <-> Q (m s).1 (m s).2.
Proof. done. Qed.

Lemma wp_iff {S R A} (m : proc S R A) Q s : wp m Q s <-> Q (m s).1 (m s).2.
Proof. done. Qed.

Lemma mwp_os {C W A} (m : M W A) (Q : A -> C * W -> Prop) c w : Q (m w).1 (c, (m w).2) -> mwp (os m) Q (c, w).
Proof. by rewrite mwp_iff. Qed.
Lemma mwp_get {C W A} (f : C -> A) (Q : A -> C * W -> Prop) c w : Q (f c) (c, w) -> mwp (get f) Q (c, w).
Proof. by rewrite mwp_iff. Qed.
Lemma mwp_put {C W} (f : C -> C) (Q : unit -> C * W -> Prop) c w : Q tt (f c, w) -> mwp (put f) Q (c, w).
Proof. by rewrite mwp_iff. Qed.

Lemma keeps_mwp {S A B} (f : S -> B) (m : M S A) :
  (forall s, mwp m (fun _ s' => f s' = f s) s) -> keeps f m.
Proof. intros H s. apply (H s). Qed.

(** Frame conditions of composed functions. *)
Create HintDb keeps.
Lemma keeps_ret {S A B} (f : S -> B) (a : A) : keeps f (mret (M := M S) a).
Proof. done. Qed.
Lemma keeps_bind {S A B C} (f : S -> C) (m : M S A) (k : A -> M S B) :
  keeps f m -> (forall a, keeps f (k a)) -> keeps f (m ≫= k).
Proof. intros Hm Hk s. unfold mbind, M_bind. cbv zeta. by rewrite Hk, Hm. Qed.
Lemma keeps_lgets {S T A B} `{!Lens S T} (f : S -> B) (g : T -> A) : keeps f (lgets g).
Proof. done. Qed.
#[export] Hint Resolve keeps_ret keeps_lgets : keeps.
Ltac keeps_step :=
  match goal with
  | |- keeps _ (mbind _ _) => apply keeps_bind; [| intros ?]
  | |- keeps _ (if ?b then _ else _) => destruct b
  | |- keeps _ (match ?x with _ => _ end) => destruct x
  | |- keeps _ _ => solve [eauto with keeps]
  end.
Ltac keeps_run := repeat keeps_step.

Lemma mwp_cb2 {S A B C} (f : S -> B) (g : S -> C) (m : M S A) (Q : A -> S -> Prop) s :
  keeps f m -> keeps g m -> (forall a s', f s' = f s -> g s' = g s -> Q a s') -> mwp m Q s.
Proof. intros Hf Hg HQ. apply HQ; auto. Qed.

Lemma truthy_bit0 x : truthy (x .& 1) = Z.testbit x 0.
Proof. apply (truthy_bit 0). lia. Qed.

#[export] Hint Rewrite @lget_lset : lens.
Ltac wp_step :=
  lazymatch goal with
  | |- wp (mbind _ _) _ _ => apply wp_bind
  | |- mwp (mbind _ _) _ _ => apply mwp_bind
  | |- mwp (body _) _ _ => apply mwp_body
  | |- wp (mret _) _ _ => apply wp_ret
  | |- mwp (mret _) _ _ => apply mwp_ret
  | |- wp (exit _) _ _ => apply wp_exit
  | |- wp (call _) _ _ => apply wp_call
  | |- mwp (lgets _) _ _ => apply mwp_lgets
  | |- mwp (lmodify _) _ _ => 
      apply mwp_lmodify;
      let s' := fresh "s'" in let Hs := fresh "Hs" in let Hl := fresh "Hl" in
      intros s' Hs Hl; cbn in Hl
  | |- wp (when _ _) _ _ => apply wp_when; intros ?
  | |- mwp (match ?b with true => _ | false => _ end) _ _ => apply mwp_if; intros ?
  | |- wp (match ?b with true => _ | false => _ end) _ _ => apply wp_if; intros ?
  end.
Ltac bool_hyps :=
  repeat match goal with
  | H : negb _ = true |- _ => apply negb_true_iff in H
  | H : negb _ = false |- _ => apply negb_false_iff in H
  | H : _ && _ = true |- _ => apply andb_true_iff in H as [? ?]
  | H : _ || _ = false |- _ => apply orb_false_iff in H as [? ?]
  end.
Lemma geometry_base base depth stride :
  queue_geometry base depth stride -> 0 <= base -> 0 <= stride -> in_w 64 base.
Proof.
  intros (Hd & _ & _ & Hm) Hb Hs. split; [done |].
  change (2 ^ 64) with 18446744073709551616. nia.
Qed.

(** Turn boolean tests in hypotheses into propositions. *)
Ltac bool_props :=
  bool_hyps;
  repeat match goal with
  | H : (_ <? _) = true |- _ => apply Z.ltb_lt in H
  | H : (_ <? _) = false |- _ => apply Z.ltb_ge in H
  | H : (_ <=? _) = true |- _ => apply Z.leb_le in H
  | H : (_ <=? _) = false |- _ => apply Z.leb_gt in H
  | H : (_ =? _) = true |- _ => apply Z.eqb_eq in H
  | H : (_ =? _) = false |- _ => apply Z.eqb_neq in H
  | H : truthy _ = true |- _ => apply truthy_spec in H
  | H : truthy _ = false |- _ => apply truthy_false in H
  end.
Ltac lrw :=
  repeat match goal with
  | H : lget ?s = _ |- context [lget ?s] => rewrite H
  end; cbn.
Ltac lrw_in G :=
  repeat match goal with
  | H : lget ?s = _ |- _ => rewrite H in G
  end; cbn in G.
Ltac wp_run := repeat wp_step.
(** As [wp_run], stopping before every update of the store. *)
Ltac wp_go := repeat (lazymatch goal with |- mwp (lmodify _) _ _ => fail | _ => wp_step end).


(** Run a statement list over the globals and the system. *)
Ltac cl_step :=
  lazymatch goal with
  | |- mwp (get _) _ (_, _) => apply mwp_get
  | |- mwp (put _) _ (_, _) => apply mwp_put
  | |- _ => wp_step
  end.
Ltac cl_go := repeat cl_step; cbn [fst snd].

#[global] Opaque mwp wp.
