(* ===== verification/NvmeControl.v ===== *)
(** * The NVMe PCI/control register model ([native-s209/model.c], [model.h])

    [nwoas_control] is [struct nwoas_control] without its callback table; the
    table [nwoas_callbacks] is a parameter of the operations, since every
    callback runs on the store that encloses the structure.  NULL callbacks
    are [None].  Register and configuration reads are pure; writes, reset and
    the pending update are functions of the store.  The invariant and the
    interrupt-line theorem are stated for any interleaving of operations. *)

From S2P Require Import Prelude.

Inductive nwoas_access :=
| NWOAS_HANDLED
| NWOAS_NOT_HANDLED
| NWOAS_INVALID.

Record nwoas_callbacks (S : Type) := {
  cb_contains : option (Z -> Z -> M S bool);
  cb_setup : option (Z -> Z -> Z -> Z -> M S bool);
  cb_reset : option (M S unit);
  cb_flush : option (M S bool);
  cb_irq : option (bool -> M S unit);
}.
#[global] Arguments cb_contains {S} _.
#[global] Arguments cb_setup {S} _.
#[global] Arguments cb_reset {S} _.
#[global] Arguments cb_flush {S} _.
#[global] Arguments cb_irq {S} _.

Record nwoas_control := mk_control {
  bar : Z;
  asq : Z;
  acq : Z;
  cc : Z;
  csts : Z;
  aqa : Z;
  mask : Z;
  command : Z;
  probe_low : bool;
  probe_high : bool;
  pending : bool;
}.
#[export] Instance control_eta : Eta nwoas_control := fun c =>
  mk_control (bar c) (asq c) (acq c) (cc c) (csts c) (aqa c) (mask c) (command c)
    (probe_low c) (probe_high c) (pending c).

(** ** Byte and width helpers *)

Definition width_ok (w : Z) : bool :=
  (w =? 8) || (w =? 16) || (w =? 32) || (w =? 64).

Definition width_mask (w : Z) : Z :=
  if w =? 64 then UINT64_MAX else (1 .<< w) - 1.

Definition fits (off w size : Z) : bool :=
  width_ok w && (off <=? size) && (w / 8 <=? size - off).

Definition byte_of (v byte : Z) : Z := u8 (v .>> (8 * byte)).

(** ** Reads *)

Definition pci_byte (c : nwoas_control) (o : Z) : Z :=
  if o <? 4 then byte_of 0x00101234 o
  else if o <? 6 then byte_of (command c) (o - 4)
  else if o <? 8 then byte_of (if pending c then 8 else 0) (o - 6)
  else if o <? 12 then byte_of 0x01080201 (o - 8)
  else if (0x10 <=? o) && (o <? 0x14) then
    byte_of (if probe_low c then 0xffffc004 else (bar c .& UINT32_MAX) .| 4) (o - 0x10)
  else if (0x14 <=? o) && (o <? 0x18) then
    byte_of (if probe_high c then UINT32_MAX else bar c .>> 32) (o - 0x14)
  else if (0x2c <=? o) && (o <? 0x30) then byte_of 0x00101234 (o - 0x2c)
  else if o =? 0x3d then 1 else 0.

(** The out-pointer [v] is the pointee before the call, [None] for NULL; the
    result carries the pointee after it. *)
Definition nwoas_pci_read (c : nwoas_control) (o w : Z) (v : option Z) :
    nwoas_access * option Z :=
  match v with
  | None => (NWOAS_INVALID, None)
  | Some v0 =>
      if negb (width_ok w) then (NWOAS_INVALID, Some v0)
      else if negb (fits o w 4096) then (NWOAS_INVALID, Some (width_mask w))
      else (NWOAS_HANDLED,
            Some (or_bytes (fun i => pci_byte c (o + i)) (Z.to_nat (w / 8))))
  end.

Definition reg_byte (c : nwoas_control) (o : Z) : Z :=
  if o <? 8 then byte_of (255 .| (1 .<< 16) .| (20 .<< 24) .| (1 .<< 37)) o
  else if o <? 12 then byte_of 0x10300 (o - 8)
  else if o <? 16 then byte_of (mask c) (o - 12)
  else if o <? 20 then byte_of (mask c) (o - 16)
  else if o <? 24 then byte_of (cc c) (o - 20)
  else if (0x1c <=? o) && (o <? 0x20) then byte_of (csts c) (o - 0x1c)
  else if (0x24 <=? o) && (o <? 0x28) then byte_of (aqa c) (o - 0x24)
  else if (0x28 <=? o) && (o <? 0x30) then byte_of (asq c) (o - 0x28)
  else if (0x30 <=? o) && (o <? 0x38) then byte_of (acq c) (o - 0x30)
  else 0.

Definition nwoas_reg_read (c : nwoas_control) (o w : Z) (v : option Z) :
    nwoas_access * option Z :=
  match v with
  | None => (NWOAS_INVALID, None)
  | Some _ =>
      if negb (fits o w 0x4000) then (NWOAS_INVALID, Some 0)
      else (NWOAS_HANDLED,
            Some (or_bytes (fun i => reg_byte c (o + i)) (Z.to_nat (w / 8))))
  end.

(** The command-register byte merge of [nwoas_pci_write], over the byte
    indices [i .. w/8 - 1]. *)
Definition command_merge (o v : Z) (i : Z) (cmd : Z) : Z :=
  if (4 <=? o + i) && (o + i <? 6) then
    let shift := 8 * (o + i - 4) in
    u16 ((cmd .& cnot 32 (0xff .<< shift)) .| (byte_of v i .<< shift))
  else cmd.

Definition command_merge_all (o w v cmd : Z) : Z :=
  foldl (fun acc i => command_merge o v i acc) cmd (seqZ 0 (w / 8)).

(** ** State-changing operations *)

Section control.
Context {S : Type} `{!Lens S nwoas_control} (cb : nwoas_callbacks S).

Definition irq_level (c : nwoas_control) : bool :=
  pending c && negb (truthy (mask c .& 1)) && negb (truthy (command c .& 0x400)).

Definition irq_update : M S unit :=
  match cb_irq cb with
  | None => mret tt
  | Some irq => c ← lgets id; irq (irq_level c)
  end.

Definition queues_reset : M S unit :=
  lmodify (fun c => c <| pending := false |>);;
  match cb_reset cb with
  | None => mret tt
  | Some reset => reset
  end.

Definition nwoas_control_reset : M S unit :=
  lmodify (fun c =>
    {| bar := bar c; asq := 0; acq := 0; cc := 0; csts := 0; aqa := 0; mask := 0;
       command := command c; probe_low := probe_low c; probe_high := probe_high c;
       pending := pending c |});;
  queues_reset;;
  irq_update.

Definition nwoas_control_init (bar0 : Z) : M S unit :=
  lmodify (fun c =>
    {| bar := bar0; asq := asq c; acq := acq c; cc := cc c; csts := csts c; aqa := aqa c;
       mask := mask c; command := 0; probe_low := false; probe_high := false;
       pending := pending c |});;
  nwoas_control_reset.

Definition nwoas_control_pending (p : bool) : M S unit :=
  lmodify (fun c => c <| pending := p |>);;
  irq_update.

Definition nwoas_pci_write (o w v0 : Z) : M S nwoas_access :=
  if negb (fits o w 4096) then mret NWOAS_INVALID
  else
    let v := v0 .& width_mask w in
    (if (o <=? 4) && (4 - o <? w / 8) then
       lmodify (fun c =>
         c <| command := command_merge_all o w v (command c) .& 0x407 |>);;
       irq_update
     else if (w =? 32) && ((o =? 0x10) || (o =? 0x14)) then
       (if o =? 0x10 then lmodify (fun c => c <| probe_low := v =? UINT32_MAX |>)
        else lmodify (fun c => c <| probe_high := v =? UINT32_MAX |>))
     else mret tt);;
    mret NWOAS_HANDLED.

Definition fatal : M S unit :=
  lmodify (fun c => c <| csts := csts c .| 2 |>);;
  match cb_irq cb with
  | None => mret tt
  | Some irq => irq false
  end.

Definition queue_valid (base depth stride : Z) : M S bool :=
  let bytes := u32 (depth * stride) in
  if (2 <=? depth) && (depth <=? 256) && truthy base && negb (truthy (base .& 4095))
     && (base <=? UINT64_MAX - bytes) then
    match cb_contains cb with
    | None => mret false
    | Some contains => contains base bytes
    end
  else mret false.

(** The admin queue depths encoded in AQA. *)
Definition aqa_sq (a : Z) : Z := u16 ((a .& 0xfff) + 1).
Definition aqa_cq (a : Z) : Z := u16 (((a .>> 16) .& 0xfff) + 1).

(** CC.CSS, CC.MPS, CC.IOSQES and CC.IOCQES as the only supported values. *)
Definition cc_supported (v : Z) : bool :=
  negb (truthy ((v .>> 7) .& 15)) && negb (truthy ((v .>> 4) .& 7)) &&
  ((v .>> 16) .& 15 =? 6) && ((v .>> 20) .& 15 =? 4).

(** The negated disjunction of the enable check, with C's evaluation order. *)
Definition enable_ok (v : Z) : M S bool :=
  c ← lgets id;
  let sq := aqa_sq (aqa c) in
  let cq := aqa_cq (aqa c) in
  if negb (cc_supported v) then mret false
  else
    sq_ok ← queue_valid (asq c) sq 64;
    if negb sq_ok then mret false
    else
      c1 ← lgets id;
      cq_ok ← queue_valid (acq c1) cq 16;
      if negb cq_ok then mret false
      else
        match cb_setup cb with
        | None => mret false
        | Some setup => c2 ← lgets id; setup (asq c2) sq (acq c2) cq
        end.

Definition flush_cb : M S bool :=
  match cb_flush cb with
  | None => mret false
  | Some flush => flush
  end.

(** The shutdown-notification part of the [o == 0x14] branch. *)
Definition write_cc_shutdown (v : Z) : proc S nwoas_access unit :=
  c ← call (lgets id);
  if truthy ((v .>> 14) .& 3) && negb (truthy (csts c .& 2)) && negb (csts c .& 12 =? 8) then
    call (lmodify (fun c => c <| csts := (csts c .& cnot 32 12) .| 4 |>));;
    ok ← call flush_cb;
    if negb ok then call fatal;; exit NWOAS_HANDLED
    else call (lmodify (fun c => c <| csts := (csts c .& cnot 32 12) .| 8 |>))
  else mret tt.

(** The [o == 0x14] branch: CC write, enable/disable and shutdown. *)
Definition write_cc (v : Z) : proc S nwoas_access unit :=
  old ← call (lgets cc);
  call (lmodify (fun c => c <| cc := u32 v |>));;
  (if negb (truthy (v .& 1)) then
     call queues_reset;;
     call (lmodify (fun c => c <| csts := 0 |>));;
     call irq_update
   else if negb (truthy (old .& 1)) then
     ok ← call (enable_ok v);
     if negb ok then call fatal;; exit NWOAS_HANDLED
     else call (lmodify (fun c => c <| csts := 1 |>))
   else mret tt);;
  write_cc_shutdown v.

(** Storing to one of the queue base registers at offset [o]. *)
Definition merge_base (o w v base : Z) : Z :=
  if w =? 64 then v
  else
    let shift := if truthy (o .& 4) then 32 else 0 in
    (base .& cnot 64 (0xffffffff .<< shift)) .| u64 (v .<< shift).

Definition write_base (o w v : Z) : M S unit :=
  if o <? 0x30 then lmodify (fun c => c <| asq := merge_base o w v (asq c) |>)
  else lmodify (fun c => c <| acq := merge_base o w v (acq c) |>).

Definition nwoas_reg_write (o w v0 : Z) : M S nwoas_access := body (
  when (negb (fits o w 0x4000) || (negb (w =? 32) && negb (w =? 64)) || truthy (o .& 3))
    (exit NWOAS_INVALID);;
  when (0x1000 <=? o) (exit NWOAS_NOT_HANDLED);;
  when ((w =? 64) && negb (o =? 0x28) && negb (o =? 0x30) && truthy (v0 .>> 32))
    (exit NWOAS_INVALID);;
  when ((w =? 64) && ((o =? 0x2c) || (o =? 0x34))) (exit NWOAS_INVALID);;
  let v := v0 .& width_mask w in
  en ← call (lgets (fun c => truthy (cc c .& 1)));
  (if o =? 0xc then
     call (lmodify (fun c => c <| mask := mask c .| u32 v |>));; call irq_update
   else if o =? 0x10 then
     call (lmodify (fun c => c <| mask := mask c .& cnot 32 v |>));; call irq_update
   else if o =? 0x14 then write_cc v
   else if (o =? 0x24) && negb en then call (lmodify (fun c => c <| aqa := u32 v |>))
   else if ((o =? 0x28) || (o =? 0x2c) || (o =? 0x30) || (o =? 0x34)) && negb en then
     call (write_base o w v)
   else mret tt);;
  mret NWOAS_HANDLED).
End control.

(** ** Specification vocabulary *)

Definition csts_ok (v : Z) : bool :=
  existsb (Z.eqb v) [0; 1; 2; 3; 6; 7; 8; 9; 10; 11].

(** CSTS never reads as shutting down unless the controller has failed, and
    RDY is only set while CC.EN is and the admin queues are valid. *)
Record control_inv (c : nwoas_control) : Prop := {
  inv_cc : in_w 32 (cc c);
  inv_aqa : in_w 32 (aqa c);
  inv_mask : in_w 32 (mask c);
  inv_asq : in_w 64 (asq c);
  inv_acq : in_w 64 (acq c);
  inv_command : in_w 16 (command c) /\ command c .& 0x407 = command c;
  inv_csts : csts_ok (csts c) = true;
  inv_rdy : Z.testbit (csts c) 0 = true ->
    Z.testbit (cc c) 0 = true /\
    queue_geometry (asq c) (aqa_sq (aqa c)) 64 /\
    queue_geometry (acq c) (aqa_cq (aqa c)) 16;
}.

(** What the callbacks promise: they do not write the structure. *)
Class ControlEnv {S} `{!Lens S nwoas_control} (cb : nwoas_callbacks S) : Prop := {
  env_contains f b n : cb_contains cb = Some f -> keeps lget (f b n);
  env_setup f a n b m : cb_setup cb = Some f -> keeps lget (f a n b m);
  env_reset f : cb_reset cb = Some f -> keeps lget f;
  env_flush f : cb_flush cb = Some f -> keeps lget f;
  env_irq f b : cb_irq cb = Some f -> keeps lget (f b);
}.

(** The operations an owner may interleave. *)
Inductive control_op :=
| OpReset
| OpPending (p : bool)
| OpPciWrite (o w v : Z)
| OpRegWrite (o w v : Z).

Definition run_op {S} `{!Lens S nwoas_control} (cb : nwoas_callbacks S)
    (op : control_op) : M S unit :=
  match op with
  | OpReset => nwoas_control_reset cb
  | OpPending p => nwoas_control_pending cb p
  | OpPciWrite o w v => nwoas_pci_write cb o w v;; mret tt
  | OpRegWrite o w v => nwoas_reg_write cb o w v;; mret tt
  end.

(** Stores reachable from an initialisation by operations and by steps of
    the rest of the store. *)
Inductive control_reach {S} `{!Lens S nwoas_control} (cb : nwoas_callbacks S) (bar0 : Z) :
    S -> Prop :=
| reach_init s : control_reach cb bar0 (nwoas_control_init cb bar0 s).2
| reach_op s op : control_reach cb bar0 s -> control_reach cb bar0 (run_op cb op s).2
| reach_other s s' : control_reach cb bar0 s -> lget s' = lget s -> control_reach cb bar0 s'.

(** The interrupt line as the rest of the store sees it: [level] reads it,
    the IRQ callback sets it and nothing else does. *)
Class ControlIrq {S} `{!Lens S nwoas_control} (cb : nwoas_callbacks S)
    (level : S -> bool) : Prop := {
  irq_present : is_Some (cb_irq cb);
  irq_sets f b s : cb_irq cb = Some f -> level (f b s).2 = b;
  irq_lset c s : level (lset c s) = level s;
  irq_contains f b n : cb_contains cb = Some f -> keeps level (f b n);
  irq_setup f a n b m : cb_setup cb = Some f -> keeps level (f a n b m);
  irq_reset f : cb_reset cb = Some f -> keeps level f;
  irq_flush f : cb_flush cb = Some f -> keeps level f;
}.

(** The line carries the pending, unmasked and enabled interrupt, except that
    a failed and enabled controller may hold it low. *)
Definition irq_sync {S} `{!Lens S nwoas_control} (level : S -> bool) (s : S) : Prop :=
  let c : nwoas_control := lget s in
  level s = irq_level c \/
  (Z.testbit (csts c) 1 = true /\ Z.testbit (cc c) 0 = true /\ level s = false).

(** The register file as 32-bit registers: what each aligned offset means. *)
Definition reg_dword (c : nwoas_control) (o : Z) : Z :=
  if o =? 0x00 then 0x140100ff
  else if o =? 0x04 then 0x20
  else if o =? 0x08 then 0x10300
  else if (o =? 0x0c) || (o =? 0x10) then mask c
  else if o =? 0x14 then cc c
  else if o =? 0x1c then csts c
  else if o =? 0x24 then aqa c
  else if o =? 0x28 then u32 (asq c)
  else if o =? 0x2c then asq c .>> 32
  else if o =? 0x30 then u32 (acq c)
  else if o =? 0x34 then acq c .>> 32
  else 0.

(** The configuration space as 32-bit registers. *)
Definition pci_dword (c : nwoas_control) (o : Z) : Z :=
  if (o =? 0x00) || (o =? 0x2c) then 0x00101234
  else if o =? 0x04 then command c .| ((if pending c then 8 else 0) .<< 16)
  else if o =? 0x08 then 0x01080201
  else if o =? 0x10 then
    if probe_low c then 0xffffc004 else u32 (bar c) .| 4
  else if o =? 0x14 then
    if probe_high c then 0xffffffff else bar c .>> 32
  else if o =? 0x3c then 0x100
  else 0.

(** ** Word lemmas *)

Lemma width_ok_cases w : width_ok w = true -> w = 8 \/ w = 16 \/ w = 32 \/ w = 64.
Proof. unfold width_ok. intros H. rewrite !orb_true_iff, !Z.eqb_eq in H. tauto. Qed.

Lemma width_mask_ones w : width_ok w = true -> width_mask w = Z.ones w.
Proof. intros H. destruct (width_ok_cases w H) as [->|[->|[->| ->]]]; reflexivity. Qed.

Lemma land_width_mask w v : width_ok w = true -> v .& width_mask w = wrap w v.
Proof.
  intros H. rewrite width_mask_ones by done. apply Z.land_ones.
  destruct (width_ok_cases w H) as [->|[->|[->| ->]]]; lia.
Qed.

Lemma width_ok_in_w64 w v : width_ok w = true -> in_w 64 (v .& width_mask w).
Proof.
  intros H. rewrite land_width_mask by done.
  apply (in_w_mono w); [| apply wrap_range];
    destruct (width_ok_cases w H) as [->|[->|[->| ->]]]; lia.
Qed.

Lemma fits_width off w size : fits off w size = true -> width_ok w = true.
Proof. unfold fits. rewrite !andb_true_iff. tauto. Qed.

Lemma in_w_merge_base o w v base :
  in_w 64 v -> in_w 64 base -> in_w 64 (merge_base o w v base).
Proof.
  intros Hv Hb. unfold merge_base. destruct (w =? 64); [done |].
  apply in_w_lor; [done | by apply in_w_land | by apply wrap_range].
Qed.

Lemma command_merge_all_mask o w v cmd :
  in_w 16 (command_merge_all o w v cmd .& 0x407) /\
  (command_merge_all o w v cmd .& 0x407) .& 0x407 = command_merge_all o w v cmd .& 0x407.
Proof.
  set (x := command_merge_all o w v cmd). split.
  - rewrite Z.land_comm. by apply in_w_land.
  - rewrite <- Z.land_assoc. by rewrite Z.land_diag.
Qed.

Lemma csts_ok_cases v : csts_ok v = true ->
  v = 0 \/ v = 1 \/ v = 2 \/ v = 3 \/ v = 6 \/ v = 7 \/ v = 8 \/ v = 9 \/ v = 10 \/ v = 11.
Proof.
  unfold csts_ok. cbn [existsb]. rewrite !orb_true_iff, !Z.eqb_eq. intuition discriminate.
Qed.

Ltac csts_cases H :=
  apply csts_ok_cases in H; repeat (destruct H as [H|H]); rewrite ?H in *; clear H.

Lemma csts_fatal_ok v : csts_ok v = true -> csts_ok (v .| 2) = true.
Proof. intros H. csts_cases H; reflexivity. Qed.

Lemma csts_shutdown_ok v : csts_ok v = true ->
  csts_ok ((((v .& cnot 32 12) .| 4) .& cnot 32 12) .| 8) = true /\
  csts_ok (((v .& cnot 32 12) .| 4) .| 2) = true.
Proof. intros H. csts_cases H; split; reflexivity. Qed.

Lemma csts_shutdown_rdy v : csts_ok v = true ->
  Z.testbit ((((v .& cnot 32 12) .| 4) .& cnot 32 12) .| 8) 0 = Z.testbit v 0 /\
  Z.testbit (((v .& cnot 32 12) .| 4) .| 2) 0 = Z.testbit v 0 /\
  Z.testbit (v .| 2) 0 = Z.testbit v 0.
Proof. intros H. csts_cases H; repeat split; reflexivity. Qed.

Lemma csts_shutdown_cfs v : csts_ok v = true ->
  Z.testbit ((((v .& cnot 32 12) .| 4) .& cnot 32 12) .| 8) 1 = Z.testbit v 1 /\
  Z.testbit (((v .& cnot 32 12) .| 4) .| 2) 1 = true.
Proof. intros H. csts_cases H; split; reflexivity. Qed.

(** ** Helper specifications *)

Section control_spec.
Context {S : Type} `{!Lens S nwoas_control} (cb : nwoas_callbacks S) `{!ControlEnv cb}.

Local Abbreviation ctl s := (lget (A := nwoas_control) s).
Local Abbreviation CTL := (lget (A := nwoas_control)).

Lemma irq_update_keeps : keeps CTL (irq_update cb).
Proof.
  intros s. unfold irq_update. destruct (cb_irq cb) as [irq|] eqn:E; [| done].
  by apply (env_irq irq (irq_level (ctl s))).
Qed.

Lemma flush_keeps :
  keeps CTL (flush_cb cb).
Proof. intros s. unfold flush_cb. destruct (cb_flush cb) as [f|] eqn:E; [by apply env_flush | done]. Qed.

Lemma fatal_spec (s : S) :
  mwp (fatal cb) (fun _ s' => ctl s' = (ctl s) <| csts := csts (ctl s) .| 2 |>) s.
Proof.
  unfold fatal. wp_run. destruct (cb_irq cb) as [irq|] eqn:E.
  - eapply mwp_cb; [by apply env_irq |]. intros [] s1 E1. by lrw.
  - wp_run. by lrw.
Qed.

Lemma queues_reset_spec (s : S) :
  mwp (queues_reset cb) (fun _ s' => ctl s' = (ctl s) <| pending := false |>) s.
Proof.
  unfold queues_reset. wp_run. destruct (cb_reset cb) as [f|] eqn:E.
  - eapply mwp_cb; [by apply env_reset |]. intros [] s1 E1. by lrw.
  - wp_run. by lrw.
Qed.

Lemma queue_valid_spec base depth stride (s : S) :
  0 <= stride <= 64 ->
  mwp (queue_valid cb base depth stride) (fun ok s' =>
    ctl s' = ctl s /\ (ok = true -> queue_geometry base depth stride)) s.
Proof.
  intros Hst. unfold queue_valid. apply mwp_if; intros Hc.
  - assert (queue_geometry base depth stride).
    { rewrite !andb_true_iff, !Z.leb_le, truthy_spec, negb_true_iff, truthy_false in Hc.
      destruct Hc as [[[[? ?] ?] ?] Hle]. rewrite wrap_small in Hle.
      2: { split; [nia |]. change (2 ^ 32) with 4294967296. nia. }
      split; [| split; [| split]]; lia. }
    destruct (cb_contains cb) as [f|] eqn:E.
    + eapply mwp_cb; [by apply env_contains |]. by intros ok s' ->.
    + by wp_run.
  - by wp_run.
Qed.

Lemma enable_ok_spec v (s : S) :
  mwp (enable_ok cb v) (fun ok s' =>
    ctl s' = ctl s /\
    (ok = true -> queue_geometry (asq (ctl s)) (aqa_sq (aqa (ctl s))) 64 /\
                  queue_geometry (acq (ctl s)) (aqa_cq (aqa (ctl s))) 16)) s.
Proof.
  unfold enable_ok. wp_run; [done |].
  eapply mwp_mono; [apply queue_valid_spec; lia |]. intros ok1 s1 [H1 G1]. wp_run; [done |].
  rewrite H1. eapply mwp_mono; [apply queue_valid_spec; lia |].
  intros ok2 s2 [H2 G2]. rewrite H1 in H2. wp_run; [done |].
  destruct (cb_setup cb) as [f|] eqn:E; wp_run; [| done].
  eapply mwp_cb; [by apply env_setup |]. intros ok s' ->. rewrite H2.
  split; [done |]. intros _. apply negb_false_iff in H0, H3. auto.
Qed.

Lemma enable_ok_keeps v : keeps CTL (enable_ok cb v).
Proof.
  apply keeps_mwp. intros s. eapply mwp_mono; [apply enable_ok_spec |]. by intros ok s' [? _].
Qed.

(** ** The invariant, operation by operation *)

Lemma inv_set_csts c v :
  control_inv c -> csts_ok v = true ->
  (Z.testbit v 0 = true -> Z.testbit (csts c) 0 = true) ->
  control_inv (c <| csts := v |>).
Proof. intros [] Hv Hr. constructor; simpl; auto. Qed.

Lemma inv_cc_write c v :
  control_inv c -> in_w 32 v ->
  (Z.testbit v 0 = true \/ Z.testbit (csts c) 0 = false) ->
  control_inv (c <| cc := v |>).
Proof.
  intros [] Hv Hr. constructor; simpl; auto.
  intros Ht. destruct Hr as [Hv0|Hf]; [| congruence].
  destruct (inv_rdy0 Ht) as (_ & ? & ?); auto.
Qed.

Lemma inv_mask_write c v : control_inv c -> in_w 32 v -> control_inv (c <| mask := v |>).
Proof. intros [] Hv. by constructor. Qed.

Lemma inv_command_write c v :
  control_inv c -> in_w 16 (v .& 0x407) /\ (v .& 0x407) .& 0x407 = v .& 0x407 ->
  control_inv (c <| command := v .& 0x407 |>).
Proof. intros [] Hv. by constructor. Qed.

Lemma inv_probe_write c lo hi :
  control_inv c -> control_inv (c <| probe_low := lo |> <| probe_high := hi |>).
Proof. intros []. by constructor. Qed.

(** The queue registers of a disabled controller. *)
Lemma inv_queue_write c a q p :
  control_inv c -> Z.testbit (cc c) 0 = false -> in_w 32 a -> in_w 64 q -> in_w 64 p ->
  control_inv (c <| aqa := a |> <| asq := q |> <| acq := p |>).
Proof.
  intros [] Hen Ha Hq Hp. constructor; simpl; auto.
  intros Hr. destruct (inv_rdy0 Hr). congruence.
Qed.

Lemma base_write_range o w v c :
  control_inv c -> fits o w 0x4000 = true ->
  in_w 64 (merge_base o w (v .& width_mask w) (asq c)) /\
  in_w 64 (merge_base o w (v .& width_mask w) (acq c)).
Proof.
  intros [] Hf. assert (Hw : in_w 64 (v .& width_mask w))
    by (by apply width_ok_in_w64, (fits_width o w 0x4000)).
  split; by apply in_w_merge_base.
Qed.

Lemma shutdown_inv (v : Z) (s : S) (Q : nwoas_access + unit -> S -> Prop) :
  control_inv (ctl s) ->
  (forall r s', control_inv (ctl s') -> Q r s') ->
  wp (write_cc_shutdown cb v) Q s.
Proof.
  intros Hi HQ. pose proof (inv_csts _ Hi) as Hc.
  destruct (csts_shutdown_ok _ Hc) as [Hok Hfat].
  destruct (csts_shutdown_rdy _ Hc) as [Hr1 [Hr2 _]].
  unfold write_cc_shutdown. wp_run; [| by apply HQ].
  eapply mwp_cb; [apply flush_keeps |]. intros ok s1 E1. wp_run.
  - eapply mwp_mono; [apply fatal_spec |]. intros [] s2 E2. wp_run. apply HQ.
    lrw. apply (inv_set_csts (ctl s)); [done | done | by rewrite Hr2].
  - apply HQ. lrw.
    apply (inv_set_csts (ctl s)); [done | done | by rewrite Hr1].
Qed.

Lemma write_cc_inv (v : Z) (s : S) :
  control_inv (ctl s) -> wp (write_cc cb v) (fun _ s' => control_inv (ctl s')) s.
Proof.
  intros Hi. pose proof (inv_csts _ Hi) as Hc.
  assert (Hv : in_w 32 (u32 v)) by (by apply wrap_range).
  assert (Hb : Z.testbit (u32 v) 0 = truthy (v .& 1))
    by (by rewrite truthy_bit0, testbit_wrap by lia).
  unfold write_cc. wp_run.
  - eapply mwp_mono; [apply queues_reset_spec |]. intros [] s1 E1. wp_run.
    eapply mwp_cb; [apply irq_update_keeps |]. intros [] s2 E2.
    apply shutdown_inv; [| done]. lrw. destruct Hi. constructor; simpl; auto; done.
  - eapply mwp_mono; [apply enable_ok_spec |]. intros ok s1 [E1 G1]. wp_run.
    + eapply mwp_mono; [apply fatal_spec |]. intros [] s2 E2. wp_run. lrw.
      apply (inv_set_csts ((ctl s) <| cc := u32 v |>)); cbn.
      * apply inv_cc_write; [done | done |]. left. rewrite Hb. by apply negb_false_iff.
      * by apply csts_fatal_ok.
      * by destruct (csts_shutdown_rdy _ Hc) as (_ & _ & ->).
    + apply shutdown_inv; [| done]. lrw.
      bool_hyps. subst ok. lrw_in G1. destruct Hi.
      constructor; simpl; auto. rewrite Hb. auto.
  - apply shutdown_inv; [| done]. lrw. apply inv_cc_write; [done | done |].
    left. rewrite Hb. by apply negb_false_iff.
Qed.

Lemma control_reset_inv (s : S) :
  in_w 16 (command (ctl s)) /\ command (ctl s) .& 0x407 = command (ctl s) ->
  mwp (nwoas_control_reset cb) (fun _ s' => control_inv (ctl s')) s.
Proof.
  intros Hcmd. unfold nwoas_control_reset. wp_run.
  eapply mwp_mono; [apply queues_reset_spec |]. intros [] s1 E1. wp_run.
  eapply mwp_cb; [apply irq_update_keeps |]. intros [] s2 E2. lrw.
  constructor; simpl; try (by apply in_w_0); [done | done | discriminate].
Qed.

Lemma control_init_inv (bar0 : Z) (s : S) :
  mwp (nwoas_control_init cb bar0) (fun _ s' => control_inv (ctl s')) s.
Proof.
  unfold nwoas_control_init. wp_run. apply control_reset_inv. lrw.
  split; [by apply in_w_0 | done].
Qed.

Lemma control_pending_inv (p : bool) (s : S) :
  control_inv (ctl s) ->
  mwp (nwoas_control_pending cb p) (fun _ s' => control_inv (ctl s')) s.
Proof.
  intros []. unfold nwoas_control_pending. wp_run.
  eapply mwp_cb; [apply irq_update_keeps |]. intros [] s2 E2. lrw. by constructor.
Qed.

Lemma pci_write_inv (o w v : Z) (s : S) :
  control_inv (ctl s) ->
  mwp (nwoas_pci_write cb o w v) (fun _ s' => control_inv (ctl s')) s.
Proof.
  intros Hi. unfold nwoas_pci_write. wp_run; try done.
  - eapply mwp_cb; [apply irq_update_keeps |]. intros [] s2 E2. wp_run. lrw.
    apply inv_command_write; [done |]. apply command_merge_all_mask.
  - lrw. by apply (inv_probe_write (ctl s)).
  - lrw. by apply (inv_probe_write (ctl s)).
Qed.

Lemma reg_write_inv (o w v : Z) (s : S) :
  control_inv (ctl s) ->
  mwp (nwoas_reg_write cb o w v) (fun _ s' => control_inv (ctl s')) s.
Proof.
  intros Hi. unfold nwoas_reg_write. wp_run; try done.
  - eapply mwp_cb; [apply irq_update_keeps |]. intros [] s2 E2. wp_run. lrw.
    apply inv_mask_write; [done |]. destruct Hi. by apply in_w_lor; [| | apply wrap_range].
  - eapply mwp_cb; [apply irq_update_keeps |]. intros [] s2 E2. wp_run. lrw.
    apply inv_mask_write; [done |]. destruct Hi. by apply in_w_land.
  - eapply wp_mono; [by apply write_cc_inv |]. intros [r|[]] s2 E2; by wp_run.
  - lrw. bool_hyps. rewrite truthy_bit0 in *. pose proof Hi as [].
    apply (inv_queue_write (ctl s)); auto. by apply wrap_range.
  - bool_hyps. rewrite truthy_bit0 in *. pose proof Hi as [].
    destruct (base_write_range o w v (ctl s)) as [Ha Hc]; [done | done |].
    unfold write_base. wp_run; lrw; by apply (inv_queue_write (ctl s)).
Qed.
End control_spec.

(** ** The interrupt line *)

Section irq_spec.
Context {S : Type} `{!Lens S nwoas_control} (cb : nwoas_callbacks S) `{!ControlEnv cb}.
Context (level : S -> bool) `{!ControlIrq cb level}.

Local Abbreviation ctl s := (lget (A := nwoas_control) s).

Lemma level_lset (s s' : S) c : s' = lset c s -> level s' = level s.
Proof. intros ->. apply irq_lset. Qed.

Lemma irq_update_level (s : S) :
  mwp (irq_update cb) (fun _ s' => ctl s' = ctl s /\ level s' = irq_level (ctl s)) s.
Proof.
  unfold irq_update. destruct (irq_present (cb := cb) (level := level)) as [f E].
  rewrite E. wp_run. apply mwp_iff. split; [by apply (env_irq f) | by apply (irq_sets f)].
Qed.

Lemma fatal_level (s : S) :
  mwp (fatal cb) (fun _ s' =>
    ctl s' = (ctl s) <| csts := csts (ctl s) .| 2 |> /\ level s' = false) s.
Proof.
  unfold fatal. destruct (irq_present (cb := cb) (level := level)) as [f E].
  rewrite E. wp_run. apply mwp_iff.
  rewrite (env_irq f) by done. by rewrite (irq_sets f).
Qed.

Lemma queues_reset_level (s : S) :
  mwp (queues_reset cb) (fun _ s' => ctl s' = (ctl s) <| pending := false |> /\
                                     level s' = level s) s.
Proof.
  unfold queues_reset. wp_run. destruct (cb_reset cb) as [f|] eqn:E.
  - apply mwp_iff. rewrite (env_reset f), (irq_reset f) by done. split; [by lrw |].
    by eapply level_lset.
  - wp_run. split; [by lrw | by eapply level_lset].
Qed.

Lemma flush_level :
  keeps level (flush_cb cb).
Proof. intros s. unfold flush_cb. destruct (cb_flush cb) as [f|] eqn:E; [by apply irq_flush | done]. Qed.

Lemma queue_valid_level base depth stride : keeps level (queue_valid cb base depth stride).
Proof.
  apply keeps_mwp. intros s. unfold queue_valid. wp_run; [| done].
  destruct (cb_contains cb) as [f|] eqn:E; [| by wp_run].
  eapply mwp_cb; [by eapply irq_contains | done].
Qed.

Lemma enable_ok_level v : keeps level (enable_ok cb v).
Proof.
  apply keeps_mwp. intros s. unfold enable_ok. wp_run; [done |].
  eapply mwp_cb; [apply queue_valid_level |]. intros ok1 s1 E1. wp_run; [done |].
  eapply mwp_cb; [apply queue_valid_level |]. intros ok2 s2 E2. wp_run; [congruence |].
  destruct (cb_setup cb) as [f|] eqn:E; wp_run; [| congruence].
  eapply mwp_cb; [by eapply irq_setup |]. intros ok3 s3 E3. congruence.
Qed.

(** A failed flush during shutdown leaves the line low: exactly when the
    controller is disabled, by CFS otherwise. *)
Lemma shutdown_irq (v : Z) (s : S) (Q : nwoas_access + unit -> S -> Prop) :
  irq_sync level s ->
  (Z.testbit (cc (ctl s)) 0 = false -> irq_level (ctl s) = false) ->
  (forall r s', irq_sync level s' -> Q r s') ->
  wp (write_cc_shutdown cb v) Q s.
Proof.
  intros Hi Hoff HQ. unfold write_cc_shutdown. wp_run; [| by apply HQ].
  bool_hyps. assert (Hcfs : Z.testbit (csts (ctl s)) 1 = false)
    by (rewrite <- (truthy_bit 1) by lia; done).
  assert (Hlev : level s = irq_level (ctl s)) by (destruct Hi as [?|[? _]]; congruence).
  pose proof (level_lset _ _ _ Hs) as E3.
  eapply mwp_cb2; [apply flush_keeps, _ | apply flush_level |].
  intros ok s1 E1 E2. wp_run.
  - eapply mwp_mono; [apply fatal_level |]. intros [] s2 [E4 E5]. wp_run. apply HQ.
    unfold irq_sync. destruct (Z.testbit (cc (ctl s)) 0) eqn:Een.
    + right. lrw. split; [| by split].
      by rewrite Z.lor_spec, orb_true_iff; right.
    + left. rewrite E5. symmetry. rewrite <- (Hoff eq_refl). by lrw.
  - apply HQ. left. pose proof (level_lset _ _ _ Hs0) as E4.
    rewrite E4, E2, E3, Hlev. by lrw.
Qed.

Lemma sync_frame (s s' : S) :
  irq_sync level s -> level s' = level s -> csts (ctl s') = csts (ctl s) ->
  cc (ctl s') = cc (ctl s) -> irq_level (ctl s') = irq_level (ctl s) -> irq_sync level s'.
Proof. unfold irq_sync. intros [?|[? [? ?]]] ? -> -> ->; [left | right]; repeat split; congruence. Qed.

Lemma irq_update_sync (s : S) (Q : unit -> S -> Prop) :
  (forall s', ctl s' = ctl s -> irq_sync level s' -> Q tt s') -> mwp (irq_update cb) Q s.
Proof.
  intros HQ. eapply mwp_mono; [apply irq_update_level |]. intros [] s' [E1 E2].
  apply HQ; [done |]. left. by rewrite E2, E1.
Qed.

(** With the controller disabled the line is exact; the enable path relies on it. *)
Definition irq_exact_off (s : S) : Prop :=
  Z.testbit (cc (ctl s)) 0 = false -> level s = irq_level (ctl s).

Lemma sync_exact_off s : irq_sync level s -> irq_exact_off s.
Proof. intros [?|[_ [? _]]] ?; congruence. Qed.

Lemma write_cc_irq (v : Z) (s : S) :
  irq_sync level s -> wp (write_cc cb v) (fun _ s' => irq_sync level s') s.
Proof.
  intros Hi. pose proof (sync_exact_off s Hi) as Hoff. unfold irq_exact_off in Hoff.
  assert (Hb : Z.testbit (u32 v) 0 = truthy (v .& 1))
    by (by rewrite truthy_bit0, testbit_wrap by lia).
  unfold write_cc. wp_run; pose proof (level_lset _ _ _ Hs) as E0; bool_hyps.
  - eapply mwp_mono; [apply queues_reset_level |]. intros [] s1 [E1 E2]. wp_run.
    apply irq_update_sync. intros s2 E3 Hi2. apply shutdown_irq; [done | | done].
    intros _. unfold irq_level. by lrw.
  - rewrite truthy_bit0 in *. eapply mwp_cb2; [apply enable_ok_keeps, _ | apply enable_ok_level |].
    intros ok s1 E1 E2. wp_run.
    + eapply mwp_mono; [apply fatal_level |]. intros [] s2 [E3 E4]. wp_run.
      right. lrw. rewrite Z.lor_spec, Hb. split; [| done].
      by apply orb_true_iff; right.
    + apply shutdown_irq; [| | done].
      * left. rewrite (level_lset _ _ _ Hs0), E2, E0, Hoff by done. unfold irq_level. by lrw.
      * lrw. by rewrite Hb, H.
  - apply shutdown_irq; [| | done].
    + destruct Hi as [Hx|[Hc [He Hx]]].
      * left. rewrite E0, Hx. unfold irq_level. by lrw.
      * right. lrw. by rewrite Hb, H, E0.
    + lrw. by rewrite Hb, H.
Qed.

Lemma run_op_irq op (s : S) :
  irq_sync level s -> mwp (run_op cb op) (fun _ s' => irq_sync level s') s.
Proof.
  intros Hi. destruct op as [|p|o w v|o w v]; cbn [run_op].
  - unfold nwoas_control_reset. wp_run.
    eapply mwp_mono; [apply queues_reset_level |]. intros [] s1 [E1 E2]. wp_run.
    by apply irq_update_sync.
  - unfold nwoas_control_pending. wp_run. by apply irq_update_sync.
  - unfold nwoas_pci_write. wp_run; try done.
    + apply irq_update_sync. intros s1 E1 E2. by wp_run.
    + eapply sync_frame; [exact Hi | by eapply level_lset | by lrw ..].
    + eapply sync_frame; [exact Hi | by eapply level_lset | by lrw ..].
  - unfold nwoas_reg_write. wp_run; try done.
    + apply irq_update_sync. intros s1 E1 E2. by wp_run.
    + apply irq_update_sync. intros s1 E1 E2. by wp_run.
    + eapply wp_mono; [by apply write_cc_irq |]. intros [r|[]] s1 E1; by wp_run.
    + eapply sync_frame; [exact Hi | by eapply level_lset | by lrw ..].
    + unfold write_base. wp_run;
        (eapply sync_frame; [exact Hi | by eapply level_lset | by lrw ..]).
Qed.
End irq_spec.

(** ** Register reads *)

Lemma reg_dword_range c o : control_inv c -> in_w 32 (reg_dword c o).
Proof.
  intros [].
  assert (in_w 32 (csts c)) by (csts_cases inv_csts0; done).
  assert (Hh : forall z, in_w 64 z -> in_w 32 (z .>> 32)) by (intros; by apply in_w_shiftr).
  unfold reg_dword. repeat case_match; auto; try (by apply wrap_range); by split.
Qed.

Lemma reg_byte_dword c o i :
  0 <= o < 0x4000 -> o mod 4 = 0 -> 0 <= i < 4 ->
  reg_byte c (o + i) = u8 (reg_dword c o .>> (8 * i)).
Proof.
  intros Ho Hal Hi.
  assert (exists k, o = 4 * k) as [k ->] by (exists (o / 4); dlia).
  destruct (Z.lt_ge_cases k 14) as [Hk|Hk].
  - assert (i = 0 \/ i = 1 \/ i = 2 \/ i = 3) as Hi' by lia.
    assert (k = 0 \/ k = 1 \/ k = 2 \/ k = 3 \/ k = 4 \/ k = 5 \/ k = 6 \/ k = 7 \/ k = 8 \/
            k = 9 \/ k = 10 \/ k = 11 \/ k = 12 \/ k = 13) as Hk' by lia.
    repeat destruct Hk' as [->|Hk']; try subst k; repeat destruct Hi' as [->|Hi']; try subst i;
      unfold reg_byte, reg_dword, byte_of; simpl; try reflexivity;
      by rewrite ?Z.shiftr_shiftr, ?(byte_wrap 32 _ 0), ?(byte_wrap 32 _ 1),
        ?(byte_wrap 32 _ 2), ?(byte_wrap 32 _ 3) by lia.
  - unfold reg_byte, reg_dword.
    repeat match goal with
    | |- context [?a <? ?b] => replace (a <? b) with false by (symmetry; apply Z.ltb_ge; lia)
    | |- context [?a =? ?b] => replace (a =? b) with false by (symmetry; apply Z.eqb_neq; lia)
    end.
    simpl. rewrite !andb_false_r. by rewrite Z.shiftr_0_l.
Qed.

Lemma fits_intro o w size :
  width_ok w = true -> 0 <= o -> o + w / 8 <= size -> fits o w size = true.
Proof.
  intros Hw Ho Hs. unfold fits. rewrite Hw. simpl.
  destruct (width_ok_cases w Hw) as [->|[->|[->| ->]]];
    apply andb_true_iff; split; apply Z.leb_le; dlia.
Qed.

(** Bit by bit, a half-word write replaces its half of the base. *)
Lemma testbit_merge o v base i :
  0 <= i -> in_w 32 v -> in_w 64 base ->
  Z.testbit (merge_base o 32 v base) i =
    if truthy (o .& 4) then (if i <? 32 then Z.testbit base i else Z.testbit v (i - 32))
    else (if i <? 32 then Z.testbit v i else Z.testbit base i).
Proof.
  intros Hi Hv Hb. unfold merge_base. change (32 =? 64) with false. cbv iota zeta.
  change 0xffffffff with (Z.ones 32).
  assert (Hn : 64 <= i -> Z.testbit base i = false) by (intros; apply (testbit_in_w 64); [done | lia]).
  assert (Hn' : forall j, 32 <= j -> Z.testbit v j = false)
    by (intros; apply (testbit_in_w 32); [done | lia]).
  assert (Hm : forall j, j < 0 -> Z.testbit v j = false) by (intros; by apply Z.testbit_neg_r).
  destruct (truthy (o .& 4)); rewrite Z.lor_spec, Z.land_spec, testbit_cnot, testbit_wrap,
    !Z.shiftl_spec by lia.
  - destruct (Z.ltb_spec i 32).
    + rewrite (Z.testbit_neg_r (Z.ones 32)), Hm by lia.
      destruct (Z.ltb_spec i 64); [| lia]. by rewrite andb_true_r, orb_false_r.
    + rewrite testbit_ones_ltb by lia.
      destruct (Z.ltb_spec i 64), (Z.ltb_spec (i - 32) 32); try lia; simpl.
      * by rewrite andb_false_r.
      * by rewrite Hn, Hn' by lia.
  - rewrite Z.sub_0_r, testbit_ones_ltb by lia.
    destruct (Z.ltb_spec i 32), (Z.ltb_spec i 64); try lia; simpl.
    + by rewrite andb_false_r.
    + rewrite Hn' by lia. by rewrite andb_true_r, orb_false_r.
    + by rewrite Hn by lia.
Qed.

(** Writing both halves of a base register, in either order. *)
Lemma merge_halves lo v b :
  (lo = 0x28 \/ lo = 0x30) -> in_w 64 v -> in_w 64 b ->
  merge_base (lo + 4) 32 (v .>> 32) (merge_base lo 32 (u32 v) b) = v /\
  merge_base lo 32 (u32 v) (merge_base (lo + 4) 32 (v .>> 32) b) = v.
Proof.
  intros Hlo Hv Hb.
  assert (Hu : in_w 32 (u32 v)) by (by apply wrap_range).
  assert (Hh : in_w 32 (v .>> 32)) by (by apply in_w_shiftr).
  assert (truthy (lo .& 4) = false /\ truthy ((lo + 4) .& 4) = true) as [E1 E2]
    by (destruct Hlo as [-> | ->]; done).
  assert (Hm : forall o x, in_w 32 x -> in_w 64 (merge_base o 32 x b)).
  { intros o x Hx. apply in_w_merge_base; [by apply (in_w_mono 32) | done]. }
  split; apply Z.bits_inj'; intros i Hi; rewrite !testbit_merge, E1, E2 by auto;
    destruct (Z.ltb_spec i 32); rewrite ?testbit_wrap, ?Z.shiftr_spec by lia;
    try (destruct (Z.ltb_spec i 32); [done | lia]); f_equal; lia.
Qed.

(** ** Properties *)

(** C8. Every store reachable from an initialisation, by any interleaving of
    resets, pending updates, configuration and register writes and steps of
    the rest of the system, satisfies [control_inv]: all registers keep their
    width, CSTS never shows a shutdown in progress unless CFS is set, and RDY
    implies CC.EN and admin queues that are page aligned, 2..256 deep and
    inside the address space. *)
Theorem control_reach_inv {S} `{!Lens S nwoas_control} (cb : nwoas_callbacks S)
    `{!ControlEnv cb} bar0 (s : S) :
  control_reach cb bar0 s -> control_inv (lget s).
Proof.
  induction 1 as [s|s op _ IH|s s' _ IH Heq].
  - apply (mwp_iff _ (fun _ s' => control_inv (lget s'))), control_init_inv; done.
  - apply (mwp_iff _ (fun _ s' => control_inv (lget s'))). destruct op; cbn [run_op].
    + apply control_reset_inv, IH; done.
    + by apply control_pending_inv.
    + wp_run. eapply mwp_mono; [by apply pci_write_inv |]. intros. by wp_run.
    + wp_run. eapply mwp_mono; [by apply reg_write_inv |]. intros. by wp_run.
  - by rewrite Heq.
Qed.

(** Whatever operation runs, the interrupt line keeps carrying exactly
    [pending && !(INTMS & 1) && !(command & 0x400)], unless the controller has
    failed while enabled, when it may be held low; a reset or a re-enable makes
    it exact again. *)
Theorem control_irq_line {S} `{!Lens S nwoas_control} (cb : nwoas_callbacks S)
    `{!ControlEnv cb} (level : S -> bool) `{!ControlIrq cb level} op (s : S) :
  irq_sync level s -> irq_sync level (run_op cb op s).2.
Proof.
  intros Hi. apply (mwp_iff _ (fun _ s' => irq_sync level s')). by apply run_op_irq.
Qed.

(** C9. Register reads refine the 32-bit register file [reg_dword]: at every
    aligned offset of the 16 KiB window a 32-bit read returns the register, a
    64-bit read the register and its successor, and a byte read at [o + i] the
    byte [i] of the register at [o]. *)
Theorem reg_read_refines c o x :
  control_inv c -> 0 <= o < 0x4000 -> o mod 4 = 0 ->
  nwoas_reg_read c o 32 (Some x) = (NWOAS_HANDLED, Some (reg_dword c o)) /\
  (o + 8 <= 0x4000 ->
   nwoas_reg_read c o 64 (Some x) =
     (NWOAS_HANDLED, Some (reg_dword c o .| (reg_dword c (o + 4) .<< 32)))) /\
  (forall i, 0 <= i < 4 ->
   nwoas_reg_read c (o + i) 8 (Some x) =
     (NWOAS_HANDLED, Some (u8 (reg_dword c o .>> (8 * i))))).
Proof.
  intros Hi Ho Hal. pose proof (reg_byte_dword c o) as Hb.
  assert (Hv : forall o', 0 <= o' < 0x4000 -> o' mod 4 = 0 ->
    or_bytes (fun i => reg_byte c (o' + i)) 4 = reg_dword c o').
  { intros o' H1 H2. apply or_bytes_value; [by apply reg_dword_range |].
    intros i Hi'. by apply reg_byte_dword. }
  unfold nwoas_reg_read. split; [| split].
  - rewrite fits_intro by (done || cbn; dlia). cbn [negb]. by rewrite <- (Hv o).
  - intros H8. rewrite fits_intro by (done || cbn; dlia). cbn [negb].
    change (Z.to_nat (64 / 8)) with (4 + 4)%nat. rewrite or_bytes_split, (Hv o) by done.
    rewrite (or_bytes_ext _ (fun i => reg_byte c ((o + 4) + i))) by (intros; f_equal; lia).
    by rewrite (Hv (o + 4)) by dlia.
  - intros i Hi'. rewrite fits_intro by (done || cbn; dlia). cbn [negb].
    change (Z.to_nat (8 / 8)) with 1%nat. cbn [or_bytes].
    rewrite Z.add_0_r, Z.shiftl_0_r, Z.lor_0_l. by rewrite Hb.
Qed.

(** The queue base register pair at [lo], [lo + 4]. *)
Definition base_of (lo : Z) (c : nwoas_control) : Z := if lo =? 0x28 then asq c else acq c.

#[local] Arguments width_mask : simpl never.
#[local] Arguments merge_base : simpl never.

Lemma write_base_spec {S} `{!Lens S nwoas_control} (cb : nwoas_callbacks S) lo o w v (s : S) :
  (lo = 0x28 \/ lo = 0x30) -> (w = 32 /\ (o = lo \/ o = lo + 4) \/ w = 64 /\ o = lo) ->
  Z.testbit (cc (lget s)) 0 = false -> in_w w v ->
  mwp (nwoas_reg_write cb o w v) (fun r s' =>
    r = NWOAS_HANDLED /\ cc (lget s') = cc (lget s) /\
    base_of lo (lget s') = merge_base o w v (base_of lo (lget s))) s.
Proof.
  intros Hlo Hw Hen Hv. unfold nwoas_reg_write.
  assert (Hm : v .& width_mask w = v).
  { rewrite land_width_mask by (destruct Hw as [[-> _]|[-> _]]; done). by apply wrap_small. }
  wp_run; bool_hyps; rewrite ?truthy_bit0 in *;
    try (destruct Hlo as [-> | ->], Hw as [[-> [-> | ->]]|[-> ->]]; discriminate).
  - unfold write_base. destruct Hlo as [-> | ->], Hw as [[-> [-> | ->]]|[-> ->]];
      simpl; wp_run; lrw; rewrite ?Hm; done.
  - destruct Hlo as [-> | ->], Hw as [[-> [-> | ->]]|[-> ->]]; simpl in *; rewrite ?Hen in *; discriminate.
Qed.

(** While the controller is disabled, a queue base register stores any
    64-bit value exactly, whether it is written as one 64-bit access or as two
    32-bit halves in either order, and [reg_dword] reads both halves back. *)
Theorem queue_base_roundtrip {S} `{!Lens S nwoas_control} (cb : nwoas_callbacks S) lo v (s : S) :
  (lo = 0x28 \/ lo = 0x30) -> control_inv (lget s) ->
  Z.testbit (cc (lget s)) 0 = false -> in_w 64 v ->
  let halves o1 v1 o2 v2 := (nwoas_reg_write cb o1 32 v1;; nwoas_reg_write cb o2 32 v2) in
  forall m, (m = nwoas_reg_write cb lo 64 v \/
             m = halves lo (u32 v) (lo + 4) (v .>> 32) \/
             m = halves (lo + 4) (v .>> 32) lo (u32 v)) ->
  base_of lo (lget (m s).2) = v /\
  reg_dword (lget (m s).2) lo = u32 v /\ reg_dword (lget (m s).2) (lo + 4) = v .>> 32.
Proof.
  intros Hlo Hi Hen Hv halves m Hm.
  assert (Hb0 : in_w 64 (base_of lo (lget s))) by (destruct Hi; unfold base_of; by case_match).
  assert (Hb : base_of lo (lget (m s).2) = v); [| split; [done |]].
  - assert (Hu : in_w 32 (u32 v)) by (by apply wrap_range).
    assert (Hh : in_w 32 (v .>> 32)) by (by apply in_w_shiftr).
    apply (mwp_iff m (fun _ s' => base_of lo (lget s') = v)).
    destruct Hm as [->|[->| ->]]; unfold halves; wp_run.
    + eapply mwp_mono; [apply (write_base_spec cb lo lo 64); auto |].
      intros r s1 (_ & _ & ->). done.
    + eapply mwp_mono; [apply (write_base_spec cb lo lo 32); auto |].
      intros r s1 (_ & Ec & Eb). eapply mwp_mono;
        [apply (write_base_spec cb lo (lo + 4) 32); [done | auto | by rewrite Ec | done] |].
      intros r' s2 (_ & _ & ->). rewrite Eb. by apply merge_halves.
    + eapply mwp_mono; [apply (write_base_spec cb lo (lo + 4) 32); auto |].
      intros r s1 (_ & Ec & Eb). eapply mwp_mono;
        [apply (write_base_spec cb lo lo 32); [done | auto | by rewrite Ec | done] |].
      intros r' s2 (_ & _ & ->). rewrite Eb. by apply merge_halves.
  - rewrite <- Hb. by destruct Hlo as [-> | ->].
Qed.

(** ** Instances at a concrete store

    A store that pairs the structure with the interrupt line, a callback
    table over it whose memory ends at 2^36, and a controller brought up on
    it: AQA, ASQ, ACQ and CC written, then a pending interrupt. *)

Definition demo_store : Type := nwoas_control * bool.
#[export] Instance demo_lens : Lens demo_store nwoas_control := lens_fst.

Definition demo_callbacks : nwoas_callbacks demo_store := {|
  cb_contains := Some (fun b n => mret (b + n <=? 2 ^ 36));
  cb_setup := Some (fun _ _ _ _ => mret true);
  cb_reset := Some (mret tt);
  cb_flush := Some (mret true);
  cb_irq := Some (fun b => modify (fun s => (s.1, b)));
|}.

#[export] Instance demo_env : ControlEnv demo_callbacks.
Proof. split; intros; simplify_eq/=; by intros []. Qed.

#[export] Instance demo_irq : ControlIrq demo_callbacks snd.
Proof. split; intros; simplify_eq/=; by eauto. Qed.

Definition demo_zero : demo_store := (mk_control 0 0 0 0 0 0 0 0 false false false, false).
Definition demo_ops : list control_op :=
  [OpRegWrite 0x24 32 0x003f003f; OpRegWrite 0x28 64 0x10000; OpRegWrite 0x30 64 0x20000;
   OpRegWrite 0x14 32 0x00460001; OpPciWrite 4 16 6; OpPending true].
Definition demo_run (ops : list control_op) : demo_store :=
  foldl (fun s op => (run_op demo_callbacks op s).2)
    (nwoas_control_init demo_callbacks 0x700100000 demo_zero).2 ops.

Lemma demo_reach ops : control_reach demo_callbacks 0x700100000 (demo_run ops).
Proof.
  unfold demo_run. generalize (reach_init demo_callbacks 0x700100000 demo_zero).
  generalize (nwoas_control_init demo_callbacks 0x700100000 demo_zero).2.
  induction ops as [|op ops IH]; intros s Hs; [done |]. by apply IH, reach_op.
Qed.

Lemma demo_inv : control_inv (lget (demo_run demo_ops)).
Proof. constructor; by vm_compute. Qed.

Lemma demo_inv_start : control_inv (lget (demo_run [])).
Proof. constructor; by vm_compute. Qed.

Lemma control_reach_inv_witness :
  csts (lget (demo_run demo_ops)) = 1 /\ control_inv (lget (demo_run demo_ops)).
Proof.
  split; [reflexivity |].
  exact (control_reach_inv demo_callbacks 0x700100000 _ (demo_reach demo_ops)).
Defined.

Lemma control_irq_line_witness :
  let s := (run_op demo_callbacks (OpRegWrite 0xc 32 1) (demo_run demo_ops)).2 in
  snd (demo_run demo_ops) = true /\ snd s = false /\ irq_sync snd s.
Proof.
  split; [reflexivity | split; [reflexivity |]].
  apply (control_irq_line demo_callbacks snd). left. reflexivity.
Defined.

Lemma reg_read_refines_witness :
  let c := lget (demo_run demo_ops) in
  reg_dword c 0x24 = 0x003f003f /\
  nwoas_reg_read c 0x24 32 (Some 0) = (NWOAS_HANDLED, Some (reg_dword c 0x24)).
Proof.
  intros c. split; [vm_compute; reflexivity |].
  destruct (reg_read_refines c 0x24 0 demo_inv) as [H _]; [lia | reflexivity | exact H].
Defined.

Lemma queue_base_roundtrip_witness :
  let s' := (nwoas_reg_write demo_callbacks 0x28 64 0x123456789000 (demo_run [])).2 in
  reg_dword (lget s') 0x28 = u32 0x123456789000.
Proof.
  intros s'.
  destruct (queue_base_roundtrip demo_callbacks 0x28 0x123456789000 (demo_run [])
    (or_introl eq_refl) demo_inv_start eq_refl ltac:(by split) _ (or_introl eq_refl))
    as (_ & H & _).
  exact H.
Defined.
