(* ===== verification/AdminPayload.v ===== *)
(** * Synthetic admin responses ([native-s225/admin_payload.c], [.h])

    [nwoas_admin_payload] builds the Identify and Get Log Page responses in the
    caller's buffer.  Pointers that may be NULL are options; the buffer behind
    a pointer is the list of its bytes.  [response] is the specification: the
    response as a concatenation of the fields of the data structure. *)

From S2P Require Import Prelude.

Record nwoas_identity_policy := mk_policy {
  primary_lbas : Z;
  link_lbas : Z;
  mdts : Z;
  paired : bool;
  primary_readonly : bool;
  volatile_cache : bool;
}.

Record nwoas_admin_payload_result := mk_payload_result {
  pr_status : Z;
  pr_bytes : Z;
}.

(** ** Little-endian accessors *)

Definition le32 (p : list Z) (o : Z) : Z :=
  byte_at p o .| (byte_at p (o + 1) .<< 8) .| (byte_at p (o + 2) .<< 16) .|
  (byte_at p (o + 3) .<< 24).

Definition le64 (p : list Z) (o : Z) : Z := le32 p o .| (le32 p (o + 4) .<< 32).

Definition put (o v : Z) (n : nat) (p : list Z) : list Z := overwrite o (le_bytes n v) p.

Definition zero (n : Z) (p : list Z) : list Z := overwrite 0 (zeros n) p.

(** The bytes the [text] loop stores: the string, then spaces. *)
Fixpoint text_bytes (s : list Z) (n : nat) : list Z :=
  match n, s with
  | O, _ => []
  | S n', [] => 32 :: text_bytes [] n'
  | S n', c :: s' => c :: text_bytes s' n'
  end.

Definition text (o : Z) (s : list Z) (n : nat) (p : list Z) : list Z :=
  overwrite o (text_bytes s n) p.

(** ** The response builder *)

(** The policy part of the argument check; the same test guards
    initialisation of the ring and of the frontend. *)
Definition policy_valid (p : nwoas_identity_policy) : bool :=
  negb (negb (truthy (primary_lbas p)) || ((1 .<< 40) <=? primary_lbas p) ||
        (8 <? mdts p) ||
        (paired p && (negb (truthy (link_lbas p)) || ((1 .<< 40) <=? link_lbas p)))).

Definition cdw (cmd : list Z) (i : Z) : Z := le32 cmd (40 + i * 4).

Definition identify_namespace (p : nwoas_identity_policy) (nsid : Z) (out : list Z) :
    list Z :=
  let lbas := if nsid =? 1 then primary_lbas p else link_lbas p in
  let out := zero 4096 out in
  let out := put 16 lbas 8 (put 8 lbas 8 (put 0 lbas 8 out)) in
  let out := overwrite 130 [12] out in
  overwrite 99 [b2z ((nsid =? 1) && primary_readonly p)] out.

Definition serial_number : list Z := chars "NWOAS-RO-00000000001".
Definition model_number : list Z := chars "NWOAS ANS2 READ ONLY BRIDGE".
Definition firmware_rev : list Z := chars "S92".

Definition identify_controller (p : nwoas_identity_policy) (out : list Z) : list Z :=
  let out := put 2 0x1234 2 (put 0 0x1234 2 (zero 4096 out)) in
  let out := text 4 serial_number 20 out in
  let out := text 64 firmware_rev 8 (text 24 model_number 40 out) in
  let out := put 80 0x10300 4 (put 78 1 2 (overwrite 77 [mdts p] out)) in
  let out := overwrite 513 [0x44] (overwrite 512 [0x66] out) in
  let out := put 516 (if paired p then 2 else 1) 4 out in
  overwrite 525 [b2z (volatile_cache p)] out.

Definition identify_active_list (p : nwoas_identity_policy) (nsid : Z) (out : list Z) :
    list Z :=
  let out := zero 4096 out in
  let '(i, out) := if nsid <? 1 then (1, put (4 * 0) 1 4 out) else (0, out) in
  if paired p && (nsid <? 2) then put (4 * i) 2 4 out else out.

(** The [cmd[0]==6] branch: completed status and buffer, [None] where the
    code returns with the error already in the result. *)
Definition identify (p : nwoas_identity_policy) (cmd out : list Z) : Z * Z * list Z :=
  let nsid := le32 cmd 4 in
  let dw := cdw cmd in
  if truthy (dw 0 .>> 8) || truthy (dw 1) || truthy (dw 2) || truthy (dw 3) ||
     truthy (dw 4) || truthy (dw 5)
  then (2, 0, out)
  else
    let cns := dw 0 .& 255 in
    if cns =? 0 then
      if negb (nsid =? 1) && negb (paired p && (nsid =? 2)) then (0xb, 0, out)
      else (0, 4096, identify_namespace p nsid out)
    else if cns =? 1 then
      if negb (nsid =? 0) && negb (nsid =? UINT32_MAX) then (0xb, 0, out)
      else (0, 4096, identify_controller p out)
    else if cns =? 2 then (0, 4096, identify_active_list p nsid out)
    else (2, 0, out).

(** The Get Log Page branch. *)
Definition get_log_page (cmd out : list Z) : Z * Z * list Z :=
  let dw := cdw cmd in
  let lid := dw 0 .& 255 in
  let numd := (dw 0 .>> 16) .| ((dw 1 .& 0xffff) .<< 16) in
  let bytes := u64 ((numd + 1) * 4) in
  if (negb (lid =? 1) && negb (lid =? 2) && negb (lid =? 3)) || (4096 <? bytes) ||
     truthy (dw 2) || truthy (dw 3)
  then (2, 0, out)
  else
    let out := zero bytes out in
    let out := if lid =? 2 then overwrite 3 [100] (put 1 300 2 out) else out in
    let out := if (lid =? 3) && (16 <=? bytes)
               then text 8 (chars "S93") 8 (overwrite 0 [1] out) else out in
    (0, bytes, out).

(** Returns the C result, the buffer and the result structure after the call. *)
Definition nwoas_admin_payload (command : option (list Z)) (command_bytes : Z)
    (policy : option nwoas_identity_policy) (out : option (list Z)) (out_capacity : Z)
    (result : option nwoas_admin_payload_result) :
    Z * option (list Z) * option nwoas_admin_payload_result :=
  match result with
  | None => (-1, out, None)
  | Some _ =>
      let r0 := mk_payload_result 2 0 in
      match command, policy, out with
      | Some cmd, Some p, Some o =>
          if negb (command_bytes =? 64) || (out_capacity <? 4096) || negb (policy_valid p)
          then (-1, out, Some r0)
          else if negb (byte_at cmd 0 =? 6) && negb (byte_at cmd 0 =? 2)
          then (0, out, Some r0)
          else if truthy (byte_at cmd 1) || truthy (le64 cmd 16) then (1, out, Some r0)
          else
            let '(status, bytes, o') :=
              if byte_at cmd 0 =? 6 then identify p cmd o else get_log_page cmd o in
            (1, Some o', Some (mk_payload_result status bytes))
      | _, _, _ => (-1, out, Some r0)
      end
  end.

(** ** Specification: responses field by field *)

(** Identify Namespace: NSZE, NCAP, NUSE, NSATTR at 99, LBADS of format 0 at
    byte 2 of LBAF0 (130). *)
Definition namespace_image (lbas : Z) (readonly : bool) : list Z :=
  le_bytes 8 lbas ++ le_bytes 8 lbas ++ le_bytes 8 lbas ++ zeros 75 ++
  [b2z readonly] ++ zeros 30 ++ [12] ++ zeros 3965.

(** Identify Controller: VID, SSVID, SN, MN, FR, MDTS, CNTLID, VER, SQES, CQES,
    NN, VWC. *)
Definition controller_image (p : nwoas_identity_policy) : list Z :=
  le_bytes 2 0x1234 ++ le_bytes 2 0x1234 ++ text_bytes serial_number 20 ++
  text_bytes model_number 40 ++ text_bytes firmware_rev 8 ++ zeros 5 ++ [mdts p] ++
  le_bytes 2 1 ++ le_bytes 4 0x10300 ++ zeros 428 ++ [0x66] ++ [0x44] ++ zeros 2 ++
  le_bytes 4 (if paired p then 2 else 1) ++ zeros 5 ++ [b2z (volatile_cache p)] ++
  zeros 3570.

Definition namespaces (p : nwoas_identity_policy) : list Z :=
  if paired p then [1; 2] else [1].

(** Active namespace list: the namespaces above NSID, ascending, then zeros. *)
Definition list_image (ids : list Z) : list Z :=
  concat (map (le_bytes 4) ids) ++ zeros (4096 - 4 * zlen ids).

Definition log_image (lid bytes : Z) : list Z :=
  if lid =? 2 then [0] ++ le_bytes 2 300 ++ [100] ++ zeros (bytes - 4)
  else if (lid =? 3) && (16 <=? bytes)
  then [1] ++ zeros 7 ++ text_bytes (chars "S93") 8 ++ zeros (bytes - 16)
  else zeros bytes.

Definition all_zero (cmd : list Z) (l : list Z) : bool := forallb (fun i => cdw cmd i =? 0) l.

Definition identify_response (p : nwoas_identity_policy) (cmd : list Z) : Z * list Z :=
  let nsid := le32 cmd 4 in
  let cns := cdw cmd 0 in
  if negb ((cns <? 256) && all_zero cmd [1; 2; 3; 4; 5]) then (2, [])
  else if cns =? 0 then
    if existsb (Z.eqb nsid) (namespaces p)
    then (0, namespace_image (if nsid =? 1 then primary_lbas p else link_lbas p)
               ((nsid =? 1) && primary_readonly p))
    else (0xb, [])
  else if cns =? 1 then
    if (nsid =? 0) || (nsid =? 0xffffffff) then (0, controller_image p) else (0xb, [])
  else if cns =? 2 then (0, list_image (filter (fun n => nsid < n) (namespaces p)))
  else (2, []).

Definition log_response (cmd : list Z) : Z * list Z :=
  let lid := cdw cmd 0 mod 256 in
  let numd := (cdw cmd 0 .>> 16) + 2 ^ 16 * (cdw cmd 1 mod 2 ^ 16) in
  if (1 <=? lid) && (lid <=? 3) && (numd <? 1024) && all_zero cmd [2; 3]
  then (0, log_image lid (4 * (numd + 1)))
  else (2, []).

(** The status and body of the response to a command of 64 bytes; [None] for
    an opcode that another handler owns. *)
Definition response (p : nwoas_identity_policy) (cmd : list Z) : option (Z * list Z) :=
  if (byte_at cmd 0 =? 6) || (byte_at cmd 0 =? 2) then
    Some (if negb ((byte_at cmd 1 =? 0) && (le64 cmd 16 =? 0)) then (2, [])
          else if byte_at cmd 0 =? 6 then identify_response p cmd
          else log_response cmd)
  else None.

(** ** Layout lemmas *)

Lemma zlen_text_bytes s n : zlen (text_bytes s n) = Z.of_nat n.
Proof.
  revert s. induction n as [|n IH]; intros [|c s]; cbn [text_bytes]; try done;
    rewrite zlen_cons, IH; lia.
Qed.
#[export] Hint Rewrite zlen_text_bytes : lens_z.

Lemma zero_spec n p : 0 <= n -> zero n p = zeros n ++ zdrop n p.
Proof. intros. unfold zero, overwrite. by rewrite zlen_zeros by done. Qed.

(** Evaluate a chain of in-bounds writes into zeroed memory. *)
Ltac layout_norm :=
  autorewrite with lens_z;
  repeat match goal with
  | |- context [Z.of_nat ?n] =>
      let v := eval vm_compute in (Z.of_nat n) in change (Z.of_nat n) with v
  end.
Ltac layout_side := layout_norm; lia.
Ltac layout_write :=
  first [ rewrite overwrite_skip by layout_side | rewrite overwrite_zeros by layout_side ];
  layout_norm;
  repeat match goal with
  | |- context [zeros ?e] =>
      lazymatch e with
      | Z.sub _ _ => let v := eval vm_compute in e in change (zeros e) with (zeros v)
      end
  | |- context [overwrite (Z.sub ?a ?b)] =>
      let v := eval vm_compute in (Z.sub a b) in change (Z.sub a b) with v
  end; rewrite ?zeros_0, ?app_nil_l, <- ?app_assoc.
Ltac layout := repeat layout_write; rewrite <- ?app_assoc.

Lemma identify_namespace_layout p nsid out :
  identify_namespace p nsid out =
  namespace_image (if nsid =? 1 then primary_lbas p else link_lbas p)
    ((nsid =? 1) && primary_readonly p) ++ zdrop 4096 out.
Proof.
  unfold identify_namespace, namespace_image, put. rewrite zero_spec by lia.
  layout. reflexivity.
Qed.

Lemma identify_controller_layout p out :
  identify_controller p out = controller_image p ++ zdrop 4096 out.
Proof.
  unfold identify_controller, controller_image, put, text. rewrite zero_spec by lia.
  layout. reflexivity.
Qed.

Lemma identify_active_list_layout p nsid out :
  0 <= nsid ->
  identify_active_list p nsid out =
  list_image (filter (fun n => nsid < n) (namespaces p)) ++ zdrop 4096 out.
Proof.
  intros Hn. unfold identify_active_list, list_image, namespaces, put.
  rewrite zero_spec by lia.
  destruct (Z.ltb_spec nsid 1) as [H1|H1], (Z.ltb_spec nsid 2) as [H2|H2], (paired p);
    cbn [andb]; rewrite ?filter_cons; repeat case_decide; try lia;
    rewrite ?filter_nil; cbn [map concat]; layout; reflexivity.
Qed.

Lemma get_log_page_layout lid bytes out :
  4 <= bytes ->
  (let out := zero bytes out in
   let out := if lid =? 2 then overwrite 3 [100] (put 1 300 2 out) else out in
   if (lid =? 3) && (16 <=? bytes) then text 8 (chars "S93") 8 (overwrite 0 [1] out)
   else out) = log_image lid bytes ++ zdrop bytes out.
Proof.
  intros Hb. unfold log_image, put, text. cbv zeta. rewrite zero_spec by lia.
  destruct (Z.eqb_spec lid 2) as [->|H2]; [change (2 =? 3) with false; cbn [andb] |].
  - rewrite overwrite_zeros by layout_side. rewrite overwrite_skip by layout_side.
    rewrite overwrite_skip by layout_side. layout_norm. rewrite overwrite_zeros by layout_side.
    layout_norm. change (3 - 1 - 2) with 0. rewrite zeros_0. 
    replace (bytes - 1 - 2 - 0 - (1 + 0)) with (bytes - 4) by lia. reflexivity.
  - destruct (Z.eqb_spec lid 3), (Z.leb_spec 16 bytes); cbn [andb]; try done.
    rewrite overwrite_zeros by layout_side. rewrite zeros_0, app_nil_l.
    rewrite (overwrite_skip [1]) by layout_side. layout_norm.
    rewrite overwrite_zeros by layout_side. layout_norm. rewrite <- app_assoc.
    match goal with |- context [zeros (bytes - 0 - ?a - ?b - ?c)] =>
      replace (bytes - 0 - a - b - c) with (bytes - 16) by lia end. reflexivity.
Qed.

(** ** Field ranges *)

Lemma le32_range p o : bytes_ok p -> in_w 32 (le32 p o).
Proof.
  intros H. unfold le32. assert (Hb : forall i, in_w 8 (byte_at p i)) by (intros; by apply byte_at_ok).
  repeat apply in_w_lor; try lia; try (apply (in_w_shiftl 8); [lia | lia | done]).
  by apply (in_w_mono 8).
Qed.

Lemma cdw_range cmd i : bytes_ok cmd -> in_w 32 (cdw cmd i).
Proof. apply le32_range. Qed.

Lemma shiftr8_truthy z : in_w 32 z -> truthy (z .>> 8) = negb (z <? 256).
Proof.
  intros [H1 H2]. unfold truthy. rewrite Z.shiftr_div_pow2 by lia. change (2 ^ 8) with 256.
  destruct (Z.eqb_spec (z / 256) 0), (Z.ltb_spec z 256); try done; dlia.
Qed.

Lemma log_length cmd :
  bytes_ok cmd ->
  let numd := (cdw cmd 0 .>> 16) .| ((cdw cmd 1 .& 0xffff) .<< 16) in
  numd = (cdw cmd 0 .>> 16) + 2 ^ 16 * (cdw cmd 1 mod 2 ^ 16) /\ 0 <= numd /\
  u64 ((numd + 1) * 4) = 4 * (numd + 1).
Proof.
  intros Hc numd. pose proof (cdw_range cmd 0 Hc) as H0.
  assert (Hs : in_w 16 (cdw cmd 0 .>> 16)) by (by apply in_w_shiftr).
  assert (E : numd = (cdw cmd 0 .>> 16) + 2 ^ 16 * (cdw cmd 1 mod 2 ^ 16)).
  { unfold numd. rewrite lor_shiftl_add by done. f_equal. f_equal.
    apply (land_ones_mod 16). lia. }
  pose proof (Z.mod_pos_bound (cdw cmd 1) (2 ^ 16) eq_refl).
  unfold in_w in Hs. change (2 ^ 16) with 65536 in *.
  split; [done |]. rewrite E. split; [lia |].
  rewrite wrap_small; [lia |]. split; [lia |]. change (2 ^ 64) with 18446744073709551616. lia.
Qed.

(** ** Refinement *)

Lemma zlen_namespace_image l r : zlen (namespace_image l r) = 4096.
Proof. unfold namespace_image. layout_norm. reflexivity. Qed.

Lemma zlen_controller_image p : zlen (controller_image p) = 4096.
Proof. unfold controller_image. layout_norm. reflexivity. Qed.

Lemma zlen_list_image p n : zlen (list_image (filter (fun m => n < m) (namespaces p))) = 4096.
Proof.
  unfold list_image, namespaces. destruct (paired p); rewrite ?filter_cons;
    repeat case_decide; rewrite ?filter_nil; cbn [map concat]; layout_norm; reflexivity.
Qed.

Lemma zlen_log_image lid bytes : 4 <= bytes -> zlen (log_image lid bytes) = bytes.
Proof.
  intros. unfold log_image. destruct (lid =? 2); [layout_norm; lia |].
  destruct (lid =? 3), (Z.leb_spec 16 bytes); cbn [andb]; layout_norm; lia.
Qed.

(** What a handler that answers [(status, body)] leaves behind. *)
Definition answered (st : Z * list Z) (out : list Z) : Z * Z * list Z :=
  (st.1, zlen st.2, st.2 ++ zdrop (zlen st.2) out).

Lemma identify_spec p cmd out :
  bytes_ok cmd -> identify p cmd out = answered (identify_response p cmd) out.
Proof.
  intros Hc. pose proof (cdw_range cmd 0 Hc) as H0. pose proof (le32_range cmd 4 Hc) as Hn.
  unfold identify, identify_response. cbv zeta. rewrite shiftr8_truthy by done.
  unfold all_zero. cbn [forallb]. unfold truthy.
  repeat match goal with
  | |- context [cdw cmd ?i =? 0] =>
      lazymatch i with 0 => fail | _ => destruct (cdw cmd i =? 0); cbn [negb andb orb] end
  end; rewrite ?orb_true_r, ?andb_false_r, ?orb_false_r, ?andb_true_r; try reflexivity.
  destruct (Z.ltb_spec (cdw cmd 0) 256) as [Hs|]; cbn [negb]; [| done].
  change 255 with (2 ^ 8 - 1). rewrite land_ones_mod, Z.mod_small by (unfold in_w in H0; lia).
  destruct (cdw cmd 0 =? 0); [| destruct (cdw cmd 0 =? 1); [| destruct (cdw cmd 0 =? 2)]].
  - unfold namespaces. rewrite identify_namespace_layout.
    destruct (paired p), (Z.eqb_spec (le32 cmd 4) 1), (Z.eqb_spec (le32 cmd 4) 2); try lia;
      cbn [existsb andb orb negb];
      repeat match goal with H : le32 cmd 4 = _ |- _ => rewrite H; clear H end;
      cbn [existsb andb orb negb Z.eqb Pos.eqb];
      repeat match goal with H : le32 cmd 4 <> _ |- _ => apply Z.eqb_neq in H; rewrite ?H; clear H end;
      cbn [orb];
      rewrite ?identify_namespace_layout; unfold answered; cbn [fst snd];
      rewrite ?zlen_namespace_image; try reflexivity; lia.
  - destruct (le32 cmd 4 =? 0), (le32 cmd 4 =? UINT32_MAX); cbn [andb orb negb];
      rewrite ?identify_controller_layout; unfold answered; cbn [fst snd];
      rewrite ?zlen_controller_image; reflexivity.
  - rewrite identify_active_list_layout by apply Hn. unfold answered; cbn [fst snd].
    by rewrite zlen_list_image.
  - reflexivity.
Qed.

Lemma get_log_page_spec cmd out :
  bytes_ok cmd -> get_log_page cmd out = answered (log_response cmd) out.
Proof.
  intros Hc. destruct (log_length cmd Hc) as (En & Hn & Eb).
  unfold get_log_page, log_response. cbv zeta. rewrite Eb, <- En.
  set (numd := (_ .>> 16) .| _) in *. change 255 with (2 ^ 8 - 1).
  rewrite land_ones_mod by lia. change (2 ^ 8) with 256. set (lid := cdw cmd 0 mod 256).
  unfold all_zero. cbn [forallb]. unfold truthy.
  destruct (cdw cmd 2 =? 0), (cdw cmd 3 =? 0); cbn [negb andb orb];
    rewrite ?orb_true_r, ?andb_false_r, ?orb_false_r, ?andb_true_r; try reflexivity.
  pose proof (get_log_page_layout lid (4 * (numd + 1)) out ltac:(lia)) as El.
  cbv zeta in El. rewrite El. clear El.
  replace (negb (lid =? 1) && negb (lid =? 2) && negb (lid =? 3) || (4096 <? 4 * (numd + 1)))
    with (negb ((1 <=? lid) && (lid <=? 3) && (numd <? 1024))).
  - destruct (_ && _ && _); cbn [negb]; [| done]. unfold answered; cbn [fst snd].
    by rewrite zlen_log_image by lia.
  - rewrite <- !negb_orb. destruct (Z.eqb_spec lid 1), (Z.eqb_spec lid 2), (Z.eqb_spec lid 3),
      (Z.leb_spec 1 lid), (Z.leb_spec lid 3), (Z.ltb_spec 4096 (4 * (numd + 1))),
      (Z.ltb_spec numd 1024); cbn; try done; lia.
Qed.

Lemma payload_refines_aux p cmd out r :
  bytes_ok cmd -> policy_valid p = true -> 4096 <= zlen out ->
  nwoas_admin_payload (Some cmd) 64 (Some p) (Some out) (zlen out) (Some r) =
  match response p cmd with
  | None => (0, Some out, Some (mk_payload_result 2 0))
  | Some st =>
      (1, Some (st.2 ++ zdrop (zlen st.2) out), Some (mk_payload_result st.1 (zlen st.2)))
  end.
Proof.
  intros Hc Hp Ho. unfold nwoas_admin_payload, response. rewrite Hp.
  destruct (Z.ltb_spec (zlen out) 4096); [lia |]. cbn [negb orb Z.eqb Pos.eqb].
  rewrite <- negb_orb. destruct (_ || _) eqn:Eop; cbn [negb]; [| done].
  unfold truthy. rewrite <- negb_andb. destruct (_ && _); cbn [negb]; [| done].
  destruct (byte_at cmd 0 =? 6).
  - by rewrite identify_spec by done.
  - by rewrite get_log_page_spec by done.
Qed.

(** C10. The builder refines the field-by-field specification: for a valid
    policy, a 64-byte command and a buffer of at least 4096 bytes it returns 0
    and touches nothing when the opcode is not its own, and otherwise writes
    exactly the specified body at the start of the buffer, leaves the rest of
    the buffer alone and reports the body's length; an error has an empty
    body.  In particular no byte of the old buffer content is in a response. *)
Theorem payload_refines p cmd out r :
  bytes_ok cmd -> policy_valid p = true -> 4096 <= zlen out ->
  nwoas_admin_payload (Some cmd) 64 (Some p) (Some out) (zlen out) (Some r) =
  match response p cmd with
  | None => (0, Some out, Some (mk_payload_result 2 0))
  | Some (status, body) =>
      (1, Some (body ++ zdrop (zlen body) out), Some (mk_payload_result status (zlen body)))
  end.
Proof.
  intros Hc Hp Ho. rewrite payload_refines_aux by done. by destruct (response p cmd) as [[]|].
Qed.

(** ** Enumerating the namespaces *)

(** An Identify command with the given NSID, CNS and data pointers. *)
Definition identify_command (cid nsid cns prp1 prp2 : Z) : list Z :=
  [6; 0] ++ le_bytes 2 cid ++ le_bytes 4 nsid ++ zeros 16 ++ le_bytes 8 prp1 ++
  le_bytes 8 prp2 ++ le_bytes 4 cns ++ zeros 20.

Lemma le32_app a v l : le32 (a ++ le_bytes 4 v ++ l) (zlen a) = u32 v.
Proof.
  unfold le32. rewrite <- (Z.add_0_r (zlen a)), <- !Z.add_assoc, !byte_at_app_r by lia.
  change (byte_at (le_bytes 4 v ++ l) 0) with (u8 v).
  change (byte_at (le_bytes 4 v ++ l) (0 + 1)) with (u8 (v .>> 8)).
  change (byte_at (le_bytes 4 v ++ l) (0 + 2)) with (u8 ((v .>> 8) .>> 8)).
  change (byte_at (le_bytes 4 v ++ l) (0 + 3)) with (u8 (((v .>> 8) .>> 8) .>> 8)).
  rewrite !Z.shiftr_shiftr by lia.
  transitivity (or_bytes (fun i => u8 (v .>> (8 * i))) 4); [done |].
  rewrite (or_bytes_slice _ v 0); [by rewrite Z.mul_0_r, Z.shiftr_0_r | lia |].
  intros i _. by rewrite Z.add_0_l.
Qed.

Lemma identify_command_fields cid nsid cns prp1 prp2 :
  let cmd := identify_command cid nsid cns prp1 prp2 in
  bytes_ok cmd /\ byte_at cmd 0 = 6 /\ byte_at cmd 1 = 0 /\ le64 cmd 16 = 0 /\
  le32 cmd 4 = u32 nsid /\ cdw cmd 0 = u32 cns /\ all_zero cmd [1; 2; 3; 4; 5] = true.
Proof.
  intros cmd.
  assert (Ens : le32 cmd 4 = u32 nsid) by (apply (le32_app ([6; 0] ++ le_bytes 2 cid))).
  assert (Ecns : cdw cmd 0 = u32 cns).
  { unfold cdw, cmd, identify_command. pose proof (le32_app ([6; 0] ++ le_bytes 2 cid ++
      le_bytes 4 nsid ++ zeros 16 ++ le_bytes 8 prp1 ++ le_bytes 8 prp2) cns (zeros 20)) as E.
    rewrite <- !app_assoc in E. exact E. }
  split_and!; try done.
  unfold cmd, identify_command. rewrite !bytes_ok_app. split_and!; auto with words.
  repeat constructor; lia.
Qed.

Lemma identify_command_response p cid nsid cns prp1 prp2 :
  0 <= nsid < 2 ^ 32 -> 0 <= cns < 256 ->
  response p (identify_command cid nsid cns prp1 prp2) = Some (
    if cns =? 0 then
      if existsb (Z.eqb nsid) (namespaces p)
      then (0, namespace_image (if nsid =? 1 then primary_lbas p else link_lbas p)
                 ((nsid =? 1) && primary_readonly p))
      else (0xb, [])
    else if cns =? 1 then
      if (nsid =? 0) || (nsid =? 0xffffffff) then (0, controller_image p) else (0xb, [])
    else if cns =? 2 then (0, list_image (filter (fun n => nsid < n) (namespaces p)))
    else (2, [])).
Proof.
  intros Hn Hcns.
  destruct (identify_command_fields cid nsid cns prp1 prp2) as (_ & E0 & E1 & E2 & E3 & E4 & E5).
  unfold response, identify_response. rewrite E0, E1, E2, E3, E4, E5.
  rewrite !wrap_small by (unfold in_w; lia). destruct (Z.ltb_spec cns 256); [done | lia].
Qed.

Lemma list_image_entry p rest k :
  0 <= k < 1024 ->
  le32 (list_image (namespaces p) ++ rest) (4 * k) =
  if k =? 0 then 1 else if (k =? 1) && paired p then 2 else 0.
Proof.
  intros Hk. unfold list_image, namespaces.
  assert (Hz : forall a m, zlen a <= 4 * k -> 4 * k + 4 <= zlen a + m ->
    le32 ((a ++ zeros m) ++ rest) (4 * k) = 0).
  { intros a m H1 H2. unfold le32. pose proof (zlen_nonneg a).
    assert (Hb : forall j, zlen a <= j < zlen a + m -> byte_at ((a ++ zeros m) ++ rest) j = 0).
    { intros j Hj. rewrite byte_at_app_l by (rewrite zlen_app, zlen_zeros; lia).
      replace j with (zlen a + (j - zlen a)) by lia. rewrite byte_at_app_r by lia.
      apply byte_at_zeros. }
    by rewrite !Hb by lia. }
  destruct (Z.eqb_spec k 0) as [->|]; [by destruct (paired p) |].
  destruct (paired p); cbn [map concat].
  - destruct (Z.eqb_spec k 1) as [->|]; [done |]. apply Hz; layout_norm; lia.
  - rewrite andb_false_r. apply Hz; layout_norm; lia.
Qed.

(** Namespace enumeration is sound and complete: a namespace id is
    answered by Identify Namespace exactly when it is a (nonzero) entry of the
    active list read with NSID 0, whatever the buffers held. *)
Theorem active_list_complete p cid nsid prp1 prp2 out r :
  policy_valid p = true -> 4096 <= zlen out -> 1 <= nsid < 2 ^ 32 ->
  let run ns cns := nwoas_admin_payload (Some (identify_command cid ns cns prp1 prp2)) 64
                      (Some p) (Some out) (zlen out) (Some r) in
  (exists o, run nsid 0 = (1, Some o, Some (mk_payload_result 0 4096))) <->
  (exists o k, run 0 2 = (1, Some o, Some (mk_payload_result 0 4096)) /\
     0 <= k < 1024 /\ le32 o (4 * k) = nsid).
Proof.
  intros Hp Ho Hn run.
  assert (Hb : forall ns cns, bytes_ok (identify_command cid ns cns prp1 prp2))
    by (intros; apply identify_command_fields).
  assert (E2 : run 0 2 = (1, Some (list_image (namespaces p) ++ zdrop 4096 out),
                          Some (mk_payload_result 0 4096))).
  { unfold run. rewrite payload_refines_aux by auto. rewrite identify_command_response by lia.
    cbn [Z.eqb Pos.eqb fst snd]. rewrite zlen_list_image. do 6 f_equal.
    unfold namespaces. by destruct (paired p). }
  rewrite E2.
  assert (E0 : run nsid 0 = if existsb (Z.eqb nsid) (namespaces p)
    then (1, Some (namespace_image (if nsid =? 1 then primary_lbas p else link_lbas p)
                 ((nsid =? 1) && primary_readonly p) ++ zdrop 4096 out),
          Some (mk_payload_result 0 4096))
    else (1, Some out, Some (mk_payload_result 0xb 0))).
  { unfold run. rewrite payload_refines_aux by auto. rewrite identify_command_response by lia.
    cbn [Z.eqb Pos.eqb]. destruct (existsb _ _); cbn [fst snd]; [by rewrite zlen_namespace_image | done]. }
  rewrite E0. split.
  - intros (o & Ee). exists (list_image (namespaces p) ++ zdrop 4096 out), (nsid - 1).
    split; [reflexivity |]. revert Ee. unfold namespaces at 1.
    destruct (paired p) eqn:Ep; cbn [existsb];
      (destruct (Z.eqb_spec nsid 1) as [E|], (Z.eqb_spec nsid 2) as [E'|]);
      cbn [orb]; intros Ee; try discriminate; try lia; (split; [lia |]);
      rewrite list_image_entry, Ep by lia; by subst nsid.
  - intros (o & k & Eo & Hk & El). injection Eo as <-.
    rewrite list_image_entry in El by done. unfold namespaces.
    destruct (paired p), (Z.eqb_spec k 0), (Z.eqb_spec k 1); cbn in El; subst nsid; try lia;
      by eexists.
Qed.

(** ** Instances *)

Definition demo_policy : nwoas_identity_policy := mk_policy 0x3a38c20 0x100000 8 true true true.
Definition demo_out : list Z := replicate 4096 0xa5.
Definition demo_result : nwoas_admin_payload_result := mk_payload_result 0 0.

Lemma payload_refines_witness :
  response demo_policy (identify_command 7 1 0 0x1000 0) =
    Some (0, namespace_image 0x3a38c20 true) /\
  nwoas_admin_payload (Some (identify_command 7 1 0 0x1000 0)) 64 (Some demo_policy)
    (Some demo_out) (zlen demo_out) (Some demo_result) =
  match response demo_policy (identify_command 7 1 0 0x1000 0) with
  | None => (0, Some demo_out, Some (mk_payload_result 2 0))
  | Some (status, body) =>
      (1, Some (body ++ zdrop (zlen body) demo_out), Some (mk_payload_result status (zlen body)))
  end.
Proof.
  split; [vm_compute; reflexivity |].
  apply (payload_refines demo_policy (identify_command 7 1 0 0x1000 0) demo_out demo_result);
    [apply identify_command_fields | reflexivity | vm_compute; discriminate].
Defined.

Lemma active_list_complete_witness :
  exists o k, nwoas_admin_payload (Some (identify_command 7 0 2 0x1000 0)) 64 (Some demo_policy)
      (Some demo_out) (zlen demo_out) (Some demo_result) =
      (1, Some o, Some (mk_payload_result 0 4096)) /\ 0 <= k < 1024 /\ le32 o (4 * k) = 2.
Proof.
  apply (active_list_complete demo_policy 7 2 0x1000 0 demo_out demo_result);
    [reflexivity | vm_compute; discriminate | lia |].
  eexists. vm_compute. reflexivity.
Defined.
