(* ===== verification/AdminState.v ===== *)
(** * Admin command state ([native-s226/admin_state.c], [.h])

    The I/O queue descriptors, features and the held asynchronous event of the
    controller, and the execution of one admin command.  [nwoas_admin_execute]
    acts on any store that holds the state, so that the cache callbacks can
    change the rest of that store; the output buffer is passed and returned. *)

From S2P Require Import Prelude AdminPayload.

Record nwoas_io_queue := mk_queue {
  q_base : Z;
  q_depth : Z;
  q_cqid : Z;
  q_present : bool;
  q_ien : bool;
}.

Record nwoas_admin_state := mk_admin {
  sq : nwoas_io_queue;
  cq : nwoas_io_queue;
  features : list Z;
  sq_generation : Z;
  cq_generation : Z;
  aer_cid : Z;
  aer_present : bool;
}.
#[export] Instance admin_eta : Eta nwoas_admin_state := fun s =>
  mk_admin (sq s) (cq s) (features s) (sq_generation s) (cq_generation s) (aer_cid s)
    (aer_present s).

(** NULL callbacks are [None]. *)
Record nwoas_admin_callbacks (S : Type) := {
  ac_contains : option (Z -> Z -> M S bool);
  ac_set_cache : option (bool -> M S bool);
  ac_get_cache : option (M S Z);
}.
#[global] Arguments ac_contains {S} _.
#[global] Arguments ac_set_cache {S} _.
#[global] Arguments ac_get_cache {S} _.

Record nwoas_admin_result := mk_admin_result {
  ar_result : Z;
  ar_bytes : Z;
  ar_status : Z;
  ar_changed : Z;
  ar_deferred : bool;
}.

(** ** Operations on the state *)

Definition get32 (p : list Z) (o : Z) : Z :=
  byte_at p o .| (byte_at p (o + 1) .<< 8) .| (byte_at p (o + 2) .<< 16) .|
  (byte_at p (o + 3) .<< 24).

Definition get64 (p : list Z) (o : Z) : Z := get32 p o .| (get32 p (o + 4) .<< 32).

Definition clear_queue : nwoas_io_queue := mk_queue 0 0 0 false false.

(** [x++] on a 64-bit counter. *)
Definition incr64 (x : Z) : Z := u64 (x + 1).

Definition admin_reset (full : bool) (s : nwoas_admin_state) : nwoas_admin_state := {|
  sq_generation := if q_present (sq s) then incr64 (sq_generation s) else sq_generation s;
  cq_generation := if q_present (cq s) then incr64 (cq_generation s) else cq_generation s;
  sq := clear_queue;
  cq := clear_queue;
  aer_present := false;
  aer_cid := 0;
  features := if full then <[6%nat := 1]> (replicate 12 0) else features s;
|}.

Definition admin_init (s : nwoas_admin_state) : nwoas_admin_state :=
  admin_reset true
    (mk_admin clear_queue clear_queue (features s) 0 0 (aer_cid s) (aer_present s)).

(** ** Command execution *)

Section admin.
Context {S : Type} `{!Lens S nwoas_admin_state} (cb : nwoas_admin_callbacks S).

Definition nwoas_admin_reset (full : bool) : M S unit := lmodify (admin_reset full).
Definition nwoas_admin_init : M S unit := lmodify admin_init.

Definition queue_valid (base depth stride : Z) : M S bool :=
  if (depth <? 2) || (256 <? depth) || negb (truthy base) || truthy (base .& 4095)
  then mret false
  else
    match ac_contains cb with
    | None => mret false
    | Some contains =>
        let bytes := u32 (depth * stride) in
        if base <=? UINT64_MAX - bytes then contains base bytes else mret false
    end.

Definition r0 : nwoas_admin_result := mk_admin_result 0 0 2 0 false.

(** Create I/O Submission/Completion Queue (opcodes 1 and 5). *)
Definition create_queue (op : Z) (cmd : list Z) : proc S nwoas_admin_result nwoas_admin_result :=
  let ns := get32 cmd 4 in
  let dw i := get32 cmd (40 + 4 * i) in
  let qid := dw 0 .& 65535 in
  let depth := u32 ((dw 0 .>> 16) + 1) in
  let base := get64 cmd 24 in
  when (truthy ns || negb (qid =? 1) || negb (truthy (dw 1 .& 1))) (exit r0);;
  ok ← call (queue_valid base depth (if op =? 5 then 16 else 64));
  when (negb ok) (exit r0);;
  s ← call (lgets id);
  if op =? 5 then
    when (q_present (cq s) || truthy (dw 1 .>> 16)) (exit r0);;
    call (lmodify (fun s => s <| cq := mk_queue base (u16 depth) 0 true (truthy (dw 1 .& 2)) |>));;
    call (lmodify (fun s => s <| cq_generation := incr64 (cq_generation s) |>));;
    mret (mk_admin_result 0 0 0 2 false)
  else
    when (q_present (sq s) || negb (dw 1 .>> 16 =? 1) || negb (q_present (cq s))) (exit r0);;
    call (lmodify (fun s => s <| sq := mk_queue base (u16 depth) 1 true false |>));;
    call (lmodify (fun s => s <| sq_generation := incr64 (sq_generation s) |>));;
    mret (mk_admin_result 0 0 0 1 false).

(** Delete I/O Submission/Completion Queue (opcodes 0 and 4). *)
Definition delete_queue (op : Z) (cmd : list Z) : proc S nwoas_admin_result nwoas_admin_result :=
  let dw i := get32 cmd (40 + 4 * i) in
  when (negb (dw 0 .& 65535 =? 1)) (exit r0);;
  s ← call (lgets id);
  when (negb (q_present (if op =? 0 then sq s else cq s))) (exit r0);;
  when ((op =? 4) && q_present (sq s)) (exit (mk_admin_result 0 0 0x10c 0 false));;
  if op =? 0 then
    call (lmodify (fun s => s <| sq := clear_queue |>));;
    call (lmodify (fun s => s <| sq_generation := incr64 (sq_generation s) |>));;
    mret (mk_admin_result 0 0 0 1 false)
  else
    call (lmodify (fun s => s <| cq := clear_queue |>));;
    call (lmodify (fun s => s <| cq_generation := incr64 (cq_generation s) |>));;
    mret (mk_admin_result 0 0 0 2 false).

(** The feature identifiers the code stores. *)
Definition feature_known (fid : Z) : bool :=
  negb (negb (fid =? 1) && negb (fid =? 2) && negb (fid =? 4) && negb (fid =? 5) &&
        negb (fid =? 6) && negb (fid =? 8) && negb (fid =? 9) && negb (fid =? 10) &&
        negb (fid =? 11)).

(** Volatile Write Cache (feature 6) when the owner supplies the callbacks.
    [nwoas_admin_execute] has checked that both are present. *)
Definition cache_feature (op : Z) (cmd : list Z) (set_cache : bool -> M S bool) :
    proc S nwoas_admin_result nwoas_admin_result :=
  let dw i := get32 cmd (40 + 4 * i) in
  when (truthy (dw 0 .& cnot 32 0x7ff) || truthy (dw 2) || truthy (dw 3) || truthy (dw 4) ||
        truthy (dw 5)) (exit r0);;
  let sel := (dw 0 .>> 8) .& 7 in
  when (op =? 10) (
    when (sel =? 1) (exit (mk_admin_result 1 0 0 0 false));;
    when (sel =? 3) (exit (mk_admin_result 4 0 0 0 false));;
    when (truthy sel) (exit r0));;
  when ((op =? 9) && (truthy sel || truthy (dw 1 .& cnot 32 1))) (exit r0);;
  changed ← (if op =? 9 then
               ok ← call (set_cache (truthy (dw 1)));
               when (negb ok) (exit (mk_admin_result 0 0 6 0 false));;
               mret 4
             else mret 0);
  match ac_get_cache cb with
  | None => mret r0
  | Some get_cache =>
      v ← call get_cache;
      mret (mk_admin_result v 0 0 changed false)
  end.

(** Set/Get Features (opcodes 9 and 10). *)
Definition feature_command (op : Z) (cmd : list Z) :
    proc S nwoas_admin_result nwoas_admin_result :=
  let dw i := get32 cmd (40 + 4 * i) in
  let fid := dw 0 .& 255 in
  when (fid =? 7) (exit (mk_admin_result 0 0 0 0 false));;
  when (negb (feature_known fid)) (exit r0);;
  match (if fid =? 6 then ac_set_cache cb else None) with
  | Some set_cache => cache_feature op cmd set_cache
  | None =>
      (if op =? 9 then
         call (lmodify (fun s => s <| features := <[Z.to_nat fid := dw 1]> (features s) |>))
       else mret tt);;
      s ← call (lgets id);
      mret (mk_admin_result (nth (Z.to_nat fid) (features s) 0) 0 0 0 false)
  end.

(** Asynchronous Event Request (opcode 12): held, never completed. *)
Definition aer_command (cmd : list Z) : proc S nwoas_admin_result nwoas_admin_result :=
  s ← call (lgets id);
  when (aer_present s) (exit (mk_admin_result 0 0 0x105 0 false));;
  call (lmodify (fun s => s <| aer_present := true |>));;
  call (lmodify (fun s => s <| aer_cid := byte_at cmd 2 .| (byte_at cmd 3 .<< 8) |>));;
  mret (mk_admin_result 0 0 0 0 true).

(** The dispatch on the opcode. *)
Definition admin_command (cmd : list Z) : M S nwoas_admin_result := body (
  let op := byte_at cmd 0 in
  if (op =? 1) || (op =? 5) then create_queue op cmd
  else if (op =? 0) || (op =? 4) then delete_queue op cmd
  else if (op =? 9) || (op =? 10) then feature_command op cmd
  else if op =? 12 then aer_command cmd
  else if op =? 8 then mret (mk_admin_result 1 0 0 0 false)
  else mret (mk_admin_result 0 0 1 0 false)).

(** [present] is whether the state pointer is not NULL; the result pairs the
    return value with the buffer and the result structure after the call. *)
Definition nwoas_admin_execute (present : bool) (policy : option nwoas_identity_policy)
    (cmd : option (list Z)) (n : Z) (out : option (list Z)) (cap : Z)
    (r : option nwoas_admin_result) :
    M S (Z * option (list Z) * option nwoas_admin_result) :=
  match r with
  | None => mret (-1, out, None)
  | Some _ =>
      match cmd with
      | None => mret (-1, out, Some r0)
      | Some c =>
          if negb present || negb (n =? 64) || negb (bool_decide (is_Some policy)) ||
             negb (bool_decide (is_Some out)) || (cap <? 4096) ||
             negb (eqb (bool_decide (is_Some (ac_set_cache cb)))
                       (bool_decide (is_Some (ac_get_cache cb))))
          then mret (-1, out, Some r0)
          else
            match nwoas_admin_payload cmd n policy out cap (Some (mk_payload_result 0 0)) with
            | (handled, out', payload) =>
                if handled <? 0 then mret (-1, out', Some r0)
                else if truthy (byte_at c 1) || truthy (get64 c 16) then mret (1, out', Some r0)
                else
                  match payload with
                  | Some p =>
                      if truthy handled then
                        mret (1, out', Some (mk_admin_result 0 (pr_bytes p) (pr_status p) 0 false))
                      else r' ← admin_command c; mret (1, out', Some r')
                  | None => mret (-1, out', Some r0)
                  end
            end
      end
  end.
End admin.

(** ** Specification vocabulary *)

Definition queue_ok (stride cqid : Z) (q : nwoas_io_queue) : Prop :=
  if q_present q then
    queue_geometry (q_base q) (q_depth q) stride /\ 0 <= q_base q /\ q_cqid q = cqid
  else q = clear_queue.

(** A descriptor is either clear or of a valid geometry, SQ1 exists only over
    CQ1, and no AER id is kept once the request is gone. *)
Record admin_inv (s : nwoas_admin_state) : Prop := {
  inv_features : length (features s) = 12%nat /\ Forall (in_w 32) (features s);
  inv_sq : queue_ok 64 1 (sq s);
  inv_cq : queue_ok 16 0 (cq s);
  inv_bound : q_present (sq s) = true -> q_present (cq s) = true;
  inv_aer : in_w 16 (aer_cid s) /\ (aer_present s = false -> aer_cid s = 0);
  inv_gen : in_w 64 (sq_generation s) /\ in_w 64 (cq_generation s);
}.

(** What the result of a command says about its effect on the state. *)
Record admin_report (s : nwoas_admin_state) (r : nwoas_admin_result)
    (s' : nwoas_admin_state) : Prop := {
  rep_error : ar_status r <> 0 ->
    s' = s /\ ar_bytes r = 0 /\ ar_changed r = 0 /\ ar_deferred r = false;
  rep_changed : ar_changed r = 0 \/ ar_changed r = 1 \/ ar_changed r = 2 \/ ar_changed r = 4;
  rep_sq : if ar_changed r =? 1
    then q_present (sq s') = negb (q_present (sq s)) /\
         sq_generation s' = incr64 (sq_generation s)
    else sq s' = sq s /\ sq_generation s' = sq_generation s;
  rep_cq : if ar_changed r =? 2
    then q_present (cq s') = negb (q_present (cq s)) /\
         cq_generation s' = incr64 (cq_generation s)
    else cq s' = cq s /\ cq_generation s' = cq_generation s;
  rep_aer : if ar_deferred r
    then aer_present s = false /\ aer_present s' = true /\ ar_bytes r = 0
    else aer_present s' = aer_present s /\ aer_cid s' = aer_cid s;
  rep_features : ar_changed r <> 0 -> features s' = features s /\ ar_bytes r = 0;
  rep_bytes : 0 <= ar_bytes r <= 4096;
  rep_status : in_w 11 (ar_status r);
}.

(** The callbacks leave the admin state alone. *)
Class AdminEnv {S} `{!Lens S nwoas_admin_state} (cb : nwoas_admin_callbacks S) : Prop := {
  ac_env_contains f b n : ac_contains cb = Some f -> keeps lget (f b n);
  ac_env_set f v : ac_set_cache cb = Some f -> keeps lget (f v);
  ac_env_get f : ac_get_cache cb = Some f -> keeps lget f;
}.

(** ** Each handler *)

Definition command_ok (s : nwoas_admin_state) (r : nwoas_admin_result)
    (s' : nwoas_admin_state) : Prop := admin_inv s' /\ admin_report s r s'.

#[local] Hint Extern 0 (in_w 11 _) => (split; [lia | reflexivity]) : core.

Lemma report_error s st :
  st <> 0 -> in_w 11 st -> admin_report s (mk_admin_result 0 0 st 0 false) s.
Proof. intros. split; cbn; auto; lia. Qed.

Lemma report_value s v c :
  c = 0 \/ c = 4 -> admin_report s (mk_admin_result v 0 0 c false) s.
Proof. intros [-> | ->]; split; cbn; auto; try lia; by split. Qed.

Lemma error_ok s st :
  st <> 0 /\ in_w 11 st -> admin_inv s -> command_ok s (mk_admin_result 0 0 st 0 false) s.
Proof. intros []. split; [done |]. by apply report_error. Qed.

Lemma value_ok s v c :
  c = 0 \/ c = 4 -> admin_inv s -> command_ok s (mk_admin_result v 0 0 c false) s.
Proof. intros. split; [done | by apply report_value]. Qed.

Lemma get32_range p o : bytes_ok p -> in_w 32 (get32 p o).
Proof. apply le32_range. Qed.

Lemma get64_nonneg p o : bytes_ok p -> 0 <= get64 p o.
Proof.
  intros Hp. unfold get64. pose proof (get32_range p o Hp). pose proof (get32_range p (o + 4) Hp).
  unfold in_w in *. apply Z.lor_nonneg. rewrite Z.shiftl_nonneg. lia.
Qed.

Lemma incr64_range x : in_w 64 (incr64 x).
Proof. by apply wrap_range. Qed.
#[local] Hint Resolve incr64_range : core.

Lemma set_cq_ok a q :
  admin_inv a -> queue_ok 16 0 q -> q_present q = negb (q_present (cq a)) ->
  (q_present (sq a) = true -> q_present q = true) ->
  command_ok a (mk_admin_result 0 0 0 2 false)
    (mk_admin (sq a) q (features a) (sq_generation a) (incr64 (cq_generation a)) (aer_cid a)
       (aer_present a)).
Proof. intros [] Hq Hp Hb. split; split; cbn; try lia; intuition auto. Qed.

Lemma set_sq_ok a q :
  admin_inv a -> queue_ok 64 1 q -> q_present q = negb (q_present (sq a)) ->
  (q_present q = true -> q_present (cq a) = true) ->
  command_ok a (mk_admin_result 0 0 0 1 false)
    (mk_admin q (cq a) (features a) (incr64 (sq_generation a)) (cq_generation a) (aer_cid a)
       (aer_present a)).
Proof. intros [] Hq Hp Hb. split; split; cbn; try lia; intuition auto. Qed.

Lemma geometry_queue base depth stride cqid ien :
  queue_geometry base (u32 depth) stride -> 0 <= base ->
  queue_ok stride cqid (mk_queue base (u16 (u32 depth)) cqid true ien).
Proof.
  intros Hg Hb. split; cbn; [| done]. rewrite wrap_small; [done |].
  destruct Hg as [Hd _]. split; [lia |]. change (2 ^ 16) with 65536. lia.
Qed.

Section handlers.
Context {S : Type} `{!Lens S nwoas_admin_state} (cb : nwoas_admin_callbacks S) `{!AdminEnv cb}.

Local Abbreviation adm s := (lget (A := nwoas_admin_state) s).

(** Post-condition shared by the handlers: the returned or fallen-through
    result describes the effect. *)
Definition handler_post (s : S) (r : nwoas_admin_result + nwoas_admin_result) (s' : S) : Prop :=
  command_ok (adm s) (match r with inl r | inr r => r end) (adm s').

Lemma admin_queue_valid_spec base depth stride (s : S) :
  0 <= stride <= 64 ->
  mwp (queue_valid cb base depth stride) (fun ok s' =>
    adm s' = adm s /\ (ok = true -> queue_geometry base depth stride)) s.
Proof.
  intros Hst. unfold queue_valid. wp_step; [by wp_run |].
  destruct (ac_contains cb) as [f|] eqn:E; [| by wp_run]. cbv zeta. wp_run; [| done].
  assert (queue_geometry base depth stride).
  { bool_props. assert (in_w 32 (depth * stride)).
    { split; [nia |]. change (2 ^ 32) with 4294967296. nia. }
    rewrite wrap_small in * by done. split; [lia |]. split_and!; done || lia. }
  eapply mwp_cb; [by apply ac_env_contains |]. by intros ok s' ->.
Qed.

Lemma create_queue_spec op cmd (s : S) :
  bytes_ok cmd -> admin_inv (adm s) -> wp (create_queue cb op cmd) (handler_post s) s.
Proof.
  intros Hb Hi. pose proof (get64_nonneg cmd 24 Hb) as Hbase.
  assert (He : forall s', adm s' = adm s -> handler_post s (inl r0) s').
  { intros s' Hs. unfold handler_post. rewrite Hs. by apply error_ok. }
  unfold create_queue. wp_run; [by apply He |].
  eapply mwp_mono; [apply admin_queue_valid_spec; destruct (op =? 5); lia |].
  intros ok s1 [Hs1 Hg]. wp_run; [by apply He | by apply He | | by apply He |];
    unfold handler_post; lrw; destruct ok; try discriminate; specialize (Hg eq_refl);
    cbn in *; rewrite Hs1 in *; bool_hyps.
  - rewrite H1 in Hg. apply set_cq_ok; [done | by apply geometry_queue | cbn; by rewrite H2 | done].
  - rewrite H1 in Hg. apply set_sq_ok; [done | by apply geometry_queue | cbn; by rewrite H2 | done].
Qed.

Lemma delete_queue_spec op cmd (s : S) :
  op = 0 \/ op = 4 -> admin_inv (adm s) -> wp (delete_queue op cmd) (handler_post s) s.
Proof.
  intros Hop Hi. assert (He : forall st, st <> 0 /\ in_w 11 st ->
    handler_post s (inl (mk_admin_result 0 0 st 0 false)) s) by (intros; by apply error_ok).
  unfold delete_queue. wp_run; try (by apply He); unfold handler_post; lrw; cbn in *; bool_hyps.
  - rewrite H2 in H0. apply set_sq_ok; cbn; [done | done | by rewrite H0 | done].
  - rewrite H2 in H0. apply set_cq_ok; cbn; [done | done | by rewrite H0 |].
    destruct Hop as [-> | ->]; [done |]. cbn in *. congruence.
Qed.

Lemma get_cache_spec c (s s' : S) :
  c = 0 \/ c = 4 -> admin_inv (adm s) -> adm s' = adm s ->
  wp (match ac_get_cache cb with
      | None => mret r0
      | Some get_cache => v ← call get_cache; mret (mk_admin_result v 0 0 c false)
      end : proc S nwoas_admin_result _) (handler_post s) s'.
Proof.
  intros Hc Hi Hs. destruct (ac_get_cache cb) as [g|] eqn:E; wp_run.
  - eapply mwp_cb; [by apply ac_env_get |]. intros v s1 E1. wp_run. unfold handler_post.
    rewrite E1, Hs. by apply value_ok.
  - unfold handler_post. rewrite Hs. by apply error_ok.
Qed.

Lemma cache_feature_spec op cmd f (s : S) :
  ac_set_cache cb = Some f -> admin_inv (adm s) ->
  wp (cache_feature cb op cmd f) (handler_post s) s.
Proof.
  intros Ef Hi. unfold cache_feature.
  assert (He : forall st, st <> 0 /\ in_w 11 st -> handler_post s (inl (mk_admin_result 0 0 st 0 false)) s)
    by (intros; by apply error_ok).
  assert (Hv : forall v, handler_post s (inl (mk_admin_result v 0 0 0 false)) s)
    by (intros; apply value_ok; auto).
  assert (Hset : mwp (f (truthy (get32 cmd (40 + 4 * 1)))) (fun _ s' => adm s' = adm s) s)
    by (by apply mwp_iff, ac_env_set).
  wp_run; try (by apply He); try apply Hv; try (apply get_cache_spec; auto; done);
    (eapply mwp_mono; [exact Hset |]); intros ok s' Hs'; wp_run;
    try (unfold handler_post; rewrite Hs'; by apply error_ok); apply get_cache_spec; auto.
Qed.

Lemma feature_command_spec op cmd (s : S) :
  bytes_ok cmd -> admin_inv (adm s) -> wp (feature_command cb op cmd) (handler_post s) s.
Proof.
  intros Hc Hi. unfold feature_command.
  wp_run; [by apply value_ok; auto | by apply error_ok |].
  destruct (if _ =? 6 then _ else _) as [f|] eqn:Ef.
  { apply cache_feature_spec; [| done]. by case_match. }
  wp_run; unfold handler_post; lrw; [| by apply value_ok; auto].
  destruct Hi, inv_features0 as [Hl' Hf]. split; split; cbn; auto; try lia.
  split; [by rewrite length_insert | apply Forall_insert; [done |]; by apply get32_range].
Qed.

Lemma aer_command_spec cmd (s : S) :
  bytes_ok cmd -> admin_inv (adm s) -> wp (aer_command cmd) (handler_post s) s.
Proof.
  intros Hc Hi. unfold aer_command. wp_run; [by apply error_ok |].
  unfold handler_post. lrw. destruct Hi. split; split; cbn; auto; try lia; try done.
  split; [| done]. apply in_w_lor; [lia | |].
  - apply (in_w_mono 8); [lia |]. by apply byte_at_ok.
  - apply (in_w_shiftl 8); [lia | lia |]. by apply byte_at_ok.
Qed.

Lemma admin_command_spec cmd (s : S) :
  bytes_ok cmd -> admin_inv (adm s) ->
  mwp (admin_command cb cmd) (fun r s' => command_ok (adm s) r (adm s')) s.
Proof.
  intros Hc Hi. unfold admin_command. wp_run;
    try (first [apply value_ok | apply error_ok]; by auto).
  - by apply create_queue_spec.
  - apply delete_queue_spec; [| done]. destruct (Z.eqb_spec (byte_at cmd 0) 0); [by left |].
    destruct (Z.eqb_spec (byte_at cmd 0) 4); [by right | done].
  - by apply feature_command_spec.
  - by apply aer_command_spec.
Qed.
End handlers.

(** ** The whole command *)

Lemma response_shape p cmd st :
  bytes_ok cmd -> response p cmd = Some st ->
  0 <= zlen st.2 <= 4096 /\ (st.1 <> 0 -> zlen st.2 = 0) /\ in_w 11 st.1.
Proof.
  intros Hc. unfold response, identify_response, log_response.
  destruct (log_length cmd Hc) as (En & Hn & _). rewrite <- En.
  pose proof (@zlen_nil Z) as Hnil.
  intros H. repeat case_match; simplify_eq/=; rewrite ?zlen_namespace_image,
    ?zlen_controller_image, ?zlen_list_image; try (split_and!; [lia | lia | intros; first [done | lia] | auto]).
  bool_props. rewrite zlen_log_image by lia. split_and!; try lia; auto.
Qed.

Section execute.
Context {S : Type} `{!Lens S nwoas_admin_state} (cb : nwoas_admin_callbacks S) `{!AdminEnv cb}.

Local Abbreviation adm s := (lget (A := nwoas_admin_state) s).

(** The pointer and size checks, and the callbacks given together. *)
Definition args_ok (present : bool) (n cap : Z) : bool :=
  present && (n =? 64) && (4096 <=? cap) &&
  eqb (bool_decide (is_Some (ac_set_cache cb))) (bool_decide (is_Some (ac_get_cache cb))).

(** With its arguments in order the command is the response builder's when
    that claims the opcode, and dispatched on the state otherwise. *)
Lemma execute_dispatch p cmd out r (s : S) :
  bytes_ok cmd -> args_ok true 64 (zlen out) = true -> policy_valid p = true ->
  nwoas_admin_execute cb true (Some p) (Some cmd) 64 (Some out) (zlen out) (Some r) s =
  match response p cmd with
  | Some st => ((1, Some (st.2 ++ zdrop (zlen st.2) out),
                  Some (mk_admin_result 0 (zlen st.2) st.1 0 false)), s)
  | None =>
      if (byte_at cmd 1 =? 0) && (get64 cmd 16 =? 0)
      then (r' ← admin_command cb cmd; mret (1, Some out, Some r')) s
      else ((1, Some out, Some r0), s)
  end.
Proof.
  intros Hc Ha Hp. unfold args_ok in Ha. bool_props.
  unfold nwoas_admin_execute. rewrite payload_refines_aux by done.
  rewrite H0, (proj2 (Z.ltb_ge _ _)) by lia. rewrite !bool_decide_eq_true_2 by eauto.
  cbn [negb orb Z.eqb Pos.eqb]. unfold truthy. rewrite <- negb_andb.
  destruct (response p cmd) as [st|] eqn:Er; cbn [Z.ltb Z.compare pr_bytes pr_status].
  - change (get64 cmd 16) with (le64 cmd 16). unfold response in Er.
    destruct (_ || _); [| done]. injection Er as <-.
    destruct (_ && _); cbn [negb]; [done |]. reflexivity.
  - by destruct (_ && _).
Qed.

Lemma execute_invalid present p cmd n out cap r (s : S) :
  args_ok present n cap = false \/ policy_valid p = false ->
  exists r', nwoas_admin_execute cb present (Some p) (Some cmd) n (Some out) cap (Some r) s =
    ((-1, Some out, Some r'), s).
Proof.
  intros H. unfold nwoas_admin_execute. destruct (_ || _) eqn:E; [by eexists |]. bool_props.
  destruct H as [H|H].
  - unfold args_ok in H. rewrite H0, H5 in H. subst n.
    rewrite (proj2 (Z.leb_le _ _)), H1 in H by lia. done.
  - unfold nwoas_admin_payload. rewrite H, orb_true_r. by eexists.
Qed.

Lemma execute_spec present p cmd n out cap r (s : S) :
  bytes_ok cmd -> cap = zlen out -> admin_inv (adm s) ->
  mwp (nwoas_admin_execute cb present (Some p) (Some cmd) n (Some out) cap (Some r))
    (fun res s' => exists out' r', res.1.2 = Some out' /\ res.2 = Some r' /\
       zlen out' = zlen out /\ admin_inv (adm s') /\
       (res.1.1 = -1 /\ s' = s \/
        res.1.1 = 1 /\ policy_valid p = true /\ admin_report (adm s) r' (adm s'))) s.
Proof.
  intros Hc -> Hi. apply mwp_iff.
  destruct (args_ok present n (zlen out)) eqn:Ea.
  2: { destruct (execute_invalid present p cmd n out (zlen out) r s) as [r' ->]; [by left |].
       exists out, r'. auto 10. }
  destruct (policy_valid p) eqn:Ep.
  2: { destruct (execute_invalid present p cmd n out (zlen out) r s) as [r' ->]; [by right |].
       exists out, r'. auto 10. }
  assert (present = true /\ n = 64) as [-> ->] by (unfold args_ok in Ea; by bool_props).
  rewrite execute_dispatch by done. destruct (response p cmd) as [[st body]|] eqn:Er.
  - destruct (response_shape p cmd _ Hc Er) as (Hb & He & Hst). cbn [fst snd] in *.
    eexists _, _. split_and!; try done.
    + rewrite zlen_app, zlen_zdrop; [lia |].
      unfold args_ok in Ea. bool_props. lia.
    + right. split_and!; try done. split; cbn; auto; lia.
  - destruct (_ && _).
    + pose proof (admin_command_spec cb cmd s Hc Hi) as H. apply mwp_iff in H as [H1 H2].
      exists out, (admin_command cb cmd s).1. cbn. auto 10.
    + exists out, r0. cbn. split_and!; auto. right. split_and!; auto. by apply report_error.
Qed.
End execute.

(** A command touches only the admin state and what its callbacks touch. *)
Section frame.
Context {S B : Type} `{!Lens S nwoas_admin_state} (cb : nwoas_admin_callbacks S) (h : S -> B).
Hypothesis h_lset : forall a s, h (lset a s) = h s.
Hypothesis h_contains : forall f b n, ac_contains cb = Some f -> keeps h (f b n).
Hypothesis h_set : forall f v, ac_set_cache cb = Some f -> keeps h (f v).
Hypothesis h_get : forall f, ac_get_cache cb = Some f -> keeps h f.

Lemma lmodify_frame f (Q : unit -> S -> Prop) s :
  (forall s', h s' = h s -> Q tt s') -> mwp (lmodify f) Q s.
Proof. intros HQ. apply mwp_lmodify. intros s' -> _. apply HQ, h_lset. Qed.

Ltac frame_step := first
  [ lazymatch goal with
    | |- mwp (lmodify _) _ _ => apply lmodify_frame; let E := fresh "E" in intros ? E
    end
  | wp_step
  | lazymatch goal with
    | |- mwp ?m _ _ =>
        eapply mwp_cb; [first [by eapply h_contains | by eapply h_set | by eapply h_get] |];
        let E := fresh "E" in intros ? ? E
    end ].
Ltac frame_run := repeat frame_step; try congruence.

Lemma queue_valid_frame base depth stride : keeps h (queue_valid cb base depth stride).
Proof.
  apply keeps_mwp. intros s. unfold queue_valid. cbv zeta. frame_run.
  destruct (ac_contains cb) eqn:E; frame_run.
Qed.

Lemma create_queue_frame op cmd s : wp (create_queue cb op cmd) (fun _ s' => h s' = h s) s.
Proof.
  unfold create_queue. cbv zeta. frame_run.
  eapply mwp_cb; [apply queue_valid_frame |]. intros ok s1 E. frame_run.
Qed.

Lemma delete_queue_frame op cmd s : wp (delete_queue op cmd) (fun _ s' => h s' = h s) s.
Proof. unfold delete_queue. cbv zeta. frame_run. Qed.

Lemma feature_command_frame op cmd s :
  wp (feature_command cb op cmd) (fun _ s' => h s' = h s) s.
Proof.
  unfold feature_command. cbv zeta. frame_run.
  destruct (if _ =? 6 then _ else _) as [f|] eqn:Ef; [| frame_run].
  assert (Ef' : ac_set_cache cb = Some f) by (by case_match). clear Ef.
  unfold cache_feature. destruct (ac_get_cache cb) eqn:Eg; frame_run.
Qed.

Lemma admin_command_frame cmd : keeps h (admin_command cb cmd).
Proof.
  apply keeps_mwp. intros s. unfold admin_command. cbv zeta. frame_run.
  - apply create_queue_frame.
  - apply delete_queue_frame.
  - apply feature_command_frame.
  - unfold aer_command. frame_run.
Qed.

Lemma execute_frame present p cmd n out cap r :
  keeps h (nwoas_admin_execute cb present p cmd n out cap r).
Proof.
  apply keeps_mwp. intros s. unfold nwoas_admin_execute.
  repeat (case_match; frame_run).
  eapply mwp_cb; [apply admin_command_frame |]. intros ? ? ?. frame_run.
Qed.
End frame.

(** A command calls back before it changes the admin state: a store property that
    the callbacks keep still holds of the store up to that last change. *)
Section preserve.
Context {S : Type} `{!Lens S nwoas_admin_state} (cb : nwoas_admin_callbacks S) `{!AdminEnv cb} (I : S -> Prop).
Hypothesis I_contains : forall f b n s, ac_contains cb = Some f -> I s -> I (f b n s).2.
Hypothesis I_set : forall f v s, ac_set_cache cb = Some f -> I s -> I (f v s).2.
Hypothesis I_get : forall f s, ac_get_cache cb = Some f -> I s -> I (f s).2.
Context (a0 : nwoas_admin_state).

Definition before (s : S) : Prop := I s /\ lget s = a0.
Definition after (s : S) : Prop := exists s1 a, before s1 /\ s = lset a s1.

Lemma before_after s : before s -> after s.
Proof. intros Hs. exists s, (lget s). by rewrite lset_lget. Qed.
#[local] Hint Resolve before_after : core.

Lemma lmodify_after f (Q : unit -> S -> Prop) s : after s -> (forall s', after s' -> Q tt s') -> mwp (lmodify f) Q s.
Proof.
  intros (s1 & a & Hs & E) HQ. apply mwp_lmodify. intros s' -> _. apply HQ. exists s1, (f (lget s)). split; [done |].
  by rewrite E, lset_lset.
Qed.

Lemma cb_before {A} (m : M S A) (Q : A -> S -> Prop) s :
  before s -> I (m s).2 -> keeps lget m -> (forall a s', before s' -> Q a s') -> mwp m Q s.
Proof. intros [Hi Ha] H1 H2 HQ. apply mwp_iff, HQ. split; [done |]. by rewrite H2. Qed.

Ltac pres_step := first
  [ lazymatch goal with
    | |- mwp (lmodify _) _ _ => apply lmodify_after; [by auto |]; intros ? ?
    end
  | wp_step
  | lazymatch goal with
    | |- mwp _ _ _ =>
        eapply cb_before;
          [ done
          | first [eapply I_contains; [done |] | eapply I_set; [done |] | eapply I_get; [done |] ];
              match goal with Hb : before _ |- _ => apply Hb end
          | first [by eapply ac_env_contains | by eapply ac_env_set | by apply ac_env_get]
          | intros ? ? ? ]
    end ].
Ltac pres_run := repeat pres_step; auto.

Lemma queue_valid_before base depth stride s :
  before s -> mwp (queue_valid cb base depth stride) (fun _ s' => before s') s.
Proof.
  intros Hs. unfold queue_valid. cbv zeta. pres_run.
  destruct (ac_contains cb) as [f |] eqn:E; pres_run.
Qed.

Lemma create_queue_after op cmd s : before s -> wp (create_queue cb op cmd) (fun _ s' => after s') s.
Proof.
  intros Hs. unfold create_queue. cbv zeta. pres_run.
  eapply mwp_mono; [by apply queue_valid_before |]. intros ok s1 Hs1. pres_run.
Qed.

Lemma feature_command_after op cmd s : before s -> wp (feature_command cb op cmd) (fun _ s' => after s') s.
Proof.
  intros Hs. unfold feature_command. cbv zeta. pres_run.
  destruct (if _ =? 6 then _ else _) as [f|] eqn:Ef; [| pres_run].
  assert (Ef' : ac_set_cache cb = Some f) by (by case_match). clear Ef.
  unfold cache_feature. destruct (ac_get_cache cb) as [g |] eqn:Eg; pres_run.
Qed.

Lemma execute_after present p cmd n out cap r s :
  before s -> mwp (nwoas_admin_execute cb present p cmd n out cap r) (fun _ s' => after s') s.
Proof.
  intros Hs. unfold nwoas_admin_execute.
  repeat (case_match; pres_run). unfold admin_command. cbv zeta. pres_run.
  - by apply create_queue_after.
  - unfold delete_queue. cbv zeta. pres_run.
  - by apply feature_command_after.
  - unfold aer_command. pres_run.
Qed.
End preserve.

(** ** Properties *)

(** States reachable from an initialisation by resets, by commands, valid or
    not, and by steps of the rest of the store. *)
Inductive admin_reach {S} `{!Lens S nwoas_admin_state} (cb : nwoas_admin_callbacks S) :
    S -> Prop :=
| admin_start s : admin_reach cb (nwoas_admin_init s).2
| admin_do_reset s full : admin_reach cb s -> admin_reach cb (nwoas_admin_reset full s).2
| admin_do_execute s present p cmd n out r : admin_reach cb s -> bytes_ok cmd ->
    admin_reach cb (nwoas_admin_execute cb present (Some p) (Some cmd) n (Some out) (zlen out)
                      (Some r) s).2
| admin_other s s' : admin_reach cb s -> lget s' = lget s -> admin_reach cb s'.

Lemma default_features_ok :
  length (<[6%nat := 1]> (replicate 12 0)) = 12%nat /\
  Forall (in_w 32) (<[6%nat := 1]> (replicate 12 0)).
Proof.
  split; [done |]. apply Forall_insert; [apply Forall_replicate |]; by split.
Qed.

Lemma admin_reset_inv full a : admin_inv a -> admin_inv (admin_reset full a).
Proof.
  intros []. split; try done; try (by split).
  - unfold admin_reset. cbn [features]. destruct full; [apply default_features_ok | done].
  - split; cbn; repeat case_match; tauto || apply incr64_range.
Qed.

Lemma admin_init_inv a : admin_inv (admin_init a).
Proof. split; try done; try (by split). apply default_features_ok. Qed.

(** C11. Every reachable admin state is well formed: the descriptors are clear
    or of a valid page-aligned geometry of 2..256 entries inside the address
    space, I/O SQ1 exists only while CQ1 does, the twelve features are 32-bit
    words and no AER id survives its request. *)
Theorem admin_reach_inv {S} `{!Lens S nwoas_admin_state} (cb : nwoas_admin_callbacks S)
    `{!AdminEnv cb} (s : S) : admin_reach cb s -> admin_inv (lget s).
Proof.
  induction 1 as [s|s full _ IH|s present p cmd n out r _ IH Hc|s s' _ IH E].
  - cbn. rewrite lget_lset. apply admin_init_inv.
  - cbn. rewrite lget_lset. by apply admin_reset_inv.
  - destruct (proj1 (mwp_iff _ _ _)
      (execute_spec cb present p cmd n out _ r s Hc eq_refl IH)) as (o & r' & _ & _ & _ & ? & _).
    done.
  - by rewrite E.
Qed.

(** A command reports its effect truthfully.  A rejected call changes
    nothing; an error status has no data, no change report and no effect; a
    change report of 1 or 2 means that exactly that descriptor was created or
    removed and its generation advanced, any other report that both descriptors
    and generations are as before; a held AER is reported exactly when one was
    newly recorded; the data never exceeds the page. *)
Theorem admin_execute_report {S} `{!Lens S nwoas_admin_state} (cb : nwoas_admin_callbacks S)
    `{!AdminEnv cb} present p cmd n out r (s : S) ret out' r' s' :
  admin_inv (lget s) -> bytes_ok cmd ->
  nwoas_admin_execute cb present (Some p) (Some cmd) n (Some out) (zlen out) (Some r) s =
    ((ret, out', Some r'), s') ->
  (ret = -1 /\ s' = s) \/ (ret = 1 /\ admin_report (lget s) r' (lget s')).
Proof.
  intros Hi Hc E.
  destruct (proj1 (mwp_iff _ _ _) (execute_spec cb present p cmd n out _ r s Hc eq_refl Hi))
    as (o & r'' & _ & E2 & _ & _ & [[E1 Es]|(E1 & _ & Hr)]);
    rewrite E in *; cbn in *; simplify_eq; auto.
Qed.

(** ** Life cycle of the I/O queues *)

(** A command with the given data pointer and dwords 10 and 11. *)
Definition admin_cmd (op cid prp1 dw10 dw11 : Z) : list Z :=
  [op; 0] ++ le_bytes 2 cid ++ zeros 20 ++ le_bytes 8 prp1 ++ zeros 8 ++
  le_bytes 4 dw10 ++ le_bytes 4 dw11 ++ zeros 16.

Definition create_cq_cmd (cid base depth : Z) (ien : bool) : list Z :=
  admin_cmd 5 cid base (1 .| ((depth - 1) .<< 16)) (if ien then 3 else 1).
Definition create_sq_cmd (cid base depth : Z) : list Z :=
  admin_cmd 1 cid base (1 .| ((depth - 1) .<< 16)) 0x10001.
Definition delete_cmd (op cid : Z) : list Z := admin_cmd op cid 0 1 0.

Lemma get64_app a v l : in_w 64 v -> get64 (a ++ le_bytes 8 v ++ l) (zlen a) = v.
Proof.
  intros Hv. unfold get64. change (le_bytes 8 v) with (le_bytes (4 + 4) v).
  rewrite le_bytes_app, <- app_assoc. change (8 * Z.of_nat 4) with 32.
  change get32 with le32. rewrite le32_app.
  replace (zlen a + 4) with (zlen (a ++ le_bytes 4 v)) by (rewrite zlen_app; done).
  rewrite app_assoc, le32_app. rewrite (wrap_small 32 (v .>> 32)) by (by apply in_w_shiftr).
  apply lor_halves.
Qed.

Lemma admin_cmd_fields op cid prp1 dw10 dw11 :
  in_w 8 op -> in_w 64 prp1 -> in_w 32 dw10 -> in_w 32 dw11 ->
  let c := admin_cmd op cid prp1 dw10 dw11 in
  bytes_ok c /\ byte_at c 0 = op /\ byte_at c 1 = 0 /\ get64 c 16 = 0 /\ get32 c 4 = 0 /\
  get64 c 24 = prp1 /\ get32 c (40 + 4 * 0) = dw10 /\ get32 c (40 + 4 * 1) = dw11.
Proof.
  intros Hop Hp H0 H1 c. unfold c, admin_cmd.
  assert (Hz : forall n : nat, bytes_ok (zeros (Z.of_nat n))) by (intros; apply bytes_ok_zeros).
  split_and!; try done.
  - rewrite !bytes_ok_app. split_and!; auto 6 with words.
  - apply (get64_app ([op; 0] ++ le_bytes 2 cid ++ zeros 20)). done.
  - pose proof (le32_app ([op; 0] ++ le_bytes 2 cid ++ zeros 20 ++ le_bytes 8 prp1 ++ zeros 8)
      dw10 (le_bytes 4 dw11 ++ zeros 16)) as E. rewrite <- !app_assoc in E.
    rewrite wrap_small in E by done. exact E.
  - pose proof (le32_app ([op; 0] ++ le_bytes 2 cid ++ zeros 20 ++ le_bytes 8 prp1 ++ zeros 8 ++
      le_bytes 4 dw10) dw11 (zeros 16)) as E. rewrite <- !app_assoc in E.
    rewrite wrap_small in E by done. exact E.
Qed.

Lemma qid_depth d :
  2 <= d <= 256 -> let dw := 1 .| ((d - 1) .<< 16) in
  in_w 32 dw /\ dw .& 65535 = 1 /\ u32 ((dw .>> 16) + 1) = d.
Proof.
  intros Hd dw. unfold dw. rewrite lor_shiftl_add by (by try split).
  change 65535 with (2 ^ 16 - 1). rewrite land_ones_mod, Z.shiftr_div_pow2 by lia.
  change (2 ^ 16) with 65536. unfold in_w, wrap. change (2 ^ 32) with 4294967296. split_and!; dlia.
Qed.

Section lifecycle.
Context {S : Type} `{!Lens S nwoas_admin_state} (cb : nwoas_admin_callbacks S) `{!AdminEnv cb}.

Local Abbreviation adm s := (lget (A := nwoas_admin_state) s).

(** The memory owner accepts a range. *)
Definition accepts (base bytes : Z) : Prop :=
  exists f, ac_contains cb = Some f /\ forall s, (f base bytes s).1 = true.

Lemma queue_valid_ok base depth stride (s : S) :
  queue_geometry base depth stride -> 0 <= stride <= 64 -> accepts base (depth * stride) ->
  mwp (queue_valid cb base depth stride) (fun ok s' => ok = true /\ adm s' = adm s) s.
Proof.
  intros (Hd & Hb & Ha & Hm) Hst (f & Hf & Hacc). unfold queue_valid, truthy. rewrite Ha, Hf.
  rewrite !(proj2 (Z.ltb_ge _ _)), (proj2 (Z.eqb_neq base 0)) by lia. cbn [orb negb Z.eqb].
  cbv zeta. rewrite wrap_small by (split; [nia |]; change (2 ^ 32) with 4294967296; nia).
  rewrite (proj2 (Z.leb_le _ _)) by lia. apply mwp_iff. split; [apply Hacc |].
  by apply (ac_env_contains f base (depth * stride) Hf).
Qed.

Lemma create_cq_run cid base depth ien (s : S) :
  queue_geometry base depth 16 -> accepts base (depth * 16) -> 0 <= base ->
  q_present (cq (adm s)) = false ->
  mwp (admin_command cb (create_cq_cmd cid base depth ien)) (fun r s' =>
    r = mk_admin_result 0 0 0 2 false /\
    adm s' = mk_admin (sq (adm s)) (mk_queue base depth 0 true ien) (features (adm s))
      (sq_generation (adm s)) (incr64 (cq_generation (adm s))) (aer_cid (adm s))
      (aer_present (adm s))) s.
Proof.
  intros Hg Hacc Hb Hp. pose proof Hg as (Hd & _ & _ & Hm).
  destruct (qid_depth depth Hd) as (Hw & Eq & Ed).
  assert (in_w 64 base) by (by eapply geometry_base).
  destruct (admin_cmd_fields 5 cid base (1 .| ((depth - 1) .<< 16)) (if ien then 3 else 1))
    as (_ & E0 & _ & _ & E4 & E24 & E40 & E44); try done; [by destruct ien |].
  unfold admin_command, create_cq_cmd, create_queue. set (c := admin_cmd _ _ _ _ _) in *.
  rewrite E0. cbn [Z.eqb Pos.eqb orb]. cbv zeta. rewrite E4, E24, E40, E44, Eq, Ed.
  apply mwp_body. apply wp_bind. destruct (truthy 0 || _ || _) eqn:Ec; [by destruct ien |].
  cbn [when]. wp_run. eapply mwp_mono; [apply queue_valid_ok; done || lia |].
  intros ok s1 [-> E1]. wp_run; try discriminate.
  - exfalso. bool_hyps. rewrite E1 in *. cbn in *. rewrite Hp in *. by destruct ien.
  - split; [done |]. lrw. f_equal. f_equal; [| by destruct ien].
    apply wrap_small. split; [lia |]. change (2 ^ 16) with 65536. lia.
Qed.

Lemma create_sq_run cid base depth (s : S) :
  queue_geometry base depth 64 -> accepts base (depth * 64) -> 0 <= base ->
  q_present (cq (adm s)) = true -> q_present (sq (adm s)) = false ->
  mwp (admin_command cb (create_sq_cmd cid base depth)) (fun r s' =>
    r = mk_admin_result 0 0 0 1 false /\
    adm s' = mk_admin (mk_queue base depth 1 true false) (cq (adm s)) (features (adm s))
      (incr64 (sq_generation (adm s))) (cq_generation (adm s)) (aer_cid (adm s))
      (aer_present (adm s))) s.
Proof.
  intros Hg Hacc Hb Hc Hp. pose proof Hg as (Hd & _ & _ & Hm).
  destruct (qid_depth depth Hd) as (Hw & Eq & Ed).
  assert (in_w 64 base) by (by eapply geometry_base).
  destruct (admin_cmd_fields 1 cid base (1 .| ((depth - 1) .<< 16)) 0x10001)
    as (_ & E0 & _ & _ & E4 & E24 & E40 & E44); try done.
  unfold admin_command, create_sq_cmd, create_queue. set (c := admin_cmd _ _ _ _ _) in *.
  rewrite E0. cbn [Z.eqb Pos.eqb orb]. cbv zeta. rewrite E4, E24, E40, E44, Eq, Ed.
  cbn [when]. wp_run; [by exfalso |].
  eapply mwp_mono; [apply queue_valid_ok; done || lia |].
  intros ok s1 [-> E1]. wp_run; try discriminate.
  - exfalso. rewrite E1 in *. cbn in *. by rewrite Hp, Hc in *.
  - split; [done |]. lrw. f_equal. f_equal.
    apply wrap_small. split; [lia |]. change (2 ^ 16) with 65536. lia.
Qed.

Lemma delete_run op cid (s : S) :
  op = 0 /\ q_present (sq (adm s)) = true \/
  op = 4 /\ q_present (cq (adm s)) = true /\ q_present (sq (adm s)) = false ->
  mwp (admin_command cb (delete_cmd op cid)) (fun r s' =>
    r = mk_admin_result 0 0 0 (if op =? 0 then 1 else 2) false /\
    adm s' =
      if op =? 0 then (adm s) <| sq := clear_queue |>
                              <| sq_generation := incr64 (sq_generation (adm s)) |>
      else (adm s) <| cq := clear_queue |> <| cq_generation := incr64 (cq_generation (adm s)) |>) s.
Proof.
  intros H. assert (in_w 8 op) by (destruct H as [[-> _]|[-> _]]; by split).
  destruct (admin_cmd_fields op cid 0 1 0) as (_ & E0 & _ & _ & _ & _ & E40 & _); try (done || by split).
  unfold admin_command, delete_cmd, delete_queue. set (c := admin_cmd _ _ _ _ _) in *.
  rewrite E0. cbv zeta. rewrite E40.
  destruct H as [[-> Hs]|(-> & Hc & Hs)]; cbn [Z.eqb Pos.eqb orb]; wp_run; cbn in *;
    rewrite ?Hs, ?Hc in *; try discriminate; (split; [done |]); by lrw.
Qed.
End lifecycle.

Lemma execute_mwp {S} `{!Lens S nwoas_admin_state} (cb : nwoas_admin_callbacks S)
    p op cid prp1 dw10 dw11 out r Q (s : S) :
  args_ok cb true 64 (zlen out) = true -> policy_valid p = true ->
  in_w 8 op -> op <> 2 -> op <> 6 -> in_w 64 prp1 -> in_w 32 dw10 -> in_w 32 dw11 ->
  let c := admin_cmd op cid prp1 dw10 dw11 in
  mwp (admin_command cb c) (fun r' s' => Q (1, Some out, Some r') s') s ->
  mwp (nwoas_admin_execute cb true (Some p) (Some c) 64 (Some out) (zlen out) (Some r)) Q s.
Proof.
  intros Ha Hp Hop H2 H6 Hprp H0 H1 c HQ.
  destruct (admin_cmd_fields op cid prp1 dw10 dw11) as (Hc & E0 & E1 & E16 & _); try done.
  fold c in Hc, E0, E1, E16. apply mwp_iff in HQ. apply mwp_iff.
  rewrite execute_dispatch by done. unfold response. rewrite E0, E1, E16.
  rewrite (proj2 (Z.eqb_neq op 6)), (proj2 (Z.eqb_neq op 2)) by done. exact HQ.
Qed.

Lemma delete_refused {S} `{!Lens S nwoas_admin_state} (cb : nwoas_admin_callbacks S)
    p out r cid (s : S) :
  args_ok cb true 64 (zlen out) = true -> policy_valid p = true ->
  q_present (cq (lget s)) = true -> q_present (sq (lget s)) = true ->
  nwoas_admin_execute cb true (Some p) (Some (delete_cmd 4 cid)) 64 (Some out) (zlen out)
    (Some r) s = ((1, Some out, Some (mk_admin_result 0 0 0x10c 0 false)), s).
Proof.
  intros Ha Hp Hc Hs.
  assert (Hd : mwp (nwoas_admin_execute cb true (Some p) (Some (delete_cmd 4 cid)) 64 (Some out)
      (zlen out) (Some r)) (fun x s' =>
      x = (1, Some out, Some (mk_admin_result 0 0 0x10c 0 false)) /\ s' = s) s).
  { eapply execute_mwp; try done.
    destruct (admin_cmd_fields 4 cid 0 1 0) as (_ & E0 & _ & _ & _ & _ & E40 & _); try done.
    unfold admin_command, delete_queue. rewrite E0. cbv zeta. rewrite E40.
    cbn [Z.eqb Pos.eqb orb]. wp_run; cbn in *; rewrite ?Hc, ?Hs in *; done. }
  apply mwp_iff in Hd. destruct (nwoas_admin_execute _ _ _ _ _ _ _ _ s). cbn in Hd.
  by destruct Hd as [-> ->].
Qed.

(** The I/O queues have the life cycle the driver relies on: from a state
    without queues, Create CQ then Create SQ install exactly the base, depth
    and interrupt enable of the commands; deleting the CQ first is refused with
    Invalid Queue Deletion and no effect; deleting SQ then CQ returns to the
    original state, with each generation advanced twice. *)
Theorem queue_lifecycle {S} `{!Lens S nwoas_admin_state} (cb : nwoas_admin_callbacks S)
    `{!AdminEnv cb} p out r cid cqb cqd sqb sqd ien (s : S) :
  admin_inv (lget s) -> args_ok cb true 64 (zlen out) = true -> policy_valid p = true ->
  0 <= cqb -> queue_geometry cqb cqd 16 -> accepts cb cqb (cqd * 16) ->
  0 <= sqb -> queue_geometry sqb sqd 64 -> accepts cb sqb (sqd * 64) ->
  q_present (cq (lget s)) = false ->
  let exec c :=
    nwoas_admin_execute cb true (Some p) (Some c) 64 (Some out) (zlen out) (Some r) in
  let s2 := ((exec (create_cq_cmd cid cqb cqd ien);; exec (create_sq_cmd cid sqb sqd)) s).2 in
  let s4 := ((exec (delete_cmd 0 cid);; exec (delete_cmd 4 cid)) s2).2 in
  (cq (lget s2) = mk_queue cqb cqd 0 true ien /\ sq (lget s2) = mk_queue sqb sqd 1 true false) /\
  exec (delete_cmd 4 cid) s2 = ((1, Some out, Some (mk_admin_result 0 0 0x10c 0 false)), s2) /\
  lget s4 = (lget s) <| sq_generation := incr64 (incr64 (sq_generation (lget s))) |>
                     <| cq_generation := incr64 (incr64 (cq_generation (lget s))) |>.
Proof.
  intros Hi Ha Hp Hcb Hcg Hca Hsb Hsg Hsa Hcq exec s2 s4.
  assert (Hsq : q_present (sq (lget s)) = false).
  { destruct (q_present (sq (lget s))) eqn:E; [| done]. by rewrite (inv_bound _ Hi E) in Hcq. }
  assert (Hclr : sq (lget s) = clear_queue /\ cq (lget s) = clear_queue).
  { destruct Hi. unfold queue_ok in *. by rewrite Hcq, Hsq in *. }
  destruct (qid_depth cqd ltac:(apply Hcg)) as [Hw1 _].
  destruct (qid_depth sqd ltac:(apply Hsg)) as [Hw2 _].
  assert (Hs2 : lget s2 = mk_admin (mk_queue sqb sqd 1 true false) (mk_queue cqb cqd 0 true ien)
    (features (lget s)) (incr64 (sq_generation (lget s))) (incr64 (cq_generation (lget s)))
    (aer_cid (lget s)) (aer_present (lget s))).
  { unfold s2. apply (mwp_iff _ (fun _ s' => lget s' = _)). unfold exec. wp_run.
    eapply execute_mwp; try done; [by eapply geometry_base | by destruct ien |].
    eapply mwp_mono; [by apply create_cq_run |]. intros r1 s1 [_ E1].
    eapply execute_mwp; try done; [by eapply geometry_base |].
    eapply mwp_mono; [apply create_sq_run; try done; by rewrite E1 |].
    intros r2 s' [_ E2]. by rewrite E2, E1. }
  split; [by rewrite Hs2 | split].
  - by apply delete_refused; rewrite ?Hs2.
  - unfold s4. apply (mwp_iff _ (fun _ s' => lget s' = _)). unfold exec. wp_run.
    eapply execute_mwp; try done.
    eapply mwp_mono; [apply delete_run; left; by rewrite Hs2 |]. intros r1 s1 [_ E1].
    rewrite Hs2 in E1. cbn in E1. eapply execute_mwp; try done.
    eapply mwp_mono; [apply delete_run; right; by rewrite E1 |]. intros r2 s' [_ E2].
    rewrite E2, E1. cbn. destruct (lget s), Hclr. cbn in *. by subst.
Qed.

(** ** Instances *)

Definition demo_admin_store : Type := nwoas_admin_state * bool.
#[export] Instance demo_admin_lens : Lens demo_admin_store nwoas_admin_state := lens_fst.

(** Memory below 2^36, and a cache policy the callbacks keep. *)
Definition demo_admin_cb : nwoas_admin_callbacks demo_admin_store := {|
  ac_contains := Some (fun b n => mret (b + n <=? 2 ^ 36));
  ac_set_cache := Some (fun v => modify (fun s => (s.1, v));; mret true);
  ac_get_cache := Some (gets (fun s => b2z s.2));
|}.

#[export] Instance demo_admin_env : AdminEnv demo_admin_cb.
Proof. split; intros; simplify_eq/=; by intros []. Qed.

Definition demo_admin_start : demo_admin_store :=
  (nwoas_admin_init (mk_admin clear_queue clear_queue (replicate 12 0) 0 0 0 false, true)).2.
Definition demo_admin_exec (c : list Z) (s : demo_admin_store) : demo_admin_store :=
  (nwoas_admin_execute demo_admin_cb true (Some demo_policy) (Some c) 64 (Some demo_out)
     (zlen demo_out) (Some r0) s).2.

Lemma demo_admin_inv : admin_inv (lget demo_admin_start).
Proof. apply admin_init_inv. Qed.

Lemma demo_accepts base n : base + n <= 2 ^ 36 -> accepts demo_admin_cb base n.
Proof. intros H. eexists. split; [reflexivity |]. intros s. by apply Z.leb_le. Qed.

Lemma demo_create_ok :
  bytes_ok (create_cq_cmd 5 0x10000 64 true).
Proof. apply admin_cmd_fields; vm_compute; by split. Qed.

Lemma admin_reach_inv_witness :
  let s := demo_admin_exec (create_cq_cmd 5 0x10000 64 true) demo_admin_start in
  q_depth (cq (lget s)) = 64 /\ admin_inv (lget s).
Proof.
  split; [vm_compute; reflexivity |].
  apply (admin_reach_inv demo_admin_cb), admin_do_execute; [apply admin_start |].
  apply demo_create_ok.
Defined.

Lemma admin_execute_report_witness :
  let s' := demo_admin_exec (create_cq_cmd 5 0x10000 64 true) demo_admin_start in
  (1 = -1 /\ s' = demo_admin_start) \/
  (1 = 1 /\ admin_report (lget demo_admin_start) (mk_admin_result 0 0 0 2 false) (lget s')).
Proof.
  intros s'.
  apply (admin_execute_report demo_admin_cb true demo_policy (create_cq_cmd 5 0x10000 64 true)
           64 demo_out r0 demo_admin_start 1 (Some demo_out) (mk_admin_result 0 0 0 2 false) s').
  - apply demo_admin_inv.
  - apply demo_create_ok.
  - vm_compute. reflexivity.
Defined.

Lemma queue_lifecycle_witness :
  let s2 := demo_admin_exec (create_sq_cmd 5 0x20000 64)
              (demo_admin_exec (create_cq_cmd 5 0x10000 64 true) demo_admin_start) in
  q_base (cq (lget s2)) = 0x10000 /\ sq (lget s2) = mk_queue 0x20000 64 1 true false.
Proof.
  assert (Hg : queue_geometry 0x10000 64 16 /\ queue_geometry 0x20000 64 64)
    by (split; split_and!; done).
  destruct (queue_lifecycle demo_admin_cb demo_policy demo_out r0 5 0x10000 64 0x20000 64 true
    demo_admin_start demo_admin_inv ltac:(vm_compute; reflexivity) eq_refl ltac:(lia)
    (proj1 Hg) (demo_accepts 0x10000 (64 * 16) ltac:(lia)) ltac:(lia) (proj2 Hg)
    (demo_accepts 0x20000 (64 * 64) ltac:(lia))
    ltac:(vm_compute; reflexivity)) as ([H1 H2] & _).
  intros s2. split; [exact (f_equal q_base H1) | exact H2].
Defined.
