(* ===== verification/AdminRing.v ===== *)
(** * The admin queue engine ([native-s227/admin_ring.c], [.h])

    A bounded submission/completion ring over caller-owned memory.  All
    memory goes through callbacks; [ring_env] is a complete callback table,
    [nwoas_ring_init] produces one from a table whose members may be NULL.
    Operations act on any store that holds the structure; the admin state is
    a field of it, reached through the composed lens. *)

From S2P Require Import Prelude AdminPayload AdminState.

Record nwoas_ring_callbacks (S : Type) := {
  rc_contains : option (Z -> Z -> M S bool);
  rc_read : option (Z -> Z -> M S (bool * list Z));
  rc_write : option (Z -> list Z -> M S bool);
  rc_barrier : option (M S unit);
  rc_reconcile : option (nwoas_admin_state -> Z -> M S bool);
  rc_pending : option (bool -> M S unit);
  rc_fault : option (M S unit);
}.

(** [re_read a n] gives the success flag and the content of the destination
    buffer afterwards, which a failed transfer may have partly written. *)
Record ring_env (S : Type) := mk_env {
  re_contains : Z -> Z -> M S bool;
  re_read : Z -> Z -> M S (bool * list Z);
  re_write : Z -> list Z -> M S bool;
  re_barrier : M S unit;
  re_reconcile : nwoas_admin_state -> Z -> M S bool;
  re_pending : bool -> M S unit;
  re_fault : M S unit;
}.
#[global] Arguments mk_env {S} _ _ _ _ _ _ _.
#[global] Arguments rc_contains {S} _. #[global] Arguments rc_read {S} _.
#[global] Arguments rc_write {S} _. #[global] Arguments rc_barrier {S} _.
#[global] Arguments rc_reconcile {S} _. #[global] Arguments rc_pending {S} _.
#[global] Arguments rc_fault {S} _.
#[global] Arguments re_contains {S} _. #[global] Arguments re_read {S} _.
#[global] Arguments re_write {S} _. #[global] Arguments re_barrier {S} _.
#[global] Arguments re_reconcile {S} _. #[global] Arguments re_pending {S} _.
#[global] Arguments re_fault {S} _.

Record nwoas_admin_ring := mk_ring {
  r_policy : nwoas_identity_policy;
  admin : nwoas_admin_state;
  sq_base : Z;
  cq_base : Z;
  lifecycle : Z;
  sq_depth : Z;
  cq_depth : Z;
  sq_head : Z;
  sq_tail : Z;
  cq_head : Z;
  cq_tail : Z;
  r_pending : Z;
  phase : Z;
  active : bool;
  r_fatal : bool;
  r_command : list Z;
  payload : list Z;
  completion : list Z;
}.
#[export] Instance ring_eta : Eta nwoas_admin_ring := fun r =>
  mk_ring (r_policy r) (admin r) (sq_base r) (cq_base r) (lifecycle r) (sq_depth r)
    (cq_depth r) (sq_head r) (sq_tail r) (cq_head r) (cq_tail r) (r_pending r) (phase r)
    (active r) (r_fatal r) (r_command r) (payload r) (completion r).

(** The admin state inside the ring. *)
Program Definition ring_admin : Lens nwoas_admin_ring nwoas_admin_state :=
  {| lget := admin; lset a r := r <| admin := a |> |}.
Next Obligation. done. Qed.
Next Obligation. by intros []. Qed.
Next Obligation. done. Qed.

(** ** Accessors *)

Definition get16 (p : list Z) (o : Z) : Z := byte_at p o .| (byte_at p (o + 1) .<< 8).
Definition get64 (p : list Z) (o : Z) : Z := or_bytes (fun i => byte_at p (o + i)) 8.
Definition put16 (o v : Z) (p : list Z) : list Z := overwrite o (le_bytes 2 v) p.
Definition put32 (o v : Z) (p : list Z) : list Z := overwrite o (le_bytes 4 v) p.

(** ** Initialisation *)

Definition ring_callbacks_present {S} (cb : nwoas_ring_callbacks S) : option (ring_env S) :=
  match rc_contains cb, rc_read cb, rc_write cb, rc_barrier cb, rc_reconcile cb,
        rc_pending cb, rc_fault cb with
  | Some c, Some r, Some w, Some b, Some k, Some p, Some f => Some (mk_env c r w b k p f)
  | _, _, _, _, _, _, _ => None
  end.

Definition cache_callbacks_match {S} (ac : nwoas_admin_callbacks S) : bool :=
  eqb (bool_decide (is_Some (ac_set_cache ac))) (bool_decide (is_Some (ac_get_cache ac))).

Definition ring_init (p : nwoas_identity_policy) (r : nwoas_admin_ring) : nwoas_admin_ring := {|
  r_policy := p; admin := admin_init (admin r);
  sq_base := 0; cq_base := 0; lifecycle := 0;
  sq_depth := 0; cq_depth := 0; sq_head := 0; sq_tail := 0; cq_head := 0; cq_tail := 0;
  r_pending := 0; phase := 1; active := false; r_fatal := false;
  r_command := r_command r; payload := payload r; completion := completion r;
|}.

(** [Some env] is C's [true], with the callback table that was stored. *)
Definition nwoas_ring_init {S} `{!Lens S nwoas_admin_ring} (present : bool)
    (cb : nwoas_ring_callbacks S) (ac : nwoas_admin_callbacks S) (p : nwoas_identity_policy) :
    M S (option (ring_env S)) :=
  match ring_callbacks_present cb with
  | None => mret None
  | Some env =>
      if negb present || negb (cache_callbacks_match ac) || negb (policy_valid p)
      then mret None
      else lmodify (ring_init p);; mret (Some env)
  end.

(** ** The engine *)

Section ring.
Context {S : Type} `{L : !Lens S nwoas_admin_ring}.
Context (env : ring_env S) (ac : nwoas_admin_callbacks S).
#[local] Instance admin_lens : Lens S nwoas_admin_state := lens_comp L ring_admin.

Definition range (a n : Z) : M S bool :=
  if truthy a && truthy n && (a <=? UINT64_MAX - n) then re_contains env a n else mret false.

Definition fail : M S Z :=
  lmodify (fun r => r <| r_fatal := true |>);;
  re_pending env false;;
  re_fault env;;
  mret (-2).

Definition fail_exit {A} : proc S Z A := v ← call fail; exit v.

Definition ring_reset (full : bool) (r : nwoas_admin_ring) : nwoas_admin_ring := {|
  r_policy := r_policy r; admin := admin_reset full (admin r);
  sq_base := 0; cq_base := 0; lifecycle := incr64 (lifecycle r);
  sq_depth := 0; cq_depth := 0; sq_head := 0; sq_tail := 0; cq_head := 0; cq_tail := 0;
  r_pending := 0; phase := 1; active := false; r_fatal := false;
  r_command := r_command r; payload := payload r; completion := completion r;
|}.

Definition nwoas_ring_reset (full : bool) : M S unit :=
  lmodify (ring_reset full);; re_pending env false.

Definition ring_configure (q ns c nc : Z) (r : nwoas_admin_ring) : nwoas_admin_ring := {|
  r_policy := r_policy r; admin := admin r;
  sq_base := q; cq_base := c; lifecycle := incr64 (lifecycle r);
  sq_depth := ns; cq_depth := nc; sq_head := 0; sq_tail := 0; cq_head := 0; cq_tail := 0;
  r_pending := 0; phase := 1; active := true; r_fatal := r_fatal r;
  r_command := r_command r; payload := payload r; completion := completion r;
|}.

Definition nwoas_ring_configure (q ns c nc : Z) : M S bool := body (
  r ← call (lgets id);
  when (active r || r_fatal r || (ns <? 2) || (256 <? ns) || (nc <? 2) || (256 <? nc) ||
        truthy (q .& 4095) || truthy (c .& 4095)) (exit false);;
  ok ← call (range q (u32 (ns * 64)));
  when (negb ok) (exit false);;
  ok ← call (range c (u32 (nc * 16)));
  when (negb ok) (exit false);;
  call (lmodify (ring_configure q ns c nc));;
  call (re_pending env false);;
  mret true).

(** The PRP list of the current command, split at its first page; [[]] is the
    C result 0. *)
Definition resolve (n : Z) : M S (list (Z * Z)) := body (
  r ← call (lgets id);
  let a := get64 (r_command r) 24 in
  let b := get64 (r_command r) 32 in
  when (negb (truthy n) || (4096 <? n) || truthy (a .& 3)) (exit []);;
  let first := Z.min (4096 - (a .& 4095)) n in
  ok ← call (range a first);
  when (negb ok) (exit []);;
  when (first =? n) (exit [(a, first)]);;
  when (truthy (b .& 4095)) (exit []);;
  ok ← call (range b (n - first));
  when (negb ok) (exit []);;
  mret [(a, first); (b, n - first)]).

Fixpoint write_spans (spans : list (Z * Z)) (offset : Z) : proc S Z unit :=
  match spans with
  | [] => mret tt
  | (a, n) :: spans' =>
      r ← call (lgets id);
      ok ← call (re_write env a (ztake n (zdrop offset (payload r))));
      when (negb ok) fail_exit;;
      write_spans spans' (offset + n)
  end.

(** Transfer of the response data; the result that is to be completed. *)
Definition transfer (result : nwoas_admin_result) : proc S Z nwoas_admin_result :=
  if truthy (ar_bytes result) then
    spans ← call (resolve (ar_bytes result));
    match spans with
    | [] => mret (mk_admin_result 0 0 2 (ar_changed result) (ar_deferred result))
    | _ => write_spans spans 0;; mret result
    end
  else mret result.

(** The tail, pending count and phase after one more entry. *)
Definition advance_cq (r : nwoas_admin_ring) : nwoas_admin_ring :=
  let tail := u16 ((cq_tail r + 1) mod cq_depth r) in {|
  r_policy := r_policy r; admin := admin r;
  sq_base := sq_base r; cq_base := cq_base r; lifecycle := lifecycle r;
  sq_depth := sq_depth r; cq_depth := cq_depth r;
  sq_head := sq_head r; sq_tail := sq_tail r; cq_head := cq_head r;
  cq_tail := tail;
  r_pending := u16 (r_pending r + 1);
  phase := if truthy tail then phase r else phase r .^ 1;
  active := active r; r_fatal := r_fatal r;
  r_command := r_command r; payload := payload r; completion := completion r;
|}.

(** The completion entry, its publication and the advance of the tail. *)
Definition publish (cid : Z) (result : nwoas_admin_result) : proc S Z unit :=
  call (lmodify (fun r => r <| completion :=
    put16 14 (u16 ((ar_status result .<< 1) .| phase r))
      (put16 12 cid (put16 10 0 (put16 8 (sq_head r)
        (put32 4 0 (put32 0 (ar_result result) (completion r)))))) |>));;
  r ← call (lgets id);
  let address := u64 (cq_base r + cq_tail r * 16) in
  ok ← call (range address 16);
  when (negb ok) fail_exit;;
  ok ← call (re_write env address (ztake 14 (completion r)));
  when (negb ok) fail_exit;;
  call (re_barrier env);;
  ok ← call (re_write env (u64 (address + 14)) (ztake 2 (zdrop 14 (completion r))));
  when (negb ok) fail_exit;;
  call (lmodify advance_cq);;
  call (re_pending env true).

(** The completion of an executed command; a held event has none. *)
Definition complete (cid : Z) (result : nwoas_admin_result) : proc S Z unit :=
  if ar_deferred result then mret tt
  else
    result ← transfer result;
    publish cid result.

(** One iteration of the service loop. *)
Definition service : proc S Z unit :=
  r ← call (lgets id);
  let address := u64 (sq_base r + sq_head r * 64) in
  ok ← call (range address 64);
  when (negb ok) fail_exit;;
  rd ← call (re_read env address 64);
  call (lmodify (fun r => r <| r_command := rd.2 |>));;
  when (negb rd.1) fail_exit;;
  r ← call (lgets id);
  let cid := get16 (r_command r) 2 in
  ex ← call (nwoas_admin_execute ac true (Some (r_policy r)) (Some (r_command r)) 64
               (Some (payload r)) 4096 (Some r0));
  call (lmodify (fun r => r <| payload := default (payload r) ex.1.2 |>));;
  when (negb (ex.1.1 =? 1)) fail_exit;;
  let result := default r0 ex.2 in
  call (lmodify (fun r => r <| sq_head := u16 ((sq_head r + 1) mod sq_depth r) |>));;
  when (truthy (ar_changed result)) (
    r ← call (lgets id);
    ok ← call (re_reconcile env (admin r) (ar_changed result));
    when (negb ok) fail_exit);;
  complete cid result.

Definition more (r : nwoas_admin_ring) (budget consumed : Z) : bool :=
  (consumed <? budget) && negb (sq_head r =? sq_tail r) && (r_pending r <? cq_depth r - 1).

(** The loop; each iteration consumes one command, so [budget] iterations of
    fuel are exactly the bound of the loop condition. *)
Fixpoint poll_loop (fuel : nat) (budget consumed : Z) : proc S Z Z :=
  match fuel with
  | O => mret consumed
  | Datatypes.S fuel' =>
      r ← call (lgets id);
      if more r budget consumed then service;; poll_loop fuel' budget (consumed + 1)
      else mret consumed
  end.

Definition nwoas_ring_poll (budget : Z) : M S Z := body (
  when ((budget =? 0) || (256 <? budget)) (exit (-1));;
  r ← call (lgets id);
  when (negb (active r) || r_fatal r) (exit 0);;
  poll_loop (Z.to_nat budget) budget 0).

Definition nwoas_ring_tail (tail : Z) : M S Z := body (
  r ← call (lgets id);
  when (negb (active r) || r_fatal r) (exit 0);;
  when (sq_depth r <=? tail) fail_exit;;
  call (lmodify (fun r => r <| sq_tail := u16 tail |>));;
  call (nwoas_ring_poll 256)).

Definition nwoas_ring_ack (head : Z) : M S Z := body (
  r ← call (lgets id);
  when (negb (active r) || r_fatal r) (exit 0);;
  when (cq_depth r <=? head) fail_exit;;
  let count := u32 (head + cq_depth r - cq_head r) mod cq_depth r in
  when (r_pending r <? count) fail_exit;;
  call (lmodify (fun r => r <| cq_head := u16 head |> <| r_pending := u16 (r_pending r - count) |>));;
  r ← call (lgets id);
  call (re_pending env (truthy (r_pending r)));;
  mret 0).
End ring.

(** ** Specification vocabulary *)

(** What the ring does to memory, in order. *)
Inductive ring_event :=
| EvWrite (a : Z) (bs : list Z)
| EvFailed (a : Z)
| EvBarrier.

(** No callback writes the ring structure, and a complete read fills its
    buffer with bytes. *)
Class RingEnv {S} `{!Lens S nwoas_admin_ring} (env : ring_env S) (ac : nwoas_admin_callbacks S) :
    Prop := {
  ke_contains a n : keeps lget (re_contains env a n);
  ke_read a n : keeps lget (re_read env a n);
  ke_read_ok a n s : 0 <= n -> (re_read env a n s).1.1 = true ->
    zlen (re_read env a n s).1.2 = n /\ bytes_ok (re_read env a n s).1.2;
  ke_write a bs : keeps lget (re_write env a bs);
  ke_barrier : keeps lget (re_barrier env);
  ke_reconcile a c : keeps lget (re_reconcile env a c);
  ke_pending b : keeps lget (re_pending env b);
  ke_fault : keeps lget (re_fault env);
  ke_ac_contains f a n : ac_contains ac = Some f -> keeps lget (f a n);
  ke_ac_set f v : ac_set_cache ac = Some f -> keeps lget (f v);
  ke_ac_get f : ac_get_cache ac = Some f -> keeps lget f;
}.

(** [trace] reads the memory operations done so far: writes and barriers
    append to it (a refused write may or may not have been attempted), nothing
    else of the ring's callbacks does. *)
Class RingTrace {S} `{!Lens S nwoas_admin_ring} (env : ring_env S)
    (ac : nwoas_admin_callbacks S) (trace : S -> list ring_event) : Prop := {
  tr_lset r s : trace (lset r s) = trace s;
  tr_write a bs s :
    if (re_write env a bs s).1 then trace (re_write env a bs s).2 = trace s ++ [EvWrite a bs]
    else trace (re_write env a bs s).2 = trace s \/
         trace (re_write env a bs s).2 = trace s ++ [EvFailed a];
  tr_barrier s : trace (re_barrier env s).2 = trace s ++ [EvBarrier];
  tr_contains a n : keeps trace (re_contains env a n);
  tr_read a n : keeps trace (re_read env a n);
  tr_reconcile a c : keeps trace (re_reconcile env a c);
  tr_pending b : keeps trace (re_pending env b);
  tr_fault : keeps trace (re_fault env);
  tr_ac_contains f a n : ac_contains ac = Some f -> keeps trace (f a n);
  tr_ac_set f v : ac_set_cache ac = Some f -> keeps trace (f v);
  tr_ac_get f : ac_get_cache ac = Some f -> keeps trace f;
}.

(** The phase tag of the [n]-th entry posted since the queue was created:
    one on the first lap, flipped on every wrap. *)
Definition phase_of (depth n : Z) : Z := (1 + n / depth) mod 2.

(** [ring_inv n r]: the ring is well formed and has posted [n] completions
    since it was configured. *)
Record ring_inv (n : Z) (r : nwoas_admin_ring) : Prop := {
  ri_admin : admin_inv (admin r);
  ri_payload : zlen (payload r) = 4096;
  ri_completion : zlen (completion r) = 16;
  ri_bases : 0 <= sq_base r /\ 0 <= cq_base r;
  ri_count : 0 <= n;
  ri_active : active r = true ->
    queue_geometry (sq_base r) (sq_depth r) 64 /\
    queue_geometry (cq_base r) (cq_depth r) 16 /\
    0 <= sq_head r < sq_depth r /\ 0 <= sq_tail r < sq_depth r /\
    0 <= cq_head r < cq_depth r /\ 0 <= r_pending r < cq_depth r /\ r_pending r <= n /\
    cq_tail r = n mod cq_depth r /\ phase r = phase_of (cq_depth r) n /\
    (cq_head r + r_pending r) mod cq_depth r = cq_tail r;
}.

(** Bytes 0..13 of a completion entry; the status word follows. *)
Definition cqe_body (result head cid : Z) : list Z :=
  le_bytes 4 result ++ le_bytes 4 0 ++ le_bytes 2 head ++ le_bytes 2 0 ++ le_bytes 2 cid.

(** Publication of the [n]-th entry: body, barrier, then status and phase. *)
Definition cqe_events (base depth n : Z) (body : list Z) (status : Z) : list ring_event :=
  let slot := base + (n mod depth) * 16 in
  [EvWrite slot body; EvBarrier; EvWrite (slot + 14) (le_bytes 2 (2 * status + phase_of depth n))].

Definition is_data (e : ring_event) : Prop := exists a bs, e = EvWrite a bs.

(** The bytes of the data writes of a command. *)
Definition event_bytes (e : ring_event) : list Z :=
  match e with EvWrite _ bs => bs | _ => [] end.

(** One command of a run: the bytes fetched from its submission slot, the
    result of executing them, the result that is completed once the response
    data has been transferred, and the writes of that data. *)
Record served_command := mk_served {
  sv_command : list Z;
  sv_result : nwoas_admin_result;
  sv_completed : nwoas_admin_result;
  sv_data : list ring_event;
}.

(** A held event is the only kind of command that has no entry. *)
Definition entries (c : served_command) : Z := if ar_deferred (sv_result c) then 0 else 1.
Definition entries_of (h : list served_command) : Z := fold_right (fun c k => entries c + k) 0 h.

(** What a command makes the engine do to memory, when [n] entries have been
    posted before it and the SQ head behind it is [head]: the data, then the
    entry with the command's identifier and the result. *)
Definition command_events (base depth n head : Z) (c : served_command) : list ring_event :=
  if ar_deferred (sv_result c) then []
  else sv_data c ++ cqe_events base depth n
         (cqe_body (ar_result (sv_completed c)) head (get16 (sv_command c) 2))
         (ar_status (sv_completed c)).

(** The commands of a run one after the other, from the SQ head [head]. *)
Fixpoint published (base depth sdepth n head : Z) (h : list served_command) : list ring_event :=
  match h with
  | [] => []
  | c :: h =>
      let head := (head + 1) mod sdepth in
      command_events base depth n head c ++ published base depth sdepth (n + entries c) head h
  end.

(** How many status words follow a barrier: the entries a host can see. *)
Fixpoint visible (evs : list ring_event) : nat :=
  match evs with
  | EvBarrier :: ((EvWrite _ _ :: _) as evs') => Datatypes.S (visible evs')
  | _ :: evs' => visible evs'
  | [] => O
  end.

(** The parts of the ring a command leaves alone. *)
Record same_config (r r' : nwoas_admin_ring) : Prop := {
  sc_policy : r_policy r' = r_policy r;
  sc_sq : sq_base r' = sq_base r /\ sq_depth r' = sq_depth r /\ sq_tail r' = sq_tail r;
  sc_cq : cq_base r' = cq_base r /\ cq_depth r' = cq_depth r /\ cq_head r' = cq_head r;
  sc_life : lifecycle r' = lifecycle r /\ active r' = active r;
}.

#[export] Instance same_config_po : PreOrder same_config.
Proof.
  split; [by split |]. intros a b c [] []. split; intuition congruence.
Qed.

(** ** The completion entry *)

Lemma overwrite_0 bs l : overwrite 0 bs l = bs ++ zdrop (zlen bs) l.
Proof. done. Qed.

Lemma zdrop_all {A} n (l : list A) : zlen l <= n -> zdrop n l = [].
Proof. intros. unfold zdrop, zlen in *. apply drop_ge. lia. Qed.

(** Whatever the buffer held, the six stores give the whole entry. *)
Lemma completion_bytes result head cid status c :
  zlen c = 16 ->
  put16 14 status (put16 12 cid (put16 10 0 (put16 8 head (put32 4 0 (put32 0 result c))))) =
  cqe_body result head cid ++ le_bytes 2 status.
Proof.
  intros Hc. unfold put16, put32, cqe_body. rewrite overwrite_0.
  repeat first
    [ rewrite overwrite_skip by layout_side; layout_norm
    | match goal with
      | |- context [overwrite ?e ?bs ?l] =>
          let v := eval vm_compute in e in
          lazymatch v with 0 => change (overwrite e bs l) with (overwrite 0 bs l) end;
          rewrite (overwrite_0 bs l); layout_norm
      end ].
  layout_norm. rewrite !zdrop_zdrop by lia. rewrite zdrop_all by lia.
  by rewrite <- !app_assoc, app_nil_r.
Qed.

Lemma status_word status p :
  in_w 11 status -> (p = 0 \/ p = 1) -> u16 ((status .<< 1) .| p) = 2 * status + p.
Proof.
  intros [H1 H2] Hp. change (2 ^ 11) with 2048 in H2.
  rewrite Z.lor_comm, lor_shiftl_add by (destruct Hp as [-> | ->]; by try split).
  change (2 ^ 1) with 2. rewrite wrap_small by (split; [lia |]; change (2 ^ 16) with 65536; lia).
  lia.
Qed.

Lemma phase_of_bit d n : phase_of d n = 0 \/ phase_of d n = 1.
Proof. unfold phase_of. dlia. Qed.

(** Tail and phase after posting one more entry. *)
Lemma mod_succ d n : 0 < d -> 0 <= n ->
  (n mod d + 1) mod d = (n + 1) mod d /\
  phase_of d (n + 1) = if (n + 1) mod d =? 0 then phase_of d n .^ 1 else phase_of d n.
Proof.
  intros Hd Hn. pose proof (Z.mod_pos_bound n d Hd). pose proof (Z.div_mod n d ltac:(lia)).
  assert (Hs : n + 1 = d * (n / d) + (n mod d + 1)) by lia.
  split; [by rewrite Zplus_mod_idemp_l |].
  destruct (Z.eq_dec (n mod d + 1) d) as [E|E].
  - assert ((n + 1) mod d = 0) as ->.
    { rewrite Hs, E. replace (d * (n / d) + d) with ((n / d + 1) * d) by lia.
      apply Z.mod_mul. lia. }
    assert ((n + 1) / d = n / d + 1) as Eq by (symmetry; apply Z.div_unique_exact; lia).
    cbn [Z.eqb]. unfold phase_of. rewrite Eq.
    assert (n / d mod 2 = 0 \/ n / d mod 2 = 1) as [E2|E2] by dlia.
    + replace ((1 + (n / d + 1)) mod 2) with 0 by dlia. by replace ((1 + n / d) mod 2) with 1 by dlia.
    + replace ((1 + (n / d + 1)) mod 2) with 1 by dlia. by replace ((1 + n / d) mod 2) with 0 by dlia.
  - assert ((n + 1) mod d = n mod d + 1) as -> by (symmetry; apply (Z.mod_unique_pos _ _ (n / d)); lia).
    rewrite (proj2 (Z.eqb_neq _ 0)) by lia.
    unfold phase_of. do 2 f_equal. symmetry. apply (Z.div_unique_pos _ _ _ (n mod d + 1)); lia.
Qed.

Lemma visible_data data evs : Forall is_data data -> visible (data ++ evs) = visible evs.
Proof. induction 1 as [|e data (a & bs & ->) _ IH]; [done |]. exact IH. Qed.

Lemma entries_range c : 0 <= entries c <= 1.
Proof. unfold entries. destruct (ar_deferred _); lia. Qed.

Lemma entries_cons c h : entries_of (c :: h) = entries c + entries_of h.
Proof. done. Qed.

Lemma entries_of_range h : 0 <= entries_of h <= zlen h.
Proof.
  induction h as [|c h IH]; [done |]. rewrite entries_cons, zlen_cons.
  pose proof (entries_range c). lia.
Qed.

(** All entries of a run are visible. *)
Lemma visible_published base depth sdepth h : forall n head,
  Forall (fun c => Forall is_data (sv_data c)) h ->
  visible (published base depth sdepth n head h) = Z.to_nat (entries_of h).
Proof.
  induction h as [|c h IH]; intros n head Hd; [done |]. inversion_clear Hd as [| ? ? Hc Hh].
  cbn [published]. rewrite entries_cons. pose proof (entries_of_range h).
  unfold command_events, entries. destruct (ar_deferred _); [exact (IH _ _ Hh) |].
  rewrite <- app_assoc, visible_data by done. cbn [cqe_events app visible]. rewrite IH by done. lia.
Qed.

(** A failed write makes nothing visible. *)
Lemma visible_failed evs a : visible (evs ++ [EvFailed a]) = visible evs.
Proof.
  induction evs as [|e evs IH]; [done |]. destruct e; cbn [app visible]; try done.
  destruct evs as [|e' evs]; [done |]. destruct e'; cbn [app] in *; [f_equal |..]; exact IH.
Qed.

Lemma admin_only r r' a0 :
  r' <| admin := a0 |> = r <| admin := a0 |> -> r' = r <| admin := admin r' |>.
Proof. intros H. destruct r, r'. cbn in *. by injection H as -> -> -> -> -> -> -> -> -> -> -> -> -> -> -> -> ->. Qed.

(** ** The service loop, statement by statement *)

Section service_spec.
Context {S : Type} `{L : !Lens S nwoas_admin_ring}.
Context (env : ring_env S) (ac : nwoas_admin_callbacks S) (trace : S -> list ring_event).
Context `{!RingEnv env ac} `{!RingTrace env ac trace}.

Local Abbreviation rng s := (lget (A := nwoas_admin_ring) s).
Local Abbreviation RNG := (lget (A := nwoas_admin_ring)).

(** An iteration that fails: the engine is latched, still well formed, and
    nothing became visible. *)
Definition fail_post (n : Z) (s : S) (v : Z) (s' : S) : Prop :=
  v = -2 /\ r_fatal (rng s') = true /\ ring_inv n (rng s') /\ same_config (rng s) (rng s') /\
  exists evs, trace s' = trace s ++ evs /\ visible evs = O.

Lemma inv_fatal n r b : ring_inv n r -> ring_inv n (r <| r_fatal := b |>).
Proof. intros []. by split. Qed.

Lemma mwp_self {A} (m : M S A) Q s :
  mwp m Q s -> mwp m (fun v s' => Q v s' /\ m s = (v, s')) s.
Proof. rewrite !mwp_iff. split; [done |]. by destruct (m s). Qed.

Lemma range_spec a n (s : S) :
  mwp (range env a n) (fun ok s' => rng s' = rng s /\ trace s' = trace s /\
    (ok = true -> a <> 0 /\ n <> 0 /\ a <= UINT64_MAX - n)) s.
Proof.
  unfold range. wp_step; [| by wp_run].
  eapply (mwp_cb2 RNG trace); [apply ke_contains | apply tr_contains |].
  intros ok s' -> ->. bool_props. auto.
Qed.

Lemma fail_exit_spec {A} n (s0 s : S) (Q : Z + A -> S -> Prop) evs :
  ring_inv n (rng s) -> same_config (rng s0) (rng s) ->
  trace s = trace s0 ++ evs -> visible evs = O ->
  (forall v s', fail_post n s0 v s' -> Q (inl v) s') ->
  wp (fail_exit env) Q s.
Proof.
  intros Hi Hc Ht Hv HQ. unfold fail_exit, fail. wp_run.
  assert (Et : trace s' = trace s) by (subst s'; apply tr_lset).
  eapply (mwp_cb2 RNG trace); [apply ke_pending | apply tr_pending |]. intros [] s1 E1 T1.
  wp_run. eapply (mwp_cb2 RNG trace); [apply ke_fault | apply tr_fault |]. intros [] s2 E2 T2.
  wp_run. apply HQ. split; [done |]. rewrite E2, E1, Hl.
  split; [done |]. split; [by apply (inv_fatal n (rng s) true) |].
  split; [etrans; [exact Hc |]; by split |].
  exists evs. split; [congruence | done].
Qed.

(** A write, given what it extends: it succeeded, or nothing became visible. *)
Lemma write_spec a bs (s0 s : S) evs :
  trace s = trace s0 ++ evs ->
  mwp (re_write env a bs) (fun ok s' => rng s' = rng s /\
    if ok then trace s' = trace s0 ++ evs ++ [EvWrite a bs]
    else exists evs', trace s' = trace s0 ++ evs' /\ visible evs' = visible evs) s.
Proof.
  intros Ht. apply mwp_iff. split; [apply ke_write |].
  pose proof (tr_write (trace := trace) a bs s) as Hw. destruct (re_write env a bs s) as [[] s'].
  - cbn in *. by rewrite Hw, Ht, <- app_assoc.
  - cbn in *. destruct Hw as [Hw|Hw]; [by exists evs; rewrite Hw |].
    exists (evs ++ [EvFailed a]). split; [by rewrite Hw, Ht, <- app_assoc |].
    apply visible_failed.
Qed.

Lemma exec_spec (s : S) :
  let r := rng s in
  bytes_ok (r_command r) -> zlen (payload r) = 4096 -> admin_inv (admin r) ->
  mwp (@nwoas_admin_execute S (admin_lens (L := L)) ac true (Some (r_policy r))
         (Some (r_command r)) 64 (Some (payload r)) 4096 (Some r0)) (fun ex s' =>
    exists a' out' r', rng s' = r <| admin := a' |> /\ trace s' = trace s /\
      ex.1.2 = Some out' /\ ex.2 = Some r' /\ zlen out' = 4096 /\ admin_inv a' /\
      (if ex.1.1 =? 1 then admin_report (admin r) r' a' else a' = admin r)) s.
Proof.
  intros r Hc Hp Hi. set (AL := admin_lens (L := L)).
  assert (Hadm : forall s', lget (Lens := AL) s' = admin (rng s')) by done.
  assert (He : AdminEnv (Lens0 := AL) ac).
  { split; intros; intros s1; rewrite !Hadm; f_equal;
      [by apply (ke_ac_contains f) | by apply (ke_ac_set f) | by apply ke_ac_get]. }
  pose proof (@execute_spec S AL ac He true (r_policy r) (r_command r) 64 (payload r) 4096 r0 s
    Hc (eq_sym Hp) Hi) as H1.
  assert (Hset : forall a s1, rng (lset (Lens := AL) a s1) = (rng s1) <| admin := a |>).
  { intros a s1. change (lset (Lens := AL) a s1) with (lset ((rng s1) <| admin := a |>) s1).
    apply lget_lset. }
  assert (H2 : keeps (fun s' => ((rng s') <| admin := admin r |>, trace s'))
    (@nwoas_admin_execute S AL ac true (Some (r_policy r)) (Some (r_command r)) 64
       (Some (payload r)) 4096 (Some r0))).
  { apply execute_frame.
    - intros a s1. rewrite Hset. f_equal.
      change (lset (Lens := AL) a s1) with (lset ((rng s1) <| admin := a |>) s1). apply tr_lset.
    - intros f b n E s1. by rewrite (ke_ac_contains f b n E), (tr_ac_contains f b n E).
    - intros f v E s1. by rewrite (ke_ac_set f v E), (tr_ac_set f v E).
    - intros f E s1. by rewrite (ke_ac_get f E), (tr_ac_get f E). }
  specialize (H2 s). revert H1 H2. rewrite !mwp_iff.
  destruct (nwoas_admin_execute _ _ _ _ _ _ _ _ s) as [ex s']. cbn [fst snd].
  intros (out' & r' & E1 & E2 & E3 & Hi' & Hr) H2. apply pair_equal_spec in H2 as [H2 H3].
  exists (admin (rng s')), out', r'. split_and!;
    [exact (admin_only _ _ _ H2) | exact H3 | exact E1 | exact E2 | by rewrite E3 | exact Hi' |].
  destruct Hr as [[-> ->]|(-> & _ & Hr)]; [done | exact Hr].
Qed.
Lemma resolve_spec n (s : S) :
  mwp (resolve env n) (fun spans s' => rng s' = rng s /\ trace s' = trace s /\
    (spans = [] \/ (exists a, spans = [(a, n)]) \/
     exists a b k, spans = [(a, k); (b, n - k)] /\ 0 < k < n)) s.
Proof.
  unfold resolve. cbv zeta. wp_run; [by auto |].
  assert (0 <= get64 (r_command (rng s)) 24 .& 4095 < 4096).
  { change 4095 with (2 ^ 12 - 1). rewrite land_ones_mod by lia.
    change (2 ^ 12) with 4096. apply Z.mod_pos_bound. lia. }
  eapply mwp_mono; [apply range_spec |]. intros ok1 s1 (E1 & T1 & _). wp_run; [by auto | | by auto |].
  - bool_props. rewrite H2. eauto 6.
  - eapply mwp_mono; [apply range_spec |]. intros ok2 s2 (E2 & T2 & _).
    wp_run; rewrite E2, T2; [by auto |]. split_and!; try done. right; right.
    eexists _, _, _. split; [reflexivity |]. bool_props. cbn in *. lia.
Qed.

(** The data writes of a list of spans over the payload. *)
Fixpoint span_events (p : list Z) (spans : list (Z * Z)) (off : Z) : list ring_event :=
  match spans with
  | [] => []
  | (a, n) :: spans' => EvWrite a (ztake n (zdrop off p)) :: span_events p spans' (off + n)
  end.

Lemma span_events_data p spans off : Forall is_data (span_events p spans off).
Proof.
  revert off. induction spans as [|[a n] spans IH]; intros off; constructor; [| apply IH].
  by eexists _, _.
Qed.

Lemma write_spans_spec n spans off (s0 s : S) evs Q :
  ring_inv n (rng s) -> same_config (rng s0) (rng s) ->
  trace s = trace s0 ++ evs -> Forall is_data evs ->
  (forall s', rng s' = rng s ->
     trace s' = trace s0 ++ evs ++ span_events (payload (rng s)) spans off -> Q (inr tt) s') ->
  (forall v s', fail_post n s0 v s' -> Q (inl v) s') ->
  wp (write_spans env spans off) Q s.
Proof.
  intros Hi Hc Ht Hd HQ HF. revert off s evs Hi Hc Ht Hd HQ.
  induction spans as [|[a k] spans IH]; intros off s evs Hi Hc Ht Hd HQ; cbn [write_spans].
  - wp_run. apply HQ; [done |]. by rewrite app_nil_r.
  - wp_run. eapply mwp_mono; [by eapply write_spec |]. intros ok s1 [Hk Htr]. cbn [id] in *. wp_run.
    + destruct ok; [done |]. destruct Htr as (evs' & Htr & Hv).
      eapply (fail_exit_spec n s0 s1 _ evs'); rewrite ?Hk; try done.
      rewrite Hv, <- (app_nil_r evs). by rewrite visible_data.
    + destruct ok; [| done]. rewrite <- Hk in *. eapply (IH _ s1 (evs ++ [_])); try done.
      * apply Forall_app. split; [done |]. constructor; [by eexists _, _ | done].
      * intros s' E T. apply HQ; [done |]. rewrite T. cbn [span_events]. by rewrite <- app_assoc.
Qed.

(** The result that is completed for a command that returned [r], and its
    data, when the PRP list names [spans]: nothing without a response; Invalid
    Field for a list that is refused; else the response, split over the list. *)
Definition transferred (spans : list (Z * Z)) (p : list Z) (r r' : nwoas_admin_result)
    (data : list ring_event) : Prop :=
  if ar_bytes r =? 0 then r' = r /\ data = []
  else match spans with
  | [] => r' = mk_admin_result 0 0 2 (ar_changed r) (ar_deferred r) /\ data = []
  | _ => r' = r /\ data = span_events p spans 0 /\
         concat (map event_bytes data) = ztake (ar_bytes r) p
  end.

Lemma span_bytes_two (p : list Z) k n :
  0 < k < n -> ztake k (zdrop 0 p) ++ ztake (n - k) (zdrop (0 + k) p) ++ [] = ztake n p.
Proof.
  intros H. rewrite app_nil_r, Z.add_0_l. unfold ztake, zdrop.
  replace (Z.to_nat n) with (Z.to_nat k + Z.to_nat (n - k))%nat by lia.
  rewrite drop_0. apply take_take_drop.
Qed.

Lemma transfer_spec n result (s0 s : S) Q :
  ring_inv n (rng s) -> same_config (rng s0) (rng s) -> trace s = trace s0 ->
  in_w 11 (ar_status result) ->
  (forall result' data s', rng s' = rng s -> trace s' = trace s0 ++ data ->
     Forall is_data data -> in_w 11 (ar_status result') ->
     transferred (resolve env (ar_bytes result) s).1 (payload (rng s)) result result' data ->
     Q (inr result') s') ->
  (forall v s', fail_post n s0 v s' -> Q (inl v) s') ->
  wp (transfer env result) Q s.
Proof.
  intros Hi Hc Ht Hst HQ HF. unfold transfer, transferred in *. wp_run.
  - eapply mwp_mono; [apply mwp_self, resolve_spec |]. intros spans s1 ((E1 & T1 & Hsp) & Er).
    rewrite Er in HQ. bool_props. rewrite (proj2 (Z.eqb_neq _ 0)) in HQ by done. cbn [fst] in HQ.
    destruct Hsp as [-> | Hsp].
    { wp_run. apply (HQ _ []); auto; [| by split]. by rewrite T1, Ht, app_nil_r. }
    assert (Hb : concat (map event_bytes (span_events (payload (rng s)) spans 0)) =
                 ztake (ar_bytes result) (payload (rng s))).
    { destruct Hsp as [(a & ->)|(a & b & k & -> & Hk)]; cbn [span_events map concat event_bytes].
      - by rewrite app_nil_r.
      - by apply span_bytes_two. }
    destruct spans as [|sp spans]; [by destruct Hsp as [(a & Hn)|(a & b & k & Hn & _)] |].
    wp_run. rewrite <- E1 in Hi, Hc.
    eapply (write_spans_spec n _ 0 s0 s1 []); try done.
    { by rewrite T1, Ht, app_nil_r. }
    intros s2 E2 T2. wp_run. rewrite E1 in *.
    eapply (HQ result (span_events (payload (rng s)) (sp :: spans) 0)); try done.
    apply span_events_data.
  - bool_props. apply (HQ result []); auto; [by rewrite Ht, app_nil_r |]. by rewrite H.
Qed.

(** The state after posting entry [n] from ring [r]. *)
Definition posted (n : Z) (r r' : nwoas_admin_ring) : Prop :=
  ring_inv (n + 1) r' /\ same_config r r' /\ sq_head r' = sq_head r /\
  r_fatal r' = r_fatal r /\ r_pending r' = r_pending r + 1 /\
  payload r' = payload r /\ admin r' = admin r /\ r_command r' = r_command r.

Lemma posted_advance n r c :
  ring_inv n r -> active r = true -> r_pending r < cq_depth r - 1 -> zlen c = 16 ->
  posted n r (advance_cq (r <| completion := c |>)).
Proof.
  intros [] Ha Hp Hc. destruct (ri_active0 Ha) as
    (Hq & Hcq & Hh & Ht & Hch & Hpe & Hpn & Etail & Eph & Emod).
  pose proof Hcq as (Hd & _).
  destruct (mod_succ (cq_depth r) n) as [Em Ep]; [lia | lia |].
  assert (Eu : u16 ((cq_tail r + 1) mod cq_depth r) = (n + 1) mod cq_depth r).
  { rewrite Etail, Em. apply wrap_small.
    pose proof (Z.mod_pos_bound (n + 1) (cq_depth r)). split; [lia |].
    change (2 ^ 16) with 65536. lia. }
  assert (Eup : u16 (r_pending r + 1) = r_pending r + 1).
  { apply wrap_small. split; [lia |]. change (2 ^ 16) with 65536. lia. }
  unfold advance_cq. cbn. rewrite Eu, Eup. split; [| by split; [split |]].
  split; cbn; try done; try lia. intros _. split_and!; try done; try lia.
  - rewrite Ep, Eph. unfold truthy. by destruct (_ =? 0).
  - rewrite Z.add_assoc, <- Zplus_mod_idemp_l, Emod, Etail. done.
Qed.

Lemma slot_address n r :
  ring_inv n r -> active r = true ->
  u64 (cq_base r + cq_tail r * 16) = cq_base r + (n mod cq_depth r) * 16 /\
  u64 (u64 (cq_base r + cq_tail r * 16) + 14) = cq_base r + (n mod cq_depth r) * 16 + 14.
Proof.
  intros [] Ha. destruct (ri_active0 Ha) as (_ & (Hd & _ & _ & Hm) & _ & _ & _ & _ & _ & Et & _).
  pose proof (Z.mod_pos_bound n (cq_depth r) ltac:(lia)). rewrite Et.
  assert (H0 : u64 (cq_base r + n mod cq_depth r * 16) = cq_base r + n mod cq_depth r * 16).
  { apply wrap_small. split; [lia |]. change (2 ^ 64) with 18446744073709551616. lia. }
  rewrite H0. split; [done |]. apply wrap_small. split; [lia |].
  change (2 ^ 64) with 18446744073709551616. lia.
Qed.

Lemma zlen_cqe_body result head cid : zlen (cqe_body result head cid) = 14.
Proof. done. Qed.

Lemma publish_spec n cid result (s0 s : S) data Q :
  ring_inv n (rng s) -> active (rng s) = true -> r_pending (rng s) < cq_depth (rng s) - 1 ->
  same_config (rng s0) (rng s) -> in_w 11 (ar_status result) ->
  trace s = trace s0 ++ data -> Forall is_data data ->
  (forall s', posted n (rng s) (rng s') ->
     trace s' = trace s0 ++ data ++ cqe_events (cq_base (rng s)) (cq_depth (rng s)) n
       (cqe_body (ar_result result) (sq_head (rng s)) cid) (ar_status result) -> Q (inr tt) s') ->
  (forall v s', fail_post n s0 v s' -> Q (inl v) s') ->
  wp (publish env cid result) Q s.
Proof.
  intros Hi Ha Hp Hc Hst Ht Hd HQ HF. unfold publish. cbv zeta. wp_run.
  destruct (slot_address n (rng s) Hi Ha) as [Ea1 Ea2].
  assert (Eph : phase (rng s) = phase_of (cq_depth (rng s)) n).
  { destruct Hi. by destruct (ri_active0 Ha) as (_ & _ & _ & _ & _ & _ & _ & _ & ? & _). }
  set (st := 2 * ar_status result + phase_of (cq_depth (rng s)) n).
  assert (Est : u16 ((ar_status result .<< 1) .| phase (rng s)) = st).
  { rewrite Eph. apply status_word; [done | apply phase_of_bit]. }
  rewrite completion_bytes, Est in Hl by apply Hi.
  set (bd := cqe_body (ar_result result) (sq_head (rng s)) cid) in *.
  assert (Hi1 : ring_inv n (rng s')).
  { rewrite Hl. destruct Hi. split; cbn; auto. }
  assert (Hc1 : same_config (rng s0) (rng s')).
  { etrans; [exact Hc |]. rewrite Hl. by split. }
  assert (Ht1 : trace s' = trace s0 ++ data) by (by rewrite Hs, tr_lset).
  assert (Ecp : completion (rng s') = bd ++ le_bytes 2 st) by (by rewrite Hl).
  assert (Eb : cq_base (rng s') = cq_base (rng s) /\ cq_tail (rng s') = cq_tail (rng s) /\
    cq_depth (rng s') = cq_depth (rng s)) by (by rewrite Hl).
  destruct Eb as (Eb1 & Eb2 & Eb3). cbn [id]. rewrite Eb1, Eb2, Ecp, Ea2, Ea1.
  rewrite (ztake_app bd) by done. rewrite (zdrop_app bd) by done.
  eapply mwp_mono; [apply range_spec |]. intros ok1 s1 (E1 & T1 & _). wp_run.
  { eapply (fail_exit_spec n s0 s1 _ data); rewrite ?E1, ?T1; try done.
    rewrite <- (app_nil_r data). by rewrite visible_data. }
  set (slot := cq_base (rng s) + n mod cq_depth (rng s) * 16) in *.
  eapply mwp_mono; [apply (write_spec slot bd s0 s1 data); congruence |]. intros ok2 s2 [E2 T2].
  wp_run.
  { destruct ok2; [done |]. destruct T2 as (evs & T2 & Hv).
    eapply (fail_exit_spec n s0 s2 _ evs); rewrite ?E2, ?E1; try done.
    rewrite Hv, <- (app_nil_r data). by rewrite visible_data. }
  destruct ok2; [| done].
  pose proof (tr_barrier s2) as T3. pose proof (ke_barrier s2) as E3.
  apply mwp_iff. destruct (re_barrier env s2) as [[] s3]. cbn [fst snd] in *. wp_run.
  eapply mwp_mono.
  { apply (write_spec (slot + 14) _ s0 s3 (data ++ [EvWrite slot bd; EvBarrier])).
    by rewrite T3, T2, <- !app_assoc. }
  intros ok4 s4 [E4 T4]. wp_run.
  { destruct ok4; [done |]. destruct T4 as (evs & T4 & Hv).
    eapply (fail_exit_spec n s0 s4 _ evs); rewrite ?E4, ?E3, ?E2, ?E1; try done.
    by rewrite Hv, visible_data. }
  destruct ok4; [| done].
  eapply (mwp_cb2 RNG trace); [apply ke_pending | apply tr_pending |]. intros [] s6 E6 T6.
  apply HQ.
  - rewrite E6, Hl0, E4, E3, E2, E1, Hl. by apply (posted_advance n (rng s)).
  - rewrite T6, Hs0, tr_lset, T4, <- !app_assoc. reflexivity.
Qed.

(** What an iteration fetches, and what it executes. *)
Definition sq_slot (r : nwoas_admin_ring) : Z := sq_base r + sq_head r * 64.
Definition fetched (s : S) : (bool * list Z) * S :=
  re_read env (sq_slot (rng s)) 64 (range env (sq_slot (rng s)) 64 s).2.
Definition executed (s : S) : (Z * option (list Z) * option nwoas_admin_result) * S :=
  let f := fetched s in
  @nwoas_admin_execute S (admin_lens (L := L)) ac true (Some (r_policy (rng s))) (Some f.1.2) 64
    (Some (payload (rng s))) 4096 (Some r0) (lset ((rng s) <| r_command := f.1.2 |>) f.2).

(** The data transfer of command [c], from the state [s] before it. *)
Definition transfers (c : served_command) (p : list Z) (s : S) : Prop :=
  if ar_deferred (sv_result c) then sv_completed c = sv_result c /\ sv_data c = []
  else exists sx, r_command (rng sx) = sv_command c /\ payload (rng sx) = p /\ trace sx = trace s /\
    transferred (resolve env (ar_bytes (sv_result c)) sx).1 p (sv_result c) (sv_completed c) (sv_data c).

(** One successful iteration: command [c] is the one at the SQ head, its result
    the one of executing it, and it is completed as entry [n] unless it is a
    held event, which posts nothing. *)
Record served_as (n : Z) (c : served_command) (s s' : S) : Prop := {
  so_fetched : (fetched s).1 = (true, sv_command c);
  so_executed : (executed s).1 = (1, Some (payload (rng s')), Some (sv_result c));
  so_command : r_command (rng s') = sv_command c;
  so_report : admin_report (admin (rng s)) (sv_result c) (admin (rng s'));
  so_config : same_config (rng s) (rng s');
  so_fatal : r_fatal (rng s') = r_fatal (rng s);
  so_head : sq_head (rng s') = (sq_head (rng s) + 1) mod sq_depth (rng s);
  so_inv : ring_inv (n + entries c) (rng s');
  so_pending : r_pending (rng s') = r_pending (rng s) + entries c;
  so_transfer : transfers c (payload (rng s')) s;
  so_data : Forall is_data (sv_data c) /\ in_w 11 (ar_status (sv_completed c));
  so_trace : trace s' = trace s ++
    command_events (cq_base (rng s)) (cq_depth (rng s)) n (sq_head (rng s')) c;
}.
Definition served (n : Z) (s s' : S) : Prop := exists c, served_as n c s s'.

Lemma executed_inv n r cmd a p :
  ring_inv n r -> admin_inv a -> zlen p = 4096 ->
  let head := u16 ((sq_head r + 1) mod sq_depth r) in
  ring_inv n (mk_ring (r_policy r) a (sq_base r) (cq_base r) (lifecycle r) (sq_depth r)
    (cq_depth r) head (sq_tail r) (cq_head r) (cq_tail r) (r_pending r) (phase r) (active r)
    (r_fatal r) cmd p (completion r)) /\
  (active r = true -> head = (sq_head r + 1) mod sq_depth r).
Proof.
  intros [] Ha Hp head.
  assert (Eh : active r = true -> head = (sq_head r + 1) mod sq_depth r /\
    0 <= (sq_head r + 1) mod sq_depth r < sq_depth r).
  { intros Hact. destruct (ri_active0 Hact) as ((Hd & _) & _).
    pose proof (Z.mod_pos_bound (sq_head r + 1) (sq_depth r) ltac:(lia)).
    split; [| done]. apply wrap_small. split; [lia |]. change (2 ^ 16) with 65536. lia. }
  split; [| by intros; apply Eh]. split; cbn; auto.
  intros Hact. destruct (Eh Hact) as [-> ?]. destruct (ri_active0 Hact) as (? & ? & ? & ?). auto.
Qed.

Lemma inv_buffers n r cmd a p :
  ring_inv n r -> admin_inv a -> zlen p = 4096 ->
  ring_inv n (r <| r_command := cmd |>) /\
  ring_inv n (mk_ring (r_policy r) a (sq_base r) (cq_base r) (lifecycle r) (sq_depth r)
    (cq_depth r) (sq_head r) (sq_tail r) (cq_head r) (cq_tail r) (r_pending r) (phase r) (active r)
    (r_fatal r) cmd p (completion r)).
Proof. intros [] Ha Hp. split; split; cbn; auto. Qed.

Lemma complete_spec n result cid (s0 s : S) Q :
  ring_inv n (rng s) -> active (rng s) = true -> r_pending (rng s) < cq_depth (rng s) - 1 ->
  cid = get16 (r_command (rng s)) 2 -> (fetched s0).1 = (true, r_command (rng s)) ->
  (executed s0).1 = (1, Some (payload (rng s)), Some result) ->
  admin_report (admin (rng s0)) result (admin (rng s)) -> same_config (rng s0) (rng s) ->
  r_fatal (rng s) = r_fatal (rng s0) -> r_pending (rng s) = r_pending (rng s0) ->
  sq_head (rng s) = (sq_head (rng s0) + 1) mod sq_depth (rng s0) -> trace s = trace s0 ->
  (forall s', served n s0 s' -> Q (inr tt) s') ->
  (forall v s', fail_post n s0 v s' -> Q (inl v) s') ->
  wp (complete env cid result) Q s.
Proof.
  intros Hi Ha Hp -> Hfe Hex Hr Hc Hf Hpe Hh Ht HQ HF. unfold complete.
  destruct (ar_deferred result) eqn:Ed; wp_run.
  { apply HQ. exists (mk_served (r_command (rng s)) result result []).
    split; unfold entries, transfers, command_events; cbn [sv_command sv_result sv_completed sv_data]; rewrite ?Ed, ?Z.add_0_r, ?app_nil_r; auto.
    split; [constructor | by destruct Hr]. }
  apply (transfer_spec n result s0 s); auto; [by destruct Hr |].
  intros result' data s1 E1 T1 Hd Hst Htr. rewrite <- E1 in Hi, Ha, Hp, Hc.
  apply (publish_spec n _ result' s0 s1 data); auto.
  intros s2 (Hi2 & Hc2 & Eh & Ef & Ep & Epl & Ead & Ecm) T2. rewrite E1 in *.
  assert (Ecq : cq_base (rng s) = cq_base (rng s0) /\ cq_depth (rng s) = cq_depth (rng s0))
    by (destruct Hc as [_ _ (? & ? & _) _]; done).
  apply HQ. exists (mk_served (r_command (rng s)) result result' data).
  split; unfold entries, transfers, command_events; cbn [sv_command sv_result sv_completed sv_data]; rewrite ?Ed; try (by congruence); auto.
  - by etrans.
  - exists s. rewrite Epl. auto.
  - rewrite T2, Eh. destruct Ecq as [<- <-]. done.
Qed.

Lemma sq_slot_address n r :
  ring_inv n r -> active r = true -> u64 (sq_base r + sq_head r * 64) = sq_slot r.
Proof.
  intros [] Ha. destruct (ri_active0 Ha) as ((Hd & _ & _ & Hm) & _ & Hh & _).
  unfold sq_slot. apply wrap_small. split; [lia |]. change (2 ^ 64) with 18446744073709551616. lia.
Qed.

Lemma service_spec n (s : S) Q :
  ring_inv n (rng s) -> active (rng s) = true -> r_pending (rng s) < cq_depth (rng s) - 1 ->
  (forall s', served n s s' -> Q (inr tt) s') ->
  (forall v s', fail_post n s v s' -> Q (inl v) s') ->
  wp (service env ac) Q s.
Proof.
  intros Hi Ha Hp HQ HF. unfold service. cbv zeta. wp_run. cbn [id].
  rewrite (sq_slot_address n (rng s) Hi Ha).
  eapply mwp_mono; [apply mwp_self, range_spec |]. intros ok1 s1 ((E1 & T1 & _) & R1). wp_run.
  { eapply (fail_exit_spec n s s1 _ []); rewrite ?E1, ?T1, ?app_nil_r; done. }
  pose proof (ke_read_ok (sq_slot (rng s)) 64 s1 ltac:(lia)) as Hrd.
  pose proof (ke_read (sq_slot (rng s)) 64 s1) as E2. pose proof (tr_read (sq_slot (rng s)) 64 s1) as T2.
  assert (Hfs : fetched s = re_read env (sq_slot (rng s)) 64 s1) by (unfold fetched; by rewrite R1).
  apply mwp_iff. destruct (re_read env (sq_slot (rng s)) 64 s1) as [rd s2]. cbn [fst snd] in *. wp_run.
  { eapply (fail_exit_spec n s s' _ []); rewrite ?app_nil_r; try done.
    - rewrite Hl, E2, E1. apply (inv_buffers n (rng s) _ (admin (rng s)) (payload (rng s))); apply Hi.
    - rewrite Hl, E2, E1. by split.
    - rewrite Hs, tr_lset. congruence. }
  rewrite E2, E1 in Hl, Hs. destruct Hrd as [_ Hrd]; [by apply negb_false_iff |].
  eapply mwp_mono; [apply mwp_self, exec_spec; rewrite Hl; cbn; [done | apply Hi ..] |].
  intros ex s3 ((a' & out' & result & E3 & T3 & Eo & Er & Hlen & Hia & Hrep) & Hexe).
  rewrite Er. cbn [default].
  assert (T03 : trace s3 = trace s) by (rewrite T3, Hs, tr_lset; congruence).
  assert (Hxs : executed s = (ex, s3)).
  { unfold executed. rewrite Hfs. cbn [fst snd]. rewrite <- Hs, <- Hexe, Hl. done. }
  rewrite Hl in E3. cbn in E3. do 5 wp_step; rewrite E3, Eo in Hl0; cbn in Hl0.
  { assert (T4 : trace s'0 = trace s) by (rewrite Hs0, tr_lset; done).
    eapply (fail_exit_spec n s s'0 _ []); rewrite ?app_nil_r; try done.
    - rewrite Hl0. by apply inv_buffers.
    - rewrite Hl0. by split. }
  rewrite negb_false_iff in H1. rewrite H1, Hl in Hrep. cbn in Hrep.
  do 3 wp_step.
  assert (T5 : trace s'1 = trace s) by (rewrite Hs1, tr_lset, Hs0, tr_lset; done).
  rewrite Hl0 in Hl1. cbn in Hl1.
  destruct (executed_inv n (rng s) rd.2 a' out' Hi Hia Hlen) as [Hi5 Eh].
  rewrite <- Hl1 in Hi5. rewrite (Eh Ha) in Hl1.
  assert (Hc5 : same_config (rng s) (rng s'1)) by (rewrite Hl1; by split).
  assert (Hfe : (fetched s).1 = (true, rd.2)).
  { rewrite Hfs. cbn. destruct rd as [[] ?]; done. }
  assert (Hxe : (executed s).1 = (1, Some out', Some result)).
  { rewrite Hxs. destruct ex as [[k ?] ?]. cbn in *. bool_props. by subst. }
  wp_run.
  - eapply (mwp_cb2 RNG trace); [apply ke_reconcile | apply tr_reconcile |].
    intros ok6 s6 E6 T6. rewrite <- E6 in Hi5, Hc5, Hl1. rewrite <- T6 in T5. wp_run.
    + apply (fail_exit_spec n s s6 _ []); rewrite ?app_nil_r; auto.
    + apply (complete_spec n result _ s s6); auto; rewrite Hl1; cbn; by rewrite ?Hl.
  - apply (complete_spec n result _ s s'1); auto; rewrite Hl1; cbn; by rewrite ?Hl.
Qed.

(** The successful iterations of the loop: from [consumed] commands and [n]
    posted entries on, each taken because the loop condition held. *)
Inductive run (budget : Z) : Z -> Z -> S -> list served_command -> S -> Prop :=
| run_nil consumed n s : run budget consumed n s [] s
| run_cons consumed n s c s1 h s' :
    more (rng s) budget consumed = true -> service env ac s = (inr tt, s1) -> served_as n c s s1 ->
    run budget (consumed + 1) (n + entries c) s1 h s' ->
    run budget consumed n s (c :: h) s'.

Lemma run_summary budget consumed n s h s' :
  run budget consumed n s h s' -> ring_inv n (rng s) -> active (rng s) = true ->
  ring_inv (n + entries_of h) (rng s') /\ same_config (rng s) (rng s') /\
  r_fatal (rng s') = r_fatal (rng s) /\ r_pending (rng s') = r_pending (rng s) + entries_of h /\
  sq_head (rng s') = (sq_head (rng s) + zlen h) mod sq_depth (rng s) /\
  trace s' = trace s ++
    published (cq_base (rng s)) (cq_depth (rng s)) (sq_depth (rng s)) n (sq_head (rng s)) h /\
  visible (published (cq_base (rng s)) (cq_depth (rng s)) (sq_depth (rng s)) n (sq_head (rng s)) h) =
    Z.to_nat (entries_of h) /\ consumed + zlen h <= Z.max consumed budget.
Proof.
  induction 1 as [consumed n s|consumed n s c s1 h s' Hm _ Hsv _ IH]; intros Hi Ha.
  - destruct Hi. destruct (ri_active0 Ha) as (_ & _ & Hh & _). cbn [published].
    rewrite !Z.add_0_r, app_nil_r, Z.mod_small by done. split_and!; done || lia.
  - pose proof Hsv as []. pose proof so_config0 as [_ (Eb1 & Ed1 & _) (Eb2 & Ed2 & _) (_ & Eac)].
    destruct (IH so_inv0 ltac:(congruence)) as (H1 & H2 & H3 & H4 & H5 & H6 & H7 & H8).
    rewrite entries_cons, zlen_cons in *. cbn [published].
    rewrite Eb2, Ed2, Ed1, so_head0 in *. unfold more in Hm. bool_props. split_and!.
    + by rewrite Z.add_assoc.
    + by etrans.
    + congruence.
    + lia.
    + rewrite H5, Zplus_mod_idemp_l. f_equal. lia.
    + by rewrite H6, so_trace0, <- app_assoc.
    + unfold command_events, entries in *. pose proof (entries_of_range h).
      destruct (ar_deferred _); [exact H7 |].
      rewrite <- app_assoc, visible_data by apply so_data0. cbn [cqe_events app visible].
      rewrite H7. lia.
    + lia.
Qed.

(** What the service loop has done when it returns, having started with
    [consumed] commands and [n] posted entries: the commands [h] are those of
    the submission slots from the SQ head on, and memory holds one entry for
    each that is not a held event, in their order, and nothing else.  When an
    iteration fails, this is so for the commands before it. *)
Definition poll_post (budget consumed n : Z) (s : S) (res : Z + Z) (s' : S) : Prop :=
  exists h s1, run budget consumed n s h s1 /\
    let k := consumed + zlen h in
    let n1 := n + entries_of h in
    let memory := published (cq_base (rng s)) (cq_depth (rng s)) (sq_depth (rng s)) n
                    (sq_head (rng s)) h in
    k <= budget /\ trace s1 = trace s ++ memory /\ visible memory = Z.to_nat (entries_of h) /\
    ring_inv n1 (rng s1) /\ same_config (rng s) (rng s1) /\ r_fatal (rng s1) = r_fatal (rng s) /\
    r_pending (rng s1) = r_pending (rng s) + entries_of h /\
    sq_head (rng s1) = (sq_head (rng s) + zlen h) mod sq_depth (rng s) /\
    match res with
    | inr v => v = k /\ s' = s1 /\ more (rng s1) budget k = false
    | inl v => more (rng s1) budget k = true /\ service env ac s1 = (inl v, s') /\
               fail_post n1 s1 v s'
    end.

Lemma poll_loop_run fuel : forall budget consumed n (s : S),
  ring_inv n (rng s) -> active (rng s) = true -> consumed + Z.of_nat fuel = budget ->
  wp (poll_loop env ac fuel budget consumed) (fun res s' => exists h s1,
    run budget consumed n s h s1 /\
    match res with
    | inr v => v = consumed + zlen h /\ s' = s1 /\ more (rng s1) budget v = false
    | inl v => more (rng s1) budget (consumed + zlen h) = true /\
               service env ac s1 = (inl v, s') /\ fail_post (n + entries_of h) s1 v s'
    end) s.
Proof.
  induction fuel as [|fuel IH]; intros budget consumed n s Hi Ha Hb; cbn [poll_loop]; wp_run.
  - exists [], s. split; [constructor |]. rewrite Z.add_0_r. split_and!; try done.
    unfold more. by rewrite (proj2 (Z.ltb_ge _ _)) by lia.
  - cbn [id] in *. pose proof H as Hm. unfold more in Hm. bool_props.
    pose proof (service_spec n s (fun r s' => match r with
      | inr _ => served n s s' | inl v => fail_post n s v s' end) Hi Ha ltac:(lia)
      (fun _ x => x) (fun _ _ x => x)) as Hs.
    rewrite wp_iff in Hs. apply wp_iff. destruct (service env ac s) as [[v|[]] s1] eqn:Es; cbn [fst snd] in *.
    + exists [], s. split; [constructor |]. rewrite !Z.add_0_r. auto.
    + destruct Hs as [c Hs]. pose proof Hs as []. destruct so_config0 as [_ _ _ [_ Eac]].
      eapply wp_mono; [apply (IH budget (consumed + 1) (n + entries c) s1); [done | congruence | lia] |].
      intros res s' (h & s2 & Hr & Hres). exists (c :: h), s2.
      split; [by eapply run_cons |]. rewrite entries_cons, zlen_cons, !Z.add_assoc.
      by destruct res.
  - exists [], s. split; [constructor |]. rewrite Z.add_0_r. auto.
Qed.

Lemma poll_loop_spec fuel budget consumed n (s : S) :
  ring_inv n (rng s) -> active (rng s) = true -> consumed + Z.of_nat fuel = budget ->
  wp (poll_loop env ac fuel budget consumed) (poll_post budget consumed n s) s.
Proof.
  intros Hi Ha Hb. eapply wp_mono; [by apply (poll_loop_run fuel budget consumed n) |].
  intros res s' (h & s1 & Hr & Hres). exists h, s1. split; [done |]. cbv zeta.
  destruct (run_summary _ _ _ _ _ _ Hr Hi Ha) as (H1 & H2 & H3 & H4 & H5 & H6 & H7 & H8).
  split_and!; try done; [lia |]. destruct res; [done |]. by destruct Hres as (-> & ? & ?).
Qed.
End service_spec.

(** ** Operations *)

Section operations.
Context {S : Type} `{L : !Lens S nwoas_admin_ring}.
Context (env : ring_env S) (ac : nwoas_admin_callbacks S) (trace : S -> list ring_event).
Context `{!RingEnv env ac} `{!RingTrace env ac trace}.

Local Abbreviation rng s := (lget (A := nwoas_admin_ring) s).
Local Abbreviation RNG := (lget (A := nwoas_admin_ring)).

Lemma fail_spec n (s : S) :
  ring_inv n (rng s) -> mwp (fail env) (fun v s' => fail_post trace n s v s') s.
Proof.
  intros Hi. pose proof (fail_exit_spec env ac trace n s s (A := unit)
    (fun r s' => match r with inl v => fail_post trace n s v s' | inr _ => False end) []) as H.
  unfold fail_exit in H. rewrite !mwp_iff in *. apply H; auto; [reflexivity |].
  by rewrite app_nil_r.
Qed.

Lemma poll_spec budget n (s : S) :
  ring_inv n (rng s) -> active (rng s) = true -> r_fatal (rng s) = false -> 1 <= budget <= 256 ->
  mwp (nwoas_ring_poll env ac budget) (fun v s' => exists res,
    v = match res with inl v | inr v => v end /\ poll_post env ac trace budget 0 n s res s') s.
Proof.
  intros Hi Ha Hf Hb. unfold nwoas_ring_poll.
  rewrite (proj2 (Z.eqb_neq budget 0)), (proj2 (Z.ltb_ge 256 budget)) by lia.
  cbn [orb when]. wp_run; cbn [id] in *; rewrite Ha, Hf in *; [done |].
  eapply wp_mono; [by apply (poll_loop_spec env ac trace (Z.to_nat budget) budget 0 n); auto; lia |].
  intros res s' H0. by exists res.
Qed.

Lemma poll_inv budget n (s : S) :
  ring_inv n (rng s) -> 0 <= budget ->
  mwp (nwoas_ring_poll env ac budget) (fun _ s' => exists n', ring_inv n' (rng s')) s.
Proof.
  intros Hi Hb. destruct (active (rng s) && negb (r_fatal (rng s)) && (1 <=? budget) &&
    (budget <=? 256)) eqn:E.
  - bool_props. eapply mwp_mono; [by apply (poll_spec budget n) |].
    intros v s' (res & _ & h & s1 & _ & _ & _ & _ & Hi' & _ & _ & _ & _ & Hres).
    destruct res as [v'|v']; [destruct Hres as (_ & _ & _ & _ & Hi'' & _) | destruct Hres as (_ & -> & _)]; eauto.
  - unfold nwoas_ring_poll. wp_run; try (by exists n). exfalso. bool_props. cbn [id] in *.
    rewrite (proj2 (Z.leb_le 1 budget)), (proj2 (Z.leb_le budget 256)) in E by lia.
    destruct (active (rng s)), (r_fatal (rng s)); done.
Qed.

Lemma tail_inv tail n r : ring_inv n r -> 0 <= tail < sq_depth r -> ring_inv n (r <| sq_tail := u16 tail |>).
Proof.
  intros Hi Ht. destruct Hi. split; cbn; auto. intros Ha. destruct (ri_active0 Ha) as (Hq & ? & ? & ? & ?).
  rewrite (wrap_small 16 tail); [split_and!; auto; lia |].
  destruct Hq as [Hd _]. split; [lia |]. change (2 ^ 16) with 65536. lia.
Qed.

Lemma tail_spec tail n (s : S) :
  ring_inv n (rng s) -> 0 <= tail ->
  mwp (nwoas_ring_tail env ac tail) (fun v s' => exists n', ring_inv n' (rng s')) s.
Proof.
  intros Hi Ht. unfold nwoas_ring_tail, fail_exit. wp_run; [by exists n | |].
  - eapply mwp_mono; [by apply (fail_spec n) |]. intros v s' (_ & _ & Hi' & _). wp_run. by exists n.
  - apply (poll_inv 256 n); [| lia]. rewrite Hl. bool_props. cbn [id] in *. by apply tail_inv.
Qed.

(** The acknowledged entries named by a CQ head doorbell. *)
Definition acked (r : nwoas_admin_ring) (head : Z) : Z := (head - cq_head r) mod cq_depth r.

Lemma ack_count n r head :
  ring_inv n r -> active r = true -> 0 <= head < cq_depth r ->
  u32 (head + cq_depth r - cq_head r) mod cq_depth r = acked r head.
Proof.
  intros [] Ha Hh. destruct (ri_active0 Ha) as (_ & (Hd & _) & _ & _ & Hc & _).
  rewrite wrap_small by (split; [lia |]; change (2 ^ 32) with 4294967296; lia).
  unfold acked. replace (head + cq_depth r - cq_head r) with (head - cq_head r + 1 * cq_depth r) by lia.
  by rewrite Z.mod_add by lia.
Qed.

Lemma ack_inv n r head :
  ring_inv n r -> active r = true -> 0 <= head < cq_depth r -> acked r head <= r_pending r ->
  ring_inv n (r <| cq_head := u16 head |> <| r_pending := u16 (r_pending r - acked r head) |>) /\
  u16 head = head /\ u16 (r_pending r - acked r head) = r_pending r - acked r head.
Proof.
  intros [] Ha Hh Hle. destruct (ri_active0 Ha) as (Hq & Hcq & G1 & G2 & G3 & G4 & G5 & G6 & G7 & G8).
  pose proof Hcq as [Hd _].
  assert (0 <= acked r head) by (apply Z.mod_pos_bound; lia).
  assert (Eh : u16 head = head) by (apply wrap_small; split; [lia |]; change (2 ^ 16) with 65536; lia).
  assert (Ep : u16 (r_pending r - acked r head) = r_pending r - acked r head)
    by (apply wrap_small; split; [lia |]; change (2 ^ 16) with 65536; lia).
  rewrite Eh, Ep. split; [| done]. split; cbn; auto. intros _. split_and!; auto; try lia.
  rewrite <- G8. unfold acked.
  rewrite (Z.mod_eq (head - cq_head r) (cq_depth r)) by lia.
  replace (head + (r_pending r - (head - cq_head r - cq_depth r * ((head - cq_head r) / cq_depth r))))
    with (cq_head r + r_pending r + ((head - cq_head r) / cq_depth r) * cq_depth r) by lia.
  apply Z.mod_add. lia.
Qed.

Lemma ack_spec head n (s : S) :
  ring_inv n (rng s) -> active (rng s) = true -> r_fatal (rng s) = false -> 0 <= head ->
  mwp (nwoas_ring_ack env head) (fun v s' =>
    if (head <? cq_depth (rng s)) && (acked (rng s) head <=? r_pending (rng s)) then
      v = 0 /\ trace s' = trace s /\
      rng s' = (rng s) <| cq_head := head |>
                       <| r_pending := r_pending (rng s) - acked (rng s) head |> /\
      ring_inv n (rng s')
    else fail_post trace n s v s') s.
Proof.
  intros Hi Ha Hf Hh. unfold nwoas_ring_ack, fail_exit. cbv zeta.
  wp_run; cbn [id] in *; try (rewrite Ha, Hf in H; done).
  - rewrite (proj2 (Z.ltb_ge head _)) by (by apply Z.leb_le). cbn [andb].
    eapply mwp_mono; [by apply (fail_spec n) |]. intros v s' H1. by wp_run.
  - bool_props. rewrite (ack_count n) in H1 by (done || lia).
    rewrite (proj2 (Z.ltb_lt head _)), (proj2 (Z.leb_gt _ _)) by lia. cbn [andb].
    eapply mwp_mono; [by apply (fail_spec n) |]. intros v s' Hfp. by wp_run.
  - bool_props. rewrite (ack_count n) in H1, Hl by (done || lia).
    rewrite (proj2 (Z.ltb_lt head _)), (proj2 (Z.leb_le _ _)) by lia. cbn [andb].
    destruct (ack_inv n (rng s) head Hi Ha ltac:(lia) H1) as (Hi' & Eh & Ep).
    rewrite Eh, Ep in *. cbn in Hi'. rewrite <- Hl in Hi'.
    eapply (mwp_cb2 RNG trace); [apply ke_pending | apply tr_pending |].
    intros [] s1 E1 T1. wp_run. rewrite E1. split_and!; try done.
    by rewrite T1, Hs, tr_lset.
Qed.

Lemma configure_inv q ns c nc n r :
  ring_inv n r -> 0 <= q -> 0 <= c -> queue_geometry q ns 64 -> queue_geometry c nc 16 ->
  ring_inv 0 (ring_configure q ns c nc r).
Proof.
  intros [] Hq0 Hc0 Hq Hc. pose proof Hq as [? _]. pose proof Hc as [? _].
  split; cbn; auto; try lia. intros _. unfold phase_of.
  rewrite !Zmod_0_l, Zdiv_0_l. split_and!; try done; try lia.
Qed.

(** The two range checks and the depth checks are the queue policy. *)
Lemma range_geometry base depth stride :
  2 <= depth <= 256 -> 0 <= stride <= 64 -> base .& 4095 = 0 -> base <> 0 ->
  base <= UINT64_MAX - u32 (depth * stride) -> queue_geometry base depth stride.
Proof.
  intros Hd Hs Ha Hb Hm. rewrite wrap_small in Hm; [split; [done | by split] |].
  split; [nia |]. change (2 ^ 32) with 4294967296. nia.
Qed.

Lemma configure_spec q ns c nc n (s : S) :
  ring_inv n (rng s) -> in_w 64 q -> in_w 64 c ->
  mwp (nwoas_ring_configure env q ns c nc) (fun ok s' => trace s' = trace s /\
    if ok then rng s' = ring_configure q ns c nc (rng s) /\ ring_inv 0 (rng s') /\
      active (rng s) = false /\ r_fatal (rng s) = false
    else rng s' = rng s) s.
Proof.
  intros Hi Hq Hc. unfold nwoas_ring_configure. wp_run; [done |].
  eapply mwp_mono; [apply (range_spec env ac trace) |]. intros ok1 s1 (E1 & T1 & Hr1). wp_run; [done |].
  eapply mwp_mono; [apply (range_spec env ac trace) |]. intros ok2 s2 (E2 & T2 & Hr2).
  wp_run; [split; congruence |].
  eapply (mwp_cb2 RNG trace); [apply ke_pending | apply tr_pending |]. intros [] s4 E4 T4. wp_run.
  rewrite E4, Hl, E2, E1, T4, Hs, tr_lset, T2, T1. split; [done |]. split; [done |].
  destruct ok1, ok2; try done. destruct (Hr1 eq_refl) as (? & _ & ?), (Hr2 eq_refl) as (? & _ & ?).
  bool_props. cbn [id] in *. split; [| done].
  apply (configure_inv _ _ _ _ n); [done | apply Hq | apply Hc | |]; by apply range_geometry.
Qed.

Lemma reset_inv full n r : ring_inv n r -> ring_inv n (ring_reset full r).
Proof. intros []. split; cbn; auto; try lia; try done. by apply admin_reset_inv. Qed.

Lemma reset_spec full n (s : S) :
  ring_inv n (rng s) ->
  mwp (nwoas_ring_reset env full) (fun _ s' => trace s' = trace s /\
    rng s' = ring_reset full (rng s) /\ ring_inv n (rng s')) s.
Proof.
  intros Hi. unfold nwoas_ring_reset. wp_run.
  eapply (mwp_cb2 RNG trace); [apply ke_pending | apply tr_pending |]. intros [] s1 E1 T1.
  rewrite T1, E1, Hl. split_and!; [by rewrite Hs, tr_lset | done |].
  by apply reset_inv.
Qed.
End operations.

(** ** The client's side

    What an owner that embeds the ring needs to know: a property [I] of its
    store that the callbacks keep, that does not look inside the queues, and
    that is re-established by the pending callback after a change of the
    pending count and by a fault, survives every doorbell and poll.  A command
    that changes the I/O queues is followed by the reconcile callback, which
    re-establishes the property for the new queues or makes the ring fail. *)

(** The queues as the owner sees them. *)
Record client_same (r r' : nwoas_admin_ring) : Prop := {
  cs_sq : sq_base r' = sq_base r /\ sq_depth r' = sq_depth r;
  cs_cq : cq_base r' = cq_base r /\ cq_depth r' = cq_depth r;
  cs_active : active r' = active r;
  cs_fatal : r_fatal r' = r_fatal r;
}.

(** The I/O queues. *)
Definition io_queues (a : nwoas_admin_state) := (sq a, cq a, sq_generation a, cq_generation a).
Definition quiet (r r' : nwoas_admin_ring) : Prop :=
  client_same r r' /\ r_pending r' = r_pending r /\ io_queues (admin r') = io_queues (admin r).

(** A change of the I/O queues as the command reports it. *)
Record admin_change (a : nwoas_admin_state) (changed : Z) (a' : nwoas_admin_state) : Prop := {
  ch_inv : admin_inv a';
  ch_changed : changed = 0 \/ changed = 1 \/ changed = 2 \/ changed = 4;
  ch_sq : if changed =? 1
    then q_present (sq a') = negb (q_present (sq a)) /\ sq_generation a' = incr64 (sq_generation a)
    else sq a' = sq a /\ sq_generation a' = sq_generation a;
  ch_cq : if changed =? 2
    then q_present (cq a') = negb (q_present (cq a)) /\ cq_generation a' = incr64 (cq_generation a)
    else cq a' = cq a /\ cq_generation a' = cq_generation a;
}.

Lemma report_change a r a' : admin_inv a' -> admin_report a r a' -> admin_change a (ar_changed r) a'.
Proof. intros Hi []. by split. Qed.

Lemma unchanged_queues a a' : admin_change a 0 a' -> io_queues a' = io_queues a.
Proof. intros [_ _ [E1 E2] [E3 E4]]. unfold io_queues. congruence. Qed.

Class RingClient {S} `{L : !Lens S nwoas_admin_ring} (env : ring_env S)
    (ac : nwoas_admin_callbacks S) (I : S -> Prop) : Prop := {
  rcl_contains a n s : I s -> I (re_contains env a n s).2;
  rcl_read a n s : I s -> I (re_read env a n s).2;
  rcl_write a bs s : I s -> I (re_write env a bs s).2;
  rcl_barrier s : I s -> I (re_barrier env s).2;
  rcl_ac_contains f a n s : ac_contains ac = Some f -> I s -> I (f a n s).2;
  rcl_ac_set f v s : ac_set_cache ac = Some f -> I s -> I (f v s).2;
  rcl_ac_get f s : ac_get_cache ac = Some f -> I s -> I (f s).2;
  rcl_local r s : I s -> quiet (lget s) r -> I (lset r s);
  rcl_pending r b s : I s -> client_same (lget s) r -> admin r = admin (lget s) ->
    I (re_pending env b (lset r s)).2;
  rcl_reconcile r c s : I s -> client_same (lget s) r -> r_pending r = r_pending (lget s) ->
    admin_change (admin (lget s)) c (admin r) ->
    let p := re_reconcile env (admin r) c (lset r s) in if p.1 then I p.2 else I (fail env p.2).2;
  rcl_fail s : I s -> I (fail env s).2;
}.

Section client.
Context {S : Type} `{L : !Lens S nwoas_admin_ring} (env : ring_env S)
  (ac : nwoas_admin_callbacks S) (I : S -> Prop) (trace : S -> list ring_event).
Context `{!RingClient env ac I} `{!RingEnv env ac} `{!RingTrace env ac trace}.

Lemma cb_client {A} (m : M S A) (Q : A -> S -> Prop) s :
  I (m s).2 -> (forall a s', I s' -> Q a s') -> mwp m Q s.
Proof. rewrite mwp_iff. auto. Qed.

Lemma client_fail_exit {A} (Q : Z + A -> S -> Prop) s :
  I s -> (forall v s', I s' -> Q (inl v) s') -> wp (fail_exit env) Q s.
Proof.
  intros Hs HQ. unfold fail_exit. wp_run. apply mwp_iff. wp_run. by apply HQ, (rcl_fail (ac := ac)).
Qed.

Lemma client_local f (Q : unit -> S -> Prop) s :
  I s -> quiet (lget s) (f (lget s)) ->
  (forall s', I s' -> Q tt s') -> mwp (lmodify f) Q s.
Proof. intros Hs Hc HQ. apply mwp_lmodify. intros s' -> _. by apply HQ, (rcl_local (ac := ac)). Qed.

Lemma client_range a n s : I s -> mwp (range env a n) (fun _ s' => I s') s.
Proof. intros Hs. unfold range. wp_run; [| done]. by apply mwp_iff, (rcl_contains (ac := ac)). Qed.

Ltac client_step := first
  [ lazymatch goal with
    | |- wp (fail_exit _) _ _ => apply client_fail_exit; [done |]; intros ? ? ?
    | |- mwp (range _ _ _) _ _ =>
        eapply mwp_mono; [by apply client_range |]; intros ? ? ?
    | |- mwp (lmodify _) _ _ =>
        apply client_local; [done | by split_and! |]; intros ? ?
    end
  | wp_step
  | lazymatch goal with
    | |- mwp _ _ _ =>
        apply cb_client;
          [ first [by apply (rcl_read (ac := ac)) | by apply (rcl_write (ac := ac)) | by apply (rcl_barrier (ac := ac))]
          | intros ? ? ? ]
    end ].
Ltac client_run := repeat client_step; try done.

Lemma client_resolve n s : I s -> mwp (resolve env n) (fun _ s' => I s') s.
Proof. intros Hs. unfold resolve. cbv zeta. client_run. Qed.

Lemma client_write_spans spans off s (Q : Z + unit -> S -> Prop) :
  I s -> (forall r s', I s' -> Q r s') -> wp (write_spans env spans off) Q s.
Proof.
  intros Hs HQ. revert off s Hs. induction spans as [|[a n] spans IH]; intros off s Hs;
    cbn [write_spans]; client_run; auto.
Qed.

Lemma client_publish cid result s (Q : Z + unit -> S -> Prop) :
  I s -> (forall r s', I s' -> Q r s') -> wp (publish env cid result) Q s.
Proof.
  intros Hs HQ. unfold publish. cbv zeta. client_run; auto. subst.
  apply cb_client; [| by auto]. apply (rcl_pending (ac := ac)); [done | by split | done].
Qed.

Lemma client_complete cid result s : I s -> wp (complete env cid result) (fun _ s' => I s') s.
Proof.
  intros Hs. unfold complete, transfer. client_run; try (by apply client_publish).
  eapply mwp_mono; [by apply client_resolve |]. intros spans s2 Hs2.
  destruct spans; client_run; [by apply client_publish |].
  apply client_write_spans; [done |]. intros [v|u] s3 Hs3; [done |]. client_run.
  by apply client_publish.
Qed.

(** The store after the execution of a command. *)
Lemma client_execute (s : S) :
  let r := lget s in
  I s -> bytes_ok (r_command r) -> zlen (payload r) = 4096 -> admin_inv (admin r) ->
  mwp (@nwoas_admin_execute S (admin_lens (L := L)) ac true (Some (r_policy r))
         (Some (r_command r)) 64 (Some (payload r)) 4096 (Some r0)) (fun ex s' =>
    exists s1 a' out' r', I s1 /\ lget s1 = r /\ s' = lset (r <| admin := a' |>) s1 /\
      ex.1.2 = Some out' /\ ex.2 = Some r' /\
      (if ex.1.1 =? 1 then admin_change (admin r) (ar_changed r') a' else a' = admin r)) s.
Proof.
  intros r Hs Hc Hp Hi. set (AL := admin_lens (L := L)).
  assert (He : AdminEnv (Lens0 := AL) ac).
  { split; intros; intros s1; change (lget (Lens := AL) s1) with (admin (lget s1));
      change (lget (Lens := AL) (?m s1).2) with (admin (lget (m s1).2)); cbn; f_equal;
      [by apply (ke_ac_contains f) | by apply (ke_ac_set f) | by apply ke_ac_get]. }
  pose proof (exec_spec env ac trace s Hc Hp Hi) as H1.
  pose proof (@execute_after S AL ac He (fun t => I t /\ (lget t : nwoas_admin_ring) = r)) as H2.
  specialize (H2 ltac:(intros f b n t E [H3 H4]; split; [by eapply rcl_ac_contains | by rewrite (ke_ac_contains f b n E)])).
  specialize (H2 ltac:(intros f v t E [H3 H4]; split; [by eapply rcl_ac_set | by rewrite (ke_ac_set f v E)])).
  specialize (H2 ltac:(intros f t E [H3 H4]; split; [by eapply rcl_ac_get | by rewrite (ke_ac_get f E)])).
  specialize (H2 (admin r) true (Some (r_policy r)) (Some (r_command r)) 64 (Some (payload r)) 4096 (Some r0) s
    ltac:(by split)).
  rewrite mwp_iff in H1, H2. apply mwp_iff. fold AL in H1. fold r in H1.
  destruct (nwoas_admin_execute _ _ _ _ _ _ _ _ s) as [ex s']. cbn [fst snd] in *.
  destruct H1 as (a' & out' & r' & E1 & _ & Eo & Er & _ & Hia & Hrep).
  destruct H2 as (s1 & a & [[Hs1 Hr1] _] & E2).
  assert (Es : s' = lset (r <| admin := a |>) s1).
  { rewrite E2. change (lset (Lens := AL) a s1) with (lset ((lget s1) <| admin := a |>) s1). by rewrite Hr1. }
  assert (a = a') as ->.
  { rewrite Es, lget_lset in E1. by apply (f_equal admin) in E1. }
  exists s1, a', out', r'. split_and!; try done. destruct (ex.1.1 =? 1); [by apply report_change | done].
Qed.

Lemma client_service n s : I s -> ring_inv n (lget s) -> wp (service env ac) (fun _ s' => I s') s.
Proof.
  intros Hs Hn. unfold service. cbv zeta. wp_run.
  apply mwp_iff. pose proof (range_spec env ac trace (u64 (sq_base (id (lget s)) + sq_head (id (lget s)) * 64)) 64 s) as Hrange.
  pose proof (client_range (u64 (sq_base (id (lget s)) + sq_head (id (lget s)) * 64)) 64 s Hs) as Hrange2.
  rewrite mwp_iff in Hrange, Hrange2. destruct (range env _ 64 s) as [ok s1]. cbn [fst snd] in *.
  destruct Hrange as (E1 & _ & _). wp_run; [by apply client_fail_exit |].
  set (addr := u64 _). apply mwp_iff. pose proof (ke_read_ok addr 64 s1 ltac:(lia)) as Hrd.
  pose proof (ke_read addr 64 s1) as E2. pose proof (rcl_read (ac := ac) addr 64 s1 Hrange2) as H2.
  destruct (re_read env addr 64 s1) as [rd s2]. cbn [fst snd] in *. wp_go.
  apply mwp_lmodify. intros s3 Es3 E3. rewrite E2, E1 in E3.
  assert (H3 : I s3) by (rewrite Es3; apply (rcl_local (ac := ac)); [done | by rewrite E2, E1; split_and!]).
  wp_run; [by apply client_fail_exit |]. destruct Hrd as [_ Hrd]; [by apply negb_false_iff |].
  cbn [id] in *. eapply mwp_mono; [apply client_execute; rewrite ?E3; [done | done | apply Hn | apply Hn] |].
  intros ex s4 (s5 & a' & out' & r' & H5 & E5 & -> & -> & -> & Hch). cbn [default].
  wp_go. apply mwp_lmodify. intros s6 Es6 E6. rewrite lset_lset, lget_lset in Es6. rewrite lget_lset in E6. cbn in Es6, E6.
  wp_go.
  { apply client_fail_exit; [| done]. rewrite Es6. apply (rcl_local (ac := ac)); [done |]. rewrite E5.
    destruct (ex.1.1 =? 1); [done |]. rewrite Hch. done. }
  destruct (ex.1.1 =? 1); [| done]. apply mwp_lmodify. intros s7 Es7 E7.
  rewrite Es6, lset_lset, <- Es6, E6 in Es7. rewrite E6 in E7. cbn in Es7, E7.
  wp_go.
  - apply mwp_iff. cbn [id]. rewrite E7. cbn [admin].
    match type of Es7 with _ = lset ?r _ => set (r7 := r) in * end.
    pose proof (rcl_reconcile (ac := ac) r7 (ar_changed r') s5 H5) as Hrec. rewrite E5 in Hrec.
    specialize (Hrec ltac:(by split) eq_refl Hch). rewrite <- Es7 in Hrec. cbv zeta in Hrec. cbn [admin r7] in Hrec.
    destruct (re_reconcile env a' (ar_changed r') s7) as [ok8 s8]. cbn [fst snd] in *.
    destruct ok8; wp_go; try done. by apply client_complete.
  - apply client_complete. rewrite Es7. apply (rcl_local (ac := ac)); [done |]. rewrite E5.
    bool_props. rename select (ar_changed _ = 0) into Hz. cbn [id] in Hz. rewrite Hz in Hch. split_and!; [by split | done | by apply unchanged_queues].
Qed.

Lemma client_loop fuel budget : forall consumed n s,
  I s -> ring_inv n (lget s) -> active (lget s) = true ->
  wp (poll_loop env ac fuel budget consumed) (fun _ s' => I s') s.
Proof.
  induction fuel as [|fuel IH]; intros consumed n s Hs Hn Ha; cbn [poll_loop]; [by wp_run |]. wp_run; [| done].
  unfold more in *. cbn [id] in *. bool_props.
  pose proof (client_service n s Hs Hn) as Hser.
  pose proof (service_spec env ac trace n s (fun r s' => match r with inr _ => served env ac trace n s s' | inl _ => True end)
    Hn Ha H0 (fun s1 Hx => Hx) (fun _ _ _ => Logic.I)) as Hsv.
  rewrite wp_iff in Hser, Hsv. apply wp_iff. destruct (service env ac s) as [[v | u] s1]; [done |]. cbn [fst snd] in *.
  destruct Hsv as [c []]. destruct so_config0 as [_ _ _ [_ Eac]].
  apply (IH _ (n + entries c)); [done | done | congruence].
Qed.

Lemma client_poll budget n s : I s -> ring_inv n (lget s) -> mwp (nwoas_ring_poll env ac budget) (fun _ s' => I s') s.
Proof.
  intros Hs Hn. unfold nwoas_ring_poll. wp_run; try done.
  assert (Ha : active (lget s) = true) by (cbn [id] in *; bool_hyps; done).
  eapply wp_mono; [by eapply client_loop |]. by intros [v|v] s1.
Qed.

Lemma client_tail tail n s : I s -> ring_inv n (lget s) -> 0 <= tail ->
  mwp (nwoas_ring_tail env ac tail) (fun _ s' => I s') s.
Proof.
  intros Hs Hn Ht. unfold nwoas_ring_tail. wp_run; try done; [by apply client_fail_exit; [| intros; wp_run] |].
  cbn [id] in *. bool_props.
  apply (client_poll 256 n); [subst s'; by apply (rcl_local (ac := ac)); [| split_and!] |].
  rewrite Hl. by apply tail_inv.
Qed.

Lemma client_ack head s : I s -> mwp (nwoas_ring_ack env head) (fun _ s' => I s') s.
Proof.
  intros Hs. unfold nwoas_ring_ack. cbv zeta. client_run. subst.
  apply cb_client; [| intros; by wp_run].
  apply (rcl_pending (ac := ac)); [done | by split | done].
Qed.
End client.

(** ** Properties *)

(** Stores reachable from a successful initialisation by any sequence of the
    entry points, with arguments in the range of their C types, and of steps
    of the rest of the store. *)
Inductive ring_reach {S} `{!Lens S nwoas_admin_ring} (env : ring_env S)
    (ac : nwoas_admin_callbacks S) : S -> Prop :=
| ring_start present cb p s :
    zlen (payload (lget s)) = 4096 -> zlen (completion (lget s)) = 16 ->
    (nwoas_ring_init present cb ac p s).1 = Some env ->
    ring_reach env ac (nwoas_ring_init present cb ac p s).2
| ring_do_reset s full : ring_reach env ac s -> ring_reach env ac (nwoas_ring_reset env full s).2
| ring_do_configure s q ns c nc : ring_reach env ac s -> in_w 64 q -> in_w 64 c ->
    ring_reach env ac (nwoas_ring_configure env q ns c nc s).2
| ring_do_tail s tail : ring_reach env ac s -> in_w 32 tail ->
    ring_reach env ac (nwoas_ring_tail env ac tail s).2
| ring_do_ack s head : ring_reach env ac s -> in_w 32 head ->
    ring_reach env ac (nwoas_ring_ack env head s).2
| ring_do_poll s budget : ring_reach env ac s -> in_w 32 budget ->
    ring_reach env ac (nwoas_ring_poll env ac budget s).2
| ring_other s s' : ring_reach env ac s -> lget s' = lget s -> ring_reach env ac s'.

Lemma ring_init_inv p r :
  zlen (payload r) = 4096 -> zlen (completion r) = 16 -> ring_inv 0 (ring_init p r).
Proof. intros Hp Hc. split; cbn; auto; try done. apply admin_init_inv. Qed.

Lemma ack_inv_any {S} `{!Lens S nwoas_admin_ring} (env : ring_env S)
    (ac : nwoas_admin_callbacks S) trace `{!RingEnv env ac} `{!RingTrace env ac trace} head n (s : S) :
  ring_inv n (lget s) -> 0 <= head ->
  mwp (nwoas_ring_ack env head) (fun _ s' => ring_inv n (lget s')) s.
Proof.
  intros Hi Hh. destruct (active (lget s) && negb (r_fatal (lget s))) eqn:E.
  - bool_props. eapply mwp_mono; [by apply (ack_spec env ac trace head n) |].
    intros v s' H1. destruct (_ && _); [apply H1 | apply H1].
  - unfold nwoas_ring_ack. cbv zeta. wp_run; try done; exfalso; cbn [id] in *;
      destruct (active (lget s)), (r_fatal (lget s)); done.
Qed.

(** C12. The engine's state is well formed in every reachable store: an active
    ring has queues of a valid geometry, indices inside them, at most depth - 1
    unacknowledged entries, which are exactly those between CQ head and CQ
    tail, and tail and phase are those of the number of entries posted. *)
Theorem ring_reach_inv {S} `{!Lens S nwoas_admin_ring} (env : ring_env S)
    (ac : nwoas_admin_callbacks S) trace `{!RingEnv env ac} `{!RingTrace env ac trace} (s : S) :
  ring_reach env ac s -> exists n, ring_inv n (lget s).
Proof.
  induction 1 as [present cb p s Hp Hc Hs|s full _ [n IH]|s q ns c nc _ [n IH] Hq Hc|
    s tail _ [n IH] Ht|s head _ [n IH] Hh|s budget _ [n IH] Hb|s s' _ [n IH] E].
  - exists 0. revert Hs. unfold nwoas_ring_init. destruct (ring_callbacks_present cb); [| done].
    destruct (_ || _); [done |]. intros _.
    apply (mwp_iff _ (fun _ s' => ring_inv 0 (lget s'))). wp_run. rewrite Hl.
    by apply (ring_init_inv p (lget s)).
  - exists n. pose proof (reset_spec env ac trace full n s IH) as H. rewrite mwp_iff in H. apply H.
  - pose proof (configure_spec env ac trace q ns c nc n s IH Hq Hc) as H.
    rewrite mwp_iff in H. destruct H as [_ H].
    destruct (nwoas_ring_configure env q ns c nc s).1; [by exists 0; apply H |].
    exists n. by rewrite H.
  - pose proof (tail_spec env ac trace tail n s IH (proj1 Ht)) as H. by rewrite mwp_iff in H.
  - exists n. pose proof (ack_inv_any env ac trace head n s IH (proj1 Hh)) as H.
    by rewrite mwp_iff in H.
  - pose proof (poll_inv env ac trace budget n s IH (proj1 Hb)) as H. by rewrite mwp_iff in H.
  - exists n. by rewrite E.
Qed.

(** C13. One iteration of the service loop executes one command and completes
    it: unless the command is a held event, its data is written to its PRPs
    (or the result becomes Invalid Field), then the entry body with the
    command's id and the new SQ head, then a barrier, then the status word
    with the phase tag of the entry's lap, at the slot after the last one.  A
    failing iteration latches the engine and makes no entry visible. *)
Theorem service_completes {S} `{!Lens S nwoas_admin_ring} (env : ring_env S)
    (ac : nwoas_admin_callbacks S) trace `{!RingEnv env ac} `{!RingTrace env ac trace} n (s : S) :
  ring_inv n (lget s) -> active (lget s) = true ->
  r_pending (lget s) < cq_depth (lget s) - 1 ->
  match service env ac s with
  | (inr _, s') => served env ac trace n s s'
  | (inl v, s') => fail_post trace n s v s'
  end.
Proof.
  intros Hi Ha Hp.
  pose proof (service_spec env ac trace n s
    (fun r s' => match r with inr _ => served env ac trace n s s' | inl v => fail_post trace n s v s' end)
    Hi Ha Hp (fun _ H => H) (fun _ _ H => H)) as H.
  apply wp_iff in H. by destruct (service env ac s) as [[v|u] s'].
Qed.

(** C4. A poll serves the submission slots from the SQ head on, one after the
    other: each command is the one fetched from its slot, its result the one
    of executing it, and memory receives, in the order of the commands and
    with nothing in between, one entry with the command's identifier and
    result (Invalid Field for a refused PRP list) for every command but the
    held events; all of them are visible to the host.  It stops only when the
    budget, the submissions or the free completion slots are used up, and
    returns the number of commands; or an iteration fails, and then all this
    holds of the commands before the failing one, which makes nothing
    visible. *)
Theorem ring_poll_publishes {S} `{!Lens S nwoas_admin_ring} (env : ring_env S)
    (ac : nwoas_admin_callbacks S) trace `{!RingEnv env ac} `{!RingTrace env ac trace}
    budget n (s : S) :
  ring_inv n (lget s) -> active (lget s) = true -> r_fatal (lget s) = false ->
  1 <= budget <= 256 ->
  exists res, (nwoas_ring_poll env ac budget s).1 = match res with inl v | inr v => v end /\
    poll_post env ac trace budget 0 n s res (nwoas_ring_poll env ac budget s).2.
Proof.
  intros Hi Ha Hf Hb. apply (mwp_iff (nwoas_ring_poll env ac budget) (fun v s' => exists res,
    v = match res with inl v | inr v => v end /\ poll_post env ac trace budget 0 n s res s')).
  by apply poll_spec.
Qed.

(** An acknowledgement is accepted exactly when it names entries that are
    outstanding: then the CQ head moves there and the pending count drops by
    the number acknowledged, with no memory access; otherwise (a head outside
    the queue or past the tail) the engine fails. *)
Theorem ring_ack_accounts {S} `{!Lens S nwoas_admin_ring} (env : ring_env S)
    (ac : nwoas_admin_callbacks S) trace `{!RingEnv env ac} `{!RingTrace env ac trace}
    head n (s : S) :
  ring_inv n (lget s) -> active (lget s) = true -> r_fatal (lget s) = false -> 0 <= head ->
  let s' := (nwoas_ring_ack env head s).2 in
  if (head <? cq_depth (lget s)) && (acked (lget s) head <=? r_pending (lget s)) then
    (nwoas_ring_ack env head s).1 = 0 /\ trace s' = trace s /\
    lget s' = (lget s) <| cq_head := head |>
                       <| r_pending := r_pending (lget s) - acked (lget s) head |>
  else (nwoas_ring_ack env head s).1 = -2 /\ r_fatal (lget s') = true.
Proof.
  intros Hi Ha Hf Hh s'. pose proof (ack_spec env ac trace head n s Hi Ha Hf Hh) as H.
  apply mwp_iff in H. fold s' in H. destruct (_ && _).
  - destruct H as (? & ? & ? & _). auto.
  - destruct H as (? & ? & _). auto.
Qed.

Lemma mwp_eq {S A} (m : M S A) a (s s' : S) :
  mwp m (fun v t => v = a /\ t = s') s -> m s = (a, s').
Proof. rewrite mwp_iff. destruct (m s). by intros [<- <-]. Qed.

(** A fault is latched: once the engine has failed, doorbells, polls and
    configuration have no effect at all, on the ring or on memory, whatever
    their arguments; only a reset clears the state. *)
Theorem ring_fatal_latched {S} `{!Lens S nwoas_admin_ring} (env : ring_env S)
    (ac : nwoas_admin_callbacks S) (s : S) :
  r_fatal (lget s) = true ->
  (forall budget, 1 <= budget <= 256 -> nwoas_ring_poll env ac budget s = (0, s)) /\
  (forall tail, nwoas_ring_tail env ac tail s = (0, s)) /\
  (forall head, nwoas_ring_ack env head s = (0, s)) /\
  (forall q ns c nc, nwoas_ring_configure env q ns c nc s = (false, s)) /\
  (forall full, r_fatal (ring_reset full (lget s)) = false).
Proof.
  intros Hf. assert (Hc : negb (active (lget s)) || r_fatal (lget s) = true)
    by (rewrite Hf; apply orb_true_r).
  split_and!; intros; try done; apply mwp_eq.
  - unfold nwoas_ring_poll. wp_run; cbn [id] in *; [| done | congruence]. bool_props.
    exfalso. apply orb_true_iff in H0 as [H0|H0]; bool_props; lia.
  - unfold nwoas_ring_tail. wp_run; cbn [id] in *; done || congruence.
  - unfold nwoas_ring_ack. cbv zeta. wp_run; cbn [id] in *; done || congruence.
  - unfold nwoas_ring_configure. wp_run; cbn [id] in *; [done |].
    rewrite Hf, orb_true_r in H. done.
Qed.

(** ** Instances

    A store of the ring and its memory trace; the submission queue at 0x10000
    holds a held event, an Identify with its buffer at 0x30800 and 0x31000,
    and a Create CQ. *)

Definition demo_ring_store : Type := nwoas_admin_ring * list ring_event.
#[export] Instance demo_ring_lens : Lens demo_ring_store nwoas_admin_ring := lens_fst.

Definition demo_sq (i : Z) : list Z :=
  if i =? 0 then admin_cmd 12 0x11 0 0 0
  else if i =? 1 then identify_command 0x12 0 1 0x30800 0x31000
  else admin_cmd 5 0x13 0x40000 0x3f0001 3.

Definition demo_emit (e : ring_event) : M demo_ring_store unit :=
  modify (fun s => (s.1, s.2 ++ [e])).

Definition demo_ring_env : ring_env demo_ring_store := {|
  re_contains := fun b n => mret (b + n <=? 2 ^ 36);
  re_read := fun a n => mret (true, ztake n (demo_sq ((a - 0x10000) / 64) ++ zeros n));
  re_write := fun a bs => demo_emit (EvWrite a bs);; mret true;
  re_barrier := demo_emit EvBarrier;
  re_reconcile := fun _ _ => mret true;
  re_pending := fun _ => mret tt;
  re_fault := mret tt;
|}.

Definition demo_ring_callbacks : nwoas_ring_callbacks demo_ring_store := {|
  rc_contains := Some (re_contains demo_ring_env);
  rc_read := Some (re_read demo_ring_env);
  rc_write := Some (re_write demo_ring_env);
  rc_barrier := Some (re_barrier demo_ring_env);
  rc_reconcile := Some (re_reconcile demo_ring_env);
  rc_pending := Some (re_pending demo_ring_env);
  rc_fault := Some (re_fault demo_ring_env);
|}.

Definition demo_ring_ac : nwoas_admin_callbacks demo_ring_store := {|
  ac_contains := Some (re_contains demo_ring_env);
  ac_set_cache := None;
  ac_get_cache := None;
|}.

Lemma demo_sq_ok i : bytes_ok (demo_sq i).
Proof.
  unfold demo_sq. destruct (i =? 0); [by apply admin_cmd_fields |].
  destruct (i =? 1); [by apply identify_command_fields | by apply admin_cmd_fields].
Qed.

#[export] Instance demo_ring_env_ok : RingEnv demo_ring_env demo_ring_ac.
Proof.
  split; intros; simplify_eq/=; try (by intros []).
  split; [| apply bytes_ok_ztake, bytes_ok_app; split; [apply demo_sq_ok | apply bytes_ok_zeros]].
  apply zlen_ztake. rewrite zlen_app, zlen_zeros by done.
  pose proof (zlen_nonneg (demo_sq ((a - 0x10000) / 64))). lia.
Qed.

#[export] Instance demo_ring_trace : RingTrace demo_ring_env demo_ring_ac snd.
Proof. split; intros; simplify_eq/=; by try intros []. Qed.

Definition demo_ring_zero : demo_ring_store :=
  (ring_init demo_policy (mk_ring demo_policy
    (mk_admin clear_queue clear_queue (replicate 12 0) 0 0 0 false) 0 0 0 0 0 0 0 0 0 0 0 false
    false (zeros 64) (zeros 4096) (zeros 16)), []).

(** SQ of 4 entries, CQ of 4 entries; three commands submitted. *)
Definition demo_ring_ready : demo_ring_store :=
  let s := (nwoas_ring_configure demo_ring_env 0x10000 4 0x20000 4 demo_ring_zero).2 in
  lset ((lget s) <| sq_tail := 3 |>) s.

Definition demo_ring_done : demo_ring_store :=
  (nwoas_ring_poll demo_ring_env demo_ring_ac 256 demo_ring_ready).2.

Lemma demo_ready_inv : ring_inv 0 (lget demo_ring_ready).
Proof.
  split; [| by vm_compute ..].
  exact (admin_init_inv (mk_admin clear_queue clear_queue (replicate 12 0) 0 0 0 false)).
Qed.

(** The three commands are consumed and two entries posted: the held event
    has none. *)
Example demo_poll : (nwoas_ring_poll demo_ring_env demo_ring_ac 256 demo_ring_ready).1 = 3 /\
  r_pending (lget demo_ring_done) = 2 /\ visible demo_ring_done.2 = 2%nat.
Proof. vm_compute. auto. Qed.

Lemma ring_reach_inv_witness :
  (nwoas_ring_init true demo_ring_callbacks demo_ring_ac demo_policy demo_ring_zero).1 =
    Some demo_ring_env /\
  exists n, ring_inv n (lget (nwoas_ring_init true demo_ring_callbacks demo_ring_ac demo_policy
                               demo_ring_zero).2).
Proof.
  split; [reflexivity |].
  apply (ring_reach_inv demo_ring_env demo_ring_ac snd), ring_start; reflexivity.
Defined.

Lemma service_completes_witness :
  match service demo_ring_env demo_ring_ac demo_ring_ready with
  | (inr _, s') => served demo_ring_env demo_ring_ac snd 0 demo_ring_ready s'
  | (inl v, s') => fail_post snd 0 demo_ring_ready v s'
  end.
Proof.
  apply (service_completes demo_ring_env demo_ring_ac snd 0 demo_ring_ready);
    [apply demo_ready_inv | reflexivity | reflexivity].
Defined.

Lemma ring_poll_publishes_witness :
  exists res, (nwoas_ring_poll demo_ring_env demo_ring_ac 256 demo_ring_ready).1 =
      match res with inl v | inr v => v end /\
    poll_post demo_ring_env demo_ring_ac snd 256 0 0 demo_ring_ready res demo_ring_done.
Proof.
  apply (ring_poll_publishes demo_ring_env demo_ring_ac snd 256 0 demo_ring_ready);
    [apply demo_ready_inv | reflexivity | reflexivity | lia].
Defined.

Lemma ring_ack_accounts_witness :
  (nwoas_ring_ack demo_ring_env 1 demo_ring_ready).1 = -2 /\
  r_fatal (lget (nwoas_ring_ack demo_ring_env 1 demo_ring_ready).2) = true.
Proof.
  exact (ring_ack_accounts demo_ring_env demo_ring_ac snd 1 0 demo_ring_ready demo_ready_inv
    eq_refl eq_refl ltac:(lia)).
Defined.

Definition demo_ring_failed : demo_ring_store :=
  (nwoas_ring_ack demo_ring_env 1 demo_ring_ready).2.

Lemma demo_failed : r_fatal (lget demo_ring_failed) = true.
Proof. vm_compute. reflexivity. Qed.

Lemma ring_fatal_latched_witness :
  nwoas_ring_tail demo_ring_env demo_ring_ac 2 demo_ring_failed = (0, demo_ring_failed).
Proof.
  exact (proj1 (proj2 (ring_fatal_latched demo_ring_env demo_ring_ac demo_ring_failed
    demo_failed)) 2).
Defined.
