(* ===== verification/Frontend.v ===== *)
(** * The NVMe frontend ([native-s228/frontend.c], [.h])

    The frontend owns a control model and an admin ring and gives each the
    callback table that connects it to the other and to the owner's hooks
    ([frontend_ops]).  All of them act on one store: the callbacks of the
    control model are functions on the store that contains the ring, and the
    other way round, which is how the code's [opaque] pointer to the frontend
    works. *)

From S2P Require Import Prelude AdminPayload AdminState AdminRing NvmeControl.

Record nwoas_frontend_ops (S : Type) := {
  fo_contains : option (Z -> Z -> M S bool);
  fo_read : option (Z -> Z -> M S (bool * list Z));
  fo_write : option (Z -> list Z -> M S bool);
  fo_barrier : option (M S unit);
  fo_reconcile : option (nwoas_admin_state -> Z -> M S bool);
  fo_reset_io : option (M S bool);
  fo_flush : option (M S bool);
  fo_set_cache : option (bool -> M S Z);
  fo_get_cache : option (M S Z);
  fo_irq : option (bool -> M S unit);
}.
#[global] Arguments fo_contains {S} _. #[global] Arguments fo_read {S} _.
#[global] Arguments fo_write {S} _. #[global] Arguments fo_barrier {S} _.
#[global] Arguments fo_reconcile {S} _. #[global] Arguments fo_reset_io {S} _.
#[global] Arguments fo_flush {S} _. #[global] Arguments fo_set_cache {S} _.
#[global] Arguments fo_get_cache {S} _. #[global] Arguments fo_irq {S} _.

(** The table of a frontend whose initialisation accepted it. *)
Record frontend_env (S : Type) := mk_fenv {
  o_contains : Z -> Z -> M S bool;
  o_read : Z -> Z -> M S (bool * list Z);
  o_write : Z -> list Z -> M S bool;
  o_barrier : M S unit;
  o_reconcile : nwoas_admin_state -> Z -> M S bool;
  o_reset_io : M S bool;
  o_flush : M S bool;
  o_set_cache : option (bool -> M S Z);
  o_get_cache : option (M S Z);
  o_irq : bool -> M S unit;
}.
#[global] Arguments mk_fenv {S} _ _ _ _ _ _ _ _ _ _.
#[global] Arguments o_contains {S} _. #[global] Arguments o_read {S} _.
#[global] Arguments o_write {S} _. #[global] Arguments o_barrier {S} _.
#[global] Arguments o_reconcile {S} _. #[global] Arguments o_reset_io {S} _.
#[global] Arguments o_flush {S} _. #[global] Arguments o_set_cache {S} _.
#[global] Arguments o_get_cache {S} _. #[global] Arguments o_irq {S} _.

Record nwoas_frontend := mk_frontend {
  control : nwoas_control;
  ring : nwoas_admin_ring;
  io_pending : bool;
  backend_fault : bool;
  full_reset : bool;
  control_busy : bool;
}.
#[export] Instance frontend_eta : Eta nwoas_frontend := fun f =>
  mk_frontend (control f) (ring f) (io_pending f) (backend_fault f) (full_reset f)
    (control_busy f).

Program Definition frontend_control : Lens nwoas_frontend nwoas_control :=
  {| lget := control; lset c f := f <| control := c |> |}.
Next Obligation. done. Qed.
Next Obligation. by intros []. Qed.
Next Obligation. done. Qed.

Program Definition frontend_ring : Lens nwoas_frontend nwoas_admin_ring :=
  {| lget := ring; lset r f := f <| ring := r |> |}.
Next Obligation. done. Qed.
Next Obligation. by intros []. Qed.
Next Obligation. done. Qed.

(** ** The callbacks *)

Section frontend.
Context {S : Type} `{L : !Lens S nwoas_frontend} (ops : frontend_env S).
#[local] Instance control_lens : Lens S nwoas_control := lens_comp L frontend_control.
#[local] Instance ring_lens : Lens S nwoas_admin_ring := lens_comp L frontend_ring.

Definition contains (a n : Z) : M S bool := o_contains ops a n.

(** A faulted backend is not touched; the destination of a refused read, which
    is the ring's command buffer, keeps its content. *)
Definition read_memory (a n : Z) : M S (bool * list Z) :=
  f ← lgets (id (A := nwoas_frontend));
  if backend_fault f then mret (false, r_command (ring f))
  else o_read ops a n.

Definition write_memory (a : Z) (v : list Z) : M S bool :=
  f ← lgets (id (A := nwoas_frontend));
  if backend_fault f then mret false else o_write ops a v.

Definition barrier : M S unit := o_barrier ops.

Definition irq (v : bool) : M S unit :=
  f ← lgets (id (A := nwoas_frontend));
  o_irq ops (v && negb (truthy (csts (control f) .& 2)) && negb (backend_fault f) &&
             negb (r_fatal (ring f))).

(** The control model's pending update only uses the [irq] member of its
    table, so this table stands for the whole one there. *)
Definition irq_callbacks : nwoas_callbacks S := {|
  cb_contains := None; cb_setup := None; cb_reset := None; cb_flush := None;
  cb_irq := Some irq;
|}.

Definition update_pending : M S unit :=
  f ← lgets (id (A := nwoas_frontend));
  if control_busy f then mret tt
  else nwoas_control_pending irq_callbacks
         (io_pending f || (active (ring f) && truthy (r_pending (ring f)))).

Definition pending (v : bool) : M S unit := update_pending.

Definition nwoas_frontend_fault : M S unit :=
  lmodify (fun f => f <| backend_fault := true |>);;
  lmodify (fun f => f <| control := (control f) <| csts := csts (control f) .| 2 |> |>);;
  o_irq ops false.

Definition fault : M S unit := nwoas_frontend_fault.

Definition reconcile (s : nwoas_admin_state) (changed : Z) : M S bool :=
  ok ← o_reconcile ops s changed;
  if negb ok then mret false
  else
    (if truthy (changed .& 2) then lmodify (fun f => f <| io_pending := false |>) else mret tt);;
    update_pending;;
    mret true.

Definition set_cache (hook : bool -> M S Z) (v : bool) : M S bool :=
  result ← hook v;
  (if result <? 0 then nwoas_frontend_fault else mret tt);;
  mret (result =? 1).

Definition get_cache (hook : M S Z) : M S Z := hook.
Definition flush : M S bool := o_flush ops.

(** The tables given to the ring and to the admin state. *)
Definition ring_table : ring_env S := {|
  re_contains := contains; re_read := read_memory; re_write := write_memory;
  re_barrier := barrier; re_reconcile := reconcile; re_pending := pending;
  re_fault := fault;
|}.

Definition ring_callbacks : nwoas_ring_callbacks S := {|
  rc_contains := Some contains; rc_read := Some read_memory; rc_write := Some write_memory;
  rc_barrier := Some barrier; rc_reconcile := Some reconcile; rc_pending := Some pending;
  rc_fault := Some fault;
|}.

Definition admin_table : nwoas_admin_callbacks S := {|
  ac_contains := Some contains;
  ac_set_cache := option_map set_cache (o_set_cache ops);
  ac_get_cache := option_map get_cache (o_get_cache ops);
|}.

Definition reset : M S unit :=
  ok ← o_reset_io ops;
  lmodify (fun f => f <| io_pending := false |>);;
  lmodify (fun f => f <| backend_fault := negb ok |>);;
  f ← lgets (id (A := nwoas_frontend));
  nwoas_ring_reset ring_table (full_reset f).

Definition setup (sq ns cq nc : Z) : M S bool :=
  f ← lgets (id (A := nwoas_frontend));
  if backend_fault f then mret false
  else nwoas_ring_configure ring_table sq ns cq nc.

(** The table given to the control model. *)
Definition control_table : nwoas_callbacks S := {|
  cb_contains := Some contains; cb_setup := Some setup; cb_reset := Some reset;
  cb_flush := Some flush; cb_irq := Some irq;
|}.

(** ** Entry points *)

Definition set_busy (b : bool) : M S unit := lmodify (fun f => f <| control_busy := b |>).

(** Run a control operation with the pending updates held back. *)
Definition with_busy {A} (m : M S A) : M S A :=
  set_busy true;; r ← m; set_busy false;; update_pending;; mret r.

Definition relatch : M S unit :=
  f ← lgets (id (A := nwoas_frontend));
  if backend_fault f then nwoas_frontend_fault else mret tt.

Definition nwoas_frontend_reset : M S unit :=
  lmodify (fun f => f <| full_reset := true |>);;
  set_busy true;;
  nwoas_control_reset control_table;;
  set_busy false;;
  lmodify (fun f => f <| full_reset := false |>);;
  update_pending;;
  relatch.

Definition nwoas_frontend_io_pending (v : bool) : M S unit :=
  lmodify (fun f => f <| io_pending :=
    v && q_present (cq (admin (ring f))) && q_ien (cq (admin (ring f))) |>);;
  update_pending.

Definition nwoas_frontend_read (pci : bool) (o w : Z) (v : option Z) :
    M S (nwoas_access * option Z) :=
  f ← lgets (id (A := nwoas_frontend));
  mret (if pci then nwoas_pci_read (control f) o w v else nwoas_reg_read (control f) o w v).

(** The admin doorbells; the I/O doorbells belong to another owner. *)
Definition doorbell (o w v : Z) : proc S nwoas_access nwoas_access :=
  when (negb (w =? 32) || (0x1010 <=? o)) (exit NWOAS_HANDLED);;
  f ← call (lgets (id (A := nwoas_frontend)));
  when (negb (truthy (csts (control f) .& 1)) || truthy (csts (control f) .& 2) ||
        backend_fault f) (exit NWOAS_HANDLED);;
  if o =? 0x1000 then
    call (nwoas_ring_tail ring_table admin_table (u32 v));; mret NWOAS_HANDLED
  else if o =? 0x1004 then
    call (nwoas_ring_ack ring_table (u32 v));; mret NWOAS_HANDLED
  else mret NWOAS_NOT_HANDLED.

Definition nwoas_frontend_write (pci : bool) (o w v : Z) : M S nwoas_access := body (
  result ← (
    if pci then call (with_busy (nwoas_pci_write control_table o w v))
    else
      result ← call (with_busy (nwoas_reg_write control_table o w v));
      match result with
      | NWOAS_NOT_HANDLED => doorbell o w v
      | _ => mret result
      end);
  call relatch;;
  mret result).

Definition nwoas_frontend_poll (budget : Z) : M S Z :=
  f ← lgets (id (A := nwoas_frontend));
  if negb (truthy (csts (control f) .& 1)) || truthy (csts (control f) .& 2) || backend_fault f
  then mret 0
  else nwoas_ring_poll ring_table admin_table budget.
End frontend.

(** ** Initialisation *)

Definition ops_present {S} (o : nwoas_frontend_ops S) : option (frontend_env S) :=
  match fo_contains o, fo_read o, fo_write o, fo_barrier o, fo_reconcile o, fo_reset_io o,
        fo_flush o, fo_irq o with
  | Some c, Some r, Some w, Some b, Some k, Some x, Some f, Some i =>
      Some (mk_fenv c r w b k x f (fo_set_cache o) (fo_get_cache o) i)
  | _, _, _, _, _, _, _, _ => None
  end.

Definition init_ok {S} (o : nwoas_frontend_ops S) (bar0 : Z) (p : nwoas_identity_policy) : bool :=
  eqb (bool_decide (is_Some (fo_set_cache o))) (bool_decide (is_Some (fo_get_cache o))) &&
  truthy bar0 && negb (truthy (bar0 .& 0x3fff)) && policy_valid p.

(** The table that was stored and C's result. *)
Definition nwoas_frontend_init {S} `{L : !Lens S nwoas_frontend} (present : bool) (bar0 : Z)
    (o : nwoas_frontend_ops S) (p : nwoas_identity_policy) : M S (option (frontend_env S) * bool) :=
  match ops_present o with
  | None => mret (None, false)
  | Some env =>
      if negb present || negb (init_ok o bar0 p) then mret (None, false)
      else
        lmodify (fun f => mk_frontend (control f) (ring f) false false false false);;
        ok ← @nwoas_ring_init S (ring_lens (L := L)) true (ring_callbacks env) (admin_table env) p;
        match ok with
        | None => mret (Some env, false)
        | Some _ =>
            set_busy true;;
            @nwoas_control_init S (control_lens (L := L)) (control_table env) bar0;;
            set_busy false;;
            update_pending env;;
            relatch env;;
            f ← lgets (id (A := nwoas_frontend));
            mret (Some env, negb (backend_fault f))
        end
  end.

(** ** Specification vocabulary *)

(** The hooks do not write the frontend; a complete read fills its buffer. *)
Class FrontendEnv {S} `{!Lens S nwoas_frontend} (ops : frontend_env S) : Prop := {
  fe_contains a n : keeps lget (o_contains ops a n);
  fe_read a n : keeps lget (o_read ops a n);
  fe_read_ok a n s : 0 <= n -> (o_read ops a n s).1.1 = true ->
    zlen (o_read ops a n s).1.2 = n /\ bytes_ok (o_read ops a n s).1.2;
  fe_write a bs : keeps lget (o_write ops a bs);
  fe_barrier : keeps lget (o_barrier ops);
  fe_reconcile a c : keeps lget (o_reconcile ops a c);
  fe_reset_io : keeps lget (o_reset_io ops);
  fe_flush : keeps lget (o_flush ops);
  fe_set_cache f v : o_set_cache ops = Some f -> keeps lget (f v);
  fe_get_cache f : o_get_cache ops = Some f -> keeps lget f;
  fe_irq b : keeps lget (o_irq ops b);
}.

(** The line may be driven high. *)
Definition line_free (f : nwoas_frontend) : bool := negb (Z.testbit (csts (control f)) 1) && negb (backend_fault f).

(** [level] reads the interrupt line: the [irq] hook sets it (a hook may refuse to
    raise it on a failed controller), the I/O reset may change it, nothing else
    does. *)
Class FrontendLine {S} `{!Lens S nwoas_frontend} (ops : frontend_env S) (level : S -> bool) :
    Prop := {
  ln_lset f s : level (lset f s) = level s;
  ln_irq b s : (b = true -> line_free (lget s) = true) -> level (o_irq ops b s).2 = b;
  ln_contains a n : keeps level (o_contains ops a n);
  ln_read a n : keeps level (o_read ops a n);
  ln_write a bs : keeps level (o_write ops a bs);
  ln_barrier : keeps level (o_barrier ops);
  ln_reconcile a c : keeps level (o_reconcile ops a c);
  ln_flush : keeps level (o_flush ops);
  ln_set_cache f v : o_set_cache ops = Some f -> keeps level (f v);
  ln_get_cache f : o_get_cache ops = Some f -> keeps level f;
}.

(** [trace] reads the memory operations done through the hooks. *)
Class FrontendTrace {S} `{!Lens S nwoas_frontend} (ops : frontend_env S)
    (trace : S -> list ring_event) : Prop := {
  ft_lset f s : trace (lset f s) = trace s;
  ft_write a bs s :
    if (o_write ops a bs s).1 then trace (o_write ops a bs s).2 = trace s ++ [EvWrite a bs]
    else trace (o_write ops a bs s).2 = trace s ++ [EvFailed a];
  ft_barrier s : trace (o_barrier ops s).2 = trace s ++ [EvBarrier];
  ft_contains a n : keeps trace (o_contains ops a n);
  ft_read a n : keeps trace (o_read ops a n);
  ft_reconcile a c : keeps trace (o_reconcile ops a c);
  ft_irq b : keeps trace (o_irq ops b);
  ft_set_cache f v : o_set_cache ops = Some f -> keeps trace (f v);
  ft_get_cache f : o_get_cache ops = Some f -> keeps trace f;
}.

(** The failure gate on the interrupt line. *)
Definition gate (f : nwoas_frontend) : bool :=
  negb (Z.testbit (csts (control f)) 1) && negb (backend_fault f) && negb (r_fatal (ring f)).

(** The ring runs exactly while the controller is ready, over the queues that
    the registers name. *)
Record link (c : nwoas_control) (r : nwoas_admin_ring) : Prop := {
  lk_active : active r = Z.testbit (csts c) 0;
  lk_queues : active r = true ->
    sq_base r = asq c /\ sq_depth r = aqa_sq (aqa c) /\
    cq_base r = acq c /\ cq_depth r = aqa_cq (aqa c);
}.

(** What holds of the frontend and of the line [lv] at every point where the
    control model is not in the middle of a transition. *)
Record fe_core (f : nwoas_frontend) (lv : bool) : Prop := {
  fc_control : control_inv (control f);
  fc_link : link (control f) (ring f);
  fc_idle : active (ring f) = false ->
    io_pending f = false /\ NvmeControl.pending (control f) = false /\
    q_present (cq (admin (ring f))) = false;
  fc_fatal : r_fatal (ring f) = true -> backend_fault f = true;
  fc_line : lv = irq_level (control f) && gate f;
}.

(** What holds between the entry points. *)
Record fe_inv (f : nwoas_frontend) (lv : bool) : Prop := {
  fi_core : fe_core f lv;
  fi_sync : NvmeControl.pending (control f) =
    io_pending f || (active (ring f) && truthy (r_pending (ring f)));
  fi_fault : backend_fault f = true -> Z.testbit (csts (control f)) 1 = true;
  fi_busy : control_busy f = false;
  fi_full : full_reset f = false;
}.

Definition ring_ok (f : nwoas_frontend) : Prop := exists n, ring_inv n (ring f).

(** ** Words *)

Lemma truthy_bit1 x : truthy (x .& 2) = Z.testbit x 1.
Proof. apply (truthy_bit 1). lia. Qed.

Lemma csts_or2_bits v : csts_ok v = true ->
  Z.testbit (v .| 2) 0 = Z.testbit v 0 /\ Z.testbit (v .| 2) 1 = true.
Proof. intros H. csts_cases H; by split. Qed.

(** ** The callbacks and the pending update *)

Section frontend_spec.
Context {S : Type} `{L : !Lens S nwoas_frontend} (ops : frontend_env S) (level : S -> bool).
Context `{!FrontendEnv ops} `{!FrontendLine ops level}.
#[local] Existing Instance control_lens.
#[local] Existing Instance ring_lens.

Local Abbreviation fe s := (lget (A := nwoas_frontend) s).
Local Abbreviation FE := (lget (A := nwoas_frontend)).

Lemma mwp_fe (f : nwoas_frontend -> nwoas_frontend) (Q : unit -> S -> Prop) s :
  (forall s', fe s' = f (fe s) -> level s' = level s -> Q tt s') -> mwp (lmodify f) Q s.
Proof. intros HQ. apply mwp_lmodify. intros s' -> E. apply HQ; [done | apply ln_lset]. Qed.

Lemma mwp_control (f : nwoas_control -> nwoas_control) (Q : unit -> S -> Prop) s :
  (forall s', fe s' = (fe s) <| control := f (control (fe s)) |> -> level s' = level s -> Q tt s') ->
  mwp (@lmodify S nwoas_control _ f) Q s.
Proof.
  intros HQ. apply mwp_iff, HQ; [apply (@lget_lset _ _ L) | apply (ln_lset (ops := ops))].
Qed.

Lemma mwp_ring (f : nwoas_admin_ring -> nwoas_admin_ring) (Q : unit -> S -> Prop) s :
  (forall s', fe s' = (fe s) <| ring := f (ring (fe s)) |> -> level s' = level s -> Q tt s') ->
  mwp (@lmodify S nwoas_admin_ring _ f) Q s.
Proof.
  intros HQ. apply mwp_iff, HQ; [apply (@lget_lset _ _ L) | apply (ln_lset (ops := ops))].
Qed.

Lemma irq_spec v s :
  mwp (irq ops v) (fun _ s' => fe s' = fe s /\ level s' = v && gate (fe s)) s.
Proof.
  unfold irq. wp_run. apply mwp_iff. split; [apply fe_irq |].
  rewrite ln_irq; unfold gate, line_free; rewrite ?truthy_bit1, ?andb_assoc; [done |].
  intros Hv. unfold id in Hv. rewrite !andb_true_iff in Hv. by destruct Hv as [[[_ ->] ->] _].
Qed.

Lemma irq_update_spec_fe s cb :
  cb_irq cb = Some (irq ops) ->
  mwp (irq_update cb) (fun _ s' =>
    fe s' = fe s /\ level s' = irq_level (control (fe s)) && gate (fe s)) s.
Proof. intros E. unfold irq_update. rewrite E. wp_run. apply irq_spec. Qed.

Lemma update_pending_spec s :
  control_busy (fe s) = false ->
  mwp (update_pending ops) (fun _ s' =>
    fe s' = (fe s) <| control := (control (fe s)) <| NvmeControl.pending :=
      io_pending (fe s) || (active (ring (fe s)) && truthy (r_pending (ring (fe s)))) |> |> /\
    level s' = irq_level (control (fe s')) && gate (fe s')) s.
Proof.
  intros Hb. unfold update_pending. wp_run; cbn [id] in *; [congruence |].
  unfold nwoas_control_pending. wp_step. apply mwp_control. intros s1 E1 V1.
  eapply mwp_mono; [by apply irq_update_spec_fe |]. intros [] s2 [E2 V2].
  rewrite V2, E2, E1. by split.
Qed.

Lemma update_pending_busy s :
  control_busy (fe s) = true -> update_pending ops s = (tt, s).
Proof. intros Hb. unfold update_pending, mbind, M_bind, lgets. cbn. by rewrite Hb. Qed.

Lemma fault_spec s :
  mwp (nwoas_frontend_fault ops) (fun _ s' =>
    fe s' = (fe s) <| backend_fault := true |>
                   <| control := (control (fe s)) <| csts := csts (control (fe s)) .| 2 |> |> /\
    level s' = false) s.
Proof.
  unfold nwoas_frontend_fault. wp_step. apply mwp_fe. intros s1 E1 _.
  wp_step. apply mwp_fe. intros s2 E2 _. apply mwp_iff.
  rewrite fe_irq, ln_irq, E2, E1 by done. by split.
Qed.

(** *** The control model's callbacks while a control operation runs *)

Lemma ring_reset_busy full s :
  control_busy (fe s) = true ->
  mwp (nwoas_ring_reset (ring_table ops) full) (fun _ s' =>
    fe s' = (fe s) <| ring := ring_reset full (ring (fe s)) |> /\ level s' = level s) s.
Proof.
  intros Hb. unfold nwoas_ring_reset. wp_step. apply mwp_ring. intros s1 E1 V1.
  apply mwp_iff. cbn [re_pending ring_table]. unfold pending.
  rewrite update_pending_busy by (by rewrite E1). by split.
Qed.

Lemma reset_busy s :
  control_busy (fe s) = true ->
  mwp (reset ops) (fun _ s' => exists b,
    fe s' = mk_frontend (control (fe s)) (ring_reset (full_reset (fe s)) (ring (fe s))) false b
      (full_reset (fe s)) true) s.
Proof.
  intros Hb. unfold reset. wp_step.
  eapply mwp_cb; [apply fe_reset_io |]. intros ok s1 E1.
  wp_step. apply mwp_fe. intros s2 E2 V2. wp_step. apply mwp_fe. intros s3 E3 V3.
  do 2 wp_step. cbn [id]. eapply mwp_mono; [apply ring_reset_busy; by rewrite E3, E2, E1 |].
  intros [] s4 [E4 V4]. exists (negb ok). rewrite E4, E3, E2, E1. cbn.
  by rewrite Hb.
Qed.

Lemma queues_reset_busy s :
  control_busy (fe s) = true ->
  mwp (queues_reset (control_table ops)) (fun _ s' => exists b,
    fe s' = mk_frontend ((control (fe s)) <| NvmeControl.pending := false |>)
      (ring_reset (full_reset (fe s)) (ring (fe s))) false b (full_reset (fe s)) true) s.
Proof.
  intros Hb. unfold queues_reset. wp_step. apply mwp_control. intros s1 E1 V1.
  cbn [cb_reset control_table]. eapply mwp_mono; [apply reset_busy; by rewrite E1 |].
  intros [] s2 (b & E2). exists b. by rewrite E2, E1.
Qed.

Lemma range_frontend a n s :
  mwp (range (ring_table ops) a n) (fun ok s' => fe s' = fe s /\ level s' = level s /\
    (ok = true -> a <> 0 /\ n <> 0 /\ a <= UINT64_MAX - n)) s.
Proof.
  unfold range. wp_step; [| by wp_run]. cbn [re_contains ring_table]. unfold contains.
  eapply (mwp_cb2 FE level); [apply fe_contains | apply ln_contains |].
  intros ok s' -> ->. bool_props. auto.
Qed.

(** What a completed setup means. *)
Definition set_up (q ns c nc : Z) (f f' : nwoas_frontend) : Prop :=
  backend_fault f = false /\ active (ring f) = false /\ r_fatal (ring f) = false /\
  queue_geometry q ns 64 /\ queue_geometry c nc 16 /\
  f' = f <| ring := ring_configure q ns c nc (ring f) |>.

Lemma setup_busy q ns c nc s :
  control_busy (fe s) = true ->
  mwp (setup ops q ns c nc) (fun ok s' => level s' = level s /\
    if ok then set_up q ns c nc (fe s) (fe s') else fe s' = fe s) s.
Proof.
  intros Hb. unfold setup, nwoas_ring_configure. wp_go; [done | done |].
  eapply mwp_mono; [apply range_frontend |]. intros ok1 s1 (E1 & V1 & R1). wp_go; [done |].
  eapply mwp_mono; [apply range_frontend |]. intros ok2 s2 (E2 & V2 & R2).
  wp_go; [split; congruence |].
  apply mwp_ring. intros s3 E3 V3. wp_go. apply mwp_iff.
  cbn [re_pending ring_table]. unfold pending.
  rewrite update_pending_busy by (by rewrite E3, E2, E1). cbn [id fst snd] in *.
  wp_step. split; [congruence |]. bool_props. subst ok1 ok2.
  destruct (R1 eq_refl) as (? & _ & ?), (R2 eq_refl) as (? & _ & ?).
  unfold set_up. rewrite E3, E2, E1.
  split_and!; try done; by apply range_geometry.
Qed.

(** *** Control operations keep the core invariant *)

Definition mid (full : bool) (s : S) : Prop :=
  fe_core (fe s) (level s) /\ ring_ok (fe s) /\ control_busy (fe s) = true /\
  full_reset (fe s) = full.

Lemma fatal_busy (f0 : nwoas_frontend) s :
  fe s = f0 ->
  mwp (fatal (control_table ops)) (fun _ s' =>
    fe s' = f0 <| control := (control f0) <| csts := csts (control f0) .| 2 |> |> /\
    level s' = false) s.
Proof.
  intros E0. unfold fatal. wp_step. apply mwp_control. intros s1 E1 _.
  cbn [cb_irq control_table]. eapply mwp_mono; [apply irq_spec |]. intros [] s2 [E2 V2].
  rewrite V2, E2, E1, E0. by split.
Qed.

Lemma flush_busy s :
  mwp (flush_cb (control_table ops)) (fun _ s' => fe s' = fe s /\ level s' = level s) s.
Proof.
  unfold flush_cb. cbn [cb_flush control_table]. unfold flush.
  eapply (mwp_cb2 FE level); [apply fe_flush | apply ln_flush |]. by intros ok s' -> ->.
Qed.

(** CSTS changes that keep RDY, and CFS or drop the line. *)
Lemma core_csts f v lv :
  fe_core f lv -> csts_ok v = true -> Z.testbit v 0 = Z.testbit (csts (control f)) 0 ->
  forall lv', (Z.testbit v 1 = Z.testbit (csts (control f)) 1 /\ lv' = lv \/
               Z.testbit v 1 = true /\ lv' = false) ->
  fe_core (f <| control := (control f) <| csts := v |> |>) lv'.
Proof.
  intros [Hc [Hl1 Hl2] Hi Hf Hv] Hok H0 lv' H1. split; cbn; auto.
  - apply (inv_set_csts (control f)); [done | done | by rewrite H0].
  - split; cbn; [by rewrite H0 | done].
  - unfold gate in *. cbn. destruct H1 as [[H1 ->]|[H1 ->]]; [by rewrite H1 |].
    by rewrite H1, andb_false_r.
Qed.

Lemma shutdown_mid full v s (Q : nwoas_access + unit -> S -> Prop) :
  mid full s -> (forall r s', mid full s' -> r = inl NWOAS_HANDLED \/ r = inr tt -> Q r s') ->
  wp (write_cc_shutdown (control_table ops) v) Q s.
Proof.
  intros (Hc & Hr & Hb & Hfu) HQ.
  pose proof (inv_csts _ (fc_control _ _ Hc)) as Hok.
  destruct (csts_shutdown_ok _ Hok) as [Hok1 Hok2].
  destruct (csts_shutdown_rdy _ Hok) as (Hr1 & Hr2 & _).
  destruct (csts_shutdown_cfs _ Hok) as (Hf1 & Hf2).
  unfold write_cc_shutdown. wp_go; [| by apply HQ; auto].
  apply mwp_control. intros s1 E1 V1. wp_go.
  eapply mwp_mono; [apply flush_busy |]. intros ok s2 [E2 V2]. wp_go.
  - eapply mwp_mono; [apply (fatal_busy (fe s1)), E2 |]. intros [] s3 [E3 V3]. wp_go. apply HQ; [| by left].
    unfold mid. rewrite E3, E1, V3. split; [| done].
    apply (core_csts (fe s) _ (level s)); auto.
  - apply mwp_control. intros s3 E3 V3. apply HQ; [| by right]. unfold mid. rewrite V3, V2, V1, E3, E2, E1.
    split; [| done]. apply (core_csts (fe s) _ (level s)); auto.
Qed.

Lemma queue_valid_fe base depth stride s :
  0 <= stride <= 64 ->
  mwp (NvmeControl.queue_valid (control_table ops) base depth stride) (fun ok s' =>
    fe s' = fe s /\ level s' = level s /\ (ok = true -> queue_geometry base depth stride)) s.
Proof.
  intros Hst. unfold NvmeControl.queue_valid. cbn [cb_contains control_table]. wp_go; [| done].
  bool_props. unfold contains.
  eapply (mwp_cb2 FE level); [apply fe_contains | apply ln_contains |].
  intros ok s' -> ->. split_and!; try done. intros _. by apply range_geometry.
Qed.

Lemma enable_busy v s :
  control_busy (fe s) = true ->
  let c := control (fe s) in
  mwp (enable_ok (control_table ops) v) (fun ok s' => level s' = level s /\
    if ok then set_up (asq c) (aqa_sq (aqa c)) (acq c) (aqa_cq (aqa c)) (fe s) (fe s')
    else fe s' = fe s) s.
Proof.
  intros Hb c. unfold enable_ok. wp_go; [done |].
  eapply mwp_mono; [apply queue_valid_fe; lia |]. intros ok1 s1 (E1 & V1 & _). wp_go; [done |].
  eapply mwp_mono; [apply queue_valid_fe; lia |]. intros ok2 s2 (E2 & V2 & _).
  wp_go; [split; congruence |].
  cbn [cb_setup control_table]. wp_go. eapply mwp_mono; [apply setup_busy; congruence |].
  intros ok s3 (V3 & H3). split; [congruence |].
  cbn [id] in H3. change (lget (A := nwoas_control)) with (fun t => control (fe t)) in H3.
  cbv beta in H3. by rewrite E2, E1 in H3.
Qed.

Lemma ring_reset_ok full f : ring_ok f -> forall g, ring g = ring_reset full (ring f) -> ring_ok g.
Proof. intros [n Hn] g E. exists n. rewrite E. by apply reset_inv. Qed.

(** A controller that has just been cleared, with the line recomputed. *)
Lemma core_cleared c r b fr full lv :
  (forall c', c' = c <| csts := 0 |> -> control_inv c') -> NvmeControl.pending c = false ->
  csts c = 0 -> lv = false ->
  fe_core (mk_frontend c (ring_reset full r) false b fr true) lv.
Proof.
  intros Hc Hp Hs ->. split; cbn; try done.
  - apply Hc. destruct c. cbn in *. by subst.
  - by split; cbn; rewrite ?Hs.
  - unfold irq_level. by rewrite Hp.
Qed.

Lemma irq_off f : NvmeControl.pending (control f) = false -> irq_level (control f) && gate f = false.
Proof. intros Hp. unfold irq_level. by rewrite Hp. Qed.

(** The three outcomes of a CC write before the shutdown part. *)
Lemma enabled_core f lv v :
  fe_core f lv -> in_w 32 v -> Z.testbit v 0 = true -> active (ring f) = false ->
  let c := control f in
  forall f', set_up (asq c) (aqa_sq (aqa c)) (acq c) (aqa_cq (aqa c))
               (f <| control := c <| cc := v |> |>) f' ->
  fe_core (f' <| control := (control f') <| csts := 1 |> |>) lv.
Proof.
  intros [Hc Hl Hi Hf Hv] Hv32 Hen Hact c f' (Hbf & _ & Hrf & Hg1 & Hg2 & ->).
  destruct (Hi Hact) as (Hio & Hp & Hcq). split; cbn.
  - unfold c. destruct Hc. by split; cbn.
  - by split.
  - done.
  - intros ?. cbn in Hrf. congruence.
  - rewrite Hv, irq_off by done. unfold irq_level, c. cbn. by rewrite Hp.
Qed.

Lemma cc_core f lv v :
  fe_core f lv -> in_w 32 v ->
  Z.testbit v 0 = true \/ Z.testbit (csts (control f)) 0 = false ->
  fe_core (f <| control := (control f) <| cc := v |> |>) lv.
Proof.
  intros [Hc Hl Hi Hf Hv] Hv32 Hen. split; cbn; auto; [by apply inv_cc_write |].
  destruct Hl. by split.
Qed.

Lemma cc_disabled_rdy f lv :
  fe_core f lv -> Z.testbit (cc (control f)) 0 = false ->
  Z.testbit (csts (control f)) 0 = false /\ active (ring f) = false.
Proof.
  intros [Hc [Hl _] _ _ _] Hen. rewrite Hl.
  assert (Z.testbit (csts (control f)) 0 = false); [| done].
  destruct (Z.testbit (csts (control f)) 0) eqn:E; [| done].
  destruct (inv_rdy _ Hc E) as [H _]. congruence.
Qed.

Lemma write_cc_mid full v s :
  mid full s -> in_w 64 v ->
  wp (write_cc (control_table ops) v) (fun r s' =>
    mid full s' /\ (r = inl NWOAS_HANDLED \/ r = inr tt)) s.
Proof.
  intros (Hc & Hr & Hb & Hfu) Hv. unfold write_cc. wp_go. apply mwp_control. intros s1 E1 V1.
  assert (Hu : in_w 32 (u32 v)) by (by apply wrap_range).
  assert (Hbit : Z.testbit (u32 v) 0 = Z.testbit v 0) by (by rewrite testbit_wrap).
  change (lget (A := nwoas_control) s) with (control (fe s)). wp_go; rewrite ?truthy_bit0 in *.
  - eapply mwp_mono; [apply queues_reset_busy; by rewrite E1 |]. intros [] s2 (b & E2).
    rewrite E1 in E2. cbn in E2. wp_go. apply mwp_control. intros s3 E3 V3. rewrite E2 in E3.
    cbn in E3. wp_go. eapply mwp_mono; [by apply irq_update_spec_fe |]. intros [] s4 [E4 V4].
    apply (shutdown_mid full); [| by auto]. unfold mid. rewrite V4, E4, E3.
    split_and!; try done; [| by eapply (ring_reset_ok (full_reset (fe s)) (fe s))].
    apply core_cleared; try done; try (by apply irq_off).
    intros c' ->. destruct (fc_control _ _ Hc). by split; cbn.
  - apply negb_true_iff in H0. destruct (cc_disabled_rdy _ _ Hc H0) as [Hrdy Hact].
    eapply mwp_mono; [apply enable_busy; by rewrite E1 |]. intros ok s2 [V2 H2]. wp_go.
    + destruct ok; [done |]. rewrite E1 in H2.
      eapply mwp_mono; [eapply fatal_busy; exact H2 |]. intros [] s3 [E3 V3]. wp_go.
      split; [| by left]. unfold mid. rewrite E3, V3. split; [| done].
      pose proof (cc_core _ _ (u32 v) Hc Hu (or_intror Hrdy)) as Hcc.
      pose proof (inv_csts _ (fc_control _ _ Hc)) as Hok.
      destruct (csts_or2_bits _ Hok) as [Hb0 Hb1].
      apply (core_csts _ _ _ Hcc); auto. by apply csts_fatal_ok.
    + destruct ok; [| done]. apply mwp_control. intros s3 E3 V3.
      apply (shutdown_mid full); [| by auto]. unfold mid. rewrite V3, V2, V1, E3.
      rewrite E1 in H2. pose proof H2 as (_ & _ & _ & Hg1 & Hg2 & E2).
      split_and!.
      * apply (enabled_core (fe s) _ (u32 v)); try done. rewrite Hbit. by apply negb_false_iff.
      * rewrite E2. destruct Hr as [n Hn]. exists 0. cbn.
        destruct (fc_control _ _ Hc). cbn in *.
        apply (configure_inv _ _ _ _ n); [done | apply inv_asq | apply inv_acq | done | done].
      * by rewrite E2.
      * by rewrite E2.
  - apply (shutdown_mid full); [| by auto]. unfold mid. rewrite V1, E1. split; [| done].
    apply cc_core; try done. left. rewrite Hbit. by apply negb_false_iff.
Qed.

(** Register updates that keep CSTS and the pending bit; the queue registers
    may change while the ring is down. *)
Lemma core_control f lv c' lv' :
  fe_core f lv -> control_inv c' -> csts c' = csts (control f) ->
  NvmeControl.pending c' = NvmeControl.pending (control f) ->
  (active (ring f) = true ->
     asq c' = asq (control f) /\ acq c' = acq (control f) /\ aqa c' = aqa (control f)) ->
  lv' = irq_level c' && gate f \/ (lv' = lv /\ irq_level c' = irq_level (control f)) ->
  fe_core (f <| control := c' |>) lv'.
Proof.
  intros [Hc Hl Hi Hf Hv] Hc' Es Ep Hq Hlv. split; cbn; auto.
  - destruct Hl as [Hl1 Hl2]. split; [by rewrite Es |]. intros Ha.
    destruct (Hq Ha) as (-> & -> & ->). auto.
  - intros Ha. rewrite Ep. auto.
  - destruct Hlv as [-> | [-> Ei]]; unfold gate in *; cbn; rewrite Es; [done |].
    by rewrite Ei.
Qed.

Lemma update_irq_mid full cb s s1 c' :
  mid full s -> cb_irq cb = Some (irq ops) -> fe s1 = (fe s) <| control := c' |> ->
  (let c := control (fe s) in control_inv c' /\ csts c' = csts c /\
     NvmeControl.pending c' = NvmeControl.pending c /\
     asq c' = asq c /\ acq c' = acq c /\ aqa c' = aqa c) ->
  mwp (irq_update cb) (fun _ s' => mid full s') s1.
Proof.
  intros (Hc & Hr & Hb & Hfu) Hcb E1 (H1 & H2 & H3 & H4 & H5 & H6).
  eapply mwp_mono; [by apply irq_update_spec_fe |]. intros [] s2 [E2 V2].
  unfold mid. rewrite E2, V2, E1. split; [| done].
  apply (core_control (fe s) (level s)); auto. left. unfold gate. cbn. by rewrite H2.
Qed.

(** An update that does not concern the line. *)
Lemma control_quiet_mid full (g : nwoas_control -> nwoas_control) s (Q : unit -> S -> Prop) :
  mid full s ->
  (let c := control (fe s) in control_inv (g c) /\ csts (g c) = csts c /\
     NvmeControl.pending (g c) = NvmeControl.pending c /\ irq_level (g c) = irq_level c /\
     (active (ring (fe s)) = true -> asq (g c) = asq c /\ acq (g c) = acq c /\ aqa (g c) = aqa c)) ->
  (forall s', mid full s' -> Q tt s') ->
  mwp (@lmodify S nwoas_control _ g) Q s.
Proof.
  intros (Hc & Hr & Hb & Hfu) (H1 & H2 & H3 & H4 & H5) HQ. apply mwp_control.
  intros s1 E1 V1. apply HQ. unfold mid. rewrite E1, V1. split; [| done].
  apply (core_control (fe s) (level s)); auto.
Qed.

Lemma mid_control full s : mid full s -> control_inv (control (fe s)).
Proof. intros (Hc & _). apply Hc. Qed.

Lemma pci_write_mid full o w v s :
  mid full s -> mwp (nwoas_pci_write (control_table ops) o w v) (fun _ s' => mid full s') s.
Proof.
  intros Hm. pose proof (mid_control _ _ Hm) as Hc. unfold nwoas_pci_write. cbv zeta. wp_go; [done | | | |].
  - apply mwp_control. intros s1 E1 V1. wp_go.
    eapply mwp_mono; [eapply (update_irq_mid full _ s); [done | done | exact E1 |] |]; [| done].
    split_and!; try done. apply inv_command_write; [done |]. apply command_merge_all_mask.
  - apply (control_quiet_mid full); [done | | by intros; wp_go]. split_and!; try done.
    by apply (inv_probe_write (control (fe s))).
  - apply (control_quiet_mid full); [done | | by intros; wp_go]. split_and!; try done.
    by apply (inv_probe_write (control (fe s))).
  - done.
Qed.

Lemma reg_write_mid full o w v s :
  mid full s -> mwp (nwoas_reg_write (control_table ops) o w v) (fun r s' =>
    mid full s' /\ (r = NWOAS_NOT_HANDLED -> s' = s /\ 0x1000 <= o)) s.
Proof.
  intros Hm. pose proof (mid_control _ _ Hm) as Hc. pose proof Hm as (Hco & _).
  unfold nwoas_reg_write. cbv zeta. wp_go; try done.
  - split; [done |]. intros _. split; [done |]. by apply Z.leb_le.
  - apply mwp_control. intros s1 E1 V1. wp_go.
    eapply mwp_mono; [eapply (update_irq_mid full _ s); [done | done | exact E1 |] |];
      [| intros; by wp_go].
    split_and!; try done. apply inv_mask_write; [done |].
    apply in_w_lor; [done | apply Hc | by apply wrap_range].
  - apply mwp_control. intros s1 E1 V1. wp_go.
    eapply mwp_mono; [eapply (update_irq_mid full _ s); [done | done | exact E1 |] |];
      [| intros; by wp_go].
    split_and!; try done. apply inv_mask_write; [done |]. apply in_w_land; [done | apply Hc].
  - bool_hyps. eapply wp_mono.
    { apply (write_cc_mid full); [done |]. by apply width_ok_in_w64, (fits_width o w 0x4000). }
    intros r s' [Hm' [-> | ->]]; by wp_go.
  - bool_hyps. rewrite truthy_bit0 in *. pose proof Hc as [].
    destruct (cc_disabled_rdy _ _ Hco ltac:(done)) as [_ Hact].
    apply (control_quiet_mid full); [done | | by intros; wp_go].
    split_and!; try done; [| by intros; congruence].
    apply (inv_queue_write (control (fe s))); auto. by apply wrap_range.
  - bool_hyps. rewrite truthy_bit0 in *. pose proof Hc as [].
    destruct (cc_disabled_rdy _ _ Hco ltac:(done)) as [_ Hact].
    destruct (base_write_range o w v (control (fe s))) as [Ha Hb]; [done | done |].
    unfold write_base. wp_go; (apply (control_quiet_mid full); [done | | by intros; wp_go]);
      (split_and!; try done; [| by intros; congruence]);
      by apply (inv_queue_write (control (fe s))).
Qed.

Lemma control_reset_mid s :
  ring_ok (fe s) -> control_busy (fe s) = true ->
  in_w 16 (command (control (fe s))) /\ command (control (fe s)) .& 0x407 = command (control (fe s)) ->
  mwp (nwoas_control_reset (control_table ops)) (fun _ s' => mid (full_reset (fe s)) s') s.
Proof.
  intros Hr Hb Hcmd. unfold nwoas_control_reset. wp_go. apply mwp_control. intros s1 E1 V1. wp_go.
  eapply mwp_mono; [apply queues_reset_busy; by rewrite E1 |]. intros [] s2 (b & E2).
  rewrite E1 in E2. cbn in E2. eapply mwp_mono; [by apply irq_update_spec_fe |]. intros [] s3 [E3 V3].
  unfold mid. rewrite E3, V3, E2.
  split_and!; try done; try (by eapply (ring_reset_ok (full_reset (fe s)) (fe s))).
Qed.

Lemma control_init_mid bar0 s :
  ring_ok (fe s) -> control_busy (fe s) = true ->
  mwp (nwoas_control_init (control_table ops) bar0) (fun _ s' => mid (full_reset (fe s)) s') s.
Proof.
  intros Hr Hb. unfold nwoas_control_init. wp_go. apply mwp_control. intros s1 E1 V1.
  replace (full_reset (fe s)) with (full_reset (fe s1)) by (by rewrite E1).
  apply control_reset_mid; rewrite E1; [done | done |]. split; [by apply in_w_0 | done].
Qed.

(** *** Between entry points *)

(** Everything but the latch of a fault into CFS. *)
Definition settled (full : bool) (s : S) : Prop :=
  fe_core (fe s) (level s) /\ ring_ok (fe s) /\ control_busy (fe s) = false /\
  full_reset (fe s) = full /\
  NvmeControl.pending (control (fe s)) =
    io_pending (fe s) || (active (ring (fe s)) && truthy (r_pending (ring (fe s)))).

Lemma core_pending f lv p :
  fe_core f lv -> (active (ring f) = false -> p = false) ->
  let f' := f <| control := (control f) <| NvmeControl.pending := p |> |> in
  fe_core f' (irq_level (control f') && gate f').
Proof.
  intros [Hc Hl Hi Hf Hv] Hp. split; cbn; auto.
  - destruct Hc. by split.
  - destruct Hl. by split.
  - intros Ha. destruct (Hi Ha) as (? & _ & ?). auto.
Qed.

Lemma update_settled full s :
  fe_core (fe s) (level s) -> ring_ok (fe s) -> control_busy (fe s) = false ->
  full_reset (fe s) = full ->
  mwp (update_pending ops) (fun _ s' => settled full s' /\
    ring (fe s') = ring (fe s) /\ backend_fault (fe s') = backend_fault (fe s) /\
    csts (control (fe s')) = csts (control (fe s))) s.
Proof.
  intros Hc Hr Hb Hfu. eapply mwp_mono; [by apply update_pending_spec |].
  intros [] s1 [E1 V1]. unfold settled. rewrite V1, E1. split; [| done]. split_and!; try done.
  apply core_pending with (lv := level s); [done |]. intros Ha.
  destruct (fc_idle _ _ Hc Ha) as (-> & _). by rewrite Ha.
Qed.

Lemma core_same f f' lv :
  fe_core f lv -> control f' = control f -> ring f' = ring f -> io_pending f' = io_pending f ->
  backend_fault f' = backend_fault f -> fe_core f' lv.
Proof. intros [] E1 E2 E3 E4. split; unfold gate in *; rewrite ?E1, ?E2, ?E3, ?E4; auto. Qed.

Lemma relatch_inv s :
  settled false s ->
  mwp (relatch ops) (fun _ s' => fe_inv (fe s') (level s') /\ ring_ok (fe s')) s.
Proof.
  intros (Hc & Hr & Hb & Hfu & Hs). unfold relatch. wp_go; cbn [id] in *.
  2: { split; [| done]. split; try done. congruence. }
  eapply mwp_mono; [apply fault_spec |]. intros [] s1 [E1 V1]. rewrite E1, V1.
  split; [| exact Hr]. pose proof (inv_csts _ (fc_control _ _ Hc)) as Hok.
  destruct (csts_or2_bits _ Hok) as [Hb0 Hb1]. split; try done.
  eapply core_same; [apply (core_csts (fe s) (csts (control (fe s)) .| 2) (level s)); auto |..];
    try done.
  by apply csts_fatal_ok.
Qed.

Lemma with_busy_settled {A} (m : M S A) full s (Q : A -> S -> Prop) :
  fe_inv (fe s) (level s) -> ring_ok (fe s) -> full_reset (fe s) = full ->
  (forall s1, mid full s1 -> fe s1 = (fe s) <| control_busy := true |> ->
     mwp m (fun r s2 => mid full s2 /\ forall s3, settled full s3 ->
       ring (fe s3) = ring (fe s2) -> backend_fault (fe s3) = backend_fault (fe s2) ->
       csts (control (fe s3)) = csts (control (fe s2)) -> Q r s3) s1) ->
  mwp (with_busy ops m) Q s.
Proof.
  intros Hi Hr Hfu HQ. unfold with_busy, set_busy. wp_go. apply mwp_fe. intros s1 E1 V1. wp_go.
  assert (Hm : mid full s1).
  { unfold mid. rewrite E1, V1. split_and!; try done. by eapply core_same; [apply Hi | ..]. }
  eapply mwp_mono; [by apply HQ |]. intros r s2 ((Hc2 & Hr2 & Hb2 & Hf2) & H2). wp_go.
  apply mwp_fe. intros s3 E3 V3. wp_go.
  eapply mwp_mono; [apply (update_settled full); rewrite ?V3, E3; try done; by eapply core_same |].
  intros [] s4 (Hs4 & Er & Eb & Ec). wp_go. apply H2; [done | | |]; rewrite ?Er, ?Eb, ?Ec, E3; done.
Qed.

(** *** The ring inside the frontend *)

(** The invariant between entry points, with the ring running. *)
Definition running (s : S) : Prop := fe_inv (fe s) (level s) /\ active (ring (fe s)) = true.

Lemma running_same s s' : running s -> fe s' = fe s -> level s' = level s -> running s'.
Proof. unfold running. by intros ? -> ->. Qed.

Lemma running_settled f lv f' lv' :
  fe_inv f lv -> active (ring f) = true -> client_same (ring f) (ring f') ->
  (exists p, control f' = (control f) <| NvmeControl.pending := p |>) ->
  backend_fault f' = backend_fault f -> control_busy f' = false -> full_reset f' = false ->
  NvmeControl.pending (control f') =
    io_pending f' || (active (ring f') && truthy (r_pending (ring f'))) ->
  lv' = irq_level (control f') && gate f' ->
  fe_inv f' lv' /\ active (ring f') = true.
Proof.
  intros [[Hc [Hl1 Hl2] Hi Hf Hv] Hs Hbf Hb Hfu] Ha [[Eq1 Eq2] [Eq3 Eq4] Ea Ef] [p Ec] Eb Eb' Ef' Hp ->.
  split; [| congruence]. split; try done.
  - split.
    + rewrite Ec. destruct Hc. by split.
    + rewrite Ec. split; cbn; [by rewrite Ea |]. rewrite Eq1, Eq2, Eq3, Eq4, Ea. done.
    + rewrite Ea. congruence.
    + rewrite Ef, Eb. done.
    + done.
  - rewrite Eb, Ec. done.
Qed.

Lemma update_running s s0 :
  running s0 -> control (fe s) = control (fe s0) -> backend_fault (fe s) = backend_fault (fe s0) ->
  control_busy (fe s) = control_busy (fe s0) -> full_reset (fe s) = full_reset (fe s0) ->
  client_same (ring (fe s0)) (ring (fe s)) ->
  running (update_pending ops s).2.
Proof.
  intros [Hi Ha] Ec Eb Ecb Ef Hc.
  assert (Hb : control_busy (fe s) = false) by (rewrite Ecb; apply Hi).
  pose proof (update_pending_spec s Hb) as H. apply mwp_iff in H as [E1 V1].
  apply (running_settled (fe s0) (level s0) _ _ Hi Ha); rewrite E1; cbn; try done.
  - eexists. by rewrite Ec.
  - rewrite Ef. apply Hi.
  - by rewrite V1, E1.
Qed.

Lemma fault_running s : running s -> running (nwoas_frontend_fault ops s).2.
Proof.
  intros [Hi Ha]. pose proof (fault_spec s) as H. apply mwp_iff in H as [E1 V1].
  unfold running. rewrite E1, V1. split; [| done].
  pose proof (inv_csts _ (fc_control _ _ (fi_core _ _ Hi))) as Hok.
  destruct (csts_or2_bits _ Hok) as [Hb0 Hb1]. pose proof Hi as [Hc Hs Hbf Hb Hfu].
  split; try done.
  assert (H : fe_core ((fe s) <| control := (control (fe s)) <| csts := csts (control (fe s)) .| 2 |> |>)
    false) by (apply (core_csts (fe s) _ (level s)); auto; by apply csts_fatal_ok).
  destruct H as [H1 H2 H3 H4 H5]. split; try done. unfold gate. cbn. by rewrite Hb1, andb_false_r.
Qed.

(** The engine's failure path: the latch alone drops the gate, the pending
    callback recomputes the line, the fault callback latches CFS. *)
Lemma fail_running s :
  running s ->
  mwp (fail (ring_table ops)) (fun _ s' => running s') s.
Proof.
  intros [Hi Ha]. pose proof Hi as [[Hc Hl Hid Hrf Hv] Hs Hbf Hb Hfu]. unfold fail. wp_go.
  apply mwp_ring. intros s1 E1 V1. wp_go. cbn [re_pending re_fault ring_table]. unfold pending, fault.
  eapply mwp_mono; [apply update_pending_spec; by rewrite E1 |]. intros [] s2 [E2 V2]. wp_go.
  eapply mwp_mono; [apply fault_spec |]. intros [] s3 [E3 V3]. wp_go.
  rewrite E1 in E2. cbn in E2. unfold running. rewrite V3, E3, E2. cbn. split; [| done].
  destruct (csts_or2_bits _ (inv_csts _ Hc)) as [Hb0 Hb1]. destruct Hl as [Hl1 Hl2].
  split; cbn; try done.
  - split; cbn; try done.
    + pose proof (csts_fatal_ok _ (inv_csts _ Hc)). destruct Hc. split; cbn; auto. by rewrite Hb0.
    + split; cbn; [by rewrite Hb0 | done].
    + congruence.
    + unfold gate. cbn. by rewrite Hb1, andb_false_r.
Qed.

Lemma running_lset r s : running s -> client_same (ring (fe s)) r -> r_pending r = r_pending (ring (fe s)) ->
  running (lset r s).
Proof.
  intros [Hi Ha] Hc Hp. unfold running.
  assert (Hfe : fe (lset r s) = (fe s) <| ring := r |>) by apply (@lget_lset _ _ L).
  rewrite Hfe. change (level (lset r s)) with (level (lset ((fe s) <| ring := r |>) s)). rewrite (ln_lset (ops := ops)).
  pose proof Hi as [Hco Hs Hbf Hb Hfu]. apply (running_settled (fe s) (level s)); try done.
  - exists (NvmeControl.pending (control (fe s))). cbn. by destruct (control (fe s)).
  - cbn. rewrite Hs, Hp. by destruct Hc as [_ _ -> _].
  - rewrite (fc_line _ _ Hco). unfold gate. cbn. by destruct Hc as [_ _ _ ->].
Qed.

Lemma reconcile_running a c s : running s -> running (reconcile ops a c s).2.
Proof.
  intros Hr. apply (mwp_iff (reconcile ops a c) (fun _ s' => running s')). unfold reconcile.
  wp_go. eapply (mwp_cb2 FE level); [apply fe_reconcile | apply ln_reconcile |].
  intros ok s1 E1 V1. assert (Hr1 : running s1) by (by eapply running_same). wp_go; [done | |].
  - apply mwp_fe. intros s2 E2 V2. wp_go. apply mwp_iff, (update_running _ s1); [done | by rewrite E2 ..].
  - apply mwp_iff, (update_running _ s1); [done | done ..].
Qed.

#[local] Instance ring_client : RingClient (ring_table ops) (admin_table ops) running.
Proof.
  assert (Hsame : forall A (m : M S A) s, keeps FE m -> keeps level m -> running s -> running (m s).2).
  { intros A m s H1 H2 Hr. by eapply running_same. }
  split.
  - intros. apply Hsame; [apply fe_contains | apply ln_contains | done].
  - intros a n s Hr. apply Hsame; [| | done]; intros t; cbn; unfold read_memory, mbind, M_bind, lgets;
      cbn; case_match; try done; [apply fe_read | apply ln_read].
  - intros a n s Hr. apply Hsame; [| | done]; intros t; cbn; unfold write_memory, mbind, M_bind, lgets;
      cbn; case_match; try done; [apply fe_write | apply ln_write].
  - intros. apply Hsame; [apply fe_barrier | apply ln_barrier | done].
  - intros f a n s Hf Hr. injection Hf as <-. apply Hsame; [apply fe_contains | apply ln_contains | done].
  - intros f v s Hf Hr. cbn in Hf. destruct (o_set_cache ops) as [h|] eqn:E; [| done].
    injection Hf as <-. apply (mwp_iff (set_cache ops h v) (fun _ s' => running s')). unfold set_cache.
    wp_go. eapply (mwp_cb2 FE level); [by apply fe_set_cache | by eapply ln_set_cache |].
    intros k s1 E1 V1. assert (Hr1 : running s1) by (by eapply running_same).
    wp_go; [| done]. apply mwp_iff. by apply fault_running.
  - intros f s Hf Hr. cbn in Hf. destruct (o_get_cache ops) as [h|] eqn:E; [| done].
    injection Hf as <-. apply Hsame; [by apply fe_get_cache | by eapply ln_get_cache | done].
  - intros r s Hr (Hc & Hp & _). by apply running_lset.
  - intros r b s Hr Hc _. assert (Hfe : fe (lset r s) = (fe s) <| ring := r |>) by apply (@lget_lset _ _ L).
    apply (update_running _ s); [done |..]; rewrite Hfe; try done.
  - intros r c s Hr Hc Hp _. cbv zeta. pose proof (reconcile_running (admin r) c _ (running_lset r s Hr Hc Hp)) as H1.
    case_match; [done |]. apply (mwp_iff (fail (ring_table ops)) (fun _ s' => running s')). by apply fail_running.
  - intros s Hr. apply (mwp_iff (fail (ring_table ops)) (fun _ s' => running s')). by apply fail_running.
Qed.

Lemma update_pending_ring : keeps (fun s => ring (fe s)) (update_pending ops).
Proof.
  intros s. destruct (control_busy (fe s)) eqn:Hb.
  - by rewrite update_pending_busy.
  - pose proof (update_pending_spec s Hb) as H. apply mwp_iff in H as [E _]. by rewrite E.
Qed.

Lemma fault_ring : keeps (fun s => ring (fe s)) (nwoas_frontend_fault ops).
Proof. intros s. pose proof (fault_spec s) as H. apply mwp_iff in H as [E _]. by rewrite E. Qed.

#[local] Instance ring_env_ok : RingEnv (ring_table ops) (admin_table ops).
Proof.
  assert (Hk : forall A (m : M S A), keeps FE m -> keeps (fun s => ring (fe s)) m)
    by (intros A m H s; by rewrite H).
  split.
  - intros. apply Hk, fe_contains.
  - intros a n. apply Hk. intros s. cbn. unfold read_memory, mbind, M_bind, lgets. cbn.
    case_match; [done | apply fe_read].
  - intros a n s Hn. cbn. unfold read_memory, mbind, M_bind, lgets. cbn.
    case_match; [done | by apply fe_read_ok].
  - intros a bs. apply Hk. intros s. cbn. unfold write_memory, mbind, M_bind, lgets. cbn.
    case_match; [done | apply fe_write].
  - apply Hk, fe_barrier.
  - intros a c. apply (keeps_mwp (fun s => ring (fe s))). intros s. cbn. unfold reconcile. wp_go.
    eapply mwp_cb; [apply fe_reconcile |]. intros ok s1 E1. wp_go; [by rewrite E1 | |].
    + apply mwp_fe. intros s2 E2 _. wp_go. eapply mwp_cb; [apply update_pending_ring |].
      intros [] s3 E3. wp_go. by rewrite E3, E2, E1.
    + eapply mwp_cb; [apply update_pending_ring |]. intros [] s3 E3. wp_go. by rewrite E3, E1.
  - intros b. apply update_pending_ring.
  - apply fault_ring.
  - intros f a n Hf. injection Hf as <-. apply Hk, fe_contains.
  - intros f v Hf. cbn in Hf. destruct (o_set_cache ops) as [h|] eqn:E; [| done]. injection Hf as <-.
    apply (keeps_mwp (fun s => ring (fe s))). intros s. unfold set_cache. wp_go.
    eapply mwp_cb; [by apply fe_set_cache |]. intros k s1 E1. wp_go; [| by rewrite E1].
    eapply mwp_cb; [apply fault_ring |]. intros [] s2 E2. wp_go. by rewrite E2, E1.
  - intros f Hf. cbn in Hf. destruct (o_get_cache ops) as [h|] eqn:E; [| done]. injection Hf as <-.
    by apply Hk, fe_get_cache.
Qed.

Section with_trace.
Context (trace : S -> list ring_event) `{!FrontendTrace ops trace}.

Lemma trace_lmodify_control (g : nwoas_control -> nwoas_control) (Q : unit -> S -> Prop) s :
  (forall s', fe s' = (fe s) <| control := g (control (fe s)) |> -> trace s' = trace s -> Q tt s') ->
  mwp (@lmodify S nwoas_control _ g) Q s.
Proof.
  intros HQ. apply mwp_iff, HQ; [apply (@lget_lset _ _ L) | apply (ft_lset (ops := ops))].
Qed.

Lemma irq_trace v : keeps trace (irq ops v).
Proof. apply keeps_mwp. intros s. unfold irq. wp_go. apply mwp_iff, ft_irq. Qed.

Lemma update_pending_trace : keeps trace (update_pending ops).
Proof.
  apply keeps_mwp. intros s. unfold update_pending, nwoas_control_pending, irq_update. wp_go; [done |].
  apply trace_lmodify_control. intros s1 E1 T1. cbn [cb_irq irq_callbacks]. wp_go.
  rewrite <- T1. apply mwp_iff, irq_trace.
Qed.

Lemma fault_trace : keeps trace (nwoas_frontend_fault ops).
Proof.
  apply keeps_mwp. intros s. unfold nwoas_frontend_fault. wp_run. apply mwp_iff.
  by rewrite ft_irq, Hs0, (ft_lset (ops := ops)), Hs, (ft_lset (ops := ops)).
Qed.

#[local] Instance ring_trace_ok : RingTrace (ring_table ops) (admin_table ops) trace.
Proof.
  split.
  - intros r s. apply (ft_lset (ops := ops)).
  - intros a bs s. cbn. unfold write_memory, mbind, M_bind, lgets. cbn [fst snd].
    destruct (backend_fault (id (fe s))); cbn; [by left |].
    pose proof (ft_write a bs s) as H. destruct (o_write ops a bs s) as [[] s']; [exact H | by right].
  - apply ft_barrier.
  - apply ft_contains.
  - intros a n s. cbn. unfold read_memory, mbind, M_bind, lgets. cbn. case_match; [done | apply ft_read].
  - intros a c. apply keeps_mwp. intros s. cbn. unfold reconcile. wp_go.
    eapply mwp_cb; [apply ft_reconcile |]. intros ok s1 E1. wp_run; [done | |];
      (eapply mwp_cb; [apply update_pending_trace |]); intros [] s3 E3; wp_go; rewrite E3; [| done].
    by rewrite Hs, (ft_lset (ops := ops)).
  - intros b. apply update_pending_trace.
  - apply fault_trace.
  - intros f a n Hf. injection Hf as <-. apply ft_contains.
  - intros f v Hf. cbn in Hf. destruct (o_set_cache ops) as [h|] eqn:E; [| done]. injection Hf as <-.
    apply keeps_mwp. intros s. unfold set_cache. wp_go.
    eapply mwp_cb; [by eapply ft_set_cache |]. intros k s1 E1. wp_go; [| done].
    eapply mwp_cb; [apply fault_trace |]. intros [] s2 E2. wp_go. by rewrite E2.
  - intros f Hf. cbn in Hf. destruct (o_get_cache ops) as [h|] eqn:E; [| done]. injection Hf as <-.
    by eapply ft_get_cache.
Qed.

(** *** The entry points *)

Definition fe_ok (s : S) : Prop := fe_inv (fe s) (level s) /\ ring_ok (fe s).

Lemma settled_ok s : settled false s -> backend_fault (fe s) = false -> fe_ok s.
Proof. intros (Hc & Hr & Hb & Hf & Hs) Hbf. split; [| done]. split; try done. congruence. Qed.

Lemma ring_op_ok {A} (m : M S A) s :
  fe_ok s -> active (ring (fe s)) = true ->
  (forall n, ring_inv n (ring (fe s)) -> mwp m (fun _ s' => exists n', ring_inv n' (ring (fe s'))) s) ->
  (forall n, ring_inv n (ring (fe s)) -> running s -> mwp m (fun _ s' => running s') s) ->
  mwp m (fun _ s' => fe_ok s' /\ (backend_fault (fe s') = true ->
    Z.testbit (csts (control (fe s'))) 1 = true)) s.
Proof.
  intros [Hi [n Hn]] Ha H1 H2. apply mwp_iff.
  specialize (H1 n Hn). specialize (H2 n Hn (conj Hi Ha)). apply mwp_iff in H1, H2.
  destruct H2 as [Hi' Ha']. split; [by split | apply Hi'].
Qed.

Lemma fe_reset_spec s : fe_ok s -> mwp (nwoas_frontend_reset ops) (fun _ s' => fe_ok s') s.
Proof.
  intros [Hi Hr]. pose proof Hi as [[Hc _ _ _ _] _ _ _ _].
  unfold nwoas_frontend_reset, set_busy. wp_go. apply mwp_fe. intros s1 E1 V1. wp_go.
  apply mwp_fe. intros s2 E2 V2. rewrite E1 in E2. cbn in E2. wp_go.
  eapply mwp_mono; [apply control_reset_mid; rewrite E2; [exact Hr | done | apply Hc] |].
  intros [] s3 (Hc3 & Hr3 & Hb3 & Hf3). wp_go. apply mwp_fe. intros s4 E4 V4. wp_go.
  apply mwp_fe. intros s5 E5 V5. rewrite E4 in E5. cbn in E5. wp_go.
  eapply mwp_mono.
  { apply (update_settled false); rewrite ?V5, ?V4, E5; try done. by eapply core_same. }
  intros [] s6 (Hs6 & _). by apply relatch_inv.
Qed.

Lemma fe_io_pending_spec v s :
  fe_ok s -> mwp (nwoas_frontend_io_pending ops v) (fun _ s' => fe_ok s') s.
Proof.
  intros [Hi Hr]. pose proof Hi as [[Hc Hl Hid Hrf Hv] Hs Hbf Hb Hfu].
  unfold nwoas_frontend_io_pending. wp_go. apply mwp_fe. intros s1 E1 V1.
  eapply mwp_mono; [apply update_pending_spec; by rewrite E1 |]. intros [] s2 [E2 V2].
  rewrite E1 in E2. cbn in E2. unfold fe_ok. rewrite V2, E2. split; [| exact Hr].
  split; try done. cbn. split; cbn; try done.
  - destruct Hc. by split.
  - destruct Hl. by split.
  - intros Ha. destruct (Hid Ha) as (_ & _ & Hq). rewrite Ha, Hq. by rewrite andb_false_r.
Qed.

Lemma fe_fault_spec s : fe_ok s -> mwp (nwoas_frontend_fault ops) (fun _ s' => fe_ok s') s.
Proof.
  intros [Hi Hr]. pose proof Hi as [Hc Hs Hbf Hb Hfu].
  eapply mwp_mono; [apply fault_spec |]. intros [] s1 [E1 V1]. unfold fe_ok. rewrite E1, V1.
  split; [| exact Hr]. pose proof (inv_csts _ (fc_control _ _ Hc)) as Hok.
  destruct (csts_or2_bits _ Hok) as [Hb0 Hb1]. split; try done.
  assert (H : fe_core ((fe s) <| control := (control (fe s)) <| csts := csts (control (fe s)) .| 2 |> |>)
    false) by (apply (core_csts (fe s) _ (level s)); auto; by apply csts_fatal_ok).
  destruct H as [H1 H2 H3 H4 H5]. split; try done. unfold gate. cbn. by rewrite Hb1, andb_false_r.
Qed.

Lemma poll_ok budget s :
  fe_ok s -> 0 <= budget -> mwp (nwoas_frontend_poll ops budget) (fun _ s' => fe_ok s') s.
Proof.
  intros Hi Hb. unfold nwoas_frontend_poll. wp_go; [done |]. cbn [id] in *. bool_hyps.
  rewrite truthy_bit0 in *.
  assert (Ha : active (ring (fe s)) = true).
  { destruct Hi as [[[_ [Hl _] _ _ _] _ _ _ _] _]. by rewrite Hl. }
  eapply mwp_mono; [apply ring_op_ok; try done |].
  - intros n Hn. exact (poll_inv (ring_table ops) (admin_table ops) trace budget n s Hn Hb).
  - intros n Hn Hr. exact (client_poll (ring_table ops) (admin_table ops) running trace budget n s Hr Hn).
  - by intros v s' [].
Qed.

Lemma doorbell_ok o w v s Q :
  fe_ok s -> in_w 64 v ->
  (forall r s', fe_ok s' -> Q r s') -> wp (doorbell ops o w v) Q s.
Proof.
  intros Hi Hv HQ. unfold doorbell. wp_go; try (by apply HQ).
  all: cbn [id] in *; bool_hyps; rewrite ?truthy_bit0 in *.
  all: assert (Ha : active (ring (fe s)) = true)
    by (destruct Hi as [[[_ [Hl _] _ _ _] _ _ _ _] _]; by rewrite Hl).
  - eapply mwp_mono; [apply ring_op_ok; try done |].
    + intros n Hn. exact (tail_spec (ring_table ops) (admin_table ops) trace (u32 v) n s Hn
        (proj1 (wrap_range 32 v ltac:(done)))).
    + intros n Hn Hr. exact (client_tail (ring_table ops) (admin_table ops) running trace (u32 v) n s Hr Hn (proj1 (wrap_range 32 v ltac:(done)))).
    + intros z s' [? _]. wp_go. by apply HQ.
  - eapply mwp_mono; [apply ring_op_ok; try done |].
    + intros n Hn. apply mwp_iff. exists n.
      pose proof (ack_inv_any (ring_table ops) (admin_table ops) trace (u32 v) n s Hn
        (proj1 (wrap_range 32 v ltac:(done)))) as H7. by rewrite mwp_iff in H7.
    + intros n Hn Hr. exact (client_ack (ring_table ops) (admin_table ops) running (u32 v) s Hr).
    + intros z s' [? _]. wp_go. by apply HQ.
Qed.

Lemma reg_write_ok o w v s :
  fe_ok s -> in_w 64 v -> mwp (with_busy ops (nwoas_reg_write (control_table ops) o w v))
    (fun r s' => settled false s' /\ (r = NWOAS_NOT_HANDLED -> fe_ok s')) s.
Proof.
  intros [Hi Hr] Hv. apply (with_busy_settled _ false); [done | done | apply Hi |]. intros s1 Hm E1.
  eapply mwp_mono; [by apply reg_write_mid |]. intros r s2 [Hm2 Hnh]. split; [done |].
  intros s3 Hs3 Er Eb Ec. split; [done |]. intros ->. destruct (Hnh eq_refl) as [-> _].
  destruct Hs3 as (Hc & Hr3 & Hb & Hf & Hs). split; [| done]. split; try done.
  rewrite Eb, Ec, E1. apply Hi.
Qed.

Lemma write_ok pci o w v s :
  fe_ok s -> in_w 64 v -> mwp (nwoas_frontend_write ops pci o w v) (fun _ s' => fe_ok s') s.
Proof.
  intros Hok Hv. unfold nwoas_frontend_write.
  assert (Hlatch : forall s1 (Q : unit -> S -> Prop), settled false s1 -> (forall s2, fe_ok s2 -> Q tt s2) ->
    mwp (relatch ops) Q s1).
  { intros s1 Q Hs1 HQ. eapply mwp_mono; [by apply relatch_inv |]. intros [] s2 Hs2. by apply HQ. }
  wp_go.
  - destruct Hok as [Hi Hr]. apply (with_busy_settled _ false); [done | done | apply Hi |]. intros s1 Hm E1.
    eapply mwp_mono; [by apply pci_write_mid |]. intros r s2 Hm2. split; [done |].
    intros s3 Hs3 _ _ _. wp_go. apply Hlatch; [done |]. intros. by wp_go.
  - eapply mwp_mono; [by apply reg_write_ok |]. intros r s1 [Hs1 Hnh]. wp_go.
    destruct r; [wp_go; apply Hlatch; [done |]; intros; by wp_go | | wp_go; apply Hlatch; [done |]; intros; by wp_go].
    apply doorbell_ok; [by apply Hnh | done |]. intros [r|r] s2 Hok2; [done |]. wp_go.
    apply Hlatch; [destruct Hok2 as [[] ?]; by split_and! |]. intros. by wp_go.
Qed.

Lemma fe_init_spec present bar0 (o : nwoas_frontend_ops S) p s :
  zlen (payload (ring (fe s))) = 4096 -> zlen (completion (ring (fe s))) = 16 ->
  (nwoas_frontend_init present bar0 o p s).1.1 = Some ops ->
  fe_ok (nwoas_frontend_init present bar0 o p s).2 /\
  (nwoas_frontend_init present bar0 o p s).1.2 =
    negb (backend_fault (fe (nwoas_frontend_init present bar0 o p s).2)).
Proof.
  intros Hp Hc. unfold nwoas_frontend_init.
  destruct (ops_present o) as [env|] eqn:Eo; [| done].
  destruct (negb present || negb (init_ok o bar0 p)) eqn:Eg; [done |].
  intros Hs.
  assert (Henv : env = ops).
  { revert Hs. unfold mbind, M_bind. cbn.
    case_match; cbn; intros; by simplify_eq. }
  clear Hs. subst env.
  assert (Hok : cache_callbacks_match (admin_table ops) = true /\ policy_valid p = true).
  { bool_hyps. unfold init_ok in *. bool_hyps. split; [| done].
    unfold ops_present in Eo. repeat case_match; simplify_eq.
    unfold cache_callbacks_match, admin_table. cbn.
    by destruct (fo_set_cache o), (fo_get_cache o). }
  destruct Hok as [Hm Hpol].
  apply (mwp_iff _ (fun r s' => fe_ok s' /\ r.2 = negb (backend_fault (fe s')))).
  wp_go. apply mwp_fe. intros s1 E1 V1. wp_go. unfold nwoas_ring_init. cbn [ring_callbacks_present
    ring_callbacks rc_contains rc_read rc_write rc_barrier rc_reconcile rc_pending rc_fault].
  rewrite Hm, Hpol. cbn [negb orb]. wp_go. apply mwp_ring. intros s2 E2 V2. wp_go.
  unfold set_busy. rewrite E1 in E2. cbn in E2. apply mwp_fe. intros s3 E3 V3. rewrite E2 in E3. cbn in E3.
  wp_go. eapply mwp_mono.
  { apply control_init_mid; rewrite E3; [| done]. exists 0. by apply (ring_init_inv p (ring (fe s))). }
  intros [] s4 (Hc4 & Hr4 & Hb4 & Hf4). wp_go. apply mwp_fe. intros s5 E5 V5. wp_go.
  rewrite E3 in Hf4. cbn in Hf4.
  eapply mwp_mono; [apply (update_settled false); rewrite ?V5, E5; try done; by eapply core_same |].
  intros [] s6 (Hs6 & _). wp_go. eapply mwp_mono; [by apply relatch_inv |]. intros [] s7 H7. by wp_go.
Qed.

(** Stores reachable from an initialisation by any sequence of entry points
    and of steps of the rest of the store. *)
Inductive fe_reach : S -> Prop :=
| reach_init present bar0 o p s :
    zlen (payload (ring (fe s))) = 4096 -> zlen (completion (ring (fe s))) = 16 ->
    (nwoas_frontend_init present bar0 o p s).1.1 = Some ops ->
    fe_reach (nwoas_frontend_init present bar0 o p s).2
| reach_reset s : fe_reach s -> fe_reach (nwoas_frontend_reset ops s).2
| reach_io_pending s v : fe_reach s -> fe_reach (nwoas_frontend_io_pending ops v s).2
| reach_fault s : fe_reach s -> fe_reach (nwoas_frontend_fault ops s).2
| reach_write s pci o w v : fe_reach s -> in_w 64 v ->
    fe_reach (nwoas_frontend_write ops pci o w v s).2
| reach_poll s budget : fe_reach s -> in_w 32 budget -> fe_reach (nwoas_frontend_poll ops budget s).2
| reach_other s s' : fe_reach s -> fe s' = fe s -> level s' = level s -> fe_reach s'.

Lemma reach_ok s : fe_reach s -> fe_ok s.
Proof.
  induction 1 as [present bar0 o p s Hp Hc Hs|s _ IH|s v _ IH|s _ IH|s pci o w v _ IH Hv|
    s budget _ IH Hb|s s' _ IH E1 E2].
  - by apply fe_init_spec.
  - apply (mwp_iff _ (fun _ s' => fe_ok s')). by apply fe_reset_spec.
  - apply (mwp_iff _ (fun _ s' => fe_ok s')). by apply fe_io_pending_spec.
  - apply (mwp_iff _ (fun _ s' => fe_ok s')). by apply fe_fault_spec.
  - apply (mwp_iff _ (fun _ s' => fe_ok s')). by apply write_ok.
  - apply (mwp_iff _ (fun _ s' => fe_ok s')). apply poll_ok; [done | apply Hb].
  - unfold fe_ok. by rewrite E1, E2.
Qed.

Lemma level_exact f lv : fe_inv f lv ->
  lv = (io_pending f || (active (ring f) && truthy (r_pending (ring f)))) &&
       negb (Z.testbit (mask (control f)) 0) && negb (Z.testbit (command (control f)) 10) &&
       negb (Z.testbit (csts (control f)) 1) && negb (backend_fault f).
Proof.
  intros [Hc Hs Hbf _ _]. rewrite (fc_line _ _ Hc). unfold irq_level, gate. rewrite Hs.
  unfold truthy at 2 3. rewrite <- (truthy_bit0 (mask _)), <- (truthy_bit 10) by lia.
  rewrite !andb_assoc.
  destruct (r_fatal (ring f)) eqn:Ef; [rewrite (fc_fatal _ _ Hc Ef) |]; cbn;
    rewrite ?andb_false_r, ?andb_true_r; done.
Qed.

(** Doorbell offsets reach no control register. *)
Lemma reg_write_doorbell o w v s :
  0x1000 <= o ->
  mwp (nwoas_reg_write (control_table ops) o w v) (fun r s' =>
    s' = s /\ (r = NWOAS_NOT_HANDLED \/ r = NWOAS_INVALID)) s.
Proof.
  intros Ho. unfold nwoas_reg_write. wp_go; auto; exfalso; bool_props; lia.
Qed.

Lemma doorbell_gated o w v s :
  Z.testbit (csts (control (fe s))) 0 = false \/ Z.testbit (csts (control (fe s))) 1 = true ->
  wp (doorbell ops o w v) (fun _ s' => s' = s) s.
Proof.
  intros Hg. unfold doorbell. wp_go; try done; exfalso; cbn [id] in *; bool_hyps;
    rewrite ?truthy_bit0, ?truthy_bit1 in *; destruct Hg; congruence.
Qed.

Lemma relatch_frame s :
  mwp (relatch ops) (fun _ s' => trace s' = trace s /\ ring (fe s') = ring (fe s)) s.
Proof.
  unfold relatch. wp_go; [| done]. apply mwp_iff. split; [apply fault_trace | apply fault_ring].
Qed.

Lemma write_gated o w v s :
  0x1000 <= o ->
  Z.testbit (csts (control (fe s))) 0 = false \/ Z.testbit (csts (control (fe s))) 1 = true ->
  mwp (nwoas_frontend_write ops false o w v) (fun _ s' =>
    trace s' = trace s /\ ring (fe s') = ring (fe s)) s.
Proof.
  intros Ho Hg. unfold nwoas_frontend_write, with_busy, set_busy. wp_go.
  apply mwp_lmodify. intros s1 Hs1 E1. wp_go.
  assert (T1 : trace s1 = trace s) by (rewrite Hs1; apply (ft_lset (ops := ops))).
  eapply mwp_mono; [by apply reg_write_doorbell |]. intros r s2 [-> Hr]. wp_go.
  apply mwp_lmodify. intros s3 Hs3 E3. wp_go.
  assert (T3 : trace s3 = trace s) by (rewrite Hs3, <- T1; apply (ft_lset (ops := ops))).
  assert (R3 : ring (fe s3) = ring (fe s)) by (by rewrite E3, E1).
  assert (Hb : control_busy (fe s3) = false) by (by rewrite E3).
  assert (Hc : csts (control (fe s3)) = csts (control (fe s))) by (by rewrite E3, E1).
  eapply (mwp_mono _ (fun _ t => trace t = trace s3 /\ ring (fe t) = ring (fe s3) /\
    csts (control (fe t)) = csts (control (fe s3)))).
  { apply mwp_iff. split; [apply update_pending_trace |].
    pose proof (update_pending_spec s3 Hb) as H. apply mwp_iff in H as [E _]. by rewrite E. }
  intros [] s4 (T4 & R4 & C4). wp_go.
  assert (Hfin : mwp (relatch ops) (fun _ s' => trace s' = trace s /\ ring (fe s') = ring (fe s)) s4).
  { eapply mwp_mono; [apply relatch_frame |]. intros [] s5 [-> ->]. split; congruence. }
  destruct Hr as [-> | ->].
  - eapply wp_mono; [apply doorbell_gated; by rewrite C4, Hc |]. intros [r|r] s5 ->.
    + split; congruence.
    + wp_go. eapply mwp_mono; [exact Hfin |]. intros [] s6 H6. by wp_go.
  - wp_go. eapply mwp_mono; [exact Hfin |]. intros [] s6 H6. by wp_go.
Qed.

Lemma poll_running budget s :
  fe_ok s -> Z.testbit (csts (control (fe s))) 0 = true ->
  Z.testbit (csts (control (fe s))) 1 = false -> 1 <= budget <= 256 ->
  exists n, mwp (nwoas_frontend_poll ops budget) (fun v s' => exists res,
    v = match res with inl v | inr v => v end /\
    poll_post (L := ring_lens (L := L)) (ring_table ops) (admin_table ops) trace budget 0 n s res s') s.
Proof.
  intros [Hi [n Hn]] Hr Hf Hb. exists n. pose proof Hi as [[Hc [Hl Hq] Hid Hrf Hv] Hs Hbf _ _].
  assert (Hbf0 : backend_fault (fe s) = false).
  { destruct (backend_fault (fe s)); [| done]. rewrite Hbf in Hf by done. done. }
  assert (Hfat : r_fatal (ring (fe s)) = false).
  { destruct (r_fatal (ring (fe s))); [| done]. rewrite Hrf in Hbf0 by done. done. }
  unfold nwoas_frontend_poll. wp_go.
  - exfalso. cbn [id] in *. rewrite truthy_bit0, truthy_bit1, Hr, Hf, Hbf0 in H. done.
  - eapply mwp_mono; [apply (poll_spec (ring_table ops) (admin_table ops) trace budget n s); try done;
      by change (lget s) with (ring (fe s)); rewrite Hl |].
    intros v s' (res & Hv' & Hp). by exists res.
Qed.
End with_trace.
End frontend_spec.

(** ** Properties *)

Local Abbreviation fe s := (lget (A := nwoas_frontend) s).

(** C3. Whatever the guest writes to the PCI space, the registers and the
    doorbells, and whatever the owner polls, resets or reports, the two halves
    of the frontend stay consistent: the ring runs exactly while CSTS.RDY is
    set, over the queues that ASQ, ACQ and AQA name, a backend fault is latched
    in CSTS.CFS, a failed ring is a backend fault, the control model's pending
    bit is the disjunction of the two sources, and the ring's own invariant
    holds. *)
Theorem frontend_reach_inv {S} `{L : !Lens S nwoas_frontend} (ops : frontend_env S)
    (level : S -> bool) trace `{!FrontendEnv ops} `{!FrontendLine ops level}
    `{!FrontendTrace ops trace} (s : S) :
  fe_reach ops level s -> fe_inv (fe s) (level s) /\ exists n, ring_inv n (ring (fe s)).
Proof. exact (reach_ok ops level trace s). Qed.

(** At every entry-point boundary the interrupt line is exactly what the
    device should drive: high when an I/O or admin completion is outstanding,
    the interrupt is neither masked in INTMS nor disabled in the PCI command
    register, and the controller has not failed. *)
Theorem frontend_line_exact {S} `{L : !Lens S nwoas_frontend} (ops : frontend_env S)
    (level : S -> bool) trace `{!FrontendEnv ops} `{!FrontendLine ops level}
    `{!FrontendTrace ops trace} (s : S) :
  fe_reach ops level s ->
  let f := fe s in
  level s = (io_pending f || (active (ring f) && truthy (r_pending (ring f)))) &&
            negb (Z.testbit (mask (control f)) 0) && negb (Z.testbit (command (control f)) 10) &&
            negb (Z.testbit (csts (control f)) 1) && negb (backend_fault f).
Proof. intros Hr. apply level_exact, (reach_ok ops level trace s Hr). Qed.

(** A controller that is not ready or has failed performs no memory access
    for a doorbell write, of any width, offset and value, and its ring keeps
    every field. *)
Theorem frontend_doorbell_gated {S} `{L : !Lens S nwoas_frontend} (ops : frontend_env S)
    (level : S -> bool) trace `{!FrontendEnv ops} `{!FrontendLine ops level}
    `{!FrontendTrace ops trace} o w v (s : S) :
  0x1000 <= o ->
  Z.testbit (csts (control (fe s))) 0 = false \/ Z.testbit (csts (control (fe s))) 1 = true ->
  let s' := (nwoas_frontend_write ops false o w v s).2 in
  trace s' = trace s /\ ring (fe s') = ring (fe s).
Proof.
  intros Ho Hg. pose proof (write_gated ops level trace o w v s Ho Hg) as H.
  by apply mwp_iff in H.
Qed.

(** C14. From every reachable state with the controller ready, a poll with a
    budget of 1 to 256 serves the queues that ASQ, ACQ and AQA name: the
    commands from the SQ head on, each the one fetched from its slot, executed
    and completed in order by exactly one visible entry with its identifier
    and result (a held event by none), until the budget, the submissions or the
    free slots are used up; the interrupt line is then high exactly when an
    admin or I/O completion is outstanding and the interrupt is enabled and
    not masked.  Or an iteration fails, and then this holds of the commands before
    it, CSTS.CFS is set and the line is low.  Either way the state stays
    consistent. *)
Theorem frontend_poll_delivers {S} `{L : !Lens S nwoas_frontend} (ops : frontend_env S)
    (level : S -> bool) trace `{!FrontendEnv ops} `{!FrontendLine ops level}
    `{!FrontendTrace ops trace} budget (s : S) :
  fe_reach ops level s -> Z.testbit (csts (control (fe s))) 0 = true ->
  Z.testbit (csts (control (fe s))) 1 = false -> 1 <= budget <= 256 ->
  (sq_base (ring (fe s)) = asq (control (fe s)) /\ sq_depth (ring (fe s)) = aqa_sq (aqa (control (fe s))) /\
   cq_base (ring (fe s)) = acq (control (fe s)) /\ cq_depth (ring (fe s)) = aqa_cq (aqa (control (fe s)))) /\
  exists n res, let s' := (nwoas_frontend_poll ops budget s).2 in let f' := fe s' in
    (nwoas_frontend_poll ops budget s).1 = match res with inl v | inr v => v end /\
    poll_post (L := ring_lens (L := L)) (ring_table ops) (admin_table ops) trace budget 0 n s res s' /\
    fe_inv f' (level s') /\
    match res with
    | inl _ => Z.testbit (csts (control f')) 1 = true /\ level s' = false
    | inr _ => level s' =
        (io_pending f' || (active (ring f') && truthy (r_pending (ring f')))) &&
        negb (Z.testbit (mask (control f')) 0) && negb (Z.testbit (command (control f')) 10) &&
        negb (Z.testbit (csts (control f')) 1) && negb (backend_fault f')
    end.
Proof.
  intros Hr H0 H1 Hb. pose proof (reach_ok ops level trace s Hr) as Hok. split.
  { destruct Hok as [[[_ [Ha Hq] _ _ _] _ _ _ _] _]. apply Hq. by rewrite Ha. }
  destruct (poll_running ops level trace budget s Hok H0 H1 Hb) as [n H].
  apply mwp_iff in H as (res & Hv & Hp). exists n, res.
  pose proof (poll_ok ops level trace budget s Hok ltac:(lia)) as H. apply mwp_iff in H as [Hi _].
  split; [done |]. split; [done |]. split; [done |].
  pose proof (level_exact _ _ Hi) as Hl. destruct res as [v|v]; [| exact Hl].
  destruct Hp as (h & s1 & _ & _ & _ & _ & _ & _ & _ & _ & _ & _ & _ & _ & Hf & _).
  pose proof (fc_fatal _ _ (fi_core _ _ Hi) Hf) as Hbf. rewrite Hl, Hbf, andb_false_r.
  split; [by apply (fi_fault _ _ Hi) | done].
Qed.

(** ** A concrete frontend *)

Definition demo_fe_store : Type := nwoas_frontend * (list ring_event * bool).
#[export] Instance demo_fe_lens : Lens demo_fe_store nwoas_frontend := lens_fst.

Definition demo_fe_emit (e : ring_event) : M demo_fe_store unit :=
  modify (fun s => (s.1, (s.2.1 ++ [e], s.2.2))).

Definition demo_fe_ops : frontend_env demo_fe_store := {|
  o_contains := fun b n => mret (b + n <=? 2 ^ 36);
  o_read := fun a n => mret (true, ztake n (demo_sq ((a - 0x10000) / 64) ++ zeros n));
  o_write := fun a bs => demo_fe_emit (EvWrite a bs);; mret true;
  o_barrier := demo_fe_emit EvBarrier;
  o_reconcile := fun _ _ => mret true;
  o_reset_io := mret true;
  o_flush := mret true;
  o_set_cache := None;
  o_get_cache := None;
  o_irq := fun b => modify (fun s => (s.1, (s.2.1, b)));
|}.

Definition demo_fe_table : nwoas_frontend_ops demo_fe_store := {|
  fo_contains := Some (o_contains demo_fe_ops); fo_read := Some (o_read demo_fe_ops);
  fo_write := Some (o_write demo_fe_ops); fo_barrier := Some (o_barrier demo_fe_ops);
  fo_reconcile := Some (o_reconcile demo_fe_ops); fo_reset_io := Some (o_reset_io demo_fe_ops);
  fo_flush := Some (o_flush demo_fe_ops); fo_set_cache := None; fo_get_cache := None;
  fo_irq := Some (o_irq demo_fe_ops);
|}.

#[export] Instance demo_fe_env : FrontendEnv demo_fe_ops.
Proof.
  split; intros; simplify_eq/=; try (by intros []).
  split; [| apply bytes_ok_ztake, bytes_ok_app; split; [apply demo_sq_ok | apply bytes_ok_zeros]].
  apply zlen_ztake. rewrite zlen_app, zlen_zeros by done.
  pose proof (zlen_nonneg (demo_sq ((a - 0x10000) / 64))). lia.
Qed.

Definition demo_fe_level (s : demo_fe_store) : bool := s.2.2.
Definition demo_fe_events (s : demo_fe_store) : list ring_event := s.2.1.

#[export] Instance demo_fe_line : FrontendLine demo_fe_ops demo_fe_level.
Proof. split; intros; simplify_eq/=; by try intros [? []]. Qed.

#[export] Instance demo_fe_trace : FrontendTrace demo_fe_ops demo_fe_events.
Proof. split; intros; simplify_eq/=; by try intros [? []]. Qed.

Definition demo_fe_zero : demo_fe_store :=
  (mk_frontend (mk_control 0 0 0 0 0 0 0 0 false false false) (demo_ring_zero.1)
    false false false false, ([], false)).

Definition demo_fe_init : demo_fe_store :=
  (nwoas_frontend_init true 0x700100000 demo_fe_table demo_policy demo_fe_zero).2.

(** The guest programs AQA, ASQ and ACQ, sets CC.EN and rings the doorbell. *)
Definition demo_fe_script : list (Z * Z * Z) :=
  [(0x24, 32, 0x00030003); (0x28, 64, 0x10000); (0x30, 64, 0x20000); (0x14, 32, 0x460001)].
Definition demo_fe_run (l : list (Z * Z * Z)) (s : demo_fe_store) : demo_fe_store :=
  foldl (fun s '(o, w, v) => (nwoas_frontend_write demo_fe_ops false o w v s).2) s l.
Definition demo_fe_ready : demo_fe_store := demo_fe_run demo_fe_script demo_fe_init.
Definition demo_fe_rung : demo_fe_store := demo_fe_run [(0x1000, 32, 3)] demo_fe_ready.

Lemma demo_fe_init_reach : fe_reach demo_fe_ops demo_fe_level demo_fe_init.
Proof. by apply reach_init. Qed.

Lemma demo_fe_run_reach l s :
  Forall (fun x => in_w 64 x.2) l -> fe_reach demo_fe_ops demo_fe_level s ->
  fe_reach demo_fe_ops demo_fe_level (demo_fe_run l s).
Proof.
  intros Hl. revert s. induction Hl as [|[[o w] v] l Hv _ IH]; intros s Hs; [done |].
  by apply IH, reach_write.
Qed.

Lemma demo_fe_ready_reach : fe_reach demo_fe_ops demo_fe_level demo_fe_ready.
Proof.
  apply demo_fe_run_reach; [| apply demo_fe_init_reach]. by repeat constructor.
Qed.

Lemma demo_fe_rung_reach : fe_reach demo_fe_ops demo_fe_level demo_fe_rung.
Proof.
  apply demo_fe_run_reach; [| apply demo_fe_ready_reach]. by repeat constructor.
Qed.

Example demo_fe_states :
  csts (control (fe demo_fe_ready)) = 1 /\ demo_fe_level demo_fe_ready = false /\
  r_pending (ring (fe demo_fe_rung)) = 2 /\ demo_fe_level demo_fe_rung = true.
Proof. by vm_compute. Qed.

Lemma demo_fe_ready_csts : Z.testbit (csts (control (fe demo_fe_ready))) 0 = true /\
  Z.testbit (csts (control (fe demo_fe_ready))) 1 = false.
Proof. by vm_compute. Qed.

Lemma demo_fe_init_csts : Z.testbit (csts (control (fe demo_fe_init))) 0 = false.
Proof. by vm_compute. Qed.

Lemma frontend_reach_inv_witness :
  fe_inv (fe demo_fe_rung) (demo_fe_level demo_fe_rung) /\ exists n, ring_inv n (ring (fe demo_fe_rung)).
Proof.
  exact (frontend_reach_inv demo_fe_ops demo_fe_level demo_fe_events demo_fe_rung
    demo_fe_rung_reach).
Defined.

Lemma demo_fe_rung_line : demo_fe_level demo_fe_rung = true.
Proof. apply demo_fe_states. Qed.

Lemma frontend_line_exact_witness :
  (io_pending (fe demo_fe_rung) ||
    (active (ring (fe demo_fe_rung)) && truthy (r_pending (ring (fe demo_fe_rung))))) &&
  negb (Z.testbit (mask (control (fe demo_fe_rung))) 0) &&
  negb (Z.testbit (command (control (fe demo_fe_rung))) 10) &&
  negb (Z.testbit (csts (control (fe demo_fe_rung))) 1) && negb (backend_fault (fe demo_fe_rung)) = true.
Proof.
  exact (eq_trans (eq_sym (frontend_line_exact demo_fe_ops demo_fe_level demo_fe_events
    demo_fe_rung demo_fe_rung_reach)) demo_fe_rung_line).
Defined.

Lemma frontend_doorbell_gated_witness :
  let s' := (nwoas_frontend_write demo_fe_ops false 0x1000 32 3 demo_fe_init).2 in
  demo_fe_events s' = demo_fe_events demo_fe_init /\ ring (fe s') = ring (fe demo_fe_init).
Proof.
  exact (frontend_doorbell_gated demo_fe_ops demo_fe_level demo_fe_events 0x1000 32 3 demo_fe_init
    ltac:(lia) (or_introl demo_fe_init_csts)).
Defined.

(** With room for one completion only: the third command waits until the
    entry of the second has been acknowledged. *)
Definition demo_fe_waiting : demo_fe_store :=
  demo_fe_run [(0x24, 32, 0x00010003); (0x28, 64, 0x10000); (0x30, 64, 0x20000);
    (0x14, 32, 0x460001); (0x1000, 32, 3); (0x1004, 32, 1)] demo_fe_init.
Definition demo_fe_polled : demo_fe_store := (nwoas_frontend_poll demo_fe_ops 8 demo_fe_waiting).2.

Lemma demo_fe_waiting_reach : fe_reach demo_fe_ops demo_fe_level demo_fe_waiting.
Proof.
  apply demo_fe_run_reach; [| apply demo_fe_init_reach]. by repeat constructor.
Qed.

Lemma demo_fe_waiting_csts : Z.testbit (csts (control (fe demo_fe_waiting))) 0 = true /\
  Z.testbit (csts (control (fe demo_fe_waiting))) 1 = false.
Proof. by vm_compute. Qed.

(** The poll completes the waiting command, 0x13, in the second slot of the
    first lap's queue, with its data before the entry. *)
Example demo_fe_poll :
  (nwoas_frontend_poll demo_fe_ops 8 demo_fe_waiting).1 = 1 /\
  demo_fe_level demo_fe_waiting = false /\ demo_fe_level demo_fe_polled = true /\
  drop (length (demo_fe_events demo_fe_waiting)) (demo_fe_events demo_fe_polled) =
    cqe_events 0x20000 2 1 (cqe_body 0 3 0x13) 0.
Proof. by vm_compute. Qed.

Lemma frontend_poll_delivers_witness :
  exists n res, let s' := demo_fe_polled in
    (nwoas_frontend_poll demo_fe_ops 8 demo_fe_waiting).1 = match res with inl v | inr v => v end /\
    poll_post (L := ring_lens (L := demo_fe_lens)) (ring_table demo_fe_ops) (admin_table demo_fe_ops)
      demo_fe_events 8 0 n demo_fe_waiting res s' /\
    fe_inv (fe s') (demo_fe_level s').
Proof.
  destruct (frontend_poll_delivers demo_fe_ops demo_fe_level demo_fe_events 8 demo_fe_waiting
    demo_fe_waiting_reach (proj1 demo_fe_waiting_csts) (proj2 demo_fe_waiting_csts) ltac:(lia))
    as (_ & n & res & H1 & H2 & H3 & _).
  exists n, res. exact (conj H1 (conj H2 H3)).
Defined.
