(* ===== verification/FrontendClient.v ===== *)
(** * The frontend as seen by its owner

    The hooks of the frontend act on state that only the owner knows.
    [FrontendOwner] lists what the owner has to show of them: a property [W] of its
    state alone, [B] that ties it to the I/O queues the frontend has accepted, and
    [K] that ties it to what has been reported to the frontend as well; and two
    outcomes of the reset of the I/O queues, [N] (the engine is at rest) and [F] (it
    cannot be reset).  The theorems give back that every entry point of the frontend
    keeps [K], and that a reset establishes it from [W]. *)

From S2P Require Import Prelude AdminPayload AdminState AdminRing NvmeControl Frontend.

(** What the owner sees of the frontend does not change, but for a fault and a start
    of the ring. *)
Record calm_front (f g : nwoas_frontend) : Prop := {
  ca_mask : in_w 32 (mask (control f)) -> in_w 32 (mask (control g));
  ca_queues : io_queues (admin (ring g)) = io_queues (admin (ring f));
  ca_active : active (ring f) = true -> active (ring g) = true;
  ca_io : io_pending g = io_pending f;
  ca_fault : backend_fault f = true -> backend_fault g = true;
}.

(** No I/O queue, and nothing reported for one. *)
Definition idle_front (f : nwoas_frontend) : Prop :=
  sq (admin (ring f)) = clear_queue /\ cq (admin (ring f)) = clear_queue /\ io_pending f = false.

(** The acceptance of a change of the I/O queues, as the frontend does it. *)
Definition reconciled (changed : Z) (f : nwoas_frontend) : nwoas_frontend :=
  if truthy (changed .& 2) then f <| io_pending := false |> else f.

Definition leads {S A} (P Q : S -> Prop) (m : M S A) : Prop := forall s, P s -> Q (m s).2.

(** A property that what the owner sees determines. *)
Class Seen {S} `{L : !Lens S nwoas_frontend} (ops : frontend_env S) (P : S -> Prop) : Prop := {
  seen_front f s : P s -> calm_front (lget s) f -> P (lset f s);
  seen_irq b : leads P P (o_irq ops b);
}.

Class FrontendOwner {S} `{L : !Lens S nwoas_frontend} (ops : frontend_env S) (W N F B K : S -> Prop) : Prop := {
  own_seen_B :: Seen ops B;
  own_seen_K :: Seen ops K;
  own_mask s : W s -> in_w 32 (mask (control (lget s)));
  own_weak s : B s -> W s;
  own_basic s : K s -> B s;
  own_front_W f s : W s -> in_w 32 (mask (control f)) -> W (lset f s);
  own_front_N f s : N s -> in_w 32 (mask (control f)) -> N (lset f s);
  own_front_F f s : F s -> in_w 32 (mask (control f)) -> F (lset f s);
  own_fault s : B s -> backend_fault (lget s) = true -> K s;
  own_failed s : F s -> backend_fault (lget s) = true -> K s;
  own_start s : N s -> idle_front (lget s) -> K s;
  own_contains a n : leads K K (o_contains ops a n);
  own_read a n : leads K K (o_read ops a n);
  own_write a bs : leads K K (o_write ops a bs);
  own_barrier : leads K K (o_barrier ops);
  own_flush : leads K K (o_flush ops);
  own_set_cache f v : o_set_cache ops = Some f -> leads K K (f v);
  own_get_cache f : o_get_cache ops = Some f -> leads K K f;
  own_reset_io s : W s -> let r := o_reset_io ops s in if r.1 then N r.2 else F r.2;
  own_reconcile a c r s : K s -> active (ring (lget s)) = true -> client_same (ring (lget s)) r -> a = admin r ->
    admin_change (admin (ring (lget s))) c a ->
    let x := o_reconcile ops a c (lset ((lget s) <| ring := r |>) s) in
    if x.1 then K (lset (reconciled c (lget x.2)) x.2) else B x.2;
}.

Lemma calm_refl f : calm_front f f.
Proof. by split. Qed.

(** ** Rules for a property of this kind *)

Section seen.
Context {S : Type} `{L : !Lens S nwoas_frontend} (ops : frontend_env S) `{!FrontendEnv ops}.
Context (P : S -> Prop) `{!Seen ops P}.
#[local] Existing Instance control_lens.
#[local] Existing Instance ring_lens.
Local Abbreviation fe s := (lget (A := nwoas_frontend) s).

Lemma fc_front f (Q : unit -> S -> Prop) s : P s -> calm_front (fe s) (f (fe s)) ->
  (forall s', P s' -> fe s' = f (fe s) -> Q tt s') -> mwp (lmodify f) Q s.
Proof. intros Hs Hc HQ. apply mwp_lmodify. intros s' -> E. apply HQ; [by apply (seen_front (ops := ops)) | done]. Qed.

Lemma fc_control (f : nwoas_control -> nwoas_control) (Q : unit -> S -> Prop) s : P s ->
  (in_w 32 (mask (control (fe s))) -> in_w 32 (mask (f (control (fe s))))) ->
  (forall s', P s' -> fe s' = (fe s) <| control := f (control (fe s)) |> -> Q tt s') ->
  mwp (@lmodify S nwoas_control _ f) Q s.
Proof.
  intros Hs Hm HQ. apply mwp_iff, HQ; [| apply (@lget_lset _ _ L)].
  apply (seen_front (ops := ops) ((fe s) <| control := f (control (fe s)) |>)); [done |]. by split.
Qed.

Lemma fc_ring (f : nwoas_admin_ring -> nwoas_admin_ring) (Q : unit -> S -> Prop) s : P s ->
  io_queues (admin (f (ring (fe s)))) = io_queues (admin (ring (fe s))) ->
  (active (ring (fe s)) = true -> active (f (ring (fe s))) = true) ->
  (forall s', P s' -> fe s' = (fe s) <| ring := f (ring (fe s)) |> -> Q tt s') ->
  mwp (@lmodify S nwoas_admin_ring _ f) Q s.
Proof.
  intros Hs Hq Ha HQ. apply mwp_iff, HQ; [| apply (@lget_lset _ _ L)].
  apply (seen_front (ops := ops) ((fe s) <| ring := f (ring (fe s)) |>)); [done |]. by split.
Qed.

(** A hook. *)
Lemma fc_hook {A} (P' : S -> Prop) (m : M S A) (Q : A -> S -> Prop) s : leads P P' m -> keeps lget m -> P s ->
  (forall a s', P' s' -> fe s' = fe s -> Q a s') -> mwp m Q s.
Proof. intros Hm Hk Hs HQ. apply mwp_iff, HQ; [by apply Hm | apply Hk]. Qed.

Lemma fc_irq v (Q : unit -> S -> Prop) s : P s -> (forall s', P s' -> fe s' = fe s -> Q tt s') ->
  mwp (irq ops v) Q s.
Proof.
  intros Hs HQ. unfold irq. wp_go. apply (fc_hook P (o_irq ops _)); [apply seen_irq | apply fe_irq | done |].
  intros []. apply HQ.
Qed.

Lemma fc_irq_update cb (Q : unit -> S -> Prop) s : cb_irq cb = Some (irq ops) -> P s ->
  (forall s', P s' -> fe s' = fe s -> Q tt s') -> mwp (irq_update cb) Q s.
Proof. intros E Hs HQ. unfold irq_update. rewrite E. wp_go. by apply fc_irq. Qed.

Lemma fc_pending (Q : unit -> S -> Prop) s : P s ->
  (forall s', P s' -> calm_front (fe s) (fe s') -> ring (fe s') = ring (fe s) -> Q tt s') ->
  mwp (update_pending ops) Q s.
Proof.
  intros Hs HQ. unfold update_pending, nwoas_control_pending. wp_go; [by apply HQ |].
  apply fc_control; [done | done |]. intros s1 H1 E1.
  apply fc_irq_update; [done | done |]. intros s2 H2 E2. apply HQ; rewrite ?E2, ?E1; done.
Qed.

(** A fault keeps it too, and the owner can rely on the flag. *)
Lemma fc_raise (P' : S -> Prop) `{!Seen ops P'} (Q : unit -> S -> Prop) s :
  (forall s', P s' -> backend_fault (fe s') = true -> P' s') -> P s ->
  (forall s', P' s' -> ring (fe s') = ring (fe s) -> Q tt s') -> mwp (nwoas_frontend_fault ops) Q s.
Proof.
  intros HP Hs HQ. unfold nwoas_frontend_fault. wp_go. apply fc_front; [done | by split |]. intros s1 H1 E1.
  assert (H1' : P' s1) by (apply HP; [done | by rewrite E1]). wp_go. apply mwp_lmodify. intros s2 -> E2.
  apply mwp_iff. pose proof (fe_irq (ops := ops) false (lset ((fe s1) <| control := (control (fe s1)) <| csts := csts (control (fe s1)) .| 2 |> |>) s1)) as E3.
  destruct (o_irq ops false _) as [[] s3] eqn:Eo. cbn [fst snd] in *. apply HQ; [| by rewrite E3, E2, E1].
  change s3 with ((tt, s3).2). rewrite <- Eo. apply (seen_irq (P := P')).
  apply (seen_front (ops := ops)); [done |]. by split.
Qed.
End seen.

Section client.
Context {S : Type} `{L : !Lens S nwoas_frontend} (ops : frontend_env S) (level : S -> bool)
  (trace : S -> list ring_event) (W N F B K : S -> Prop).
Context `{!FrontendEnv ops} `{!FrontendLine ops level} `{!FrontendTrace ops trace} `{!FrontendOwner ops W N F B K}.
#[local] Existing Instance control_lens.
#[local] Existing Instance ring_lens.
Local Abbreviation fe s := (lget (A := nwoas_frontend) s).

Lemma fc_basic s : K s -> B s.
Proof. apply own_basic. Qed.
Lemma fc_weak s : K s -> W s.
Proof. intros Hs. by apply own_weak, fc_basic. Qed.

Lemma fc_fault (Q : unit -> S -> Prop) s : B s ->
  (forall s', K s' -> ring (fe s') = ring (fe s) -> Q tt s') -> mwp (nwoas_frontend_fault ops) Q s.
Proof. apply (fc_raise ops B K). intros s' Hs'. by apply own_fault. Qed.

Lemma fc_fail (Q : Z -> S -> Prop) s : B s -> (forall v s', K s' -> active (ring (fe s')) = active (ring (fe s)) -> Q v s') ->
  mwp (fail (ring_table ops)) Q s.
Proof.
  intros Hs HQ. unfold fail. wp_go. apply (fc_ring ops B); [done | done | done |]. intros s1 H1 E1.
  wp_go. cbn [re_pending re_fault ring_table]. unfold pending, fault.
  apply (fc_pending ops B); [done |]. intros s2 H2 _ E2. wp_go. apply fc_fault; [done |]. intros s3 H3 E3. wp_go.
  apply HQ; [done |]. by rewrite E3, E2, E1.
Qed.

(** ** The control model's callbacks *)

(** A change of the frontend where only the owner's own state is known: before the
    reset of the I/O queues, and after it. *)
Lemma fc_weakly (P : S -> Prop) f (Q : unit -> S -> Prop) s :
  (forall g t, P t -> in_w 32 (mask (control g)) -> P (lset g t)) -> P s -> in_w 32 (mask (control (f (fe s)))) ->
  (forall s', P s' -> fe s' = f (fe s) -> Q tt s') -> mwp (lmodify f) Q s.
Proof. intros HP Hs Hm HQ. apply mwp_lmodify. intros s' -> E. apply HQ; [by apply HP | done]. Qed.

Definition outcome (ok : bool) (s : S) : Prop := if ok then N s else F s.
Lemma outcome_front ok g s : outcome ok s -> in_w 32 (mask (control g)) -> outcome ok (lset g s).
Proof. destruct ok; [apply own_front_N | apply own_front_F]. Qed.

Lemma fc_ring_reset full (Q : unit -> S -> Prop) s (ok : bool) : outcome ok s ->
  in_w 32 (mask (control (fe s))) -> io_pending (fe s) = false -> backend_fault (fe s) = negb ok ->
  (forall s', K s' -> Q tt s') -> mwp (nwoas_ring_reset (ring_table ops) full) Q s.
Proof.
  intros Hs Hm Hio Hbf HQ. unfold nwoas_ring_reset. wp_go.
  apply (fc_weakly (outcome ok) (fun f => f <| ring := ring_reset full (ring f) |>)); [apply outcome_front | done | done |].
  intros s1 H1 E1. assert (HK : K s1) by (destruct ok; [apply own_start | apply own_failed]; by rewrite ?E1).
  cbn [re_pending ring_table]. unfold pending. apply (fc_pending ops K); [done |]. intros s2 H2 _ _. by apply HQ.
Qed.

Lemma fc_reset (Q : unit -> S -> Prop) s : W s -> (forall s', K s' -> Q tt s') -> mwp (reset ops) Q s.
Proof.
  intros Hs HQ. unfold reset. wp_go. apply mwp_iff. pose proof (own_reset_io s Hs) as H1.
  pose proof (fe_reset_io s) as E1. destruct (o_reset_io ops s) as [ok s1]. cbn [fst snd] in *.
  change (outcome ok s1) in H1. assert (Hm : in_w 32 (mask (control (fe s)))) by by apply own_mask.
  wp_go. apply (fc_weakly (outcome ok)); [apply outcome_front | done | by rewrite E1 |]. intros s2 H2 E2.
  wp_go. apply (fc_weakly (outcome ok)); [apply outcome_front | done | by rewrite E2, E1 |]. intros s3 H3 E3.
  wp_go. apply (fc_ring_reset _ _ _ ok); rewrite ?E3, ?E2, ?E1; done.
Qed.

Lemma fc_control_weakly (f : nwoas_control -> nwoas_control) (Q : unit -> S -> Prop) s : W s ->
  (in_w 32 (mask (control (fe s))) -> in_w 32 (mask (f (control (fe s))))) ->
  (forall s', W s' -> Q tt s') -> mwp (@lmodify S nwoas_control _ f) Q s.
Proof.
  intros Hs Hm HQ. apply mwp_iff, HQ. apply (own_front_W ((fe s) <| control := f (control (fe s)) |>)); [done |].
  by apply Hm, own_mask.
Qed.

Lemma fc_queues_reset (Q : unit -> S -> Prop) s : W s -> (forall s', K s' -> Q tt s') ->
  mwp (queues_reset (control_table ops)) Q s.
Proof.
  intros Hs HQ. unfold queues_reset. wp_go. apply fc_control_weakly; [done | done |]. intros s1 H1.
  cbn [cb_reset control_table]. by apply fc_reset.
Qed.

Lemma fc_control_reset (Q : unit -> S -> Prop) s : W s -> (forall s', K s' -> Q tt s') ->
  mwp (nwoas_control_reset (control_table ops)) Q s.
Proof.
  intros Hs HQ. unfold nwoas_control_reset. wp_go. apply fc_control_weakly; [done | by split |]. intros s1 H1.
  wp_go. apply fc_queues_reset; [done |]. intros s2 H2. apply (fc_irq_update ops K); [done | done |]. intros s3 H3 _. by apply HQ.
Qed.

Lemma fc_contains a n (Q : bool -> S -> Prop) s : K s -> (forall ok s', K s' -> fe s' = fe s -> Q ok s') ->
  mwp (contains ops a n) Q s.
Proof. intros Hs HQ. by apply (fc_hook K K (o_contains ops a n)); [apply own_contains | apply fe_contains |..]. Qed.

Lemma fc_range a n (Q : bool -> S -> Prop) s : K s -> (forall ok s', K s' -> fe s' = fe s -> Q ok s') ->
  mwp (range (ring_table ops) a n) Q s.
Proof. intros Hs HQ. unfold range. wp_go; [by apply fc_contains | by apply HQ]. Qed.

Lemma fc_setup q ns c nc (Q : bool -> S -> Prop) s : K s -> (forall ok s', K s' -> Q ok s') ->
  mwp (setup ops q ns c nc) Q s.
Proof.
  intros Hs HQ. unfold setup, nwoas_ring_configure. wp_go; [by apply HQ | by apply HQ |].
  apply fc_range; [done |]. intros ok1 s1 K1 E1. wp_go; [by apply HQ |].
  apply fc_range; [done |]. intros ok2 s2 K2 E2. wp_go; [by apply HQ |].
  apply (fc_ring ops K (ring_configure q ns c nc)); [done | done | done |]. intros s3 K3 _.
  wp_go. cbn [re_pending ring_table]. apply (fc_pending ops K); [done |]. intros s4 K4 _ _. wp_go. by apply HQ.
Qed.

(** ** The control operations *)

Lemma fc_fatal (Q : unit -> S -> Prop) s : K s -> (forall s', K s' -> Q tt s') -> mwp (fatal (control_table ops)) Q s.
Proof.
  intros Hs HQ. unfold fatal. wp_go. apply (fc_control ops K); [done | done |]. intros s1 K1 _. cbn [cb_irq control_table].
  apply (fc_irq ops K); [done |]. intros s2 K2 _. by apply HQ.
Qed.

Lemma fc_queue_valid base depth stride (Q : bool -> S -> Prop) s : K s -> (forall ok s', K s' -> Q ok s') ->
  mwp (NvmeControl.queue_valid (control_table ops) base depth stride) Q s.
Proof.
  intros Hs HQ. unfold NvmeControl.queue_valid. cbn [cb_contains control_table]. wp_go; [| by apply HQ].
  apply fc_contains; [done |]. intros ok s1 K1 _. by apply HQ.
Qed.

Lemma fc_enable v (Q : bool -> S -> Prop) s : K s -> (forall ok s', K s' -> Q ok s') ->
  mwp (enable_ok (control_table ops) v) Q s.
Proof.
  intros Hs HQ. unfold enable_ok. wp_go; [by apply HQ |]. apply fc_queue_valid; [done |]. intros ok1 s1 K1.
  wp_go; [by apply HQ |]. apply fc_queue_valid; [done |]. intros ok2 s2 K2. wp_go; [by apply HQ |].
  cbn [cb_setup control_table]. wp_go. by apply fc_setup.
Qed.

Lemma fc_shutdown v (Q : nwoas_access + unit -> S -> Prop) s : K s -> (forall r s', K s' -> Q r s') ->
  wp (write_cc_shutdown (control_table ops) v) Q s.
Proof.
  intros Hs HQ. unfold write_cc_shutdown. wp_go; [| by apply HQ]. apply (fc_control ops K); [done | done |].
  intros s1 K1 _. wp_go. unfold flush_cb. cbn [cb_flush control_table].
  apply (fc_hook K K (flush ops)); [apply own_flush | apply fe_flush | done |]. intros ok s2 K2 _. wp_go.
  - apply fc_fatal; [done |]. intros s3 K3. wp_go. by apply HQ.
  - apply (fc_control ops K); [done | done |]. intros s3 K3 _. by apply HQ.
Qed.

Lemma fc_write_cc v (Q : nwoas_access + unit -> S -> Prop) s : K s -> (forall r s', K s' -> Q r s') ->
  wp (write_cc (control_table ops) v) Q s.
Proof.
  intros Hs HQ. unfold write_cc. wp_go. apply (fc_control ops K); [done | done |]. intros s1 K1 _. wp_go.
  - apply fc_queues_reset; [by apply fc_weak |]. intros s2 K2. wp_go. apply (fc_control ops K); [done | done |].
    intros s3 K3 _. wp_go. apply (fc_irq_update ops K); [done | done |]. intros s4 K4 _. by apply fc_shutdown.
  - apply fc_enable; [done |]. intros ok s2 K2. wp_go.
    + apply fc_fatal; [done |]. intros s3 K3. wp_go. by apply HQ.
    + apply (fc_control ops K); [done | done |]. intros s3 K3 _. by apply fc_shutdown.
  - by apply fc_shutdown.
Qed.

Lemma fc_pci_write o w v (Q : nwoas_access -> S -> Prop) s : K s -> (forall r s', K s' -> Q r s') ->
  mwp (nwoas_pci_write (control_table ops) o w v) Q s.
Proof.
  intros Hs HQ. unfold nwoas_pci_write. cbv zeta. wp_go; try (by apply HQ);
    apply (fc_control ops K); try done; intros s1 K1 _; wp_go; try (by apply HQ).
  apply (fc_irq_update ops K); [done | done |]. intros s2 K2 _. wp_go. by apply HQ.
Qed.

Lemma fc_reg_write o w v (Q : nwoas_access -> S -> Prop) s : K s -> (forall r s', K s' -> Q r s') ->
  mwp (nwoas_reg_write (control_table ops) o w v) Q s.
Proof.
  intros Hs HQ. unfold nwoas_reg_write, write_base. cbv zeta. wp_go; try (by apply HQ).
  - apply (fc_control ops K); [done | intros; apply in_w_lor; [done | done | by apply wrap_range] |]. intros s1 K1 _. wp_go.
    apply (fc_irq_update ops K); [done | done |]. intros s2 K2 _. wp_go. by apply HQ.
  - apply (fc_control ops K); [done | intros; by apply in_w_land |]. intros s1 K1 _. wp_go.
    apply (fc_irq_update ops K); [done | done |]. intros s2 K2 _. wp_go. by apply HQ.
  - apply fc_write_cc; [done |]. intros [r|r] s1 K1; wp_go; by apply HQ.
  - apply (fc_control ops K); [done | done |]. intros s1 K1 _. wp_go. by apply HQ.
  - apply (fc_control ops K); [done | done |]. intros s1 K1 _. wp_go. by apply HQ.
  - apply (fc_control ops K); [done | done |]. intros s1 K1 _. wp_go. by apply HQ.
Qed.

Lemma fc_relatch (Q : unit -> S -> Prop) s : K s -> (forall s', K s' -> Q tt s') -> mwp (relatch ops) Q s.
Proof.
  intros Hs HQ. unfold relatch. wp_go; [| by apply HQ]. apply fc_fault; [by apply fc_basic |]. intros s1 K1 _. by apply HQ.
Qed.

Lemma fc_busy {A} (m : M S A) (Q : A -> S -> Prop) s : K s ->
  (forall s1, K s1 -> mwp m (fun r s2 => K s2 /\ forall s', K s' -> Q r s') s1) -> mwp (with_busy ops m) Q s.
Proof.
  intros Hs HQ. unfold with_busy, set_busy. wp_go. apply (fc_front ops K); [done | by split |]. intros s1 K1 _. wp_go.
  eapply mwp_mono; [by apply HQ |]. intros r s2 [K2 H2']. wp_go. apply (fc_front ops K); [done | by split |].
  intros s3 K3 _. wp_go. apply (fc_pending ops K); [done |]. intros s4 K4 _ _. wp_go. by apply H2'.
Qed.

(** ** The ring inside the frontend *)

(** [K], with the ring running. *)
Definition working (s : S) : Prop := K s /\ active (ring (fe s)) = true.

Lemma working_hook {A} (m : M S A) s : leads K K m -> keeps lget m -> working s -> working (m s).2.
Proof. intros Hm Hk [Hs Ha]. split; [by apply Hm |]. by rewrite Hk. Qed.

Lemma working_lset r s : working s -> io_queues (admin r) = io_queues (admin (ring (fe s))) ->
  active r = active (ring (fe s)) -> working (lset r s).
Proof.
  intros [Hs Ha] Hq Hr. assert (E : fe (lset r s) = (fe s) <| ring := r |>) by apply (@lget_lset _ _ L).
  split; [| by rewrite E; cbn; rewrite Hr]. apply (seen_front (ops := ops) ((fe s) <| ring := r |>)); [done |]. split; try done. cbn. congruence.
Qed.

Lemma working_pending s : working s -> working (update_pending ops s).2.
Proof.
  intros [Hs Ha]. apply (mwp_iff _ (fun _ s' => working s')). apply (fc_pending ops K); [done |].
  intros s1 K1 _ E1. split; [done | by rewrite E1].
Qed.

Lemma working_fail s : B s -> active (ring (fe s)) = true -> working (fail (ring_table ops) s).2.
Proof.
  intros Hs Ha. apply (mwp_iff _ (fun _ s' => working s')). apply fc_fail; [done |].
  intros v s1 K1 E1. split; [done | by rewrite E1].
Qed.

Lemma working_reconcile r c s : working s -> client_same (ring (fe s)) r ->
  admin_change (admin (ring (fe s))) c (admin r) ->
  mwp (reconcile ops (admin r) c) (fun ok s' => if ok then working s' else B s' /\ active (ring (fe s')) = true) (lset r s).
Proof.
  intros [Hs Ha] Hc Hch. pose proof (own_reconcile (admin r) c r s Hs Ha Hc eq_refl Hch) as H1. cbv zeta in H1.
  change (lset ((fe s) <| ring := r |>) s) with (@lset S nwoas_admin_ring _ r s) in H1.
  assert (E : fe (lset r s) = (fe s) <| ring := r |>) by apply (@lget_lset _ _ L).
  assert (Ha1 : active (ring (fe (lset r s))) = true) by (rewrite E; cbn; by rewrite (cs_active _ _ Hc)).
  generalize dependent (lset r s). intros s1 H1 E Ha1. unfold reconcile. wp_go. apply mwp_iff.
  pose proof (fe_reconcile (admin r) c s1) as E2. destruct (o_reconcile ops (admin r) c s1) as [ok s2]. cbn [fst snd] in *.
  assert (Ha2 : active (ring (fe s2)) = true) by by rewrite E2.
  assert (Hup : forall s', K s' -> active (ring (fe s')) = true ->
    mwp (update_pending ops) (fun _ s' => working s') s').
  { intros s' Hs' Ha'. apply mwp_iff. by apply working_pending. }
  wp_go; destruct ok; try done; unfold reconciled in H1.
  - destruct (truthy (c .& 2)); [| done]. apply mwp_lmodify. intros s3 -> E3. wp_go.
    eapply mwp_mono; [apply Hup; [done | by rewrite E3] |]. intros [] s4 H4. by wp_go.
  - destruct (truthy (c .& 2)); [done |]. eapply mwp_mono; [apply Hup; [| done] |].
    + by rewrite lset_lget in H1.
    + intros [] s4 H4. by wp_go.
Qed.

#[local] Instance ring_working : RingClient (ring_table ops) (admin_table ops) working.
Proof.
  split.
  - intros. by apply working_hook; [apply own_contains | apply fe_contains |].
  - intros a n s Hs. cbn. unfold read_memory, mbind, M_bind, lgets. cbn [fst snd].
    case_match; [done |]. by apply working_hook; [apply own_read | apply fe_read |].
  - intros a n s Hs. cbn. unfold write_memory, mbind, M_bind, lgets. cbn [fst snd].
    case_match; [done |]. by apply working_hook; [apply own_write | apply fe_write |].
  - intros. by apply working_hook; [apply own_barrier | apply fe_barrier |].
  - intros f a n s Hf Hs. injection Hf as <-. by apply working_hook; [apply own_contains | apply fe_contains |].
  - intros f v s Hf Hs. cbn in Hf. destruct (o_set_cache ops) as [h|] eqn:E; [| done]. injection Hf as <-.
    destruct Hs as [Hs Ha]. apply (mwp_iff (set_cache ops h v) (fun _ s' => working s')). unfold set_cache. wp_go.
    apply (fc_hook K K (h v)); [by apply own_set_cache | by apply fe_set_cache | done |]. intros k s1 K1 E1. wp_go.
    + apply fc_fault; [by apply fc_basic |]. intros s2 K2 E2. wp_go. split; [done |]. by rewrite E2, E1.
    + split; [done |]. by rewrite E1.
  - intros f s Hf Hs. cbn in Hf. destruct (o_get_cache ops) as [h|] eqn:E; [| done]. injection Hf as <-.
    by apply working_hook; [apply own_get_cache | apply fe_get_cache |].
  - intros r s Hs (Hc & _ & Hq). apply working_lset; [done | done | apply Hc].
  - intros r b s Hs Hc Hq. apply working_pending, working_lset; [done | by rewrite Hq | apply Hc].
  - intros r c s Hs Hc _ Hch. pose proof (working_reconcile r c s Hs Hc Hch) as H1. apply mwp_iff in H1. cbv zeta.
    cbn [re_reconcile ring_table]. destruct (reconcile ops (admin r) c (lset r s)) as [[] s1]; [done |].
    destruct H1. by apply working_fail.
  - intros s [Hs Ha]. apply working_fail; [by apply fc_basic | done].
Qed.

#[local] Existing Instance ring_env_ok.
#[local] Existing Instance ring_trace_ok.

(** ** The entry points keep [K] *)

Lemma owner_doorbell o w v (Q : nwoas_access + nwoas_access -> S -> Prop) s : fe_ok level s -> K s -> in_w 64 v ->
  (forall r s', K s' -> Q r s') -> wp (doorbell ops o w v) Q s.
Proof.
  intros [Hi [n Hn]] Hs Hv HQ. unfold doorbell. wp_go; try (by apply HQ); cbn [id] in *; bool_hyps; rewrite ?truthy_bit0 in *.
  all: assert (Hw : working s) by
    (split; [done |]; destruct Hi as [[_ [Hl _] _ _ _] _ _ _ _]; by rewrite Hl).
  - eapply mwp_mono; [exact (client_tail (L := ring_lens) (ring_table ops) (admin_table ops) working trace (u32 v) n s Hw Hn (proj1 (wrap_range 32 v ltac:(done)))) |].
    intros r s1 [K1 _]. wp_go. by apply HQ.
  - eapply mwp_mono; [exact (client_ack (L := ring_lens) (ring_table ops) (admin_table ops) working (u32 v) s Hw) |].
    intros r s1 [K1 _]. wp_go. by apply HQ.
Qed.

Lemma owner_write pci o w v s : fe_ok level s -> K s -> in_w 64 v ->
  mwp (nwoas_frontend_write ops pci o w v) (fun _ s' => K s') s.
Proof.
  intros Hok Hs Hv. unfold nwoas_frontend_write. wp_go.
  - apply fc_busy; [done |]. intros s1 K1. apply fc_pci_write; [done |]. intros r s2 K2. split; [done |].
    intros s3 K3. wp_go. apply fc_relatch; [done |]. intros s4 K4. by wp_go.
  - pose proof (reg_write_ok ops level o w v s Hok Hv) as H1.
    assert (H2 : mwp (with_busy ops (nwoas_reg_write (control_table ops) o w v)) (fun _ s' => K s') s).
    { apply fc_busy; [done |]. intros s1 K1. by apply fc_reg_write. }
    apply mwp_iff in H1, H2. apply mwp_iff.
    destruct (with_busy ops (nwoas_reg_write (control_table ops) o w v) s) as [r s1]. destruct H1 as [_ H1]. cbn [fst snd] in *.
    wp_go. destruct r; [| apply owner_doorbell; [by apply H1 | done | done |]; intros [r|r] s2 K2; [done |] |]; wp_go;
      (apply fc_relatch; [done |]; intros; by wp_go).
Qed.

Lemma owner_poll budget s : fe_ok level s -> K s -> mwp (nwoas_frontend_poll ops budget) (fun _ s' => K s') s.
Proof.
  intros [Hi [n Hn]] Hs. unfold nwoas_frontend_poll. wp_go; [done |]. cbn [id] in *. bool_hyps. rewrite truthy_bit0 in *.
  eapply mwp_mono; [apply (client_poll (L := ring_lens) (ring_table ops) (admin_table ops) working trace budget n s); [| done] |].
  - split; [done |]. destruct Hi as [[_ [Hl _] _ _ _] _ _ _ _]. by rewrite Hl.
  - by intros r s1 [K1 _].
Qed.

Lemma owner_reset s : W s -> mwp (nwoas_frontend_reset ops) (fun _ s' => K s') s.
Proof.
  intros Hs. unfold nwoas_frontend_reset, set_busy. wp_go.
  apply (fc_weakly W); [apply own_front_W | done | by apply own_mask |]. intros s1 K1 E1. wp_go.
  apply (fc_weakly W); [apply own_front_W | done | by apply own_mask |]. intros s2 K2 _. wp_go.
  apply fc_control_reset; [done |]. intros s3 K3.
  wp_go. apply (fc_front ops K); [done | by split |]. intros s4 K4 _. wp_go. apply (fc_front ops K); [done | by split |].
  intros s5 K5 _. wp_go. apply (fc_pending ops K); [done |]. intros s6 K6 _ _. by apply fc_relatch.
Qed.

Lemma owner_fault s : B s -> mwp (nwoas_frontend_fault ops) (fun _ s' => K s') s.
Proof. intros Hs. by apply fc_fault. Qed.

(** The report of I/O completions: the owner shows [K] for the frontend with it. *)
Lemma owner_io_pending v s :
  K (lset ((fe s) <| io_pending := v && q_present (cq (admin (ring (fe s)))) && q_ien (cq (admin (ring (fe s)))) |>) s) ->
  mwp (nwoas_frontend_io_pending ops v) (fun _ s' => K s') s.
Proof.
  intros Hs. unfold nwoas_frontend_io_pending. wp_go. apply mwp_lmodify. intros s1 -> E1. by apply (fc_pending ops K).
Qed.

(** An initialisation establishes it. *)
Lemma owner_init present bar0 (o : nwoas_frontend_ops S) p s : W s ->
  (nwoas_frontend_init present bar0 o p s).1.1 = Some ops -> K (nwoas_frontend_init present bar0 o p s).2 \/
    (nwoas_frontend_init present bar0 o p s).1.2 = false.
Proof.
  intros Hs. unfold nwoas_frontend_init.
  destruct (ops_present o) as [env|] eqn:Eo; [| done]. destruct (negb present || negb (init_ok o bar0 p)); [done |].
  intros He. assert (Henv : env = ops) by (revert He; unfold mbind, M_bind; cbn; case_match; cbn; intros; by simplify_eq).
  clear He. subst env. apply (mwp_iff _ (fun r s' => K s' \/ r.2 = false)). wp_go.
  apply (fc_weakly W); [apply own_front_W | done | by apply own_mask |]. intros s1 K1 E1. wp_go.
  unfold nwoas_ring_init, set_busy. destruct (ring_callbacks_present _); [| wp_go; by right].
  destruct (_ || _); wp_go; [by right |].
  apply (fc_weakly W (fun f => f <| ring := ring_init p (ring f) |>)); [apply own_front_W | done | by apply own_mask |].
  intros s2 K2 E2. wp_go. apply (fc_weakly W); [apply own_front_W | done | by apply own_mask |]. intros s3 K3 _. wp_go.
  unfold nwoas_control_init. wp_go. apply fc_control_weakly; [done | done |]. intros s4 K4.
  apply fc_control_reset; [done |]. intros s5 K5. wp_go.
  apply (fc_front ops K); [done | by split |]. intros s6 K6 _. wp_go. apply (fc_pending ops K); [done |]. intros s7 K7 _ _. wp_go.
  apply fc_relatch; [done |]. intros s8 K8. wp_go. by left.
Qed.
End client.
