(* ===== verification/ReadMirror.v ===== *)
(** * The read projection of the NVMe registers ([native-s224/read_mirror.h])

    A publication copies the register values of the control owner into five
    words; guest reads are then answered from that copy without the owner.
    The theorems compare the answers with the reads of the control model
    ([NvmeControl]) whose registers were published. *)

From S2P Require Import Prelude NvmeControl.

Record nwoas_read_mirror := mk_mirror {
  cc_csts : Z;
  aqa_mask : Z;
  m_asq : Z;
  m_acq : Z;
  flags : Z;
  pci_reads : Z;
  register_reads : Z;
  publications : Z;
  enabled : bool;
}.
#[export] Instance mirror_eta : Eta nwoas_read_mirror := fun m =>
  mk_mirror (cc_csts m) (aqa_mask m) (m_asq m) (m_acq m) (flags m) (pci_reads m)
    (register_reads m) (publications m) (enabled m).

Definition nwoas_mirror_publish (m : nwoas_read_mirror) (cc_csts0 aqa_mask0 asq0 acq0 flags0 : Z) :
    nwoas_read_mirror := {|
  cc_csts := cc_csts0; aqa_mask := aqa_mask0; m_asq := asq0; m_acq := acq0; flags := flags0;
  pci_reads := pci_reads m; register_reads := register_reads m;
  publications := u64 (publications m + 1);
  enabled := truthy (flags0 .>> 63);
|}.

Definition nwoas_mirror_byte (value byte : Z) : Z := u8 (value .>> (8 * byte)).

Definition nwoas_mirror_pci_byte (m : nwoas_read_mirror) (off : Z) : Z :=
  if off <? 4 then nwoas_mirror_byte 0x00101234 off
  else if off <? 6 then nwoas_mirror_byte (flags m .& 0xffff) (off - 4)
  else if off <? 8 then
    nwoas_mirror_byte (if truthy (flags m .& (1 .<< 16)) then 8 else 0) (off - 6)
  else if off <? 12 then nwoas_mirror_byte 0x01080201 (off - 8)
  else if (0x10 <=? off) && (off <? 0x14) then
    nwoas_mirror_byte (if truthy (flags m .& (1 .<< 17)) then 0xffffc004 else 0x100004) (off - 0x10)
  else if (0x14 <=? off) && (off <? 0x18) then
    nwoas_mirror_byte (if truthy (flags m .& (1 .<< 18)) then UINT32_MAX else 7) (off - 0x14)
  else if (0x2c <=? off) && (off <? 0x30) then nwoas_mirror_byte 0x00101234 (off - 0x2c)
  else if off =? 0x3d then 1 else 0.

Definition nwoas_mirror_reg_byte (m : nwoas_read_mirror) (off mask0 : Z) : Z :=
  if off <? 8 then nwoas_mirror_byte (255 .| (1 .<< 16) .| (20 .<< 24) .| (1 .<< 37)) off
  else if off <? 12 then nwoas_mirror_byte 0x10300 (off - 8)
  else if off <? 16 then nwoas_mirror_byte mask0 (off - 12)
  else if off <? 20 then nwoas_mirror_byte mask0 (off - 16)
  else if off <? 24 then nwoas_mirror_byte (u32 (cc_csts m)) (off - 20)
  else if (0x1c <=? off) && (off <? 0x20) then nwoas_mirror_byte (cc_csts m .>> 32) (off - 0x1c)
  else if (0x24 <=? off) && (off <? 0x28) then nwoas_mirror_byte (u32 (aqa_mask m)) (off - 0x24)
  else if (0x28 <=? off) && (off <? 0x30) then nwoas_mirror_byte (m_asq m) (off - 0x28)
  else if (0x30 <=? off) && (off <? 0x38) then nwoas_mirror_byte (m_acq m) (off - 0x30)
  else 0.

(** [out] is the pointee before the call, [None] for NULL.  The result is C's
    result, the mirror after the call and the pointee after it. *)
Definition nwoas_mirror_read (m : nwoas_read_mirror) (address width_log2 : Z)
    (fp_armed fp_faulted : bool) (fp_mask : Z) (out : option Z) :
    bool * nwoas_read_mirror * option Z :=
  match out with
  | None => (false, m, None)
  | Some out0 =>
      if negb (enabled m) || (3 <? width_log2) then (false, m, Some out0)
      else
        let bytes := 1 .<< width_log2 in
        if (0x700000000 <=? address) && (address <? 0x700100000) then
          let off := u32 (address - 0x700000000) in
          let value :=
            if (4096 <=? off) || (4096 - off <? bytes) then
              if bytes =? 8 then UINT64_MAX else (1 .<< (bytes * 8)) - 1
            else or_bytes (fun i => nwoas_mirror_pci_byte m (off + i)) (Z.to_nat bytes) in
          (true, m <| pci_reads := u64 (pci_reads m + 1) |>, Some value)
        else if (0x700100000 <=? address) && (address <? 0x700104000) then
          let off := u32 (address - 0x700100000) in
          if 0x4000 - off <? bytes then (false, m, Some out0)
          else
            let value :=
              if fp_armed && fp_faulted && (off =? 0x1c) && (width_log2 =? 2) then 3
              else
                let mask0 := if fp_armed then fp_mask else u32 (aqa_mask m .>> 32) in
                or_bytes (fun i => nwoas_mirror_reg_byte m (off + i) mask0) (Z.to_nat bytes) in
            (true, m <| register_reads := u64 (register_reads m + 1) |>, Some value)
        else (false, m, Some out0)
  end.

(** ** Specification vocabulary *)

(** The words an owner publishes for the control state [c]. *)
Definition flags_of (c : nwoas_control) : Z :=
  command c + 2 ^ 16 * b2z (pending c) + 2 ^ 17 * b2z (probe_low c) +
  2 ^ 18 * b2z (probe_high c) + 2 ^ 63.
Definition publish_control (m : nwoas_read_mirror) (c : nwoas_control) : nwoas_read_mirror :=
  nwoas_mirror_publish m (cc c + 2 ^ 32 * csts c) (aqa c + 2 ^ 32 * mask c) (asq c) (acq c)
    (flags_of c).

(** What a guest access of [8 << w] bits at physical address [a] gives. *)
Definition device_read (c : nwoas_control) (a w : Z) : option Z :=
  if (0x700000000 <=? a) && (a <? 0x700100000) then
    (nwoas_pci_read c (a - 0x700000000) (8 .<< w) (Some 0)).2
  else if (0x700100000 <=? a) && (a <? 0x700104000) then
    match nwoas_reg_read c (a - 0x700100000) (8 .<< w) (Some 0) with
    | (NWOAS_HANDLED, v) => v
    | _ => None
    end
  else None.

(** ** Lemmas *)

Lemma split_word k lo hi : 0 <= k -> in_w k lo -> wrap k (lo + 2 ^ k * hi) = lo /\
  (lo + 2 ^ k * hi) .>> k = hi.
Proof.
  intros Hk [H0 H1]. pose proof (Z.pow_pos_nonneg 2 k). unfold wrap.
  rewrite Z.shiftr_div_pow2 by done. split; [| symmetry; apply Z.div_unique with lo; lia].
  symmetry. apply Z.mod_unique with hi; lia.
Qed.

Lemma flags_fields c :
  in_w 16 (command c) ->
  flags_of c .& 0xffff = command c /\ truthy (flags_of c .& (1 .<< 16)) = pending c /\
  truthy (flags_of c .& (1 .<< 17)) = probe_low c /\
  truthy (flags_of c .& (1 .<< 18)) = probe_high c /\ truthy (flags_of c .>> 63) = true.
Proof.
  intros [H0 H1]. change (2 ^ 16) with 65536 in H1.
  change (1 .<< 16) with (2 ^ 16). change (1 .<< 17) with (2 ^ 17). change (1 .<< 18) with (2 ^ 18).
  rewrite !truthy_bit by done. change 0xffff with (2 ^ 16 - 1). rewrite land_ones_mod by done.
  rewrite !Z.testbit_eqb by done. rewrite Z.shiftr_div_pow2 by done. unfold flags_of, truthy, b2z.
  destruct (pending c), (probe_low c), (probe_high c); split_and!;
    first [apply Z.eqb_eq; dlia | apply Z.eqb_neq; dlia | apply negb_true_iff, Z.eqb_neq; dlia | dlia].
Qed.

Lemma mirror_pci_byte m c o :
  in_w 16 (command c) -> bar c = 0x700100000 ->
  nwoas_mirror_pci_byte (publish_control m c) o = pci_byte c o.
Proof.
  intros Hc Hb. destruct (flags_fields c Hc) as (E1 & E2 & E3 & E4 & _).
  unfold nwoas_mirror_pci_byte, pci_byte, publish_control, nwoas_mirror_publish, nwoas_mirror_byte,
    byte_of. cbn [flags]. by rewrite E1, E2, E3, E4, Hb.
Qed.

Lemma mirror_reg_byte m c o mask0 :
  in_w 32 (cc c) -> in_w 32 (aqa c) ->
  nwoas_mirror_reg_byte (publish_control m c) o mask0 = reg_byte (c <| mask := mask0 |>) o.
Proof.
  intros Hcc Haqa. destruct (split_word 32 (cc c) (csts c)) as [E1 E2]; [done | done |].
  destruct (split_word 32 (aqa c) (mask c)) as [E3 _]; [done | done |].
  unfold nwoas_mirror_reg_byte, reg_byte, publish_control, nwoas_mirror_publish, nwoas_mirror_byte,
    byte_of. cbn -[Z.mul Z.add]. by rewrite E1, E2, E3.
Qed.

(** The lengths of an access. *)
Lemma access_width w : 0 <= w <= 3 ->
  width_ok (8 .<< w) = true /\ (8 .<< w) / 8 = 1 .<< w /\ 1 <= 1 .<< w <= 8 /\
  (if 1 .<< w =? 8 then UINT64_MAX else (1 .<< ((1 .<< w) * 8)) - 1) = width_mask (8 .<< w).
Proof.
  intros H. assert (Hw : w = 0 \/ w = 1 \/ w = 2 \/ w = 3) by lia.
  destruct Hw as [-> | [-> | [-> | ->]]]; vm_compute; split_and!; done.
Qed.

Lemma fits_access o w size : 0 <= w <= 3 -> 0 <= size ->
  fits o (8 .<< w) size = (o <=? size) && (1 .<< w <=? size - o).
Proof. intros Hw _. destruct (access_width w Hw) as (E1 & E2 & _). unfold fits. by rewrite E1, E2. Qed.

Lemma pci_read_mirror m c o w x :
  in_w 16 (command c) -> bar c = 0x700100000 -> 0 <= w <= 3 ->
  Some (if (4096 <=? o) || (4096 - o <? 1 .<< w) then
          if 1 .<< w =? 8 then UINT64_MAX else (1 .<< ((1 .<< w) * 8)) - 1
        else or_bytes (fun i => nwoas_mirror_pci_byte (publish_control m c) (o + i))
               (Z.to_nat (1 .<< w))) =
  (nwoas_pci_read c o (8 .<< w) (Some x)).2.
Proof.
  intros Hc Hb Hw. destruct (access_width w Hw) as (E1 & E2 & Hlen & E3).
  unfold nwoas_pci_read. rewrite fits_access, E1, E2, E3 by done. cbn [negb].
  destruct (Z.leb_spec 4096 o), (Z.leb_spec o 4096), (Z.ltb_spec (4096 - o) (1 .<< w)),
    (Z.leb_spec (1 .<< w) (4096 - o)); cbn; try lia; try done.
  all: f_equal; apply or_bytes_ext; intros; by apply mirror_pci_byte.
Qed.

(** The registers as the mirror shows them while the fast path is armed. *)
Definition overlay (armed : bool) (fp_mask : Z) (c : nwoas_control) : nwoas_control :=
  if armed then c <| mask := fp_mask |> else c.

Lemma reg_read_mirror m c o w x armed fp_mask :
  control_inv c -> 0 <= w <= 3 -> o <= 0x4000 ->
  nwoas_reg_read (overlay armed fp_mask c) o (8 .<< w) (Some x) =
  if 0x4000 - o <? 1 .<< w then (NWOAS_INVALID, Some 0)
  else (NWOAS_HANDLED, Some (or_bytes (fun i => nwoas_mirror_reg_byte (publish_control m c) (o + i)
         (if armed then fp_mask else u32 (aqa_mask (publish_control m c) .>> 32)))
         (Z.to_nat (1 .<< w)))).
Proof.
  intros Hi Hw Ho. destruct (access_width w Hw) as (_ & E2 & _). destruct Hi.
  unfold nwoas_reg_read. rewrite fits_access, E2 by done.
  rewrite (proj2 (Z.leb_le o 0x4000)) by done. cbn [andb].
  destruct (Z.leb_spec (1 .<< w) (0x4000 - o)), (Z.ltb_spec (0x4000 - o) (1 .<< w)); cbn [negb];
    try lia; [| done].
  do 2 f_equal. apply or_bytes_ext. intros i _. rewrite mirror_reg_byte by done.
  unfold overlay. destruct armed; [done |]. unfold publish_control, nwoas_mirror_publish. cbn [aqa_mask].
  destruct (split_word 32 (aqa c) (mask c)) as [_ ->]; [done | done |].
  rewrite wrap_small by done. by destruct c.
Qed.

(** ** Properties *)

(** C15. The projection answers every guest access as the control model with
    the published registers would (with the fast path's own interrupt mask in
    place of the published one while it is armed): the same value for every
    address and width in the PCI and register windows, all ones beyond the
    first function's configuration space, and no answer, with nothing changed,
    outside the windows; a served read counts itself and changes nothing
    else.  The only exception is the 32-bit read of CSTS after a fast-path
    fault, which reads as fatal and ready. *)
Theorem mirror_read_refines m c a w armed faulted fp_mask x :
  control_inv c -> bar c = 0x700100000 -> 0 <= a -> 0 <= w <= 3 ->
  let m' := publish_control m c in
  nwoas_mirror_read m' a w armed faulted fp_mask (Some x) =
  if armed && faulted && (a =? 0x70010001c) && (w =? 2) then
    (true, m' <| register_reads := u64 (register_reads m + 1) |>, Some 3)
  else
    match device_read (overlay armed fp_mask c) a w with
    | None => (false, m', Some x)
    | Some v =>
        (true, if a <? 0x700100000 then m' <| pci_reads := u64 (pci_reads m + 1) |>
               else m' <| register_reads := u64 (register_reads m + 1) |>, Some v)
    end.
Proof.
  intros Hi Hb Ha Hw m'. destruct (inv_command _ Hi) as [Hcmd _].
  unfold nwoas_mirror_read, device_read.
  replace (enabled m') with true by (symmetry; apply flags_fields; done).
  rewrite (proj2 (Z.ltb_ge 3 w)) by lia. cbn [negb orb].
  destruct (Z.leb_spec 0x700000000 a), (Z.ltb_spec a 0x700100000), (Z.leb_spec 0x700100000 a),
    (Z.ltb_spec a 0x700104000); cbn [andb]; try lia.
  all: try (rewrite (proj2 (Z.eqb_neq a 0x70010001c)) by lia; rewrite andb_false_r; cbn [andb]).
  - rewrite (wrap_small 32) by (unfold in_w; change (2 ^ 32) with 4294967296; lia).
    rewrite <- (pci_read_mirror m (overlay armed fp_mask c) _ w 0); [| destruct armed; done ..].
    do 2 f_equal. destruct ((4096 <=? _) || _); [done |]. apply or_bytes_ext. intros i _.
    unfold m'. rewrite !mirror_pci_byte by (destruct armed; done). by destruct armed.
  - rewrite (wrap_small 32) by (unfold in_w; change (2 ^ 32) with 4294967296; lia).
    rewrite (reg_read_mirror m c) by (done || lia).
    replace (a - 0x700100000 =? 0x1c) with (a =? 0x70010001c)
      by (destruct (Z.eqb_spec a 0x70010001c), (Z.eqb_spec (a - 0x700100000) 0x1c); lia).
    fold m'. destruct (armed && faulted && (a =? 0x70010001c) && (w =? 2)) eqn:Ef.
    + bool_props. subst a w. done.
    + by destruct (0x4000 - (a - 0x700100000) <? 1 .<< w).
  - done.
  - done.
Qed.

(** A withdrawn projection answers nothing: after a publication without
    the enable flag every read, whatever its address, width and fast-path
    state, is refused and leaves the mirror and the output untouched, and so
    does a read of an unsupported width from any mirror. *)
Theorem mirror_withdrawn m v1 v2 v3 v4 f a w armed faulted fp_mask x :
  f < 2 ^ 63 -> 0 <= f ->
  let m' := nwoas_mirror_publish m v1 v2 v3 v4 f in
  nwoas_mirror_read m' a w armed faulted fp_mask x = (false, m', x) /\
  (3 < w -> nwoas_mirror_read m a w armed faulted fp_mask x = (false, m, x)).
Proof.
  intros Hf Hf0 m'. split.
  - unfold nwoas_mirror_read. replace (enabled m') with false; [by destruct x |].
    symmetry. unfold m', nwoas_mirror_publish. cbn [enabled].
    rewrite Z.shiftr_div_pow2, Z.div_small by lia. done.
  - intros Hw. unfold nwoas_mirror_read. rewrite (proj2 (Z.ltb_lt 3 w)) by done.
    rewrite orb_true_r. by destruct x.
Qed.

(** ** Witnesses *)

Definition demo_mirror : nwoas_read_mirror := mk_mirror 0 0 0 0 0 0 0 0 false.

Lemma mirror_read_refines_witness :
  nwoas_mirror_read (publish_control demo_mirror (lget (demo_run demo_ops))) 0x70010001c 2
    false false 0 (Some 7) =
  (true, (publish_control demo_mirror (lget (demo_run demo_ops))) <| register_reads := 1 |>, Some 1).
Proof.
  refine (eq_trans (mirror_read_refines demo_mirror (lget (demo_run demo_ops)) 0x70010001c 2
    false false 0 7 demo_inv eq_refl ltac:(lia) ltac:(lia)) _).
  vm_compute. reflexivity.
Defined.

Lemma mirror_withdrawn_witness :
  nwoas_mirror_read (nwoas_mirror_publish demo_mirror 1 2 3 4 5) 0x700100000 3 false false 0 (Some 9) =
    (false, nwoas_mirror_publish demo_mirror 1 2 3 4 5, Some 9).
Proof.
  exact (proj1 (mirror_withdrawn demo_mirror 1 2 3 4 5 0x700100000 3 false false 0 (Some 9)
    eq_refl ltac:(lia))).
Defined.
