(* ===== verification/SeraRtc.v ===== *)
(** * The PMU clock snapshot over SPMI
      ([firmware-s216/NwoasHardwareBootRtcLib/nwoas_sera_rtc.c], [.h])

    The bus callbacks are functions on the store that holds the result
    structure; [bus_ops] is a callback table without NULL members.  The polls
    of one reply word are a loop over [NWOAS_SERA_MAX_POLLS], which is also its
    fuel.  The theorems cover the bus discipline (which words are written and
    how many accesses are made), the arithmetic of the conversion and what an
    accepted snapshot means. *)

From S2P Require Import Prelude.

(** ** Constants *)

Definition NWOAS_SERA_SPMI_BASE : Z := 0x23d0d9300.
Definition NWOAS_SERA_SPMI_STATUS : Z := NWOAS_SERA_SPMI_BASE + 0x0.
Definition NWOAS_SERA_SPMI_CMD : Z := NWOAS_SERA_SPMI_BASE + 0x4.
Definition NWOAS_SERA_SPMI_RSP : Z := NWOAS_SERA_SPMI_BASE + 0x8.
Definition NWOAS_SERA_STATUS_RX_EMPTY : Z := 1 .<< 24.
Definition NWOAS_SERA_STATUS_TX_MASK : Z := 0xff.
Definition NWOAS_SERA_SID : Z := 0xf.
Definition NWOAS_SERA_OPC_EXT_READL : Z := 0x38.
Definition NWOAS_SERA_REG_LEN : Z := 6.
Definition NWOAS_SERA_CMD_OPC_BYTE : Z := NWOAS_SERA_OPC_EXT_READL .| (NWOAS_SERA_REG_LEN - 1).
Definition NWOAS_SERA_REG_TIME : Z := 0xd002.
Definition NWOAS_SERA_REG_TIME_OFFSET : Z := 0xd100.
Definition NWOAS_SERA_CMD_READ_TIME : Z := 0xd0028f3d.
Definition NWOAS_SERA_CMD_READ_OFFSET : Z := 0xd1008f3d.
Definition NWOAS_SERA_RSP_ECHO_MASK : Z := 0xffff.
Definition NWOAS_SERA_RSP_ECHO : Z := (NWOAS_SERA_SID .<< 8) .| NWOAS_SERA_CMD_OPC_BYTE.
Definition NWOAS_SERA_RSP_WORDS : nat := 3.
Definition NWOAS_SERA_TRANSACTIONS : nat := 3.
Definition NWOAS_SERA_DEADLINE_MS : Z := 100.
Definition NWOAS_SERA_MAX_POLLS : Z := 200000.
Definition NWOAS_SERA_CNTFRQ_MIN : Z := 1000000.
Definition NWOAS_SERA_CNTFRQ_MAX : Z := 4000000000.
Definition NWOAS_SERA_MAX_COUNTER_SPAN : Z := 32768.
Definition NWOAS_SERA_UTC_MIN : Z := 946684800.
Definition NWOAS_SERA_UTC_MAX : Z := 4102444799.
Definition NWOAS_SERA_MASK48 : Z := 0xffffffffffff.
Definition NWOAS_SERA_MASK49 : Z := 0x1ffffffffffff.
Definition NWOAS_SERA_FRAC_BITS : Z := 16.
Definition NWOAS_SERA_FRAC_MASK : Z := 0xffff.

Inductive nwoas_sera_status :=
| NWOAS_SERA_OK
| NWOAS_SERA_E_ARG
| NWOAS_SERA_E_CNTFRQ
| NWOAS_SERA_E_FIFO_NOT_IDLE
| NWOAS_SERA_E_TIMEOUT
| NWOAS_SERA_E_POLL_CAP
| NWOAS_SERA_E_BAD_HEADER
| NWOAS_SERA_E_EXTRA_RESPONSE
| NWOAS_SERA_E_COUNTER_BACKWARD
| NWOAS_SERA_E_COUNTER_SPAN
| NWOAS_SERA_E_NEGATIVE_TIME
| NWOAS_SERA_E_RANGE.

#[export] Instance nwoas_sera_status_eq : EqDecision nwoas_sera_status.
Proof. solve_decision. Defined.

(** ** Pure helpers *)

Definition nwoas_sera_rtc_words_to_u48 (w1 w2 : Z) : Z :=
  w1 .| ((w2 .& 0xffff) .<< 32).

Definition nwoas_sera_rtc_frac_to_ns (subseconds : Z) : Z :=
  u32 (((subseconds .& NWOAS_SERA_FRAC_MASK) * 1000000000) .>> NWOAS_SERA_FRAC_BITS).

(** The out-pointers are both valid; the result is the status with the two
    values stored. *)
Definition nwoas_sera_rtc_convert (counter48 offset48 : Z) : nwoas_sera_status * Z * Z :=
  let c := counter48 .& NWOAS_SERA_MASK48 in
  let o := offset48 .& NWOAS_SERA_MASK48 in
  let sum := u64 (c + u64 (o .<< 1)) .& NWOAS_SERA_MASK49 in
  let signed_time :=
    if truthy (sum .& (1 .<< 48)) then - ((1 .<< 49) - sum) else sum in
  let q := Z.quot signed_time 65536 in
  let r := Z.rem signed_time 65536 in
  let '(q, r) := if r <? 0 then (q - 1, r + 65536) else (q, r) in
  let st :=
    if signed_time <? 0 then NWOAS_SERA_E_NEGATIVE_TIME
    else if (q <? NWOAS_SERA_UTC_MIN) || (NWOAS_SERA_UTC_MAX <? q) then NWOAS_SERA_E_RANGE
    else NWOAS_SERA_OK in
  (st, q, u32 r).

Definition nwoas_sera_status_str (st : nwoas_sera_status) : list Z :=
  match st with
  | NWOAS_SERA_OK => chars "ok"
  | NWOAS_SERA_E_ARG => chars "bad argument"
  | NWOAS_SERA_E_CNTFRQ => chars "implausible physical counter frequency"
  | NWOAS_SERA_E_FIFO_NOT_IDLE =>
      chars "SPMI FIFO not idle; queued transaction preserved, nothing written"
  | NWOAS_SERA_E_TIMEOUT => chars "100 ms deadline expired waiting for SPMI reply"
  | NWOAS_SERA_E_POLL_CAP => chars "poll cap reached (frozen counter or stuck controller)"
  | NWOAS_SERA_E_BAD_HEADER => chars "SPMI reply header does not echo sid/opcode"
  | NWOAS_SERA_E_EXTRA_RESPONSE => chars "unexpected extra SPMI reply left in FIFO"
  | NWOAS_SERA_E_COUNTER_BACKWARD => chars "RTC counter went backwards between reads"
  | NWOAS_SERA_E_COUNTER_SPAN => chars "RTC counter advanced too far between reads"
  | NWOAS_SERA_E_NEGATIVE_TIME => chars "counter + offset is negative; no valid clock"
  | NWOAS_SERA_E_RANGE => chars "decoded time outside 2000..2099; no valid clock"
  end.

(** ** State *)

Record nwoas_sera_rtc_result := mk_result {
  utc_seconds : Z;
  subseconds : Z;
  nanoseconds : Z;
  cntpct : Z;
  cntfrq : Z;
  counter0 : Z;
  offset : Z;
  counter1 : Z;
  headers : list Z;
  transactions_done : Z;
  cmd_writes : Z;
}.
#[export] Instance result_eta : Eta nwoas_sera_rtc_result := fun r =>
  mk_result (utc_seconds r) (subseconds r) (nanoseconds r) (cntpct r) (cntfrq r) (counter0 r)
    (offset r) (counter1 r) (headers r) (transactions_done r) (cmd_writes r).

Record nwoas_sera_rtc_ops (S : Type) := {
  op_read32 : option (Z -> M S Z);
  op_write32 : option (Z -> Z -> M S unit);
  op_physical_counter : option (M S Z);
  op_counter_frequency : option (M S Z);
}.
#[global] Arguments op_read32 {S} _. #[global] Arguments op_write32 {S} _.
#[global] Arguments op_physical_counter {S} _. #[global] Arguments op_counter_frequency {S} _.

(** The table after the NULL checks. *)
Record bus_ops (S : Type) := mk_bus_ops {
  read32 : Z -> M S Z;
  write32 : Z -> Z -> M S unit;
  physical_counter : M S Z;
  counter_frequency : M S Z;
}.
#[global] Arguments mk_bus_ops {S} _ _ _ _.
#[global] Arguments read32 {S} _. #[global] Arguments write32 {S} _.
#[global] Arguments physical_counter {S} _. #[global] Arguments counter_frequency {S} _.

Definition sera_ops_present {S} (o : nwoas_sera_rtc_ops S) : option (bus_ops S) :=
  match op_read32 o, op_write32 o, op_physical_counter o, op_counter_frequency o with
  | Some r, Some w, Some c, Some f => Some (mk_bus_ops r w c f)
  | _, _, _, _ => None
  end.

Definition nwoas_sera_fifo_idle (status : Z) : bool :=
  truthy (status .& NWOAS_SERA_STATUS_RX_EMPTY) && (status .& NWOAS_SERA_STATUS_TX_MASK =? 0).

Definition nwoas_sera_result_clear (r : nwoas_sera_rtc_result) : nwoas_sera_rtc_result :=
  mk_result 0 0 0 0 0 0 0 0 (replicate NWOAS_SERA_TRANSACTIONS 0) 0 0.

(** ** Bus access *)

Section bus.
Context {S : Type} `{L : !Lens S nwoas_sera_rtc_result} (ops : bus_ops S) (deadline_ticks : Z).

(** The poll loop; the fuel is the number of polls left. *)
Fixpoint wait_loop (polls : nat) (start : Z) : M S nwoas_sera_status :=
  match polls with
  | O => mret NWOAS_SERA_E_POLL_CAP
  | Datatypes.S polls =>
      status ← read32 ops NWOAS_SERA_SPMI_STATUS;
      now ← physical_counter ops;
      if deadline_ticks <=? u64 (now - start) then mret NWOAS_SERA_E_TIMEOUT
      else if negb (truthy (status .& NWOAS_SERA_STATUS_RX_EMPTY)) then mret NWOAS_SERA_OK
      else wait_loop polls start
  end.

Definition nwoas_sera_wait_rx (start : Z) : M S nwoas_sera_status :=
  wait_loop (Z.to_nat NWOAS_SERA_MAX_POLLS) start.

(** The reply loop: [n] words still to read. *)
Fixpoint read_words (n : nat) (start : Z) : proc S nwoas_sera_status (list Z) :=
  match n with
  | O => mret []
  | Datatypes.S n =>
      st ← call (nwoas_sera_wait_rx start);
      match st with
      | NWOAS_SERA_OK =>
          w ← call (read32 ops NWOAS_SERA_SPMI_RSP);
          ws ← read_words n start;
          mret (w :: ws)
      | st => exit st
      end
  end.

(** [value48_out] is the field of the result that the out-pointer names. *)
Definition nwoas_sera_read_reg (cmd : Z) (index : nat)
    (value48_out : Z -> nwoas_sera_rtc_result -> nwoas_sera_rtc_result) :
    M S nwoas_sera_status := body (
  call (lmodify (value48_out 0));;
  status ← call (read32 ops NWOAS_SERA_SPMI_STATUS);
  when (negb (nwoas_sera_fifo_idle status)) (exit NWOAS_SERA_E_FIFO_NOT_IDLE);;
  start ← call (physical_counter ops);
  call (write32 ops NWOAS_SERA_SPMI_CMD cmd);;
  call (lmodify (fun r => r <| cmd_writes := u32 (cmd_writes r + 1) |>));;
  words ← read_words NWOAS_SERA_RSP_WORDS start;
  call (lmodify (fun r => r <| headers := <[index := byte_at words 0]> (headers r) |>));;
  when (negb (byte_at words 0 .& NWOAS_SERA_RSP_ECHO_MASK =? NWOAS_SERA_RSP_ECHO))
    (exit NWOAS_SERA_E_BAD_HEADER);;
  status ← call (read32 ops NWOAS_SERA_SPMI_STATUS);
  when (negb (truthy (status .& NWOAS_SERA_STATUS_RX_EMPTY))) (exit NWOAS_SERA_E_EXTRA_RESPONSE);;
  now ← call (physical_counter ops);
  when (deadline_ticks <=? u64 (now - start)) (exit NWOAS_SERA_E_TIMEOUT);;
  call (lmodify (value48_out (nwoas_sera_rtc_words_to_u48 (byte_at words 1) (byte_at words 2))));;
  call (lmodify (fun r => r <| transactions_done := Z.of_nat index + 1 |>));;
  mret NWOAS_SERA_OK).
End bus.

(** ** Top level *)

Section sera.
Context {S : Type} `{L : !Lens S nwoas_sera_rtc_result}.

(** One transaction inside [nwoas_sera_rtc_read]: its failure is returned. *)
Definition transaction (ops : bus_ops S) (ticks cmd : Z) (index : nat)
    (out : Z -> nwoas_sera_rtc_result -> nwoas_sera_rtc_result) :
    proc S nwoas_sera_status unit :=
  st ← call (nwoas_sera_read_reg ops ticks cmd index out);
  match st with
  | NWOAS_SERA_OK => mret tt
  | st => exit st
  end.

(** The part of the body after the argument checks. *)
Definition snapshot (ops : bus_ops S) : proc S nwoas_sera_status nwoas_sera_status :=
  freq ← call (counter_frequency ops);
  when ((freq <? NWOAS_SERA_CNTFRQ_MIN) || (NWOAS_SERA_CNTFRQ_MAX <? freq))
    (exit NWOAS_SERA_E_CNTFRQ);;
  call (lmodify (fun r => r <| cntfrq := freq |>));;
  let ticks := u64 (freq * NWOAS_SERA_DEADLINE_MS) / 1000 in
  transaction ops ticks NWOAS_SERA_CMD_READ_TIME 0 (fun v r => r <| counter0 := v |>);;
  transaction ops ticks NWOAS_SERA_CMD_READ_OFFSET 1 (fun v r => r <| offset := v |>);;
  transaction ops ticks NWOAS_SERA_CMD_READ_TIME 2 (fun v r => r <| counter1 := v |>);;
  now ← call (physical_counter ops);
  call (lmodify (fun r => r <| cntpct := now |>));;
  r ← call (lgets (id (A := nwoas_sera_rtc_result)));
  when (counter1 r <? counter0 r) (exit NWOAS_SERA_E_COUNTER_BACKWARD);;
  when (NWOAS_SERA_MAX_COUNTER_SPAN <? u64 (counter1 r - counter0 r))
    (exit NWOAS_SERA_E_COUNTER_SPAN);;
  let '(st, seconds, frac) := nwoas_sera_rtc_convert (counter1 r) (offset r) in
  match st with
  | NWOAS_SERA_OK =>
      call (lmodify (fun r => r <| utc_seconds := seconds |>));;
      call (lmodify (fun r => r <| subseconds := frac |>));;
      call (lmodify (fun r => r <| nanoseconds := nwoas_sera_rtc_frac_to_ns frac |>));;
      mret NWOAS_SERA_OK
  | st => exit st
  end.

(** [out] tells whether the result pointer is non-NULL, [ops] is [None] for a
    NULL table. *)
Definition nwoas_sera_rtc_read (ops : option (nwoas_sera_rtc_ops S)) (out : bool) :
    M S nwoas_sera_status := body (
  when (negb out) (exit NWOAS_SERA_E_ARG);;
  call (lmodify nwoas_sera_result_clear);;
  match ops ≫= sera_ops_present with
  | None => exit NWOAS_SERA_E_ARG
  | Some env => snapshot env
  end).
End sera.

(** ** Specification vocabulary *)

(** One access to the SPMI window, with the word read or written. *)
Inductive sera_event :=
| Rd (a v : Z)
| Wr (a v : Z).

(** [events] lists the accesses made; the callbacks do not write the result
    structure and deliver 32-bit words and 64-bit counter values. *)
Class SeraEnv {S} `{!Lens S nwoas_sera_rtc_result} (ops : bus_ops S)
    (events : S -> list sera_event) : Prop := {
  se_lset r s : events (lset r s) = events s;
  se_read a s : lget (read32 ops a s).2 = lget s /\
    events (read32 ops a s).2 = events s ++ [Rd a (read32 ops a s).1] /\ in_w 32 (read32 ops a s).1;
  se_write a v s : lget (write32 ops a v s).2 = lget s /\
    events (write32 ops a v s).2 = events s ++ [Wr a v];
  se_counter s : lget (physical_counter ops s).2 = lget s /\
    events (physical_counter ops s).2 = events s /\ in_w 64 (physical_counter ops s).1;
  se_freq s : lget (counter_frequency ops s).2 = lget s /\
    events (counter_frequency ops s).2 = events s;
}.

Definition written (evs : list sera_event) : list (Z * Z) :=
  omap (fun e => match e with Wr a v => Some (a, v) | Rd _ _ => None end) evs.
(** The accesses other than the polls of the status register. *)
Definition is_poll (e : sera_event) : bool :=
  match e with Rd a _ => a =? NWOAS_SERA_SPMI_STATUS | Wr _ _ => false end.
Definition traffic (evs : list sera_event) : list sera_event := filter (fun e => is_poll e = false) evs.
(** A command and the three words of its reply. *)
Definition exchange (cmd h lo hi : Z) : list sera_event :=
  [Wr NWOAS_SERA_SPMI_CMD cmd; Rd NWOAS_SERA_SPMI_RSP h; Rd NWOAS_SERA_SPMI_RSP lo;
   Rd NWOAS_SERA_SPMI_RSP hi].
(** The 48-bit register whose low 32 bits are in the second word of a reply
    and whose high 16 bits are the low half of the third. *)
Definition reply48 (lo hi : Z) : Z := lo + 2 ^ 32 * (hi mod 2 ^ 16).
Definition reads_window (e : sera_event) : Prop :=
  match e with
  | Rd a _ => a = NWOAS_SERA_SPMI_STATUS \/ a = NWOAS_SERA_SPMI_RSP
  | Wr _ _ => True
  end.
Definition command_words : list (Z * Z) :=
  [(NWOAS_SERA_SPMI_CMD, NWOAS_SERA_CMD_READ_TIME);
   (NWOAS_SERA_SPMI_CMD, NWOAS_SERA_CMD_READ_OFFSET);
   (NWOAS_SERA_SPMI_CMD, NWOAS_SERA_CMD_READ_TIME)].

(** The clock reading of a 48-bit counter and offset, in 2^-16 s. *)
Definition clock49 (c o : Z) : Z :=
  let t := (c + 2 * o) mod 2 ^ 49 in if t <? 2 ^ 48 then t else t - 2 ^ 49.
(** The offset a host stores to set the clock to [t] when the counter is [c]. *)
Definition settime (t c : Z) : Z := ((t - c) / 2) mod 2 ^ 48.

(** ** The conversion *)

Definition time_status (t : Z) : nwoas_sera_status :=
  if t <? 0 then NWOAS_SERA_E_NEGATIVE_TIME
  else if (t / 65536 <? NWOAS_SERA_UTC_MIN) || (NWOAS_SERA_UTC_MAX <? t / 65536)
  then NWOAS_SERA_E_RANGE else NWOAS_SERA_OK.

Lemma time_status_ok t : time_status t = NWOAS_SERA_OK ->
  NWOAS_SERA_UTC_MIN <= t / 65536 <= NWOAS_SERA_UTC_MAX.
Proof.
  unfold time_status. destruct (t <? 0); [done |].
  destruct (Z.ltb_spec (t / 65536) NWOAS_SERA_UTC_MIN); [done |].
  destruct (Z.ltb_spec NWOAS_SERA_UTC_MAX (t / 65536)); [done |]. lia.
Qed.

Lemma clock49_range c o : - 2 ^ 48 <= clock49 c o < 2 ^ 48.
Proof. unfold clock49. destruct (Z.ltb_spec ((c + 2 * o) mod 2 ^ 49) (2 ^ 48)); dlia. Qed.

Lemma floor_split t : - 2 ^ 48 <= t < 2 ^ 48 ->
  (let q := Z.quot t 65536 in let r := Z.rem t 65536 in
   if r <? 0 then (q - 1, r + 65536) else (q, r)) = (t / 65536, t mod 65536).
Proof.
  intros Ht. cbv zeta. destruct (Z.ltb_spec (Z.rem t 65536) 0);
    f_equal; Z.to_euclidean_division_equations; lia.
Qed.

Lemma convert_spec c o :
  let t := clock49 (c mod 2 ^ 48) (o mod 2 ^ 48) in
  nwoas_sera_rtc_convert c o = (time_status t, t / 65536, t mod 65536).
Proof.
  intros t. unfold nwoas_sera_rtc_convert, NWOAS_SERA_MASK48, NWOAS_SERA_MASK49.
  change 0xffffffffffff with (2 ^ 48 - 1). change 0x1ffffffffffff with (2 ^ 49 - 1).
  rewrite !land_ones_mod by done. rewrite Z.shiftl_mul_pow2 by done.
  pose proof (Z.mod_pos_bound c (2 ^ 48) ltac:(done)) as Hc.
  pose proof (Z.mod_pos_bound o (2 ^ 48) ltac:(done)) as Ho.
  rewrite (wrap_small 64 (_ * _)) by (unfold in_w; lia).
  rewrite (wrap_small 64 (_ + _)) by (unfold in_w; lia).
  set (sum := (c mod 2 ^ 48 + o mod 2 ^ 48 * 2 ^ 1) mod 2 ^ 49).
  assert (Hsum : 0 <= sum < 2 ^ 49) by (by apply Z.mod_pos_bound).
  replace (if truthy (sum .& (1 .<< 48)) then - ((1 .<< 49) - sum) else sum) with t.
  2: { change (1 .<< 48) with (2 ^ 48). rewrite truthy_bit by done. unfold t, clock49.
       replace (c mod 2 ^ 48 + 2 * (o mod 2 ^ 48)) with (c mod 2 ^ 48 + o mod 2 ^ 48 * 2 ^ 1) by lia.
       fold sum. rewrite Z.testbit_eqb by done.
       destruct (Z.ltb_spec sum (2 ^ 48)), (Z.eqb_spec ((sum / 2 ^ 48) mod 2) 1); try done;
         try (change (1 .<< 49) with (2 ^ 49)); dlia. }
  pose proof (clock49_range (c mod 2 ^ 48) (o mod 2 ^ 48)) as Ht. fold t in Ht.
  pose proof (floor_split t Ht) as Hf. cbv zeta in Hf. rewrite Hf.
  rewrite (wrap_small 32); [done |]. unfold in_w. pose proof (Z.mod_pos_bound t 65536). lia.
Qed.

Lemma settime_exact t c :
  0 <= t < 2 ^ 48 -> 0 <= c < 2 ^ 48 ->
  0 <= t - (t - c) mod 2 -> clock49 c (settime t c) = t - (t - c) mod 2.
Proof.
  intros Ht Hc Hd. unfold clock49, settime.
  replace (c + 2 * (((t - c) / 2) mod 2 ^ 48)) with
    (t - (t - c) mod 2 + (- ((t - c) / 2 / 2 ^ 48)) * 2 ^ 49) by dlia.
  rewrite Z.mod_add, Z.mod_small by dlia.
  rewrite (proj2 (Z.ltb_lt _ _)); [done |]. dlia.
Qed.

Lemma words_to_u48_value w1 w2 : in_w 32 w1 -> nwoas_sera_rtc_words_to_u48 w1 w2 = reply48 w1 w2.
Proof.
  intros H. unfold nwoas_sera_rtc_words_to_u48, reply48.
  change 0xffff with (2 ^ 16 - 1). rewrite land_ones_mod by done. by rewrite lor_shiftl_add.
Qed.

Lemma reply48_range w1 w2 : in_w 32 w1 -> in_w 48 (reply48 w1 w2).
Proof. unfold in_w, reply48. dlia. Qed.

(** ** The bus *)

Section bus_spec.
Context {S : Type} `{L : !Lens S nwoas_sera_rtc_result} (ops : bus_ops S)
  (events : S -> list sera_event) `{!SeraEnv ops events}.
Local Abbreviation RES := (lget (A := nwoas_sera_rtc_result)).

(** [ran k s s' evs]: from [s] to [s'] the accesses [evs] were made, at most [k],
    none outside the window. *)
Definition ran (k : Z) (s s' : S) (evs : list sera_event) : Prop :=
  events s' = events s ++ evs /\ Forall reads_window evs /\ zlen evs <= k.

Lemma ran_refl s : ran 0 s s [].
Proof. split_and!; [by rewrite app_nil_r | done | done]. Qed.

Lemma ran_trans j k s1 s2 s3 e1 e2 :
  ran j s1 s2 e1 -> ran k s2 s3 e2 -> ran (j + k) s1 s3 (e1 ++ e2).
Proof.
  intros (E1 & F1 & L1) (E2 & F2 & L2). split_and!.
  - by rewrite E2, E1, app_assoc.
  - by apply Forall_app.
  - rewrite zlen_app. lia.
Qed.

Lemma ran_mono j k s s' evs : ran j s s' evs -> j <= k -> ran k s s' evs.
Proof. intros (E & F & H) Hk. split_and!; [done | done | lia]. Qed.

Lemma mwp_res f (Q : unit -> S -> Prop) s :
  (forall s', RES s' = f (RES s) -> ran 0 s s' [] -> Q tt s') -> mwp (lmodify f) Q s.
Proof.
  intros HQ. apply mwp_lmodify. intros s' Hs E. apply HQ; [done |].
  split_and!; [| done | done]. rewrite app_nil_r, Hs. apply (se_lset (ops := ops)).
Qed.

Lemma mwp_read a (Q : Z -> S -> Prop) s :
  a = NWOAS_SERA_SPMI_STATUS \/ a = NWOAS_SERA_SPMI_RSP ->
  (forall v s', in_w 32 v -> RES s' = RES s -> ran 1 s s' [Rd a v] -> Q v s') ->
  mwp (read32 ops a) Q s.
Proof.
  intros Ha HQ. apply mwp_iff. destruct (se_read (events := events) a s) as (E1 & E2 & E3).
  apply HQ; [done | done |]. split_and!; [done | by constructor | done].
Qed.

Lemma mwp_counter (Q : Z -> S -> Prop) s :
  (forall v s', in_w 64 v -> RES s' = RES s -> ran 0 s s' [] -> Q v s') ->
  mwp (physical_counter ops) Q s.
Proof.
  intros HQ. apply mwp_iff. destruct (se_counter (events := events) s) as (E1 & E2 & E3).
  apply HQ; [done | done |]. split_and!; [by rewrite E2, app_nil_r | done | done].
Qed.

Lemma written_app e1 e2 : written (e1 ++ e2) = written e1 ++ written e2.
Proof. apply omap_app. Qed.

Lemma traffic_app e1 e2 : traffic (e1 ++ e2) = traffic e1 ++ traffic e2.
Proof.
  unfold traffic. induction e1 as [|e e1 IH]; [done |]. cbn [app]. rewrite !filter_cons.
  case_decide; [| exact IH]. cbn. by f_equal.
Qed.

(** The polls write nothing. *)
Lemma written_traffic evs : written evs = written (traffic evs).
Proof.
  induction evs as [|[a v|a v] evs IH]; [done | |]; unfold traffic; rewrite filter_cons.
  - case_decide; exact IH.
  - rewrite decide_True by done. apply (f_equal (cons (a, v))). exact IH.
Qed.

Lemma wait_loop_spec ticks n start s :
  mwp (wait_loop ops ticks n start) (fun st s' => RES s' = RES s /\ st <> NWOAS_SERA_E_FIFO_NOT_IDLE /\
    exists evs, ran (Z.of_nat n) s s' evs /\ traffic evs = []) s.
Proof.
  revert s. induction n as [|n IH]; intros s; cbn [wait_loop].
  { wp_go. split_and!; try done. exists []. by split; [apply ran_refl |]. }
  wp_go. apply mwp_read; [by left |]. intros v s1 _ E1 R1. wp_go.
  apply mwp_counter. intros now s2 _ E2 R2. pose proof (ran_trans _ _ _ _ _ _ _ R1 R2) as R.
  wp_go.
  - split_and!; try congruence. eexists. split; [eapply ran_mono; [exact R | lia] | done].
  - split_and!; try congruence. eexists. split; [eapply ran_mono; [exact R | lia] | done].
  - eapply mwp_mono; [apply IH |]. intros st s3 (E3 & Hst & evs & R3 & W3).
    split_and!; try congruence. exists ((([Rd NWOAS_SERA_SPMI_STATUS v] ++ []) ++ evs)).
    split; [eapply ran_mono; [eapply ran_trans; [exact R | exact R3] | lia] |].
    by rewrite traffic_app, W3.
Qed.

Lemma read_words_spec ticks n start s :
  wp (read_words ops ticks n start) (fun r s' => RES s' = RES s /\
    exists evs, ran (Z.of_nat n * 200001) s s' evs /\
    match r with
    | inl st => written evs = [] /\ st <> NWOAS_SERA_OK /\ st <> NWOAS_SERA_E_FIFO_NOT_IDLE
    | inr ws => traffic evs = map (Rd NWOAS_SERA_SPMI_RSP) ws /\ length ws = n /\ Forall (in_w 32) ws
    end) s.
Proof.
  revert s. induction n as [|n IH]; intros s; cbn [read_words].
  { wp_go. split; [done |]. exists []. by split; [apply ran_refl |]. }
  wp_go. unfold nwoas_sera_wait_rx.
  eapply mwp_mono; [apply wait_loop_spec |]. intros st s1 (E1 & Hst & evs1 & R1 & W1).
  rewrite Z2Nat.id in R1 by done.
  assert (Hfail : st <> NWOAS_SERA_OK -> wp (exit (A := list Z) st) (fun r s' => RES s' = RES s /\
    exists evs, ran (Z.of_nat (Datatypes.S n) * 200001) s s' evs /\
    match r with
    | inl st => written evs = [] /\ st <> NWOAS_SERA_OK /\ st <> NWOAS_SERA_E_FIFO_NOT_IDLE
    | inr ws => traffic evs = map (Rd NWOAS_SERA_SPMI_RSP) ws /\ length ws = Datatypes.S n /\
                Forall (in_w 32) ws
    end) s1).
  { intros Hn. wp_go. split; [done |]. exists evs1. split.
    - eapply ran_mono; [exact R1 |]. unfold NWOAS_SERA_MAX_POLLS. lia.
    - by rewrite written_traffic, W1. }
  destruct st; try (by apply Hfail). clear Hfail. wp_go.
  apply mwp_read; [by right |]. intros w s2 Hw E2 R2. wp_go.
  eapply wp_mono; [apply IH |]. intros r s3 (E3 & evs3 & R3 & Hr).
  assert (R : ran (Z.of_nat (Datatypes.S n) * 200001) s s3
    ((evs1 ++ [Rd NWOAS_SERA_SPMI_RSP w]) ++ evs3)).
  { eapply ran_mono; [eapply ran_trans; [eapply ran_trans |] |]; [done | done | done |].
    unfold NWOAS_SERA_MAX_POLLS. lia. }
  destruct r as [st|ws]; wp_go; (split; [congruence |]);
    exists ((evs1 ++ [Rd NWOAS_SERA_SPMI_RSP w]) ++ evs3); (split; [exact R |]).
  - destruct Hr as (W & Hr). split; [| exact Hr].
    by rewrite !written_app, W, (written_traffic evs1), W1.
  - destruct Hr as (W & <- & Hf). rewrite !traffic_app, W, W1. by split_and!; [.. | constructor].
Qed.

(** What one transaction does to the bus and to the result. *)
Definition read_post (cmd : Z) (index : nat)
    (out : Z -> nwoas_sera_rtc_result -> nwoas_sera_rtc_result) (s : S)
    (st : nwoas_sera_status) (s' : S) : Prop :=
  exists evs, ran 600006 s s' evs /\
    let r0 := out 0 (RES s) in
    if decide (st = NWOAS_SERA_E_FIFO_NOT_IDLE) then written evs = [] /\ RES s' = r0
    else written evs = [(NWOAS_SERA_SPMI_CMD, cmd)] /\
      let r1 := r0 <| cmd_writes := u32 (cmd_writes r0 + 1) |> in
      match st with
      | NWOAS_SERA_OK => exists h lo hi, traffic evs = exchange cmd h lo hi /\ in_w 32 lo /\
          h .& NWOAS_SERA_RSP_ECHO_MASK = NWOAS_SERA_RSP_ECHO /\
          RES s' = (out (reply48 lo hi) (r1 <| headers := <[index := h]> (headers r1) |>))
                     <| transactions_done := Z.of_nat index + 1 |>
      | _ => RES s' = r1 \/ exists h, RES s' = r1 <| headers := <[index := h]> (headers r1) |>
      end.

Lemma read_reg_spec ticks cmd index out s :
  mwp (nwoas_sera_read_reg ops ticks cmd index out) (read_post cmd index out s) s.
Proof.
  unfold nwoas_sera_read_reg. wp_go. apply mwp_res. intros s1 E1 R1. wp_go.
  apply mwp_read; [by left |]. intros st0 s2 _ E2 R2.
  pose proof (ran_trans _ _ _ _ _ _ _ R1 R2) as R12. wp_go.
  { exists ([] ++ [Rd NWOAS_SERA_SPMI_STATUS st0]). split; [by eapply ran_mono |].
    rewrite decide_True by done. split; [done |]. congruence. }
  apply mwp_counter. intros start s3 _ E3 R3.
  pose proof (ran_trans _ _ _ _ _ _ _ R12 R3) as R13. wp_go.
  apply mwp_iff. destruct (se_write (events := events) NWOAS_SERA_SPMI_CMD cmd s3) as [E4 V4].
  set (s4 := (write32 ops NWOAS_SERA_SPMI_CMD cmd s3).2) in *.
  assert (R4 : ran 1 s3 s4 [Wr NWOAS_SERA_SPMI_CMD cmd]) by (split_and!; [done | by constructor | done]).
  pose proof (ran_trans _ _ _ _ _ _ _ R13 R4) as R14. wp_go.
  apply mwp_res. intros s5 E5 R5. pose proof (ran_trans _ _ _ _ _ _ _ R14 R5) as R15. wp_go.
  rewrite E4, E3, E2, E1 in E5. clear R1 R2 R12 R3 R13 R4 R14 R5 V4 E1 E2 E3 E4.
  eapply wp_mono; [apply read_words_spec |]. intros r s6 (E6 & evs6 & R6 & Hr).
  change (Z.of_nat NWOAS_SERA_RSP_WORDS * 200001) with 600003 in R6.
  pose proof (ran_trans _ _ _ _ _ _ _ R15 R6) as R16. rewrite E5 in E6.
  set (pre := ((([] ++ [Rd NWOAS_SERA_SPMI_STATUS st0]) ++ []) ++ [Wr NWOAS_SERA_SPMI_CMD cmd]) ++ []) in *.
  assert (Wpre : written pre = [(NWOAS_SERA_SPMI_CMD, cmd)]) by done.
  assert (Tpre : traffic pre = [Wr NWOAS_SERA_SPMI_CMD cmd]) by done.
  change (0 + 1 + 0 + 1 + 0 + 600003) with 600005 in R16. clearbody pre. clear R15 R6 E5.
  destruct r as [st|ws].
  { exists (pre ++ evs6). split; [by eapply ran_mono |]. destruct Hr as (Wr0 & Hr1 & Hr2).
    rewrite decide_False by done. rewrite written_app, Wr0, Wpre.
    split; [done |]. destruct st; try done; by left. }
  destruct Hr as (Tr & Hl & Hw).
  assert (Wevs : written (pre ++ evs6) = [(NWOAS_SERA_SPMI_CMD, cmd)]).
  { rewrite written_app, Wpre, (written_traffic evs6), Tr. clear. by induction ws. }
  assert (Tevs : traffic (pre ++ evs6) = Wr NWOAS_SERA_SPMI_CMD cmd :: map (Rd NWOAS_SERA_SPMI_RSP) ws)
    by (by rewrite traffic_app, Tpre, Tr).
  set (evs := pre ++ evs6) in *. clearbody evs.
  wp_go. apply mwp_res. intros s7 E7 R7.
  pose proof (ran_trans _ _ _ _ _ _ _ R16 R7) as R17. rewrite E6 in E7. wp_go.
  { exists (evs ++ []). split; [by eapply ran_mono |]. rewrite app_nil_r, decide_False by done.
    split; [done |]. right. by eexists. }
  apply mwp_read; [by left |]. intros st1 s8 _ E8 R8.
  pose proof (ran_trans _ _ _ _ _ _ _ R17 R8) as R18. wp_go.
  { exists ((evs ++ []) ++ [Rd NWOAS_SERA_SPMI_STATUS st1]). split; [by eapply ran_mono |].
    rewrite decide_False by done. split; [by rewrite !written_app, Wevs |].
    right. eexists. by rewrite E8. }
  apply mwp_counter. intros now s9 _ E9 R9.
  pose proof (ran_trans _ _ _ _ _ _ _ R18 R9) as R19. rewrite E8, E7 in E9. wp_go.
  { exists (((evs ++ []) ++ [Rd NWOAS_SERA_SPMI_STATUS st1]) ++ []). split; [by eapply ran_mono |].
    rewrite decide_False by done. split; [by rewrite !written_app, Wevs |]. right. by eexists. }
  apply mwp_res. intros s10 E10 R10. pose proof (ran_trans _ _ _ _ _ _ _ R19 R10) as R20. wp_go.
  apply mwp_res. intros s11 E11 R11. pose proof (ran_trans _ _ _ _ _ _ _ R20 R11) as R21. wp_go.
  rewrite E10, E9 in E11. eexists. split; [by eapply ran_mono; [exact R21 |] |].
  rewrite decide_False by done. split; [by rewrite !written_app, Wevs |].
  destruct ws as [|h [|lo [|hi [|? ?]]]]; try done.
  inversion_clear Hw as [|? ? _ Hw1]. inversion_clear Hw1 as [|? ? Hlo _].
  rewrite words_to_u48_value in E11 by exact Hlo. exists h, lo, hi. split_and!; [| done | | done].
  - by rewrite !traffic_app, Tevs.
  - by apply Z.eqb_eq, negb_false_iff.
Qed.

(** The two samples, the offset and the headers are those of the three
    replies. *)
Definition replied (evs : list sera_event) (r : nwoas_sera_rtc_result) : Prop :=
  exists h0 lo0 hi0 h1 lo1 hi1 h2 lo2 hi2,
    traffic evs = exchange NWOAS_SERA_CMD_READ_TIME h0 lo0 hi0 ++
      exchange NWOAS_SERA_CMD_READ_OFFSET h1 lo1 hi1 ++ exchange NWOAS_SERA_CMD_READ_TIME h2 lo2 hi2 /\
    counter0 r = reply48 lo0 hi0 /\ offset r = reply48 lo1 hi1 /\ counter1 r = reply48 lo2 hi2 /\
    headers r = [h0; h1; h2].

(** A finished snapshot: the accesses, and the result for each status. *)
Definition snapshot_post (s : S) (st : nwoas_sera_status) (s' : S) : Prop :=
  exists evs, ran (3 * 600006) s s' evs /\
    (exists n, written evs = take n command_words /\ cmd_writes (RES s') = Z.of_nat n /\
       (n <= 3)%nat /\ (st = NWOAS_SERA_OK -> n = 3%nat)) /\
    (st = NWOAS_SERA_OK -> let r := RES s' in
       replied evs r /\
       in_w 48 (counter0 r) /\ in_w 48 (counter1 r) /\ in_w 48 (offset r) /\
       0 <= counter1 r - counter0 r <= NWOAS_SERA_MAX_COUNTER_SPAN /\
       length (headers r) = 3%nat /\
       Forall (fun h => h .& NWOAS_SERA_RSP_ECHO_MASK = NWOAS_SERA_RSP_ECHO) (headers r) /\
       transactions_done r = 3 /\ cmd_writes r = 3 /\
       NWOAS_SERA_CNTFRQ_MIN <= cntfrq r <= NWOAS_SERA_CNTFRQ_MAX /\ in_w 64 (cntpct r) /\
       let t := clock49 (counter1 r) (offset r) in
       time_status t = NWOAS_SERA_OK /\ utc_seconds r = t / 65536 /\
       subseconds r = t mod 65536 /\ nanoseconds r = (t mod 65536) * 1000000000 / 65536).

(** A transaction that may fail, in the middle of the sequence. *)
Lemma transaction_spec ticks cmd index out (Q : nwoas_sera_status + unit -> S -> Prop) s :
  (forall r s' evs, ran 600006 s s' evs ->
     (forall v r, cmd_writes (out v r) = cmd_writes r) ->
     match r with
     | inl st => st <> NWOAS_SERA_OK /\
         (written evs = [] /\ cmd_writes (RES s') = cmd_writes (RES s) \/
          written evs = [(NWOAS_SERA_SPMI_CMD, cmd)] /\
            cmd_writes (RES s') = u32 (cmd_writes (RES s) + 1))
     | inr _ => written evs = [(NWOAS_SERA_SPMI_CMD, cmd)] /\
         exists h lo hi, traffic evs = exchange cmd h lo hi /\ in_w 32 lo /\
           h .& NWOAS_SERA_RSP_ECHO_MASK = NWOAS_SERA_RSP_ECHO /\
           let r0 := out 0 (RES s) in
           RES s' = (out (reply48 lo hi) (r0 <| cmd_writes := u32 (cmd_writes r0 + 1) |>
                               <| headers := <[index := h]> (headers r0) |>))
                      <| transactions_done := Z.of_nat index + 1 |>
     end -> Q r s') ->
  (forall v r, cmd_writes (out v r) = cmd_writes r) ->
  wp (transaction ops ticks cmd index out) Q s.
Proof.
  intros HQ Hout. unfold transaction. wp_go. eapply mwp_mono; [apply read_reg_spec |].
  intros st s' (evs & R & H).
  assert (Hf : st <> NWOAS_SERA_OK -> Q (inl st) s').
  { intros Hn. apply (HQ _ _ evs R Hout). split; [done |].
    destruct (decide (st = NWOAS_SERA_E_FIFO_NOT_IDLE)).
    - left. destruct H as [-> ->]. by rewrite Hout.
    - right. destruct H as [-> H]. split; [done |].
      destruct st; try done; destruct H as [-> | [h ->]]; cbn; by rewrite Hout. }
  destruct st; wp_go; try (by apply Hf). clear Hf.
  rewrite decide_False in H by done. destruct H as [HW H]. by apply (HQ _ _ evs R Hout).
Qed.

Lemma frac_ns f : 0 <= f < 65536 -> nwoas_sera_rtc_frac_to_ns f = f * 1000000000 / 65536.
Proof.
  intros Hf. unfold nwoas_sera_rtc_frac_to_ns, NWOAS_SERA_FRAC_MASK, NWOAS_SERA_FRAC_BITS.
  change 0xffff with (2 ^ 16 - 1). rewrite land_ones_mod, (Z.mod_small f) by lia.
  rewrite Z.shiftr_div_pow2 by done. change (2 ^ 16) with 65536.
  apply wrap_small. unfold in_w. change (2 ^ 32) with 4294967296. dlia.
Qed.

(** The steps after the three transactions. *)
Lemma judge_spec s0 s n evs :
  ran n s0 s evs -> n <= 3 * 600006 -> written evs = command_words ->
  (let r := RES s in
   in_w 48 (counter0 r) /\ in_w 48 (counter1 r) /\ in_w 48 (offset r) /\
   replied evs r /\ (exists h1 h2 h3, headers r = [h1; h2; h3] /\
      Forall (fun h => h .& NWOAS_SERA_RSP_ECHO_MASK = NWOAS_SERA_RSP_ECHO) [h1; h2; h3]) /\
   transactions_done r = 3 /\ cmd_writes r = 3 /\
   NWOAS_SERA_CNTFRQ_MIN <= cntfrq r <= NWOAS_SERA_CNTFRQ_MAX) ->
  wp (now ← call (physical_counter ops);
  call (lmodify (fun r => r <| cntpct := now |>));;
  r ← call (lgets (id (A := nwoas_sera_rtc_result)));
  when (counter1 r <? counter0 r) (exit NWOAS_SERA_E_COUNTER_BACKWARD);;
  when (NWOAS_SERA_MAX_COUNTER_SPAN <? u64 (counter1 r - counter0 r))
    (exit NWOAS_SERA_E_COUNTER_SPAN);;
  let '(st, seconds, frac) := nwoas_sera_rtc_convert (counter1 r) (offset r) in
  match st with
  | NWOAS_SERA_OK =>
      call (lmodify (fun r => r <| utc_seconds := seconds |>));;
      call (lmodify (fun r => r <| subseconds := frac |>));;
      call (lmodify (fun r => r <| nanoseconds := nwoas_sera_rtc_frac_to_ns frac |>));;
      mret NWOAS_SERA_OK
  | st => exit st
  end) (fun r s' => snapshot_post s0 (match r with inl a | inr a => a end) s') s.
Proof.
  intros R Hn HW (H0 & H1 & Ho & Hrep & (h1 & h2 & h3 & Eh & Hh) & Ht & Hc & Hf).
  assert (Hbad : forall st s', ran 0 s s' [] -> cmd_writes (RES s') = 3 -> st <> NWOAS_SERA_OK ->
    snapshot_post s0 st s').
  { intros st s' R' Hc' Hst. exists (evs ++ []). split; [eapply ran_mono; [by eapply ran_trans | lia] |].
    split; [| done]. exists 3%nat. rewrite app_nil_r. split_and!; done || lia. }
  wp_go. apply mwp_counter. intros now s1 Hnow E1 R1. wp_go. apply mwp_res. intros s2 E2 R2.
  pose proof (ran_trans _ _ _ _ _ _ _ R1 R2) as R12. rewrite E1 in E2. wp_go; cbn [id] in *;
    try (apply Hbad; [exact R12 | by rewrite E2 | done]).
  rewrite E2 in *. cbn in *. rewrite convert_spec.
  rewrite !Z.mod_small by (unfold in_w in *; lia).
  set (t := clock49 (counter1 (RES s)) (offset (RES s))).
  destruct (time_status t) eqn:Et; wp_go; try (apply Hbad; [exact R12 | by rewrite E2 | done]).
  apply mwp_res. intros s3 E3 R3. wp_go. apply mwp_res. intros s4 E4 R4. wp_go.
  apply mwp_res. intros s5 E5 R5. wp_go.
  pose proof (ran_trans _ _ _ _ _ _ _ R12 (ran_trans _ _ _ _ _ _ _ R3
    (ran_trans _ _ _ _ _ _ _ R4 R5))) as R'. rewrite E2 in E3. rewrite E3 in E4. rewrite E4 in E5.
  exists (evs ++ []). split; [eapply ran_mono; [by eapply ran_trans | lia] |].
  rewrite app_nil_r, E5. cbn. split.
  { exists 3%nat. split_and!; done || lia. }
  intros _. bool_props. rewrite wrap_small in * by (unfold in_w in *; lia).
  split_and!; try done; try lia.
  - by rewrite Eh.
  - by rewrite Eh.
  - apply frac_ns. by apply Z.mod_pos_bound.
Qed.

Lemma snapshot_spec s :
  RES s = nwoas_sera_result_clear (RES s) ->
  wp (snapshot ops) (fun r s' => snapshot_post s (match r with inl a | inr a => a end) s') s.
Proof.
  intros Hclr. unfold snapshot. wp_go. apply mwp_iff.
  destruct (se_freq (events := events) s) as [Ef Vf].
  set (freq := (counter_frequency ops s).1) in *. set (s1 := (counter_frequency ops s).2) in *.
  assert (R1 : ran 0 s s1 []) by (split_and!; [by rewrite app_nil_r | done | done]).
  rewrite Hclr in Ef. unfold nwoas_sera_result_clear in Ef. clearbody s1 freq.
  wp_go.
  { exists []. split; [by eapply ran_mono |]. split; [| done]. exists 0%nat. rewrite Ef. by split_and!; [..| lia |]. }
  apply mwp_res. intros s2 E2 R2. rewrite Ef in E2. cbn in E2. wp_go.
  pose proof (ran_trans _ _ _ _ _ _ _ R1 R2) as R12. clear R1 R2 Ef Vf.
  apply transaction_spec; [| done]. intros r s3 ev1 R3 _ H3.
  pose proof (ran_trans _ _ _ _ _ _ _ R12 R3) as R13.
  destruct r as [st|u]; wp_go.
  { destruct H3 as [Hst H3]. eexists. split; [eapply ran_mono; [exact R13 | lia] |]. split; [| done].
    rewrite E2 in H3.
    destruct H3 as [[W C]|[W C]]; [exists 0%nat | exists 1%nat]; rewrite !written_app, W, C; by split_and!; [..| lia |]. }
  destruct H3 as (W3 & h1 & lo1 & hi1 & T3 & Hv1 & Hh1 & E3). rewrite E2 in E3. cbn in E3.
  apply transaction_spec; [| done]. intros r s4 ev2 R4 _ H4.
  pose proof (ran_trans _ _ _ _ _ _ _ R13 R4) as R14.
  destruct r as [st|u']; wp_go.
  { destruct H4 as [Hst H4]. eexists. split; [eapply ran_mono; [exact R14 | lia] |]. split; [| done].
    rewrite E3 in H4.
    destruct H4 as [[W C]|[W C]]; [exists 1%nat | exists 2%nat]; rewrite !written_app, W3, W, C; by split_and!; [..| lia |]. }
  destruct H4 as (W4 & h2 & lo2 & hi2 & T4 & Hv2 & Hh2 & E4). rewrite E3 in E4. cbn in E4.
  apply transaction_spec; [| done]. intros r s5 ev3 R5 _ H5.
  pose proof (ran_trans _ _ _ _ _ _ _ R14 R5) as R15.
  destruct r as [st|u''].
  { destruct H5 as [Hst H5]. eexists. split; [eapply ran_mono; [exact R15 | lia] |]. split; [| done].
    rewrite E4 in H5.
    destruct H5 as [[W C]|[W C]]; [exists 2%nat | exists 3%nat]; rewrite !written_app, W3, W4, W, C; by split_and!; [..| lia |]. }
  destruct H5 as (W5 & h3 & lo3 & hi3 & T5 & Hv3 & Hh3 & E5). rewrite E4 in E5. cbn in E5.
  eapply judge_spec; [exact R15 | lia | by rewrite !written_app, W3, W4, W5 |]. rewrite E5. cbn.
  bool_props. split_and!; try done; try by apply reply48_range.
  - exists h1, lo1, hi1, h2, lo2, hi2, h3, lo3, hi3. by rewrite !traffic_app, T3, T4, T5.
  - exists h1, h2, h3. split; [done |]. by repeat constructor.
Qed.
End bus_spec.

Lemma rtc_read_spec {S} `{L : !Lens S nwoas_sera_rtc_result} (o : nwoas_sera_rtc_ops S) env
    (events : S -> list sera_event) `{!SeraEnv env events} (s : S) :
  sera_ops_present o = Some env ->
  mwp (nwoas_sera_rtc_read (Some o) true) (snapshot_post events s) s.
Proof.
  intros Ho. unfold nwoas_sera_rtc_read. wp_go; [done |].
  apply (mwp_res env events). intros s1 E1 R1.
  replace (Some o ≫= sera_ops_present) with (Some env) by (symmetry; exact Ho).
  eapply wp_mono; [apply (snapshot_spec env events s1) |].
  { rewrite E1. done. }
  intros r s2 (evs & R2 & H1 & H2). exists evs. split; [| done].
  change evs with ([] ++ evs).
  eapply ran_mono; [by eapply ran_trans | lia].
Qed.

(** ** Frame *)

Section frame.
Context {S B : Type} `{L : !Lens S nwoas_sera_rtc_result} (ops : bus_ops S) (f : S -> B)
  (Hlset : forall r s, f (lset r s) = f s) (Hread : forall a, keeps f (read32 ops a))
  (Hwrite : forall a v, keeps f (write32 ops a v)) (Hcount : keeps f (physical_counter ops))
  (Hfreq : keeps f (counter_frequency ops)).

Ltac frame_step :=
  first
    [ lazymatch goal with
      | |- mwp (lmodify _) _ _ =>
          let s' := fresh "s'" in let Hs := fresh "Hs" in
          apply mwp_lmodify; intros s' Hs _; apply (f_equal f) in Hs; rewrite Hlset in Hs
      end
    | wp_step
    | lazymatch goal with
      | |- mwp (read32 _ _) _ _ => eapply mwp_cb; [apply Hread |]; intros ? ? ?
      | |- mwp (write32 _ _ _) _ _ => eapply mwp_cb; [apply Hwrite |]; intros ? ? ?
      | |- mwp (physical_counter _) _ _ => eapply mwp_cb; [apply Hcount |]; intros ? ? ?
      | |- mwp (counter_frequency _) _ _ => eapply mwp_cb; [apply Hfreq |]; intros ? ? ?
      end ].
Ltac frame_run := repeat frame_step; try lazymatch goal with |- _ = _ => congruence end.

Lemma wait_frame t n start : keeps f (wait_loop ops t n start).
Proof.
  apply keeps_mwp. induction n as [|n IH]; intros s; cbn [wait_loop]; frame_run.
  eapply mwp_mono; [apply IH |]. cbn. congruence.
Qed.

Lemma words_frame t n start s :
  wp (read_words ops t n start) (fun _ s' => f s' = f s) s.
Proof.
  revert s. induction n as [|n IH]; intros s; cbn [read_words]; frame_run.
  unfold nwoas_sera_wait_rx. eapply mwp_cb; [apply wait_frame |]. intros st s1 E1.
  destruct st; frame_run. eapply wp_mono; [apply IH |]. cbn. intros [?|?] ? ?; frame_run.
Qed.

Lemma reg_frame t cmd i out : keeps f (nwoas_sera_read_reg ops t cmd i out).
Proof.
  apply keeps_mwp. intros s. unfold nwoas_sera_read_reg. frame_run.
  eapply wp_mono; [apply words_frame |]. cbn. intros [?|?] ? ?; frame_run.
Qed.

Lemma transaction_frame t cmd i out s :
  wp (transaction ops t cmd i out) (fun _ s' => f s' = f s) s.
Proof.
  unfold transaction. wp_go. eapply mwp_cb; [apply reg_frame |]. intros st s1 E1. destruct st; by wp_go.
Qed.

Lemma snapshot_frame s : wp (snapshot ops) (fun _ s' => f s' = f s) s.
Proof.
  unfold snapshot. frame_run.
  eapply wp_mono; [apply transaction_frame |]. cbn. intros [?|?] s1 E1; frame_run.
  eapply wp_mono; [apply transaction_frame |]. cbn. intros [?|?] s2 E2; frame_run.
  eapply wp_mono; [apply transaction_frame |]. cbn. intros [?|?] s3 E3; frame_run.
  destruct (nwoas_sera_rtc_convert _ _) as [[[] ?] ?]; frame_run.
Qed.
End frame.

(** ** Properties *)

(** Whatever the controller answers and however often it stalls, a
    snapshot writes nothing but a prefix of its three fixed read commands to
    the command register (all three exactly when it succeeds, and the result
    reports their number), reads only the status and reply registers, and
    makes at most 1,800,018 accesses, so it ends even with a frozen counter and
    a stuck controller. *)
Theorem sera_bus_discipline {S} `{L : !Lens S nwoas_sera_rtc_result} (o : nwoas_sera_rtc_ops S)
    env (events : S -> list sera_event) `{!SeraEnv env events} (s : S) :
  sera_ops_present o = Some env ->
  let s' := (nwoas_sera_rtc_read (Some o) true s).2 in
  exists evs n, events s' = events s ++ evs /\ Forall reads_window evs /\ zlen evs <= 1800018 /\
    written evs = take n command_words /\ (n <= 3)%nat /\ cmd_writes (lget s') = Z.of_nat n /\
    ((nwoas_sera_rtc_read (Some o) true s).1 = NWOAS_SERA_OK -> n = 3%nat).
Proof.
  intros Ho s'. pose proof (rtc_read_spec o env events s Ho) as H. apply mwp_iff in H.
  destruct H as (evs & (E & F & Hl) & (n & W & C & Hn & Hok) & _). exists evs, n. by split_and!.
Qed.

(** C16. An accepted snapshot is what the PMU answered: but for polls of the
    status register the bus saw exactly a read of the time, of the offset and
    of the time again, each with a three-word reply whose header echoes the
    command; each 48-bit value is the second word of its reply plus the low
    half of the third times 2^32.  The counter advanced by at most half a
    second between the samples, and the reported time is the floor and the
    fraction of the signed 49-bit sum of the second sample and twice the
    offset, with seconds in 2000..2099 and nanoseconds below 10^9. *)
Theorem sera_snapshot_correct {S} `{L : !Lens S nwoas_sera_rtc_result} (o : nwoas_sera_rtc_ops S)
    env (events : S -> list sera_event) `{!SeraEnv env events} (s : S) :
  sera_ops_present o = Some env ->
  (nwoas_sera_rtc_read (Some o) true s).1 = NWOAS_SERA_OK ->
  let s' := (nwoas_sera_rtc_read (Some o) true s).2 in
  let r := lget s' in
  let t := clock49 (counter1 r) (offset r) in
  (exists evs, events s' = events s ++ evs /\ replied evs r) /\
  in_w 48 (counter0 r) /\ in_w 48 (counter1 r) /\ in_w 48 (offset r) /\
  0 <= counter1 r - counter0 r <= 32768 /\
  length (headers r) = 3%nat /\
  Forall (fun h => h .& NWOAS_SERA_RSP_ECHO_MASK = NWOAS_SERA_RSP_ECHO) (headers r) /\
  utc_seconds r = t / 65536 /\ NWOAS_SERA_UTC_MIN <= utc_seconds r <= NWOAS_SERA_UTC_MAX /\
  subseconds r = t mod 65536 /\ nanoseconds r = (t mod 65536) * 1000000000 / 65536 /\
  0 <= nanoseconds r < 1000000000.
Proof.
  intros Ho Hok s' r t. pose proof (rtc_read_spec o env events s Ho) as H. apply mwp_iff in H.
  destruct H as (evs & (Hev & _) & _ & H). specialize (H Hok). fold s' r in H. cbv zeta in H. fold t in H.
  destruct H as (Hr & H0 & H1 & H2 & H3 & H4 & H5 & _ & _ & _ & _ & Ht & Hs & Hf & Hn).
  split; [by exists evs |]. pose proof (time_status_ok t Ht) as Hrange.
  rewrite Hs, Hf, Hn. pose proof (Z.mod_pos_bound t 65536 ltac:(done)) as Hm.
  unfold in_w, NWOAS_SERA_MAX_COUNTER_SPAN in *. clearbody t r.
  split_and!; try done; try lia; dlia.
Qed.

(** Setting and reading the clock round-trips up to one unit of 2^-16 s:
    with the counter at [c] and the offset a host stores for time [t], the
    conversion gives [t] exactly when [t - c] is even and [t - 1] when it is
    odd, for every counter value, including those ahead of the wall clock. *)
Theorem sera_settime_roundtrip t c :
  0 <= c < 2 ^ 48 -> NWOAS_SERA_UTC_MIN * 65536 < t < (NWOAS_SERA_UTC_MAX + 1) * 65536 ->
  let t' := t - (t - c) mod 2 in
  nwoas_sera_rtc_convert c (settime t c) = (NWOAS_SERA_OK, t' / 65536, t' mod 65536).
Proof.
  intros Hc Ht t'. unfold NWOAS_SERA_UTC_MIN, NWOAS_SERA_UTC_MAX in Ht.
  rewrite convert_spec. cbv zeta. rewrite (Z.mod_small c) by done.
  rewrite (Z.mod_small (settime t c)) by (by apply Z.mod_pos_bound).
  rewrite settime_exact; [| lia | done | dlia]. fold t'. do 2 f_equal.
  unfold time_status, NWOAS_SERA_UTC_MIN, NWOAS_SERA_UTC_MAX. unfold t'.
  destruct (Z.ltb_spec (t - (t - c) mod 2) 0); [dlia |].
  destruct (Z.ltb_spec ((t - (t - c) mod 2) / 65536) 946684800); [dlia |].
  destruct (Z.ltb_spec 4102444799 ((t - (t - c) mod 2) / 65536)); [dlia | done].
Qed.

(** The header says that the discarded bit leaves the seconds unaffected; they
    are one lower when the time set is a whole second and the counter is odd. *)
Lemma sera_settime_whole_second :
  nwoas_sera_rtc_convert 1 (settime (1700000000 * 65536) 1) = (NWOAS_SERA_OK, 1699999999, 65535).
Proof. reflexivity. Qed.

(** ** A concrete controller *)

Record demo_bus := mk_demo_bus { fifo : list Z; log : list sera_event; ticks : Z }.
Definition demo_sera_store : Type := nwoas_sera_rtc_result * demo_bus.
#[export] Instance demo_sera_lens : Lens demo_sera_store nwoas_sera_rtc_result := lens_fst.

Definition demo_read32 (a : Z) : M demo_sera_store Z := fun s =>
  let b := s.2 in
  if a =? NWOAS_SERA_SPMI_RSP then
    let v := u32 (default 0 (head (fifo b))) in
    (v, (s.1, mk_demo_bus (tail (fifo b)) (log b ++ [Rd a v]) (ticks b)))
  else
    let v := match fifo b with [] => 1 .<< 24 | _ => 0 end in
    (v, (s.1, mk_demo_bus (fifo b) (log b ++ [Rd a v]) (ticks b))).

(** The counter reads 1.7e9 s and 10 ticks, the offset is zero. *)
Definition demo_write32 (a v : Z) : M demo_sera_store unit := fun s =>
  let b := s.2 in
  let value := if v =? NWOAS_SERA_CMD_READ_OFFSET then 0 else 1700000000 * 65536 + 10 in
  (tt, (s.1, mk_demo_bus (fifo b ++ [0x003f0f3d; value mod 2 ^ 32; value / 2 ^ 32])
               (log b ++ [Wr a v]) (ticks b))).

Definition demo_sera_env : bus_ops demo_sera_store := {|
  read32 := demo_read32; write32 := demo_write32;
  physical_counter := fun s => (u64 (ticks s.2), (s.1, mk_demo_bus (fifo s.2) (log s.2) (ticks s.2 + 1)));
  counter_frequency := mret 24000000;
|}.
Definition demo_sera_ops : nwoas_sera_rtc_ops demo_sera_store := {|
  op_read32 := Some (read32 demo_sera_env); op_write32 := Some (write32 demo_sera_env);
  op_physical_counter := Some (physical_counter demo_sera_env);
  op_counter_frequency := Some (counter_frequency demo_sera_env);
|}.
Definition demo_log (s : demo_sera_store) : list sera_event := log s.2.

#[export] Instance demo_sera_ok : SeraEnv demo_sera_env demo_log.
Proof.
  split; intros; simplify_eq/=; try done.
  - unfold demo_read32. destruct (a =? NWOAS_SERA_SPMI_RSP); cbn; split_and!; try done.
    + by apply wrap_range.
    + by destruct (fifo s.2).
  - split_and!; try done. by apply wrap_range.
Qed.

Definition demo_sera_start : demo_sera_store :=
  (mk_result 1 2 3 4 5 6 7 8 [] 9 10, mk_demo_bus [] [] 100).

Lemma demo_sera_read :
  (nwoas_sera_rtc_read (Some demo_sera_ops) true demo_sera_start).1 = NWOAS_SERA_OK.
Proof. vm_compute. reflexivity. Qed.

Lemma sera_bus_discipline_witness :
  let s' := (nwoas_sera_rtc_read (Some demo_sera_ops) true demo_sera_start).2 in
  exists evs n, demo_log s' = demo_log demo_sera_start ++ evs /\ Forall reads_window evs /\
    zlen evs <= 1800018 /\ written evs = take n command_words /\ (n <= 3)%nat /\
    cmd_writes (lget s') = Z.of_nat n /\
    ((nwoas_sera_rtc_read (Some demo_sera_ops) true demo_sera_start).1 = NWOAS_SERA_OK -> n = 3%nat).
Proof.
  exact (sera_bus_discipline demo_sera_ops demo_sera_env demo_log demo_sera_start eq_refl).
Defined.

(** The second sample is the last reply: 1.7e9 s and 10 ticks. *)
Lemma sera_snapshot_correct_witness :
  let s' := (nwoas_sera_rtc_read (Some demo_sera_ops) true demo_sera_start).2 in
  let r := lget s' in
  (exists evs, demo_log s' = demo_log demo_sera_start ++ evs /\ replied evs r) /\
  counter1 r = 1700000000 * 65536 + 10 /\ utc_seconds r = 1700000000.
Proof.
  pose proof (sera_snapshot_correct demo_sera_ops demo_sera_env demo_log demo_sera_start eq_refl
    demo_sera_read) as H.
  split; [exact (proj1 H) |]. vm_compute. auto.
Defined.

Lemma sera_settime_roundtrip_witness :
  nwoas_sera_rtc_convert (2 ^ 47 + 1) (settime (1700000000 * 65536 + 77) (2 ^ 47 + 1)) =
  (NWOAS_SERA_OK, 1700000000, 77).
Proof.
  exact (sera_settime_roundtrip (1700000000 * 65536 + 77) (2 ^ 47 + 1) ltac:(lia)
    ltac:(unfold NWOAS_SERA_UTC_MIN, NWOAS_SERA_UTC_MAX; lia)).
Defined.
