(* ===== verification/RtcSeed.v ===== *)
(** * The boot-seeded clock core
      ([firmware-s216/NwoasHardwareBootRtcLib/NwoasRtcSeedCore.c], [.h])

    Pure functions; an out-pointer or an input pointer is an option holding
    the pointee, [None] for NULL.  [civil_from_days] and [days_from_civil] keep
    the code's arithmetic with its unsigned wrap-around; the theorems relate
    them to a calendar that counts days one by one. *)

From S2P Require Import Prelude.

(** ** Constants *)

Definition NWOAS_RTC_SEED_MAGIC : Z := 0x4E525443.
Definition NWOAS_RTC_SEED_VERSION : Z := 1.
Definition NWOAS_RTC_SEED_SIZE : Z := 32.
Definition NWOAS_RTC_SEED_FLAG_VALID : Z := 0x1.
Definition NWOAS_RTC_SEED_FLAG_SPMI : Z := 0x2.
Definition NWOAS_RTC_SEED_FLAG_SMC : Z := 0x4.
Definition NWOAS_RTC_SEED_FLAGS_KNOWN : Z :=
  NWOAS_RTC_SEED_FLAG_VALID .| NWOAS_RTC_SEED_FLAG_SPMI .| NWOAS_RTC_SEED_FLAG_SMC.
Definition NWOAS_RTC_EPOCH_MIN : Z := 946684800.
Definition NWOAS_RTC_EPOCH_MAX : Z := 4102444799.
Definition NWOAS_RTC_YEAR_MIN : Z := 2000.
Definition NWOAS_RTC_YEAR_MAX : Z := 2099.
Definition NWOAS_RTC_TZ_UNSPECIFIED : Z := 0x7FF.
Definition NWOAS_RTC_TZ_MIN : Z := -1440.
Definition NWOAS_RTC_TZ_MAX : Z := 1440.
Definition NWOAS_RTC_DAYLIGHT_ADJUST : Z := 0x01.
Definition NWOAS_RTC_DAYLIGHT_IN : Z := 0x02.
Definition NWOAS_RTC_NS_MAX : Z := 999999999.

Inductive nwoas_rtc_status :=
| NWOAS_RTC_OK
| NWOAS_RTC_E_ARG
| NWOAS_RTC_E_SIZE
| NWOAS_RTC_E_MAGIC
| NWOAS_RTC_E_VERSION
| NWOAS_RTC_E_FLAGS
| NWOAS_RTC_E_FREQ
| NWOAS_RTC_E_FREQ_MISMATCH
| NWOAS_RTC_E_EPOCH_RANGE
| NWOAS_RTC_E_UNDERFLOW
| NWOAS_RTC_E_OVERFLOW
| NWOAS_RTC_E_CALENDAR
| NWOAS_RTC_E_NOT_READY.
#[export] Instance nwoas_rtc_status_eq : EqDecision nwoas_rtc_status.
Proof. solve_decision. Defined.

Record nwoas_rtc_seed := mk_seed {
  magic : Z;
  version : Z;
  epoch : Z;
  s_cntpct : Z;
  s_cntfrq : Z;
  s_flags : Z;
}.

Record nwoas_rtc_calendar := mk_cal {
  year : Z;
  month : Z;
  day : Z;
  hour : Z;
  minute : Z;
  second : Z;
  nanosecond : Z;
  timezone : Z;
  daylight : Z;
}.

(** ** The seed *)

Definition rd_le32 (p : list Z) (o : Z) : Z :=
  byte_at p o .| (byte_at p (o + 1) .<< 8) .| (byte_at p (o + 2) .<< 16) .|
  (byte_at p (o + 3) .<< 24).
Definition rd_le64 (p : list Z) (o : Z) : Z := rd_le32 p o .| (rd_le32 p (o + 4) .<< 32).

Definition seed_zero : nwoas_rtc_seed := mk_seed 0 0 0 0 0 0.

(** The status and the seed stored through [out]. *)
Definition nwoas_rtc_seed_parse (buf : option (list Z)) (len : Z) (out : option nwoas_rtc_seed) :
    nwoas_rtc_status * option nwoas_rtc_seed :=
  match out, buf with
  | None, _ => (NWOAS_RTC_E_ARG, None)
  | Some _, None => (NWOAS_RTC_E_ARG, Some seed_zero)
  | Some _, Some buf =>
      if negb (len =? NWOAS_RTC_SEED_SIZE) then (NWOAS_RTC_E_SIZE, Some seed_zero)
      else
        let s := mk_seed (rd_le32 buf 0) (rd_le32 buf 4) (rd_le64 buf 8) (rd_le64 buf 16)
                   (rd_le32 buf 24) (rd_le32 buf 28) in
        if negb (magic s =? NWOAS_RTC_SEED_MAGIC) then (NWOAS_RTC_E_MAGIC, Some seed_zero)
        else if negb (version s =? NWOAS_RTC_SEED_VERSION) then (NWOAS_RTC_E_VERSION, Some seed_zero)
        else if (s_flags s .& NWOAS_RTC_SEED_FLAG_VALID =? 0) ||
                truthy (s_flags s .& cnot 32 NWOAS_RTC_SEED_FLAGS_KNOWN)
        then (NWOAS_RTC_E_FLAGS, Some seed_zero)
        else (NWOAS_RTC_OK, Some s)
  end.

Definition nwoas_rtc_seed_validate (seed : option nwoas_rtc_seed) (live_cntfrq : Z) :
    nwoas_rtc_status :=
  match seed with
  | None => NWOAS_RTC_E_ARG
  | Some seed =>
      if negb (magic seed =? NWOAS_RTC_SEED_MAGIC) || negb (version seed =? NWOAS_RTC_SEED_VERSION)
      then NWOAS_RTC_E_MAGIC
      else if s_flags seed .& NWOAS_RTC_SEED_FLAG_VALID =? 0 then NWOAS_RTC_E_FLAGS
      else if (s_cntfrq seed =? 0) || (live_cntfrq =? 0) || (0xFFFFFFFF <? live_cntfrq)
      then NWOAS_RTC_E_FREQ
      else if negb (s_cntfrq seed =? live_cntfrq) then NWOAS_RTC_E_FREQ_MISMATCH
      else if (epoch seed <? NWOAS_RTC_EPOCH_MIN) || (NWOAS_RTC_EPOCH_MAX <? epoch seed)
      then NWOAS_RTC_E_EPOCH_RANGE
      else NWOAS_RTC_OK
  end.

(** ** Advancing the clock

    Both out-pointers are valid; the result is the status with the epoch and
    the nanoseconds stored. *)
Definition nwoas_rtc_advance (seed : option nwoas_rtc_seed) (cntpct_now cntfrq : Z) :
    nwoas_rtc_status * Z * Z :=
  match seed with
  | None => (NWOAS_RTC_E_ARG, 0, 0)
  | Some seed =>
      if (cntfrq =? 0) || (0xFFFFFFFF <? cntfrq) then (NWOAS_RTC_E_FREQ, 0, 0)
      else if (epoch seed <? NWOAS_RTC_EPOCH_MIN) || (NWOAS_RTC_EPOCH_MAX <? epoch seed)
      then (NWOAS_RTC_E_EPOCH_RANGE, 0, 0)
      else if cntpct_now <? s_cntpct seed then (NWOAS_RTC_E_UNDERFLOW, 0, 0)
      else
        let delta := u64 (cntpct_now - s_cntpct seed) in
        let secs := delta / cntfrq in
        let rem := u64 (delta - secs * cntfrq) in
        if u64 (NWOAS_RTC_EPOCH_MAX - epoch seed) <? secs then (NWOAS_RTC_E_OVERFLOW, 0, 0)
        else (NWOAS_RTC_OK, u64 (epoch seed + secs), u32 (u64 (rem * 1000000000) / cntfrq))
  end.

(** ** The calendar *)

Definition nwoas_rtc_is_leap_year (year : Z) : bool :=
  if negb (year mod 4 =? 0) then false
  else if negb (year mod 100 =? 0) then true
  else year mod 400 =? 0.

Definition dim : list Z := [31; 28; 31; 30; 31; 30; 31; 31; 30; 31; 30; 31].

Definition nwoas_rtc_days_in_month (year month : Z) : Z :=
  if (month <? 1) || (12 <? month) then 0
  else if (month =? 2) && nwoas_rtc_is_leap_year year then 29
  else byte_at dim (month - 1).

(** [(y, m, d)] of a number of days since 1970-01-01. *)
Definition civil_from_days (z0 : Z) : Z * Z * Z :=
  let z := u64 (z0 + 719468) in
  let era := z / 146097 in
  let doe := u64 (z - era * 146097) in
  let yoe := u64 (doe - doe / 1460 + doe / 36524 - doe / 146096) / 365 in
  let yy := u64 (yoe + era * 400) in
  let doy := u64 (doe - (365 * yoe + yoe / 4 - yoe / 100)) in
  let mp := u64 (5 * doy + 2) / 153 in
  let d := u32 (doy - u64 (153 * mp + 2) / 5 + 1) in
  let m := u32 (if mp <? 10 then mp + 3 else mp - 9) in
  let y := u32 (yy + (if m <=? 2 then 1 else 0)) in
  (y, m, d).

Definition days_from_civil (y0 m d : Z) : Z :=
  let y := u32 (y0 - (if m <=? 2 then 1 else 0)) in
  let era := y / 400 in
  let yoe := u64 (y - era * 400) in
  let doy := u32 (u32 (153 * u32 (if 2 <? m then m - 3 else m + 9) + 2) / 5 + d - 1) in
  let doe := u64 (yoe * 365 + yoe / 4 - yoe / 100 + doy) in
  u64 (era * 146097 + doe - 719468).

Definition cal_zero : nwoas_rtc_calendar := mk_cal 0 0 0 0 0 0 0 NWOAS_RTC_TZ_UNSPECIFIED 0.

Definition nwoas_rtc_epoch_to_calendar (epoch : Z) (cal : option nwoas_rtc_calendar) :
    nwoas_rtc_status * option nwoas_rtc_calendar :=
  match cal with
  | None => (NWOAS_RTC_E_ARG, None)
  | Some _ =>
      if (epoch <? NWOAS_RTC_EPOCH_MIN) || (NWOAS_RTC_EPOCH_MAX <? epoch)
      then (NWOAS_RTC_E_EPOCH_RANGE, Some cal_zero)
      else
        let days := epoch / 86400 in
        let sod := u32 (epoch - days * 86400) in
        let '(y, m, d) := civil_from_days days in
        (NWOAS_RTC_OK,
         Some (mk_cal (u16 y) (u8 m) (u8 d) (u8 (sod / 3600)) (u8 ((sod / 60) mod 60))
                 (u8 (sod mod 60)) 0 NWOAS_RTC_TZ_UNSPECIFIED 0))
  end.

Definition nwoas_rtc_calendar_validate (cal : option nwoas_rtc_calendar) : nwoas_rtc_status :=
  match cal with
  | None => NWOAS_RTC_E_ARG
  | Some cal =>
      if (year cal <? NWOAS_RTC_YEAR_MIN) || (NWOAS_RTC_YEAR_MAX <? year cal)
      then NWOAS_RTC_E_CALENDAR
      else if (month cal <? 1) || (12 <? month cal) then NWOAS_RTC_E_CALENDAR
      else if (day cal <? 1) || (nwoas_rtc_days_in_month (year cal) (month cal) <? day cal)
      then NWOAS_RTC_E_CALENDAR
      else if (23 <? hour cal) || (59 <? minute cal) || (59 <? second cal)
      then NWOAS_RTC_E_CALENDAR
      else if NWOAS_RTC_NS_MAX <? nanosecond cal then NWOAS_RTC_E_CALENDAR
      else if negb (timezone cal =? NWOAS_RTC_TZ_UNSPECIFIED) &&
              ((timezone cal <? NWOAS_RTC_TZ_MIN) || (NWOAS_RTC_TZ_MAX <? timezone cal))
      then NWOAS_RTC_E_CALENDAR
      else if negb (daylight cal =? 0) && negb (daylight cal =? NWOAS_RTC_DAYLIGHT_ADJUST) &&
              negb (daylight cal =? NWOAS_RTC_DAYLIGHT_ADJUST .| NWOAS_RTC_DAYLIGHT_IN)
      then NWOAS_RTC_E_CALENDAR
      else NWOAS_RTC_OK
  end.

(** [epoch_out] is valid; the result is the status with the epoch stored. *)
Definition nwoas_rtc_calendar_to_epoch (cal : option nwoas_rtc_calendar) : nwoas_rtc_status * Z :=
  match nwoas_rtc_calendar_validate cal, cal with
  | NWOAS_RTC_OK, Some cal =>
      let days := days_from_civil (year cal) (month cal) (day cal) in
      (NWOAS_RTC_OK,
       u64 (days * 86400 + hour cal * 3600 + minute cal * 60 + second cal))
  | st, _ => (st, 0)
  end.

Definition nwoas_rtc_status_str (st : nwoas_rtc_status) : list Z :=
  match st with
  | NWOAS_RTC_OK => chars "ok"
  | NWOAS_RTC_E_ARG => chars "null-argument"
  | NWOAS_RTC_E_SIZE => chars "seed-size"
  | NWOAS_RTC_E_MAGIC => chars "seed-magic"
  | NWOAS_RTC_E_VERSION => chars "seed-version"
  | NWOAS_RTC_E_FLAGS => chars "seed-flags"
  | NWOAS_RTC_E_FREQ => chars "frequency"
  | NWOAS_RTC_E_FREQ_MISMATCH => chars "frequency-mismatch"
  | NWOAS_RTC_E_EPOCH_RANGE => chars "epoch-range"
  | NWOAS_RTC_E_UNDERFLOW => chars "counter-underflow"
  | NWOAS_RTC_E_OVERFLOW => chars "time-overflow"
  | NWOAS_RTC_E_CALENDAR => chars "calendar-field"
  | NWOAS_RTC_E_NOT_READY => chars "not-ready"
  end.

(** ** Specification vocabulary *)

(** The wire format of a seed. *)
Definition seed_bytes (s : nwoas_rtc_seed) : list Z :=
  le_bytes 4 (magic s) ++ le_bytes 4 (version s) ++ le_bytes 8 (epoch s) ++
  le_bytes 8 (s_cntpct s) ++ le_bytes 4 (s_cntfrq s) ++ le_bytes 4 (s_flags s).
Definition seed_ok (s : nwoas_rtc_seed) : Prop :=
  magic s = NWOAS_RTC_SEED_MAGIC /\ version s = NWOAS_RTC_SEED_VERSION /\
  in_w 64 (epoch s) /\ in_w 64 (s_cntpct s) /\ in_w 32 (s_cntfrq s) /\
  s_flags s ∈ [1; 3; 5; 7].

(** Dates of 2000..2099 and the day after a date. *)
Definition date : Type := Z * Z * Z.
Definition valid_date (x : date) : Prop :=
  let '(y, m, d) := x in
  2000 <= y <= 2099 /\ 1 <= m <= 12 /\ 1 <= d <= nwoas_rtc_days_in_month y m.
Definition next_day (x : date) : date :=
  let '(y, m, d) := x in
  if d <? nwoas_rtc_days_in_month y m then (y, m, d + 1)
  else if m <? 12 then (y, m + 1, 1) else (y + 1, 1, 1).
Definition days_of (x : date) : Z := let '(y, m, d) := x in days_from_civil y m d.

(** ** The seed *)

Lemma rd_le32_val p o :
  rd_le32 p o = le_val [byte_at p o; byte_at p (o + 1); byte_at p (o + 2); byte_at p (o + 3)].
Proof.
  unfold rd_le32. cbn [le_val]. rewrite Z.shiftl_0_l, Z.lor_0_r, !Z.shiftl_lor, !Z.shiftl_shiftl by done.
  by rewrite <- !Z.lor_assoc.
Qed.

Lemma rd_le64_val p o :
  rd_le64 p o = le_val [byte_at p o; byte_at p (o + 1); byte_at p (o + 2); byte_at p (o + 3);
    byte_at p (o + 4); byte_at p (o + 5); byte_at p (o + 6); byte_at p (o + 7)].
Proof.
  unfold rd_le64, rd_le32. cbn [le_val].
  rewrite Z.shiftl_0_l, Z.lor_0_r, !Z.shiftl_lor, !Z.shiftl_shiftl by done.
  replace (o + 4 + 1) with (o + 5) by lia. replace (o + 4 + 2) with (o + 6) by lia.
  replace (o + 4 + 3) with (o + 7) by lia. by rewrite <- !Z.lor_assoc.
Qed.

Definition seed_of (b : list Z) : nwoas_rtc_seed :=
  mk_seed (rd_le32 b 0) (rd_le32 b 4) (rd_le64 b 8) (rd_le64 b 16) (rd_le32 b 24) (rd_le32 b 28).

Lemma seed_of_bytes s :
  in_w 32 (magic s) -> in_w 32 (version s) -> in_w 64 (epoch s) -> in_w 64 (s_cntpct s) ->
  in_w 32 (s_cntfrq s) -> in_w 32 (s_flags s) -> seed_of (seed_bytes s) = s.
Proof.
  intros H1 H2 H3 H4 H5 H6. destruct s as [a b c d e f]. cbn in *.
  unfold seed_of. rewrite !rd_le32_val, !rd_le64_val.
  f_equal;
  [ transitivity (le_val (le_bytes 4 a)) | transitivity (le_val (le_bytes 4 b))
  | transitivity (le_val (le_bytes 8 c)) | transitivity (le_val (le_bytes 8 d))
  | transitivity (le_val (le_bytes 4 e)) | transitivity (le_val (le_bytes 4 f)) ];
  try reflexivity; rewrite le_val_bytes; by apply wrap_small.
Qed.

Lemma le_bytes_val_n n l : length l = n -> bytes_ok l -> le_bytes n (le_val l) = l.
Proof. intros <-. apply le_bytes_val. Qed.

Lemma bytes_of_seed b : bytes_ok b -> zlen b = 32 -> seed_bytes (seed_of b) = b.
Proof.
  intros Hb Hl. assert (Hn : length b = 32%nat) by (unfold zlen in Hl; lia). clear Hl.
  unfold seed_bytes, seed_of. cbn [magic version epoch s_cntpct s_cntfrq s_flags].
  rewrite !rd_le32_val, !rd_le64_val.
  rewrite !le_bytes_val_n by (done || (repeat constructor; by apply byte_at_ok)).
  do 32 (destruct b as [|? b]; [done |]). by destruct b.
Qed.

Lemma flags_known f : in_w 32 f ->
  (f .& 1 =? 0) || truthy (f .& cnot 32 7) = false <-> f ∈ [1; 3; 5; 7].
Proof.
  intros Hf. split.
  - intros H. bool_props.
    assert (Hlow : f = f .& 7).
    { apply Z.bits_inj'. intros i Hi. rewrite Z.land_spec.
      assert (Hz : Z.testbit (f .& cnot 32 7) i = false) by (by rewrite H0, Z.bits_0).
      rewrite Z.land_spec, testbit_cnot in Hz by done.
      destruct (Z.testbit f i) eqn:E; [| done]. cbn in Hz |- *.
      destruct (Z.ltb_spec i 32); cbn in Hz; [| by rewrite (testbit_in_w 32) in E].
      by apply negb_false_iff in Hz. }
    change 7 with (2 ^ 3 - 1) in Hlow. rewrite land_ones_mod in Hlow by done.
    change (f .& 1) with (f .& (2 ^ 1 - 1)) in H. rewrite land_ones_mod in H by done.
    pose proof (Z.mod_pos_bound f (2 ^ 3) ltac:(done)). change (2 ^ 3) with 8 in *.
    change (2 ^ 1) with 2 in H.
    assert (f = 1 \/ f = 3 \/ f = 5 \/ f = 7) by dlia. set_solver.
  - intros H. repeat (apply elem_of_cons in H as [-> | H]; [done |]). by apply elem_of_nil in H.
Qed.

Lemma parse_spec b len s0 :
  bytes_ok b -> zlen b = len ->
  let '(st, s') := nwoas_rtc_seed_parse (Some b) len (Some s0) in
  (st = NWOAS_RTC_OK -> exists s, s' = Some s /\ b = seed_bytes s /\ seed_ok s) /\
  (st <> NWOAS_RTC_OK -> s' = Some seed_zero).
Proof.
  intros Hb Hl. destruct (nwoas_rtc_seed_parse (Some b) len (Some s0)) as [st s'] eqn:E.
  revert E. unfold nwoas_rtc_seed_parse. cbv zeta.
  repeat case_match; intros [= <- <-]; try (by split).
  cbn [magic version s_flags] in *. bool_props. split; [intros _ | done]. eexists. split; [reflexivity |].
  unfold NWOAS_RTC_SEED_SIZE in *. subst len. split; [by rewrite <- (bytes_of_seed b) at 1 |].
  assert (Hr : forall o, in_w 32 (rd_le32 b o)).
  { intros o. rewrite rd_le32_val. apply (le_val_range [_; _; _; _]).
    repeat constructor; by apply byte_at_ok. }
  assert (Hr8 : forall o, in_w 64 (rd_le64 b o)).
  { intros o. rewrite rd_le64_val. apply (le_val_range [_; _; _; _; _; _; _; _]).
    repeat constructor; by apply byte_at_ok. }
  unfold seed_ok. cbn [magic version epoch s_cntpct s_cntfrq s_flags].
  do 2 (split; [done |]). do 2 (split; [apply Hr8 |]). split; [apply Hr |].
  apply flags_known; [apply Hr |]. apply orb_false_iff. split; [by apply Z.eqb_neq |].
  by apply truthy_false.
Qed.

(** ** Advancing *)

Lemma floor_total d f :
  0 < f -> (d / f) * 1000000000 + (d - d / f * f) * 1000000000 / f = d * 1000000000 / f.
Proof.
  intros Hf. rewrite <- Z.div_add_l by lia. f_equal. lia.
Qed.

Definition seed_usable (s : nwoas_rtc_seed) : Prop :=
  NWOAS_RTC_EPOCH_MIN <= epoch s <= NWOAS_RTC_EPOCH_MAX /\ in_w 64 (s_cntpct s).

Lemma advance_spec s now f :
  seed_usable s -> in_w 64 now -> 0 < f < 2 ^ 32 -> s_cntpct s <= now ->
  let d := now - s_cntpct s in
  epoch s + d / f <= NWOAS_RTC_EPOCH_MAX ->
  nwoas_rtc_advance (Some s) now f =
    (NWOAS_RTC_OK, epoch s + d / f, (d - d / f * f) * 1000000000 / f) /\
  0 <= (d - d / f * f) * 1000000000 / f < 1000000000.
Proof.
  intros [He Hc] Hn Hf Hle d Hov. unfold nwoas_rtc_advance, NWOAS_RTC_EPOCH_MIN, NWOAS_RTC_EPOCH_MAX in *.
  unfold in_w in *. change (2 ^ 32) with 4294967296 in *. change (2 ^ 64) with 18446744073709551616 in *.
  rewrite (proj2 (Z.eqb_neq f 0)), (proj2 (Z.ltb_ge 0xFFFFFFFF f)) by lia.
  rewrite (proj2 (Z.ltb_ge (epoch s) _)), (proj2 (Z.ltb_ge _ (epoch s))) by lia.
  rewrite (proj2 (Z.ltb_ge now _)) by lia. cbn [orb]. fold d.
  pose proof (Z.div_pos d f ltac:(lia) ltac:(lia)). pose proof (Z.mod_pos_bound d f ltac:(lia)) as Hm.
  assert (Er : d - d / f * f = d mod f) by (rewrite Z.mod_eq by lia; lia).
  assert (Hns : 0 <= d mod f * 1000000000 / f < 1000000000).
  { split; [apply Z.div_pos; lia |]. apply Z.div_lt_upper_bound; lia. }
  rewrite (wrap_small 64 d) by (unfold in_w; lia). rewrite Er.
  rewrite (wrap_small 64 (d mod f)) by (unfold in_w; lia).
  rewrite (wrap_small 64 (4102444799 - _)) by (unfold in_w; lia).
  rewrite (proj2 (Z.ltb_ge _ (d / f))) by lia.
  rewrite (wrap_small 64 (_ + _)) by (unfold in_w; lia).
  rewrite (wrap_small 64 (_ * _)) by (unfold in_w; lia).
  rewrite (wrap_small 32) by (unfold in_w; lia). done.
Qed.

Lemma advance_ok_iff s now f :
  seed_usable s -> in_w 64 now -> in_w 64 f ->
  (nwoas_rtc_advance (Some s) now f).1.1 = NWOAS_RTC_OK <->
  0 < f < 2 ^ 32 /\ s_cntpct s <= now /\
  epoch s + (now - s_cntpct s) / f <= NWOAS_RTC_EPOCH_MAX.
Proof.
  intros Hs Hn Hf. split; [| intros (H1 & H2 & H3); by rewrite (proj1 (advance_spec s now f Hs Hn H1 H2 H3))].
  destruct Hs as [He Hc].
  unfold nwoas_rtc_advance, NWOAS_RTC_EPOCH_MIN, NWOAS_RTC_EPOCH_MAX in *. cbv zeta.
  unfold in_w in *. change (2 ^ 32) with 4294967296. change (2 ^ 64) with 18446744073709551616 in *.
  destruct (Z.eqb_spec f 0), (Z.ltb_spec 0xFFFFFFFF f); cbn [orb]; try done.
  case_match; [done |]. destruct (Z.ltb_spec now (s_cntpct s)); [done |].
  rewrite (wrap_small 64 (now - _)) by (unfold in_w; lia).
  rewrite (wrap_small 64 (4102444799 - _)) by (unfold in_w; lia).
  destruct (Z.ltb_spec (4102444799 - epoch s) ((now - s_cntpct s) / f)); [done |]. intros _. lia.
Qed.

(** ** The calendar *)

Lemma leap_2000 y : 2000 <= y <= 2099 -> nwoas_rtc_is_leap_year y = (y mod 4 =? 0).
Proof.
  intros Hy. unfold nwoas_rtc_is_leap_year.
  destruct (Z.eqb_spec (y mod 4) 0), (Z.eqb_spec (y mod 100) 0), (Z.eqb_spec (y mod 400) 0); cbn;
    try done; dlia.
Qed.

Lemma dim_values y m : 2000 <= y <= 2099 -> 1 <= m <= 12 ->
  nwoas_rtc_days_in_month y m =
    if m =? 2 then (if y mod 4 =? 0 then 29 else 28)
    else if (m =? 4) || (m =? 6) || (m =? 9) || (m =? 11) then 30 else 31.
Proof.
  intros Hy Hm. unfold nwoas_rtc_days_in_month. rewrite leap_2000 by done.
  assert (m ∈ seqZ 1 12) as Hin by (apply elem_of_seqZ; lia).
  vm_compute seqZ in Hin.
  repeat (apply elem_of_cons in Hin as [-> | Hin]; [by destruct (y mod 4 =? 0) |]).
  by apply elem_of_nil in Hin.
Qed.

(** Days before the month [m] in a year that starts in March. *)
Definition march_days (m : Z) : Z := (153 * (if 2 <? m then m - 3 else m + 9) + 2) / 5.

(** The year of era of a day of era. *)
Lemma yoe_inverse a doy :
  0 <= a <= 99 -> 0 <= doy <= 365 -> (doy = 365 -> a mod 4 = 3 /\ a < 99) ->
  let doe := 365 * a + a / 4 + doy in
  (doe - doe / 1460 + doe / 36524 - doe / 146096) / 365 = a.
Proof.
  intros Ha Hd Hl doe.
  assert (Hk : exists k r, a = 4 * k + r /\ 0 <= k <= 24 /\ 0 <= r <= 3 /\ a / 4 = k /\ a mod 4 = r).
  { exists (a / 4), (a mod 4). dlia. }
  destruct Hk as (k & r & E & Hk & Hr & Ed & Em). unfold doe. rewrite Ed, E. rewrite Em in Hl.
  assert (doe < 36525 /\ 0 <= doe) as Hdoe by (unfold doe; lia).
  replace ((365 * (4 * k + r) + k + doy) / 146096) with 0 by dlia.
  assert (r = 0 \/ r = 1 \/ r = 2 \/ r = 3) as [-> | [-> | [-> | ->]]] by lia; dlia.
Qed.

Lemma month_inverse m d : 1 <= m <= 12 -> 1 <= d <= 31 ->
  d <= (if m =? 2 then 29 else if (m =? 4) || (m =? 6) || (m =? 9) || (m =? 11) then 30 else 31) ->
  let doy := march_days m + d - 1 in
  let mp := (5 * doy + 2) / 153 in
  0 <= doy <= 365 /\ doy - (153 * mp + 2) / 5 + 1 = d /\ 0 <= mp <= 11 /\
  (if mp <? 10 then mp + 3 else mp - 9) = m.
Proof.
  intros Hm Hd Hdim. cbv zeta.
  assert (m ∈ seqZ 1 12) as Hin by (apply elem_of_seqZ; lia).
  vm_compute seqZ in Hin.
  repeat (apply elem_of_cons in Hin as [-> | Hin]; [
    cbn [Z.eqb Pos.eqb orb] in Hdim;
    match goal with |- context [march_days ?k] =>
      let v := eval vm_compute in (march_days k) in
      let mp := eval vm_compute in ((5 * march_days k + 2) / 153) in
      change (march_days k) with v;
      replace ((5 * (v + d - 1) + 2) / 153) with mp by dlia
    end; split_and!; first [dlia | reflexivity] |]).
  by apply elem_of_nil in Hin.
Qed.

Lemma march_days_range m : 1 <= m <= 12 -> 0 <= march_days m <= 337.
Proof. intros Hm. unfold march_days. destruct (Z.ltb_spec 2 m); dlia. Qed.

(** The code's day number without its wrap-around: [a] is the March-based year
    of the 400-year era that starts in 2000. *)
Lemma days_eq y m d : valid_date (y, m, d) ->
  let a := y - 2000 - (if m <=? 2 then 1 else 0) in
  days_of (y, m, d) = 11017 + 365 * a + a / 4 + march_days m + d - 1.
Proof.
  intros (Hy & Hm & Hd) a. cbn in Hd. rewrite dim_values in Hd by done.
  assert (Hd31 : d <= 31) by (repeat case_match; lia).
  pose proof (march_days_range m Hm) as Hmd. unfold days_of, days_from_civil.
  assert (Hy' : u32 (y - (if m <=? 2 then 1 else 0)) = 2000 + a).
  { rewrite wrap_small; [unfold a; lia |]. unfold in_w. change (2 ^ 32) with 4294967296.
    destruct (m <=? 2); lia. }
  rewrite Hy'. assert (Ha : -1 <= a <= 99) by (unfold a; case_match; lia).
  assert (Hmi : u32 (if 2 <? m then m - 3 else m + 9) = if 2 <? m then m - 3 else m + 9).
  { apply wrap_small. unfold in_w. change (2 ^ 32) with 4294967296. destruct (Z.ltb_spec 2 m); lia. }
  rewrite Hmi, (wrap_small 32 (153 * _ + 2))
    by (unfold in_w; change (2 ^ 32) with 4294967296; destruct (Z.ltb_spec 2 m); lia).
  fold (march_days m). clear Hy' Hmi.
  rewrite (wrap_small 32) by (unfold in_w; change (2 ^ 32) with 4294967296; lia).
  clearbody a.
  assert (He : (2000 + a) / 400 = if a <? 0 then 4 else 5) by (destruct (Z.ltb_spec a 0); dlia).
  rewrite He. rewrite (wrap_small 64 (2000 + a - _))
    by (unfold in_w; change (2 ^ 64) with 18446744073709551616; destruct (Z.ltb_spec a 0); lia).
  destruct (Z.ltb_spec a 0).
  - assert (a = -1) as -> by lia. change ((-1) / 4) with (-1).
    change ((2000 + -1 - 4 * 400) / 4) with 99. change ((2000 + -1 - 4 * 400) / 100) with 3.
    rewrite (wrap_small 64 (_ + (_ + d - 1))) by (unfold in_w; change (2 ^ 64) with 18446744073709551616; lia).
    rewrite wrap_small by (unfold in_w; change (2 ^ 64) with 18446744073709551616; lia). lia.
  - replace (2000 + a - 5 * 400) with a by lia. replace (a / 100) with 0 by dlia.
    assert (0 <= a / 4 <= 25) by dlia.
    rewrite (wrap_small 64 (_ + (_ + d - 1))) by (unfold in_w; change (2 ^ 64) with 18446744073709551616; lia).
    rewrite wrap_small by (unfold in_w; change (2 ^ 64) with 18446744073709551616; lia). lia.
Qed.

(** What is left of a date when its day number is known. *)
Lemma valid_doy y m d : valid_date (y, m, d) ->
  let a := y - 2000 - (if m <=? 2 then 1 else 0) in
  let doy := march_days m + d - 1 in
  -1 <= a <= 99 /\ 0 <= doy <= 365 /\ (a = -1 -> 306 <= doy) /\
  (doy = 365 -> a mod 4 = 3 /\ a < 99) /\
  (let mp := (5 * doy + 2) / 153 in
   doy - (153 * mp + 2) / 5 + 1 = d /\ 0 <= mp <= 11 /\ (if mp <? 10 then mp + 3 else mp - 9) = m).
Proof.
  intros (Hy & Hm & Hd) a doy. cbn in Hd. rewrite dim_values in Hd by done.
  destruct (month_inverse m d Hm) as (H1 & H2 & H3 & H4);
    [destruct (m =? 2), (y mod 4 =? 0), ((m =? 4) || (m =? 6) || (m =? 9) || (m =? 11)); lia
    | destruct (m =? 2), (y mod 4 =? 0); lia |].
  assert (Hd31 : d <= 31).
  { destruct (m =? 2), (y mod 4 =? 0), ((m =? 4) || (m =? 6) || (m =? 9) || (m =? 11)); lia. }
  fold doy in H1, H2, H3, H4.
  split; [unfold a; destruct (Z.leb_spec m 2); lia |].
  split; [exact H1 |].
  assert (Hlow : a = -1 -> 306 <= doy).
  { intros Ha. unfold doy, march_days, a in *.
    destruct (Z.leb_spec m 2), (Z.ltb_spec 2 m); dlia. }
  split; [exact Hlow |]. split; [| auto].
  intros He. assert (Hmd : m = 2 /\ d = 29).
  { clear H2 H3 H4. unfold doy, march_days in He.
    destruct (Z.ltb_spec 2 m); [exfalso; dlia |].
    destruct (Z.eqb_spec m 2), (y mod 4 =? 0); dlia. }
  destruct Hmd as [-> ->]. cbn in Hd. unfold a. destruct (Z.eqb_spec (y mod 4) 0); [| lia].
  cbn. dlia.
Qed.

Lemma civil_of_days y m d : valid_date (y, m, d) -> civil_from_days (days_of (y, m, d)) = (y, m, d).
Proof.
  intros Hv. pose proof (days_eq y m d Hv) as Hdays. pose proof (valid_doy y m d Hv) as H.
  pose proof Hv as (Hy & Hm & _). cbv zeta in *. rewrite Hdays. clear Hdays.
  assert (Hdb : 0 <= d <= 31).
  { destruct Hv as (_ & _ & Hv). rewrite dim_values in Hv by done.
    destruct (m =? 2), (y mod 4 =? 0), ((m =? 4) || (m =? 6) || (m =? 9) || (m =? 11)); lia. }
  set (a := y - 2000 - (if m <=? 2 then 1 else 0)) in *.
  set (doy := march_days m + d - 1) in *. destruct H as (Ha & Hd & Hd0 & Hl & Hmd & Hmp & Hmm).
  unfold civil_from_days.
  replace (11017 + 365 * a + a / 4 + march_days m + d - 1 + 719468)
    with (730485 + (365 * a + a / 4 + doy)) by (unfold doy; lia).
  assert (Hq : -1 <= a / 4 <= 24) by dlia.
  assert (Hdoe0 : 0 <= 365 * a + a / 4 + doy <= 36524 \/ a = -1).
  { destruct (Z.eq_dec a (-1)); [by right | left]. split; [dlia |].
    destruct (Z.eq_dec doy 365) as [E|E]; [destruct (Hl E); dlia | dlia]. }
  assert (Hend : forall yy, yy = 2000 + a -> (let m' := u32 (if (5 * doy + 2) / 153 <? 10
      then (5 * doy + 2) / 153 + 3 else (5 * doy + 2) / 153 - 9) in
    (u32 (yy + (if m' <=? 2 then 1 else 0)), m',
     u32 (doy - u64 (153 * ((5 * doy + 2) / 153) + 2) / 5 + 1))) = (y, m, d)).
  { intros yy ->. cbv zeta. rewrite Hmm, (wrap_small 32 m) by (unfold in_w; lia).
    rewrite (wrap_small 64) by (unfold in_w; lia). rewrite Hmd.
    rewrite (wrap_small 32 d) by (unfold in_w; lia).
    rewrite (wrap_small 32) by (unfold in_w; unfold a; destruct (m <=? 2); lia).
    do 2 f_equal. unfold a. destruct (m <=? 2); lia. }
  destruct (Z.eq_dec a (-1)) as [Ea|Ea].
  - specialize (Hd0 Ea). rewrite Ea in *. change (-1 / 4) with (-1).
    rewrite (wrap_small 64 (730485 + _)) by (unfold in_w; lia).
    replace ((730485 + (365 * -1 + -1 + doy)) / 146097) with 4 by dlia.
    replace (730485 + (365 * -1 + -1 + doy) - 4 * 146097) with (145731 + doy) by lia.
    rewrite (wrap_small 64 (145731 + doy)) by (unfold in_w; lia).
    assert (Hyoe : (145731 + doy - (145731 + doy) / 1460 + (145731 + doy) / 36524 - (145731 + doy) / 146096) / 365 = 399).
    { replace ((145731 + doy) / 36524) with (if doy <? 365 then 3 else 4); [| destruct (Z.ltb_spec doy 365); dlia].
      destruct (Z.ltb_spec doy 365); dlia. }
    rewrite (wrap_small 64 (145731 + doy - _ + _ - _)) by (unfold in_w; dlia). rewrite Hyoe.
    change (399 / 4) with 99. change (399 / 100) with 3.
    replace (145731 + doy - (365 * 399 + 99 - 3)) with doy by lia.
    rewrite (wrap_small 64 doy) by (unfold in_w; lia).
    rewrite (wrap_small 64 (5 * doy + 2)) by (unfold in_w; lia). by apply Hend.
  - destruct Hdoe0 as [Hdoe|]; [| done].
    assert (Hyoe := yoe_inverse a doy ltac:(lia) Hd Hl). cbv zeta in Hyoe.
    set (doe := 365 * a + a / 4 + doy) in *.
    rewrite (wrap_small 64 (730485 + _)) by (unfold in_w; lia).
    replace ((730485 + doe) / 146097) with 5 by dlia.
    replace (730485 + doe - 5 * 146097) with doe by lia.
    rewrite (wrap_small 64 doe) by (unfold in_w; lia).
    rewrite (wrap_small 64 (doe - _ + _ - _)) by (unfold in_w; dlia). rewrite Hyoe.
    replace (a / 100) with 0 by dlia.
    replace (doe - (365 * a + a / 4 - 0)) with doy by (unfold doe; lia).
    rewrite (wrap_small 64 doy) by (unfold in_w; lia).
    rewrite (wrap_small 64 (5 * doy + 2)), (wrap_small 64 (a + 5 * 400)) by (unfold in_w; lia).
    apply Hend. lia.
Qed.

Lemma next_day_spec x : valid_date x -> x <> (2099, 12, 31) ->
  valid_date (next_day x) /\ days_of (next_day x) = days_of x + 1.
Proof.
  destruct x as [[y m] d]. intros Hv Hn. pose proof Hv as (Hy & Hm & Hd).
  rewrite (days_eq y m d Hv). cbn [next_day].
  assert (Hstep : forall y' m' d', valid_date (y', m', d') ->
    11017 + 365 * (y' - 2000 - (if m' <=? 2 then 1 else 0)) +
      (y' - 2000 - (if m' <=? 2 then 1 else 0)) / 4 + march_days m' + d' - 1 =
    11017 + 365 * (y - 2000 - (if m <=? 2 then 1 else 0)) +
      (y - 2000 - (if m <=? 2 then 1 else 0)) / 4 + march_days m + d - 1 + 1 ->
    valid_date (y', m', d') /\ days_of (y', m', d') =
    11017 + 365 * (y - 2000 - (if m <=? 2 then 1 else 0)) +
      (y - 2000 - (if m <=? 2 then 1 else 0)) / 4 + march_days m + d - 1 + 1).
  { intros y' m' d' H1 H2. split; [done |]. by rewrite (days_eq y' m' d' H1). }
  pose proof (dim_values y m Hy Hm) as Hdim.
  destruct (Z.ltb_spec d (nwoas_rtc_days_in_month y m)).
  - apply Hstep; [| lia]. split; [done |]. split; [done | lia].
  - assert (Hd' : d = nwoas_rtc_days_in_month y m) by lia. rewrite Hdim in Hd'.
    destruct (Z.ltb_spec m 12).
    + apply Hstep.
      { split; [done |]. split; [lia |]. rewrite dim_values by lia.
        destruct (m + 1 =? 2), (y mod 4 =? 0), ((m + 1 =? 4) || (m + 1 =? 6) || (m + 1 =? 9) || (m + 1 =? 11));
          lia. }
      clear Hstep Hv Hd Hdim Hn. assert (m ∈ seqZ 1 11) as Hin by (apply elem_of_seqZ; lia).
      vm_compute seqZ in Hin.
      repeat (apply elem_of_cons in Hin as [-> | Hin]; [
        cbn [Z.eqb Pos.eqb orb] in Hd';
        repeat match goal with
        | |- context [?k <=? 2] => let v := eval vm_compute in (k <=? 2) in change (k <=? 2) with v
        | |- context [march_days ?k] =>
            let v := eval vm_compute in (march_days k) in change (march_days k) with v
        end;
        destruct (Z.eqb_spec (y mod 4) 0); dlia |]).
      by apply elem_of_nil in Hin.
    + assert (m = 12) as -> by lia. cbn in Hd'. subst d.
      assert (y < 2099) by (destruct (Z.eq_dec y 2099) as [-> |]; [done | lia]).
      apply Hstep.
      { split; [lia |]. split; [lia |]. by rewrite dim_values by lia. }
      change (march_days 1) with 306. change (march_days 12) with 275.
      change (1 <=? 2) with true. change (12 <=? 2) with false. cbv iota.
      replace (y + 1 - 2000 - 1) with (y - 2000 - 0) by lia. lia.
Qed.

Lemma days_range x : valid_date x -> 10957 <= days_of x <= 47481.
Proof.
  destruct x as [[y m] d]. intros Hv. rewrite (days_eq y m d Hv).
  destruct (valid_doy y m d Hv) as (Ha & Hd & Hd0 & Hl & _).
  set (a := y - 2000 - (if m <=? 2 then 1 else 0)) in *. set (doy := march_days m + d - 1) in *.
  replace (11017 + 365 * a + a / 4 + march_days m + d - 1) with (11017 + 365 * a + a / 4 + doy)
    by (unfold doy; lia).
  destruct Hv as (Hy & Hm & Hdm).
  assert (Hlast : a = 99 -> doy <= 305).
  { intros E. unfold a in E. rewrite dim_values in Hdm by done. unfold doy, march_days.
    destruct (Z.leb_spec m 2); [lia |]. destruct (Z.ltb_spec 2 m); [| lia].
    assert (d <= 31) by (destruct (m =? 2), (y mod 4 =? 0),
      ((m =? 4) || (m =? 6) || (m =? 9) || (m =? 11)); lia). dlia. }
  destruct (Z.eq_dec a 99) as [E|E]; [specialize (Hlast E); dlia |].
  destruct (Z.eq_dec a (-1)) as [E1|E1]; [specialize (Hd0 E1); dlia |]. dlia.
Qed.

(** The dates from 2000-01-01 on, one by one. *)
Definition nth_date (n : nat) : date := Nat.iter n next_day (2000, 1, 1).

Lemma nth_date_spec n : Z.of_nat n < 36525 ->
  valid_date (nth_date n) /\ days_of (nth_date n) = 10957 + Z.of_nat n.
Proof.
  induction n as [|n IH]; intros Hn.
  - by vm_compute.
  - destruct IH as [Hv Hd]; [lia |]. change (nth_date (S n)) with (next_day (nth_date n)).
    destruct (next_day_spec _ Hv) as [Hv' Hd']; [| split; [exact Hv' | lia]].
    intros E. rewrite E in Hd. change (days_of (2099, 12, 31)) with 47481 in Hd. lia.
Qed.

Lemma civil_nth n : Z.of_nat n < 36525 -> civil_from_days (10957 + Z.of_nat n) = nth_date n.
Proof.
  intros Hn. destruct (nth_date_spec n Hn) as [Hv Hd]. rewrite <- Hd.
  destruct (nth_date n) as [[y m] d]. by apply civil_of_days.
Qed.

Lemma day_number z : 10957 <= z <= 47481 ->
  exists y m d, valid_date (y, m, d) /\ days_of (y, m, d) = z /\ civil_from_days z = (y, m, d).
Proof.
  intros Hz. destruct (nth_date_spec (Z.to_nat (z - 10957))) as [Hv Hd]; [lia |].
  rewrite Z2Nat.id in Hd by lia. replace (10957 + (z - 10957)) with z in Hd by lia.
  destruct (nth_date (Z.to_nat (z - 10957))) as [[y m] d]. exists y, m, d.
  split; [done |]. split; [done |]. rewrite <- Hd. by apply civil_of_days.
Qed.

(** ** Epochs *)

Definition cal_ok (c : nwoas_rtc_calendar) : Prop :=
  valid_date (year c, month c, day c) /\ 0 <= hour c <= 23 /\ 0 <= minute c <= 59 /\
  0 <= second c <= 59 /\ 0 <= nanosecond c <= NWOAS_RTC_NS_MAX /\
  (timezone c = NWOAS_RTC_TZ_UNSPECIFIED \/ -1440 <= timezone c <= 1440) /\
  daylight c ∈ [0; 1; 3].
(** The fields hold values of their unsigned types. *)
Definition cal_fields (c : nwoas_rtc_calendar) : Prop :=
  0 <= hour c /\ 0 <= minute c /\ 0 <= second c /\ 0 <= nanosecond c.
Definition epoch_of (c : nwoas_rtc_calendar) : Z :=
  days_of (year c, month c, day c) * 86400 + hour c * 3600 + minute c * 60 + second c.
(** A calendar as the clock itself emits it. *)
Definition cal_plain (c : nwoas_rtc_calendar) : nwoas_rtc_calendar :=
  mk_cal (year c) (month c) (day c) (hour c) (minute c) (second c) 0 NWOAS_RTC_TZ_UNSPECIFIED 0.

Lemma validate_iff c : cal_fields c ->
  nwoas_rtc_calendar_validate (Some c) = NWOAS_RTC_OK <-> cal_ok c.
Proof.
  intros (H1 & H2 & H3 & H4). unfold nwoas_rtc_calendar_validate, cal_ok, valid_date.
  change NWOAS_RTC_YEAR_MIN with 2000. change NWOAS_RTC_YEAR_MAX with 2099.
  change NWOAS_RTC_TZ_MIN with (-1440). change NWOAS_RTC_TZ_MAX with 1440.
  change (NWOAS_RTC_DAYLIGHT_ADJUST .| NWOAS_RTC_DAYLIGHT_IN) with 3.
  change NWOAS_RTC_DAYLIGHT_ADJUST with 1.
  assert (Hdl : daylight c ∈ [0; 1; 3] <-> daylight c = 0 \/ daylight c = 1 \/ daylight c = 3)
    by set_solver.
  rewrite Hdl. split.
  - repeat case_match; try done. intros _. bool_hyps.
    repeat match goal with
    | H : _ && _ = false |- _ => apply andb_false_iff in H
    end.
    repeat match goal with
    | H : (_ || _) = false |- _ => apply orb_false_iff in H as [? ?]
    end.
    bool_props. repeat match goal with
    | H : negb _ = false \/ _ |- _ => rewrite negb_false_iff, Z.eqb_eq in H
    | H : _ \/ (_ || _) = false |- _ => rewrite orb_false_iff, !Z.ltb_ge in H
    | H : (_ \/ _) \/ _ = false |- _ => rewrite negb_false_iff, Z.eqb_eq in H
    end.
    lia.
  - intros (Hd & Hh & Hm & Hs & Hn & Ht & Hdd).
    repeat match goal with
    | |- context [?a <? ?b] => destruct (Z.ltb_spec a b); try (exfalso; lia)
    | |- context [?a =? ?b] => destruct (Z.eqb_spec a b); try (exfalso; lia)
    end; try done; exfalso; lia.
Qed.

Lemma to_epoch_spec c : cal_ok c ->
  nwoas_rtc_calendar_to_epoch (Some c) = (NWOAS_RTC_OK, epoch_of c) /\
  NWOAS_RTC_EPOCH_MIN <= epoch_of c <= NWOAS_RTC_EPOCH_MAX.
Proof.
  intros Hc. assert (Hf : cal_fields c) by (destruct Hc as (_ & ? & ? & ? & ? & _); unfold cal_fields; lia).
  pose proof (proj2 (validate_iff c Hf) Hc) as Hv. unfold nwoas_rtc_calendar_to_epoch. rewrite Hv.
  destruct Hc as (Hd & Hh & Hm & Hs & _). pose proof (days_range _ Hd) as Hr.
  unfold epoch_of, NWOAS_RTC_EPOCH_MIN, NWOAS_RTC_EPOCH_MAX.
  change (days_from_civil (year c) (month c) (day c)) with (days_of (year c, month c, day c)).
  rewrite wrap_small by (unfold in_w; lia). split; [done | lia].
Qed.

Lemma to_calendar_spec c c0 : cal_ok c ->
  nwoas_rtc_epoch_to_calendar (epoch_of c) (Some c0) = (NWOAS_RTC_OK, Some (cal_plain c)).
Proof.
  intros Hc. destruct (to_epoch_spec c Hc) as [_ [Hlo Hhi]].
  destruct Hc as (Hd & Hh & Hm & Hs & _). unfold nwoas_rtc_epoch_to_calendar.
  rewrite (proj2 (Z.ltb_ge _ _) Hlo), (proj2 (Z.ltb_ge _ _) Hhi). cbn [orb].
  set (sod := hour c * 3600 + minute c * 60 + second c).
  assert (Hsod : 0 <= sod < 86400) by (unfold sod; lia).
  assert (Ed : epoch_of c / 86400 = days_of (year c, month c, day c)) by (unfold epoch_of; dlia).
  rewrite Ed, civil_of_days by done.
  replace (epoch_of c - days_of (year c, month c, day c) * 86400) with sod by (unfold epoch_of, sod; lia).
  rewrite (wrap_small 32 sod) by (unfold in_w; lia).
  destruct Hd as (Hy & Hmo & Hda). rewrite dim_values in Hda by done.
  assert (day c <= 31) by (destruct (month c =? 2), (year c mod 4 =? 0),
    ((month c =? 4) || (month c =? 6) || (month c =? 9) || (month c =? 11)); lia).
  rewrite (wrap_small 16), !(wrap_small 8) by (unfold in_w; unfold sod in *; dlia).
  unfold cal_plain. do 2 f_equal. f_equal; unfold sod; dlia.
Qed.

Lemma epoch_cal e : NWOAS_RTC_EPOCH_MIN <= e <= NWOAS_RTC_EPOCH_MAX ->
  exists c, cal_ok c /\ cal_plain c = c /\ epoch_of c = e.
Proof.
  intros He. unfold NWOAS_RTC_EPOCH_MIN, NWOAS_RTC_EPOCH_MAX in He.
  destruct (day_number (e / 86400)) as (y & m & d & Hv & Hd & _); [dlia |].
  set (sod := e mod 86400). assert (Hsod : 0 <= sod < 86400) by (by apply Z.mod_pos_bound).
  exists (mk_cal y m d (sod / 3600) (sod / 60 mod 60) (sod mod 60) 0 NWOAS_RTC_TZ_UNSPECIFIED 0).
  split; [| split; [done |]].
  - unfold cal_ok. cbn [year month day hour minute second nanosecond timezone daylight].
    unfold NWOAS_RTC_NS_MAX. split; [done |]. split; [dlia |]. split; [dlia |]. split; [dlia |].
    split; [lia |]. split; [by left | set_solver].
  - unfold epoch_of. cbn [year month day hour minute second]. rewrite Hd. unfold sod. dlia.
Qed.

(** ** Properties *)

(** The seed parser accepts exactly the 32-byte little-endian encodings of
    seeds with the right magic and version, the valid flag and no unknown
    flag, and decodes them without loss; everything else leaves a zero seed
    behind, never stale or partial fields. *)
Theorem seed_parse_exact b s0 s :
  bytes_ok b ->
  (nwoas_rtc_seed_parse (Some b) (zlen b) (Some s0) = (NWOAS_RTC_OK, Some s) <->
     b = seed_bytes s /\ seed_ok s) /\
  ((nwoas_rtc_seed_parse (Some b) (zlen b) (Some s0)).1 <> NWOAS_RTC_OK ->
     (nwoas_rtc_seed_parse (Some b) (zlen b) (Some s0)).2 = Some seed_zero).
Proof.
  intros Hb. pose proof (parse_spec b (zlen b) s0 Hb eq_refl) as Hp. split.
  - split.
    + intros E. rewrite E in Hp. destruct Hp as [Hp _].
      destruct (Hp eq_refl) as (s' & [= <-] & H). exact H.
    + intros [-> (H1 & H2 & H3 & H4 & H5 & H6)].
      assert (Hf : in_w 32 (s_flags s)).
      { repeat (apply elem_of_cons in H6 as [-> | H6]; [done |]). by apply elem_of_nil in H6. }
      pose proof (seed_of_bytes s ltac:(by rewrite H1) ltac:(by rewrite H2) H3 H4 H5 Hf) as E.
      unfold nwoas_rtc_seed_parse. change (negb (zlen (seed_bytes s) =? NWOAS_RTC_SEED_SIZE)) with false.
      unfold seed_of in E. cbv zeta. rewrite E, H1, H2. cbn [negb Z.eqb].
      rewrite !Z.eqb_refl. cbn [negb].
      change NWOAS_RTC_SEED_FLAGS_KNOWN with 7. change NWOAS_RTC_SEED_FLAG_VALID with 1.
      by rewrite (proj2 (flags_known (s_flags s) Hf) H6).
  - destruct (nwoas_rtc_seed_parse (Some b) (zlen b) (Some s0)) as [st s']. apply Hp.
Qed.

(** The clock advances exactly when it can: for a usable seed the advance
    succeeds if and only if the frequency is a non-zero 32-bit value, the
    counter has not gone back and the result stays within 2099; the result is
    then the seed's epoch plus the elapsed time, rounded down to whole
    nanoseconds, with no overflow in the intermediate products. *)
Theorem advance_exact s now f :
  seed_usable s -> in_w 64 now -> in_w 64 f ->
  ((nwoas_rtc_advance (Some s) now f).1.1 = NWOAS_RTC_OK <->
     0 < f < 2 ^ 32 /\ s_cntpct s <= now /\
     epoch s + (now - s_cntpct s) / f <= NWOAS_RTC_EPOCH_MAX) /\
  (forall e ns, nwoas_rtc_advance (Some s) now f = (NWOAS_RTC_OK, e, ns) ->
     0 <= ns < 1000000000 /\
     (e - epoch s) * 1000000000 + ns = (now - s_cntpct s) * 1000000000 / f).
Proof.
  intros Hs Hn Hf. pose proof (advance_ok_iff s now f Hs Hn Hf) as Hiff. split; [exact Hiff |].
  intros e ns E. rewrite E in Hiff. destruct (proj1 Hiff eq_refl) as (H1 & H2 & H3).
  destruct (advance_spec s now f Hs Hn H1 H2 H3) as [E' Hns]. rewrite E in E'.
  injection E' as -> ->. split; [exact Hns |].
  rewrite <- (floor_total (now - s_cntpct s) f) by lia. f_equal. f_equal. lia.
Qed.

(** The clock never runs backwards: from one seed and frequency, a later
    counter value never gives an earlier time. *)
Theorem advance_monotone s now1 now2 f e1 ns1 e2 ns2 :
  seed_usable s -> in_w 64 now1 -> in_w 64 now2 -> in_w 64 f -> now1 <= now2 ->
  nwoas_rtc_advance (Some s) now1 f = (NWOAS_RTC_OK, e1, ns1) ->
  nwoas_rtc_advance (Some s) now2 f = (NWOAS_RTC_OK, e2, ns2) ->
  e1 < e2 \/ e1 = e2 /\ ns1 <= ns2.
Proof.
  intros Hs Hn1 Hn2 Hf Hle E1 E2.
  pose proof (advance_ok_iff s now1 f Hs Hn1 Hf) as H1. rewrite E1 in H1.
  pose proof (advance_ok_iff s now2 f Hs Hn2 Hf) as H2. rewrite E2 in H2.
  destruct (proj1 H1 eq_refl) as (Hf1 & Hc1 & Ho1). destruct (proj1 H2 eq_refl) as (_ & Hc2 & Ho2).
  destruct (advance_spec s now1 f Hs Hn1 Hf1 Hc1 Ho1) as [E1' B1].
  destruct (advance_spec s now2 f Hs Hn2 Hf1 Hc2 Ho2) as [E2' B2].
  rewrite E1 in E1'. rewrite E2 in E2'. injection E1' as -> ->. injection E2' as -> ->.
  pose proof (floor_total (now1 - s_cntpct s) f ltac:(lia)) as T1.
  pose proof (floor_total (now2 - s_cntpct s) f ltac:(lia)) as T2.
  assert ((now1 - s_cntpct s) * 1000000000 / f <= (now2 - s_cntpct s) * 1000000000 / f)
    by (apply Z.div_le_mono; lia).
  lia.
Qed.

(** C17. The closed-form date arithmetic is the Gregorian calendar: day number
    10957 + n is the n-th successor of 2000-01-01 under the day-by-day rule
    (month lengths, leap years), for every day of 2000..2099, and the inverse
    computation returns the day number. *)
Theorem civil_counts_days n :
  Z.of_nat n < 36525 ->
  civil_from_days (10957 + Z.of_nat n) = nth_date n /\ valid_date (nth_date n) /\
  days_of (nth_date n) = 10957 + Z.of_nat n.
Proof. intros Hn. split; [by apply civil_nth | by apply nth_date_spec]. Qed.

(** Epochs and calendars are in bijection: every epoch of 2000..2099
    converts to a valid calendar that converts back to it, every valid calendar
    converts to an epoch of the window that converts back to it (with the
    fields the clock does not keep at their defaults), and an epoch outside
    the window is refused. *)
Theorem calendar_roundtrip e c0 :
  (NWOAS_RTC_EPOCH_MIN <= e <= NWOAS_RTC_EPOCH_MAX ->
     exists c, nwoas_rtc_epoch_to_calendar e (Some c0) = (NWOAS_RTC_OK, Some c) /\
       nwoas_rtc_calendar_validate (Some c) = NWOAS_RTC_OK /\
       nwoas_rtc_calendar_to_epoch (Some c) = (NWOAS_RTC_OK, e)) /\
  (forall c, cal_fields c -> nwoas_rtc_calendar_validate (Some c) = NWOAS_RTC_OK ->
     exists e', nwoas_rtc_calendar_to_epoch (Some c) = (NWOAS_RTC_OK, e') /\
       NWOAS_RTC_EPOCH_MIN <= e' <= NWOAS_RTC_EPOCH_MAX /\
       nwoas_rtc_epoch_to_calendar e' (Some c0) = (NWOAS_RTC_OK, Some (cal_plain c))) /\
  (~ (NWOAS_RTC_EPOCH_MIN <= e <= NWOAS_RTC_EPOCH_MAX) ->
     (nwoas_rtc_epoch_to_calendar e (Some c0)).1 = NWOAS_RTC_E_EPOCH_RANGE).
Proof.
  split; [| split].
  - intros He. destruct (epoch_cal e He) as (c & Hc & Hp & <-). exists c.
    rewrite (to_calendar_spec c c0 Hc), Hp. split; [done |]. split.
    + apply validate_iff; [| done]. destruct Hc as (_ & ? & ? & ? & ? & _). unfold cal_fields. lia.
    + by apply to_epoch_spec.
  - intros c Hf Hv. apply validate_iff in Hv; [| done]. exists (epoch_of c).
    destruct (to_epoch_spec c Hv) as [H1 H2]. split; [done |]. split; [done |].
    by apply to_calendar_spec.
  - intros He. unfold nwoas_rtc_epoch_to_calendar.
    destruct (Z.ltb_spec e NWOAS_RTC_EPOCH_MIN), (Z.ltb_spec NWOAS_RTC_EPOCH_MAX e); try done. lia.
Qed.

(** ** Witnesses *)

Definition demo_seed : nwoas_rtc_seed :=
  mk_seed NWOAS_RTC_SEED_MAGIC 1 1767225600 24000000 24000000 3.

Lemma demo_seed_usable : seed_usable demo_seed.
Proof. unfold seed_usable, in_w, demo_seed, NWOAS_RTC_EPOCH_MIN, NWOAS_RTC_EPOCH_MAX. cbn. lia. Qed.

Lemma demo_seed_bytes : bytes_ok (seed_bytes demo_seed).
Proof. unfold seed_bytes. rewrite !bytes_ok_app. split_and!; apply le_bytes_ok. Qed.

Lemma demo_seed_valid : seed_ok demo_seed.
Proof. unfold seed_ok. split_and!; try done. set_solver. Qed.

Lemma seed_parse_exact_witness :
  nwoas_rtc_seed_parse (Some (seed_bytes demo_seed)) (zlen (seed_bytes demo_seed)) (Some seed_zero) =
    (NWOAS_RTC_OK, Some demo_seed).
Proof.
  exact (proj2 (proj1 (seed_parse_exact (seed_bytes demo_seed) seed_zero demo_seed demo_seed_bytes))
    (conj eq_refl demo_seed_valid)).
Defined.

Lemma demo_now1 : in_w 64 84000001. Proof. by split. Qed.
Lemma demo_now2 : in_w 64 84000002. Proof. by split. Qed.
Lemma demo_freq : in_w 64 24000000. Proof. by split. Qed.

Lemma advance_exact_witness :
  (nwoas_rtc_advance (Some demo_seed) 84000001 24000000).1.1 = NWOAS_RTC_OK /\
  (nwoas_rtc_advance (Some demo_seed) 84000001 24000000) = (NWOAS_RTC_OK, 1767225602, 500000041).
Proof.
  split; [| reflexivity].
  apply (proj1 (advance_exact demo_seed 84000001 24000000 demo_seed_usable
    demo_now1 demo_freq)).
  unfold NWOAS_RTC_EPOCH_MAX. vm_compute. repeat split; intros; discriminate.
Defined.

Lemma advance_monotone_witness :
  1767225602 < 1767225602 \/ 1767225602 = 1767225602 /\ 500000041 <= 500000083.
Proof.
  exact (advance_monotone demo_seed 84000001 84000002 24000000 1767225602 500000041 1767225602 500000083
    demo_seed_usable demo_now1 demo_now2 demo_freq ltac:(lia) eq_refl eq_refl).
Defined.

Lemma civil_counts_days_witness :
  civil_from_days (10957 + Z.of_nat 59) = (2000, 2, 29).
Proof. exact (proj1 (civil_counts_days 59 eq_refl)). Defined.

Lemma calendar_roundtrip_witness :
  exists c, nwoas_rtc_epoch_to_calendar 1767225600 (Some cal_zero) = (NWOAS_RTC_OK, Some c) /\
    nwoas_rtc_calendar_validate (Some c) = NWOAS_RTC_OK /\
    nwoas_rtc_calendar_to_epoch (Some c) = (NWOAS_RTC_OK, 1767225600).
Proof.
  apply (proj1 (calendar_roundtrip 1767225600 cal_zero)).
  unfold NWOAS_RTC_EPOCH_MIN, NWOAS_RTC_EPOCH_MAX. lia.
Defined.
