(* ===== verification/BootRtc.v ===== *)
(** * The UEFI boot clock ([firmware-s216/NwoasHardwareBootRtcLib/NwoasHardwareBootRtcLib.c])

    [rtc_globals] are the module globals; the stack variable [result] of
    [LibRtcInitialize] lives in the same store, because the bus functions fill
    it through a pointer.  The timer, MMIO and device-tree functions of the
    firmware are the parameters [rtc_platform].  The theorems join the SPMI
    snapshot ([SeraRtc]) and the clock core ([RtcSeed]) into what a caller of
    GetTime sees. *)

From S2P Require Import Prelude SeraRtc RtcSeed.

Inductive EFI_STATUS :=
| EFI_SUCCESS
| EFI_INVALID_PARAMETER
| EFI_DEVICE_ERROR
| EFI_UNSUPPORTED.

Definition NWOAS_RTC_CAP_RESOLUTION_HZ : Z := 1.
Definition NWOAS_RTC_CAP_ACCURACY : Z := 100000000.

Record EFI_TIME := mk_time {
  Year : Z;
  Month : Z;
  Day : Z;
  Hour : Z;
  Minute : Z;
  Second : Z;
  Pad1 : Z;
  Nanosecond : Z;
  TimeZone : Z;
  Daylight : Z;
  Pad2 : Z;
}.

Record EFI_TIME_CAPABILITIES := mk_caps {
  Resolution : Z;
  Accuracy : Z;
  SetsToZero : bool;
}.

(** The module globals. *)
Record rtc_globals := mk_globals {
  mSeedValid : bool;
  mSeed : nwoas_rtc_seed;
  mFreqHz : Z;
  mSeedNs : Z;
}.
#[export] Instance globals_eta : Eta rtc_globals := fun g =>
  mk_globals (mSeedValid g) (mSeed g) (mFreqHz g) (mSeedNs g).

(** The firmware functions the library calls; [node] is a device-tree node. *)
Record rtc_platform (S node : Type) := {
  MmioRead32 : Z -> M S Z;
  MmioWrite32 : Z -> Z -> M S unit;
  MemoryFence : M S unit;
  ArmGenericTimerGetSystemCount : M S Z;
  ArmGenericTimerGetTimerFreq : M S Z;
  dt_get : list Z -> option node;
  dt_node_prop : node -> list Z -> option (list Z);
}.
#[global] Arguments MmioRead32 {S node} _. #[global] Arguments MmioWrite32 {S node} _.
#[global] Arguments MemoryFence {S node} _.
#[global] Arguments ArmGenericTimerGetSystemCount {S node} _.
#[global] Arguments ArmGenericTimerGetTimerFreq {S node} _.
#[global] Arguments dt_get {S node} _. #[global] Arguments dt_node_prop {S node} _.

Section rtc.
Context {S node : Type} `{G : !Lens S rtc_globals} `{R : !Lens S nwoas_sera_rtc_result}
  (pf : rtc_platform S node).

(** ** GetTime *)

Definition fill_caps (c : option EFI_TIME_CAPABILITIES) : option EFI_TIME_CAPABILITIES :=
  option_map (fun _ => mk_caps NWOAS_RTC_CAP_RESOLUTION_HZ NWOAS_RTC_CAP_ACCURACY false) c.

(** The time of the advanced seed: [(epoch, nanosecond)] or a device error. *)
Definition add_seed_ns (epoch ns seed_ns : Z) : option (Z * Z) :=
  let ns := u32 (ns + seed_ns) in
  if 1000000000 <=? ns then
    if NWOAS_RTC_EPOCH_MAX <=? epoch then None
    else Some (u64 (epoch + 1), u32 (ns - 1000000000))
  else Some (epoch, ns).

Definition fill_time (cal : nwoas_rtc_calendar) (ns : Z) : EFI_TIME :=
  mk_time (year cal) (month cal) (day cal) (hour cal) (minute cal) (second cal) 0 ns
    NWOAS_RTC_TZ_UNSPECIFIED 0 0.

(** The out-pointers are options of their pointees; the result carries the
    pointees after the call. *)
Definition LibGetTime (Time : option EFI_TIME) (Capabilities : option EFI_TIME_CAPABILITIES) :
    M S (EFI_STATUS * option EFI_TIME * option EFI_TIME_CAPABILITIES) :=
  match Time with
  | None => mret (EFI_INVALID_PARAMETER, None, Capabilities)
  | Some time0 =>
      let caps := fill_caps Capabilities in
      let fails := (EFI_DEVICE_ERROR, Some time0, caps) in
      g ← lgets (id (A := rtc_globals));
      if negb (mSeedValid g) then mret fails
      else
        Freq ← ArmGenericTimerGetTimerFreq pf;
        g ← lgets (id (A := rtc_globals));
        if negb (Freq =? mFreqHz g) then mret fails
        else
          Now ← ArmGenericTimerGetSystemCount pf;
          g ← lgets (id (A := rtc_globals));
          mret match nwoas_rtc_advance (Some (mSeed g)) Now Freq with
          | (NWOAS_RTC_OK, Epoch, ns) =>
              match add_seed_ns Epoch ns (mSeedNs g) with
              | None => fails
              | Some (Epoch, ns) =>
                  match nwoas_rtc_epoch_to_calendar Epoch (Some cal_zero) with
                  | (NWOAS_RTC_OK, Some cal) => (EFI_SUCCESS, Some (fill_time cal ns), caps)
                  | _ => fails
                  end
              end
          | _ => fails
          end
  end.

Definition LibSetTime (Time : option EFI_TIME) : M S EFI_STATUS := mret EFI_UNSUPPORTED.
Definition LibGetWakeupTime : M S EFI_STATUS := mret EFI_UNSUPPORTED.
Definition LibSetWakeupTime (Enabled : bool) (Time : option EFI_TIME) : M S EFI_STATUS :=
  mret EFI_UNSUPPORTED.
Definition LibRtcVirtualNotifyEvent : M S unit := mret tt.

(** ** Initialisation *)

Definition RtcRead32 (address : Z) : M S Z := MmioRead32 pf address.
Definition RtcWrite32 (address value : Z) : M S unit :=
  MmioWrite32 pf address value;; MemoryFence pf.
Definition RtcCount : M S Z := ArmGenericTimerGetSystemCount pf.
Definition RtcFreq : M S Z := ArmGenericTimerGetTimerFreq pf.

Definition RtcProp32 (n : option node) (name : list Z) (expected : Z) : bool :=
  match n ≫= (fun n => dt_node_prop pf n name) with
  | None => false
  | Some p => if zlen p <? 4 then false else le_val (ztake 4 p) =? expected
  end.

Definition RtcTopology : bool :=
  let chosen := dt_get pf (chars "/chosen") in
  let ctrl := dt_get pf (chars "/arm-io/nub-spmi") in
  let pmu := dt_get pf (chars "/arm-io/nub-spmi/spmi-pmu") in
  if negb (RtcProp32 chosen (chars "chip-id") 0x8103) || negb (bool_decide (is_Some ctrl)) ||
     negb (bool_decide (is_Some pmu)) || negb (RtcProp32 pmu (chars "reg") 15) ||
     negb (RtcProp32 pmu (chars "info-rtc") 0xd002) ||
     negb (RtcProp32 pmu (chars "info-rtc_scrpad") 0xd100)
  then false
  else
    match ctrl ≫= (fun n => dt_node_prop pf n (chars "reg")) with
    | None => false
    | Some p =>
        if zlen p <? 16 then false
        else (le_val (ztake 8 p) =? 0x3d0d9300) && (le_val (ztake 8 (zdrop 8 p)) =? 0x100)
    end.

Definition rtc_ops : nwoas_sera_rtc_ops S := {|
  op_read32 := Some RtcRead32; op_write32 := Some RtcWrite32;
  op_physical_counter := Some RtcCount; op_counter_frequency := Some RtcFreq;
|}.

Definition globals_clear (g : rtc_globals) : rtc_globals := mk_globals false seed_zero 0 0.

Definition seed_from (r : nwoas_sera_rtc_result) (freq : Z) : nwoas_rtc_seed :=
  mk_seed NWOAS_RTC_SEED_MAGIC NWOAS_RTC_SEED_VERSION (u64 (utc_seconds r)) (cntpct r) (u32 freq)
    (NWOAS_RTC_SEED_FLAG_VALID .| NWOAS_RTC_SEED_FLAG_SPMI).

Definition LibRtcInitialize : M S EFI_STATUS := body (
  call (lmodify globals_clear);;
  when (negb RtcTopology) (exit EFI_SUCCESS);;
  before ← call RtcCount;
  freq ← call RtcFreq;
  status ← call (nwoas_sera_rtc_read (Some rtc_ops) true);
  after ← call RtcCount;
  result ← call (lgets (id (A := nwoas_sera_rtc_result)));
  when (negb (bool_decide (status = NWOAS_SERA_OK)) || (freq =? 0) || (after <? before) ||
        (freq <? u64 (after - before)) || negb (cntfrq result =? freq) || (after <? cntpct result))
    (exit EFI_SUCCESS);;
  call (lmodify (fun g => g <| mSeed := seed_from result freq |>));;
  g ← call (lgets (id (A := rtc_globals)));
  when (negb (bool_decide (nwoas_rtc_seed_validate (Some (mSeed g)) freq = NWOAS_RTC_OK)) ||
        negb (bool_decide ((nwoas_rtc_epoch_to_calendar (epoch (mSeed g)) (Some cal_zero)).1 =
                             NWOAS_RTC_OK)))
    (exit EFI_SUCCESS);;
  call (lmodify (fun g => g <| mSeedNs := nanoseconds result |>));;
  call (lmodify (fun g => g <| mFreqHz := freq |>));;
  call (lmodify (fun g => g <| mSeedValid := true |>));;
  mret EFI_SUCCESS).
End rtc.

(** ** Specification vocabulary *)

(** The platform functions write neither the globals nor the result, and
    [events] lists their accesses to the SPMI window. *)
Class RtcEnv {S node} `{G : !Lens S rtc_globals} `{R : !Lens S nwoas_sera_rtc_result}
    (pf : rtc_platform S node) (events : S -> list sera_event) : Prop := {
  re_read a s : lget (A := rtc_globals) (MmioRead32 pf a s).2 = lget s /\
    lget (A := nwoas_sera_rtc_result) (MmioRead32 pf a s).2 = lget s /\
    events (MmioRead32 pf a s).2 = events s ++ [Rd a (MmioRead32 pf a s).1] /\ in_w 32 (MmioRead32 pf a s).1;
  re_write a v s : lget (A := rtc_globals) (MmioWrite32 pf a v s).2 = lget s /\
    lget (A := nwoas_sera_rtc_result) (MmioWrite32 pf a v s).2 = lget s /\
    events (MmioWrite32 pf a v s).2 = events s ++ [Wr a v];
  re_fence s : lget (A := rtc_globals) (MemoryFence pf s).2 = lget s /\
    lget (A := nwoas_sera_rtc_result) (MemoryFence pf s).2 = lget s /\
    events (MemoryFence pf s).2 = events s;
  re_count s : lget (A := rtc_globals) (ArmGenericTimerGetSystemCount pf s).2 = lget s /\
    lget (A := nwoas_sera_rtc_result) (ArmGenericTimerGetSystemCount pf s).2 = lget s /\
    events (ArmGenericTimerGetSystemCount pf s).2 = events s /\
    in_w 64 (ArmGenericTimerGetSystemCount pf s).1;
  re_freq s : lget (A := rtc_globals) (ArmGenericTimerGetTimerFreq pf s).2 = lget s /\
    lget (A := nwoas_sera_rtc_result) (ArmGenericTimerGetTimerFreq pf s).2 = lget s /\
    events (ArmGenericTimerGetTimerFreq pf s).2 = events s /\
    in_w 64 (ArmGenericTimerGetTimerFreq pf s).1;
  re_lset_g g s : lget (A := nwoas_sera_rtc_result) (lset (A := rtc_globals) g s) = lget s /\
    events (lset (A := rtc_globals) g s) = events s;
  re_lset_r r s : lget (A := rtc_globals) (lset (A := nwoas_sera_rtc_result) r s) = lget s /\
    events (lset (A := nwoas_sera_rtc_result) r s) = events s;
}.

(** What the globals hold once a seed was accepted. *)
Definition seeded (g : rtc_globals) : Prop :=
  seed_ok (mSeed g) /\ seed_usable (mSeed g) /\ mFreqHz g = s_cntfrq (mSeed g) /\
  0 < mFreqHz g < 2 ^ 32 /\ 0 <= mSeedNs g < 1000000000.
Definition globals_inv (g : rtc_globals) : Prop := mSeedValid g = true -> seeded g.

(** The time at counter value [now], in nanoseconds since 1970. *)
Definition clock_ns (g : rtc_globals) (now : Z) : Z :=
  epoch (mSeed g) * 1000000000 + mSeedNs g +
  (now - s_cntpct (mSeed g)) * 1000000000 / mFreqHz g.
Definition clock_max : Z := NWOAS_RTC_EPOCH_MAX * 1000000000 + 999999999.
Definition time_ns (t : EFI_TIME) : Z :=
  (days_of (Year t, Month t, Day t) * 86400 + Hour t * 3600 + Minute t * 60 + Second t) *
    1000000000 + Nanosecond t.
Definition time_ok (t : EFI_TIME) : Prop :=
  valid_date (Year t, Month t, Day t) /\ 0 <= Hour t <= 23 /\ 0 <= Minute t <= 59 /\
  0 <= Second t <= 59 /\ 0 <= Nanosecond t <= NWOAS_RTC_NS_MAX /\
  TimeZone t = NWOAS_RTC_TZ_UNSPECIFIED /\ Daylight t = 0.

(** The pure part of GetTime. *)
Definition clock_reading (g : rtc_globals) (now freq : Z) : option EFI_TIME :=
  match nwoas_rtc_advance (Some (mSeed g)) now freq with
  | (NWOAS_RTC_OK, e, ns) =>
      match add_seed_ns e ns (mSeedNs g) with
      | None => None
      | Some (e, ns) =>
          match nwoas_rtc_epoch_to_calendar e (Some cal_zero) with
          | (NWOAS_RTC_OK, Some cal) => Some (fill_time cal ns)
          | _ => None
          end
      end
  | _ => None
  end.

Lemma calendar_reading e ns :
  NWOAS_RTC_EPOCH_MIN <= e <= NWOAS_RTC_EPOCH_MAX -> 0 <= ns < 1000000000 ->
  exists cal, nwoas_rtc_epoch_to_calendar e (Some cal_zero) = (NWOAS_RTC_OK, Some cal) /\
    time_ok (fill_time cal ns) /\ time_ns (fill_time cal ns) = e * 1000000000 + ns.
Proof.
  intros He Hns. destruct (epoch_cal e He) as (c & Hc & Hp & <-).
  exists c. rewrite (to_calendar_spec c cal_zero Hc), Hp. split; [done |].
  destruct Hc as (H1 & H2 & H3 & H4 & _). split; [| done].
  unfold time_ok. cbn. change NWOAS_RTC_NS_MAX with 999999999.
  do 4 (split; [done |]). split; [lia | done].
Qed.

Lemma clock_reading_spec g now :
  seeded g -> in_w 64 now ->
  if bool_decide (s_cntpct (mSeed g) <= now /\ clock_ns g now <= clock_max) then
    exists t, clock_reading g now (mFreqHz g) = Some t /\ time_ok t /\ time_ns t = clock_ns g now
  else clock_reading g now (mFreqHz g) = None.
Proof.
  intros (Hok & Hs & Ef & Hf & Hns) Hn. set (f := mFreqHz g) in *.
  assert (Hf64 : in_w 64 f) by (unfold in_w; lia).
  pose proof (advance_ok_iff (mSeed g) now f Hs Hn Hf64) as Hiff.
  pose proof Hs as [He Hc]. unfold NWOAS_RTC_EPOCH_MIN, NWOAS_RTC_EPOCH_MAX, in_w in *.
  unfold clock_reading, clock_max, NWOAS_RTC_EPOCH_MAX, clock_ns. fold f.
  case_bool_decide as Hcond.
  - destruct Hcond as [Hle Hmax].
    pose proof (floor_total (now - s_cntpct (mSeed g)) f ltac:(lia)) as T.
    set (d := now - s_cntpct (mSeed g)) in *. set (q := d / f) in *.
    assert (Hr : 0 <= (d - q * f) * 1000000000 / f < 1000000000).
    { assert (0 <= d - q * f < f) by (unfold q; pose proof (Z.mod_pos_bound d f ltac:(lia));
        rewrite Z.mod_eq in * by lia; lia).
      split; [apply Z.div_pos; lia | apply Z.div_lt_upper_bound; lia]. }
    assert (Hq0 : 0 <= q) by (apply Z.div_pos; unfold d; lia).
    assert (Hov : epoch (mSeed g) + q <= 4102444799) by lia.
    destruct (advance_spec (mSeed g) now f Hs ltac:(unfold in_w; lia) Hf Hle Hov) as [-> _].
    fold d. fold q. set (ns := (d - q * f) * 1000000000 / f) in *.
    unfold add_seed_ns, NWOAS_RTC_EPOCH_MAX.
    rewrite (wrap_small 32 (ns + _)) by (unfold in_w; lia).
    destruct (Z.leb_spec 1000000000 (ns + mSeedNs g)).
    + destruct (Z.leb_spec 4102444799 (epoch (mSeed g) + q)); [lia |].
      rewrite (wrap_small 64), (wrap_small 32) by (unfold in_w; lia).
      destruct (calendar_reading (epoch (mSeed g) + q + 1) (ns + mSeedNs g - 1000000000))
        as (cal & -> & Ht & E); [unfold NWOAS_RTC_EPOCH_MIN, NWOAS_RTC_EPOCH_MAX; lia | lia |].
      exists (fill_time cal (ns + mSeedNs g - 1000000000)). rewrite E. split; [done |]. split; [done | lia].
    + destruct (calendar_reading (epoch (mSeed g) + q) (ns + mSeedNs g))
        as (cal & -> & Ht & E); [unfold NWOAS_RTC_EPOCH_MIN, NWOAS_RTC_EPOCH_MAX; lia | lia |].
      exists (fill_time cal (ns + mSeedNs g)). rewrite E. split; [done |]. split; [done | lia].
  - destruct (nwoas_rtc_advance (Some (mSeed g)) now f) as [[st e] ns] eqn:Ea. cbn in Hiff.
    destruct st; try done. destruct (proj1 Hiff eq_refl) as (_ & Hle & Hov).
    pose proof (floor_total (now - s_cntpct (mSeed g)) f ltac:(lia)) as T.
    destruct (advance_spec (mSeed g) now f Hs ltac:(unfold in_w; lia) Hf Hle Hov) as [E Hr].
    rewrite Ea in E. injection E as -> ->.
    set (d := now - s_cntpct (mSeed g)) in *. set (q := d / f) in *.
    set (ns := (d - q * f) * 1000000000 / f) in *.
    unfold add_seed_ns, NWOAS_RTC_EPOCH_MAX.
    rewrite (wrap_small 32 (ns + _)) by (unfold in_w; lia).
    destruct (Z.leb_spec 1000000000 (ns + mSeedNs g)).
    + destruct (Z.leb_spec 4102444799 (epoch (mSeed g) + q)); [done |]. exfalso. apply Hcond. lia.
    + exfalso. apply Hcond. lia.
Qed.

(** ** The library *)

Section rtc_spec.
Context {S node : Type} `{G : !Lens S rtc_globals} `{R : !Lens S nwoas_sera_rtc_result}
  (pf : rtc_platform S node) (events : S -> list sera_event) `{!RtcEnv pf events}.
Local Abbreviation GL := (lget (A := rtc_globals)).
Local Abbreviation RES := (lget (A := nwoas_sera_rtc_result)).

Definition rtc_bus : bus_ops S :=
  mk_bus_ops (RtcRead32 pf) (RtcWrite32 pf) (RtcCount pf) (RtcFreq pf).

#[local] Instance rtc_sera_env : SeraEnv rtc_bus events.
Proof.
  split.
  - intros r s. apply re_lset_r.
  - intros a s. destruct (re_read (events := events) a s) as (_ & ? & ? & ?). done.
  - intros a v s. cbn. unfold RtcWrite32, mbind, M_bind.
    destruct (re_write (events := events) a v s) as (_ & <- & <-).
    split; apply re_fence.
  - intros s. destruct (re_count (events := events) s) as (_ & ? & ? & ?). done.
  - intros s. destruct (re_freq (events := events) s) as (_ & ? & ? & _). done.
Qed.

Lemma sera_globals : keeps GL (nwoas_sera_rtc_read (Some (rtc_ops pf)) true).
Proof.
  assert (Hl : forall r s, GL (lset (A := nwoas_sera_rtc_result) r s) = GL s)
    by (intros; apply re_lset_r).
  apply keeps_mwp. intros s. unfold nwoas_sera_rtc_read. wp_go; [done |].
  apply mwp_lmodify. intros s1 Hs1 _. replace (Some (rtc_ops pf) ≫= sera_ops_present)
    with (Some rtc_bus) by done.
  eapply wp_mono; [apply (snapshot_frame rtc_bus GL Hl) |].
  - intros a t. apply re_read.
  - intros a v t. cbn. unfold RtcWrite32, mbind, M_bind.
    destruct (re_write (events := events) a v t) as (<- & _). apply re_fence.
  - intros t. apply re_count.
  - intros t. apply re_freq.
  - intros r t ->. by rewrite Hs1, Hl.
Qed.

Lemma get_time_spec time0 caps s :
  globals_inv (GL s) ->
  let now := (ArmGenericTimerGetSystemCount pf (ArmGenericTimerGetTimerFreq pf s).2).1 in
  let freq := (ArmGenericTimerGetTimerFreq pf s).1 in
  mwp (LibGetTime pf (Some time0) caps) (fun r s' => GL s' = GL s /\
    if mSeedValid (GL s) && (freq =? mFreqHz (GL s)) &&
       bool_decide (s_cntpct (mSeed (GL s)) <= now /\ clock_ns (GL s) now <= clock_max)
    then exists t, r = (EFI_SUCCESS, Some t, fill_caps caps) /\ time_ok t /\
           time_ns t = clock_ns (GL s) now
    else r = (EFI_DEVICE_ERROR, Some time0, fill_caps caps)) s.
Proof.
  intros Hi now freq. unfold LibGetTime. wp_go; cbn [id] in *.
  { apply negb_true_iff in H. by rewrite H. }
  apply negb_false_iff in H. rewrite H. specialize (Hi H).
  apply mwp_iff. destruct (re_freq (events := events) s) as (E1 & _ & _ & Hf).
  fold freq in Hf |- *. set (s1 := (ArmGenericTimerGetTimerFreq pf s).2) in *. wp_go; cbn [id] in *.
  { rewrite E1 in H0. apply negb_true_iff in H0. rewrite H0. by rewrite E1. }
  apply negb_false_iff in H0. rewrite E1 in H0. rewrite H0.
  apply mwp_iff. destruct (re_count (events := events) s1) as (E2 & _ & _ & Hn).
  fold now in Hn |- *. set (s2 := (ArmGenericTimerGetSystemCount pf s1).2) in *. wp_go; cbn [id].
  rewrite E2, E1. split; [done |]. apply Z.eqb_eq in H0. rewrite H0. cbn [andb].
  pose proof (clock_reading_spec (GL s) now Hi Hn) as Hc. unfold clock_reading in Hc.
  case_bool_decide.
  - destruct Hc as (t & Ht & Hok & Hns). exists t. split; [| done].
    repeat case_match; simplify_eq; done.
  - repeat case_match; simplify_eq; done.
Qed.

(** What initialisation leaves behind. *)
Definition init_post (s : S) (st : EFI_STATUS) (s' : S) : Prop :=
  st = EFI_SUCCESS /\ exists evs n, events s' = events s ++ evs /\ Forall reads_window evs /\
    zlen evs <= 1800018 /\ written evs = take n command_words /\
    (mSeedValid (GL s') = true ->
      RtcTopology pf = true /\ n = 3%nat /\ seeded (GL s') /\
      exists c o, in_w 48 c /\ in_w 48 o /\
        epoch (mSeed (GL s')) = clock49 c o / 65536 /\
        mSeedNs (GL s') = (clock49 c o mod 65536) * 1000000000 / 65536).

Lemma mwp_globals f (Q : unit -> S -> Prop) s :
  (forall s', GL s' = f (GL s) -> RES s' = RES s -> events s' = events s -> Q tt s') ->
  mwp (lmodify f) Q s.
Proof.
  intros HQ. apply mwp_lmodify. intros s' Hs E. destruct (re_lset_g (f (GL s)) s) as [E1 E2].
  apply HQ; [done | by rewrite Hs | by rewrite Hs].
Qed.

Lemma mwp_count (Q : Z -> S -> Prop) s :
  (forall v s', in_w 64 v -> GL s' = GL s -> RES s' = RES s -> events s' = events s -> Q v s') ->
  mwp (RtcCount pf) Q s.
Proof.
  intros HQ. apply mwp_iff. destruct (re_count (events := events) s) as (? & ? & ? & ?). by apply HQ.
Qed.

Lemma mwp_freq (Q : Z -> S -> Prop) s :
  (forall v s', in_w 64 v -> GL s' = GL s -> RES s' = RES s -> events s' = events s -> Q v s') ->
  mwp (RtcFreq pf) Q s.
Proof.
  intros HQ. apply mwp_iff. destruct (re_freq (events := events) s) as (? & ? & ? & ?). by apply HQ.
Qed.

Lemma validate_ok seed freq :
  nwoas_rtc_seed_validate (Some seed) freq = NWOAS_RTC_OK ->
  s_cntfrq seed = freq /\ freq <> 0 /\ freq <= 0xFFFFFFFF /\
  NWOAS_RTC_EPOCH_MIN <= epoch seed <= NWOAS_RTC_EPOCH_MAX.
Proof. unfold nwoas_rtc_seed_validate. repeat case_match; try done. bool_props. intros _. lia. Qed.

Lemma initialize_spec s : mwp (LibRtcInitialize pf) (init_post s) s.
Proof.
  unfold LibRtcInitialize. wp_go. apply mwp_globals. intros s1 G1 _ V1. wp_go.
  { split; [done |]. exists [], 0%nat. rewrite V1, app_nil_r, G1. split_and!; done. }
  apply mwp_count. intros before s2 _ G2 _ V2. wp_go. apply mwp_freq. intros freq s3 Hfreq G3 _ V3. wp_go.
  apply mwp_iff. pose proof (rtc_read_spec (rtc_ops pf) rtc_bus events s3 eq_refl) as Hr.
  apply mwp_iff in Hr. pose proof (sera_globals s3) as G4.
  set (r := nwoas_sera_rtc_read (Some (rtc_ops pf)) true s3) in *. destruct r as [status s4].
  cbn [fst snd] in *. destruct Hr as (evs & (V4 & Hw & Hl) & (n & W4 & _ & _ & Hn) & Hok).
  assert (Hbad : forall s', events s' = events s4 -> mSeedValid (GL s') = false ->
    init_post s EFI_SUCCESS s').
  { intros s' E1 E2. split; [done |]. exists evs, n. rewrite E1, V4, V3, V2, V1.
    split_and!; try done. intros E. congruence. }
  wp_go. apply mwp_count. intros after s5 Hafter G5 R5 V5. wp_go; cbn [id] in *.
  { apply Hbad; [done |]. by rewrite G5, G4, G3, G2, G1. }
  bool_props. rewrite R5 in *. cbn [id] in *.
  match goal with H : bool_decide _ = true |- _ => apply bool_decide_eq_true in H; subst status end.
  specialize (Hok eq_refl). apply mwp_globals. intros s6 G6 R6 V6. wp_go; cbn [id] in *.
  { apply Hbad; [congruence |]. rewrite G6. cbn. by rewrite G5, G4, G3, G2, G1. }
  bool_props.
  match goal with H : bool_decide (nwoas_rtc_seed_validate _ _ = _) = true |- _ =>
    apply bool_decide_eq_true in H; rename H into Hv end.
  rewrite G6 in Hv. cbn [mSeed id] in Hv. apply validate_ok in Hv. cbn [s_cntfrq epoch seed_from] in Hv.
  apply mwp_globals. intros s7 G7 R7 V7. wp_go. apply mwp_globals. intros s8 G8 R8 V8. wp_go.
  apply mwp_globals. intros s9 G9 R9 V9. wp_go. rewrite R5 in *.
  split; [done |]. exists evs, n. split; [congruence |]. split; [done |]. split; [done |]. split; [done |].
  intros _. split; [done |]. split; [by apply Hn |].
  destruct Hok as (_ & _ & Hc1 & Ho & _ & _ & _ & _ & _ & _ & Hcp & Ht & Es & _ & Ens).
  pose proof (time_status_ok _ Ht) as Hrange. rewrite <- Es in Hrange.
  set (res := RES s4) in *. unfold NWOAS_SERA_UTC_MIN, NWOAS_SERA_UTC_MAX in Hrange.
  assert (Eu : u64 (utc_seconds res) = utc_seconds res) by (apply wrap_small; unfold in_w; lia).
  destruct Hv as (Ef & Hf0 & Hf1 & He). rewrite Eu in He.
  rewrite G9, G8, G7, G6. unfold seeded, seed_ok, seed_usable, seed_from. cbn.
  rewrite Eu, Ef. split.
  - assert (Hns : 0 <= nanoseconds res < 1000000000).
    { rewrite Ens. pose proof (Z.mod_pos_bound (clock49 (counter1 res) (offset res)) 65536 ltac:(done)).
      split; [apply Z.div_pos; lia | apply Z.div_lt_upper_bound; lia]. }
    unfold in_w, NWOAS_RTC_EPOCH_MIN, NWOAS_RTC_EPOCH_MAX in *.
    split; [| split; [| split; [done | split; [lia | done]]]].
    + split; [done |]. split; [done |]. split; [lia |]. split; [done |]. split; [lia |].
      apply list_elem_of_In. right. by left.
    + done.
  - exists (counter1 res), (offset res). done.
Qed.
End rtc_spec.

(** Stores after initialisation and any number of calls and other steps. *)
Inductive rtc_reach {S node} `{G : !Lens S rtc_globals} `{R : !Lens S nwoas_sera_rtc_result}
    (pf : rtc_platform S node) : S -> Prop :=
| rtc_init s : rtc_reach pf (LibRtcInitialize pf s).2
| rtc_get s time caps : rtc_reach pf s -> rtc_reach pf (LibGetTime pf time caps s).2
| rtc_other s s' : rtc_reach pf s -> lget (A := rtc_globals) s' = lget s -> rtc_reach pf s'.

Lemma rtc_reach_inv {S node} `{G : !Lens S rtc_globals} `{R : !Lens S nwoas_sera_rtc_result}
    (pf : rtc_platform S node) (events : S -> list sera_event) `{!RtcEnv pf events} s :
  rtc_reach pf s -> globals_inv (lget s).
Proof.
  induction 1 as [s|s time caps _ IH|s s' _ IH E].
  - pose proof (initialize_spec pf events s) as H. apply mwp_iff in H.
    destruct H as (_ & evs & n & _ & _ & _ & _ & H). intros Hv. by apply H.
  - destruct time as [time|]; [| done].
    pose proof (get_time_spec pf events time caps s IH) as H. apply mwp_iff in H.
    destruct H as [E _]. unfold globals_inv. by rewrite E.
  - unfold globals_inv. by rewrite E.
Qed.

(** ** Properties *)

(** Initialisation always reports success and never writes the hardware
    beyond the prefix of the three read commands; it declares the clock valid
    only on a T8103 whose device tree names the expected controller and PMU
    registers, after a complete snapshot, and the seed is then well formed,
    usable at the reported frequency, and its epoch and nanoseconds are the
    decoded sum of the PMU counter and offset. *)
Theorem boot_clock_seeded {S node} `{G : !Lens S rtc_globals} `{R : !Lens S nwoas_sera_rtc_result}
    (pf : rtc_platform S node) (events : S -> list sera_event) `{!RtcEnv pf events} (s : S) :
  let s' := (LibRtcInitialize pf s).2 in
  let g : rtc_globals := lget s' in
  (LibRtcInitialize pf s).1 = EFI_SUCCESS /\
  exists evs n, events s' = events s ++ evs /\ Forall reads_window evs /\
    zlen evs <= 1800018 /\ written evs = take n command_words /\
    (mSeedValid g = true ->
      RtcTopology pf = true /\ n = 3%nat /\ seeded g /\
      exists c o, in_w 48 c /\ in_w 48 o /\
        epoch (mSeed g) = clock49 c o / 65536 /\
        mSeedNs g = (clock49 c o mod 65536) * 1000000000 / 65536).
Proof. pose proof (initialize_spec pf events s) as H. by apply mwp_iff in H. Qed.

(** C18. After initialisation GetTime is exact: it succeeds if and only if a
    seed was accepted, the timer frequency is the seeded one, the counter has
    not gone back and the time is within 2099, and it then reports a valid
    calendar time equal, to the nanosecond, to the seed plus the elapsed
    counter time; otherwise it reports a device error and leaves the caller's
    time untouched.  It never changes the module globals, and a NULL time is
    refused. *)
Theorem get_time_exact {S node} `{G : !Lens S rtc_globals} `{R : !Lens S nwoas_sera_rtc_result}
    (pf : rtc_platform S node) (events : S -> list sera_event) `{!RtcEnv pf events}
    time0 caps (s : S) :
  rtc_reach pf s ->
  let g : rtc_globals := lget s in
  let freq := (ArmGenericTimerGetTimerFreq pf s).1 in
  let now := (ArmGenericTimerGetSystemCount pf (ArmGenericTimerGetTimerFreq pf s).2).1 in
  let r := (LibGetTime pf (Some time0) caps s).1 in
  lget (A := rtc_globals) (LibGetTime pf (Some time0) caps s).2 = g /\
  (if mSeedValid g && (freq =? mFreqHz g) &&
      bool_decide (s_cntpct (mSeed g) <= now /\ clock_ns g now <= clock_max)
   then exists t, r = (EFI_SUCCESS, Some t, fill_caps caps) /\ time_ok t /\
          time_ns t = clock_ns g now
   else r = (EFI_DEVICE_ERROR, Some time0, fill_caps caps)) /\
  LibGetTime pf None caps s = ((EFI_INVALID_PARAMETER, None, caps), s).
Proof.
  intros Hr g freq now r. pose proof (rtc_reach_inv pf events s Hr) as Hi.
  pose proof (get_time_spec pf events time0 caps s Hi) as H. apply mwp_iff in H.
  destruct H as [H1 H2]. split; [exact H1 | split; [exact H2 | done]].
Qed.

(** ** A concrete platform *)

Definition demo_rtc_store : Type := rtc_globals * demo_sera_store.
#[export] Instance demo_globals_lens : Lens demo_rtc_store rtc_globals := lens_fst.
Program Definition demo_result_lens : Lens demo_rtc_store nwoas_sera_rtc_result :=
  {| lget s := s.2.1; lset r s := (s.1, (r, s.2.2)) |}.
Solve All Obligations with (intros; by repeat match goal with s : demo_rtc_store |- _ => destruct s as [? [? ?]] end).
#[export] Existing Instance demo_result_lens.

Definition lift_bus {A} (m : M demo_sera_store A) : M demo_rtc_store A :=
  fun s => ((m s.2).1, (s.1, (m s.2).2)).

Definition demo_prop (n name : list Z) : option (list Z) :=
  if bool_decide (name = chars "chip-id") then Some (le_bytes 4 0x8103)
  else if bool_decide (name = chars "info-rtc") then Some (le_bytes 4 0xd002)
  else if bool_decide (name = chars "info-rtc_scrpad") then Some (le_bytes 4 0xd100)
  else if bool_decide (name = chars "reg") then
    if bool_decide (n = chars "/arm-io/nub-spmi") then Some (le_bytes 8 0x3d0d9300 ++ le_bytes 8 0x100)
    else Some (le_bytes 4 15)
  else None.

Definition demo_platform : rtc_platform demo_rtc_store (list Z) := {|
  MmioRead32 := fun a => lift_bus (demo_read32 a);
  MmioWrite32 := fun a v => lift_bus (demo_write32 a v);
  MemoryFence := mret tt;
  ArmGenericTimerGetSystemCount := lift_bus (physical_counter demo_sera_env);
  ArmGenericTimerGetTimerFreq := mret 24000000;
  dt_get := Some;
  dt_node_prop := demo_prop;
|}.
Definition demo_rtc_log (s : demo_rtc_store) : list sera_event := demo_log s.2.

#[export] Instance demo_rtc_env : RtcEnv demo_platform demo_rtc_log.
Proof.
  split; intros; split_and!; try done; try (by apply wrap_range);
    by destruct (se_read (events := demo_log) a s.2) as (? & ? & ?).
Qed.

Definition demo_rtc_start : demo_rtc_store := (mk_globals true seed_zero 1 2, demo_sera_start).
Definition demo_rtc_ready : demo_rtc_store := (LibRtcInitialize demo_platform demo_rtc_start).2.

Example demo_rtc_valid : mSeedValid (demo_rtc_ready.1) = true /\
  (LibGetTime demo_platform (Some (mk_time 0 0 0 0 0 0 0 0 0 0 0)) None demo_rtc_ready).1 =
    (EFI_SUCCESS, Some (mk_time 2023 11 14 22 13 20 0 152670 2047 0 0), None).
Proof. by vm_compute. Qed.

Lemma boot_clock_seeded_witness :
  (LibRtcInitialize demo_platform demo_rtc_start).1 = EFI_SUCCESS.
Proof. exact (proj1 (boot_clock_seeded demo_platform demo_rtc_log demo_rtc_start)). Defined.

Lemma get_time_exact_witness :
  LibGetTime demo_platform None None demo_rtc_ready = ((EFI_INVALID_PARAMETER, None, None), demo_rtc_ready) /\
  lget (A := rtc_globals) (LibGetTime demo_platform (Some (mk_time 0 0 0 0 0 0 0 0 0 0 0)) None
    demo_rtc_ready).2 = lget demo_rtc_ready.
Proof.
  destruct (get_time_exact demo_platform demo_rtc_log (mk_time 0 0 0 0 0 0 0 0 0 0 0) None
    demo_rtc_ready (rtc_init demo_platform demo_rtc_start)) as (H1 & _ & H2).
  split; [exact H2 | exact H1].
Defined.
