(* ===== verification/CpuPstate.v ===== *)
(** * The P-state request helper ([firmware-s216/Include/Library/NwoasCpuPstate.h])

    The MMIO callbacks are functions on an arbitrary store; an out-pointer is a
    component of the result (every caller passes a valid one, except for the
    final result, where [Result] tells whether it is non-NULL).  The idle poll
    is a loop over [NWOAS_IDLE_ATTEMPTS], its fuel.  The theorems cover what is
    written to the register, the meaning of each outcome and the number of
    accesses, and that a responsive controller reaches P12. *)

From S2P Require Import Prelude.

(** ** Constants *)

Definition NWOAS_T8103_CHIP_ID : Z := 0x8103.
Definition NWOAS_P_CMD_ADDR : Z := 0x211e20020.
Definition NWOAS_P_STATUS_OFFSET : Z := 0x30.
Definition NWOAS_P_STATUS_ADDR : Z := NWOAS_P_CMD_ADDR + NWOAS_P_STATUS_OFFSET.
Definition NWOAS_PS_FIELDS : Z := 0xf01f.
Definition NWOAS_PSTATE_SET : Z := 1 .<< 25.
Definition NWOAS_PSTATE_BUSY : Z := 1 .<< 31.
Definition NWOAS_PSTATE_APSC_BUSY : Z := 1 .<< 7.
Definition NWOAS_M1_APSC_DIS : Z := 1 .<< 22.
Definition NWOAS_FIXED_FREQ_PLL_RECLOCK : Z := 1 .<< 42.
Definition NWOAS_PROTECTED_BITS : Z := NWOAS_M1_APSC_DIS .| NWOAS_FIXED_FREQ_PLL_RECLOCK.
Definition NWOAS_PSTATE_P7 : Z := 7.
Definition NWOAS_PSTATE_P12 : Z := 12.
Definition NWOAS_IDLE_ATTEMPTS : nat := 250.
Definition NWOAS_IDLE_DELAY_US : Z := 1.

Definition nwoas_cpu_pstate_desired (Pstate : Z) : Z := Pstate .| u64 (Pstate .<< 12).
Definition nwoas_cpu_pstate_status_current (Status : Z) : Z := u32 ((Status .>> 4) .& 0xf).
Definition nwoas_cpu_pstate_status_target (Status : Z) : Z := u32 (Status .& 0xf).

Record NWOAS_CPU_PSTATE_IO (S : Type) := {
  read64 : option (Z -> M S Z);
  write64 : option (Z -> Z -> M S unit);
  delay_us : option (Z -> M S unit);
  chip_id : Z;
}.
#[global] Arguments read64 {S} _. #[global] Arguments write64 {S} _.
#[global] Arguments delay_us {S} _. #[global] Arguments chip_id {S} _.

(** The interface after the NULL checks. *)
Record pstate_io (S : Type) := mk_io {
  io_read : Z -> M S Z;
  io_write : Z -> Z -> M S unit;
  io_delay : option (Z -> M S unit);
}.
#[global] Arguments mk_io {S} _ _ _. #[global] Arguments io_read {S} _.
#[global] Arguments io_write {S} _. #[global] Arguments io_delay {S} _.

Inductive NWOAS_PSTATE_STATUS :=
| NwoasPstateOk
| NwoasPstateInvalidIo
| NwoasPstateUnsupportedChip
| NwoasPstateBaselineBusy
| NwoasPstateBaselineNotP7
| NwoasPstateStuckBusy
| NwoasPstateReadbackMismatch
| NwoasPstateProtectedChanged
| NwoasPstateStatusMismatch
| NwoasPstateRolledBack
| NwoasPstateRollbackBusy
| NwoasPstateRollbackUnverified
| NwoasPstateRollbackFailed
| NwoasPstateStatusMax.
#[export] Instance pstate_status_eq : EqDecision NWOAS_PSTATE_STATUS.
Proof. solve_decision. Defined.

Record NWOAS_CPU_PSTATE_RESULT := mk_presult {
  status : NWOAS_PSTATE_STATUS;
  initial_status : NWOAS_PSTATE_STATUS;
  rollback_status : NWOAS_PSTATE_STATUS;
  baseline_cmd : Z;
  requested_cmd : Z;
  final_cmd : Z;
  final_status : Z;
  final_current : Z;
  final_target : Z;
  apsc_busy : bool;
  protected_preserved : bool;
  rollback_attempted : bool;
  rollback_write_issued : bool;
}.
#[export] Instance presult_eta : Eta NWOAS_CPU_PSTATE_RESULT := fun r =>
  mk_presult (status r) (initial_status r) (rollback_status r) (baseline_cmd r) (requested_cmd r)
    (final_cmd r) (final_status r) (final_current r) (final_target r) (apsc_busy r)
    (protected_preserved r) (rollback_attempted r) (rollback_write_issued r).

Definition nwoas_cpu_pstate_status_name (s : NWOAS_PSTATE_STATUS) : list Z :=
  match s with
  | NwoasPstateOk => chars "ok"
  | NwoasPstateInvalidIo => chars "invalid-io"
  | NwoasPstateUnsupportedChip => chars "unsupported-chip"
  | NwoasPstateBaselineBusy => chars "baseline-busy"
  | NwoasPstateBaselineNotP7 => chars "baseline-not-p7"
  | NwoasPstateStuckBusy => chars "stuck-busy"
  | NwoasPstateReadbackMismatch => chars "readback-mismatch"
  | NwoasPstateProtectedChanged => chars "protected-changed"
  | NwoasPstateStatusMismatch => chars "status-mismatch"
  | NwoasPstateRolledBack => chars "rolled-back"
  | NwoasPstateRollbackBusy => chars "rollback-busy-skipped"
  | NwoasPstateRollbackUnverified => chars "rollback-unverified"
  | NwoasPstateRollbackFailed => chars "rollback-failed"
  | NwoasPstateStatusMax => chars "unknown"
  end.

Section pstate.
Context {S : Type} (io : pstate_io S).

(** The poll loop; [Value] is the last value read. *)
Fixpoint idle_loop (attempts : nat) (Value : Z) : M S (bool * Z) :=
  match attempts with
  | O => mret (false, Value)
  | Datatypes.S attempts =>
      Value ← io_read io NWOAS_P_CMD_ADDR;
      if negb (truthy (Value .& NWOAS_PSTATE_BUSY)) then mret (true, Value)
      else
        match io_delay io with
        | None => mret tt
        | Some delay => delay NWOAS_IDLE_DELAY_US
        end;;
        idle_loop attempts Value
  end.

Definition nwoas_cpu_pstate_wait_idle : M S (bool * Z) := idle_loop NWOAS_IDLE_ATTEMPTS 0.

(** The status, the value stored in [*Out] and [*WriteIssued]. *)
Definition nwoas_cpu_pstate_request (Pstate Reference : Z) : M S (NWOAS_PSTATE_STATUS * Z * bool) :=
  r ← nwoas_cpu_pstate_wait_idle;
  let '(idle, Value) := r in
  if negb idle then mret (NwoasPstateStuckBusy, Value, false)
  else
    let Desired := nwoas_cpu_pstate_desired Pstate in
    let Request := (Value .& cnot 64 NWOAS_PS_FIELDS) .| NWOAS_PSTATE_SET .| Desired in
    io_write io NWOAS_P_CMD_ADDR Request;;
    r ← nwoas_cpu_pstate_wait_idle;
    let '(idle, Value) := r in
    if negb idle then mret (NwoasPstateStuckBusy, Value, true)
    else if negb (Value .& NWOAS_PS_FIELDS =? Desired) then
      mret (NwoasPstateReadbackMismatch, Value, true)
    else if truthy ((Value .^ Reference) .& NWOAS_PROTECTED_BITS) then
      mret (NwoasPstateProtectedChanged, Value, true)
    else mret (NwoasPstateOk, Value, true).

Definition nwoas_cpu_pstate_fill (Result : NWOAS_CPU_PSTATE_RESULT) (Cmd Status : Z) :
    NWOAS_CPU_PSTATE_RESULT :=
  mk_presult (status Result) (initial_status Result) (rollback_status Result)
    (baseline_cmd Result) (requested_cmd Result) Cmd Status
    (nwoas_cpu_pstate_status_current Status) (nwoas_cpu_pstate_status_target Status)
    (truthy (Cmd .& NWOAS_PSTATE_APSC_BUSY))
    (negb (truthy ((Cmd .^ baseline_cmd Result) .& NWOAS_PROTECTED_BITS)))
    (rollback_attempted Result) (rollback_write_issued Result).

(** The zeroed result with a status and the baseline command value. *)
Definition result_start (st : NWOAS_PSTATE_STATUS) (Baseline : Z) : NWOAS_CPU_PSTATE_RESULT :=
  mk_presult st NwoasPstateOk NwoasPstateOk Baseline Baseline 0 0 0 0 false false false false.

(** The fields stored after the P12 request and after the rollback request. *)
Definition note_request (R : NWOAS_CPU_PSTATE_RESULT) (Cmd : Z) (St : NWOAS_PSTATE_STATUS) :
    NWOAS_CPU_PSTATE_RESULT :=
  mk_presult (status R) St (rollback_status R) (baseline_cmd R) Cmd (final_cmd R) (final_status R)
    (final_current R) (final_target R) (apsc_busy R) (protected_preserved R)
    (rollback_attempted R) (rollback_write_issued R).
Definition note_rollback (R : NWOAS_CPU_PSTATE_RESULT) (St : NWOAS_PSTATE_STATUS) (Write : bool) :
    NWOAS_CPU_PSTATE_RESULT :=
  mk_presult (status R) (initial_status R) St (baseline_cmd R) (requested_cmd R) (final_cmd R)
    (final_status R) (final_current R) (final_target R) (apsc_busy R) (protected_preserved R)
    true Write.
Definition set_status (st : NWOAS_PSTATE_STATUS) (R : NWOAS_CPU_PSTATE_RESULT) :
    NWOAS_CPU_PSTATE_RESULT := R <| status := st |>.

(** A STATUS read recorded with the command value. *)
Definition capture (R : NWOAS_CPU_PSTATE_RESULT) (Cmd : Z) : M S NWOAS_CPU_PSTATE_RESULT :=
  StatusReg ← io_read io NWOAS_P_STATUS_ADDR;
  mret (nwoas_cpu_pstate_fill R Cmd StatusReg).

(** The current and target P-state are both [p] and the protected bits intact. *)
Definition settled_at (R : NWOAS_CPU_PSTATE_RESULT) (p : Z) : bool :=
  (final_current R =? p) && (final_target R =? p) && protected_preserved R.

Definition rollback_outcome (R : NWOAS_CPU_PSTATE_RESULT) (St : NWOAS_PSTATE_STATUS)
    (Write : bool) : NWOAS_PSTATE_STATUS :=
  match St with
  | NwoasPstateStuckBusy =>
      if Write then NwoasPstateRollbackUnverified else NwoasPstateRollbackBusy
  | NwoasPstateOk =>
      if settled_at R NWOAS_PSTATE_P7 then NwoasPstateRolledBack else NwoasPstateRollbackFailed
  | _ => NwoasPstateRollbackFailed
  end.

(** The failure path after [R.rollback_attempted = TRUE]. *)
Definition rollback (R : NWOAS_CPU_PSTATE_RESULT) (Baseline : Z) : M S NWOAS_CPU_PSTATE_RESULT :=
  r ← nwoas_cpu_pstate_request NWOAS_PSTATE_P7 Baseline;
  let '(RollbackSt, RollbackCmd, RollbackWrite) := r in
  R ← capture (note_rollback R RollbackSt RollbackWrite) RollbackCmd;
  mret (set_status (rollback_outcome R RollbackSt RollbackWrite) R).

(** The part of [nwoas_cpu_pstate_enable_p12] after the interface checks; the
    value is what is stored in [*Result]. *)
Definition enable_p12 : M S NWOAS_CPU_PSTATE_RESULT :=
  Baseline ← io_read io NWOAS_P_CMD_ADDR;
  if truthy (Baseline .& NWOAS_PSTATE_BUSY) then
    capture (result_start NwoasPstateBaselineBusy Baseline) Baseline
  else if negb (Baseline .& NWOAS_PS_FIELDS =? nwoas_cpu_pstate_desired NWOAS_PSTATE_P7) then
    capture (result_start NwoasPstateBaselineNotP7 Baseline) Baseline
  else
    r ← nwoas_cpu_pstate_request NWOAS_PSTATE_P12 Baseline;
    let '(St, Cmd, WriteIssued) := r in
    let R := note_request (result_start NwoasPstateOk Baseline) Cmd St in
    match St with
    | NwoasPstateOk =>
        R ← capture R Cmd;
        if settled_at R NWOAS_PSTATE_P12 then mret (set_status NwoasPstateOk R)
        else rollback (note_request R (requested_cmd R) NwoasPstateStatusMismatch) Baseline
    | _ => rollback R Baseline
    end.
End pstate.

Definition io_present {S} (io : NWOAS_CPU_PSTATE_IO S) : option (pstate_io S) :=
  match read64 io, write64 io with
  | Some r, Some w => Some (mk_io r w (delay_us io))
  | _, _ => None
  end.

(** The status, and the snapshot stored when [Result] is not NULL. *)
Definition nwoas_cpu_pstate_enable_p12 {S} (Io : option (NWOAS_CPU_PSTATE_IO S)) (Result : bool) :
    M S (NWOAS_PSTATE_STATUS * option NWOAS_CPU_PSTATE_RESULT) :=
  let store R : NWOAS_PSTATE_STATUS * option NWOAS_CPU_PSTATE_RESULT :=
    (status R, if Result then Some R else None) in
  match Io with
  | None => mret (store (result_start NwoasPstateInvalidIo 0))
  | Some io =>
      match io_present io with
      | None => mret (store (result_start NwoasPstateInvalidIo 0))
      | Some env =>
          if negb (chip_id io =? NWOAS_T8103_CHIP_ID) then
            mret (store (result_start NwoasPstateUnsupportedChip 0))
          else R ← enable_p12 env; mret (store R)
      end
  end.

(** ** Specification vocabulary *)

(** A register access with the value read or written. *)
Inductive mmio := MRd (a v : Z) | MWr (a v : Z).

(** [events] lists the accesses made through the interface. *)
Class PstateEnv {S} (io : pstate_io S) (events : S -> list mmio) : Prop := {
  pe_read a s : events (io_read io a s).2 = events s ++ [MRd a (io_read io a s).1] /\
    in_w 64 (io_read io a s).1;
  pe_write a v s : events (io_write io a v s).2 = events s ++ [MWr a v];
  pe_delay d n : io_delay io = Some d -> keeps events (d n);
}.

Definition idle_value (x : Z) : Prop := Z.testbit x 31 = false.
(** The command word that requests [p] when [x] was read. *)
Definition request_word (x p : Z) : Z :=
  (x .& cnot 64 NWOAS_PS_FIELDS) .| NWOAS_PSTATE_SET .| nwoas_cpu_pstate_desired p.
(** A P-state request as the bus sees it. *)
Definition is_request (p : Z) (evs : list mmio) : Prop :=
  exists x, idle_value x /\
    evs = [MRd NWOAS_P_CMD_ADDR x; MWr NWOAS_P_CMD_ADDR (request_word x p)].
Definition is_read (e : mmio) : Prop :=
  match e with MRd a _ => a = NWOAS_P_CMD_ADDR \/ a = NWOAS_P_STATUS_ADDR | MWr _ _ => False end.

(** [session ps evs]: in the log [evs] the P-states [ps] are requested, in this
    order, each by a write that directly follows the idle read it was computed
    from; everything else is a read of one of the two registers. *)
Inductive session : list Z -> list mmio -> Prop :=
| session_nil : session [] []
| session_read e ps evs : is_read e -> session ps evs -> session ps (e :: evs)
| session_request p x ps evs :
    idle_value x -> session ps evs ->
    session (p :: ps) (MRd NWOAS_P_CMD_ADDR x :: MWr NWOAS_P_CMD_ADDR (request_word x p) :: evs).

(** A controller that carries out requests: [cmd] and [stat] are its registers,
    [busy] the number of reads for which it still shows BUSY. *)
Class PstateDevice {S} (io : pstate_io S) (cmd stat : S -> Z) (busy : S -> nat) : Prop := {
  pd_read_cmd s : let r := io_read io NWOAS_P_CMD_ADDR s in
    r.1 = (match busy s with O => cmd s | _ => cmd s .| NWOAS_PSTATE_BUSY end) /\
    cmd r.2 = cmd s /\ stat r.2 = stat s /\ busy r.2 = pred (busy s);
  pd_read_status s : let r := io_read io NWOAS_P_STATUS_ADDR s in
    r.1 = stat s /\ cmd r.2 = cmd s /\ stat r.2 = stat s /\ busy r.2 = busy s;
  pd_write v s : let s' := (io_write io NWOAS_P_CMD_ADDR v s).2 in
    cmd s' = v .& cnot 64 (NWOAS_PSTATE_SET .| NWOAS_PSTATE_BUSY) /\
    stat s' = (v .& 0xf) .| ((v .& 0xf) .<< 4) /\ (busy s' < NWOAS_IDLE_ATTEMPTS)%nat;
  pd_delay d n s : io_delay io = Some d ->
    cmd (d n s).2 = cmd s /\ stat (d n s).2 = stat s /\ busy (d n s).2 = busy s;
}.

(** ** Words *)

Lemma busy_bit x : truthy (x .& NWOAS_PSTATE_BUSY) = Z.testbit x 31.
Proof. apply (truthy_bit 31). lia. Qed.

Lemma request_fields x p : p = 7 \/ p = 12 ->
  request_word x p .& NWOAS_PS_FIELDS = nwoas_cpu_pstate_desired p.
Proof.
  intros Hp. unfold request_word, NWOAS_PS_FIELDS, NWOAS_PSTATE_SET.
  rewrite !Z.land_lor_distr_l, <- Z.land_assoc.
  replace (cnot 64 0xf01f .& 0xf01f) with 0 by done. rewrite Z.land_0_r.
  by destruct Hp as [-> | ->].
Qed.

Lemma request_keeps x p i : in_w 64 x -> p = 7 \/ p = 12 -> 0 <= i < 64 ->
  Z.testbit NWOAS_PS_FIELDS i = false -> i <> 25 ->
  Z.testbit (request_word x p) i = Z.testbit x i.
Proof.
  intros Hx Hp Hi Hf H25. unfold request_word.
  rewrite !Z.lor_spec, Z.land_spec, testbit_cnot, Hf by lia.
  assert (Hd : Z.testbit (nwoas_cpu_pstate_desired p) i = false).
  { assert (E : nwoas_cpu_pstate_desired p .& NWOAS_PS_FIELDS = nwoas_cpu_pstate_desired p)
      by (by destruct Hp as [-> | ->]).
    rewrite <- E, Z.land_spec, Hf. apply andb_false_r. }
  rewrite Hd. change NWOAS_PSTATE_SET with (2 ^ 25). rewrite testbit_pow2_eqb by lia.
  rewrite (proj2 (Z.eqb_neq i 25)) by done. rewrite (proj2 (Z.ltb_lt i 64)) by lia.
  cbn [negb andb]. by rewrite andb_true_r, !orb_false_r.
Qed.

Lemma session_app ps1 e1 ps2 e2 :
  session ps1 e1 -> session ps2 e2 -> session (ps1 ++ ps2) (e1 ++ e2).
Proof. intros H1 H2. induction H1; cbn; [done | by constructor | by constructor]. Qed.

Lemma session_reads evs : Forall is_read evs -> session [] evs.
Proof. induction 1; by constructor. Qed.

(** ** The accesses *)

Section pstate_spec.
Context {S : Type} (io : pstate_io S) (events : S -> list mmio) `{!PstateEnv io events}.

(** [requests k ps s s']: from [s] to [s'] the requests [ps] were made in at most
    [k] accesses. *)
Definition requests (k : Z) (ps : list Z) (s s' : S) : Prop :=
  exists evs, events s' = events s ++ evs /\ session ps evs /\ zlen evs <= k.

Lemma requests_trans j k ps qs s1 s2 s3 : requests j ps s1 s2 -> requests k qs s2 s3 -> requests (j + k) (ps ++ qs) s1 s3.
Proof.
  intros (e1 & E1 & H1 & L1) (e2 & E2 & H2 & L2). exists (e1 ++ e2). split_and!.
  - by rewrite E2, E1, app_assoc.
  - by apply session_app.
  - rewrite zlen_app. lia.
Qed.

Lemma requests_mono j k ps s s' : requests j ps s s' -> j <= k -> requests k ps s s'.
Proof. intros (e & E & H & L) Hk. exists e. split_and!; [done | done | lia]. Qed.

Lemma mwp_io_read a (Q : Z -> S -> Prop) s :
  a = NWOAS_P_CMD_ADDR \/ a = NWOAS_P_STATUS_ADDR ->
  (forall v s', in_w 64 v -> events s' = events s ++ [MRd a v] -> Q v s') -> mwp (io_read io a) Q s.
Proof. intros Ha HQ. apply mwp_iff. destruct (pe_read (events := events) a s). by apply HQ. Qed.

Lemma idle_spec n v0 s :
  mwp (idle_loop io n v0) (fun r s' => exists evs, events s' = events s ++ evs /\ Forall is_read evs /\
    zlen evs <= Z.of_nat n /\
    (r.1 = true -> in_w 64 r.2 /\ idle_value r.2 /\ exists pre, evs = pre ++ [MRd NWOAS_P_CMD_ADDR r.2])) s.
Proof.
  revert v0 s. induction n as [|n IH]; intros v0 s; cbn [idle_loop].
  { wp_go. exists []. rewrite app_nil_r. split_and!; done. }
  wp_go. apply mwp_io_read; [by left |]. intros v s1 Hv E1. wp_go.
  - exists [MRd NWOAS_P_CMD_ADDR v]. rewrite busy_bit in H. apply negb_true_iff in H.
    split_and!; [done | by repeat constructor | change (zlen [MRd NWOAS_P_CMD_ADDR v]) with 1; lia |].
    intros _. split_and!; try done. by exists [].
  - assert (Hstep : forall t, events t = events s1 -> mwp (idle_loop io n v) (fun r s' => exists evs,
      events s' = events s ++ evs /\ Forall is_read evs /\ zlen evs <= Z.of_nat (Datatypes.S n) /\
      (r.1 = true -> in_w 64 r.2 /\ idle_value r.2 /\
         exists pre, evs = pre ++ [MRd NWOAS_P_CMD_ADDR r.2])) t).
    { intros t Et. eapply mwp_mono; [apply IH |]. intros r s2 (evs & E2 & F & L & Hr).
      exists (MRd NWOAS_P_CMD_ADDR v :: evs). split_and!.
      - by rewrite E2, Et, E1, <- app_assoc.
      - constructor; [by left | done].
      - rewrite zlen_cons. lia.
      - intros Ht. destruct (Hr Ht) as (? & ? & pre & ->). split_and!; try done.
        by exists (MRd NWOAS_P_CMD_ADDR v :: pre). }
    destruct (io_delay io) as [d|] eqn:Ed; wp_go; [| by apply Hstep].
    eapply mwp_cb; [by apply (pe_delay (events := events)) |]. intros u t Et. by apply Hstep.
Qed.

(** Protected bits as in the reference value. *)
Definition protected_ok (v ref : Z) : Prop := (v .^ ref) .& NWOAS_PROTECTED_BITS = 0.

Lemma request_spec p ref s :
  mwp (nwoas_cpu_pstate_request io p ref) (fun r s' =>
    let '(st, v, issued) := r in
    requests 501 (if issued then [p] else []) s s' /\
    (issued = false -> st = NwoasPstateStuckBusy) /\
    st ∈ [NwoasPstateOk; NwoasPstateStuckBusy; NwoasPstateReadbackMismatch; NwoasPstateProtectedChanged] /\
    (st = NwoasPstateOk -> issued = true /\ idle_value v /\
       v .& NWOAS_PS_FIELDS = nwoas_cpu_pstate_desired p /\ protected_ok v ref)) s.
Proof.
  unfold nwoas_cpu_pstate_request, nwoas_cpu_pstate_wait_idle. wp_go.
  eapply mwp_mono; [apply idle_spec |]. intros [ok x] s1 (e1 & E1 & F1 & L1 & H1). cbn [fst snd] in *.
  change (Z.of_nat NWOAS_IDLE_ATTEMPTS) with 250 in *. wp_go.
  { split; [| split; [done | split; [| done]]].
    - exists e1. split_and!; [done | by apply session_reads | lia].
    - right. left. }
  apply negb_false_iff in H. subst ok. destruct (H1 eq_refl) as (Hx & Hidle & pre & ->).
  apply mwp_iff.
  pose proof (pe_write (events := events) NWOAS_P_CMD_ADDR (request_word x p) s1) as E2.
  set (s2 := (io_write io NWOAS_P_CMD_ADDR (request_word x p) s1).2) in *.
  assert (R2 : requests 251 [p] s s2).
  { exists ((pre ++ [MRd NWOAS_P_CMD_ADDR x]) ++ [MWr NWOAS_P_CMD_ADDR (request_word x p)]). split_and!.
    - by rewrite E2, E1, <- !app_assoc.
    - rewrite <- app_assoc. apply Forall_app in F1 as [F1 _].
      apply (session_app []); [by apply session_reads | repeat constructor; done].
    - rewrite zlen_app. change (zlen [MWr NWOAS_P_CMD_ADDR (request_word x p)]) with 1. lia. }
  wp_go. eapply mwp_mono; [apply idle_spec |].
  intros [ok v] s3 (e3 & E3 & F3 & L3 & H3). cbn [fst snd] in *.
  change (Z.of_nat NWOAS_IDLE_ATTEMPTS) with 250 in *.
  assert (R3 : requests 501 [p] s s3).
  { apply (requests_trans 251 250 [p] [] s s2 s3); [done |].
    exists e3. split_and!; [done | by apply session_reads | lia]. }
  wp_go; (split; [done |]); (split; [done |]); (split; [apply list_elem_of_In; cbn; tauto |]);
    try done.
  apply negb_false_iff in H. subst ok. destruct (H3 eq_refl) as (_ & Hidle' & _). intros _.
  split; [done |]. split; [done |]. split; [by apply Z.eqb_eq, negb_false_iff |].
  by apply truthy_false.
Qed.

(** What a snapshot that verified the P-state [p] shows. *)
Definition verified (R : NWOAS_CPU_PSTATE_RESULT) (p : Z) : Prop :=
  final_current R = p /\ final_target R = p /\ idle_value (final_cmd R) /\
  final_cmd R .& NWOAS_PS_FIELDS = nwoas_cpu_pstate_desired p /\
  protected_ok (final_cmd R) (baseline_cmd R).

(** What each outcome means, given the requests [ps] that were made. *)
Definition outcome (R : NWOAS_CPU_PSTATE_RESULT) (ps : list Z) : Prop :=
  match status R with
  | NwoasPstateOk => ps = [12] /\ verified R 12 /\ rollback_attempted R = false
  | NwoasPstateRolledBack =>
      (ps = [7] \/ ps = [12; 7]) /\ verified R 7 /\ rollback_attempted R = true /\
      rollback_write_issued R = true
  | NwoasPstateRollbackBusy =>
      (ps = [] \/ ps = [12]) /\ rollback_attempted R = true /\ rollback_write_issued R = false
  | NwoasPstateRollbackUnverified | NwoasPstateRollbackFailed =>
      (ps = [7] \/ ps = [12; 7]) /\ rollback_attempted R = true /\ rollback_write_issued R = true
  | NwoasPstateBaselineBusy | NwoasPstateBaselineNotP7 => ps = [] /\ rollback_attempted R = false
  | _ => False
  end.

Lemma capture_spec R cmd s (Q : NWOAS_CPU_PSTATE_RESULT -> S -> Prop) :
  (forall x s', requests 1 [] s s' -> Q (nwoas_cpu_pstate_fill R cmd x) s') -> mwp (capture io R cmd) Q s.
Proof.
  intros HQ. unfold capture. wp_go. apply mwp_io_read; [by right |]. intros v s1 _ E. wp_go. apply HQ.
  exists [MRd NWOAS_P_STATUS_ADDR v]. split_and!; [done | apply session_reads; constructor; [by right | done] |].
  change (zlen [MRd NWOAS_P_STATUS_ADDR v]) with 1. lia.
Qed.

Lemma settled_verified R cmd x p :
  settled_at (nwoas_cpu_pstate_fill R cmd x) p = true -> idle_value cmd ->
  cmd .& NWOAS_PS_FIELDS = nwoas_cpu_pstate_desired p ->
  verified (nwoas_cpu_pstate_fill R cmd x) p.
Proof.
  unfold settled_at, verified, protected_ok, nwoas_cpu_pstate_fill. cbn. intros H Hi Hf. bool_props.
  split_and!; done.
Qed.

Lemma rollback_spec R base s :
  mwp (rollback io R base) (fun R' s' => exists issued : bool,
    requests 502 (if issued then [7] else []) s s' /\
    rollback_attempted R' = true /\ rollback_write_issued R' = issued /\
    (issued = true -> status R' = NwoasPstateRolledBack /\ verified R' 7 \/
       status R' = NwoasPstateRollbackUnverified \/ status R' = NwoasPstateRollbackFailed) /\
    (issued = false -> status R' = NwoasPstateRollbackBusy)) s.
Proof.
  unfold rollback. wp_go. eapply mwp_mono; [apply (request_spec NWOAS_PSTATE_P7) |].
  intros [[st v] issued] s1 (R1 & Hni & Hst & Hok). wp_go. apply capture_spec.
  intros x s2 R2. wp_go. exists issued. cbn [rollback_attempted rollback_write_issued status nwoas_cpu_pstate_fill].
  pose proof (requests_trans _ _ _ _ _ _ _ R1 R2) as R12.
  rewrite app_nil_r in R12. change (501 + 1) with 502 in R12. change NWOAS_PSTATE_P7 with 7 in *.
  split_and!; try done.
  - intros ->. unfold rollback_outcome.
    apply list_elem_of_In in Hst. cbn in Hst.
    destruct Hst as [<- | [<- | [<- | [<- | []]]]]; [| by auto ..].
    destruct (settled_at _ _) eqn:Es; [left | by auto]. split; [done |].
    destruct (Hok eq_refl) as (_ & Hi & Hf & _).
    pose proof (settled_verified _ _ _ _ Es Hi Hf) as Hv. exact Hv.
  - intros ->. by rewrite (Hni eq_refl).
Qed.

Lemma outcome_requests R ps : outcome R ps -> ps ∈ [[]; [7]; [12]; [12; 7]].
Proof. intros H. apply list_elem_of_In. unfold outcome in H. destruct (status R); cbn; naive_solver. Qed.

Lemma requests_none s k : 0 <= k -> requests k [] s s.
Proof. exists []. rewrite app_nil_r. split_and!; [done | constructor | done]. Qed.

Lemma enable_spec s :
  mwp (enable_p12 io) (fun R s' => exists ps, requests 1005 ps s s' /\ outcome R ps) s.
Proof.
  unfold enable_p12. wp_go. apply mwp_io_read; [by left |]. intros base s1 _ E1.
  assert (R1 : requests 1 [] s s1).
  { exists [MRd NWOAS_P_CMD_ADDR base]. split_and!; [done | apply session_reads; constructor; [by left | done] |].
    change (zlen [MRd NWOAS_P_CMD_ADDR base]) with 1. lia. }
  wp_go.
  { apply capture_spec. intros x s2 R2. exists []. split; [| done].
    eapply requests_mono; [eapply (requests_trans _ _ [] []); [exact R1 | exact R2] | lia]. }
  { apply capture_spec. intros x s2 R2. exists []. split; [| done].
    eapply requests_mono; [eapply (requests_trans _ _ [] []); [exact R1 | exact R2] | lia]. }
  eapply mwp_mono; [apply (request_spec NWOAS_PSTATE_P12) |].
  intros [[st v] issued] s2 (R2 & Hni & Hst & Hok). change NWOAS_PSTATE_P12 with 12 in *.
  pose proof (requests_trans _ _ _ _ _ _ _ R1 R2) as R12. cbn [app] in R12. change (1 + 501) with 502 in R12.
  assert (Hrb : forall R k s3, requests k (if issued then [12] else []) s s3 -> k <= 503 ->
    mwp (rollback io R base) (fun R s' => exists ps, requests 1005 ps s s' /\ outcome R ps) s3).
  { intros R k s3 R3 Hk. eapply mwp_mono; [apply rollback_spec |].
    intros R' s4 (iss & R4 & Ha & Hw & H1 & H2). eexists. split; [eapply requests_mono; [by eapply requests_trans | lia] |].
    unfold outcome. destruct iss.
    - destruct (H1 eq_refl) as [[-> Hv] | [-> | ->]]; destruct issued; auto 6.
    - rewrite (H2 eq_refl). destruct issued; auto. }
  apply list_elem_of_In in Hst. cbn in Hst.
  destruct Hst as [<- | [<- | [<- | [<- | []]]]]; [| by eapply Hrb; [exact R12 | lia] ..].
  destruct (Hok eq_refl) as (-> & Hi & Hf & _). wp_go. apply capture_spec. intros x s3 R3.
  pose proof (requests_trans _ _ _ _ _ _ _ R12 R3) as R13. rewrite app_nil_r in R13. wp_go.
  - eexists. split; [eapply requests_mono; [exact R13 | lia] |]. unfold outcome. cbn [status].
    split; [done |]. split; [| done]. pose proof (settled_verified _ _ _ _ H1 Hi Hf) as Hv. exact Hv.
  - eapply Hrb; [exact R13 | lia].
Qed.
End pstate_spec.

(** What the accessors leave alone, the procedure leaves alone. *)
Section frame.
Context {S B : Type} (f : S -> B) (io : pstate_io S).
Hypothesis keeps_read : forall a, keeps f (io_read io a).
Hypothesis keeps_write : forall a v, keeps f (io_write io a v).
Hypothesis keeps_delay : forall d n, io_delay io = Some d -> keeps f (d n).

Lemma idle_keeps n v : keeps f (idle_loop io n v).
Proof.
  revert v. induction n as [|n IH]; intros v; cbn [idle_loop]; [apply keeps_ret |].
  keeps_run.
Qed.

Lemma request_frame p ref : keeps f (nwoas_cpu_pstate_request io p ref).
Proof.
  pose proof (fun n v => idle_keeps n v) as Hi.
  unfold nwoas_cpu_pstate_request, nwoas_cpu_pstate_wait_idle. keeps_run.
Qed.

Lemma enable_frame : keeps f (enable_p12 io).
Proof.
  pose proof request_frame as Hr. unfold enable_p12, rollback, capture. keeps_run.
Qed.
End frame.

(** ** A responsive controller *)

Section device.
Context {S : Type} (io : pstate_io S) (cmd stat : S -> Z) (busy : S -> nat)
  `{!PstateDevice io cmd stat busy}.

Lemma busy_value x : Z.testbit (x .| NWOAS_PSTATE_BUSY) 31 = true.
Proof. rewrite Z.lor_spec. change (Z.testbit NWOAS_PSTATE_BUSY 31) with true. apply orb_true_r. Qed.

Lemma device_idle n v0 s :
  idle_value (cmd s) -> (busy s < n)%nat ->
  mwp (idle_loop io n v0) (fun r s' => r = (true, cmd s) /\ cmd s' = cmd s /\ stat s' = stat s /\
    busy s' = O) s.
Proof.
  intros Hi. revert v0 s Hi. induction n as [|n IH]; intros v0 s Hi Hn; [lia |].
  cbn [idle_loop]. wp_go. apply mwp_iff. destruct (pd_read_cmd (busy := busy) s) as (Ev & Ec & Es & Eb).
  set (s1 := (io_read io NWOAS_P_CMD_ADDR s).2) in *.
  set (v := (io_read io NWOAS_P_CMD_ADDR s).1) in *. clearbody s1 v.
  wp_go; rewrite busy_bit in *; destruct (busy s) as [|k] eqn:Ek; subst v.
  - rewrite Eb. done.
  - rewrite busy_value in H. done.
  - unfold idle_value in Hi. rewrite Hi in H. done.
  - assert (Hrest : forall t, cmd t = cmd s1 -> stat t = stat s1 -> busy t = busy s1 ->
      mwp (idle_loop io n (cmd s .| NWOAS_PSTATE_BUSY)) (fun r s' => r = (true, cmd s) /\
        cmd s' = cmd s /\ stat s' = stat s /\ busy s' = O) t).
    { intros t E1 E2 E3. eapply mwp_mono; [apply IH; [by rewrite E1, Ec | rewrite E3, Eb; cbn; lia] |].
      intros r s' (-> & -> & -> & ->). by rewrite E1, E2, Ec, Es. }
    destruct (io_delay io) as [d|] eqn:Ed; wp_go; [| by apply Hrest].
    apply mwp_iff. destruct (pd_delay (busy := busy) d NWOAS_IDLE_DELAY_US s1 Ed) as (? & ? & ?).
    by apply Hrest.
Qed.

Lemma written_word x p : p = 7 \/ p = 12 ->
  let c := request_word x p .& cnot 64 (NWOAS_PSTATE_SET .| NWOAS_PSTATE_BUSY) in
  idle_value c /\ c .& NWOAS_PS_FIELDS = nwoas_cpu_pstate_desired p /\
  request_word x p .& 0xf = p /\
  (forall i, 0 <= i < 64 -> i <> 25 -> i <> 31 -> Z.testbit NWOAS_PS_FIELDS i = false ->
     Z.testbit c i = Z.testbit x i).
Proof.
  intros Hp c. set (k := NWOAS_PSTATE_SET .| NWOAS_PSTATE_BUSY).
  assert (Hk : forall i, 0 <= i < 64 -> Z.testbit k i = (i =? 25) || (i =? 31)).
  { intros i Hi. unfold k, NWOAS_PSTATE_SET, NWOAS_PSTATE_BUSY.
    change (1 .<< 25) with (2 ^ 25). change (1 .<< 31) with (2 ^ 31).
    by rewrite Z.lor_spec, !testbit_pow2_eqb by lia. }
  split_and!.
  - unfold idle_value, c. by rewrite Z.land_spec, testbit_cnot, andb_false_r by lia.
  - unfold c. rewrite <- Z.land_assoc, (Z.land_comm (cnot _ _)), Z.land_assoc, request_fields by done.
    by destruct Hp as [-> | ->].
  - pose proof (request_fields x p Hp) as H. apply (f_equal (fun z => z .& 0xf)) in H.
    rewrite <- Z.land_assoc in H. change (NWOAS_PS_FIELDS .& 0xf) with 0xf in H.
    rewrite H. by destruct Hp as [-> | ->].
  - intros i Hi H25 H31 Hf. unfold c. rewrite Z.land_spec, testbit_cnot, Hk by lia.
    rewrite (proj2 (Z.eqb_neq i 25)), (proj2 (Z.eqb_neq i 31)) by done.
    rewrite (proj2 (Z.ltb_lt i 64)) by lia. rewrite andb_true_r.
    unfold request_word. rewrite !Z.lor_spec, Z.land_spec, testbit_cnot, Hf by lia.
    rewrite (proj2 (Z.ltb_lt i 64)) by lia.
    assert (Hd : Z.testbit (nwoas_cpu_pstate_desired p) i = false).
    { assert (E : nwoas_cpu_pstate_desired p .& NWOAS_PS_FIELDS = nwoas_cpu_pstate_desired p)
        by (by destruct Hp as [-> | ->]).
      rewrite <- E, Z.land_spec, Hf. apply andb_false_r. }
    rewrite Hd. change NWOAS_PSTATE_SET with (2 ^ 25). rewrite testbit_pow2_eqb by lia.
    rewrite (proj2 (Z.eqb_neq i 25)) by done. cbn. by rewrite andb_true_r, !orb_false_r.
Qed.

Lemma protected_kept x y :
  (forall i, 0 <= i < 64 -> i <> 25 -> i <> 31 -> Z.testbit NWOAS_PS_FIELDS i = false ->
    Z.testbit y i = Z.testbit x i) ->
  (y .^ x) .& NWOAS_PROTECTED_BITS = 0.
Proof.
  intros Hk. apply Z.bits_inj'. intros i Hi'.
  rewrite Z.land_spec, Z.lxor_spec, Z.bits_0.
  destruct (Z.testbit NWOAS_PROTECTED_BITS i) eqn:Et; [| apply andb_false_r].
  assert (Hin : i = 22 \/ i = 42).
  { revert Et. unfold NWOAS_PROTECTED_BITS, NWOAS_M1_APSC_DIS, NWOAS_FIXED_FREQ_PLL_RECLOCK.
    change (1 .<< 22) with (2 ^ 22). change (1 .<< 42) with (2 ^ 42).
    rewrite Z.lor_spec, !testbit_pow2_eqb by done. intros [E|E]%orb_true_iff; apply Z.eqb_eq in E; lia. }
  rewrite Hk by (lia || (by destruct Hin as [-> | ->])). by rewrite xorb_nilpotent.
Qed.

Lemma device_request p s :
  p = 7 \/ p = 12 -> idle_value (cmd s) -> (busy s < NWOAS_IDLE_ATTEMPTS)%nat ->
  mwp (nwoas_cpu_pstate_request io p (cmd s)) (fun r s' =>
    r = (NwoasPstateOk, cmd s', true) /\ idle_value (cmd s') /\
    cmd s' .& NWOAS_PS_FIELDS = nwoas_cpu_pstate_desired p /\ stat s' = p .| (p .<< 4) /\
    forall i, 0 <= i < 64 -> i <> 25 -> i <> 31 -> Z.testbit NWOAS_PS_FIELDS i = false ->
      Z.testbit (cmd s') i = Z.testbit (cmd s) i) s.
Proof.
  intros Hp Hi Hb. unfold nwoas_cpu_pstate_request, nwoas_cpu_pstate_wait_idle. wp_go.
  eapply mwp_mono; [by apply device_idle |]. intros r s1 (-> & Ec1 & _ & _). cbv beta iota. wp_go; [done |].
  apply mwp_iff. pose proof (pd_write (busy := busy) (request_word (cmd s) p) s1) as (Ec2 & Es2 & Eb2).
  set (s2 := (io_write io NWOAS_P_CMD_ADDR (request_word (cmd s) p) s1).2) in *.
  destruct (written_word (cmd s) p Hp) as (Hi2 & Hf2 & Hp2 & Hk2). rewrite <- Ec2 in Hi2, Hf2, Hk2.
  rewrite Hp2 in Es2. fold (request_word (cmd s) p). fold s2. wp_go.
  eapply mwp_mono; [by apply device_idle |]. intros r s3 (-> & Ec3 & Es3 & _). cbv beta iota. wp_go; try done.
  - rewrite Hf2, Z.eqb_refl in H1. done.
  - exfalso. apply truthy_spec in H2. apply H2. by apply protected_kept.
  - rewrite Ec3, Es3. done.
Qed.

Lemma device_p12 s :
  idle_value (cmd s) -> busy s = O -> cmd s .& NWOAS_PS_FIELDS = nwoas_cpu_pstate_desired 7 ->
  mwp (enable_p12 io) (fun R s' => status R = NwoasPstateOk /\ rollback_attempted R = false /\
    cmd s' .& NWOAS_PS_FIELDS = nwoas_cpu_pstate_desired 12 /\ stat s' = 0xcc /\
    forall i, 0 <= i < 64 -> i <> 25 -> i <> 31 -> Z.testbit NWOAS_PS_FIELDS i = false ->
      Z.testbit (cmd s') i = Z.testbit (cmd s) i) s.
Proof.
  intros Hi Hb Hf. unfold enable_p12. wp_go. apply mwp_iff.
  destruct (pd_read_cmd (busy := busy) s) as (Ev & Ec & Es & Eb). rewrite Hb in Ev, Eb.
  set (s1 := (io_read io NWOAS_P_CMD_ADDR s).2) in *.
  set (v := (io_read io NWOAS_P_CMD_ADDR s).1) in *. clearbody s1 v. subst v.
  wp_go; [exfalso; rewrite busy_bit in H; unfold idle_value in Hi; congruence |
    exfalso; change NWOAS_PSTATE_P7 with 7 in *; rewrite Hf, Z.eqb_refl in H0; done |].
  rewrite <- Ec. eapply mwp_mono; [apply device_request; [by right | by rewrite Ec | rewrite Eb; apply Nat.ltb_lt; reflexivity] |].
  intros r s2 (-> & Hi2 & Hf2 & Es2 & Hk). cbv beta iota. wp_go. unfold capture. wp_go. apply mwp_iff.
  destruct (pd_read_status (busy := busy) s2) as (Ev3 & Ec3 & Es3 & _).
  set (s3 := (io_read io NWOAS_P_STATUS_ADDR s2).2) in *.
  set (v := (io_read io NWOAS_P_STATUS_ADDR s2).1) in *. clearbody s3 v. subst v. wp_go.
  - rewrite Ec3, Es3, Es2. done.
  - exfalso. rewrite Es2 in H1.
    unfold settled_at, nwoas_cpu_pstate_fill in H1. cbn in H1.
    apply andb_false_iff in H1 as [H1|H1]; [done |]. apply negb_false_iff, truthy_spec in H1.
    apply H1. by apply protected_kept.
Qed.
End device.

(** ** An example controller *)

(** Registers, reads left until a request completes, and the access log. *)
Record demo_core := mk_demo { d_cmd : Z; d_stat : Z; d_busy : nat; d_log : list mmio }.
Definition demo_word (f : demo_core -> Z) (s : demo_core) : Z := u64 (f s).
Definition demo_read (a : Z) : M demo_core Z := fun s =>
  let v := if a =? NWOAS_P_CMD_ADDR then
             match d_busy s with O => demo_word d_cmd s | _ => demo_word d_cmd s .| NWOAS_PSTATE_BUSY end
           else demo_word d_stat s in
  (v, mk_demo (d_cmd s) (d_stat s) (if a =? NWOAS_P_CMD_ADDR then pred (d_busy s) else d_busy s)
        (d_log s ++ [MRd a v])).
Definition demo_write (a v : Z) : M demo_core unit := fun s =>
  (tt, mk_demo (v .& cnot 64 (NWOAS_PSTATE_SET .| NWOAS_PSTATE_BUSY))
         ((v .& 0xf) .| ((v .& 0xf) .<< 4)) 3 (d_log s ++ [MWr a v])).
Definition demo_io : NWOAS_CPU_PSTATE_IO demo_core :=
  {| read64 := Some demo_read; write64 := Some demo_write; delay_us := None;
     chip_id := NWOAS_T8103_CHIP_ID |}.
Definition demo_pio : pstate_io demo_core := mk_io demo_read demo_write None.
Definition demo_p7 : demo_core := mk_demo 0x2000040000407007 0x77 0 [].

Lemma demo_busy_w x : in_w 64 x -> in_w 64 (x .| NWOAS_PSTATE_BUSY).
Proof. intros H. apply in_w_lor; [done | done | by split]. Qed.

#[export] Instance demo_env : PstateEnv demo_pio d_log.
Proof.
  split; [| done | done]. intros a s. split; [done |]. cbn -[in_w].
  assert (H : forall f, in_w 64 (demo_word f s)) by (intros f; apply wrap_range; lia).
  destruct (_ =? _); [destruct (d_busy s); [done | by apply demo_busy_w] | done].
Qed.

Lemma demo_land v m : 0 <= m < 2 ^ 64 -> u64 (v .& m) = v .& m.
Proof. intros Hm. apply wrap_small. apply in_w_land_r; [lia | exact Hm]. Qed.

#[export] Instance demo_device :
  PstateDevice demo_pio (demo_word d_cmd) (demo_word d_stat) d_busy.
Proof.
  split; [done | done | | done]. intros v s. cbv zeta. unfold demo_word. cbn -[u64].
  split; [by apply demo_land |]. split; [| by apply Nat.ltb_lt].
  apply wrap_small. apply in_w_lor; [lia | apply in_w_land_r; [lia | by split] |].
  by apply (in_w_shiftl 4), in_w_land_r.
Qed.

(** ** Properties *)

(** Called with a usable interface on the T8103, [nwoas_cpu_pstate_enable_p12]
    makes at most 1005 register accesses, and all of them are reads of CMD and
    STATUS except for at most one request for P12 followed by at most one
    request for P7.  Each request is the write that directly follows an idle
    CMD read, and keeps every bit of the value read outside the P-state fields
    and the SET bit. *)
Theorem pstate_bus_session {S} (Io : NWOAS_CPU_PSTATE_IO S) (io : pstate_io S)
    (events : S -> list mmio) `{!PstateEnv io events} Result s :
  io_present Io = Some io ->
  let s' := (nwoas_cpu_pstate_enable_p12 (Some Io) Result s).2 in
  exists ps evs, events s' = events s ++ evs /\ session ps evs /\ zlen evs <= 1005 /\
    ps ∈ [[]; [7]; [12]; [12; 7]] /\
    forall p x i, p ∈ ps -> in_w 64 x -> 0 <= i < 64 -> i <> 25 ->
      Z.testbit NWOAS_PS_FIELDS i = false -> Z.testbit (request_word x p) i = Z.testbit x i.
Proof.
  intros Hio s'. assert (H : exists ps, requests events 1005 ps s s' /\ ps ∈ [[]; [7]; [12]; [12; 7]]).
  { subst s'. unfold nwoas_cpu_pstate_enable_p12. rewrite Hio.
    destruct (negb _); [exists []; split; [by apply requests_none | by left] |].
    pose proof (enable_spec io events s) as He. apply mwp_iff in He. destruct He as (ps & Hr & Ho).
    exists ps. split; [exact Hr |]. by eapply outcome_requests. }
  destruct H as (ps & (evs & E & Hs & Hn) & Hps). exists ps, evs. split_and!; try done.
  intros p x i Hp Hx Hi H25 Hf. apply request_keeps; try done.
  apply list_elem_of_In in Hps. cbn in Hps. apply list_elem_of_In in Hp.
  destruct Hps as [<- | [<- | [<- | [<- | []]]]]; cbn in Hp; tauto || lia.
Qed.

(** C19. The status of [nwoas_cpu_pstate_enable_p12] tells what happened: without
    both accessors, or on another chip, nothing is accessed; success means that
    exactly P12 was requested and the CMD and STATUS snapshots show P12 with the
    protected bits unchanged; every failure after a request went through the
    rollback, and "rolled back" means that P7 was requested last and both
    snapshots show it; no internal status escapes. *)
Theorem pstate_outcome_sound {S} (Io : option (NWOAS_CPU_PSTATE_IO S)) (events : S -> list mmio) s :
  (forall io, (Io ≫= io_present) = Some io -> PstateEnv io events) ->
  let r := nwoas_cpu_pstate_enable_p12 Io true s in
  exists R, r.1 = (status R, Some R) /\
    match Io ≫= io_present with
    | None => status R = NwoasPstateInvalidIo /\ r.2 = s
    | Some _ =>
        if decide (chip_id <$> Io = Some NWOAS_T8103_CHIP_ID) then
          exists ps, requests events 1005 ps s r.2 /\ outcome R ps
        else status R = NwoasPstateUnsupportedChip /\ r.2 = s
    end.
Proof.
  intros Henv r. subst r. unfold nwoas_cpu_pstate_enable_p12. destruct Io as [Io|]; cbn in Henv |- *.
  2: by exists (result_start NwoasPstateInvalidIo 0).
  destruct (io_present Io) as [io|] eqn:Eio.
  2: by exists (result_start NwoasPstateInvalidIo 0).
  specialize (Henv io eq_refl).
  destruct (Z.eqb_spec (chip_id Io) NWOAS_T8103_CHIP_ID) as [Ec|Ec]; cbn [negb].
  - exists (enable_p12 io s).1. split; [done |]. rewrite decide_True by by f_equal.
    pose proof (enable_spec io events s) as He. apply mwp_iff in He. exact He.
  - exists (result_start NwoasPstateUnsupportedChip 0). split; [done |].
    by rewrite decide_False by congruence.
Qed.

(** On a controller that completes each request within the poll budget and
    is idle at P7, [nwoas_cpu_pstate_enable_p12] ends with success: CMD and
    STATUS show P12, no rollback is made, and every CMD bit outside the P-state
    fields, SET and BUSY is as before. *)
Theorem pstate_responsive {S} (Io : NWOAS_CPU_PSTATE_IO S) (io : pstate_io S)
    (cmd stat : S -> Z) (busy : S -> nat) `{!PstateDevice io cmd stat busy} Result s :
  io_present Io = Some io -> chip_id Io = NWOAS_T8103_CHIP_ID ->
  idle_value (cmd s) -> busy s = O -> cmd s .& NWOAS_PS_FIELDS = nwoas_cpu_pstate_desired 7 ->
  let r := nwoas_cpu_pstate_enable_p12 (Some Io) Result s in
  r.1.1 = NwoasPstateOk /\
  (forall R, r.1.2 = Some R -> rollback_attempted R = false) /\
  cmd r.2 .& NWOAS_PS_FIELDS = nwoas_cpu_pstate_desired 12 /\
  nwoas_cpu_pstate_status_current (stat r.2) = 12 /\ nwoas_cpu_pstate_status_target (stat r.2) = 12 /\
  forall i, 0 <= i < 64 -> i <> 25 -> i <> 31 -> Z.testbit NWOAS_PS_FIELDS i = false ->
    Z.testbit (cmd r.2) i = Z.testbit (cmd s) i.
Proof.
  intros Hio Hc Hi Hb Hf r. subst r. unfold nwoas_cpu_pstate_enable_p12.
  rewrite Hio, Hc, Z.eqb_refl. cbn [negb].
  pose proof (device_p12 io cmd stat busy s Hi Hb Hf) as Hd. apply mwp_iff in Hd.
  unfold mbind, M_bind. destruct (enable_p12 io s) as [R s']. cbn in Hd |- *.
  destruct Hd as (E1 & E2 & E3 & E4 & E5). rewrite E4. split_and!; try done.
  destruct Result; [by intros ? [= <-] | done].
Qed.

(** ** The properties at work *)

Lemma pstate_bus_session_witness :
  io_present demo_io = Some demo_pio /\
  let s' := (nwoas_cpu_pstate_enable_p12 (Some demo_io) true demo_p7).2 in
  exists ps evs, d_log s' = d_log demo_p7 ++ evs /\ session ps evs /\ zlen evs <= 1005 /\
    ps ∈ [[]; [7]; [12]; [12; 7]] /\
    forall p x i, p ∈ ps -> in_w 64 x -> 0 <= i < 64 -> i <> 25 ->
      Z.testbit NWOAS_PS_FIELDS i = false -> Z.testbit (request_word x p) i = Z.testbit x i.
Proof.
  split; [reflexivity |]. exact (pstate_bus_session demo_io demo_pio d_log true demo_p7 eq_refl).
Defined.

Lemma demo_io_env io : (Some demo_io ≫= io_present) = Some io -> PstateEnv io d_log.
Proof. intros [= <-]. exact demo_env. Qed.

Lemma pstate_outcome_sound_witness :
  (forall io, (Some demo_io ≫= io_present) = Some io -> PstateEnv io d_log) /\
  exists R, (nwoas_cpu_pstate_enable_p12 (Some demo_io) true demo_p7).1 = (status R, Some R) /\
    exists ps, requests d_log 1005 ps demo_p7 (nwoas_cpu_pstate_enable_p12 (Some demo_io) true demo_p7).2 /\
      outcome R ps.
Proof.
  split; [exact demo_io_env |].
  exact (pstate_outcome_sound (Some demo_io) d_log demo_p7 demo_io_env).
Defined.

Lemma demo_p7_idle :
  idle_value (demo_word d_cmd demo_p7) /\
  demo_word d_cmd demo_p7 .& NWOAS_PS_FIELDS = nwoas_cpu_pstate_desired 7.
Proof. by split. Qed.

Lemma pstate_responsive_witness :
  (nwoas_cpu_pstate_enable_p12 (Some demo_io) true demo_p7).1.1 = NwoasPstateOk.
Proof.
  exact (proj1 (pstate_responsive demo_io demo_pio (demo_word d_cmd) (demo_word d_stat) d_busy true
    demo_p7 eq_refl eq_refl (proj1 demo_p7_idle) eq_refl (proj2 demo_p7_idle))).
Defined.
