(* ===== verification/GuestRam.v ===== *)
(** * Guest RAM layout, DMA-window backing and handoff ranges

    [memory-s161/Include/Library/NwoasGuestRam.h] turns the boot arguments into
    the extents of guest RAM and of the memory behind the low DMA window;
    [firmware-s216/NwoasHandoffRanges.h] checks the boot-argument handoff range.
    All addresses are 64-bit unsigned words.  An output pointer is a [bool]
    (whether it is non-NULL) on the way in and an option on the way out. *)

From S2P Require Import Prelude.

Definition MAX_UINT64 : Z := 0xffffffffffffffff.

(** ** [NwoasGuestRam.h] *)

Definition NWOAS_WINDOW_AFTER_RAM : Z := 1.
Definition NWOAS_DMA_WIN_BASE : Z := 0.
Definition NWOAS_DMA_WIN_SIZE : Z := 0x100000000.
Definition NWOAS_DMA_WIN_END : Z := u64 (NWOAS_DMA_WIN_BASE + NWOAS_DMA_WIN_SIZE).
Definition NWOAS_GUEST_PHYS_BASE_MIN : Z := 0x800000000.
Definition NWOAS_GUEST_PA_LIMIT : Z := 0x1000000000.
Definition NWOAS_DART_PAGE_SIZE : Z := 0x4000.
Definition NWOAS_DART_PAGE_MASK : Z := u64 (NWOAS_DART_PAGE_SIZE - 1).

Inductive NWOAS_GUEST_RAM_STATUS :=
| NwoasGuestRamOk
| NwoasGuestRamErrNullOut
| NwoasGuestRamErrPhysBaseLow
| NwoasGuestRamErrUnaligned
| NwoasGuestRamErrMemSizeZero
| NwoasGuestRamErrMemSizeTooSmall
| NwoasGuestRamErrOverflow
| NwoasGuestRamErrAboveLimit
| NwoasGuestRamStatusMax.
#[export] Instance guest_ram_status_eq : EqDecision NWOAS_GUEST_RAM_STATUS.
Proof. solve_decision. Defined.

Record NWOAS_GUEST_RAM_LAYOUT := mk_layout {
  PhysBase : Z;
  BootArgsMemSize : Z;
  GuestRamSize : Z;
  GuestRamEnd : Z;
  BackingPa : Z;
  BackingEnd : Z;
  WindowBase : Z;
  WindowSize : Z;
  WindowAfterRam : bool;
}.

Definition layout_zero : NWOAS_GUEST_RAM_LAYOUT := mk_layout 0 0 0 0 0 0 0 0 false.

(** The status and [*Layout]. *)
Definition NwoasComputeGuestRamLayoutEx (PhysBase MemSize : Z) (WindowAfterRam Layout : bool) :
    NWOAS_GUEST_RAM_STATUS * option NWOAS_GUEST_RAM_LAYOUT :=
  if negb Layout then (NwoasGuestRamErrNullOut, None)
  else if PhysBase <? NWOAS_GUEST_PHYS_BASE_MIN then (NwoasGuestRamErrPhysBaseLow, Some layout_zero)
  else if truthy (PhysBase .& NWOAS_DART_PAGE_MASK) || truthy (MemSize .& NWOAS_DART_PAGE_MASK) then
    (NwoasGuestRamErrUnaligned, Some layout_zero)
  else if MemSize =? 0 then (NwoasGuestRamErrMemSizeZero, Some layout_zero)
  else if negb WindowAfterRam && (MemSize <=? NWOAS_DMA_WIN_SIZE) then
    (NwoasGuestRamErrMemSizeTooSmall, Some layout_zero)
  else
    let GuestRamSize := if WindowAfterRam then MemSize else u64 (MemSize - NWOAS_DMA_WIN_SIZE) in
    if u64 (MAX_UINT64 - GuestRamSize) <? PhysBase then (NwoasGuestRamErrOverflow, Some layout_zero)
    else
      let GuestRamEnd := u64 (PhysBase + GuestRamSize) in
      if u64 (MAX_UINT64 - NWOAS_DMA_WIN_SIZE) <? GuestRamEnd then
        (NwoasGuestRamErrOverflow, Some layout_zero)
      else
        let BackingEnd := u64 (GuestRamEnd + NWOAS_DMA_WIN_SIZE) in
        if NWOAS_GUEST_PA_LIMIT <? BackingEnd then (NwoasGuestRamErrAboveLimit, Some layout_zero)
        else
          (NwoasGuestRamOk,
           Some (mk_layout PhysBase MemSize GuestRamSize GuestRamEnd GuestRamEnd BackingEnd
                   NWOAS_DMA_WIN_BASE NWOAS_DMA_WIN_SIZE WindowAfterRam)).

Definition NwoasComputeGuestRamLayout (PhysBase MemSize : Z) (Layout : bool) :
    NWOAS_GUEST_RAM_STATUS * option NWOAS_GUEST_RAM_LAYOUT :=
  NwoasComputeGuestRamLayoutEx PhysBase MemSize (truthy NWOAS_WINDOW_AFTER_RAM) Layout.

Definition NwoasGuestRamBackingPa (PhysBase MemSize : Z) : Z :=
  match NwoasComputeGuestRamLayout PhysBase MemSize true with
  | (NwoasGuestRamOk, Some Layout) => BackingPa Layout
  | _ => 0
  end.

Definition NwoasGuestRamStatusName (Status : NWOAS_GUEST_RAM_STATUS) : list Z :=
  match Status with
  | NwoasGuestRamOk => chars "ok"
  | NwoasGuestRamErrNullOut => chars "null-out"
  | NwoasGuestRamErrPhysBaseLow => chars "phys_base-below-32GiB"
  | NwoasGuestRamErrUnaligned => chars "not-16KiB-aligned"
  | NwoasGuestRamErrMemSizeZero => chars "mem_size-zero"
  | NwoasGuestRamErrMemSizeTooSmall => chars "mem_size<=window(legacy-underflow)"
  | NwoasGuestRamErrOverflow => chars "uint64-overflow"
  | NwoasGuestRamErrAboveLimit => chars "backing-end-above-64GiB"
  | NwoasGuestRamStatusMax => chars "unknown"
  end.

Definition NwoasPaInLowWindow (Pa : Z) : bool :=
  (NWOAS_DMA_WIN_BASE <=? Pa) && (Pa <? NWOAS_DMA_WIN_END).

Definition NwoasPaInGuestRam (Layout : option NWOAS_GUEST_RAM_LAYOUT) (Pa : Z) : bool :=
  match Layout with
  | None => false
  | Some L =>
      if GuestRamSize L =? 0 then false
      else (PhysBase L <=? Pa) && (Pa <? GuestRamEnd L)
  end.

Definition NwoasPaInBacking (Layout : option NWOAS_GUEST_RAM_LAYOUT) (Pa : Z) : bool :=
  match Layout with
  | None => false
  | Some L =>
      if BackingPa L =? 0 then false
      else (BackingPa L <=? Pa) && (Pa <? BackingEnd L)
  end.

Definition NwoasWindowIpaToBackingPa (Layout : option NWOAS_GUEST_RAM_LAYOUT) (Ipa : Z) : Z :=
  match Layout with
  | None => Ipa
  | Some L =>
      if (BackingPa L =? 0) || negb (NwoasPaInLowWindow Ipa) then Ipa
      else u64 (BackingPa L + u64 (Ipa - NWOAS_DMA_WIN_BASE))
  end.

(** ** [NwoasHandoffRanges.h] *)

(** The return value and what is stored in [*reserve_size]. *)
Definition NwoasHandoffRange (ram_base ram_size fd_base fd_size ba_base adt_base adt_size : Z)
    (reserve_size : bool) : bool * option Z :=
  let max := MAX_UINT64 in
  if negb reserve_size || (ram_size =? 0) || (u64 (max - ram_base) <? ram_size) ||
     (fd_size =? 0) || (u64 (max - fd_base) <? fd_size) || truthy (ba_base .& 0x3fff) ||
     (u64 (max - 0x4000) <? ba_base) || negb (adt_base =? u64 (ba_base + 0x4000)) ||
     (adt_size =? 0) || (0x100000 <? adt_size) || (u64 (max - adt_base) <? adt_size)
  then (false, None)
  else
    let end_ := u64 (adt_base + adt_size) in
    if u64 (max - 0x3fff) <? end_ then (false, None)
    else
      let end_ := u64 (end_ + 0x3fff) .& cnot 64 0x3fff in
      if (ba_base <? ram_base) || (u64 (ram_base + ram_size) <? end_) ||
         ((ba_base <? u64 (fd_base + fd_size)) && (fd_base <? end_))
      then (false, None)
      else
        let reserve := u64 (end_ - ba_base) in
        (reserve <=? 0xffffffff, Some reserve).

Definition NwoasHandoffAdtSource (virt_base devtree ram_base ram_size adt_size : Z)
    (source : bool) : bool * option Z :=
  let max := MAX_UINT64 in
  if negb source || (adt_size =? 0) || (u64 (max - ram_base) <? ram_size) || (devtree <? virt_base)
  then (false, None)
  else
    let delta := u64 (devtree - virt_base) in
    if (ram_size <? delta) || (u64 (ram_size - delta) <? adt_size) then (false, None)
    else (true, Some (u64 (ram_base + delta))).

(** ** Page arithmetic *)

Lemma page_mask_mod x : x .& 0x3fff = x mod 0x4000.
Proof. apply (land_ones_mod 14). lia. Qed.

Lemma page_aligned x : truthy (x .& 0x3fff) = false <-> (0x4000 | x).
Proof. rewrite page_mask_mod, truthy_false, <- Z.mod_divide by lia. done. Qed.

(** Rounding up to a 16 KiB page. *)
Definition page_up (x : Z) : Z := 0x4000 * ((x + 0x3fff) / 0x4000).

Lemma page_up_bounds x : x <= page_up x < x + 0x4000.
Proof. unfold page_up. dlia. Qed.

Lemma page_round x : 0 <= x -> x + 0x3fff < 2 ^ 64 ->
  u64 (x + 0x3fff) .& cnot 64 0x3fff = page_up x.
Proof.
  intros Hx Hm. rewrite wrap_small by (unfold in_w; lia). unfold page_up.
  set (y := x + 0x3fff) in *. apply Z.bits_inj'. intros i Hi.
  replace (0x4000 * (y / 0x4000)) with ((y / 2 ^ 14) * 2 ^ 14) by (change (2 ^ 14) with 0x4000; lia).
  rewrite Z.land_spec, testbit_cnot by lia. change 0x3fff with (Z.ones 14).
  destruct (Z.ltb_spec i 14).
  - rewrite Z.mul_pow2_bits_low, Z.ones_spec_low by lia. by rewrite !andb_false_r.
  - rewrite Z.mul_pow2_bits, Z.div_pow2_bits, Z.ones_spec_high by lia.
    replace (i - 14 + 14) with i by lia. destruct (Z.ltb_spec i 64); [by rewrite andb_true_r |].
    rewrite (testbit_in_w 64 y) by (unfold in_w; lia). done.
Qed.

(** ** The guest RAM layout *)

(** The guest RAM size: in the legacy mode the window backing is part of the
    memory size. *)
Definition ram_size (after : bool) (MemSize : Z) : Z :=
  if after then MemSize else MemSize - 2 ^ 32.

(** The boot arguments the layout accepts, in unbounded arithmetic. *)
Definition usable_ram (after : bool) (pb ms : Z) : Prop :=
  2 ^ 35 <= pb /\ (0x4000 | pb) /\ (0x4000 | ms) /\ 0 < ram_size after ms /\
  pb + ram_size after ms + 2 ^ 32 <= 2 ^ 36.

Definition ram_layout (after : bool) (pb ms : Z) : NWOAS_GUEST_RAM_LAYOUT :=
  let e := pb + ram_size after ms in
  mk_layout pb ms (ram_size after ms) e e (e + 2 ^ 32) 0 (2 ^ 32) after.

Ltac ram_consts := unfold NWOAS_GUEST_PHYS_BASE_MIN, NWOAS_DMA_WIN_SIZE, NWOAS_DMA_WIN_BASE,
  NWOAS_GUEST_PA_LIMIT, MAX_UINT64 in *; change NWOAS_DART_PAGE_MASK with 0x3fff in *;
  change NWOAS_DMA_WIN_END with (2 ^ 32) in *.

Ltac this_status :=
  cbn [orb andb negb]; match goal with |- exists st, (?s, _) = _ /\ _ => exists s; split; [done |] end.

Lemma layout_spec pb ms after :
  in_w 64 pb -> in_w 64 ms ->
  exists st, NwoasComputeGuestRamLayoutEx pb ms after true =
      (st, Some (if decide (st = NwoasGuestRamOk) then ram_layout after pb ms else layout_zero)) /\
    (st = NwoasGuestRamOk <-> usable_ram after pb ms) /\
    (st = NwoasGuestRamErrPhysBaseLow <-> pb < 2 ^ 35) /\
    (st = NwoasGuestRamErrOverflow -> 2 ^ 64 <= pb + ram_size after ms + 2 ^ 32) /\
    (st = NwoasGuestRamErrAboveLimit -> 2 ^ 36 < pb + ram_size after ms + 2 ^ 32) /\
    st <> NwoasGuestRamErrNullOut /\ st <> NwoasGuestRamStatusMax.
Proof.
  intros Hp Hm. unfold in_w in *. unfold NwoasComputeGuestRamLayoutEx, usable_ram. ram_consts. cbn [negb].
  destruct (Z.ltb_spec pb 34359738368).
  { this_status. split_and!; try done; split; try done; lia. }
  destruct (truthy (pb .& 0x3fff)) eqn:Ap.
  { this_status. split_and!; try done; split; try done; [| lia].
    intros (_ & ?%page_aligned & _). congruence. }
  destruct (truthy (ms .& 0x3fff)) eqn:Am.
  { this_status. split_and!; try done; split; try done; [| lia].
    intros (_ & _ & ?%page_aligned & _). congruence. }
  apply page_aligned in Ap, Am. cbn [orb].
  destruct (Z.eqb_spec ms 0).
  { this_status. split_and!; try done; split; try done; [| lia].
    unfold ram_size. destruct after; lia. }
  destruct (negb after && (ms <=? 4294967296)) eqn:El.
  { this_status. destruct after; [done |]. apply Z.leb_le in El.
    split_and!; try done; split; try done; cbn [ram_size]; lia. }
  assert (Hr : (if after then ms else u64 (ms - 4294967296)) = ram_size after ms /\ 0 < ram_size after ms < 2 ^ 64).
  { unfold ram_size. destruct after; [lia |]. apply Z.leb_gt in El.
    rewrite wrap_small by (unfold in_w; lia). lia. }
  destruct Hr as [-> Hr]. unfold ram_layout. set (rs := ram_size after ms) in *. clearbody rs.
  rewrite (wrap_small 64 (_ - rs)) by (unfold in_w; lia).
  destruct (Z.ltb_spec (0xffffffffffffffff - rs) pb).
  { this_status. split_and!; try done; try (split; try done; lia); lia. }
  rewrite (wrap_small 64 (pb + rs)) by (unfold in_w; lia).
  rewrite (wrap_small 64 (_ - 4294967296)) by (unfold in_w; lia).
  destruct (Z.ltb_spec (0xffffffffffffffff - 4294967296) (pb + rs)).
  { this_status. split_and!; try done; try (split; try done; lia); lia. }
  rewrite wrap_small by (unfold in_w; lia).
  destruct (Z.ltb_spec 68719476736 (pb + rs + 4294967296)).
  { this_status. split_and!; try done; try (split; try done; lia); lia. }
  this_status.
  split_and!; try done; try (split; try done; lia). split; [intros _; split_and!; done || lia | done].
Qed.

(** ** The handoff range *)

(** The handoff area for boot arguments at [ba] and a device tree of [adt_size]
    bytes: it lies in RAM, outside the firmware volume. *)
Definition handoff_area (rb rs fb fs ba adt_size r : Z) : Prop :=
  r = page_up (ba + 0x4000 + adt_size) - ba /\ rb <= ba /\ ba + r <= rb + rs /\
  (ba + r <= fb \/ fb + fs <= ba).

Lemma handoff_spec rb rs fb fs ba adt asz r :
  in_w 64 rb -> in_w 64 rs -> in_w 64 fb -> in_w 64 fs -> in_w 64 ba -> in_w 64 adt -> in_w 64 asz ->
  NwoasHandoffRange rb rs fb fs ba adt asz true = (true, Some r) <->
    0 < rs /\ rb + rs < 2 ^ 64 /\ 0 < fs /\ fb + fs < 2 ^ 64 /\ (0x4000 | ba) /\
    adt = ba + 0x4000 /\ 0 < asz <= 2 ^ 20 /\ handoff_area rb rs fb fs ba asz r.
Proof.
  unfold in_w, handoff_area. intros Hrb Hrs Hfb Hfs Hba Hadt Hasz. unfold NwoasHandoffRange.
  change MAX_UINT64 with (2 ^ 64 - 1).
  rewrite !(wrap_small 64 (_ - 1 - _)) by (unfold in_w; lia).
  destruct (truthy (ba .& 0x3fff)) eqn:Al.
  { split; [by rewrite !orb_true_r; cbn; intros [= ] |].
    intros (_ & _ & _ & _ & ?%page_aligned & _). congruence. }
  apply page_aligned in Al. cbn [negb].
  match goal with |- context [if ?c then (false, None) else _] => destruct c eqn:E0 end.
  { split; [done |]. intros (? & ? & ? & ? & _ & -> & ? & Hr & ? & ? & _).
    pose proof (page_up_bounds (ba + 0x4000 + asz)).
    rewrite (wrap_small 64 (ba + _)) in E0 by (unfold in_w; lia). bool_props. lia. }
  bool_props. rewrite (wrap_small 64 (ba + _)) in * by (unfold in_w; lia). subst adt.
  rewrite (wrap_small 64 (_ + asz)) by (unfold in_w; lia).
  pose proof (page_up_bounds (ba + 0x4000 + asz)) as Hup.
  destruct (Z.ltb_spec (2 ^ 64 - 1 - 16383) (ba + 16384 + asz)).
  { split; [done |]. unfold page_up. intros (? & ? & ? & ? & _ & _ & ? & -> & ? & ? & _). dlia. }
  rewrite page_round by lia. rewrite !(wrap_small 64 (_ + _)) by (unfold in_w; lia).
  match goal with |- context [if ?c then (false, None) else _] => destruct c eqn:E1 end.
  { split; [done |]. intros (? & ? & ? & ? & _ & _ & ? & -> & ? & ? & Hor).
    apply orb_true_iff in E1 as [E1|E1]; bool_props; lia. }
  apply orb_false_iff in E1 as [E1 E2]. apply andb_false_iff in E2. bool_props.
  rewrite (wrap_small 64 (_ - ba)) by (unfold in_w; lia).
  rewrite (proj2 (Z.leb_le _ _)) by lia. split.
  - intros [= <-]. split_and!; done || lia.
  - intros (_ & _ & _ & _ & _ & _ & _ & -> & _). done.
Qed.

(** ** Properties *)

(** C20. For every pair of boot arguments and both window modes,
    [NwoasComputeGuestRamLayoutEx] computes without wrap-around: it succeeds
    exactly when the physical base is at least 32 GiB, base and size are
    16 KiB aligned, the guest RAM is not empty and RAM and backing end at or
    below 64 GiB, and then the layout is the exact one; otherwise the layout is
    left zeroed and an overflow or limit error is reported only for an end that
    really overflows or exceeds the limit. *)
Theorem guest_layout_exact pb ms after :
  in_w 64 pb -> in_w 64 ms ->
  let (st, L) := NwoasComputeGuestRamLayoutEx pb ms after true in
  (st = NwoasGuestRamOk <-> usable_ram after pb ms) /\
  L = Some (if decide (st = NwoasGuestRamOk) then ram_layout after pb ms else layout_zero) /\
  (st = NwoasGuestRamErrOverflow -> 2 ^ 64 <= pb + ram_size after ms + 2 ^ 32) /\
  (st = NwoasGuestRamErrAboveLimit -> 2 ^ 36 < pb + ram_size after ms + 2 ^ 32).
Proof.
  intros Hp Hm. destruct (layout_spec pb ms after Hp Hm) as (st & -> & Hok & _ & Hov & Hlim & _).
  split_and!; [done | done | done | done].
Qed.

(** For a layout computed successfully, no address lies in two of the low
    window, the guest RAM and the backing; guest RAM and backing together are
    one gapless extent; and the window translation maps the low window one to
    one onto the backing, page offset included, and changes no other address. *)
Theorem window_backing_alias pb ms after L :
  in_w 64 pb -> in_w 64 ms ->
  NwoasComputeGuestRamLayoutEx pb ms after true = (NwoasGuestRamOk, L) ->
  let back := NwoasWindowIpaToBackingPa L in
  (forall pa, 0 <= pa ->
     NwoasPaInLowWindow pa && NwoasPaInGuestRam L pa = false /\
     NwoasPaInLowWindow pa && NwoasPaInBacking L pa = false /\
     NwoasPaInGuestRam L pa && NwoasPaInBacking L pa = false /\
     (NwoasPaInGuestRam L pa || NwoasPaInBacking L pa = true <->
        pb <= pa < pb + ram_size after ms + 2 ^ 32)) /\
  (forall ipa, NwoasPaInLowWindow ipa = true ->
     NwoasPaInBacking L (back ipa) = true /\ back ipa mod 0x4000 = ipa mod 0x4000) /\
  (forall pa, NwoasPaInBacking L pa = true ->
     exists! ipa, NwoasPaInLowWindow ipa = true /\ back ipa = pa) /\
  (forall ipa, NwoasPaInLowWindow ipa = false -> back ipa = ipa).
Proof.
  intros Hp Hm E. destruct (layout_spec pb ms after Hp Hm) as (st & E' & Hok & _).
  rewrite E in E'. injection E' as <- ->. rewrite decide_True by done.
  destruct (proj1 Hok eq_refl) as (H1 & [a ->] & [b ->] & H2 & H3).
  assert (exists k, ram_size after (b * 0x4000) = k * 0x4000) as [k Ek].
  { destruct after; cbn; [by exists b | exists (b - 2 ^ 18); lia]. }
  unfold NwoasWindowIpaToBackingPa, NwoasPaInBacking, NwoasPaInGuestRam, NwoasPaInLowWindow, ram_layout.
  ram_consts. cbn [BackingPa BackingEnd GuestRamSize PhysBase GuestRamEnd]. rewrite Ek in *.
  rewrite !(proj2 (Z.eqb_neq _ 0)) by lia. cbn [orb].
  assert (Hback : forall ipa, 0 <= ipa < 2 ^ 32 ->
    u64 (a * 0x4000 + k * 0x4000 + u64 (ipa - 0)) = a * 0x4000 + k * 0x4000 + ipa).
  { intros ipa Hi. rewrite (wrap_small 64 (ipa - 0)) by (unfold in_w; lia).
    rewrite wrap_small by (unfold in_w; lia). lia. }
  assert (Hwin : forall x, (0 <=? x) && (x <? 2 ^ 32) = true <-> 0 <= x < 2 ^ 32)
    by (intros; rewrite andb_true_iff, Z.leb_le, Z.ltb_lt; done).
  split_and!.
  - intros pa Hpa. rewrite orb_true_iff, !andb_true_iff, !Z.leb_le, !Z.ltb_lt.
    split_and!; try (apply not_true_iff_false; intros ?; bool_props; lia). lia.
  - intros ipa Hi. rewrite Hi. cbn [negb]. apply Hwin in Hi. rewrite Hback by done. split.
    + apply andb_true_iff. rewrite Z.leb_le, Z.ltb_lt. lia.
    + dlia.
  - intros pa Hpa. bool_props. exists (pa - (a * 0x4000 + k * 0x4000)). split.
    + assert (Hi : 0 <= pa - (a * 0x4000 + k * 0x4000) < 2 ^ 32) by lia. pose proof (proj2 (Hwin _) Hi) as Hb.
      rewrite Hb. split; [done |]. cbn [negb]. rewrite Hback by done. lia.
    + intros ipa [Hi <-]. rewrite Hi. cbn [negb]. rewrite Hback by (by apply Hwin). lia.
  - intros ipa ->. done.
Qed.

(** C21. [NwoasHandoffRange] accepts exactly the ranges that are safe in unbounded
    arithmetic, and reports their size: page-aligned boot arguments followed by
    a device tree of at most 1 MiB, the page-rounded area inside RAM and apart
    from the firmware volume.  [NwoasHandoffAdtSource] accepts exactly the
    device trees that lie in RAM, at the address it stores. *)
Theorem handoff_exact rb rs fb fs ba adt asz r virt tree src :
  in_w 64 rb -> in_w 64 rs -> in_w 64 fb -> in_w 64 fs -> in_w 64 ba -> in_w 64 adt -> in_w 64 asz ->
  in_w 64 virt -> in_w 64 tree ->
  (NwoasHandoffRange rb rs fb fs ba adt asz true = (true, Some r) <->
    0 < rs /\ rb + rs < 2 ^ 64 /\ 0 < fs /\ fb + fs < 2 ^ 64 /\ (0x4000 | ba) /\
    adt = ba + 0x4000 /\ 0 < asz <= 2 ^ 20 /\ handoff_area rb rs fb fs ba asz r) /\
  (NwoasHandoffAdtSource virt tree rb rs asz true = (true, Some src) <->
    rb + rs < 2 ^ 64 /\ 0 < asz /\ virt <= tree /\ src = rb + (tree - virt) /\ src + asz <= rb + rs).
Proof.
  intros Hrb Hrs Hfb Hfs Hba Hadt Hasz Hv Ht. split; [by apply handoff_spec |].
  unfold in_w in *. unfold NwoasHandoffAdtSource. change MAX_UINT64 with (2 ^ 64 - 1). cbn [negb orb].
  rewrite (wrap_small 64 (2 ^ 64 - 1 - rb)) by (unfold in_w; lia).
  destruct (Z.eqb_spec asz 0), (Z.ltb_spec (2 ^ 64 - 1 - rb) rs), (Z.ltb_spec tree virt); cbn [orb];
    try (split; [done | lia]).
  rewrite (wrap_small 64 (tree - virt)) by (unfold in_w; lia).
  destruct (Z.ltb_spec rs (tree - virt)); cbn [orb]; [split; [done | lia] |].
  rewrite (wrap_small 64 (rs - _)) by (unfold in_w; lia).
  destruct (Z.ltb_spec (rs - (tree - virt)) asz); [split; [done | lia] |].
  rewrite wrap_small by (unfold in_w; lia). split; [intros [= <-]; lia | intros (_ & _ & _ & -> & _); done].
Qed.

(** ** The properties at work *)

(** The boot arguments of the log quoted in the header file. *)
Definition demo_pb : Z := 0x83CA9C000.
Definition demo_ms : Z := 0x2A4530000.
Lemma demo_pb_w : in_w 64 demo_pb. Proof. by split. Qed.
Lemma demo_ms_w : in_w 64 demo_ms. Proof. by split. Qed.

Lemma demo_backing : NwoasGuestRamBackingPa demo_pb demo_ms = 0xAE0FCC000.
Proof. reflexivity. Qed.

Lemma guest_layout_exact_witness :
  let (st, L) := NwoasComputeGuestRamLayoutEx demo_pb demo_ms true true in
  (st = NwoasGuestRamOk <-> usable_ram true demo_pb demo_ms) /\
  L = Some (if decide (st = NwoasGuestRamOk) then ram_layout true demo_pb demo_ms else layout_zero) /\
  (st = NwoasGuestRamErrOverflow -> 2 ^ 64 <= demo_pb + ram_size true demo_ms + 2 ^ 32) /\
  (st = NwoasGuestRamErrAboveLimit -> 2 ^ 36 < demo_pb + ram_size true demo_ms + 2 ^ 32).
Proof. exact (guest_layout_exact demo_pb demo_ms true demo_pb_w demo_ms_w). Defined.

Lemma window_backing_alias_witness :
  NwoasWindowIpaToBackingPa (Some (ram_layout true demo_pb demo_ms)) 0x1234 = 0xAE0FCD234 /\
  NwoasPaInBacking (Some (ram_layout true demo_pb demo_ms))
    (NwoasWindowIpaToBackingPa (Some (ram_layout true demo_pb demo_ms)) 0x1234) = true.
Proof.
  split; [reflexivity |].
  exact (proj1 (proj1 (proj2 (window_backing_alias demo_pb demo_ms true
    (Some (ram_layout true demo_pb demo_ms)) demo_pb_w demo_ms_w eq_refl)) 0x1234 eq_refl)).
Defined.

Lemma demo_handoff :
  NwoasHandoffRange 0x800000000 0x200000000 0x900000000 0x1000000 0x810000000 0x810004000 0x5001 true =
    (true, Some 0xc000).
Proof. reflexivity. Qed.

Lemma handoff_exact_witness :
  handoff_area 0x800000000 0x200000000 0x900000000 0x1000000 0x810000000 0x5001 0xc000.
Proof.
  exact (proj2 (proj2 (proj2 (proj2 (proj2 (proj2 (proj2 (proj1 (proj1
    (handoff_exact 0x800000000 0x200000000 0x900000000 0x1000000 0x810000000 0x810004000 0x5001 0xc000
       0 0 0 ltac:(by split) ltac:(by split) ltac:(by split) ltac:(by split)
       ltac:(by split) ltac:(by split) ltac:(by split) ltac:(by split) ltac:(by split)))
    demo_handoff)))))))).
Defined.
