(* ===== verification/MemoryMap.v ===== *)
(** * The memory map the OS loader sees

    [firmware-s216/Include/Library/NwoasSplitMemoryMap.h] splits a descriptor at
    the end of the kept high RAM; [firmware-s216/NwoasHideHighRamDxe-s167.c]
    wraps GetMemoryMap so that the returned snapshot hides the rest of the high
    RAM, and installs the wrapper at ReadyToBoot.

    A slot of a map buffer is a record: the descriptor fields and the bytes by
    which the descriptor size exceeds the structure, which CopyMem carries
    along.  A buffer is the list of its slots.  The core's GetMemoryMap is a
    parameter, as are the firmware services; of the DEBUG output the counters
    of the fill log are kept.  [NWOAS_HIDE_KEEP_HIGH_BYTES] is a build parameter
    (nonzero; [build_memory.py] sets 10 GiB). *)

From S2P Require Import Prelude GuestRam CpuPstate.

(** ** UEFI types *)

Definition EFI_SUCCESS : Z := 0.
Definition EFI_INVALID_PARAMETER : Z := 0x8000000000000002.
Definition EFI_BUFFER_TOO_SMALL : Z := 0x8000000000000005.
Definition EFI_OUT_OF_RESOURCES : Z := 0x8000000000000009.
Definition EFI_COMPROMISED_DATA : Z := 0x8000000000000021.
Definition EFI_ERROR (st : Z) : bool := Z.testbit st 63.
Definition EfiReservedMemoryType : Z := 0.
Definition EfiConventionalMemory : Z := 7.
Definition EFI_PAGE_SIZE : Z := 4096.
Definition sizeof_EFI_MEMORY_DESCRIPTOR : Z := 40.

Record EFI_MEMORY_DESCRIPTOR := mk_desc {
  Type_ : Z;
  PhysicalStart : Z;
  VirtualStart : Z;
  NumberOfPages : Z;
  Attribute : Z;
  extension : list Z;
}.
#[export] Instance desc_eta : Eta EFI_MEMORY_DESCRIPTOR := fun d =>
  mk_desc (Type_ d) (PhysicalStart d) (VirtualStart d) (NumberOfPages d) (Attribute d) (extension d).

(** ** Splitting at the end of the kept range *)

Section split.
Context (KeepStart KeepEnd : Z).

Definition in_keep (Desc : EFI_MEMORY_DESCRIPTOR) : bool :=
  (Type_ Desc =? EfiConventionalMemory) && (KeepStart <=? PhysicalStart Desc) &&
  (PhysicalStart Desc <? KeepEnd).

Definition split_offset (Desc : EFI_MEMORY_DESCRIPTOR) : Z := u64 (KeepEnd - PhysicalStart Desc).

(** The scan of the whole snapshot: [(Found, SplitIndex)], or [None] for
    compromised data. *)
Fixpoint preflight (Map : list EFI_MEMORY_DESCRIPTOR) (Index Found SplitIndex : nat) :
    option (nat * nat) :=
  match Map with
  | [] => Some (Found, SplitIndex)
  | Desc :: rest =>
      if negb (in_keep Desc) then preflight rest (S Index) Found SplitIndex
      else if truthy (PhysicalStart Desc .& (EFI_PAGE_SIZE - 1)) ||
              (u64 (MAX_UINT64 - PhysicalStart Desc) / EFI_PAGE_SIZE <? NumberOfPages Desc)
      then None
      else
        let Bytes := u64 (NumberOfPages Desc * EFI_PAGE_SIZE) in
        let End := u64 (PhysicalStart Desc + Bytes) in
        if End <=? KeepEnd then preflight rest (S Index) Found SplitIndex
        else if negb (VirtualStart Desc =? 0) &&
                (u64 (MAX_UINT64 - split_offset Desc) <? VirtualStart Desc)
        then None
        else if (1 <? S Found)%nat then None
        else preflight rest (S Index) (S Found) Index
  end.

(** The two parts of a descriptor that straddles [KeepEnd]. *)
Definition split_tail (Desc : EFI_MEMORY_DESCRIPTOR) : EFI_MEMORY_DESCRIPTOR :=
  let Offset := split_offset Desc in
  mk_desc (Type_ Desc) KeepEnd
    (if VirtualStart Desc =? 0 then VirtualStart Desc else u64 (VirtualStart Desc + Offset))
    (u64 (NumberOfPages Desc - Offset / EFI_PAGE_SIZE)) (Attribute Desc) (extension Desc).
Definition split_head (Desc : EFI_MEMORY_DESCRIPTOR) : EFI_MEMORY_DESCRIPTOR :=
  Desc <| NumberOfPages := split_offset Desc / EFI_PAGE_SIZE |>.

(** The slots after the split: those above move up by one. *)
Definition split_slots (Map : list EFI_MEMORY_DESCRIPTOR) (Count SplitIndex : nat) :
    list EFI_MEMORY_DESCRIPTOR :=
  match Map !! SplitIndex with
  | None => Map
  | Some Desc =>
      take SplitIndex Map ++ [split_head Desc; split_tail Desc] ++
      take (Count - SplitIndex - 1) (drop (S SplitIndex) Map) ++ drop (S Count) Map
  end.

(** The status, the buffer, [*MapBytes] and [*SplitCount] ([None]: not stored);
    an argument [None] is a NULL pointer. *)
Definition NwoasSplitMemoryMap (Map : option (list EFI_MEMORY_DESCRIPTOR)) (MapBytes : option Z)
    (Capacity DescSize : Z) (SplitCount : bool) :
    Z * option (list EFI_MEMORY_DESCRIPTOR) * option Z * option Z :=
  match Map, MapBytes with
  | Some slots, Some bytes =>
      if negb SplitCount || (DescSize <? sizeof_EFI_MEMORY_DESCRIPTOR) || truthy (DescSize .& 7) ||
         truthy (bytes mod DescSize) || (Capacity <? bytes) || (KeepEnd <=? KeepStart) ||
         truthy ((KeepStart .| KeepEnd) .& (EFI_PAGE_SIZE - 1))
      then (EFI_INVALID_PARAMETER, Map, MapBytes, None)
      else
        let Count := Z.to_nat (bytes / DescSize) in
        match preflight (take Count slots) 0 0 0 with
        | None => (EFI_COMPROMISED_DATA, Map, MapBytes, Some 0)
        | Some (O, _) => (EFI_SUCCESS, Map, MapBytes, Some 0)
        | Some (_, SplitIndex) =>
            if u64 (MAX_UINT64 - DescSize) <? bytes then (EFI_OUT_OF_RESOURCES, Map, MapBytes, Some 0)
            else if u64 (Capacity - bytes) <? DescSize then
              (EFI_BUFFER_TOO_SMALL, Map, Some (u64 (bytes + DescSize)), Some 0)
            else
              (EFI_SUCCESS, Some (split_slots slots Count SplitIndex),
               Some (u64 (bytes + DescSize)), Some 1)
        end
  | _, _ => (EFI_INVALID_PARAMETER, Map, MapBytes, None)
  end.
End split.

(** ** Hiding the high RAM *)

Definition NWOAS_HIDE_BASE : Z := 0x100000000.
Definition NWOAS_MIN_LOW_FREE_PAGES : Z := 0x80000.

(** [NWOAS_HIDE_FULL] is 0. *)
Definition NwoasTypeIsHideable (Type_ : Z) : bool := Type_ =? EfiConventionalMemory.

Record tally := mk_tally {
  LowFreePages : Z;
  HideablePages : Z;
  HideableCount : Z;
  FirstHiddenPa : Z;
}.
#[export] Instance tally_eta : Eta tally := fun t =>
  mk_tally (LowFreePages t) (HideablePages t) (HideableCount t) (FirstHiddenPa t).

Definition tally_desc (t : tally) (Desc : EFI_MEMORY_DESCRIPTOR) : tally :=
  if NWOAS_HIDE_BASE <=? PhysicalStart Desc then
    if NwoasTypeIsHideable (Type_ Desc) then
      mk_tally (LowFreePages t) (u64 (HideablePages t + NumberOfPages Desc))
        (u64 (HideableCount t + 1))
        (if HideableCount t =? 0 then PhysicalStart Desc else FirstHiddenPa t)
    else t
  else if Type_ Desc =? EfiConventionalMemory then
    t <| LowFreePages := u64 (LowFreePages t + NumberOfPages Desc) |>
  else t.

(** Pass 1. *)
Definition tally_map (Map : list EFI_MEMORY_DESCRIPTOR) : tally :=
  fold_left tally_desc Map (mk_tally 0 0 0 0).

Section relabel.
Context (mKeepHighStart mKeepHighEnd : Z).

Definition kept (Desc : EFI_MEMORY_DESCRIPTOR) : bool :=
  (Type_ Desc =? EfiConventionalMemory) && (mKeepHighStart <=? PhysicalStart Desc) &&
  (PhysicalStart Desc <? mKeepHighEnd) &&
  (NumberOfPages Desc <=? u64 (mKeepHighEnd - PhysicalStart Desc) / EFI_PAGE_SIZE).

(** Pass 2: the slots, KeptPages and Rewritten. *)
Fixpoint relabel (Map : list EFI_MEMORY_DESCRIPTOR) (KeptPages Rewritten : Z) :
    list EFI_MEMORY_DESCRIPTOR * Z * Z :=
  match Map with
  | [] => ([], KeptPages, Rewritten)
  | Desc :: rest =>
      if (NWOAS_HIDE_BASE <=? PhysicalStart Desc) && NwoasTypeIsHideable (Type_ Desc) then
        if kept Desc then
          let r := relabel rest (u64 (KeptPages + NumberOfPages Desc)) Rewritten in
          (Desc :: r.1.1, r.1.2, r.2)
        else
          let r := relabel rest KeptPages (u64 (Rewritten + 1)) in
          (Desc <| Type_ := EfiReservedMemoryType |> :: r.1.1, r.1.2, r.2)
      else
        let r := relabel rest KeptPages Rewritten in
        (Desc :: r.1.1, r.1.2, r.2)
  end.
End relabel.

(** The parameters of EFI_GET_MEMORY_MAP: the pointees, [None] for NULL. *)
Record map_args := mk_args {
  MemoryMapSize : option Z;
  MemoryMap : option (list EFI_MEMORY_DESCRIPTOR);
  MapKey : option Z;
  DescriptorSize : option Z;
  DescriptorVersion : option Z;
}.
#[export] Instance args_eta : Eta map_args := fun a =>
  mk_args (MemoryMapSize a) (MemoryMap a) (MapKey a) (DescriptorSize a) (DescriptorVersion a).

(** What the first fill logs: the tallies, the count of slots, the guard,
    [KeptPages], [Rewritten] and [SplitCount]. *)
Record fill_log := mk_log {
  log_tally : tally;
  log_count : Z;
  log_guard : bool;
  log_kept : Z;
  log_rewritten : Z;
  log_split : Z;
}.

(** The function the boot-services table points to. *)
Inductive map_fn := CoreGetMemoryMap | WrappedGetMemoryMap.
#[export] Instance map_fn_eq : EqDecision map_fn.
Proof. solve_decision. Defined.

(** The part of the boot-services table the driver changes. *)
Record boot_services := mk_bs { GetMemoryMap : map_fn; CRC32 : Z }.
#[export] Instance bs_eta : Eta boot_services := fun b => mk_bs (GetMemoryMap b) (CRC32 b).

(** The module globals and the table. *)
Record hide_state := mk_hide {
  mKeepHighStart : Z;
  mKeepHighEnd : Z;
  mHideDone : bool;
  mOrigGetMemoryMap : option map_fn;
  mWrapLogged : bool;
  gBS : boot_services;
  fill_logs : list fill_log;
}.
#[export] Instance hide_eta : Eta hide_state := fun h =>
  mk_hide (mKeepHighStart h) (mKeepHighEnd h) (mHideDone h) (mOrigGetMemoryMap h) (mWrapLogged h)
    (gBS h) (fill_logs h).

(** The firmware functions used; [boot_args] reads phys_base and mem_size. *)
Record hide_platform (S node : Type) := {
  core_GetMemoryMap : map_args -> M S (Z * map_args);
  CalculateCrc32 : boot_services -> Z;
  pf_dt_get : list Z -> option node;
  pf_dt_prop : node -> list Z -> option (list Z);
  MmioRead64 : Z -> M S Z;
  MmioWrite64 : Z -> Z -> M S unit;
  MicroSecondDelay : Z -> M S unit;
  boot_args : M S (Z * Z);
  CreateReadyToBootEvent : M S Z;
}.
#[global] Arguments core_GetMemoryMap {S node} _. #[global] Arguments CalculateCrc32 {S node} _.
#[global] Arguments pf_dt_get {S node} _. #[global] Arguments pf_dt_prop {S node} _.
#[global] Arguments MmioRead64 {S node} _. #[global] Arguments MmioWrite64 {S node} _.
#[global] Arguments MicroSecondDelay {S node} _. #[global] Arguments boot_args {S node} _.
#[global] Arguments CreateReadyToBootEvent {S node} _.

Section wrapper.
Context {S node : Type} `{H : !Lens S hide_state} (NWOAS_HIDE_KEEP_HIGH_BYTES : Z)
  (pf : hide_platform S node).

(** [mWrapLogged] and the log of the first fill. *)
Definition log_fill (l : fill_log) (h : hide_state) : hide_state :=
  if mWrapLogged h then h
  else mk_hide (mKeepHighStart h) (mKeepHighEnd h) (mHideDone h) (mOrigGetMemoryMap h) true (gBS h)
         (fill_logs h ++ [l]).

(** The second pass with the split before it: the status, the arguments, the
    slot count, KeptPages, Rewritten and SplitCount; an error status returns at
    once. *)
Definition hide_snapshot (g : hide_state) (Capacity DescSize Count : Z) (a : map_args) :
    Z * map_args * Z * Z * Z * Z :=
  let '(Status, Map, Size, Split) :=
    if mKeepHighStart g <? mKeepHighEnd g then
      NwoasSplitMemoryMap (mKeepHighStart g) (mKeepHighEnd g) (MemoryMap a) (MemoryMapSize a)
        Capacity DescSize true
    else (EFI_SUCCESS, MemoryMap a, MemoryMapSize a, Some 0) in
  let a := a <| MemoryMap := Map |> <| MemoryMapSize := Size |> in
  if EFI_ERROR Status then (Status, a, 0, 0, 0, 0)
  else
    let Count := if mKeepHighStart g <? mKeepHighEnd g then default 0 Size / DescSize else Count in
    let slots := default [] Map in
    let n := Z.to_nat Count in
    let r := relabel (mKeepHighStart g) (mKeepHighEnd g) (take n slots) 0 0 in
    (Status, a <| MemoryMap := Some (r.1.1 ++ drop n slots) |>, Count, r.1.2, r.2, default 0 Split).

(** [mOrigGetMemoryMap] is the argument [orig]. *)
Definition NwoasWrappedGetMemoryMap (orig : map_args -> M S (Z * map_args)) (a : map_args) :
    M S (Z * map_args) :=
  let Capacity := default 0 (MemoryMapSize a) in
  r ← orig a;
  let '(Status, a) := r in
  g ← lgets (id (A := hide_state));
  let DescSize := default 0 (DescriptorSize a) in
  if (Status =? EFI_BUFFER_TOO_SMALL) && bool_decide (is_Some (MemoryMapSize a)) &&
     bool_decide (is_Some (DescriptorSize a)) && (sizeof_EFI_MEMORY_DESCRIPTOR <=? DescSize) &&
     (mKeepHighStart g <? mKeepHighEnd g)
  then
    if u64 (MAX_UINT64 - DescSize) <? default 0 (MemoryMapSize a) then mret (EFI_OUT_OF_RESOURCES, a)
    else mret (Status, a <| MemoryMapSize := Some (u64 (default 0 (MemoryMapSize a) + DescSize)) |>)
  else if EFI_ERROR Status || bool_decide (MemoryMap a = None) ||
          bool_decide (DescriptorSize a = None) || (DescSize =? 0)
  then mret (Status, a)
  else
    let Count := default 0 (MemoryMapSize a) / DescSize in
    let t := tally_map (take (Z.to_nat Count) (default [] (MemoryMap a))) in
    let AbortGuard := LowFreePages t <? NWOAS_MIN_LOW_FREE_PAGES in
    if AbortGuard then
      lmodify (log_fill (mk_log t Count true 0 0 0));;
      mret (Status, a)
    else
      let '(Status, a, Count, KeptPages, Rewritten, SplitCount) :=
        hide_snapshot g Capacity DescSize Count a in
      if EFI_ERROR Status then mret (Status, a)
      else
        lmodify (log_fill (mk_log t Count false KeptPages Rewritten SplitCount));;
        mret (Status, a).

(** A call through the boot-services table; the wrapper calls the saved core
    function. *)
Definition gbs_GetMemoryMap (a : map_args) : M S (Z * map_args) :=
  g ← lgets (id (A := hide_state));
  match GetMemoryMap (gBS g) with
  | CoreGetMemoryMap => core_GetMemoryMap pf a
  | WrappedGetMemoryMap => NwoasWrappedGetMemoryMap (core_GetMemoryMap pf) a
  end.

(** ** ReadyToBoot *)

Definition NwoasPstateRead (Address : Z) : M S Z := MmioRead64 pf Address.
Definition NwoasPstateWrite (Address Value : Z) : M S unit := MmioWrite64 pf Address Value.
Definition NwoasPstateDelay (Microseconds : Z) : M S unit := MicroSecondDelay pf Microseconds.

(** The result, which is only logged; [None] when the CPU state is left alone. *)
Definition NwoasPstateReadyToBoot : M S (option (NWOAS_PSTATE_STATUS * option NWOAS_CPU_PSTATE_RESULT)) :=
  match pf_dt_get pf (chars "chosen") with
  | None => mret None
  | Some Chosen =>
      match pf_dt_prop pf Chosen (chars "chip-id") with
      | None => mret None
      | Some Property =>
          if negb (zlen Property =? 4) then mret None
          else
            r ← nwoas_cpu_pstate_enable_p12
                  (Some {| read64 := Some NwoasPstateRead; write64 := Some NwoasPstateWrite;
                           delay_us := Some NwoasPstateDelay; chip_id := le_val Property |}) true;
            mret (Some r)
      end
  end.

(** The keep extent, when the kept size is page-aligned and fits the RAM. *)
Definition keep_extent (PhysBase Backing : Z) (h : hide_state) : hide_state :=
  if (PhysBase <? Backing) && negb (truthy (NWOAS_HIDE_KEEP_HIGH_BYTES .& (EFI_PAGE_SIZE - 1))) &&
     (NWOAS_HIDE_KEEP_HIGH_BYTES <=? u64 (Backing - PhysBase))
  then mk_hide PhysBase (u64 (PhysBase + NWOAS_HIDE_KEEP_HIGH_BYTES)) (mHideDone h)
         (mOrigGetMemoryMap h) (mWrapLogged h) (gBS h) (fill_logs h)
  else h.

Definition install_wrapper (h : hide_state) : hide_state :=
  let table := mk_bs WrappedGetMemoryMap 0 in
  mk_hide (mKeepHighStart h) (mKeepHighEnd h) (mHideDone h) (Some (GetMemoryMap (gBS h)))
    (mWrapLogged h) (table <| CRC32 := CalculateCrc32 pf table |>) (fill_logs h).

Definition NwoasHideHighRamOnReadyToBoot : M S unit :=
  g ← lgets (id (A := hide_state));
  if mHideDone g then mret tt
  else
    lmodify (fun h => h <| mHideDone := true |>);;
    NwoasPstateReadyToBoot;;
    BA ← boot_args pf;
    let '(PhysBase, MemSize) := BA in
    let Backing := NwoasGuestRamBackingPa PhysBase MemSize in
    lmodify (keep_extent PhysBase Backing);;
    lmodify install_wrapper.

(** [NWOAS_UEFI_NVME] is 0. *)
Definition NwoasHideHighRamDxeInitialize : M S Z :=
  CreateReadyToBootEvent pf;;
  mret EFI_SUCCESS.
End wrapper.

(** ** Who owns an address *)

Definition desc_end (d : EFI_MEMORY_DESCRIPTOR) : Z := PhysicalStart d + 4096 * NumberOfPages d.
Definition covers (d : EFI_MEMORY_DESCRIPTOR) (pa : Z) : bool :=
  (PhysicalStart d <=? pa) && (pa <? desc_end d).

(** What a map says about an address: the type, the virtual address (0 if none
    is assigned), the attributes and the extension bytes. *)
Record owner := mk_owner { o_type : Z; o_virtual : Z; o_attribute : Z; o_extension : list Z }.
Definition owner_of (d : EFI_MEMORY_DESCRIPTOR) (pa : Z) : owner :=
  mk_owner (Type_ d)
    (if VirtualStart d =? 0 then 0 else VirtualStart d + (pa - PhysicalStart d))
    (Attribute d) (extension d).
Definition owners (m : list EFI_MEMORY_DESCRIPTOR) (pa : Z) : list owner :=
  omap (fun d => if covers d pa then Some (owner_of d pa) else None) m.

(** A descriptor of a sane map: its words fit, it ends inside the address space,
    and free RAM does not extend across the hide line or the keep start. *)
Record desc_ok (KeepStart : Z) (d : EFI_MEMORY_DESCRIPTOR) : Prop := {
  ok_start : in_w 64 (PhysicalStart d);
  ok_virtual : in_w 64 (VirtualStart d);
  ok_pages : in_w 64 (NumberOfPages d);
  ok_end : desc_end d <= 2 ^ 64;
  ok_base : Type_ d = EfiConventionalMemory -> PhysicalStart d < NWOAS_HIDE_BASE ->
    desc_end d <= NWOAS_HIDE_BASE;
  ok_keep : Type_ d = EfiConventionalMemory -> PhysicalStart d < KeepStart -> desc_end d <= KeepStart;
}.

Lemma owners_app m k pa : owners (m ++ k) pa = owners m pa ++ owners k pa.
Proof. apply omap_app. Qed.

Lemma page_mod x : truthy (x .& (EFI_PAGE_SIZE - 1)) = false <-> (4096 | x).
Proof.
  change (EFI_PAGE_SIZE - 1) with (2 ^ 12 - 1). rewrite land_ones_mod by lia.
  rewrite truthy_false, <- Z.mod_divide by lia. done.
Qed.

Section split_spec.
Context (KS KE : Z).

Definition below (d : EFI_MEMORY_DESCRIPTOR) : Prop := in_keep KS KE d = true -> desc_end d <= KE.

(** The descriptor to split. *)
Definition straddles (d : EFI_MEMORY_DESCRIPTOR) : Prop :=
  in_keep KS KE d = true /\ (4096 | PhysicalStart d) /\ KE < desc_end d < 2 ^ 64 /\
  (VirtualStart d = 0 \/ VirtualStart d + (KE - PhysicalStart d) < 2 ^ 64).

Lemma keep_in d : in_keep KS KE d = true ->
  Type_ d = EfiConventionalMemory /\ KS <= PhysicalStart d < KE.
Proof. unfold in_keep. intros ?. bool_props. done. Qed.

Hypothesis HKE : KE < 2 ^ 64.

(** One step of the scan. *)
Lemma preflight_step d m i f j : desc_ok KS d ->
  preflight KS KE (d :: m) i f j = None \/
  below d /\ preflight KS KE (d :: m) i f j = preflight KS KE m (S i) f j \/
  straddles d /\ f = O /\ preflight KS KE (d :: m) i f j = preflight KS KE m (S i) 1 i.
Proof.
  intros [Hs Hv Hn He _ _]. unfold in_w in *. cbn [preflight]. change MAX_UINT64 with (2 ^ 64 - 1).
  destruct (in_keep KS KE d) eqn:Ek; cbn [negb]; [| right; left; split; [unfold below; by rewrite Ek | done]].
  pose proof (keep_in d Ek) as [_ Hr].
  destruct (truthy (PhysicalStart d .& _)) eqn:Ea; [by left |]. apply page_mod in Ea.
  rewrite (wrap_small 64 (2 ^ 64 - 1 - _)) by (unfold in_w; lia). cbn [orb].
  change EFI_PAGE_SIZE with 4096. destruct (Z.ltb_spec ((2 ^ 64 - 1 - PhysicalStart d) / 4096) (NumberOfPages d)) as [|Hov]; [by left |].
  assert (Hend : desc_end d <= 2 ^ 64 - 1) by (unfold desc_end; dlia).
  unfold desc_end in Hend.
  rewrite (wrap_small 64 (NumberOfPages d * 4096)) by (unfold in_w; lia).
  rewrite wrap_small by (unfold in_w; lia).
  destruct (Z.leb_spec (PhysicalStart d + NumberOfPages d * 4096) KE); [right; left |].
  { split; [intros _; unfold desc_end; lia | done]. }
  unfold split_offset. rewrite (wrap_small 64 (KE - _)) by (unfold in_w; lia).
  rewrite (wrap_small 64 (2 ^ 64 - 1 - _)) by (unfold in_w; lia).
  destruct (negb _ && _) eqn:Ev; [by left |]. apply andb_false_iff in Ev.
  destruct f as [|f]; cbn [Nat.ltb Nat.leb]; [| by left]. right; right. split; [| done].
  unfold straddles, desc_end. split_and!; try done; try lia.
Qed.

Lemma preflight_one m i j r : Forall (desc_ok KS) m ->
  preflight KS KE m i 1 j = Some r -> r = (1%nat, j) /\ Forall below m.
Proof.
  intros Hm. revert i. induction Hm as [|d m Hd Hm IH]; intros i; [by intros [= <-] |].
  destruct (preflight_step d m i 1 j Hd) as [-> | [[Hb ->] | (_ & ? & _)]]; [done | | done].
  intros [? ?]%IH. auto.
Qed.

Lemma preflight_zero m i j r : Forall (desc_ok KS) m ->
  preflight KS KE m i 0 j = Some r ->
  (r = (O, j) /\ Forall below m) \/
  exists pre d post, m = pre ++ d :: post /\ r = (1%nat, (i + length pre)%nat) /\ straddles d /\
    Forall below pre /\ Forall below post.
Proof.
  intros Hm. revert i. induction Hm as [|d m Hd Hm IH]; intros i; [intros [= <-]; by left |].
  destruct (preflight_step d m i 0 j Hd) as [-> | [[Hb ->] | (Hs & _ & ->)]]; [done | |].
  - intros [[? ?] | (pre & d' & post & -> & -> & ? & ? & ?)]%IH; [left; auto | right].
    exists (d :: pre), d', post. split_and!; auto; cbn; f_equal; lia.
  - intros [-> ?]%preflight_one; [| done]. right. exists [], d, m. cbn. rewrite Nat.add_0_r. split_and!; auto.
Qed.

Hypothesis HKS : (4096 | KS).
Hypothesis HKE4 : (4096 | KE).

(** The two parts own what the descriptor owned. *)
Lemma split_parts d : desc_ok KS d -> NWOAS_HIDE_BASE <= KS -> straddles d ->
  let h := split_head KE d in let t := split_tail KE d in
  (forall pa, owners [h; t] pa = owners [d] pa) /\
  desc_ok KS h /\ desc_ok KS t /\ below h /\ below t.
Proof.
  intros [Hs Hv Hn He Hb Hk] Hbase (Hin & [a Ha] & Hend & Hvo) h t. unfold in_w, desc_end in *.
  destruct (keep_in d Hin) as [Ety Hr]. destruct HKE4 as [b Eb].
  assert (Eo : split_offset KE d = 4096 * (b - a)).
  { unfold split_offset. rewrite wrap_small by (unfold in_w; lia). lia. }
  assert (Eh : NumberOfPages h = b - a).
  { unfold h, split_head. cbn. rewrite Eo. change EFI_PAGE_SIZE with 4096. dlia. }
  assert (Et : NumberOfPages t = NumberOfPages d - (b - a)).
  { unfold t, split_tail. cbn. rewrite Eo. change EFI_PAGE_SIZE with 4096.
    replace (4096 * (b - a) / 4096) with (b - a) by dlia. apply wrap_small. unfold in_w. lia. }
  assert (Evt : VirtualStart t = if VirtualStart d =? 0 then 0 else VirtualStart d + (KE - PhysicalStart d)).
  { unfold t, split_tail. cbn. destruct (Z.eqb_spec (VirtualStart d) 0); [done |].
    rewrite Eo, wrap_small by (unfold in_w; lia). lia. }
  assert (Eph : PhysicalStart h = PhysicalStart d) by done.
  assert (Ept : PhysicalStart t = KE) by done.
  assert (Evh : VirtualStart h = VirtualStart d) by done.
  split_and!.
  - intros pa. unfold owners, owner_of. cbn [omap list_omap]. unfold covers, desc_end.
    rewrite Eh, Et, Eph, Ept, Evh, Evt.
    change (Type_ h) with (Type_ d). change (Type_ t) with (Type_ d).
    change (Attribute h) with (Attribute d). change (Attribute t) with (Attribute d).
    change (extension h) with (extension d). change (extension t) with (extension d).
    destruct (Z.leb_spec (PhysicalStart d) pa), (Z.leb_spec KE pa),
      (Z.ltb_spec pa (PhysicalStart d + 4096 * (b - a))),
      (Z.ltb_spec pa (KE + 4096 * (NumberOfPages d - (b - a)))),
      (Z.ltb_spec pa (PhysicalStart d + 4096 * NumberOfPages d)); cbn [andb]; try lia; try done.
    destruct (Z.eqb_spec (VirtualStart d) 0); [done |].
    rewrite (proj2 (Z.eqb_neq _ 0)) by lia. do 2 f_equal. lia.
  - split; unfold in_w, desc_end; rewrite ?Eph, ?Eh, ?Evh; try lia; intros _; lia.
  - split; unfold in_w, desc_end; rewrite ?Ept, ?Et, ?Evt; try lia; try (intros _; lia).
    destruct (Z.eqb_spec (VirtualStart d) 0); lia.
  - intros _. unfold desc_end. rewrite Eph, Eh. lia.
  - intros Hb'. apply keep_in in Hb'. rewrite Ept in Hb'. lia.
Qed.
End split_spec.

(** [Map] is a buffer whose first [*MapBytes] bytes are the snapshot [m]. *)
Definition holds (Map : option (list EFI_MEMORY_DESCRIPTOR)) (MapBytes : option Z) (DescSize : Z)
    (m : list EFI_MEMORY_DESCRIPTOR) : Prop :=
  exists rest, Map = Some (m ++ rest) /\ MapBytes = Some (zlen m * DescSize).

Lemma EFI_ERROR_codes :
  EFI_ERROR EFI_SUCCESS = false /\ EFI_ERROR EFI_INVALID_PARAMETER = true /\
  EFI_ERROR EFI_BUFFER_TOO_SMALL = true /\ EFI_ERROR EFI_OUT_OF_RESOURCES = true /\
  EFI_ERROR EFI_COMPROMISED_DATA = true.
Proof. done. Qed.

Lemma split_slots_eq KE pre d post rest :
  split_slots KE ((pre ++ d :: post) ++ rest) (length (pre ++ d :: post)) (length pre) =
    (pre ++ split_head KE d :: split_tail KE d :: post) ++ drop 1 rest.
Proof.
  unfold split_slots. rewrite <- app_assoc. cbn [app]. rewrite list_lookup_middle by done.
  rewrite take_app_length.
  assert (E1 : drop (S (length pre)) (pre ++ d :: post ++ rest) = post ++ rest).
  { rewrite (cons_middle d), app_assoc. apply drop_app_length'. rewrite length_app. cbn. lia. }
  assert (E2 : drop (S (length (pre ++ d :: post))) (pre ++ d :: post ++ rest) = drop 1 rest).
  { replace (pre ++ d :: post ++ rest) with ((pre ++ d :: post) ++ rest) by (by rewrite <- app_assoc).
    replace (S (length (pre ++ d :: post))) with (length (pre ++ d :: post) + 1)%nat by lia.
    by rewrite <- drop_drop, drop_app_length. }
  rewrite E1, E2, length_app. cbn [length].
  replace (length pre + S (length post) - length pre - 1)%nat with (length post) by lia.
  by rewrite take_app_length, <- !app_assoc.
Qed.

(** The whole of [NwoasSplitMemoryMap] on a sane map. *)
Lemma split_spec KS KE Map MapBytes Capacity DescSize m :
  in_w 64 KE -> NWOAS_HIDE_BASE <= KS -> in_w 64 DescSize -> in_w 64 Capacity ->
  holds Map MapBytes DescSize m -> in_w 64 (zlen m * DescSize) -> Forall (desc_ok KS) m ->
  let '(st, Map', MapBytes', SplitCount) :=
    NwoasSplitMemoryMap KS KE Map MapBytes Capacity DescSize true in
  (st = EFI_SUCCESS /\ exists m', holds Map' MapBytes' DescSize m' /\
     (forall pa, owners m' pa = owners m pa) /\ Forall (desc_ok KS) m' /\ Forall (below KS KE) m' /\
     zlen m' * DescSize <= Capacity /\ SplitCount = Some (zlen m' - zlen m)) \/
  (EFI_ERROR st = true /\ Map' = Map /\
     (st <> EFI_BUFFER_TOO_SMALL -> MapBytes' = MapBytes) /\
     (st = EFI_BUFFER_TOO_SMALL -> MapBytes' = Some (zlen m * DescSize + DescSize) /\
        zlen m * DescSize <= Capacity < zlen m * DescSize + DescSize)).
Proof.
  intros HKE Hbase HD HC (rest & -> & ->) Hb Hm. unfold NwoasSplitMemoryMap, in_w in *. cbn [negb orb].
  match goal with |- context [if ?c then (EFI_INVALID_PARAMETER, _, _, _) else _] => destruct c eqn:E0 end.
  { right. done. }
  repeat (apply orb_false_iff in E0 as [E0 ?]). bool_props.
  change sizeof_EFI_MEMORY_DESCRIPTOR with 40 in *.
  replace (zlen m * DescSize / DescSize) with (zlen m) by (rewrite Z.div_mul; lia).
  assert (En : Z.to_nat (zlen m) = length m) by apply Nat2Z.id. rewrite En, take_app_length.
  assert (Hal : (4096 | KS) /\ (4096 | KE)).
  { rewrite Z.land_lor_distr_l, Z.lor_eq_0_iff in H. destruct H as [Ha1 Ha2].
    split; apply page_mod; by apply truthy_false. }
  destruct Hal as [HKS HKE4].
  destruct (preflight _ _ m 0 0 0) as [[f j]|] eqn:Ep; [| by right].
  destruct (preflight_zero KS KE m 0 0 (f, j) Hm Ep)
    as [[[= -> ->] Hbel] | (pre & d & post & Em & [= -> ->] & Hs & Hpre & Hpost)].
  { left. split; [done |]. exists m. split_and!; try done; [by exists rest | f_equal; lia]. }
  change MAX_UINT64 with (2 ^ 64 - 1). rewrite (wrap_small 64 (2 ^ 64 - 1 - _)) by (unfold in_w; lia).
  destruct (Z.ltb_spec (2 ^ 64 - 1 - DescSize) (zlen m * DescSize)); [by right |].
  rewrite (wrap_small 64 (Capacity - _)) by (unfold in_w; lia).
  rewrite (wrap_small 64 (_ + DescSize)) by (unfold in_w; lia).
  destruct (Z.ltb_spec (Capacity - zlen m * DescSize) DescSize).
  { right. split_and!; try done. split; [done | lia]. }
  left. split; [done |]. subst m. apply Forall_app in Hm as [Hm1 Hm2].
  inversion Hm2 as [|? ? Hd Hm3]; subst.
  destruct (split_parts KS KE (proj2 HKE) HKE4 d Hd Hbase Hs) as (Ho & Hh & Ht & Hbh & Hbt).
  exists (pre ++ split_head KE d :: split_tail KE d :: post).
  assert (El : zlen (pre ++ split_head KE d :: split_tail KE d :: post) = zlen (pre ++ d :: post) + 1).
  { rewrite !zlen_app, !zlen_cons. lia. }
  cbn [Nat.add]; rewrite split_slots_eq, El. split_and!.
  - exists (drop 1 rest). split; [done |]. rewrite El. f_equal. lia.
  - intros pa. rewrite !owners_app. specialize (Ho pa).
    change (split_head KE d :: split_tail KE d :: post) with ([split_head KE d; split_tail KE d] ++ post).
    change (d :: post) with ([d] ++ post). by rewrite !owners_app, Ho.
  - apply Forall_app. auto.
  - apply Forall_app. auto.
  - lia.
  - f_equal. lia.
Qed.

(** ** The relabelling *)

Section relabel_spec.
Context (KS KE : Z).

Definition relabelled (d : EFI_MEMORY_DESCRIPTOR) : EFI_MEMORY_DESCRIPTOR :=
  if (NWOAS_HIDE_BASE <=? PhysicalStart d) && NwoasTypeIsHideable (Type_ d) && negb (kept KS KE d)
  then d <| Type_ := EfiReservedMemoryType |> else d.

Lemma relabel_map m k r : (relabel KS KE m k r).1.1 = map relabelled m.
Proof.
  revert k r. induction m as [|d m IH]; intros k r; [done |]. cbn [relabel map]. unfold relabelled at 1.
  destruct (_ && NwoasTypeIsHideable _); cbn [andb]; [| cbn; by f_equal].
  destruct (kept KS KE d); cbn; by f_equal.
Qed.

(** What becomes of the owner of an address: free RAM from the hide line up is
    reserved, except in the kept range. *)
Definition hidden (pa : Z) (o : owner) : owner :=
  if (o_type o =? EfiConventionalMemory) && (NWOAS_HIDE_BASE <=? pa) &&
     negb ((KS <=? pa) && (pa <? KE))
  then mk_owner EfiReservedMemoryType (o_virtual o) (o_attribute o) (o_extension o) else o.

Hypothesis HKE : in_w 64 KE.

Lemma relabelled_owner d pa : desc_ok KS d -> below KS KE d ->
  owners [relabelled d] pa = map (hidden pa) (owners [d] pa).
Proof.
  intros [Hs Hv Hn He Hb Hk] Hbel. unfold in_w in *.
  assert (Ec : covers (relabelled d) pa = covers d pa) by (unfold relabelled; by destruct (_ && _)).
  unfold owners. cbn [omap list_omap]. rewrite Ec. destruct (covers d pa) eqn:Ed; [| done].
  cbn. f_equal. unfold relabelled, hidden, owner_of at 1, NwoasTypeIsHideable. cbn [o_type owner_of].
  unfold covers in Ed. bool_props. unfold below, in_keep in Hbel. unfold kept.
  destruct (Z.eqb_spec (Type_ d) EfiConventionalMemory) as [Ety|]; [| by rewrite !andb_false_r].
  rewrite andb_true_r. cbn [andb] in *. specialize (Hb Ety). specialize (Hk Ety).
  assert (E : (NWOAS_HIDE_BASE <=? PhysicalStart d) &&
      negb ((KS <=? PhysicalStart d) && (PhysicalStart d <? KE) &&
        (NumberOfPages d <=? u64 (KE - PhysicalStart d) / EFI_PAGE_SIZE)) =
      (NWOAS_HIDE_BASE <=? pa) && negb ((KS <=? pa) && (pa <? KE))).
  { f_equal.
    { destruct (Z.leb_spec NWOAS_HIDE_BASE (PhysicalStart d)), (Z.leb_spec NWOAS_HIDE_BASE pa); try done; lia. }
    f_equal.
    destruct (Z.leb_spec KS (PhysicalStart d)), (Z.leb_spec KS pa); cbn [andb] in *; try done; try lia.
    destruct (Z.ltb_spec (PhysicalStart d) KE); cbn [andb] in *.
    - rewrite (wrap_small 64 (KE - _)) by (unfold in_w; lia). specialize (Hbel eq_refl).
      unfold desc_end in *. change EFI_PAGE_SIZE with 4096.
      rewrite (proj2 (Z.leb_le _ _)) by dlia. symmetry. apply Z.ltb_lt. lia.
    - symmetry. apply Z.ltb_ge. lia. }
  rewrite E. by destruct ((NWOAS_HIDE_BASE <=? pa) && negb ((KS <=? pa) && (pa <? KE))).
Qed.

Lemma relabel_owners m pa : Forall (desc_ok KS) m -> Forall (below KS KE) m ->
  owners (map relabelled m) pa = map (hidden pa) (owners m pa).
Proof.
  intros Hm. induction Hm as [|d m Hd Hm IH]; intros Hbel; [done |].
  inversion Hbel; subst. cbn [map]. change (?x :: ?l) with ([x] ++ l).
  rewrite (owners_app [d] m), map_app, <- IH, <- relabelled_owner by done. apply (owners_app [_]).
Qed.
End relabel_spec.

(** ** The wrapper *)

(** The free pages below the hide line. *)
Fixpoint low_pages (m : list EFI_MEMORY_DESCRIPTOR) : Z :=
  match m with
  | [] => 0
  | d :: m =>
      (if (Type_ d =? EfiConventionalMemory) && (PhysicalStart d <? NWOAS_HIDE_BASE)
       then NumberOfPages d else 0) + low_pages m
  end.

Lemma tally_low m : LowFreePages (tally_map m) = u64 (low_pages m).
Proof.
  unfold tally_map.
  assert (H : forall t, LowFreePages t = u64 (LowFreePages t) ->
    LowFreePages (fold_left tally_desc m t) = u64 (LowFreePages t + low_pages m)).
  { induction m as [|d m IH]; intros t Ht; cbn [fold_left low_pages]; [by rewrite Z.add_0_r |].
    assert (E : LowFreePages (tally_desc t d) = u64 (LowFreePages t +
      (if (Type_ d =? EfiConventionalMemory) && (PhysicalStart d <? NWOAS_HIDE_BASE)
       then NumberOfPages d else 0))).
    { unfold tally_desc. destruct (Z.leb_spec NWOAS_HIDE_BASE (PhysicalStart d)).
      - rewrite (proj2 (Z.ltb_ge _ _)) by done. rewrite andb_false_r, Z.add_0_r.
        by destruct (NwoasTypeIsHideable _).
      - rewrite (proj2 (Z.ltb_lt _ _)) by done. rewrite andb_true_r.
        destruct (_ =? _); [done | by rewrite Z.add_0_r]. }
    rewrite IH by (rewrite E; unfold wrap; by rewrite Z.mod_mod by done).
    rewrite E. unfold wrap. rewrite Z.add_mod_idemp_l by done. f_equal. lia. }
  rewrite (H (mk_tally 0 0 0 0)) by done. done.
Qed.

Definition guard_fires (m : list EFI_MEMORY_DESCRIPTOR) : bool :=
  u64 (low_pages m) <? NWOAS_MIN_LOW_FREE_PAGES.

(** What the caller's snapshot tells about an address after the wrapper. *)
Definition seen (KS KE : Z) (m : list EFI_MEMORY_DESCRIPTOR) (pa : Z) : list owner :=
  if guard_fires m then owners m pa else map (hidden KS KE pa) (owners m pa).

(** The driver's keep extent is empty or lies above the hide line. *)
Definition extent_ok (g : hide_state) : Prop :=
  in_w 64 (mKeepHighEnd g) /\ (mKeepHighStart g < mKeepHighEnd g -> NWOAS_HIDE_BASE <= mKeepHighStart g).

Lemma map_slots {A} (m rest : list A) ds : 0 < ds ->
  take (Z.to_nat (zlen m * ds / ds)) (m ++ rest) = m /\
  drop (Z.to_nat (zlen m * ds / ds)) (m ++ rest) = rest.
Proof.
  intros Hd. rewrite Z.div_mul by lia. unfold zlen. rewrite Nat2Z.id.
  split; [apply take_app_length | apply drop_app_length].
Qed.

(** The relabelled snapshot in its buffer. *)
Lemma relabel_buffer KS KE m rest ds : in_w 64 KE -> 0 < ds ->
  Forall (desc_ok KS) m -> Forall (below KS KE) m ->
  let n := Z.to_nat (zlen m * ds / ds) in
  exists m', holds (Some ((relabel KS KE (take n (m ++ rest)) 0 0).1.1 ++ drop n (m ++ rest)))
      (Some (zlen m * ds)) ds m' /\
    forall pa, owners m' pa = map (hidden KS KE pa) (owners m pa).
Proof.
  intros HKE Hd Hm Hb n. destruct (map_slots m rest ds Hd) as [E1 E2]. unfold n. rewrite E1, E2, relabel_map.
  exists (map (relabelled KS KE) m). split; [| by intros; apply relabel_owners].
  exists rest. split; [done |]. unfold zlen. by rewrite length_map.
Qed.

Lemma hide_snapshot_spec g Capacity ds a m :
  extent_ok g -> 40 <= ds -> in_w 64 ds -> in_w 64 Capacity ->
  holds (MemoryMap a) (MemoryMapSize a) ds m -> in_w 64 (zlen m * ds) ->
  Forall (desc_ok (mKeepHighStart g)) m ->
  let '(st, a', _, _, _, _) := hide_snapshot g Capacity ds (default 0 (MemoryMapSize a) / ds) a in
  MapKey a' = MapKey a /\ DescriptorSize a' = DescriptorSize a /\
  DescriptorVersion a' = DescriptorVersion a /\
  ((st = EFI_SUCCESS /\ exists m', holds (MemoryMap a') (MemoryMapSize a') ds m' /\
      forall pa, owners m' pa = map (hidden (mKeepHighStart g) (mKeepHighEnd g) pa) (owners m pa)) \/
   (EFI_ERROR st = true /\ MemoryMap a' = MemoryMap a /\
      (st = EFI_BUFFER_TOO_SMALL -> mKeepHighStart g < mKeepHighEnd g /\
         MemoryMapSize a' = Some (zlen m * ds + ds) /\
         zlen m * ds <= Capacity < zlen m * ds + ds))).
Proof.
  intros [HKE Hks] H40 Hds Hcap Hh Hb Hm. unfold hide_snapshot.
  destruct (Z.ltb_spec (mKeepHighStart g) (mKeepHighEnd g)) as [Hlt|Hge].
  - pose proof (split_spec (mKeepHighStart g) (mKeepHighEnd g) (MemoryMap a) (MemoryMapSize a)
      Capacity ds m HKE (Hks Hlt) Hds Hcap Hh Hb Hm) as Hs.
    destruct (NwoasSplitMemoryMap _ _ _ _ _ _ _) as [[[st Map'] Size'] Split'].
    destruct Hs as [(-> & m1 & (rest & -> & ->) & Ho & Hm1 & Hb1 & _ & _) | (Herr & -> & _ & Hsm)].
    + change (EFI_ERROR EFI_SUCCESS) with false. cbv iota. cbn [default].
      split_and!; [done | done | done |]. left. split; [done |].
      destruct (relabel_buffer (mKeepHighStart g) (mKeepHighEnd g) m1 rest ds) as (m' & Hm' & Ho');
        [done | lia | done | done |].
      exists m'. split; [exact Hm' |]. intros pa. by rewrite Ho', Ho.
    + rewrite Herr. split_and!; [done | done | done |]. right. split_and!; [done | done |].
      intros E. destruct (Hsm E) as [-> ?]. done.
  - destruct Hh as (rest & EM & ES). rewrite EM, ES. change (EFI_ERROR EFI_SUCCESS) with false.
    cbv iota. cbn [default]. split_and!; [done | done | done |]. left. split; [done |].
    destruct (relabel_buffer (mKeepHighStart g) (mKeepHighEnd g) m rest ds) as (m' & Hm' & Ho');
      [done | lia | done | | by exists m'].
    eapply Forall_impl; [| exact Hm]. intros d _ Hin. apply keep_in in Hin. lia.
Qed.

Section wrapper_spec.
Context {S : Type} `{H : !Lens S hide_state} (orig : map_args -> M S (Z * map_args)).

(** The call after the core's function filled the buffer with [m]. *)
Record filled (a : map_args) (s : S) (a1 : map_args) (s1 : S) (ds : Z)
    (m : list EFI_MEMORY_DESCRIPTOR) : Prop := {
  fl_call : orig a s = ((EFI_SUCCESS, a1), s1);
  fl_ds : DescriptorSize a1 = Some ds;
  fl_ds_range : 40 <= ds < 2 ^ 64;
  fl_capacity : in_w 64 (default 0 (MemoryMapSize a));
  fl_holds : holds (MemoryMap a1) (MemoryMapSize a1) ds m;
  fl_size : in_w 64 (zlen m * ds);
  fl_extent : extent_ok (lget s1);
  fl_sane : Forall (desc_ok (mKeepHighStart (lget s1))) m;
}.

Lemma wrapped_fill a s a1 s1 ds m : filled a s a1 s1 ds m ->
  let '(st, a') := (NwoasWrappedGetMemoryMap orig a s).1 in
  let g := lget s1 in
  MapKey a' = MapKey a1 /\ DescriptorSize a' = DescriptorSize a1 /\
  DescriptorVersion a' = DescriptorVersion a1 /\
  ((st = EFI_SUCCESS /\ exists m', holds (MemoryMap a') (MemoryMapSize a') ds m' /\
      forall pa, owners m' pa = seen (mKeepHighStart g) (mKeepHighEnd g) m pa) \/
   (EFI_ERROR st = true /\ MemoryMap a' = MemoryMap a1 /\
      (st = EFI_BUFFER_TOO_SMALL -> mKeepHighStart g < mKeepHighEnd g /\
         MemoryMapSize a' = Some (zlen m * ds + ds) /\
         zlen m * ds <= default 0 (MemoryMapSize a) < zlen m * ds + ds))).
Proof.
  intros [Hc Hd [H40 Hds] Hcap Hh Hb He Hm]. unfold NwoasWrappedGetMemoryMap.
  cbv beta iota zeta delta [mbind M_bind]. rewrite Hc. cbn [fst snd].
  change (EFI_SUCCESS =? EFI_BUFFER_TOO_SMALL) with false. change (EFI_ERROR EFI_SUCCESS) with false.
  cbn [andb orb lgets fst snd]. unfold id. rewrite Hd. cbn [default].
  pose proof Hh as (rest & EM & ES). rewrite EM, ES.
  rewrite !bool_decide_eq_false_2 by done. rewrite (proj2 (Z.eqb_neq ds 0)) by lia. cbn [orb default].
  rewrite (proj1 (map_slots m rest ds ltac:(lia))), tally_low. fold (guard_fires m).
  unfold seen. destruct (guard_fires m).
  - cbn. rewrite EM, ES. split_and!; [done | done | done |]. left. split; [done |].
    exists m. split; [by exists rest | done].
  - pose proof (hide_snapshot_spec (lget s1) (default 0 (MemoryMapSize a)) ds a1 m He H40
      (conj (ltac:(lia) : 0 <= ds) Hds) Hcap Hh Hb Hm) as Hs.
    rewrite ES in Hs. cbn [default] in Hs.
    destruct (hide_snapshot _ _ _ _ a1) as [[[[[st a2] ?] ?] ?] ?].
    destruct Hs as (E1 & E2 & E3 & Hs).
    destruct Hs as [[-> Hs] | [Herr Hs]].
    + change (EFI_ERROR EFI_SUCCESS) with false. cbn. split_and!; [done | congruence | done |]. left. split; [done | exact Hs].
    + rewrite Herr. cbn. split_and!; [done | congruence | done |]. right. rewrite EM in Hs. split; [done | exact Hs].
Qed.

(** The core's function while the memory map is [m]: a NULL or too small buffer
    gets the size [need], another one is filled. *)
Class CoreMap (need ds : Z) (m : list EFI_MEMORY_DESCRIPTOR) : Prop := {
  cm_small a s : is_Some (MemoryMapSize a) -> is_Some (DescriptorSize a) ->
    MemoryMap a = None \/ default 0 (MemoryMapSize a) < need ->
    (orig a s).1 = (EFI_BUFFER_TOO_SMALL,
      a <| MemoryMapSize := Some need |> <| DescriptorSize := Some ds |>);
  cm_fill a s : is_Some (MemoryMapSize a) -> is_Some (DescriptorSize a) ->
    is_Some (MemoryMap a) -> need <= default 0 (MemoryMapSize a) ->
    (orig a s).1.1 = EFI_SUCCESS /\ DescriptorSize (orig a s).1.2 = Some ds /\
    holds (MemoryMap (orig a s).1.2) (MemoryMapSize (orig a s).1.2) ds m;
  cm_keeps a : keeps (lget (A := hide_state)) (orig a);
  cm_fits : zlen m * ds <= need;
}.

Lemma core_filled need ds m `{!CoreMap need ds m} a s cap buf :
  MemoryMapSize a = Some cap -> is_Some (DescriptorSize a) -> MemoryMap a = Some buf ->
  need <= cap < 2 ^ 64 -> 40 <= ds < 2 ^ 64 -> extent_ok (lget s) ->
  Forall (desc_ok (mKeepHighStart (lget s))) m ->
  filled a s (orig a s).1.2 (orig a s).2 ds m.
Proof.
  intros Ha Hd Hb Hc Hds He Hm.
  destruct (cm_fill a s) as (E1 & E2 & E3); [by rewrite Ha | done | by rewrite Hb | rewrite Ha; cbn; lia |].
  pose proof (cm_keeps a s) as Ek. pose proof cm_fits. pose proof (zlen_nonneg m).
  split; try done; rewrite ?Ek; try done.
  - rewrite <- E1. by destruct (orig a s) as [[? ?] ?].
  - rewrite Ha. cbn. unfold in_w. lia.
  - unfold in_w. nia.
Qed.

Lemma wrapped_small need ds m `{!CoreMap need ds m} a s :
  is_Some (MemoryMapSize a) -> is_Some (DescriptorSize a) ->
  MemoryMap a = None \/ default 0 (MemoryMapSize a) < need ->
  0 <= need -> 40 <= ds -> need + ds < 2 ^ 64 ->
  MemoryMapSize (NwoasWrappedGetMemoryMap orig a s).1.2 =
    Some (if mKeepHighStart (lget s) <? mKeepHighEnd (lget s) then need + ds else need).
Proof.
  intros Ha Hd Hsm Hn H40 Hov. unfold NwoasWrappedGetMemoryMap.
  cbv beta iota zeta delta [mbind M_bind]. rewrite (cm_small a s Ha Hd Hsm). cbn [fst snd].
  cbn [lgets fst snd]. unfold id. rewrite (cm_keeps a s).
  cbn [MemoryMapSize DescriptorSize MemoryMap default]. rewrite !bool_decide_eq_true_2 by done.
  rewrite Z.eqb_refl. change sizeof_EFI_MEMORY_DESCRIPTOR with 40. rewrite (proj2 (Z.leb_le 40 ds)) by done.
  cbn [andb]. change MAX_UINT64 with (2 ^ 64 - 1). destruct (_ <? mKeepHighEnd _).
  - rewrite (wrap_small 64 (2 ^ 64 - 1 - ds)) by (unfold in_w; lia).
    rewrite (proj2 (Z.ltb_ge _ _)) by lia. rewrite (wrap_small 64 (need + ds)) by (unfold in_w; lia). done.
  - change (EFI_ERROR EFI_BUFFER_TOO_SMALL) with true. done.
Qed.

Lemma retry_spec need ds m `{!CoreMap need ds m} a s sz :
  is_Some (MemoryMapSize a) -> is_Some (DescriptorSize a) -> in_w 64 (default 0 (MemoryMapSize a)) ->
  0 <= need -> 40 <= ds -> need + 2 * ds < 2 ^ 64 -> extent_ok (lget s) ->
  Forall (desc_ok (mKeepHighStart (lget s))) m ->
  (NwoasWrappedGetMemoryMap orig a s).1.1 = EFI_BUFFER_TOO_SMALL ->
  MemoryMapSize (NwoasWrappedGetMemoryMap orig a s).1.2 = Some sz ->
  need <= sz <= need + ds /\ (mKeepHighStart (lget s) < mKeepHighEnd (lget s) -> zlen m * ds + ds <= sz).
Proof.
  intros Ha Hd Hcap Hn H40 Hov He Hm Est Esz. pose proof cm_fits.
  assert (Hcase : (MemoryMap a = None \/ default 0 (MemoryMapSize a) < need) \/
    exists buf, MemoryMap a = Some buf /\ need <= default 0 (MemoryMapSize a)).
  { destruct (MemoryMap a) as [buf|]; [| by left; left].
    destruct (Z.lt_ge_cases (default 0 (MemoryMapSize a)) need); [left; by right | right; by exists buf]. }
  destruct Hcase as [Hsm | (buf & Hb & Hge)].
  - rewrite (wrapped_small need ds m a s Ha Hd Hsm) in Esz by lia. injection Esz as <-.
    destruct (Z.ltb_spec (mKeepHighStart (lget s)) (mKeepHighEnd (lget s))); lia.
  - destruct Ha as [cap Ha]. rewrite Ha in *. cbn [default] in *.
    pose proof (core_filled need ds m a s cap buf Ha Hd Hb (conj Hge (proj2 Hcap)) ltac:(lia) He Hm) as Hf.
    pose proof (wrapped_fill _ _ _ _ _ _ Hf) as Hw.
    destruct (NwoasWrappedGetMemoryMap orig a s) as [[st a'] s']. cbn [fst snd] in *. subst st.
    destruct Hw as (_ & _ & _ & [[? _] | (_ & _ & Hw)]); [done |].
    destruct (Hw eq_refl) as (_ & E & Hr). rewrite Ha in Hr. cbn [default] in Hr. rewrite Esz in E.
    injection E as ->. lia.
Qed.
End wrapper_spec.

(** ** ReadyToBoot and the calls after it *)

Section boot.
Context {S node : Type} `{H : !Lens S hide_state} (KEEP : Z) (pf : hide_platform S node).

(** The firmware functions leave the driver's variables alone; the boot
    arguments are words. *)
Class HideEnv : Prop := {
  he_core a : keeps (lget (A := hide_state)) (core_GetMemoryMap pf a);
  he_read a : keeps (lget (A := hide_state)) (MmioRead64 pf a);
  he_write a v : keeps (lget (A := hide_state)) (MmioWrite64 pf a v);
  he_delay n : keeps (lget (A := hide_state)) (MicroSecondDelay pf n);
  he_args : keeps (lget (A := hide_state)) (boot_args pf);
  he_words s : in_w 64 (boot_args pf s).1.1 /\ in_w 64 (boot_args pf s).1.2;
}.

(** After [NwoasHideHighRamDxeInitialize]: nothing is hidden, the table points
    to the core. *)
Definition before_boot (g : hide_state) : Prop :=
  mHideDone g = false /\ GetMemoryMap (gBS g) = CoreGetMemoryMap /\
  mKeepHighStart g = 0 /\ mKeepHighEnd g = 0.

(** The keep extent is empty or the first [KEEP] bytes of a usable guest RAM. *)
Definition extent_in_ram (g : hide_state) : Prop :=
  (mKeepHighStart g = 0 /\ mKeepHighEnd g = 0) \/
  exists pb ms, usable_ram true pb ms /\ mKeepHighStart g = pb /\
    mKeepHighEnd g = pb + KEEP /\ KEEP <= ms /\ (4096 | pb) /\ (4096 | pb + KEEP).

(** After ReadyToBoot: the wrapper is installed over the core's function and the
    table's checksum is the one of the table with a zero checksum field. *)
Definition after_boot (g : hide_state) : Prop :=
  mHideDone g = true /\ mOrigGetMemoryMap g = Some CoreGetMemoryMap /\
  gBS g = mk_bs WrappedGetMemoryMap (CalculateCrc32 pf (mk_bs WrappedGetMemoryMap 0)) /\
  extent_in_ram g.

(** The stores reached by ReadyToBoot events and GetMemoryMap calls. *)
Inductive boot_reach (s0 : S) : S -> Prop :=
| br_start : boot_reach s0 s0
| br_ready s : boot_reach s0 s -> boot_reach s0 (NwoasHideHighRamOnReadyToBoot KEEP pf s).2
| br_map s a : boot_reach s0 s -> boot_reach s0 (gbs_GetMemoryMap pf a s).2.

Lemma extent_in_ram_ok g : 0 <= KEEP -> extent_in_ram g -> extent_ok g.
Proof.
  intros HK [[E1 E2] | (pb & ms & (Hpb & _ & _ & Hms & Hlim) & E1 & E2 & Hle & _ & _)]; unfold extent_ok, in_w;
    rewrite E1, E2; [lia |]. cbn [ram_size] in *. unfold NWOAS_HIDE_BASE. lia.
Qed.

Lemma backing_spec pb ms : in_w 64 pb -> in_w 64 ms ->
  NwoasGuestRamBackingPa pb ms = 0 \/
  usable_ram true pb ms /\ NwoasGuestRamBackingPa pb ms = pb + ms.
Proof.
  intros Hp Hm. unfold NwoasGuestRamBackingPa, NwoasComputeGuestRamLayout.
  change (truthy NWOAS_WINDOW_AFTER_RAM) with true.
  destruct (layout_spec pb ms true Hp Hm) as (st & -> & Hok & _).
  destruct st; try by left. right. split; [by apply Hok | done].
Qed.

Lemma keep_extent_spec pb ms h :
  0 <= KEEP -> in_w 64 pb -> in_w 64 ms -> mKeepHighStart h = 0 -> mKeepHighEnd h = 0 ->
  let h' := keep_extent KEEP pb (NwoasGuestRamBackingPa pb ms) h in
  extent_in_ram h' /\ gBS h' = gBS h /\ mHideDone h' = mHideDone h.
Proof.
  intros HK Hp Hm E1 E2. unfold keep_extent.
  destruct (_ && _) eqn:E; [| split; [by left | done]].
  bool_props. split; [right | done]. unfold in_w in *.
  destruct (backing_spec pb ms Hp Hm) as [E0 | [Hu Eb]]; [lia |]. rewrite Eb in *.
  pose proof Hu as (Hu1 & [k Hk] & _ & Hu2 & Hu3). cbn [ram_size] in *.
  rewrite (wrap_small 64 (pb + ms - pb)) in * by (unfold in_w; lia).
  exists pb, ms. cbn. rewrite wrap_small by (unfold in_w; lia).
  assert (Hd : (4096 | KEEP)) by (by apply page_mod, truthy_false).
  assert (Hpb : (4096 | pb)) by (exists (k * 4); lia).
  split_and!; try done; [lia | by apply Z.divide_add_r].
Qed.

Lemma keeps_pstate `{!HideEnv} : keeps (lget (A := hide_state)) (NwoasPstateReadyToBoot pf).
Proof.
  unfold NwoasPstateReadyToBoot. keeps_run.
  unfold nwoas_cpu_pstate_enable_p12. cbn [io_present read64 write64]. keeps_run.
  apply enable_frame; cbn; [apply he_read | apply he_write |]. intros ? ? [= <-]. apply he_delay.
Qed.

Lemma ready_spec `{!HideEnv} s : 0 <= KEEP -> before_boot (lget s) ->
  mwp (NwoasHideHighRamOnReadyToBoot KEEP pf) (fun _ s' => after_boot (lget s')) s.
Proof.
  intros HK (Hd & Hf & E1 & E2). unfold NwoasHideHighRamOnReadyToBoot. wp_go; [unfold id in *; congruence |].
  apply mwp_lmodify. intros s1 Hs1 El1. cbn in El1.
  wp_go. eapply mwp_cb; [apply keeps_pstate |]. intros _ s2 E.
  wp_go. apply mwp_iff. destruct (he_words s2) as [Hpb Hms]. pose proof (he_args s2) as E3.
  destruct (boot_args pf s2) as [[pb ms] s3]. cbn [fst snd] in *. wp_go.
  apply mwp_lmodify. intros s4 Hs4 El4. wp_go. apply mwp_lmodify. intros s5 Hs5 El5.
  assert (Eg : lget s3 = (lget s) <| mHideDone := true |>) by congruence.
  rewrite Eg in El4.
  destruct (keep_extent_spec pb ms ((lget s) <| mHideDone := true |>) HK Hpb Hms E1 E2) as (Hx & Hb & Hh).
  rewrite El4 in El5. rewrite El5. unfold after_boot, install_wrapper.
  cbn [mHideDone mOrigGetMemoryMap gBS]. rewrite Hb, Hh. cbn. rewrite Hf. done.
Qed.

(** What a GetMemoryMap call leaves alone: everything but the fill log. *)
Definition control (g : hide_state) : Z * Z * bool * option map_fn * boot_services :=
  (mKeepHighStart g, mKeepHighEnd g, mHideDone g, mOrigGetMemoryMap g, gBS g).

Lemma keeps_log l : keeps (fun s : S => control (lget s)) (lmodify (log_fill l)).
Proof.
  intros s. unfold lmodify. cbn [snd]. rewrite lget_lset. unfold log_fill. by destruct (mWrapLogged _).
Qed.

Lemma keeps_gbs `{!HideEnv} a : keeps (fun s : S => control (lget s)) (gbs_GetMemoryMap pf a).
Proof.
  assert (Hc : forall a, keeps (fun s : S => control (lget s)) (core_GetMemoryMap pf a)).
  { intros a' s. by rewrite (he_core a' s). }
  pose proof keeps_log as Hl.
  unfold gbs_GetMemoryMap, NwoasWrappedGetMemoryMap. cbv zeta. keeps_run.
Qed.

Lemma control_boot g g' : control g = control g' ->
  (before_boot g -> before_boot g') /\ (after_boot g -> after_boot g').
Proof.
  destruct g, g'. unfold control. cbn. intros [= -> -> -> -> ->]. done.
Qed.

Lemma boot_inv `{!HideEnv} s0 s : 0 <= KEEP -> before_boot (lget s0) -> boot_reach s0 s ->
  before_boot (lget s) \/ after_boot (lget s).
Proof.
  intros HK Hs0 Hr. induction Hr as [|s Hr IH|s a Hr IH]; [by left | |].
  - destruct IH as [Hb|Ha]; [right; by apply (ready_spec s HK Hb) | right].
    pose proof Ha as [Hd _]. unfold NwoasHideHighRamOnReadyToBoot. cbv delta [mbind M_bind]. cbn.
    unfold id. by rewrite Hd.
  - destruct (control_boot (lget s) (lget (gbs_GetMemoryMap pf a s).2)) as [Hb Ha].
    { symmetry. apply keeps_gbs. }
    destruct IH as [IH|IH]; [left | right]; auto.
Qed.
End boot.

(** ** Properties *)

(** [NwoasSplitMemoryMap] on a sane snapshot: on success the snapshot in the
    buffer says of every address exactly what it said before (type, virtual
    address, attributes, extension bytes), no kept free descriptor crosses the
    end of the kept range any more, and the snapshot fits the capacity; on
    every error the buffer is unchanged, and only a buffer that really lacks
    room for one more slot is called too small, with the size of one more slot
    asked for. *)
Theorem split_preserves_map KS KE Map MapBytes Capacity DescSize m :
  in_w 64 KE -> NWOAS_HIDE_BASE <= KS -> in_w 64 DescSize -> in_w 64 Capacity ->
  holds Map MapBytes DescSize m -> in_w 64 (zlen m * DescSize) -> Forall (desc_ok KS) m ->
  let '(st, Map', MapBytes', SplitCount) :=
    NwoasSplitMemoryMap KS KE Map MapBytes Capacity DescSize true in
  (st = EFI_SUCCESS /\ exists m', holds Map' MapBytes' DescSize m' /\
     (forall pa, owners m' pa = owners m pa) /\ Forall (below KS KE) m' /\
     zlen m' * DescSize <= Capacity /\ SplitCount = Some (zlen m' - zlen m)) \/
  (EFI_ERROR st = true /\ Map' = Map /\
     (st <> EFI_BUFFER_TOO_SMALL -> MapBytes' = MapBytes) /\
     (st = EFI_BUFFER_TOO_SMALL -> MapBytes' = Some (zlen m * DescSize + DescSize) /\
        Capacity < zlen m * DescSize + DescSize)).
Proof.
  intros HKE Hbase HD HC Hh Hb Hm.
  pose proof (split_spec KS KE Map MapBytes Capacity DescSize m HKE Hbase HD HC Hh Hb Hm) as Hs.
  destruct (NwoasSplitMemoryMap _ _ _ _ _ _ _) as [[[st Map'] MapBytes'] SplitCount].
  destruct Hs as [(? & m' & ? & ? & _ & ? & ? & ?) | (? & ? & ? & Hsm)]; [left | right].
  - split; [done |]. by exists m'.
  - split_and!; try done. intros E. destruct (Hsm E) as [? [_ ?]]. done.
Qed.

(** C22. After a successful core call that returned well-formed descriptors ([filled]:
    their words fit, they end inside the address space, and free RAM does not
    extend across the hide line or the keep start), [NwoasWrappedGetMemoryMap] leaves
    MapKey, the descriptor size and version as the core returned them, and with success
    the caller's snapshot says of every address what the core's said, except
    that free RAM at or above 4 GiB and outside the kept range is reserved;
    when less than 2 GiB are free below 4 GiB nothing is hidden.  With an
    error status the buffer is exactly the core's. *)
Theorem wrapped_map_exact {S} `{!Lens S hide_state} (orig : map_args -> M S (Z * map_args))
    a s a1 s1 ds m :
  filled orig a s a1 s1 ds m ->
  let '(st, a') := (NwoasWrappedGetMemoryMap orig a s).1 in
  let g := lget s1 in
  MapKey a' = MapKey a1 /\ DescriptorSize a' = DescriptorSize a1 /\
  DescriptorVersion a' = DescriptorVersion a1 /\
  ((st = EFI_SUCCESS /\ exists m', holds (MemoryMap a') (MemoryMapSize a') ds m' /\
      forall pa, owners m' pa = seen (mKeepHighStart g) (mKeepHighEnd g) m pa) \/
   (EFI_ERROR st = true /\ MemoryMap a' = MemoryMap a1)).
Proof.
  intros Hf. pose proof (wrapped_fill orig a s a1 s1 ds m Hf) as Hw.
  destruct (NwoasWrappedGetMemoryMap orig a s) as [[st a'] s']. cbn [fst] in *.
  destruct Hw as (? & ? & ? & [? | (? & ? & _)]); split_and!; try done; [by left | by right].
Qed.

(** While the core's memory map does not change, the size that the wrapper
    asks for is enough: if a call reports a too small buffer, a call with a
    buffer of the reported size, from any store with the same keep extent, does
    not report it again. *)
Theorem wrapped_retry_suffices {S} `{!Lens S hide_state} (orig : map_args -> M S (Z * map_args))
    need ds m `{!CoreMap orig need ds m} a s sz :
  is_Some (MemoryMapSize a) -> is_Some (DescriptorSize a) -> in_w 64 (default 0 (MemoryMapSize a)) ->
  0 <= need -> 40 <= ds -> need + 2 * ds < 2 ^ 64 -> extent_ok (lget s) ->
  Forall (desc_ok (mKeepHighStart (lget s))) m ->
  (NwoasWrappedGetMemoryMap orig a s).1.1 = EFI_BUFFER_TOO_SMALL ->
  MemoryMapSize (NwoasWrappedGetMemoryMap orig a s).1.2 = Some sz ->
  forall a' buf s', MemoryMapSize a' = Some sz -> MemoryMap a' = Some buf ->
    is_Some (DescriptorSize a') -> control (lget s') = control (lget s) ->
    (NwoasWrappedGetMemoryMap orig a' s').1.1 <> EFI_BUFFER_TOO_SMALL.
Proof.
  intros Ha Hd Hcap Hn H40 Hov He Hm Est Esz a' buf s' Ha' Hb Hd' Hc Est'.
  destruct (retry_spec orig need ds m a s sz Ha Hd Hcap Hn H40 Hov He Hm Est Esz) as [Hsz Hroom].
  injection Hc as E1 E2 _ _ _.
  assert (He' : extent_ok (lget s')) by (unfold extent_ok in *; by rewrite E1, E2).
  assert (Hf : filled orig a' s' (orig a' s').1.2 (orig a' s').2 ds m).
  { apply (core_filled orig need ds m a' s' sz buf); try done; try lia. by rewrite E1. }
  pose proof (wrapped_fill orig _ _ _ _ _ _ Hf) as Hw.
  destruct (NwoasWrappedGetMemoryMap orig a' s') as [[st a2] s2]. cbn [fst] in *. subst st.
  destruct Hw as (_ & _ & _ & [[? _] | (_ & _ & Hw)]); [done |].
  destruct (Hw eq_refl) as (Hlt & _ & Hr). rewrite Ha' in Hr. cbn [default] in Hr.
  pose proof (cm_keeps orig a' s') as Ek.
  rewrite Ek, E1, E2 in Hlt. specialize (Hroom Hlt). cbn in Hr. lia.
Qed.

(** C23. Whatever ReadyToBoot events and GetMemoryMap calls happen, either the
    boot-services table still points to the core and nothing is kept or hidden,
    or exactly one installation took place: the table points to the wrapper,
    the saved pointer to the core, the checksum is that of the table with a
    zero checksum field, and the keep extent is empty or the first
    [NWOAS_HIDE_KEEP_HIGH_BYTES] bytes of a usable guest RAM, inside it and
    page aligned.  Once installed, ReadyToBoot changes nothing any more. *)
Theorem boot_map_invariant {S node} `{!Lens S hide_state} KEEP (pf : hide_platform S node)
    `{!HideEnv pf} s0 s :
  0 <= KEEP -> before_boot (lget s0) -> boot_reach KEEP pf s0 s ->
  (before_boot (lget s) /\ forall a, gbs_GetMemoryMap pf a s = core_GetMemoryMap pf a s) \/
  (after_boot KEEP pf (lget s) /\
     (forall a, gbs_GetMemoryMap pf a s = NwoasWrappedGetMemoryMap (core_GetMemoryMap pf) a s) /\
     NwoasHideHighRamOnReadyToBoot KEEP pf s = (tt, s)).
Proof.
  intros HK Hs0 Hr. destruct (boot_inv KEEP pf s0 s HK Hs0 Hr) as [Hb|Ha]; [left | right].
  - split; [done |]. intros a. destruct Hb as (_ & Hf & _). unfold gbs_GetMemoryMap.
    cbv delta [mbind M_bind]. cbn. unfold id. by rewrite Hf.
  - split; [done |]. destruct Ha as (Hd & _ & Hg & _). split.
    + intros a. unfold gbs_GetMemoryMap. cbv delta [mbind M_bind]. cbn. unfold id. by rewrite Hg.
    + unfold NwoasHideHighRamOnReadyToBoot. cbv delta [mbind M_bind]. cbn. unfold id. by rewrite Hd.
Qed.

(** ** The properties at work *)

Definition demo_store : Type := hide_state * unit.
#[export] Instance demo_lens : Lens demo_store hide_state := lens_fst.
Definition demo_keep : Z := 0x280000000.

(** A map with 2 GiB of free RAM in the low window, a runtime range and the
    guest RAM of the log quoted in [NwoasGuestRam.h]. *)
Definition demo_map : list EFI_MEMORY_DESCRIPTOR :=
  [ mk_desc 7 0 0 0x80000 0xf [1]; mk_desc 6 0x80000000 0 0x100 0xf [2];
    mk_desc 7 demo_pb 0 0x2A4530 0xf [3] ].

Definition demo_core_map (a : map_args) : M demo_store (Z * map_args) :=
  match MemoryMapSize a, DescriptorSize a with
  | Some cap, Some _ =>
      match MemoryMap a with
      | Some buf =>
          if cap <? 144 then
            mret (EFI_BUFFER_TOO_SMALL, a <| MemoryMapSize := Some 144 |> <| DescriptorSize := Some 48 |>)
          else
            mret (EFI_SUCCESS, mk_args (Some 144) (Some (demo_map ++ drop 3 buf)) (Some 7) (Some 48) (Some 1))
      | None =>
          mret (EFI_BUFFER_TOO_SMALL, a <| MemoryMapSize := Some 144 |> <| DescriptorSize := Some 48 |>)
      end
  | _, _ => mret (EFI_INVALID_PARAMETER, a)
  end.

#[export] Instance demo_core_ok : CoreMap demo_core_map 144 48 demo_map.
Proof.
  split.
  - intros a s [cap Ec] [d Ed] H. unfold demo_core_map. rewrite Ec, Ed in *. cbn in H.
    destruct (MemoryMap a); [| done]. destruct H as [?|H]; [done |].
    by rewrite (proj2 (Z.ltb_lt cap 144)).
  - intros a s [cap Ec] [d Ed] [buf Eb] H. unfold demo_core_map. rewrite Ec, Ed, Eb in *. cbn in H.
    rewrite (proj2 (Z.ltb_ge cap 144)) by done. split; [done |]. split; [done |]. by exists (drop 3 buf).
  - intros a s. unfold demo_core_map.
    destruct (MemoryMapSize a), (DescriptorSize a); try done.
    destruct (MemoryMap a); [| done]. by destruct (_ <? _).
  - done.
Qed.

Definition demo_hide : hide_state :=
  mk_hide demo_pb (demo_pb + demo_keep) true (Some CoreGetMemoryMap) false (mk_bs WrappedGetMemoryMap 0) [].
Definition demo_s : demo_store := (demo_hide, tt).

Lemma demo_extent : extent_ok (lget demo_s).
Proof. split; [by split | by intros _]. Qed.

Ltac demo_desc := split; [by split | by split | by split | by apply Z.leb_le | |]; intros; by apply Z.leb_le.
Lemma demo_map_sane : Forall (desc_ok demo_pb) demo_map.
Proof.
  constructor; [| constructor; [| constructor; [| done]]].
  - demo_desc.
  - demo_desc.
  - split; [by split | by split | by split | by apply Z.leb_le | |]; intros _ H; by vm_compute in H.
Qed.

Definition demo_small : map_args := mk_args (Some 0) None (Some 0) (Some 0) (Some 0).
Definition demo_full : map_args := mk_args (Some 192) (Some (demo_map ++ [mk_desc 0 0 0 0 0 []])) (Some 0) (Some 0) (Some 0).

Lemma demo_holds :
  holds (MemoryMap (demo_core_map demo_full demo_s).1.2) (MemoryMapSize (demo_core_map demo_full demo_s).1.2)
    48 demo_map.
Proof. by exists [mk_desc 0 0 0 0 0 []]. Qed.

Lemma demo_keep_w : in_w 64 (demo_pb + demo_keep). Proof. by split. Qed.
Lemma demo_base : NWOAS_HIDE_BASE <= demo_pb. Proof. by apply Z.leb_le. Qed.
Lemma demo_48 : in_w 64 48. Proof. by split. Qed.
Lemma demo_192 : in_w 64 192. Proof. by split. Qed.
Lemma demo_bytes : in_w 64 (zlen demo_map * 48). Proof. by split. Qed.

Lemma demo_filled :
  filled demo_core_map demo_full demo_s (demo_core_map demo_full demo_s).1.2 demo_s 48 demo_map.
Proof.
  split; [done | done | done | by split | exact demo_holds | by split | exact demo_extent | exact demo_map_sane].
Qed.

Lemma split_preserves_map_witness :
  let '(st, Map', MapBytes', SplitCount) :=
    NwoasSplitMemoryMap demo_pb (demo_pb + demo_keep) (MemoryMap (demo_core_map demo_full demo_s).1.2)
      (MemoryMapSize (demo_core_map demo_full demo_s).1.2) 192 48 true in
  (st = EFI_SUCCESS /\ exists m', holds Map' MapBytes' 48 m' /\
     (forall pa, owners m' pa = owners demo_map pa) /\ Forall (below demo_pb (demo_pb + demo_keep)) m' /\
     zlen m' * 48 <= 192 /\ SplitCount = Some (zlen m' - zlen demo_map)) \/
  (EFI_ERROR st = true /\ Map' = MemoryMap (demo_core_map demo_full demo_s).1.2 /\
     (st <> EFI_BUFFER_TOO_SMALL -> MapBytes' = MemoryMapSize (demo_core_map demo_full demo_s).1.2) /\
     (st = EFI_BUFFER_TOO_SMALL -> MapBytes' = Some (zlen demo_map * 48 + 48) /\
        192 < zlen demo_map * 48 + 48)).
Proof.
  exact (split_preserves_map demo_pb (demo_pb + demo_keep) _ _ 192 48 demo_map
    demo_keep_w demo_base
    demo_48 demo_192 demo_holds demo_bytes demo_map_sane).
Defined.

Lemma wrapped_map_exact_witness :
  let '(st, a') := (NwoasWrappedGetMemoryMap demo_core_map demo_full demo_s).1 in
  MapKey a' = Some 7 /\ DescriptorSize a' = Some 48 /\ DescriptorVersion a' = Some 1 /\
  ((st = EFI_SUCCESS /\ exists m', holds (MemoryMap a') (MemoryMapSize a') 48 m' /\
      forall pa, owners m' pa = seen demo_pb (demo_pb + demo_keep) demo_map pa) \/
   (EFI_ERROR st = true /\ MemoryMap a' = MemoryMap (demo_core_map demo_full demo_s).1.2)).
Proof. exact (wrapped_map_exact demo_core_map _ _ _ _ _ _ demo_filled). Defined.

(** The wrapper's success on the example: the guest RAM is split. *)
Lemma demo_wrapped :
  (NwoasWrappedGetMemoryMap demo_core_map demo_full demo_s).1.1 = EFI_SUCCESS /\
  (Type_ <$> default [] (MemoryMap (NwoasWrappedGetMemoryMap demo_core_map demo_full demo_s).1.2)) =
    [7; 6; 7; 0].
Proof. vm_compute. done. Qed.

Lemma demo_retry_size :
  (NwoasWrappedGetMemoryMap demo_core_map demo_small demo_s).1.1 = EFI_BUFFER_TOO_SMALL /\
  MemoryMapSize (NwoasWrappedGetMemoryMap demo_core_map demo_small demo_s).1.2 = Some 192.
Proof. vm_compute. done. Qed.

Lemma demo_cap : in_w 64 (default 0 (MemoryMapSize demo_small)). Proof. by split. Qed.
Lemma demo_need : 0 <= 144. Proof. lia. Qed.
Lemma demo_ds : 40 <= 48. Proof. lia. Qed.
Lemma demo_room : 144 + 2 * 48 < 2 ^ 64. Proof. lia. Qed.

Lemma wrapped_retry_suffices_witness :
  (NwoasWrappedGetMemoryMap demo_core_map demo_full demo_s).1.1 <> EFI_BUFFER_TOO_SMALL.
Proof.
  exact (wrapped_retry_suffices demo_core_map 144 48 demo_map demo_small demo_s 192
    (mk_is_Some _ 0 eq_refl) (mk_is_Some _ 0 eq_refl) demo_cap demo_need demo_ds demo_room
    demo_extent demo_map_sane (proj1 demo_retry_size) (proj2 demo_retry_size)
    demo_full _ demo_s eq_refl eq_refl (mk_is_Some _ 0 eq_refl) eq_refl).
Defined.

(** A platform whose firmware functions answer constants. *)
Definition demo_pf : hide_platform demo_store unit := {|
  core_GetMemoryMap := demo_core_map;
  CalculateCrc32 b := if decide (GetMemoryMap b = CoreGetMemoryMap) then 1 else 2;
  pf_dt_get _ := Some tt;
  pf_dt_prop _ _ := Some [0x03; 0x81; 0; 0];
  MmioRead64 _ := mret 0x7007;
  MmioWrite64 _ _ := mret tt;
  MicroSecondDelay _ := mret tt;
  boot_args := mret (demo_pb, demo_ms);
  CreateReadyToBootEvent := mret EFI_SUCCESS;
|}.

#[export] Instance demo_hide_env : HideEnv demo_pf.
Proof. split; try done. intros a. exact (cm_keeps demo_core_map a). Qed.

Definition demo_start : demo_store :=
  (mk_hide 0 0 false None false (mk_bs CoreGetMemoryMap 1) [], tt).
Definition demo_booted : demo_store := (NwoasHideHighRamOnReadyToBoot demo_keep demo_pf demo_start).2.
Lemma demo_booted_at : mKeepHighEnd (lget demo_booted) = demo_pb + demo_keep /\ mHideDone (lget demo_booted) = true.
Proof. vm_compute. done. Qed.

Lemma demo_before : before_boot (lget demo_start).
Proof. done. Qed.
Lemma demo_keep_pos : 0 <= demo_keep. Proof. done. Qed.

Lemma boot_map_invariant_witness :
  NwoasHideHighRamOnReadyToBoot demo_keep demo_pf demo_booted = (tt, demo_booted).
Proof.
  destruct (boot_map_invariant demo_keep demo_pf demo_start demo_booted demo_keep_pos demo_before
    (br_ready demo_keep demo_pf demo_start demo_start (br_start _ _ _))) as [[[Hd _] _] | (_ & _ & H)].
  - exfalso. rewrite (proj2 demo_booted_at) in Hd. discriminate Hd.
  - exact H.
Defined.
