(* ===== verification/DartTranslate.v ===== *)
(** * Putting DART stream 1 into translate mode ([usb-s175/s175_dart1_translate.c])

    The callbacks act on an arbitrary store; the caller-allocated result is
    threaded as a value.  The flush wait is a loop with fuel, one more than its
    time-out; [flush_fuel] shows that this is always enough.  The theorems
    cover which registers are written and when, and that on storage registers
    the procedure is a transaction. *)

From S2P Require Import Prelude.

(** ** Constants ([s175_dart1_translate.h]) *)

Definition S175_XHCI_BASE : Z := 0x502280000.
Definition S175_DART1_BASE : Z := 0x502f80000.
Definition S175_SID : Z := 1.
Definition S175_DART_STREAM_COMMAND : Z := 0x20.
Definition S175_DART_STREAM_COMMAND_BUSY : Z := 1 .<< 2.
Definition S175_DART_STREAM_COMMAND_INVAL : Z := 1 .<< 20.
Definition S175_DART_STREAM_SELECT : Z := 0x34.
Definition S175_DART_ERROR : Z := 0x40.
Definition S175_DART_ERROR_ADDR_LO : Z := 0x50.
Definition S175_DART_ERROR_ADDR_HI : Z := 0x54.
Definition S175_DART_CONFIG : Z := 0x60.
Definition S175_DART_CONFIG_LOCK : Z := 1 .<< 15.
Definition S175_DART_ENABLED_STREAMS : Z := 0xfc.
Definition S175_DART_TCR (sid : Z) : Z := 0x100 + 4 * sid.
Definition S175_DART_TCR_TRANSLATE : Z := 1 .<< 7.
Definition S175_DART_TCR_BYPASS_DART : Z := 1 .<< 8.
Definition S175_DART_TTBR (sid n : Z) : Z := 0x200 + 16 * sid + 4 * n.
Definition S175_DART_TTBR_VALID : Z := 1 .<< 31.
Definition S175_DART_TTBR_ADDR_MASK : Z := 0x7fffffff.
Definition S175_DART_TTBR_SHIFT : Z := 12.
Definition S175_DART_L1_TABLE_BYTES : Z := 0x4000.
Definition S175_FLUSH_TIMEOUT_US : Z := 100.

Definition D (off : Z) : Z := u64 (S175_DART1_BASE + off).
Definition ENABLED_BIT : Z := u32 (1 .<< S175_SID).

Record s175_ops (S : Type) := {
  read32 : option (Z -> M S Z);
  write32 : option (Z -> Z -> M S unit);
  dsb : option (M S unit);
  delay_us : option (Z -> M S unit);
  table_in_range : option (Z -> Z -> M S bool);
}.
#[global] Arguments read32 {S} _. #[global] Arguments write32 {S} _. #[global] Arguments dsb {S} _.
#[global] Arguments delay_us {S} _. #[global] Arguments table_in_range {S} _.

(** The callbacks after [ops_valid]. *)
Record dart_io (S : Type) := mk_dart_io {
  rd : Z -> M S Z;
  wr : Z -> Z -> M S unit;
  barrier : M S unit;
  delay : Z -> M S unit;
  in_range : Z -> Z -> M S bool;
}.
#[global] Arguments mk_dart_io {S} _ _ _ _ _. #[global] Arguments rd {S} _. #[global] Arguments wr {S} _.
#[global] Arguments barrier {S} _. #[global] Arguments delay {S} _. #[global] Arguments in_range {S} _.

Inductive s175_status :=
| S175_OK
| S175_ERR_BAD_ARGS
| S175_ERR_XHC_CAPLEN
| S175_ERR_XHC_NOT_HALTED
| S175_ERR_SOURCE_INVALID
| S175_ERR_LOCKED
| S175_ERR_FLUSH_BUSY
| S175_ERR_READBACK.

Inductive s175_restore :=
| S175_RESTORE_NOT_ATTEMPTED
| S175_RESTORE_OK
| S175_RESTORE_SKIPPED_XHC_RUNNING
| S175_RESTORE_FAILED_READBACK
| S175_RESTORE_FLUSH_BUSY.

Record s175_snapshot := mk_snap {
  config : Z;
  enabled_streams : Z;
  tcr : Z;
  ttbr : list Z;
  error : Z;
  error_lo : Z;
  error_hi : Z;
  usbcmd : Z;
  usbsts : Z;
}.

Record s175_result := mk_result {
  status : s175_status;
  restore : s175_restore;
  wrote_anything : bool;
  before : s175_snapshot;
  after : s175_snapshot;
  tcr_programmed : Z;
  flush_wait_us : Z;
  restore_flush_wait_us : Z;
  mismatch_reg : Z;
  mismatch_expected : Z;
  mismatch_observed : Z;
}.
#[export] Instance result_eta : Eta s175_result := fun r =>
  mk_result (status r) (restore r) (wrote_anything r) (before r) (after r) (tcr_programmed r)
    (flush_wait_us r) (restore_flush_wait_us r) (mismatch_reg r) (mismatch_expected r) (mismatch_observed r).

Definition s175_translate_tcr (baseline : Z) : Z :=
  (baseline .& cnot 32 S175_DART_TCR_BYPASS_DART) .| S175_DART_TCR_TRANSLATE.

(** ** The procedure ([s175_dart1_translate.c]) *)

Definition ops_valid {S} (o : option (s175_ops S)) : option (dart_io S) :=
  match o with
  | Some o =>
      match read32 o, write32 o, dsb o, delay_us o, table_in_range o with
      | Some r, Some w, Some b, Some d, Some t => Some (mk_dart_io r w b d t)
      | _, _, _, _, _ => None
      end
  | None => None
  end.

Section dart.
Context {S : Type} (o : dart_io S).

(** The loops over the four TTBR registers. *)
Definition TTBRS : list Z := [0; 1; 2; 3].

Fixpoint read_ttbrs (ns : list Z) : M S (list Z) :=
  match ns with
  | [] => mret []
  | n :: ns =>
      v ← rd o (D (S175_DART_TTBR S175_SID n));
      vs ← read_ttbrs ns;
      mret (v :: vs)
  end.

Fixpoint write_ttbrs (n : Z) (vs : list Z) : M S unit :=
  match vs with
  | [] => mret tt
  | v :: vs => wr o (D (S175_DART_TTBR S175_SID n)) v;; write_ttbrs (n + 1) vs
  end.

Definition snap (op : Z) : M S s175_snapshot :=
  config ← rd o (D S175_DART_CONFIG);
  enabled ← rd o (D S175_DART_ENABLED_STREAMS);
  tcr ← rd o (D (S175_DART_TCR S175_SID));
  ttbr ← read_ttbrs TTBRS;
  error ← rd o (D S175_DART_ERROR);
  lo ← rd o (D S175_DART_ERROR_ADDR_LO);
  hi ← rd o (D S175_DART_ERROR_ADDR_HI);
  usbcmd ← rd o (u64 (op + 0x00));
  usbsts ← rd o (u64 (op + 0x04));
  mret (mk_snap config enabled tcr ttbr error lo hi usbcmd usbsts).

Definition xhci_op_base : M S Z :=
  c ← rd o S175_XHCI_BASE;
  let caplen := c .& 0xff in
  if (caplen =? 0) || (caplen =? 0xff) then mret 0 else mret (u64 (S175_XHCI_BASE + caplen)).

Definition xhc_halted (op : Z) : M S bool :=
  usbcmd ← rd o (u64 (op + 0x00));
  usbsts ← rd o (u64 (op + 0x04));
  mret (negb (truthy (usbcmd .& 1)) && truthy (usbsts .& 1)).

(** The wait: whether BUSY cleared, and the time spent. *)
Fixpoint flush_loop (fuel : nat) (spent : Z) : M S (bool * Z) :=
  match fuel with
  | O => mret (false, spent)
  | Datatypes.S fuel =>
      c ← rd o (D S175_DART_STREAM_COMMAND);
      if negb (truthy (c .& S175_DART_STREAM_COMMAND_BUSY)) then mret (true, spent)
      else if S175_FLUSH_TIMEOUT_US <=? spent then mret (false, spent)
      else
        delay o 1;;
        flush_loop fuel (u32 (spent + 1))
  end.

Definition flush_sid : M S (bool * Z) :=
  wr o (D S175_DART_STREAM_SELECT) ENABLED_BIT;;
  wr o (D S175_DART_STREAM_COMMAND) S175_DART_STREAM_COMMAND_INVAL;;
  barrier o;;
  flush_loop 101 0.

Definition note_mismatch (r : s175_result) (reg expected observed : Z) : s175_result :=
  mk_result (status r) (restore r) (wrote_anything r) (before r) (after r) (tcr_programmed r)
    (flush_wait_us r) (restore_flush_wait_us r) reg expected observed.

(** The first TTBR that reads back differently, from register [n] on. *)
Fixpoint verify_ttbrs (n : Z) (vs : list Z) (r : s175_result) : M S (bool * s175_result) :=
  match vs with
  | [] => mret (true, r)
  | t :: vs =>
      v ← rd o (D (S175_DART_TTBR S175_SID n));
      if negb (v =? t) then mret (false, note_mismatch r n t v) else verify_ttbrs (n + 1) vs r
  end.

Definition verify (ttbr : list Z) (tcr : Z) (want_enabled : bool) (r : s175_result) :
    M S (bool * s175_result) :=
  p ← verify_ttbrs 0 ttbr r;
  let '(ok, r) := p in
  if negb ok then mret (false, r)
  else
    t ← rd o (D (S175_DART_TCR S175_SID));
    if negb (t =? tcr) then mret (false, note_mismatch r 4 tcr t)
    else
      e ← rd o (D S175_DART_ENABLED_STREAMS);
      let en := e .& ENABLED_BIT in
      let want := if want_enabled then ENABLED_BIT else 0 in
      if negb (en =? want) then mret (false, note_mismatch r 5 want en) else mret (true, r).

(** The guarded write of ENABLED_STREAMS. *)
Definition write_enabled (needed : bool) (want : Z) : M S unit :=
  if needed then wr o (D S175_DART_ENABLED_STREAMS) want else mret tt.

Definition note_restore_wait (r : s175_result) (w : Z) : s175_result :=
  mk_result (status r) (restore r) (wrote_anything r) (before r) (after r) (tcr_programmed r)
    (flush_wait_us r) w (mismatch_reg r) (mismatch_expected r) (mismatch_observed r).

Definition restore_sid1 (op : Z) (r : s175_result) : M S (s175_restore * s175_result) :=
  let b := before r in
  h ← xhc_halted op;
  if negb h then mret (S175_RESTORE_SKIPPED_XHC_RUNNING, r)
  else
    write_ttbrs 0 (ttbr b);;
    wr o (D (S175_DART_TCR S175_SID)) (tcr b);;
    en ← rd o (D S175_DART_ENABLED_STREAMS);
    let want := (en .& cnot 32 ENABLED_BIT) .| (enabled_streams b .& ENABLED_BIT) in
    write_enabled (negb (want =? en)) want;;
    barrier o;;
    f ← flush_sid;
    let r := note_restore_wait r f.2 in
    if negb f.1 then mret (S175_RESTORE_FLUSH_BUSY, r)
    else
      v ← verify (ttbr b) (tcr b) (truthy (enabled_streams b .& ENABLED_BIT)) r;
      if negb v.1 then mret (S175_RESTORE_FAILED_READBACK, v.2) else mret (S175_RESTORE_OK, v.2).

Definition note_status (r : s175_result) (st : s175_status) : s175_result :=
  mk_result st (restore r) (wrote_anything r) (before r) (after r) (tcr_programmed r)
    (flush_wait_us r) (restore_flush_wait_us r) (mismatch_reg r) (mismatch_expected r) (mismatch_observed r).
Definition note_after (r : s175_result) (s : s175_snapshot) : s175_result :=
  mk_result (status r) (restore r) (wrote_anything r) (before r) s (tcr_programmed r)
    (flush_wait_us r) (restore_flush_wait_us r) (mismatch_reg r) (mismatch_expected r) (mismatch_observed r).
Definition note_restore (r : s175_result) (x : s175_restore) : s175_result :=
  mk_result (status r) x (wrote_anything r) (before r) (after r) (tcr_programmed r)
    (flush_wait_us r) (restore_flush_wait_us r) (mismatch_reg r) (mismatch_expected r) (mismatch_observed r).

Definition finish (op : Z) (r : s175_result) (st : s175_status) : M S s175_result :=
  let r := note_status r st in
  if wrote_anything r then s ← snap op; mret (note_after r s) else mret r.

(** The source validation, from register [n] on. *)
Fixpoint source_valid (n : Z) (src : list Z) : M S bool :=
  match src with
  | [] => mret true
  | t :: src =>
      if t =? 0 then (if n =? 0 then mret false else source_valid (n + 1) src)
      else if negb (truthy (t .& S175_DART_TTBR_VALID)) then mret false
      else
        let pa := u64 ((t .& S175_DART_TTBR_ADDR_MASK) .<< S175_DART_TTBR_SHIFT) in
        ok ← in_range o pa S175_DART_L1_TABLE_BYTES;
        if negb ok then mret false else source_valid (n + 1) src
  end.

Definition snap_zero : s175_snapshot := mk_snap 0 0 0 [0; 0; 0; 0] 0 0 0 0 0.
Definition result_zero : s175_result :=
  mk_result S175_OK S175_RESTORE_NOT_ATTEMPTED false snap_zero snap_zero 0 0 0 (-1) 0 0.

(** The failure path after the writes began. *)
Definition give_back (op : Z) (r : s175_result) (st : s175_status) : M S s175_result :=
  p ← restore_sid1 op r;
  finish op (note_restore p.2 p.1) st.

(** The part after the writes began; [r] is the result so far. *)
Definition program_sid1 (op : Z) (src_ttbr : list Z) (b : s175_snapshot) : M S s175_result :=
  let tcr_new := s175_translate_tcr (tcr b) in
  write_ttbrs 0 src_ttbr;;
  write_enabled (negb (truthy (enabled_streams b .& ENABLED_BIT))) (enabled_streams b .| ENABLED_BIT);;
  barrier o;;
  wr o (D (S175_DART_TCR S175_SID)) tcr_new;;
  barrier o;;
  f ← flush_sid;
  let r := mk_result S175_OK S175_RESTORE_NOT_ATTEMPTED true b snap_zero tcr_new f.2 0 (-1) 0 0 in
  if negb f.1 then give_back op r S175_ERR_FLUSH_BUSY
  else
    v ← verify src_ttbr tcr_new true r;
    if negb v.1 then give_back op v.2 S175_ERR_READBACK else finish op v.2 S175_OK.

(** The part after the argument checks. *)
Definition translate_sid1 (src_ttbr : list Z) : M S s175_result :=
  op ← xhci_op_base;
  if op =? 0 then mret (note_status result_zero S175_ERR_XHC_CAPLEN)
  else
    h ← xhc_halted op;
    if negb h then mret (note_status result_zero S175_ERR_XHC_NOT_HALTED)
    else
      ok ← source_valid 0 src_ttbr;
      if negb ok then mret (note_status result_zero S175_ERR_SOURCE_INVALID)
      else
        b ← snap op;
        if truthy (config b .& S175_DART_CONFIG_LOCK) then
          mret (mk_result S175_ERR_LOCKED S175_RESTORE_NOT_ATTEMPTED false b snap_zero 0 0 0 (-1) 0 0)
        else program_sid1 op src_ttbr b.
End dart.

(** The status and [*r] ([None]: the result pointer is NULL). *)
Definition s175_dart1_sid1_translate {S} (o : option (s175_ops S)) (src_ttbr : option (list Z))
    (r : bool) : M S (s175_status * option s175_result) :=
  if negb r then mret (S175_ERR_BAD_ARGS, None)
  else
    match ops_valid o, src_ttbr with
    | Some io, Some src => r ← translate_sid1 io src; mret (status r, Some r)
    | _, _ => mret (S175_ERR_BAD_ARGS, Some (note_status result_zero S175_ERR_BAD_ARGS))
    end.

Definition s175_status_str (s : s175_status) : list Z :=
  match s with
  | S175_OK => chars "OK"
  | S175_ERR_BAD_ARGS => chars "ERR_BAD_ARGS"
  | S175_ERR_XHC_CAPLEN => chars "ERR_XHC_CAPLEN"
  | S175_ERR_XHC_NOT_HALTED => chars "ERR_XHC_NOT_HALTED"
  | S175_ERR_SOURCE_INVALID => chars "ERR_SOURCE_INVALID"
  | S175_ERR_LOCKED => chars "ERR_LOCKED"
  | S175_ERR_FLUSH_BUSY => chars "ERR_FLUSH_BUSY"
  | S175_ERR_READBACK => chars "ERR_READBACK"
  end.

Definition s175_restore_str (r : s175_restore) : list Z :=
  match r with
  | S175_RESTORE_NOT_ATTEMPTED => chars "RESTORE_NOT_ATTEMPTED"
  | S175_RESTORE_OK => chars "RESTORE_OK"
  | S175_RESTORE_SKIPPED_XHC_RUNNING => chars "RESTORE_SKIPPED_XHC_RUNNING"
  | S175_RESTORE_FAILED_READBACK => chars "RESTORE_FAILED_READBACK"
  | S175_RESTORE_FLUSH_BUSY => chars "RESTORE_FLUSH_BUSY"
  end.

(** ** Register accesses *)

Inductive dart_event := Rd (a v : Z) | Wr (a v : Z) | Barrier | Delay (us : Z).
Definition is_write (e : dart_event) : bool := match e with Wr _ _ => true | _ => false end.

(** [events] lists what is done through the callbacks. *)
Class DartEnv {S} (o : dart_io S) (events : S -> list dart_event) : Prop := {
  de_rd a s : events (rd o a s).2 = events s ++ [Rd a (rd o a s).1] /\ in_w 32 (rd o a s).1;
  de_wr a v s : events (wr o a v s).2 = events s ++ [Wr a v];
  de_barrier s : events (barrier o s).2 = events s ++ [Barrier];
  de_delay n s : events (delay o n s).2 = events s ++ [Delay n];
  de_range pa n : keeps events (in_range o pa n);
}.

(** The writes the procedure may make: [src] are the new TTBR values, [b] the
    snapshot taken before, [e] the value last read from ENABLED_STREAMS. *)
Definition write_ok (src : list Z) (b : s175_snapshot) (e a v : Z) : Prop :=
  (exists i, (i < 4)%nat /\ a = D (S175_DART_TTBR S175_SID (Z.of_nat i)) /\
     (src !! i = Some v \/ ttbr b !! i = Some v)) \/
  (a = D (S175_DART_TCR S175_SID) /\ (v = s175_translate_tcr (tcr b) \/ v = tcr b)) \/
  (a = D S175_DART_ENABLED_STREAMS /\ forall i, 0 <= i -> i <> 1 -> Z.testbit v i = Z.testbit e i) \/
  (a = D S175_DART_STREAM_SELECT /\ v = ENABLED_BIT) \/
  (a = D S175_DART_STREAM_COMMAND /\ v = S175_DART_STREAM_COMMAND_INVAL).

Definition last_enabled (e : Z) (ev : dart_event) : Z :=
  match ev with
  | Rd a v => if a =? D S175_DART_ENABLED_STREAMS then v else e
  | _ => e
  end.

(** [programming src b e evs]: a log with permitted writes only, where [e] was
    last read from ENABLED_STREAMS before it. *)
Inductive programming (src : list Z) (b : s175_snapshot) : Z -> list dart_event -> Prop :=
| pr_nil e : programming src b e []
| pr_write e a v evs : write_ok src b e a v -> programming src b e evs ->
    programming src b e (Wr a v :: evs)
| pr_other e ev evs : is_write ev = false -> programming src b (last_enabled e ev) evs ->
    programming src b e (ev :: evs).

Lemma programming_app src b e xs ys :
  programming src b e xs -> programming src b (fold_left last_enabled xs e) ys ->
  programming src b e (xs ++ ys).
Proof. intros Hx. induction Hx; cbn; intros Hy; [done | |]; constructor; auto. Qed.

Section discipline.
Context {S : Type} (o : dart_io S) (events : S -> list dart_event) `{!DartEnv o events}.

(** From [s] to [s'] at most [k] events, none of them a write, among them [l]. *)
Definition quiet (k : Z) (l : list dart_event) (s s' : S) : Prop :=
  exists evs, events s' = events s ++ evs /\ Forall (fun e => is_write e = false) evs /\ zlen evs <= k /\
    l ⊆ evs.

(** From [s] to [s'] at most [k] events with permitted writes; [e] and [e'] are
    the values last read from ENABLED_STREAMS. *)
Definition steps (src : list Z) (b : s175_snapshot) (k e : Z) (s : S) (e' : Z) (s' : S) : Prop :=
  exists evs, events s' = events s ++ evs /\ programming src b e evs /\
    fold_left last_enabled evs e = e' /\ zlen evs <= k.

Lemma quiet_refl s : quiet 0 [] s s.
Proof. exists []. by rewrite app_nil_r. Qed.

Lemma quiet_trans j k l1 l2 s1 s2 s3 : quiet j l1 s1 s2 -> quiet k l2 s2 s3 -> quiet (j + k) (l1 ++ l2) s1 s3.
Proof.
  intros (e1 & E1 & H1 & L1 & I1) (e2 & E2 & H2 & L2 & I2). exists (e1 ++ e2).
  rewrite zlen_app. split_and!; [by rewrite E2, E1, app_assoc | by apply Forall_app | lia | set_solver].
Qed.

Lemma quiet_le j k l1 l2 s s' : quiet j l1 s s' -> j <= k -> l2 ⊆ l1 -> quiet k l2 s s'.
Proof. intros (e & E & H & L & I) Hk Hl. exists e. split_and!; [done | done | lia | set_solver]. Qed.

Lemma quiet_keep s s' : events s' = events s -> quiet 0 [] s s'.
Proof. exists []. rewrite app_nil_r. done. Qed.

Lemma steps_trans src b j k e1 e2 e3 s1 s2 s3 :
  steps src b j e1 s1 e2 s2 -> steps src b k e2 s2 e3 s3 -> steps src b (j + k) e1 s1 e3 s3.
Proof.
  intros (x & E1 & H1 & F1 & L1) (y & E2 & H2 & F2 & L2). subst. exists (x ++ y).
  rewrite zlen_app. split_and!; [by rewrite E2, E1, app_assoc | by apply programming_app | by rewrite fold_left_app | lia].
Qed.

Lemma steps_quiet src b k l e s s' : quiet k l s s' -> exists e', steps src b k e s e' s'.
Proof.
  intros (evs & E & H & L & _). eexists. exists evs. split_and!; [done | | reflexivity | done].
  clear E L. revert e. induction H; intros e; by constructor.
Qed.

(** One access at a time. *)
Lemma mwp_rd a (Q : Z -> S -> Prop) s :
  (forall v s', in_w 32 v -> events s' = events s ++ [Rd a v] -> quiet 1 [Rd a v] s s' -> Q v s') -> mwp (rd o a) Q s.
Proof.
  intros HQ. apply mwp_iff. destruct (de_rd a s) as [E Hv]. apply HQ; [done | done |].
  exists [Rd a (rd o a s).1]. split_and!; [done | by repeat constructor | done | done].
Qed.

Lemma mwp_wr src b e a v (Q : unit -> S -> Prop) s : write_ok src b e a v ->
  (forall s', steps src b 1 e s e s' -> Q tt s') -> mwp (wr o a v) Q s.
Proof.
  intros Hok HQ. apply mwp_iff. destruct (wr o a v s) as [[] s'] eqn:E. apply HQ.
  exists [Wr a v]. split_and!; [| apply pr_write; [done | constructor] | done | done].
  rewrite <- de_wr, E. done.
Qed.

Lemma mwp_barrier (Q : unit -> S -> Prop) s : (forall s', quiet 1 [] s s' -> Q tt s') -> mwp (barrier o) Q s.
Proof.
  intros HQ. apply mwp_iff. destruct (barrier o s) as [[] s'] eqn:E. apply HQ.
  exists [Barrier]. split_and!; [| by repeat constructor | done | set_solver]. by rewrite <- de_barrier, E.
Qed.

Lemma mwp_delay n (Q : unit -> S -> Prop) s : (forall s', quiet 1 [] s s' -> Q tt s') -> mwp (delay o n) Q s.
Proof.
  intros HQ. apply mwp_iff. destruct (delay o n s) as [[] s'] eqn:E. apply HQ.
  exists [Delay n]. split_and!; [| by repeat constructor | done | set_solver]. by rewrite <- de_delay, E.
Qed.

(** Chains of quiet steps: the counts add up, the events accumulate. *)
Ltac quiet_chain :=
  cbv beta in *;
  match goal with
  | |- quiet _ _ ?s ?s => eapply quiet_le; [apply quiet_refl | try lia | set_solver]
  | Q : quiet _ _ ?s ?s' |- quiet _ _ ?s ?s' => eapply quiet_le; [exact Q | try lia | set_solver]
  end.
Ltac quiet_join :=
  cbv beta in *;
  match goal with
  | Q : quiet _ _ ?s ?s1, Q' : quiet _ _ ?s1 ?s2 |- _ =>
      let H := fresh "Q" in pose proof (quiet_trans _ _ _ _ _ _ _ Q Q') as H; clear Q Q'
  end.

Lemma flush_loop_spec n t s :
  mwp (flush_loop o n t) (fun _ s' => quiet (2 * Z.of_nat n) [] s s') s.
Proof.
  revert t s. induction n as [|n IH]; intros t s; cbn [flush_loop]; [wp_go; by quiet_chain |].
  wp_go. apply mwp_rd. intros c s1 _ _ Q1. wp_go; [quiet_chain | quiet_chain |].
  apply mwp_delay. intros s2 Q2. wp_go. eapply mwp_mono; [apply IH |]. intros ? s3 Q3.
  quiet_join. quiet_join. quiet_chain.
Qed.

Lemma read_ttbrs_spec ns s :
  mwp (read_ttbrs o ns) (fun vs s' => quiet (zlen ns) [] s s' /\ length vs = length ns) s.
Proof.
  revert s. induction ns as [|n ns IH]; intros s; cbn [read_ttbrs]; [wp_go; by split; [quiet_chain |] |].
  wp_go. apply mwp_rd. intros v s1 _ _ Q1. wp_go. eapply mwp_mono; [apply IH |]. intros vs s2 [Q2 L]. wp_go.
  rewrite zlen_cons. split; [quiet_join; quiet_chain | cbn; lia].
Qed.

Lemma snap_spec op s :
  mwp (snap o op) (fun b s' =>
    quiet 12 [Rd (D S175_DART_CONFIG) (config b); Rd (D S175_DART_ENABLED_STREAMS) (enabled_streams b)] s s' /\
    length (ttbr b) = 4%nat /\ in_w 32 (enabled_streams b)) s.
Proof.
  unfold snap. wp_go. apply mwp_rd. intros cf s1 _ _ Q1. wp_go. apply mwp_rd. intros en s2 Hen _ Q2.
  wp_go. apply mwp_rd. intros t s3 _ _ Q3. wp_go. eapply mwp_mono; [apply read_ttbrs_spec |].
  intros vs s4 [Q4 L]. change (zlen TTBRS) with 4 in Q4.
  do 3 (wp_go; apply mwp_rd; intros ? ? _ _ ?Q).
  do 2 (wp_go; apply mwp_rd; intros ? ? _ _ ?Q). wp_go.
  split; [| by split]. do 8 quiet_join. quiet_chain.
Qed.

Lemma xhc_halted_spec op s :
  mwp (xhc_halted o op) (fun h s' => exists c st,
    quiet 2 [Rd (u64 (op + 0)) c; Rd (u64 (op + 4)) st] s s' /\
    (h = true -> Z.testbit c 0 = false /\ Z.testbit st 0 = true)) s.
Proof.
  unfold xhc_halted. wp_go. apply mwp_rd. intros c s1 _ _ Q1. wp_go. apply mwp_rd. intros st s2 _ _ Q2. wp_go.
  exists c, st. split; [quiet_join; quiet_chain |]. rewrite !truthy_bit0. intros Hh. by bool_hyps.
Qed.

Lemma xhci_op_base_spec s :
  mwp (xhci_op_base o) (fun op s' => quiet 1 [] s s' /\
    (op <> 0 -> S175_XHCI_BASE < op < S175_XHCI_BASE + 0xff)) s.
Proof.
  unfold xhci_op_base. wp_go. apply mwp_rd. intros c s1 Hc _ Q1. wp_go.
  - split; [quiet_chain | done].
  - split; [quiet_chain |]. bool_props. change 0xff with (2 ^ 8 - 1) in *. rewrite land_ones_mod in * by lia.
    unfold S175_XHCI_BASE. rewrite wrap_small by (unfold in_w; dlia). dlia.
Qed.

Lemma source_valid_spec n src s :
  mwp (source_valid o n src) (fun _ s' => quiet 0 [] s s') s.
Proof.
  revert n s. induction src as [|t src IH]; intros n s; cbn [source_valid]; [wp_go; quiet_chain |].
  wp_go; try quiet_chain; [apply IH |].
  eapply mwp_cb; [apply (de_range (events := events)) |]. intros ok s1 E. pose proof (quiet_keep _ _ E) as Q1.
  wp_go; [quiet_chain |]. eapply mwp_mono; [apply IH |]. intros ? s2 Q2. quiet_join. quiet_chain.
Qed.

(** What the later stages keep of the result so far. *)
Definition same_core (r r' : s175_result) : Prop :=
  wrote_anything r' = wrote_anything r /\ before r' = before r /\ tcr_programmed r' = tcr_programmed r.

Lemma verify_ttbrs_spec n vs r s :
  mwp (verify_ttbrs o n vs r) (fun p s' => quiet (zlen vs) [] s s' /\ same_core r p.2) s.
Proof.
  revert n s. induction vs as [|t vs IH]; intros n s; cbn [verify_ttbrs]; [wp_go; by split; [quiet_chain |] |].
  wp_go. apply mwp_rd. intros v s1 _ _ Q1. rewrite zlen_cons. pose proof (zlen_nonneg vs). wp_go.
  - by split; [quiet_chain |].
  - eapply mwp_mono; [apply IH |]. intros p s2 [Q2 Hc]. split; [quiet_join; quiet_chain | done].
Qed.

Lemma verify_spec vs t want r s : length vs = 4%nat ->
  mwp (verify o vs t want r) (fun p s' => quiet 6 [] s s' /\ same_core r p.2) s.
Proof.
  intros L. unfold verify. wp_go. eapply mwp_mono; [apply verify_ttbrs_spec |].
  intros [ok r1] s1 [Q1 Hc]. cbn [snd] in Hc. unfold zlen in Q1. rewrite L in Q1.
  change (Z.of_nat 4) with 4 in Q1. wp_go; [by split; [quiet_chain |] |].
  apply mwp_rd. intros v s2 _ _ Q2. quiet_join. wp_go; [by split; [quiet_chain |] |].
  apply mwp_rd. intros w s3 _ _ Q3. quiet_join. wp_go; by split; [quiet_chain |].
Qed.

Lemma write_ttbrs_spec src b e n vs s :
  (forall i v, vs !! i = Some v -> write_ok src b e (D (S175_DART_TTBR S175_SID (n + Z.of_nat i))) v) ->
  mwp (write_ttbrs o n vs) (fun _ s' => steps src b (zlen vs) e s e s') s.
Proof.
  revert n s. induction vs as [|t vs IH]; intros n s Hok; cbn [write_ttbrs].
  { wp_go. exists []. rewrite app_nil_r. split_and!; try done. constructor. }
  wp_go. apply (mwp_wr src b e).
  { specialize (Hok 0%nat t eq_refl). by rewrite Z.add_0_r in Hok. }
  intros s1 T1. wp_go. eapply mwp_mono; [apply IH |].
  - intros i v Hi. specialize (Hok (Datatypes.S i) v Hi).
    by replace (n + 1 + Z.of_nat i) with (n + Z.of_nat (Datatypes.S i)) by lia.
  - intros ? s2 T2. rewrite zlen_cons. replace (zlen vs + 1) with (1 + zlen vs) by lia.
    by eapply steps_trans.
Qed.

(** The registers of [src] and [b] may be written back at any time. *)
Lemma ttbr_ok src b e vs : length vs = 4%nat -> vs = src \/ vs = ttbr b ->
  forall i v, vs !! i = Some v -> write_ok src b e (D (S175_DART_TTBR S175_SID (0 + Z.of_nat i))) v.
Proof.
  intros L Hvs i v Hi. left. exists i. pose proof (lookup_lt_Some _ _ _ Hi) as Hlt. rewrite L in Hlt.
  split; [done |]. rewrite Z.add_0_l. split; [done |]. destruct Hvs as [<- | ->]; auto.
Qed.

Lemma flush_sid_spec src b e s :
  mwp (flush_sid o) (fun _ s' => exists e', steps src b 205 e s e' s') s.
Proof.
  unfold flush_sid. wp_go. apply (mwp_wr src b e); [by right; right; right; left |]. intros s1 T1.
  wp_go. apply (mwp_wr src b e); [by right; right; right; right |]. intros s2 T2.
  wp_go. apply mwp_barrier. intros s3 Q3. wp_go. eapply mwp_mono; [apply flush_loop_spec |].
  intros ? s4 Q4. quiet_join. change (1 + 2 * Z.of_nat 101) with 203 in Q.
  destruct (steps_quiet src b _ _ e _ _ Q) as [e' T]. exists e'.
  exact (steps_trans src b 1 204 e e e' _ _ _ T1 (steps_trans src b 1 203 e e e' _ _ _ T2 T)).
Qed.

Lemma steps_le src b j k e e' s s' : steps src b j e s e' s' -> j <= k -> steps src b k e s e' s'.
Proof. intros (x & ? & ? & ? & ?) ?. exists x. split_and!; try done. lia. Qed.

(** Giving the ENABLED bit back changes no other bit. *)
Lemma want_bits en eb i : in_w 32 en -> 0 <= i -> i <> 1 ->
  Z.testbit ((en .& cnot 32 ENABLED_BIT) .| (eb .& ENABLED_BIT)) i = Z.testbit en i.
Proof.
  intros Hen Hi Hn. change ENABLED_BIT with (2 ^ 1).
  rewrite Z.lor_spec, !Z.land_spec, testbit_cnot, testbit_pow2_eqb by lia.
  rewrite (proj2 (Z.eqb_neq i 1)) by done. cbn [negb]. rewrite andb_false_r, orb_false_r, andb_true_r.
  destruct (Z.ltb_spec i 32); [by rewrite andb_true_r |]. by rewrite (testbit_in_w 32 en) by (done || lia).
Qed.

Lemma write_enabled_spec src b e needed v s :
  (forall i, 0 <= i -> i <> 1 -> Z.testbit v i = Z.testbit e i) ->
  mwp (write_enabled o needed v) (fun _ s' => steps src b 1 e s e s') s.
Proof.
  intros Hv. unfold write_enabled. wp_go.
  - apply (mwp_wr src b e); [by right; right; left | done].
  - exists []. rewrite app_nil_r. split_and!; try done. constructor.
Qed.

Lemma restore_spec src op r e s :
  length (ttbr (before r)) = 4%nat ->
  mwp (restore_sid1 o op r) (fun p s' => (exists e', steps src (before r) 222 e s e' s') /\ same_core r p.2) s.
Proof.
  intros L. set (b := before r) in *. unfold restore_sid1. fold b. wp_go.
  eapply mwp_mono; [apply xhc_halted_spec |].
  intros h s1 (c & st & Q1 & _). destruct (steps_quiet src b _ _ e _ _ Q1) as [e1 T1]. wp_go.
  { split; [exists e1; by eapply steps_le | done]. }
  eapply mwp_mono; [apply (write_ttbrs_spec src b e1), ttbr_ok; auto |]. intros ? s2 T2.
  unfold zlen in T2. rewrite L in T2. change (Z.of_nat 4) with 4 in T2.
  pose proof (steps_trans _ _ _ _ _ _ _ _ _ _ T1 T2) as T12. wp_go.
  apply (mwp_wr src b e1); [right; left; auto |]. intros s3 T3.
  pose proof (steps_trans _ _ _ _ _ _ _ _ _ _ T12 T3) as T13. wp_go.
  apply mwp_rd. intros en s4 Hen E4 _.
  assert (T4 : steps src b 1 e1 s3 en s4).
  { exists [Rd (D S175_DART_ENABLED_STREAMS) en]. split_and!; [done | repeat constructor | done | done]. }
  pose proof (steps_trans _ _ _ _ _ _ _ _ _ _ T13 T4) as T14. wp_go.
  eapply mwp_mono; [apply (write_enabled_spec src b en) |].
  { intros i Hi Hn. by apply want_bits. }
  intros ? s5 T5. cbv beta in T5.
  pose proof (steps_trans _ _ _ _ _ _ _ _ _ _ T14 T5) as T15. wp_go.
  apply mwp_barrier. intros s6 Q6. destruct (steps_quiet src b _ _ en _ _ Q6) as [e6 T6].
  pose proof (steps_trans _ _ _ _ _ _ _ _ _ _ T15 T6) as T16. wp_go.
  eapply mwp_mono; [apply (flush_sid_spec src b e6) |]. intros f s7 [e7 T7].
  pose proof (steps_trans _ _ _ _ _ _ _ _ _ _ T16 T7) as T17. wp_go.
  { split; [exists e7; eapply steps_le; [exact T17 | lia] | done]. }
  eapply mwp_mono; [apply (verify_spec _ _ _ _ _ L) |]. intros v s8 [Q8 Hc].
  destruct (steps_quiet src b _ _ e7 _ _ Q8) as [e8 T8].
  pose proof (steps_trans _ _ _ _ _ _ _ _ _ _ T17 T8) as T18.
  wp_go; (split; [exists e8; eapply steps_le; [exact T18 | lia] | exact Hc]).
Qed.

Lemma finish_spec op r st s :
  mwp (finish o op r st) (fun r' s' => quiet 12 [] s s' /\ same_core r r' /\ status r' = st) s.
Proof.
  unfold finish. wp_go; [| by split_and!; [quiet_chain | | ]].
  eapply mwp_mono; [apply snap_spec |]. intros b s1 (Q1 & _ & _). wp_go. by split; [quiet_chain |].
Qed.

Lemma give_back_spec src op r st e s :
  length (ttbr (before r)) = 4%nat ->
  mwp (give_back o op r st) (fun r' s' =>
    (exists e', steps src (before r) 234 e s e' s') /\ same_core r r' /\ status r' = st) s.
Proof.
  intros L. unfold give_back. wp_go. eapply mwp_mono; [by apply (restore_spec src op r e) |].
  intros p s1 [[e1 T1] Hc]. wp_go. eapply mwp_mono; [apply finish_spec |]. intros r' s2 (Q2 & Hc' & Hst).
  destruct (steps_quiet src (before r) _ _ e1 _ _ Q2) as [e2 T2].
  split_and!; [exists e2; exact (steps_trans _ _ _ _ _ _ _ _ _ _ T1 T2) | | done].
  destruct Hc as (C1 & C2 & C3), Hc' as (D1 & D2 & D3). unfold same_core.
  rewrite D1, D2, D3. cbn. by rewrite C1, C2, C3.
Qed.

Lemma program_spec src b op s :
  length src = 4%nat -> length (ttbr b) = 4%nat -> in_w 32 (enabled_streams b) ->
  mwp (program_sid1 o op src b) (fun r s' =>
    (exists e', steps src b 453 (enabled_streams b) s e' s') /\
    wrote_anything r = true /\ before r = b /\ tcr_programmed r = s175_translate_tcr (tcr b)) s.
Proof.
  intros L Lb Hen. set (e := enabled_streams b). unfold program_sid1. fold e. wp_go.
  eapply mwp_mono; [apply (write_ttbrs_spec src b e), ttbr_ok; auto |]. intros ? s1 T1.
  unfold zlen in T1. rewrite L in T1. change (Z.of_nat 4) with 4 in T1. wp_go.
  eapply mwp_mono; [apply (write_enabled_spec src b e) |].
  { intros i Hi Hn. change ENABLED_BIT with (2 ^ 1). rewrite Z.lor_spec, testbit_pow2_eqb by lia.
    by rewrite (proj2 (Z.eqb_neq i 1)), orb_false_r. }
  intros ? s2 T2. cbv beta in T2.
  pose proof (steps_trans _ _ _ _ _ _ _ _ _ _ T1 T2) as T12. wp_go.
  apply mwp_barrier. intros s3 Q3. destruct (steps_quiet src b _ _ e _ _ Q3) as [e3 T3].
  pose proof (steps_trans _ _ _ _ _ _ _ _ _ _ T12 T3) as T13. wp_go.
  apply (mwp_wr src b e3); [right; left; auto |]. intros s4 T4.
  pose proof (steps_trans _ _ _ _ _ _ _ _ _ _ T13 T4) as T14. wp_go.
  apply mwp_barrier. intros s5 Q5. destruct (steps_quiet src b _ _ e3 _ _ Q5) as [e5 T5].
  pose proof (steps_trans _ _ _ _ _ _ _ _ _ _ T14 T5) as T15. wp_go.
  eapply mwp_mono; [apply (flush_sid_spec src b e5) |]. intros f s6 [e6 T6].
  pose proof (steps_trans _ _ _ _ _ _ _ _ _ _ T15 T6) as T16. wp_go.
  { eapply mwp_mono; [by apply (give_back_spec src) |]. intros r s7 ([e7 T7] & (C1 & C2 & C3) & _).
    split; [| by rewrite C1, C2, C3]. exists e7. eapply steps_le; [exact (steps_trans _ _ _ _ _ _ _ _ _ _ T16 T7) | lia]. }
  eapply mwp_mono; [apply (verify_spec _ _ _ _ _ L) |]. intros v s7 [Q7 (C1 & C2 & C3)].
  destruct (steps_quiet src b _ _ e6 _ _ Q7) as [e7 T7].
  pose proof (steps_trans _ _ _ _ _ _ _ _ _ _ T16 T7) as T17. wp_go.
  - eapply mwp_mono; [apply (give_back_spec src _ _ _ e7); by rewrite C2 |].
    intros r s8 ([e8 T8] & (C1' & C2' & C3') & _). rewrite C2 in T8.
    split; [| by rewrite C1', C2', C3', C1, C2, C3]. exists e8.
    eapply steps_le; [exact (steps_trans _ _ _ _ _ _ _ _ _ _ T17 T8) | lia].
  - eapply mwp_mono; [apply finish_spec |]. intros r s8 (Q8 & (C1' & C2' & C3') & _).
    destruct (steps_quiet src b _ _ e7 _ _ Q8) as [e8 T8].
    split; [| by rewrite C1', C2', C3', C1, C2, C3]. exists e8.
    eapply steps_le; [exact (steps_trans _ _ _ _ _ _ _ _ _ _ T17 T8) | lia].
Qed.

(** The reads that allowed the writes: the xHC halted, the DART unlocked. *)
Definition permission (b : s175_snapshot) (checks : list dart_event) : Prop :=
  exists op c st, S175_XHCI_BASE < op < S175_XHCI_BASE + 0xff /\
    Rd op c ∈ checks /\ Z.testbit c 0 = false /\
    Rd (op + 4) st ∈ checks /\ Z.testbit st 0 = true /\
    Rd (D S175_DART_CONFIG) (config b) ∈ checks /\ Z.testbit (config b) 15 = false /\
    Rd (D S175_DART_ENABLED_STREAMS) (enabled_streams b) ∈ checks.

Definition disciplined (src : list Z) (r : s175_result) (s s' : S) : Prop :=
  exists checks writes, events s' = events s ++ checks ++ writes /\
    Forall (fun e => is_write e = false) checks /\ zlen (checks ++ writes) <= 468 /\
    if wrote_anything r
    then permission (before r) checks /\ programming src (before r) (enabled_streams (before r)) writes /\
         tcr_programmed r = s175_translate_tcr (tcr (before r))
    else writes = [] /\ status r <> S175_OK /\ restore r = S175_RESTORE_NOT_ATTEMPTED.

Lemma quiet_disciplined src r k l s s' :
  quiet k l s s' -> k <= 468 -> wrote_anything r = false -> status r <> S175_OK ->
  restore r = S175_RESTORE_NOT_ATTEMPTED -> disciplined src r s s'.
Proof.
  intros (evs & E & H & L & _) Hk Hw Hst Hr. exists evs, []. rewrite app_nil_r, Hw.
  split_and!; try done. lia.
Qed.

Lemma translate_spec src s : length src = 4%nat ->
  mwp (translate_sid1 o src) (fun r s' => disciplined src r s s') s.
Proof.
  intros L. unfold translate_sid1. wp_go. eapply mwp_mono; [apply xhci_op_base_spec |].
  intros op s1 [Q1 Hop]. wp_go; [by eapply quiet_disciplined; [exact Q1 | ..] |].
  apply Z.eqb_neq in H. specialize (Hop H). eapply mwp_mono; [apply xhc_halted_spec |].
  intros h s2 (c & st & Q2 & Hh). quiet_join. wp_go; [by eapply quiet_disciplined; [exact Q | ..] |].
  apply negb_false_iff in H0. subst h. destruct (Hh eq_refl) as [Hc Hst].
  eapply mwp_mono; [apply source_valid_spec |]. intros ok s3 Q3. quiet_join.
  wp_go; [by eapply quiet_disciplined; [exact Q0 | ..] |].
  eapply mwp_mono; [apply snap_spec |]. intros b s4 (Q4 & Lb & Hen). quiet_join.
  wp_go; [by eapply quiet_disciplined; [exact Q | ..] |].
  eapply mwp_mono; [by apply (program_spec src b op) |]. intros r s5 ([e T] & Hw & Hb & Ht).
  destruct Q as (checks & E1 & F1 & L1 & I1), T as (writes & E2 & P2 & _ & L2).
  exists checks, writes. rewrite Hw, Hb, zlen_app. split_and!; [by rewrite E2, E1, app_assoc | done | lia | | done | done].
  unfold S175_XHCI_BASE in Hop. rewrite !wrap_small in I1 by (unfold in_w; lia). rewrite Z.add_0_r in I1.
  exists op, c, st. split; [done |]. rewrite (truthy_bit 15) in H1 by done.
  split_and!; try done; apply I1; set_solver.
Qed.
End discipline.

(** ** Storage registers *)

Definition stored (a : Z) : Prop :=
  (exists n, 0 <= n < 4 /\ a = D (S175_DART_TTBR S175_SID n)) \/
  a = D (S175_DART_TCR S175_SID) \/ a = D S175_DART_ENABLED_STREAMS.

(** A DART whose TTBR, TCR and ENABLED_STREAMS registers store what is written;
    nothing is assumed of the other registers. *)
Class DartStore {S} (o : dart_io S) (reg : S -> Z -> Z) : Prop := {
  st_word s a : in_w 32 (reg s a);
  st_rd a s : stored a -> (rd o a s).1 = reg s a;
  st_rd_keeps a s r : stored r -> reg (rd o a s).2 r = reg s r;
  st_wr a v s r : stored r -> in_w 32 v -> reg (wr o a v s).2 r = if a =? r then v else reg s r;
  st_barrier s r : stored r -> reg (barrier o s).2 r = reg s r;
  st_delay n s r : stored r -> reg (delay o n s).2 r = reg s r;
  st_range pa n s r : stored r -> reg (in_range o pa n s).2 r = reg s r;
}.

Lemma truthy_enabled e : truthy (e .& ENABLED_BIT) = Z.testbit e 1.
Proof. apply (truthy_bit 1). lia. Qed.

Lemma enabled_part e : e .& ENABLED_BIT = if Z.testbit e 1 then ENABLED_BIT else 0.
Proof.
  apply Z.bits_inj'. intros i Hi. change ENABLED_BIT with (2 ^ 1).
  rewrite Z.land_spec, testbit_pow2_eqb by lia. destruct (Z.eqb_spec i 1) as [->|Hn].
  - rewrite andb_true_r. by destruct (Z.testbit e 1).
  - rewrite andb_false_r. destruct (Z.testbit e 1); [| by rewrite Z.bits_0].
    rewrite testbit_pow2_eqb by lia. by rewrite (proj2 (Z.eqb_neq i 1)).
Qed.

(** Clearing the bit that was set and putting the old one back. *)
Lemma enabled_back e en : in_w 32 e -> en = e \/ en = e .| ENABLED_BIT ->
  (en .& cnot 32 ENABLED_BIT) .| (e .& ENABLED_BIT) = e.
Proof.
  intros He Hen. apply Z.bits_inj'. intros i Hi. change ENABLED_BIT with (2 ^ 1) in *.
  rewrite Z.lor_spec, !Z.land_spec, testbit_cnot by lia.
  assert (E : i <> 1 -> Z.testbit en i = Z.testbit e i).
  { intros Hn. destruct Hen as [->| ->]; [done |]. rewrite Z.lor_spec, testbit_pow2_eqb by lia.
    by rewrite (proj2 (Z.eqb_neq i 1)), orb_false_r. }
  rewrite testbit_pow2_eqb by lia. destruct (Z.eqb_spec i 1) as [->|Hn].
  - change (1 <? 32) with true. cbn [negb andb]. by rewrite andb_false_r, andb_true_r.
  - rewrite E by done. cbn [negb]. rewrite andb_false_r, orb_false_r, andb_true_r.
    destruct (Z.ltb_spec i 32); [apply andb_true_r |]. by rewrite (testbit_in_w 32 e) by (done || lia).
Qed.

Section store.
Context {S : Type} (o : dart_io S) (reg : S -> Z -> Z) `{!DartStore o reg}.

(** The six registers. *)
Definition file (s : S) : list Z * Z * Z :=
  ([reg s (D (S175_DART_TTBR S175_SID 0)); reg s (D (S175_DART_TTBR S175_SID 1));
    reg s (D (S175_DART_TTBR S175_SID 2)); reg s (D (S175_DART_TTBR S175_SID 3))],
   reg s (D (S175_DART_TCR S175_SID)), reg s (D S175_DART_ENABLED_STREAMS)).

Lemma stored_ttbr n : 0 <= n < 4 -> stored (D (S175_DART_TTBR S175_SID n)).
Proof. left. by exists n. Qed.
Lemma stored_tcr : stored (D (S175_DART_TCR S175_SID)). Proof. right. by left. Qed.
Lemma stored_enabled : stored (D S175_DART_ENABLED_STREAMS). Proof. right. by right. Qed.
Hint Resolve stored_ttbr stored_tcr stored_enabled : core.

Lemma file_eq s s' : (forall r, stored r -> reg s' r = reg s r) -> file s' = file s.
Proof. intros E. unfold file. rewrite !E; auto; apply stored_ttbr; lia. Qed.

Lemma file_rd a : keeps file (rd o a).
Proof. intros s. apply file_eq. intros r Hr. by apply st_rd_keeps. Qed.
Lemma file_barrier : keeps file (barrier o).
Proof. intros s. apply file_eq. intros r Hr. by apply st_barrier. Qed.
Lemma file_delay n : keeps file (delay o n).
Proof. intros s. apply file_eq. intros r Hr. by apply st_delay. Qed.
Lemma file_range pa n : keeps file (in_range o pa n).
Proof. intros s. apply file_eq. intros r Hr. by apply st_range. Qed.

Ltac addr_eqs :=
  repeat match goal with
  | |- context [(?a =? ?b)%Z] =>
      let v := eval vm_compute in (a =? b)%Z in
      match v with true => idtac | false => idtac end; change (a =? b)%Z with v; cbv iota
  end.

Lemma file_command a v : in_w 32 v ->
  a = D S175_DART_STREAM_SELECT \/ a = D S175_DART_STREAM_COMMAND -> keeps file (wr o a v).
Proof.
  intros Hv [-> | ->] s; unfold file; rewrite !(st_wr _ v s) by (auto; apply stored_ttbr; lia); addr_eqs; done.
Qed.

Lemma file_flush_loop n t : keeps file (flush_loop o n t).
Proof.
  pose proof file_rd. pose proof file_delay.
  revert t. induction n as [|n IH]; intros t; cbn [flush_loop]; keeps_run.
Qed.

Lemma file_flush : keeps file (flush_sid o).
Proof.
  pose proof file_barrier. pose proof file_flush_loop.
  unfold flush_sid. apply keeps_bind; [by apply file_command; auto |]. intros _.
  apply keeps_bind; [by apply file_command; auto |]. intros _. keeps_run.
Qed.

Lemma file_halted op : keeps file (xhc_halted o op).
Proof. pose proof file_rd. unfold xhc_halted. keeps_run. Qed.

Lemma file_op_base : keeps file (xhci_op_base o).
Proof. pose proof file_rd. unfold xhci_op_base. cbv zeta. keeps_run. Qed.

Lemma file_source n src : keeps file (source_valid o n src).
Proof.
  pose proof file_range. revert n. induction src as [|t src IH]; intros n; cbn [source_valid]; cbv zeta; keeps_run.
Qed.

Lemma mwp_rd_stored a (Q : Z -> S -> Prop) s : stored a ->
  (forall s', file s' = file s -> Q (reg s a) s') -> mwp (rd o a) Q s.
Proof. intros Ha HQ. apply mwp_iff. rewrite st_rd by done. apply HQ, file_rd. Qed.

Lemma file_snap op s :
  mwp (snap o op) (fun b s' => file s' = file s /\ (ttbr b, tcr b, enabled_streams b) = file s) s.
Proof.
  unfold snap. wp_go. eapply mwp_cb; [apply file_rd |]. intros cf s1 E1.
  wp_go. apply mwp_rd_stored; [done |]. intros s2 E2.
  wp_go. apply mwp_rd_stored; [done |]. intros s3 E3.
  unfold TTBRS. cbn [read_ttbrs].
  wp_go. apply mwp_rd_stored; [apply stored_ttbr; lia |]. intros s4 E4.
  wp_go. apply mwp_rd_stored; [apply stored_ttbr; lia |]. intros s5 E5.
  wp_go. apply mwp_rd_stored; [apply stored_ttbr; lia |]. intros s6 E6.
  wp_go. apply mwp_rd_stored; [apply stored_ttbr; lia |]. intros s7 E7.
  do 5 (wp_go; eapply mwp_cb; [apply file_rd |]; intros ? ? ?E). wp_go.
  split; [congruence |]. cbn [ttbr tcr enabled_streams].
  rewrite E1 in E2. rewrite E2 in E3. rewrite E3 in E4. rewrite E4 in E5. rewrite E5 in E6.
  unfold file in E1, E2, E3, E4, E5, E6 |- *. congruence.
Qed.

(** One access in terms of the file [(ttbr, tcr, enabled)]. *)
Lemma mwp_rd_ttbr n a b c d t e v (Q : Z -> S -> Prop) s :
  file s = ([a; b; c; d], t, e) -> [a; b; c; d] !! Z.to_nat n = Some v -> 0 <= n < 4 ->
  (forall s', file s' = ([a; b; c; d], t, e) -> Q v s') -> mwp (rd o (D (S175_DART_TTBR S175_SID n))) Q s.
Proof.
  intros Ef Hv Hn HQ. apply mwp_rd_stored; [by apply stored_ttbr |]. intros s' E.
  replace (reg s (D (S175_DART_TTBR S175_SID n))) with v by
    (unfold file in Ef; injection Ef as ? ? ? ?; assert (n = 0 \/ n = 1 \/ n = 2 \/ n = 3) as Hc by lia;
     destruct Hc as [-> | [-> | [-> | ->]]]; cbv in Hv; congruence).
  apply HQ. by rewrite E.
Qed.

Lemma mwp_rd_tcr l t e (Q : Z -> S -> Prop) s : file s = (l, t, e) ->
  (forall s', file s' = (l, t, e) -> Q t s') -> mwp (rd o (D (S175_DART_TCR S175_SID))) Q s.
Proof.
  intros Ef HQ. apply mwp_rd_stored; [done |]. intros s' E. rewrite Ef in E. injection Ef as _ <- _. by apply HQ.
Qed.

Lemma mwp_rd_enabled l t e (Q : Z -> S -> Prop) s : file s = (l, t, e) ->
  (forall s', file s' = (l, t, e) -> Q e s') -> mwp (rd o (D S175_DART_ENABLED_STREAMS)) Q s.
Proof.
  intros Ef HQ. apply mwp_rd_stored; [done |]. intros s' E. rewrite Ef in E. injection Ef as _ _ <-. by apply HQ.
Qed.

Lemma mwp_wr_ttbr n v l t e (Q : unit -> S -> Prop) s :
  file s = (l, t, e) -> in_w 32 v -> 0 <= n < 4 ->
  (forall s', file s' = (<[Z.to_nat n := v]> l, t, e) -> Q tt s') ->
  mwp (wr o (D (S175_DART_TTBR S175_SID n)) v) Q s.
Proof.
  intros Ef Hv Hn HQ. apply mwp_iff.
  assert (E : file (wr o (D (S175_DART_TTBR S175_SID n)) v s).2 = (<[Z.to_nat n := v]> l, t, e)).
  { unfold file in *. injection Ef as <- <- <-. rewrite !st_wr by (auto; apply stored_ttbr; lia).
    assert (n = 0 \/ n = 1 \/ n = 2 \/ n = 3) as Hc by lia.
    destruct Hc as [-> | [-> | [-> | ->]]]; addr_eqs; reflexivity. }
  destruct (wr o _ v s) as [[] s']. by apply HQ.
Qed.

Lemma mwp_wr_tcr v l t e (Q : unit -> S -> Prop) s : file s = (l, t, e) -> in_w 32 v ->
  (forall s', file s' = (l, v, e) -> Q tt s') -> mwp (wr o (D (S175_DART_TCR S175_SID)) v) Q s.
Proof.
  intros Ef Hv HQ. apply mwp_iff.
  assert (E : file (wr o (D (S175_DART_TCR S175_SID)) v s).2 = (l, v, e)).
  { unfold file in *. injection Ef as <- <- <-. rewrite !st_wr by (auto; apply stored_ttbr; lia). addr_eqs. done. }
  destruct (wr o _ v s) as [[] s']. by apply HQ.
Qed.

Lemma mwp_wr_enabled v l t e (Q : unit -> S -> Prop) s : file s = (l, t, e) -> in_w 32 v ->
  (forall s', file s' = (l, t, v) -> Q tt s') -> mwp (wr o (D S175_DART_ENABLED_STREAMS) v) Q s.
Proof.
  intros Ef Hv HQ. apply mwp_iff.
  assert (E : file (wr o (D S175_DART_ENABLED_STREAMS) v s).2 = (l, t, v)).
  { unfold file in *. injection Ef as <- <- <-. rewrite !st_wr by (auto; apply stored_ttbr; lia). addr_eqs. done. }
  destruct (wr o _ v s) as [[] s']. by apply HQ.
Qed.

Lemma file_write_ttbrs a b c d a' b' c' d' t e s : Forall (in_w 32) [a; b; c; d] ->
  file s = ([a'; b'; c'; d'], t, e) ->
  mwp (write_ttbrs o 0 [a; b; c; d]) (fun _ s' => file s' = ([a; b; c; d], t, e)) s.
Proof.
  intros Hw E. repeat match goal with H : Forall _ (_ :: _) |- _ => inversion_clear H end.
  cbn [write_ttbrs].
  do 4 (wp_go; eapply mwp_wr_ttbr; [eassumption | done | lia |]; clear E; intros ? E; cbn in E).
  wp_go. exact E.
Qed.

Lemma file_verify a b c d t e (want : bool) r s :
  file s = ([a; b; c; d], t, e) -> e .& ENABLED_BIT = (if want then ENABLED_BIT else 0) ->
  mwp (verify o [a; b; c; d] t want r) (fun p s' => p = (true, r) /\ file s' = ([a; b; c; d], t, e)) s.
Proof.
  intros E He. unfold verify. cbn [verify_ttbrs].
  do 4 (wp_go; eapply mwp_rd_ttbr; [eassumption | reflexivity | lia |]; clear E; intros ? E;
    rewrite Z.eqb_refl; cbn [negb]).
  wp_go; [done |]. eapply mwp_rd_tcr; [eassumption |]. clear E. intros s1 E. rewrite Z.eqb_refl. cbn [negb].
  wp_go. eapply mwp_rd_enabled; [eassumption |]. clear E. intros s2 E. rewrite He, Z.eqb_refl. cbn [negb].
  wp_go. done.
Qed.

Lemma enabled_want e : e .& ENABLED_BIT = if truthy (e .& ENABLED_BIT) then ENABLED_BIT else 0.
Proof. rewrite truthy_enabled. apply enabled_part. Qed.

(** The registers a snapshot recorded. *)
Definition recorded (b : s175_snapshot) : list Z * Z * Z := (ttbr b, tcr b, enabled_streams b).

Lemma want_value en e0 : in_w 32 e0 -> en = e0 \/ en = e0 .| ENABLED_BIT ->
  (if negb ((en .& cnot 32 ENABLED_BIT) .| (e0 .& ENABLED_BIT) =? en)
   then (en .& cnot 32 ENABLED_BIT) .| (e0 .& ENABLED_BIT) else en) = e0.
Proof.
  intros H0 Hen. rewrite enabled_back by done. destruct (Z.eqb_spec e0 en) as [->|]; done.
Qed.

Lemma mwp_write_enabled (needed : bool) v l t e (Q : unit -> S -> Prop) s : file s = (l, t, e) -> in_w 32 v ->
  (forall s', file s' = (l, t, if needed then v else e) -> Q tt s') ->
  mwp (write_enabled o needed v) Q s.
Proof.
  intros E Hv HQ. unfold write_enabled. destruct needed; [by eapply mwp_wr_enabled |]. wp_go. by apply HQ.
Qed.

(** The restore either leaves the registers alone, because the xHC runs, or
    brings back all six, and then never reports a readback failure. *)
Lemma file_restore op r a b c d t0 e0 l t en s :
  recorded (before r) = ([a; b; c; d], t0, e0) -> Forall (in_w 32) [a; b; c; d] -> in_w 32 t0 -> in_w 32 e0 ->
  file s = (l, t, en) -> length l = 4%nat -> en = e0 \/ en = e0 .| ENABLED_BIT ->
  mwp (restore_sid1 o op r) (fun p s' => wrote_anything p.2 = wrote_anything r /\
    ((p.1 = S175_RESTORE_SKIPPED_XHC_RUNNING /\ file s' = (l, t, en)) \/
    ((p.1 = S175_RESTORE_OK \/ p.1 = S175_RESTORE_FLUSH_BUSY) /\
       file s' = ([a; b; c; d], t0, e0)))) s.
Proof.
  intros Eb Hw Ht0 He0 E L Hen. unfold recorded in Eb. injection Eb as Eb1 Eb2 Eb3.
  do 4 (destruct l as [|? l]; [done |]). destruct l; [| done].
  unfold restore_sid1. rewrite Eb1, Eb2, Eb3. wp_go.
  eapply mwp_cb; [apply file_halted |]. intros h s1 E1. rewrite E in E1. wp_go; [by split; [| left] |].
  eapply mwp_mono; [by eapply file_write_ttbrs |]. intros ? s2 E2. cbv beta in E2. wp_go.
  eapply mwp_wr_tcr; [exact E2 | done |]. intros s3 E3. wp_go.
  eapply mwp_rd_enabled; [exact E3 |]. intros s4 E4. wp_go.
  eapply mwp_write_enabled; [exact E4 | by rewrite enabled_back |].
  intros s5 E5. rewrite want_value in E5 by done. wp_go.
  eapply mwp_cb; [apply file_barrier |]. intros ? s6 E6. rewrite E5 in E6. wp_go.
  eapply mwp_cb; [apply file_flush |]. intros f s7 E7. rewrite E6 in E7. wp_go; [split; [done | right]; auto |].
  eapply mwp_mono; [eapply file_verify; [exact E7 | apply enabled_want] |].
  intros p s8 [-> E8]. cbn [fst snd negb]. wp_go. split; [done | right]. auto.
Qed.

Lemma file_finish op r st s :
  mwp (finish o op r st) (fun r' s' => file s' = file s /\ status r' = st /\ restore r' = restore r /\
    wrote_anything r' = wrote_anything r) s.
Proof.
  unfold finish. wp_go; [| done]. eapply mwp_mono; [apply file_snap |]. intros b s1 [E _]. wp_go. done.
Qed.

(** What the registers hold after the new table was programmed. *)
Definition programmed (src : list Z) (f : list Z * Z * Z) : list Z * Z * Z :=
  (src, s175_translate_tcr f.1.2, f.2 .| ENABLED_BIT).

(** How a run that wrote something ends. *)
Definition committed (src : list Z) (f0 f : list Z * Z * Z) (r : s175_result) : Prop :=
  (status r = S175_OK /\ restore r = S175_RESTORE_NOT_ATTEMPTED /\ f = programmed src f0) \/
  (status r = S175_ERR_FLUSH_BUSY /\ restore r = S175_RESTORE_SKIPPED_XHC_RUNNING /\ f = programmed src f0) \/
  (status r = S175_ERR_FLUSH_BUSY /\
     (restore r = S175_RESTORE_OK \/ restore r = S175_RESTORE_FLUSH_BUSY) /\ f = f0).

Lemma file_words s a b c d t e : file s = ([a; b; c; d], t, e) ->
  Forall (in_w 32) [a; b; c; d] /\ in_w 32 t /\ in_w 32 e.
Proof.
  intros E. unfold file in E. injection E as <- <- <- <- <- <-.
  split; [repeat (constructor; [apply st_word |]); constructor |]. split; apply st_word.
Qed.

Lemma enabled_set e : (if negb (truthy (e .& ENABLED_BIT)) then e .| ENABLED_BIT else e) = e .| ENABLED_BIT.
Proof.
  rewrite truthy_enabled. destruct (Z.testbit e 1) eqn:Et; [| done]. cbn [negb].
  apply Z.bits_inj'. intros i Hi. change ENABLED_BIT with (2 ^ 1). rewrite Z.lor_spec, testbit_pow2_eqb by lia.
  destruct (Z.eqb_spec i 1) as [->|]; [by rewrite Et | by rewrite orb_false_r].
Qed.

Lemma enabled_is_set e : (e .| ENABLED_BIT) .& ENABLED_BIT = ENABLED_BIT.
Proof.
  rewrite enabled_part. change ENABLED_BIT with (2 ^ 1) at 1. rewrite Z.lor_spec, testbit_pow2_eqb by lia.
  by rewrite Z.eqb_refl, orb_true_r.
Qed.

Lemma tcr_word t : in_w 32 t -> in_w 32 (s175_translate_tcr t).
Proof. intros Ht. unfold s175_translate_tcr. apply in_w_lor; [lia | by apply in_w_land | by split]. Qed.

Lemma file_program op src b s :
  length src = 4%nat -> Forall (in_w 32) src -> recorded b = file s ->
  mwp (program_sid1 o op src b) (fun r s' => wrote_anything r = true /\ committed src (file s) (file s') r) s.
Proof.
  intros L Hsrc Eb.
  destruct src as [|x0 [|x1 [|x2 [|x3 [|]]]]]; try discriminate L.
  destruct (file s) as [[l0 t0] e0] eqn:Ef. unfold recorded in Eb. injection Eb as Eb1 Eb2 Eb3.
  assert (exists a b c d, l0 = [a; b; c; d]) as (a0 & a1 & a2 & a3 & ->).
  { unfold file in Ef. injection Ef as <- _ _. eauto. }
  destruct (file_words s _ _ _ _ _ _ Ef) as (Hw & Ht0 & He0).
  unfold program_sid1. rewrite Eb2, Eb3. wp_go.
  eapply mwp_mono; [by eapply file_write_ttbrs |]. intros ? s1 E1. cbv beta in E1. wp_go.
  eapply mwp_write_enabled; [exact E1 | by apply in_w_lor; [lia | | by split] |].
  intros s2 E2. rewrite enabled_set in E2. wp_go.
  eapply mwp_cb; [apply file_barrier |]. intros ? s3 E3. rewrite E2 in E3. wp_go.
  eapply mwp_wr_tcr; [exact E3 | by apply tcr_word |]. intros s4 E4. wp_go.
  eapply mwp_cb; [apply file_barrier |]. intros ? s5 E5. rewrite E4 in E5. wp_go.
  eapply mwp_cb; [apply file_flush |]. intros f s6 E6. rewrite E5 in E6. wp_go.
  - unfold give_back. wp_go.
    eapply mwp_mono; [eapply file_restore; [| exact Hw | exact Ht0 | exact He0 | exact E6 | done | by right] |].
    { cbn [before]. unfold recorded. by rewrite Eb1, Eb2, Eb3. }
    intros p s7 Hp. wp_go. eapply mwp_mono; [apply file_finish |]. intros r s8 (E8 & Hst & Hr & Hwr).
    split; [by rewrite Hwr; cbn; apply Hp |]. rewrite E8. unfold committed. rewrite Hst, Hr. cbn [restore note_restore].
    right. destruct Hp as [_ [[-> ->] | [Hp ->]]]; [left | right]; done.
  - eapply mwp_mono; [by eapply file_verify; [exact E6 | apply enabled_is_set] |].
    intros p s7 [-> E7]. cbn [fst snd negb].
    eapply mwp_mono; [apply file_finish |]. intros r s8 (E8 & Hst & Hr & Hwr).
    split; [done |]. left. rewrite E8, E7. done.
Qed.

Lemma file_translate src s : length src = 4%nat -> Forall (in_w 32) src ->
  mwp (translate_sid1 o src) (fun r s' =>
    if wrote_anything r then committed src (file s) (file s') r else file s' = file s) s.
Proof.
  intros L Hsrc. unfold translate_sid1. wp_go. eapply mwp_cb; [apply file_op_base |]. intros op s1 E1.
  wp_go; [done |]. eapply mwp_cb; [apply file_halted |]. intros h s2 E2. rewrite E1 in E2. wp_go; [done |].
  eapply mwp_cb; [apply file_source |]. intros ok s3 E3. rewrite E2 in E3. wp_go; [done |].
  eapply mwp_mono; [apply file_snap |]. intros b s4 [E4 Eb]. rewrite E3 in E4. rewrite E3 in Eb. wp_go; [done |].
  eapply mwp_mono; [apply file_program; [done | done | by rewrite E4] |].
  intros r s5 [-> Hc]. by rewrite <- E4.
Qed.
End store.

(** ** The flush wait *)

Section flush.
Context {S : Type} (o : dart_io S).

Lemma flush_more n k t s : t + Z.of_nat n = 101 -> 0 <= t <= 100 ->
  flush_loop o (n + k) t s = flush_loop o n t s /\ t <= (flush_loop o n t s).1.2 <= 100 /\
  ((flush_loop o n t s).1.1 = false -> (flush_loop o n t s).1.2 = 100).
Proof.
  revert t s. induction n as [|n IH]; intros t s Hn Ht; [lia |].
  cbn [Nat.add flush_loop]. cbv delta [mbind M_bind]. cbv beta zeta.
  destruct (negb (truthy _)); [cbn; split; [done | split; [lia | done]] |].
  change S175_FLUSH_TIMEOUT_US with 100. destruct (Z.leb_spec 100 t).
  - cbn. split; [done |]. split; [lia |]. intros _. lia.
  - rewrite wrap_small by (unfold in_w; lia).
    destruct (IH (t + 1) (delay o 1 (rd o (D S175_DART_STREAM_COMMAND) s).2).2) as (-> & Hr & Hf); [lia | lia |].
    split; [done |]. split; [lia | done].
Qed.
End flush.

(** ** Properties *)

(** C28. The wait for the flush ends on every device: the loop never needs more
    than its 101 polls (with more fuel it does the same), the time reported is
    at most the time-out, and a failed wait has spent exactly the time-out. *)
Theorem flush_terminates {S} (o : dart_io S) k s :
  let r := flush_loop o 101 0 s in
  flush_loop o (101 + k) 0 s = r /\ 0 <= r.1.2 <= S175_FLUSH_TIMEOUT_US /\
  (r.1.1 = false -> r.1.2 = S175_FLUSH_TIMEOUT_US).
Proof. apply (flush_more o 101 k 0 s); lia. Qed.

(** C27. Whatever the hardware answers, a run of [s175_dart1_sid1_translate] makes
    at most 468 accesses.  It first only reads; only after it has seen the xHC
    halted (RS clear and HCH set) and the DART unlocked does it write, and then
    only the source or the saved values to the stream-1 TTBRs, the saved or the
    translate value to its TCR, values to ENABLED_STREAMS that differ from the
    last value read in the stream-1 bit alone, and the fixed flush commands.
    A run that does not report writing has written nothing and is not a
    success. *)
Theorem dart_bus_discipline {S} (ops : s175_ops S) (o : dart_io S) (events : S -> list dart_event)
    `{!DartEnv o events} src s :
  ops_valid (Some ops) = Some o -> length src = 4%nat ->
  let p := s175_dart1_sid1_translate (Some ops) (Some src) true s in
  exists r, p.1 = (status r, Some r) /\ disciplined events src r s p.2.
Proof.
  intros Ho L p. pose proof (translate_spec o events src s L) as Ht. apply mwp_iff in Ht.
  subst p. unfold s175_dart1_sid1_translate. cbn [negb]. rewrite Ho.
  exists (translate_sid1 o src s).1. split; [done | exact Ht].
Qed.

(** C26. On a DART whose TTBR, TCR and ENABLED_STREAMS registers store what is
    written (and nothing assumed of any other register), the procedure is a
    transaction: without writes the six registers are as before; success
    leaves exactly the source tables, the translate TCR and the enabled stream;
    a flush that stays busy leaves either that, when the xHC was found running
    and the restore was skipped, or exactly the registers of before. *)
Theorem dart_transaction {S} (ops : s175_ops S) (o : dart_io S) (reg : S -> Z -> Z)
    `{!DartStore o reg} src s :
  ops_valid (Some ops) = Some o -> length src = 4%nat -> Forall (in_w 32) src ->
  let p := s175_dart1_sid1_translate (Some ops) (Some src) true s in
  exists r, p.1 = (status r, Some r) /\
    if wrote_anything r then committed src (file reg s) (file reg p.2) r
    else file reg p.2 = file reg s.
Proof.
  intros Ho L Hsrc p. pose proof (file_translate o reg src s L Hsrc) as Ht. apply mwp_iff in Ht.
  subst p. unfold s175_dart1_sid1_translate. cbn [negb]. rewrite Ho.
  exists (translate_sid1 o src s).1. split; [done | exact Ht].
Qed.

(** ** The properties at work *)

(** A register file with a log; the command register is never busy. *)
Record demo_dart := mk_demo_dart { d_reg : Z -> Z; d_log : list dart_event }.
Definition demo_rd (a : Z) : M demo_dart Z := fun s =>
  (u32 (d_reg s a), mk_demo_dart (d_reg s) (d_log s ++ [Rd a (u32 (d_reg s a))])).
Definition demo_wr (a v : Z) : M demo_dart unit := fun s =>
  (tt, mk_demo_dart (fun r => if (a =? r) && negb (a =? D S175_DART_STREAM_COMMAND) then v else d_reg s r)
         (d_log s ++ [Wr a v])).
Definition demo_note (e : dart_event) : M demo_dart unit := fun s =>
  (tt, mk_demo_dart (d_reg s) (d_log s ++ [e])).
Definition demo_ops : s175_ops demo_dart := {|
  read32 := Some demo_rd; write32 := Some demo_wr; dsb := Some (demo_note Barrier);
  delay_us := Some (fun n => demo_note (Delay n)); table_in_range := Some (fun _ _ => mret true);
|}.
Definition demo_dio : dart_io demo_dart :=
  mk_dart_io demo_rd demo_wr (demo_note Barrier) (fun n => demo_note (Delay n)) (fun _ _ => mret true).
Definition demo_regs : Z -> Z := fun a =>
  if a =? S175_XHCI_BASE then 0x01000020
  else if a =? S175_XHCI_BASE + 0x24 then 1
  else if a =? D (S175_DART_TCR S175_SID) then 0x1100
  else if a =? D S175_DART_ENABLED_STREAMS then 1 else 0.
Definition demo_dart0 : demo_dart := mk_demo_dart demo_regs [].
Definition demo_src : list Z := [0x80812345; 0x80812346; 0; 0].
Definition demo_reg (s : demo_dart) (a : Z) : Z := u32 (d_reg s a).

#[export] Instance demo_dart_env : DartEnv demo_dio d_log.
Proof. split; try done. intros a s. split; [done | by apply wrap_range]. Qed.

Lemma stored_not_command r : stored r -> (D S175_DART_STREAM_COMMAND =? r) = false.
Proof.
  intros [(n & Hn & ->) | [-> | ->]]; [| done | done].
  assert (n = 0 \/ n = 1 \/ n = 2 \/ n = 3) as Hc by lia. by destruct Hc as [-> | [-> | [-> | ->]]].
Qed.

#[export] Instance demo_dart_store : DartStore demo_dio demo_reg.
Proof.
  split; try done.
  - intros s a. by apply wrap_range.
  - intros a v s r Hr Hv. unfold demo_reg. cbn. destruct (Z.eqb_spec a (D S175_DART_STREAM_COMMAND)) as [->|Hn].
    + by rewrite stored_not_command.
    + rewrite andb_true_r. destruct (a =? r); [by apply wrap_small | done].
Qed.

Lemma demo_src_w : Forall (in_w 32) demo_src.
Proof. repeat (constructor; [by split |]). constructor. Qed.

(** The example run succeeds. *)
Lemma demo_dart_run :
  (s175_dart1_sid1_translate (Some demo_ops) (Some demo_src) true demo_dart0).1.1 = S175_OK /\
  file demo_reg (s175_dart1_sid1_translate (Some demo_ops) (Some demo_src) true demo_dart0).2 =
    (demo_src, 0x1080, 3).
Proof. vm_compute. done. Qed.

Lemma dart_bus_discipline_witness :
  ops_valid (Some demo_ops) = Some demo_dio /\
  exists r, (s175_dart1_sid1_translate (Some demo_ops) (Some demo_src) true demo_dart0).1 = (status r, Some r) /\
    disciplined d_log demo_src r demo_dart0
      (s175_dart1_sid1_translate (Some demo_ops) (Some demo_src) true demo_dart0).2.
Proof. split; [reflexivity |]. exact (dart_bus_discipline demo_ops demo_dio d_log demo_src demo_dart0 eq_refl eq_refl). Defined.

Lemma dart_transaction_witness :
  exists r, (s175_dart1_sid1_translate (Some demo_ops) (Some demo_src) true demo_dart0).1 = (status r, Some r) /\
    if wrote_anything r
    then committed demo_src (file demo_reg demo_dart0)
           (file demo_reg (s175_dart1_sid1_translate (Some demo_ops) (Some demo_src) true demo_dart0).2) r
    else file demo_reg (s175_dart1_sid1_translate (Some demo_ops) (Some demo_src) true demo_dart0).2 =
         file demo_reg demo_dart0.
Proof.
  exact (dart_transaction demo_ops demo_dio demo_reg demo_src demo_dart0 eq_refl eq_refl demo_src_w).
Defined.
