(* ===== verification/HvMap.v ===== *)
(** * Stage-2 page tables of the hypervisor ([nvme-s208/hv_vm-s208.c])

    The tables [hv_map] builds and [hv_pt_walk] reads: 16 KB granule, an L1
    level when the space is wider than 36 bits, 32 MB blocks at L2, pages at L3
    and, for software mappings only, 4-byte entries at L4.  A table is a list of
    64-bit entries in the store [tables], at the address [memalign] gave it; an
    access outside a table, or a failed [assert], is [None].  [memalign], the
    linker symbol [_base] and the macros [ALIGN_UP] and [ALIGN_DOWN] are not part
    of the repository and are parameters.

    The theorems type the store: a table belongs to one level and one range of
    addresses, whatever points to it. *)

From stdpp Require Import gmap.
From S2P Require Import Prelude.

(** ** Entries *)

Definition MASK (n : Z) : Z := 2 ^ n - 1.
Definition BIT (n : Z) : Z := 2 ^ n.
Definition GENMASK (h l : Z) : Z := MASK (h - l + 1) .<< l.

Definition PAGE_SIZE : Z := 0x4000.
Definition VADDR_L4_INDEX_BITS : Z := 12.
Definition VADDR_L3_INDEX_BITS : Z := 11.
Definition VADDR_L2_INDEX_BITS : Z := 11.
Definition VADDR_L1_INDEX_BITS : Z := 8.
Definition VADDR_L4_OFFSET_BITS : Z := 2.
Definition VADDR_L3_OFFSET_BITS : Z := 14.
Definition VADDR_L2_OFFSET_BITS : Z := 25.
Definition VADDR_L1_OFFSET_BITS : Z := 36.
Definition VADDR_L2_ALIGN_MASK : Z := GENMASK (VADDR_L2_OFFSET_BITS - 1) VADDR_L3_OFFSET_BITS.
Definition VADDR_L3_ALIGN_MASK : Z := GENMASK (VADDR_L3_OFFSET_BITS - 1) VADDR_L4_OFFSET_BITS.
Definition PTE_TARGET_MASK : Z := GENMASK 49 VADDR_L3_OFFSET_BITS.
Definition PTE_TARGET_MASK_L4 : Z := GENMASK 49 VADDR_L4_OFFSET_BITS.
Definition ENTRIES_PER_L1_TABLE : Z := BIT VADDR_L1_INDEX_BITS.
Definition ENTRIES_PER_L2_TABLE : Z := BIT VADDR_L2_INDEX_BITS.
Definition ENTRIES_PER_L3_TABLE : Z := BIT VADDR_L3_INDEX_BITS.
Definition ENTRIES_PER_L4_TABLE : Z := BIT VADDR_L4_INDEX_BITS.

Definition PTE_ACCESS : Z := BIT 10.
Definition PTE_SH_NS : Z := 3 .<< 8.
Definition PTE_S2AP_RW : Z := 3 .<< 6.
Definition PTE_MEMATTR_UNCHANGED : Z := 15 .<< 2.
Definition PTE_MEMATTR_NORMAL_NC : Z := 5 .<< 2.
Definition PTE_ATTRIBUTES : Z := PTE_ACCESS .| PTE_SH_NS .| PTE_S2AP_RW .| PTE_MEMATTR_UNCHANGED.
Definition PTE_ATTRIBUTES_NC : Z := PTE_ACCESS .| PTE_SH_NS .| PTE_S2AP_RW .| PTE_MEMATTR_NORMAL_NC.
Definition PTE_LOWER_ATTRIBUTES : Z := GENMASK 13 2.
Definition PTE_VALID : Z := BIT 0.
Definition PTE_TYPE : Z := BIT 1.
(** [FIELD_PREP(PTE_TYPE, PTE_TABLE)], which is also that of [PTE_PAGE]; the one
    of [PTE_BLOCK] is 0. *)
Definition TYPE_TABLE : Z := PTE_TYPE.

Definition SPTE_TYPE (pte : Z) : Z := (pte .>> 50) .& 7.
Definition SPTE_MAP : Z := 0.
Definition SPTE_HOOK : Z := 1.
Definition SPTE_PREP (t : Z) : Z := (t .& 7) .<< 50.

Definition IS_HW (pte : Z) : bool := truthy pte && truthy (pte .& PTE_VALID).
Definition IS_SW (pte : Z) : bool := truthy pte && negb (truthy (pte .& PTE_VALID)).
(** [FIELD_GET(PTE_TYPE, pte) == PTE_TABLE] (or [PTE_PAGE]). *)
Definition TYPE1 (pte : Z) : bool := truthy (pte .& PTE_TYPE).
Definition L1_IS_TABLE (pte : Z) : bool := truthy pte && TYPE1 pte.
Definition L2_IS_TABLE (pte : Z) : bool := truthy pte && TYPE1 pte.
Definition L2_IS_HW_BLOCK (pte : Z) : bool := IS_HW pte && negb (TYPE1 pte).
Definition L2_IS_SW_BLOCK (pte : Z) : bool := IS_SW pte && negb (TYPE1 pte) && (SPTE_TYPE pte =? SPTE_MAP).
Definition L3_IS_TABLE (pte : Z) : bool := IS_SW pte && TYPE1 pte.
Definition L3_IS_HW_BLOCK (pte : Z) : bool := IS_HW pte && TYPE1 pte.
Definition L3_IS_SW_BLOCK (pte : Z) : bool := IS_SW pte && negb (TYPE1 pte) && (SPTE_TYPE pte =? SPTE_MAP).

(** ** The store *)

(** [vaddr_bits], [hv_Ltop] and the heap blocks that hold tables. *)
Record hv_pt := mk_pt { vaddr_bits : Z; hv_Ltop : Z; tables : gmap Z (list Z) }.

(** A function that may fail: an [assert], or an access outside a table. *)
Definition P (A : Type) : Type := hv_pt -> option (A * hv_pt).
#[export] Instance P_ret : MRet P := fun A a s => Some (a, s).
#[export] Instance P_bind : MBind P := fun A B f m s =>
  match m s with Some (a, s') => f a s' | None => None end.
Definition stop {A} : P A := fun _ => None.
Definition assert (b : bool) : P unit := if b then mret tt else stop.
Definition get_vaddr_bits : P Z := fun s => Some (vaddr_bits s, s).
Definition get_Ltop : P Z := fun s => Some (hv_Ltop s, s).

Definition rd (s : hv_pt) (p i : Z) : option Z :=
  if i <? 0 then None else tables s !! p ≫= fun t => t !! Z.to_nat i.
(** [p[i]] and [p[i] = v]. *)
Definition load (p i : Z) : P Z := fun s => (fun v => (v, s)) <$> rd s p i.
Definition set_tables (t : gmap Z (list Z)) (s : hv_pt) : hv_pt := mk_pt (vaddr_bits s) (hv_Ltop s) t.
Definition store (p i v : Z) : P unit := fun s =>
  t ← tables s !! p;
  if (0 <=? i) && (i <? zlen t) then Some (tt, set_tables (<[p := <[Z.to_nat i := v]> t]> (tables s)) s)
  else None.
Definition free (p : Z) : P unit := fun s =>
  match tables s !! p with
  | Some _ => Some (tt, set_tables (delete p (tables s)) s)
  | None => None
  end.

(** The values the loop [for (idx = 0; idx < n; idx++, d += incr) t[idx] = d]
    stores. *)
Fixpoint entries (n : nat) (d incr : Z) : list Z :=
  match n with
  | O => []
  | S n => d :: entries n (u64 (d + incr)) incr
  end.

Section hv_map.
Context (memalign : gmap Z (list Z) -> Z -> Z) (ALIGN_UP ALIGN_DOWN : Z -> Z -> Z) (ram_base _base : Z).

(** A new table, every entry of which is written at once. *)
Definition new_table (es : list Z) : P Z := fun s =>
  let p := memalign (tables s) (8 * zlen es) in
  Some (p, set_tables (<[p := es]> (tables s)) s).

(** ** Lookup of the table for an address *)

Definition hv_pt_get_l2 (from : Z) : P Z :=
  let l1idx := from .>> VADDR_L1_OFFSET_BITS in
  vb ← get_vaddr_bits;
  top ← get_Ltop;
  if vb <=? 36 then assert (l1idx =? 0);; mret top
  else
    l1d ← load top l1idx;
    if L1_IS_TABLE l1d then mret (l1d .& PTE_TARGET_MASK)
    else
      l2 ← new_table (entries (Z.to_nat ENTRIES_PER_L2_TABLE) 0 0);
      store top l1idx (l2 .| TYPE_TABLE .| PTE_VALID);;
      mret l2.

Definition l2_index (a : Z) : Z := (a .>> VADDR_L2_OFFSET_BITS) .& MASK VADDR_L2_INDEX_BITS.
Definition l3_index (a : Z) : Z := (a .>> VADDR_L3_OFFSET_BITS) .& MASK VADDR_L3_INDEX_BITS.
Definition l4_index (a : Z) : Z := (a .>> VADDR_L4_OFFSET_BITS) .& MASK VADDR_L4_INDEX_BITS.

(** The entries of the L3 table that replaces the L2 entry [l2d]. *)
Definition split_l2 (l2d : Z) : list Z :=
  let n := Z.to_nat ENTRIES_PER_L3_TABLE in
  if truthy l2d then
    if IS_HW l2d then
      entries n ((l2d .& cnot 64 PTE_TYPE) .| TYPE_TABLE) (BIT VADDR_L3_OFFSET_BITS)
    else if IS_SW l2d && (SPTE_TYPE l2d =? SPTE_MAP) then entries n l2d (BIT VADDR_L3_OFFSET_BITS)
    else entries n l2d 0
  else entries n 0 0.

Definition hv_pt_get_l3 (from : Z) : P Z :=
  l2 ← hv_pt_get_l2 from;
  l2d ← load l2 (l2_index from);
  if L2_IS_TABLE l2d then mret (l2d .& PTE_TARGET_MASK)
  else
    l3 ← new_table (split_l2 l2d);
    store l2 (l2_index from) (l3 .| TYPE_TABLE .| PTE_VALID);;
    mret l3.

(** A hardware page becomes a software mapping of the same page. *)
Definition soften (l3d : Z) : Z := if IS_HW l3d then l3d .& PTE_TARGET_MASK .| SPTE_PREP SPTE_MAP else l3d.

(** The entries of the L4 table that replaces the L3 entry [l3d]. *)
Definition split_l3 (l3d : Z) : list Z :=
  let n := Z.to_nat ENTRIES_PER_L4_TABLE in
  if truthy l3d then
    let l4d := (l3d .& cnot 64 PTE_TYPE) .| TYPE_TABLE in
    entries n l4d (if SPTE_TYPE l4d =? SPTE_MAP then BIT VADDR_L4_OFFSET_BITS else 0)
  else entries n 0 0.

Definition hv_pt_get_l4 (from : Z) : P Z :=
  l3 ← hv_pt_get_l3 from;
  l3d ← load l3 (l3_index from);
  if L3_IS_TABLE l3d then mret (l3d .& PTE_TARGET_MASK)
  else
    assert (negb (IS_HW l3d) || TYPE1 l3d);;
    l4 ← new_table (split_l3 (soften l3d));
    store l3 (l3_index from) (l4 .| TYPE_TABLE);;
    mret l4.

(** ** Mapping at one level *)

Fixpoint free_l4s (l3 : Z) (idxs : list nat) : P unit :=
  match idxs with
  | [] => mret tt
  | i :: idxs =>
      e ← load l3 (Z.of_nat i);
      (if IS_SW e && TYPE1 e then free (e .& PTE_TARGET_MASK) else mret tt);;
      free_l4s l3 idxs
  end.

Definition hv_pt_free_l3 (l3 : Z) : P unit :=
  if negb (truthy l3) then mret tt
  else free_l4s l3 (seq 0 (Z.to_nat ENTRIES_PER_L3_TABLE));; free l3.

(** The loop [for (; size; size -= BIT(k)) { one; from += BIT(k); to += incr * BIT(k); }]
    that the three functions share; [n] is [size / BIT(k)]. *)
Fixpoint map_loop (one : Z -> Z -> P unit) (k : Z) (n : nat) (from to incr : Z) : P unit :=
  match n with
  | O => mret tt
  | S n => one from to;; map_loop one k n (u64 (from + BIT k)) (u64 (to + incr * BIT k)) incr
  end.

Definition map_l2_one (from to : Z) : P unit :=
  l2 ← hv_pt_get_l2 from;
  e ← load l2 (l2_index from);
  (if L2_IS_TABLE e then hv_pt_free_l3 (e .& PTE_TARGET_MASK) else mret tt);;
  store l2 (l2_index from) to.

Definition hv_pt_map_l2 (from to size incr : Z) : P unit :=
  assert (from .& MASK VADDR_L2_OFFSET_BITS =? 0);;
  assert (IS_SW to || (to .& PTE_TARGET_MASK .& MASK VADDR_L2_OFFSET_BITS =? 0));;
  assert (size .& MASK VADDR_L2_OFFSET_BITS =? 0);;
  map_loop map_l2_one VADDR_L2_OFFSET_BITS (Z.to_nat (size .>> VADDR_L2_OFFSET_BITS)) from to incr.

Definition map_l3_one (from to : Z) : P unit :=
  l3 ← hv_pt_get_l3 from;
  e ← load l3 (l3_index from);
  (if L3_IS_TABLE e then free (e .& PTE_TARGET_MASK) else mret tt);;
  store l3 (l3_index from) to.

(** Hardware entries of L3 are pages. *)
Definition l3_arg (to : Z) : Z := if IS_HW to then to .| TYPE_TABLE else to.

Definition hv_pt_map_l3 (from to size incr : Z) : P unit :=
  assert (from .& MASK VADDR_L3_OFFSET_BITS =? 0);;
  assert (IS_SW to || (to .& PTE_TARGET_MASK .& MASK VADDR_L3_OFFSET_BITS =? 0));;
  assert (size .& MASK VADDR_L3_OFFSET_BITS =? 0);;
  map_loop map_l3_one VADDR_L3_OFFSET_BITS (Z.to_nat (size .>> VADDR_L3_OFFSET_BITS)) from (l3_arg to) incr.

Definition map_l4_one (from to : Z) : P unit :=
  l4 ← hv_pt_get_l4 from;
  store l4 (l4_index from) to.

Definition l4_arg (to : Z) : Z := if IS_SW to then to .| TYPE_TABLE else to.

Definition hv_pt_map_l4 (from to size incr : Z) : P unit :=
  assert (from .& MASK VADDR_L4_OFFSET_BITS =? 0);;
  assert (size .& MASK VADDR_L4_OFFSET_BITS =? 0);;
  assert (negb (IS_HW to));;
  map_loop map_l4_one VADDR_L4_OFFSET_BITS (Z.to_nat (size .>> VADDR_L4_OFFSET_BITS)) from (l4_arg to) incr.

(** ** Mapping a range *)

(** The end of the part mapped with L3 entries at the start of the range. *)
Definition l3_boundary (from : Z) : Z :=
  let boundary := ALIGN_UP from (MASK VADDR_L2_OFFSET_BITS) in
  if (ram_base <=? boundary) && (boundary <? _base) then ALIGN_UP _base (MASK VADDR_L2_OFFSET_BITS)
  else boundary.

(** One of the five segments: [map] the chunk if there is one; the rest. *)
Definition segment (map : Z -> Z -> Z -> Z -> P unit) (chunk from to size incr : Z) : P (Z * Z * Z) :=
  if truthy chunk then
    map from to chunk incr;;
    mret (u64 (from + chunk), u64 (to + incr * chunk), u64 (size - chunk))
  else mret (from, to, size).

(** [hv_pt_map_l4] where the mapping must not be a hardware one. *)
Definition map_l4_sw (hw : bool) (from to size incr : Z) : P unit :=
  assert (negb hw);; hv_pt_map_l4 from to size incr.

Definition hv_map (from to size incr : Z) : P Z :=
  let hw := IS_HW to in
  if truthy (from .& MASK VADDR_L4_OFFSET_BITS) || truthy (size .& MASK VADDR_L4_OFFSET_BITS) then mret (-1)
  else if hw && (truthy (from .& MASK VADDR_L3_OFFSET_BITS) || truthy (size .& MASK VADDR_L3_OFFSET_BITS))
  then mret (-1)
  else
    r ← segment (map_l4_sw hw)
      (Z.min size (u64 (ALIGN_UP from (BIT VADDR_L3_OFFSET_BITS) - from))) from to size incr;
    let '(from, to, size) := r in
    r ← segment hv_pt_map_l3
      (ALIGN_DOWN (Z.min size (u64 (l3_boundary from - from))) (BIT VADDR_L3_OFFSET_BITS)) from to size incr;
    let '(from, to, size) := r in
    let chunk := ALIGN_DOWN size (BIT VADDR_L2_OFFSET_BITS) in
    r ← segment hv_pt_map_l2
      (if negb hw || (to .& VADDR_L2_ALIGN_MASK =? 0) then chunk else 0) from to size incr;
    let '(from, to, size) := r in
    r ← segment hv_pt_map_l3 (ALIGN_DOWN size (BIT VADDR_L3_OFFSET_BITS)) from to size incr;
    let '(from, to, size) := r in
    (if truthy size then map_l4_sw hw from to size incr else mret tt);;
    mret 0.

Definition hv_unmap (from size : Z) : P Z := hv_map from 0 size 0.
Definition hv_map_hw (from to size : Z) : P Z := hv_map from (to .| PTE_ATTRIBUTES .| PTE_VALID) size 1.
Definition hv_map_hw_nc (from to size : Z) : P Z := hv_map from (to .| PTE_ATTRIBUTES_NC .| PTE_VALID) size 1.
Definition hv_map_sw (from to size : Z) : P Z := hv_map from (to .| SPTE_PREP SPTE_MAP) size 1.
Definition hv_map_hook (from hook size : Z) : P Z := hv_map from (hook .| SPTE_PREP SPTE_HOOK) size 0.

(** ** Walking *)

(** The walk below the first level, from the L2 table [l2]. *)
Definition walk_from (l2 addr : Z) : P Z :=
  l2d ← load l2 (l2_index addr);
  if negb (L2_IS_TABLE l2d) then
    let l2d := if L2_IS_SW_BLOCK l2d
      then u64 (l2d + (addr .& (VADDR_L2_ALIGN_MASK .| VADDR_L3_ALIGN_MASK))) else l2d in
    mret (if L2_IS_HW_BLOCK l2d
      then (l2d .& cnot 64 PTE_LOWER_ATTRIBUTES) .| (addr .& (VADDR_L2_ALIGN_MASK .| VADDR_L3_ALIGN_MASK))
      else l2d)
  else
    l3d ← load (l2d .& PTE_TARGET_MASK) (l3_index addr);
    if negb (L3_IS_TABLE l3d) then
      let l3d := if L3_IS_SW_BLOCK l3d then u64 (l3d + (addr .& VADDR_L3_ALIGN_MASK)) else l3d in
      mret (if L3_IS_HW_BLOCK l3d
        then (l3d .& cnot 64 PTE_LOWER_ATTRIBUTES) .| (addr .& VADDR_L3_ALIGN_MASK) else l3d)
    else load (l3d .& PTE_TARGET_MASK) (l4_index addr).

Definition hv_pt_walk (addr : Z) : P Z :=
  let idx := addr .>> VADDR_L1_OFFSET_BITS in
  vb ← get_vaddr_bits;
  top ← get_Ltop;
  if 36 <? vb then
    assert (idx <? ENTRIES_PER_L1_TABLE);;
    l1d ← load top idx;
    if negb (L1_IS_TABLE l1d) then mret l1d else walk_from (l1d .& PTE_TARGET_MASK) addr
  else assert (idx =? 0);; walk_from top addr.

(** ** Initialisation *)

(** What is written to the fields of VTCR_EL2; VTTBR_EL2 gets [hv_Ltop]. *)
Record vtcr := mk_vtcr { PS : Z; TG0 : Z; SH0 : Z; ORGN0 : Z; IRGN0 : Z; SL0 : Z; T0SZ : Z }.

Definition pa_bits : list Z := [32; 36; 40; 42; 44; 48; 52].

(** [pa_range] is the PARange field of ID_AA64MMFR0_EL1. *)
Definition hv_pt_init (pa_range : Z) : P vtcr := fun s =>
  b ← (if pa_range <? 0 then None else pa_bits !! Z.to_nat pa_range);
  let s := mk_pt (Z.min 44 b) (hv_Ltop s) (tables s) in
  '(top, s) ← new_table (entries (Z.to_nat ENTRIES_PER_L2_TABLE) 0 0) s;
  let s := mk_pt (vaddr_bits s) top (tables s) in
  let vb := vaddr_bits s in
  Some (mk_vtcr pa_range 2 3 1 1 (if 36 <? vb then 2 else 1) (64 - vb), s).
End hv_map.

(** ** Arithmetic of entries *)

Lemma land_genmask x h l : 0 <= l <= h -> x .& GENMASK h l = x / 2 ^ l mod 2 ^ (h - l + 1) * 2 ^ l.
Proof.
  intros Hl. rewrite <- Z.shiftl_mul_pow2, <- Z.shiftr_div_pow2, <- (land_ones_mod (h - l + 1)) by lia.
  unfold GENMASK, MASK. apply Z.bits_inj'. intros i Hi. rewrite Z.land_spec, !Z.shiftl_spec by lia.
  destruct (Z.ltb_spec i l).
  - rewrite !(Z.testbit_neg_r _ (i - l)) by lia. apply andb_false_r.
  - rewrite Z.land_spec, Z.shiftr_spec by lia. by replace (i - l + l) with i by lia.
Qed.

Lemma target_value x : x .& PTE_TARGET_MASK = x / 2 ^ 14 mod 2 ^ 36 * 2 ^ 14.
Proof. by apply (land_genmask x 49 14). Qed.
Lemma target4_value x : x .& PTE_TARGET_MASK_L4 = x / 2 ^ 2 mod 2 ^ 48 * 2 ^ 2.
Proof. by apply (land_genmask x 49 2). Qed.
Lemma valid_value x : truthy (x .& PTE_VALID) = (x mod 2 =? 1).
Proof.
  change PTE_VALID with (2 ^ 1 - 1). rewrite land_ones_mod by lia. change (2 ^ 1) with 2.
  unfold truthy. destruct (Z.eqb_spec (x mod 2) 0), (Z.eqb_spec (x mod 2) 1); dlia.
Qed.
Lemma type_value x : TYPE1 x = (x / 2 mod 2 =? 1).
Proof.
  unfold TYPE1. change PTE_TYPE with (GENMASK 1 1). rewrite land_genmask by lia. change (2 ^ 1) with 2.
  change (2 ^ (1 - 1 + 1)) with 2. unfold truthy.
  destruct (Z.eqb_spec (x / 2 mod 2 * 2) 0), (Z.eqb_spec (x / 2 mod 2) 1); dlia.
Qed.
Lemma sptype_value x : SPTE_TYPE x = x / 2 ^ 50 mod 8.
Proof. unfold SPTE_TYPE. rewrite Z.shiftr_div_pow2 by lia. by apply (land_ones_mod 3). Qed.
Lemma index_value a k n : 0 <= k -> 0 <= n -> (a .>> k) .& MASK n = a / 2 ^ k mod 2 ^ n.
Proof. intros. rewrite Z.shiftr_div_pow2 by lia. by apply land_ones_mod. Qed.

(** Setting the clear bit 1. *)
Lemma set_type x : x / 2 mod 2 = 0 -> x .| TYPE_TABLE = x + 2.
Proof.
  intros H. assert (Hb : Z.testbit x 1 = false).
  { rewrite Z.testbit_eqb by lia. change (2 ^ 1) with 2. by rewrite H. }
  change TYPE_TABLE with (1 .<< 1). symmetry. rewrite Z.shiftl_1_l. change (2 ^ 1) with 2.
  rewrite Z.add_nocarry_lxor, Z.lxor_lor; [done | |].
  all: apply Z.bits_inj'; intros i Hi; rewrite Z.land_spec, Z.bits_0, (testbit_pow2_eqb 1) by lia;
    destruct (Z.eqb_spec i 1) as [->|]; by rewrite ?Hb, ?andb_false_r.
Qed.

Lemma clear_type x : in_w 64 x -> x / 2 mod 2 = 0 -> x .& cnot 64 PTE_TYPE = x.
Proof.
  intros Hx H. assert (Hb : Z.testbit x 1 = false).
  { rewrite Z.testbit_eqb by lia. change (2 ^ 1) with 2. by rewrite H. }
  apply Z.bits_inj'. intros i Hi. rewrite Z.land_spec, testbit_cnot by lia.
  change PTE_TYPE with (2 ^ 1). rewrite testbit_pow2_eqb by lia.
  destruct (Z.ltb_spec i 64); [| by rewrite (testbit_in_w 64 x i), andb_false_l by (done || lia)].
  destruct (Z.eqb_spec i 1) as [->|]; by rewrite ?Hb, ?andb_true_r.
Qed.

Lemma pointer_value p : (2 ^ 14 | p) -> p .| TYPE_TABLE .| PTE_VALID = p + 3 /\ p .| TYPE_TABLE = p + 2.
Proof.
  intros [q ->]. rewrite set_type by dlia. split; [| done].
  change PTE_VALID with (1 .| (0 .<< 1)). rewrite Z.lor_comm.
  replace (q * 2 ^ 14 + 2) with ((q * 2 ^ 13 + 1) .<< 1) by (rewrite Z.shiftl_mul_pow2 by lia; lia).
  change (1 .| (0 .<< 1)) with 1. rewrite lor_shiftl_add; [lia | lia | done].
Qed.

(** ** What an entry maps

    [backing_of pte] reads a walk result the way the abort handler does: nothing
    for 0, else the bits from 50 up (hook type and trace flags; a hardware entry
    counts as [SPTE_MAP] without tracing) and the target of the word. *)
Definition backing : Type := option (Z * Z).
Definition backing_of (pte : Z) : backing :=
  if pte =? 0 then None
  else Some (if IS_HW pte then 0 else pte .>> 50, pte .& PTE_TARGET_MASK_L4).

(** The backing of the word [off] bytes into the range of the leaf entry [e]. *)
Definition den (e off : Z) : backing :=
  if e =? 0 then None
  else if IS_HW e then Some (0, (e .& PTE_TARGET_MASK) + off)
  else Some (e .>> 50, (e .& PTE_TARGET_MASK_L4) + (if SPTE_TYPE e =? SPTE_MAP then off else 0)).

(** [off] rounded down to a word. *)
Definition word (off : Z) : Z := off / 4 * 4.

(** A leaf entry of a table whose entries cover [2^k] bytes. *)
Inductive leaf (k : Z) : Z -> Prop :=
| leaf_none : leaf k 0
| leaf_hw hi t a : 0 <= hi < 2 ^ 14 -> 0 < t -> t + 2 ^ k <= 2 ^ 50 -> t mod 2 ^ k = 0 ->
    0 <= a < 2 ^ 14 -> a mod 4 = (if k =? 14 then 3 else 1) -> leaf k (hi * 2 ^ 50 + t + a)
| leaf_map hi t : 0 <= hi < 2 ^ 14 -> hi mod 8 = 0 -> 0 <= t -> t + 2 ^ k <= 2 ^ 50 -> t mod 4 = 0 ->
    hi * 2 ^ 50 + t <> 0 -> leaf k (hi * 2 ^ 50 + t)
| leaf_hook hi t : 0 <= hi < 2 ^ 14 -> hi mod 8 <> 0 -> 0 <= t < 2 ^ 50 -> t mod 4 = 0 ->
    leaf k (hi * 2 ^ 50 + t).

(** An entry of an L4 table. *)
Definition leaf4 (e : Z) : Prop :=
  e = 0 \/ exists hi t, 0 <= hi < 2 ^ 14 /\ 0 <= t < 2 ^ 50 /\ t mod 4 = 0 /\ e = hi * 2 ^ 50 + t + 2.

(** The fields of an entry given by its parts. *)
Lemma hw_fields hi t a : 0 <= hi < 2 ^ 14 -> 0 < t < 2 ^ 50 -> t mod 2 ^ 14 = 0 -> 0 <= a < 2 ^ 14 -> a mod 2 = 1 ->
  let e := hi * 2 ^ 50 + t + a in
  IS_HW e = true /\ TYPE1 e = (a / 2 mod 2 =? 1) /\ e .& PTE_TARGET_MASK = t /\ in_w 64 e /\ (e =? 0) = false.
Proof.
  intros Hhi Ht Hm Ha Ho e. assert (He : in_w 64 e) by (subst e; unfold in_w; dlia).
  assert (Hn : (e =? 0) = false) by (apply Z.eqb_neq; subst e; dlia).
  unfold IS_HW, truthy at 1. rewrite Hn, valid_value, type_value, target_value. subst e.
  split_and!; try done; f_equal; dlia.
Qed.

Lemma sw_fields hi t b : 0 <= hi < 2 ^ 14 -> 0 <= t < 2 ^ 50 -> t mod 4 = 0 -> b = 0 \/ b = 2 ->
  let e := hi * 2 ^ 50 + t + b in
  e <> 0 ->
  IS_HW e = false /\ IS_SW e = true /\ TYPE1 e = (b =? 2) /\ SPTE_TYPE e = hi mod 8 /\ e .>> 50 = hi /\
  e .& PTE_TARGET_MASK_L4 = t /\ in_w 64 e /\ (e =? 0) = false.
Proof.
  intros Hhi Ht Hm Hb e Hn. assert (He : in_w 64 e) by (subst e; unfold in_w; dlia).
  assert (Hz : (e =? 0) = false) by by apply Z.eqb_neq.
  unfold IS_HW, IS_SW, truthy at 1 3. rewrite Hz, valid_value, type_value, sptype_value, target4_value.
  rewrite Z.shiftr_div_pow2 by lia. subst e.
  assert (H2 : (hi * 2 ^ 50 + t + b) mod 2 = 0) by dlia. rewrite H2.
  assert (H3 : (hi * 2 ^ 50 + t + b) / 2 ^ 50 = hi) by dlia. rewrite H3.
  split_and!; try done.
  - destruct Hb as [-> | ->]; [rewrite (proj2 (Z.eqb_neq _ 1)) by dlia | rewrite (proj2 (Z.eqb_eq _ 1)) by dlia]; done.
  - dlia.
Qed.

Lemma den_hw hi t a off : 0 <= hi < 2 ^ 14 -> 0 < t < 2 ^ 50 -> t mod 2 ^ 14 = 0 -> 0 <= a < 2 ^ 14 -> a mod 2 = 1 ->
  den (hi * 2 ^ 50 + t + a) off = Some (0, t + off).
Proof.
  intros Hhi Ht Hm Ha Ho. destruct (hw_fields hi t a) as (E1 & _ & E2 & _ & E3); try done.
  unfold den. by rewrite E3, E1, E2.
Qed.

Lemma den_sw hi t off : 0 <= hi < 2 ^ 14 -> 0 <= t < 2 ^ 50 -> t mod 4 = 0 -> hi * 2 ^ 50 + t <> 0 ->
  den (hi * 2 ^ 50 + t) off = Some (hi, t + if hi mod 8 =? 0 then off else 0).
Proof.
  intros Hhi Ht Hm Hn. destruct (sw_fields hi t 0) as (E1 & E2 & _ & E3 & E4 & E5 & _ & E6); auto; [lia |].
  rewrite Z.add_0_r in *. unfold den. by rewrite E6, E1, E3, E4, E5.
Qed.

Lemma backing_leaf4 hi t : 0 <= hi < 2 ^ 14 -> 0 <= t < 2 ^ 50 -> t mod 4 = 0 ->
  backing_of (hi * 2 ^ 50 + t + 2) = Some (hi, t).
Proof.
  intros Hhi Ht Hm. destruct (sw_fields hi t 2) as (E1 & E2 & _ & E3 & E4 & E5 & _ & E6); auto; [lia |].
  unfold backing_of. by rewrite E6, E1, E4, E5.
Qed.

Lemma idx_bound k i : (i < Z.to_nat (2 ^ k))%nat -> 0 <= Z.of_nat i < 2 ^ k.
Proof. lia. Qed.

Lemma length_entries n d incr : length (entries n d incr) = n.
Proof. revert d. induction n; cbn; auto. Qed.

Lemma entries_zero n i e : entries n 0 0 !! i = Some e -> e = 0.
Proof.
  revert i. induction n as [| n IH]; intros [| i]; cbn; try done; [by intros [=] |].
  by apply IH.
Qed.

Lemma entries_lookup n d incr i : (i < n)%nat -> in_w 64 d ->
  entries n d incr !! i = Some (u64 (d + incr * Z.of_nat i)).
Proof.
  revert d i. induction n as [| n IH]; intros d [| i] Hi Hd; try lia; cbn.
  - f_equal. rewrite Z.mul_0_r, Z.add_0_r. by rewrite wrap_small.
  - rewrite IH by (lia || by apply wrap_range). f_equal. unfold wrap. rewrite Z.add_mod_idemp_l by lia. f_equal. lia.
Qed.

Lemma leaf_range k e : 14 <= k <= 25 -> leaf k e -> in_w 64 e.
Proof.
  intros Hk He. assert (2 ^ 14 <= 2 ^ k) by (apply Z.pow_le_mono_r; lia). destruct He; unfold in_w; lia.
Qed.

(** The entries of a split table; [#|l3|] is kept folded. *)
Lemma length_split_l2 e : length (split_l2 e) = Z.to_nat ENTRIES_PER_L3_TABLE.
Proof. unfold split_l2. repeat case_match; apply length_entries. Qed.

Lemma entries_index (n : nat) k i d incr : n = Z.to_nat (2 ^ k) -> (i < n)%nat -> 0 <= k ->
  in_w 64 d -> 0 <= incr -> d + incr * (2 ^ k - 1) < 2 ^ 64 ->
  entries n d incr !! i = Some (d + incr * Z.of_nat i).
Proof.
  intros -> Hi Hk Hd Hn Hb. rewrite entries_lookup by done. f_equal. apply wrap_small. unfold in_w in *.
  assert (Z.of_nat i < 2 ^ k) by lia. nia.
Qed.

Lemma split_l2_0 : split_l2 0 = entries (Z.to_nat ENTRIES_PER_L3_TABLE) 0 0.
Proof. reflexivity. Qed.
Lemma split_l3_0 : split_l3 0 = entries (Z.to_nat ENTRIES_PER_L4_TABLE) 0 0.
Proof. reflexivity. Qed.

Lemma split_l2_hw hi t a i :
  (i < Z.to_nat ENTRIES_PER_L3_TABLE)%nat ->
  0 <= hi < 2 ^ 14 -> 0 < t -> t + 2 ^ 25 <= 2 ^ 50 -> t mod 2 ^ 25 = 0 -> 0 <= a < 2 ^ 14 -> a mod 4 = 1 ->
  split_l2 (hi * 2 ^ 50 + t + a) !! i = Some (hi * 2 ^ 50 + (t + Z.of_nat i * 2 ^ 14) + (a + 2)).
Proof.
  intros Hi Hhi Ht Htk Hm Ha Ham. destruct (hw_fields hi t a) as (E1 & _ & _ & E4 & E5); try dlia.
  unfold split_l2, truthy. rewrite E5, E1. cbn [negb]. rewrite clear_type, set_type by (done || dlia).
  rewrite (entries_index _ 11) by (reflexivity || assumption || unfold in_w, BIT, VADDR_L3_OFFSET_BITS in *; dlia).
  f_equal. unfold BIT, VADDR_L3_OFFSET_BITS. lia.
Qed.

Lemma split_l2_sw hi t i :
  (i < Z.to_nat ENTRIES_PER_L3_TABLE)%nat ->
  0 <= hi < 2 ^ 14 -> 0 <= t < 2 ^ 50 -> t mod 4 = 0 -> hi * 2 ^ 50 + t <> 0 ->
  (hi mod 8 = 0 -> t + 2 ^ 25 <= 2 ^ 50) ->
  split_l2 (hi * 2 ^ 50 + t) !! i = Some (hi * 2 ^ 50 + (t + if hi mod 8 =? 0 then Z.of_nat i * 2 ^ 14 else 0)).
Proof.
  intros Hi Hhi Ht Hm Hn Hb. destruct (sw_fields hi t 0) as (E1 & E2 & _ & E3 & _ & _ & E4 & E6); auto; [lia |].
  rewrite Z.add_0_r in *. unfold split_l2, truthy. rewrite E6, E1, E2, E3. unfold SPTE_MAP. cbn [negb andb].
  destruct (Z.eqb_spec (hi mod 8) 0).
  - rewrite (entries_index _ 11) by (done || unfold in_w, BIT, VADDR_L3_OFFSET_BITS in *; lia).
    f_equal. unfold BIT, VADDR_L3_OFFSET_BITS. lia.
  - rewrite (entries_index _ 11) by (done || unfold in_w in *; lia). f_equal. lia.
Qed.

Lemma split_l2_leaf e i e' : leaf 25 e -> split_l2 e !! i = Some e' ->
  leaf 14 e' /\ forall off, den e' off = den e (Z.of_nat i * 2 ^ 14 + off).
Proof.
  intros He Hi. assert (Hlt : (i < Z.to_nat ENTRIES_PER_L3_TABLE)%nat).
  { apply lookup_lt_Some in Hi. by rewrite length_split_l2 in Hi. }
  assert (Hlt' : 0 <= Z.of_nat i < 2 ^ 11) by exact (idx_bound 11 i Hlt).
  destruct He as [| hi t a Hhi Ht Htk Hm Ha Ham | hi t Hhi Hm8 Ht Htk Hm Hn | hi t Hhi Hm8 Ht Hm].
  - rewrite split_l2_0 in Hi. apply entries_zero in Hi as ->. split; [apply leaf_none | done].
  - change (25 =? 14) with false in Ham. cbv iota in Ham. rewrite split_l2_hw in Hi by done. injection Hi as <-. split.
    + apply leaf_hw; try dlia. change (14 =? 14) with true. cbv iota. dlia.
    + intros off. rewrite !den_hw by dlia. f_equal. f_equal. lia.
  - rewrite split_l2_sw in Hi by (done || lia). rewrite Hm8 in Hi. cbn [Z.eqb] in Hi. injection Hi as <-. split.
    + apply leaf_map; dlia.
    + intros off. rewrite !den_sw, Hm8 by dlia. cbn [Z.eqb]. f_equal. f_equal. lia.
  - rewrite split_l2_sw in Hi by (done || dlia). rewrite (proj2 (Z.eqb_neq _ 0)) in Hi by done.
    rewrite Z.add_0_r in Hi. injection Hi as <-. split; [by apply leaf_hook |].
    intros off. rewrite !den_sw by dlia. by rewrite (proj2 (Z.eqb_neq _ 0)) by done.
Qed.

Lemma length_split_l3 e : length (split_l3 e) = Z.to_nat ENTRIES_PER_L4_TABLE.
Proof. unfold split_l3. repeat case_match; apply length_entries. Qed.

(** A hardware page is its page as a software mapping. *)
Lemma soften_leaf e : leaf 14 e -> IS_HW (soften e) = false /\ leaf 14 (soften e) /\ forall off, den (soften e) off = den e off.
Proof.
  intros He. destruct He as [| hi t a Hhi Ht Htk Hm Ha Ham | hi t Hhi Hm8 Ht Htk Hm Hn | hi t Hhi Hm8 Ht Hm].
  - split; [done |]. split; [apply leaf_none | done].
  - change (14 =? 14) with true in Ham. cbv iota in Ham.
    destruct (hw_fields hi t a) as (E1 & _ & E3 & _); try dlia.
    unfold soften. rewrite E1, E3. change (SPTE_PREP SPTE_MAP) with 0. rewrite Z.lor_0_r.
    destruct (sw_fields 0 t 0) as (E & _); [lia | lia | dlia | auto | lia |]. rewrite Z.mul_0_l, Z.add_0_r, Z.add_0_l in E.
    split; [done |]. split; [apply (leaf_map 14 0 t); done || dlia |].
    intros off. rewrite den_hw by dlia. apply (den_sw 0 t off); done || dlia.
  - destruct (sw_fields hi t 0) as (E & _); [lia | lia | done | auto | lia |]. rewrite Z.add_0_r in E.
    unfold soften. rewrite E. split; [done |]. split; [by apply leaf_map | done].
  - destruct (sw_fields hi t 0) as (E & _); [lia | lia | done | auto | dlia |]. rewrite Z.add_0_r in E.
    unfold soften. rewrite E. split; [done |]. split; [by apply leaf_hook | done].
Qed.

Lemma split_l3_sw hi t i :
  (i < Z.to_nat ENTRIES_PER_L4_TABLE)%nat ->
  0 <= hi < 2 ^ 14 -> 0 <= t < 2 ^ 50 -> t mod 4 = 0 -> hi * 2 ^ 50 + t <> 0 ->
  (hi mod 8 = 0 -> t + 2 ^ 14 <= 2 ^ 50) ->
  split_l3 (hi * 2 ^ 50 + t) !! i = Some (hi * 2 ^ 50 + (t + if hi mod 8 =? 0 then Z.of_nat i * 4 else 0) + 2).
Proof.
  intros Hi Hhi Ht Hm Hn Hb. destruct (sw_fields hi t 0) as (_ & _ & _ & _ & _ & _ & E4 & E6); auto; [lia |].
  destruct (sw_fields hi t 2) as (_ & _ & _ & E3 & _); auto; [lia |].
  rewrite Z.add_0_r in *. unfold split_l3, truthy. rewrite E6, clear_type, set_type, E3 by (done || dlia). cbn [negb].
  unfold SPTE_MAP. destruct (Z.eqb_spec (hi mod 8) 0).
  - rewrite (entries_index _ 12) by (done || unfold in_w, BIT, VADDR_L4_OFFSET_BITS in *; lia).
    f_equal. unfold BIT, VADDR_L4_OFFSET_BITS. lia.
  - rewrite (entries_index _ 12) by (done || unfold in_w in *; dlia). f_equal. lia.
Qed.

Lemma split_l3_leaf e i e' : leaf 14 e -> IS_HW e = false -> split_l3 e !! i = Some e' ->
  leaf4 e' /\ backing_of e' = den e (Z.of_nat i * 4).
Proof.
  intros He Hh Hi. assert (Hlt : (i < Z.to_nat ENTRIES_PER_L4_TABLE)%nat).
  { apply lookup_lt_Some in Hi. by rewrite length_split_l3 in Hi. }
  assert (Hlt' : 0 <= Z.of_nat i < 2 ^ 12) by exact (idx_bound 12 i Hlt).
  destruct He as [| hi t a Hhi Ht Htk Hm Ha Ham | hi t Hhi Hm8 Ht Htk Hm Hn | hi t Hhi Hm8 Ht Hm].
  - rewrite split_l3_0 in Hi. apply entries_zero in Hi as ->. split; [by left | done].
  - change (14 =? 14) with true in Ham. cbv iota in Ham. destruct (hw_fields hi t a) as (E1 & _); try dlia. congruence.
  - rewrite split_l3_sw in Hi by (done || lia). rewrite Hm8 in Hi. cbn [Z.eqb] in Hi. injection Hi as <-. split.
    + right. exists hi, (t + Z.of_nat i * 4). split_and!; done || dlia.
    + rewrite backing_leaf4, den_sw, Hm8 by dlia. done.
  - rewrite split_l3_sw in Hi by (done || dlia). rewrite (proj2 (Z.eqb_neq _ 0)) in Hi by done.
    rewrite Z.add_0_r in Hi. injection Hi as <-. split.
    + right. exists hi, t. split_and!; try done; lia.
    + rewrite backing_leaf4, den_sw by dlia. by rewrite (proj2 (Z.eqb_neq _ 0)), Z.add_0_r by done.
Qed.

(** ** Typed stores

    Tables by height: 0 is L4, 3 is L1.  An entry at height [h] covers [2^(sh h)]
    bytes; the table of the node [(h, x)] covers the addresses whose bits from
    [sh (h + 1)] up are [x]. *)
Definition sh (h : nat) : Z := match h with 0%nat => 2 | 1%nat => 14 | 2%nat => 25 | 3%nat => 36 | _ => 47 end.
Definition width (h : nat) : Z := match h with 0%nat => 12 | _ => 11 end.
Definition index (h : nat) (a : Z) : Z := a / 2 ^ sh h mod 2 ^ width h.
Definition is_tab (h : nat) (e : Z) : bool :=
  match h with 0%nat => false | 1%nat => L3_IS_TABLE e | _ => L2_IS_TABLE e end.
Definition leaf_ok (h : nat) (e : Z) : Prop :=
  match h with 0%nat => leaf4 e | 1%nat => leaf 14 e | 2%nat => leaf 25 e | _ => e = 0 end.
(** What a leaf at height [h] maps at address [a]. *)
Definition leaf_den (h : nat) (e a : Z) : backing :=
  match h with
  | 0%nat => backing_of e
  | 1%nat => den e (word (a mod 2 ^ 14))
  | 2%nat => den e (word (a mod 2 ^ 25))
  | _ => None
  end.

(** The node tables: node [(h, x)] is the table at [N !! (h, x)]. *)
Abbreviation nodes := (gmap (nat * Z) Z).

(** Entry number [y] at height [h]: a pointer to the node below, or a leaf of
    which no node exists. *)
Definition entry_ok (N : nodes) (h : nat) (y e : Z) : Prop :=
  if is_tab h e then N !! (pred h, y) = Some (e .& PTE_TARGET_MASK)
  else leaf_ok h e /\ (h <> 0%nat -> N !! (pred h, y) = None).

Definition root (vb : Z) : nat := if vb <=? 36 then 2%nat else 3%nat.

Record typed (s : hv_pt) (N : nodes) : Prop := {
  ty_bits : 0 <= vaddr_bits s <= 44;
  ty_root : N !! (root (vaddr_bits s), 0) = Some (hv_Ltop s);
  ty_addr h x p : N !! (h, x) = Some p -> 0 < p < 2 ^ 50 /\ (2 ^ 14 | p);
  ty_inj m n p : N !! m = Some p -> N !! n = Some p -> m = n;
  ty_tables h x p : N !! (h, x) = Some p -> exists es, tables s !! p = Some es /\
    length es = Z.to_nat (2 ^ width h) /\
    forall i e, es !! i = Some e -> entry_ok N h (x * 2 ^ width h + Z.of_nat i) e;
  ty_parent h x p : N !! (h, x) = Some p ->
    (h = root (vaddr_bits s) /\ x = 0) \/
    ((h < root (vaddr_bits s))%nat /\ is_Some (N !! (S h, x / 2 ^ width (S h))));
}.

(** The reading of the tree from the table [p] of height [h]. *)
Fixpoint view_from (h : nat) (s : hv_pt) (p a : Z) : option backing :=
  e ← rd s p (index h a);
  match h with
  | O => Some (leaf_den O e a)
  | S k => if is_tab h e then view_from k s (e .& PTE_TARGET_MASK) a else Some (leaf_den h e a)
  end.
Definition view (s : hv_pt) (a : Z) : option backing := view_from (root (vaddr_bits s)) s (hv_Ltop s) a.

(** An address of the guest physical space. *)
Definition in_space (s : hv_pt) (a : Z) : Prop := 0 <= a < 2 ^ vaddr_bits s.

Lemma root_le vb : (root vb <= 3)%nat.
Proof. unfold root. destruct (_ <=? _); lia. Qed.

(** The node on the path of [a] at height [h]. *)
Definition pos (h : nat) (a : Z) : Z := a / 2 ^ sh h.

Lemma sh_step h : (h <= 3)%nat -> sh (S h) = sh h + width h.
Proof. intros Hh. destruct h as [|[|[|[|h]]]]; done || lia. Qed.

Lemma pos_step h a : (h <= 3)%nat -> pos h a / 2 ^ width h = pos (S h) a.
Proof.
  intros Hh. unfold pos. rewrite sh_step, Z.pow_add_r, Z.div_div by (done || destruct h as [|[|[|[|h]]]]; cbn; lia).
  done.
Qed.

Lemma pos_index h a : (h <= 3)%nat -> pos h a = pos (S h) a * 2 ^ width h + index h a.
Proof.
  intros Hh. rewrite <- pos_step by done. unfold index. fold (pos h a).
  rewrite (Z.div_mod (pos h a) (2 ^ width h)) at 1 by (destruct h; cbn; lia). lia.
Qed.

Lemma index_range h a : 0 <= index h a < 2 ^ width h.
Proof. apply Z.mod_pos_bound. destruct h; cbn; lia. Qed.

Lemma pos_root s a : in_space s a -> 0 <= vaddr_bits s <= 44 -> pos (S (root (vaddr_bits s))) a = 0.
Proof.
  intros [Ha Hlt] Hb. unfold pos, root. destruct (Z.leb_spec (vaddr_bits s) 36); apply Z.div_small; split; try done.
  - eapply Z.lt_le_trans; [done |]. by apply Z.pow_le_mono_r.
  - eapply Z.lt_le_trans; [done |]. apply Z.pow_le_mono_r; cbn; lia.
Qed.

Lemma rd_Some s p i es : 0 <= i < zlen es -> tables s !! p = Some es -> exists e, rd s p i = Some e /\ es !! Z.to_nat i = Some e.
Proof.
  intros Hi Ht. unfold rd. destruct (Z.ltb_spec i 0); [lia |]. rewrite Ht. cbn.
  destruct (lookup_lt_is_Some_2 es (Z.to_nat i)) as [e He]; [unfold zlen in Hi; lia |]. eauto.
Qed.

(** The entry of a node on the path of [a]. *)
Lemma path_entry s N h a p : typed s N -> (h <= 3)%nat -> N !! (h, pos (S h) a) = Some p ->
  exists e, rd s p (index h a) = Some e /\ entry_ok N h (pos h a) e.
Proof.
  intros Ht Hh Hp. destruct (ty_tables _ _ Ht _ _ _ Hp) as (es & He & Hl & Hok).
  pose proof (index_range h a) as Hi.
  destruct (rd_Some s p (index h a) es) as (e & Hr & Hn); [unfold zlen; rewrite Hl; lia | done |].
  exists e. split; [done |]. rewrite pos_index by done. specialize (Hok _ _ Hn).
  by rewrite Z2Nat.id in Hok by lia.
Qed.

(** A change that keeps the entries on the path of [a] keeps its view. *)
Lemma view_from_frame s s' N a : typed s N ->
  (forall h p, (h <= 3)%nat -> N !! (h, pos (S h) a) = Some p -> rd s' p (index h a) = rd s p (index h a)) ->
  forall h p, (h <= 3)%nat -> N !! (h, pos (S h) a) = Some p ->
  view_from h s' p a = view_from h s p a /\ is_Some (view_from h s p a).
Proof.
  intros Ht Hs h. induction h as [| k IH]; intros p Hh Hp.
  - cbn. rewrite Hs by done. destruct (path_entry s N 0 a p Ht Hh Hp) as (e & -> & _). by split.
  - cbn [view_from]. rewrite Hs by done. destruct (path_entry s N (S k) a p Ht Hh Hp) as (e & -> & He).
    cbn [mbind option_bind]. unfold entry_ok in He. destruct (is_tab (S k) e); [| by split].
    apply IH; [lia | done].
Qed.

Lemma view_frame s s' N a : typed s N -> in_space s a ->
  vaddr_bits s' = vaddr_bits s -> hv_Ltop s' = hv_Ltop s ->
  (forall h p, (h <= 3)%nat -> N !! (h, pos (S h) a) = Some p -> rd s' p (index h a) = rd s p (index h a)) ->
  view s' a = view s a.
Proof.
  intros Ht Ha E1 E2 Hs. unfold view. rewrite E1, E2.
  apply (view_from_frame s s' N a Ht Hs); [apply root_le |].
  rewrite pos_root by (done || apply Ht). apply Ht.
Qed.

(** The view through the node on the path. *)
Lemma view_node s N a : typed s N -> in_space s a ->
  forall n h p, (h + n = root (vaddr_bits s))%nat -> N !! (h, pos (S h) a) = Some p -> view s a = view_from h s p a.
Proof.
  intros Ht Ha n. induction n as [| n IH]; intros h p Hh Hp.
  - rewrite Nat.add_0_r in Hh. subst h. unfold view. rewrite pos_root in Hp by (done || apply Ht).
    rewrite (ty_root _ _ Ht) in Hp. by injection Hp as ->.
  - pose proof (root_le (vaddr_bits s)) as Hr.
    destruct (ty_parent _ _ Ht _ _ _ Hp) as [[-> _] | [_ [q Hq]]]; [lia |].
    rewrite pos_step in Hq by lia.
    rewrite (IH (S h) q) by (done || lia). cbn [view_from].
    destruct (path_entry s N (S h) a q Ht) as (e & Hr' & He); [lia | done |]. rewrite Hr'. cbn [mbind option_bind].
    unfold entry_ok in He. cbn [pred] in He. destruct (is_tab (S h) e).
    + rewrite He in Hp. by injection Hp as ->.
    + destruct He as [_ He]. rewrite He in Hp by done. done.
Qed.

Lemma leaf_not_tab h e : leaf_ok h e -> is_tab h e = false.
Proof.
  assert (Hk : forall k, 14 <= k -> forall e, leaf k e -> L3_IS_TABLE e = false /\ (k <> 14 -> L2_IS_TABLE e = false)).
  { clear. intros k Hk e He. assert (Hpk : (2 ^ 14 | 2 ^ k)).
    { exists (2 ^ (k - 14)). rewrite <- Z.pow_add_r by lia. f_equal. lia. }
    assert (2 ^ 14 <= 2 ^ k) by (apply Z.pow_le_mono_r; lia).
    unfold L3_IS_TABLE, L2_IS_TABLE.
    destruct He as [| hi t a Hhi Ht Htk Hm Ha Ham | hi t Hhi Hm8 Ht Htk Hm Hn | hi t Hhi Hm8 Ht Hm]; [done | | |].
    - assert (Hm14 : t mod 2 ^ 14 = 0).
      { apply Z.mod_divide; [lia |]. etrans; [exact Hpk |]. apply Z.mod_divide; lia. }
      assert (Ho : a mod 2 = 1) by (destruct (k =? 14); dlia).
      destruct (hw_fields hi t a) as (E1 & E2 & _ & _ & E5); try done; [lia |].
      unfold IS_HW, IS_SW in *. apply andb_true_iff in E1 as [E1 E1']. rewrite E1', E2. split; [by rewrite andb_false_r |].
      intros Hne. rewrite (proj2 (Z.eqb_neq k 14)) in Ham by done. rewrite (proj2 (Z.eqb_neq _ 1)) by dlia.
      apply andb_false_r.
    - destruct (sw_fields hi t 0) as (_ & _ & E3 & _); auto; [lia | lia |]. rewrite Z.add_0_r in E3.
      change (0 =? 2) with false in E3. rewrite E3, !andb_false_r. done.
    - destruct (sw_fields hi t 0) as (_ & _ & E3 & _); auto; [dlia |]. rewrite Z.add_0_r in E3.
      change (0 =? 2) with false in E3. rewrite E3, !andb_false_r. done. }
  destruct h as [|[|[| h]]]; cbn; intros He; [done | by apply (Hk 14) | by apply (Hk 25) | by subst].
Qed.

Lemma view_leaf h s p e a : rd s p (index h a) = Some e -> leaf_ok h e -> view_from h s p a = Some (leaf_den h e a).
Proof.
  intros Hr He. destruct h as [| h]; cbn [view_from]; rewrite Hr; cbn [mbind option_bind]; [done |].
  by rewrite leaf_not_tab by done.
Qed.

(** The nodes below entry number [y] of height [h]. *)
Definition under (h : nat) (y : Z) (n : nat * Z) : Prop := (n.1 < h)%nat /\ n.2 / 2 ^ (sh h - sh (S n.1)) = y.

Lemma sh_mono h k : (h <= k <= 4)%nat -> sh h <= sh k.
Proof. intros H. destruct h as [|[|[|[|[|h]]]]], k as [|[|[|[|[|k]]]]]; cbn; lia. Qed.

Lemma sh_pos h : 0 <= sh h.
Proof. destruct h as [|[|[|[|h]]]]; done. Qed.

Lemma width_pos h : 0 <= width h.
Proof. by destruct h. Qed.

Lemma pos_div h k a : (h <= k <= 4)%nat -> pos h a / 2 ^ (sh k - sh h) = pos k a.
Proof.
  intros H. pose proof (sh_mono h k H). pose proof (sh_pos h). unfold pos.
  rewrite Z.div_div by (apply Z.pow_nonzero || apply Z.pow_pos_nonneg; lia). rewrite <- Z.pow_add_r by lia. do 2 f_equal. lia.
Qed.

Lemma under_parent h y k x : (S (S k) <= 4)%nat ->
  under h y (S k, x / 2 ^ width (S k)) -> under h y (k, x).
Proof.
  intros Hk [H1 H2]. cbn [fst snd] in *. split; cbn [fst snd]; [lia |]. rewrite <- H2.
  assert (Hm : sh (S (S k)) <= sh h \/ (h <= S k)%nat) by (destruct (Nat.le_gt_cases h (S k)); [auto | left];
    destruct h as [|[|[|[|[|h]]]]], k as [|[|[|k]]]; cbn in *; lia).
  destruct Hm as [Hm | Hm]; [| lia]. pose proof (sh_step (S k) ltac:(lia)). pose proof (width_pos (S k)).
  rewrite Z.div_div by (apply Z.pow_nonzero || apply Z.pow_pos_nonneg; lia). rewrite <- Z.pow_add_r by lia. do 2 f_equal. lia.
Qed.

Lemma under_child h y k x : (0 < h <= 4)%nat -> (k < h)%nat -> under h y (pred k, x) -> (0 < k)%nat ->
  under h y (k, x / 2 ^ width k).
Proof.
  intros Hh Hk [H1 H2] Hk0. destruct k as [| k]; [lia |]. cbn [fst snd pred] in *. split; cbn [fst snd]; [lia |]. rewrite <- H2.
  pose proof (sh_step (S k) ltac:(lia)). pose proof (width_pos (S k)). pose proof (sh_mono (S (S k)) h ltac:(lia)).
  rewrite Z.div_div by (apply Z.pow_nonzero || apply Z.pow_pos_nonneg; lia). rewrite <- Z.pow_add_r by lia. do 2 f_equal. lia.
Qed.

(** The number of an entry determines its table and its index. *)
Lemma number_split w x i y j : 0 <= w -> 0 <= i < 2 ^ w -> 0 <= j < 2 ^ w ->
  x * 2 ^ w + i = y * 2 ^ w + j -> x = y /\ i = j.
Proof.
  intros Hw Hi Hj E. assert (x = y); [| subst; lia].
  assert (H1 : (x * 2 ^ w + i) / 2 ^ w = x) by (rewrite Z.div_add_l by lia; rewrite Z.div_small by lia; lia).
  assert (H2 : (y * 2 ^ w + j) / 2 ^ w = y) by (rewrite Z.div_add_l by lia; rewrite Z.div_small by lia; lia).
  congruence.
Qed.

(** ** Replacing an entry by a leaf *)

Record replaced (s s' : hv_pt) (N N' : nodes) (h : nat) (a p v : Z) : Prop := {
  rp_bits : vaddr_bits s' = vaddr_bits s;
  rp_top : hv_Ltop s' = hv_Ltop s;
  rp_nodes n q : N' !! n = Some q <-> N !! n = Some q /\ ~ under h (pos h a) n;
  rp_other n q : N' !! n = Some q -> q <> p -> tables s' !! q = tables s !! q;
  rp_table es : tables s !! p = Some es -> tables s' !! p = Some (<[Z.to_nat (index h a) := v]> es);
}.

Lemma rd_replaced s s' N N' h a p v : typed s N -> (h <= 3)%nat -> N !! (h, pos (S h) a) = Some p ->
  replaced s s' N N' h a p v -> rd s' p (index h a) = Some v.
Proof.
  intros Ht Hh Hp Hr. destruct (ty_tables _ _ Ht _ _ _ Hp) as (es & He & Hl & _).
  pose proof (index_range h a) as Hi. unfold rd. destruct (Z.ltb_spec (index h a) 0); [lia |].
  rewrite (rp_table _ _ _ _ _ _ _ _ Hr es He). cbn. apply list_lookup_insert_eq. rewrite Hl. lia.
Qed.

Lemma replaced_typed s s' N N' h a p v : typed s N -> in_space s a -> (h <= root (vaddr_bits s))%nat ->
  N !! (h, pos (S h) a) = Some p -> leaf_ok h v -> replaced s s' N N' h a p v -> typed s' N'.
Proof.
  intros Ht Ha Hh Hp Hv Hr. pose proof (root_le (vaddr_bits s)) as Hroot.
  pose proof (rp_nodes _ _ _ _ _ _ _ _ Hr) as HN.
  assert (Hnone : forall n, N !! n = None -> N' !! n = None).
  { intros n Hn. destruct (N' !! n) as [q|] eqn:E; [| done]. apply HN in E as [E _]. congruence. }
  split; rewrite ?(rp_bits _ _ _ _ _ _ _ _ Hr), ?(rp_top _ _ _ _ _ _ _ _ Hr).
  - apply Ht.
  - apply HN. split; [apply Ht |]. intros [Hu _]. cbn in Hu. lia.
  - intros k x q [Hq _]%HN. by apply (ty_addr _ _ Ht k x).
  - intros m n q [Hm _]%HN [Hn _]%HN. by apply (ty_inj _ _ Ht m n q).
  - intros k x q HN'q. pose proof HN'q as [Hq Hu]%HN. destruct (ty_tables _ _ Ht _ _ _ Hq) as (es & He & Hl & Hok).
    assert (Hk : (k <= root (vaddr_bits s))%nat) by (destruct (ty_parent _ _ Ht _ _ _ Hq) as [[-> _]|[? _]]; lia).
    assert (Hkeep : forall i e, es !! i = Some e -> (k, x * 2 ^ width k + Z.of_nat i) <> (h, pos h a) ->
      entry_ok N' k (x * 2 ^ width k + Z.of_nat i) e).
    { intros i e Hi Hne. specialize (Hok i e Hi). assert (Hi' : 0 <= Z.of_nat i < 2 ^ width k).
      { apply lookup_lt_Some in Hi. rewrite Hl in Hi. by apply idx_bound. }
      set (y := x * 2 ^ width k + Z.of_nat i) in *.
      assert (Hy : y / 2 ^ width k = x) by (unfold y; rewrite Z.div_add_l by lia; rewrite Z.div_small by lia; lia).
      unfold entry_ok in *. destruct (is_tab k e) eqn:Et; [| destruct Hok as [? Hn]; split; [done | intros; by apply Hnone, Hn]].
      apply HN. split; [done |]. intros Hu2. destruct k as [| k]; [done |]. cbn [pred] in *.
      destruct (Nat.eq_dec (S k) h) as [<- | Hneq].
      - apply Hne. f_equal. destruct Hu2 as [_ Hu2]. cbn [fst snd] in Hu2. rewrite Z.sub_diag in Hu2.
        change (2 ^ 0) with 1 in Hu2. by rewrite Z.div_1_r in Hu2.
      - apply Hu. rewrite <- Hy. destruct Hu2 as [Hu21 Hu22]. cbn [fst] in Hu21.
        apply under_child; [lia | lia | by split | lia]. }
    destruct (Z.eq_dec q p) as [-> | Hqp].
    + assert (E : (k, x) = (h, pos (S h) a)) by (by apply (ty_inj _ _ Ht _ _ p)). injection E as -> ->.
      exists (<[Z.to_nat (index h a) := v]> es). split; [by apply Hr |]. split; [by rewrite length_insert |].
      intros i e Hi. destruct (decide (i = Z.to_nat (index h a))) as [-> | Hne].
      * pose proof (index_range h a). rewrite list_lookup_insert_eq in Hi by (rewrite Hl; lia). injection Hi as <-.
        unfold entry_ok. rewrite leaf_not_tab by done. split; [done |]. intros Hh0.
        destruct (N' !! (pred h, _)) as [r|] eqn:E; [| done]. apply HN in E as [_ E]. exfalso. apply E.
        destruct h as [| h]; [done |]. split; cbn [fst snd pred]; [lia |]. rewrite Z.sub_diag. change (2 ^ 0) with 1.
        rewrite Z.div_1_r, Z2Nat.id by lia. symmetry. apply pos_index. lia.
      * rewrite list_lookup_insert_ne in Hi by done. apply Hkeep; [done |]. intros [=E].
        rewrite (pos_index h a) in E by lia. pose proof (index_range h a). apply Hne.
        apply lookup_lt_Some in Hi. rewrite Hl in Hi. apply idx_bound in Hi.
        apply number_split in E as [_ E]; [lia | apply width_pos | done | done].
    + exists es. split; [by rewrite (rp_other _ _ _ _ _ _ _ _ Hr _ _ HN'q) |]. split; [done |].
      intros i e Hi. apply Hkeep; [done |]. intros [=-> E]. apply Hqp.
      rewrite (pos_index h a) in E by lia. pose proof (index_range h a).
      apply lookup_lt_Some in Hi. rewrite Hl in Hi. apply idx_bound in Hi.
      apply number_split in E as [-> _]; [congruence | apply width_pos | done | done].
  - intros k x q [Hq Hu]%HN. destruct (ty_parent _ _ Ht _ _ _ Hq) as [? | [Hk [r Hpar]]]; [by left |]. right.
    split; [done |]. exists r. apply HN. split; [done |]. intros Hu2. apply Hu.
    apply under_parent; [lia | done].
Qed.

Lemma replaced_view s s' N N' h a p v b : typed s N -> in_space s a -> (h <= root (vaddr_bits s))%nat ->
  N !! (h, pos (S h) a) = Some p -> leaf_ok h v -> replaced s s' N N' h a p v -> in_space s b ->
  view s' b = if pos h b =? pos h a then Some (leaf_den h v b) else view s b.
Proof.
  intros Ht Ha Hh Hp Hv Hr Hb. pose proof (root_le (vaddr_bits s)) as Hroot.
  pose proof (replaced_typed s s' N N' h a p v Ht Ha Hh Hp Hv Hr) as Ht'.
  pose proof (rp_nodes _ _ _ _ _ _ _ _ Hr) as HN. pose proof (rp_bits _ _ _ _ _ _ _ _ Hr) as Hbits.
  destruct (Z.eqb_spec (pos h b) (pos h a)) as [E | Hne].
  - assert (E1 : pos (S h) b = pos (S h) a) by (rewrite <- !pos_step by lia; by rewrite E).
    assert (E2 : index h b = index h a).
    { rewrite !(pos_index h), E1 in E by lia. lia. }
    rewrite (view_node s' N' b Ht') with (n := (root (vaddr_bits s) - h)%nat) (h := h) (p := p);
      [| by unfold in_space; rewrite Hbits | rewrite Hbits; lia |].
    + pose proof (rd_replaced s s' N N' h a p v Ht ltac:(lia) Hp Hr) as Hrd. rewrite <- E2 in Hrd.
      by apply view_leaf.
    + rewrite E1. apply HN. split; [done |]. intros [Hu _]. cbn in Hu. lia.
  - apply (view_frame s s' N b Ht Hb Hbits (rp_top _ _ _ _ _ _ _ _ Hr)). intros k q Hk Hq.
    assert (Hq' : N' !! (k, pos (S k) b) = Some q).
    { apply HN. split; [done |]. intros [Hu1 Hu2]. cbn [fst snd] in *. apply Hne. rewrite <- Hu2.
      symmetry. apply pos_div. lia. }
    unfold rd. destruct (_ <? 0); [done |]. destruct (Z.eq_dec q p) as [-> | Hqp].
    + assert (E : (k, pos (S k) b) = (h, pos (S h) a)) by (by apply (ty_inj _ _ Ht _ _ p)). injection E as -> E.
      destruct (ty_tables _ _ Ht _ _ _ Hp) as (es & He & Hl & _). rewrite He, (rp_table _ _ _ _ _ _ _ _ Hr es He). cbn.
      apply list_lookup_insert_ne. pose proof (index_range h a). pose proof (index_range h b). intros Ei. apply Hne.
      rewrite !(pos_index h), E by lia. lia.
    + by rewrite (rp_other _ _ _ _ _ _ _ _ Hr _ _ Hq' Hqp).
Qed.

(** ** Replacing a leaf by a table of equivalent leaves *)

Record attached (s s' : hv_pt) (h : nat) (a q p v : Z) (es : list Z) : Prop := {
  at_bits : vaddr_bits s' = vaddr_bits s;
  at_top : hv_Ltop s' = hv_Ltop s;
  at_new : tables s' !! p = Some es;
  at_table eq : tables s !! q = Some eq -> tables s' !! q = Some (<[Z.to_nat (index (S h) a) := v]> eq);
  at_other r : r <> q -> r <> p -> tables s' !! r = tables s !! r;
}.

Section attach.
Context (s s' : hv_pt) (N : nodes) (h : nat) (a q p v e : Z) (es : list Z).
Context (Ht : typed s N) (Ha : in_space s a) (Hh : (S h <= root (vaddr_bits s))%nat).
Context (Hq : N !! (S h, pos (S (S h)) a) = Some q) (He : rd s q (index (S h) a) = Some e) (Hnt : is_tab (S h) e = false).
Context (Hfresh : tables s !! p = None) (Hp : 0 < p < 2 ^ 50 /\ (2 ^ 14 | p)).
Context (Hlen : length es = Z.to_nat (2 ^ width h)).
Context (Hes : forall i e', es !! i = Some e' -> leaf_ok h e' /\
  forall b, 0 <= b -> pos h b = pos (S h) a * 2 ^ width h + Z.of_nat i -> leaf_den h e' b = leaf_den (S h) e b).
Context (Hv : is_tab (S h) v = true) (Hvp : v .& PTE_TARGET_MASK = p).
Context (Hat : attached s s' h a q p v es).

Let N' : nodes := <[(h, pos (S h) a) := p]> N.

Lemma attach_absent : N !! (h, pos (S h) a) = None.
Proof.
  pose proof (root_le (vaddr_bits s)).
  destruct (path_entry s N (S h) a q Ht ltac:(lia) Hq) as (e' & He' & Hok). rewrite He in He'. injection He' as <-.
  unfold entry_ok in Hok. rewrite Hnt in Hok. by apply Hok.
Qed.

Lemma attach_node n r : N !! n = Some r -> N' !! n = Some r /\ r <> p.
Proof.
  intros Hn. unfold N'. rewrite lookup_insert_ne.
  - split; [done |]. intros ->. destruct n as [k x]. destruct (ty_tables _ _ Ht _ _ _ Hn) as (? & ? & _). congruence.
  - intros E. subst n. rewrite attach_absent in Hn. done.
Qed.

Lemma attach_new : N' !! (h, pos (S h) a) = Some p.
Proof. apply lookup_insert_eq. Qed.

(** No node lies below the new one. *)
Lemma attach_leafless x : (0 < h)%nat -> x / 2 ^ width h = pos (S h) a -> N' !! (pred h, x) = None.
Proof.
  intros Hh0 Hx. unfold N'. rewrite lookup_insert_ne by (intros [=]; lia).
  destruct (N !! (pred h, x)) as [r|] eqn:E; [| done]. exfalso.
  destruct (ty_parent _ _ Ht _ _ _ E) as [[E1 _]|[_ [t E1]]]; [lia |].
  replace (S (pred h)) with h in E1 by lia. rewrite Hx in E1. pose proof attach_absent. congruence.
Qed.

Lemma attached_typed : typed s' N'.
Proof.
  pose proof (root_le (vaddr_bits s)) as Hroot. split; rewrite ?(at_bits _ _ _ _ _ _ _ _ Hat), ?(at_top _ _ _ _ _ _ _ _ Hat).
  - apply Ht.
  - apply attach_node, Ht.
  - intros k x r. unfold N'. intros [[[= <- <-] <-] | [_ Hn]]%lookup_insert_Some; [done |]. by apply (ty_addr _ _ Ht k x).
  - intros m n r. unfold N'. intros [[<- <-] | [_ Hm]]%lookup_insert_Some [[<- Hr] | [_ Hn]]%lookup_insert_Some; try done.
    + by destruct (attach_node _ _ Hn).
    + subst r. by destruct (attach_node _ _ Hm).
    + by apply (ty_inj _ _ Ht m n r).
  - intros k x r Hkx. pose proof Hkx as Hkx'. unfold N' in Hkx.
    apply lookup_insert_Some in Hkx as [[[= <- <-] <-] | [Hne Hn]].
    + exists es. split; [apply Hat |]. split; [done |]. intros i e' Hi. destruct (Hes i e' Hi) as [Hl _].
      unfold entry_ok. rewrite leaf_not_tab by done. split; [done |]. intros Hh0.
      apply attach_leafless; [lia |]. apply lookup_lt_Some in Hi. rewrite Hlen in Hi. apply idx_bound in Hi.
      rewrite Z.div_add_l by lia. rewrite Z.div_small by lia. lia.
    + destruct (ty_tables _ _ Ht _ _ _ Hn) as (es0 & He0 & Hl0 & Hok).
      assert (Hkeep : forall i e, es0 !! i = Some e -> (k, x * 2 ^ width k + Z.of_nat i) <> (S h, pos (S h) a) ->
        entry_ok N' k (x * 2 ^ width k + Z.of_nat i) e).
      { intros i e0 Hi Hne'. specialize (Hok i e0 Hi). unfold entry_ok in *. destruct (is_tab k e0).
        - by apply attach_node.
        - destruct Hok as [? Hno]. split; [done |]. intros Hk0. unfold N'. rewrite lookup_insert_ne; [by apply Hno |].
          intros [= -> E]. apply Hne'. rewrite E. f_equal. lia. }
      destruct (Z.eq_dec r q) as [-> | Hrq].
      * assert (E : (k, x) = (S h, pos (S (S h)) a)) by (by apply (ty_inj _ _ Ht _ _ q)). injection E as -> ->.
        exists (<[Z.to_nat (index (S h) a) := v]> es0). split; [by apply Hat |]. split; [by rewrite length_insert |].
        intros i e' Hi. pose proof (index_range (S h) a).
        destruct (decide (i = Z.to_nat (index (S h) a))) as [-> | Hni].
        -- rewrite list_lookup_insert_eq in Hi by (rewrite Hl0; lia). injection Hi as <-.
           rewrite Z2Nat.id, <- pos_index by lia. unfold entry_ok. rewrite Hv, Hvp. cbn [pred]. apply attach_new.
        -- rewrite list_lookup_insert_ne in Hi by done. apply Hkeep; [done |]. intros [=E].
           rewrite (pos_index (S h) a) in E by lia. apply Hni.
           apply lookup_lt_Some in Hi. rewrite Hl0 in Hi. apply idx_bound in Hi.
           apply number_split in E as [_ E]; [lia | apply width_pos | done | done].
      * exists es0. destruct (attach_node _ _ Hn) as [_ Hrp].
        split; [by rewrite (at_other _ _ _ _ _ _ _ _ Hat _ Hrq Hrp) |]. split; [done |].
        intros i e' Hi. apply Hkeep; [done |]. intros [= -> E]. apply Hrq.
        rewrite (pos_index (S h) a) in E by lia. pose proof (index_range (S h) a).
        apply lookup_lt_Some in Hi. rewrite Hl0 in Hi. apply idx_bound in Hi.
        apply number_split in E as [-> _]; [congruence | apply width_pos | done | done].
  - intros k x r. unfold N' at 1. intros [[[= <- <-] <-] | [_ Hn]]%lookup_insert_Some.
    + right. split; [lia |]. exists q. rewrite pos_step by lia. by apply attach_node.
    + destruct (ty_parent _ _ Ht _ _ _ Hn) as [? | [Hk [t Hpar]]]; [by left |]. right. split; [done |].
      exists t. by apply attach_node.
Qed.

Lemma attached_view b : in_space s b -> view s' b = view s b.
Proof.
  intros Hb. pose proof (root_le (vaddr_bits s)) as Hroot. pose proof attached_typed as Ht'.
  pose proof (at_bits _ _ _ _ _ _ _ _ Hat) as Hbits.
  destruct (Z.eq_dec (pos (S h) b) (pos (S h) a)) as [E | Hne].
  - assert (Hn' : N' !! (h, pos (S h) b) = Some p) by (rewrite E; apply attach_new).
    rewrite (view_node s' N' b Ht') with (n := (root (vaddr_bits s) - h)%nat) (h := h) (p := p);
      [| by unfold in_space; rewrite Hbits | rewrite Hbits; lia | done].
    assert (E1 : pos (S (S h)) b = pos (S (S h)) a) by (rewrite <- (pos_step (S h) a), <- (pos_step (S h) b), E by lia; done).
    assert (E2 : index (S h) b = index (S h) a) by (pose proof E as E3; rewrite !(pos_index (S h)), E1 in E3 by lia; lia).
    rewrite (view_node s N b Ht) with (n := (root (vaddr_bits s) - S h)%nat) (h := S h) (p := q);
      [| done | lia | by rewrite E1].
    cbn [view_from]. rewrite E2, He. cbn [mbind option_bind]. rewrite Hnt.
    pose proof (index_range h b) as Hi.
    destruct (rd_Some s' p (index h b) es) as (e' & Hr & Hn); [unfold zlen; rewrite Hlen; lia | apply Hat |].
    destruct (Hes _ _ Hn) as [Hl Hd].
    assert (Hview : view_from h s' p b = Some (leaf_den h e' b)).
    { by apply view_leaf. }
    rewrite Hview. f_equal. apply Hd; [apply Hb |]. rewrite (pos_index h b), E, Z2Nat.id by lia. done.
  - apply (view_frame s s' N b Ht Hb Hbits (at_top _ _ _ _ _ _ _ _ Hat)). intros k r Hk Hr.
    destruct (attach_node _ _ Hr) as [_ Hrp]. unfold rd. destruct (_ <? 0); [done |].
    destruct (Z.eq_dec r q) as [-> | Hrq]; [| by rewrite (at_other _ _ _ _ _ _ _ _ Hat _ Hrq Hrp)].
    assert (E : (k, pos (S k) b) = (S h, pos (S (S h)) a)) by (by apply (ty_inj _ _ Ht _ _ q)). injection E as -> E.
    destruct (ty_tables _ _ Ht _ _ _ Hq) as (es0 & He0 & Hl0 & _). rewrite He0, (at_table _ _ _ _ _ _ _ _ Hat _ He0). cbn.
    apply list_lookup_insert_ne. pose proof (index_range (S h) a). pose proof (index_range (S h) b). intros Ei. apply Hne.
    rewrite !(pos_index (S h)), E by lia. lia.
Qed.
End attach.

(** ** Running the operations *)

Definition runs {A} (m : P A) (s : hv_pt) (Q : A -> hv_pt -> Prop) : Prop :=
  match m s with Some (a, s') => Q a s' | None => False end.

Lemma runs_bind {A B} (m : P A) (f : A -> P B) s Q :
  runs m s (fun a s' => runs (f a) s' Q) -> runs (m ≫= f) s Q.
Proof. unfold runs, mbind, P_bind. by destruct (m s) as [[a s']|]. Qed.

Lemma runs_mono {A} (m : P A) s (Q Q' : A -> hv_pt -> Prop) :
  runs m s Q -> (forall a s', Q a s' -> Q' a s') -> runs m s Q'.
Proof. unfold runs. destruct (m s) as [[a s']|]; auto. Qed.

Lemma runs_assert {A} b (k : P A) s Q : b = true -> runs k s Q -> runs (assert b;; k) s Q.
Proof. by intros ->. Qed.

Lemma runs_load {A} p i v (k : Z -> P A) s Q : rd s p i = Some v -> runs (k v) s Q -> runs (load p i ≫= k) s Q.
Proof. intros Hr Hk. unfold runs, mbind, P_bind, load in *. by rewrite Hr. Qed.

(** The allocator: below [limit] live blocks it returns a fresh, page-aligned
    address. *)
Class Allocator (memalign : gmap Z (list Z) -> Z -> Z) (limit : nat) : Prop :=
  al_fresh t n : (size t < limit)%nat ->
    t !! memalign t n = None /\ 0 < memalign t n < 2 ^ 50 /\ (2 ^ 14 | memalign t n).

Section ops.
Context (memalign : gmap Z (list Z) -> Z -> Z) (limit : nat) `{!Allocator memalign limit}.

(** Same space, same view, at most [k] more tables. *)
Definition grown (k : nat) (s s' : hv_pt) : Prop :=
  vaddr_bits s' = vaddr_bits s /\ (forall b, in_space s b -> view s' b = view s b) /\
  (size (tables s') <= size (tables s) + k)%nat.

Lemma grown_refl s : grown 0 s s.
Proof. split_and!; [done | done | lia]. Qed.
Lemma grown_trans j k s1 s2 s3 : grown j s1 s2 -> grown k s2 s3 -> grown (j + k) s1 s3.
Proof.
  intros (E1 & V1 & S1) (E2 & V2 & S2). split_and!; [congruence | | lia].
  intros b Hb. rewrite V2, V1; [done | done |]. unfold in_space in *. by rewrite E1.
Qed.
Lemma grown_le j k s s' : grown j s s' -> (j <= k)%nat -> grown k s s'.
Proof. intros (? & ? & ?) ?. split_and!; [done | done | lia]. Qed.

(** The result of a getter: the node of height [h] on the path of [a]. *)
Definition got (k h : nat) (a : Z) (s : hv_pt) (p : Z) (s' : hv_pt) : Prop :=
  grown k s s' /\ exists N, typed s' N /\ N !! (h, pos (S h) a) = Some p.

Lemma size_insert_new (t : gmap Z (list Z)) p es : t !! p = None -> size (<[p := es]> t) = S (size t).
Proof. apply map_size_insert_None. Qed.

Lemma new_attach s N h a q e es (vf : Z -> Z) : typed s N -> in_space s a -> (S h <= root (vaddr_bits s))%nat ->
  N !! (S h, pos (S (S h)) a) = Some q -> rd s q (index (S h) a) = Some e -> is_tab (S h) e = false ->
  length es = Z.to_nat (2 ^ width h) ->
  (forall i e', es !! i = Some e' -> leaf_ok h e' /\
    forall b, 0 <= b -> pos h b = pos (S h) a * 2 ^ width h + Z.of_nat i -> leaf_den h e' b = leaf_den (S h) e b) ->
  (forall p, 0 < p < 2 ^ 50 -> (2 ^ 14 | p) -> is_tab (S h) (vf p) = true /\ vf p .& PTE_TARGET_MASK = p) ->
  (size (tables s) < limit)%nat ->
  runs (p ← new_table memalign es; store q (index (S h) a) (vf p);; mret p) s (got 1 h a s).
Proof.
  intros Ht Ha Hh Hq He Hnt Hlen Hes Hvf Hsz. pose proof (root_le (vaddr_bits s)).
  destruct (al_fresh (tables s) (8 * zlen es) Hsz) as (Hf & Hp & Hpa). set (p := memalign (tables s) (8 * zlen es)) in *.
  destruct (ty_tables _ _ Ht _ _ _ Hq) as (eq & Heq & Hlq & _).
  assert (Hpq : q <> p) by congruence. pose proof (index_range (S h) a) as Hi.
  unfold runs, mbind, P_bind, new_table, store. fold p. cbn [set_tables tables].
  rewrite lookup_insert_ne, Heq by done. cbn [mbind option_bind].
  destruct (Z.leb_spec 0 (index (S h) a)); [| lia]. unfold zlen. rewrite Hlq.
  destruct (Z.ltb_spec (index (S h) a) (Z.of_nat (Z.to_nat (2 ^ width (S h))))); [| lia]. cbn [andb mret P_ret].
  set (s' := set_tables _ _). destruct (Hvf p Hp Hpa) as [Hv1 Hv2].
  assert (Hat : attached s s' h a q p (vf p) es).
  { split; try done.
    - cbn. rewrite lookup_insert_ne by done. apply lookup_insert_eq.
    - cbn. intros eq' Heq'. rewrite Heq in Heq'. injection Heq' as <-. apply lookup_insert_eq.
    - intros r Hrq Hrp. cbn. by rewrite !lookup_insert_ne by done. }
  split.
  - split_and!; [done | |].
    + intros b Hb. apply (attached_view s s' N h a q p (vf p) e es); done.
    + cbn. rewrite map_size_insert_Some by (exists eq; by rewrite lookup_insert_ne).
      rewrite size_insert_new by done. lia.
  - exists (<[(h, pos (S h) a) := p]> N). split; [| apply lookup_insert_eq].
    by apply (attached_typed s s' N h a q p (vf p) e es).
Qed.

Lemma l2_index_value a : l2_index a = index 2 a.
Proof. by apply index_value. Qed.
Lemma l3_index_value a : l3_index a = index 1 a.
Proof. by apply index_value. Qed.
Lemma l4_index_value a : l4_index a = index 0 a.
Proof. by apply index_value. Qed.
Lemma l1_index_value s a : in_space s a -> 0 <= vaddr_bits s <= 44 -> a .>> VADDR_L1_OFFSET_BITS = index 3 a.
Proof.
  intros [Ha Hlt] Hb. unfold index, VADDR_L1_OFFSET_BITS. cbn [sh width]. rewrite Z.shiftr_div_pow2 by lia.
  symmetry. apply Z.mod_small. split; [apply Z.div_pos; lia |].
  assert (2 ^ vaddr_bits s <= 2 ^ 44) by (apply Z.pow_le_mono_r; lia). apply Z.div_lt_upper_bound; lia.
Qed.

Lemma pointer3 p : 0 < p < 2 ^ 50 -> (2 ^ 14 | p) ->
  L2_IS_TABLE (p .| TYPE_TABLE .| PTE_VALID) = true /\ (p .| TYPE_TABLE .| PTE_VALID) .& PTE_TARGET_MASK = p.
Proof.
  intros Hp Ha. destruct (pointer_value p Ha) as [-> _]. destruct Ha as [q ->].
  unfold L2_IS_TABLE, truthy. rewrite type_value, target_value. split; [| dlia].
  rewrite (proj2 (Z.eqb_neq _ 0)), (proj2 (Z.eqb_eq _ 1)) by dlia. done.
Qed.

Lemma pointer2 p : 0 < p < 2 ^ 50 -> (2 ^ 14 | p) ->
  L3_IS_TABLE (p .| TYPE_TABLE) = true /\ (p .| TYPE_TABLE) .& PTE_TARGET_MASK = p.
Proof.
  intros Hp Ha. destruct (pointer_value p Ha) as [_ ->]. destruct Ha as [q ->].
  unfold L3_IS_TABLE, IS_SW. rewrite valid_value, type_value, target_value. unfold truthy. split; [| dlia].
  rewrite (proj2 (Z.eqb_neq _ 0)), (proj2 (Z.eqb_neq _ 1)), (proj2 (Z.eqb_eq _ 1)) by dlia. done.
Qed.

Lemma get_l2_spec s N a : typed s N -> in_space s a -> (size (tables s) < limit)%nat ->
  runs (hv_pt_get_l2 memalign a) s (got 1 2 a s).
Proof.
  intros Ht Ha Hsz. pose proof (ty_bits _ _ Ht) as Hb. pose proof (ty_root _ _ Ht) as Hr. pose proof (pos_root s a Ha Hb) as Hp.
  unfold hv_pt_get_l2. apply runs_bind. cbn [runs get_vaddr_bits]. apply runs_bind. cbn [runs get_Ltop].
  unfold root in Hr, Hp. destruct (Z.leb_spec (vaddr_bits s) 36) as [Hle | Hgt].
  - apply runs_assert.
    + apply Z.eqb_eq. unfold VADDR_L1_OFFSET_BITS. rewrite Z.shiftr_div_pow2 by lia. exact Hp.
    + split; [eapply grown_le; [apply grown_refl | lia] |]. exists N. split; [done |]. by rewrite Hp.
  - rewrite (l1_index_value s) by done.
    assert (Htop : N !! (3%nat, pos 4 a) = Some (hv_Ltop s)) by (by rewrite Hp).
    destruct (path_entry s N 3 a (hv_Ltop s) Ht ltac:(lia) Htop) as (e & Hrd & Hok).
    eapply runs_load; [exact Hrd |]. change (L1_IS_TABLE e) with (is_tab 3 e). unfold entry_ok in Hok.
    destruct (is_tab 3 e) eqn:Et.
    + split; [eapply grown_le; [apply grown_refl | lia] |]. exists N. split; [done | exact Hok].
    + apply (new_attach s N 2 a (hv_Ltop s) e _ (fun p => p .| TYPE_TABLE .| PTE_VALID));
        [exact Ht | exact Ha | | exact Htop | exact Hrd | exact Et | apply length_entries | | | exact Hsz].
      * unfold root. destruct (Z.leb_spec (vaddr_bits s) 36); lia.
      * intros i e' Hi%entries_zero. subst e'. split; [apply leaf_none | done].
      * intros. by apply pointer3.
Qed.

Lemma mod_offset h b x i : (h <= 2)%nat -> pos h b = x * 2 ^ width h + i -> 0 <= i < 2 ^ width h -> 0 <= b ->
  b mod 2 ^ sh (S h) = i * 2 ^ sh h + b mod 2 ^ sh h.
Proof.
  intros Hh Hp Hi Hb. unfold pos in Hp. rewrite sh_step by lia.
  destruct h as [|[|[| h]]]; cbn [sh width] in *; dlia || lia.
Qed.

Lemma word_add x y : x mod 4 = 0 -> word (x + y) = x + word y.
Proof. unfold word. intros. dlia. Qed.

Lemma get_l3_spec s N a : typed s N -> in_space s a -> (size (tables s) + 1 < limit)%nat ->
  runs (hv_pt_get_l3 memalign a) s (got 2 1 a s).
Proof.
  intros Ht Ha Hsz. unfold hv_pt_get_l3. apply runs_bind. eapply runs_mono; [by apply (get_l2_spec s N a); try done; lia |].
  intros q s1 (Hg & N1 & Ht1 & Hq). pose proof Hg as (Eb & _ & Es). assert (Ha1 : in_space s1 a) by (unfold in_space in *; by rewrite Eb).
  rewrite l2_index_value. destruct (path_entry s1 N1 2 a q Ht1 ltac:(lia) Hq) as (e & Hrd & Hok).
  eapply runs_load; [exact Hrd |]. change (L2_IS_TABLE e) with (is_tab 2 e). unfold entry_ok in Hok.
  destruct (is_tab 2 e) eqn:Et.
  - split; [by eapply grown_le; [done | lia] |]. exists N1. split; [done | exact Hok].
  - destruct Hok as [Hleaf _]. eapply runs_mono.
    + apply (new_attach s1 N1 1 a q e _ (fun p => p .| TYPE_TABLE .| PTE_VALID));
        [exact Ht1 | exact Ha1 | | exact Hq | exact Hrd | exact Et | apply length_split_l2 | | | lia].
      * unfold root. destruct (_ <=? _); lia.
      * intros i e' Hi. pose proof Hi as Hlt%lookup_lt_Some. rewrite length_split_l2 in Hlt. apply (idx_bound 11) in Hlt.
        destruct (split_l2_leaf e i e' Hleaf Hi) as [Hl Hd]. split; [done |].
        intros b Hb0 Hb. cbn [leaf_den].
        rewrite (mod_offset 1 b _ _ ltac:(lia) Hb Hlt Hb0 : b mod 2 ^ 25 = _), word_add by (cbn [sh]; dlia). apply Hd.
      * intros. by apply pointer3.
    + intros p s2 [Hg2 Hex]. split; [| done]. apply (grown_trans 1 1 s s1 s2 Hg Hg2).
Qed.

Lemma hw_page_type e : leaf 14 e -> negb (IS_HW e) || TYPE1 e = true.
Proof.
  intros He. destruct He as [| hi t a Hhi Ht Htk Hm Ha Ham | hi t Hhi Hm8 Ht Htk Hm Hn | hi t Hhi Hm8 Ht Hm]; [done | | |].
  - change (14 =? 14) with true in Ham. cbv iota in Ham. destruct (hw_fields hi t a) as (_ & -> & _); try dlia.
  - destruct (sw_fields hi t 0) as (E & _); [lia | lia | done | auto | lia |]. rewrite Z.add_0_r in E. by rewrite E.
  - destruct (sw_fields hi t 0) as (E & _); [lia | lia | done | auto | dlia |]. rewrite Z.add_0_r in E. by rewrite E.
Qed.

Lemma get_l4_spec s N a : typed s N -> in_space s a -> (size (tables s) + 2 < limit)%nat ->
  runs (hv_pt_get_l4 memalign a) s (got 3 0 a s).
Proof.
  intros Ht Ha Hsz. unfold hv_pt_get_l4. apply runs_bind. eapply runs_mono; [by apply (get_l3_spec s N a); try done; lia |].
  intros q s1 (Hg & N1 & Ht1 & Hq). pose proof Hg as (Eb & _ & Es). assert (Ha1 : in_space s1 a) by (unfold in_space in *; by rewrite Eb).
  rewrite l3_index_value. destruct (path_entry s1 N1 1 a q Ht1 ltac:(lia) Hq) as (e & Hrd & Hok).
  eapply runs_load; [exact Hrd |]. change (L3_IS_TABLE e) with (is_tab 1 e). unfold entry_ok in Hok.
  destruct (is_tab 1 e) eqn:Et.
  - split; [by eapply grown_le; [done | lia] |]. exists N1. split; [done | exact Hok].
  - destruct Hok as [Hleaf _]. apply runs_assert; [by apply hw_page_type |].
    destruct (soften_leaf e Hleaf) as (Hs1 & Hs2 & Hs3). eapply runs_mono.
    + apply (new_attach s1 N1 0 a q e _ (fun p => p .| TYPE_TABLE));
        [exact Ht1 | exact Ha1 | | exact Hq | exact Hrd | exact Et | apply length_split_l3 | | | lia].
      * unfold root. destruct (_ <=? _); lia.
      * intros i e' Hi. pose proof Hi as Hlt%lookup_lt_Some. rewrite length_split_l3 in Hlt. apply (idx_bound 12) in Hlt.
        destruct (split_l3_leaf _ i e' Hs2 Hs1 Hi) as [Hl Hd]. split; [done |].
        intros b Hb0 Hb. cbn [leaf_den]. rewrite Hd, Hs3.
        rewrite (mod_offset 0 b _ _ ltac:(lia) Hb Hlt Hb0 : b mod 2 ^ 14 = _). cbn [sh]. f_equal. unfold word. dlia.
      * intros. by apply pointer2.
    + intros p s2 [Hg2 Hex]. split; [| done]. apply (grown_trans 2 1 s s1 s2 Hg Hg2).
Qed.

(** ** One step of a mapping loop *)

(** The nodes left when the entry on the path of [a] becomes a leaf. *)
Definition prune (N : nodes) (h : nat) (a : Z) : nodes :=
  filter (fun nq => ~ under h (pos h a) nq.1) N.

Lemma prune_spec N h a n q : prune N h a !! n = Some q <-> N !! n = Some q /\ ~ under h (pos h a) n.
Proof. apply map_lookup_filter_Some. Qed.

(** Whatever was freed below it, the entry is replaced. *)
Definition leafed (s : hv_pt) (h : nat) (a v : Z) (s' : hv_pt) : Prop :=
  vaddr_bits s' = vaddr_bits s /\ (size (tables s') <= size (tables s))%nat /\ (exists N, typed s' N) /\
  forall b, in_space s b -> view s' b = if pos h b =? pos h a then Some (leaf_den h v b) else view s b.

Lemma store_spec s s1 N h a p v : typed s N -> in_space s a -> (h <= root (vaddr_bits s))%nat ->
  N !! (h, pos (S h) a) = Some p -> leaf_ok h v ->
  vaddr_bits s1 = vaddr_bits s -> hv_Ltop s1 = hv_Ltop s -> (size (tables s1) <= size (tables s))%nat ->
  (forall n q, prune N h a !! n = Some q -> tables s1 !! q = tables s !! q) ->
  runs (store p (index h a) v) s1 (fun _ s' => leafed s h a v s').
Proof.
  intros Ht Ha Hh Hp Hv Eb El Esz Hs1. pose proof (root_le (vaddr_bits s)).
  assert (Hp' : prune N h a !! (h, pos (S h) a) = Some p).
  { apply prune_spec. split; [done |]. intros [Hu _]. cbn in Hu. lia. }
  destruct (ty_tables _ _ Ht _ _ _ Hp) as (es & He & Hl & _). pose proof (index_range h a) as Hi.
  unfold runs, store. rewrite (Hs1 _ _ Hp'), He. cbn [mbind option_bind]. unfold zlen. rewrite Hl.
  destruct (Z.leb_spec 0 (index h a)); [| lia].
  destruct (Z.ltb_spec (index h a) (Z.of_nat (Z.to_nat (2 ^ width h)))); [| lia]. cbn [andb].
  set (s' := set_tables _ _).
  assert (Hr : replaced s s' N (prune N h a) h a p v).
  { split; try done.
    - apply prune_spec.
    - intros n q Hn Hqp. cbn. rewrite lookup_insert_ne by done. by apply Hs1 with n.
    - intros es' He'. cbn. rewrite lookup_insert_eq. f_equal. f_equal. congruence. }
  split; [done |]. split.
  { cbn. rewrite map_size_insert_Some; [done |]. exists es. by rewrite (Hs1 _ _ Hp'). }
  split; [exists (prune N h a); by apply (replaced_typed s s' N _ h a p v) |].
  intros b Hb. by apply (replaced_view s s' N (prune N h a) h a p v).
Qed.

Lemma free_spec s p es : tables s !! p = Some es ->
  runs (free p) s (fun _ s' => s' = set_tables (delete p (tables s)) s).
Proof. intros He. unfold runs, free. by rewrite He. Qed.

(** Freeing the L4 tables of an L3 table with entries [es]. *)
Definition l4_of (es : list Z) (i : nat) (r : Z) : Prop :=
  exists e, es !! i = Some e /\ is_tab 1 e = true /\ e .& PTE_TARGET_MASK = r.

Lemma free_l4s_spec p es : forall idxs s, NoDup idxs -> Forall (fun i => (i < length es)%nat) idxs ->
  tables s !! p = Some es ->
  (forall i r, i ∈ idxs -> l4_of es i r -> is_Some (tables s !! r)) ->
  (forall i r, l4_of es i r -> r <> p) ->
  (forall i j r, l4_of es i r -> l4_of es j r -> i = j) ->
  runs (free_l4s p idxs) s (fun _ s' =>
    vaddr_bits s' = vaddr_bits s /\ hv_Ltop s' = hv_Ltop s /\ (size (tables s') <= size (tables s))%nat /\
    forall q, (forall i, ~ l4_of es i q) -> tables s' !! q = tables s !! q).
Proof.
  induction idxs as [| i idxs IH]; intros s Hnd Hlt Hp Hsome Hnp Hinj; cbn; [by split_and! |].
  inversion_clear Hnd as [| ? ? Hni Hnd']. rename Hnd' into Hnd. inversion_clear Hlt as [| ? ? Hi Hlt'].
  destruct (lookup_lt_is_Some_2 es i Hi) as [e He].
  apply (runs_load p (Z.of_nat i) e).
  { unfold rd. destruct (Z.ltb_spec (Z.of_nat i) 0); [lia |]. rewrite Hp. cbn. by rewrite Nat2Z.id. }
  change (IS_SW e && TYPE1 e) with (is_tab 1 e). destruct (is_tab 1 e) eqn:Et.
  - assert (Hr : l4_of es i (e .& PTE_TARGET_MASK)) by (exists e; by split_and!).
    destruct (Hsome i _ (list_elem_of_here i idxs) Hr) as [es4 Hes4]. apply runs_bind.
    eapply runs_mono; [by apply (free_spec s _ es4) |]. intros [] s1 ->. eapply runs_mono; [apply IH; try done |].
    + cbn. rewrite lookup_delete_ne; [done |]. by apply (Hnp i).
    + intros j r Hj Hjr. cbn. rewrite lookup_delete_ne; [apply (Hsome j); [by apply list_elem_of_further | done] |].
      intros <-. by rewrite (Hinj i j _ Hr Hjr) in Hni.
    + intros [] s2 (E1 & E2 & E3 & E4). split_and!; [done | done | |].
      * cbn in E3. rewrite map_size_delete_Some in E3 by eauto. lia.
      * intros q Hq. rewrite E4 by done. cbn. rewrite lookup_delete_ne; [done |]. intros <-. by apply (Hq i).
  - apply runs_bind. cbn [runs mret P_ret]. apply IH; try done. intros j r Hj. apply Hsome. by apply list_elem_of_further.
Qed.

Lemma free_l3_spec s N a p : typed s N -> (1 <= root (vaddr_bits s))%nat -> N !! (1%nat, pos 2 a) = Some p ->
  runs (hv_pt_free_l3 p) s (fun _ s' =>
    vaddr_bits s' = vaddr_bits s /\ hv_Ltop s' = hv_Ltop s /\ (size (tables s') <= size (tables s))%nat /\
    forall n q, prune N 2 a !! n = Some q -> tables s' !! q = tables s !! q).
Proof.
  intros Ht Hr Hp. destruct (ty_tables _ _ Ht _ _ _ Hp) as (es & He & Hl & Hok).
  destruct (ty_addr _ _ Ht _ _ _ Hp) as [Hpos _].
  assert (Hl4 : forall i r, l4_of es i r -> (i < length es)%nat /\ N !! (0%nat, pos 2 a * 2 ^ 11 + Z.of_nat i) = Some r).
  { intros i r (e & Hi & Het & <-). split; [by apply lookup_lt_Some in Hi |].
    specialize (Hok i e Hi). unfold entry_ok in Hok. by rewrite Het in Hok. }
  unfold hv_pt_free_l3, truthy. rewrite (proj2 (Z.eqb_neq _ 0)) by lia. cbn [negb]. apply runs_bind.
  eapply runs_mono; [apply (free_l4s_spec p es) |].
  - apply NoDup_ListNoDup, seq_NoDup.
  - apply Forall_forall. intros i Hi. apply list_elem_of_In, elem_of_seq in Hi. rewrite Hl. apply Hi.
  - done.
  - intros i r _ [_ Hn]%Hl4. destruct (ty_tables _ _ Ht _ _ _ Hn) as (es4 & -> & _). by eexists.
  - intros i r [_ Hn]%Hl4 ->. by pose proof (ty_inj _ _ Ht _ _ _ Hn Hp).
  - intros i j r [_ Hi]%Hl4 [_ Hj]%Hl4. pose proof (ty_inj _ _ Ht _ _ _ Hi Hj) as [= E]. lia.
  - intros [] s1 (E1 & E2 & E3 & E4). eapply runs_mono.
    { apply (free_spec s1 p es). rewrite E4; [done |]. intros i [_ Hn]%Hl4. by pose proof (ty_inj _ _ Ht _ _ _ Hn Hp). }
    intros [] s2 ->. cbn. split_and!; [done | done | |].
    { etrans; [| exact E3]. rewrite map_size_delete. destruct (tables s1 !! p); cbn; lia. }
    intros n q [Hn Hu]%prune_spec. rewrite lookup_delete_ne.
    + apply E4. intros i [Hi Hq]%Hl4. apply Hu. rewrite (ty_inj _ _ Ht _ _ _ Hn Hq). split; cbn [fst snd]; [lia |].
      cbn [sh]. change (2 ^ (25 - 14)) with (2 ^ 11). rewrite Hl in Hi. apply (idx_bound 11) in Hi.
      rewrite Z.div_add_l by lia. rewrite Z.div_small by lia. lia.
    + intros <-. apply Hu. rewrite (ty_inj _ _ Ht _ _ _ Hn Hp). split; cbn [fst snd]; [lia |].
      cbn [sh]. rewrite Z.sub_diag. change (2 ^ 0) with 1. by rewrite Z.div_1_r.
Qed.

(** *** One entry *)

(** What the word [d] bytes into a mapping to [to] is to be backed by. *)
Definition want (to incr d : Z) : backing :=
  if to =? 0 then None
  else if IS_HW to then Some (0, (to .& PTE_TARGET_MASK) + incr * d)
  else Some (to .>> 50, (to .& PTE_TARGET_MASK_L4) + incr * d).

(** The mappings of [len] bytes that the callers of [hv_map] ask for: nothing,
    hardware, software pass-through, or a hook. *)
Inductive margs (len : Z) : Z -> Z -> Prop :=
| ma_none : margs len 0 0
| ma_hw hi t a : 0 <= hi < 2 ^ 14 -> 0 < t -> t + len <= 2 ^ 50 -> t mod 2 ^ 14 = 0 -> 0 <= a < 2 ^ 14 -> a mod 4 = 1 ->
    margs len (hi * 2 ^ 50 + t + a) 1
| ma_map hi t : 0 <= hi < 2 ^ 14 -> hi mod 8 = 0 -> 0 <= t -> t + len <= 2 ^ 50 -> t mod 4 = 0 ->
    hi * 2 ^ 50 + t <> 0 -> margs len (hi * 2 ^ 50 + t) 1
| ma_hook hi t : 0 <= hi < 2 ^ 14 -> hi mod 8 <> 0 -> 0 <= t < 2 ^ 50 -> t mod 4 = 0 ->
    margs len (hi * 2 ^ 50 + t) 0.

Lemma want_hw hi t a d incr : 0 <= hi < 2 ^ 14 -> 0 < t < 2 ^ 50 -> t mod 2 ^ 14 = 0 -> 0 <= a < 2 ^ 14 -> a mod 4 = 1 ->
  want (hi * 2 ^ 50 + t + a) incr d = Some (0, t + incr * d).
Proof.
  intros Hhi Ht Hm Ha Ho. destruct (hw_fields hi t a) as (E1 & _ & E2 & _ & E3); try dlia.
  unfold want. by rewrite E3, E1, E2.
Qed.

Lemma want_sw hi t d incr : 0 <= hi < 2 ^ 14 -> 0 <= t < 2 ^ 50 -> t mod 4 = 0 -> hi * 2 ^ 50 + t <> 0 ->
  want (hi * 2 ^ 50 + t) incr d = Some (hi, t + incr * d).
Proof.
  intros Hhi Ht Hm Hn. destruct (sw_fields hi t 0) as (E1 & _ & _ & _ & E4 & E5 & _ & E6); auto; [lia |].
  rewrite Z.add_0_r in *. unfold want. by rewrite E6, E1, E4, E5.
Qed.

(** The arguments after [d] bytes. *)
Lemma margs_step len to incr d : margs len to incr -> 0 <= d < len -> d mod 4 = 0 ->
  (IS_HW to = true -> d mod 2 ^ 14 = 0) ->
  let to' := u64 (to + incr * d) in
  margs (len - d) to' incr /\ IS_HW to' = IS_HW to /\ to' = to + incr * d /\
  forall x, want to' incr x = want to incr (d + x).
Proof.
  intros Hm Hd Hd4 Hd14 to'. destruct Hm as [| hi t a Hhi Ht Htl Hm Ha Ham | hi t Hhi Hm8 Ht Htl Hm Hn | hi t Hhi Hm8 Ht Hm].
  - split; [constructor |]. done.
  - destruct (hw_fields hi t a) as (E1 & _); try dlia. specialize (Hd14 E1).
    assert (E : to' = hi * 2 ^ 50 + (t + d) + a) by (unfold to'; rewrite wrap_small; [lia | unfold in_w; dlia]).
    rewrite E. destruct (hw_fields hi (t + d) a) as (E2 & _); try dlia.
    split; [apply ma_hw; dlia |]. split; [congruence |]. split; [lia |]. intros x. rewrite !want_hw by dlia. f_equal. f_equal. lia.
  - destruct (sw_fields hi t 0) as (E1 & _); [lia | lia | done | auto | lia |]. rewrite Z.add_0_r in E1.
    assert (E : to' = hi * 2 ^ 50 + (t + d)) by (unfold to'; rewrite wrap_small; [lia | unfold in_w; dlia]).
    rewrite E. destruct (sw_fields hi (t + d) 0) as (E2 & _); [lia | lia | dlia | auto | lia |]. rewrite Z.add_0_r in E2.
    split; [apply ma_map; dlia |]. split; [congruence |]. split; [lia |]. intros x. rewrite !want_sw by dlia. f_equal. f_equal. lia.
  - assert (E : to' = hi * 2 ^ 50 + t) by (unfold to'; rewrite wrap_small; [lia | unfold in_w; dlia]).
    rewrite E. split; [by apply ma_hook |]. split; [done |]. split; [lia |]. intros x. rewrite !want_sw by dlia. done.
Qed.

Lemma l3_arg_leaf len to incr : margs len to incr -> 2 ^ 14 <= len ->
  leaf 14 (l3_arg to) /\ forall off, den (l3_arg to) off = want to incr off.
Proof.
  intros Hm Hl. unfold l3_arg. destruct Hm as [| hi t a Hhi Ht Htl Hm Ha Ham | hi t Hhi Hm8 Ht Htl Hm Hn | hi t Hhi Hm8 Ht Hm].
  - split; [apply leaf_none | done].
  - destruct (hw_fields hi t a) as (E1 & _); try dlia. rewrite E1, set_type by dlia.
    replace (hi * 2 ^ 50 + t + a + 2) with (hi * 2 ^ 50 + t + (a + 2)) by lia. split.
    + apply leaf_hw; try dlia. change (14 =? 14) with true. cbv iota. dlia.
    + intros off. rewrite den_hw, want_hw by dlia. f_equal. f_equal. lia.
  - destruct (sw_fields hi t 0) as (E1 & _); [lia | lia | done | auto | lia |]. rewrite Z.add_0_r in E1. rewrite E1. split.
    + apply leaf_map; dlia.
    + intros off. rewrite den_sw, want_sw, Hm8 by dlia. cbn [Z.eqb]. f_equal. f_equal. lia.
  - destruct (sw_fields hi t 0) as (E1 & _); [lia | lia | done | auto | dlia |]. rewrite Z.add_0_r in E1. rewrite E1. split.
    + by apply leaf_hook.
    + intros off. rewrite den_sw, want_sw by dlia. by rewrite (proj2 (Z.eqb_neq _ 0)) by done.
Qed.

Lemma l2_arg_leaf len to incr : margs len to incr -> 2 ^ 25 <= len ->
  (IS_HW to = true -> (to .& PTE_TARGET_MASK) mod 2 ^ 25 = 0) ->
  leaf 25 to /\ forall off, den to off = want to incr off.
Proof.
  intros Hm Hl Hal. destruct Hm as [| hi t a Hhi Ht Htl Hm Ha Ham | hi t Hhi Hm8 Ht Htl Hm Hn | hi t Hhi Hm8 Ht Hm].
  - split; [apply leaf_none | done].
  - destruct (hw_fields hi t a) as (E1 & _ & E2 & _); try dlia. rewrite E2 in Hal. specialize (Hal E1). split.
    + by apply leaf_hw; try dlia.
    + intros off. rewrite den_hw, want_hw by dlia. f_equal. f_equal. lia.
  - split; [apply leaf_map; dlia |]. intros off. rewrite den_sw, want_sw, Hm8 by dlia. cbn [Z.eqb]. f_equal. f_equal. lia.
  - split; [by apply leaf_hook |]. intros off. rewrite den_sw, want_sw by dlia. by rewrite (proj2 (Z.eqb_neq _ 0)) by done.
Qed.

Lemma l4_arg_leaf len to incr : margs len to incr -> 4 <= len -> IS_HW to = false ->
  leaf4 (l4_arg to) /\ backing_of (l4_arg to) = want to incr 0.
Proof.
  intros Hm Hl Hhw. unfold l4_arg. destruct Hm as [| hi t a Hhi Ht Htl Hm Ha Ham | hi t Hhi Hm8 Ht Htl Hm Hn | hi t Hhi Hm8 Ht Hm].
  - split; [by left | done].
  - destruct (hw_fields hi t a) as (E1 & _); try dlia. congruence.
  - destruct (sw_fields hi t 0) as (_ & E1 & _); [lia | lia | done | auto | lia |]. rewrite Z.add_0_r in E1.
    rewrite E1, set_type by dlia. split; [right; exists hi, t; split_and!; done || lia |].
    rewrite backing_leaf4, want_sw by dlia. f_equal. f_equal. lia.
  - destruct (sw_fields hi t 0) as (_ & E1 & _); [lia | lia | done | auto | dlia |]. rewrite Z.add_0_r in E1.
    rewrite E1, set_type by dlia. split; [right; exists hi, t; split_and!; done || lia |].
    rewrite backing_leaf4, want_sw by dlia. f_equal. f_equal. lia.
Qed.

(** *** Ranges *)

(** The state after mapping [len] bytes at [from], with at most [k] new tables. *)
Definition mapped (k : nat) (s : hv_pt) (from len to incr : Z) (s' : hv_pt) : Prop :=
  vaddr_bits s' = vaddr_bits s /\ (size (tables s') <= size (tables s) + k)%nat /\ (exists N, typed s' N) /\
  forall b, in_space s b -> view s' b =
    if (from <=? b) && (b <? from + len) then Some (want to incr (word (b - from))) else view s b.

Lemma mapped_nil s N from to incr : typed s N -> mapped 0 s from 0 to incr s.
Proof.
  intros Ht. split_and!; [done | lia | by exists N |]. intros b Hb.
  destruct (Z.leb_spec from b), (Z.ltb_spec b (from + 0)); done || lia.
Qed.

Lemma mapped_le j k s from len to incr s' : mapped j s from len to incr s' -> (j <= k)%nat -> mapped k s from len to incr s'.
Proof. intros (? & ? & ? & ?) ?. split_and!; [done | lia | done | done]. Qed.

Lemma mapped_trans j k s s1 s2 from l1 l2 to to' incr : 0 <= l1 -> 0 <= l2 -> l1 mod 4 = 0 ->
  mapped j s from l1 to incr s1 -> mapped k s1 (from + l1) l2 to' incr s2 ->
  (0 < l2 -> forall x, want to' incr x = want to incr (l1 + x)) -> mapped (j + k) s from (l1 + l2) to incr s2.
Proof.
  intros H1 H2 H4 (E1 & S1 & _ & V1) (E2 & S2 & N2 & V2) Hw. split_and!; [congruence | lia | done |]. intros b Hb.
  rewrite V2 by (unfold in_space in *; by rewrite E1).
  destruct (Z.leb_spec (from + l1) b), (Z.ltb_spec b (from + l1 + l2)), (Z.leb_spec from b), (Z.ltb_spec b (from + (l1 + l2)));
    try lia; cbn [andb].
  - rewrite Hw by lia. do 2 f_equal. rewrite <- word_add by done. f_equal. lia.
  - rewrite V1 by done. destruct (Z.leb_spec from b), (Z.ltb_spec b (from + l1)); try lia. done.
  - rewrite V1 by done. destruct (Z.leb_spec from b), (Z.ltb_spec b (from + l1)); try lia. done.
  - rewrite V1 by done. destruct (Z.leb_spec from b), (Z.ltb_spec b (from + l1)); try lia. done.
Qed.

Lemma mapped_leaf k s s1 s' h a v to incr : (h <= 2)%nat -> 0 <= a -> a mod 2 ^ sh h = 0 -> grown k s s1 -> leafed s1 h a v s' ->
  (forall b, 0 <= b -> pos h b = pos h a -> leaf_den h v b = want to incr (word (b - a))) ->
  mapped k s a (2 ^ sh h) to incr s'.
Proof.
  intros Hh Ha0 Hal (E1 & V1 & S1) (E2 & S2 & N2 & V2) Hv. split_and!; [congruence | lia | done |]. intros b Hb.
  rewrite V2 by (unfold in_space in *; by rewrite E1). unfold pos in *. destruct Hb as [Hb0 Hb1].
  assert (Hpos : 0 < 2 ^ sh h) by (apply Z.pow_pos_nonneg; [lia | apply sh_pos]).
  destruct (Z.eqb_spec (b / 2 ^ sh h) (a / 2 ^ sh h)) as [E | Hne].
  - rewrite Hv by done. pose proof (Z.div_mod b (2 ^ sh h)). pose proof (Z.div_mod a (2 ^ sh h)).
    pose proof (Z.mod_pos_bound b (2 ^ sh h)). rewrite E in *.
    destruct (Z.leb_spec a b), (Z.ltb_spec b (a + 2 ^ sh h)); try lia. done.
  - rewrite V1 by done. destruct (Z.leb_spec a b), (Z.ltb_spec b (a + 2 ^ sh h)); cbn [andb]; try done.
    exfalso. apply Hne. pose proof (Z.div_mod a (2 ^ sh h)).
    replace b with (a / 2 ^ sh h * 2 ^ sh h + (b - a)) by lia. rewrite Z.div_add_l by lia. rewrite (Z.div_small (b - a)) by lia. lia.
Qed.

Lemma aligned_offset k a b : 0 <= k -> 0 <= a -> 0 <= b -> a mod 2 ^ k = 0 -> b / 2 ^ k = a / 2 ^ k -> b mod 2 ^ k = b - a.
Proof.
  intros Hk Ha Hb Hm E. assert (0 < 2 ^ k) by lia. pose proof (Z.div_mod b (2 ^ k)). pose proof (Z.div_mod a (2 ^ k)).
  rewrite E in *. lia.
Qed.

Lemma got_parts k h a s p s1 : got k h a s p s1 -> in_space s a -> (h <= 2)%nat ->
  grown k s s1 /\ in_space s1 a /\ exists N e, typed s1 N /\ N !! (h, pos (S h) a) = Some p /\
    rd s1 p (index h a) = Some e /\ entry_ok N h (pos h a) e.
Proof.
  intros [Hg (N & Ht & Hp)] Ha Hh. split; [done |]. split; [unfold in_space in *; by rewrite (proj1 Hg) |].
  destruct (path_entry s1 N h a p Ht ltac:(lia) Hp) as (e & Hr & Hok). by exists N, e.
Qed.

Lemma root_ge vb : (2 <= root vb)%nat.
Proof. unfold root. destruct (_ <=? _); lia. Qed.

Lemma map_l4_one_spec s N a len to incr : typed s N -> in_space s a -> a mod 2 ^ 2 = 0 -> (size (tables s) + 3 <= limit)%nat ->
  margs len to incr -> 2 ^ 2 <= len -> IS_HW to = false ->
  runs (map_l4_one memalign a (l4_arg to)) s (fun _ s' => mapped 3 s a (2 ^ 2) to incr s').
Proof.
  intros Ht Ha Hal Hsz Hm Hlen Hhw. unfold map_l4_one. apply runs_bind.
  eapply runs_mono; [by apply (get_l4_spec s N a); try done; lia |]. intros p s1 Hgot.
  destruct (got_parts _ _ _ _ _ _ Hgot Ha ltac:(lia)) as (Hg & Ha1 & N1 & e & Ht1 & Hp & _ & _).
  destruct (l4_arg_leaf len to incr Hm Hlen Hhw) as [Hl Hd]. rewrite l4_index_value.
  eapply runs_mono; [apply (store_spec s1 s1 N1 0 a p (l4_arg to)); try done; lia |]. intros [] s' Hleaf.
  apply (mapped_leaf 3 s s1 s' 0 a (l4_arg to)); try done; [lia | by apply Ha |]. intros b Hb Hpos. cbn [leaf_den].
  rewrite Hd. f_equal. unfold pos in Hpos. cbn [sh] in *. destruct Ha as [Ha _]. unfold word. dlia.
Qed.

Lemma map_l3_one_spec s N a len to incr : typed s N -> in_space s a -> a mod 2 ^ 14 = 0 -> (size (tables s) + 3 <= limit)%nat ->
  margs len to incr -> 2 ^ 14 <= len ->
  runs (map_l3_one memalign a (l3_arg to)) s (fun _ s' => mapped 3 s a (2 ^ 14) to incr s').
Proof.
  intros Ht Ha Hal Hsz Hm Hlen. unfold map_l3_one. apply runs_bind.
  eapply runs_mono; [by apply (get_l3_spec s N a); try done; lia |]. intros p s1 Hgot.
  destruct (got_parts _ _ _ _ _ _ Hgot Ha ltac:(lia)) as (Hg & Ha1 & N1 & e & Ht1 & Hp & Hr & Hok).
  destruct (l3_arg_leaf len to incr Hm Hlen) as [Hl Hd]. rewrite l3_index_value.
  apply (runs_load p _ e); [done |]. pose proof (root_ge (vaddr_bits s1)).
  assert (Hfin : forall s2, vaddr_bits s2 = vaddr_bits s1 -> hv_Ltop s2 = hv_Ltop s1 ->
    (size (tables s2) <= size (tables s1))%nat ->
    (forall n q, prune N1 1 a !! n = Some q -> tables s2 !! q = tables s1 !! q) ->
    runs (store p (index 1 a) (l3_arg to)) s2 (fun _ s' => mapped 3 s a (2 ^ 14) to incr s')).
  { intros s2 E1 E2 E3 E4. eapply runs_mono; [apply (store_spec s1 s2 N1 1 a p (l3_arg to)); try done; lia |].
    intros [] s' Hleaf. apply (mapped_le 2); [| lia]. destruct Ha as [Ha0 _].
    apply (mapped_leaf 2 s s1 s' 1 a (l3_arg to)); try done; [lia |].
    intros b Hb Hpos. cbn [leaf_den]. rewrite Hd. do 2 f_equal. by apply aligned_offset. }
  unfold entry_ok in Hok. change (L3_IS_TABLE e) with (is_tab 1 e). destruct (is_tab 1 e).
  - destruct (ty_tables _ _ Ht1 _ _ _ Hok) as (es4 & He4 & _). apply runs_bind.
    eapply runs_mono; [by apply (free_spec s1 _ es4) |]. intros [] s2 ->. apply Hfin; try done.
    + cbn. rewrite map_size_delete_Some by eauto. lia.
    + intros n q [Hn Hu]%prune_spec. cbn. rewrite lookup_delete_ne; [done |]. intros <-. apply Hu.
      cbn [pred] in Hok. rewrite (ty_inj _ _ Ht1 _ _ _ Hn Hok). split; cbn [fst snd]; [lia |].
      cbn [sh]. rewrite Z.sub_diag. change (2 ^ 0) with 1. by rewrite Z.div_1_r.
  - apply runs_bind. cbn [runs mret P_ret]. by apply Hfin.
Qed.

Lemma map_l2_one_spec s N a len to incr : typed s N -> in_space s a -> a mod 2 ^ 25 = 0 -> (size (tables s) + 3 <= limit)%nat ->
  margs len to incr -> 2 ^ 25 <= len -> (IS_HW to = true -> (to .& PTE_TARGET_MASK) mod 2 ^ 25 = 0) ->
  runs (map_l2_one memalign a to) s (fun _ s' => mapped 3 s a (2 ^ 25) to incr s').
Proof.
  intros Ht Ha Hal Hsz Hm Hlen Hhw. unfold map_l2_one. apply runs_bind.
  eapply runs_mono; [by apply (get_l2_spec s N a); try done; lia |]. intros p s1 Hgot.
  destruct (got_parts _ _ _ _ _ _ Hgot Ha ltac:(lia)) as (Hg & Ha1 & N1 & e & Ht1 & Hp & Hr & Hok).
  destruct (l2_arg_leaf len to incr Hm Hlen Hhw) as [Hl Hd]. rewrite l2_index_value.
  apply (runs_load p _ e); [done |]. pose proof (root_ge (vaddr_bits s1)).
  assert (Hfin : forall s2, vaddr_bits s2 = vaddr_bits s1 -> hv_Ltop s2 = hv_Ltop s1 ->
    (size (tables s2) <= size (tables s1))%nat ->
    (forall n q, prune N1 2 a !! n = Some q -> tables s2 !! q = tables s1 !! q) ->
    runs (store p (index 2 a) to) s2 (fun _ s' => mapped 3 s a (2 ^ 25) to incr s')).
  { intros s2 E1 E2 E3 E4. eapply runs_mono; [apply (store_spec s1 s2 N1 2 a p to); try done; lia |].
    intros [] s' Hleaf. apply (mapped_le 1); [| lia]. destruct Ha as [Ha0 _].
    apply (mapped_leaf 1 s s1 s' 2 a to); try done.
    intros b Hb Hpos. cbn [leaf_den]. rewrite Hd. do 2 f_equal. by apply aligned_offset. }
  unfold entry_ok in Hok. change (L2_IS_TABLE e) with (is_tab 2 e). destruct (is_tab 2 e).
  - apply runs_bind. cbn [pred] in Hok. eapply runs_mono; [apply (free_l3_spec s1 N1 a); try done; lia |].
    intros [] s2 (E1 & E2 & E3 & E4). by apply Hfin.
  - apply runs_bind. cbn [runs mret P_ret]. by apply Hfin.
Qed.

(** *** The loops *)

Lemma l4_arg_step len to incr d : margs len to incr -> IS_HW to = false -> 0 <= d < len -> d mod 4 = 0 ->
  u64 (l4_arg to + incr * d) = l4_arg (u64 (to + incr * d)).
Proof.
  intros Hm Hhw Hd Hd4.
  destruct (margs_step len to incr d Hm Hd Hd4) as (Hm' & E1 & E2 & _); [congruence |]. rewrite E2 in *. unfold l4_arg.
  destruct Hm as [| hi t a Hhi Ht Htl Hm Ha Ham | hi t Hhi Hm8 Ht Htl Hm Hn | hi t Hhi Hm8 Ht Hm].
  - done.
  - destruct (hw_fields hi t a) as (E3 & _); try dlia. congruence.
  - destruct (sw_fields hi t 0) as (_ & E3 & _); [lia | lia | done | auto | lia |].
    destruct (sw_fields hi (t + d) 0) as (_ & E4 & _); [lia | lia | dlia | auto | lia |].
    rewrite Z.add_0_r in E3, E4. rewrite E3. replace (hi * 2 ^ 50 + t + 1 * d) with (hi * 2 ^ 50 + (t + d)) by lia.
    rewrite E4, !set_type by dlia. rewrite wrap_small by (unfold in_w; dlia). lia.
  - destruct (sw_fields hi t 0) as (_ & E3 & _); [lia | lia | done | auto | dlia |]. rewrite Z.add_0_r in E3.
    replace (hi * 2 ^ 50 + t + 0 * d) with (hi * 2 ^ 50 + t) by lia. rewrite E3, set_type by dlia.
    rewrite Z.mul_0_l, Z.add_0_r. apply wrap_small. unfold in_w. dlia.
Qed.

Lemma l3_arg_step len to incr d : margs len to incr -> 0 <= d < len -> d mod 2 ^ 14 = 0 ->
  u64 (l3_arg to + incr * d) = l3_arg (u64 (to + incr * d)).
Proof.
  intros Hm Hd Hd14.
  destruct (margs_step len to incr d Hm Hd) as (Hm' & E1 & E2 & _); [dlia | done |]. rewrite E2 in *. unfold l3_arg. rewrite E1.
  destruct (IS_HW to) eqn:Ehw; [| done].
  destruct Hm as [| hi t a Hhi Ht Htl Hm Ha Ham | hi t Hhi Hm8 Ht Htl Hm Hn | hi t Hhi Hm8 Ht Hm].
  - done.
  - rewrite !set_type by dlia. rewrite wrap_small by (unfold in_w; dlia). lia.
  - destruct (sw_fields hi t 0) as (E3 & _); [lia | lia | done | auto | lia |]. rewrite Z.add_0_r in E3. congruence.
  - destruct (sw_fields hi t 0) as (E3 & _); [lia | lia | done | auto | dlia |]. rewrite Z.add_0_r in E3. congruence.
Qed.

Lemma l2_arg_step len to incr d : margs len to incr -> 0 <= d < len -> d mod 2 ^ 25 = 0 ->
  (IS_HW to = true -> (to .& PTE_TARGET_MASK) mod 2 ^ 25 = 0) ->
  IS_HW (u64 (to + incr * d)) = true -> (u64 (to + incr * d) .& PTE_TARGET_MASK) mod 2 ^ 25 = 0.
Proof.
  intros Hm Hd Hd25 Hal. destruct (margs_step len to incr d Hm Hd) as (_ & E1 & E2 & _); [dlia | dlia |].
  rewrite E1. intros Ehw. specialize (Hal Ehw). rewrite E2. clear E2.
  destruct Hm as [| hi t a Hhi Ht Htl Hm Ha Ham | hi t Hhi Hm8 Ht Htl Hm Hn | hi t Hhi Hm8 Ht Hm].
  - done.
  - destruct (hw_fields hi t a) as (_ & _ & E2 & _); try dlia. destruct (hw_fields hi (t + d) a) as (_ & _ & E3 & _); try dlia.
    replace (hi * 2 ^ 50 + t + a + 1 * d) with (hi * 2 ^ 50 + (t + d) + a) by lia. rewrite E3. rewrite E2 in Hal. dlia.
  - destruct (sw_fields hi t 0) as (E3 & _); [lia | lia | done | auto | lia |]. rewrite Z.add_0_r in E3. congruence.
  - destruct (sw_fields hi t 0) as (E3 & _); [lia | lia | done | auto | dlia |]. rewrite Z.add_0_r in E3. congruence.
Qed.

Section loop.
Context (one : Z -> Z -> P unit) (h : nat) (argf : Z -> Z) (good : Z -> Prop) (Hh : (h <= 2)%nat).
Hypothesis one_spec : forall s N a len to incr, typed s N -> in_space s a -> a mod 2 ^ sh h = 0 ->
  (size (tables s) + 3 <= limit)%nat -> margs len to incr -> 2 ^ sh h <= len -> good to ->
  runs (one a (argf to)) s (fun _ s' => mapped 3 s a (2 ^ sh h) to incr s').
Hypothesis arg_step : forall len to incr, margs len to incr -> 2 ^ sh h < len -> good to ->
  (IS_HW to = true -> 2 ^ sh h mod 2 ^ 14 = 0) /\
  good (u64 (to + incr * 2 ^ sh h)) /\ u64 (argf to + incr * 2 ^ sh h) = argf (u64 (to + incr * 2 ^ sh h)).

Lemma loop_spec n : forall s N from to incr, typed s N -> 0 <= from -> from mod 2 ^ sh h = 0 ->
  from + Z.of_nat n * 2 ^ sh h <= 2 ^ vaddr_bits s -> (size (tables s) + 3 * n <= limit)%nat ->
  (n <> 0%nat -> margs (Z.of_nat n * 2 ^ sh h) to incr /\ good to) ->
  runs (map_loop one (sh h) n from (argf to) incr) s
    (fun _ s' => mapped (3 * n) s from (Z.of_nat n * 2 ^ sh h) to incr s').
Proof.
  assert (Hstep : 0 < 2 ^ sh h /\ 2 ^ sh h mod 4 = 0) by (destruct h as [|[|[|?]]]; done || lia).
  destruct Hstep as [Hpos H4].
  induction n as [| n IH]; intros s N from to incr Ht H0 Hal Hend Hsz Hargs.
  { cbn. rewrite Z.mul_0_l. by eapply mapped_nil. }
  destruct (Hargs ltac:(lia)) as [Hm Hgood]. cbn [map_loop]. apply runs_bind.
  replace (Z.of_nat (S n) * 2 ^ sh h) with (2 ^ sh h + Z.of_nat n * 2 ^ sh h) in * by lia.
  set (step := 2 ^ sh h) in *. assert (Hn0 : 0 <= Z.of_nat n * step) by nia.
  assert (Ha : in_space s from) by (unfold in_space; lia).
  eapply runs_mono; [apply (one_spec s N from (step + Z.of_nat n * step) to incr); try done; lia |].
  intros [] s1 Hm1. destruct Hm1 as (E1 & S1 & (N1 & Ht1) & V1). unfold BIT. fold step.
  assert (Hb44 : 2 ^ vaddr_bits s <= 2 ^ 44) by (apply Z.pow_le_mono_r; [lia | apply Ht]).
  rewrite (wrap_small 64 (from + step)) by (unfold in_w; lia).
  assert (Hm1 : mapped 3 s from step to incr s1) by (split_and!; eauto).
  replace (3 * S n)%nat with (3 + 3 * n)%nat by lia.
  assert (Hal1 : (from + step) mod step = 0) by (rewrite <- (Z.mul_1_l step) at 1; rewrite Z.mod_add by lia; done).
  destruct (decide (n = 0%nat)) as [-> | Hn].
  - cbn [map_loop runs mret P_ret]. rewrite Z.mul_0_l.
    apply (mapped_trans _ _ _ s1 _ _ _ _ to to); [lia | lia | done | done | by eapply mapped_nil | lia].
  - destruct (arg_step _ _ _ Hm) as (Hhw & Hgood1 & Earg); [nia | done |]. rewrite Earg.
    destruct (margs_step _ _ _ step Hm) as (Hm' & _ & _ & Hw); [nia | done | done |].
    replace (step + Z.of_nat n * step - step) with (Z.of_nat n * step) in Hm' by lia.
    eapply runs_mono; [apply (IH s1 N1); try done; rewrite ?E1; lia || done |].
    intros [] s2 Hm2. eapply mapped_trans; [lia | lia | done | done | exact Hm2 | by intros].
Qed.
End loop.

(** The range of a mapping function. *)
Definition range_ok (s : hv_pt) (h : nat) (from size : Z) : Prop :=
  0 <= from /\ 0 < size /\ from mod 2 ^ sh h = 0 /\ size mod 2 ^ sh h = 0 /\ from + size <= 2 ^ vaddr_bits s.

Lemma mask_zero k x : 0 <= k -> x mod 2 ^ k = 0 -> (x .& MASK k =? 0) = true.
Proof. intros Hk Hx. unfold MASK. rewrite land_ones_mod by done. by apply Z.eqb_eq. Qed.

(** The number of iterations. *)
Lemma count_value h x : (h <= 2)%nat -> 0 < x -> x mod 2 ^ sh h = 0 ->
  Z.of_nat (Z.to_nat (x .>> sh h)) * 2 ^ sh h = x /\ Z.to_nat (x .>> sh h) <> 0%nat.
Proof.
  intros Hh Hx Hm. pose proof (sh_pos h). rewrite Z.shiftr_div_pow2 by done.
  assert (0 < 2 ^ sh h) by lia. pose proof (Z.div_mod x (2 ^ sh h)). rewrite Hm in *.
  assert (0 <= x / 2 ^ sh h) by (apply Z.div_pos; lia). rewrite Z2Nat.id by done. split; [lia |].
  assert (x / 2 ^ sh h <> 0) by nia. lia.
Qed.

Definition cost (sz : Z) : nat := 3 * Z.to_nat (sz .>> 2).

Lemma cost_le h x : 0 <= x -> (3 * Z.to_nat (x .>> sh h) <= cost x)%nat.
Proof.
  intros Hx. unfold cost. rewrite !Z.shiftr_div_pow2 by (apply sh_pos || done). apply Nat.mul_le_mono_l, Z2Nat.inj_le.
  - apply Z.div_pos; [done |]. pose proof (sh_pos h). lia.
  - by apply Z.div_pos.
  - apply Z.div_le_compat_l; [done |]. split; [done |]. apply Z.pow_le_mono_r; [done |].
    by destruct h as [|[|[|[|h]]]].
Qed.

Lemma map_l4_spec s N from sz to incr : typed s N -> range_ok s 0 from sz -> (size (tables s) + cost sz <= limit)%nat ->
  margs sz to incr -> IS_HW to = false ->
  runs (hv_pt_map_l4 memalign from to sz incr) s (fun _ s' => mapped (cost sz) s from sz to incr s').
Proof.
  intros Ht (H0 & Hs0 & Hf & Hs & Hend) Hsz Hm Hhw. pose proof (cost_le 0 sz ltac:(lia)) as Hc.
  destruct (count_value 0 sz ltac:(lia) Hs0 Hs) as [Hcnt Hne]. unfold hv_pt_map_l4.
  apply runs_assert; [by apply mask_zero |]. apply runs_assert; [by apply mask_zero |].
  apply runs_assert; [by rewrite Hhw |]. change VADDR_L4_OFFSET_BITS with (sh 0) in *.
  eapply runs_mono.
  { apply (loop_spec _ 0 l4_arg (fun to => IS_HW to = false)) with (N := N); try done; try lia.
    - intros. by eapply map_l4_one_spec.
    - intros len to0 incr0 Hm0 Hl0 Hh0. cbn [sh] in *.
      destruct (margs_step _ _ _ (2 ^ 2) Hm0) as (_ & -> & _); [lia | done | congruence |].
      split; [congruence |]. split; [done |]. by eapply l4_arg_step.
    - intros _. by rewrite Hcnt. }
  intros [] s' Hmap. rewrite Hcnt in Hmap. by eapply mapped_le.
Qed.

Lemma map_l3_spec s N from sz to incr : typed s N -> range_ok s 1 from sz -> (size (tables s) + cost sz <= limit)%nat ->
  margs sz to incr ->
  runs (hv_pt_map_l3 memalign from to sz incr) s (fun _ s' => mapped (cost sz) s from sz to incr s').
Proof.
  intros Ht (H0 & Hs0 & Hf & Hs & Hend) Hsz Hm. pose proof (cost_le 1 sz ltac:(lia)) as Hc.
  destruct (count_value 1 sz ltac:(lia) Hs0 Hs) as [Hcnt Hne]. unfold hv_pt_map_l3.
  apply runs_assert; [by apply mask_zero |]. apply runs_assert.
  { apply orb_true_intro. right. apply mask_zero; [done |]. rewrite target_value. by apply (Z.mod_mul _ (2 ^ 14)). }
  apply runs_assert; [by apply mask_zero |]. change VADDR_L3_OFFSET_BITS with (sh 1) in *.
  eapply runs_mono.
  { apply (loop_spec _ 1 l3_arg (fun _ => True)) with (N := N); try done; try lia.
    - intros. by eapply map_l3_one_spec.
    - intros len to0 incr0 Hm0 Hl0 _. cbn [sh] in *. split; [done |]. split; [done |]. by eapply l3_arg_step.
    - intros _. by rewrite Hcnt. }
  intros [] s' Hmap. rewrite Hcnt in Hmap. by eapply mapped_le.
Qed.

Lemma map_l2_spec s N from sz to incr : typed s N -> range_ok s 2 from sz -> (size (tables s) + cost sz <= limit)%nat ->
  margs sz to incr -> (IS_HW to = true -> (to .& PTE_TARGET_MASK) mod 2 ^ 25 = 0) ->
  runs (hv_pt_map_l2 memalign from to sz incr) s (fun _ s' => mapped (cost sz) s from sz to incr s').
Proof.
  intros Ht (H0 & Hs0 & Hf & Hs & Hend) Hsz Hm Hal. pose proof (cost_le 2 sz ltac:(lia)) as Hc.
  destruct (count_value 2 sz ltac:(lia) Hs0 Hs) as [Hcnt Hne]. unfold hv_pt_map_l2.
  apply runs_assert; [by apply mask_zero |]. apply runs_assert.
  { destruct (IS_SW to) eqn:Esw; [done |]. cbn [orb]. apply mask_zero; [done |].
    destruct (IS_HW to) eqn:Ehw; [by apply Hal |]. unfold IS_HW, IS_SW in *. unfold truthy at 1 in Esw. unfold truthy at 1 in Ehw.
    destruct (Z.eqb_spec to 0) as [-> |]; [done |]. cbn [negb andb] in *. rewrite Ehw in Esw. done. }
  apply runs_assert; [by apply mask_zero |]. change VADDR_L2_OFFSET_BITS with (sh 2) in *.
  eapply runs_mono.
  { apply (loop_spec _ 2 id (fun to => IS_HW to = true -> (to .& PTE_TARGET_MASK) mod 2 ^ 25 = 0)) with (N := N); try done; try lia.
    - intros. by eapply map_l2_one_spec.
    - intros len to0 incr0 Hm0 Hl0 Hg0. cbn [sh] in *. split; [done |]. split; [| done]. by eapply l2_arg_step.
    - intros _. by rewrite Hcnt. }
  intros [] s' Hmap. rewrite Hcnt in Hmap. by eapply mapped_le.
Qed.

(** ** The whole mapping *)

(** What the macros compute. *)
Context (ALIGN_UP ALIGN_DOWN : Z -> Z -> Z) (ram_base _base : Z).
Hypothesis align_up : forall x a, ALIGN_UP x a = u64 (x + (a - 1)) .& cnot 64 (a - 1).
Hypothesis align_down : forall x a, ALIGN_DOWN x a = x .& cnot 64 (a - 1).

Lemma down_value k x : 0 <= k <= 64 -> in_w 64 x -> ALIGN_DOWN x (BIT k) = x / 2 ^ k * 2 ^ k.
Proof. intros. rewrite align_down. by apply land_cnot_mask. Qed.

Lemma up_value k x : 0 <= k <= 64 -> 0 <= x -> x + 2 ^ k <= 2 ^ 64 ->
  ALIGN_UP x (BIT k) = (x + (2 ^ k - 1)) / 2 ^ k * 2 ^ k.
Proof.
  intros Hk Hx Hb. assert (0 < 2 ^ k) by lia. rewrite align_up. unfold BIT.
  rewrite wrap_small by (unfold in_w; lia). apply land_cnot_mask; [done | unfold in_w; lia].
Qed.

(** With a mask for the alignment, even addresses are still rounded up to 32 MB. *)
Lemma up_mask_value x : 0 <= x < 2 ^ 63 -> x mod 2 = 0 ->
  ALIGN_UP x (MASK 25) = (x + (2 ^ 25 - 1)) / 2 ^ 25 * 2 ^ 25.
Proof.
  intros Hx He. rewrite align_up. rewrite wrap_small by (unfold in_w, MASK; lia). unfold MASK.
  set (y := x + (2 ^ 25 - 1 - 1)).
  assert (Hy : y .& cnot 64 (2 ^ 25 - 1 - 1) = y .& cnot 64 (2 ^ 25 - 1)).
  { apply Z.bits_inj'. intros i Hi. rewrite !Z.land_spec, !testbit_cnot by lia.
    destruct (Z.eq_dec i 0) as [-> | Hne].
    - assert (Hodd : Z.testbit y 0 = false).
      { rewrite Z.bit0_odd, <- Z.negb_even. apply negb_false_iff, Z.even_spec.
        exists (x / 2 + (2 ^ 24 - 1)). unfold y. dlia. }
      by rewrite Hodd.
    - do 2 f_equal. replace (2 ^ 25 - 1 - 1) with (Z.shiftl (Z.ones 24) 1) by done.
      replace (2 ^ 25 - 1) with (Z.ones 25) by done.
      rewrite Z.shiftl_spec, !testbit_ones_ltb by lia.
      destruct (Z.ltb_spec (i - 1) 24), (Z.ltb_spec i 25); lia || done. }
  rewrite Hy, land_cnot_mask by (unfold in_w, y; lia). unfold y. dlia.
Qed.

Lemma cost_add x y : 0 <= x -> 0 <= y -> x mod 4 = 0 -> cost (x + y) = (cost x + cost y)%nat.
Proof. intros. unfold cost. rewrite !Z.shiftr_div_pow2 by lia. change (2 ^ 2) with 4. dlia. Qed.

Lemma cost_mono x y : x <= y -> (cost x <= cost y)%nat.
Proof. intros. unfold cost. rewrite !Z.shiftr_div_pow2 by lia. change (2 ^ 2) with 4. dlia. Qed.

(** *** The five segments *)

Section segments.
Context (s0 : hv_pt) (from0 to0 size0 incr : Z).

(** [r] is the rest of the range once its first [d] bytes are mapped. *)
Record progress (d : Z) (r : Z * Z * Z) (s : hv_pt) : Prop := {
  pg_range : 0 <= d <= size0 /\ d mod 4 = 0;
  pg_rest : r.1.1 = from0 + d /\ r.2 = size0 - d;
  pg_done : mapped (cost d) s0 from0 d to0 incr s;
  pg_hw : IS_HW to0 = true -> d mod 2 ^ 14 = 0;
  pg_args : d < size0 -> margs (size0 - d) r.1.2 incr /\ IS_HW r.1.2 = IS_HW to0 /\
    forall x, want r.1.2 incr x = want to0 incr (d + x);
}.

Lemma progress_start N : typed s0 N -> 0 <= size0 -> (0 < size0 -> margs size0 to0 incr) ->
  progress 0 (from0, to0, size0) s0.
Proof.
  intros Ht Hs Hm. split; cbn [fst snd].
  - split; done || lia.
  - lia.
  - by eapply mapped_nil.
  - done.
  - intros Hd. rewrite Z.sub_0_r. split; [by apply Hm |]. done.
Qed.

Context (N0 : nodes) (Ht0 : typed s0 N0) (Hfrom : 0 <= from0) (Hend : from0 + size0 <= 2 ^ vaddr_bits s0).
Context (Hsz : (size (tables s0) + cost size0 <= limit)%nat).

Lemma segment_spec map c d f t z s : progress d (f, t, z) s -> 0 <= c <= z -> c mod 4 = 0 ->
  (IS_HW to0 = true -> c mod 2 ^ 14 = 0) ->
  (forall N, 0 < c -> typed s N -> (size (tables s) + cost c <= limit)%nat -> margs c t incr ->
    f + c <= 2 ^ vaddr_bits s -> runs (map f t c incr) s (fun _ s' => mapped (cost c) s f c t incr s')) ->
  runs (segment map c f t z incr) s (progress (d + c)).
Proof.
  intros Hp Hc Hc4 Hchw Hmap. destruct Hp as [[Hd Hd4] [Hr1 Hr2] Hdone Hhw Hargs]. cbn [fst snd] in *. subst f z.
  unfold segment, truthy. destruct (Z.eqb_spec c 0) as [-> | Hne]; cbn [negb].
  { cbn [runs mret P_ret]. rewrite Z.add_0_r. by split. }
  destruct (Hargs ltac:(lia)) as (Hm & Eh & Hw). pose proof Hdone as (E1 & S1 & (N1 & Ht1) & V1).
  assert (Hb44 : 2 ^ vaddr_bits s0 <= 2 ^ 44) by (apply Z.pow_le_mono_r; [lia | apply Ht0]).
  assert (Hcost : cost (d + c) = (cost d + cost c)%nat) by (apply cost_add; lia).
  assert (Hle : (cost (d + c) <= cost size0)%nat) by (apply cost_mono; lia).
  apply runs_bind. eapply runs_mono; [apply (Hmap N1) |]; try done; try lia.
  { inversion Hm; econstructor; done || lia. }
  { rewrite E1. lia. }
  intros [] s' Hmapped. cbn [runs mret P_ret]. split; cbn [fst snd].
  - split; [lia |]. dlia.
  - rewrite !wrap_small by (unfold in_w; lia). lia.
  - rewrite Hcost. eapply mapped_trans; [lia | lia | done | done | exact Hmapped | by intros].
  - intros Hh. specialize (Hhw Hh). specialize (Hchw Hh). dlia.
  - intros Hlt. destruct (margs_step _ _ _ c Hm ltac:(lia) Hc4) as (Hm' & Eh' & _ & Hw').
    { intros Hh. apply Hchw. congruence. }
    replace (size0 - (d + c)) with (size0 - d - c) by lia. split; [done |]. split; [congruence |].
    intros x. rewrite Hw', Hw. f_equal. lia.
Qed.

Lemma progress_bits d r s : progress d r s -> vaddr_bits s = vaddr_bits s0.
Proof. intros Hp. by destruct (pg_done _ _ _ Hp). Qed.

Lemma segment_l4 c d f t z s : progress d (f, t, z) s -> 0 <= c <= z -> c mod 4 = 0 -> f mod 4 = 0 ->
  (0 < c -> IS_HW to0 = false) -> runs (segment (map_l4_sw memalign (IS_HW to0)) c f t z incr) s (progress (d + c)).
Proof.
  intros Hp Hc Hc4 Hf4 Hhw. apply segment_spec; try done.
  { intros Hh. assert (c = 0) as ->; [| done]. destruct (Z.eq_dec c 0); [done |]. rewrite Hhw in Hh by lia. done. }
  intros N Hpos Ht Hs Hm Hlim. specialize (Hhw Hpos). apply runs_assert; [by rewrite Hhw |].
  destruct (pg_rest _ _ _ Hp) as [E1 E2]. cbn [fst snd] in *. pose proof (pg_range _ _ _ Hp).
  apply (map_l4_spec s N); try done.
  - split_and!; try done; lia.
  - destruct (pg_args _ _ _ Hp) as (_ & E & _); [lia |]. cbn in E. congruence.
Qed.

Lemma segment_l3 c d f t z s : progress d (f, t, z) s -> 0 <= c <= z -> c mod 2 ^ 14 = 0 -> (0 < c -> f mod 2 ^ 14 = 0) ->
  runs (segment (hv_pt_map_l3 memalign) c f t z incr) s (progress (d + c)).
Proof.
  intros Hp Hc Hc4 Hf4. apply segment_spec; try done; [dlia |].
  intros N Hpos Ht Hs Hm Hlim.
  destruct (pg_rest _ _ _ Hp) as [E1 E2]. cbn [fst snd] in *. pose proof (pg_range _ _ _ Hp).
  apply (map_l3_spec s N); try done. split_and!; try done; try lia. by apply Hf4.
Qed.

Lemma segment_l2 c d f t z s : progress d (f, t, z) s -> 0 <= c <= z -> c mod 2 ^ 25 = 0 -> (0 < c -> f mod 2 ^ 25 = 0) ->
  (0 < c -> IS_HW to0 = true -> (t .& PTE_TARGET_MASK) mod 2 ^ 25 = 0) ->
  runs (segment (hv_pt_map_l2 memalign) c f t z incr) s (progress (d + c)).
Proof.
  intros Hp Hc Hc4 Hf4 Hal. apply segment_spec; try done; [dlia | dlia |].
  intros N Hpos Ht Hs Hm Hlim.
  destruct (pg_rest _ _ _ Hp) as [E1 E2]. cbn [fst snd] in *. pose proof (pg_range _ _ _ Hp).
  apply (map_l2_spec s N); try done.
  - split_and!; try done; try lia. by apply Hf4.
  - intros Hh. apply Hal; [done |]. destruct (pg_args _ _ _ Hp) as (_ & E & _); [lia |]. cbn in E. congruence.
Qed.
End segments.

Hypothesis base_ok : 0 <= _base < 2 ^ 63 /\ _base mod 2 = 0.

Lemma l3_boundary_spec f : 0 <= f <= 2 ^ 44 -> f mod 2 = 0 ->
  let b := l3_boundary ALIGN_UP ram_base _base f in f <= b < 2 ^ 64 /\ b mod 2 ^ 25 = 0.
Proof.
  intros Hf He b. subst b. unfold l3_boundary. change VADDR_L2_OFFSET_BITS with 25. rewrite !up_mask_value by lia.
  destruct (Z.leb_spec ram_base ((f + (2 ^ 25 - 1)) / 2 ^ 25 * 2 ^ 25)),
    (Z.ltb_spec ((f + (2 ^ 25 - 1)) / 2 ^ 25 * 2 ^ 25) _base); cbn [andb]; split; dlia.
Qed.

(** The five chunks of [hv_map]. *)
Lemma chunk1_spec f z : 0 <= f <= 2 ^ 44 -> 0 <= z <= 2 ^ 44 -> f mod 4 = 0 -> z mod 4 = 0 ->
  let c := Z.min z (u64 (ALIGN_UP f (BIT VADDR_L3_OFFSET_BITS) - f)) in
  0 <= c <= z /\ c mod 4 = 0 /\ (f mod 2 ^ 14 = 0 -> c = 0) /\ (c < z -> (f + c) mod 2 ^ 14 = 0).
Proof.
  intros Hf Hz Hf4 Hz4 c. subst c. change VADDR_L3_OFFSET_BITS with 14. rewrite up_value by lia.
  rewrite wrap_small by (unfold in_w; dlia).
  destruct (Z.min_spec z ((f + (2 ^ 14 - 1)) / 2 ^ 14 * 2 ^ 14 - f)) as [[? ->] | [? ->]]; split_and!; dlia.
Qed.

Lemma chunk2_spec f z : 0 <= f <= 2 ^ 44 -> 0 <= z <= 2 ^ 44 -> f mod 4 = 0 -> (0 < z -> f mod 2 ^ 14 = 0) ->
  let c := ALIGN_DOWN (Z.min z (u64 (l3_boundary ALIGN_UP ram_base _base f - f))) (BIT VADDR_L3_OFFSET_BITS) in
  0 <= c <= z /\ c mod 2 ^ 14 = 0 /\ (2 ^ 14 <= z - c -> (f + c) mod 2 ^ 25 = 0).
Proof.
  intros Hf Hz Hf4 Hf14 c. subst c. destruct (l3_boundary_spec f Hf ltac:(dlia)) as [Hb Hb25].
  set (b := l3_boundary _ _ _ _) in *. change VADDR_L3_OFFSET_BITS with 14.
  rewrite wrap_small by (unfold in_w; lia). rewrite down_value by (unfold in_w; lia).
  destruct (Z.min_spec z (b - f)) as [[? ->] | [? ->]]; split_and!; dlia.
Qed.

Lemma chunk_down k z : 0 <= k <= 25 -> 0 <= z <= 2 ^ 44 ->
  0 <= ALIGN_DOWN z (BIT k) <= z /\ ALIGN_DOWN z (BIT k) mod 2 ^ k = 0 /\ z - ALIGN_DOWN z (BIT k) < 2 ^ k.
Proof.
  intros Hk Hz. rewrite down_value by (unfold in_w; lia). assert (0 < 2 ^ k) by lia.
  rewrite Z.mod_mul by lia. pose proof (Z.div_mod z (2 ^ k)). pose proof (Z.mod_pos_bound z (2 ^ k)).
  assert (0 <= z / 2 ^ k) by (apply Z.div_pos; lia). split_and!; nia.
Qed.

Lemma l2_aligned t : (t .& VADDR_L2_ALIGN_MASK =? 0) = true -> (t .& PTE_TARGET_MASK) mod 2 ^ 25 = 0.
Proof.
  intros H%Z.eqb_eq. change VADDR_L2_ALIGN_MASK with (GENMASK 24 14) in H. rewrite land_genmask in H by lia.
  rewrite target_value. change (24 - 14 + 1) with 11 in H. dlia.
Qed.

Lemma truthy_mask k x : 0 <= k -> truthy (x .& MASK k) = negb (x mod 2 ^ k =? 0).
Proof. intros Hk. unfold MASK. by rewrite land_ones_mod. Qed.

(** [hv_map] on the arguments its callers pass. *)
Lemma hv_map_spec s N from to size0 incr : typed s N -> 0 <= from -> 0 <= size0 -> from + size0 <= 2 ^ vaddr_bits s ->
  from mod 4 = 0 -> size0 mod 4 = 0 -> (0 < size0 -> margs size0 to incr) ->
  (IS_HW to = true -> from mod 2 ^ 14 = 0 /\ size0 mod 2 ^ 14 = 0) ->
  (size (tables s) + cost size0 <= limit)%nat ->
  runs (hv_map memalign ALIGN_UP ALIGN_DOWN ram_base _base from to size0 incr) s
    (fun r s' => r = 0 /\ mapped (cost size0) s from size0 to incr s').
Proof.
  intros Ht H0 Hs0 Hend Hf4 Hs4 Hm Hhw Hsz.
  assert (Hb44 : 2 ^ vaddr_bits s <= 2 ^ 44) by (apply Z.pow_le_mono_r; [lia | apply Ht]).
  unfold hv_map. rewrite !truthy_mask by done. change VADDR_L4_OFFSET_BITS with 2. change VADDR_L3_OFFSET_BITS with 14.
  change (2 ^ 2) with 4. rewrite Hf4, Hs4. cbn [Z.eqb negb orb].
  replace (IS_HW to && (negb (from mod 2 ^ 14 =? 0) || negb (size0 mod 2 ^ 14 =? 0))) with false.
  2: { destruct (IS_HW to); [| done]. destruct (Hhw eq_refl) as [-> ->]. done. }
  assert (Hnext : forall d r s', progress s from to size0 incr d r s' ->
    exists t, r = (from + d, t, size0 - d) /\ 0 <= d <= size0 /\ d mod 4 = 0).
  { intros d [[f t] z] s' Hp. destruct (pg_rest _ _ _ _ _ _ _ _ Hp) as [E1 E2]. cbn in E1, E2. exists t.
    split; [congruence |]. apply Hp. }
  pose proof (progress_start s from to size0 incr N Ht Hs0 Hm) as Hp.
  (* L4 to the next page *)
  destruct (chunk1_spec from size0) as (Hc1 & Hc14 & Hc1h & Hc1e); try done; try lia. set (c1 := Z.min _ _) in *.
  apply runs_bind. eapply runs_mono.
  { apply (segment_l4 s from to size0 incr N Ht H0 Hend Hsz c1 0 from to size0 s Hp); try done.
    intros Hpos. destruct (IS_HW to); [| done]. destruct (Hhw eq_refl) as [E _]. specialize (Hc1h E). lia. }
  clear Hp. intros r s1 Hp. destruct (Hnext _ _ _ Hp) as (t1 & -> & Hd1 & Hd14). cbn beta iota.
  rewrite Z.add_0_l in *.
  (* L3 to the boundary *)
  destruct (chunk2_spec (from + c1) (size0 - c1)) as (Hc2 & Hc24 & Hc2e); try lia; [dlia |]. set (c2 := ALIGN_DOWN _ _) in *.
  apply runs_bind. eapply runs_mono.
  { apply (segment_l3 s from to size0 incr N Ht H0 Hend Hsz c2 _ _ _ _ s1 Hp); try done. lia. }
  clear Hp. intros r s2 Hp. destruct (Hnext _ _ _ Hp) as (t2 & -> & Hd2 & Hd24). cbn beta iota.
  (* L2 *)
  set (d2 := c1 + c2) in *. change VADDR_L2_OFFSET_BITS with 25.
  destruct (chunk_down 25 (size0 - d2)) as (Hc3 & Hc34 & _); [lia | lia |]. set (down := ALIGN_DOWN (size0 - d2) _) in *.
  set (g := negb (IS_HW to) || _). set (c3 := if g then down else 0).
  assert (Hc3' : 0 <= c3 <= size0 - d2 /\ c3 mod 2 ^ 25 = 0).
  { subst c3. destruct g; [by split | by split; [lia |]]. }
  apply runs_bind. eapply runs_mono.
  { apply (segment_l2 s from to size0 incr N Ht H0 Hend Hsz c3 _ _ _ _ s2 Hp); try done; try apply Hc3'.
    - intros Hpos. subst d2. rewrite Z.add_assoc. apply Hc2e. dlia.
    - intros Hpos Ehw. subst c3 g. rewrite Ehw in Hpos. cbn [negb orb] in Hpos.
      destruct (t2 .& VADDR_L2_ALIGN_MASK =? 0) eqn:E; [by apply l2_aligned | lia]. }
  clear Hp. intros r s3 Hp. destruct (Hnext _ _ _ Hp) as (t3 & -> & Hd3 & Hd34). cbn beta iota.
  (* L3 to the end *)
  set (d3 := d2 + c3) in *. assert (Hf3 : 2 ^ 14 <= size0 - d3 -> (from + d3) mod 2 ^ 14 = 0).
  { intros Hz. subst d3 d2. assert (E : (from + c1 + c2) mod 2 ^ 25 = 0) by (apply Hc2e; lia). dlia. }
  destruct (chunk_down 14 (size0 - d3)) as (Hc4 & Hc44 & Hc4e); [lia | lia |]. set (c4 := ALIGN_DOWN (size0 - d3) _) in *.
  apply runs_bind. eapply runs_mono.
  { apply (segment_l3 s from to size0 incr N Ht H0 Hend Hsz c4 _ _ _ _ s3 Hp); try done. intros Hpos. apply Hf3. dlia. }
  clear Hp. intros r s4 Hp. destruct (Hnext _ _ _ Hp) as (t4 & -> & Hd4 & Hd44). cbn beta iota.
  (* L4 to the end *)
  set (d4 := d3 + c4) in *. set (c5 := size0 - d4) in *.
  assert (Hlast : runs (segment (map_l4_sw memalign (IS_HW to)) c5 (from + d4) t4 c5 incr) s4
    (progress s from to size0 incr (d4 + c5))).
  { apply (segment_l4 s from to size0 incr N Ht H0 Hend Hsz c5 _ _ _ _ s4 Hp); try done; try lia; try (subst c5; dlia).
    intros Hpos. destruct (IS_HW to) eqn:Ehw; [| done]. exfalso. destruct (Hhw eq_refl) as [_ E].
    pose proof (pg_hw _ _ _ _ _ _ _ _ Hp Ehw). subst c5. dlia. }
  unfold segment in Hlast. replace (d4 + c5) with size0 in Hlast by (subst c5; lia).
  destruct (truthy c5) eqn:Et.
  - apply runs_bind. unfold runs in *. unfold mbind, P_bind in Hlast.
    destruct (map_l4_sw _ _ _ _ _ _ s4) as [[[] s5]|]; [| done]. cbn in Hlast |- *. split; [done |]. apply Hlast.
  - apply runs_bind. cbn [runs mret P_ret] in *. split; [done |]. apply Hlast.
Qed.
End ops.

(** ** Walks *)

Lemma clear_bits x m : in_w 64 x -> x .& cnot 64 m = x - (x .& m).
Proof.
  intros Hx. rewrite Z.sub_nocarry_ldiff.
  - apply Z.bits_inj'. intros i Hi. rewrite Z.land_spec, testbit_cnot, Z.ldiff_spec, Z.land_spec by lia.
    destruct (Z.ltb_spec i 64).
    + by destruct (Z.testbit x i), (Z.testbit m i).
    + by rewrite (testbit_in_w 64 x i) by (done || lia).
  - apply Z.bits_inj'. intros i Hi. rewrite Z.ldiff_spec, Z.land_spec, Z.bits_0.
    by destruct (Z.testbit x i), (Z.testbit m i).
Qed.

(** A word offset below [2^k] is or'ed into a value with those bits clear. *)
Lemma lor_offset k x r off : 3 <= k -> x mod 2 ^ k = 0 -> 0 <= r < 4 -> 0 <= off < 2 ^ k -> off mod 4 = 0 ->
  (x + r) .| off = x + off + r.
Proof.
  intros Hk Hx Hr Ho Ho4. assert (Hpk : 2 ^ k = 4 * 2 ^ (k - 2)).
  { rewrite <- (Z.pow_add_r 2 2) by lia. f_equal. lia. }
  pose proof (Z.div_mod x (2 ^ k) ltac:(lia)) as Ex. rewrite Hx, Z.add_0_r, Hpk in Ex. assert (0 < 2 ^ (k - 2)) by lia.
  set (pk := 2 ^ (k - 2)) in *. rewrite Hpk in *. set (q := x / (4 * pk)) in *. rewrite <- Z.mul_assoc in Ex.
  assert (Hand : (x + r) .& off = 0).
  { assert (Eoff : off .& GENMASK (k - 1) 2 = off).
    { rewrite land_genmask by lia. replace (k - 1 - 2 + 1) with (k - 2) by lia. fold pk.
      change (2 ^ 2) with 4. rewrite (Z.mod_small (off / 4)) by dlia. dlia. }
    assert (Ex' : (x + r) .& GENMASK (k - 1) 2 = 0).
    { rewrite land_genmask by lia. replace (k - 1 - 2 + 1) with (k - 2) by lia. fold pk. change (2 ^ 2) with 4.
      replace ((x + r) / 4) with (q * pk) by (rewrite Ex, (Z.mul_comm q); dlia). by rewrite Z.mod_mul by lia. }
    by rewrite <- Eoff, (Z.land_comm off), Z.land_assoc, Ex'. }
  rewrite <- Z.lxor_lor, <- Z.add_nocarry_lxor by done. lia.
Qed.

Lemma page_offset a : a .& VADDR_L3_ALIGN_MASK = word (a mod 2 ^ 14).
Proof.
  change VADDR_L3_ALIGN_MASK with (GENMASK 13 2). rewrite land_genmask by done. unfold word.
  change (2 ^ 2) with 4. change (13 - 2 + 1) with 12. dlia.
Qed.
Lemma block_offset a : a .& (VADDR_L2_ALIGN_MASK .| VADDR_L3_ALIGN_MASK) = word (a mod 2 ^ 25).
Proof.
  change (VADDR_L2_ALIGN_MASK .| VADDR_L3_ALIGN_MASK) with (GENMASK 24 2). rewrite land_genmask by done. unfold word.
  change (2 ^ 2) with 4. change (24 - 2 + 1) with 23. dlia.
Qed.

(** What the walk makes of a leaf, with [is_hw] its test for a hardware leaf. *)
Definition walked (is_hw : Z -> bool) (e off : Z) : Z :=
  let e := if L2_IS_SW_BLOCK e then u64 (e + off) else e in
  if is_hw e then (e .& cnot 64 PTE_LOWER_ATTRIBUTES) .| off else e.

Lemma walked_leaf k is_hw e off : 14 <= k <= 25 -> leaf k e -> 0 <= off < 2 ^ k -> off mod 4 = 0 ->
  (forall e, IS_HW e = false -> is_hw e = false) -> (forall e, leaf k e -> IS_HW e = true -> is_hw e = true) ->
  backing_of (walked is_hw e off) = den e off.
Proof.
  intros Hk He Ho Ho4 Hsw Hhw. assert (Hpk : 2 ^ k = 2 ^ 14 * 2 ^ (k - 14)).
  { rewrite <- (Z.pow_add_r 2 14) by lia. f_equal. lia. }
  assert (Hpk25 : 2 ^ k <= 2 ^ 25) by (apply Z.pow_le_mono_r; lia). assert (0 < 2 ^ k) by lia.
  assert (Hdiv : (2 ^ 14 | 2 ^ k)) by (exists (2 ^ (k - 14)); lia).
  pose proof (Hhw e He) as Hhwe. unfold walked, L2_IS_SW_BLOCK. destruct He as [| hi t a Hhi Ht Htk Hm Ha Ham | hi t Hhi Hm8 Ht Htk Hm Hn | hi t Hhi Hm8 Ht Hm].
  - cbn. by rewrite (Hsw 0).
  - assert (Ho' : a mod 2 = 1 /\ a mod 4 < 4 /\ 0 <= a mod 4) by (destruct (k =? 14); dlia).
    assert (Hm14 : t mod 2 ^ 14 = 0) by (apply Z.mod_divide; [lia |]; etrans; [exact Hdiv |]; apply Z.mod_divide; lia).
    destruct (hw_fields hi t a) as (E1 & _ & _ & E2 & _); try dlia.
    assert (Esw : IS_SW (hi * 2 ^ 50 + t + a) = false).
    { unfold IS_SW, IS_HW in *. apply andb_true_iff in E1 as [_ ->]. apply andb_false_r. }
    rewrite Esw. cbn [andb]. rewrite Hhwe, clear_bits by done. rewrite den_hw by (done || lia).
    unfold PTE_LOWER_ATTRIBUTES. rewrite land_genmask by done. change (13 - 2 + 1) with 12.
    replace (hi * 2 ^ 50 + t + a - (hi * 2 ^ 50 + t + a) / 2 ^ 2 mod 2 ^ 12 * 2 ^ 2) with (hi * 2 ^ 50 + t + a mod 4) by dlia.
    assert (Hmk : (hi * 2 ^ 50 + t) mod 2 ^ k = 0).
    { replace (hi * 2 ^ 50) with (hi * 2 ^ (50 - k) * 2 ^ k) by (rewrite <- Z.mul_assoc, <- Z.pow_add_r by lia; do 2 f_equal; lia).
      by rewrite Z.add_comm, Z.mod_add by lia. }
    rewrite (lor_offset k) by (done || lia).
    assert (Hto : (t + off) mod 4 = 0) by dlia.
    unfold backing_of, IS_HW. rewrite valid_value, target4_value. unfold truthy.
    rewrite (proj2 (Z.eqb_neq _ 0)), (proj2 (Z.eqb_eq _ 1)) by dlia. cbn [negb andb]. do 2 f_equal. dlia.
  - destruct (sw_fields hi t 0) as (E1 & E2 & E3 & E4 & _); [lia | lia | done | auto | lia |]. rewrite Z.add_0_r in *.
    rewrite E2, E3, E4, Hm8. cbn [Z.eqb negb andb SPTE_MAP].
    rewrite wrap_small by (unfold in_w; lia).
    destruct (sw_fields hi (t + off) 0) as (E5 & _ & _ & _ & E6 & E7 & _ & E8); [lia | lia | dlia | auto | lia |].
    rewrite Z.add_0_r, Z.add_assoc in *. rewrite Hsw by done. rewrite den_sw by (done || lia).
    unfold backing_of. rewrite E5, E6, E7, E8, Hm8. done.
  - destruct (sw_fields hi t 0) as (E1 & E2 & E3 & E4 & E6 & E7 & _ & E8); [lia | lia | done | auto | dlia |]. rewrite Z.add_0_r in *.
    rewrite E2, E3, E4. unfold SPTE_MAP. rewrite (proj2 (Z.eqb_neq (hi mod 8) 0)) by done. cbn [Z.eqb negb andb].
    rewrite Hsw by done. rewrite den_sw by (done || dlia). unfold backing_of. rewrite E1, E6, E7, E8.
    rewrite (proj2 (Z.eqb_neq (hi mod 8) 0)) by done. by rewrite Z.add_0_r.
Qed.

Lemma l2_walked e off : leaf 25 e -> 0 <= off < 2 ^ 25 -> off mod 4 = 0 -> backing_of (walked L2_IS_HW_BLOCK e off) = den e off.
Proof.
  intros He Ho Ho4. apply (walked_leaf 25); try done.
  - intros x Hx. unfold L2_IS_HW_BLOCK. by rewrite Hx.
  - intros x Hx Ehw. pose proof (leaf_not_tab 2 x Hx) as Hn. cbn [is_tab] in Hn. unfold L2_IS_HW_BLOCK, L2_IS_TABLE in *.
    rewrite Ehw. unfold IS_HW in Ehw. apply andb_true_iff in Ehw as [Ehw _]. rewrite Ehw in Hn. cbn [andb] in *. by rewrite Hn.
Qed.

Lemma l3_walked e off : leaf 14 e -> 0 <= off < 2 ^ 14 -> off mod 4 = 0 -> backing_of (walked L3_IS_HW_BLOCK e off) = den e off.
Proof.
  intros He Ho Ho4. apply (walked_leaf 14); try done.
  - intros x Hx. unfold L3_IS_HW_BLOCK. by rewrite Hx.
  - intros x Hx Ehw. pose proof (hw_page_type x Hx) as Ht. unfold L3_IS_HW_BLOCK. rewrite Ehw in *. exact Ht.
Qed.

Lemma word_range x n : 0 <= x < n -> 0 <= word x < n /\ word x mod 4 = 0.
Proof. unfold word. intros. split; dlia. Qed.

(** The walk reads an entry whose backing is the view; it changes nothing. *)
Definition walks (m : P Z) (s : hv_pt) (a : Z) : Prop := exists pte, m s = Some (pte, s) /\ view s a = Some (backing_of pte).

Lemma walks_load s p i v (k : Z -> P Z) a : rd s p i = Some v -> walks (k v) s a -> walks (load p i ≫= k) s a.
Proof. intros Hr (pte & Hk & Hv). exists pte. split; [| done]. unfold mbind, P_bind, load. by rewrite Hr. Qed.

Lemma walks_leaf s N h a p e pte : typed s N -> in_space s a -> (h <= root (vaddr_bits s))%nat -> N !! (h, pos (S h) a) = Some p ->
  rd s p (index h a) = Some e -> leaf_ok h e -> backing_of pte = leaf_den h e a -> walks (mret pte) s a.
Proof.
  intros Ht Ha Hh Hp Hr He Hb. exists pte. split; [done |]. rewrite Hb.
  rewrite (view_node s N a Ht Ha (root (vaddr_bits s) - h) h p) by (done || lia). by apply view_leaf.
Qed.

Lemma walk_from_spec s N a p : typed s N -> in_space s a -> N !! (2%nat, pos 3 a) = Some p -> walks (walk_from p a) s a.
Proof.
  intros Ht Ha Hp. pose proof (root_ge (vaddr_bits s)) as Hroot. unfold walk_from. rewrite l2_index_value.
  destruct (path_entry s N 2 a p Ht ltac:(lia) Hp) as (e & Hr & Hok). apply (walks_load _ _ _ e); [done |].
  change (L2_IS_TABLE e) with (is_tab 2 e). unfold entry_ok in Hok. destruct (is_tab 2 e); cbn [negb pred] in *.
  2: { destruct Hok as [Hl _]. apply (walks_leaf s N 2 a p e); try done. rewrite block_offset.
       destruct (word_range (a mod 2 ^ 25) (2 ^ 25)) as [? ?]; [apply Z.mod_pos_bound; lia |]. by apply l2_walked. }
  rewrite l3_index_value. clear Hr p Hp. set (p := _ .& _) in *. clearbody p. clear e.
  destruct (path_entry s N 1 a p Ht ltac:(lia) Hok) as (e & Hr & Hok1). apply (walks_load _ _ _ e); [done |].
  change (L3_IS_TABLE e) with (is_tab 1 e). unfold entry_ok in Hok1. destruct (is_tab 1 e); cbn [negb pred] in *.
  2: { destruct Hok1 as [Hl _]. apply (walks_leaf s N 1 a p e); try done; [lia |]. rewrite page_offset.
       destruct (word_range (a mod 2 ^ 14) (2 ^ 14)) as [? ?]; [apply Z.mod_pos_bound; lia |]. by apply l3_walked. }
  rewrite l4_index_value. clear Hr p Hok. set (p := _ .& _) in *. clearbody p. clear e.
  destruct (path_entry s N 0 a p Ht ltac:(lia) Hok1) as (e & Hr & Hok2).
  exists e. split; [unfold load; by rewrite Hr |]. unfold entry_ok in Hok2. cbn [is_tab] in Hok2. destruct Hok2 as [Hl _].
  rewrite (view_node s N a Ht Ha (root (vaddr_bits s) - 0) 0 p) by (done || lia). by apply (view_leaf 0).
Qed.

Lemma walk_spec s N a : typed s N -> in_space s a -> walks (hv_pt_walk a) s a.
Proof.
  intros Ht Ha. pose proof (ty_bits _ _ Ht) as Hb. pose proof (ty_root _ _ Ht) as Hr. pose proof (pos_root s a Ha Hb) as Hp.
  unfold hv_pt_walk, walks. unfold mbind, P_bind. cbn [get_vaddr_bits get_Ltop].
  destruct (Z.ltb_spec 36 (vaddr_bits s)) as [Hgt | Hle]; unfold root in Hr, Hp.
  - destruct (Z.leb_spec (vaddr_bits s) 36); [lia |]. rewrite (l1_index_value s) by done.
    pose proof (index_range 3 a) as Hi. unfold ENTRIES_PER_L1_TABLE, BIT, VADDR_L1_INDEX_BITS.
    assert (Hi8 : index 3 a < 2 ^ 8).
    { rewrite <- (l1_index_value s) by done. unfold VADDR_L1_OFFSET_BITS. rewrite Z.shiftr_div_pow2 by lia.
      destruct Ha as [Ha0 Ha1]. assert (2 ^ vaddr_bits s <= 2 ^ 44) by (apply Z.pow_le_mono_r; lia). dlia. }
    rewrite (proj2 (Z.ltb_lt _ _)) by done. cbn [assert mret P_ret].
    assert (Htop : N !! (3%nat, pos 4 a) = Some (hv_Ltop s)) by (by rewrite Hp).
    destruct (path_entry s N 3 a (hv_Ltop s) Ht ltac:(lia) Htop) as (e & Hrd & Hok). unfold load at 1. rewrite Hrd. cbn [fmap option_fmap option_map].
    change (L1_IS_TABLE e) with (is_tab 3 e). unfold entry_ok in Hok. destruct (is_tab 3 e); cbn [negb pred] in *.
    + by apply (walk_from_spec s N).
    + destruct Hok as [Hl _]. apply (walks_leaf s N 3 a (hv_Ltop s) e); try done.
      * unfold root. destruct (Z.leb_spec (vaddr_bits s) 36); lia.
      * cbn in Hl. by rewrite Hl.
  - destruct (Z.leb_spec (vaddr_bits s) 36); [| lia].
    assert (E : (a .>> VADDR_L1_OFFSET_BITS =? 0) = true).
    { apply Z.eqb_eq. unfold VADDR_L1_OFFSET_BITS. rewrite Z.shiftr_div_pow2 by lia. exact Hp. }
    rewrite E. cbn [assert mret P_ret]. apply (walk_from_spec s N); [done | done |]. by rewrite Hp.
Qed.

(** What the tables answer at an address. *)
Definition translate (s : hv_pt) (a : Z) : option backing := '(pte, _) ← hv_pt_walk a s; Some (backing_of pte).

Lemma translate_view s N a : typed s N -> in_space s a -> translate s a = view s a.
Proof. intros Ht Ha. destruct (walk_spec s N a Ht Ha) as (pte & E & ->). unfold translate. by rewrite E. Qed.

(** ** Specification

    The tables stand for a map from addresses to backings; each of the five
    entry points changes it on the range it is given. *)

Inductive request :=
| Unmap (from size : Z)
| MapHw (nc : bool) (from to size : Z)
| MapSw (from to size : Z)
| MapHook (from hook size : Z).

Definition rq_range (r : request) : Z * Z :=
  match r with Unmap f z | MapHw _ f _ z | MapSw f _ z | MapHook f _ z => (f, z) end.

(** What the word [d] bytes into the range is backed by. *)
Definition rq_backing (r : request) (d : Z) : backing :=
  match r with
  | Unmap _ _ => None
  | MapHw _ _ to _ => Some (0, to + d)
  | MapSw _ to _ => Some (to / 2 ^ 50, to mod 2 ^ 50 + d)
  | MapHook _ hook _ => Some (SPTE_HOOK, hook)
  end.

(** Words for software mappings, pages for hardware ones. *)
Definition rq_grain (r : request) : Z := match r with MapHw _ _ _ _ => 2 ^ 14 | _ => 4 end.
Definition rq_aligned (r : request) : bool :=
  ((rq_range r).1 mod rq_grain r =? 0) && ((rq_range r).2 mod rq_grain r =? 0).

(** The target is an address of its kind (or a hook function), and the range is
    in the space. *)
Definition rq_valid (vb : Z) (r : request) : Prop :=
  let from := (rq_range r).1 in let size := (rq_range r).2 in
  0 <= from /\ 0 <= size /\ from + size <= 2 ^ vb /\
  match r with
  | Unmap _ _ => True
  | MapHw _ _ to _ => 0 < to < 2 ^ 50 /\ to + size <= 2 ^ 50 /\ to mod 2 ^ 14 = 0
  | MapSw _ to _ => in_w 64 to /\ to <> 0 /\ to mod 4 = 0 /\ to / 2 ^ 50 mod 8 = SPTE_MAP /\ to mod 2 ^ 50 + size <= 2 ^ 50
  | MapHook _ hook _ => 0 <= hook < 2 ^ 50 /\ hook mod 4 = 0
  end.

Definition rq_apply (m : Z -> backing) (r : request) : Z -> backing := fun b =>
  let from := (rq_range r).1 in let size := (rq_range r).2 in
  if rq_aligned r && (from <=? b) && (b <? from + size) then rq_backing r (word (b - from)) else m b.

(** Each request may add this many tables. *)
Definition rq_cost (r : request) : nat := cost (rq_range r).2.

Section requests.
Context (memalign : gmap Z (list Z) -> Z -> Z) (ALIGN_UP ALIGN_DOWN : Z -> Z -> Z) (ram_base _base : Z).

Definition issue (r : request) : P Z :=
  match r with
  | Unmap from size => hv_unmap memalign ALIGN_UP ALIGN_DOWN ram_base _base from size
  | MapHw false from to size => hv_map_hw memalign ALIGN_UP ALIGN_DOWN ram_base _base from to size
  | MapHw true from to size => hv_map_hw_nc memalign ALIGN_UP ALIGN_DOWN ram_base _base from to size
  | MapSw from to size => hv_map_sw memalign ALIGN_UP ALIGN_DOWN ram_base _base from to size
  | MapHook from hook size => hv_map_hook memalign ALIGN_UP ALIGN_DOWN ram_base _base from hook size
  end.

(** The arguments [issue] gives [hv_map]. *)
Definition rq_to (r : request) : Z :=
  match r with
  | Unmap _ _ => 0
  | MapHw nc _ to _ => to .| (if nc then PTE_ATTRIBUTES_NC else PTE_ATTRIBUTES) .| PTE_VALID
  | MapSw _ to _ => to .| SPTE_PREP SPTE_MAP
  | MapHook _ hook _ => hook .| SPTE_PREP SPTE_HOOK
  end.
Definition rq_incr (r : request) : Z := match r with Unmap _ _ | MapHook _ _ _ => 0 | _ => 1 end.

Lemma issue_value r : issue r = hv_map memalign ALIGN_UP ALIGN_DOWN ram_base _base (rq_range r).1 (rq_to r) (rq_range r).2 (rq_incr r).
Proof. by destruct r as [| [] | |]. Qed.

Fixpoint issue_all (rs : list request) : P (list Z) :=
  match rs with
  | [] => mret []
  | r :: rs => x ← issue r; xs ← issue_all rs; mret (x :: xs)
  end.
End requests.

Lemma hw_to_value (nc : bool) to : to mod 2 ^ 14 = 0 ->
  to .| (if nc then PTE_ATTRIBUTES_NC else PTE_ATTRIBUTES) .| PTE_VALID = 0 * 2 ^ 50 + to + (if nc then 0x7d5 else 0x7fd).
Proof.
  intros Hm. rewrite <- Z.lor_assoc, Z.lor_comm.
  replace to with ((to / 2 ^ 14) .<< 14) at 1 by (rewrite Z.shiftl_mul_pow2 by lia; dlia).
  rewrite lor_shiftl_add by (destruct nc; done).
  replace ((if nc then PTE_ATTRIBUTES_NC else PTE_ATTRIBUTES) .| PTE_VALID) with (if nc then 0x7d5 else 0x7fd) by by destruct nc.
  dlia.
Qed.

Lemma hook_to_value hook : 0 <= hook < 2 ^ 50 -> hook .| SPTE_PREP SPTE_HOOK = 1 * 2 ^ 50 + hook.
Proof. intros Hh. change (SPTE_PREP SPTE_HOOK) with (1 .<< 50). rewrite lor_shiftl_add by done. lia. Qed.

(** The arguments are the ones [hv_map] is specified for. *)
Lemma rq_margs vb r : rq_valid vb r ->
  (0 < (rq_range r).2 -> margs (rq_range r).2 (rq_to r) (rq_incr r)) /\
  IS_HW (rq_to r) = (rq_grain r =? 2 ^ 14) /\
  forall d, want (rq_to r) (rq_incr r) d = rq_backing r d.
Proof.
  intros (H0 & Hs & Hend & Hto). destruct r as [f z | nc f to z | f to z | f hook z]; cbn [rq_range rq_to rq_incr rq_grain rq_backing fst snd] in *.
  - split; [constructor |]. done.
  - destruct Hto as (Hto & Hlim & Hm). rewrite hw_to_value by done.
    assert (Ha : forall a, a = (if nc then 0x7d5 else 0x7fd) -> 0 <= a < 2 ^ 14 /\ a mod 4 = 1) by (intros a ->; by destruct nc).
    set (a := if nc then _ else _) in *. destruct (Ha a eq_refl) as [Ha1 Ha2]. clearbody a.
    split; [| split].
    + intros Hz. apply ma_hw; done || lia.
    + destruct (hw_fields 0 to a) as (-> & _); try dlia.
    + intros d. rewrite want_hw by (done || lia). by rewrite Z.mul_1_l.
  - change (SPTE_PREP SPTE_MAP) with 0. rewrite Z.lor_0_r. destruct Hto as (Hw & Hne & Hm4 & Ht & Hlim). unfold in_w in Hw. unfold SPTE_MAP in Ht.
    set (hi := to / 2 ^ 50) in *. set (t := to mod 2 ^ 50) in *. assert (E : to = hi * 2 ^ 50 + t) by (subst hi t; dlia).
    assert (Hhi : 0 <= hi < 2 ^ 14) by (subst hi; dlia). assert (Htr : 0 <= t < 2 ^ 50) by (subst t; dlia).
    clearbody hi t. subst to. assert (Htm : t mod 4 = 0) by dlia.
    split; [| split].
    + intros Hz. apply ma_map; done || lia.
    + destruct (sw_fields hi t 0) as (E & _); [done | done | done | auto | lia |]. by rewrite Z.add_0_r in E.
    + intros d. rewrite want_sw by done. by rewrite Z.mul_1_l.
  - destruct Hto as (Hh & Hm4). rewrite hook_to_value by done. split; [| split].
    + intros Hz. apply ma_hook; done || lia.
    + destruct (sw_fields 1 hook 0) as (E & _); [done | done | done | auto | lia |]. by rewrite Z.add_0_r in E.
    + intros d. rewrite want_sw by (done || lia). by rewrite Z.mul_0_l, Z.add_0_r.
Qed.

(** The abstraction: a typed store whose walks answer [m]. *)
Definition implements (s : hv_pt) (m : Z -> backing) : Prop :=
  (exists N, typed s N) /\ forall b, in_space s b -> translate s b = Some (m b).

Section refinement.
Context (memalign : gmap Z (list Z) -> Z -> Z) (limit : nat) `{!Allocator memalign limit}.
Context (ALIGN_UP ALIGN_DOWN : Z -> Z -> Z) (ram_base _base : Z).
Hypothesis align_up : forall x a, ALIGN_UP x a = u64 (x + (a - 1)) .& cnot 64 (a - 1).
Hypothesis align_down : forall x a, ALIGN_DOWN x a = x .& cnot 64 (a - 1).
Hypothesis base_ok : 0 <= _base < 2 ^ 63 /\ _base mod 2 = 0.

Lemma implements_view s m N : typed s N -> (forall b, in_space s b -> view s b = Some (m b)) -> implements s m.
Proof. intros Ht Hv. split; [by exists N |]. intros b Hb. rewrite (translate_view s N) by done. by apply Hv. Qed.

Lemma misaligned_refused from to size incr s :
  (if IS_HW to then from mod 2 ^ 14 = 0 /\ size mod 2 ^ 14 = 0 else from mod 4 = 0 /\ size mod 4 = 0) \/
  hv_map memalign ALIGN_UP ALIGN_DOWN ram_base _base from to size incr s = Some (-1, s).
Proof.
  unfold hv_map. rewrite !truthy_mask by done. change (2 ^ VADDR_L4_OFFSET_BITS) with 4. change (2 ^ VADDR_L3_OFFSET_BITS) with (2 ^ 14).
  destruct (IS_HW to), (Z.eqb_spec (from mod 4) 0), (Z.eqb_spec (size mod 4) 0), (Z.eqb_spec (from mod 2 ^ 14) 0),
    (Z.eqb_spec (size mod 2 ^ 14) 0); cbn [negb orb andb]; (by right) || (left; lia) || (right; reflexivity).
Qed.

(** What a request does to an implementation of [m]. *)
Definition served (r : request) (s : hv_pt) (m : Z -> backing) (x : Z) (s' : hv_pt) : Prop :=
  x = (if rq_aligned r then 0 else -1) /\ vaddr_bits s' = vaddr_bits s /\
  (size (tables s') <= size (tables s) + rq_cost r)%nat /\ implements s' (rq_apply m r).

Lemma issue_spec r s m : implements s m -> rq_valid (vaddr_bits s) r -> (size (tables s) + rq_cost r <= limit)%nat ->
  runs (issue memalign ALIGN_UP ALIGN_DOWN ram_base _base r) s (served r s m).
Proof.
  intros [[N Ht] Hm] Hr Hsz. destruct (rq_margs _ r Hr) as (Hargs & Hhw & Hwant). pose proof Hr as (H0 & Hs0 & Hend & _).
  rewrite issue_value. set (from := (rq_range r).1) in *. set (size := (rq_range r).2) in *.
  destruct (rq_aligned r) eqn:Eal.
  - assert (Hal : from mod rq_grain r = 0 /\ size mod rq_grain r = 0).
    { unfold rq_aligned in Eal. apply andb_true_iff in Eal as [E1%Z.eqb_eq E2%Z.eqb_eq]. by split. }
    assert (Hg : rq_grain r = 4 \/ rq_grain r = 2 ^ 14) by (destruct r; cbn; auto).
    eapply runs_mono.
    + apply (hv_map_spec memalign limit ALIGN_UP ALIGN_DOWN ram_base _base align_up align_down base_ok s N from (rq_to r) size (rq_incr r));
        try done; try (destruct Hg as [E | E]; rewrite E in Hal; dlia).
      intros E. rewrite Hhw in E. apply Z.eqb_eq in E. by rewrite E in Hal.
    + intros x s' [-> (E1 & S1 & (N' & Ht') & V1)]. split_and!; [by rewrite Eal | done | done |].
      apply (implements_view s' _ N'); [done |]. intros b Hb.
      assert (Hb0 : in_space s b) by (unfold in_space in *; by rewrite <- E1).
      rewrite V1 by done. unfold rq_apply. fold from size. rewrite Eal. cbn [andb].
      destruct ((from <=? b) && (b <? from + size)); [by rewrite Hwant |].
      rewrite <- (translate_view s N) by done. by apply Hm.
  - destruct (misaligned_refused from (rq_to r) size (rq_incr r) s) as [Hno | E].
    + exfalso. assert (Hg : rq_aligned r = true); [| congruence]. unfold rq_aligned. fold from size. rewrite Hhw in Hno.
      assert (Hg : rq_grain r = 4 \/ rq_grain r = 2 ^ 14) by (destruct r; cbn; auto).
      destruct Hg as [E | E]; rewrite E in *; cbn [Z.eqb Z.pow] in Hno; destruct Hno as [E1 E2]; by rewrite E1, E2.
    + unfold runs. rewrite E. split_and!; [by rewrite Eal | done | lia |].
      split; [by exists N |]. intros b Hb. rewrite Hm by done. unfold rq_apply. by rewrite Eal.
Qed.

Lemma issue_all_spec rs : forall s m, implements s m -> Forall (rq_valid (vaddr_bits s)) rs ->
  (size (tables s) + sum_list (rq_cost <$> rs) <= limit)%nat ->
  runs (issue_all memalign ALIGN_UP ALIGN_DOWN ram_base _base rs) s (fun xs s' =>
    xs = (fun r => if rq_aligned r then 0 else -1) <$> rs /\ vaddr_bits s' = vaddr_bits s /\
    implements s' (foldl rq_apply m rs)).
Proof.
  induction rs as [| r rs IH]; intros s m Hm Hrs Hsz; [by split_and! |].
  inversion_clear Hrs as [| ? ? Hr Hrs']. cbn [issue_all]. apply runs_bind. 
  change (size (tables s) + (rq_cost r + sum_list (rq_cost <$> rs)) <= limit)%nat in Hsz.
  eapply runs_mono; [apply (issue_spec r s m); [done | done |] |]; [lia |].
  intros x s1 (-> & E1 & S1 & Hm1). apply runs_bind. eapply runs_mono.
  - apply (IH s1 (rq_apply m r)); [done | by rewrite E1 |]. lia.
  - intros xs s2 (-> & E2 & Hm2). cbn [runs mret P_ret]. split_and!; [done | congruence | done].
Qed.

(** [hv_pt_init] gives the empty map. *)
Lemma init_spec pa_range b s : 0 <= pa_range -> pa_bits !! Z.to_nat pa_range = Some b -> (size (tables s) < limit)%nat ->
  runs (hv_pt_init memalign pa_range) s (fun _ s' =>
    vaddr_bits s' = Z.min 44 b /\ (size (tables s') <= size (tables s) + 1)%nat /\ implements s' (fun _ => None)).
Proof.
  intros H0 Hb Hsz. assert (Hb0 : 0 <= Z.min 44 b <= 44).
  { apply list_elem_of_lookup_2 in Hb. unfold pa_bits in Hb.
    repeat (apply elem_of_cons in Hb as [-> | Hb]; [lia |]). by apply elem_of_nil in Hb. }
  unfold runs, hv_pt_init. destruct (Z.ltb_spec pa_range 0); [lia |]. rewrite Hb. cbn [mbind option_bind new_table tables vaddr_bits set_tables hv_Ltop].
  set (es := entries _ _ _). destruct (al_fresh (tables s) (8 * zlen es) Hsz) as (Hf & Hp & Hpa).
  set (p := memalign _ _) in *. set (s' := mk_pt _ _ _).
  split; [done |]. split.
  { cbn. rewrite map_size_insert_None by done. lia. }
  assert (Hr3 : root (Z.min 44 b) = 2%nat \/ root (Z.min 44 b) = 3%nat) by (unfold root; destruct (_ <=? 36); auto).
  assert (Hl : length es = Z.to_nat (2 ^ width (root (Z.min 44 b)))).
  { replace (2 ^ width (root (Z.min 44 b))) with ENTRIES_PER_L2_TABLE by by destruct Hr3 as [-> | ->].
    unfold es. rewrite length_entries. reflexivity. }
  set (N := {[(root (Z.min 44 b), 0) := p]} : nodes).
  assert (HN : forall n q, N !! n = Some q <-> n = (root (Z.min 44 b), 0) /\ q = p).
  { intros n q. unfold N. rewrite lookup_singleton_Some. split; intros [? ?]; by split. }
  assert (Ht : typed s' N).
  { split; cbn [s' vaddr_bits hv_Ltop tables]; [done | by apply HN | | | |].
    - intros h x q [_ ->]%HN. by split.
    - intros m n q [-> _]%HN [-> _]%HN. done.
    - intros h x q [[= -> ->] ->]%HN. exists es. rewrite lookup_insert_eq. split; [done |]. split; [exact Hl |].
      intros i e ->%entries_zero. unfold entry_ok.
      assert (Enone : N !! (pred (root (Z.min 44 b)), 0 * 2 ^ width (root (Z.min 44 b)) + Z.of_nat i) = None).
      { destruct (N !! _) eqn:E; [| done]. apply HN in E as [[=] _]. destruct Hr3; lia. }
      destruct Hr3 as [E | E]; rewrite E in *; (split; [| by intros]); [apply leaf_none | done].
    - intros h x q [[= -> ->] ->]%HN. by left. }
  apply (implements_view s' _ N Ht). intros a Ha. unfold view.
  change (vaddr_bits s') with (Z.min 44 b). change (hv_Ltop s') with p.
  assert (Hrd : rd s' p (index (root (Z.min 44 b)) a) = Some 0).
  { pose proof (index_range (root (Z.min 44 b)) a) as Hi.
    destruct (rd_Some s' p (index (root (Z.min 44 b)) a) es) as (e & Hr & He).
    - unfold zlen. rewrite Hl. lia.
    - apply lookup_insert_eq.
    - apply entries_zero in He as ->. done. }
  rewrite (view_leaf _ _ _ 0) by (done || by destruct Hr3 as [-> | ->]; [apply leaf_none |]).
  by destruct Hr3 as [-> | ->].
Qed.

(** C7. From reset: the tables refine the map of the requests.  For requests whose
    range lies in the address space and whose target fits its field of the entry
    ([rq_valid]), and while tables can be allocated, every request is served or,
    misaligned, refused, and every walk answers what the requests made of its
    address. *)
Theorem hv_pt_refines_map pa_range b s rs :
  0 <= pa_range -> pa_bits !! Z.to_nat pa_range = Some b -> Forall (rq_valid (Z.min 44 b)) rs ->
  (size (tables s) + 1 + sum_list (rq_cost <$> rs) <= limit)%nat ->
  exists v s1 s2, hv_pt_init memalign pa_range s = Some (v, s1) /\
    issue_all memalign ALIGN_UP ALIGN_DOWN ram_base _base rs s1 = Some ((fun r => if rq_aligned r then 0 else -1) <$> rs, s2) /\
    forall a, 0 <= a < 2 ^ Z.min 44 b -> exists pte, hv_pt_walk a s2 = Some (pte, s2) /\
      backing_of pte = foldl rq_apply (fun _ => None) rs a.
Proof.
  intros H0 Hb Hrs Hsz. pose proof (init_spec pa_range b s H0 Hb ltac:(lia)) as Hi. unfold runs in Hi.
  destruct (hv_pt_init memalign pa_range s) as [[v s1]|]; [| done]. destruct Hi as (E1 & S1 & Hm).
  pose proof (issue_all_spec rs s1 (fun _ => None) Hm) as Ha. rewrite E1 in Ha. specialize (Ha Hrs ltac:(lia)). unfold runs in Ha.
  destruct (issue_all _ _ _ _ _ rs s1) as [[xs s2]|] eqn:E; [| done]. destruct Ha as (-> & E2 & [[N Ht] Hm2]).
  exists v, s1, s2. split_and!; [done | by rewrite E |]. intros a Ha.
  assert (Hin : in_space s2 a) by (unfold in_space; congruence).
  destruct (walk_spec s2 N a Ht Hin) as (pte & Hw & Hv). exists pte. split; [done |].
  specialize (Hm2 a Hin). rewrite (translate_view s2 N) in Hm2 by done. rewrite Hv in Hm2. by injection Hm2.
Qed.

(** C24. The type of the store: each table has one level and one range of addresses. *)
Theorem hv_map_typed s rs : (exists N, typed s N) -> Forall (rq_valid (vaddr_bits s)) rs ->
  (size (tables s) + sum_list (rq_cost <$> rs) <= limit)%nat ->
  exists xs s', issue_all memalign ALIGN_UP ALIGN_DOWN ram_base _base rs s = Some (xs, s') /\ exists N, typed s' N.
Proof.
  intros [N Ht] Hrs Hsz. set (m := fun a => default None (translate s a)).
  assert (Hm : implements s m).
  { split; [by exists N |]. intros a Ha. unfold m. destruct (walk_spec s N a Ht Ha) as (pte & E & _). unfold translate. by rewrite E. }
  pose proof (issue_all_spec rs s m Hm Hrs Hsz) as Hi. unfold runs in Hi.
  destruct (issue_all _ _ _ _ _ rs s) as [[xs s']|]; [| done]. exists xs, s'. split; [done |]. apply Hi.
Qed.

(** One mapping: the words of the range get their backing, no other address
    changes. *)
Theorem hv_map_translates s N from to len incr :
  typed s N -> 0 <= from -> 0 <= len -> from + len <= 2 ^ vaddr_bits s -> (0 < len -> margs len to incr) ->
  (size (tables s) + cost len <= limit)%nat ->
  exists s', hv_map memalign ALIGN_UP ALIGN_DOWN ram_base _base from to len incr s =
      Some (if (from mod (if IS_HW to then 2 ^ 14 else 4) =? 0) && (len mod (if IS_HW to then 2 ^ 14 else 4) =? 0) then 0 else -1, s') /\
    forall a, in_space s a -> translate s' a =
      if (from mod (if IS_HW to then 2 ^ 14 else 4) =? 0) && (len mod (if IS_HW to then 2 ^ 14 else 4) =? 0) &&
         (from <=? a) && (a <? from + len)
      then Some (want to incr (word (a - from))) else translate s a.
Proof.
  intros Ht H0 Hl Hend Hm Hsz. set (g := if IS_HW to then 2 ^ 14 else 4). destruct (_ && _) eqn:Eal.
  - apply andb_true_iff in Eal as [E1%Z.eqb_eq E2%Z.eqb_eq].
    assert (Hs : runs (hv_map memalign ALIGN_UP ALIGN_DOWN ram_base _base from to len incr) s
      (fun r s' => r = 0 /\ mapped (cost len) s from len to incr s')).
    { apply (hv_map_spec memalign limit ALIGN_UP ALIGN_DOWN ram_base _base align_up align_down base_ok s N); try done;
        subst g; destruct (IS_HW to); done || dlia. }
    unfold runs in Hs. destruct (hv_map _ _ _ _ _ _ _ _ _ s) as [[x s']|]; [| done].
    destruct Hs as (-> & Eb & _ & [N' Ht'] & V). exists s'. split; [done |]. intros a Ha.
    assert (Ha' : in_space s' a) by (unfold in_space in *; by rewrite Eb).
    rewrite (translate_view s' N'), (translate_view s N) by done. by apply V.
  - destruct (misaligned_refused from to len incr s) as [Hno | E]; [| by exists s].
    exfalso. subst g. destruct (IS_HW to); destruct Hno as [E1 E2]; by rewrite E1, E2 in Eal.
Qed.
End refinement.

(** ** A run *)

(** An allocator: the lowest free page. *)
Definition demo_memalign (n : nat) (t : gmap Z (list Z)) (_ : Z) : Z :=
  default 0 (find (fun p => bool_decide (t !! p = None)) ((fun k => Z.of_nat k * 2 ^ 14) <$> seq 1 n)).

Lemma demo_allocator n : (Z.of_nat n < 2 ^ 36) -> Allocator (demo_memalign n) n.
Proof.
  intros Hn t sz Hsz. unfold demo_memalign. set (ps := _ <$> _).
  destruct (find _ ps) as [p|] eqn:E; cbn [default].
  - apply find_some in E as [Hp%list_elem_of_In Ht%bool_decide_eq_true]. split; [done |].
    apply list_elem_of_fmap in Hp as (k & -> & Hk%elem_of_seq). unfold id. split; [lia |]. by exists (Z.of_nat k).
  - exfalso. assert (Hsub : (list_to_set ps : gset Z) ⊆ dom t).
    { intros p Hp%elem_of_list_to_set. apply elem_of_dom. apply list_elem_of_In in Hp.
      pose proof (find_none _ _ E p Hp) as Hn'. cbv beta in Hn'. apply bool_decide_eq_false in Hn'. by apply not_eq_None_Some. }
    apply subseteq_size in Hsub. rewrite size_list_to_set, size_dom in Hsub.
    + unfold ps in Hsub. rewrite length_fmap, length_seq in Hsub. lia.
    + unfold ps. apply NoDup_fmap_2; [intros x y Hxy; lia |]. apply NoDup_ListNoDup, seq_NoDup.
Qed.

Definition demo_up (x a : Z) : Z := u64 (x + (a - 1)) .& cnot 64 (a - 1).
Definition demo_down (x a : Z) : Z := x .& cnot 64 (a - 1).
Definition demo_pt : hv_pt := mk_pt 0 0 ∅.

(** A 36-bit space: two pages of memory, a hook on two words of the first, and
    a range that is not aligned. *)
Definition demo_requests : list request :=
  [MapHw false 0x10000 0x20000 0x8000; MapHook 0x10008 0x4000 8; MapHw true 0x20000 0x40000 0x100].

Definition demo_issue : P (list Z) := issue_all (demo_memalign 8) demo_up demo_down 0 0 demo_requests.

Example demo_map_run :
  match hv_pt_init (demo_memalign 8) 1 demo_pt with
  | Some (v, s1) =>
      SL0 v = 1 /\
      match demo_issue s1 with
      | Some (xs, s2) =>
          xs = [0; 0; -1] /\ size (tables s2) = 3%nat /\
          (fun a => translate s2 a) <$> [0x10000; 0x1000c; 0x10010; 0x14008; 0x18000] =
            [Some (Some (0, 0x20000)); Some (Some (1, 0x4000)); Some (Some (0, 0x20010)); Some (Some (0, 0x24008)); Some None]
      | None => False
      end
  | None => False
  end.
Proof. vm_compute. by repeat split. Qed.

Definition demo_limit : nat := Z.to_nat 30000.
#[export] Instance demo_allocator_ok : Allocator (demo_memalign demo_limit) demo_limit.
Proof. apply demo_allocator. unfold demo_limit. lia. Qed.
Lemma demo_align_up x a : demo_up x a = u64 (x + (a - 1)) .& cnot 64 (a - 1). Proof. done. Qed.
Lemma demo_align_down x a : demo_down x a = x .& cnot 64 (a - 1). Proof. done. Qed.
Lemma demo_base_ok : 0 <= 0x850000000 < 2 ^ 63 /\ 0x850000000 mod 2 = 0. Proof. split; [lia | done]. Qed.

Lemma demo_requests_valid : Forall (rq_valid 36) demo_requests.
Proof.
  apply Forall_cons_2; [| apply Forall_cons_2; [| apply Forall_cons_2; [| constructor]]];
    unfold rq_valid; cbn [rq_range fst snd]; split_and!; done || lia.
Qed.
Lemma demo_cost : sum_list (rq_cost <$> demo_requests) = Z.to_nat 24774.
Proof.
  unfold demo_requests. rewrite !fmap_cons. unfold rq_cost, cost. cbn [rq_range snd].
  change (0x8000 .>> 2) with 8192. change (8 .>> 2) with 2. change (0x100 .>> 2) with 64.
  change (sum_list _) with (3 * Z.to_nat 8192 + (3 * Z.to_nat 2 + (3 * Z.to_nat 64 + 0)))%nat. lia.
Qed.

Definition demo_ready : hv_pt :=
  match hv_pt_init (demo_memalign demo_limit) 1 demo_pt with Some (_, s) => s | None => demo_pt end.
Lemma demo_ready_ok : vaddr_bits demo_ready = 36 /\ (size (tables demo_ready) <= 1)%nat /\ exists N, typed demo_ready N.
Proof.
  assert (Hlim : (size (tables demo_pt) < demo_limit)%nat) by (change (size (tables demo_pt)) with 0%nat; unfold demo_limit; lia).
  pose proof (init_spec (demo_memalign demo_limit) demo_limit 1 36 demo_pt ltac:(lia) eq_refl Hlim) as Hi.
  unfold runs in Hi. unfold demo_ready. destruct (hv_pt_init _ _ _) as [[v s]|]; [| done].
  destruct Hi as (E & S1 & Ht & _). split_and!; [done | exact S1 | exact Ht].
Qed.

Lemma demo_map_room : (size (tables demo_pt) + 1 + sum_list (rq_cost <$> demo_requests) <= demo_limit)%nat.
Proof.
  rewrite demo_cost. unfold demo_limit. change (size (tables demo_pt)) with 0%nat.
  lia.
Qed.
Lemma demo_room_ready : (size (tables demo_ready) + sum_list (rq_cost <$> demo_requests) <= demo_limit)%nat.
Proof. destruct demo_ready_ok as (_ & S1 & _). rewrite demo_cost. unfold demo_limit. lia. Qed.
Lemma demo_ready_valid : Forall (rq_valid (vaddr_bits demo_ready)) demo_requests.
Proof. destruct demo_ready_ok as (-> & _). exact demo_requests_valid. Qed.

Lemma hv_pt_refines_map_witness :
  exists v s1 s2, hv_pt_init (demo_memalign demo_limit) 1 demo_pt = Some (v, s1) /\
    issue_all (demo_memalign demo_limit) demo_up demo_down 0x800000000 0x850000000 demo_requests s1 =
      Some ((fun r => if rq_aligned r then 0 else -1) <$> demo_requests, s2) /\
    forall a, 0 <= a < 2 ^ Z.min 44 36 -> exists pte, hv_pt_walk a s2 = Some (pte, s2) /\
      backing_of pte = foldl rq_apply (fun _ => None) demo_requests a.
Proof.
  exact (hv_pt_refines_map (demo_memalign demo_limit) demo_limit demo_up demo_down 0x800000000 0x850000000
    demo_align_up demo_align_down demo_base_ok 1 36 demo_pt demo_requests ltac:(lia) eq_refl demo_requests_valid demo_map_room).
Defined.

Lemma hv_map_typed_witness :
  exists xs s', issue_all (demo_memalign demo_limit) demo_up demo_down 0x800000000 0x850000000 demo_requests demo_ready =
    Some (xs, s') /\ exists N, typed s' N.
Proof.
  exact (hv_map_typed (demo_memalign demo_limit) demo_limit demo_up demo_down 0x800000000 0x850000000
    demo_align_up demo_align_down demo_base_ok demo_ready demo_requests (proj2 (proj2 demo_ready_ok)) demo_ready_valid demo_room_ready).
Defined.

(** Two words of software mapping to another page. *)
Lemma demo_margs : 0 < 8 -> margs 8 0x30000 1.
Proof. intros _. apply (ma_map 8 0 0x30000); lia || done. Qed.
Lemma demo_end : 0x1000 + 8 <= 2 ^ vaddr_bits demo_ready. Proof. destruct demo_ready_ok as (-> & _). lia. Qed.
Lemma demo_room_one : (size (tables demo_ready) + cost 8 <= demo_limit)%nat.
Proof. destruct demo_ready_ok as (_ & S1 & _). unfold demo_limit. change (cost 8) with 6%nat. lia. Qed.

Lemma hv_map_translates_witness :
  exists s', hv_map (demo_memalign demo_limit) demo_up demo_down 0x800000000 0x850000000 0x1000 0x30000 8 1 demo_ready =
      Some (if (0x1000 mod (if IS_HW 0x30000 then 2 ^ 14 else 4) =? 0) && (8 mod (if IS_HW 0x30000 then 2 ^ 14 else 4) =? 0) then 0 else -1, s') /\
    forall a, in_space demo_ready a -> translate s' a =
      if (0x1000 mod (if IS_HW 0x30000 then 2 ^ 14 else 4) =? 0) && (8 mod (if IS_HW 0x30000 then 2 ^ 14 else 4) =? 0) &&
         (0x1000 <=? a) && (a <? 0x1000 + 8)
      then Some (want 0x30000 1 (word (a - 0x1000))) else translate demo_ready a.
Proof.
  destruct (proj2 (proj2 demo_ready_ok)) as [N Ht].
  exact (hv_map_translates (demo_memalign demo_limit) demo_limit demo_up demo_down 0x800000000 0x850000000
    demo_align_up demo_align_down demo_base_ok demo_ready N 0x1000 0x30000 8 1 Ht ltac:(lia) ltac:(lia) demo_end demo_margs demo_room_one).
Defined.
