(* ===== verification/FastPath.v ===== *)
(** * The NVMe I/O fast path of the hypervisor ([nvme-s208/hv_vm-s208.c], S149)

    The engine that executes I/O commands of queue pair 1 at the doorbell trap:
    [nwoas_nvme_fp] and [nwoas_nvme_diag] are the static variables.  Guest
    memory, the stage-2 walk, the physical controller ([nvme_rw_guest],
    [nvme_flush]), the link to the host and the system registers are the
    parameters [fp_env]; the link call may run any code of the host, including
    [nwoas_nvme_fastpath_control]. *)

From S2P Require Import Prelude.

Definition PAGE_SIZE : Z := 0x4000.
Definition VADDR_L3_OFFSET_BITS : Z := 14.
Definition PTE_TARGET_MASK : Z := 0x3ffffffffc000.

Definition NWOAS_NVME_BAR : Z := 0x700100000.
Definition NWOAS_NVME_BAR_SIZE : Z := 0x4000.
Definition NWOAS_NVME_NAMESPACE_LBAS : Z := 61279344.
Definition NWOAS_NVME_WRITE_FIRST_LBA : Z := 53839104.
Definition NWOAS_NVME_WRITE_LAST_LBA : Z := 59968629.
Definition NWOAS_NVME_MAX_IO_DEPTH : Z := 256.
Definition NWOAS_NVME_SC_SUCCESS : Z := 0x000.
Definition NWOAS_NVME_SC_INVALID_OPCODE : Z := 0x001.
Definition NWOAS_NVME_SC_INVALID_FIELD : Z := 0x002.
Definition NWOAS_NVME_SC_INVALID_NSID : Z := 0x00b.
Definition NWOAS_NVME_SC_LBA_RANGE : Z := 0x080.
Definition NWOAS_NVME_SC_WRITE_RO : Z := 0x182.
Definition NWOAS_NVME_SC_WRITE_ERROR : Z := 0x280.
Definition NWOAS_NVME_SC_READ_ERROR : Z := 0x281.
Definition NWOAS_NVME_EXEC_FATAL : Z := -1.
Definition NWOAS_NVME_EXEC_CANCELLED : Z := -2.
(** From the companion patch of [nvme.h]. *)
Definition NVME_GUEST_FAILED : Z := 0.
Definition NVME_GUEST_REFUSED : Z := 2.

Record nwoas_nvme_guest_cmd := mk_cmd {
  opcode : Z; flags : Z; cid : Z; nsid : Z; cdw2 : Z; cdw3 : Z; metadata : Z; prp1 : Z; prp2 : Z;
  cdw10 : Z; cdw11 : Z; cdw12 : Z; cdw13 : Z; cdw14 : Z; cdw15 : Z;
}.

(** The structure in its 64 bytes. *)
Definition cmd_of_bytes (b : list Z) : nwoas_nvme_guest_cmd :=
  let at_ off n := le_val (slice off n b) in
  mk_cmd (at_ 0%nat 1%nat) (at_ 1%nat 1%nat) (at_ 2%nat 2%nat) (at_ 4%nat 4%nat) (at_ 8%nat 4%nat)
    (at_ 12%nat 4%nat) (at_ 16%nat 8%nat) (at_ 24%nat 8%nat) (at_ 32%nat 8%nat) (at_ 40%nat 4%nat)
    (at_ 44%nat 4%nat) (at_ 48%nat 4%nat) (at_ 52%nat 4%nat) (at_ 56%nat 4%nat) (at_ 60%nat 4%nat).

Record nwoas_nvme_guest_cqe := mk_cqe {
  result : Z; reserved : Z; cqe_sq_head : Z; sq_id : Z; cqe_cid : Z; cqe_status : Z;
}.
(** The first 14 bytes, which are written before the status word. *)
Definition cqe_body (c : nwoas_nvme_guest_cqe) : list Z :=
  le_bytes 4 (result c) ++ le_bytes 4 (reserved c) ++ le_bytes 2 (cqe_sq_head c) ++
  le_bytes 2 (sq_id c) ++ le_bytes 2 (cqe_cid c).

(** [nwoas_nvme_fp]. *)
Record nvme_fp := mk_fp {
  armed : bool; faulted : bool; deferred : bool; irq_enabled : bool; cache_enabled : bool;
  link_busy : bool; local_mask_allowed : bool;
  mask : Z; sq_base : Z; cq_base : Z; sq_size : Z; cq_size : Z; sq_head : Z; sq_tail : Z;
  cq_head : Z; cq_tail : Z; cq_pending : Z; cq_phase : Z; commands : Z; errors : Z;
  link_sequence : Z; lifecycle_epoch : Z; sq_generation : Z; cq_generation : Z;
}.
#[export] Instance fp_eta : Eta nvme_fp := fun f =>
  mk_fp (armed f) (faulted f) (deferred f) (irq_enabled f) (cache_enabled f) (link_busy f)
    (local_mask_allowed f) (mask f) (sq_base f) (cq_base f) (sq_size f) (cq_size f) (sq_head f)
    (sq_tail f) (cq_head f) (cq_tail f) (cq_pending f) (cq_phase f) (commands f) (errors f)
    (link_sequence f) (lifecycle_epoch f) (sq_generation f) (cq_generation f).
Definition fp_zero : nvme_fp :=
  mk_fp false false false false false false false 0 0 0 0 0 0 0 0 0 0 0 0 0 0 0 0 0.

(** [nwoas_nvme_diag]. *)
Record nvme_diag := mk_diag {
  max_ns1_ticks : Z; max_ns2_ticks : Z; in_flight_since : Z; in_flight_nsid : Z;
  ns1_calls : Z; ns2_calls : Z; max_sq_backlog : Z; cq_ack_writes : Z;
  local_mask_reads : Z; local_mask_writes : Z;
}.
#[export] Instance diag_eta : Eta nvme_diag := fun d =>
  mk_diag (max_ns1_ticks d) (max_ns2_ticks d) (in_flight_since d) (in_flight_nsid d) (ns1_calls d)
    (ns2_calls d) (max_sq_backlog d) (cq_ack_writes d) (local_mask_reads d) (local_mask_writes d).

(** [nwoas_nvme_cq_map]. *)
Record nvme_cq_map := mk_cq_map {
  va : Z; ipa : Z; par_s1 : Z; par_s12 : Z; s2 : Z; context : Z; pc : Z; attempts : Z; found : bool;
}.
#[export] Instance cq_map_eta : Eta nvme_cq_map := fun m =>
  mk_cq_map (va m) (ipa m) (par_s1 m) (par_s12 m) (s2 m) (context m) (pc m) (attempts m) (found m).

(** The request of the host link. *)
Record link_req := mk_req {
  req_magic : Z; req_version : Z; req_size : Z; req_sequence : Z; req_sq_generation : Z;
  req_cq_generation : Z; req_command : list Z; req_response : Z; req_status : Z; req_result : Z;
  req_lifecycle_epoch : Z;
}.

(** The trapped context: what the fast path reads of it. *)
Record exc_info := mk_exc { elr : Z; x21 : Z }.

Record fp_env (S : Type) := {
  hv_pt_walk : Z -> S -> Z;
  vaddr_bits : Z;
  ram_base : Z;
  mem_size_actual : Z;
  mem_read : Z -> Z -> M S (list Z);
  mem_write : Z -> list Z -> M S unit;
  mem_store16 : Z -> Z -> M S unit;
  dma_rmb : M S unit;
  dma_wmb : M S unit;
  cntpct : M S Z;
  at_el1 : Z -> bool -> M S Z;
  nvme_rw_guest : bool -> Z -> Z -> Z -> Z -> M S Z;
  nvme_flush : Z -> M S bool;
  hv_exc_proxy : link_req -> M S link_req;
  LINK_MAGIC : Z; LINK_VERSION : Z; LINK_SIZE : Z; LINK_DONE : Z;
  set_fast_irq : bool -> M S unit;
}.
#[global] Arguments hv_pt_walk {S} _. #[global] Arguments vaddr_bits {S} _.
#[global] Arguments ram_base {S} _. #[global] Arguments mem_size_actual {S} _.
#[global] Arguments mem_read {S} _. #[global] Arguments mem_write {S} _.
#[global] Arguments mem_store16 {S} _. #[global] Arguments dma_rmb {S} _.
#[global] Arguments dma_wmb {S} _. #[global] Arguments cntpct {S} _.
#[global] Arguments at_el1 {S} _. #[global] Arguments nvme_rw_guest {S} _.
#[global] Arguments nvme_flush {S} _. #[global] Arguments hv_exc_proxy {S} _.
#[global] Arguments LINK_MAGIC {S} _. #[global] Arguments LINK_VERSION {S} _.
#[global] Arguments LINK_SIZE {S} _. #[global] Arguments LINK_DONE {S} _.
#[global] Arguments set_fast_irq {S} _.

Definition PAR_F (par : Z) : bool := Z.testbit par 0.
(** Bits 47..12 of PAR_EL1. *)
Definition PAR_PA : Z := 0xfffffffff000.

Section fastpath.
Context {S : Type} `{F : !Lens S nvme_fp} `{G : !Lens S nvme_diag} `{H : !Lens S nvme_cq_map}
  (e : fp_env S).

Definition fp : M S nvme_fp := lgets id.
Definition set_fp (f : nvme_fp -> nvme_fp) : M S unit := lmodify f.
Definition set_diag (f : nvme_diag -> nvme_diag) : M S unit := lmodify f.

(** ** Guest pointers *)

Definition nwoas_in_dram (addr len : Z) : bool :=
  truthy len && (ram_base e <=? addr) && (addr <? u64 (addr + len)) &&
  (u64 (addr + len) <=? u64 (ram_base e + mem_size_actual e)).

Definition nwoas_ipa_to_pa (ipa : Z) (s : S) : Z :=
  if 2 ^ vaddr_bits e <=? ipa then 0
  else
    let pte := hv_pt_walk e (ipa .& cnot 64 (2 ^ VADDR_L3_OFFSET_BITS - 1)) s in
    if pte =? 0 then 0 else (pte .& PTE_TARGET_MASK) .| (ipa .& (2 ^ VADDR_L3_OFFSET_BITS - 1)).

Definition nwoas_nvme_guest_ptr (ipa len : Z) (s : S) : option Z :=
  let pa := nwoas_ipa_to_pa ipa s in
  if (pa =? 0) || negb (nwoas_in_dram pa len) then None
  else if PAGE_SIZE <? u64 ((ipa .& (2 ^ VADDR_L3_OFFSET_BITS - 1)) + len) then None
  else Some pa.
Definition guest_ptr (ipa len : Z) : M S (option Z) := gets (nwoas_nvme_guest_ptr ipa len).

(** ** The diagnostic probe of the completion queue *)

(** The address and the PAR value. *)
Definition nwoas_probe_at_el1 (va : Z) (combined : bool) : M S (Z * Z) :=
  par ← at_el1 e va combined;
  mret (if PAR_F par then 0 else (par .& PAR_PA) .| (va .& 0xfff), par).

Definition nwoas_nvme_probe_cq_map (ctx : exc_info) : M S unit :=
  m ← lgets (id (A := nvme_cq_map));
  if found m || (64 <=? attempts m) || (elr ctx <? 0xffff000000000000) || (x21 ctx <? 0xffff000000000000)
  then mret tt
  else
    lmodify (fun m => m <| attempts := u32 (attempts m + 1) |>);;
    p ← nwoas_probe_at_el1 (x21 ctx) true;
    let pa := p.1 in
    if (pa =? 0) || truthy (pa .& 7) || negb (nwoas_in_dram pa 8) then mret tt
    else
      b ← mem_read e pa 8;
      let va := le_val b in
      if va <? 0xffff000000000000 then mret tt
      else
        q ← nwoas_probe_at_el1 va false;
        f ← fp;
        if negb (q.1 =? cq_base f) then mret tt
        else
          r ← nwoas_probe_at_el1 va true;
          f ← fp;
          ok ← gets (fun s => negb (r.1 =? 0) && nwoas_in_dram r.1 16 && (r.1 =? nwoas_ipa_to_pa (cq_base f) s));
          if negb ok then mret tt
          else
            walk ← gets (hv_pt_walk e q.1);
            lmodify (fun m : nvme_cq_map =>
              mk_cq_map va q.1 q.2 r.2 walk (x21 ctx) (elr ctx) (attempts m) true).

(** ** Execution of one command *)

Definition fp_level (f : nvme_fp) : bool :=
  armed f && negb (faulted f) && irq_enabled f && negb (truthy (mask f .& 1)) && truthy (cq_pending f).
Definition nwoas_nvme_fastpath_update_irq : M S unit := f ← fp; set_fast_irq e (fp_level f).

(** The status or a negative outcome, and [*completion_result]. *)
Definition nwoas_nvme_link_execute (bytes : list Z) (cmd : nwoas_nvme_guest_cmd) : M S (Z * Z) :=
  set_fp (fun f => f <| link_sequence := u32 (link_sequence f + 1) |>);;
  f ← fp;
  let req := mk_req (LINK_MAGIC e) (LINK_VERSION e) (LINK_SIZE e) (link_sequence f) (sq_generation f)
    (cq_generation f) bytes 0 NWOAS_NVME_SC_INVALID_FIELD 0 (lifecycle_epoch f) in
  set_fp (fun f => f <| link_busy := true |>);;
  rsp ← hv_exc_proxy e req;
  dma_rmb e;;
  set_fp (fun f => f <| link_busy := false |>);;
  g ← fp;
  if negb (armed g) || faulted g || negb (lifecycle_epoch g =? lifecycle_epoch f) ||
     negb (sq_generation g =? sq_generation f) || negb (cq_generation g =? cq_generation f) ||
     negb (sq_head g =? sq_head f)
  then mret (NWOAS_NVME_EXEC_CANCELLED, 0)
  else if negb (req_magic rsp =? LINK_MAGIC e) || negb (req_version rsp =? LINK_VERSION e) ||
     negb (req_size rsp =? LINK_SIZE e) || negb (req_sequence rsp =? req_sequence req) ||
     negb (req_sq_generation rsp =? req_sq_generation req) ||
     negb (req_cq_generation rsp =? req_cq_generation req) ||
     negb (req_lifecycle_epoch rsp =? req_lifecycle_epoch req) ||
     negb (req_response rsp =? LINK_DONE e) || (0x7fff <? req_status rsp)
  then mret (if opcode cmd =? 1 then NWOAS_NVME_SC_WRITE_ERROR else NWOAS_NVME_SC_READ_ERROR, 0)
  else mret (req_status rsp, req_result rsp).

Definition has_cdws (cmd : nwoas_nvme_guest_cmd) : bool :=
  truthy (cdw10 cmd) || truthy (cdw11 cmd) || truthy (cdw12 cmd) || truthy (cdw13 cmd) ||
  truthy (cdw14 cmd) || truthy (cdw15 cmd).

Definition execute_flush (cmd : nwoas_nvme_guest_cmd) : M S (Z * Z) :=
  if has_cdws cmd then mret (NWOAS_NVME_SC_INVALID_FIELD, 0)
  else
    ok ← nvme_flush e 1;
    mret (if (ok : bool) then NWOAS_NVME_SC_SUCCESS else NWOAS_NVME_EXEC_FATAL, 0).

(** The fields of a read or write that must be zero. *)
Definition rw_reserved (cmd : nwoas_nvme_guest_cmd) (write : bool) : bool :=
  truthy (cdw12 cmd .& 0x3fff0000) ||
  truthy (if write then cdw13 cmd .& cnot 32 0xff else cdw13 cmd) ||
  truthy (cdw14 cmd) || truthy (cdw15 cmd).

Definition execute_rw (cmd : nwoas_nvme_guest_cmd) : M S (Z * Z) :=
  let write := opcode cmd =? 1 in
  let lba := cdw10 cmd .| u64 (cdw11 cmd .<< 32) in
  let count := u32 ((cdw12 cmd .& 0xffff) + 1) in
  if rw_reserved cmd write then mret (NWOAS_NVME_SC_INVALID_FIELD, 0)
  else if (NWOAS_NVME_NAMESPACE_LBAS <=? lba) || (u64 (NWOAS_NVME_NAMESPACE_LBAS - lba) <? count) then
    mret (NWOAS_NVME_SC_LBA_RANGE, 0)
  else if write && ((lba <? NWOAS_NVME_WRITE_FIRST_LBA) ||
                    (NWOAS_NVME_WRITE_LAST_LBA <? u64 (lba + count - 1)))
  then mret (NWOAS_NVME_SC_WRITE_RO, 0)
  else
    r ← nvme_rw_guest e write lba count (prp1 cmd) (prp2 cmd);
    if r =? NVME_GUEST_FAILED then mret (NWOAS_NVME_EXEC_FATAL, 0)
    else if r =? NVME_GUEST_REFUSED then mret (NWOAS_NVME_SC_INVALID_FIELD, 0)
    else
      f ← fp;
      if write && (Z.testbit (cdw12 cmd) 30 || negb (cache_enabled f)) then
        ok ← nvme_flush e 1;
        mret (if (ok : bool) then NWOAS_NVME_SC_SUCCESS else NWOAS_NVME_EXEC_FATAL, 0)
      else mret (NWOAS_NVME_SC_SUCCESS, 0).

Definition nwoas_nvme_fastpath_execute (bytes : list Z) (cmd : nwoas_nvme_guest_cmd) : M S (Z * Z) :=
  if truthy (flags cmd) || truthy (metadata cmd) then mret (NWOAS_NVME_SC_INVALID_FIELD, 0)
  else if (opcode cmd =? 0) && (nsid cmd =? 0xffffffff) then execute_flush cmd
  else if nsid cmd =? 2 then nwoas_nvme_link_execute bytes cmd
  else if negb (nsid cmd =? 1) then mret (NWOAS_NVME_SC_INVALID_NSID, 0)
  else if opcode cmd =? 0 then execute_flush cmd
  else if negb (opcode cmd =? 1) && negb (opcode cmd =? 2) then mret (NWOAS_NVME_SC_INVALID_OPCODE, 0)
  else execute_rw cmd.

(** ** The service loop *)

Definition fp_fault (f : nvme_fp) : nvme_fp :=
  mk_fp (armed f) true false (irq_enabled f) (cache_enabled f) (link_busy f)
    (local_mask_allowed f) (mask f) (sq_base f) (cq_base f) (sq_size f) (cq_size f) (sq_head f)
    (sq_tail f) (cq_head f) (cq_tail f) (cq_pending f) (cq_phase f) (commands f) (u32 (errors f + 1))
    (link_sequence f) (lifecycle_epoch f) (sq_generation f) (cq_generation f).

(** The submission head moves on. *)
Definition fp_consume (f : nvme_fp) : nvme_fp :=
  let h := u16 (sq_head f + 1) in
  f <| sq_head := if h =? sq_size f then 0 else h |>.

(** The completion tail moves on, with the counters. *)
Definition fp_complete (status : Z) (f : nvme_fp) : nvme_fp :=
  let t := u16 (cq_tail f + 1) in
  mk_fp (armed f) (faulted f) (deferred f) (irq_enabled f) (cache_enabled f) (link_busy f)
    (local_mask_allowed f) (mask f) (sq_base f) (cq_base f) (sq_size f) (cq_size f) (sq_head f)
    (sq_tail f) (cq_head f) (if t =? cq_size f then 0 else t) (u16 (cq_pending f + 1))
    (if t =? cq_size f then cq_phase f .^ 1 else cq_phase f) (u32 (commands f + 1))
    (if truthy status then u32 (errors f + 1) else errors f)
    (link_sequence f) (lifecycle_epoch f) (sq_generation f) (cq_generation f).

Definition fp_defer (f : nvme_fp) : nvme_fp :=
  f <| deferred := armed f && negb (faulted f) && negb (sq_head f =? sq_tail f) |>.

(** The latency counters after a command of namespace [n] took [elapsed]. *)
Definition note_latency (n elapsed : Z) (d : nvme_diag) : nvme_diag :=
  if n =? 2 then
    mk_diag (max_ns1_ticks d) (if max_ns2_ticks d <? elapsed then elapsed else max_ns2_ticks d) 0
      (in_flight_nsid d) (ns1_calls d) (u32 (ns2_calls d + 1)) (max_sq_backlog d) (cq_ack_writes d)
      (local_mask_reads d) (local_mask_writes d)
  else
    mk_diag (if max_ns1_ticks d <? elapsed then elapsed else max_ns1_ticks d) (max_ns2_ticks d) 0
      (in_flight_nsid d) (u32 (ns1_calls d + 1)) (ns2_calls d) (max_sq_backlog d) (cq_ack_writes d)
      (local_mask_reads d) (local_mask_writes d).

Definition note_start (start n : Z) (d : nvme_diag) : nvme_diag :=
  mk_diag (max_ns1_ticks d) (max_ns2_ticks d) start n (ns1_calls d) (ns2_calls d) (max_sq_backlog d)
    (cq_ack_writes d) (local_mask_reads d) (local_mask_writes d).

(** Publishing the completion: the body, a barrier, the status word. *)
Definition publish (dst cid_ status res : Z) : M S unit :=
  set_fp fp_consume;;
  f ← fp;
  let cqe := mk_cqe res 0 (sq_head f) 1 cid_ (u16 (u32 (status .<< 1) .| cq_phase f)) in
  mem_write e dst (cqe_body cqe);;
  dma_wmb e;;
  mem_store16 e (u64 (dst + 14)) (cqe_status cqe);;
  set_fp (fp_complete status).

(** One pass of the loop; whether it goes on. *)
Definition process_one : M S bool :=
  f ← fp;
  src ← guest_ptr (u64 (sq_base f + sq_head f * 64)) 64;
  dst ← guest_ptr (u64 (cq_base f + cq_tail f * 16)) 16;
  match src, dst with
  | Some src, Some dst =>
      dma_rmb e;;
      bytes ← mem_read e src 64;
      let cmd := cmd_of_bytes bytes in
      start ← cntpct e;
      set_diag (note_start start (nsid cmd));;
      r ← nwoas_nvme_fastpath_execute bytes cmd;
      stop ← cntpct e;
      set_diag (note_latency (nsid cmd) (u64 (stop - start)));;
      if r.1 =? NWOAS_NVME_EXEC_CANCELLED then mret false
      else if r.1 =? NWOAS_NVME_EXEC_FATAL then set_fp fp_fault;; mret false
      else publish dst (cid cmd) (u16 r.1) r.2;; mret true
  | _, _ => set_fp fp_fault;; mret false
  end.

Fixpoint process_loop (budget : nat) : M S unit :=
  match budget with
  | O => mret tt
  | Datatypes.S budget =>
      f ← fp;
      if negb (sq_head f =? sq_tail f) && (cq_pending f <? cq_size f - 1) then
        go ← process_one;
        if (go : bool) then process_loop budget else mret tt
      else mret tt
  end.

Definition nwoas_nvme_fastpath_process (budget : nat) : M S unit :=
  f ← fp;
  if negb (armed f) || faulted f || link_busy f then mret tt
  else
    process_loop budget;;
    set_fp fp_defer;;
    nwoas_nvme_fastpath_update_irq.

Definition nwoas_nvme_fastpath_poll : M S unit :=
  f ← fp;
  if deferred f && (cq_pending f <? cq_size f - 1) then nwoas_nvme_fastpath_process 1 else mret tt.

(** ** Control *)

Definition sync_policy (flags : Z) (f : nvme_fp) : nvme_fp :=
  mk_fp (armed f) (faulted f) (deferred f) (Z.testbit flags 1) (Z.testbit flags 2) (link_busy f)
    (Z.testbit flags 3) (u32 (flags .>> 32)) (sq_base f) (cq_base f) (sq_size f) (cq_size f) (sq_head f)
    (sq_tail f) (cq_head f) (cq_tail f) (cq_pending f) (cq_phase f) (commands f) (errors f)
    (link_sequence f) (lifecycle_epoch f) (sq_generation f) (cq_generation f).

Definition disarm (f : nvme_fp) : nvme_fp :=
  mk_fp false (faulted f) false (irq_enabled f) (cache_enabled f) (link_busy f)
    (local_mask_allowed f) (mask f) (sq_base f) (cq_base f) (sq_size f) (cq_size f) (sq_head f)
    (sq_tail f) (cq_head f) (cq_tail f) (cq_pending f) (cq_phase f) (commands f) (errors f)
    (link_sequence f) (u32 (lifecycle_epoch f + 1)) (sq_generation f) (cq_generation f).

(** The state after a successful arm: cursors survive only for the same queue. *)
Definition arm (sqb sqs cqb cqs flags : Z) (f : nvme_fp) : nvme_fp :=
  let sg := (flags .>> 8) .& 0xfff in
  let cg := (flags .>> 20) .& 0xfff in
  let same_sq := (sq_base f =? sqb) && (sq_size f =? sqs) && (sq_generation f =? sg) in
  let same_cq := (cq_base f =? cqb) && (cq_size f =? cqs) && (cq_generation f =? cg) in
  mk_fp true (faulted f) (deferred f) (Z.testbit flags 1) (Z.testbit flags 2) (link_busy f)
    (Z.testbit flags 3) (u32 (flags .>> 32)) sqb cqb (u16 sqs) (u16 cqs)
    (if same_sq then sq_head f else 0) (if same_sq then sq_tail f else 0)
    (if same_cq then cq_head f else 0) (if same_cq then cq_tail f else 0)
    (if same_cq then cq_pending f else 0) (if same_cq then cq_phase f else flags .& 1)
    (commands f) (errors f) (link_sequence f) (u32 (lifecycle_epoch f + 1)) sg cg.

Definition arm_bad_args (action sqb sqs cqb cqs : Z) : bool :=
  negb (action =? 1) || (sqb =? 0) || (cqb =? 0) || truthy (sqb .& 0xfff) || truthy (cqb .& 0xfff) ||
  (sqs <? 2) || (NWOAS_NVME_MAX_IO_DEPTH <? sqs) || (cqs <? 2) || (NWOAS_NVME_MAX_IO_DEPTH <? cqs).

(** The first and last entry of both queues are guest RAM. *)
Definition arm_ptrs (sqb sqs cqb cqs : Z) (s : S) : bool :=
  let ok ipa n := bool_decide (is_Some (nwoas_nvme_guest_ptr ipa n s)) in
  ok sqb 64 && ok (u64 (sqb + (sqs - 1) * 64)) 64 && ok cqb 16 && ok (u64 (cqb + (cqs - 1) * 16)) 16.

Definition nwoas_nvme_fastpath_control (action sqb sqs cqb cqs flags : Z) : M S Z :=
  if action =? 0 then set_fp disarm;; nwoas_nvme_fastpath_update_irq;; mret 1
  else if action =? 2 then
    set_fp (sync_policy flags);;
    nwoas_nvme_fastpath_update_irq;;
    f ← fp;
    mret (if faulted f then 2 else b2z (armed f))
  else if action =? 3 then f ← fp; mret (commands f .| (errors f .<< 32))
  else if action =? 4 then
    f ← fp;
    mret (lifecycle_epoch f .| (b2z (armed f) .<< 32) .| (b2z (faulted f) .<< 33) .|
          (b2z (link_busy f) .<< 34))
  else if action =? 5 then d ← lgets (id (A := nvme_diag)); mret (max_ns1_ticks d)
  else if action =? 6 then d ← lgets (id (A := nvme_diag)); mret (max_ns2_ticks d)
  else if action =? 7 then
    d ← lgets (id (A := nvme_diag)); mret (max_sq_backlog d .| (cq_ack_writes d .<< 32))
  else if action =? 8 then f ← fp; mret ((0x53313630 .<< 32) .| mask f)
  else if action =? 10 then m ← lgets (id (A := nvme_cq_map)); mret (b2z (found m))
  else if action =? 9 then
    d ← lgets (id (A := nvme_diag)); mret (local_mask_reads d .| (local_mask_writes d .<< 32))
  else if arm_bad_args action sqb sqs cqb cqs then mret 0
  else
    ok ← gets (arm_ptrs sqb sqs cqb cqs);
    f ← fp;
    if negb ok || faulted f then mret 0
    else
      set_fp (arm sqb sqs cqb cqs flags);;
      nwoas_nvme_fastpath_update_irq;;
      mret 1.

(** ** Register accesses *)

Definition fp_set_mask (m : Z) (f : nvme_fp) : nvme_fp := f <| mask := m |>.

(** The accesses to INTMS and INTMC while no other interrupt source is pending:
    the value read, if any. *)
Definition mmio_mask (off val : Z) (write : bool) : M S (option Z) :=
  if write then
    set_fp (fun f => fp_set_mask
      (if off =? 0x0c then mask f .| u32 val else mask f .& cnot 32 (u32 val)) f);;
    set_diag (fun d => d <| local_mask_writes := u32 (local_mask_writes d + 1) |>);;
    nwoas_nvme_fastpath_update_irq;;
    mret None
  else
    f ← fp;
    set_diag (fun d => d <| local_mask_reads := u32 (local_mask_reads d + 1) |>);;
    mret (Some (mask f)).

Definition fp_error (f : nvme_fp) : nvme_fp := f <| errors := u32 (errors f + 1) |>.

Definition fp_submit (tail : Z) (f : nvme_fp) : nvme_fp :=
  mk_fp (armed f) (faulted f) (negb (sq_head f =? tail)) (irq_enabled f) (cache_enabled f) (link_busy f)
    (local_mask_allowed f) (mask f) (sq_base f) (cq_base f) (sq_size f) (cq_size f) (sq_head f)
    tail (cq_head f) (cq_tail f) (cq_pending f) (cq_phase f) (commands f) (errors f)
    (link_sequence f) (lifecycle_epoch f) (sq_generation f) (cq_generation f).

Definition mmio_sq_tail (val : Z) : M S unit :=
  f ← fp;
  if val <? sq_size f then
    let backlog := u32 ((u16 val + sq_size f - sq_head f) mod sq_size f) in
    set_fp (fp_submit (u16 val));;
    set_diag (fun d => if max_sq_backlog d <? backlog then d <| max_sq_backlog := backlog |> else d);;
    nwoas_nvme_fastpath_process 1
  else set_fp fp_error.

Definition fp_ack (head consumed : Z) (f : nvme_fp) : nvme_fp :=
  mk_fp (armed f) (faulted f) (negb (sq_head f =? sq_tail f)) (irq_enabled f) (cache_enabled f) (link_busy f)
    (local_mask_allowed f) (mask f) (sq_base f) (cq_base f) (sq_size f) (cq_size f) (sq_head f)
    (sq_tail f) head (cq_tail f) (u16 (cq_pending f - consumed)) (cq_phase f) (commands f) (errors f)
    (link_sequence f) (lifecycle_epoch f) (sq_generation f) (cq_generation f).

Definition mmio_cq_head (ctx : exc_info) (val : Z) : M S unit :=
  nwoas_nvme_probe_cq_map ctx;;
  set_diag (fun d => d <| cq_ack_writes := u32 (cq_ack_writes d + 1) |>);;
  f ← fp;
  if val <? cq_size f then
    let head := u16 val in
    let consumed := u16 ((head + cq_size f - cq_head f) mod cq_size f) in
    if consumed <=? cq_pending f then
      set_fp (fp_ack head consumed);;
      nwoas_nvme_fastpath_update_irq
    else set_fp fp_error
  else set_fp fp_error.

(** Whether the access was handled, and the value stored in [*val]; the engine
    answers when it is [open]. *)
Definition mmio_open (open : bool) (ctx : exc_info) (ipa val : Z) (write : bool) (width : Z) :
    M S (bool * option Z) :=
  f ← fp;
  if negb open || (ipa <? NWOAS_NVME_BAR) || (u64 (NWOAS_NVME_BAR + NWOAS_NVME_BAR_SIZE) <=? ipa) then
    mret (false, None)
  else
    let off := u64 (ipa - NWOAS_NVME_BAR) in
    if negb (width =? 2) then mret (false, None)
    else if negb (faulted f) && local_mask_allowed f && ((off =? 0x0c) || (off =? 0x10)) then
      v ← mmio_mask off val write; mret (true, v)
    else if negb write then
      if faulted f && (off =? 0x1c) then mret (true, Some 3) else mret (false, None)
    else if off =? 0x1008 then mmio_sq_tail val;; mret (true, None)
    else if off =? 0x100c then mmio_cq_head ctx val;; mret (true, None)
    else mret (false, None).

Definition nwoas_nvme_fastpath_mmio (ctx : exc_info) (ipa val : Z) (write : bool) (width : Z) :
    M S (bool * option Z) :=
  f ← fp;
  mmio_open (armed f) ctx ipa val write width.
End fastpath.

(** ** The state invariant *)

(** A queue is absent or has a size of 2..256 and indices inside it. *)
Definition ring_ok (size i j : Z) : Prop :=
  (size = 0 /\ i = 0 /\ j = 0) \/ (2 <= size <= 256 /\ 0 <= i < size /\ 0 <= j < size).

Record fp_inv (f : nvme_fp) : Prop := {
  fi_sq : ring_ok (sq_size f) (sq_head f) (sq_tail f);
  fi_cq : ring_ok (cq_size f) (cq_head f) (cq_tail f);
  fi_pending : 0 <= cq_pending f /\ (cq_pending f = 0 \/ cq_pending f < cq_size f);
  fi_tail : cq_size f <> 0 -> cq_tail f = (cq_head f + cq_pending f) mod cq_size f;
  fi_phase : cq_phase f = 0 \/ cq_phase f = 1;
  fi_armed : armed f = true -> 2 <= sq_size f /\ 2 <= cq_size f /\ sq_base f <> 0 /\ cq_base f <> 0 /\
    (4096 | sq_base f) /\ (4096 | cq_base f);
  fi_bases : in_w 64 (sq_base f) /\ in_w 64 (cq_base f);
  fi_mask : in_w 32 (mask f);
}.

Lemma fp_zero_inv : fp_inv fp_zero.
Proof. split; cbn; try done; try (by left); split; try done; by left. Qed.

(** The effect of [nwoas_nvme_fastpath_control] on the state. *)
Inductive host_step : nvme_fp -> nvme_fp -> Prop :=
| hs_disarm f : host_step f (disarm f)
| hs_sync flags f : in_w 64 flags -> host_step f (sync_policy flags f)
| hs_arm sqb sqs cqb cqs flags f :
    in_w 64 sqb -> in_w 64 cqb -> in_w 64 flags ->
    arm_bad_args 1 sqb sqs cqb cqs = false -> faulted f = false ->
    host_step f (arm sqb sqs cqb cqs flags f).

Lemma page12 x : truthy (x .& 0xfff) = false -> (4096 | x).
Proof.
  change 0xfff with (2 ^ 12 - 1). rewrite land_ones_mod by lia.
  by rewrite truthy_false, <- Z.mod_divide by lia.
Qed.

Lemma host_step_inv f g : host_step f g -> fp_inv f -> fp_inv g.
Proof.
  intros Hs [I1 I2 I3 I4 I5 I6 I7 I8]. destruct Hs as [f | flags f Hf | sqb sqs cqb cqs flags f Hsb Hcb Hfl Ha Hnf].
  - by split.
  - split; try done. cbn. by apply wrap_range.
  - unfold arm_bad_args, NWOAS_NVME_MAX_IO_DEPTH in Ha.
    repeat (apply orb_false_iff in Ha as [Ha ?]). bool_props.
    assert (Es : u16 sqs = sqs) by (apply wrap_small; unfold in_w; lia).
    assert (Ec : u16 cqs = cqs) by (apply wrap_small; unfold in_w; lia).
    assert (Hsm : forall x, x .& 0xfff = 0 -> (4096 | x)) by (intros x Hx; by apply page12, truthy_false).
    unfold arm. set (same_sq := _ && _ && _). set (same_cq := _ && _ && (cq_generation f =? _)).
    assert (Hsq : same_sq = true -> sq_size f = sqs) by (unfold same_sq; intros; by bool_props).
    assert (Hcq : same_cq = true -> cq_size f = cqs) by (unfold same_cq; intros; by bool_props).
    clearbody same_sq same_cq.
    split; cbn; rewrite ?Es, ?Ec.
    + destruct same_sq; [by rewrite <- Hsq | right; lia].
    + destruct same_cq; [by rewrite <- Hcq | right; lia].
    + destruct same_cq; [by rewrite <- Hcq | lia].
    + destruct same_cq; [by rewrite <- Hcq | intros _; by rewrite Z.mod_0_l by lia].
    + destruct same_cq; [done |]. rewrite (land_ones_mod 1) by lia. change (2 ^ 1) with 2. pose proof (Z.mod_pos_bound flags 2 ltac:(lia)). lia.
    + intros _. split_and!; try done; by apply Hsm.
    + done.
    + by apply wrap_range.
Qed.

(** Host steps keep a free completion slot free. *)
Lemma host_step_room f g : host_step f g -> cq_pending f < cq_size f - 1 -> cq_pending g < cq_size g - 1.
Proof.
  intros Hs. destruct Hs as [f | flags f Hf | sqb sqs cqb cqs flags f Hsb Hcb Hfl Ha Hnf]; try done.
  unfold arm_bad_args, NWOAS_NVME_MAX_IO_DEPTH in Ha.
  repeat (apply orb_false_iff in Ha as [Ha ?]). bool_props. intros Hr.
  unfold arm. set (same_cq := _ && _ && (cq_generation f =? _)).
  assert (Hcq : same_cq = true -> cq_size f = cqs) by (unfold same_cq; intros; by bool_props).
  cbn. rewrite wrap_small by (unfold in_w; lia). destruct same_cq; [rewrite <- Hcq by done; lia | lia].
Qed.

Lemma host_step_epoch f g : host_step f g ->
  lifecycle_epoch g = lifecycle_epoch f \/ lifecycle_epoch g = u32 (lifecycle_epoch f + 1).
Proof. intros []; cbn; auto. Qed.

(** Everything but the interrupt policy, the deferral and the link flag. *)
Definition queues (f : nvme_fp) :=
  (armed f, faulted f, (sq_base f, sq_size f, sq_head f, sq_tail f),
   (cq_base f, cq_size f, cq_head f, cq_tail f, cq_pending f, cq_phase f),
   (commands f, errors f), (sq_generation f, cq_generation f)).

Lemma host_steps_inv n f g : nsteps host_step n f g -> fp_inv f -> fp_inv g.
Proof. induction 1; eauto using host_step_inv. Qed.
Lemma host_steps_room n f g : nsteps host_step n f g ->
  cq_pending f < cq_size f - 1 -> cq_pending g < cq_size g - 1.
Proof. induction 1; eauto using host_step_room. Qed.

Lemma host_steps_epoch n f g : nsteps host_step n f g ->
  exists m, 0 <= m <= Z.of_nat n /\ u32 (lifecycle_epoch g) = u32 (lifecycle_epoch f + m) /\
    (m = 0 -> queues g = queues f).
Proof.
  induction 1 as [f | n f g h Hs Hn (m & Hm & Em & Hq)].
  { exists 0. rewrite Z.add_0_r. split_and!; done || lia. }
  destruct Hs as [f | flags f Hf | sqb sqs cqb cqs flags f Hsb Hcb Hfl Ha Hnf].
  - exists (m + 1). split; [lia |]. split; [| lia]. rewrite Em. cbn. unfold wrap.
    rewrite Z.add_mod_idemp_l by lia. f_equal. lia.
  - exists m. split; [lia |]. split; [done |]. intros E. by rewrite Hq.
  - exists (m + 1). split; [lia |]. split; [| lia]. rewrite Em. cbn. unfold wrap.
    rewrite Z.add_mod_idemp_l by lia. f_equal. lia.
Qed.

(** If the epoch is the same, nothing was armed or disarmed. *)
Lemma host_steps_same n f g : nsteps host_step n f g -> Z.of_nat n < 2 ^ 32 ->
  lifecycle_epoch g = lifecycle_epoch f -> queues g = queues f.
Proof.
  intros Hs Hn E. destruct (host_steps_epoch n f g Hs) as (m & Hm & Em & Hq). apply Hq.
  rewrite E in Em. unfold wrap in Em.
  assert (Hd : (lifecycle_epoch f + m - lifecycle_epoch f) mod 2 ^ 32 = 0).
  { rewrite Zminus_mod, <- Em, Z.sub_diag. done. }
  replace (lifecycle_epoch f + m - lifecycle_epoch f) with m in Hd by lia.
  rewrite Z.mod_small in Hd by lia. done.
Qed.

Lemma ring_step n i : 2 <= n <= 256 -> 0 <= i < n ->
  (if u16 (i + 1) =? n then 0 else u16 (i + 1)) = (i + 1) mod n.
Proof.
  intros Hn Hi. rewrite wrap_small by (unfold in_w; lia).
  destruct (Z.eqb_spec (i + 1) n) as [->|]; [by rewrite Z_mod_same_full | by rewrite Z.mod_small by lia].
Qed.

Lemma consume_inv f : fp_inv f -> armed f = true -> fp_inv (fp_consume f).
Proof.
  intros [I1 I2 I3 I4 I5 I6 I7 I8] Ha. specialize (I6 Ha). split; try done. cbn.
  destruct I1 as [(E1 & E2 & E3)|(E1 & E2 & E3)]; [lia |].
  - right. rewrite ring_step by done. pose proof (Z.mod_pos_bound (sq_head f + 1) (sq_size f)). lia.
Qed.

Lemma complete_inv st f : fp_inv f -> cq_pending f < cq_size f - 1 -> fp_inv (fp_complete st f).
Proof.
  intros [I1 I2 I3 I4 I5 I6 I7 I8] Hr. destruct I2 as [(E1 & E2 & E3)|(E1 & E2 & E3)]; [lia |].
  assert (Ep : u16 (cq_pending f + 1) = cq_pending f + 1) by (apply wrap_small; unfold in_w; lia).
  pose proof (Z.mod_pos_bound (cq_tail f + 1) (cq_size f) ltac:(lia)).
  split; try done; cbn; rewrite ?Ep.
  - right. rewrite ring_step by lia. lia.
  - lia.
  - intros _. rewrite ring_step, I4, Z.add_mod_idemp_l by lia. f_equal. lia.
  - destruct (_ =? _); [| done]. destruct I5 as [-> | ->]; auto.
Qed.

Lemma fault_inv f : fp_inv f -> fp_inv (fp_fault f).
Proof. intros []. by split. Qed.
Lemma defer_inv f : fp_inv f -> fp_inv (fp_defer f).
Proof. intros []. by split. Qed.
Lemma error_inv f : fp_inv f -> fp_inv (fp_error f).
Proof. intros []. by split. Qed.
Lemma set_mask_inv m f : in_w 32 m -> fp_inv f -> fp_inv (fp_set_mask m f).
Proof. intros ? []. by split. Qed.

Lemma submit_inv tail f : fp_inv f -> 0 <= tail < sq_size f -> fp_inv (fp_submit tail f).
Proof.
  intros [I1 I2 I3 I4 I5 I6 I7 I8] Ht. split; try done. cbn. right. destruct I1 as [?|?]; lia.
Qed.

Lemma fp_ack_inv head f : fp_inv f -> 0 <= head < cq_size f ->
  let consumed := u16 ((head + cq_size f - cq_head f) mod cq_size f) in
  consumed <= cq_pending f -> fp_inv (fp_ack head consumed f).
Proof.
  intros [I1 I2 I3 I4 I5 I6 I7 I8] Hh consumed Hc. subst consumed.
  destruct I2 as [(E1 & E2 & E3)|(E1 & E2 & E3)]; [lia |].
  pose proof (Z.mod_pos_bound (head + cq_size f - cq_head f) (cq_size f) ltac:(lia)) as Hb.
  rewrite wrap_small in * by (unfold in_w; lia). set (c := (head + cq_size f - cq_head f) mod cq_size f) in *.
  assert (Ep : u16 (cq_pending f - c) = cq_pending f - c) by (apply wrap_small; unfold in_w; lia).
  split; try done; cbn; rewrite ?Ep.
  - right. lia.
  - lia.
  - intros Hn. rewrite I4 by done. unfold c.
    assert (Hch : (head + cq_size f - cq_head f) mod cq_size f =
        if cq_head f <=? head then head - cq_head f else head + cq_size f - cq_head f).
    { destruct (Z.leb_spec (cq_head f) head).
      - replace (head + cq_size f - cq_head f) with (head - cq_head f + 1 * cq_size f) by lia.
        rewrite Z_mod_plus_full. apply Z.mod_small. lia.
      - apply Z.mod_small. lia. }
    unfold c in Hc. rewrite Hch in *. destruct (Z.leb_spec (cq_head f) head).
    + f_equal. lia.
    + replace (cq_head f + cq_pending f) with (head + (cq_pending f - (head + cq_size f - cq_head f)) + 1 * cq_size f) by lia.
      by rewrite Z_mod_plus_full.
Qed.

(** ** The environment *)

(** An I/O operation handed to the physical controller. *)
Inductive dev_cmd := DevRW (write : bool) (lba count : Z) | DevFlush.
(** What the fast path does to guest memory and to the link. *)
Inductive fp_event :=
| EvRead (pa n : Z) | EvWrite (pa : Z) (bs : list Z) | EvStore16 (pa v : Z) | EvWmb | EvLink.

Section spec.
Context {S : Type} `{F : !Lens S nvme_fp} `{G : !Lens S nvme_diag} `{H : !Lens S nvme_cq_map} (e : fp_env S).

(** [line] is the interrupt level last driven, [devs] the commands given to the
    controller and [events] the accesses to guest memory; the other callbacks
    leave all three and the state alone.  During the link call the host may
    change the state through [nwoas_nvme_fastpath_control] (fewer than 2^32
    times). *)
Record fp_view := mk_view { v_fp : nvme_fp; v_line : bool; v_devs : list dev_cmd; v_events : list fp_event }.

Class FpEnv (view : S -> fp_view) : Prop := {
  fe_fp s : v_fp (view s) = lget s;
  fe_set f s : view (lset (f : nvme_fp) s) = mk_view f (v_line (view s)) (v_devs (view s)) (v_events (view s));
  fe_diag (d : nvme_diag) s : view (lset d s) = view s;
  fe_cq_map (m : nvme_cq_map) s : view (lset m s) = view s;
  fe_read pa n s :
    view (mem_read e pa n s).2 = mk_view (v_fp (view s)) (v_line (view s)) (v_devs (view s)) (v_events (view s) ++ [EvRead pa n]) /\
    bytes_ok (mem_read e pa n s).1 /\ (0 <= n -> zlen (mem_read e pa n s).1 = n);
  fe_write pa bs s :
    view (mem_write e pa bs s).2 = mk_view (v_fp (view s)) (v_line (view s)) (v_devs (view s)) (v_events (view s) ++ [EvWrite pa bs]);
  fe_store pa v s :
    view (mem_store16 e pa v s).2 = mk_view (v_fp (view s)) (v_line (view s)) (v_devs (view s)) (v_events (view s) ++ [EvStore16 pa v]);
  fe_wmb s : view (dma_wmb e s).2 = mk_view (v_fp (view s)) (v_line (view s)) (v_devs (view s)) (v_events (view s) ++ [EvWmb]);
  fe_rmb : keeps view (dma_rmb e);
  fe_count : keeps view (cntpct e);
  fe_at va c : keeps view (at_el1 e va c);
  fe_rw w lba n p q s :
    view (nvme_rw_guest e w lba n p q s).2 = mk_view (v_fp (view s)) (v_line (view s)) (v_devs (view s) ++ [DevRW w lba n]) (v_events (view s));
  fe_flush n s :
    view (nvme_flush e n s).2 = mk_view (v_fp (view s)) (v_line (view s)) (v_devs (view s) ++ [DevFlush]) (v_events (view s));
  fe_irq b s : view (set_fast_irq e b s).2 = mk_view (v_fp (view s)) b (v_devs (view s)) (v_events (view s));
  fe_link r s : exists n g line, (Z.of_nat n < 2 ^ 32) /\ nsteps host_step n (v_fp (view s)) g /\
    0 <= req_status (hv_exc_proxy e r s).1 /\ in_w 32 (req_result (hv_exc_proxy e r s).1) /\
    view (hv_exc_proxy e r s).2 = mk_view g line (v_devs (view s)) (v_events (view s) ++ [EvLink]);
}.

Context (view : S -> fp_view) `{!FpEnv view}.

(** Rules for the callbacks, in terms of the view. *)
Lemma mwp_fp (Q : nvme_fp -> S -> Prop) s : Q (v_fp (view s)) s -> mwp fp Q s.
Proof. intros HQ. apply mwp_iff. cbn. unfold id. by rewrite <- fe_fp. Qed.

Lemma mwp_set_fp f (Q : unit -> S -> Prop) s :
  (forall s', view s' = mk_view (f (v_fp (view s))) (v_line (view s)) (v_devs (view s)) (v_events (view s)) -> Q tt s') ->
  mwp (set_fp f) Q s.
Proof. intros HQ. apply mwp_iff. apply HQ. cbn. by rewrite fe_set, fe_fp. Qed.

Lemma mwp_set_diag f (Q : unit -> S -> Prop) s : (forall s', view s' = view s -> Q tt s') -> mwp (set_diag f) Q s.
Proof. intros HQ. apply mwp_iff. apply HQ. cbn. by rewrite fe_diag. Qed.

Lemma mwp_gets {A} (f : S -> A) (Q : A -> S -> Prop) s : Q (f s) s -> mwp (gets f) Q s.
Proof. intros HQ. by apply mwp_iff. Qed.

Lemma view_eta v : mk_view (v_fp v) (v_line v) (v_devs v) (v_events v) = v.
Proof. by destruct v. Qed.

(** A range the engine may hand to the controller. *)
Definition dev_ok (d : dev_cmd) : Prop :=
  match d with
  | DevFlush => True
  | DevRW write lba count =>
      0 <= lba /\ 1 <= count <= 65536 /\ lba + count <= NWOAS_NVME_NAMESPACE_LBAS /\
      (write = true -> NWOAS_NVME_WRITE_FIRST_LBA <= lba /\ lba + count - 1 <= NWOAS_NVME_WRITE_LAST_LBA)
  end.

Definition cmd_ok (c : nwoas_nvme_guest_cmd) : Prop := 0 <= cdw10 c /\ 0 <= cdw11 c.

Lemma cmd_of_bytes_ok b : bytes_ok b -> cmd_ok (cmd_of_bytes b).
Proof.
  intros Hb. assert (Hs : forall i n, 0 <= le_val (slice i n b)).
  { intros i n. apply le_val_range. unfold slice, bytes_ok in *. by apply Forall_take, Forall_drop. }
  split; apply Hs.
Qed.

(** From [s] to [s'] only the device was used, permissibly. *)
Definition local_run (s s' : S) : Prop :=
  exists devs, Forall dev_ok devs /\
    view s' = mk_view (v_fp (view s)) (v_line (view s)) (v_devs (view s) ++ devs) (v_events (view s)).

Lemma local_refl s : local_run s s.
Proof. exists []. by rewrite app_nil_r, view_eta. Qed.
Lemma local_trans s1 s2 s3 : local_run s1 s2 -> local_run s2 s3 -> local_run s1 s3.
Proof.
  intros (d1 & H1 & E1) (d2 & H2 & E2). exists (d1 ++ d2). split; [by apply Forall_app |].
  rewrite E2, E1. cbn. by rewrite app_assoc.
Qed.

Lemma mwp_flush n (Q : bool -> S -> Prop) s :
  (forall ok s', local_run s s' -> Q ok s') -> mwp (nvme_flush e n) Q s.
Proof. intros HQ. apply mwp_iff, HQ. exists [DevFlush]. split; [by repeat constructor | apply fe_flush]. Qed.

(** The status of a command executed here. *)
Definition local_status (st : Z) : Prop := st = NWOAS_NVME_EXEC_FATAL \/ 0 <= st <= 0x7fff.

Lemma execute_flush_spec c s :
  mwp (execute_flush e c) (fun r s' => local_run s s' /\ local_status r.1 /\ r.2 = 0) s.
Proof.
  unfold execute_flush. wp_go; [split; [apply local_refl | split; [by (right; split) | done]] |].
  apply mwp_flush. intros ok s' Hr. wp_go. split; [done |]. split; [| done].
  destruct ok; [by (right; split) | by left].
Qed.

(** The checks of a read or write leave only permitted ranges. *)
Definition rw_lba (c : nwoas_nvme_guest_cmd) : Z := cdw10 c .| u64 (cdw11 c .<< 32).
Definition rw_count (c : nwoas_nvme_guest_cmd) : Z := u32 ((cdw12 c .& 0xffff) + 1).

Lemma rw_permitted c (w := opcode c =? 1) : cmd_ok c ->
  (NWOAS_NVME_NAMESPACE_LBAS <=? rw_lba c) || (u64 (NWOAS_NVME_NAMESPACE_LBAS - rw_lba c) <? rw_count c) = false ->
  w && ((rw_lba c <? NWOAS_NVME_WRITE_FIRST_LBA) || (NWOAS_NVME_WRITE_LAST_LBA <? u64 (rw_lba c + rw_count c - 1))) = false ->
  dev_ok (DevRW w (rw_lba c) (rw_count c)).
Proof.
  intros [H10 H11]. clearbody w. unfold rw_lba, rw_count.
  set (lba := _ .| _). set (count := u32 _).
  assert (Hlba : 0 <= lba).
  { apply Z.lor_nonneg. split; [done |]. apply wrap_range. lia. }
  assert (Hcount : 1 <= count <= 65536).
  { unfold count. change 0xffff with (2 ^ 16 - 1). rewrite land_ones_mod by lia.
    change (2 ^ 16) with 65536. rewrite wrap_small by (unfold in_w; dlia). dlia. }
  clearbody lba count. intros H1 Hw.
  apply orb_false_iff in H1 as [E1 E2]. apply Z.leb_gt in E1.
  rewrite wrap_small in E2 by (unfold in_w, NWOAS_NVME_NAMESPACE_LBAS in *; lia). apply Z.ltb_ge in E2.
  split_and!; try done; try lia; intros ->; cbn [andb] in Hw;
    apply orb_false_iff in Hw as [Hw1 Hw2]; rewrite wrap_small in Hw2
      by (unfold in_w, NWOAS_NVME_NAMESPACE_LBAS in *; lia); bool_props; lia.
Qed.

Lemma execute_rw_spec c s : cmd_ok c ->
  mwp (execute_rw e c) (fun r s' => local_run s s' /\ local_status r.1 /\ r.2 = 0) s.
Proof.
  intros Hc. unfold execute_rw. fold (rw_lba c). fold (rw_count c).
  wp_go; try (split; [apply local_refl | split; [by (right; split) | done]]).
  apply mwp_iff. set (w := opcode c =? 1) in *.
  assert (Hrun : local_run s (nvme_rw_guest e w (rw_lba c) (rw_count c) (prp1 c) (prp2 c) s).2).
  { exists [DevRW w (rw_lba c) (rw_count c)]. split; [| apply fe_rw]. constructor; [by apply rw_permitted | done]. }
  destruct (nvme_rw_guest e w (rw_lba c) (rw_count c) (prp1 c) (prp2 c) s) as [r s1]. cbn [fst snd] in *.
  wp_go; try (split; [exact Hrun | split; [(by (right; split)) || (by left) | done]]).
  apply mwp_fp. wp_go; [| split; [exact Hrun | split; [by (right; split) | done]]].
  apply mwp_flush. intros ok s2 Hr. wp_go. split; [by eapply local_trans |]. split; [| done].
  destruct ok; [by (right; split) | by left].
Qed.

(** The state in which the host is called. *)
Definition link_started (f : nvme_fp) : nvme_fp :=
  f <| link_sequence := u32 (link_sequence f + 1) |> <| link_busy := true |>.

(** The link call: what the host did, and whether the command is still wanted. *)
Definition link_run (s : S) (r : Z * Z) (s' : S) : Prop :=
  exists n g line, Z.of_nat n < 2 ^ 32 /\
    nsteps host_step n (link_started (v_fp (view s))) g /\
    view s' = mk_view (g <| link_busy := false |>) line (v_devs (view s)) (v_events (view s) ++ [EvLink]) /\
    (r.1 = NWOAS_NVME_EXEC_CANCELLED /\ r.2 = 0 \/
     0 <= r.1 <= 0x7fff /\ armed g = true /\ faulted g = false /\
       lifecycle_epoch g = lifecycle_epoch (v_fp (view s))).

Lemma link_spec bytes c s :
  mwp (nwoas_nvme_link_execute e bytes c) (fun r s' => link_run s r s') s.
Proof.
  unfold nwoas_nvme_link_execute. wp_go. apply mwp_set_fp. intros s1 E1. wp_go. apply mwp_fp. rewrite E1. cbn [v_fp].
  wp_go. apply mwp_set_fp. intros s2 E2. wp_go. apply mwp_iff.
  match goal with |- context [hv_exc_proxy e ?x s2] => set (req := x) end.
  destruct (fe_link (view := view) req s2) as (n & g & line & Hn & Hs & Hst & Hres & E3).
  destruct (hv_exc_proxy e req s2) as [rsp s3]. cbn [fst snd] in *.
  wp_go. eapply mwp_cb; [apply fe_rmb |]. intros _ s4 E4. wp_go. apply mwp_set_fp. intros s5 E5.
  wp_go. apply mwp_fp.
  rewrite E4, E3 in E5. cbn [v_fp v_line v_devs v_events] in E5.
  rewrite E2, E1 in Hs. cbn [v_fp] in Hs.
  rewrite E2, E1 in E5. cbn [v_fp v_line v_devs v_events] in E5. rewrite E5. cbn [v_fp].
  wp_go; (exists n, g, line; split; [done |]; split; [exact Hs |]; split; [exact E5 |]).
  - by left.
  - right. bool_props. split; [by destruct (_ =? 1) |]. cbn in *. auto.
  - right. bool_props. cbn in *. split; [lia |]. auto.
Qed.

Lemma fp_execute_spec bytes c s : cmd_ok c ->
  mwp (nwoas_nvme_fastpath_execute e bytes c) (fun r s' =>
    (local_run s s' /\ local_status r.1 /\ r.2 = 0) \/ (nsid c = 2 /\ link_run s r s')) s.
Proof.
  intros Hc. unfold nwoas_nvme_fastpath_execute.
  wp_go; try (left; split; [apply local_refl | split; [by (right; split) | done]]).
  - eapply mwp_mono; [apply execute_flush_spec |]. auto.
  - apply Z.eqb_eq in H2. eapply mwp_mono; [apply link_spec |]. auto.
  - eapply mwp_mono; [apply execute_flush_spec |]. auto.
  - eapply mwp_mono; [by apply execute_rw_spec |]. auto.
Qed.

(** The completion entry of a command with id [cid_], for the state [f] in which
    it was fetched. *)
Definition entry (f : nvme_fp) (cid_ st res : Z) : nwoas_nvme_guest_cqe :=
  mk_cqe res 0 (sq_head (fp_consume f)) 1 cid_ (u16 (u32 (st .<< 1) .| cq_phase f)).
Definition entry_events (dst : Z) (q : nwoas_nvme_guest_cqe) : list fp_event :=
  [EvWrite dst (cqe_body q); EvWmb; EvStore16 (u64 (dst + 14)) (cqe_status q)].

Lemma fp_publish_spec dst cid_ st res s :
  mwp (publish e dst cid_ st res) (fun _ s' =>
    view s' = mk_view (fp_complete st (fp_consume (v_fp (view s)))) (v_line (view s)) (v_devs (view s))
                (v_events (view s) ++ entry_events dst (entry (v_fp (view s)) cid_ st res))) s.
Proof.
  unfold publish. wp_go. apply mwp_set_fp. intros s1 E1. wp_go. apply mwp_fp. wp_go. apply mwp_iff.
  match goal with |- context [mem_write e dst ?b s1] => set (bs := b) end.
  pose proof (fe_write dst bs s1) as E2. destruct (mem_write e dst bs s1) as [[] s2]. cbn [fst snd] in *.
  wp_go. apply mwp_iff. pose proof (fe_wmb s2) as E3. destruct (dma_wmb e s2) as [[] s3]. cbn [fst snd] in *.
  wp_go. apply mwp_iff.
  match goal with |- context [mem_store16 e ?x ?y s3] => set (a := x); set (v := y) end.
  pose proof (fe_store a v s3) as E4. destruct (mem_store16 e a v s3) as [[] s4]. cbn [fst snd] in *.
  apply mwp_set_fp. intros s5 E5.
  rewrite E5, E4, E3, E2, E1. cbn [v_fp v_line v_devs v_events]. f_equal.
  rewrite <- !app_assoc. unfold bs, v, entry_events, entry. rewrite E1. cbn [v_fp]. done.
Qed.

(** One pass over the command at the submission head. *)
Inductive pass (s : S) : bool -> S -> Prop :=
| pass_fault s' (f := v_fp (view s)) :
    nwoas_nvme_guest_ptr e (u64 (sq_base f + sq_head f * 64)) 64 s = None \/
    nwoas_nvme_guest_ptr e (u64 (cq_base f + cq_tail f * 16)) 16 s = None ->
    view s' = mk_view (fp_fault f) (v_line (view s)) (v_devs (view s)) (v_events (view s)) ->
    pass s false s'
| pass_fatal s' src devs (f := v_fp (view s)) :
    nwoas_nvme_guest_ptr e (u64 (sq_base f + sq_head f * 64)) 64 s = Some src ->
    Forall dev_ok devs ->
    view s' = mk_view (fp_fault f) (v_line (view s)) (v_devs (view s) ++ devs)
                (v_events (view s) ++ [EvRead src 64]) ->
    pass s false s'
| pass_cancelled s' src n g line (f := v_fp (view s)) :
    nwoas_nvme_guest_ptr e (u64 (sq_base f + sq_head f * 64)) 64 s = Some src ->
    nsteps host_step n (link_started f) g ->
    view s' = mk_view (g <| link_busy := false |>) line (v_devs (view s))
                (v_events (view s) ++ [EvRead src 64; EvLink]) ->
    pass s false s'
| pass_completed s' src dst bytes devs st res g line link (f := v_fp (view s)) :
    nwoas_nvme_guest_ptr e (u64 (sq_base f + sq_head f * 64)) 64 s = Some src ->
    nwoas_nvme_guest_ptr e (u64 (cq_base f + cq_tail f * 16)) 16 s = Some dst ->
    bytes_ok bytes -> zlen bytes = 64 -> Forall dev_ok devs -> 0 <= st <= 0x7fff ->
    queues g = queues f -> armed f = true -> link_busy g = false -> fp_inv g ->
    (link = [] \/ link = [EvLink] /\ nsid (cmd_of_bytes bytes) = 2 /\ devs = []) ->
    view s' = mk_view (fp_complete st (fp_consume g)) line (v_devs (view s) ++ devs)
                (v_events (view s) ++ EvRead src 64 :: link ++
                 entry_events dst (entry f (cid (cmd_of_bytes bytes)) st res)) ->
    pass s true s'.

Lemma entry_queues f g cid_ st res : queues g = queues f -> entry g cid_ st res = entry f cid_ st res.
Proof.
  intros Hq. injection Hq as ????????????????. unfold entry, fp_consume. cbn.
  by repeat match goal with E : _ g = _ f |- _ => rewrite E; clear E end.
Qed.

Lemma process_one_spec s :
  fp_inv (v_fp (view s)) -> armed (v_fp (view s)) = true -> link_busy (v_fp (view s)) = false ->
  mwp (process_one e) (fun go s' => pass s go s') s.
Proof.
  intros Hi Ha Hl. unfold process_one, guest_ptr. wp_go. apply mwp_fp. set (f := v_fp (view s)) in *.
  wp_go. apply mwp_gets. wp_go. apply mwp_gets.
  destruct (nwoas_nvme_guest_ptr e _ 64 s) as [src|] eqn:Esrc.
  2: { wp_go. apply mwp_set_fp. intros s1 E1. wp_go. by apply pass_fault; [left |]. }
  destruct (nwoas_nvme_guest_ptr e _ 16 s) as [dst|] eqn:Edst.
  2: { wp_go. apply mwp_set_fp. intros s1 E1. wp_go. by apply pass_fault; [right |]. }
  wp_go. eapply mwp_cb; [apply fe_rmb |]. intros _ s1 E1. wp_go. apply mwp_iff.
  destruct (fe_read src 64 s1) as (E2 & Hb & Hlen). specialize (Hlen ltac:(lia)).
  destruct (mem_read e src 64 s1) as [bytes s2]. cbn [fst snd] in *.
  wp_go. eapply mwp_cb; [apply fe_count |]. intros start s3 E3. wp_go. apply mwp_set_diag. intros s4 E4.
  rewrite E3, E2, E1 in E4. cbn [v_fp v_line v_devs v_events] in E4. wp_go.
  eapply mwp_mono; [by apply fp_execute_spec, cmd_of_bytes_ok |]. intros r s5 Hr.
  wp_go. eapply mwp_cb; [apply fe_count |]. intros stop s6 E6. wp_go. apply mwp_set_diag. intros s7 E7.
  rewrite E6 in E7. clear E6 E1 E2 E3 s1 s2 s3 s6.
  destruct Hr as [((devs & Hd & E5) & Hst & Hres) | (Hns & n & g & line & Hn & Hs & E5 & Hr)];
    rewrite E4 in E5; cbn [v_fp v_line v_devs v_events] in E5; rewrite E5 in E7.
  - destruct Hst as [Hst | Hst].
    + rewrite Hst, Z.eqb_refl. change (_ =? NWOAS_NVME_EXEC_CANCELLED) with false. cbv iota.
      wp_go. apply mwp_set_fp. intros s8 E8. rewrite E7 in E8. wp_go. by eapply pass_fatal.
    + rewrite !(proj2 (Z.eqb_neq _ _)) by (unfold NWOAS_NVME_EXEC_CANCELLED, NWOAS_NVME_EXEC_FATAL; lia).
      cbv iota.
      wp_go. eapply mwp_mono; [apply fp_publish_spec |]. intros ? s8 E8. cbv beta in E8. rewrite E7 in E8. wp_go.
      rewrite wrap_small in E8 by (unfold in_w; lia).
      eapply (pass_completed s s8 src dst bytes devs r.1 r.2 f _ []); try done; [by left |].
      rewrite E8. cbn. by rewrite <- app_assoc.
  - rewrite E4 in Hs. cbn [v_fp] in Hs. fold f in Hs.
    assert (Hi1 : fp_inv (link_started f)) by (by destruct Hi).
    destruct Hr as [[Hr _] | (Hst & Hga & Hgf & Hge)].
    + rewrite Hr, Z.eqb_refl. wp_go. eapply (pass_cancelled s s7 src n g line); try done.
      rewrite E7. by rewrite <- app_assoc.
    + rewrite !(proj2 (Z.eqb_neq _ _)) by (unfold NWOAS_NVME_EXEC_CANCELLED, NWOAS_NVME_EXEC_FATAL; lia).
      cbv iota.
      wp_go. eapply mwp_mono; [apply fp_publish_spec |]. intros ? s8 E8. cbv beta in E8. rewrite E7 in E8. wp_go.
      rewrite wrap_small in E8 by (unfold in_w; lia). cbn [v_fp v_line v_devs v_events] in E8.
      assert (Hq : queues g = queues f).
      { change (queues f) with (queues (link_started f)). apply (host_steps_same n); try done. by rewrite Hge, E4. }
      eapply (pass_completed s s8 src dst bytes [] r.1 r.2 (g <| link_busy := false |>) line [EvLink]); try done.
      * by destruct (host_steps_inv n _ g Hs Hi1).
      * by right.
      * rewrite E8, app_nil_r, <- !app_assoc. cbn. f_equal. f_equal. f_equal. f_equal.
        by rewrite (entry_queues f).
Qed.

(** [devs] are more permissible commands. *)
Definition devs_grow (v w : fp_view) : Prop := exists ds, Forall dev_ok ds /\ v_devs w = v_devs v ++ ds.
Lemma devs_grow_refl v : devs_grow v v.
Proof. exists []. by rewrite app_nil_r. Qed.
Lemma devs_grow_same v w : v_devs w = v_devs v -> devs_grow v w.
Proof. intros E. exists []. by rewrite app_nil_r. Qed.
Lemma devs_grow_trans u v w : devs_grow u v -> devs_grow v w -> devs_grow u w.
Proof.
  intros (d1 & H1 & E1) (d2 & H2 & E2). exists (d1 ++ d2). split; [by apply Forall_app |].
  by rewrite E2, E1, app_assoc.
Qed.

(** The state between two entry points. *)
Definition fp_idle (v : fp_view) : Prop := fp_inv (v_fp v) /\ link_busy (v_fp v) = false.
Definition fp_driven (v : fp_view) : Prop := fp_idle v /\ v_line v = fp_level (v_fp v).

Lemma pass_safe s go s' : pass s go s' ->
  fp_idle (view s) -> cq_pending (v_fp (view s)) < cq_size (v_fp (view s)) - 1 ->
  fp_idle (view s') /\ devs_grow (view s) (view s') /\ (go = true -> armed (v_fp (view s')) = true).
Proof.
  intros Hp [Hi Hl] Hroom. destruct Hp as [s' f Hn E | s' src devs f Hsrc Hd E
    | s' src n g line f Hsrc Hs E | s' src dst bytes devs st res g line link f Hsrc Hdst Hb Hlen Hd Hst Hq Ha Hg Hgi Hlink E];
    rewrite E; cbn.
  - split_and!; try done; [by split; [apply fault_inv |] | by apply devs_grow_same].
  - split_and!; try done; [by split; [apply fault_inv |] | by exists devs].
  - assert (Hgi : fp_inv g) by (eapply host_steps_inv; [exact Hs | by destruct Hi]).
    split_and!; try done; [by split; [destruct Hgi |] | by apply devs_grow_same].
  - injection Hq as Qa Qf Qsb Qss Qsh Qst Qcb Qcs Qch Qct Qp Qph Qc Qe Qsg Qcg.
    split; [| split; [by exists devs | intros _; cbn; congruence]].
    split; [| done]. apply complete_inv; [apply consume_inv; congruence |]. cbn. by rewrite Qp, Qcs.
Qed.

(** The whole service call with budget [n]: passes, then the deferral and the line. *)
Inductive passes : S -> nat -> S -> Prop :=
| passes_end s n : n = O \/ sq_head (v_fp (view s)) = sq_tail (v_fp (view s)) \/
    cq_size (v_fp (view s)) - 1 <= cq_pending (v_fp (view s)) -> passes s n s
| passes_stop s n s' : cq_pending (v_fp (view s)) < cq_size (v_fp (view s)) - 1 ->
    sq_head (v_fp (view s)) <> sq_tail (v_fp (view s)) -> pass s false s' -> passes s (Datatypes.S n) s'
| passes_next s n s1 s' : cq_pending (v_fp (view s)) < cq_size (v_fp (view s)) - 1 ->
    sq_head (v_fp (view s)) <> sq_tail (v_fp (view s)) ->
    pass s true s1 -> passes s1 n s' -> passes s (Datatypes.S n) s'.

Lemma passes_safe s n s' : passes s n s' -> fp_idle (view s) ->
  fp_idle (view s') /\ devs_grow (view s) (view s').
Proof.
  induction 1 as [s n Hn | s n s' Hr Hh Hp | s n s1 s' Hr Hh Hp Hps IH]; intros Hi.
  - split; [done | apply devs_grow_refl].
  - by destruct (pass_safe _ _ _ Hp Hi Hr) as (? & ? & _).
  - destruct (pass_safe _ _ _ Hp Hi Hr) as (Hi1 & Hd1 & _). destruct (IH Hi1) as [? ?].
    split; [done | by eapply devs_grow_trans].
Qed.

Lemma process_loop_spec n : forall s, fp_idle (view s) -> armed (v_fp (view s)) = true ->
  mwp (process_loop e n) (fun _ s' => passes s n s') s.
Proof.
  induction n as [| n IH]; intros s Hi Ha; cbn.
  { wp_go. apply passes_end. by left. }
  wp_go. apply mwp_fp.
  destruct (Z.eqb_spec (sq_head (v_fp (view s))) (sq_tail (v_fp (view s)))) as [Eh | Eh]; cbn [negb andb].
  { wp_go. apply passes_end. auto. }
  destruct (Z.ltb_spec (cq_pending (v_fp (view s))) (cq_size (v_fp (view s)) - 1)) as [Er | Er].
  2: { wp_go. apply passes_end. auto. }
  wp_go. eapply mwp_mono; [apply process_one_spec; apply Hi || done |]. intros go s1 Hp. cbv beta in Hp.
  destruct (pass_safe _ _ _ Hp Hi Er) as (Hi1 & _ & Ha1). destruct go.
  - eapply mwp_mono; [by apply IH; [| apply Ha1] |]. intros ? s2 Hps. cbv beta in Hps.
    by eapply passes_next.
  - wp_go. by apply passes_stop.
Qed.

(** The level is driven last. *)
Definition driven (f : nvme_fp) (v : fp_view) : fp_view := mk_view f (fp_level f) (v_devs v) (v_events v).

Lemma update_spec s : mwp (nwoas_nvme_fastpath_update_irq e) (fun _ s' => view s' = driven (v_fp (view s)) (view s)) s.
Proof. unfold nwoas_nvme_fastpath_update_irq. wp_go. apply mwp_fp. apply mwp_iff. by rewrite fe_irq. Qed.

(** Set the state, then drive the level. *)
Lemma set_drive_spec f s :
  mwp (set_fp f;; nwoas_nvme_fastpath_update_irq e)
    (fun _ s' => view s' = driven (f (v_fp (view s))) (view s)) s.
Proof.
  wp_go. apply mwp_set_fp. intros s1 E1. wp_go. eapply mwp_mono; [apply update_spec |].
  intros ? s2 E2. cbv beta in E2. by rewrite E2, E1.
Qed.

Lemma drive_safe f v : fp_inv f -> link_busy f = false -> fp_driven (driven f v) /\ devs_grow v (driven f v).
Proof. intros. split; [by split; [split |] | by apply devs_grow_same]. Qed.

Lemma process_spec n s :
  mwp (nwoas_nvme_fastpath_process e n) (fun _ s' =>
    if negb (armed (v_fp (view s))) || faulted (v_fp (view s)) || link_busy (v_fp (view s)) then s' = s
    else fp_idle (view s) ->
      exists s1, passes s n s1 /\ view s' = driven (fp_defer (v_fp (view s1))) (view s1)) s.
Proof.
  unfold nwoas_nvme_fastpath_process. wp_go. apply mwp_fp. set (f := v_fp (view s)) in *.
  destruct (negb (armed f) || faulted f || link_busy f) eqn:Eg; wp_go; [done |].
  apply orb_false_iff in Eg as [[Ea _]%orb_false_iff _]. apply negb_false_iff in Ea.
  apply mwp_iff. destruct (process_loop e n s) as [u s1] eqn:Ep.
  wp_go. apply mwp_set_fp. intros s2 E2. wp_go. eapply mwp_mono; [apply update_spec |].
  intros ? s3 E3 Hi. cbv beta in E3. rewrite E2 in E3. exists s1. split; [| done].
  pose proof (process_loop_spec n s Hi Ea) as Hl. apply mwp_iff in Hl. by rewrite Ep in Hl.
Qed.

(** What every entry point keeps, and what it gives to the controller. *)
Definition step_safe (s s' : S) : Prop := fp_driven (view s') /\ devs_grow (view s) (view s').

Lemma step_safe_refl s : fp_driven (view s) -> step_safe s s.
Proof. split; [done | apply devs_grow_refl]. Qed.

Lemma process_safe n s : fp_driven (view s) -> mwp (nwoas_nvme_fastpath_process e n) (fun _ s' => step_safe s s') s.
Proof.
  intros Hd. eapply mwp_mono; [apply process_spec |]. intros ? s' Hs. cbv beta in Hs.
  destruct (_ || _ || _); [subst; by apply step_safe_refl |].
  destruct (Hs (proj1 Hd)) as (s1 & Hp & E). destruct (passes_safe _ _ _ Hp (proj1 Hd)) as [[Hi Hl] Hg].
  unfold step_safe. rewrite E. destruct (drive_safe (fp_defer (v_fp (view s1))) (view s1)) as [? ?];
    [by apply defer_inv | done |]. split; [done | by eapply devs_grow_trans].
Qed.

Lemma poll_safe s : fp_driven (view s) -> mwp (nwoas_nvme_fastpath_poll e) (fun _ s' => step_safe s s') s.
Proof.
  intros Hd. unfold nwoas_nvme_fastpath_poll. wp_go. apply mwp_fp.
  wp_go; [by apply process_safe | by apply step_safe_refl].
Qed.

(** A change of the state followed by the level. *)
Lemma set_drive_safe f s : fp_inv (f (v_fp (view s))) -> link_busy (f (v_fp (view s))) = false ->
  mwp (set_fp f;; nwoas_nvme_fastpath_update_irq e) (fun _ s' => step_safe s s') s.
Proof.
  intros Hi Hl. eapply mwp_mono; [apply set_drive_spec |]. intros ? s' E. cbv beta in E. unfold step_safe.
  rewrite E. by apply drive_safe.
Qed.

(** A change that does not move the level. *)
Lemma set_safe f s : fp_driven (view s) ->
  fp_inv (f (v_fp (view s))) -> link_busy (f (v_fp (view s))) = false -> fp_level (f (v_fp (view s))) = fp_level (v_fp (view s)) ->
  mwp (set_fp f) (fun _ s' => step_safe s s') s.
Proof.
  intros [_ Hd] Hi Hl He. apply mwp_set_fp. intros s' E. unfold step_safe. rewrite E.
  split; [split; [by split | cbn; congruence] | by apply devs_grow_same].
Qed.

Lemma control_safe action sqb sqs cqb cqs flags s : in_w 64 sqb -> in_w 64 cqb -> in_w 64 flags ->
  fp_driven (view s) ->
  mwp (nwoas_nvme_fastpath_control e action sqb sqs cqb cqs flags) (fun _ s' => step_safe s s') s.
Proof.
  intros Hsb Hcb Hf Hd. pose proof Hd as [[Hi Hl] _]. unfold nwoas_nvme_fastpath_control.
  assert (Hstep : forall f, host_step (v_fp (view s)) (f (v_fp (view s))) -> link_busy (f (v_fp (view s))) = false ->
    forall {A} (k : M S A), (forall s1, step_safe s s1 -> mwp k (fun _ s' => step_safe s s') s1) ->
    mwp (set_fp f;; nwoas_nvme_fastpath_update_irq e;; k) (fun _ s' => step_safe s s') s).
  { intros f Hs Hlf A k Hk. wp_go. apply mwp_set_fp. intros s1 E1. wp_go. eapply mwp_mono; [apply update_spec |].
    intros ? s2 E2. cbv beta in E2. apply Hk. rewrite E1 in E2. unfold step_safe. rewrite E2.
    apply (drive_safe _ (view s)); [by eapply host_step_inv | done]. }
  assert (Hread : forall s1, step_safe s s1 -> forall {A} (g : nvme_fp -> A),
    mwp (f ← fp; mret (g f)) (fun _ s' => step_safe s s') s1).
  { intros s1 Hs1 A g. wp_go. apply mwp_fp. by wp_go. }
  destruct (action =? 0); [apply Hstep; [constructor | done |]; intros s1 Hs1; by wp_go |].
  destruct (action =? 2); [apply Hstep; [by constructor | done |]; intros s1 Hs1; by apply Hread |].
  do 8 (match goal with |- mwp (if ?b then _ else _) _ _ => destruct b end;
    [first [apply Hread; by apply step_safe_refl | wp_go; by apply step_safe_refl] |]).
  destruct (arm_bad_args action sqb sqs cqb cqs) eqn:Ea; [wp_go; by apply step_safe_refl |].
  wp_go. apply mwp_gets. wp_go. apply mwp_fp.
  destruct (negb _ || faulted _) eqn:Eg; [wp_go; by apply step_safe_refl |].
  apply orb_false_iff in Eg as [_ Eg]. apply Hstep; [| done | intros s1 Hs1; by wp_go].
  constructor; try done. unfold arm_bad_args in *. destruct (action =? 1); done.
Qed.

(** The probe only reads memory. *)
Definition quiet (s s' : S) : Prop :=
  v_fp (view s') = v_fp (view s) /\ v_line (view s') = v_line (view s) /\ v_devs (view s') = v_devs (view s).

Lemma quiet_safe s s' : fp_driven (view s) -> quiet s s' -> step_safe s s'.
Proof.
  intros [[Hi Hl] Hd] (E1 & E2 & E3). split; [| by apply devs_grow_same].
  split; [split |]; by rewrite ?E1, ?E2.
Qed.

Lemma mwp_probe_at va0 c (Q : Z * Z -> S -> Prop) s : (forall p s', view s' = view s -> Q p s') ->
  mwp (nwoas_probe_at_el1 e va0 c) Q s.
Proof.
  intros HQ. unfold nwoas_probe_at_el1. wp_go. eapply mwp_cb; [apply fe_at |]. intros par s' E. wp_go. by apply HQ.
Qed.

Lemma mwp_cq_map {A} (g : nvme_cq_map -> A) (Q : A -> S -> Prop) s : (forall a, Q a s) -> mwp (lgets g) Q s.
Proof. intros HQ. apply mwp_iff. apply HQ. Qed.

Lemma mwp_set_cq_map (g : nvme_cq_map -> nvme_cq_map) (Q : unit -> S -> Prop) s :
  (forall s', view s' = view s -> Q tt s') -> mwp (lmodify g) Q s.
Proof. intros HQ. apply mwp_iff, HQ. cbn. by rewrite fe_cq_map. Qed.

Lemma probe_spec ctx s : mwp (nwoas_nvme_probe_cq_map e ctx) (fun _ s' => quiet s s') s.
Proof.
  unfold nwoas_nvme_probe_cq_map. wp_step. apply mwp_cq_map. intros m.
  destruct (found m || _ || _ || _); [wp_go; by split_and! |].
  wp_step. apply mwp_set_cq_map. intros s1 E1. wp_step. apply mwp_probe_at. intros [pa p] s2 E2. cbn [fst snd].
  destruct ((pa =? 0) || _ || _); [wp_go; rewrite E1 in E2; unfold quiet; by rewrite E2 |].
  wp_go. apply mwp_iff. destruct (fe_read pa 8 s2) as (E3 & _). destruct (mem_read e pa 8 s2) as [b s3]. cbn [fst snd] in *.
  rewrite E2, E1 in E3. assert (Hq : quiet s s3) by (unfold quiet; by rewrite E3).
  assert (Hk : forall t, view t = view s3 -> quiet s t) by (intros t Et; unfold quiet; by rewrite Et).
  clear E1 E2 E3. destruct (_ <? _); [by wp_go |].
  wp_go. apply mwp_probe_at. intros [qa q] s4 E4. cbn [fst snd]. wp_go. apply mwp_fp.
  destruct (negb _); [wp_go; by apply Hk |].
  wp_go. apply mwp_probe_at. intros [ra r] s5 E5. rewrite E4 in E5. cbn [fst snd]. wp_go. apply mwp_fp.
  wp_go. apply mwp_gets. destruct (negb _); [wp_go; by apply Hk |].
  wp_go. apply mwp_gets. apply mwp_set_cq_map. intros s6 E6. apply Hk. congruence.
Qed.

Lemma step_safe_trans s1 s2 s3 : step_safe s1 s2 -> step_safe s2 s3 -> step_safe s1 s3.
Proof. intros [_ G1] [D2 G2]. split; [done | by eapply devs_grow_trans]. Qed.

Lemma mmio_mask_safe off val write s : fp_driven (view s) -> in_w 64 val ->
  mwp (mmio_mask e off val write) (fun _ s' => step_safe s s') s.
Proof.
  intros Hd Hv. pose proof Hd as [[Hi Hl] Hv']. unfold mmio_mask. destruct write.
  - wp_go. apply mwp_set_fp. intros s1 E1. wp_go. apply mwp_set_diag. intros s2 E2. rewrite E1 in E2.
    wp_go. eapply mwp_mono; [apply update_spec |]. intros ? s3 E3. cbv beta in E3. wp_go.
    rewrite E2 in E3. unfold step_safe. rewrite E3. apply (drive_safe _ (view s)); [| done].
    assert (Hu : in_w 32 (u32 val)) by by apply wrap_range.
    apply set_mask_inv; [| done]. destruct Hi. destruct (off =? 12); [by apply in_w_lor |].
    by apply in_w_land.
  - wp_go. apply mwp_fp. wp_go. apply mwp_set_diag. intros s1 E1. wp_go.
    apply quiet_safe; [done |]. unfold quiet. by rewrite E1.
Qed.

Lemma mmio_sq_safe val s : fp_driven (view s) -> in_w 64 val ->
  mwp (mmio_sq_tail e val) (fun _ s' => step_safe s s') s.
Proof.
  intros Hd Hv. pose proof Hd as [[Hi Hl] _]. unfold mmio_sq_tail. wp_go. apply mwp_fp.
  destruct (Z.ltb_spec val (sq_size (v_fp (view s)))) as [Hlt | _].
  2: { apply set_safe; try done. by apply error_inv. }
  assert (Ht : u16 val = val).
  { apply wrap_small. destruct (fi_sq _ Hi) as [?|?]; unfold in_w in *; lia. }
  wp_go. rewrite Ht. apply mwp_iff.
  assert (Hs : mwp (set_fp (fp_submit val)) (fun _ s' => step_safe s s') s).
  { apply set_safe; try done. apply submit_inv; [done |]. unfold in_w in Hv. lia. }
  apply mwp_iff in Hs. destruct (set_fp (fp_submit val) s) as [u s1]. cbn [fst snd] in *.
  wp_go. apply mwp_set_diag. intros s2 E2. wp_go.
  assert (Hs2 : step_safe s s2) by (unfold step_safe in *; by rewrite E2).
  eapply mwp_mono; [by apply process_safe, Hs2 |]. intros ? s3 Hs3. by eapply step_safe_trans.
Qed.

Lemma mmio_cq_safe ctx val s : fp_driven (view s) -> in_w 64 val ->
  mwp (mmio_cq_head e ctx val) (fun _ s' => step_safe s s') s.
Proof.
  intros Hd Hv. unfold mmio_cq_head. wp_go. eapply mwp_mono; [apply probe_spec |]. intros ? s1 Hq. cbv beta in Hq.
  wp_go. apply mwp_set_diag. intros s2 E2. wp_go. apply mwp_fp.
  assert (Hs2 : step_safe s s2) by (apply quiet_safe; [done |]; unfold quiet in *; by rewrite E2).
  pose proof Hs2 as [Hd2 _]. pose proof Hd2 as [[Hi Hl] _]. clear Hd E2 Hq s1.
  assert (Herr : mwp (set_fp fp_error) (fun _ s' => step_safe s s') s2).
  { eapply mwp_mono; [apply set_safe; try done; by apply error_inv |].
    intros ? s3 Hs3. by eapply step_safe_trans. }
  destruct (Z.ltb_spec val (cq_size (v_fp (view s2)))) as [Hlt | _]; [| done].
  assert (Ht : u16 val = val).
  { apply wrap_small. destruct (fi_cq _ Hi) as [?|?]; unfold in_w in *; lia. }
  rewrite Ht. destruct (Z.leb_spec (u16 ((val + cq_size (v_fp (view s2)) - cq_head (v_fp (view s2))) mod
    cq_size (v_fp (view s2)))) (cq_pending (v_fp (view s2)))) as [Hc | _]; [| done].
  eapply mwp_mono; [apply set_drive_safe; [| done] |].
  - apply fp_ack_inv; [done | unfold in_w in Hv; lia | done].
  - intros ? s3 Hs3. by eapply step_safe_trans.
Qed.

Lemma mmio_safe ctx ipa_ val write width s : fp_driven (view s) -> in_w 64 val ->
  mwp (nwoas_nvme_fastpath_mmio e ctx ipa_ val write width) (fun _ s' => step_safe s s') s.
Proof.
  intros Hd Hv. unfold nwoas_nvme_fastpath_mmio, mmio_open. wp_go. apply mwp_fp. wp_go. apply mwp_fp. set (f := v_fp (view s)).
  assert (Hr : forall r : bool * option Z, mwp (mret r) (fun _ s' => step_safe s s') s)
    by (intros; wp_go; by apply step_safe_refl).
  destruct (negb _ || _ || _); [done |]. set (off := u64 _).
  destruct (negb (width =? 2)); [done |].
  destruct (negb (faulted f) && _ && _).
  { wp_go. eapply mwp_mono; [by apply mmio_mask_safe |]. intros. by wp_go. }
  destruct (negb write); [destruct (faulted f && _); done |].
  destruct (off =? 0x1008).
  { wp_go. eapply mwp_mono; [by apply mmio_sq_safe |]. intros. by wp_go. }
  destruct (off =? 0x100c); [| done].
  wp_go. eapply mwp_mono; [by apply mmio_cq_safe |]. intros. by wp_go.
Qed.

(** ** Runs of the engine *)

Inductive fp_op :=
| OpControl (action sqb sqs cqb cqs flags : Z)
| OpMmio (ctx : exc_info) (ipa val : Z) (write : bool) (width : Z)
| OpPoll.
Definition op_ok (o : fp_op) : Prop :=
  match o with
  | OpControl _ sqb _ cqb _ flags => in_w 64 sqb /\ in_w 64 cqb /\ in_w 64 flags
  | OpMmio _ _ val _ _ => in_w 64 val
  | OpPoll => True
  end.
Definition fp_exec (o : fp_op) (s : S) : S :=
  match o with
  | OpControl a sqb sqs cqb cqs flags => (nwoas_nvme_fastpath_control e a sqb sqs cqb cqs flags s).2
  | OpMmio ctx ipa val write width => (nwoas_nvme_fastpath_mmio e ctx ipa val write width s).2
  | OpPoll => (nwoas_nvme_fastpath_poll e s).2
  end.
Definition fp_run (ops : list fp_op) (s : S) : S := fold_left (fun s o => fp_exec o s) ops s.

Lemma exec_safe o s : op_ok o -> fp_driven (view s) -> step_safe s (fp_exec o s).
Proof.
  intros Ho Hd. destruct o as [a sqb sqs cqb cqs flags | ctx i v w wd |]; cbn in *.
  - destruct Ho as (? & ? & ?). pose proof (control_safe a sqb sqs cqb cqs flags s) as Hs.
    by apply mwp_iff in Hs.
  - pose proof (mmio_safe ctx i v w wd s Hd Ho) as Hs. by apply mwp_iff in Hs.
  - pose proof (poll_safe s Hd) as Hs. by apply mwp_iff in Hs.
Qed.

Lemma run_safe ops : forall s, Forall op_ok ops -> fp_driven (view s) -> step_safe s (fp_run ops s).
Proof.
  induction ops as [| o ops IH]; intros s Ho Hd; [by apply step_safe_refl |]. inversion_clear Ho.
  eapply step_safe_trans; [by apply (exec_safe o) |]. apply IH; [done |]. by apply exec_safe.
Qed.

(** The service of at most one command, from [s0]. *)
Definition serviced (s0 s' : S) : Prop :=
  let f := v_fp (view s0) in
  if faulted f then view s' = view s0
  else exists s1,
    (if (sq_head f =? sq_tail f) || (cq_size f - 1 <=? cq_pending f) then s1 = s0
     else exists go, pass s0 go s1) /\
    view s' = driven (fp_defer (v_fp (view s1))) (view s1).

Lemma process1_serviced s : fp_idle (view s) -> armed (v_fp (view s)) = true ->
  mwp (nwoas_nvme_fastpath_process e 1) (fun _ s' => serviced s s') s.
Proof.
  intros Hi Ha. eapply mwp_mono; [apply process_spec |]. intros ? s' Hs. cbv beta in Hs.
  rewrite Ha, (proj2 Hi), orb_false_r in Hs. cbn [negb orb] in Hs. unfold serviced.
  destruct (faulted _); [by subst |]. destruct (Hs Hi) as (s1 & Hp & E). exists s1. split; [| done].
  destruct (Z.eqb_spec (sq_head (v_fp (view s))) (sq_tail (v_fp (view s)))) as [Eh | Eh]; cbn [orb].
  { by inversion Hp. }
  destruct (Z.leb_spec (cq_size (v_fp (view s)) - 1) (cq_pending (v_fp (view s)))) as [El | El].
  { inversion Hp; subst; done || lia. }
  inversion Hp as [s1' n1 Hn | s1' n1 s2 Hr Hh Hps | s1' n1 s2 s3 Hr Hh Hps Hrest]; subst.
  - destruct Hn as [? | [? | ?]]; done || lia.
  - by eauto.
  - inversion Hrest; subst; by eauto.
Qed.
End spec.

Definition booted {S} (view : S -> fp_view) (s : S) : Prop := view s = mk_view fp_zero false [] [].

Lemma booted_driven {S} (view : S -> fp_view) s : booted view s -> fp_driven (view s).
Proof. intros E. rewrite E. by split; [split; [apply fp_zero_inv |] |]. Qed.

(** ** Properties *)

(** From boot on, after any sequence of control calls, trapped register
    accesses and ticks, the queue state is well formed (indices inside their
    queues, the completion tail exactly [cq_pending] entries after the head,
    never a full completion queue, page-aligned bases while armed), no link
    call is left marked busy, and the interrupt level last driven is the one
    the state asks for. *)
Theorem fp_reach_inv {S} `{!Lens S nvme_fp} `{!Lens S nvme_diag} `{!Lens S nvme_cq_map} (e : fp_env S)
    view `{!FpEnv e view} ops s :
  Forall op_ok ops -> booted view s ->
  let f := v_fp (view (fp_run e ops s)) in
  fp_inv f /\ link_busy f = false /\ v_line (view (fp_run e ops s)) = fp_level f.
Proof.
  intros Ho Hb. destruct (run_safe e view ops s Ho (booted_driven view s Hb)) as [[[Hi Hl] Hd] _]. done.
Qed.

(** C5. Whatever the guest puts in its queues and the host answers on the link,
    every read or write given to the physical controller has 1 to 65536 blocks
    inside the namespace, and every write lies inside the window of the
    Windows partitions. *)
Theorem fp_device_guard {S} `{!Lens S nvme_fp} `{!Lens S nvme_diag} `{!Lens S nvme_cq_map} (e : fp_env S)
    view `{!FpEnv e view} ops s :
  Forall op_ok ops -> booted view s -> Forall dev_ok (v_devs (view (fp_run e ops s))).
Proof.
  intros Ho Hb. destruct (run_safe e view ops s Ho (booted_driven view s Hb)) as [_ (ds & Hds & ->)].
  by rewrite Hb.
Qed.

(** A write to the submission doorbell of an armed engine is always
    handled.  A tail inside the queue is stored and at most one command is
    served: nothing while the engine is faulted, the queue empty or the
    completion queue full; otherwise one pass, which either faults the engine,
    is cancelled by the host without publishing anything, or publishes exactly
    one completion entry of the command at the head (its body, a barrier, then
    the status word with the current phase).  Any other value is counted as an
    error and changes nothing else. *)
Theorem fp_doorbell_exact {S} `{!Lens S nvme_fp} `{!Lens S nvme_diag} `{!Lens S nvme_cq_map} (e : fp_env S)
    view `{!FpEnv e view} ctx val s :
  fp_driven (view s) -> armed (v_fp (view s)) = true -> in_w 64 val ->
  let p := nwoas_nvme_fastpath_mmio e ctx (NWOAS_NVME_BAR + 0x1008) val true 2 s in
  p.1 = (true, None) /\
  if val <? sq_size (v_fp (view s)) then
    exists s0, view s0 = mk_view (fp_submit val (v_fp (view s))) (v_line (view s)) (v_devs (view s)) (v_events (view s)) /\
      serviced e view s0 p.2
  else view p.2 = mk_view (fp_error (v_fp (view s))) (v_line (view s)) (v_devs (view s)) (v_events (view s)).
Proof.
  intros Hd Ha Hv p. destruct Hd as [[Hi Hl] Hline].
  cut (mwp (nwoas_nvme_fastpath_mmio e ctx (NWOAS_NVME_BAR + 0x1008) val true 2) (fun r s' => r = (true, None) /\
    if val <? sq_size (v_fp (view s)) then
      exists s0, view s0 = mk_view (fp_submit val (v_fp (view s))) (v_line (view s)) (v_devs (view s)) (v_events (view s)) /\
        serviced e view s0 s'
    else view s' = mk_view (fp_error (v_fp (view s))) (v_line (view s)) (v_devs (view s)) (v_events (view s))) s).
  { intros Hw. by apply mwp_iff in Hw. }
  clear p. unfold nwoas_nvme_fastpath_mmio, mmio_open. wp_step. apply (mwp_fp e view). wp_step. apply (mwp_fp e view). rewrite Ha. cbn [negb orb].
  change (_ <? NWOAS_NVME_BAR) with false. change (_ <=? NWOAS_NVME_BAR + 0x1008) with false.
  change (u64 (NWOAS_NVME_BAR + 0x1008 - NWOAS_NVME_BAR)) with 0x1008. cbn [negb orb Z.eqb Pos.eqb].
  rewrite !andb_false_r. unfold mmio_sq_tail. wp_step. wp_step. apply (mwp_fp e view).
  destruct (Z.ltb_spec val (sq_size (v_fp (view s)))) as [Hlt | _].
  2: { apply (mwp_set_fp e view). intros s1 E1. by wp_go. }
  assert (Ht : u16 val = val).
  { apply wrap_small. destruct (fi_sq _ Hi) as [?|?]; unfold in_w in *; lia. }
  rewrite Ht. wp_step. apply (mwp_set_fp e view). intros s1 E1. wp_step. apply (mwp_set_diag e view). intros s2 E2.
  eapply mwp_mono; [apply (process1_serviced e view) |].
  - rewrite E2, E1. split; [| done]. apply submit_inv; [done |]. unfold in_w in Hv. lia.
  - by rewrite E2, E1.
  - intros ? s3 Hs. cbv beta in Hs. wp_go. split; [done |]. exists s2. split; [congruence | done].
Qed.

(** ** The properties at work *)

(** A machine whose memory answers every 64-byte read with one write command,
    whose controller always succeeds, and whose host disarms the engine during
    a link call. *)
Record demo_fp := mk_demo_fp {
  m_fp : nvme_fp; m_diag : nvme_diag; m_map : nvme_cq_map; m_line : bool;
  m_devs : list dev_cmd; m_events : list fp_event;
}.
#[export] Program Instance demo_fp_lens : Lens demo_fp nvme_fp :=
  {| lget := m_fp; lset f s := mk_demo_fp f (m_diag s) (m_map s) (m_line s) (m_devs s) (m_events s) |}.
Solve All Obligations with (by intros; repeat match goal with s : demo_fp |- _ => destruct s end).
#[export] Program Instance demo_diag_lens : Lens demo_fp nvme_diag :=
  {| lget := m_diag; lset d s := mk_demo_fp (m_fp s) d (m_map s) (m_line s) (m_devs s) (m_events s) |}.
Solve All Obligations with (by intros; repeat match goal with s : demo_fp |- _ => destruct s end).
#[export] Program Instance demo_map_lens : Lens demo_fp nvme_cq_map :=
  {| lget := m_map; lset m s := mk_demo_fp (m_fp s) (m_diag s) m (m_line s) (m_devs s) (m_events s) |}.
Solve All Obligations with (by intros; repeat match goal with s : demo_fp |- _ => destruct s end).

Definition demo_event (ev : fp_event) (s : demo_fp) : demo_fp :=
  mk_demo_fp (m_fp s) (m_diag s) (m_map s) (m_line s) (m_devs s) (m_events s ++ [ev]).
Definition demo_dev (d : dev_cmd) (s : demo_fp) : demo_fp :=
  mk_demo_fp (m_fp s) (m_diag s) (m_map s) (m_line s) (m_devs s ++ [d]) (m_events s).

(** Write of one block at the start of the window, command id 7. *)
Definition demo_cmd : list Z :=
  [1; 0; 7; 0] ++ le_bytes 4 1 ++ replicate 32 0 ++ le_bytes 4 NWOAS_NVME_WRITE_FIRST_LBA ++ replicate 20 0.

Definition demo_fp_env : fp_env demo_fp := {|
  hv_pt_walk ipa _ := ipa .| 3;
  vaddr_bits := 36;
  ram_base := 0x800000000;
  mem_size_actual := 0x400000000;
  mem_read pa n s := (if n =? 64 then demo_cmd else replicate (Z.to_nat n) 0, demo_event (EvRead pa n) s);
  mem_write pa bs s := (tt, demo_event (EvWrite pa bs) s);
  mem_store16 pa v s := (tt, demo_event (EvStore16 pa v) s);
  dma_rmb s := (tt, s);
  dma_wmb s := (tt, demo_event EvWmb s);
  cntpct s := (0, s);
  at_el1 _ _ s := (1, s);
  nvme_rw_guest w lba n _ _ s := (1, demo_dev (DevRW w lba n) s);
  nvme_flush _ s := (true, demo_dev DevFlush s);
  hv_exc_proxy r s := (mk_req (req_magic r) 0 0 0 0 0 [] 0 0 0 0,
    mk_demo_fp (disarm (m_fp s)) (m_diag s) (m_map s) (m_line s) (m_devs s) (m_events s ++ [EvLink]));
  LINK_MAGIC := 0x4e564c4b; LINK_VERSION := 1; LINK_SIZE := 96; LINK_DONE := 1;
  set_fast_irq b s := (tt, mk_demo_fp (m_fp s) (m_diag s) (m_map s) b (m_devs s) (m_events s));
|}.
Definition demo_view (s : demo_fp) : fp_view := mk_view (m_fp s) (m_line s) (m_devs s) (m_events s).

Lemma demo_cmd_bytes : bytes_ok demo_cmd.
Proof. unfold bytes_ok. repeat (constructor; [by split |]). constructor. Qed.

#[export] Instance demo_fp_ok : FpEnv demo_fp_env demo_view.
Proof.
  split; try done.
  - intros pa n s. split; [done |]. cbn. destruct (Z.eqb_spec n 64) as [->|_].
    + split; [exact demo_cmd_bytes | done].
    + split; [by apply Forall_replicate | intros; unfold zlen; rewrite length_replicate; lia].
  - intros r s. exists 1%nat, (disarm (m_fp s)), (m_line s). split; [lia |]. split; [| by split_and!].
    eapply nsteps_l; [constructor |]. constructor.
Qed.

Definition demo_boot : demo_fp :=
  mk_demo_fp fp_zero (mk_diag 0 0 0 0 0 0 0 0 0 0) (mk_cq_map 0 0 0 0 0 0 0 0 false) false [] [].
Definition demo_ctx : exc_info := mk_exc 0 0.
(** Arm, submit one command, tick, acknowledge it. *)
Definition demo_ops : list fp_op :=
  [OpControl 1 0x800010000 4 0x800020000 4 0x3; OpMmio demo_ctx 0x700101008 1 true 2; OpPoll;
   OpMmio demo_ctx 0x70010100c 1 true 2].
Definition demo_armed : demo_fp := fp_run demo_fp_env (take 1 demo_ops) demo_boot.

Lemma demo_ops_ok n : Forall op_ok (take n demo_ops).
Proof.
  apply Forall_take. unfold demo_ops. constructor; [by repeat split |]. constructor; [by split |].
  constructor; [done |]. constructor; [by split |]. constructor.
Qed.
Lemma demo_booted : booted demo_view demo_boot. Proof. done. Qed.
Lemma demo_armed_driven : fp_driven (demo_view demo_armed).
Proof. by destruct (run_safe demo_fp_env demo_view _ demo_boot (demo_ops_ok 1) (booted_driven _ _ demo_booted)). Qed.
Lemma demo_armed_armed : armed (v_fp (demo_view demo_armed)) = true. Proof. vm_compute. done. Qed.
Lemma demo_val : in_w 64 1. Proof. by split. Qed.

(** The run: one write and its flush reach the controller, one entry is published and acknowledged. *)
Lemma demo_fp_run :
  let s := fp_run demo_fp_env demo_ops demo_boot in
  m_devs s = [DevRW true NWOAS_NVME_WRITE_FIRST_LBA 1; DevFlush] /\
  m_events s = [EvRead 0x800010000 64;
    EvWrite 0x800020000 [0; 0; 0; 0; 0; 0; 0; 0; 1; 0; 1; 0; 7; 0]; EvWmb; EvStore16 0x80002000e 1] /\
  (sq_head (m_fp s), cq_tail (m_fp s), cq_pending (m_fp s), commands (m_fp s)) = (1, 1, 0, 1).
Proof. vm_compute. done. Qed.

Lemma demo_ops_all : Forall op_ok demo_ops. Proof. exact (demo_ops_ok 4). Qed.

Lemma fp_reach_inv_witness :
  let f := v_fp (demo_view (fp_run demo_fp_env demo_ops demo_boot)) in
  fp_inv f /\ link_busy f = false /\ v_line (demo_view (fp_run demo_fp_env demo_ops demo_boot)) = fp_level f.
Proof. exact (fp_reach_inv demo_fp_env demo_view demo_ops demo_boot demo_ops_all demo_booted). Defined.

Lemma fp_device_guard_witness : Forall dev_ok (v_devs (demo_view (fp_run demo_fp_env demo_ops demo_boot))).
Proof. exact (fp_device_guard demo_fp_env demo_view demo_ops demo_boot demo_ops_all demo_booted). Defined.

Lemma fp_doorbell_exact_witness :
  let p := nwoas_nvme_fastpath_mmio demo_fp_env demo_ctx (NWOAS_NVME_BAR + 0x1008) 1 true 2 demo_armed in
  p.1 = (true, None) /\
  if 1 <? sq_size (v_fp (demo_view demo_armed)) then
    exists s0, demo_view s0 = mk_view (fp_submit 1 (v_fp (demo_view demo_armed))) (v_line (demo_view demo_armed)) (v_devs (demo_view demo_armed)) (v_events (demo_view demo_armed)) /\
      serviced demo_fp_env demo_view s0 p.2
  else demo_view p.2 = mk_view (fp_error (v_fp (demo_view demo_armed))) (v_line (demo_view demo_armed)) (v_devs (demo_view demo_armed)) (v_events (demo_view demo_armed)).
Proof.
  exact (fp_doorbell_exact demo_fp_env demo_view demo_ctx 1 demo_armed demo_armed_driven demo_armed_armed demo_val).
Defined.
