(* ===== verification/FastPathClient.v ===== *)
(** * The fast path as seen by its owner

    The owner of the fast path keeps a property of the whole machine across its
    operations.  [FpClient] lists what it has to show: that the steps the engine
    makes on its own state ([engine_step]) and its calls to the machine keep the
    property [I], and that driving the interrupt line establishes the property [D]
    that holds between operations.  The theorems give back that every entry point of
    the engine keeps [D], and that the controller is only given permitted ranges. *)

From S2P Require Import Prelude FastPath.

(** What the engine does to its state. *)
Inductive engine_step : nvme_fp -> nvme_fp -> Prop :=
| es_consume f : sq_head f <> sq_tail f -> engine_step f (fp_consume f)
| es_complete st f : cq_pending f < cq_size f - 1 -> engine_step f (fp_complete st f)
| es_fault f : engine_step f (fp_fault f)
| es_defer f : engine_step f (fp_defer f)
| es_error f : engine_step f (fp_error f)
| es_submit tail f : 0 <= tail < sq_size f -> engine_step f (fp_submit tail f)
| es_ack head f : 0 <= head < cq_size f ->
    let consumed := u16 ((head + cq_size f - cq_head f) mod cq_size f) in
    consumed <= cq_pending f -> engine_step f (fp_ack head consumed f)
| es_call f : engine_step f (f <| link_sequence := u32 (link_sequence f + 1) |>)
| es_busy b f : engine_step f (f <| link_busy := b |>)
| es_mask m f : in_w 32 m -> local_mask_allowed f = true -> engine_step f (fp_set_mask m f).

(** What the owner decides and the engine leaves alone. *)
Definition config (f : nvme_fp) :=
  (armed f, (irq_enabled f, cache_enabled f, local_mask_allowed f), (sq_base f, sq_size f, cq_base f, cq_size f),
   (lifecycle_epoch f, sq_generation f, cq_generation f)).

Lemma engine_config f g : engine_step f g -> config g = config f.
Proof. by intros []. Qed.

Lemma engine_inv f g : engine_step f g -> fp_inv f -> fp_inv g.
Proof.
  intros Hs Hi. destruct Hs as [f Hh | st f Hr | f | f | f | tail f Ht | head f Hh c Hc | f | b f | m f Hm _].
  - pose proof Hi as [I1 I2 I3 I4 I5 I6 I7 I8]. split; try done. cbn.
    destruct I1 as [(E1 & E2 & E3) | (E1 & E2 & E3)]; [lia |].
    right. rewrite ring_step by done. pose proof (Z.mod_pos_bound (sq_head f + 1) (sq_size f)). lia.
  - by apply complete_inv.
  - by apply fault_inv.
  - by apply defer_inv.
  - by apply error_inv.
  - by apply submit_inv.
  - by apply fp_ack_inv.
  - by destruct Hi.
  - by destruct Hi.
  - by apply set_mask_inv.
Qed.

(** The steps that leave alone what the line depends on. *)
Definition calm (f g : nvme_fp) : Prop :=
  faulted g = faulted f /\ cq_pending g = cq_pending f /\ link_busy g = link_busy f.

Section client.
Context {S : Type} `{F : !Lens S nvme_fp} `{G : !Lens S nvme_diag} `{H : !Lens S nvme_cq_map} (e : fp_env S).
Local Abbreviation fps s := (lget (A := nvme_fp) s).

(** A call that is of no consequence to the owner or the engine. *)
Definition harmless (I D : S -> Prop) {A} (m : M S A) : Prop :=
  forall s, (I s -> I (m s).2) /\ (D s -> D (m s).2) /\ fps (m s).2 = fps s.

Class FpClient (I D : S -> Prop) : Prop := {
  fcl_inv s : I s -> fp_inv (fps s);
  fcl_settled s : D s -> I s;
  fcl_idle s : D s -> link_busy (fps s) = false;
  fcl_step f s : I s -> engine_step (fps s) f -> I (lset f s);
  fcl_calm f s : D s -> engine_step (fps s) f -> calm (fps s) f -> D (lset f s);
  fcl_diag (d : nvme_diag) : harmless I D (modify (lset d));
  fcl_cq_map (m : nvme_cq_map) : harmless I D (modify (lset m));
  fcl_read pa n : harmless I D (mem_read e pa n);
  fcl_read_ok pa n s : bytes_ok (mem_read e pa n s).1;
  fcl_write pa bs : harmless I D (mem_write e pa bs);
  fcl_store pa v : harmless I D (mem_store16 e pa v);
  fcl_wmb : harmless I D (dma_wmb e);
  fcl_rmb : harmless I D (dma_rmb e);
  fcl_count : harmless I D (cntpct e);
  fcl_at va c : harmless I D (at_el1 e va c);
  fcl_rw w lba n p q : dev_ok (DevRW w lba n) -> harmless I D (nvme_rw_guest e w lba n p q);
  fcl_flush n : harmless I D (nvme_flush e n);
  fcl_link r s : I s -> let s' := (hv_exc_proxy e r s).2 in I s' /\
    (armed (fps s') = true -> lifecycle_epoch (fps s') = lifecycle_epoch (fps s) -> queues (fps s') = queues (fps s));
  fcl_irq s : I s -> link_busy (fps s) = false -> D (set_fast_irq e (fp_level (fps s)) s).2;
}.

Context (I D : S -> Prop) `{C : !FpClient I D}.

(** Rules for the calls, keeping [I] or [D] and the engine's state. *)
Lemma cl_call {A} (m : M S A) (Q : A -> S -> Prop) s : harmless I D m -> I s ->
  (forall a s', I s' -> fps s' = fps s -> Q a s') -> mwp m Q s.
Proof. intros Hm Hs HQ. apply mwp_iff. destruct (Hm s) as (H1 & _ & H2). by apply HQ; [apply H1 |]. Qed.

Lemma cl_callD {A} (m : M S A) (Q : A -> S -> Prop) s : harmless I D m -> D s ->
  (forall a s', D s' -> fps s' = fps s -> Q a s') -> mwp m Q s.
Proof. intros Hm Hs HQ. apply mwp_iff. destruct (Hm s) as (_ & H1 & H2). by apply HQ; [apply H1 |]. Qed.

Lemma cl_fp (Q : nvme_fp -> S -> Prop) s : Q (fps s) s -> mwp fp Q s.
Proof. intros HQ. by apply mwp_iff. Qed.

Lemma cl_gets {A} (f : S -> A) (Q : A -> S -> Prop) s : Q (f s) s -> mwp (gets f) Q s.
Proof. intros HQ. by apply mwp_iff. Qed.

Lemma cl_set f (Q : unit -> S -> Prop) s : I s -> engine_step (fps s) (f (fps s)) ->
  (forall s', I s' -> fps s' = f (fps s) -> Q tt s') -> mwp (set_fp f) Q s.
Proof. intros Hs He HQ. apply mwp_iff. apply HQ; cbn; [by apply fcl_step | by rewrite lget_lset]. Qed.

Lemma cl_setD f (Q : unit -> S -> Prop) s : D s -> engine_step (fps s) (f (fps s)) -> calm (fps s) (f (fps s)) ->
  (forall s', D s' -> fps s' = f (fps s) -> Q tt s') -> mwp (set_fp f) Q s.
Proof. intros Hs He Hc HQ. apply mwp_iff. apply HQ; cbn; [by apply fcl_calm | by rewrite lget_lset]. Qed.

Lemma cl_diag f (Q : unit -> S -> Prop) s : I s -> (forall s', I s' -> fps s' = fps s -> Q tt s') -> mwp (set_diag f) Q s.
Proof. intros Hs HQ. exact (cl_call (modify (lset _)) Q s (fcl_diag (f (lget s))) Hs (fun u => match u with tt => HQ end)). Qed.
Lemma cl_diagD f (Q : unit -> S -> Prop) s : D s -> (forall s', D s' -> fps s' = fps s -> Q tt s') -> mwp (set_diag f) Q s.
Proof. intros Hs HQ. exact (cl_callD (modify (lset _)) Q s (fcl_diag (f (lget s))) Hs (fun u => match u with tt => HQ end)). Qed.
Lemma cl_mapD f (Q : unit -> S -> Prop) s : D s -> (forall s', D s' -> fps s' = fps s -> Q tt s') ->
  mwp (@lmodify S nvme_cq_map _ f) Q s.
Proof. intros Hs HQ. exact (cl_callD (modify (lset _)) Q s (fcl_cq_map (f (lget s))) Hs (fun u => match u with tt => HQ end)). Qed.

Lemma cl_update s : I s -> link_busy (fps s) = false -> mwp (nwoas_nvme_fastpath_update_irq e) (fun _ s' => D s') s.
Proof.
  intros Hs Hl. unfold nwoas_nvme_fastpath_update_irq. wp_step. apply cl_fp. apply mwp_iff. by apply fcl_irq.
Qed.

(** *** One command *)

(** A command that is to be completed finds the queues as it left them. *)
Definition executed (f : nvme_fp) (r : Z * Z) (s' : S) : Prop :=
  I s' /\ link_busy (fps s') = false /\ (r.1 <> NWOAS_NVME_EXEC_CANCELLED -> queues (fps s') = queues f).

Lemma cl_flush n f (Q : bool -> S -> Prop) s : I s -> fps s = f ->
  (forall ok s', I s' -> fps s' = f -> Q ok s') -> mwp (nvme_flush e n) Q s.
Proof. intros Hs <- HQ. by apply (cl_call (nvme_flush e n)); [apply fcl_flush |..]. Qed.

Lemma cl_execute_flush c s : I s -> link_busy (fps s) = false ->
  mwp (execute_flush e c) (fun r s' => executed (fps s) r s') s.
Proof.
  intros Hs Hl. unfold execute_flush. wp_go; [done |]. apply (cl_flush 1 (fps s)); [done | done |].
  intros ok s' Hs' E. wp_go. unfold executed. by rewrite E.
Qed.

Lemma cl_execute_rw c s : cmd_ok c -> I s -> link_busy (fps s) = false ->
  mwp (execute_rw e c) (fun r s' => executed (fps s) r s') s.
Proof.
  intros Hc Hs Hl. unfold execute_rw. fold (rw_lba c). fold (rw_count c).
  assert (Hno : forall r, executed (fps s) r s) by done.
  wp_go; try done. apply (cl_call (nvme_rw_guest e _ _ _ _ _)); [apply fcl_rw; by apply rw_permitted | done |].
  intros r s1 Hs1 E1. assert (Hyes : forall r, executed (fps s) r s1) by (intros; unfold executed; by rewrite E1).
  wp_go; try done. apply cl_fp. wp_go; [| done]. apply (cl_flush 1 (fps s)); [done | done |].
  intros ok s' Hs' E. wp_go. unfold executed. by rewrite E.
Qed.

Lemma cl_link bytes c s : I s -> link_busy (fps s) = false ->
  mwp (nwoas_nvme_link_execute e bytes c) (fun r s' => executed (fps s) r s') s.
Proof.
  intros Hs Hl. unfold nwoas_nvme_link_execute. wp_go. apply cl_set; [done | constructor |]. intros s1 H1 E1.
  wp_go. apply cl_fp. wp_go. apply cl_set; [done | constructor |]. intros s2 H2 E2. wp_go. apply mwp_iff.
  match goal with |- context [hv_exc_proxy e ?x s2] => set (req := x) end.
  destruct (fcl_link (I := I) (D := D) req s2 H2) as [H3 Hq]. destruct (hv_exc_proxy e req s2) as [rsp s3]. cbn [fst snd] in *.
  wp_go. apply (cl_call (dma_rmb e)); [apply fcl_rmb | done |]. intros _ s4 H4 E4.
  wp_go. apply cl_set; [done | constructor |]. intros s5 H5 E5. wp_go. apply cl_fp.
  assert (Hb : link_busy (fps s5) = false) by by rewrite E5.
  assert (Hqs : armed (fps s5) = true -> lifecycle_epoch (fps s5) = lifecycle_epoch (fps s1) -> queues (fps s5) = queues (fps s)).
  { rewrite E5, E4. cbn. intros Ha Ee.
    transitivity (queues (fps s3)); [done |]. rewrite Hq; [by rewrite E2, E1 | done | by rewrite Ee, E2]. }
  assert (Hyes : forall r, armed (fps s5) = true -> (lifecycle_epoch (fps s5) =? lifecycle_epoch (fps s1)) = true ->
    executed (fps s) r s5) by (intros r Ha Ee; bool_props; split_and!; auto).
  wp_go; [by split_and! | |]; bool_hyps; by apply Hyes.
Qed.

Lemma cl_execute bytes c s : cmd_ok c -> I s -> link_busy (fps s) = false ->
  mwp (nwoas_nvme_fastpath_execute e bytes c) (fun r s' => executed (fps s) r s') s.
Proof.
  intros Hc Hs Hl. unfold nwoas_nvme_fastpath_execute.
  wp_go; try done; by (apply cl_execute_flush || apply cl_link || apply cl_execute_rw).
Qed.
(** *** The service loop *)

Lemma cl_publish dst cid_ st res s : I s -> sq_head (fps s) <> sq_tail (fps s) -> cq_pending (fps s) < cq_size (fps s) - 1 ->
  mwp (publish e dst cid_ st res) (fun _ s' => I s' /\ link_busy (fps s') = link_busy (fps s)) s.
Proof.
  intros Hs Hh Hr. unfold publish. wp_go. apply cl_set; [done | by constructor |]. intros s1 H1 E1.
  wp_go. apply cl_fp. wp_go. apply (cl_call (mem_write e _ _)); [apply fcl_write | done |]. intros _ s2 H2 E2.
  wp_go. apply (cl_call (dma_wmb e)); [apply fcl_wmb | done |]. intros _ s3 H3 E3.
  wp_go. apply (cl_call (mem_store16 e _ _)); [apply fcl_store | done |]. intros _ s4 H4 E4.
  rewrite E3, E2, E1 in E4. apply cl_set; [done | rewrite E4; by constructor |]. intros s5 H5 E5. by rewrite E5, E4.
Qed.

Lemma cl_process_one s : I s -> link_busy (fps s) = false -> sq_head (fps s) <> sq_tail (fps s) ->
  cq_pending (fps s) < cq_size (fps s) - 1 ->
  mwp (process_one e) (fun _ s' => I s' /\ link_busy (fps s') = false) s.
Proof.
  intros Hs Hl Hh Hr. unfold process_one, guest_ptr. wp_go. apply cl_fp. wp_go. apply cl_gets. wp_go. apply cl_gets.
  assert (Hfault : forall s1, I s1 -> link_busy (fps s1) = false ->
    mwp (set_fp fp_fault;; mret false) (fun _ s' => I s' /\ link_busy (fps s') = false) s1).
  { intros s1 H1 Hl1. wp_go. apply cl_set; [done | constructor |]. intros s2 H2 E2. wp_go. by rewrite E2. }
  destruct (nwoas_nvme_guest_ptr e _ 64 s) as [src |]; [| by apply Hfault].
  destruct (nwoas_nvme_guest_ptr e _ 16 s) as [dst |]; [| by apply Hfault].
  wp_go. apply (cl_call (dma_rmb e)); [apply fcl_rmb | done |]. intros _ s1 H1 E1. wp_go. apply mwp_iff.
  pose proof (fcl_read_ok src 64 s1) as Hb. destruct (fcl_read src 64 s1) as (H2 & _ & E2). specialize (H2 H1).
  destruct (mem_read e src 64 s1) as [bytes s2]. cbn [fst snd] in *.
  wp_go. apply (cl_call (cntpct e)); [apply fcl_count | done |]. intros start s3 H3 E3.
  wp_go. apply cl_diag; [done |]. intros s4 H4 E4. rewrite E3, E2, E1 in E4.
  wp_go. eapply mwp_mono; [apply cl_execute; [by apply cmd_of_bytes_ok | done | by rewrite E4] |].
  intros r s5 (H5 & Hl5 & Hq). rewrite E4 in Hq.
  wp_go. apply (cl_call (cntpct e)); [apply fcl_count | done |]. intros stop s6 H6 E6.
  wp_go. apply cl_diag; [done |]. intros s7 H7 E7. rewrite E6 in E7. rewrite <- E7 in Hl5, Hq.
  destruct (Z.eqb_spec r.1 NWOAS_NVME_EXEC_CANCELLED) as [| Hc]; [by wp_go |].
  destruct (r.1 =? NWOAS_NVME_EXEC_FATAL); [by apply Hfault |]. specialize (Hq Hc).
  injection Hq as Qa Qf Qsb Qss Qsh Qst Qcb Qcs Qch Qct Qp Qph Qc Qe Qsg Qcg.
  wp_go. eapply mwp_mono; [apply cl_publish; [done | congruence | by rewrite Qp, Qcs] |].
  intros ? s8 [H8 E8]. wp_go. by rewrite E8.
Qed.

Lemma cl_process_loop n : forall s, I s -> link_busy (fps s) = false ->
  mwp (process_loop e n) (fun _ s' => I s' /\ link_busy (fps s') = false) s.
Proof.
  induction n as [| n IH]; intros s Hs Hl; cbn [process_loop]; [by wp_go |].
  wp_go. apply cl_fp. wp_go; [| done]. bool_hyps. bool_props.
  eapply mwp_mono; [by apply cl_process_one |]. intros go s1 [Hs1 Hl1]. destruct go; [by apply IH | by wp_go].
Qed.

Lemma cl_process n s : D s -> mwp (nwoas_nvme_fastpath_process e n) (fun _ s' => D s') s.
Proof.
  intros Hs. unfold nwoas_nvme_fastpath_process. wp_go. apply cl_fp. wp_go; [done |]. bool_hyps.
  eapply mwp_mono; [apply cl_process_loop; [by apply fcl_settled | done] |]. intros ? s1 [Hs1 Hl1].
  wp_go. apply cl_set; [done | constructor |]. intros s2 Hs2 E2. apply cl_update; [done | by rewrite E2].
Qed.

(** ** The entry points keep [D] *)

Lemma fp_client_poll s : D s -> mwp (nwoas_nvme_fastpath_poll e) (fun _ s' => D s') s.
Proof. intros Hs. unfold nwoas_nvme_fastpath_poll. wp_go. apply cl_fp. wp_go; [by apply cl_process | done]. Qed.

Lemma cl_probe_at va c (Q : Z * Z -> S -> Prop) s : D s -> (forall a s', D s' -> Q a s') ->
  mwp (nwoas_probe_at_el1 e va c) Q s.
Proof.
  intros Hs HQ. unfold nwoas_probe_at_el1. wp_go. apply (cl_callD (at_el1 e va c)); [apply fcl_at | done |].
  intros par s1 H1 _. wp_go. by apply HQ.
Qed.

Lemma cl_probe ctx s : D s -> mwp (nwoas_nvme_probe_cq_map e ctx) (fun _ s' => D s') s.
Proof.
  intros Hs. unfold nwoas_nvme_probe_cq_map. wp_go; [done |]. apply cl_mapD; [done |]. intros s1 H1 _.
  wp_go. apply cl_probe_at; [done |]. intros p s2 H2. wp_go; [done |].
  apply (cl_callD (mem_read e _ _)); [apply fcl_read | done |]. intros b s3 Hs3 _. wp_go; [done |].
  apply cl_probe_at; [done |]. intros q s4 Hs4. wp_go. apply cl_fp. wp_go; [done |].
  apply cl_probe_at; [done |]. intros r s5 Hs5. wp_go. apply cl_fp. wp_go. apply cl_gets. wp_go; [done |].
  apply cl_gets. apply cl_mapD; [done |]. by intros s6 Hs6 _.
Qed.

Lemma cl_mask off val write s : D s -> local_mask_allowed (fps s) = true -> in_w 64 val ->
  mwp (mmio_mask e off val write) (fun _ s' => D s') s.
Proof.
  intros Hs Ha Hv. pose proof (fcl_settled s Hs) as Hi. pose proof (fcl_idle s Hs). unfold mmio_mask. destruct write.
  - wp_go. apply cl_set; [done | |].
    { constructor; [| done]. assert (Hu : in_w 32 (u32 val)) by by apply wrap_range.
      pose proof (fi_mask _ (fcl_inv s Hi)). destruct (off =? 12); [by apply in_w_lor | by apply in_w_land]. }
    intros s1 H1 E1. wp_go. apply cl_diag; [done |]. intros s2 H2 E2. wp_go.
    eapply mwp_mono; [apply cl_update; [done | by rewrite E2, E1] |]. intros. by wp_go.
  - wp_go. apply cl_fp. wp_go. apply cl_diagD; [done |]. intros s1 H1 _. by wp_go.
Qed.

Lemma cl_sq_tail val s : D s -> in_w 64 val -> mwp (mmio_sq_tail e val) (fun _ s' => D s') s.
Proof.
  intros Hs Hv. pose proof (fcl_inv s (fcl_settled s Hs)) as Hi. unfold mmio_sq_tail. wp_go. apply cl_fp.
  destruct (Z.ltb_spec val (sq_size (fps s))) as [Hlt | _].
  - assert (Ht : u16 val = val) by (apply wrap_small; destruct (fi_sq _ Hi); unfold in_w in *; lia).
    wp_go. rewrite Ht. apply cl_setD; [done | | done |].
    { constructor. unfold in_w in Hv. lia. }
    intros s1 H1 E1. wp_go. apply cl_diagD; [done |]. intros s2 H2 E2. by apply cl_process.
  - apply cl_setD; [done | constructor | done |]. by intros s1 H1 E1.
Qed.

Lemma cl_cq_head ctx val s : D s -> in_w 64 val ->
  mwp (mmio_cq_head e ctx val) (fun _ s' => D s') s.
Proof.
  intros Hs Hv. unfold mmio_cq_head. wp_go. eapply mwp_mono; [by apply cl_probe |]. intros ? s1 H1.
  wp_go. apply cl_diagD; [done |]. intros s2 H2 E2. wp_go. apply cl_fp.
  assert (Herr : mwp (set_fp fp_error) (fun _ s' => D s') s2).
  { apply cl_setD; [done | constructor | done |]. by intros s3 H3 E3. }
  pose proof (fcl_inv s2 (fcl_settled s2 H2)) as Hi.
  destruct (Z.ltb_spec val (cq_size (fps s2))) as [Hlt | _]; [| done].
  assert (Ht : u16 val = val) by (apply wrap_small; destruct (fi_cq _ Hi); unfold in_w in *; lia).
  rewrite Ht. wp_go; [| done]. bool_props. apply cl_set; [by apply fcl_settled | |].
  { constructor; [unfold in_w in Hv; lia | done]. }
  intros s3 H3 E3. apply cl_update; [done |]. rewrite E3. exact (fcl_idle s2 H2).
Qed.


Lemma fp_client_mmio open ctx ipa_ val write width s : D s -> in_w 64 val ->
  mwp (mmio_open e open ctx ipa_ val write width) (fun _ s' => D s') s.
Proof.
  intros Hs Hv. unfold mmio_open. wp_go. apply cl_fp.
  wp_go; try done; bool_hyps.
  - eapply mwp_mono; [by apply cl_mask |]. intros. by wp_go.
  - eapply mwp_mono; [by apply cl_sq_tail |]. intros. by wp_go.
  - eapply mwp_mono; [by apply cl_cq_head |]. intros. by wp_go.
Qed.
End client.
