(* ===== verification/Adapter.v ===== *)
(** * The hypervisor's NVMe controller ([native-s230/adapter.inc], [prepare.py])

    The adapter puts the frontend ([Frontend]: registers, admin queues) and the fast
    path ([FastPath]: I/O queues) together into the controller the guest sees.  It
    gives the frontend its hooks, which act on the state of the fast path, and
    replaces the fast path's interrupt update by a report to the frontend.  All run
    on one store that holds the two states and the adapter's own variables.

    The two call each other: a hook may disarm or arm the fast path, whose update
    would call the frontend again.  The code breaks the cycle with the flag
    [s229_owner_callback], set while a hook calls the fast path; here the hooks are
    built with a fast path whose update does nothing ([local_env]), the entry points
    with one whose update calls the frontend ([owner_env]).  [s229_enabled] is constant
    while the frontend runs, so the table of hooks is a function of it. *)

From S2P Require Import Prelude AdminPayload AdminState AdminRing NvmeControl Frontend FastPath FastPathClient.

(** [s229_enabled], [s229_cache], the counters and the generations; [s229_history]
    is a ghost variable: the memory operations done for the admin ring, which
    nothing reads. *)
Record s229 := mk_s229 {
  s229_enabled : bool;
  s229_cache : bool;
  s229_reg_reads : Z;
  s229_reg_writes : Z;
  s229_admin_fetches : Z;
  s229_admin_completions : Z;
  s229_sq_generation : Z;
  s229_cq_generation : Z;
  s229_history : list ring_event;
}.
#[export] Instance s229_eta : Eta s229 := fun a =>
  mk_s229 (s229_enabled a) (s229_cache a) (s229_reg_reads a) (s229_reg_writes a) (s229_admin_fetches a)
    (s229_admin_completions a) (s229_sq_generation a) (s229_cq_generation a) (s229_history a).

Definition s229_zero : s229 := mk_s229 false true 0 0 0 0 0 0 [].

(** The machine: what the fast path uses, the frontend's page lookup and the host's
    half of the interrupt line. *)
Record machine (S : Type) := {
  m_env : fp_env S;
  nvme_guest_page_pa : Z -> S -> Z;
  nwoas_nvme_set_irq : bool -> M S unit;
}.
#[global] Arguments m_env {S} _. #[global] Arguments nvme_guest_page_pa {S} _.
#[global] Arguments nwoas_nvme_set_irq {S} _.

(** The same machine with another interrupt update. *)
Definition with_irq {S} (e : fp_env S) (irq : bool -> M S unit) : fp_env S := {|
  hv_pt_walk := hv_pt_walk e; vaddr_bits := vaddr_bits e; ram_base := ram_base e;
  mem_size_actual := mem_size_actual e; mem_read := mem_read e; mem_write := mem_write e;
  mem_store16 := mem_store16 e; dma_rmb := dma_rmb e; dma_wmb := dma_wmb e; cntpct := cntpct e;
  at_el1 := at_el1 e; nvme_rw_guest := nvme_rw_guest e; nvme_flush := nvme_flush e;
  hv_exc_proxy := hv_exc_proxy e; LINK_MAGIC := LINK_MAGIC e; LINK_VERSION := LINK_VERSION e;
  LINK_SIZE := LINK_SIZE e; LINK_DONE := LINK_DONE e; set_fast_irq := irq;
|}.

Section adapter.
Context {S : Type} `{L : !Lens S nwoas_frontend} `{F : !Lens S nvme_fp} `{G : !Lens S nvme_diag}
  `{H : !Lens S nvme_cq_map} `{A : !Lens S s229} (m : machine S).

Definition front : M S nwoas_frontend := lgets id.
Definition owner : M S s229 := lgets id.
Definition set_owner (f : s229 -> s229) : M S unit := lmodify f.
Definition note (ev : ring_event) : M S unit := set_owner (fun a => a <| s229_history := s229_history a ++ [ev] |>).

(** ** The hooks of the frontend *)

(** [enabled] is the value of [s229_enabled] during the call. *)
Definition local_env (enabled : bool) : fp_env S :=
  with_irq (m_env m) (fun level => if enabled then mret tt else set_fast_irq (m_env m) level).

Definition s229_control_local (enabled : bool) (action sq ns cq nc flags : Z) : M S Z :=
  nwoas_nvme_fastpath_control (local_env enabled) action sq ns cq nc flags.

Definition page_of (address : Z) : Z := address .& cnot 64 0xfff.
(** The bytes from [address] to the end of its page, at most [bytes]. *)
Definition page_count (address bytes : Z) : Z :=
  let count := 0x1000 - (address .& 0xfff) in if bytes <? count then bytes else count.

Fixpoint contains_loop (fuel : nat) (address bytes : Z) (s : S) : bool :=
  match fuel with
  | O => false
  | Datatypes.S fuel =>
      if negb (truthy bytes) then true
      else
        let page := page_of address in
        let pa := nvme_guest_page_pa m page s in
        let count := page_count address bytes in
        if negb (truthy pa) || negb (nwoas_ipa_to_pa (m_env m) page s =? pa) ||
           negb (nwoas_in_dram (m_env m) pa 0x1000) then false
        else contains_loop fuel (u64 (address + count)) (bytes - count) s
  end.

(** A range of [bytes] bytes touches at most this many pages; one more turn ends
    the loop. *)
Definition page_fuel (bytes : Z) : nat := Z.to_nat (bytes / 0x1000 + 3).

Definition contained (address bytes : Z) (s : S) : bool :=
  if negb (truthy bytes) || (UINT64_MAX - bytes <? address) then false
  else contains_loop (page_fuel bytes) address bytes s.

Definition s229_contains (address bytes : Z) : M S bool := gets (contained address bytes).

(** The physical address of a byte of a contained range. *)
Definition byte_pa (address : Z) (s : S) : Z := u64 (nvme_guest_page_pa m (page_of address) s + (address .& 0xfff)).

Fixpoint read_loop (fuel : nat) (address bytes : Z) : M S (list Z) :=
  match fuel with
  | O => mret []
  | Datatypes.S fuel =>
      if negb (truthy bytes) then mret []
      else
        let n := page_count address bytes in
        pa ← gets (byte_pa address);
        out ← mem_read (m_env m) pa n;
        rest ← read_loop fuel (u64 (address + n)) (bytes - n);
        mret (out ++ rest)
  end.

(** A refused read leaves its destination, the ring's command buffer, as it is. *)
Definition s229_read (address bytes : Z) : M S (bool * list Z) :=
  ok ← s229_contains address bytes;
  if negb ok then f ← front; mret (false, r_command (ring f))
  else
    out ← read_loop (page_fuel bytes) address bytes;
    set_owner (fun a => a <| s229_admin_fetches := u64 (s229_admin_fetches a + 1) |>);;
    mret (true, out).

Fixpoint write_loop (fuel : nat) (address : Z) (bs : list Z) : M S unit :=
  match fuel with
  | O => mret tt
  | Datatypes.S fuel =>
      let bytes := zlen bs in
      if negb (truthy bytes) then mret tt
      else
        let n := page_count address bytes in
        pa ← gets (byte_pa address);
        mem_write (m_env m) pa (ztake n bs);;
        write_loop fuel (u64 (address + n)) (zdrop n bs)
  end.

(** The address of the status word of the admin completion entry being written. *)
Definition status_address (r : nwoas_admin_ring) : Z := u64 (AdminRing.cq_base r + AdminRing.cq_tail r * 16 + 14).

Definition s229_write (address : Z) (bs : list Z) : M S bool :=
  ok ← s229_contains address (zlen bs);
  if negb ok then note (EvFailed address);; mret false
  else
    f ← front;
    (if (zlen bs =? 2) && (address =? status_address (ring f)) then
       pa ← gets (byte_pa address);
       mem_store16 (m_env m) pa (byte_at bs 0 .| (byte_at bs 1 .<< 8));;
       set_owner (fun a => a <| s229_admin_completions := u64 (s229_admin_completions a + 1) |>)
     else write_loop (page_fuel (zlen bs)) address bs);;
    note (AdminRing.EvWrite address bs);;
    mret true.

Definition s229_barrier : M S unit := dma_wmb (m_env m);; note EvBarrier.

(** The controller has failed. *)
Definition failed (f : nwoas_frontend) : bool := truthy (csts (control f) .& 2) || backend_fault f.
Definition irq_allowed (f : nwoas_frontend) (ien : bool) : bool := ien && negb (truthy (command (control f) .& 0x400)).

(** The policy the frontend imposes on the fast path. *)
Definition take_policy (f : nwoas_frontend) (cache : bool) (p : nvme_fp) : nvme_fp :=
  mk_fp (armed p && negb (failed f)) (faulted p) (deferred p && negb (failed f))
    (irq_allowed f (q_ien (cq (admin (ring f))))) cache (link_busy p) false (NvmeControl.mask (control f))
    (FastPath.sq_base p) (FastPath.cq_base p) (FastPath.sq_size p) (FastPath.cq_size p) (FastPath.sq_head p)
    (FastPath.sq_tail p) (FastPath.cq_head p) (FastPath.cq_tail p) (cq_pending p) (cq_phase p) (commands p) (errors p)
    (link_sequence p) (lifecycle_epoch p) (FastPath.sq_generation p) (FastPath.cq_generation p).

Definition s229_irq (level : bool) : M S unit :=
  f ← front;
  a ← owner;
  set_fp (take_policy f (s229_cache a));;
  set_fast_irq (m_env m) (level && negb (failed f)).

(** All cursors of both queues as after a reset. *)
Definition clear_queues (p : nvme_fp) : nvme_fp :=
  mk_fp (armed p) (faulted p) (deferred p) (irq_enabled p) (cache_enabled p) (link_busy p) (local_mask_allowed p)
    (FastPath.mask p) 0 0 0 0 0 0 0 0 0 1 (commands p) (errors p) (link_sequence p) (lifecycle_epoch p)
    (FastPath.sq_generation p) (FastPath.cq_generation p).

Definition s229_reset_io (enabled : bool) : M S bool :=
  p ← fp;
  if link_busy p || faulted p then mret false
  else
    s229_control_local enabled 0 0 0 0 0 0;;
    set_fp clear_queues;;
    mret true.

Definition flush_fault (p : nvme_fp) : nvme_fp := (p <| faulted := true |>) <| errors := u32 (errors p + 1) |>.

Definition s229_flush : M S bool :=
  p ← fp;
  ok ← (if link_busy p || faulted p then mret false else nvme_flush (m_env m) 1);
  if negb ok then set_fp flush_fault;; mret false else mret true.

Definition s229_set_cache (value : bool) : M S Z :=
  a ← owner;
  ok ← (if s229_cache a && negb value then s229_flush else mret true);
  if negb ok then mret (-1)
  else set_owner (fun a => a <| s229_cache := value |>);; mret 1.

Definition s229_get_cache : M S Z := a ← owner; mret (b2z (s229_cache a)).

(** The descriptors of the new queues; a queue of a new generation starts empty. *)
Definition take_queues (st : nwoas_admin_state) (sq_changed cq_changed : bool) (p : nvme_fp) : nvme_fp :=
  mk_fp (armed p) (faulted p) (deferred p) (irq_enabled p) (cache_enabled p) (link_busy p) (local_mask_allowed p)
    (FastPath.mask p) (q_base (sq st)) (q_base (cq st)) (q_depth (sq st)) (q_depth (cq st))
    (if sq_changed then 0 else FastPath.sq_head p) (if sq_changed then 0 else FastPath.sq_tail p)
    (if cq_changed then 0 else FastPath.cq_head p) (if cq_changed then 0 else FastPath.cq_tail p)
    (if cq_changed then 0 else cq_pending p) (if cq_changed then 1 else cq_phase p)
    (commands p) (errors p) (link_sequence p) (lifecycle_epoch p)
    (AdminState.sq_generation st .& 0xfff) (AdminState.cq_generation st .& 0xfff).

Definition arm_flags (f : nwoas_frontend) (cache : bool) (st : nwoas_admin_state) : Z :=
  (u64 (NvmeControl.mask (control f) .<< 32)) .| ((AdminState.cq_generation st .& 0xfff) .<< 20) .|
  ((AdminState.sq_generation st .& 0xfff) .<< 8) .| (if irq_allowed f (q_ien (cq st)) then 2 else 0) .|
  (if cache then 4 else 0) .| 1.

Definition s229_reconcile (enabled : bool) (st : nwoas_admin_state) (changed : Z) : M S bool :=
  p ← fp;
  if link_busy p || faulted p then mret false
  else
    a ← owner;
    let sq_changed := negb (s229_sq_generation a =? AdminState.sq_generation st) in
    let cq_changed := negb (s229_cq_generation a =? AdminState.cq_generation st) in
    (if sq_changed || cq_changed then s229_control_local enabled 0 0 0 0 0 0;; mret tt else mret tt);;
    set_owner (fun a => (a <| s229_sq_generation := AdminState.sq_generation st |>)
                          <| s229_cq_generation := AdminState.cq_generation st |>);;
    set_fp (take_queues st sq_changed cq_changed);;
    f ← front;
    p ← fp;
    if q_present (sq st) && q_present (cq st) && negb (truthy ((cc (control f) .>> 14) .& 3)) && negb (armed p) then
      ok ← s229_control_local enabled 1 (q_base (sq st)) (q_depth (sq st)) (q_base (cq st)) (q_depth (cq st))
             (arm_flags f (s229_cache a) st);
      mret (truthy ok)
    else mret true.

(** The table that [s229_enable] gives to the frontend. *)
Definition s229_ops (enabled : bool) : frontend_env S := {|
  o_contains := s229_contains; o_read := s229_read; o_write := s229_write; o_barrier := s229_barrier;
  o_reconcile := s229_reconcile enabled; o_reset_io := s229_reset_io enabled; o_flush := s229_flush;
  o_set_cache := Some s229_set_cache; o_get_cache := Some s229_get_cache; o_irq := s229_irq;
|}.

Definition s229_table (enabled : bool) : nwoas_frontend_ops S :=
  let o := s229_ops enabled in {|
  fo_contains := Some (o_contains o); fo_read := Some (o_read o); fo_write := Some (o_write o);
  fo_barrier := Some (o_barrier o); fo_reconcile := Some (o_reconcile o); fo_reset_io := Some (o_reset_io o);
  fo_flush := Some (o_flush o); fo_set_cache := o_set_cache o; fo_get_cache := o_get_cache o;
  fo_irq := Some (o_irq o);
|}.

(** ** The entry points *)

Definition s229_policy (link_lbas mdts : Z) : nwoas_identity_policy :=
  mk_policy NWOAS_NVME_NAMESPACE_LBAS link_lbas (u8 mdts) true false true.

Definition s229_enable (link_lbas mdts : Z) : M S bool :=
  a ← owner;
  p ← fp;
  if s229_enabled a || armed p || faulted p || (8 <? mdts) || negb (truthy link_lbas) then mret false
  else
    set_owner (fun a => a <| s229_cache := true |>);;
    r ← nwoas_frontend_init true NWOAS_NVME_BAR (s229_table false) (s229_policy link_lbas mdts);
    if negb r.2 then mret false
    else
      set_owner (fun a => a <| s229_enabled := true |>);;
      nwoas_nvme_set_irq m false;;
      mret true.

(** [s229_fast_irq_update], and the rest of [nwoas_nvme_fastpath_update_irq] when it
    declines. *)
Definition s229_fast_irq_update (level : bool) : M S unit :=
  a ← owner;
  if negb (s229_enabled a) then set_fast_irq (m_env m) level
  else
    p ← fp;
    (if faulted p then nwoas_frontend_fault (s229_ops true) else mret tt);;
    p ← fp;
    nwoas_frontend_io_pending (s229_ops true) (truthy (cq_pending p)).

(** The fast path with the adapter in place. *)
Definition owner_env : fp_env S := with_irq (m_env m) s229_fast_irq_update.

Definition s229_poll : M S unit :=
  a ← owner;
  if s229_enabled a then nwoas_frontend_poll (s229_ops true) 1;; mret tt else mret tt.

Definition poll : M S unit := s229_poll;; nwoas_nvme_fastpath_poll owner_env.

Definition s229_control (action sq ns cq nc flags : Z) : M S Z :=
  a ← owner;
  f ← front;
  if action =? 23 then mret 0x5332333000000001
  else if action =? 16 then ok ← s229_enable sq ns; mret (b2z ok)
  else if action =? 17 then mret 0x5332323900000001
  else if action =? 18 then mret (s229_reg_reads a)
  else if action =? 19 then mret (s229_reg_writes a)
  else if action =? 20 then mret (s229_admin_fetches a)
  else if action =? 21 then mret (s229_admin_completions a)
  else if action =? 22 then mret (csts (control f) .| (b2z (backend_fault f) .<< 32))
  else nwoas_nvme_fastpath_control owner_env action sq ns cq nc flags.

Definition PCI_BASE : Z := 0x700000000.
Definition PCI_END : Z := 0x700100000.

Definition frontend_fault : M S unit := nwoas_frontend_fault (s229_ops true).

(** A write to an I/O doorbell: whether it ends here. *)
Definition io_doorbell (offset value : Z) : M S bool :=
  f ← front;
  p ← fp;
  if negb (truthy (csts (control f) .& 1)) || failed f then mret true
  else if offset =? 0x1008 then
    if truthy (csts (control f) .& 12) || truthy ((cc (control f) .>> 14) .& 3) then mret true
    else if negb (q_present (sq (admin (ring f)))) || (FastPath.sq_size p <=? value) then frontend_fault;; mret true
    else mret false
  else
    if negb (q_present (cq (admin (ring f)))) || (FastPath.cq_size p <=? value) ||
       (cq_pending p <? u64 (value + FastPath.cq_size p - FastPath.cq_head p) mod FastPath.cq_size p)
    then frontend_fault;; mret true
    else mret false.

(** Whether the access was handled, and [*value]. *)
Definition s229_mmio (ipa value : Z) (write : bool) (width : Z) : M S (bool * Z) :=
  a ← owner;
  if negb (s229_enabled a) then mret (false, value)
  else
    let pci := (PCI_BASE <=? ipa) && (ipa <? PCI_END) in
    if negb pci && ((ipa <? NWOAS_NVME_BAR) || (u64 (NWOAS_NVME_BAR + NWOAS_NVME_BAR_SIZE) <=? ipa)) then
      mret (false, value)
    else if 3 <? width then frontend_fault;; mret (true, if write then value else 0)
    else
      let offset := u32 (ipa - (if pci then PCI_BASE else NWOAS_NVME_BAR)) in
      let bits := u32 (8 .<< width) in
      set_owner (fun a => if write then a <| s229_reg_writes := u64 (s229_reg_writes a + 1) |>
                          else a <| s229_reg_reads := u64 (s229_reg_reads a + 1) |>);;
      if pci && (4096 <=? offset) then
        mret (true, if write then value else if width =? 3 then UINT64_MAX else u64 ((1 .<< bits) - 1))
      else if negb pci && write && (width =? 2) && ((offset =? 0x1008) || (offset =? 0x100c)) then
        ends ← io_doorbell offset value;
        mret (ends, value)
      else
        (if negb pci && write && (offset =? 0x14) && (negb (truthy (value .& 1)) || truthy ((value .>> 14) .& 3))
         then s229_control_local true 0 0 0 0 0 0;; mret tt else mret tt);;
        if write then nwoas_frontend_write (s229_ops true) pci offset bits value;; mret (true, value)
        else
          r ← nwoas_frontend_read pci offset bits (Some value);
          mret (true, default value r.2).

Definition s229_cq_ack_unarmed (ipa : Z) : M S bool :=
  a ← owner;
  f ← front;
  mret (s229_enabled a && q_present (cq (admin (ring f))) && (ipa =? NWOAS_NVME_BAR + 0x100c)).

(** [nwoas_nvme_fastpath_mmio] with the adapter in place. *)
Definition mmio (ctx : exc_info) (ipa value : Z) (write : bool) (width : Z) : M S (bool * Z) :=
  r ← s229_mmio ipa value write width;
  if r.1 : bool then mret r
  else
    p ← fp;
    ack ← s229_cq_ack_unarmed ipa;
    r ← mmio_open owner_env (armed p || ack) ctx ipa value write width;
    mret (r.1, default value r.2).
End adapter.
