(* ===== verification/AdapterProof.v ===== *)
(** * The controller as a whole

    [Adapter] joins the frontend and the fast path; here their invariants are joined.
    The adapter's hooks meet [FrontendOwner], its fast path meets [FpClient]; so every
    entry point keeps the invariants of both, and the coupling between them. *)

From S2P Require Import Prelude AdminPayload AdminState AdminRing NvmeControl Frontend FrontendClient.
From S2P Require Import FastPath FastPathClient Adapter.

(** ** What is observed of the machine *)

Record obs := mk_obs {
  ob_fe : nwoas_frontend;
  ob_fp : nvme_fp;
  ob_own : s229;
  ob_line : bool;  (** the controller's interrupt line *)
  ob_devs : list dev_cmd;  (** the commands given to the physical controller *)
}.
Definition with_fe (f : nwoas_frontend) (v : obs) := mk_obs f (ob_fp v) (ob_own v) (ob_line v) (ob_devs v).
Definition with_fp (p : nvme_fp) (v : obs) := mk_obs (ob_fe v) p (ob_own v) (ob_line v) (ob_devs v).
Definition with_own (a : s229) (v : obs) := mk_obs (ob_fe v) (ob_fp v) a (ob_line v) (ob_devs v).
Definition with_line (b : bool) (v : obs) := mk_obs (ob_fe v) (ob_fp v) (ob_own v) b (ob_devs v).
Definition with_dev (d : dev_cmd) (v : obs) := mk_obs (ob_fe v) (ob_fp v) (ob_own v) (ob_line v) (ob_devs v ++ [d]).

(** A use of the host's control interface. *)
Record host_call := mk_call { hc_action : Z; hc_sq : Z; hc_ns : Z; hc_cq : Z; hc_nc : Z; hc_flags : Z }.

Section machine.
Context {S : Type} `{L : !Lens S nwoas_frontend} `{F : !Lens S nvme_fp} `{G : !Lens S nvme_diag}
  `{H : !Lens S nvme_cq_map} `{A : !Lens S s229} (m : machine S).

Definition host_control (c : host_call) (s : S) : S :=
  (s229_control m (hc_action c) (hc_sq c) (hc_ns c) (hc_cq c) (hc_nc c) (hc_flags c) s).2.
Definition host_controls (cs : list host_call) (s : S) : S := foldl (fun s c => host_control c s) s cs.

(** Every call, with flags of the width of C's type, but those that succeed in arming
    the fast path by hand (action 1), for whatever queues the host names. *)
Definition host_result (c : host_call) (s : S) : Z :=
  (s229_control m (hc_action c) (hc_sq c) (hc_ns c) (hc_cq c) (hc_nc c) (hc_flags c) s).1.
Definition call_ok (c : host_call) (s : S) : Prop :=
  in_w 64 (hc_flags c) /\ (hc_action c = 1 -> host_result c s = 0).
Fixpoint calls_ok (cs : list host_call) (s : S) : Prop :=
  match cs with
  | [] => True
  | c :: cs => call_ok c s /\ calls_ok cs (host_control c s)
  end.

(** Each part of the store is its own; the machine's calls touch the line and the
    controller only.  During the link call the host may use the control interface,
    short of arming the fast path. *)
Class Machine (view : S -> obs) : Prop := {
  mv_fe s : ob_fe (view s) = lget s;
  mv_fp s : ob_fp (view s) = lget s;
  mv_own s : ob_own (view s) = lget s;
  mv_set_fe (f : nwoas_frontend) s : view (lset f s) = with_fe f (view s);
  mv_set_fp (p : nvme_fp) s : view (lset p s) = with_fp p (view s);
  mv_set_own (a : s229) s : view (lset a s) = with_own a (view s);
  mv_diag (d : nvme_diag) s : view (lset d s) = view s;
  mv_cq_map (c : nvme_cq_map) s : view (lset c s) = view s;
  mv_read pa n : keeps view (mem_read (m_env m) pa n);
  mv_read_ok pa n s : bytes_ok (mem_read (m_env m) pa n s).1 /\ (0 <= n -> zlen (mem_read (m_env m) pa n s).1 = n);
  mv_write pa bs : keeps view (mem_write (m_env m) pa bs);
  mv_store pa v : keeps view (mem_store16 (m_env m) pa v);
  mv_wmb : keeps view (dma_wmb (m_env m));
  mv_rmb : keeps view (dma_rmb (m_env m));
  mv_count : keeps view (cntpct (m_env m));
  mv_at va c : keeps view (at_el1 (m_env m) va c);
  mv_rw w lba n p q s : view (nvme_rw_guest (m_env m) w lba n p q s).2 = with_dev (DevRW w lba n) (view s);
  mv_flush n s : view (nvme_flush (m_env m) n s).2 = with_dev DevFlush (view s);
  mv_irq b s : view (set_fast_irq (m_env m) b s).2 = with_line b (view s);
  mv_set_irq b : keeps view (nwoas_nvme_set_irq m b);
  mv_link r s : exists cs, calls_ok cs s /\
    view (hv_exc_proxy (m_env m) r s).2 = view (host_controls cs s);
}.

Context (view : S -> obs) `{!Machine view}.

(** *** Rules *)

Lemma vw_front (Q : nwoas_frontend -> S -> Prop) s : Q (ob_fe (view s)) s -> mwp front Q s.
Proof. rewrite mv_fe. intros HQ. by apply mwp_iff. Qed.
Lemma vw_fp (Q : nvme_fp -> S -> Prop) s : Q (ob_fp (view s)) s -> mwp fp Q s.
Proof. rewrite mv_fp. intros HQ. by apply mwp_iff. Qed.
Lemma vw_owner (Q : s229 -> S -> Prop) s : Q (ob_own (view s)) s -> mwp owner Q s.
Proof. rewrite mv_own. intros HQ. by apply mwp_iff. Qed.
Lemma vw_set_fp f (Q : unit -> S -> Prop) s :
  (forall s', view s' = with_fp (f (ob_fp (view s))) (view s) -> Q tt s') -> mwp (set_fp f) Q s.
Proof. intros HQ. apply mwp_iff, HQ. cbn. by rewrite mv_set_fp, mv_fp. Qed.
Lemma vw_set_owner f (Q : unit -> S -> Prop) s :
  (forall s', view s' = with_own (f (ob_own (view s))) (view s) -> Q tt s') -> mwp (set_owner f) Q s.
Proof. intros HQ. apply mwp_iff, HQ. cbn. by rewrite mv_set_own, mv_own. Qed.
Lemma vw_keep {T} (c : M S T) (Q : T -> S -> Prop) s : keeps view c ->
  (forall a s', view s' = view s -> Q a s') -> mwp c Q s.
Proof. intros Hc HQ. apply mwp_iff, HQ, Hc. Qed.
Lemma vw_gets {T} (f : S -> T) (Q : T -> S -> Prop) s : Q (f s) s -> mwp (gets f) Q s.
Proof. intros HQ. by apply mwp_iff. Qed.
Lemma vw_irq b (Q : unit -> S -> Prop) s : (forall s', view s' = with_line b (view s) -> Q tt s') ->
  mwp (set_fast_irq (m_env m) b) Q s.
Proof. intros HQ. apply mwp_iff. destruct (set_fast_irq (m_env m) b s) as [[] s'] eqn:E. apply HQ.
  pose proof (mv_irq b s) as H1. by rewrite E in H1. Qed.

(** ** The hooks *)

(** A hook that at most counts, records or sets the cache policy. *)
Definition silent (v w : obs) : Prop :=
  ob_fe w = ob_fe v /\ ob_fp w = ob_fp v /\ ob_line w = ob_line v /\ ob_devs w = ob_devs v /\
  s229_enabled (ob_own w) = s229_enabled (ob_own v) /\
  s229_sq_generation (ob_own w) = s229_sq_generation (ob_own v) /\
  s229_cq_generation (ob_own w) = s229_cq_generation (ob_own v).

Lemma silent_refl v : silent v v. Proof. done. Qed.
Lemma silent_trans u v w : silent u v -> silent v w -> silent u w.
Proof. intros (? & ? & ? & ? & ? & ? & ?) (? & ? & ? & ? & ? & ? & ?). unfold silent. split_and!; congruence. Qed.

Lemma low12 a : a .& 0xfff = a mod 4096.
Proof. apply (land_ones_mod 12). lia. Qed.

Lemma page_count_range a n : 1 <= n -> 1 <= page_count a n <= n.
Proof.
  intros Hn. unfold page_count. rewrite low12. pose proof (Z.mod_pos_bound a 4096 ltac:(lia)).
  destruct (Z.ltb_spec n (0x1000 - a mod 4096)); lia.
Qed.

(** After a chunk that does not end the range the address is at a page. *)
Lemma page_count_next a n : page_count a n < n -> u64 (a + page_count a n) mod 4096 = 0.
Proof.
  unfold page_count. rewrite low12. destruct (Z.ltb_spec n (0x1000 - a mod 4096)); [lia |]. intros _.
  unfold wrap. change (2 ^ 64) with 18446744073709551616. dlia.
Qed.

(** A read of a range ends, and gives its length.  After the first chunk every chunk
    starts at a page. *)
Lemma read_chunk (loop : Z -> Z -> M S (list Z)) a n s : 0 < n ->
  (forall s1, let c := page_count a n in n - c = 0 \/ u64 (a + c) mod 4096 = 0 ->
    mwp (loop (u64 (a + c)) (n - c)) (fun out s' => view s' = view s1 /\ zlen out = n - c /\ bytes_ok out) s1) ->
  mwp (let c := page_count a n in pa ← gets (byte_pa m a); out ← mem_read (m_env m) pa c;
       rest ← loop (u64 (a + c)) (n - c); mret (out ++ rest))
    (fun out s' => view s' = view s /\ zlen out = n /\ bytes_ok out) s.
Proof.
  intros Hn Hl. cbv zeta. wp_go. apply vw_gets. wp_go. apply mwp_iff. pose proof (page_count_range a n ltac:(lia)) as Hp.
  pose proof (mv_read (byte_pa m a s) (page_count a n) s) as Ev.
  destruct (mv_read_ok (byte_pa m a s) (page_count a n) s) as [Hb Hz].
  destruct (mem_read (m_env m) _ _ s) as [out s1]. cbn [fst snd] in *. wp_go.
  eapply mwp_mono; [apply Hl |].
  - destruct (Z.eq_dec (page_count a n) n); [left; lia | right; apply page_count_next; lia].
  - intros rest s2 (E2 & Hz2 & Hb2). wp_go. rewrite zlen_app, Hz, Hz2 by lia. split; [congruence |].
    split; [lia |]. by apply bytes_ok_app.
Qed.

Lemma read_pages fuel : forall a n s, 0 <= n -> n = 0 \/ a mod 4096 = 0 -> n <= 4096 * (Z.of_nat fuel - 1) ->
  mwp (read_loop m fuel a n) (fun out s' => view s' = view s /\ zlen out = n /\ bytes_ok out) s.
Proof.
  induction fuel as [| fuel IH]; intros a n s Hn Ha Hf; [lia |]. cbn [read_loop].
  destruct (truthy n) eqn:En; bool_props; cbn [negb].
  - apply read_chunk; [lia |]. cbv zeta. intros s1 H1. pose proof (page_count_range a n ltac:(lia)) as Hp.
    apply IH; [lia | done |]. unfold page_count in *. rewrite low12 in *. destruct (Z.ltb_spec n (0x1000 - a mod 4096)); lia.
  - wp_go. subst. split_and!; auto with words.
Qed.

Lemma read_range a n s : 0 <= n ->
  mwp (read_loop m (page_fuel n) a n) (fun out s' => view s' = view s /\ zlen out = n /\ bytes_ok out) s.
Proof.
  intros Hn. unfold page_fuel. assert (Hd : 0 <= n / 0x1000 /\ n < 0x1000 * (n / 0x1000) + 0x1000) by dlia.
  replace (Z.to_nat (n / 0x1000 + 3)) with (Datatypes.S (Z.to_nat (n / 0x1000 + 2))) by lia. cbn [read_loop].
  destruct (truthy n) eqn:En; bool_props; cbn [negb].
  - apply read_chunk; [lia |]. cbv zeta. intros s1 H1. pose proof (page_count_range a n ltac:(lia)) as Hp.
    apply read_pages; [lia | done | lia].
  - wp_go. subst. split_and!; auto with words.
Qed.

Lemma write_loop_spec fuel : forall a bs, keeps view (write_loop m fuel a bs).
Proof.
  induction fuel as [| fuel IH]; intros a bs; [done |]. apply keeps_mwp. intros s. cbn [write_loop]. wp_go; [done |].
  apply vw_gets. wp_go. apply vw_keep; [apply mv_write |]. intros _ s1 E1. rewrite <- E1. apply mwp_iff, IH.
Qed.

Lemma contains_spec a n (Q : bool -> S -> Prop) s : Q (contained m a n s) s -> mwp (s229_contains m a n) Q s.
Proof. apply vw_gets. Qed.

Lemma read_loop_keeps fuel : forall a n, keeps view (read_loop m fuel a n).
Proof.
  induction fuel as [| fuel IH]; intros a n; [done |]. apply keeps_mwp. intros s. cbn [read_loop]. wp_go; [done |].
  apply vw_gets. wp_go. apply vw_keep; [apply mv_read |]. intros out s1 E1. wp_go. apply vw_keep; [apply IH |].
  intros rest s2 E2. wp_go. congruence.
Qed.

Lemma hook_read a n s :
  mwp (s229_read m a n) (fun r s' => silent (view s) (view s') /\ s229_history (ob_own (view s')) = s229_history (ob_own (view s)) /\
    (0 <= n -> r.1 = true -> zlen r.2 = n /\ bytes_ok r.2)) s.
Proof.
  unfold s229_read. wp_go. apply contains_spec. wp_go; [apply vw_front; by wp_go |].
  assert (Hr : mwp (read_loop m (page_fuel n) a n) (fun out s' => view s' = view s /\ (0 <= n -> zlen out = n /\ bytes_ok out)) s).
  { destruct (Z.lt_ge_cases n 0) as [Hneg | Hn].
    - apply vw_keep; [apply read_loop_keeps |]. intros out s' E. split; [done | lia].
    - eapply mwp_mono; [by apply read_range |]. intros out s' (E & Hz). auto. }
  eapply mwp_mono; [exact Hr |]. intros out s1 (E1 & Hz). wp_go. apply vw_set_owner. intros s2 E2.
  rewrite E1 in E2. wp_go. rewrite E2. split_and!; auto. done.
Qed.

Lemma note_spec ev s : mwp (note ev) (fun _ s' => silent (view s) (view s') /\
  s229_history (ob_own (view s')) = s229_history (ob_own (view s)) ++ [ev]) s.
Proof. apply vw_set_owner. intros s' E. rewrite E. by split. Qed.

Lemma hook_write a bs s :
  mwp (s229_write m a bs) (fun ok s' => silent (view s) (view s') /\
    s229_history (ob_own (view s')) = s229_history (ob_own (view s)) ++
      [if ok then AdminRing.EvWrite a bs else EvFailed a]) s.
Proof.
  unfold s229_write. wp_go. apply contains_spec. wp_go.
  { eapply mwp_mono; [apply note_spec |]. intros ? s1 H1. by wp_go. }
  apply vw_front. wp_go.
  - apply vw_gets. wp_go. apply vw_keep; [apply mv_store |]. intros ? s1 E1. apply vw_set_owner. intros s2 E2.
    wp_go. eapply mwp_mono; [apply note_spec |]. intros ? s3 [H3 H4]. wp_go. rewrite H4, E2, E1.
    split; [| done]. eapply silent_trans; [| exact H3]. by rewrite E2, E1.
  - apply vw_keep; [apply write_loop_spec |]. intros ? s1 E1. wp_go. eapply mwp_mono; [apply note_spec |].
    intros ? s3 [H3 H4]. wp_go. by rewrite <- E1.
Qed.

Lemma hook_barrier s :
  mwp (s229_barrier m) (fun _ s' => silent (view s) (view s') /\
    s229_history (ob_own (view s')) = s229_history (ob_own (view s)) ++ [EvBarrier]) s.
Proof.
  unfold s229_barrier. wp_go. apply vw_keep; [apply mv_wmb |]. intros ? s1 E1. rewrite <- E1. apply note_spec.
Qed.

Lemma hook_irq b s :
  mwp (s229_irq m b) (fun _ s' => view s' = with_line (b && negb (failed (ob_fe (view s))))
    (with_fp (take_policy (ob_fe (view s)) (s229_cache (ob_own (view s))) (ob_fp (view s))) (view s))) s.
Proof.
  unfold s229_irq. wp_go. apply vw_front. wp_go. apply vw_owner. wp_go. apply vw_set_fp. intros s1 E1.
  apply vw_irq. intros s2 E2. by rewrite E2, E1.
Qed.

(** A flush only tells the controller and may fault the engine. *)
Definition flushed (v w : obs) : Prop :=
  ob_fe w = ob_fe v /\ (ob_fp w = ob_fp v \/ ob_fp w = flush_fault (ob_fp v)) /\ ob_line w = ob_line v /\
  (ob_devs w = ob_devs v \/ ob_devs w = ob_devs v ++ [DevFlush]) /\
  s229_enabled (ob_own w) = s229_enabled (ob_own v) /\
  s229_sq_generation (ob_own w) = s229_sq_generation (ob_own v) /\
  s229_cq_generation (ob_own w) = s229_cq_generation (ob_own v) /\
  s229_history (ob_own w) = s229_history (ob_own v).

Lemma hook_flush s : mwp (s229_flush m) (fun _ s' => flushed (view s) (view s')) s.
Proof.
  unfold s229_flush. wp_go. apply vw_fp. wp_go.
  - apply vw_set_fp. intros s1 E1. wp_go. rewrite E1. by split_and!; auto.
  - done.
  - apply mwp_iff. pose proof (mv_flush 1 s) as E1. destruct (nvme_flush (m_env m) 1 s) as [ok s1]. cbn [fst snd] in *.
    wp_go; [apply vw_set_fp; intros s2 E2; wp_go; rewrite E2, E1 | rewrite E1]; split_and!; auto.
Qed.

Lemma hook_set_cache b s : mwp (s229_set_cache m b) (fun _ s' => flushed (view s) (view s')) s.
Proof.
  assert (Hset : forall s1, flushed (view s) (view s1) ->
    mwp (set_owner (fun a => a <| s229_cache := b |>);; mret 1) (fun _ s' => flushed (view s) (view s')) s1).
  { intros s1 H1. wp_go. apply vw_set_owner. intros s2 E2. wp_go. by rewrite E2. }
  unfold s229_set_cache. wp_go. apply vw_owner. apply mwp_bind.
  destruct (s229_cache _ && negb b).
  - eapply mwp_mono; [apply hook_flush |]. intros ok s1 H1. destruct ok; [by apply Hset | by wp_go].
  - apply mwp_ret. apply Hset. unfold flushed. split_and!; auto.
Qed.

(** *** The calls of the fast path's control *)

(** While a hook runs, the fast path's update of the line is either nothing or, before
    the adapter is enabled, the line itself. *)
Lemma local_update enabled s :
  mwp (nwoas_nvme_fastpath_update_irq (local_env m enabled)) (fun _ s' => exists l, view s' = with_line l (view s) /\
    (enabled = true -> l = ob_line (view s))) s.
Proof.
  unfold nwoas_nvme_fastpath_update_irq. wp_go. apply vw_fp. cbn [set_fast_irq local_env with_irq].
  destruct enabled; [wp_go; exists (ob_line (view s)); by destruct (view s) |].
  apply vw_irq. intros s' E. by exists (fp_level (ob_fp (view s))).
Qed.

Lemma local_disarm enabled s :
  mwp (s229_control_local m enabled 0 0 0 0 0 0) (fun _ s' => exists l,
    view s' = with_line l (with_fp (disarm (ob_fp (view s))) (view s)) /\ (enabled = true -> l = ob_line (view s))) s.
Proof.
  change (s229_control_local m enabled 0 0 0 0 0 0) with
    (set_fp disarm;; nwoas_nvme_fastpath_update_irq (local_env m enabled);; mret 1). wp_go. apply vw_set_fp. intros s1 E1.
  wp_go. eapply mwp_mono; [apply local_update |]. intros ? s2 (l & E2 & Hl). wp_go. rewrite E1 in *. by exists l.
Qed.

Lemma local_arm enabled sqb sqs cqb cqs flags s :
  mwp (s229_control_local m enabled 1 sqb sqs cqb cqs flags) (fun r s' =>
    if truthy r then arm_bad_args 1 sqb sqs cqb cqs = false /\ faulted (ob_fp (view s)) = false /\ exists l,
      view s' = with_line l (with_fp (arm sqb sqs cqb cqs flags (ob_fp (view s))) (view s)) /\
      (enabled = true -> l = ob_line (view s))
    else view s' = view s) s.
Proof.
  change (s229_control_local m enabled 1 sqb sqs cqb cqs flags) with
    (if arm_bad_args 1 sqb sqs cqb cqs then mret 0 else
     ok ← gets (arm_ptrs (local_env m enabled) sqb sqs cqb cqs);
     f ← fp;
     if negb ok || faulted f then mret 0 else
       set_fp (arm sqb sqs cqb cqs flags);; nwoas_nvme_fastpath_update_irq (local_env m enabled);; mret 1).
  destruct (arm_bad_args 1 sqb sqs cqb cqs); [by wp_go |]. wp_go. apply vw_gets. wp_go. apply vw_fp. wp_go; [done |].
  bool_hyps. apply vw_set_fp. intros s1 E1. wp_go. eapply mwp_mono; [apply local_update |]. intros ? s2 (l & E2 & Hl). wp_go.
  rewrite E1 in *. split_and!; [done | done |]. by exists l.
Qed.

(** ** The joint invariant *)

(** The fast path's own invariant and what concerns nobody else. *)
Record basic (en lb : bool) (v : obs) : Prop := {
  ba_fp : fp_inv (ob_fp v);
  ba_devs : Forall dev_ok (ob_devs v);
  ba_mask : in_w 32 (NvmeControl.mask (control (ob_fe v)));
  ba_enabled : s229_enabled (ob_own v) = en;
  ba_link : link_busy (ob_fp v) = lb;
}.

(** The engine has no queues. *)
Definition resting (p : nvme_fp) : Prop :=
  armed p = false /\ cq_pending p = 0 /\ FastPath.sq_base p = 0 /\ sq_size p = 0 /\ FastPath.cq_base p = 0 /\ cq_size p = 0.

(** The engine has the queues that the admin commands have set up. *)
Definition same_queues (st : nwoas_admin_state) (p : nvme_fp) : Prop :=
  FastPath.sq_base p = q_base (sq st) /\ sq_size p = q_depth (sq st) /\
  FastPath.cq_base p = q_base (cq st) /\ cq_size p = q_depth (cq st).
Record serving (f : nwoas_frontend) (p : nvme_fp) (a : s229) : Prop := {
  sv_active : active (ring f) = true;
  sv_sq : s229_sq_generation a = AdminState.sq_generation (admin (ring f));
  sv_cq : s229_cq_generation a = AdminState.cq_generation (admin (ring f));
  sv_queues : same_queues (admin (ring f)) p;
  sv_armed : armed p = true -> q_present (sq (admin (ring f))) = true /\ q_present (cq (admin (ring f))) = true;
}.

(** Unless the engine has faulted, which only a restart of the machine ends. *)
Definition coupled (v : obs) : Prop :=
  faulted (ob_fp v) = true \/ (resting (ob_fp v) /\ idle_front (ob_fe v)) \/ serving (ob_fe v) (ob_fp v) (ob_own v).

(** The frontend knows whether I/O completions are outstanding. *)
Definition outstanding (st : nwoas_admin_state) (p : nvme_fp) : bool :=
  truthy (cq_pending p) && q_present (cq st) && q_ien (cq st).
Definition reported (v : obs) : Prop :=
  backend_fault (ob_fe v) = true \/ io_pending (ob_fe v) = outstanding (admin (ring (ob_fe v))) (ob_fp v).

Definition tied en lb v := basic en lb v /\ coupled v.
Definition settled en lb v := tied en lb v /\ reported v.

(** *** It does not depend on the rest *)

Lemma silent_basic en lb v w : silent v w -> basic en lb v -> basic en lb w.
Proof. intros (E1 & E2 & E3 & E4 & E5 & E6 & E7) []. split; congruence. Qed.
Lemma silent_coupled v w : silent v w -> coupled v -> coupled w.
Proof.
  intros (E1 & E2 & E3 & E4 & E5 & E6 & E7) Hc. unfold coupled in *. rewrite E1, E2.
  destruct Hc as [Hc | [Hc | []]]; [by left | by right; left |]. right; right. split; try done; congruence.
Qed.
Lemma silent_settled en lb v w : silent v w -> settled en lb v -> settled en lb w.
Proof.
  intros Hs [[H1 H2] H3]. split; [split; [by eapply silent_basic | by eapply silent_coupled] |].
  destruct Hs as (E1 & E2 & _). unfold reported in *. by rewrite E1, E2.
Qed.

Lemma flushed_settled en lb v w : flushed v w -> settled en lb v -> settled en lb w.
Proof.
  intros (E1 & E2 & E3 & E4 & E5 & E6 & E7 & _) [[[] H2] H3]. split; [split |].
  - split; try congruence.
    + destruct E2 as [-> | ->]; [done |]. destruct ba_fp0; by split.
    + destruct E4 as [-> | ->]; [done |]. by apply Forall_app; split; [| repeat constructor].
    + by destruct E2 as [-> | ->].
  - destruct E2 as [E2 | E2]; [| left; by rewrite E2]. unfold coupled in *. rewrite E1, E2.
    destruct H2 as [H2 | [H2 | []]]; [by left | by right; left |]. right; right. split; try done; congruence.
  - unfold reported, outstanding in *. rewrite E1. by destruct E2 as [-> | ->].
Qed.

Lemma fe_calm_basic en lb f v : basic en lb v -> in_w 32 (NvmeControl.mask (control f)) -> basic en lb (with_fe f v).
Proof. intros [] Hm. by split. Qed.
Lemma fe_calm_coupled f v : coupled v -> calm_front (ob_fe v) f -> coupled (with_fe f v).
Proof.
  intros Hc [C1 C2 C3 C4 C5]. unfold io_queues in C2. injection C2 as Q1 Q2 Q3 Q4.
  destruct Hc as [Hc | [[Hc (I1 & I2 & I3)] | [V1 V2 V3 V4 V5]]]; [by left | right; left | right; right].
  - split; [done |]. unfold idle_front. cbn. rewrite Q1, Q2, C4. done.
  - split; cbn; [by apply C3 | congruence | congruence | unfold same_queues in *; by rewrite Q1, Q2 | by rewrite Q1, Q2].
Qed.
Lemma fe_calm_reported f v : reported v -> calm_front (ob_fe v) f -> reported (with_fe f v).
Proof.
  intros Hc [C1 C2 C3 C4 C5]. unfold io_queues in C2. injection C2 as Q1 Q2 Q3 Q4.
  unfold reported, outstanding in *. cbn. rewrite Q2, C4. destruct Hc; auto.
Qed.

Lemma policy_inv f c p : fp_inv p -> in_w 32 (NvmeControl.mask (control f)) -> fp_inv (take_policy f c p).
Proof. intros [] Hm. split; try done. cbn. intros [Ha _]%andb_true_iff. by apply fi_armed. Qed.

Lemma irq_basic en lb b c v : basic en lb v -> basic en lb (with_line b (with_fp (take_policy (ob_fe v) c (ob_fp v)) v)).
Proof. intros []. split; try done. by apply policy_inv. Qed.
Lemma irq_coupled b c v : coupled v -> coupled (with_line b (with_fp (take_policy (ob_fe v) c (ob_fp v)) v)).
Proof.
  intros [Hc | [[Hc Hi] | []]]; [by left | right; left; split; [| done] | right; right].
  - destruct Hc as (Ha & Hc). split; [cbn; by rewrite Ha | done].
  - split; try done. cbn. intros [Ha _]%andb_true_iff. auto.
Qed.

(** *** The reset of the I/O queues *)

Lemma hook_reset_io en s :
  mwp (s229_reset_io m en) (fun ok s' => let p := ob_fp (view s) in
    if ok then link_busy p = false /\ exists l, (en = true -> l = ob_line (view s)) /\
      view s' = with_line l (with_fp (clear_queues (disarm p)) (view s))
    else view s' = view s /\ link_busy p || faulted p = true) s.
Proof.
  unfold s229_reset_io. wp_go. apply vw_fp. wp_go; [done |]. bool_hyps.
  eapply mwp_mono; [apply local_disarm |]. intros ? s1 (l & E1 & Hl). wp_go. apply vw_set_fp. intros s2 E2. wp_go.
  split; [done |]. exists l. by rewrite E2, E1.
Qed.

Lemma clear_inv p : fp_inv p -> fp_inv (clear_queues (disarm p)).
Proof. intros []. split; cbn; try done; solve [by left | by right | by split | split; [done | by left]]. Qed.

(** *** The acceptance of new I/O queues *)

Definition accepted_owner (st : nwoas_admin_state) (a : s229) : s229 :=
  (a <| s229_sq_generation := AdminState.sq_generation st |>) <| s229_cq_generation := AdminState.cq_generation st |>.
Definition accepted (a : s229) (st : nwoas_admin_state) (p : nvme_fp) : nvme_fp :=
  let sq_changed := negb (s229_sq_generation a =? AdminState.sq_generation st) in
  let cq_changed := negb (s229_cq_generation a =? AdminState.cq_generation st) in
  take_queues st sq_changed cq_changed (if sq_changed || cq_changed then disarm p else p).
Definition armed_for (f : nwoas_frontend) (a : s229) (st : nwoas_admin_state) (p : nvme_fp) : nvme_fp :=
  arm (q_base (sq st)) (q_depth (sq st)) (q_base (cq st)) (q_depth (cq st)) (arm_flags f (s229_cache a) st) p.

Lemma hook_reconcile en st c s :
  let f := ob_fe (view s) in let p := ob_fp (view s) in let a := ob_own (view s) in
  mwp (s229_reconcile m en st c) (fun ok s' =>
    if link_busy p || faulted p then ok = false /\ view s' = view s
    else exists l p', (en = true -> l = ob_line (view s)) /\
      view s' = with_line l (with_own (accepted_owner st a) (with_fp p' (view s))) /\
      (p' = accepted a st p \/
       ok = true /\ p' = armed_for f a st (accepted a st p) /\ q_present (sq st) = true /\ q_present (cq st) = true /\
       arm_bad_args 1 (q_base (sq st)) (q_depth (sq st)) (q_base (cq st)) (q_depth (cq st)) = false)) s.
Proof.
  intros f p a. unfold s229_reconcile. apply mwp_bind, vw_fp. fold p. destruct (link_busy p || faulted p); [by wp_go |].
  apply mwp_bind, vw_owner. fold a. cbv zeta.
  set (sqc := negb (s229_sq_generation a =? _)). set (cqc := negb (s229_cq_generation a =? _)).
  apply mwp_bind. apply (mwp_mono _ (fun _ s1 => exists l, (en = true -> l = ob_line (view s)) /\
    view s1 = with_line l (with_fp (if sqc || cqc then disarm p else p) (view s)))).
  { destruct (sqc || cqc).
    - wp_go. eapply mwp_mono; [apply local_disarm |]. intros ? s1 (l & E1 & Hl). wp_go. by exists l.
    - wp_go. exists (ob_line (view s)). split; [done |]. by destruct (view s). }
  intros ? s1 (l & Hl & E1). wp_go. apply vw_set_owner. intros s2 E2. wp_go. apply vw_set_fp. intros s3 E3.
  rewrite E1 in E2. rewrite E2 in E3. assert (E3' : view s3 = with_line l (with_own (accepted_owner st a) (with_fp (accepted a st p) (view s)))) by done.
  clear E1 E2 E3. wp_go. apply vw_front. wp_go. apply vw_fp. rewrite E3'. cbn [ob_fe ob_fp with_line with_own with_fp]. fold f.
  destruct (q_present (sq st) && q_present (cq st) && _ && _) eqn:Eg; [| wp_go; by exists l, (accepted a st p); auto].
  wp_go. eapply mwp_mono; [apply local_arm |]. intros r s4 H4. wp_go. rewrite E3' in H4. cbn [ob_fp ob_line with_line with_own with_fp] in H4.
  destruct (truthy r).
  - destruct H4 as (Hb & _ & l' & E4 & Hl'). exists l', (armed_for f a st (accepted a st p)). bool_hyps.
    split; [intros Hen; rewrite Hl' by done; by apply Hl |]. split; [by rewrite E4 |]. by right; split_and!.
  - exists l, (accepted a st p). split; [done |]. split; [exact H4 | by left].
Qed.

(** A descriptor is absent and zero, or has a geometry that the engine accepts. *)
Lemma descriptor_ok stride id q : 0 <= stride -> queue_ok stride id q ->
  in_w 64 (q_base q) /\ (q_depth q = 0 \/ 2 <= q_depth q <= 256) /\
  (q_present q = true -> 2 <= q_depth q /\ q_base q <> 0 /\ (4096 | q_base q)).
Proof.
  intros Hs Hq. unfold queue_ok in Hq. destruct (q_present q) eqn:Eq; [| subst q; split; [done |]; split; [by left | done]].
  destruct Hq as (Hg & Hb & _). split; [by eapply geometry_base |]. destruct Hg as (Hd & Hne & Hal & _).
  split; [by right |]. intros _. split; [lia |]. split; [done |]. by apply page12, truthy_false.
Qed.

(** A queue that is taken over keeps its cursors, one that is not starts empty. *)
Lemma accepted_inv a st p : fp_inv p -> admin_inv st ->
  (s229_sq_generation a = AdminState.sq_generation st -> sq_size p = 0 \/ sq_size p = q_depth (sq st)) ->
  (s229_cq_generation a = AdminState.cq_generation st -> cq_size p = 0 \/ cq_size p = q_depth (cq st)) ->
  (armed (accepted a st p) = true -> q_present (sq st) = true /\ q_present (cq st) = true) ->
  fp_inv (accepted a st p).
Proof.
  intros Hp Hst Hsq Hcq Ha.
  destruct (descriptor_ok 64 1 (sq st) ltac:(lia) (inv_sq _ Hst)) as (S1 & S2 & S3).
  destruct (descriptor_ok 16 0 (cq st) ltac:(lia) (inv_cq _ Hst)) as (C1 & C2 & C3).
  assert (Hd : fp_inv (if negb (s229_sq_generation a =? AdminState.sq_generation st) ||
    negb (s229_cq_generation a =? AdminState.cq_generation st) then disarm p else p)).
  { case_match; [| done]. eapply host_step_inv; [constructor | done]. }
  unfold accepted in *. revert Hd Ha. set (p1 := if _ || _ then _ else p).
  assert (Es : sq_size p1 = sq_size p /\ cq_size p1 = cq_size p) by (unfold p1; by case_match). destruct Es as [Es Ec].
  rewrite <- Es in Hsq. rewrite <- Ec in Hcq. clearbody p1. clear Hp Es Ec p. intros [I1 I2 I3 I4 I5 I6 I7 I8] Ha.
  assert (Hempty : forall n, n = 0 \/ 2 <= n <= 256 -> ring_ok n 0 0) by (unfold ring_ok; intros; lia).
  set (sqc := negb (s229_sq_generation a =? _)) in *. set (cqc := negb (s229_cq_generation a =? _)) in *.
  assert (Q1 : ring_ok (q_depth (sq st)) (if sqc then 0 else sq_head p1) (if sqc then 0 else sq_tail p1)).
  { destruct sqc eqn:E; [by apply Hempty |]. unfold sqc in E. bool_props. destruct (Hsq E) as [Hz | <-]; [| done].
    unfold ring_ok in I1. rewrite Hz in I1. destruct I1 as [(_ & -> & ->) | I1]; [by apply Hempty | lia]. }
  assert (Q2 : ring_ok (q_depth (cq st)) (if cqc then 0 else cq_head p1) (if cqc then 0 else cq_tail p1) /\
    (let n := if cqc then 0 else cq_pending p1 in 0 <= n /\ (n = 0 \/ n < q_depth (cq st))) /\
    (q_depth (cq st) <> 0 -> (if cqc then 0 else cq_tail p1) =
      ((if cqc then 0 else cq_head p1) + (if cqc then 0 else cq_pending p1)) mod q_depth (cq st)) /\
    ((if cqc then 1 else cq_phase p1) = 0 \/ (if cqc then 1 else cq_phase p1) = 1)).
  { destruct cqc eqn:E.
    - split; [by apply Hempty |]. split; [lia |]. split; [| by right]. intros Hz. by rewrite Z.mod_0_l.
    - unfold cqc in E. bool_props. destruct (Hcq E) as [Hz | <-]; [| done].
      unfold ring_ok in I2. rewrite Hz in *. destruct I2 as [(_ & -> & ->) | I2]; [| lia].
      assert (cq_pending p1 = 0) as -> by lia. split; [by apply Hempty |]. split; [lia |]. split; [| done].
      intros Hz'. by rewrite Z.mod_0_l. }
  destruct Q2 as (Q2 & Q3 & Q4 & Q5). split; try done.
  intros Hx. destruct (Ha Hx) as [H1 H2]. destruct (S3 H1) as (? & ? & ?), (C3 H2) as (? & ? & ?). by split_and!.
Qed.

Lemma accepted_same a st p : same_queues st (accepted a st p).
Proof. by split_and!. Qed.

(** The encoding of the completion queue's generation in the flags of an arm. *)
Lemma arm_flags_cq f c st : (arm_flags f c st .>> 20) .& 0xfff = AdminState.cq_generation st .& 0xfff.
Proof.
  unfold arm_flags. set (m0 := NvmeControl.mask _). set (g := AdminState.cq_generation st). set (h := AdminState.sq_generation st).
  apply Z.bits_inj'; intros i Hi. rewrite !Z.land_spec, Z.shiftr_spec, !Z.lor_spec by lia.
  destruct (Z.lt_ge_cases i 12) as [Hlt | Hge].
  - rewrite testbit_wrap by lia. rewrite !Z.shiftl_spec, !Z.land_spec by lia.
    replace (i + 20 - 20) with i by lia. rewrite (Z.testbit_neg_r m0) by lia.
    assert (H8 : Z.testbit 0xfff (i + 20 - 8) = false) by (change 0xfff with (Z.ones 12); apply Z.ones_spec_high; lia).
    assert (Hi2 : forall k, In k [1; 2; 4; 0] -> Z.testbit k (i + 20) = false).
    { intros k Hk. apply Z.bits_above_log2; [cbn in Hk; lia |]. cbn in Hk.
      destruct Hk as [<- | [<- | [<- | [<- | []]]]]; cbn; lia. }
    rewrite H8, andb_false_r, andb_false_r. case_match; case_match; rewrite ?Hi2 by (cbn; auto); by rewrite ?orb_false_r, ?orb_false_l, <- andb_assoc, andb_diag.
  - assert (H8 : Z.testbit 0xfff i = false) by (change 0xfff with (Z.ones 12); apply Z.ones_spec_high; lia).
    by rewrite H8, !andb_false_r.
Qed.

Lemma arm_flags_range f c st : in_w 64 (arm_flags f c st).
Proof.
  assert (Hg : forall g k, 0 <= k <= 52 -> in_w 64 ((g .& 0xfff) .<< k)).
  { intros g k Hk. change 0xfff with (Z.ones 12). rewrite Z.land_ones, Z.shiftl_mul_pow2 by lia.
    pose proof (Z.mod_pos_bound g (2 ^ 12) ltac:(done)). pose proof (Z.pow_le_mono_r 2 k 52 ltac:(lia) ltac:(lia)).
    pose proof (Z.pow_pos_nonneg 2 k ltac:(lia) ltac:(lia)). split; [nia |]. change (2 ^ 64) with (2 ^ 12 * 2 ^ 52). nia. }
  unfold arm_flags. repeat (apply in_w_lor; [lia | |]); try (apply Hg; lia); try (by case_match); [| done]. by apply wrap_range.
Qed.

(** Arming for the queues the engine already has keeps the completions outstanding. *)
Lemma armed_for_same f a st p : arm_bad_args 1 (q_base (sq st)) (q_depth (sq st)) (q_base (cq st)) (q_depth (cq st)) = false ->
  let q := accepted a st p in cq_pending (armed_for f a st q) = cq_pending q /\ same_queues st (armed_for f a st q).
Proof.
  intros Hb q. unfold arm_bad_args, NWOAS_NVME_MAX_IO_DEPTH in Hb. repeat (apply orb_false_iff in Hb as [Hb ?]). bool_props.
  unfold armed_for, arm. cbn [cq_pending]. rewrite arm_flags_cq. cbn [q accepted take_queues FastPath.cq_base cq_size FastPath.cq_generation].
  rewrite !Z.eqb_refl. split; [done |]. unfold same_queues. cbn. rewrite !wrap_small by (unfold in_w; lia). done.
Qed.


Lemma accepted_armed a st p : armed (accepted a st p) =
  (s229_sq_generation a =? AdminState.sq_generation st) && (s229_cq_generation a =? AdminState.cq_generation st) && armed p.
Proof. unfold accepted. by destruct (_ =? _), (_ =? AdminState.cq_generation st). Qed.
Lemma accepted_flags a st p : link_busy (accepted a st p) = link_busy p /\ faulted (accepted a st p) = faulted p.
Proof. unfold accepted. by destruct (_ =? _), (_ =? AdminState.cq_generation st). Qed.
Lemma accepted_pending a st p :
  cq_pending (accepted a st p) = if s229_cq_generation a =? AdminState.cq_generation st then cq_pending p else 0.
Proof. unfold accepted. by destruct (_ =? _), (_ =? AdminState.cq_generation st). Qed.

Lemma incr64_ne x : (x =? incr64 x) = false.
Proof. apply Z.eqb_neq. unfold incr64, wrap. change (2 ^ 64) with 18446744073709551616. dlia. Qed.

(** What a serving or resting engine becomes. *)
Lemma accept_change f p a r c : faulted p = false -> coupled (mk_obs f p a false []) -> fp_inv p ->
  admin_change (admin (ring f)) c (admin r) ->
  let q := accepted a (admin r) p in
  fp_inv q /\ (armed q = true -> q_present (sq (admin r)) = true /\ q_present (cq (admin r)) = true) /\
  (io_pending f = outstanding (admin (ring f)) p ->
   (if truthy (c .& 2) then false else io_pending f) = outstanding (admin r) q).
Proof.
  intros Hnf Hc Hp [Hi Hcc Hsq Hcq] q. unfold coupled in Hc. cbn [ob_fe ob_fp ob_own] in Hc.
  destruct Hc as [Hc | [[(Ra & Rp & Rsb & Rss & Rcb & Rcs) (I1 & I2 & I3)] | [V1 V2 V3 (V4 & V5 & V6 & V7) V8]]]; [congruence | |].
  - assert (Hqa : armed q = false) by (unfold q; rewrite accepted_armed, Ra; apply andb_false_r).
    split; [apply accepted_inv; try done; [intros; by left | intros; by left | fold q; by rewrite Hqa] |]. split; [by rewrite Hqa |].
    intros _. rewrite I3. unfold outstanding, q. rewrite accepted_pending, Rp. by destruct (_ =? AdminState.cq_generation _), (truthy (c .& 2)).
  - assert (Hqa : armed q = true -> q_present (sq (admin r)) = true /\ q_present (cq (admin r)) = true).
    { unfold q. rewrite accepted_armed, V2, V3. intros [[G1 G2]%andb_true_iff Ha]%andb_true_iff. destruct (V8 Ha).
      destruct (c =? 1); destruct Hsq as [E1 E2]; [by rewrite E2, incr64_ne in G1 |].
      destruct (c =? 2); destruct Hcq as [E3 E4]; [by rewrite E4, incr64_ne in G2 |]. by rewrite E1, E3. }
    split; [apply accepted_inv; try done |].
    + intros G1. right. destruct (c =? 1); destruct Hsq as [E1 E2]; [| congruence]. pose proof (incr64_ne (AdminState.sq_generation (admin (ring f)))).
      bool_props. congruence.
    + intros G1. right. destruct (c =? 2); destruct Hcq as [E1 E2]; [| congruence]. pose proof (incr64_ne (AdminState.cq_generation (admin (ring f)))).
      bool_props. congruence.
    + split; [done |]. intros ->. unfold outstanding, q. rewrite accepted_pending, V3.
      destruct Hcc as [-> | [-> | [-> | ->]]]; cbn in Hcq; destruct Hcq as [E1 E2]; rewrite E2, ?incr64_ne, ?Z.eqb_refl, ?E1; done.
Qed.

Lemma reconcile_keeps en0 en c r s : settled en false (view s) -> active (ring (lget (A := nwoas_frontend) s)) = true ->
  client_same (ring (lget s)) r -> admin_change (admin (ring (lget s))) c (admin r) ->
  mwp (s229_reconcile m en0 (admin r) c) (fun ok s' => tied en false (view s') /\
    (ok = true -> settled en false (view (lset (reconciled c (lget s')) s')))) (lset ((lget (A := nwoas_frontend) s) <| ring := r |>) s).
Proof.
  rewrite <- (mv_fe (view := view)). intros [[Hb Hc] Hr] Ha Hcs Hch. set (f := ob_fe (view s)) in *. set (p := ob_fp (view s)) in *.
  set (a := ob_own (view s)) in *. pose proof Hb as [Hp Hd Hm He Hl]. fold p in Hp, Hl. fold f in Hm. fold a in He.
  eapply mwp_mono; [apply hook_reconcile |]. intros ok s1 H1. rewrite mv_set_fe in H1. cbn [ob_fe ob_fp ob_own with_fe] in H1.
  fold p a f in H1. rewrite Hl in H1. cbn [orb] in H1. destruct (faulted p) eqn:Hnf.
  { destruct H1 as [-> E1]. split; [| done]. rewrite E1. split; [by apply fe_calm_basic | by left]. }
  destruct H1 as (l & q & _ & E1 & Hq).
  destruct (accept_change f p a r c Hnf Hc Hp Hch) as (P1 & P2 & P3). set (q0 := accepted a (admin r) p) in *.
  assert (Hall : fp_inv q /\ (armed q = true -> q_present (sq (admin r)) = true /\ q_present (cq (admin r)) = true) /\
    outstanding (admin r) q = outstanding (admin r) q0 /\ same_queues (admin r) q /\ link_busy q = false).
  { destruct (accepted_flags a (admin r) p) as [Hlq Hfq]. fold q0 in Hlq, Hfq. rewrite Hl in Hlq. rewrite Hnf in Hfq.
    destruct Hq as [-> | (_ & -> & H1 & H2 & H3)]; [split_and!; done |].
    destruct (armed_for_same (f <| ring := r |>) a (admin r) p H3) as [F1 F2]. fold q0 in F1, F2. split_and!; try done; [| by unfold outstanding; rewrite F1].
    eapply host_step_inv; [| exact P1]. destruct Hch as [Hi _ _ _].
    destruct (descriptor_ok 64 1 _ ltac:(lia) (inv_sq _ Hi)) as (S1 & _), (descriptor_ok 16 0 _ ltac:(lia) (inv_cq _ Hi)) as (C1 & _).
    apply hs_arm; [done | done | apply arm_flags_range | done | done]. }
  destruct Hall as (Q1 & Q2 & Q3 & Q4 & Q5).
  assert (Ht : tied en false (view s1)).
  { rewrite E1. split; [by split |]. right; right. split; try done. cbn. by rewrite (cs_active _ _ Hcs). }
  split; [done |]. intros ->. assert (Ef : lget (A := nwoas_frontend) s1 = f <| ring := r |>) by (by rewrite <- (mv_fe (view := view)), E1).
  rewrite mv_set_fe, Ef, E1. unfold reconciled. split; [split |].
  - apply fe_calm_basic; [by rewrite <- E1; apply Ht | by case_match].
  - right; right. by case_match; split; try done; cbn; rewrite (cs_active _ _ Hcs).
  - destruct Hr as [Hr | Hr]; [by left; case_match |]. right. specialize (P3 Hr). cbn. rewrite <- Q3 in P3.
    by case_match.
Qed.

(** ** The hooks meet the frontend's interface *)

(** The table with the two hooks that depend on whether the adapter is enabled. *)
Definition hooks (reconcile : nwoas_admin_state -> Z -> M S bool) (reset_io : M S bool) : frontend_env S :=
  mk_fenv (s229_contains m) (s229_read m) (s229_write m) (s229_barrier m) reconcile reset_io (s229_flush m)
    (Some (s229_set_cache m)) (Some s229_get_cache) (s229_irq m).

Lemma hook_get_cache s : mwp s229_get_cache (fun _ s' => s' = s) s.
Proof. unfold s229_get_cache. wp_go. apply vw_owner. by wp_go. Qed.

(** A frame condition from a specification of the view. *)
Lemma keeps_view {T B} (c : M S T) (R : obs -> obs -> Prop) (g : S -> B) (h : obs -> B) :
  (forall s, g s = h (view s)) -> (forall v w, R v w -> h w = h v) ->
  (forall s, mwp c (fun _ s' => R (view s) (view s')) s) -> keeps g c.
Proof. intros Hg HR Hc. apply keeps_mwp. intros s. eapply mwp_mono; [apply Hc |]. intros a s' H1. rewrite !Hg. by apply HR. Qed.

Lemma fe_view s : lget (A := nwoas_frontend) s = ob_fe (view s).
Proof. by rewrite mv_fe. Qed.

Definition same_fe (v w : obs) : Prop := ob_fe w = ob_fe v.
Lemma keeps_fe {T} (c : M S T) : (forall s, mwp c (fun _ s' => same_fe (view s) (view s')) s) -> keeps (lget (A := nwoas_frontend)) c.
Proof. apply (keeps_view _ same_fe _ ob_fe); [apply fe_view | done]. Qed.

Lemma read_silent a n s : mwp (s229_read m a n) (fun _ s' => silent (view s) (view s') /\
  s229_history (ob_own (view s')) = s229_history (ob_own (view s))) s.
Proof. eapply mwp_mono; [apply hook_read |]. tauto. Qed.

Lemma hooks_env k r : (forall a c, keeps (lget (A := nwoas_frontend)) (k a c)) -> keeps (lget (A := nwoas_frontend)) r ->
  FrontendEnv (hooks k r).
Proof.
  intros Hk Hr. split; cbn; try done.
  - intros a n. apply keeps_fe. intros s. eapply mwp_mono; [apply read_silent |]. intros ? s' [H1 _]. apply H1.
  - intros a n s Hn. pose proof (hook_read a n s) as H1. apply mwp_iff in H1. by apply H1.
  - intros a bs. apply keeps_fe. intros s. eapply mwp_mono; [apply hook_write |]. intros ? s' [H1 _]. apply H1.
  - apply keeps_fe. intros s. eapply mwp_mono; [apply hook_barrier |]. intros ? s' [H1 _]. apply H1.
  - apply keeps_fe. intros s. eapply mwp_mono; [apply hook_flush |]. intros ? s' H1. apply H1.
  - intros f v [= <-]. apply keeps_fe. intros s. eapply mwp_mono; [apply hook_set_cache |]. intros ? s' H1. apply H1.
  - intros f [= <-]. apply keeps_fe. intros s. eapply mwp_mono; [apply hook_get_cache |]. by intros ? s' ->.
  - intros b. apply keeps_fe. intros s. eapply mwp_mono; [apply hook_irq |]. cbv beta. intros ? s' E. unfold same_fe. by rewrite E.
Qed.

Lemma reset_io_fe en : keeps (lget (A := nwoas_frontend)) (s229_reset_io m en).
Proof.
  apply keeps_fe. intros s. eapply mwp_mono; [apply hook_reset_io |]. cbv beta zeta. intros ok s' H1. unfold same_fe.
  destruct ok; [destruct H1 as (_ & l & _ & E) | destruct H1 as [E _]]; by rewrite E.
Qed.
Lemma reconcile_frame en st c s :
  mwp (s229_reconcile m en st c) (fun _ s' => ob_fe (view s') = ob_fe (view s) /\
    (en = true -> ob_line (view s') = ob_line (view s)) /\
    s229_history (ob_own (view s')) = s229_history (ob_own (view s))) s.
Proof.
  eapply mwp_mono; [apply hook_reconcile |]. cbv beta zeta. intros ok s' H1. case_match.
  - destruct H1 as [_ ->]. done.
  - destruct H1 as (l & q & Hl & E & _). by rewrite E.
Qed.
Lemma reconcile_fe en st c : keeps (lget (A := nwoas_frontend)) (s229_reconcile m en st c).
Proof. apply keeps_fe. intros s. eapply mwp_mono; [apply reconcile_frame |]. by intros ? s' (E & _). Qed.

#[export] Instance owner_hooks_env : FrontendEnv (s229_ops m true).
Proof. exact (hooks_env _ _ (reconcile_fe true) (reset_io_fe true)). Qed.

Definition level (s : S) : bool := ob_line (view s).
Definition history (s : S) : list ring_event := s229_history (ob_own (view s)).

Lemma keeps_level {T} (c : M S T) : (forall s, mwp c (fun _ s' => ob_line (view s') = ob_line (view s)) s) -> keeps level c.
Proof. by apply (keeps_view _ (fun v w => ob_line w = ob_line v) _ ob_line). Qed.
Lemma keeps_history {T} (c : M S T) :
  (forall s, mwp c (fun _ s' => s229_history (ob_own (view s')) = s229_history (ob_own (view s))) s) -> keeps history c.
Proof. by apply (keeps_view _ (fun v w => s229_history (ob_own w) = s229_history (ob_own v)) _ (fun v => s229_history (ob_own v))). Qed.

Lemma failed_free f : line_free f = true -> failed f = false.
Proof. unfold line_free, failed. rewrite truthy_bit1. by destruct (Z.testbit _ 1), (backend_fault f). Qed.

Lemma hooks_line k r : (forall a c, keeps level (k a c)) -> FrontendLine (hooks k r) level.
Proof.
  intros Hk. split; cbn; try done.
  - intros f s. unfold level. by rewrite mv_set_fe.
  - intros b s Hb. pose proof (hook_irq b s) as H1. apply mwp_iff in H1. unfold level. rewrite H1. cbn.
    destruct b; [| done]. rewrite <- (mv_fe (view := view)) in Hb. by rewrite (failed_free _ (Hb eq_refl)).
  - intros a n. apply keeps_level. intros s. eapply mwp_mono; [apply read_silent |]. intros ? s' [H1 _]. apply H1.
  - intros a bs. apply keeps_level. intros s. eapply mwp_mono; [apply hook_write |]. intros ? s' [H1 _]. apply H1.
  - apply keeps_level. intros s. eapply mwp_mono; [apply hook_barrier |]. intros ? s' [H1 _]. apply H1.
  - apply keeps_level. intros s. eapply mwp_mono; [apply hook_flush |]. intros ? s' H1. apply H1.
  - intros f v [= <-]. apply keeps_level. intros s. eapply mwp_mono; [apply hook_set_cache |]. intros ? s' H1. apply H1.
  - intros f [= <-]. apply keeps_level. intros s. eapply mwp_mono; [apply hook_get_cache |]. by intros ? s' ->.
Qed.

#[export] Instance owner_hooks_line : FrontendLine (s229_ops m true) level.
Proof.
  apply (hooks_line (s229_reconcile m true)). intros a c. apply keeps_level. intros s.
  eapply mwp_mono; [apply reconcile_frame |]. intros ? s' (_ & E & _). by apply E.
Qed.

Lemma hooks_trace k r : (forall a c, keeps history (k a c)) -> FrontendTrace (hooks k r) history.
Proof.
  intros Hk. split; cbn; try done.
  - intros f s. unfold history. by rewrite mv_set_fe.
  - intros a bs s. pose proof (hook_write a bs s) as H1. apply mwp_iff in H1 as [_ H1]. unfold history.
    by destruct (s229_write m a bs s) as [[] s'].
  - intros s. pose proof (hook_barrier s) as H1. by apply mwp_iff in H1 as [_ H1].
  - intros a n. apply keeps_history. intros s. eapply mwp_mono; [apply read_silent |]. by intros ? s' [_ H1].
  - intros b. apply keeps_history. intros s. eapply mwp_mono; [apply hook_irq |]. cbv beta. by intros ? s' ->.
  - intros f v [= <-]. apply keeps_history. intros s. eapply mwp_mono; [apply hook_set_cache |]. intros ? s' H1. apply H1.
  - intros f [= <-]. apply keeps_history. intros s. eapply mwp_mono; [apply hook_get_cache |]. by intros ? s' ->.
Qed.

#[export] Instance owner_hooks_trace : FrontendTrace (s229_ops m true) history.
Proof.
  apply (hooks_trace (s229_reconcile m true)). intros a c. apply keeps_history. intros s.
  eapply mwp_mono; [apply reconcile_frame |]. by intros ? s' (_ & _ & E).
Qed.

(** *** and keep the joint invariant *)

Definition P_weak en lb (s : S) : Prop := basic en lb (view s).
Definition P_tied en lb (s : S) : Prop := tied en lb (view s).
Definition P_settled en lb (s : S) : Prop := settled en lb (view s).
Definition P_rest en lb (s : S) : Prop := basic en lb (view s) /\ resting (ob_fp (view s)).
Definition P_stuck en lb (s : S) : Prop := basic en lb (view s) /\ faulted (ob_fp (view s)) = true.

Lemma seen_tied k r en lb : Seen (hooks k r) (P_tied en lb).
Proof.
  split; unfold P_tied.
  - intros f s [Hb Hc] Hf. rewrite mv_set_fe, <- (mv_fe (view := view)) in *.
    split; [apply fe_calm_basic; [done | apply Hf, Hb] | by apply fe_calm_coupled].
  - intros b s [Hb Hc]. pose proof (hook_irq b s) as H1. apply mwp_iff in H1. cbn [o_irq hooks]. rewrite H1.
    split; [by apply irq_basic | by apply irq_coupled].
Qed.
Lemma seen_settled k r en lb : Seen (hooks k r) (P_settled en lb).
Proof.
  destruct (seen_tied k r en lb) as [Hf Hi]. split; unfold P_settled, settled.
  - intros f s [Ht Hr] Hc. split; [by apply Hf |]. rewrite mv_set_fe, <- (mv_fe (view := view)) in *. by apply fe_calm_reported.
  - intros b s [Ht Hr]. split; [by apply (Hi b) |]. pose proof (hook_irq b s) as H1. apply mwp_iff in H1. cbn [o_irq hooks]. by rewrite H1.
Qed.

Lemma leads_silent {T} (c : M S T) en lb : (forall s, mwp c (fun _ s' => silent (view s) (view s')) s) ->
  leads (P_settled en lb) (P_settled en lb) c.
Proof. intros Hc s Hs. pose proof (Hc s) as H1. apply mwp_iff in H1. by eapply silent_settled. Qed.
Lemma leads_flushed {T} (c : M S T) en lb : (forall s, mwp c (fun _ s' => flushed (view s) (view s')) s) ->
  leads (P_settled en lb) (P_settled en lb) c.
Proof. intros Hc s Hs. pose proof (Hc s) as H1. apply mwp_iff in H1. by eapply flushed_settled. Qed.

#[export] Instance owner_hooks en0 en :
  FrontendOwner (s229_ops m en0) (P_weak en false) (P_rest en false) (P_stuck en false)
    (P_tied en false) (P_settled en false).
Proof.
  change (s229_ops m en0) with (hooks (s229_reconcile m en0) (s229_reset_io m en0)).
  split; cbn; unfold P_weak, P_rest, P_stuck, P_tied, P_settled.
  - apply seen_tied.
  - apply seen_settled.
  - intros s Hs. rewrite <- (mv_fe (view := view)). apply Hs.
  - by intros s [].
  - by intros s [].
  - intros f s Hs Hm. rewrite mv_set_fe. by apply fe_calm_basic.
  - intros f s [Hs Hn] Hm. rewrite mv_set_fe. split; [by apply fe_calm_basic | done].
  - intros f s [Hs Hn] Hm. rewrite mv_set_fe. split; [by apply fe_calm_basic | done].
  - intros s Hs Hb. split; [done |]. left. by rewrite mv_fe.
  - intros s [Hs Hb] Hf. split; [split; [done | by left] |]. left. by rewrite mv_fe.
  - intros s [Hs Hn] Hi. rewrite <- (mv_fe (view := view)) in Hi. split; [split; [done | right; by left] |].
    right. destruct Hn as (_ & Hp & _), Hi as (_ & _ & ->). unfold outstanding. by rewrite Hp.
  - intros a n s Hs. exact Hs.
  - intros a n. apply leads_silent. intros s. eapply mwp_mono; [apply read_silent |]. by intros ? s' [].
  - intros a bs. apply leads_silent. intros s. eapply mwp_mono; [apply hook_write |]. by intros ? s' [].
  - apply leads_silent. intros s. eapply mwp_mono; [apply hook_barrier |]. by intros ? s' [].
  - apply leads_flushed, hook_flush.
  - intros f v [= <-]. apply leads_flushed, hook_set_cache.
  - intros f [= <-]. apply leads_silent. intros s. eapply mwp_mono; [apply hook_get_cache |]. by intros ? s' ->.
  - intros s Hs. pose proof (hook_reset_io en0 s) as H1. apply mwp_iff in H1. cbv zeta in H1.
    destruct (s229_reset_io m en0 s) as [[] s']; cbn [fst snd] in *.
    + destruct H1 as (Hl & l & _ & ->). destruct Hs. split; [| done]. split; try done. by apply clear_inv.
    + destruct H1 as [-> H1]. split; [done |]. by rewrite (ba_link _ _ _ Hs) in H1.
  - intros a c r s Hs Ha Hc -> Hch. pose proof (reconcile_keeps en0 en c r s Hs Ha Hc Hch) as H1.
    apply mwp_iff in H1. cbv zeta. destruct (s229_reconcile m en0 (admin r) c _) as [[] s']; cbn [fst snd] in *; [by apply H1 | apply H1].
Qed.

(** ** The owner's update of the interrupt line *)

(** As long as the engine is armed nobody has touched its queues. *)
Definition untouched (f g : nvme_fp) : Prop := armed g = true -> queues g = queues f.
Lemma untouched_refl f : untouched f f. Proof. done. Qed.
Lemma queues_armed f g : queues g = queues f -> armed g = armed f.
Proof. unfold queues. congruence. Qed.
Lemma untouched_trans f g h : untouched f g -> untouched g h -> untouched f h.
Proof. intros H1 H2 Ha. rewrite (H2 Ha). apply H1. by rewrite <- (queues_armed _ _ (H2 Ha)). Qed.
Lemma policy_untouched f c p : untouched p (take_policy f c p).
Proof. unfold untouched, queues. cbn. by intros [-> ->]%andb_true_iff. Qed.

Local Abbreviation fps s := (lget (A := nvme_fp) s).

Lemma seen_and ops P Q : Seen ops P -> Seen ops Q -> Seen ops (fun s => P s /\ Q s).
Proof. intros [P1 P2] [Q1 Q2]. split; [intros f s [] ?; auto | intros b s []; split; [by apply P2 | by apply Q2]]. Qed.

Lemma fps_set_fe (f : nwoas_frontend) s : fps (lset f s) = fps s.
Proof. rewrite <- !(mv_fp (view := view)). by rewrite mv_set_fe. Qed.

Lemma seen_untouched k r f0 : Seen (hooks k r) (fun s => untouched f0 (fps s)).
Proof.
  split.
  - intros f s Hs _. by rewrite fps_set_fe.
  - intros b s Hs. pose proof (hook_irq b s) as H1. apply mwp_iff in H1. rewrite <- (mv_fp (view := view)). cbn [o_irq hooks].
    rewrite H1. cbn. rewrite mv_fp. eapply untouched_trans; [exact Hs | apply policy_untouched].
Qed.

(** The joint invariants of the two parts, with the link possibly in use; and between
    the entry points. *)
Definition running lb (s : S) : Prop := fe_ok level s /\ P_tied true lb s.
Definition quiescent (s : S) : Prop := fe_ok level s /\ P_settled true false s.

Lemma fe_ok_view s s' : ob_fe (view s') = ob_fe (view s) -> ob_line (view s') = ob_line (view s) -> fe_ok level s -> fe_ok level s'.
Proof. unfold fe_ok, ring_ok, level. rewrite <- !(mv_fe (view := view)). by intros -> ->. Qed.

Lemma mwp_and {T} (c : M S T) (P Q : T -> S -> Prop) s : mwp c P s -> mwp c Q s -> mwp c (fun a s' => P a s' /\ Q a s') s.
Proof. intros H1 H2. apply mwp_iff in H1, H2. by apply mwp_iff. Qed.

(** The report: the frontend is told, and what it does to the engine is its policy. *)
Lemma report_settled lb f0 s : running lb s -> untouched f0 (fps s) ->
  mwp (nwoas_frontend_io_pending (s229_ops m true) (truthy (cq_pending (fps s)))) (fun _ s' =>
    fe_ok level s' /\ P_settled true lb s' /\ untouched f0 (fps s')) s.
Proof.
  intros [Hok [Hb Hc]] Hu. apply mwp_and; [by apply fe_io_pending_spec; [apply _ .. |] |].
  pose proof (seen_and _ _ _ (seen_settled (s229_reconcile m true) (s229_reset_io m true) true lb)
    (seen_untouched (s229_reconcile m true) (s229_reset_io m true) f0)) as Hseen.
  unfold nwoas_frontend_io_pending. wp_go. apply mwp_lmodify. intros s1 -> E1.
  set (f := lget (A := nwoas_frontend) s) in *. set (io := _ && _ && _).
  assert (Hp : P_settled true lb (lset (f <| io_pending := io |>) s) /\ untouched f0 (fps (lset (f <| io_pending := io |>) s))).
  { split; [| by rewrite fps_set_fe]. unfold P_settled. rewrite mv_set_fe.
    assert (Ef : ob_fe (view s) = f) by apply mv_fe. split; [split |].
    - apply fe_calm_basic; [done |]. rewrite <- Ef. apply Hb.
    - destruct Hc as [Hc | [[Hc (I1 & I2 & I3)] | []]]; [by left | right; left | right; right].
      + split; [done |]. rewrite Ef in *. split_and!; [done | done |]. cbn. unfold io. rewrite I2. cbn. by rewrite andb_false_r.
      + rewrite Ef in *. by split.
    - right. cbn. unfold outstanding, io. by rewrite mv_fp. }
  apply (fc_pending (s229_ops m true) (fun s => P_settled true lb s /\ untouched f0 (fps s))); [done |].
  by intros s2 H2 _ _.
Qed.

Lemma fault_tied lb f0 s : running lb s -> untouched f0 (fps s) ->
  mwp (nwoas_frontend_fault (s229_ops m true)) (fun _ s' => running lb s' /\ untouched f0 (fps s')) s.
Proof.
  intros [Hok Ht] Hu.
  pose proof (seen_and _ _ _ (seen_tied (s229_reconcile m true) (s229_reset_io m true) true lb)
    (seen_untouched (s229_reconcile m true) (s229_reset_io m true) f0)) as Hseen.
  assert (H1 : mwp (nwoas_frontend_fault (s229_ops m true)) (fun _ s' => fe_ok level s') s)
    by (by apply fe_fault_spec; [apply _ .. |]).
  assert (H2 : mwp (nwoas_frontend_fault (s229_ops m true)) (fun _ s' => P_tied true lb s' /\ untouched f0 (fps s')) s).
  { set (P := fun s => P_tied true lb s /\ untouched f0 (fps s)) in *.
    apply (fc_raise (s229_ops m true) P P); [done | by split |]. by intros s' Hs' _. }
  pose proof (mwp_and _ _ _ _ H1 H2) as H3. eapply mwp_mono; [exact H3 |]. intros ? s' (? & ? & ?). by split_and!.
Qed.

Lemma owner_update lb f0 b s : running lb s -> untouched f0 (fps s) ->
  mwp (s229_fast_irq_update m b) (fun _ s' => fe_ok level s' /\ P_settled true lb s' /\ untouched f0 (fps s')) s.
Proof.
  intros Hr Hu. unfold s229_fast_irq_update. wp_go. apply vw_owner. rewrite (ba_enabled _ _ _ (proj1 (proj2 Hr))).
  cbn [negb]. apply mwp_bind, vw_fp.
  assert (Hend : forall s1, running lb s1 -> untouched f0 (fps s1) ->
    mwp (p ← fp; nwoas_frontend_io_pending (s229_ops m true) (truthy (cq_pending p)))
      (fun _ s' => fe_ok level s' /\ P_settled true lb s' /\ untouched f0 (fps s')) s1).
  { intros s1 H1 H2. wp_go. apply vw_fp. rewrite mv_fp. by apply report_settled. }
  apply mwp_bind. destruct (faulted (ob_fp (view s))); [| by apply mwp_ret, Hend].
  eapply mwp_mono; [by eapply fault_tied |]. intros ? s1 [H1 H2]. by apply Hend.
Qed.

(** ** The engine's own steps *)

(** A change of the engine that leaves its queues in place. *)
Record in_place (p q : nvme_fp) : Prop := {
  ip_inv : fp_inv q;
  ip_faulted : faulted p = true -> faulted q = true;
  ip_armed : armed q = true -> armed p = true;
  ip_queues : FastPath.sq_base q = FastPath.sq_base p /\ sq_size q = sq_size p /\ FastPath.cq_base q = FastPath.cq_base p /\ cq_size q = cq_size p;
}.

Lemma in_place_rest p q : in_place p q -> resting p -> resting q.
Proof.
  intros [I1 I2 I3 (I4 & I5 & I6 & I7)] (R1 & R2 & R3 & R4 & R5 & R6). unfold resting. rewrite I4, I5, I6, I7.
  pose proof (fi_pending _ I1) as Hp. split_and!; try done; [| lia]. destruct (armed q); [| done]. rewrite I3 in R1; done.
Qed.

Lemma in_place_tied lb lb' q v : tied true lb v -> in_place (ob_fp v) q -> link_busy q = lb' -> tied true lb' (with_fp q v).
Proof.
  intros [[] Hc] Hq Hl. pose proof Hq as [I1 I2 I3 (I4 & I5 & I6 & I7)]. split; [by split |].
  destruct Hc as [Hc | [[Hc Hi] | [V1 V2 V3 V4 V5]]]; [left; by apply I2 | right; left | right; right].
  - split; [by eapply in_place_rest | done].
  - split; try done; [unfold same_queues in *; cbn; by rewrite I4, I5, I6, I7 |]. cbn. auto.
Qed.

Lemma running_set lb lb' q s : running lb s -> in_place (fps s) q -> link_busy q = lb' -> running lb' (lset q s).
Proof.
  intros [Hok Ht] Hq Hl. split.
  - eapply fe_ok_view; [..| exact Hok]; by rewrite mv_set_fp.
  - unfold P_tied. rewrite mv_set_fp. eapply in_place_tied; [done | by rewrite mv_fp | done].
Qed.

Lemma quiescent_running s : quiescent s -> running false s.
Proof. intros [Hok [Ht _]]. by split. Qed.

Lemma quiescent_set q s : quiescent s -> in_place (fps s) q -> link_busy q = false -> cq_pending q = cq_pending (fps s) ->
  quiescent (lset q s).
Proof.
  intros Hs Hq Hl Hp. destruct (running_set false false q s) as [Hok Ht]; [by apply quiescent_running | done | done |].
  split; [done |]. split; [done |]. destruct Hs as [_ [_ Hr]]. unfold reported, outstanding in *. rewrite mv_set_fp. cbn.
  by rewrite Hp, <- (mv_fp (view := view)).
Qed.

Lemma step_in_place f g : engine_step f g -> fp_inv f -> in_place f g.
Proof.
  intros Hs Hf. pose proof (engine_config _ _ Hs) as Hc. unfold config in Hc. injection Hc as C1 C2 C3 C4 C5 C6 C7 C8 C9 C10 C11.
  split; [by eapply engine_inv | by destruct Hs | by rewrite C1 | done].
Qed.

Lemma disarm_in_place p : fp_inv p -> in_place p (disarm p).
Proof. intros Hp. split; try done. eapply host_step_inv; [constructor | done]. Qed.
Lemma sync_in_place flags p : fp_inv p -> in_place p (sync_policy flags p).
Proof. intros []. split; try done. split; try done. cbn. by apply wrap_range. Qed.

(** ** The host's control interface *)

Lemma control_other lb f0 c s : running lb s -> untouched f0 (fps s) -> hc_action c <> 1 -> in_w 64 (hc_flags c) ->
  mwp (s229_control m (hc_action c) (hc_sq c) (hc_ns c) (hc_cq c) (hc_nc c) (hc_flags c)) (fun _ s' =>
    s' = s \/ fe_ok level s' /\ P_settled true lb s' /\ untouched f0 (fps s')) s.
Proof.
  intros Hr Hu Hne Hfl. destruct c as [action sqb ns cqb nc flags]. cbn [hc_action hc_sq hc_ns hc_cq hc_nc hc_flags] in *.
  pose proof (proj2 Hr) as [[Hp _ _ He Hl] _]. rewrite mv_fp in Hp, Hl.
  assert (Hset : forall g {T} (k : M S T), let q := g (fps s) in in_place (fps s) q -> link_busy q = lb -> untouched (fps s) q ->
    (forall s1, mwp k (fun _ s' => s' = s1) s1) ->
    mwp (set_fp g;; nwoas_nvme_fastpath_update_irq (owner_env m);; k) (fun _ s' =>
      s' = s \/ fe_ok level s' /\ P_settled true lb s' /\ untouched f0 (fps s')) s).
  { intros g T k q Hq Hlq Huq Hk. wp_go. apply mwp_lmodify. intros s0 -> Eq. fold q in Eq |- *. wp_go. unfold nwoas_nvme_fastpath_update_irq. wp_go. apply vw_fp.
    eapply mwp_mono; [apply (owner_update lb f0) |].
    - by apply (running_set lb).
    - rewrite Eq. by eapply untouched_trans.
    - intros ? s1 H1. eapply mwp_mono; [apply Hk |]. cbv beta. intros ? s2 ->. by right. }
  assert (Hsame : forall {T} (r : T), mwp (mret r) (fun _ s' => s' = s \/ fe_ok level s' /\ P_settled true lb s' /\ untouched f0 (fps s')) s)
    by (intros; wp_go; by left).
  unfold s229_control. wp_go. apply vw_owner. apply mwp_bind, vw_front.
  destruct (action =? 23); [apply Hsame |]. destruct (action =? 16).
  { unfold s229_enable. wp_go; apply vw_owner. apply mwp_bind, vw_fp. rewrite He. cbn [orb]. wp_go. by left. }
  do 6 (match goal with |- mwp (if ?b then _ else _) _ _ => destruct b; [apply Hsame |] end).
  unfold nwoas_nvme_fastpath_control. destruct (action =? 0).
  { apply (Hset disarm); [by apply disarm_in_place | done | done | by intros; wp_go]. }
  destruct (action =? 2).
  { apply (Hset (sync_policy flags)); [by apply sync_in_place | done | done |]. intros s1. wp_go. apply vw_fp. by wp_go. }
  do 8 (match goal with |- mwp (if ?b then _ else _) _ _ => destruct b end;
    [wp_go; first [apply vw_fp; wp_go; by left | by left] |]).
  assert (arm_bad_args action sqb ns cqb nc = true) as -> by (unfold arm_bad_args; by destruct (Z.eqb_spec action 1)).
  wp_go. by left.
Qed.

(** An arm that is refused has no effect. *)
Lemma control_arm c s : hc_action c = 1 -> host_result c s = 0 -> host_control c s = s.
Proof.
  intros Ha. enough (H1 : mwp (s229_control m (hc_action c) (hc_sq c) (hc_ns c) (hc_cq c) (hc_nc c) (hc_flags c))
    (fun v s' => v = 0 -> s' = s) s) by (apply mwp_iff in H1; exact H1).
  rewrite Ha. unfold s229_control. apply mwp_bind, vw_owner, mwp_bind, vw_front. cbn [Z.eqb Pos.eqb].
  unfold nwoas_nvme_fastpath_control. cbn [Z.eqb Pos.eqb]. destruct (arm_bad_args _ _ _ _ _); [by wp_go |].
  apply mwp_bind, vw_gets, mwp_bind, vw_fp. destruct (_ || _); [by wp_go |].
  apply mwp_bind, mwp_iff. cbv beta. apply mwp_bind.
  apply (mwp_mono _ (fun _ _ => True)); [by apply mwp_iff |]. intros ? s1 _. by wp_go.
Qed.

Lemma control_spec lb f0 c s : running lb s -> untouched f0 (fps s) -> call_ok c s ->
  host_control c s = s \/
  fe_ok level (host_control c s) /\ P_settled true lb (host_control c s) /\ untouched f0 (fps (host_control c s)).
Proof.
  intros Hr Hu [Hfl Ha]. destruct (Z.eq_dec (hc_action c) 1) as [E | E]; [left; by apply control_arm, Ha |].
  pose proof (control_other lb f0 c s Hr Hu E Hfl) as H1. by apply mwp_iff in H1.
Qed.

Lemma control_running lb f0 c s : running lb s -> untouched f0 (fps s) -> call_ok c s ->
  running lb (host_control c s) /\ untouched f0 (fps (host_control c s)).
Proof.
  intros Hr Hu Hc. destruct (control_spec lb f0 c s Hr Hu Hc) as [-> | (H1 & [H2 _] & H3)]; [done |]. by split; [split |].
Qed.

Lemma controls_running lb f0 cs : forall s, calls_ok cs s -> running lb s -> untouched f0 (fps s) ->
  running lb (host_controls cs s) /\ untouched f0 (fps (host_controls cs s)).
Proof.
  induction cs as [| c cs IH]; intros s Hc Hr Hu; [done |]. destruct Hc as [Hc Hcs].
  destruct (control_running lb f0 c s Hr Hu Hc). by apply IH.
Qed.

Lemma control_quiescent c s : quiescent s -> call_ok c s -> quiescent (host_control c s).
Proof.
  intros Hs Hc.
  destruct (control_spec false (fps s) c s (quiescent_running s Hs) (untouched_refl _) Hc) as [-> | (H1 & H2 & _)]; [done | by split].
Qed.

(** ** The adapter owns the fast path *)

Definition busy_or_not (s : S) : Prop := exists lb, running lb s.

Lemma running_view lb s s' : view s' = view s -> running lb s -> running lb s'.
Proof. intros E [Hok Ht]. split; [by eapply fe_ok_view; [..| exact Hok]; rewrite E | unfold P_tied; by rewrite E]. Qed.
Lemma quiescent_view s s' : view s' = view s -> quiescent s -> quiescent s'.
Proof. intros E [Hok Ht]. split; [by eapply fe_ok_view; [..| exact Hok]; rewrite E | unfold P_settled; by rewrite E]. Qed.
Lemma fps_view s s' : view s' = view s -> fps s' = fps s.
Proof. rewrite <- !(mv_fp (view := view)). by intros ->. Qed.

Lemma harmless_keep {T} (c : M S T) : keeps view c -> harmless busy_or_not quiescent c.
Proof.
  intros Hc s. split_and!; [| apply quiescent_view, Hc | apply fps_view, Hc].
  intros [lb Hs]. exists lb. by eapply running_view; [apply Hc |].
Qed.

Lemma dev_tied lb d v : dev_ok d -> tied true lb v -> tied true lb (with_dev d v).
Proof. intros Hd [[] Hc]. split; [| done]. split; try done. apply Forall_app. by split; [| constructor]. Qed.

Lemma harmless_dev {T} (c : M S T) d : dev_ok d -> (forall s, view (c s).2 = with_dev d (view s)) ->
  harmless busy_or_not quiescent c.
Proof.
  intros Hd Hc s. assert (Hok : fe_ok level s -> fe_ok level (c s).2) by (apply fe_ok_view; by rewrite Hc).
  split_and!.
  - intros [lb [H1 H2]]. exists lb. split; [by apply Hok |]. unfold P_tied. rewrite Hc. by apply dev_tied.
  - intros [H1 [H2 H3]]. split; [by apply Hok |]. unfold P_settled. rewrite Hc. by split; [apply dev_tied |].
  - rewrite <- !(mv_fp (view := view)). by rewrite Hc.
Qed.

#[export] Instance owner_client : FpClient (owner_env m) busy_or_not quiescent.
Proof.
  split; cbn.
  - intros s [lb [_ [Hb _]]]. rewrite <- (mv_fp (view := view)). apply Hb.
  - intros s Hs. exists false. by apply quiescent_running.
  - intros s [_ [[Hb _] _]]. rewrite <- (mv_fp (view := view)). apply Hb.
  - intros f s [lb Hs] He. exists (link_busy f). eapply running_set; [done | | done].
    apply step_in_place; [done |]. rewrite <- (mv_fp (view := view)). apply Hs.
  - intros f s Hs He (_ & Hp & Hl). pose proof (quiescent_running s Hs) as [_ [[Hi _ _ _ Hb] _]]. rewrite mv_fp in *.
    apply quiescent_set; [done | by apply step_in_place | congruence | done].
  - intros d. apply harmless_keep. intros s. apply mv_diag.
  - intros c. apply harmless_keep. intros s. apply mv_cq_map.
  - intros pa n. apply harmless_keep, mv_read.
  - intros pa n s. apply mv_read_ok.
  - intros pa bs. apply harmless_keep, mv_write.
  - intros pa v. apply harmless_keep, mv_store.
  - apply harmless_keep, mv_wmb.
  - apply harmless_keep, mv_rmb.
  - apply harmless_keep, mv_count.
  - intros va c. apply harmless_keep, mv_at.
  - intros w lba n p q Hd. apply (harmless_dev _ (DevRW w lba n)); [exact Hd |]. intros s. apply mv_rw.
  - intros n. apply (harmless_dev _ DevFlush); [done |]. intros s. apply mv_flush.
  - intros r s [lb Hs]. destruct (mv_link r s) as (cs & Hcs & E).
    destruct (controls_running lb (fps s) cs s Hcs Hs (untouched_refl _)) as [H1 H2]. split.
    + exists lb. by eapply running_view.
    + intros Ha _. rewrite (fps_view _ _ E) in *. by apply H2.
  - intros s [lb Hs] Hl. assert (lb = false) as ->.
    { destruct Hs as [_ [[_ _ _ _ <-] _]]. by rewrite mv_fp. }
    apply (mwp_iff _ (fun _ s' => quiescent s')). eapply mwp_mono; [apply (owner_update false (fps s)); [done | apply untouched_refl] |].
    intros ? s' (H1 & H2 & _). by split.
Qed.

(** ** Every entry point keeps the invariants of both *)

Lemma own_change f s (Q : unit -> S -> Prop) : (forall a, s229_enabled (f a) = s229_enabled a /\
    s229_sq_generation (f a) = s229_sq_generation a /\ s229_cq_generation (f a) = s229_cq_generation a) ->
  quiescent s -> (forall s', quiescent s' -> Q tt s') -> mwp (set_owner f) Q s.
Proof.
  intros Hf [Hok Hs] HQ. apply vw_set_owner. intros s' E. apply HQ. split.
  - eapply fe_ok_view; [..| exact Hok]; by rewrite E.
  - unfold P_settled. rewrite E. eapply silent_settled; [| exact Hs]. pose proof (Hf (ob_own (view s))). unfold silent. cbn. tauto.
Qed.

Lemma q_fault s (Q : unit -> S -> Prop) : quiescent s -> (forall s', quiescent s' -> Q tt s') -> mwp (frontend_fault m) Q s.
Proof.
  intros [Hok Ht] HQ. assert (H1 : mwp (frontend_fault m) (fun _ s' => fe_ok level s') s) by exact (fe_fault_spec (s229_ops m true) level s Hok).
  assert (H2 : mwp (frontend_fault m) (fun _ s' => P_settled true false s') s).
  { exact (owner_fault (s229_ops m true) (P_weak true false) (P_rest true false) (P_stuck true false) (P_tied true false)
      (P_settled true false) s (proj1 Ht)). }
  eapply mwp_mono; [exact (mwp_and _ _ _ _ H1 H2) |]. intros [] s' []. apply HQ. by split.
Qed.

Lemma q_write pci o w v s : quiescent s -> in_w 64 v -> mwp (nwoas_frontend_write (s229_ops m true) pci o w v) (fun _ s' => quiescent s') s.
Proof.
  intros [Hok Ht] Hv. apply (mwp_and _ (fun _ s' => fe_ok level s') (fun _ s' => P_settled true false s')).
  - by apply (write_ok (s229_ops m true) level history).
  - exact (owner_write (s229_ops m true) level history (P_weak true false) (P_rest true false) (P_stuck true false)
      (P_tied true false) (P_settled true false) pci o w v s Hok Ht Hv).
Qed.

Lemma q_poll budget s : quiescent s -> 0 <= budget -> mwp (nwoas_frontend_poll (s229_ops m true) budget) (fun _ s' => quiescent s') s.
Proof.
  intros [Hok Ht] Hv. apply (mwp_and _ (fun _ s' => fe_ok level s') (fun _ s' => P_settled true false s')).
  - by apply (poll_ok (s229_ops m true) level history).
  - exact (owner_poll (s229_ops m true) level history (P_weak true false) (P_rest true false) (P_stuck true false)
      (P_tied true false) (P_settled true false) budget s Hok Ht).
Qed.

Lemma q_disarm s : quiescent s -> mwp (s229_control_local m true 0 0 0 0 0 0) (fun _ s' => quiescent s') s.
Proof.
  intros Hs. eapply mwp_mono; [apply local_disarm |]. intros ? s' (l & E & Hl). rewrite Hl in E by done.
  apply (quiescent_view (lset (disarm (fps s)) s)).
  - rewrite mv_set_fp, E, mv_fp. done.
  - pose proof (quiescent_running s Hs) as [_ [[Hi _ _ _ Hb] _]]. rewrite mv_fp in *. apply quiescent_set; try done. by apply disarm_in_place.
Qed.

Lemma q_enabled s : quiescent s -> s229_enabled (ob_own (view s)) = true.
Proof. intros [_ [[[] _] _]]. done. Qed.

Lemma q_s229_mmio ipa value write width s : quiescent s -> in_w 64 value ->
  mwp (s229_mmio m ipa value write width) (fun _ s' => quiescent s') s.
Proof.
  intros Hs Hv. unfold s229_mmio. apply mwp_bind, vw_owner. rewrite (q_enabled s Hs). cbn [negb].
  destruct (_ && _); [by wp_go |]. destruct (3 <? width); [wp_go; apply q_fault; [done |]; intros; by wp_go |].
  apply mwp_bind. apply own_change; [by intros; destruct write | done |]. intros s1 H1.
  destruct (_ && (4096 <=? _)); [by wp_go |]. destruct (_ && (_ || _)).
  { unfold io_doorbell. wp_go. apply vw_front. wp_go. apply vw_fp. wp_go; try done; (apply q_fault; [done |]; intros; by wp_go). }
  apply mwp_bind. assert (Hd : forall b : bool, mwp (if b then s229_control_local m true 0 0 0 0 0 0;; mret tt else mret tt)
    (fun _ s' => quiescent s') s1).
  { intros []; [| by wp_go]. wp_go. eapply mwp_mono; [by apply q_disarm |]. intros. by wp_go. }
  eapply mwp_mono; [apply Hd |]. intros ? s2 H2. destruct write.
  - wp_go. eapply mwp_mono; [by apply q_write |]. intros. by wp_go.
  - unfold nwoas_frontend_read. by wp_go.
Qed.

Lemma q_mmio ctx ipa value write width s : quiescent s -> in_w 64 value ->
  mwp (mmio m ctx ipa value write width) (fun _ s' => quiescent s') s.
Proof.
  intros Hs Hv. unfold mmio. wp_go. eapply mwp_mono; [by apply q_s229_mmio |]. intros r s1 H1. destruct r.1; [by wp_go |].
  apply mwp_bind, vw_fp. apply mwp_bind. unfold s229_cq_ack_unarmed. wp_go. apply vw_owner. wp_go. apply vw_front. wp_go.
  eapply mwp_mono; [by apply (fp_client_mmio (owner_env m) busy_or_not quiescent) |]. intros. by wp_go.
Qed.

Lemma q_tick s : quiescent s -> mwp (poll m) (fun _ s' => quiescent s') s.
Proof.
  intros Hs. unfold poll, s229_poll. apply mwp_bind, mwp_bind, vw_owner. rewrite (q_enabled s Hs). wp_go.
  eapply mwp_mono; [by apply q_poll |]. intros ? s1 H1. wp_go. by apply (fp_client_poll (owner_env m) busy_or_not quiescent).
Qed.

(** ** Enabling *)

Definition hooks_table (k : nwoas_admin_state -> Z -> M S bool) (r : M S bool) : nwoas_frontend_ops S := {|
  fo_contains := Some (s229_contains m); fo_read := Some (s229_read m); fo_write := Some (s229_write m);
  fo_barrier := Some (s229_barrier m); fo_reconcile := Some k; fo_reset_io := Some r; fo_flush := Some (s229_flush m);
  fo_set_cache := Some (s229_set_cache m); fo_get_cache := Some s229_get_cache; fo_irq := Some (s229_irq m);
|}.

(** Initialisation calls the reset of the I/O queues, never the acceptance of new ones. *)
Lemma init_reconcile k k' r b p s :
  let i := nwoas_frontend_init true b (hooks_table k r) p s in
  let j := nwoas_frontend_init true b (hooks_table k' r) p s in i.1.2 = j.1.2 /\ i.2 = j.2.
Proof.
  unfold nwoas_frontend_init. cbn [ops_present hooks_table].
  change (init_ok (hooks_table k r) b p) with (init_ok (hooks_table k' r) b p).
  destruct (negb true || negb (init_ok (hooks_table k' r) b p)); [done |].
  unfold nwoas_ring_init, mbind, M_bind. cbn. destruct (policy_valid p); [| done]. cbn. done.
Qed.

Lemma init_table k r b p s :
  let i := nwoas_frontend_init true b (hooks_table k r) p s in i.1.1 = Some (hooks k r) \/ i.1.2 = false.
Proof.
  unfold nwoas_frontend_init. cbn [ops_present hooks_table]. destruct (negb true || negb _); [by right |].
  unfold nwoas_ring_init, mbind, M_bind. cbn. destruct (policy_valid p); [| by right]. by left.
Qed.

Lemma enable_quiescent lbas mdts s : basic false false (view s) ->
  zlen (payload (ring (ob_fe (view s)))) = 4096 -> zlen (completion (ring (ob_fe (view s)))) = 16 ->
  mwp (s229_enable m lbas mdts) (fun ok s' => ok = true -> quiescent s') s.
Proof.
  intros Hb Hp Hc. unfold s229_enable. wp_go. apply vw_owner. apply mwp_bind, vw_fp. case_match; [by wp_go |].
  wp_go. apply vw_set_owner. intros s1 E1. wp_go.
  assert (Hb1 : P_weak false false s1) by (unfold P_weak; rewrite E1; by destruct Hb).
  set (k := fun (_ : nwoas_admin_state) (_ : Z) => mret (M := M S) true). set (r := s229_reset_io m false).
  set (p := s229_policy lbas mdts).
  destruct (init_reconcile (s229_reconcile m false) k r NWOAS_NVME_BAR p s1) as [I1 I2].
  pose proof (init_table (s229_reconcile m false) r NWOAS_NVME_BAR p s1) as T1.
  change (hooks_table (s229_reconcile m false) r) with (s229_table m false) in *.
  pose proof (init_table k r NWOAS_NVME_BAR p s1) as T2.
  assert (Hk : FrontendEnv (hooks k r)) by (apply hooks_env; [done | apply reset_io_fe]).
  assert (Hl : FrontendLine (hooks k r) level) by by apply hooks_line.
  assert (Htr : FrontendTrace (hooks k r) history) by by apply hooks_trace.
  assert (Hk0 : FrontendEnv (s229_ops m false)) by exact (hooks_env _ _ (reconcile_fe false) (reset_io_fe false)).
  apply mwp_iff. destruct (nwoas_frontend_init true NWOAS_NVME_BAR (s229_table m false) p s1) as [[oe ok] s2] eqn:Ei.
  cbn [fst snd] in *. destruct ok; [| by wp_go]. destruct T1 as [-> |]; [| done]. destruct T2 as [T2 | T2]; [| congruence].
  assert (Hok : fe_ok level s2).
  { rewrite I2. refine (proj1 (fe_init_spec (hooks k r) level history _ _ _ _ _ _ _ T2)); by rewrite <- (mv_fe (view := view)), E1. }
  pose proof (owner_init (s229_ops m false) (P_weak false false) (P_rest false false) (P_stuck false false) (P_tied false false)
    (P_settled false false) true NWOAS_NVME_BAR (s229_table m false) p s1 Hb1) as Hs. rewrite Ei in Hs. cbn [fst snd] in Hs.
  destruct (Hs eq_refl) as [[[Hb2 Hc2] Hr2] |]; [| done].
  cbn [fst snd negb]. wp_go. apply vw_set_owner. intros s3 E3. wp_go. apply vw_keep; [apply mv_set_irq |]. intros ? s4 E4. wp_go. intros _.
  rewrite E3 in E4. split; [eapply fe_ok_view; [..| exact Hok]; by rewrite E4 |]. unfold P_settled. rewrite E4.
  split; [split; [by destruct Hb2 |] | done]. destruct Hc2 as [Hc2 | [Hc2 | []]]; [by left | by right; left | right; right]. by split.
Qed.

(** ** Reachable states *)

(** From an enabling of the adapter by guest accesses, ticks of the poll, uses of the
    host's control interface other than arming the fast path by hand, and steps of the
    rest of the machine. *)
Inductive adapter_reach : S -> Prop :=
| ar_enable lbas mdts s : basic false false (view s) ->
    zlen (payload (ring (ob_fe (view s)))) = 4096 -> zlen (completion (ring (ob_fe (view s)))) = 16 ->
    (s229_enable m lbas mdts s).1 = true -> adapter_reach (s229_enable m lbas mdts s).2
| ar_mmio ctx ipa value write width s : adapter_reach s -> in_w 64 value ->
    adapter_reach (mmio m ctx ipa value write width s).2
| ar_poll s : adapter_reach s -> adapter_reach (poll m s).2
| ar_control c s : adapter_reach s -> call_ok c s -> adapter_reach (host_control c s)
| ar_other s s' : adapter_reach s -> view s' = view s -> adapter_reach s'.

Lemma reach_quiescent s : adapter_reach s -> quiescent s.
Proof.
  induction 1 as [lbas mdts s Hb Hp Hc He | ctx ipa value write width s _ IH Hv | s _ IH | c s _ IH Hc | s s' _ IH E].
  - pose proof (enable_quiescent lbas mdts s Hb Hp Hc) as H1. apply mwp_iff in H1. by apply H1.
  - pose proof (q_mmio ctx ipa value write width s IH Hv) as H1. by apply mwp_iff in H1.
  - pose proof (q_tick s IH) as H1. by apply mwp_iff in H1.
  - by apply control_quiescent.
  - by apply (quiescent_view s).
Qed.
End machine.

(** ** Properties *)

(** C1. In every state that the guest, by any accesses, and the host, by any use of its
    control interface but a successful arming of the fast path by hand (action 1),
    can reach after the adapter was enabled, including what the host does during a
    link call, the frontend's invariant, the admin ring's and the fast path's hold
    together, no link call is open, and while the engine is armed and has not faulted
    it serves exactly the two I/O queues that the guest created with admin commands,
    on an active admin ring.  (Once the host arms by hand the engine serves the queues
    that the host names: [hand_armed].) *)
Theorem adapter_reach_inv {S} `{L : !Lens S nwoas_frontend} `{F : !Lens S nvme_fp} `{G : !Lens S nvme_diag}
    `{H : !Lens S nvme_cq_map} `{A : !Lens S s229} (m : machine S) view `{!Machine m view} (s : S) :
  adapter_reach m view s ->
  let f := ob_fe (view s) in let p := ob_fp (view s) in
  fe_inv f (ob_line (view s)) /\ (exists n, ring_inv n (ring f)) /\ fp_inv p /\ link_busy p = false /\
  (armed p = true -> faulted p = false ->
   active (ring f) = true /\ q_present (sq (admin (ring f))) = true /\ q_present (cq (admin (ring f))) = true /\
   same_queues (admin (ring f)) p).
Proof.
  intros Hr f p. destruct (reach_quiescent m view s Hr) as [[Hi Hn] [[[Hp _ _ _ Hl] Hc] _]].
  unfold ring_ok, level in *. rewrite <- (mv_fe m (view := view)) in *. split_and!; try done.
  subst f p. intros Ha Hf. destruct Hc as [Hc | [[Hc _] | [V1 V2 V3 V4 V5]]]; [congruence | destruct Hc as [Hc _]; congruence |].
  destruct (V5 Ha). by split_and!.
Qed.

(** C2. The line that the guest sees is exactly that of the device put together from
    the two parts: high when the engine holds unacknowledged I/O completions of a
    queue with interrupts, or the ring unacknowledged admin completions, the
    interrupt is neither masked in INTMS nor disabled in the PCI command register,
    and the controller has not failed. *)
Theorem adapter_line_exact {S} `{L : !Lens S nwoas_frontend} `{F : !Lens S nvme_fp} `{G : !Lens S nvme_diag}
    `{H : !Lens S nvme_cq_map} `{A : !Lens S s229} (m : machine S) view `{!Machine m view} (s : S) :
  adapter_reach m view s ->
  let f := ob_fe (view s) in let p := ob_fp (view s) in
  ob_line (view s) =
    (outstanding (admin (ring f)) p || (active (ring f) && truthy (r_pending (ring f)))) &&
    negb (Z.testbit (NvmeControl.mask (control f)) 0) && negb (Z.testbit (command (control f)) 10) &&
    negb (Z.testbit (csts (control f)) 1) && negb (backend_fault f).
Proof.
  intros Hr f p. destruct (reach_quiescent m view s Hr) as [[Hi _] [_ Hrep]].
  rewrite <- (mv_fe m (view := view)) in Hi. pose proof (level_exact _ _ Hi) as Hl. unfold level in Hl. rewrite Hl. subst f p.
  destruct Hrep as [Hb | Hio]; [by rewrite Hb, !andb_false_r | by rewrite Hio].
Qed.

(** C32. Whatever the guest does, and the host short of arming the fast path by hand, every command the controller is given stays inside
    the namespace, and every write inside the window. *)
Theorem adapter_device_guard {S} `{L : !Lens S nwoas_frontend} `{F : !Lens S nvme_fp} `{G : !Lens S nvme_diag}
    `{H : !Lens S nvme_cq_map} `{A : !Lens S s229} (m : machine S) view `{!Machine m view} (s : S) :
  adapter_reach m view s -> Forall dev_ok (ob_devs (view s)).
Proof. intros Hr. destruct (reach_quiescent m view s Hr) as [_ [[[_ Hd _ _ _] _] _]]. exact Hd. Qed.

(** ** The range check of the admin ring's memory *)

Section contains.
Context {S : Type} (m : machine S) (s : S).

(** A guest page that is RAM the hypervisor knows under the same address. *)
Definition page_ok (page : Z) : Prop :=
  nvme_guest_page_pa m page s <> 0 /\
  nwoas_ipa_to_pa (m_env m) page s = nvme_guest_page_pa m page s /\
  nwoas_in_dram (m_env m) (nvme_guest_page_pa m page s) 0x1000 = true.

Lemma page_of_value a : in_w 64 a -> page_of a = a - a mod 4096.
Proof.
  intros Ha. unfold page_of. change 0xfff with (2 ^ 12 - 1). rewrite land_cnot_mask by (done || lia). change (2 ^ 12) with 4096. dlia.
Qed.

Lemma page_test page : negb (truthy (nvme_guest_page_pa m page s)) ||
    negb (nwoas_ipa_to_pa (m_env m) page s =? nvme_guest_page_pa m page s) ||
    negb (nwoas_in_dram (m_env m) (nvme_guest_page_pa m page s) 0x1000) = false <-> page_ok page.
Proof.
  unfold page_ok. rewrite !orb_false_iff, !negb_false_iff, truthy_spec, Z.eqb_eq. tauto.
Qed.

Lemma contains_loop_exact fuel : forall a n, in_w 64 a -> 0 <= n -> a + n <= UINT64_MAX ->
  (n = 0 \/ n + a mod 4096 <= 4096 * (Z.of_nat fuel - 1)) -> (0 < Z.of_nat fuel) ->
  (contains_loop m fuel a n s = true <-> forall i, 0 <= i < n -> page_ok (page_of (a + i))).
Proof.
  induction fuel as [| fuel IH]; intros a n Ha Hn Hm Hf Hpos; [lia |]. cbn [contains_loop].
  destruct (truthy n) eqn:En; bool_props; cbn [negb]; [| split; [lia | done]].
  assert (Hc : page_count a n = Z.min n (4096 - a mod 4096)).
  { unfold page_count. rewrite low12. destruct (Z.ltb_spec n (0x1000 - a mod 4096)); lia. }
  pose proof (Z.mod_pos_bound a 4096 ltac:(lia)) as Hmod. unfold in_w in Ha.
  change (2 ^ 64) with 18446744073709551616 in Ha.
  set (c := page_count a n) in *. assert (Hu : u64 (a + c) = a + c).
  { apply wrap_small. unfold in_w. change (2 ^ 64) with 18446744073709551616. lia. }
  assert (Hw : forall i, 0 <= i < n -> in_w 64 (a + i)) by (intros; unfold in_w; change (2 ^ 64) with 18446744073709551616; lia).
  assert (Hsame : forall i, 0 <= i < c -> page_of (a + i) = page_of a).
  { intros i Hi. rewrite !page_of_value; [| unfold in_w; change (2 ^ 64) with 18446744073709551616; lia | apply Hw; lia]. dlia. }
  assert (Hrest : (forall i, 0 <= i < n -> page_ok (page_of (a + i))) <->
    page_ok (page_of a) /\ (forall i, 0 <= i < n - c -> page_ok (page_of (a + c + i)))).
  { split.
    - intros H1. split; [rewrite <- (Z.add_0_r a); apply H1; lia |]. intros i Hi. rewrite <- Z.add_assoc. apply H1. lia.
    - intros [H1 H2] i Hi. destruct (Z.lt_ge_cases i c); [rewrite Hsame by lia; exact H1 |].
      replace (a + i) with (a + c + (i - c)) by lia. apply H2. lia. }
  rewrite Hrest. destruct (_ || _ || _) eqn:Et.
  - split; [done |]. intros [Hp _]. apply page_test in Hp. congruence.
  - rewrite page_test in Et. rewrite Hu, IH.
    + tauto.
    + unfold in_w. change (2 ^ 64) with 18446744073709551616. lia.
    + lia.
    + lia.
    + destruct (Z.eq_dec (n - c) 0); [by left | right].
      assert ((a + c) mod 4096 = 0) by (assert (c = 4096 - a mod 4096) as -> by lia; dlia). lia.
    + lia.
Qed.
End contains.

(** The check that guards every access of the admin ring to guest memory accepts
    exactly the non-empty ranges that do not wrap around and all of whose pages are
    RAM, mapped for the guest where the hypervisor's lookup says: a byte of any other
    page makes it refuse. *)
Theorem s229_contains_exact {S} (m : machine S) address bytes (s : S) :
  in_w 64 address -> in_w 32 bytes ->
  (contained m address bytes s = true <->
   bytes <> 0 /\ address + bytes <= UINT64_MAX /\ forall i, 0 <= i < bytes -> page_ok m s (page_of (address + i))).
Proof.
  intros Ha Hb. unfold contained. unfold in_w in Hb. change (2 ^ 32) with 4294967296 in Hb.
  destruct (negb (truthy bytes) || (UINT64_MAX - bytes <? address)) eqn:E.
  - split; [done |]. intros (H1 & H2 & _). apply orb_true_iff in E as [E | E]; bool_props; lia.
  - bool_props. assert (Hd : 0 <= bytes / 0x1000 /\ bytes < 0x1000 * (bytes / 0x1000) + 0x1000) by dlia.
    pose proof (Z.mod_pos_bound address 4096 ltac:(lia)) as Hmod. unfold page_fuel.
    rewrite contains_loop_exact; [| done | lia | lia | right; rewrite Z2Nat.id by lia; lia | rewrite Z2Nat.id by lia; lia].
    split; [intros H1; split_and!; [lia | lia | exact H1] | tauto].
Qed.

(** ** A concrete machine

    RAM at 0x800000000, mapped one to one; the guest's admin queue holds the creation of
    a completion queue and of a submission queue, its I/O queue one write; the
    controller always succeeds. *)

Record demo_machine := mk_dm {
  d_fe : nwoas_frontend; d_fp : nvme_fp; d_diag : nvme_diag; d_map : nvme_cq_map; d_own : s229;
  d_line : bool; d_devs : list dev_cmd;
}.
#[export] Program Instance dm_fe : Lens demo_machine nwoas_frontend :=
  {| lget := d_fe; lset f s := mk_dm f (d_fp s) (d_diag s) (d_map s) (d_own s) (d_line s) (d_devs s) |}.
Solve All Obligations with (by intros; repeat match goal with s : demo_machine |- _ => destruct s end).
#[export] Program Instance dm_fp : Lens demo_machine nvme_fp :=
  {| lget := d_fp; lset p s := mk_dm (d_fe s) p (d_diag s) (d_map s) (d_own s) (d_line s) (d_devs s) |}.
Solve All Obligations with (by intros; repeat match goal with s : demo_machine |- _ => destruct s end).
#[export] Program Instance dm_diag : Lens demo_machine nvme_diag :=
  {| lget := d_diag; lset d s := mk_dm (d_fe s) (d_fp s) d (d_map s) (d_own s) (d_line s) (d_devs s) |}.
Solve All Obligations with (by intros; repeat match goal with s : demo_machine |- _ => destruct s end).
#[export] Program Instance dm_map : Lens demo_machine nvme_cq_map :=
  {| lget := d_map; lset c s := mk_dm (d_fe s) (d_fp s) (d_diag s) c (d_own s) (d_line s) (d_devs s) |}.
Solve All Obligations with (by intros; repeat match goal with s : demo_machine |- _ => destruct s end).
#[export] Program Instance dm_own : Lens demo_machine s229 :=
  {| lget := d_own; lset a s := mk_dm (d_fe s) (d_fp s) (d_diag s) (d_map s) a (d_line s) (d_devs s) |}.
Solve All Obligations with (by intros; repeat match goal with s : demo_machine |- _ => destruct s end).

Definition dm_dev (d : dev_cmd) (s : demo_machine) : demo_machine :=
  mk_dm (d_fe s) (d_fp s) (d_diag s) (d_map s) (d_own s) (d_line s) (d_devs s ++ [d]).
Definition dm_memory (pa n : Z) : list Z :=
  if negb (n =? 64) then replicate (Z.to_nat n) 0
  else if pa =? 0x800030000 then create_cq_cmd 1 0x800020000 4 true
  else if pa =? 0x800030040 then create_sq_cmd 2 0x800010000 4
  else demo_cmd.

Definition dm_env : fp_env demo_machine := {|
  hv_pt_walk ipa _ := ipa .| 3;
  vaddr_bits := 36;
  ram_base := 0x800000000;
  mem_size_actual := 0x400000000;
  mem_read pa n s := (dm_memory pa n, s);
  mem_write _ _ s := (tt, s);
  mem_store16 _ _ s := (tt, s);
  dma_rmb s := (tt, s);
  dma_wmb s := (tt, s);
  cntpct s := (0, s);
  at_el1 _ _ s := (1, s);
  nvme_rw_guest w lba n _ _ s := (1, dm_dev (DevRW w lba n) s);
  nvme_flush _ s := (true, dm_dev DevFlush s);
  hv_exc_proxy r s := (mk_req (req_magic r) 0 0 0 0 0 [] 0 0 0 0, s);
  LINK_MAGIC := 0x4e564c4b; LINK_VERSION := 1; LINK_SIZE := 96; LINK_DONE := 1;
  set_fast_irq b s := (tt, mk_dm (d_fe s) (d_fp s) (d_diag s) (d_map s) (d_own s) b (d_devs s));
|}.
Definition dm : machine demo_machine := {|
  m_env := dm_env;
  nvme_guest_page_pa page _ := if (0x800000000 <=? page) && (page <? 0xc00000000) then page else 0;
  nwoas_nvme_set_irq _ s := (tt, s);
|}.
Definition dm_view (s : demo_machine) : obs := mk_obs (d_fe s) (d_fp s) (d_own s) (d_line s) (d_devs s).

Lemma dm_memory_ok pa n : bytes_ok (dm_memory pa n) /\ (0 <= n -> zlen (dm_memory pa n) = n).
Proof.
  unfold dm_memory. destruct (Z.eqb_spec n 64) as [-> | _]; cbn [negb].
  - destruct (pa =? 0x800030000); [| destruct (pa =? 0x800030040)]; split; try done; first [apply demo_cmd_bytes | by apply admin_cmd_fields].
  - split; [by apply Forall_replicate | intros; unfold zlen; rewrite length_replicate; lia].
Qed.

#[export] Instance dm_machine : Machine dm dm_view.
Proof.
  split; try done.
  - intros pa n s. apply dm_memory_ok.
  - intros r s. by exists [].
Qed.

Definition dm_boot : demo_machine :=
  mk_dm demo_fe_zero.1 fp_zero (mk_diag 0 0 0 0 0 0 0 0 0 0) (mk_cq_map 0 0 0 0 0 0 0 0 false) s229_zero false [].
Definition dm_enabled : demo_machine := (s229_enable dm 0x1000000 5 dm_boot).2.

(** The guest programs AQA, ASQ and ACQ, enables the controller, submits the two
    creations and then the write. *)
Definition dm_script : list (Z * Z * Z) :=
  [(0x24, 2, 0x00030003); (0x28, 3, 0x800030000); (0x30, 3, 0x800040000); (0x14, 2, 0x460001);
   (0x1000, 2, 2); (0x1008, 2, 1)].
Definition dm_run (l : list (Z * Z * Z)) (s : demo_machine) : demo_machine :=
  foldl (fun s '(o, w, v) => (mmio dm demo_ctx (NWOAS_NVME_BAR + o) v true w s).2) s l.
Definition dm_end : demo_machine := dm_run dm_script dm_enabled.

Example dm_states :
  armed (d_fp (dm_run (take 4 dm_script) dm_enabled)) = false /\
  armed (d_fp (dm_run (take 5 dm_script) dm_enabled)) = true /\
  FastPath.sq_base (d_fp dm_end) = 0x800010000 /\ FastPath.cq_base (d_fp dm_end) = 0x800020000 /\
  cq_pending (d_fp dm_end) = 1 /\ r_pending (ring (d_fe dm_end)) = 2 /\ ob_line (dm_view dm_end) = true /\
  d_devs dm_end = [DevRW true NWOAS_NVME_WRITE_FIRST_LBA 1].
Proof. by vm_compute. Qed.

Lemma dm_enabled_reach : adapter_reach dm dm_view dm_enabled.
Proof.
  apply ar_enable; [| done | done | by vm_compute]. split; try done; apply fp_zero_inv.
Qed.

Lemma dm_run_reach l s : Forall (fun x => in_w 64 x.2) l -> adapter_reach dm dm_view s -> adapter_reach dm dm_view (dm_run l s).
Proof.
  intros Hl. revert s. induction Hl as [| [[o w] v] l Hv _ IH]; intros s Hs; [done |]. by apply IH, ar_mmio.
Qed.

Lemma dm_end_reach : adapter_reach dm dm_view dm_end.
Proof. apply dm_run_reach; [| apply dm_enabled_reach]. by repeat constructor. Qed.

(** The host arms the fast path by hand for other queues: the call is accepted, and
    the engine, armed and not faulted, serves those instead of the guest's.  Another
    arm, of queues outside RAM, is refused and is among the calls of [adapter_reach]. *)
Definition dm_hand : host_call := mk_call 1 0x800050000 8 0x800060000 8 1.
Definition dm_bad_hand : host_call := mk_call 1 0x50000 8 0x60000 8 1.
Example hand_armed :
  host_result dm dm_hand dm_end = 1 /\
  (let s := host_control dm dm_hand dm_end in
   armed (d_fp s) = true /\ faulted (d_fp s) = false /\ FastPath.sq_base (d_fp s) = 0x800050000 /\
   q_base (sq (admin (ring (d_fe s)))) = 0x800010000) /\
  call_ok dm dm_bad_hand dm_end.
Proof. by vm_compute. Qed.

Lemma adapter_reach_inv_witness :
  let f := ob_fe (dm_view dm_end) in let p := ob_fp (dm_view dm_end) in
  fe_inv f (ob_line (dm_view dm_end)) /\ (exists n, ring_inv n (ring f)) /\ fp_inv p /\ link_busy p = false /\
  (armed p = true -> faulted p = false ->
   active (ring f) = true /\ q_present (sq (admin (ring f))) = true /\ q_present (cq (admin (ring f))) = true /\
   same_queues (admin (ring f)) p).
Proof. exact (adapter_reach_inv dm dm_view dm_end dm_end_reach). Defined.

Lemma dm_end_line : ob_line (dm_view dm_end) = true.
Proof. apply dm_states. Qed.

Lemma adapter_line_exact_witness :
  let f := ob_fe (dm_view dm_end) in let p := ob_fp (dm_view dm_end) in
  (outstanding (admin (ring f)) p || (active (ring f) && truthy (r_pending (ring f)))) &&
  negb (Z.testbit (NvmeControl.mask (control f)) 0) && negb (Z.testbit (command (control f)) 10) &&
  negb (Z.testbit (csts (control f)) 1) && negb (backend_fault f) = true.
Proof. exact (eq_trans (eq_sym (adapter_line_exact dm dm_view dm_end dm_end_reach)) dm_end_line). Defined.

Lemma adapter_device_guard_witness : Forall dev_ok (ob_devs (dm_view dm_end)).
Proof. exact (adapter_device_guard dm dm_view dm_end dm_end_reach). Defined.

Lemma dm_widths : in_w 64 0x800030fc0 /\ in_w 32 0x80.
Proof. by repeat split. Qed.

Lemma s229_contains_exact_witness :
  contained dm 0x800030fc0 0x80 dm_end = true <->
  0x80 <> 0 /\ 0x800030fc0 + 0x80 <= UINT64_MAX /\ forall i, 0 <= i < 0x80 -> page_ok dm dm_end (page_of (0x800030fc0 + i)).
Proof. exact (s229_contains_exact dm 0x800030fc0 0x80 dm_end (proj1 dm_widths) (proj2 dm_widths)). Defined.
