(* ===== verification/GuestPtr.v ===== *)
(** * Guest pointers through the stage-2 tables

    The fast path ([FastPath.v]) turns a queue address of the guest into a host
    address with [nwoas_ipa_to_pa], from a walk of the tables [HvMap.v] builds.
    Here the two are put together: the walk that [FastPath] takes as a parameter
    is the one of [HvMap] on a store that implements a map of requests. *)

From stdpp Require Import gmap.
From S2P Require Import Prelude HvMap FastPath.

Section composed.
Context {S : Type} (e : fp_env S) (s : S) (t : hv_pt).

(** The environment walks the tables of [t]. *)
Definition walks_tables : Prop :=
  FastPath.vaddr_bits e = HvMap.vaddr_bits t /\
  forall a, in_space t a -> HvMap.hv_pt_walk a t = Some (FastPath.hv_pt_walk e a s, t).

Definition page (ipa : Z) : Z := ipa / 2 ^ 14 * 2 ^ 14.

Lemma page_of ipa : in_w 64 ipa -> ipa .& cnot 64 (2 ^ FastPath.VADDR_L3_OFFSET_BITS - 1) = page ipa.
Proof. intros Hi. by apply land_cnot_mask. Qed.

Lemma page_offset_of ipa : ipa .& (2 ^ FastPath.VADDR_L3_OFFSET_BITS - 1) = ipa mod 2 ^ 14.
Proof. by apply land_ones_mod. Qed.

(** The page part of a walk result is the page of its target. *)
Lemma target_page pte p : backing_of pte = Some p -> pte .& FastPath.PTE_TARGET_MASK = page p.2.
Proof.
  unfold backing_of. destruct (pte =? 0); [done |]. intros [= <-]. cbn [snd].
  change FastPath.PTE_TARGET_MASK with HvMap.PTE_TARGET_MASK. rewrite target_value, target4_value. unfold page. dlia.
Qed.

Lemma page_lor q o : 0 <= o < 2 ^ 14 -> page q .| o = page q + o.
Proof.
  intros Ho. unfold page. rewrite Z.lor_comm, <- Z.shiftl_mul_pow2 by lia. rewrite lor_shiftl_add; [| lia | done].
  rewrite Z.shiftl_mul_pow2 by lia. lia.
Qed.

Context (m : Z -> backing) (Hm : implements t m) (Hw : walks_tables).

Lemma ipa_to_pa_value ipa : in_w 64 ipa ->
  nwoas_ipa_to_pa e ipa s =
    if ipa <? 2 ^ HvMap.vaddr_bits t then
      match m (page ipa) with None => 0 | Some (_, q) => page q + ipa mod 2 ^ 14 end
    else 0.
Proof.
  intros Hi. destruct Hw as [Ev Hwalk]. destruct Hm as [_ Ht]. unfold nwoas_ipa_to_pa. rewrite Ev, page_of, page_offset_of by done.
  destruct (Z.ltb_spec ipa (2 ^ HvMap.vaddr_bits t)) as [Hlt | Hge].
  2: { by rewrite (proj2 (Z.leb_le _ _)). }
  rewrite (proj2 (Z.leb_gt _ _)) by done.
  assert (Hin : in_space t (page ipa)) by (unfold in_space, page, in_w in *; dlia).
  specialize (Ht _ Hin). specialize (Hwalk _ Hin). unfold translate in Ht. rewrite Hwalk in Ht. cbn in Ht.
  injection Ht as Ht. rewrite <- Ht. destruct (backing_of _) as [[k q]|] eqn:Eb.
  - rewrite (target_page _ _ Eb). unfold backing_of in Eb. destruct (_ =? 0); [done |].
    rewrite page_lor by (apply Z.mod_pos_bound; lia). done.
  - unfold backing_of in Eb. destruct (_ =? 0); [done |]. discriminate.
Qed.

End composed.

(** Nothing of an accepted buffer wraps. *)
Lemma guest_ptr_bounds {S} (e : fp_env S) ipa len s pa : in_w 64 len -> in_w 64 ipa ->
  nwoas_nvme_guest_ptr e ipa len s = Some pa ->
  nwoas_ipa_to_pa e ipa s = pa /\ (ipa mod 2 ^ 14 <= pa < 2 ^ 64 -> 0 < len /\ FastPath.ram_base e <= pa /\
    pa + len <= u64 (FastPath.ram_base e + FastPath.mem_size_actual e) /\ ipa mod 2 ^ 14 + len <= 2 ^ 14).
Proof.
  unfold nwoas_nvme_guest_ptr. set (q := nwoas_ipa_to_pa e ipa s). intros Hl Hi. rewrite page_offset_of.
  destruct (q =? 0); cbn [orb]; [done |]. unfold nwoas_in_dram, truthy.
  destruct (Z.eqb_spec len 0) as [| Hn]; cbn [negb andb]; [done |].
  destruct (Z.leb_spec (FastPath.ram_base e) q), (Z.ltb_spec q (u64 (q + len))),
    (Z.leb_spec (u64 (q + len)) (u64 (FastPath.ram_base e + FastPath.mem_size_actual e))); cbn [negb andb]; try done.
  destruct (Z.ltb_spec FastPath.PAGE_SIZE (u64 (ipa mod 2 ^ 14 + len))) as [| Hpage]; [done |]. intros [= <-].
  split; [done |]. intros Hq. unfold in_w in *. unfold FastPath.PAGE_SIZE in *.
  set (R := u64 (FastPath.ram_base e + FastPath.mem_size_actual e)) in *. clearbody R q. unfold wrap in *. dlia.
Qed.

(** C25. A buffer the fast path accepts inside a hardware mapping is the memory the
    guest sees there: each of its words walks to the host word at the same place
    of the accepted buffer, which lies in DRAM and in one page. *)
Theorem guest_ptr_backed {S} (e : fp_env S) (s : S) t m nc from to size ipa len pa :
  implements t (rq_apply m (MapHw nc from to size)) -> walks_tables e s t ->
  rq_valid (HvMap.vaddr_bits t) (MapHw nc from to size) -> rq_aligned (MapHw nc from to size) = true ->
  from <= ipa < from + size -> in_w 64 len ->
  nwoas_nvme_guest_ptr e ipa len s = Some pa ->
  pa = to + (ipa - from) /\ FastPath.ram_base e <= pa /\
  pa + len <= u64 (FastPath.ram_base e + FastPath.mem_size_actual e) /\
  forall d, 0 <= d < len -> translate t (ipa + d) = Some (Some (0, word (pa + d))).
Proof.
  intros Hm Hw Hr Hal Hin Hlen Hptr. pose proof Hr as (H0 & Hs & Hend & Hto & Hlim & Htm). cbn [rq_range fst snd] in *.
  unfold rq_aligned in Hal. cbn [rq_range rq_grain fst snd] in Hal. apply andb_true_iff in Hal as [Ef%Z.eqb_eq Es%Z.eqb_eq].
  assert (Hb44 : 2 ^ HvMap.vaddr_bits t <= 2 ^ 44).
  { destruct Hm as [[N Ht] _]. apply Z.pow_le_mono_r; [lia | apply Ht]. }
  assert (Hipa : in_w 64 ipa) by (unfold in_w; lia).
  assert (Happ : forall a, from <= a < from + size -> rq_apply m (MapHw nc from to size) a = Some (0, to + word (a - from))).
  { intros a Ha. unfold rq_apply, rq_aligned. cbn [rq_range rq_grain rq_backing fst snd]. rewrite Ef, Es. cbn [Z.eqb andb].
    by rewrite (proj2 (Z.leb_le _ _)), (proj2 (Z.ltb_lt _ _)) by lia. }
  destruct (guest_ptr_bounds e ipa len s pa Hlen Hipa Hptr) as [Epa Hbounds].
  rewrite (ipa_to_pa_value e s t _ Hm Hw) in Epa by done. rewrite (proj2 (Z.ltb_lt _ _)) in Epa by lia.
  rewrite Happ in Epa by (unfold page; dlia).
  assert (Hpa : pa = to + (ipa - from)) by (rewrite <- Epa; unfold page, word; dlia).
  destruct (Hbounds ltac:(dlia)) as (Hl & Hb1 & Hb2 & Hpage). split_and!; [done | done | done |].
  intros d Hd. assert (Hrange : from <= ipa + d < from + size) by dlia.
  destruct Hm as [_ Hm]. rewrite Hm by (unfold in_space; lia). rewrite Happ by done. rewrite <- word_add by dlia.
  rewrite Hpa. by replace (to + (ipa + d - from)) with (to + (ipa - from) + d) by lia.
Qed.

(** ** A run: two pages of DRAM behind guest addresses 0x10000 to 0x18000 *)

Definition demo_map : request := MapHw false 0x10000 0x800020000 0x8000.
Definition demo_tables : hv_pt :=
  match issue (demo_memalign demo_limit) demo_up demo_down 0x800000000 0x850000000 demo_map demo_ready with
  | Some (_, t) => t
  | None => demo_ready
  end.

Lemma demo_ready_empty : implements demo_ready (fun _ => None).
Proof.
  assert (Hlim : (stdpp.base.size (tables demo_pt) < demo_limit)%nat)
    by (change (stdpp.base.size (tables demo_pt)) with 0%nat; unfold demo_limit; lia).
  pose proof (init_spec (demo_memalign demo_limit) demo_limit 1 36 demo_pt ltac:(lia) eq_refl Hlim) as Hi.
  unfold runs in Hi. unfold demo_ready. destruct (hv_pt_init _ _ _) as [[v s]|]; [| done]. apply Hi.
Qed.

Lemma demo_map_valid : rq_valid 36 demo_map.
Proof. unfold rq_valid, demo_map. cbn [rq_range fst snd]. split_and!; done || lia. Qed.

Lemma demo_tables_ok : HvMap.vaddr_bits demo_tables = 36 /\ implements demo_tables (rq_apply (fun _ => None) demo_map).
Proof.
  destruct demo_ready_ok as (Eb & S1 & _). pose proof demo_map_valid as Hv. rewrite <- Eb in Hv.
  assert (Hroom : (stdpp.base.size (tables demo_ready) + rq_cost demo_map <= demo_limit)%nat).
  { change (rq_cost demo_map) with (3 * Z.to_nat 8192)%nat. unfold demo_limit. lia. }
  pose proof (issue_spec (demo_memalign demo_limit) demo_limit demo_up demo_down 0x800000000 0x850000000
    demo_align_up demo_align_down demo_base_ok demo_map demo_ready _ demo_ready_empty Hv Hroom) as Hi.
  unfold runs in Hi. unfold demo_tables. destruct (issue _ _ _ _ _ _ _) as [[x t]|]; [| done].
  destruct Hi as (_ & E & _ & Hm). split; [congruence | exact Hm].
Qed.

(** The fast path's demonstration environment over these tables. *)
Definition demo_walking_env : fp_env demo_fp := {|
  FastPath.hv_pt_walk a _ := match HvMap.hv_pt_walk a demo_tables with Some (pte, _) => pte | None => 0 end;
  FastPath.vaddr_bits := 36;
  FastPath.ram_base := 0x800000000;
  mem_size_actual := 0x400000000;
  mem_read := mem_read demo_fp_env;
  mem_write := mem_write demo_fp_env;
  mem_store16 := mem_store16 demo_fp_env;
  dma_rmb := dma_rmb demo_fp_env;
  dma_wmb := dma_wmb demo_fp_env;
  cntpct := cntpct demo_fp_env;
  at_el1 := at_el1 demo_fp_env;
  nvme_rw_guest := nvme_rw_guest demo_fp_env;
  nvme_flush := nvme_flush demo_fp_env;
  hv_exc_proxy := hv_exc_proxy demo_fp_env;
  LINK_MAGIC := LINK_MAGIC demo_fp_env;
  LINK_VERSION := LINK_VERSION demo_fp_env;
  LINK_SIZE := LINK_SIZE demo_fp_env;
  LINK_DONE := LINK_DONE demo_fp_env;
  set_fast_irq := set_fast_irq demo_fp_env;
|}.

Lemma demo_walking : walks_tables demo_walking_env demo_boot demo_tables.
Proof.
  destruct demo_tables_ok as [E [[N Ht] _]]. split; [by rewrite E |]. intros a Ha.
  destruct (walk_spec demo_tables N a Ht Ha) as (pte & Hw & _). cbn [FastPath.hv_pt_walk demo_walking_env]. by rewrite Hw.
Qed.
Lemma demo_map_valid_here : rq_valid (HvMap.vaddr_bits demo_tables) demo_map.
Proof. destruct demo_tables_ok as [-> _]. exact demo_map_valid. Qed.
Lemma demo_inside : 0x10000 <= 0x14008 < 0x10000 + 0x8000. Proof. lia. Qed.
Lemma demo_len : in_w 64 64. Proof. by split. Qed.

Lemma demo_ptr : nwoas_nvme_guest_ptr demo_walking_env 0x14008 64 demo_boot = Some 0x800024008.
Proof.
  unfold nwoas_nvme_guest_ptr.
  rewrite (ipa_to_pa_value demo_walking_env demo_boot demo_tables _ (proj2 demo_tables_ok) demo_walking) by done.
  rewrite (proj1 demo_tables_ok). lazy. done.
Qed.

Lemma guest_ptr_backed_witness :
  0x800024008 = 0x800020000 + (0x14008 - 0x10000) /\ FastPath.ram_base demo_walking_env <= 0x800024008 /\
  0x800024008 + 64 <= u64 (FastPath.ram_base demo_walking_env + FastPath.mem_size_actual demo_walking_env) /\
  forall d, 0 <= d < 64 -> translate demo_tables (0x14008 + d) = Some (Some (0, word (0x800024008 + d))).
Proof.
  exact (guest_ptr_backed demo_walking_env demo_boot demo_tables _ false 0x10000 0x800020000 0x8000 0x14008 64 0x800024008
    (proj2 demo_tables_ok) demo_walking demo_map_valid_here eq_refl demo_inside demo_len demo_ptr).
Defined.
