(* ===== verification/Wire.v ===== *)
(** * The wire format of the file delivery channel ([file-delivery-s168/client/wire.h])

    Pure functions on buffers: the CRC, the request block, the parser of the
    response window and the checks of a parsed response.  [wire_resp] holds the
    scalar fields; the pointers [sha256] and [payload] of the structure point
    into the window and are the accessors [resp_sha] and [resp_payload] of it.  A
    failing parser may have stored some fields; its callers do not read them, and
    the model returns the status alone. *)

From S2P Require Import Prelude.

(** ** Constants *)

Definition WIRE_BLOCK : Z := 4096.
Definition WIRE_REQ_LBA : Z := 127.
Definition WIRE_PORT_LBA : Z := 128.
Definition WIRE_RESP_LBA : Z := 129.
Definition WIRE_WINDOW_BLOCKS : Z := 16.
Definition WIRE_WINDOW_BYTES : Z := WIRE_WINDOW_BLOCKS * WIRE_BLOCK.
Definition WIRE_HEADER : Z := 128.
Definition WIRE_PAYLOAD_CAP : Z := WIRE_WINDOW_BYTES - WIRE_HEADER.
Definition WIRE_TOKEN_LEN : Z := 16.
Definition WIRE_SHA_LEN : Z := 32.
Definition WIRE_SENTINEL : Z := 0xFFFFFFFFFFFFFFFF.
Definition WIRE_STATUS_DATA : Z := 0.
Definition WIRE_STATUS_FINAL : Z := 1.
Definition WIRE_STATUS_NONE : Z := 2.
Definition WIRE_STATUS_MANIFEST : Z := 3.

Inductive wire_status :=
| WIRE_OK | WIRE_E_SHORT | WIRE_E_MAGIC | WIRE_E_TOKEN | WIRE_E_HDRCRC | WIRE_E_RSVD
| WIRE_E_SERVED | WIRE_E_PAYCRC | WIRE_E_ID | WIRE_E_STATUS | WIRE_E_OFFSET | WIRE_E_SIZE.
#[export] Instance wire_status_eq : EqDecision wire_status.
Proof. solve_decision. Defined.

(** ** Bytes *)

(** One round of the inner loop, one byte, the whole CRC. *)
Definition crc_step (c : Z) : Z :=
  (c .>> 1) .^ (0xEDB88320 .& (if truthy (c .& 1) then 0xFFFFFFFF else 0)).
Definition crc_byte (c b : Z) : Z := Nat.iter 8 crc_step (c .^ b).
Definition wire_crc32 (p : list Z) (n : Z) : Z := cnot 32 (fold_left crc_byte (ztake n p) 0xFFFFFFFF).

Definition wire_rd32 (p : list Z) (o : Z) : Z :=
  byte_at p o .| (byte_at p (o + 1) .<< 8) .| (byte_at p (o + 2) .<< 16) .| (byte_at p (o + 3) .<< 24).
Definition wire_rd64 (p : list Z) (o : Z) : Z := wire_rd32 p o .| (wire_rd32 p (o + 4) .<< 32).
Definition wire_wr32 (o v : Z) (p : list Z) : list Z :=
  overwrite o [u8 v; u8 (v .>> 8); u8 (v .>> 16); u8 (v .>> 24)] p.
Definition wire_wr64 (o v : Z) (p : list Z) : list Z := wire_wr32 (o + 4) (u32 (v .>> 32)) (wire_wr32 o (u32 v) p).

(** ** Requests *)

Definition REQ_MAGIC : list Z := chars "NWOAS-S16x-REQ !".
Definition RESP_MAGIC : list Z := chars "NWOAS-S16x-FILE!".

Definition wire_build_request (token : list Z) (id offset len : Z) : list Z :=
  let b := zeros WIRE_BLOCK in
  let b := overwrite 0 REQ_MAGIC b in
  let b := overwrite 16 token b in
  let b := wire_wr32 32 id b in
  let b := wire_wr64 36 offset b in
  let b := wire_wr32 44 len b in
  wire_wr32 48 (wire_crc32 b 48) b.

(** ** Responses *)

Record wire_resp := mk_resp {
  id : Z; status : Z; file_size : Z; offset : Z; served : Z; payload_crc : Z; header_crc : Z;
}.
Definition resp_sha (win : list Z) : list Z := ztake WIRE_SHA_LEN (zdrop 64 win).
Definition resp_payload (win : list Z) (r : wire_resp) : list Z := ztake (served r) (zdrop WIRE_HEADER win).

(** The loop that compares [n] bytes at [o] with [m]. *)
Fixpoint match_at (p : list Z) (o : Z) (m : list Z) : bool :=
  match m with
  | [] => true
  | b :: m => if byte_at p o =? b then match_at p (o + 1) m else false
  end.

Definition wire_parse_response (win : list Z) (winlen : Z) (token : list Z) : wire_status + wire_resp :=
  if winlen <? WIRE_HEADER then inl WIRE_E_SHORT
  else if negb (match_at win 0 RESP_MAGIC) then inl WIRE_E_MAGIC
  else if negb (match_at win 16 token) then inl WIRE_E_TOKEN
  else
    let hc := wire_rd32 win 124 in
    if negb (wire_crc32 win 124 =? hc) then inl WIRE_E_HDRCRC
    else if negb (match_at win 96 (zeros 28)) then inl WIRE_E_RSVD
    else
      let r := mk_resp (wire_rd32 win 32) (wire_rd32 win 36) (wire_rd64 win 40) (wire_rd64 win 48)
        (wire_rd32 win 56) (wire_rd32 win 60) hc in
      if WIRE_PAYLOAD_CAP <? served r then inl WIRE_E_SERVED
      else if winlen <? WIRE_HEADER + served r then inl WIRE_E_SERVED
      else if negb (wire_crc32 (zdrop WIRE_HEADER win) (served r) =? payload_crc r) then inl WIRE_E_PAYCRC
      else inr r.

Definition wire_check_manifest (r : wire_resp) (i : Z) : wire_status :=
  if negb (id r =? i) then WIRE_E_ID
  else if negb (status r =? WIRE_STATUS_MANIFEST) then WIRE_E_STATUS
  else if negb (offset r =? WIRE_SENTINEL) then WIRE_E_OFFSET
  else if negb (served r =? 0) then WIRE_E_SERVED
  else WIRE_OK.

Definition wire_check_data (r : wire_resp) (i off requested size : Z) : wire_status :=
  if negb (id r =? i) then WIRE_E_ID
  else if negb (offset r =? off) then WIRE_E_OFFSET
  else if negb (file_size r =? size) then WIRE_E_SIZE
  else if (size <? off) || (u64 (size - off) <? served r) then WIRE_E_SIZE
  else if status r =? WIRE_STATUS_DATA then
    if negb (served r =? requested) then WIRE_E_SERVED else WIRE_OK
  else if status r =? WIRE_STATUS_FINAL then
    if requested <=? served r then WIRE_E_SERVED
    else if negb (u64 (off + served r) =? size) then WIRE_E_SIZE
    else WIRE_OK
  else WIRE_E_STATUS.

(** ** The CRC

    [crc_step] is a linear and injective map of 32-bit words, and a byte
    string of up to four bytes enters the register as one word. *)

(** The register's rounds are not to be evaluated by conversion. *)
#[local] Strategy 100 [crc_step].
#[local] Strategy expand [crc_byte].

Lemma crc_step_xor a b : crc_step (a .^ b) = crc_step a .^ crc_step b.
Proof.
  unfold crc_step. rewrite !truthy_bit0, Z.lxor_spec, Z.shiftr_lxor.
  destruct (Z.testbit a 0), (Z.testbit b 0); cbn [xorb].
  all: apply Z.bits_inj'; intros i Hi; rewrite ?Z.land_0_r, ?Z.lxor_0_r, !Z.lxor_spec; try done.
  all: by destruct (Z.testbit (a .>> 1) i), (Z.testbit (b .>> 1) i), (Z.testbit (_ .& _) i).
Qed.

Lemma iter_xor n a b : Nat.iter n crc_step (a .^ b) = Nat.iter n crc_step a .^ Nat.iter n crc_step b.
Proof. induction n as [| n IH]; [done |]. cbn [Nat.iter nat_rect]. unfold Nat.iter in IH. by rewrite IH, crc_step_xor. Qed.

Lemma crc_step_range c : in_w 32 c -> in_w 32 (crc_step c).
Proof.
  intros Hc. unfold crc_step. apply in_w_testbit; [done | |].
  - apply Z.lxor_nonneg. split; intros _; [| apply Z.shiftr_nonneg, Hc].
    apply Z.land_nonneg. left. done.
  - intros i Hi. rewrite Z.lxor_spec, Z.shiftr_spec, Z.land_spec, (testbit_in_w 32 c) by (done || lia).
    by rewrite (testbit_in_w 32 0xEDB88320 i) by (done || split; done || lia).
Qed.

Lemma crc_step_zero c : in_w 32 c -> crc_step c = 0 -> c = 0.
Proof.
  intros Hc H. assert (H0 : Z.testbit c 0 = false).
  { destruct (Z.testbit c 0) eqn:E; [| done]. exfalso.
    apply (f_equal (fun z => Z.testbit z 31)) in H. unfold crc_step in H.
    rewrite truthy_bit0, E, Z.lxor_spec, Z.shiftr_spec, (testbit_in_w 32 c) in H by (done || lia). done. }
  unfold crc_step in H. rewrite truthy_bit0, H0, Z.land_0_r, Z.lxor_0_r in H.
  apply Z.bits_inj'. intros i Hi. rewrite Z.bits_0. destruct (Z.eq_dec i 0) as [-> |]; [done |].
  apply (f_equal (fun z => Z.testbit z (i - 1))) in H. rewrite Z.shiftr_spec, Z.bits_0 in H by lia.
  by replace (i - 1 + 1) with i in H by lia.
Qed.

Lemma iter_range n c : in_w 32 c -> in_w 32 (Nat.iter n crc_step c).
Proof. intros Hc. induction n; [done |]. by apply crc_step_range. Qed.

Lemma iter_zero n c : in_w 32 c -> Nat.iter n crc_step c = 0 -> c = 0.
Proof. intros Hc. induction n as [| n IH]; [done |]. intros H. apply IH, crc_step_zero; [by apply iter_range | exact H]. Qed.

Lemma in_w_lxor w a b : 0 <= w -> in_w w a -> in_w w b -> in_w w (a .^ b).
Proof.
  intros Hw Ha Hb. apply in_w_testbit; [done | |].
  - apply Z.lxor_nonneg. split; intros _; [apply Hb | apply Ha].
  - intros i Hi. by rewrite Z.lxor_spec, (testbit_in_w w a), (testbit_in_w w b) by (done || lia).
Qed.

Lemma iter_inj n a b : in_w 32 a -> in_w 32 b -> Nat.iter n crc_step a = Nat.iter n crc_step b -> a = b.
Proof.
  intros Ha Hb H. apply Z.lxor_eq, (iter_zero n); [by apply in_w_lxor |]. by rewrite iter_xor, H, Z.lxor_nilpotent.
Qed.

(** A word with its low byte clear moves down a byte. *)
Lemma iter_shift k y : Nat.iter k crc_step (y .<< Z.of_nat k) = y.
Proof.
  induction k as [| k IH]; [by rewrite Z.shiftl_0_r |]. rewrite Nat.iter_succ_r.
  assert (E : crc_step (y .<< Z.of_nat (S k)) = y .<< Z.of_nat k); [| by rewrite E].
  unfold crc_step. rewrite truthy_bit0, Z.shiftl_spec, Z.testbit_neg_r, Z.land_0_r, Z.lxor_0_r by lia.
  apply Z.bits_inj'. intros i Hi. rewrite Z.shiftr_spec, !Z.shiftl_spec by lia. f_equal. lia.
Qed.

Lemma lor_xor_byte b v : in_w 8 b -> b .| (v .<< 8) = b .^ (v .<< 8).
Proof.
  intros Hb. apply Z.bits_inj'. intros i Hi. rewrite Z.lor_spec, Z.lxor_spec, Z.shiftl_spec by done.
  destruct (Z.ltb_spec i 8).
  - by rewrite (Z.testbit_neg_r v), orb_false_r, xorb_false_r by lia.
  - by rewrite (testbit_in_w 8 b) by (done || lia).
Qed.

Lemma fold_left_cons {A B} (f : A -> B -> A) x l a : fold_left f (x :: l) a = fold_left f l (f a x).
Proof. done. Qed.

(** A run of bytes enters the register as the word it spells. *)
Lemma crc_word l c : bytes_ok l ->
  fold_left crc_byte l c = Nat.iter (8 * length l) crc_step (c .^ le_val l).
Proof.
  revert c. induction l as [| b l IH]; intros c Hl; [by rewrite Z.lxor_0_r |]. inversion_clear Hl as [| ? ? Hb Hl'].
  rewrite fold_left_cons. cbn [le_val length]. rewrite IH, lor_xor_byte, <- Z.lxor_assoc by done.
  replace (8 * S (length l))%nat with (8 * length l + 8)%nat by lia. rewrite Nat.iter_add. f_equal.
  unfold crc_byte. rewrite (iter_xor 8 (c .^ b)). by rewrite (iter_shift 8).
Qed.

Lemma crc_byte_range c b : in_w 32 c -> in_w 8 b -> in_w 32 (crc_byte c b).
Proof.
  intros Hc Hb. unfold crc_byte. apply iter_range, in_w_lxor; [done | done |]. by apply (in_w_mono 8).
Qed.

Lemma crc_byte_inj a b x : in_w 32 a -> in_w 32 b -> in_w 8 x -> crc_byte a x = crc_byte b x -> a = b.
Proof.
  intros Ha Hb Hx H. unfold crc_byte in H. assert (Hx32 : in_w 32 x) by (by apply (in_w_mono 8)).
  apply iter_inj in H; [| by apply in_w_lxor ..]. apply (f_equal (fun z => z .^ x)) in H.
  by rewrite !Z.lxor_assoc, Z.lxor_nilpotent, !Z.lxor_0_r in H.
Qed.

Lemma crc_range l c : in_w 32 c -> bytes_ok l -> in_w 32 (fold_left crc_byte l c).
Proof.
  intros Hc Hl. revert c Hc. induction Hl as [| b l Hb Hl IH]; intros c Hc; [done |].
  rewrite fold_left_cons. by apply IH, crc_byte_range.
Qed.

Lemma crc_suffix_inj l a b : in_w 32 a -> in_w 32 b -> bytes_ok l ->
  fold_left crc_byte l a = fold_left crc_byte l b -> a = b.
Proof.
  intros Ha Hb Hl. revert a b Ha Hb. induction Hl as [| x l Hx Hl IH]; intros a b Ha Hb H; [done |].
  rewrite !fold_left_cons in H. apply (IH (crc_byte a x) (crc_byte b x)) in H; [| by apply crc_byte_range ..].
  exact (crc_byte_inj a b x Ha Hb Hx H).
Qed.

Lemma cnot_inj a b : in_w 32 a -> in_w 32 b -> cnot 32 a = cnot 32 b -> a = b.
Proof.
  intros Ha Hb H. apply Z.bits_inj'. intros i Hi.
  destruct (Z.ltb_spec i 32); [| by rewrite !(testbit_in_w 32) by (done || lia)].
  apply (f_equal (fun z => Z.testbit z i)) in H. rewrite !testbit_cnot in H by lia.
  destruct (Z.ltb_spec i 32); [| lia]. cbn in H. by destruct (Z.testbit a i), (Z.testbit b i).
Qed.

Lemma crc_value l : wire_crc32 l (zlen l) = cnot 32 (fold_left crc_byte l 0xFFFFFFFF).
Proof. unfold wire_crc32. rewrite <- (app_nil_r l) at 2. by rewrite ztake_app. Qed.

(** ** Pieces of a buffer *)

Definition piece (o n : Z) (l : list Z) : list Z := ztake n (zdrop o l).

Lemma piece_skip a l o n : zlen a <= o -> piece o n (a ++ l) = piece (o - zlen a) n l.
Proof.
  intros H. pose proof (zlen_nonneg a). unfold piece, ztake, zdrop, zlen in *. rewrite drop_app, drop_ge by lia. cbn. do 2 f_equal. lia.
Qed.

Lemma piece_here a l n : zlen a = n -> piece 0 n (a ++ l) = a.
Proof. intros H. unfold piece. change (zdrop 0 (a ++ l)) with (a ++ l). by apply ztake_app. Qed.

Lemma zlen_piece o n l : 0 <= o -> 0 <= n -> o + n <= zlen l -> zlen (piece o n l) = n.
Proof. intros. unfold piece. apply zlen_ztake. rewrite zlen_zdrop by lia. lia. Qed.

Lemma bytes_ok_piece o n l : bytes_ok l -> bytes_ok (piece o n l).
Proof. intros. by apply bytes_ok_ztake, bytes_ok_zdrop. Qed.

Lemma zdrop_piece o n l : 0 <= o -> 0 <= n -> zdrop o l = piece o n l ++ zdrop (o + n) l.
Proof.
  intros. unfold piece. rewrite <- (ztake_zdrop n (zdrop o l)) at 1. f_equal. unfold zdrop. rewrite drop_drop. f_equal. lia.
Qed.

Lemma byte_at_piece o n l i : 0 <= o -> 0 <= i < n -> byte_at (piece o n l) i = byte_at l (o + i).
Proof.
  intros. unfold byte_at, piece, ztake, zdrop. rewrite !nth_lookup, lookup_take_lt, lookup_drop by lia. do 2 f_equal. lia.
Qed.

Lemma byte_at_cons b l i : 0 <= i -> byte_at (b :: l) (1 + i) = byte_at l i.
Proof. intros. unfold byte_at. replace (Z.to_nat (1 + i)) with (S (Z.to_nat i)) by lia. done. Qed.

Lemma list_of_bytes l n : zlen l = Z.of_nat n -> l = map (fun i => byte_at l (Z.of_nat i)) (seq 0 n).
Proof.
  intros H. apply list_eq. intros i. rewrite list_lookup_fmap. unfold zlen in H. destruct (decide (i < n)%nat) as [Hi | Hi].
  - rewrite lookup_seq_lt by done. cbn. unfold byte_at. rewrite nth_lookup, Nat2Z.id.
    destruct (lookup_lt_is_Some_2 l i) as [x ->]; [lia | done].
  - rewrite lookup_seq_ge by lia. by apply lookup_ge_None_2; lia.
Qed.

Lemma rd32_piece l o : 0 <= o -> o + 4 <= zlen l -> wire_rd32 l o = le_val (piece o 4 l).
Proof.
  intros Ho Hl. rewrite (list_of_bytes (piece o 4 l) 4) by (by apply zlen_piece). cbn [seq map].
  rewrite !byte_at_piece by lia. unfold wire_rd32. cbn [le_val].
  rewrite Z.shiftl_0_l, Z.lor_0_r, !Z.shiftl_lor, !Z.shiftl_shiftl, Z.add_0_r by done. by rewrite <- !Z.lor_assoc.
Qed.

Lemma rd64_piece l o : 0 <= o -> o + 8 <= zlen l -> wire_rd64 l o = le_val (piece o 8 l).
Proof.
  intros Ho Hl. rewrite (list_of_bytes (piece o 8 l) 8) by (by apply zlen_piece). cbn [seq map].
  rewrite !byte_at_piece by lia. unfold wire_rd64, wire_rd32. cbn [le_val].
  rewrite Z.shiftl_0_l, Z.lor_0_r, !Z.shiftl_lor, !Z.shiftl_shiftl, Z.add_0_r by done.
  replace (o + 4 + 1) with (o + 5) by lia. replace (o + 4 + 2) with (o + 6) by lia.
  replace (o + 4 + 3) with (o + 7) by lia. by rewrite <- !Z.lor_assoc.
Qed.

(** A field holds the value that is read from it. *)
Lemma piece_value n l o : bytes_ok l -> 0 <= o -> o + Z.of_nat n <= zlen l ->
  piece o (Z.of_nat n) l = le_bytes n (le_val (piece o (Z.of_nat n) l)) /\ in_w (8 * Z.of_nat n) (le_val (piece o (Z.of_nat n) l)).
Proof.
  intros Hl Ho Hn. assert (Hz : length (piece o (Z.of_nat n) l) = n).
  { pose proof (zlen_piece o (Z.of_nat n) l Ho ltac:(lia) Hn) as H. unfold zlen in H. lia. }
  pose proof (le_bytes_val _ (bytes_ok_piece o (Z.of_nat n) l Hl)) as E. rewrite Hz in E. split; [by symmetry |].
  pose proof (le_val_range _ (bytes_ok_piece o (Z.of_nat n) l Hl)) as R. by rewrite Hz in R.
Qed.

Lemma match_at_piece l m o : 0 <= o -> o + zlen m <= zlen l -> match_at l o m = true <-> piece o (zlen m) l = m.
Proof.
  revert o. induction m as [| b m IH]; intros o Ho Hl; [done |]. rewrite zlen_cons in *. pose proof (zlen_nonneg m).
  assert (E : piece o (1 + zlen m) l = byte_at l o :: piece (o + 1) (zlen m) l).
  { unfold piece. rewrite (zdrop_piece o 1) by lia. rewrite (list_of_bytes (piece o 1 l) 1) by (apply zlen_piece; lia).
    cbn [seq map app]. rewrite byte_at_piece, Z.add_0_r by lia. unfold ztake at 1.
    replace (Z.to_nat (1 + zlen m)) with (S (Z.to_nat (zlen m))) by lia. done. }
  cbn [match_at]. rewrite E. destruct (Z.eqb_spec (byte_at l o) b) as [-> | Hne].
  - rewrite IH by lia. split; [by intros -> | by intros [=]].
  - split; [done | by intros [=]].
Qed.

(** ** The encodings *)

(** The first 124 bytes of a response, and the whole. *)
Definition response_head (token : list Z) (r : wire_resp) (sha : list Z) : list Z :=
  RESP_MAGIC ++ token ++ le_bytes 4 (id r) ++ le_bytes 4 (status r) ++ le_bytes 8 (file_size r) ++
  le_bytes 8 (offset r) ++ le_bytes 4 (served r) ++ le_bytes 4 (payload_crc r) ++ sha ++ zeros 28.
Definition response (token : list Z) (r : wire_resp) (sha payload : list Z) : list Z :=
  response_head token r sha ++ le_bytes 4 (header_crc r) ++ payload.

Record resp_ok (token : list Z) (r : wire_resp) (sha payload : list Z) : Prop := {
  ro_id : in_w 32 (id r);
  ro_status : in_w 32 (status r);
  ro_size : in_w 64 (file_size r);
  ro_offset : in_w 64 (offset r);
  ro_served : 0 <= served r <= WIRE_PAYLOAD_CAP;
  ro_sha : zlen sha = WIRE_SHA_LEN /\ bytes_ok sha;
  ro_payload : zlen payload = served r /\ bytes_ok payload;
  ro_pcrc : payload_crc r = wire_crc32 payload (served r);
  ro_hcrc : header_crc r = wire_crc32 (response_head token r sha) 124;
}.

(** A request: 52 bytes of fields and zeros to the end of the block. *)
Definition request (token : list Z) (i off len : Z) : list Z :=
  let head := REQ_MAGIC ++ token ++ le_bytes 4 i ++ le_bytes 8 off ++ le_bytes 4 len in
  head ++ le_bytes 4 (wire_crc32 head 48) ++ zeros (WIRE_BLOCK - 52).
(** ** Requests *)

Lemma wr_bytes4 v : [u8 v; u8 (v .>> 8); u8 (v .>> 16); u8 (v .>> 24)] = le_bytes 4 v.
Proof. cbn [le_bytes]. by rewrite !Z.shiftr_shiftr. Qed.

Lemma wr32_zeros a o v n : o = zlen a -> 4 <= n ->
  wire_wr32 o v (a ++ zeros n) = (a ++ le_bytes 4 v) ++ zeros (n - 4).
Proof.
  intros -> Hn. unfold wire_wr32. rewrite wr_bytes4, overwrite_skip, Z.sub_diag by done.
  rewrite <- (app_nil_r (zeros n)), overwrite_zeros by (rewrite ?zlen_le_bytes; lia).
  rewrite zlen_le_bytes, zeros_0, Z.sub_0_r, app_nil_r, <- app_assoc. done.
Qed.

Lemma le_bytes_8 v : le_bytes 8 v = le_bytes 4 (u32 v) ++ le_bytes 4 (u32 (v .>> 32)).
Proof.
  rewrite <- !wr_bytes4. cbn [le_bytes app]. rewrite !Z.shiftr_shiftr by done.
  assert (H0 : forall x, u8 (u32 x) = u8 x) by (intros x; exact (byte_wrap 32 x 0 ltac:(lia) ltac:(lia))).
  assert (H1 : forall x, u8 (u32 x .>> 8) = u8 (x .>> 8)) by (intros x; exact (byte_wrap 32 x 1 ltac:(lia) ltac:(lia))).
  assert (H2 : forall x, u8 (u32 x .>> 16) = u8 (x .>> 16)) by (intros x; exact (byte_wrap 32 x 2 ltac:(lia) ltac:(lia))).
  assert (H3 : forall x, u8 (u32 x .>> 24) = u8 (x .>> 24)) by (intros x; exact (byte_wrap 32 x 3 ltac:(lia) ltac:(lia))).
  rewrite !H0, !H1, !H2, !H3. by rewrite !Z.shiftr_shiftr by lia.
Qed.

Lemma wr64_zeros a o v n : o = zlen a -> 8 <= n ->
  wire_wr64 o v (a ++ zeros n) = (a ++ le_bytes 8 v) ++ zeros (n - 8).
Proof.
  intros -> Hn. unfold wire_wr64. rewrite wr32_zeros by lia. rewrite wr32_zeros by (rewrite ?zlen_app, ?zlen_le_bytes; lia).
  rewrite le_bytes_8, !app_assoc. f_equal. f_equal. lia.
Qed.

Lemma overwrite_next a bs o n : o = zlen a -> zlen bs <= n -> overwrite o bs (a ++ zeros n) = (a ++ bs) ++ zeros (n - zlen bs).
Proof.
  intros -> Hn. pose proof (zlen_nonneg bs). rewrite overwrite_skip, Z.sub_diag by done.
  rewrite <- (app_nil_r (zeros n)), overwrite_zeros by lia.
  by rewrite zeros_0, Z.sub_0_r, app_nil_r, <- app_assoc.
Qed.

Lemma crc_prefix a l n : zlen a = n -> wire_crc32 (a ++ l) n = wire_crc32 a n.
Proof. intros E. unfold wire_crc32. rewrite ztake_app by done. rewrite <- (app_nil_r a) at 2. by rewrite ztake_app. Qed.

Lemma build_request token i off len : zlen token = 16 -> wire_build_request token i off len = request token i off len.
Proof.
  intros Ht. unfold wire_build_request, request. assert (HM : zlen REQ_MAGIC = 16) by done. set (M := REQ_MAGIC) in *. clearbody M.
  change (zeros WIRE_BLOCK) with ([] ++ zeros WIRE_BLOCK). unfold WIRE_BLOCK.
  rewrite !(overwrite_next [] M 0 4096) by (rewrite ?zlen_nil, ?HM; done). cbn [app].
  rewrite !(overwrite_next M token) by (rewrite ?Ht, ?HM; done || lia). rewrite wr32_zeros by (rewrite ?zlen_app; lia).
  rewrite wr64_zeros by (rewrite ?zlen_app, ?zlen_le_bytes; lia).
  rewrite wr32_zeros by (rewrite ?zlen_app, ?zlen_le_bytes; lia).
  rewrite crc_prefix by (rewrite ?zlen_app, ?zlen_le_bytes; lia).
  rewrite wr32_zeros by (rewrite ?zlen_app, ?zlen_le_bytes; lia).
  rewrite <- !app_assoc. do 6 f_equal. f_equal. lia.
Qed.

(** ** Responses *)

Lemma zlen_head token r sha : zlen token = 16 -> zlen sha = 32 -> zlen (response_head token r sha) = 124.
Proof. intros Ht Hs. unfold response_head. rewrite !zlen_app, !zlen_le_bytes, Ht, Hs. done. Qed.

(** A window cut at the fields of the format. *)
Lemma window_pieces win : 128 <= zlen win ->
  win = (piece 0 16 win ++ piece 16 16 win ++ piece 32 4 win ++ piece 36 4 win ++ piece 40 8 win ++ piece 48 8 win ++
    piece 56 4 win ++ piece 60 4 win ++ piece 64 32 win ++ piece 96 28 win) ++ piece 124 4 win ++ zdrop 128 win.
Proof.
  intros Hl. rewrite <- !app_assoc. rewrite <- (zdrop_piece 124 4), <- (zdrop_piece 96 28), <- (zdrop_piece 64 32),
    <- (zdrop_piece 60 4), <- (zdrop_piece 56 4), <- (zdrop_piece 48 8), <- (zdrop_piece 40 8), <- (zdrop_piece 36 4),
    <- (zdrop_piece 32 4), <- (zdrop_piece 16 16), <- (zdrop_piece 0 16) by lia. done.
Qed.

Lemma parse_sound token win r : bytes_ok win -> zlen token = 16 ->
  wire_parse_response win (zlen win) token = inr r ->
  exists rest, win = response token r (resp_sha win) (resp_payload win r) ++ rest /\
    resp_ok token r (resp_sha win) (resp_payload win r).
Proof.
  intros Hb Ht. unfold wire_parse_response. set (f := mk_resp _ _ _ _ _ _ _).
  destruct (Z.ltb_spec (zlen win) WIRE_HEADER) as [| Hl]; [done |]. unfold WIRE_HEADER in Hl.
  assert (HM : zlen RESP_MAGIC = 16) by done. assert (HZ : zlen (zeros 28) = 28) by done.
  destruct (match_at win 0 RESP_MAGIC) eqn:Em; [| done]. apply match_at_piece in Em; [| lia | lia].
  destruct (match_at win 16 token) eqn:Et; [| done]. apply match_at_piece in Et; [| lia | lia].
  cbn [negb]. destruct (Z.eqb_spec (wire_crc32 win 124) (wire_rd32 win 124)) as [Ehc |]; [| done]. cbn [negb].
  destruct (match_at win 96 (zeros 28)) eqn:Ez; [| done]. apply match_at_piece in Ez; [| lia | lia]. cbn [negb].
  destruct (Z.ltb_spec WIRE_PAYLOAD_CAP (served f)) as [| Hcap]; [done |].
  destruct (Z.ltb_spec (zlen win) (WIRE_HEADER + served f)) as [| Hw]; [done |]. unfold WIRE_HEADER in Hw.
  destruct (Z.eqb_spec (wire_crc32 (zdrop WIRE_HEADER win) (served f)) (payload_crc f)) as [Epc |]; [| done].
  cbn [negb]. intros [= <-]. rewrite HM in Em. rewrite Ht in Et. rewrite HZ in Ez.
  assert (F : forall o, 0 <= o -> o + 4 <= 128 -> piece o 4 win = le_bytes 4 (wire_rd32 win o) /\ in_w 32 (wire_rd32 win o)).
  { intros o H0 H4. rewrite rd32_piece by lia. apply (piece_value 4); [done | lia | lia]. }
  assert (F8 : forall o, 0 <= o -> o + 8 <= 128 -> piece o 8 win = le_bytes 8 (wire_rd64 win o) /\ in_w 64 (wire_rd64 win o)).
  { intros o H0 H4. rewrite rd64_piece by lia. apply (piece_value 8); [done | lia | lia]. }
  assert (Hs : 0 <= served f) by (apply (F 56); lia).
  assert (Hsha : resp_sha win = piece 64 32 win) by done.
  assert (Hhead : win = response_head token f (resp_sha win) ++ piece 124 4 win ++ zdrop 128 win).
  { rewrite (window_pieces win) at 1 by lia. unfold response_head.
    rewrite Em, Et, Ez, Hsha. by rewrite (proj1 (F 32 ltac:(lia) ltac:(lia))), (proj1 (F 36 ltac:(lia) ltac:(lia))),
      (proj1 (F 56 ltac:(lia) ltac:(lia))), (proj1 (F 60 ltac:(lia) ltac:(lia))),
      (proj1 (F8 40 ltac:(lia) ltac:(lia))), (proj1 (F8 48 ltac:(lia) ltac:(lia))). }
  assert (Hzs : zlen (resp_sha win) = 32) by (apply zlen_piece; lia).
  exists (zdrop (served f) (zdrop 128 win)). split.
  - rewrite Hhead at 1. unfold response. rewrite <- !app_assoc. f_equal.
    rewrite (proj1 (F 124 ltac:(lia) ltac:(lia))). f_equal. unfold resp_payload, WIRE_HEADER. by rewrite ztake_zdrop.
  - split; try (apply F || apply F8; lia).
    + by split.
    + split; [exact Hzs |]. by apply bytes_ok_piece.
    + unfold resp_payload. split; [| by apply bytes_ok_ztake, bytes_ok_zdrop].
      apply zlen_ztake. unfold WIRE_HEADER. rewrite zlen_zdrop by lia. lia.
    + rewrite <- Epc. unfold resp_payload. rewrite <- (ztake_zdrop (served f) (zdrop WIRE_HEADER win)) at 1.
      apply crc_prefix. apply zlen_ztake. unfold WIRE_HEADER. rewrite zlen_zdrop by lia. lia.
    + cbn [header_crc f]. rewrite <- Ehc. rewrite Hhead at 1. apply crc_prefix. by apply zlen_head.
Qed.
(** Find a field in a buffer written as its fields. *)
Ltac find_piece :=
  repeat (rewrite piece_skip by (rewrite ?zlen_le_bytes; lia));
  lazymatch goal with |- context [piece ?o _ _] => replace o with 0 by (rewrite ?zlen_le_bytes; lia) end;
  rewrite piece_here by (rewrite ?zlen_le_bytes; lia).

Lemma crc_in_w l n : bytes_ok l -> in_w 32 (wire_crc32 l n).
Proof. intros. by apply in_w_cnot. Qed.

Lemma parse_complete token r sha payload rest : zlen token = 16 -> bytes_ok token -> resp_ok token r sha payload ->
  let win := response token r sha payload ++ rest in
  wire_parse_response win (zlen win) token = inr r /\ resp_sha win = sha /\ resp_payload win r = payload.
Proof.
  intros Ht Htb Hok win. destruct Hok as [Hi Hst Hfs Hof Hse [Hsl Hsb] [Hpl Hpb] Hpc Hhc].
  assert (Hp32 : in_w 32 (payload_crc r)) by (rewrite Hpc; by apply crc_in_w).
  assert (Hs32 : in_w 32 (served r)) by (unfold in_w, WIRE_PAYLOAD_CAP, WIRE_WINDOW_BYTES, WIRE_WINDOW_BLOCKS, WIRE_BLOCK, WIRE_HEADER in *; lia).
  assert (HM : zlen RESP_MAGIC = 16) by done. unfold WIRE_SHA_LEN in Hsl.
  assert (Hh : zlen (response_head token r sha) = 124) by (by apply zlen_head).
  assert (Hh32 : in_w 32 (header_crc r)) by (rewrite Hhc; by apply in_w_cnot).
  pose proof (zlen_nonneg rest).
  assert (Ew : win = RESP_MAGIC ++ token ++ le_bytes 4 (id r) ++ le_bytes 4 (status r) ++ le_bytes 8 (file_size r) ++
    le_bytes 8 (offset r) ++ le_bytes 4 (served r) ++ le_bytes 4 (payload_crc r) ++ sha ++ zeros 28 ++
    le_bytes 4 (header_crc r) ++ payload ++ rest).
  { unfold win, response, response_head. by rewrite <- !app_assoc. }
  assert (El : zlen win = 128 + served r + zlen rest).
  { rewrite Ew, !zlen_app, !zlen_le_bytes, Hpl, Hsl, Ht, HM. change (zlen (zeros 28)) with 28. lia. }
  assert (HZ : zlen (zeros 28) = 28) by done.
  assert (F : forall o v, 0 <= o <= 124 -> in_w 32 v -> piece o 4 win = le_bytes 4 v -> wire_rd32 win o = v).
  { intros o v Ho Hv E. rewrite rd32_piece, E, le_val_bytes by lia. by apply wrap_small. }
  assert (F8 : forall o v, 0 <= o <= 120 -> in_w 64 v -> piece o 8 win = le_bytes 8 v -> wire_rd64 win o = v).
  { intros o v Ho Hv E. rewrite rd64_piece, E, le_val_bytes by lia. by apply wrap_small. }
  assert (E128 : zdrop 128 win = payload ++ rest).
  { replace win with (response_head token r sha ++ le_bytes 4 (header_crc r) ++ payload ++ rest)
      by (unfold win, response; by rewrite <- !app_assoc).
    rewrite app_assoc. apply zdrop_app. rewrite zlen_app, zlen_le_bytes, Hh. done. }
  assert (E124 : wire_crc32 win 124 = header_crc r).
  { rewrite Hhc. unfold win, response. rewrite <- app_assoc. by apply crc_prefix. }
  split; [| split].
  - unfold wire_parse_response. unfold WIRE_HEADER. rewrite (proj2 (Z.ltb_ge (zlen win) 128)) by lia.
    rewrite (proj2 (match_at_piece win RESP_MAGIC 0 ltac:(lia) ltac:(lia))) by (rewrite Ew, HM; find_piece; done).
    rewrite (proj2 (match_at_piece win token 16 ltac:(lia) ltac:(lia))) by (rewrite Ew, Ht; find_piece; done).
    rewrite (proj2 (match_at_piece win (zeros 28) 96 ltac:(lia) ltac:(lia))) by (rewrite Ew, HZ; find_piece; done).
    cbn [negb].
    rewrite (F 124 (header_crc r)), E124, Z.eqb_refl by (done || (rewrite Ew; find_piece; done)). cbn [negb].
    rewrite (F 32 (id r)), (F 36 (status r)), (F 56 (served r)), (F 60 (payload_crc r)), (F8 40 (file_size r)), (F8 48 (offset r))
      by (done || (rewrite Ew; find_piece; done)).
    cbn [served payload_crc]. rewrite (proj2 (Z.ltb_ge _ _)) by lia. rewrite (proj2 (Z.ltb_ge _ _)) by lia.
    rewrite E128, crc_prefix by done. rewrite <- Hpc, Z.eqb_refl. cbn [negb]. by destruct r.
  - change (resp_sha win) with (piece 64 32 win). rewrite Ew. by find_piece.
  - unfold resp_payload, WIRE_HEADER. rewrite E128. by apply ztake_app.
Qed.

(** The payload of an accepted response has the length its header says. *)
Lemma parse_bounds token win r : bytes_ok win -> zlen token = 16 ->
  wire_parse_response win (zlen win) token = inr r ->
  0 <= served r <= WIRE_PAYLOAD_CAP /\ zlen (resp_payload win r) = served r.
Proof. intros Hb Ht Hp. destruct (parse_sound token win r Hb Ht Hp) as (rest & _ & Hok). split; apply Hok. Qed.

Lemma piece_app o a b (l : list Z) : 0 <= o -> 0 <= a -> 0 <= b -> piece o a l ++ piece (o + a) b l = piece o (a + b) l.
Proof.
  intros. unfold piece, ztake, zdrop. rewrite !Z2Nat.inj_add, <- (drop_drop l) by lia. apply take_take_drop.
Qed.

Lemma piece_all n (l : list Z) : n = zlen l -> piece 0 n l = l.
Proof. intros ->. rewrite <- (app_nil_r l) at 2. by apply piece_here. Qed.

(** The checks of a parsed response, as conditions. *)
Lemma check_manifest_ok r i : wire_check_manifest r i = WIRE_OK <->
  id r = i /\ status r = WIRE_STATUS_MANIFEST /\ offset r = WIRE_SENTINEL /\ served r = 0.
Proof.
  unfold wire_check_manifest. repeat case_match; bool_props; try naive_solver.
Qed.

Lemma check_data_ok r i off requested size : in_w 64 off -> in_w 64 size -> in_w 32 (served r) ->
  wire_check_data r i off requested size = WIRE_OK <->
  (id r = i /\ offset r = off /\ file_size r = size) /\ off + served r <= size /\
  ((status r = WIRE_STATUS_DATA /\ served r = requested) \/
   (status r = WIRE_STATUS_FINAL /\ served r < requested /\ off + served r = size)).
Proof.
  intros Ho Hs Hv. unfold wire_check_data, in_w in *.
  assert (E1 : off <= size -> u64 (size - off) = size - off) by (intros; apply wrap_small; unfold in_w; lia).
  assert (E2 : off + served r <= size -> u64 (off + served r) = off + served r) by (intros; apply wrap_small; unfold in_w; lia).
  destruct (Z.eqb_spec (id r) i), (Z.eqb_spec (offset r) off), (Z.eqb_spec (file_size r) size); cbn [negb]; try naive_solver.
  destruct (Z.ltb_spec size off) as [| Hle]; cbn [orb]; [split; [done | lia] |]. rewrite E1 by done.
  destruct (Z.ltb_spec (size - off) (served r)) as [| Hle']; [split; [done | lia] |]. rewrite E2 by lia.
  assert (WIRE_STATUS_DATA <> WIRE_STATUS_FINAL) by done.
  destruct (Z.eqb_spec (status r) WIRE_STATUS_DATA).
  { destruct (Z.eqb_spec (served r) requested); cbn [negb]; (split; [intros | intros (_ & _ & [|])]; try done; intuition lia). }
  destruct (Z.eqb_spec (status r) WIRE_STATUS_FINAL); [| intuition congruence].
  destruct (Z.leb_spec requested (served r)); [split; [done | intuition lia] |].
  destruct (Z.eqb_spec (off + served r) size); cbn [negb]; intuition (congruence || lia).
Qed.

(** ** Properties *)

(** C30. The parser accepts exactly the encodings of the format: a window is
    accepted with the header fields [r] if and only if it starts with the
    response that has those fields, the digest and the payload it carries, both
    checksums being right and the payload inside the window. *)
Theorem wire_parse_exact token win r : bytes_ok win -> bytes_ok token -> zlen token = 16 ->
  wire_parse_response win (zlen win) token = inr r <->
  exists rest, win = response token r (resp_sha win) (resp_payload win r) ++ rest /\
    resp_ok token r (resp_sha win) (resp_payload win r).
Proof.
  intros Hw Ht Hl. split; [by apply parse_sound |]. intros (rest & E & Hok).
  destruct (parse_complete token r _ _ rest Hl Ht Hok) as [H _]. by rewrite <- E in H.
Qed.

(** The CRC detects every change confined to four consecutive bytes. *)
Theorem crc_detects_burst p u v q :
  bytes_ok (p ++ u ++ q) -> bytes_ok v -> length u = length v -> (length u <= 4)%nat -> u <> v ->
  wire_crc32 (p ++ u ++ q) (zlen (p ++ u ++ q)) <> wire_crc32 (p ++ v ++ q) (zlen (p ++ v ++ q)).
Proof.
  intros Hb Hv Hl H4 Hne H. apply bytes_ok_app in Hb as [Hp [Hu Hq]%bytes_ok_app]. apply Hne. clear Hne.
  rewrite !crc_value in H.
  assert (Hp32 : in_w 32 (fold_left crc_byte p 0xFFFFFFFF)) by (by apply crc_range).
  assert (Hu32 : in_w 32 (fold_left crc_byte u (fold_left crc_byte p 0xFFFFFFFF))) by (by apply crc_range).
  assert (Hv32 : in_w 32 (fold_left crc_byte v (fold_left crc_byte p 0xFFFFFFFF))) by (by apply crc_range).
  rewrite !fold_left_app in H. apply cnot_inj in H; [| by apply crc_range ..].
  apply crc_suffix_inj in H; [| done ..].
  set (c := fold_left crc_byte p _) in *. clearbody c. rewrite (crc_word u), (crc_word v), Hl in H by done.
  assert (Hw : forall l, bytes_ok l -> length l = length v -> in_w 32 (le_val l)).
  { intros l Hok E. apply (in_w_mono (8 * Z.of_nat (length l))); [lia |]. by apply le_val_range. }
  apply iter_inj in H; [| by apply in_w_lxor; auto ..].
  apply (f_equal (fun z => c .^ z)) in H.
  rewrite <- !Z.lxor_assoc, Z.lxor_nilpotent, !Z.lxor_0_l in H.
  rewrite <- (le_bytes_val u), <- (le_bytes_val v) by done. by rewrite Hl, H.
Qed.

(** ** Witnesses *)

(** A manifest response for a token and a digest of small bytes. *)
Definition demo_token : list Z := Z.of_nat <$> seq 1 16.
Definition demo_sha : list Z := Z.of_nat <$> seq 3 32.
Definition demo_resp : wire_resp :=
  let r := mk_resp 7 WIRE_STATUS_FINAL 1003 1000 3 (wire_crc32 [5; 6; 7] 3) 0 in
  mk_resp (id r) (status r) (file_size r) (offset r) (served r) (payload_crc r)
    (wire_crc32 (response_head demo_token r demo_sha) 124).
Definition demo_win : list Z := response demo_token demo_resp demo_sha [5; 6; 7] ++ zeros 5.

Example demo_parses : wire_parse_response demo_win (zlen demo_win) demo_token = inr demo_resp.
Proof. vm_compute. reflexivity. Qed.
Example demo_damaged :
  wire_parse_response (overwrite 130 [8] demo_win) (zlen demo_win) demo_token = inl WIRE_E_PAYCRC.
Proof. vm_compute. reflexivity. Qed.

Lemma bytes_ok_check l : forallb (fun b => (0 <=? b) && (b <? 256)) l = true -> bytes_ok l.
Proof.
  intros H. induction l as [| b l IH]; [constructor |]. cbn in H. bool_props.
  constructor; [split; [done |]; change (2 ^ 8) with 256; lia | by apply IH].
Qed.

Lemma wire_parse_exact_witness :
  exists rest, demo_win = response demo_token demo_resp (resp_sha demo_win) (resp_payload demo_win demo_resp) ++ rest /\
    resp_ok demo_token demo_resp (resp_sha demo_win) (resp_payload demo_win demo_resp).
Proof.
  apply (wire_parse_exact demo_token demo_win demo_resp);
    [apply bytes_ok_check; vm_compute; reflexivity | apply bytes_ok_check; vm_compute; reflexivity |
     reflexivity | exact demo_parses].
Defined.

Lemma crc_detects_burst_witness :
  wire_crc32 ([1] ++ [2; 3] ++ [4; 5]) (zlen ([1] ++ [2; 3] ++ [4; 5])) <>
  wire_crc32 ([1] ++ [3; 2] ++ [4; 5]) (zlen ([1] ++ [3; 2] ++ [4; 5])).
Proof.
  apply (crc_detects_burst [1] [2; 3] [3; 2] [4; 5]);
    [apply bytes_ok_check; reflexivity | apply bytes_ok_check; reflexivity | reflexivity | cbn; lia | discriminate].
Defined.
