(* ===== verification/Channel.v ===== *)
(** * The host's side of the delivery channel ([file-delivery-s168/channel.py])

    [HostArtifactChannel] is the pure request/response engine that the host runs
    behind the blocks 127 and 129..144 of the virtual disk.  The fields that
    [register] sets together are one record; [hashlib.sha256] is the parameter
    [sha256_digest].  The theorems: rejected requests change nothing, ids only
    grow, and what the client's encoder writes is answered with a window that the
    client's parser reads as the piece of the artifact it asked for. *)

From S2P Require Import Prelude Wire.

(** ** The channel *)

Inductive request_kind := Manifest | Data.
#[export] Instance request_kind_eq : EqDecision request_kind.
Proof. solve_decision. Defined.

(** [(kind, rid, offset, length)]. *)
Record norm := mk_norm { n_kind : request_kind; n_rid : Z; n_offset : Z; n_length : Z }.
#[export] Instance norm_eq : EqDecision norm.
Proof. solve_decision. Defined.

(** [_artifact], [file_size] and [sha256], set by [register]. *)
Record registered := mk_registered { artifact : list Z; size : Z; sha256 : list Z }.
Record HostArtifactChannel := mk_channel {
  token : list Z;
  reg : option registered;
  req : option norm;
  resp : option (list Z);
}.

(** [bytearray[off:off+n] = bs] for [n = len(bs)], in range. *)
Definition pack_I (off v : Z) (p : list Z) : list Z := overwrite off (le_bytes 4 v) p.
Definition pack_Q (off v : Z) (p : list Z) : list Z := overwrite off (le_bytes 8 v) p.

(** [(status, rid, off, served, payload)] of a request. *)
Definition answer (g : registered) (o : option norm) : Z * Z * Z * Z * list Z :=
  match o with
  | None => (WIRE_STATUS_NONE, 0, 0, 0, [])
  | Some n =>
      match n_kind n with
      | Manifest => (WIRE_STATUS_MANIFEST, n_rid n, WIRE_SENTINEL, 0, [])
      | Data =>
          let avail := size g - n_offset n in
          let served := Z.min (n_length n) avail in
          let payload := ztake served (zdrop (n_offset n) (artifact g)) in
          let status := if served =? n_length n then WIRE_STATUS_DATA else WIRE_STATUS_FINAL in
          (status, n_rid n, n_offset n, served, payload)
      end
  end.

Definition build_window (tok : list Z) (g : registered) (o : option norm) : list Z :=
  let '(status, rid, off, served, payload) := answer g o in
  let header := zeros WIRE_HEADER in
  let header := overwrite 0 RESP_MAGIC header in
  let header := overwrite 16 tok header in
  let header := pack_I 32 rid header in
  let header := pack_I 36 status header in
  let header := pack_Q 40 (size g) header in
  let header := pack_Q 48 off header in
  let header := pack_I 56 served header in
  let header := pack_I 60 (wire_crc32 payload (zlen payload)) header in
  let header := overwrite 64 (sha256 g) header in
  let header := pack_I 124 (wire_crc32 header 124) header in
  let window := zeros WIRE_WINDOW_BYTES in
  let window := overwrite 0 header window in
  overwrite WIRE_HEADER payload window.

Section channel.
Context (sha256_digest : list Z -> list Z).

(** The constructor; [None] is the [ValueError]. *)
Definition channel_init (tok : list Z) : option HostArtifactChannel :=
  if negb (zlen tok =? 16) then None else Some (mk_channel tok None None None).

(** [None] is the [RuntimeError] of a second registration. *)
Definition register (ch : HostArtifactChannel) (art : list Z) : option HostArtifactChannel :=
  match reg ch with
  | Some _ => None
  | None =>
      let g := mk_registered art (zlen art) (sha256_digest art) in
      Some (mk_channel (token ch) (Some g) None (Some (build_window (token ch) g None)))
  end.
End channel.

(** The helpers of the disk adapter. *)
Definition is_request_write (lba n : Z) : bool := (lba =? WIRE_REQ_LBA) && (n =? 1).
Definition intersects_window (lba n : Z) : bool :=
  (lba <? WIRE_RESP_LBA + WIRE_WINDOW_BLOCKS) && (WIRE_RESP_LBA <? lba + n).

Definition parse_request (ch : HostArtifactChannel) (data : list Z) : option (request_kind * Z * Z * Z) :=
  if negb (zlen data =? WIRE_BLOCK) then None
  else if negb (bool_decide (ztake 16 data = REQ_MAGIC)) || negb (bool_decide (piece 16 16 data = token ch)) then None
  else
    let rid := le_val (piece 32 4 data) in
    let offset := le_val (piece 36 8 data) in
    let length := le_val (piece 44 4 data) in
    let crc := le_val (piece 48 4 data) in
    if negb (wire_crc32 data 48 =? crc) then None
    else if existsb truthy (zdrop 52 data) then None
    else if rid <? 1 then None
    else Some (if offset =? WIRE_SENTINEL then Manifest else Data, rid, offset, length).

(** The normalized request when the values are acceptable. *)
Definition normalize (g : registered) (p : request_kind * Z * Z * Z) : option norm :=
  let '(kind, rid, offset, length) := p in
  match kind with
  | Manifest => if negb (length =? 0) then None else Some (mk_norm Manifest rid WIRE_SENTINEL 0)
  | Data =>
      if negb ((1 <=? length) && (length <=? WIRE_PAYLOAD_CAP)) then None
      else if size g <? offset then None
      else Some (mk_norm Data rid offset length)
  end.

Definition handle_request (ch : HostArtifactChannel) (data : list Z) : bool * HostArtifactChannel :=
  match reg ch with
  | None => (false, ch)
  | Some g =>
      match parse_request ch data with
      | None => (false, ch)
      | Some p =>
          match normalize g p with
          | None => (false, ch)
          | Some n =>
              if decide (req ch = Some n) then (true, ch)
              else
                let last_id := match req ch with None => 0 | Some m => n_rid m end in
                if n_rid n <=? last_id then (false, ch)
                else (true, mk_channel (token ch) (Some g) (Some n) (Some (build_window (token ch) g (Some n))))
          end
      end
  end.

(** [None] is the exception. *)
Definition response_window (ch : HostArtifactChannel) : option (list Z) := resp ch.

Definition overlay (ch : HostArtifactChannel) (lba n : Z) (original : list Z) : option (list Z) :=
  match resp ch with
  | None => None
  | Some w =>
      if (n <? 1) || negb (zlen original =? n * WIRE_BLOCK) then None
      else
        let lo := Z.max lba WIRE_RESP_LBA in
        let hi := Z.min (lba + n) (WIRE_RESP_LBA + WIRE_WINDOW_BLOCKS) in
        if lo <? hi then
          let src := (lo - WIRE_RESP_LBA) * WIRE_BLOCK in
          let dst := (lo - lba) * WIRE_BLOCK in
          let size := (hi - lo) * WIRE_BLOCK in
          Some (overwrite dst (ztake size (zdrop src w)) original)
        else Some original
  end.

(** ** The window as a response of the wire format *)

Definition payload_of (g : registered) (o : option norm) : list Z := (answer g o).2.
Definition resp_of (tok : list Z) (g : registered) (o : option norm) : wire_resp :=
  let '(st, rid, off, sv, payload) := answer g o in
  let r h := mk_resp rid st (size g) off sv (wire_crc32 payload (zlen payload)) h in
  r (wire_crc32 (response_head tok (r 0) (sha256 g)) 124).

(** What [register] and [normalize] guarantee. *)
Record reg_ok (tok : list Z) (g : registered) : Prop := {
  rg_token : zlen tok = 16 /\ bytes_ok tok;
  rg_artifact : bytes_ok (artifact g);
  rg_size : size g = zlen (artifact g) /\ in_w 64 (size g);
  rg_sha : zlen (sha256 g) = WIRE_SHA_LEN /\ bytes_ok (sha256 g);
}.
Definition norm_ok (g : registered) (o : option norm) : Prop :=
  match o with
  | None => True
  | Some n => 1 <= n_rid n < 2 ^ 32 /\
      (n_kind n = Data -> 0 <= n_offset n <= size g /\ 1 <= n_length n <= WIRE_PAYLOAD_CAP)
  end.

(** The channel answers with its last accepted request. *)
Definition chan_ok (ch : HostArtifactChannel) : Prop :=
  match reg ch with
  | None => req ch = None
  | Some g => reg_ok (token ch) g /\ norm_ok g (req ch) /\ resp ch = Some (build_window (token ch) g (req ch))
  end.

Ltac zl := rewrite ?zlen_app, ?zlen_le_bytes, ?zlen_nil; lia.

Lemma header_bytes tok sha rid st sz off sv pc h : zlen tok = 16 -> zlen sha = 32 ->
  let head := response_head tok (mk_resp rid st sz off sv pc h) sha in
  let p := overwrite 64 sha (pack_I 60 pc (pack_I 56 sv (pack_Q 48 off (pack_Q 40 sz (pack_I 36 st (pack_I 32 rid
    (overwrite 16 tok (overwrite 0 RESP_MAGIC (zeros WIRE_HEADER))))))))) in
  wire_crc32 p 124 = wire_crc32 head 124 /\ forall v, pack_I 124 v p = head ++ le_bytes 4 v.
Proof.
  intros Ht Hs. assert (HM : zlen RESP_MAGIC = 16) by done. unfold response_head, pack_I, pack_Q, WIRE_HEADER.
  cbn [id status file_size offset served payload_crc]. set (M := RESP_MAGIC) in *. clearbody M. cbv zeta.
  change (zeros 128) with ([] ++ zeros 128).
  rewrite (overwrite_next [] M) by (done || lia). cbn [app]. rewrite (overwrite_next M tok) by zl.
  rewrite !overwrite_next by (rewrite ?zlen_app, ?zlen_le_bytes, ?HM, ?Ht, ?Hs; done). rewrite !zlen_le_bytes, Ht, Hs, HM.
  assert (E : zeros (128 - 16 - 16 - Z.of_nat 4 - Z.of_nat 4 - Z.of_nat 8 - Z.of_nat 8 - Z.of_nat 4 - Z.of_nat 4 - 32) =
    zeros 28 ++ zeros 4) by (by rewrite zeros_app).
  rewrite E. set (a := ((((((((M ++ tok) ++ _) ++ _) ++ _) ++ _) ++ _) ++ _) ++ sha)).
  assert (Ha : M ++ tok ++ le_bytes 4 rid ++ le_bytes 4 st ++ le_bytes 8 sz ++ le_bytes 8 off ++ le_bytes 4 sv ++
    le_bytes 4 pc ++ sha ++ zeros 28 = a ++ zeros 28) by (unfold a; by rewrite <- !app_assoc).
  rewrite Ha, app_assoc. assert (Hl : zlen (a ++ zeros 28) = 124).
  { unfold a. rewrite !zlen_app, !zlen_le_bytes, HM, Ht, Hs. done. }
  split; [by apply crc_prefix |]. intros v. rewrite (overwrite_next (a ++ zeros 28)) by (rewrite ?Hl, ?zlen_le_bytes; done).
  by rewrite zlen_le_bytes, app_nil_r.
Qed.

Lemma payload_length tok g o : reg_ok tok g -> norm_ok g o ->
  zlen (payload_of g o) = served (resp_of tok g o) /\ bytes_ok (payload_of g o) /\
  0 <= served (resp_of tok g o) <= WIRE_PAYLOAD_CAP.
Proof.
  intros [_ Ha [Hz _] _] Ho. unfold payload_of, resp_of, answer. destruct o as [[[] rid off len] |]; cbn.
  - split_and!; [done | constructor | done | done].
  - destruct Ho as [_ Ho]. cbn in Ho. destruct (Ho eq_refl) as [H1 H2]. split_and!.
    + apply zlen_ztake. rewrite zlen_zdrop by lia. lia.
    + by apply bytes_ok_ztake, bytes_ok_zdrop.
    + lia.
    + lia.
  - split_and!; [done | constructor | done | done].
Qed.

Lemma window_response tok g o : reg_ok tok g -> norm_ok g o ->
  build_window tok g o = response tok (resp_of tok g o) (sha256 g) (payload_of g o) ++
    zeros (WIRE_PAYLOAD_CAP - served (resp_of tok g o)).
Proof.
  intros Hg Ho. destruct (payload_length tok g o Hg Ho) as (Hl & _ & Hc). destruct Hg as [[Ht _] _ _ [Hs _]].
  unfold build_window, payload_of, resp_of in *. destruct (answer g o) as [[[[st rid] off] sv] pl]. cbn [snd served] in *.
  set (pc := wire_crc32 pl (zlen pl)).
  destruct (header_bytes tok (sha256 g) rid st (size g) off sv pc 0 Ht Hs) as [E1 E2]. cbv zeta in E1, E2.
  cbv zeta. rewrite E1, E2. unfold response. cbn [header_crc].
  set (hd := response_head tok (mk_resp rid st (size g) off sv pc 0) (sha256 g)).
  change (response_head tok (mk_resp rid st (size g) off sv pc _) (sha256 g)) with hd.
  assert (Hhd : zlen (hd ++ le_bytes 4 (wire_crc32 hd 124)) = 128).
  { rewrite zlen_app, zlen_le_bytes. unfold hd. by rewrite zlen_head. }
  set (a := hd ++ _) in *. change (zeros WIRE_WINDOW_BYTES) with ([] ++ zeros WIRE_WINDOW_BYTES).
  rewrite (overwrite_next [] a) by (rewrite ?zlen_nil, ?Hhd; done). cbn [app].
  rewrite (overwrite_next a); [| by rewrite Hhd | rewrite Hhd, Hl; unfold WIRE_PAYLOAD_CAP, WIRE_HEADER in Hc; lia].
  rewrite Hhd, Hl. unfold a. rewrite <- !app_assoc. do 4 f_equal. 
Qed.

Lemma window_ok tok g o : reg_ok tok g -> norm_ok g o ->
  resp_ok tok (resp_of tok g o) (sha256 g) (payload_of g o).
Proof.
  intros Hg Ho. destruct (payload_length tok g o Hg Ho) as (Hl & Hb & Hc). destruct Hg as [_ _ [Hz H64] Hs].
  unfold payload_of, resp_of in *. destruct (answer g o) as [[[[st rid] off] sv] pl] eqn:E. cbn in *.
  assert (in_w 32 rid /\ in_w 32 st /\ in_w 64 off) as (? & ? & ?).
  { unfold answer in E. destruct o as [[[] ? ? ?] |]; inversion E; subst; clear E; cbn in Ho.
    - split_and!; [unfold in_w; lia | done | done].
    - destruct Ho as [Hr Ho]. specialize (Ho eq_refl). split_and!; [unfold in_w; lia | by destruct (_ =? _) | unfold in_w in *; lia].
    - done. }
  split; try done. cbn. by rewrite <- Hl.
Qed.

Lemma window_parses tok g o : reg_ok tok g -> norm_ok g o -> let win := build_window tok g o in
  zlen win = WIRE_WINDOW_BYTES /\ wire_parse_response win WIRE_WINDOW_BYTES tok = inr (resp_of tok g o) /\
  resp_sha win = sha256 g /\ resp_payload win (resp_of tok g o) = payload_of g o /\ bytes_ok win.
Proof.
  intros Hg Ho win. pose proof (window_ok tok g o Hg Ho) as Hok.
  pose proof (payload_length tok g o Hg Ho) as (Hl & Hb & Hc). destruct (rg_token _ _ Hg) as [Ht Htb].
  assert (Hz : zlen win = WIRE_WINDOW_BYTES).
  { unfold win. rewrite window_response by done. unfold response.
    rewrite !zlen_app, zlen_head, zlen_le_bytes, Hl, zlen_zeros by (done || apply Hg || lia).
    unfold WIRE_PAYLOAD_CAP, WIRE_HEADER. lia. }
  destruct (parse_complete tok _ _ _ (zeros (WIRE_PAYLOAD_CAP - served (resp_of tok g o))) Ht Htb Hok) as (H1 & H2 & H3).
  rewrite <- window_response in H1, H2, H3 by done. fold win in H1, H2, H3. rewrite Hz in H1. split_and!; try done.
  unfold win. rewrite window_response by done. unfold response, response_head. rewrite !bytes_ok_app.
  destruct (rg_sha _ _ Hg). split_and!; auto with words; apply bytes_ok_check; reflexivity.
Qed.

(** ** Requests *)

Lemma field_range data o n : bytes_ok data -> in_w (8 * n) (le_val (piece o n data)) \/ n < 0.
Proof.
  intros Hd. destruct (Z.lt_ge_cases n 0); [by right |]. left.
  apply (in_w_mono (8 * Z.of_nat (length (piece o n data)))); [| by apply le_val_range, bytes_ok_piece].
  unfold piece, ztake. rewrite length_take. lia.
Qed.

Lemma parse_request_range ch data kind rid off len : bytes_ok data ->
  parse_request ch data = Some (kind, rid, off, len) ->
  1 <= rid < 2 ^ 32 /\ 0 <= off /\ 0 <= len.
Proof.
  intros Hd. unfold parse_request.
  destruct (field_range data 32 4 Hd) as [H1 | ?]; [| done]. destruct (field_range data 36 8 Hd) as [H2 | ?]; [| done].
  destruct (field_range data 44 4 Hd) as [H3 | ?]; [| done]. unfold in_w in *.
  repeat case_match; intros [=]; subst; bool_props; lia.
Qed.

Lemma normalize_norm g kind i off len n : 1 <= i < 2 ^ 32 -> 0 <= off -> normalize g (kind, i, off, len) = Some n ->
  norm_ok g (Some n) /\ n_rid n = i.
Proof.
  intros Hi Ho. unfold normalize. destruct kind; [by destruct (negb _); intros [= <-] |].
  destruct (negb _) eqn:E; [done |]. destruct (Z.ltb_spec (size g) off); [done |]. intros [= <-].
  split; [| done]. split; [done |]. intros _. cbn. bool_props. lia.
Qed.

Lemma normalize_ok ch data g p n : bytes_ok data -> parse_request ch data = Some p -> normalize g p = Some n ->
  norm_ok g (Some n).
Proof.
  intros Hd Hp. destruct p as [[[kind rid] off] len]. pose proof (parse_request_range _ _ _ _ _ _ Hd Hp) as (H1 & H2 & H3).
  intros Hn. by apply (normalize_norm g kind rid off len).
Qed.

Lemma handle_request_ok ch data : bytes_ok data -> chan_ok ch -> chan_ok (handle_request ch data).2.
Proof.
  intros Hd. unfold handle_request, chan_ok. destruct (reg ch) as [g |] eqn:Eg; [| by cbn; rewrite Eg].
  intros Hok. destruct (parse_request ch data) as [p |] eqn:Ep; [| by cbn; rewrite Eg].
  destruct (normalize g p) as [n |] eqn:En; [| by cbn; rewrite Eg].
  destruct (decide _) as [Heq |]; [by cbn; rewrite Eg |].
  destruct (_ <=? _); cbn; [by rewrite Eg |]. destruct Hok as (Hg & Hn & Hr). split; [done |]. split; [| done].
  by apply (normalize_ok ch data g p n).
Qed.

(** The channel after the blocks [l] were written to the request port. *)
Definition serve (ch : HostArtifactChannel) (l : list (list Z)) : HostArtifactChannel :=
  fold_left (fun ch data => (handle_request ch data).2) l ch.

Lemma serve_ok l ch : Forall bytes_ok l -> chan_ok ch -> chan_ok (serve ch l).
Proof.
  intros Hl. revert ch. induction Hl as [| data l Hd _ IH]; intros ch Hc; [done |].
  apply IH. by apply handle_request_ok.
Qed.

Lemma handle_request_token ch data : token (handle_request ch data).2 = token ch.
Proof. unfold handle_request. by repeat case_match. Qed.
Lemma handle_request_reg ch data : reg (handle_request ch data).2 = reg ch.
Proof. unfold handle_request. by repeat (case_match; cbn). Qed.
Lemma serve_keeps l ch : token (serve ch l) = token ch /\ reg (serve ch l) = reg ch.
Proof.
  revert ch. induction l as [| data l IH]; intros ch; [done |].
  change (serve ch (data :: l)) with (serve (handle_request ch data).2 l).
  destruct (IH (handle_request ch data).2) as [-> ->]. by rewrite handle_request_token, handle_request_reg.
Qed.

(** The digest of a hash function. *)
Class Digest (sha256_digest : list Z -> list Z) : Prop := {
  digest_length l : zlen (sha256_digest l) = WIRE_SHA_LEN;
  digest_bytes l : bytes_ok (sha256_digest l);
}.

Lemma register_ok sha256_digest `{!Digest sha256_digest} tok art ch ch1 : bytes_ok tok -> bytes_ok art -> in_w 64 (zlen art) ->
  channel_init tok = Some ch -> register sha256_digest ch art = Some ch1 ->
  chan_ok ch1 /\ token ch1 = tok /\ reg ch1 = Some (mk_registered art (zlen art) (sha256_digest art)) /\ req ch1 = None.
Proof.
  intros Ht Ha Hz. unfold channel_init. destruct (Z.eqb_spec (zlen tok) 16) as [Hl |]; [| done]. cbn. intros [= <-] [= <-].
  split_and!; [| done ..]. cbn. split_and!; [| done | done].
  split; cbn; [done | done | done |]. split; [apply digest_length | apply digest_bytes].
Qed.

(** *** The client's request blocks *)

Lemma request_pieces tok i off len : zlen tok = 16 ->
  let b := wire_build_request tok i off len in
  zlen b = WIRE_BLOCK /\ piece 0 16 b = REQ_MAGIC /\ piece 16 16 b = tok /\ piece 32 4 b = le_bytes 4 i /\
  piece 36 8 b = le_bytes 8 off /\ piece 44 4 b = le_bytes 4 len /\
  piece 48 4 b = le_bytes 4 (wire_crc32 b 48) /\ zdrop 52 b = zeros (WIRE_BLOCK - 52).
Proof.
  intros Ht b. assert (HM : zlen REQ_MAGIC = 16) by done.
  assert (Ew : b = REQ_MAGIC ++ tok ++ le_bytes 4 i ++ le_bytes 8 off ++ le_bytes 4 len ++
    le_bytes 4 (wire_crc32 b 48) ++ zeros (WIRE_BLOCK - 52)).
  { unfold b. rewrite build_request by done. unfold request at 1. rewrite <- !app_assoc. do 5 f_equal. f_equal. f_equal.
    unfold request. symmetry. apply crc_prefix. rewrite !zlen_app, !zlen_le_bytes, HM, Ht. done. }
  set (crc := wire_crc32 b 48) in *. clearbody crc. clearbody b. subst b.
  split_and!; try (by find_piece).
  - rewrite !zlen_app, !zlen_le_bytes, zlen_zeros, HM, Ht by done. done.
  - rewrite !app_assoc. apply zdrop_app. rewrite !zlen_app, !zlen_le_bytes, HM, Ht. done.
Qed.

Lemma existsb_zeros n : existsb truthy (zeros n) = false.
Proof. unfold zeros. induction (Z.to_nat n); [done | by cbn]. Qed.

Lemma crc_range32 l n : in_w 32 (wire_crc32 l n).
Proof. by apply in_w_cnot. Qed.

Lemma parse_built ch i off len : zlen (token ch) = 16 -> 1 <= i < 2 ^ 32 -> in_w 64 off -> in_w 32 len ->
  parse_request ch (wire_build_request (token ch) i off len) =
  Some (if off =? WIRE_SENTINEL then Manifest else Data, i, off, len).
Proof.
  intros Ht Hi Ho Hl. destruct (request_pieces (token ch) i off len Ht) as (H0 & H1 & H2 & H3 & H4 & H5 & H6 & H7).
  unfold parse_request. set (b := wire_build_request _ _ _ _) in *. clearbody b.
  assert (E1 : ztake 16 b = REQ_MAGIC) by exact H1. rewrite E1, H0, H2, H3, H4, H5, H6, H7, existsb_zeros, !le_val_bytes.
  rewrite !bool_decide_eq_true_2 by done. change (8 * Z.of_nat 4) with 32. change (8 * Z.of_nat 8) with 64.
  rewrite !wrap_small by (done || apply crc_range32 || (unfold in_w in *; lia)). rewrite !Z.eqb_refl. cbn [negb orb].
  by rewrite (proj2 (Z.ltb_ge i 1)) by lia.
Qed.

(** The last accepted id. *)
Definition last_id (ch : HostArtifactChannel) : Z := match req ch with None => 0 | Some m => n_rid m end.

(** What a well-formed request with a new id does. *)
Lemma handle_built ch g i off len n : chan_ok ch -> reg ch = Some g -> last_id ch < i < 2 ^ 32 -> in_w 64 off -> in_w 32 len ->
  normalize g (if off =? WIRE_SENTINEL then Manifest else Data, i, off, len) = Some n ->
  let r := handle_request ch (wire_build_request (token ch) i off len) in
  r.1 = true /\ req r.2 = Some n /\ resp r.2 = Some (build_window (token ch) g (Some n)) /\ n_rid n = i /\ norm_ok g (Some n).
Proof.
  intros Hok Hg Hi Ho Hl Hn.
  unfold chan_ok in Hok. rewrite Hg in Hok. destruct Hok as (Hgo & Hno & _). destruct (rg_token _ _ Hgo) as [Ht _].
  assert (H0 : 0 <= last_id ch).
  { unfold last_id, norm_ok in *. destruct (req ch); [| done]. lia. }
  destruct (normalize_norm g _ i off len n ltac:(lia) (proj1 Ho) Hn) as [Hnok Hr].
  unfold handle_request. rewrite Hg, parse_built, Hn by (done || lia).
  unfold last_id in *. destruct (decide (req ch = Some n)) as [E |].
  { exfalso. rewrite E in Hi. lia. }
  rewrite (proj2 (Z.leb_gt _ _)) by lia. by cbn.
Qed.

(** ** Reads *)

Lemma byte_at_overwrite o bs l i : 0 <= o -> o + zlen bs <= zlen l -> 0 <= i ->
  byte_at (overwrite o bs l) i = if (o <=? i) && (i <? o + zlen bs) then byte_at bs (i - o) else byte_at l i.
Proof.
  intros Ho Hl Hi. pose proof (zlen_nonneg bs).
  assert (Hz : zlen (ztake o l) = o) by (apply zlen_ztake; lia). unfold overwrite.
  destruct (Z.leb_spec o i) as [H1 | H1]; cbn [andb].
  - replace i with (zlen (ztake o l) + (i - o)) at 1 by lia. rewrite byte_at_app_r by lia.
    destruct (Z.ltb_spec i (o + zlen bs)); [apply byte_at_app_l; lia |].
    replace (i - o) with (zlen bs + (i - o - zlen bs)) by lia. rewrite byte_at_app_r by lia.
    unfold byte_at, zdrop. rewrite nth_lookup, lookup_drop, nth_lookup. do 2 f_equal. lia.
  - rewrite byte_at_app_l by lia. unfold byte_at, ztake. rewrite !nth_lookup, lookup_take_lt by lia. done.
Qed.

Lemma overwrite_all w original : zlen w = zlen original -> overwrite 0 w original = w.
Proof.
  intros E. unfold overwrite. change (ztake 0 original) with (@nil Z). cbn [app]. rewrite Z.add_0_l, E.
  rewrite <- (app_nil_r original), zdrop_app by (by rewrite app_nil_r). apply app_nil_r.
Qed.

(** A read that starts with the window and stays in it. *)
Lemma overlay_inside ch w n original : resp ch = Some w -> 1 <= n <= WIRE_WINDOW_BLOCKS ->
  zlen original = n * WIRE_BLOCK ->
  overlay ch WIRE_RESP_LBA n original = Some (overwrite 0 (piece 0 (n * WIRE_BLOCK) w) original).
Proof.
  intros Hr Hn Ho. unfold overlay. rewrite Hr, Ho. rewrite (proj2 (Z.ltb_ge n 1)), Z.eqb_refl by lia. cbn [orb negb].
  rewrite Z.max_id, (Z.min_l (WIRE_RESP_LBA + n)), (proj2 (Z.ltb_lt WIRE_RESP_LBA _)) by lia. cbv zeta.
  rewrite !Z.sub_diag, !Z.mul_0_l. replace (WIRE_RESP_LBA + n - WIRE_RESP_LBA) with n by lia. done.
Qed.

(** A read of the whole window. *)
Lemma overlay_window ch w original n : n = WIRE_WINDOW_BLOCKS -> resp ch = Some w -> zlen w = n * WIRE_BLOCK ->
  zlen original = n * WIRE_BLOCK -> overlay ch WIRE_RESP_LBA n original = Some w.
Proof.
  intros Hn Hr Hw Ho. rewrite (overlay_inside ch w) by (done || (rewrite Hn; done)). f_equal.
  rewrite piece_all by done. apply overwrite_all. congruence.
Qed.

(** After any sequence of blocks written to the request port, valid or not,
    the window is one the client's parser accepts; it names the registered
    artifact, its payload is the piece of the artifact at its offset, and a short
    piece ends the artifact. *)
Theorem channel_window_valid sha256_digest `{!Digest sha256_digest} tok art ch ch1 l :
  bytes_ok tok -> bytes_ok art -> in_w 64 (zlen art) ->
  channel_init tok = Some ch -> register sha256_digest ch art = Some ch1 -> Forall bytes_ok l ->
  exists win r, response_window (serve ch1 l) = Some win /\
    zlen win = WIRE_WINDOW_BYTES /\ wire_parse_response win WIRE_WINDOW_BYTES tok = inr r /\
    resp_sha win = sha256_digest art /\ file_size r = zlen art /\
    resp_payload win r = piece (offset r) (served r) art /\
    (status r = WIRE_STATUS_FINAL -> offset r + served r = zlen art).
Proof.
  intros Ht Ha Hz Hi Hr Hl. destruct (register_ok sha256_digest tok art ch ch1 Ht Ha Hz Hi Hr) as (Hok & Htok & Hg & _).
  apply (serve_ok l) in Hok; [| done]. destruct (serve_keeps l ch1) as [Et Eg]. unfold chan_ok in Hok.
  rewrite Et, Eg, Htok, Hg in Hok. destruct Hok as (Hgo & Hno & Hresp). set (g := mk_registered _ _ _) in *.
  set (o := req (serve ch1 l)) in *. destruct (window_parses tok g o Hgo Hno) as (H1 & H2 & H3 & H4 & _).
  exists (build_window tok g o), (resp_of tok g o). split_and!; try done.
  - unfold resp_of. by destruct (answer g o) as [[[[? ?] ?] ?] ?].
  - rewrite H4. unfold payload_of, resp_of, answer. by destruct o as [[[] ? ? ?] |].
  - unfold resp_of, answer. destruct o as [[[] rid off len] |]; cbn; try done.
    destruct (Z.eqb_spec (Z.min len (zlen art - off)) len); [done | lia].
Qed.

(** A read through the channel: the blocks of the window show the response,
    every other byte is the disk's. *)
Theorem overlay_exact ch w lba n original out : resp ch = Some w -> zlen w = WIRE_WINDOW_BYTES -> 0 <= lba ->
  overlay ch lba n original = Some out ->
  zlen out = zlen original /\
  forall i, 0 <= i < n * WIRE_BLOCK ->
    let a := lba * WIRE_BLOCK + i in
    let start := WIRE_RESP_LBA * WIRE_BLOCK in
    byte_at out i = if (start <=? a) && (a <? start + WIRE_WINDOW_BYTES) then byte_at w (a - start) else byte_at original i.
Proof.
  intros Hr Hw Hlba. unfold overlay. rewrite Hr. destruct (Z.ltb_spec n 1) as [| Hn]; [done |]. cbn [orb].
  destruct (Z.eqb_spec (zlen original) (n * WIRE_BLOCK)) as [Ho |]; [| done]. cbn [negb].
  unfold WIRE_WINDOW_BYTES, WIRE_RESP_LBA, WIRE_WINDOW_BLOCKS, WIRE_BLOCK in *.
  set (lo := Z.max lba 129). set (hi := Z.min (lba + n) (129 + 16)).
  destruct (Z.ltb_spec lo hi) as [Hlt | Hge]; intros [= <-].
  - set (src := (lo - 129) * 4096). set (dst := (lo - lba) * 4096). set (size := (hi - lo) * 4096).
    assert (Hsz : zlen (ztake size (zdrop src w)) = size).
    { apply zlen_ztake. rewrite zlen_zdrop by lia. lia. }
    split; [apply zlen_overwrite; lia |]. intros i Hi. cbv zeta. rewrite byte_at_overwrite by lia. rewrite Hsz.
    replace ((dst <=? i) && (i <? dst + size)) with ((129 * 4096 <=? lba * 4096 + i) && (lba * 4096 + i <? 129 * 4096 + 16 * 4096)).
    2: { destruct (Z.leb_spec dst i), (Z.ltb_spec i (dst + size)), (Z.leb_spec (129 * 4096) (lba * 4096 + i)),
      (Z.ltb_spec (lba * 4096 + i) (129 * 4096 + 16 * 4096)); cbn; lia. }
    destruct (Z.leb_spec (129 * 4096) (lba * 4096 + i)), (Z.ltb_spec (lba * 4096 + i) (129 * 4096 + 16 * 4096)); cbn [andb]; try done.
    change (ztake size (zdrop src w)) with (piece src size w). rewrite byte_at_piece by lia. f_equal. lia.
  - split; [done |]. intros i Hi. cbv zeta.
    destruct (Z.leb_spec (129 * 4096) (lba * 4096 + i)), (Z.ltb_spec (lba * 4096 + i) (129 * 4096 + 16 * 4096)); cbn; try done. lia.
Qed.

(** ** Witnesses *)

Definition hash_demo (l : list Z) : list Z := zeros WIRE_SHA_LEN.
#[export] Instance hash_demo_ok : Digest hash_demo.
Proof. split; [done |]. intros l. apply bytes_ok_zeros. Qed.
Definition small_art : list Z := [1; 2; 3; 4; 5].
Definition small_blank : HostArtifactChannel := mk_channel demo_token None None None.
Definition small_chan : HostArtifactChannel :=
  let g := mk_registered small_art 5 (hash_demo small_art) in
  mk_channel demo_token (Some g) None (Some (build_window demo_token g None)).
(** A valid request, one with a stale id and a damaged one. *)
Definition small_blocks : list (list Z) :=
  [wire_build_request demo_token 4 1 2; wire_build_request demo_token 3 0 2;
   overwrite 40 [1] (wire_build_request demo_token 9 0 2)].

Example small_served : req (serve small_chan small_blocks) = Some (mk_norm Data 4 1 2).
Proof. vm_compute. reflexivity. Qed.

Lemma small_blocks_ok : Forall bytes_ok small_blocks.
Proof. apply Forall_cons_2; [| apply Forall_cons_2; [| apply Forall_cons_2; [| constructor]]]; apply bytes_ok_check; by vm_compute. Qed.

Lemma channel_window_valid_witness :
  exists win r, response_window (serve small_chan small_blocks) = Some win /\
    zlen win = WIRE_WINDOW_BYTES /\ wire_parse_response win WIRE_WINDOW_BYTES demo_token = inr r /\
    resp_sha win = hash_demo small_art /\ file_size r = zlen small_art /\
    resp_payload win r = piece (offset r) (served r) small_art /\
    (status r = WIRE_STATUS_FINAL -> offset r + served r = zlen small_art).
Proof.
  apply (channel_window_valid hash_demo demo_token small_art small_blank small_chan small_blocks).
  - apply bytes_ok_check. reflexivity.
  - apply bytes_ok_check. reflexivity.
  - split; reflexivity || discriminate.
  - reflexivity.
  - reflexivity.
  - exact small_blocks_ok.
Defined.

Definition small_window : list Z := build_window demo_token (mk_registered small_art 5 (hash_demo small_art)) None.
Lemma overlay_exact_witness :
  exists out, overlay small_chan 144 2 (zeros 8192) = Some out /\ zlen out = zlen (zeros 8192) /\
  forall i, 0 <= i < 2 * WIRE_BLOCK ->
    let a := 144 * WIRE_BLOCK + i in
    let start := WIRE_RESP_LBA * WIRE_BLOCK in
    byte_at out i = if (start <=? a) && (a <? start + WIRE_WINDOW_BYTES) then byte_at small_window (a - start)
                    else byte_at (zeros 8192) i.
Proof.
  eexists. split; [reflexivity |].
  apply (overlay_exact small_chan small_window 144 2 (zeros 8192)); [reflexivity | vm_compute; reflexivity | discriminate | reflexivity].
Defined.
