(* ===== verification/Delivery.v ===== *)
(** * The file delivery client ([file-delivery-s168/client/nwoas_client.c])

    A program without a C runtime that downloads one known artifact: it finds the
    host's disk among the physical drives, asks for the manifest, and copies the
    artifact to a new file in full-size chunks.  A store is the client's globals
    with the operating system's state [W]; [os] runs a system call.  The Win32
    functions are the record [win32]; a buffer argument that the call fills is
    passed in and returned.  Output to the console is dropped. *)

From S2P Require Import Prelude Wire.

(** ** Constants *)

Abbreviation H := Z.
Definition INVALID_H : H := 0xFFFFFFFFFFFFFFFF.
Definition GENERIC_READ : Z := 0x80000000.
Definition GENERIC_WRITE : Z := 0x40000000.
Definition GENERIC_RW : Z := 0xC0000000.
Definition SHARE_RW : Z := 3.
Definition OPEN_EXISTING : Z := 3.
Definition CREATE_NEW : Z := 1.
Definition FLAG_NO_BUFFERING : Z := 0x20000000.
Definition FLAG_SEQ_SCAN : Z := 0x08000000.

Definition NS2_LENGTH : Z := 8448 * 4096.
Definition MBR_SIG : Z := 0x53313233.
Definition PORT_MAGIC : list Z := chars "NWOAS-S123-LINK!".
Definition EXPECTED_SIZE : Z := 783373346.
Definition EXPECTED_SHA : list Z := [
  0xcb;0x6c;0x76;0x5f;0x80;0xd5;0x3e;0x1f; 0xe7;0x02;0xde;0x14;0x5b;0x6d;0xa1;0xc6;
  0x7a;0xf5;0xb3;0x7d;0x5a;0x39;0x9c;0x8f; 0x33;0x96;0xa7;0xec;0xfe;0xd7;0x81;0x59].
Definition FREE_MARGIN : Z := 512 * 1024 * 1024.
Definition MAX_TRIES : nat := 3.

Definition disk_path : list Z := chars "\\.\PhysicalDrive0".
Definition dest_path : list Z := chars "C:\NWOAS-BENCH\CINEBEN.ZIP.part".
(** [path] with [path[17] = '0' + i]. *)
Definition drive_path (i : Z) : list Z := overwrite 17 [0x30 + i] disk_path.

(** ** The operating system *)

(** Results are in the order: return value, then what is stored through the
    pointer arguments. *)
Record win32 (W : Type) := {
  GetDiskFreeSpaceExW : M W (bool * Z);
  VirtualAlloc : Z -> M W (option (list Z));
  CreateFileW : list Z -> Z -> Z -> Z -> Z -> M W H;
  DeviceIoControl : H -> M W (bool * Z * Z);
  SetFilePointerEx : H -> Z -> M W bool;
  ReadFile : H -> list Z -> Z -> M W (bool * Z * list Z);
  WriteFile : H -> list Z -> M W (bool * Z);
  FlushFileBuffers : H -> M W bool;
  CloseHandle : H -> M W unit;
  Sleep : Z -> M W unit;
}.
#[global] Arguments GetDiskFreeSpaceExW {W} _. #[global] Arguments VirtualAlloc {W} _.
#[global] Arguments CreateFileW {W} _. #[global] Arguments DeviceIoControl {W} _.
#[global] Arguments SetFilePointerEx {W} _. #[global] Arguments ReadFile {W} _.
#[global] Arguments WriteFile {W} _. #[global] Arguments FlushFileBuffers {W} _.
#[global] Arguments CloseHandle {W} _. #[global] Arguments Sleep {W} _.

(** ** The client's globals *)

Record client := mk_client {
  g_win : list Z;
  g_req : list Z;
  g_idbuf : list Z;
  g_token : list Z;
  g_disk : H;
}.
#[export] Instance client_eta : Eta client := fun c =>
  mk_client (g_win c) (g_req c) (g_idbuf c) (g_token c) (g_disk c).
(** The statics before [mainCRTStartup] runs. *)
Definition client_init : client := mk_client [] [] [] (zeros WIRE_TOKEN_LEN) INVALID_H.

Section client.
Context {W : Type} (env : win32 W).
Notation st := (client * W)%type.

(** ** Blocks and windows *)

(** The result and the new contents of [dst]. *)
Definition rd_block (h : H) (at_ : Z) (dst : list Z) : M W (bool * list Z) :=
  ok ← SetFilePointerEx env h at_;
  if negb ok then mret (false, dst)
  else
    r ← ReadFile env h dst WIRE_BLOCK;
    let '(ok, got, dst) := r in mret (ok && (got =? WIRE_BLOCK), dst).

(** [rd_block(h, at, g_idbuf)]. *)
Definition rd_idbuf (h : H) (at_ : Z) : M st bool :=
  b ← get g_idbuf;
  r ← os (rd_block h at_ b);
  put (fun c => c <| g_idbuf := r.2 |>);;
  mret r.1.

Definition identify (h : H) : M st bool := body (
  r ← call (os (DeviceIoControl env h));
  let '(ok, length, got) := r in
  when (negb ok || negb (got =? 8) || negb (length =? NS2_LENGTH)) (exit false);;
  ok ← call (rd_idbuf h 0);
  b ← call (get g_idbuf);
  when (negb ok || negb (wire_rd32 b 440 =? MBR_SIG) || negb (byte_at b 510 =? 0x55) ||
        negb (byte_at b 511 =? 0xAA)) (exit false);;
  ok ← call (rd_idbuf h (WIRE_PORT_LBA * WIRE_BLOCK));
  when (negb ok) (exit false);;
  b ← call (get g_idbuf);
  mret (match_at b 0 PORT_MAGIC)).

Definition put_request (id offset length : Z) : M st bool :=
  c ← get (fun c => c);
  put (fun c => c <| g_req := wire_build_request (g_token c) id offset length |>);;
  ok ← os (SetFilePointerEx env (g_disk c) (WIRE_REQ_LBA * WIRE_BLOCK));
  if negb ok then mret false
  else
    req ← get g_req;
    r ← os (WriteFile env (g_disk c) req);
    mret (r.1 && (r.2 =? WIRE_BLOCK)).

Definition get_window : M st bool :=
  c ← get (fun c => c);
  ok ← os (SetFilePointerEx env (g_disk c) (WIRE_RESP_LBA * WIRE_BLOCK));
  if negb ok then mret false
  else
    r ← os (ReadFile env (g_disk c) (g_win c) WIRE_WINDOW_BYTES);
    let '(ok, got, win) := r in
    put (fun c => c <| g_win := win |>);;
    mret (ok && (got =? WIRE_WINDOW_BYTES)).

(** ** An exchange *)

(** What one attempt accepts in a response. *)
Definition response_wanted (win : list Z) (r : wire_resp) (id offset length : Z) (data_mode : bool) : bool :=
  let rc := if data_mode then wire_check_data r id offset length EXPECTED_SIZE else wire_check_manifest r id in
  if decide (rc = WIRE_OK) then match_at win 64 EXPECTED_SHA else false.

(** The loop with [n] attempts left; [first] is [attempt == 0].  [Some r] is
    the return value 1 with the response. *)
Fixpoint exchange_loop (n : nat) (first : bool) (id offset length : Z) (data_mode : bool) :
    M st (option wire_resp) :=
  match n with
  | O => mret None
  | S n =>
      (if first then mret tt else os (Sleep env 100));;
      sent ← put_request id offset length;
      if negb sent then exchange_loop n false id offset length data_mode
      else
        ok ← get_window;
        if negb ok then exchange_loop n false id offset length data_mode
        else
          c ← get (fun c => c);
          match wire_parse_response (g_win c) WIRE_WINDOW_BYTES (g_token c) with
          | inl _ => exchange_loop n false id offset length data_mode
          | inr r =>
              if response_wanted (g_win c) r id offset length data_mode then mret (Some r)
              else exchange_loop n false id offset length data_mode
          end
  end.
Definition exchange := exchange_loop MAX_TRIES true.

(** ** Writing the file *)

(** [p] are the bytes not yet written ([p + done], [n - done] of them); the
    iterations are bounded by the fuel and [None] is running out of it. *)
Fixpoint write_all (fuel : nat) (f : H) (p : list Z) : M st (option bool) :=
  match p, fuel with
  | [], _ => mret (Some true)
  | _, O => mret None
  | _, S fuel =>
      r ← os (WriteFile env f p);
      let '(ok, w) := r in
      if negb ok || (w =? 0) then mret (Some false) else write_all fuel f (zdrop w p)
  end.

(** ** The program

    The value is the code passed to [ExitProcess], [None] when the fuel of a
    loop ran out. *)

Definition stop {A} (code : Z) : proc st (option Z) A :=
  d ← call (get g_disk);
  when (negb (d =? INVALID_H)) (call (os (CloseHandle env d)));;
  exit (Some code).

(** One turn of the search for the disk: true when [g_disk] has been set. *)
Definition probe (i : Z) : M st bool := body (
  h ← call (os (CreateFileW env (drive_path i) GENERIC_READ SHARE_RW OPEN_EXISTING FLAG_NO_BUFFERING));
  when (h =? INVALID_H) (exit false);;
  ok ← call (identify h);
  when ok (call (put (fun c => c <| g_token := ztake 16 (zdrop 16 (g_idbuf c)) |>)));;
  call (os (CloseHandle env h));;
  when (negb ok) (exit false);;
  h ← call (os (CreateFileW env (drive_path i) GENERIC_RW SHARE_RW OPEN_EXISTING FLAG_NO_BUFFERING));
  when (h =? INVALID_H) (exit false);;
  ok ← call (identify h);
  when (negb ok) (call (os (CloseHandle env h));; exit false);;
  c ← call (get (fun c => c));
  when (negb (match_at (g_idbuf c) 16 (g_token c))) (call (os (CloseHandle env h));; exit false);;
  call (put (fun c => c <| g_disk := h |>));;
  mret true).

(** The search over the drives [i], [i + 1], ... *)
Fixpoint find_disk (n : nat) (i : Z) : M st unit :=
  match n with
  | O => mret tt
  | S n =>
      found ← probe i;
      if (found : bool) then mret tt else find_disk n (i + 1)
  end.

Definition alloc_buffers : M st bool :=
  win ← os (VirtualAlloc env WIRE_WINDOW_BYTES);
  req ← os (VirtualAlloc env WIRE_BLOCK);
  idb ← os (VirtualAlloc env WIRE_BLOCK);
  match win, req, idb with
  | Some win, Some req, Some idb =>
      put (fun c => mk_client win req idb (g_token c) (g_disk c));; mret true
  | _, _, _ => mret false
  end.

(** The download loop; falls through with the final offset. *)
Fixpoint download (fuel : nat) (f : H) (off id : Z) : proc st (option Z) Z :=
  match fuel with
  | O => exit None
  | S fuel =>
      if negb (off <? EXPECTED_SIZE) then mret off
      else
        o ← call (exchange id off WIRE_PAYLOAD_CAP true);
        match o with
        | None => call (os (CloseHandle env f));; stop 9
        | Some r =>
            when (truthy (served r)) (
              win ← call (get g_win);
              w ← call (write_all (Z.to_nat (served r)) f (resp_payload win r));
              match w with
              | None => exit None
              | Some true => mret tt
              | Some false => call (os (CloseHandle env f));; stop 10
              end);;
            let off := u64 (off + served r) in
            let id := u32 (id + 1) in
            if status r =? WIRE_STATUS_FINAL then mret off else download fuel f off id
        end
  end.
(** One iteration per full chunk, one for the rest and one to leave. *)
Definition DOWNLOAD_FUEL : nat := Z.to_nat (EXPECTED_SIZE / WIRE_PAYLOAD_CAP + 2).

Definition mainCRTStartup : M st (option Z) := body (
  r ← call (os (GetDiskFreeSpaceExW env));
  let '(ok, avail) := r in
  when (negb ok) (stop 4);;
  when (avail <? EXPECTED_SIZE + FREE_MARGIN) (stop 4);;
  ok ← call alloc_buffers;
  when (negb ok) (stop 5);;
  call (find_disk 10 0);;
  d ← call (get g_disk);
  when (d =? INVALID_H) (stop 6);;
  o ← call (exchange 1 WIRE_SENTINEL 0 false);
  match o with
  | None => stop 7
  | Some r =>
      when (negb (file_size r =? EXPECTED_SIZE)) (stop 7);;
      win ← call (get g_win);
      when (negb (match_at win 64 EXPECTED_SHA)) (stop 7);;
      f ← call (os (CreateFileW env dest_path GENERIC_WRITE 0 CREATE_NEW FLAG_SEQ_SCAN));
      when (f =? INVALID_H) (stop 8);;
      off ← download DOWNLOAD_FUEL f 0 2;
      when (negb (off =? EXPECTED_SIZE)) (call (os (CloseHandle env f));; stop 11);;
      ok ← call (os (FlushFileBuffers env f));
      when (negb ok) (call (os (CloseHandle env f));; stop 12);;
      call (os (CloseHandle env f));;
      d ← call (get g_disk);
      call (os (CloseHandle env d));;
      call (put (fun c => c <| g_disk := INVALID_H |>));;
      mret (Some 0)
  end).
End client.

(** ** What the system calls do

    The log of the calls that matter, each with what it answered. *)
Inductive event :=
| EvOpen (path : list Z) (access disposition : Z) (h : H)
| EvSeek (h : H) (at_ : Z) (ok : bool)
| EvRead (h : H) (ok : bool) (got : Z) (buf : list Z)
| EvWrite (h : H) (bytes : list Z) (ok : bool) (count : Z)
| EvFlush (h : H) (ok : bool)
| EvClose (h : H).

(** [h] was opened and not closed again. *)
Definition open_step (h : H) (b : bool) (e : event) : bool :=
  match e with
  | EvOpen _ _ _ h' => if h' =? h then true else b
  | EvClose h' => if h' =? h then false else b
  | _ => b
  end.
Definition is_open (h : H) (l : list event) : bool := fold_left (open_step h) l false.

(** The bytes that went to [f]. *)
Definition wrote (f : H) (e : event) : list Z :=
  match e with
  | EvWrite h bs true n => if h =? f then ztake n bs else []
  | _ => []
  end.
Definition written (f : H) (l : list event) : list Z := flat_map (wrote f) l.

(** The documented behaviour: buffers keep their size, a write reports at most
    the bytes it was given, a new handle is not one in use, and fresh pages are
    zero. *)
Class WinEnv {W} (env : win32 W) (log : W -> list event) : Prop := {
  we_free : keeps log (GetDiskFreeSpaceExW env);
  we_alloc n w : let r := VirtualAlloc env n w in
    log r.2 = log w /\ forall b, r.1 = Some b -> b = zeros n;
  we_create path acc share disp flags w : let r := CreateFileW env path acc share disp flags w in
    log r.2 = log w ++ [EvOpen path acc disp r.1] /\ (r.1 <> INVALID_H -> is_open r.1 (log w) = false);
  we_ioctl h : keeps log (DeviceIoControl env h);
  we_seek h at_ w : let r := SetFilePointerEx env h at_ w in log r.2 = log w ++ [EvSeek h at_ r.1];
  we_read h dst n w : let r := ReadFile env h dst n w in
    log r.2 = log w ++ [EvRead h r.1.1.1 r.1.1.2 r.1.2] /\ zlen r.1.2 = zlen dst /\
    (bytes_ok dst -> bytes_ok r.1.2);
  we_write h bs w : let r := WriteFile env h bs w in
    log r.2 = log w ++ [EvWrite h bs r.1.1 r.1.2] /\ 0 <= r.1.2 <= zlen bs;
  we_flush h w : let r := FlushFileBuffers env h w in log r.2 = log w ++ [EvFlush h r.1];
  we_close h w : log (CloseHandle env h w).2 = log w ++ [EvClose h];
  we_sleep n : keeps log (Sleep env n);
}.

(** A window tells the truth about [art]: the response in it, if it is a chunk of
    the expected artifact, carries the bytes at its offset.  [honest]: so do all
    the windows that were read in full. *)
Definition carries (art win : list Z) : Prop := forall token r,
  wire_parse_response win WIRE_WINDOW_BYTES token = inr r -> match_at win 64 EXPECTED_SHA = true ->
  status r = WIRE_STATUS_DATA \/ status r = WIRE_STATUS_FINAL ->
  resp_payload win r = piece (offset r) (served r) art.
Definition honest (art : list Z) (l : list event) : Prop :=
  forall h win, EvRead h true WIRE_WINDOW_BYTES win ∈ l -> carries art win.

(** The traffic of an exchange on the disk [d]: seeks, reads, and request blocks
    written right after a seek to their port. *)
Inductive session (d : H) : list event -> Prop :=
| session_nil : session d []
| session_seek at_ ok l : session d l -> session d (EvSeek d at_ ok :: l)
| session_read ok got win l : session d l -> session d (EvRead d ok got win :: l)
| session_request token i off len ok n l : session d l ->
    session d (EvSeek d (WIRE_REQ_LBA * WIRE_BLOCK) true ::
               EvWrite d (wire_build_request token i off len) ok n :: l).

Definition is_write (e : event) : bool := match e with EvWrite _ _ _ _ => true | _ => false end.
(** No opening and no closing. *)
Definition plain (e : event) : bool := match e with EvOpen _ _ _ _ | EvClose _ => false | _ => true end.

(** Every write is of a request block at the port, or to the file [f]. *)
Inductive disciplined (f : option H) : list event -> Prop :=
| disc_nil : disciplined f []
| disc_other e l : is_write e = false -> disciplined f l -> disciplined f (e :: l)
| disc_file h bs ok n l : f = Some h -> disciplined f l -> disciplined f (EvWrite h bs ok n :: l)
| disc_request h token i off len ok n l : disciplined f l ->
    disciplined f (EvSeek h (WIRE_REQ_LBA * WIRE_BLOCK) true ::
                   EvWrite h (wire_build_request token i off len) ok n :: l).

(** ** Logs *)

Lemma disciplined_app f l k : disciplined f l -> disciplined f k -> disciplined f (l ++ k).
Proof.
  intros H1 H2. induction H1; cbn; [done | by apply disc_other | by apply disc_file | by apply disc_request].
Qed.
Lemma session_join d l k : session d l -> session d k -> session d (l ++ k).
Proof.
  intros H1 H2. induction H1; cbn; [done | by apply session_seek | by apply session_read | by apply session_request].
Qed.
Lemma session_disciplined f d l : session d l -> disciplined f l.
Proof. induction 1; [done || by constructor | by apply disc_other .. | by apply disc_request]. Qed.
Lemma disciplined_none f l : disciplined None l -> disciplined f l.
Proof. induction 1; [by constructor | by apply disc_other | done | by apply disc_request]. Qed.
Lemma session_plain d l : session d l -> Forall plain l.
Proof. induction 1; by repeat constructor. Qed.

Lemma is_open_app h l k : is_open h (l ++ k) = fold_left (open_step h) k (is_open h l).
Proof. apply fold_left_app. Qed.
Lemma is_open_plain h l k : Forall plain k -> is_open h (l ++ k) = is_open h l.
Proof.
  intros Hk. rewrite is_open_app. generalize (is_open h l). induction Hk as [| e k He _ IH]; intros b; [done |].
  cbn [fold_left]. rewrite IH. by destruct e.
Qed.

Lemma written_join f l k : written f (l ++ k) = written f l ++ written f k.
Proof. apply flat_map_app. Qed.
Lemma written_session f d l : session d l -> d <> f -> written f l = [].
Proof. intros Hs Hne. induction Hs; cbn; try done. rewrite (proj2 (Z.eqb_neq d f)) by done. by destruct ok. Qed.
Lemma written_silent f l : Forall (fun e => is_write e = false) l -> written f l = [].
Proof. induction 1 as [| e l He _ IH]; [done |]. unfold written in *. cbn. rewrite IH. by destruct e. Qed.

Section client_spec.
Context {W : Type} {env : win32 W} {log : W -> list event} `{!WinEnv env log}.
Implicit Types (c : client) (w : W) (t : list event).

(** *** System calls *)

Lemma spec_seek h at_ Q c w :
  (forall ok w', log w' = log w ++ [EvSeek h at_ ok] -> Q ok (c, w')) ->
  mwp (os (SetFilePointerEx env h at_)) Q (c, w).
Proof. intros HQ. apply mwp_os, HQ, we_seek. Qed.

Lemma spec_read h dst n Q c w :
  (forall ok got b w', log w' = log w ++ [EvRead h ok got b] -> zlen b = zlen dst -> (bytes_ok dst -> bytes_ok b) -> Q (ok, got, b) (c, w')) ->
  mwp (os (ReadFile env h dst n)) Q (c, w).
Proof.
  intros HQ. apply mwp_os. pose proof (we_read h dst n w) as (H1 & H2 & H3).
  destruct (ReadFile env h dst n w) as [[[ok got] b] w']. by apply HQ.
Qed.

Lemma spec_write h bs Q c w :
  (forall ok n w', log w' = log w ++ [EvWrite h bs ok n] -> 0 <= n <= zlen bs -> Q (ok, n) (c, w')) ->
  mwp (os (WriteFile env h bs)) Q (c, w).
Proof.
  intros HQ. apply mwp_os. pose proof (we_write h bs w) as [H1 H2].
  destruct (WriteFile env h bs w) as [[ok n] w']. by apply HQ.
Qed.

Lemma spec_create path acc share disp flags Q c w :
  (forall h w', log w' = log w ++ [EvOpen path acc disp h] -> (h <> INVALID_H -> is_open h (log w) = false) ->
    Q h (c, w')) ->
  mwp (os (CreateFileW env path acc share disp flags)) Q (c, w).
Proof. intros HQ. apply mwp_os. apply HQ; apply we_create. Qed.

Lemma spec_close h Q c w :
  (forall w', log w' = log w ++ [EvClose h] -> Q tt (c, w')) -> mwp (os (CloseHandle env h)) Q (c, w).
Proof. intros HQ. apply mwp_os. destruct (CloseHandle env h w).1. apply HQ, we_close. Qed.

Lemma spec_flush h Q c w :
  (forall ok w', log w' = log w ++ [EvFlush h ok] -> Q ok (c, w')) -> mwp (os (FlushFileBuffers env h)) Q (c, w).
Proof. intros HQ. apply mwp_os. apply HQ, we_flush. Qed.

Lemma spec_silent {A} (m : M W A) Q c w :
  keeps log m -> (forall a w', log w' = log w -> Q a (c, w')) -> mwp (os m) Q (c, w).
Proof. intros Hk HQ. apply mwp_os, HQ, Hk. Qed.

(** *** Finding the disk *)

(** Reads and seeks of one disk. *)
Definition quiet (h : H) t : Prop := session h t /\ Forall (fun e => is_write e = false) t.
Lemma quiet_nil h : quiet h [].
Proof. split; [apply session_nil | constructor]. Qed.
Lemma quiet_app h t u : quiet h t -> quiet h u -> quiet h (t ++ u).
Proof. intros [] []. split; [by apply session_join | by apply Forall_app]. Qed.

Definition put_idbuf b c : client := c <| g_idbuf := b |>.

Lemma spec_rd_idbuf h at_ Q c w :
  (forall ok b w' t, log w' = log w ++ t -> quiet h t -> zlen b = zlen (g_idbuf c) -> Q ok (put_idbuf b c, w')) ->
  mwp (rd_idbuf env h at_) Q (c, w).
Proof.
  intros HQ. unfold rd_idbuf. cl_go. apply mwp_os. cl_go. unfold rd_block, mbind, M_bind, mret, M_ret. cbv zeta.
  pose proof (we_seek h at_ w) as E1. destruct (SetFilePointerEx env h at_ w) as [ok w1]. cbn in *.
  destruct ok; cbn.
  - pose proof (we_read h (g_idbuf c) WIRE_BLOCK w1) as (E2 & E3 & _).
    destruct (ReadFile env h (g_idbuf c) WIRE_BLOCK w1) as [[[ok got] b] w2]. cbn in *.
    apply (HQ _ b _ [EvSeek h at_ true; EvRead h ok got b]); [by rewrite E2, E1, <- app_assoc | | done].
    split; [apply session_seek, session_read, session_nil | by repeat constructor].
  - apply (HQ _ (g_idbuf c) _ [EvSeek h at_ false]); [by rewrite E1 | | done].
    split; [apply session_seek, session_nil | by repeat constructor].
Qed.

Lemma spec_identify h Q c w :
  (forall ok b w' t, log w' = log w ++ t -> quiet h t -> zlen b = zlen (g_idbuf c) -> Q ok (put_idbuf b c, w')) ->
  mwp (identify env h) Q (c, w).
Proof.
  intros HQ. assert (Hc : c = put_idbuf (g_idbuf c) c) by by destruct c.
  unfold identify. cl_go. apply spec_silent; [apply we_ioctl |]. intros [[ok len] got] w1 E1. cl_go.
  { rewrite Hc. apply (HQ _ _ _ []); [by rewrite E1, app_nil_r | apply quiet_nil | done]. }
  apply spec_rd_idbuf. intros ok1 b1 w2 t1 E2 Hq1 Hl1. rewrite E1 in E2. cl_go.
  { by apply (HQ _ _ _ t1). }
  apply spec_rd_idbuf. intros ok2 b2 w3 t2 E3 Hq2 Hl2. cl_go; cbn.
  all: apply (HQ _ _ _ (t1 ++ t2)); [by rewrite E3, E2, app_assoc | by apply quiet_app | by rewrite Hl2].
Qed.

Definition no_writes t : Prop := Forall (fun e => is_write e = false) t.

(** The sizes of the buffers. *)
Record sized c : Prop := {
  sz_win : zlen (g_win c) = WIRE_WINDOW_BYTES;
  sz_bytes : bytes_ok (g_win c);
  sz_idbuf : zlen (g_idbuf c) = WIRE_BLOCK;
  sz_token : zlen (g_token c) = WIRE_TOKEN_LEN;
}.

Lemma is_open_opened h path acc disp l t : Forall plain t -> is_open h (l ++ EvOpen path acc disp h :: t) = true.
Proof.
  intros Ht. change (EvOpen path acc disp h :: t) with ([EvOpen path acc disp h] ++ t).
  rewrite app_assoc, is_open_plain by done. rewrite is_open_app. cbn. by rewrite Z.eqb_refl.
Qed.

Definition found_disk (d : H) (found : bool) c w : Prop :=
  if found then g_disk c <> INVALID_H /\ is_open (g_disk c) (log w) = true else g_disk c = d.

Lemma spec_probe i Q c w : sized c ->
  (forall found c' w' t, log w' = log w ++ t -> no_writes t -> sized c' -> found_disk (g_disk c) found c' w' ->
    Q found (c', w')) ->
  mwp (probe env i) Q (c, w).
Proof.
  intros [Hw Hwb Hi Ht] HQ. unfold probe. cl_go. apply spec_create. intros h1 w1 E1 _. cl_go.
  { apply (HQ _ _ _ [EvOpen (drive_path i) GENERIC_READ OPEN_EXISTING h1]); [done | by repeat constructor | done | done]. }
  apply spec_identify. intros ok b1 w2 t1 E2 [_ Hq1] Hl1. rewrite E1 in E2. rewrite <- app_assoc in E2.
  assert (Hstop : forall c' w3 tail, log w3 = log w2 ++ EvClose h1 :: tail -> no_writes tail -> sized c' ->
    forall found, found_disk (g_disk c) found c' w3 -> Q found (c', w3)).
  { intros c' w3 tail E3 Htail Hs found Hf.
    eapply HQ; [rewrite E3, E2, <- app_assoc; reflexivity | | done | done]. repeat constructor. apply Forall_app.
    split; [done | by constructor]. }
  assert (Hs1 : sized (put_idbuf b1 c)) by (split; cbn; congruence).
  set (c1 := put_idbuf b1 c) in *.
  assert (Hs2 : sized (c1 <| g_token := ztake 16 (zdrop 16 (g_idbuf c1)) |>)).
  { destruct Hs1 as [? ? Hi1 ?]. split; cbn; try done. apply (zlen_piece 16 16); [done | done |]. cbn in Hi1. by rewrite Hi1. }
  cl_go.
  2: { apply spec_close. intros w3 E3. cl_go; [| by subst]. apply (Hstop _ _ []); [done | constructor | done | done]. }
  lazymatch goal with |- mwp _ _ (?x, _) => change x with (c1 <| g_token := ztake 16 (zdrop 16 (g_idbuf c1)) |>) end.
  set (c2 := c1 <| g_token := ztake 16 (zdrop 16 (g_idbuf c1)) |>) in *.
  assert (Hd2 : g_disk c2 = g_disk c) by done. clearbody c2.
  apply spec_close. intros w3 E3. cl_go; [by subst |]. apply spec_create. intros h2 w4 E4 _.
  rewrite E3, <- app_assoc in E4. cbn [app] in E4. cl_go.
  { by apply (Hstop c2 w4 _ E4); [repeat constructor | |]. }
  apply spec_identify. intros ok2 b2 w5 t2 E5 [Hq2 Hq2'] Hl2. rewrite E4, <- app_assoc in E5. cbn [app] in E5.
  assert (Hs3 : sized (put_idbuf b2 c2)) by (destruct Hs2; split; cbn; congruence).
  cl_go.
  - apply spec_close. intros w6 E6. rewrite E5, <- app_assoc in E6. cbn [app] in E6. cl_go.
    apply (Hstop _ w6 _ E6); [| done | done].
    constructor; [done |]. apply Forall_app. split; [done | by repeat constructor].
  - apply spec_close. intros w6 E6. rewrite E5, <- app_assoc in E6. cbn [app] in E6. cl_go.
    apply (Hstop _ w6 _ E6); [| done | done].
    constructor; [done |]. apply Forall_app. split; [done | by repeat constructor].
  - apply (Hstop _ w5 _ E5); [by constructor | by destruct Hs3 |]. cbn. bool_props. split; [done |].
    rewrite E5. change (EvClose h1 :: ?x :: t2) with ([EvClose h1] ++ x :: t2). rewrite app_assoc.
    apply is_open_opened, (session_plain h2), Hq2.
Qed.

Lemma spec_find_disk n i Q c w : sized c ->
  (forall c' w' t, log w' = log w ++ t -> no_writes t -> sized c' ->
    (g_disk c' = g_disk c \/ g_disk c' <> INVALID_H /\ is_open (g_disk c') (log w') = true) -> Q tt (c', w')) ->
  mwp (find_disk env n i) Q (c, w).
Proof.
  revert i c w. induction n as [| n IH]; intros i c w Hs HQ; cbn [find_disk].
  - cl_go. apply (HQ _ _ []); [by rewrite app_nil_r | constructor | done | by left].
  - cl_go. apply spec_probe; [done |]. intros found c1 w1 t1 E1 Ht1 Hs1 Hf. cl_go.
    + subst found. by apply (HQ _ _ t1); [| | | right].
    + subst found. apply IH; [done |]. intros c2 w2 t2 E2 Ht2 Hs2 Hf2. apply (HQ _ _ (t1 ++ t2)); [| | done |].
      * by rewrite E2, E1, app_assoc.
      * by apply Forall_app.
      * rewrite <- Hf. done.
Qed.

Lemma spec_alloc Q c w : zlen (g_token c) = WIRE_TOKEN_LEN ->
  (forall ok c' w', log w' = log w -> g_disk c' = g_disk c -> (ok = true -> sized c') -> Q ok (c', w')) ->
  mwp (alloc_buffers env) Q (c, w).
Proof.
  intros Ht HQ. unfold alloc_buffers. cl_go. apply mwp_os. pose proof (we_alloc WIRE_WINDOW_BYTES w) as [E1 V1].
  destruct (VirtualAlloc env WIRE_WINDOW_BYTES w) as [b1 w1]. cl_go.
  apply mwp_os. pose proof (we_alloc WIRE_BLOCK w1) as [E2 V2].
  destruct (VirtualAlloc env WIRE_BLOCK w1) as [b2 w2]. cl_go.
  apply mwp_os. pose proof (we_alloc WIRE_BLOCK w2) as [E3 V3].
  destruct (VirtualAlloc env WIRE_BLOCK w2) as [b3 w3]. cbn in *.
  destruct b1 as [b1 |], b2 as [b2 |], b3 as [b3 |]; cl_go; apply HQ; try congruence; try done.
  intros _. split; cbn; [rewrite (V1 _ eq_refl) | rewrite (V1 _ eq_refl) | rewrite (V3 _ eq_refl) | done].
  - by apply zlen_zeros.
  - apply bytes_ok_zeros.
  - by apply zlen_zeros.
Qed.

(** *** Exchanges and writes *)

Lemma spec_put_request i off len Q c w :
  (forall ok b w' t, log w' = log w ++ t -> session (g_disk c) t -> Q ok (c <| g_req := b |>, w')) ->
  mwp (put_request env i off len) Q (c, w).
Proof.
  intros HQ. unfold put_request. cl_go. apply spec_seek. intros ok w1 E1. cl_go.
  - by apply (HQ _ _ _ [EvSeek (g_disk c) (WIRE_REQ_LBA * WIRE_BLOCK) ok]); [| apply session_seek, session_nil].
  - destruct ok; [| done]. apply spec_write. intros ok n w2 E2 _. cl_go.
    rewrite E1, <- app_assoc in E2. by apply (HQ _ _ _ _ E2), session_request, session_nil.
Qed.

Lemma spec_get_window Q c w :
  (forall ok b w' t, log w' = log w ++ t -> session (g_disk c) t -> zlen b = zlen (g_win c) -> (bytes_ok (g_win c) -> bytes_ok b) ->
    (ok = true -> EvRead (g_disk c) true WIRE_WINDOW_BYTES b ∈ t) -> Q ok (c <| g_win := b |>, w')) ->
  mwp (get_window env) Q (c, w).
Proof.
  intros HQ. unfold get_window. cl_go. apply spec_seek. intros ok w1 E1. cl_go.
  - replace c with (c <| g_win := g_win c |>) by by destruct c.
    by apply (HQ _ _ _ [EvSeek (g_disk c) (WIRE_RESP_LBA * WIRE_BLOCK) ok]); [| apply session_seek, session_nil | | |].
  - apply spec_read. intros ok' got b w2 E2 Hl Hb. rewrite E1, <- app_assoc in E2. cl_go.
    apply (HQ _ _ _ _ E2); [apply session_seek, session_read, session_nil | done | done |].
    intros Hok. bool_props. destruct ok'; [| done]. subst got. cbn. set_solver.
Qed.

(** What an accepted exchange knows about the window. *)
Definition accepted (i off len : Z) (mode : bool) (r : wire_resp) c t : Prop :=
  wire_parse_response (g_win c) WIRE_WINDOW_BYTES (g_token c) = inr r /\
  response_wanted (g_win c) r i off len mode = true /\
  EvRead (g_disk c) true WIRE_WINDOW_BYTES (g_win c) ∈ t.

Lemma spec_exchange n first i off len mode Q c w : sized c ->
  (forall o c' w' t, log w' = log w ++ t -> session (g_disk c) t -> sized c' -> g_disk c' = g_disk c ->
    (forall r, o = Some r -> accepted i off len mode r c' t) -> Q o (c', w')) ->
  mwp (exchange_loop env n first i off len mode) Q (c, w).
Proof.
  revert first c w. induction n as [| n IH]; intros first c w Hs HQ; cbn [exchange_loop].
  { cl_go. by apply (HQ _ _ _ []); [rewrite app_nil_r | apply session_nil | | |]. }
  assert (Hretry : forall c' w' t, log w' = log w ++ t -> session (g_disk c) t -> sized c' -> g_disk c' = g_disk c ->
    mwp (exchange_loop env n false i off len mode) Q (c', w')).
  { intros c' w' t E Ht Hs' Hd. apply IH; [done |]. intros o c2 w2 t2 E2 Ht2 Hs2 Hd2 Ho. rewrite Hd in *.
    apply (HQ _ _ _ (t ++ t2)); [by rewrite E2, E, app_assoc | by apply session_join | done | congruence |].
    intros r Hr. destruct (Ho r Hr) as (? & ? & ?). unfold accepted. set_solver. }
  assert (Hsleep : forall Q' : unit -> client * W -> Prop, (forall w', log w' = log w -> Q' tt (c, w')) ->
    mwp (if first then mret tt else os (Sleep env 100)) Q' (c, w)).
  { intros Q' HQ'. destruct first; [cl_go; by apply HQ' |]. apply spec_silent; [apply we_sleep |].
    intros [] w' E. by apply HQ'. }
  apply mwp_bind, Hsleep. intros w0 E0. apply mwp_bind, spec_put_request. intros ok b w1 t1 E1 Ht1. rewrite E0 in E1.
  assert (Hs1 : sized (c <| g_req := b |>)) by (destruct Hs; by split).
  set (c1 := c <| g_req := b |>) in *.
  destruct ok; cbn [negb]; [| by apply (Hretry _ _ t1)].
  apply mwp_bind, spec_get_window. intros ok b2 w2 t2 E2 Ht2 Hl2 Hb2 Hr2. rewrite E1, <- app_assoc in E2.
  assert (Hs2 : sized (c1 <| g_win := b2 |>)) by (split; [cbn; rewrite Hl2; apply Hs1 | apply Hb2, Hs1 | apply Hs1 | apply Hs1]).
  set (c2 := c1 <| g_win := b2 |>) in *.
  assert (Ht : session (g_disk c) (t1 ++ t2)) by (by apply session_join).
  destruct ok; cbn [negb]; [| by apply (Hretry _ _ _ E2)].
  cl_go. destruct (wire_parse_response _ _ _) as [e | r] eqn:Ep; [by apply (Hretry _ _ _ E2) |].
  destruct (response_wanted _ _ _ _ _ _) eqn:Ew; [| by apply (Hretry _ _ _ E2)].
  cl_go. apply (HQ _ _ _ _ E2); [done | done | done |]. intros ? [= <-]. split; [done |]. split; [done |].
  apply elem_of_app. right. by apply Hr2.
Qed.

Lemma spec_write_all fuel f p Q c w :
  (forall o w' t, log w' = log w ++ t -> Forall (fun e => exists bs ok n, e = EvWrite f bs ok n) t ->
    (o = Some true -> written f t = p) -> ((length p <= fuel)%nat -> o <> None) -> Q o (c, w')) ->
  mwp (write_all env fuel f p) Q (c, w).
Proof.
  revert p w. induction fuel as [| fuel IH]; intros [| b p] w HQ; cbn [write_all].
  - cl_go. by apply (HQ _ _ []); [rewrite app_nil_r | constructor | |].
  - cl_go. apply (HQ _ _ []); [by rewrite app_nil_r | constructor | done | cbn; lia].
  - cl_go. by apply (HQ _ _ []); [rewrite app_nil_r | constructor | |].
  - cl_go. apply spec_write. intros ok n w1 E1 Hn. destruct (negb ok || (n =? 0)) eqn:E; cl_go.
    + apply (HQ _ _ _ E1); [repeat constructor; by eexists _, _, _ | done | done].
    + bool_props. destruct ok; [| done]. apply IH. intros o w2 t2 E2 Ht2 Hw2 Hf2. rewrite E1, <- app_assoc in E2.
      apply (HQ _ _ _ E2).
      * constructor; [by eexists _, _, _ | done].
      * intros Ho. unfold written in *. cbn [app flat_map wrote]. rewrite Z.eqb_refl, Hw2 by done. apply ztake_zdrop.
      * intros Hf. apply Hf2. unfold zdrop. rewrite length_drop. cbn [length] in *. lia.
Qed.

(** *** The program *)

Lemma spec_stop {A} f code (Q : option Z + A -> client * W -> Prop) c w :
  (forall w' t, log w' = log w ++ t -> disciplined f t -> Q (inl (Some code)) (c, w')) ->
  wp (stop env code) Q (c, w).
Proof.
  intros HQ. unfold stop. cl_go.
  - apply spec_close. intros w' E. cl_go. apply (HQ _ _ E), disc_other, disc_nil. done.
  - apply (HQ _ []); [by rewrite app_nil_r | apply disc_nil].
Qed.

(** A chunk that the client accepts is the next piece, and a short one the last. *)
Lemma accepted_chunk i off r c t : sized c -> 0 <= off <= EXPECTED_SIZE ->
  accepted i off WIRE_PAYLOAD_CAP true r c t ->
  0 <= served r <= EXPECTED_SIZE - off /\ zlen (resp_payload (g_win c) r) = served r /\
  (status r <> WIRE_STATUS_FINAL -> served r = WIRE_PAYLOAD_CAP) /\
  (forall art, honest art t -> resp_payload (g_win c) r = piece off (served r) art).
Proof.
  intros Hs Ho (Hp & Hw & Hin). rewrite <- (sz_win c Hs) in Hp.
  destruct (parse_bounds _ _ _ (sz_bytes c Hs) (sz_token c Hs) Hp) as [Hse Hl].
  unfold response_wanted in Hw. destruct (decide _) as [Hc |]; [| done].
  assert (H64 : forall x, 0 <= x <= EXPECTED_SIZE -> in_w 64 x) by (unfold in_w, EXPECTED_SIZE; lia).
  apply check_data_ok in Hc; [| by apply H64 | by apply H64 | unfold in_w; unfold WIRE_PAYLOAD_CAP, WIRE_WINDOW_BYTES,
    WIRE_WINDOW_BLOCKS, WIRE_BLOCK, WIRE_HEADER in Hse; lia].
  destruct Hc as ((_ & Hoff & _) & Hsz & Hst). split; [lia |]. split; [done |]. split; [intros; by destruct Hst as [[] | []] |].
  intros art Ha. rewrite <- Hoff. rewrite (sz_win c Hs) in Hp. apply (Ha _ _ Hin _ _ Hp Hw).
  destruct Hst as [[] | []]; auto.
Qed.

(** What the download leaves behind: the file holds the artifact from the first
    offset to the last. *)
Definition downloaded (f d : H) (off : Z) (o : option Z + Z) c t : Prop :=
  disciplined (Some f) t /\
  match o with
  | inl code => code <> Some 0
  | inr off' => 0 <= off' <= EXPECTED_SIZE /\ off <= off' /\ g_disk c = d /\ Forall plain t /\
      (d <> f -> forall art, honest art t -> written f t = piece off (off' - off) art)
  end.

Definition write_piece (f : H) (r : wire_resp) : proc (client * W) (option Z) unit :=
  win ← call (get g_win);
  w ← call (write_all env (Z.to_nat (served r)) f (resp_payload win r));
  match w with
  | None => exit None
  | Some true => mret tt
  | Some false => call (os (CloseHandle env f));; stop env 10
  end.

Lemma files_disciplined f t : Forall (fun e => exists bs ok n, e = EvWrite f bs ok n) t -> disciplined (Some f) t.
Proof. induction 1 as [| ? ? (? & ? & ? & ->) _ IH]; [apply disc_nil | by apply disc_file]. Qed.
Lemma files_plain f t : Forall (fun e => exists bs ok n, e = EvWrite f bs ok n) t -> Forall plain t.
Proof. induction 1 as [| ? ? (? & ? & ? & ->) _ IH]; by constructor. Qed.

Lemma spec_write_piece f r Q c w : zlen (resp_payload (g_win c) r) = served r ->
  (forall o w' t, log w' = log w ++ t -> disciplined (Some f) t ->
    match o with
    | inl code => exists k, code = Some k /\ k <> 0
    | inr _ => Forall plain t /\ written f t = resp_payload (g_win c) r
    end -> Q o (c, w')) ->
  wp (when (truthy (served r)) (write_piece f r)) Q (c, w).
Proof.
  intros Hl HQ. apply wp_when; intros Ht.
  - unfold write_piece. apply wp_bind, wp_call, mwp_get, wp_bind, wp_call, spec_write_all.
    intros o w1 t1 E1 Hd1 Hw1 Hf1. destruct o as [[|] |].
    + cl_go. apply (HQ _ _ _ E1); [by apply files_disciplined |]. split; [by apply (files_plain f) | by apply Hw1].
    + cl_go. apply spec_close. intros w2 E2. cl_go. apply (spec_stop (Some f)). intros w3 t3 E3 Hd3.
      eapply HQ; [by rewrite E3, E2, E1, <- !app_assoc | | by exists 10].
      apply disciplined_app; [by apply files_disciplined | by apply disc_other].
    + exfalso. apply Hf1; [| done]. unfold zlen in Hl. lia.
  - apply (HQ _ _ []); [by rewrite app_nil_r | apply disc_nil |]. split; [constructor |]. bool_props.
    unfold zlen in Hl. by destruct (resp_payload _ _); [| cbn in Hl; lia].
Qed.

Lemma spec_download fuel f off i Q c w : sized c -> 0 <= off <= EXPECTED_SIZE ->
  EXPECTED_SIZE - off <= WIRE_PAYLOAD_CAP * (Z.of_nat fuel - 1) ->
  (forall o c' w' t, log w' = log w ++ t -> downloaded f (g_disk c) off o c' t -> o <> inl None -> Q o (c', w')) ->
  wp (download env fuel f off i) Q (c, w).
Proof.
  revert off i c w. induction fuel as [| fuel IH]; intros off i c w Hs Ho Hfuel HQ.
  { exfalso. unfold WIRE_PAYLOAD_CAP, WIRE_WINDOW_BYTES, WIRE_WINDOW_BLOCKS, WIRE_BLOCK, WIRE_HEADER in Hfuel. lia. }
  cbn [download]. apply wp_if; intros Hlt; bool_props.
  { cl_go. apply (HQ _ _ _ []); [by rewrite app_nil_r | | done]. split; [apply disc_nil |]. rewrite Z.sub_diag.
    split_and!; [lia | lia | lia | done | constructor | done]. }
  apply wp_bind, wp_call, spec_exchange; [done |]. intros o c1 w1 t1 E1 Ht1 Hs1 Hd1 Hacc.
  assert (Hdisc1 : disciplined (Some f) t1) by (by apply (session_disciplined _ (g_disk c))).
  destruct o as [r |].
  2: { cl_go. apply spec_close. intros w2 E2. cl_go. apply (spec_stop (Some f)). intros w3 t3 E3 Hd3.
    eapply HQ; [by rewrite E3, E2, E1, <- !app_assoc | | done]. split; [| done].
    apply disciplined_app; [done | by apply disc_other]. }
  destruct (accepted_chunk i off r c1 t1 Hs1 Ho (Hacc r eq_refl)) as (Hse & Hl & Hfull & Hart).
  apply wp_bind. fold (write_piece f r). apply spec_write_piece; [done |]. intros o w2 t2 E2 Hdisc2 Ho2.
  rewrite E1, <- app_assoc in E2. assert (Hdisc12 : disciplined (Some f) (t1 ++ t2)) by (by apply disciplined_app).
  destruct o as [code | []].
  { destruct Ho2 as (k & -> & Hk). apply (HQ _ _ _ _ E2); [split; [done | congruence] | congruence]. }
  destruct Ho2 as [Hpl2 Hw2]. cbv zeta.
  assert (Hwrap : u64 (off + served r) = off + served r) by (apply wrap_small; unfold in_w, EXPECTED_SIZE in *; lia).
  rewrite Hwrap.
  assert (Hpl1 : Forall plain t1) by (by apply (session_plain (g_disk c))).
  assert (Hw12 : g_disk c <> f -> forall art, honest art t1 -> written f (t1 ++ t2) = piece off (served r) art).
  { intros Hne art Ha. by rewrite written_join, (written_session f (g_disk c) t1), Hw2, (Hart art). }
  apply wp_if; intros Hst; bool_props.
  - cl_go. apply (HQ _ _ _ _ E2); [| done]. split; [done |].
    replace (off + served r - off) with (served r) by lia.
    split_and!; [lia | lia | lia | done | by apply Forall_app |]. intros Hne art Ha. apply Hw12; [done |].
    intros h win Hin. apply (Ha h). set_solver.
  - apply IH; [done | lia | rewrite (Hfull Hst); lia |]. intros o c3 w3 t3 E3 [Hdisc3 Hd3] Hnone.
    rewrite E2, <- app_assoc in E3. apply (HQ _ _ _ _ E3); [| done]. split; [by apply disciplined_app |].
    destruct o as [code | off']; [done |]. destruct Hd3 as (Hr3 & Hle3 & Hdisk3 & Hpl3 & Hw3). rewrite Hd1 in *.
    split_and!; [lia | lia | lia | done | |].
    + apply Forall_app. split; [by apply Forall_app | done].
    + intros Hne art Ha. rewrite written_join, (Hw12 Hne art), (Hw3 Hne art).
      * rewrite piece_app by lia. f_equal. lia.
      * intros h win Hin. apply (Ha h). set_solver.
      * intros h win Hin. apply (Ha h). set_solver.
Qed.

(** What a run that ends with [o] has done to the outside world. *)
Definition run_ok (o : option Z) (l : list event) : Prop :=
  o <> None /\
  ((disciplined None l /\ o <> Some 0) \/
   exists t1 f t2, l = t1 ++ EvOpen dest_path GENERIC_WRITE CREATE_NEW f :: t2 /\
     disciplined None t1 /\ disciplined (Some f) t2 /\
     (o = Some 0 ->
       (forall art, zlen art = EXPECTED_SIZE -> honest art l -> written f t2 = art) /\
       exists t3 d, t2 = t3 ++ [EvFlush f true; EvClose f; EvClose d])).

Lemma no_writes_disciplined f t : no_writes t -> disciplined f t.
Proof. induction 1; [apply disc_nil | by apply disc_other]. Qed.

Lemma download_fuel : EXPECTED_SIZE - 0 <= WIRE_PAYLOAD_CAP * (Z.of_nat DOWNLOAD_FUEL - 1).
Proof. unfold DOWNLOAD_FUEL. rewrite Z2Nat.id by done. done. Qed.

Lemma session_other h e t u : is_write e = false -> disciplined h t -> disciplined h u -> disciplined h (t ++ e :: u).
Proof. intros. apply disciplined_app; [done | by apply disc_other]. Qed.

(** The end of the program, from the creation of the file. *)
Definition save_file : proc (client * W) (option Z) (option Z) :=
  f ← call (os (CreateFileW env dest_path GENERIC_WRITE 0 CREATE_NEW FLAG_SEQ_SCAN));
  when (f =? INVALID_H) (stop env 8);;
  off ← download env DOWNLOAD_FUEL f 0 2;
  when (negb (off =? EXPECTED_SIZE)) (call (os (CloseHandle env f));; stop env 11);;
  ok ← call (os (FlushFileBuffers env f));
  when (negb ok) (call (os (CloseHandle env f));; stop env 12);;
  call (os (CloseHandle env f));;
  d ← call (get g_disk);
  call (os (CloseHandle env d));;
  call (put (fun c => c <| g_disk := INVALID_H |>));;
  mret (Some 0).

Lemma spec_save_file (Q : option Z + option Z -> client * W -> Prop) c w t0 base : sized c ->
  log w = base ++ t0 -> disciplined None t0 -> is_open (g_disk c) (log w) = true ->
  (forall o c' w' t, log w' = base ++ t -> run_ok o t -> Q (inl o) (c', w') /\ Q (inr o) (c', w')) ->
  wp save_file Q (c, w).
Proof.
  intros Hs E0 Hd0 Hopen HQ. unfold save_file. cl_go. apply spec_create. intros f w1 E1 Hfresh.
  assert (Hend : forall o c' w' t, log w' = log w ++ EvOpen dest_path GENERIC_WRITE CREATE_NEW f :: t ->
    disciplined (Some f) t -> o <> 0 -> Q (inl (Some o)) (c', w')).
  { intros o c' w' t E Hd Hne. rewrite E0, <- app_assoc in E. apply (HQ _ _ _ _ E). split; [done |]. right.
    exists t0, f, t. split_and!; try done. congruence. }
  apply wp_bind, wp_when; intros Hf; bool_props.
  { apply (spec_stop None). intros w2 t2 E2 Hd2. rewrite E1, <- app_assoc in E2.
    apply (Hend _ _ _ _ E2); [by apply disciplined_none | done]. }
  specialize (Hfresh Hf). assert (Hne : g_disk c <> f) by (intros E; rewrite E in Hopen; congruence).
  apply wp_bind, spec_download; [done | done | apply download_fuel |]. intros o c2 w2 t2 E2 [Hd2 Ho2] Hnone.
  rewrite E1, <- app_assoc in E2. cbn [app] in E2.
  destruct o as [[code |] | off]; [apply (Hend _ _ _ _ E2); congruence | done |].
  destruct Ho2 as (Hr & _ & Hdisk & _ & Hw2). cl_go; bool_props.
  { apply spec_close. intros w3 E3. rewrite E2, <- app_assoc in E3. cl_go. apply (spec_stop (Some f)).
    intros w4 t4 E4 Hd4. rewrite E3, <- app_assoc in E4. cbn [app] in E4. rewrite <- ?app_assoc in E4. cbn [app] in E4.
    apply (Hend _ _ _ _ E4); [by apply session_other | done]. }
  apply spec_flush. intros ok w3 E3. rewrite E2, <- app_assoc in E3. cl_go; bool_props; subst ok.
  { apply spec_close. intros w4 E4. rewrite E3, <- app_assoc in E4. cl_go. apply (spec_stop (Some f)).
    intros w5 t5 E5 Hd5. rewrite E4, <- app_assoc in E5. cbn [app] in E5. rewrite <- ?app_assoc in E5. cbn [app] in E5.
    apply (Hend _ _ _ _ E5); [| done]. apply session_other; [done | done |]. by apply disc_other. }
  apply spec_close. intros w4 E4. rewrite E3, <- app_assoc in E4. cl_go. apply spec_close. intros w5 E5.
  rewrite E4, E0, <- !app_assoc in E5. cbn [app] in E5. rewrite <- ?app_assoc in E5. cbn [app] in E5. cl_go.
  apply (HQ _ _ _ _ E5). split; [done |]. right. cbn [app].
  exists t0, f, (t2 ++ [EvFlush f true; EvClose f; EvClose (g_disk c2)]). split_and!; [done | done | |].
  { apply session_other; [done | done |]. do 2 (apply disc_other; [done |]). apply disc_nil. }
  intros _. split; [| by eexists _, _]. intros art Hl Ha. rewrite written_join, (written_silent f [_; _; _]), app_nil_r
    by (by repeat constructor).
  rewrite (Hw2 Hne art), H, Z.sub_0_r, <- Hl.
  - by apply piece_all.
  - intros h win Hin. apply (Ha h). set_solver.
Qed.

Lemma spec_main w : mwp (mainCRTStartup env) (fun o s' => exists t, log s'.2 = log w ++ t /\ run_ok o t) (client_init, w).
Proof.
  unfold mainCRTStartup. fold save_file.
  apply mwp_body, wp_bind, wp_call, spec_silent; [apply we_free |]. intros [ok avail] w1 E1.
  assert (Hearly : forall A code (Q : option Z + A -> client * W -> Prop) c' w' t, log w' = log w ++ t ->
    disciplined None t -> code <> 0 ->
    (forall w'' t, log w'' = log w ++ t -> run_ok (Some code) t -> Q (inl (Some code)) (c', w'')) -> wp (stop env code) Q (c', w')).
  { intros A code Q c' w' t E Hd Hne HQ. apply (spec_stop None). intros w'' t' E' Hd'. rewrite E, <- app_assoc in E'.
    apply (HQ _ _ E'). split; [done |]. left. split; [by apply disciplined_app | congruence]. }
  assert (E1' : log w1 = log w ++ []) by (by rewrite app_nil_r).
  cl_step. cl_step; [by apply (Hearly _ _ _ _ _ _ E1'); [apply disc_nil | | eauto] |].
  cl_step. cl_step; [by apply (Hearly _ _ _ _ _ _ E1'); [apply disc_nil | | eauto] |].
  cl_step. cl_step. apply spec_alloc; [done |]. intros ok2 c2 w2 E2 Hdk2 Hs2. rewrite E1' in E2.
  cl_step. cl_step; [by apply (Hearly _ _ _ _ _ _ E2); [apply disc_nil | | eauto] |].
  assert (Hs2' : sized c2) by (apply Hs2; by destruct ok2). clear Hs2.
  cl_step. cl_step. apply spec_find_disk; [done |]. intros c3 w3 t3 E3 Hn3 Hs3 Hd3.
  rewrite E2, <- app_assoc in E3. cbn [app] in E3. apply (no_writes_disciplined None) in Hn3.
  cl_step. cl_step. cl_step. cl_step. cl_step; [by apply (Hearly _ _ _ _ _ _ E3); [| | eauto] |].
  bool_props. destruct Hd3 as [Hd3 | [_ Hopen]]; [rewrite Hdk2 in Hd3; done |].
  cl_step. cl_step. apply spec_exchange; [done |]. intros o c4 w4 t4 E4 Ht4 Hs4 Hd4 Hacc.
  rewrite E3, <- app_assoc in E4.
  assert (Hdisc : disciplined None (t3 ++ t4)) by (apply disciplined_app; [done | by apply (session_disciplined _ (g_disk c3))]).
  destruct o as [r |]; [| by apply (Hearly _ _ _ _ _ _ E4); [| | eauto]].
  cl_step. cl_step; [by apply (Hearly _ _ _ _ _ _ E4); [| | eauto] |].
  cl_step. cl_step. cl_step. cl_step. cl_step; [by apply (Hearly _ _ _ _ _ _ E4); [| | eauto] |].
  apply (spec_save_file _ _ _ (t3 ++ t4) (log w)); [done | done | done | |].
  - rewrite E4, app_assoc, is_open_plain by (by apply (session_plain (g_disk c3))). by rewrite Hd4, <- E3.
  - intros o c' w' t E Hr. split; by exists t.
Qed.
End client_spec.
