(* ===== verification/DeliveryLink.v ===== *)
(** * The delivery client against the host's channel

    [Link] describes the machine the client is made for: the host's disk is one of
    the physical drives, its blocks show the channel's window and its request port
    feeds the channel.  On such a machine the client ends with exit code 0 and the
    file holds the artifact.  The last section applies the client's theorems to a
    concrete machine. *)

From S2P Require Import Prelude Wire Channel Delivery.

(** What an open handle stands for: a drive and a position, or the new file. *)
Inductive target := OnDrive (i pos : Z) | OnFile.

Definition upd {A} (h : Z) (x : A) (f : Z -> A) : Z -> A :=
  fun h' => if h' =? h then x else f h'.

(** The blocks [lba], [lba + 1], ... of a disk with contents [raw]. *)
Fixpoint blocks (raw : Z -> list Z) (lba : Z) (n : nat) : list Z :=
  match n with
  | O => []
  | S n => raw lba ++ blocks raw (lba + 1) n
  end.

(** The views of the system's state: the channel, the open handles, the file and
    the disk's own blocks.  [ns2] is the number of the host's disk. *)
Record views (W : Type) := {
  chan : W -> HostArtifactChannel;
  hnd : W -> Z -> option target;
  file : W -> list Z;
  raw : W -> Z -> list Z;
  ns2 : Z;
}.
#[global] Arguments chan {W} _. #[global] Arguments hnd {W} _. #[global] Arguments file {W} _.
#[global] Arguments raw {W} _. #[global] Arguments ns2 {W} _.

(** The disk: blocks of the right size, the signatures the client looks for, and
    the session token that the channel was made with. *)
Record disk_ok (tok : list Z) (raw : Z -> list Z) : Prop := {
  do_size lba : zlen (raw lba) = WIRE_BLOCK /\ bytes_ok (raw lba);
  do_sig : wire_rd32 (raw 0) 440 = MBR_SIG /\ byte_at (raw 0) 510 = 0x55 /\ byte_at (raw 0) 511 = 0xAA;
  do_port : piece 0 16 (raw WIRE_PORT_LBA) = PORT_MAGIC /\ piece 16 16 (raw WIRE_PORT_LBA) = tok;
}.

(** A step that touches none of the views but the handles. *)
Definition kept {W} (v : views W) (h : Z -> option target) (w w' : W) : Prop :=
  chan v w' = chan v w /\ (forall x, hnd v w' x = h x) /\ file v w' = file v w.

Class Link {W} (env : win32 W) (v : views W) (tok : list Z) : Prop := {
  lk_ns2 : 0 <= ns2 v < 10;
  lk_disk w : disk_ok tok (raw v w);
  lk_free w : let r := GetDiskFreeSpaceExW env w in
    r.1.1 = true /\ EXPECTED_SIZE + FREE_MARGIN <= r.1.2 /\ kept v (hnd v w) w r.2;
  lk_alloc n w : let r := VirtualAlloc env n w in r.1 = Some (zeros n) /\ kept v (hnd v w) w r.2;
  lk_drive i acc w : 0 <= i < 10 ->
    let r := CreateFileW env (drive_path i) acc SHARE_RW OPEN_EXISTING FLAG_NO_BUFFERING w in
    (r.1 = INVALID_H /\ i <> ns2 v /\ kept v (hnd v w) w r.2) \/
    (r.1 <> INVALID_H /\ hnd v w r.1 = None /\ kept v (upd r.1 (Some (OnDrive i 0)) (hnd v w)) w r.2);
  lk_ioctl h i p w : hnd v w h = Some (OnDrive i p) ->
    let r := DeviceIoControl env h w in
    kept v (hnd v w) w r.2 /\
    if decide (i = ns2 v) then r.1 = (true, NS2_LENGTH, 8) else r.1.1.1 = true -> r.1.1.2 <> NS2_LENGTH;
  lk_seek h i p at_ w : hnd v w h = Some (OnDrive i p) ->
    let r := SetFilePointerEx env h at_ w in
    r.1 = true /\ kept v (upd h (Some (OnDrive i at_)) (hnd v w)) w r.2;
  lk_read h lba n dst w : hnd v w h = Some (OnDrive (ns2 v) (lba * WIRE_BLOCK)) -> 0 <= lba -> 1 <= n ->
    lba < WIRE_RESP_LBA /\ n = 1 \/ lba = WIRE_RESP_LBA /\ n = WIRE_WINDOW_BLOCKS -> zlen dst = n * WIRE_BLOCK ->
    let r := ReadFile env h dst (n * WIRE_BLOCK) w in
    forall out, overlay (chan v w) lba n (blocks (raw v w) lba (Z.to_nat n)) = Some out ->
    r.1 = (true, n * WIRE_BLOCK, out) /\
    kept v (upd h (Some (OnDrive (ns2 v) ((lba + n) * WIRE_BLOCK))) (hnd v w)) w r.2;
  lk_request h bs w : hnd v w h = Some (OnDrive (ns2 v) (WIRE_REQ_LBA * WIRE_BLOCK)) ->
    zlen bs = WIRE_BLOCK -> bytes_ok bs ->
    let r := WriteFile env h bs w in
    let c := handle_request (chan v w) bs in
    r.1 = (if c.1 then (true, WIRE_BLOCK) else (false, 0)) /\ chan v r.2 = c.2 /\ file v r.2 = file v w /\
    exists p, forall x, hnd v r.2 x = upd h (Some (OnDrive (ns2 v) p)) (hnd v w) x;
  lk_create w : let r := CreateFileW env dest_path GENERIC_WRITE 0 CREATE_NEW FLAG_SEQ_SCAN w in
    r.1 <> INVALID_H /\ hnd v w r.1 = None /\ chan v r.2 = chan v w /\ file v r.2 = [] /\
    forall x, hnd v r.2 x = upd r.1 (Some OnFile) (hnd v w) x;
  lk_write h bs w : hnd v w h = Some OnFile -> bs <> [] ->
    let r := WriteFile env h bs w in
    r.1.1 = true /\ 1 <= r.1.2 <= zlen bs /\ file v r.2 = file v w ++ ztake r.1.2 bs /\
    chan v r.2 = chan v w /\ forall x, hnd v r.2 x = hnd v w x;
  lk_flush h w : hnd v w h = Some OnFile -> let r := FlushFileBuffers env h w in
    r.1 = true /\ kept v (hnd v w) w r.2;
  lk_close h w : kept v (upd h None (hnd v w)) w (CloseHandle env h w).2;
}.

(** The client set up on its disk, the channel having accepted [last] so far. *)
Record linked {W} (v : views W) (tok art : list Z) (last : Z) (c : client) (w : W) : Prop := {
  ln_sizes : zlen (g_win c) = WIRE_WINDOW_BYTES /\ zlen (g_idbuf c) = WIRE_BLOCK;
  ln_token : g_token c = tok;
  ln_disk : g_disk c <> INVALID_H /\ exists p, hnd v w (g_disk c) = Some (OnDrive (ns2 v) p);
  ln_chan : chan_ok (chan v w) /\ token (chan v w) = tok /\ last_id (chan v w) = last /\
    reg (chan v w) = Some (mk_registered art EXPECTED_SIZE EXPECTED_SHA);
}.

Section link.
Context {W : Type} {env : win32 W} {v : views W} {tok : list Z} `{!Link env v tok}.
Context (art : list Z) (Hart : zlen art = EXPECTED_SIZE).
Implicit Types (c : client) (w : W).

(** ** Windows and requests *)

Lemma window_size : WIRE_WINDOW_BYTES = WIRE_WINDOW_BLOCKS * WIRE_BLOCK.
Proof. done. Qed.

Lemma zlen_blocks r lba n : (forall i, zlen (r i) = WIRE_BLOCK) -> zlen (blocks r lba n) = Z.of_nat n * WIRE_BLOCK.
Proof.
  intros Hr. revert lba. induction n as [| n IH]; intros lba; [done |]. cbn [blocks]. rewrite zlen_app, Hr, IH.
  unfold WIRE_BLOCK. lia.
Qed.

(** Blocks below the window are the disk's own. *)
Lemma overlay_below ch lba n original x : resp ch = Some x -> 1 <= n -> lba + n <= WIRE_RESP_LBA ->
  zlen original = n * WIRE_BLOCK -> overlay ch lba n original = Some original.
Proof.
  intros Hr Hn Hlba Ho. unfold overlay. rewrite Hr, Ho. rewrite (proj2 (Z.ltb_ge n 1)), Z.eqb_refl by lia. cbn [orb negb].
  rewrite (proj2 (Z.ltb_ge _ _)); [done |]. unfold WIRE_RESP_LBA, WIRE_WINDOW_BLOCKS in *. lia.
Qed.

Lemma spec_put_request_live i off len n last Q c w : linked v tok art last c w ->
  last < i < 2 ^ 32 -> in_w 64 off -> in_w 32 len ->
  let g := mk_registered art EXPECTED_SIZE EXPECTED_SHA in
  normalize g (if off =? WIRE_SENTINEL then Manifest else Data, i, off, len) = Some n ->
  (forall b w', linked v tok art i (c <| g_req := b |>) w' ->
    resp (chan v w') = Some (build_window tok g (Some n)) -> reg_ok tok g -> norm_ok g (Some n) ->
    file v w' = file v w -> (forall x, x <> g_disk c -> hnd v w' x = hnd v w x) ->
    Q true (c <| g_req := b |>, w')) ->
  mwp (put_request env i off len) Q (c, w).
Proof.
  intros [Hsz Htok [Hdv [p Hp]] (Hch & Hct & Hlast & Hreg)] Hi Ho Hl g Hn HQ. unfold put_request. cl_go.
  apply mwp_os. destruct (lk_seek _ _ _ (WIRE_REQ_LBA * WIRE_BLOCK) w Hp) as (E1 & K1 & K2 & K3).
  destruct (SetFilePointerEx env _ _ w) as [ok w1]. cbn [fst snd] in *. subst ok. cbn [negb]. cl_go.
  apply mwp_os. assert (Eb : wire_build_request (g_token c) i off len = wire_build_request tok i off len) by (by rewrite Htok).
  rewrite Eb. clear Eb.
  rewrite <- K1 in Hch, Hct, Hlast, Hreg. set (b := wire_build_request tok i off len).
  rewrite <- Hlast in Hi. destruct (handle_built _ g i off len n Hch Hreg Hi Ho Hl Hn) as (A1 & A2 & A3 & A4 & A5).
  rewrite Hct in A1, A2, A3. fold b in A1, A2, A3.
  assert (Hg : reg_ok tok g) by (unfold chan_ok in Hch; rewrite Hreg, Hct in Hch; apply Hch).
  assert (Hb : zlen b = WIRE_BLOCK) by (apply request_pieces, Hg).
  assert (Hh : hnd v w1 (g_disk c) = Some (OnDrive (ns2 v) (WIRE_REQ_LBA * WIRE_BLOCK))).
  { rewrite K2. unfold upd. by rewrite Z.eqb_refl. }
  assert (Hbok : bytes_ok b).
  { unfold b. rewrite build_request by apply Hg. unfold request. rewrite !bytes_ok_app. destruct (rg_token _ _ Hg).
    split_and!; auto with words. apply bytes_ok_check; reflexivity. }
  destruct (lk_request _ b w1 Hh Hb Hbok) as (B1 & B2 & B3 & p' & B4). cbn [g_req] in *.
  destruct (WriteFile env (g_disk c) b w1) as [[ok n'] w2]. cbn [fst snd] in *. rewrite A1 in B1. injection B1 as -> ->.
  cl_go. rewrite Z.eqb_refl. cbn [andb].
  apply (HQ b); [| by rewrite B2 | done | done | by rewrite B3 |].
  - split; [done | done | |].
    + split; [done |]. exists p'. cbn. rewrite B4. unfold upd. by rewrite Z.eqb_refl.
    + rewrite B2. split_and!.
      * by apply handle_request_ok.
      * by rewrite handle_request_token.
      * unfold last_id. by rewrite A2.
      * by rewrite handle_request_reg.
  - intros x Hx. rewrite B4. unfold upd. rewrite (proj2 (Z.eqb_neq x _)) by done.
    rewrite K2. unfold upd. by rewrite (proj2 (Z.eqb_neq x _)) by done.
Qed.

Lemma spec_get_window_live last win Q c w : linked v tok art last c w ->
  resp (chan v w) = Some win -> zlen win = WIRE_WINDOW_BYTES ->
  (forall w', linked v tok art last (c <| g_win := win |>) w' -> file v w' = file v w ->
    (forall x, x <> g_disk c -> hnd v w' x = hnd v w x) -> Q true (c <| g_win := win |>, w')) ->
  mwp (get_window env) Q (c, w).
Proof.
  intros [[Hsz Hid] Htok [Hdv [p Hp]] Hchan] Hresp Hwin HQ. unfold get_window. cl_go. apply mwp_os.
  destruct (lk_seek _ _ _ (WIRE_RESP_LBA * WIRE_BLOCK) w Hp) as (E1 & K1 & K2 & K3).
  destruct (SetFilePointerEx env _ _ w) as [ok w1]. cbn [fst snd] in *. subst ok. cbn [negb]. cl_go. apply mwp_os.
  assert (Hh : hnd v w1 (g_disk c) = Some (OnDrive (ns2 v) (WIRE_RESP_LBA * WIRE_BLOCK))).
  { rewrite K2. unfold upd. by rewrite Z.eqb_refl. }
  rewrite <- K1 in Hresp. rewrite window_size in Hwin, Hsz.
  assert (Hov : overlay (chan v w1) WIRE_RESP_LBA WIRE_WINDOW_BLOCKS
    (blocks (raw v w1) WIRE_RESP_LBA (Z.to_nat WIRE_WINDOW_BLOCKS)) = Some win).
  { apply overlay_window; [done | done | done |]. rewrite zlen_blocks; [done |]. intros i. apply (do_size _ _ (lk_disk (v := v) w1)). }
  destruct (lk_read _ WIRE_RESP_LBA WIRE_WINDOW_BLOCKS (g_win c) w1 Hh ltac:(done) ltac:(done) ltac:(by right) Hsz _ Hov)
    as (B1 & B2 & B3 & B4).
  rewrite window_size. destruct (ReadFile env _ _ _ w1) as [[[ok n] b] w2]. cbn [fst snd] in *. injection B1 as -> -> ->.
  cl_go. rewrite Z.eqb_refl. cbn [andb]. apply HQ; [| by rewrite B4 |].
  - split; [by rewrite window_size | done | |].
    + split; [done |]. eexists. cbn. rewrite B3. unfold upd. by rewrite Z.eqb_refl.
    + by rewrite B2, K1.
  - intros x Hx. rewrite B3. unfold upd. rewrite (proj2 (Z.eqb_neq x _)) by done. rewrite K2. unfold upd.
    by rewrite (proj2 (Z.eqb_neq x _)) by done.
Qed.

Definition served_art : registered := mk_registered art EXPECTED_SIZE EXPECTED_SHA.
Definition other_handles (d : Z) w w' : Prop := forall x, x <> d -> hnd v w' x = hnd v w x.

Lemma spec_exchange_live i off len mode n last Q c w : linked v tok art last c w ->
  last < i < 2 ^ 32 -> in_w 64 off -> in_w 32 len ->
  normalize served_art (if off =? WIRE_SENTINEL then Manifest else Data, i, off, len) = Some n ->
  (forall win, match_at win 64 EXPECTED_SHA = true ->
    response_wanted win (resp_of tok served_art (Some n)) i off len mode = true) ->
  (forall c' w', linked v tok art i c' w' -> g_disk c' = g_disk c ->
    resp_payload (g_win c') (resp_of tok served_art (Some n)) = payload_of served_art (Some n) ->
    match_at (g_win c') 64 EXPECTED_SHA = true ->
    file v w' = file v w -> other_handles (g_disk c) w w' ->
    Q (Some (resp_of tok served_art (Some n))) (c', w')) ->
  mwp (exchange env i off len mode) Q (c, w).
Proof.
  intros Hln Hi Ho Hl Hn Hwant HQ. unfold exchange, MAX_TRIES. cbn [exchange_loop]. cl_go.
  apply (spec_put_request_live i off len n last); [done ..|]. intros b w1 Hl1 Hr1 Hg Hnok Hf1 Hh1. cl_go; [done |].
  destruct (window_parses tok served_art (Some n) Hg Hnok) as (P1 & P2 & P3 & P4 & _).
  apply (spec_get_window_live i (build_window tok served_art (Some n))); [done | done | done |].
  intros w2 Hl2 Hf2 Hh2. cl_go; [done |]. cbn [g_win g_token].
  rewrite <- (ln_token _ _ _ _ _ _ Hln) in P2 at 2. rewrite P2.
  assert (Hm : match_at (build_window tok served_art (Some n)) 64 EXPECTED_SHA = true).
  { apply match_at_piece; [done | by rewrite P1 |]. exact P3. }
  rewrite Hwant by done. cl_go. apply HQ; [done | done | done | done | by rewrite Hf2, Hf1 |].
  intros x Hx. by rewrite Hh2, Hh1.
Qed.

(** The manifest and the chunks are accepted. *)
Lemma manifest_wanted win i : match_at win 64 EXPECTED_SHA = true ->
  response_wanted win (resp_of tok served_art (Some (mk_norm Manifest i WIRE_SENTINEL 0))) i WIRE_SENTINEL 0 false = true.
Proof.
  intros Hm. unfold response_wanted. rewrite decide_True; [done |]. by apply check_manifest_ok.
Qed.

Lemma chunk_facts i off : 0 <= off < EXPECTED_SIZE ->
  let r := resp_of tok served_art (Some (mk_norm Data i off WIRE_PAYLOAD_CAP)) in
  let sv := Z.min WIRE_PAYLOAD_CAP (EXPECTED_SIZE - off) in
  id r = i /\ offset r = off /\ file_size r = EXPECTED_SIZE /\ served r = sv /\
  status r = (if sv =? WIRE_PAYLOAD_CAP then WIRE_STATUS_DATA else WIRE_STATUS_FINAL) /\
  payload_of served_art (Some (mk_norm Data i off WIRE_PAYLOAD_CAP)) = piece off sv art.
Proof. done. Qed.

Lemma cap_pos : 0 < WIRE_PAYLOAD_CAP < EXPECTED_SIZE.
Proof. done. Qed.

Lemma chunk_wanted win i off : 0 <= off < EXPECTED_SIZE -> match_at win 64 EXPECTED_SHA = true ->
  response_wanted win (resp_of tok served_art (Some (mk_norm Data i off WIRE_PAYLOAD_CAP))) i off WIRE_PAYLOAD_CAP true = true.
Proof.
  intros Ho Hm. unfold response_wanted. rewrite decide_True; [done |].
  destruct (chunk_facts i off Ho) as (F1 & F2 & F3 & F4 & F5 & _). set (r := resp_of _ _ _) in *.
  pose proof cap_pos. apply check_data_ok.
  - unfold in_w, EXPECTED_SIZE in *. lia.
  - done.
  - rewrite F4. unfold in_w, EXPECTED_SIZE in *. lia.
  - split_and!; [done | done | done | lia |]. rewrite F5, F4. destruct (Z.eqb_spec (Z.min WIRE_PAYLOAD_CAP (EXPECTED_SIZE - off)) WIRE_PAYLOAD_CAP).
    + by left.
    + right. split; [done | lia].
Qed.

Lemma spec_write_live fuel f p Q c w : hnd v w f = Some OnFile -> (length p <= fuel)%nat ->
  (forall w', chan v w' = chan v w -> (forall x, hnd v w' x = hnd v w x) -> file v w' = file v w ++ p -> Q (Some true) (c, w')) ->
  mwp (write_all env fuel f p) Q (c, w).
Proof.
  revert p w. induction fuel as [| fuel IH]; intros [| b p] w Hf Hle HQ; cbn [write_all]; try (cbn in Hle; lia).
  1, 2: cl_go; apply HQ; [done | done | by rewrite app_nil_r].
  cl_go. apply mwp_os. destruct (lk_write f (b :: p) w Hf) as (B1 & B2 & B3 & B4 & B5); [done |].
  destruct (WriteFile env f (b :: p) w) as [[ok n] w1]. cbn [fst snd] in *. subst ok.
  rewrite (proj2 (Z.eqb_neq n 0)) by lia. cbn [negb orb]. apply IH.
  - by rewrite B5.
  - unfold zdrop. rewrite length_drop. cbn [length] in *. lia.
  - intros w2 C1 C2 C3. apply HQ; [congruence | intros x; by rewrite C2, B5 |].
    rewrite C3, B3, <- app_assoc. by rewrite ztake_zdrop.
Qed.

Lemma linked_other last c w w' : chan v w' = chan v w -> (forall x, hnd v w' x = hnd v w x) ->
  linked v tok art last c w -> linked v tok art last c w'.
Proof. intros E1 E2 [H1 H2 (H3 & p & H4) H5]. split; [done | done | | by rewrite E1]. split; [done |]. exists p. by rewrite E2. Qed.

Lemma spec_download_live fuel f i Q c w : let off := WIRE_PAYLOAD_CAP * (i - 2) in
  linked v tok art (i - 1) c w -> hnd v w f = Some OnFile -> 0 <= off < EXPECTED_SIZE ->
  EXPECTED_SIZE - off <= WIRE_PAYLOAD_CAP * (Z.of_nat fuel - 1) -> file v w = piece 0 off art ->
  (forall c' w', (exists last, linked v tok art last c' w') -> hnd v w' f = Some OnFile -> file v w' = art ->
    Q (inr EXPECTED_SIZE) (c', w')) ->
  wp (download env fuel f off i) Q (c, w).
Proof.
  revert i c w. induction fuel as [| fuel IH]; intros i c w off Hln Hf Ho Hfuel Hfile HQ.
  { exfalso. pose proof cap_pos. lia. }
  cbn [download]. rewrite (proj2 (Z.ltb_lt off EXPECTED_SIZE)) by lia. cbn [negb].
  pose proof cap_pos as Hcap. assert (Hi : 2 <= i < 2 ^ 31).
  { unfold off in Ho. split; [nia |]. change WIRE_PAYLOAD_CAP with 65408 in *. unfold EXPECTED_SIZE in *. lia. }
  apply wp_bind, wp_call. apply (spec_exchange_live i off WIRE_PAYLOAD_CAP true (mk_norm Data i off WIRE_PAYLOAD_CAP) (i - 1)).
  - done.
  - lia.
  - unfold in_w, EXPECTED_SIZE in *. lia.
  - done.
  - rewrite (proj2 (Z.eqb_neq off WIRE_SENTINEL)) by (unfold EXPECTED_SIZE, WIRE_SENTINEL in *; lia).
    unfold normalize. cbn [size served_art]. rewrite (proj2 (Z.ltb_ge EXPECTED_SIZE off)) by lia. done.
  - intros win. by apply chunk_wanted.
  - intros c1 w1 Hl1 Hd1 Hpay Hm1 Hf1 Hh1. destruct (chunk_facts i off Ho) as (F1 & F2 & F3 & F4 & F5 & F6).
    set (r := resp_of tok served_art (Some (mk_norm Data i off WIRE_PAYLOAD_CAP))) in *. clearbody r.
    set (sv := Z.min WIRE_PAYLOAD_CAP (EXPECTED_SIZE - off)) in *. cbv zeta.
    assert (Hfd : f <> g_disk c).
    { intros ->. destruct (ln_disk _ _ _ _ _ _ Hln) as (_ & p & Hp). congruence. }
    apply wp_bind, wp_when; [intros _ | rewrite F4; unfold truthy; intros E; bool_props; exfalso; revert E;
      destruct (Z.eqb_spec sv 0); [lia | done]].
    apply wp_bind, wp_call, mwp_get, wp_bind, wp_call. rewrite Hpay, F6.
    assert (Hlp : zlen (piece off sv art) = sv) by (apply zlen_piece; lia).
    apply spec_write_live; [by rewrite Hh1 | unfold zlen in Hlp; lia |].
    intros w2 C1 C2 C3. cl_step. rewrite F4. apply (linked_other i c1 w1 w2 C1 C2) in Hl1.
    assert (Hf2 : hnd v w2 f = Some OnFile) by (by rewrite C2, Hh1).
    assert (Hfile2 : file v w2 = piece 0 (off + sv) art) by (rewrite C3, Hf1, Hfile; by apply (piece_app 0 off sv); lia).
    rewrite (wrap_small 64 (off + sv)) by (unfold in_w, EXPECTED_SIZE in *; lia).
    rewrite (wrap_small 32 (i + 1)) by (unfold in_w; lia).
    destruct (Z.eqb_spec sv WIRE_PAYLOAD_CAP) as [Es | Es]; rewrite F5.
    + change (WIRE_STATUS_DATA =? WIRE_STATUS_FINAL) with false.
      destruct (Z.eq_dec (off + sv) EXPECTED_SIZE) as [Ed | Ed].
      * rewrite Ed in *. destruct fuel as [| fuel]; [exfalso; lia |]. cbn [download]. rewrite Z.ltb_irrefl. cbn [negb].
        cl_go. apply HQ; [by exists i | done |]. rewrite Hfile2. by apply piece_all.
      * assert (Eo : off + sv = WIRE_PAYLOAD_CAP * (i + 1 - 2)) by lia. rewrite Eo. apply IH; [| done | rewrite <- Eo; lia | rewrite <- Eo; lia | by rewrite <- Eo | done].
        by replace (i + 1 - 1) with i by lia.
    + change (WIRE_STATUS_FINAL =? WIRE_STATUS_FINAL) with true. cl_go; [| done].
      assert (Ed : off + sv = EXPECTED_SIZE) by lia. rewrite Ed in *.
      apply HQ; [by exists i | done |]. rewrite Hfile2. by apply piece_all.
Qed.

(** ** Finding the disk *)

(** The channel before the client's first request. *)
Record fresh_chan w : Prop := {
  fc_ok : chan_ok (chan v w);
  fc_token : token (chan v w) = tok;
  fc_reg : reg (chan v w) = Some served_art;
  fc_req : req (chan v w) = None;
}.

Lemma fresh_resp w : fresh_chan w -> exists x, resp (chan v w) = Some x.
Proof. intros [Hok _ Hreg _]. unfold chan_ok in Hok. rewrite Hreg in Hok. destruct Hok as (_ & _ & ->). by eexists. Qed.

Lemma fresh_same w w' : chan v w' = chan v w -> fresh_chan w -> fresh_chan w'.
Proof. intros E []. by split; rewrite E. Qed.

Lemma spec_rd_idbuf_live h lba p Q c w : hnd v w h = Some (OnDrive (ns2 v) p) -> 0 <= lba < WIRE_RESP_LBA ->
  zlen (g_idbuf c) = WIRE_BLOCK -> fresh_chan w ->
  (forall r w' p', disk_ok tok r -> kept v (upd h (Some (OnDrive (ns2 v) p')) (hnd v w)) w w' ->
    Q true (put_idbuf (r lba) c, w')) ->
  mwp (rd_idbuf env h (lba * WIRE_BLOCK)) Q (c, w).
Proof.
  intros Hh Hlba Hsz Hfr HQ. unfold rd_idbuf. cl_go. apply mwp_os. cl_go. unfold rd_block, mbind, M_bind, mret, M_ret. cbv zeta.
  destruct (lk_seek h _ _ (lba * WIRE_BLOCK) w Hh) as (E1 & K1 & K2 & K3).
  destruct (SetFilePointerEx env h _ w) as [ok w1]. cbn [fst snd] in *. subst ok. cbn [negb].
  assert (Hh1 : hnd v w1 h = Some (OnDrive (ns2 v) (lba * WIRE_BLOCK))) by (rewrite K2; unfold upd; by rewrite Z.eqb_refl).
  destruct (fresh_resp w Hfr) as [x Hx]. rewrite <- K1 in Hx. pose proof (lk_disk (v := v) w1) as Hd.
  assert (Eb : blocks (raw v w1) lba (Z.to_nat 1) = raw v w1 lba) by (cbn; apply app_nil_r).
  destruct (lk_read h lba 1 (g_idbuf c) w1 Hh1 ltac:(lia) ltac:(lia) ltac:(left; lia)
    ltac:(unfold WIRE_BLOCK in *; lia) (raw v w1 lba)) as (B1 & B2 & B3 & B4).
  { rewrite Eb. apply (overlay_below _ _ _ _ x); [done | lia | lia |]. rewrite (proj1 (do_size _ _ Hd lba)). unfold WIRE_BLOCK. lia. }
  change (1 * WIRE_BLOCK) with WIRE_BLOCK in *.
  destruct (ReadFile env h (g_idbuf c) WIRE_BLOCK w1) as [[[ok n] b] w2]. cbn [fst snd] in *. injection B1 as -> -> ->.
  cbn [fst snd]. rewrite Z.eqb_refl. cbn [andb]. apply (HQ (raw v w1) _ ((lba + 1) * WIRE_BLOCK)); [done |].
  split; [by rewrite B2 |]. split; [| by rewrite B4]. intros y. rewrite B3. unfold upd. destruct (y =? h) eqn:E; [done |].
  rewrite K2. unfold upd. by rewrite E.
Qed.

Lemma spec_identify_live h p Q c w : hnd v w h = Some (OnDrive (ns2 v) p) -> zlen (g_idbuf c) = WIRE_BLOCK -> fresh_chan w ->
  (forall b w' p', zlen b = WIRE_BLOCK -> piece 16 16 b = tok ->
    kept v (upd h (Some (OnDrive (ns2 v) p')) (hnd v w)) w w' -> Q true (put_idbuf b c, w')) ->
  mwp (identify env h) Q (c, w).
Proof.
  intros Hh Hsz Hfr HQ. unfold identify. apply mwp_body, wp_bind, wp_call, mwp_os.
  destruct (lk_ioctl h _ _ w Hh) as [(K1 & K2 & K3) Hr]. rewrite decide_True in Hr by done.
  destruct (DeviceIoControl env h w) as [r w1]. cbn [fst snd] in *. subst r. cbn [negb orb].
  rewrite !Z.eqb_refl. cbn [negb orb]. apply wp_bind, wp_when; [done | intros _].
  rewrite <- (K2 h) in Hh. apply (fresh_same _ w1 K1) in Hfr.
  apply wp_bind, wp_call. change (rd_idbuf env h 0) with (rd_idbuf env h (0 * WIRE_BLOCK)).
  apply (spec_rd_idbuf_live h 0 p); [done | done | done | done |]. intros r0 w2 p2 Hd0 (L1 & L2 & L3).
  apply wp_bind, wp_call, mwp_get. cbn [g_idbuf put_idbuf fst]. destruct (do_sig _ _ Hd0) as (S1 & S2 & S3).
  rewrite S1, S2, S3, !Z.eqb_refl. cbn [negb orb]. apply wp_bind, wp_when; [done | intros _].
  assert (Hh2 : hnd v w2 h = Some (OnDrive (ns2 v) p2)) by (rewrite L2; unfold upd; by rewrite Z.eqb_refl).
  apply (fresh_same _ w2 L1) in Hfr. apply wp_bind, wp_call.
  apply (spec_rd_idbuf_live h WIRE_PORT_LBA p2); [done | done | apply (do_size _ _ Hd0 0) | done |].
  intros r1 w3 p3 Hd1 (M1 & M2 & M3). cbn [negb]. apply wp_bind, wp_when; [done | intros _].
  apply wp_bind, wp_call, mwp_get, wp_ret. cbn [g_idbuf put_idbuf fst]. destruct (do_port _ _ Hd1) as [P1 P2].
  rewrite (proj2 (match_at_piece (r1 WIRE_PORT_LBA) PORT_MAGIC 0 ltac:(done) ltac:(rewrite (proj1 (do_size _ _ Hd1 _)); done))) by exact P1.
  apply (HQ (r1 WIRE_PORT_LBA) _ p3); [apply (do_size _ _ Hd1) | done |]. split; [congruence |]. split; [| congruence].
  intros y. rewrite M2. unfold upd. destruct (y =? h) eqn:E; [done |]. rewrite L2. unfold upd. by rewrite E, K2.
Qed.

Lemma spec_close_live h Q c w : (forall w', kept v (upd h None (hnd v w)) w w' -> Q tt (c, w')) ->
  mwp (os (CloseHandle env h)) Q (c, w).
Proof. intros HQ. apply mwp_os. destruct (CloseHandle env h w).1. apply HQ, lk_close. Qed.

(** Another drive is passed over. *)
Lemma spec_probe_other i Q c w : 0 <= i < 10 -> i <> ns2 v ->
  (forall w', kept v (hnd v w) w w' -> Q false (c, w')) -> mwp (probe env i) Q (c, w).
Proof.
  intros Hi Hne HQ. unfold probe. apply mwp_body, wp_bind, wp_call, mwp_os.
  destruct (lk_drive i GENERIC_READ w Hi) as [(E & _ & K) | (E & Hn & K1 & K2 & K3)];
    destruct (CreateFileW env (drive_path i) _ _ _ _ w) as [h w1]; cbn [fst snd] in *.
  { rewrite E, Z.eqb_refl. apply wp_bind, wp_when; [intros _ | done]. apply wp_exit. by apply HQ. }
  rewrite (proj2 (Z.eqb_neq h INVALID_H)) by done. apply wp_bind, wp_when; [done | intros _].
  assert (Hh : hnd v w1 h = Some (OnDrive i 0)) by (rewrite K2; unfold upd; by rewrite Z.eqb_refl).
  apply wp_bind, wp_call. unfold identify. apply mwp_body, wp_bind, wp_call, mwp_os.
  destruct (lk_ioctl h _ _ w1 Hh) as [(L1 & L2 & L3) Hr]. rewrite decide_False in Hr by done.
  destruct (DeviceIoControl env h w1) as [[[ok len] got] w2]. cbn [fst snd] in *.
  assert (Eb : negb ok || negb (got =? 8) || negb (len =? NS2_LENGTH) = true).
  { destruct ok; [| done]. specialize (Hr eq_refl). rewrite (proj2 (Z.eqb_neq len NS2_LENGTH)) by done. by rewrite orb_true_r. }
  rewrite Eb. apply wp_bind, wp_when; [intros _ | done]. apply wp_exit. cbn [negb].
  apply wp_bind, wp_when; [done | intros _]. apply wp_bind, wp_call, spec_close_live. intros w3 (M1 & M2 & M3).
  apply wp_bind, wp_when; [intros _ | done]. apply wp_exit. apply HQ. split; [congruence |]. split; [| congruence].
  intros y. rewrite M2. unfold upd. destruct (Z.eqb_spec y h) as [-> | Ey]; [done |]. rewrite L2, K2. unfold upd.
  by rewrite (proj2 (Z.eqb_neq y h)).
Qed.

Lemma spec_probe_ns2 Q c w : zlen (g_idbuf c) = WIRE_BLOCK -> zlen (g_win c) = WIRE_WINDOW_BYTES -> fresh_chan w ->
  (forall c' w', linked v tok art 0 c' w' -> Q true (c', w')) -> mwp (probe env (ns2 v)) Q (c, w).
Proof.
  intros Hsz Hwin Hfr HQ. pose proof lk_ns2 as Hns. unfold probe. apply mwp_body, wp_bind, wp_call, mwp_os.
  destruct (lk_drive (ns2 v) GENERIC_READ w Hns) as [(_ & Hne & _) | (E & Hn & K1 & K2 & K3)]; [done |].
  destruct (CreateFileW env (drive_path _) _ _ _ _ w) as [h w1]; cbn [fst snd] in *.
  rewrite (proj2 (Z.eqb_neq h INVALID_H)) by done. apply wp_bind, wp_when; [done | intros _].
  assert (Hh : hnd v w1 h = Some (OnDrive (ns2 v) 0)) by (rewrite K2; unfold upd; by rewrite Z.eqb_refl).
  apply (fresh_same _ w1 K1) in Hfr. apply wp_bind, wp_call, (spec_identify_live h 0); [done | done | done |].
  intros b w2 p2 Hb Ht (L1 & L2 & L3). apply (fresh_same _ w2 L1) in Hfr.
  apply wp_bind, wp_when; [intros _ | done]. apply wp_call, mwp_put. cbn [negb].
  apply wp_bind, wp_call, spec_close_live. intros w3 (M1 & M2 & M3). apply (fresh_same _ w3 M1) in Hfr.
  apply wp_bind, wp_when; [done | intros _]. apply wp_bind, wp_call, mwp_os.
  destruct (lk_drive (ns2 v) GENERIC_RW w3 Hns) as [(_ & Hne & _) | (E' & Hn' & K1' & K2' & K3')]; [done |].
  destruct (CreateFileW env (drive_path _) _ _ _ _ w3) as [h' w4]; cbn [fst snd] in *.
  rewrite (proj2 (Z.eqb_neq h' INVALID_H)) by done. apply wp_bind, wp_when; [done | intros _].
  assert (Hh' : hnd v w4 h' = Some (OnDrive (ns2 v) 0)) by (rewrite K2'; unfold upd; by rewrite Z.eqb_refl).
  apply (fresh_same _ w4 K1') in Hfr. apply wp_bind, wp_call, (spec_identify_live h' 0); [done | done | done |].
  intros b' w5 p5 Hb' Ht' (L1' & L2' & L3'). apply (fresh_same _ w5 L1') in Hfr. cbn [negb].
  apply wp_bind, wp_when; [done | intros _]. apply wp_bind, wp_call, mwp_get. cbn [g_idbuf g_token put_idbuf fst].
  assert (Htb : ztake 16 (zdrop 16 b) = tok) by exact Ht.
  assert (Hl : zlen tok = 16) by (rewrite <- Htb; by apply (zlen_piece 16 16); rewrite ?Hb).
  rewrite Htb. rewrite (proj2 (match_at_piece b' tok 16 ltac:(done) ltac:(rewrite Hb', Hl; done))) by (rewrite Hl; exact Ht').
  cbn [negb]. apply wp_bind, wp_when; [done | intros _]. apply wp_bind, wp_call, mwp_put, wp_ret. apply HQ.
  destruct Hfr as [F1 F2 F3 F4]. split; cbn.
  - done.
  - done.
  - split; [done |]. exists p5. rewrite L2'. unfold upd. by rewrite Z.eqb_refl.
  - split_and!; [done | done | unfold last_id; by rewrite F4 | done].
Qed.

Lemma spec_find_live n i Q c w : i + Z.of_nat n = 10 -> 0 <= i <= ns2 v ->
  zlen (g_idbuf c) = WIRE_BLOCK -> zlen (g_win c) = WIRE_WINDOW_BYTES -> fresh_chan w ->
  (forall c' w', linked v tok art 0 c' w' -> Q tt (c', w')) -> mwp (find_disk env n i) Q (c, w).
Proof.
  pose proof lk_ns2 as Hns. revert i w. induction n as [| n IH]; intros i w Hn Hi Hsz Hwin Hfr HQ; [lia |].
  cbn [find_disk]. apply mwp_bind. destruct (Z.eq_dec i (ns2 v)) as [-> | Hne].
  - apply spec_probe_ns2; [done | done | done |]. intros c' w' Hl. apply mwp_ret. by apply HQ.
  - apply spec_probe_other; [lia | done |]. intros w' (K & _). apply IH; try done; try lia. by apply (fresh_same w).
Qed.

(** ** The whole run *)

Lemma spec_save_file_live c w : linked v tok art 1 c w ->
  wp (save_file (env := env)) (fun o s' => match o with inl c | inr c => c = Some 0 end /\ file v s'.2 = art) (c, w).
Proof.
  intros Hln. unfold save_file. apply wp_bind, wp_call, mwp_os.
  destruct (lk_create (v := v) w) as (C1 & C2 & C3 & C4 & C5).
  destruct (CreateFileW env dest_path _ _ _ _ w) as [f w1]; cbn [fst snd] in *.
  rewrite (proj2 (Z.eqb_neq f INVALID_H)) by done. apply wp_bind, wp_when; [done | intros _].
  assert (Hf : hnd v w1 f = Some OnFile) by (rewrite C5; unfold upd; by rewrite Z.eqb_refl).
  assert (Hln1 : linked v tok art 1 c w1).
  { destruct Hln as [H1 H2 (H3 & p & H4) H5]. split; [done | done | | by rewrite C3]. split; [done |]. exists p.
    rewrite C5. unfold upd. destruct (Z.eqb_spec (g_disk c) f) as [E |]; [congruence | done]. }
  apply wp_bind. change 0 with (WIRE_PAYLOAD_CAP * (2 - 2)) at 1. pose proof cap_pos.
  apply (spec_download_live DOWNLOAD_FUEL f 2); [done | done | unfold EXPECTED_SIZE in *; lia | | by rewrite C4 |].
  { rewrite Z.sub_diag, Z.mul_0_r. apply download_fuel. }
  intros c2 w2 _ Hf2 Hfile2. rewrite Z.eqb_refl. apply wp_bind, wp_when; [done | intros _].
  apply wp_bind, wp_call, mwp_os. destruct (lk_flush f w2 Hf2) as [E (K1 & K2 & K3)].
  destruct (FlushFileBuffers env f w2) as [ok w3]; cbn [fst snd] in *. subst ok. cbn [negb].
  apply wp_bind, wp_when; [done | intros _]. apply wp_bind, wp_call, spec_close_live. intros w4 (_ & _ & L3).
  apply wp_bind, wp_call, mwp_get, wp_bind, wp_call, spec_close_live. intros w5 (_ & _ & M3).
  apply wp_bind, wp_call, mwp_put, wp_ret. split; [done |]. cbn [snd]. congruence.
Qed.

Lemma spec_main_live w : fresh_chan w ->
  mwp (mainCRTStartup env) (fun o s' => o = Some 0 /\ file v s'.2 = art) (client_init, w).
Proof.
  intros Hfr. unfold mainCRTStartup. fold (save_file (env := env)).
  apply mwp_body, wp_bind, wp_call, mwp_os. destruct (lk_free (v := v) w) as (E1 & E2 & K & _).
  destruct (GetDiskFreeSpaceExW env w) as [[ok avail] w1]; cbn [fst snd] in *. subst ok. cbn [negb].
  apply wp_bind, wp_when; [done | intros _]. rewrite (proj2 (Z.ltb_ge _ _)) by done.
  apply wp_bind, wp_when; [done | intros _]. apply (fresh_same _ w1 K) in Hfr. clear K E2.
  apply wp_bind, wp_call. unfold alloc_buffers.
  apply mwp_bind, mwp_os. destruct (lk_alloc (v := v) WIRE_WINDOW_BYTES w1) as [V1 [K1 _]].
  destruct (VirtualAlloc env WIRE_WINDOW_BYTES w1) as [o1 w2]; cbn [fst snd] in *.
  apply mwp_bind, mwp_os. destruct (lk_alloc (v := v) WIRE_BLOCK w2) as [V2 [K2 _]].
  destruct (VirtualAlloc env WIRE_BLOCK w2) as [o2 w3]; cbn [fst snd] in *.
  apply mwp_bind, mwp_os. destruct (lk_alloc (v := v) WIRE_BLOCK w3) as [V3 [K3 _]].
  destruct (VirtualAlloc env WIRE_BLOCK w3) as [o3 w4]; cbn [fst snd] in *. rewrite V1, V2, V3.
  apply mwp_bind, mwp_put, mwp_ret. cbn [negb]. apply wp_bind, wp_when; [done | intros _].
  apply wp_bind, wp_call, spec_find_live; cbn [g_idbuf g_win fst]; [done | pose proof (lk_ns2 (v := v)); lia | | | |].
  1, 2: by apply zlen_zeros.
  { apply (fresh_same w1); [congruence | done]. }
  intros c5 w5 Hln. apply wp_bind, wp_call, mwp_get. destruct (ln_disk _ _ _ _ _ _ Hln) as [Hd _].
  cbn [fst]. rewrite (proj2 (Z.eqb_neq (g_disk c5) INVALID_H)) by done. apply wp_bind, wp_when; [done | intros _].
  apply wp_bind, wp_call. apply (spec_exchange_live 1 WIRE_SENTINEL 0 false (mk_norm Manifest 1 WIRE_SENTINEL 0) 0); [done .. | |].
  { intros win. apply manifest_wanted. }
  intros c6 w6 Hln6 Hd6 _ Hm6 _ _. change (file_size _) with EXPECTED_SIZE. rewrite Z.eqb_refl.
  apply wp_bind, wp_when; [done | intros _]. apply wp_bind, wp_call, mwp_get. cbn [fst]. rewrite Hm6. cbn [negb].
  apply wp_bind, wp_when; [done | intros _]. eapply wp_mono; [by apply spec_save_file_live |].
  intros [c7 | c7] s' H; exact H.
Qed.
End link.

(** ** Properties *)

Lemma disciplined_split f l pre h bs ok n post : disciplined f l -> l = pre ++ EvWrite h bs ok n :: post ->
  f = Some h \/ exists pre' token i off len, pre = pre' ++ [EvSeek h (WIRE_REQ_LBA * WIRE_BLOCK) true] /\
    bs = wire_build_request token i off len.
Proof.
  intros Hd. revert pre. induction Hd as [| e l He _ IH | h' bs' ok' n' l Hf _ IH | h' token i off len ok' n' l _ IH];
    intros pre E.
  - by destruct pre.
  - destruct pre as [| e' pre]; injection E as -> E; [done |]. destruct (IH pre E) as [| (pre' & t & i & o & k & -> & ->)]; [by left |].
    right. by exists (e' :: pre'), t, i, o, k.
  - destruct pre as [| e' pre]; injection E as E' E; [by left; congruence |].
    destruct (IH pre E) as [| (pre' & t & i & o & k & -> & ->)]; [by left |]. right. by exists (e' :: pre'), t, i, o, k.
  - destruct pre as [| e1 [| e2 pre]]; simplify_eq/=.
    + right. by exists [], token, i, off, len.
    + destruct (IH pre eq_refl) as [| (pre' & t & i' & o & k & -> & ->)]; [by left |].
      right. by eexists (_ :: _ :: pre'), t, i', o, k.
Qed.

(** Whatever the system answers, the client ends, and every write it makes is
    either a request block written right after a seek to the request port, or
    goes to the file that it created itself, having asked that it does not exist. *)
Theorem delivery_writes {W} (env : win32 W) (log : W -> list event) `{!WinEnv env log} w : log w = [] ->
  let r := mainCRTStartup env (client_init, w) in
  r.1 <> None /\
  forall pre h bs ok n post, log r.2.2 = pre ++ EvWrite h bs ok n :: post ->
    EvOpen dest_path GENERIC_WRITE CREATE_NEW h ∈ pre \/
    exists pre' token i off len, pre = pre' ++ [EvSeek h (WIRE_REQ_LBA * WIRE_BLOCK) true] /\
      bs = wire_build_request token i off len.
Proof.
  intros Hw r. pose proof (spec_main (env := env) w) as Hs. rewrite mwp_iff in Hs. fold r in Hs.
  destruct Hs as (t & Et & Hn & Hrun). rewrite Hw in Et. cbn [app] in Et. split; [done |].
  intros pre h bs ok n post E. rewrite Et in E. destruct Hrun as [[Hd _] | (t1 & f & t2 & -> & H1 & H2 & _)].
  { by destruct (disciplined_split _ _ _ _ _ _ _ _ Hd E) as [| H]; [| right]. }
  apply app_eq_inv in E as [([| y k] & -> & E) | ([| y k] & -> & E)]; [done | | done |]; injection E as <- E.
  - by destruct (disciplined_split _ _ _ _ _ _ _ _ H1 eq_refl) as [| H]; [| right].
  - destruct (disciplined_split _ _ _ _ _ _ _ _ H2 E) as [[= ->] | (pre' & tk & i & o & len & -> & ->)].
    + left. set_solver.
    + right. exists (t1 ++ EvOpen dest_path GENERIC_WRITE CREATE_NEW f :: pre'), tk, i, o, len.
      by rewrite <- app_assoc.
Qed.

(** C29. Whatever the system answers, when the client reports success the file it
    created holds the artifact: every window it read in full being true to [art],
    the bytes written to the file are [art], flushed and closed. *)
Theorem delivery_sound {W} (env : win32 W) (log : W -> list event) `{!WinEnv env log} w art : log w = [] ->
  zlen art = EXPECTED_SIZE ->
  let r := mainCRTStartup env (client_init, w) in
  r.1 = Some 0 -> honest art (log r.2.2) ->
  exists t1 f t2 d, log r.2.2 = t1 ++ EvOpen dest_path GENERIC_WRITE CREATE_NEW f :: t2 ++ [EvFlush f true; EvClose f; EvClose d] /\
    written f t2 = art.
Proof.
  intros Hw Hart r Hr Hh. pose proof (spec_main (env := env) w) as Hs. rewrite mwp_iff in Hs. fold r in Hs.
  destruct Hs as (t & Et & _ & Hrun). rewrite Hw in Et. cbn [app] in Et. rewrite Et in *.
  destruct Hrun as [[_ Hne] | (t1 & f & t2 & -> & _ & _ & H0)]; [done |].
  destruct (H0 Hr) as (Ha & t3 & d & ->). exists t1, f, t3, d. split; [done |].
  pose proof (Ha art Hart Hh) as E. rewrite written_join, (written_silent f [_; _; _]), app_nil_r in E
    by (by repeat constructor). done.
Qed.

(** C6. On a machine whose disk shows a freshly registered channel, where the disk has
    room and no system call of the client fails ([Link]), and for an artifact of the
    size and hash that the client expects, the client ends with exit code 0 and the
    file holds the registered artifact. *)
Theorem delivery_completes {W} (env : win32 W) (v : views W) tok `{!Link env v tok} sha256_digest `{!Digest sha256_digest} art ch w :
  bytes_ok tok -> bytes_ok art -> zlen art = EXPECTED_SIZE -> sha256_digest art = EXPECTED_SHA ->
  channel_init tok = Some ch -> register sha256_digest ch art = Some (chan v w) ->
  let r := mainCRTStartup env (client_init, w) in
  r.1 = Some 0 /\ file v r.2.2 = art.
Proof.
  intros Ht Ha Hz Hsha Hi Hr. assert (H64 : in_w 64 (zlen art)) by (rewrite Hz; done).
  destruct (register_ok sha256_digest tok art ch (chan v w) Ht Ha H64 Hi Hr) as (H1 & H2 & H3 & H4).
  rewrite Hz, Hsha in H3. pose proof (spec_main_live (env := env) (v := v) (tok := tok) art Hz w) as Hs. rewrite mwp_iff in Hs.
  apply Hs. by split.
Qed.

(** ** A concrete machine

    Two drives, the second one the host's.  The state is what was accepted by the
    channel, the file and the log, from which the views are computed. *)

Lemma demo_artifact : { l : list Z | zlen l = EXPECTED_SIZE /\ bytes_ok l }.
Proof. exists (zeros EXPECTED_SIZE). split; [by apply zlen_zeros | apply bytes_ok_zeros]. Qed.
Definition demo_art : list Z := proj1_sig demo_artifact.
Definition demo_digest (l : list Z) : list Z := EXPECTED_SHA.
#[export] Instance demo_digest_ok : Digest demo_digest.
Proof. split; [done |]. intros l. by apply bytes_ok_check. Qed.
Definition demo_reg : registered := mk_registered demo_art EXPECTED_SIZE EXPECTED_SHA.

Inductive demo_event :=
| DOpen (path : list Z) (access disp : Z) (h : H)
| DSeek (h : H) (at_ : Z) (ok : bool)
| DBlock (h : H) (lba : Z)
| DWindow (h : H) (o : option norm)
| DNoRead (h : H) (buf : list Z)
| DWrite (h : H) (bytes : list Z) (ok : bool) (count : Z)
| DFlush (h : H) (ok : bool)
| DClose (h : H).
Record demo_world := mk_demo { d_req : option norm; d_file : list Z; d_log : list demo_event }.

Definition norm_check (o : option norm) : option norm :=
  match o with
  | None => None
  | Some n =>
      if (1 <=? n_rid n) && (n_rid n <? 2 ^ 32) && match n_kind n with
           | Manifest => true
           | Data => (0 <=? n_offset n) && (n_offset n <=? EXPECTED_SIZE) && (1 <=? n_length n) && (n_length n <=? WIRE_PAYLOAD_CAP)
           end
      then o else None
  end.
Definition demo_window (o : option norm) : list Z := build_window demo_token demo_reg (norm_check o).
Definition demo_chan (w : demo_world) : HostArtifactChannel :=
  mk_channel demo_token (Some demo_reg) (norm_check (d_req w)) (Some (demo_window (d_req w))).

Definition demo_raw (lba : Z) : list Z :=
  if lba =? 0 then overwrite 510 [0x55; 0xAA] (overwrite 440 (le_bytes 4 MBR_SIG) (zeros WIRE_BLOCK))
  else if lba =? WIRE_PORT_LBA then PORT_MAGIC ++ demo_token ++ zeros (WIRE_BLOCK - 32)
  else zeros WIRE_BLOCK.

Definition demo_expand (e : demo_event) : event :=
  match e with
  | DOpen path acc disp h => EvOpen path acc disp h
  | DSeek h at_ ok => EvSeek h at_ ok
  | DBlock h lba => EvRead h true WIRE_BLOCK (demo_raw lba)
  | DWindow h o => EvRead h true WIRE_WINDOW_BYTES (demo_window o)
  | DNoRead h buf => EvRead h false 0 buf
  | DWrite h bs ok n => EvWrite h bs ok n
  | DFlush h ok => EvFlush h ok
  | DClose h => EvClose h
  end.
Definition demo_log (w : demo_world) : list event := map demo_expand (d_log w).

Definition demo_target (path : list Z) : target :=
  if decide (path = dest_path) then OnFile else OnDrive (byte_at path 17 - 0x30) 0.
Definition demo_seek (h at_ : Z) (f : Z -> option target) : Z -> option target :=
  match f h with
  | Some (OnDrive i _) => upd h (Some (OnDrive i at_)) f
  | _ => f
  end.
Definition demo_step (f : Z -> option target) (e : demo_event) : Z -> option target :=
  match e with
  | DOpen path _ _ h => if h =? INVALID_H then f else upd h (Some (demo_target path)) f
  | DSeek h at_ true => demo_seek h at_ f
  | DBlock h lba => demo_seek h ((lba + 1) * WIRE_BLOCK) f
  | DWindow h _ => demo_seek h ((WIRE_RESP_LBA + WIRE_WINDOW_BLOCKS) * WIRE_BLOCK) f
  | DClose h => upd h None f
  | _ => f
  end.
Definition demo_hnd (w : demo_world) : Z -> option target := fold_left demo_step (d_log w) (fun _ => None).

(** A handle above all that were used. *)
Definition demo_handle (e : demo_event) : Z :=
  match e with
  | DOpen _ _ _ h | DSeek h _ _ | DBlock h _ | DWindow h _ | DNoRead h _ | DWrite h _ _ _ | DFlush h _ | DClose h => h
  end.
Definition demo_fresh (l : list demo_event) : Z := foldr (fun e m => Z.max (demo_handle e) m) INVALID_H l + 1.

Definition demo_put (e : demo_event) (w : demo_world) : demo_world := mk_demo (d_req w) (d_file w) (d_log w ++ [e]).

Definition demo_env : win32 demo_world := {|
  GetDiskFreeSpaceExW := fun w => ((true, EXPECTED_SIZE + FREE_MARGIN), w);
  VirtualAlloc := fun n w => (Some (zeros n), w);
  CreateFileW := fun path acc share disp flags w =>
    let h := match demo_target path with
             | OnFile => demo_fresh (d_log w)
             | OnDrive i _ => if i <? 2 then demo_fresh (d_log w) else INVALID_H
             end in
    (h, mk_demo (d_req w) (match demo_target path with OnFile => [] | _ => d_file w end)
          (d_log w ++ [DOpen path acc disp h]));
  DeviceIoControl := fun h w =>
    ((true, match demo_hnd w h with Some (OnDrive 1 _) => NS2_LENGTH | _ => 512 end, 8), w);
  SetFilePointerEx := fun h at_ w =>
    let ok := match demo_hnd w h with Some (OnDrive _ _) => true | _ => false end in
    (ok, demo_put (DSeek h at_ ok) w);
  ReadFile := fun h dst n w =>
    match demo_hnd w h with
    | Some (OnDrive 1 p) =>
        if (n =? WIRE_BLOCK) && (zlen dst =? WIRE_BLOCK) && (p <? WIRE_RESP_LBA * WIRE_BLOCK) then
          ((true, WIRE_BLOCK, demo_raw (p / WIRE_BLOCK)), demo_put (DBlock h (p / WIRE_BLOCK)) w)
        else if (n =? WIRE_WINDOW_BYTES) && (zlen dst =? WIRE_WINDOW_BYTES) && (p =? WIRE_RESP_LBA * WIRE_BLOCK) then
          ((true, WIRE_WINDOW_BYTES, demo_window (d_req w)), demo_put (DWindow h (d_req w)) w)
        else ((false, 0, dst), demo_put (DNoRead h dst) w)
    | _ => ((false, 0, dst), demo_put (DNoRead h dst) w)
    end;
  WriteFile := fun h bs w =>
    match demo_hnd w h with
    | Some (OnDrive 1 p) =>
        if (p =? WIRE_REQ_LBA * WIRE_BLOCK) && (zlen bs =? WIRE_BLOCK) then
          let c := handle_request (demo_chan w) bs in
          let r := if c.1 then (true, WIRE_BLOCK) else (false, 0) in
          (r, mk_demo (req c.2) (d_file w) (d_log w ++ [DWrite h bs r.1 r.2]))
        else ((false, 0), demo_put (DWrite h bs false 0) w)
    | Some OnFile =>
        ((true, zlen bs), mk_demo (d_req w) (d_file w ++ bs) (d_log w ++ [DWrite h bs true (zlen bs)]))
    | _ => ((false, 0), demo_put (DWrite h bs false 0) w)
    end;
  FlushFileBuffers := fun h w =>
    let ok := match demo_hnd w h with Some OnFile => true | _ => false end in (ok, demo_put (DFlush h ok) w);
  CloseHandle := fun h w => (tt, demo_put (DClose h) w);
  Sleep := fun n w => (tt, w);
|}.
Definition demo_views : views demo_world := {|
  chan := demo_chan; hnd := demo_hnd; file := d_file; raw := fun _ => demo_raw; ns2 := 1;
|}.

Lemma demo_log_put e w r f : demo_log (mk_demo r f (d_log w ++ [e])) = demo_log w ++ [demo_expand e].
Proof. unfold demo_log. cbn. by rewrite map_app. Qed.

Lemma demo_raw_size lba : zlen (demo_raw lba) = WIRE_BLOCK /\ bytes_ok (demo_raw lba).
Proof.
  unfold demo_raw. destruct (lba =? 0); [| destruct (lba =? WIRE_PORT_LBA)].
  - split; [by vm_compute | apply bytes_ok_check; by vm_compute].
  - split; [by vm_compute | apply bytes_ok_check; by vm_compute].
  - split; [by apply zlen_zeros | apply bytes_ok_zeros].
Qed.

Lemma norm_check_ok o : norm_ok demo_reg (norm_check o).
Proof.
  unfold norm_check. destruct o as [[k rid off len] |]; [| done]. cbn [n_rid n_kind n_offset n_length].
  destruct (_ && _) eqn:E; [| done]. split; [bool_props; cbn; lia |]. cbn. intros ->. bool_props. cbn. lia.
Qed.

Lemma norm_check_id o : norm_ok demo_reg o -> norm_check o = o.
Proof.
  destruct o as [[k rid off len] |]; [| done]. intros [H1 H2]. unfold norm_check. cbn in *.
  rewrite (proj2 (Z.leb_le 1 rid)), (proj2 (Z.ltb_lt rid _)) by lia. destruct k; [done |]. destruct (H2 eq_refl).
  rewrite (proj2 (Z.leb_le 0 off)), (proj2 (Z.leb_le off EXPECTED_SIZE)), (proj2 (Z.leb_le 1 len)),
    (proj2 (Z.leb_le len WIRE_PAYLOAD_CAP)) by lia. done.
Qed.

Lemma demo_reg_ok : reg_ok demo_token demo_reg.
Proof.
  pose proof (proj2_sig demo_artifact) as [H1 H2]. split; cbn.
  - split; [done | apply bytes_ok_check; reflexivity].
  - exact H2.
  - by split; [symmetry |].
  - split; [done | by apply bytes_ok_check].
Qed.

Lemma demo_window_ok o : zlen (demo_window o) = WIRE_WINDOW_BYTES /\ bytes_ok (demo_window o).
Proof. by destruct (window_parses demo_token demo_reg _ demo_reg_ok (norm_check_ok o)) as (H1 & _ & _ & _ & H2). Qed.

Lemma demo_chan_ok w : chan_ok (demo_chan w).
Proof. split; [apply demo_reg_ok |]. split; [apply norm_check_ok | done]. Qed.

(** The windows in the log are honest. *)
Lemma parse_token win n t t' r r' :
  wire_parse_response win n t = inr r -> wire_parse_response win n t' = inr r' -> r = r'.
Proof. unfold wire_parse_response. cbv zeta. intros H1 H2. repeat case_match; congruence. Qed.

Lemma demo_honest w : honest demo_art (demo_log w).
Proof.
  intros h win Hin. unfold demo_log in Hin. apply list_elem_of_In, in_map_iff in Hin as (e & E & _).
  destruct e as [| | h' lba | h' o | h' buf | | |]; try done; cbn in E.
  injection E as _ <-. intros token r Hp _ _.
  destruct (window_parses demo_token demo_reg _ demo_reg_ok (norm_check_ok o)) as (_ & Hp' & _ & Hpay & _).
  pose proof (parse_token _ _ _ _ _ _ Hp Hp') as ->. unfold demo_window. rewrite Hpay.
  unfold payload_of, resp_of, answer. by destruct (norm_check o) as [[[] ? ? ?] |].
Qed.

Lemma demo_fresh_bound l e : e ∈ l -> demo_handle e < demo_fresh l.
Proof.
  unfold demo_fresh. induction l as [| e' l IH]; intros He; [by apply not_elem_of_nil in He |].
  cbn. apply elem_of_cons in He as [-> | He]; [lia |]. specialize (IH He). lia.
Qed.

Lemma demo_fresh_ge l : INVALID_H < demo_fresh l.
Proof. unfold demo_fresh. induction l; cbn; lia. Qed.

Lemma demo_fresh_closed l : is_open (demo_fresh l) (map demo_expand l) = false.
Proof.
  assert (H : forall k h b, (forall e, e ∈ k -> demo_handle e <> h) -> fold_left (open_step h) (map demo_expand k) b = b).
  { induction k as [| e k IH]; intros h b Hk; [done |]. cbn. rewrite IH by set_solver.
    assert (demo_handle e <> h) by (apply Hk; set_solver). destruct e; cbn in *; try done;
      by rewrite (proj2 (Z.eqb_neq _ h)). }
  apply H. intros e He. pose proof (demo_fresh_bound l e He). lia.
Qed.

Lemma demo_fresh_hnd w : demo_hnd w (demo_fresh (d_log w)) = None.
Proof.
  unfold demo_hnd. set (h := demo_fresh (d_log w)).
  assert (H : forall k f, (forall e, e ∈ k -> demo_handle e <> h) -> fold_left demo_step k f h = f h).
  { induction k as [| e k IH]; intros f Hk; [done |]. cbn. rewrite IH by set_solver.
    assert (He : h <> demo_handle e) by (intros E; by apply (Hk e); [set_solver |]).
    destruct e; cbn in *; try done; unfold demo_seek, upd; repeat case_match; try done;
      bool_props; congruence. }
  apply H. intros e He. pose proof (demo_fresh_bound (d_log w) e He). lia.
Qed.

#[export] Instance demo_winenv : WinEnv demo_env demo_log.
Proof.
  split.
  - done.
  - intros n w. split; [done |]. by intros b [= <-].
  - intros path acc share disp flags w. split; [apply demo_log_put |]. intros Hne. cbn in *.
    destruct (demo_target path) as [i p |]; [| apply demo_fresh_closed]. destruct (i <? 2); [apply demo_fresh_closed | done].
  - done.
  - intros h at_ w. apply demo_log_put.
  - intros h dst n w. cbn [demo_env ReadFile]. destruct (demo_hnd w h) as [[i p |] |].
    2, 3: split; [apply demo_log_put | done].
    destruct i as [| [| |] |]; try (split; [apply demo_log_put | done]).
    destruct ((n =? WIRE_BLOCK) && _ && _) eqn:E1.
    { bool_props. split; [apply demo_log_put |]. cbn [fst snd]. destruct (demo_raw_size (p / WIRE_BLOCK)). split; [congruence | done]. }
    destruct ((n =? WIRE_WINDOW_BYTES) && _ && _) eqn:E2; [| split; [apply demo_log_put | done]].
    bool_props. split; [apply demo_log_put |]. cbn [fst snd]. destruct (demo_window_ok (d_req w)). split; [congruence | done].
  - intros h bs w. cbn [demo_env WriteFile]. pose proof (zlen_nonneg bs).
    destruct (demo_hnd w h) as [[i p |] |]; [| split; [apply demo_log_put | cbn; lia] ..].
    destruct i as [| [| |] |]; try (split; [apply demo_log_put | cbn; lia]).
    destruct (_ && _) eqn:E; [| split; [apply demo_log_put | cbn; lia]]. bool_props. cbv zeta.
    split; [apply demo_log_put |]. cbn [fst snd]. destruct (handle_request _ bs).1; cbn; lia || (unfold WIRE_BLOCK in *; lia).
  - intros h w. apply demo_log_put.
  - intros h w. apply demo_log_put.
  - done.
Qed.

Lemma demo_hnd_put e w r f : demo_hnd (mk_demo r f (d_log w ++ [e])) = demo_step (demo_hnd w) e.
Proof. unfold demo_hnd. cbn. by rewrite fold_left_app. Qed.

Lemma demo_drive_target i : 0 <= i < 10 -> demo_target (drive_path i) = OnDrive i 0.
Proof.
  intros Hi. assert (H : forall k, (k < 10)%nat -> demo_target (drive_path (Z.of_nat k)) = OnDrive (Z.of_nat k) 0).
  { intros k Hk. do 10 (destruct k as [| k]; [by vm_compute |]). lia. }
  rewrite <- (Z2Nat.id i) by lia. apply H. lia.
Qed.

Lemma demo_chan_req w o : norm_ok demo_reg o -> req (demo_chan (mk_demo o (d_file w) (d_log w))) = o.
Proof. intros Ho. cbn. by apply norm_check_id. Qed.

(** Putting the channel's answer into the state is running the channel. *)
Lemma demo_request w bs f l : bytes_ok bs ->
  demo_chan (mk_demo (req (handle_request (demo_chan w) bs).2) f l) = (handle_request (demo_chan w) bs).2.
Proof.
  intros Hb. pose proof (handle_request_ok _ _ Hb (demo_chan_ok w)) as Hok.
  pose proof (handle_request_token (demo_chan w) bs) as Ht. pose proof (handle_request_reg (demo_chan w) bs) as Hr.
  destruct (handle_request (demo_chan w) bs).2 as [t g q x]. cbn in Ht, Hr. subst t g.
  destruct Hok as (_ & Hn & Hx). cbn in Hn, Hx. subst x. unfold demo_chan, demo_window. cbn. by rewrite norm_check_id.
Qed.

Lemma demo_put_kept e w h : (forall x, demo_step (demo_hnd w) e x = h x) -> kept demo_views h w (demo_put e w).
Proof. intros He. split; [done |]. split; [| done]. intros x. etrans; [| apply He].
  exact (f_equal (fun f => f x) (demo_hnd_put e w (d_req w) (d_file w))). Qed.

Lemma demo_disk : disk_ok demo_token demo_raw.
Proof. split; [apply demo_raw_size | by vm_compute | by vm_compute]. Qed.

Lemma demo_seek_drive f h i p q x : f h = Some (OnDrive i p) -> demo_seek h q f x = upd h (Some (OnDrive i q)) f x.
Proof. intros E. unfold demo_seek. by rewrite E. Qed.

Lemma demo_create path acc share disp flags w i : 0 <= i < 10 -> path = drive_path i ->
  let r := CreateFileW demo_env path acc share disp flags w in
  r.1 = (if i <? 2 then demo_fresh (d_log w) else INVALID_H) /\
  r.2 = demo_put (DOpen path acc disp r.1) w.
Proof.
  intros Hi ->. cbn [demo_env CreateFileW]. rewrite demo_drive_target by done. done.
Qed.

#[export] Instance demo_link : Link demo_env demo_views demo_token.
Proof.
  assert (K0 : forall w, kept demo_views (hnd demo_views w) w w) by (by split).
  split.
  - done.
  - intros w. apply demo_disk.
  - intros w. by split_and!.
  - intros n w. split; [done | apply K0].
  - intros i acc w Hi. destruct (demo_create (drive_path i) acc SHARE_RW OPEN_EXISTING FLAG_NO_BUFFERING w i Hi eq_refl) as [E1 E2].
    cbv zeta. rewrite E2. set (h := (CreateFileW _ _ _ _ _ _ _).1) in *. pose proof (demo_fresh_ge (d_log w)).
    destruct (Z.ltb_spec i 2).
    + right. split; [lia |]. split; [rewrite E1; apply demo_fresh_hnd |]. apply demo_put_kept. intros x. cbn [demo_step].
      rewrite (proj2 (Z.eqb_neq h INVALID_H)) by lia. by rewrite demo_drive_target.
    + left. split; [done |]. split; [cbn; lia |]. apply demo_put_kept. intros x. cbn [demo_step]. by rewrite E1, Z.eqb_refl.
  - intros h i p w Hh. cbn in Hh. cbn [demo_env DeviceIoControl fst snd]. cbv zeta. split; [apply K0 |]. rewrite Hh.
    destruct (decide _) as [-> | Hne]; [done |]. intros _. cbn in Hne. by repeat case_match.
  - intros h i p at_ w Hh. cbn in Hh. cbn [demo_env SetFilePointerEx fst snd]. cbv zeta. rewrite Hh. split; [done |].
    apply demo_put_kept. intros x. cbn [demo_step]. by apply demo_seek_drive with p.
  - intros h lba n dst w Hh Hl Hn Hcase Hd r out Hout. cbn in Hh. unfold r. clear r. cbn [demo_env ReadFile]. rewrite Hh.
    destruct Hcase as [[Hlba ->] | [-> ->]].
    + change (1 * WIRE_BLOCK) with WIRE_BLOCK in *. rewrite Hd, Z.eqb_refl. cbn [andb].
      rewrite (proj2 (Z.ltb_lt _ _)) by (unfold WIRE_BLOCK in *; lia). rewrite Z.div_mul by done.
      assert (out = demo_raw lba) as ->.
      { rewrite (overlay_below _ _ _ _ (demo_window (d_req w))) in Hout; [| done | done | lia |].
        - injection Hout as <-. exact (app_nil_r (demo_raw lba)).
        - by apply zlen_blocks; intros; apply demo_raw_size. }
      split; [done |]. apply demo_put_kept. intros x. cbn [demo_step]. by apply demo_seek_drive with (lba * WIRE_BLOCK).
    + rewrite <- window_size in *. rewrite Hd. change (WIRE_WINDOW_BYTES =? WIRE_BLOCK) with false. cbn [andb].
      rewrite !Z.eqb_refl. cbn [andb].
      rewrite (overlay_window _ (demo_window (d_req w))) in Hout; [| done | done | apply demo_window_ok |].
      * injection Hout as <-. split; [done |]. apply demo_put_kept. intros x. cbn [demo_step].
        by apply demo_seek_drive with (WIRE_RESP_LBA * WIRE_BLOCK).
      * by apply zlen_blocks; intros; apply demo_raw_size.
  - intros h bs w Hh Hz Hb r c. unfold r. clear r. cbn in Hh. cbn [demo_env WriteFile]. rewrite Hh, Hz, !Z.eqb_refl. cbn [andb].
    cbv zeta. cbn [fst snd]. split; [done |]. split; [by apply demo_request |]. split; [done |].
    exists (WIRE_REQ_LBA * WIRE_BLOCK). intros x. cbn [hnd demo_views]. rewrite demo_hnd_put. cbn [demo_step]. unfold upd.
    destruct (Z.eqb_spec x h) as [-> |]; done.
  - intros w. assert (Et : demo_target dest_path = OnFile) by by vm_compute. cbn [demo_env CreateFileW fst snd]. cbv zeta. rewrite Et.
    pose proof (demo_fresh_ge (d_log w)). split; [lia |]. split; [apply demo_fresh_hnd |]. split_and!; [done | done |].
    intros x. cbn [hnd demo_views]. rewrite demo_hnd_put. cbn [demo_step]. rewrite (proj2 (Z.eqb_neq _ INVALID_H)) by lia. by rewrite Et.
  - intros h bs w Hh Hne. cbn in Hh. cbn [demo_env WriteFile]. rewrite Hh. cbv zeta. cbn [fst snd]. split; [done |].
    split; [destruct bs; [done |]; rewrite zlen_cons; pose proof (zlen_nonneg bs); lia |].
    split; [cbn; f_equal; by rewrite <- (app_nil_r bs), ztake_app, app_nil_r by (by rewrite app_nil_r) |]. split; [done |].
    intros x. cbn [hnd demo_views]. by rewrite demo_hnd_put.
  - intros h w Hh. cbn in Hh. cbn [demo_env FlushFileBuffers fst snd]. cbv zeta. rewrite Hh. split; [done |].
    apply demo_put_kept. done.
  - intros h w. apply demo_put_kept. done.
Qed.

(** ** Witnesses *)

Definition demo_init : demo_world := mk_demo None [] [].
Definition demo_blank : HostArtifactChannel := mk_channel demo_token None None None.

Lemma demo_registered : register demo_digest demo_blank demo_art = Some (chan demo_views demo_init).
Proof. unfold register, demo_blank. cbn [reg token]. rewrite (proj1 (proj2_sig demo_artifact) : zlen demo_art = _). done. Qed.

Lemma demo_exit : (mainCRTStartup demo_env (client_init, demo_init)).1 = Some 0.
Proof.
  destruct (register_ok demo_digest demo_token demo_art demo_blank (chan demo_views demo_init)) as (H1 & H2 & H3 & H4).
  - apply demo_reg_ok.
  - apply demo_reg_ok.
  - rewrite (proj1 (proj2_sig demo_artifact) : zlen demo_art = _). done.
  - done.
  - apply demo_registered.
  - pose proof (spec_main_live (v := demo_views) (tok := demo_token) demo_art (proj1 (proj2_sig demo_artifact)) demo_init) as Hs.
    rewrite mwp_iff in Hs. apply Hs. by split.
Qed.

Lemma delivery_writes_witness :
  let r := mainCRTStartup demo_env (client_init, demo_init) in
  r.1 <> None /\
  forall pre h bs ok n post, demo_log r.2.2 = pre ++ EvWrite h bs ok n :: post ->
    EvOpen dest_path GENERIC_WRITE CREATE_NEW h ∈ pre \/
    exists pre' token i off len, pre = pre' ++ [EvSeek h (WIRE_REQ_LBA * WIRE_BLOCK) true] /\
      bs = wire_build_request token i off len.
Proof. apply (delivery_writes demo_env demo_log demo_init). reflexivity. Defined.

Lemma delivery_sound_witness :
  exists t1 f t2 d, demo_log (mainCRTStartup demo_env (client_init, demo_init)).2.2 =
    t1 ++ EvOpen dest_path GENERIC_WRITE CREATE_NEW f :: t2 ++ [EvFlush f true; EvClose f; EvClose d] /\
    written f t2 = demo_art.
Proof.
  exact (delivery_sound demo_env demo_log demo_init demo_art eq_refl (proj1 (proj2_sig demo_artifact)) demo_exit (demo_honest _)).
Defined.

Lemma delivery_completes_witness :
  let r := mainCRTStartup demo_env (client_init, demo_init) in
  r.1 = Some 0 /\ file demo_views r.2.2 = demo_art.
Proof.
  exact (delivery_completes demo_env demo_views demo_token demo_digest demo_art demo_blank demo_init
    (proj2 (rg_token _ _ demo_reg_ok)) (proj2 (proj2_sig demo_artifact)) (proj1 (proj2_sig demo_artifact))
    eq_refl eq_refl demo_registered).
Defined.
