(* ===== verification/IoCore.v ===== *)
(** * The storage integrity loop ([storage-s195/iocore.h])

    The write and read loop of the storage test over a transfer callback and a
    clock, both on an arbitrary store.  A buffer is a list of 64-bit words; the
    transfer is given the buffer and returns it with its result, the count and the
    error.  The number of blocks is the loop's fuel.  The theorems: a pass means
    that every word of the region was read back as the pattern, in time; on a
    medium that keeps its data both loops succeed; no two offsets have the same
    pattern; the time arithmetic is exact. *)

From S2P Require Import Prelude.

(** ** Constants and results *)

Definition S195_TOTAL_BYTES : Z := 268435456.
Definition S195_BLOCK_BYTES : Z := 1048576.
Definition S195_DEADLINE_SECONDS : Z := 300.
Definition INT64_MAX : Z := 2 ^ 63 - 1.

Inductive s195_code :=
| S195_OK | S195_API_FAIL | S195_SHORT_IO | S195_TIMEOUT | S195_MISMATCH | S195_BAD_ARGS.
#[export] Instance s195_code_eq : EqDecision s195_code.
Proof. solve_decision. Defined.

Record s195_result := mk_result {
  code : s195_code;
  offset : Z;
  done_ : Z;
  error : Z;
  expected : Z;
  actual : Z;
  bytes : Z;
  words_verified : Z;
  elapsed : Z;
}.
#[export] Instance s195_result_eta : Eta s195_result := fun r =>
  mk_result (code r) (offset r) (done_ r) (error r) (expected r) (actual r) (bytes r) (words_verified r) (elapsed r).
Definition result_zero : s195_result := mk_result S195_OK 0 0 0 0 0 0 0 0.

(** ** The pattern *)

Definition s195_pattern (byte_offset : Z) : Z :=
  let x := byte_offset .^ 0xd1b54a32d192ed03 in
  let x := u64 ((x .^ (x .>> 30)) * 0xbf58476d1ce4e5b9) in
  let x := u64 ((x .^ (x .>> 27)) * 0x94d049bb133111eb) in
  x .^ (x .>> 31).

(** The words [s195_pattern byte_offset], [s195_pattern (byte_offset + 8)], ... *)
Definition pattern_words (byte_offset : Z) (n : nat) : list Z :=
  (fun w => s195_pattern (u64 (byte_offset + Z.of_nat w * 8))) <$> seq 0 n.
Definition s195_fill (buffer : list Z) (byte_offset block : Z) : list Z :=
  let n := Z.to_nat (block / 8) in pattern_words byte_offset n ++ drop n buffer.

(** ** Time *)

(** The conversion to [int64_t]. *)
Definition i64 (x : Z) : Z := let y := u64 x in if y <? 2 ^ 63 then y else y - 2 ^ 64.

Definition s195_elapsed (now start : Z) : Z :=
  if (now <? 0) || (start <? 0) || (now <? start) then UINT64_MAX else u64 (u64 now - u64 start).

Definition s195_budget (hz seconds : Z) : Z :=
  if (hz <=? 0) || (seconds =? 0) then 0
  else
    let h := u64 hz in
    if INT64_MAX / seconds <? h then INT64_MAX else i64 (u64 (h * seconds)).

Definition s195_ticks_to_us (ticks hz : Z) : Z :=
  if (hz <=? 0) || (ticks <=? 0) then 0
  else
    let t := u64 ticks in
    let h := u64 hz in
    let q := t / h in
    let r := t mod h in
    if (UINT64_MAX / 1000000 <? q) || (UINT64_MAX / 1000000 <? r) then UINT64_MAX
    else
      let whole := u64 (q * 1000000) in
      let fraction := u64 (r * 1000000) / h in
      if UINT64_MAX - fraction <? whole then UINT64_MAX else u64 (whole + fraction).

(** ** The loop *)

Record s195_io (S : Type) := {
  transfer : list Z -> Z -> M S (bool * list Z * Z * Z);
  clock : M S Z;
}.
#[global] Arguments transfer {S} _. #[global] Arguments clock {S} _.

(** The word loop of the read side, from word [w] on. *)
Fixpoint check_words (buffer : list Z) (n : nat) (w : Z) (at_ : Z) (r : s195_result) : s195_result :=
  match n, buffer with
  | O, _ => r
  | S n, got :: buffer =>
      let want := s195_pattern (u64 (at_ + w * 8)) in
      if negb (got =? want) then
        mk_result S195_MISMATCH (u64 (at_ + w * 8)) (done_ r) (error r) want got (bytes r) (words_verified r) (elapsed r)
      else check_words buffer n (w + 1) at_ (r <| words_verified := u64 (words_verified r + 1) |>)
  | S _, [] => r
  end.

Section run.
Context {S : Type} (io : s195_io S) (verify : bool) (total block start deadline_ticks : Z).

(** [r->elapsed = (int64_t)s195_elapsed(clock(ctx), run_start); return]. *)
Definition finish {A} (run_start : Z) (r : s195_result) : proc S s195_result A :=
  now ← call (clock io);
  exit (r <| elapsed := i64 (s195_elapsed now run_start) |>).

Definition over_budget : proc S s195_result bool :=
  now ← call (clock io);
  mret (u64 deadline_ticks <? s195_elapsed now start).

(** One block at [at_]; the new buffer and result. *)
Definition run_block (run_start at_ : Z) (buffer : list Z) (r : s195_result) :
    proc S s195_result (list Z * s195_result) :=
  late ← over_budget;
  when (late : bool) (finish run_start ((r <| code := S195_TIMEOUT |>) <| offset := at_ |>));;
  let buffer := if verify then buffer else s195_fill buffer at_ block in
  t ← call (transfer io buffer (u32 block));
  let '(ok, buffer, done, error) := t in
  let r := (r <| offset := at_ |>) <| done_ := done |> in
  when (negb ok) (finish run_start (mk_result S195_API_FAIL (offset r) (done_ r) error (expected r) (actual r)
    (bytes r) (words_verified r) (elapsed r)));;
  when (negb (done =? block)) (finish run_start (r <| code := S195_SHORT_IO |>));;
  late ← over_budget;
  when (late : bool) (finish run_start ((r <| code := S195_TIMEOUT |>) <| offset := u64 (at_ + block) |>));;
  let r := if verify then check_words buffer (Z.to_nat (block / 8)) 0 at_ r else r in
  when (bool_decide (code r = S195_MISMATCH)) (finish run_start r);;
  mret (buffer, r <| bytes := u64 (bytes r + block) |>).

Fixpoint run_loop (n : nat) (run_start at_ : Z) (buffer : list Z) (r : s195_result) : proc S s195_result s195_result :=
  match n with
  | O => mret r
  | Datatypes.S n =>
      if negb (at_ <? total) then mret r
      else
        br ← run_block run_start at_ buffer r;
        run_loop n run_start (u64 (at_ + block)) br.1 br.2
  end.

(** The run after the check of the arguments. *)
Definition run_checked (buffer : list Z) : M S s195_result := body (
  run_start ← call (clock io);
  r ← run_loop (Z.to_nat (total / block)) run_start 0 buffer result_zero;
  finish run_start ((r <| offset := total |>) <| done_ := 0 |>)).
End run.

Definition bad_args (total block deadline_ticks : Z) : bool :=
  (total =? 0) || (block =? 0) || truthy (block .& 7) || negb (total mod block =? 0) ||
  (0xffffffff <? block) || (deadline_ticks <=? 0).

(** [buffer] is [None] for a null pointer, [io] when one of the callbacks is. *)
Definition s195_run {S} (io : option (s195_io S)) (verify : bool) (buffer : option (list Z))
    (total block start deadline_ticks : Z) : M S s195_result :=
  match io, buffer with
  | Some io, Some buffer =>
      if bad_args total block deadline_ticks then mret (result_zero <| code := S195_BAD_ARGS |>)
      else run_checked io verify total block start deadline_ticks buffer
  | _, _ => mret (result_zero <| code := S195_BAD_ARGS |>)
  end.

Definition s195_pass (read : s195_result) (total : Z) : bool :=
  bool_decide (code read = S195_OK) && (bytes read =? total) && (words_verified read =? total / 8).

(** ** What the callbacks do *)

Inductive io_event :=
| EvClock (now : Z)
| EvTransfer (before : list Z) (ok : bool) (after : list Z) (done : Z).

(** Every call is in the log; a transfer keeps the buffer's size and a clock
    reading is an [int64_t]. *)
Class IoEnv {S} (io : s195_io S) (events : S -> list io_event) : Prop := {
  ie_clock s : let r := clock io s in events r.2 = events s ++ [EvClock r.1] /\ - 2 ^ 63 <= r.1 < 2 ^ 63;
  ie_transfer b n s : let r := transfer io b n s in
    events r.2 = events s ++ [EvTransfer b r.1.1.1.1 r.1.1.1.2 r.1.1.2] /\ length r.1.1.1.2 = length b;
}.

(** ** The arithmetic of time *)

Lemma u64_small x : 0 <= x < 2 ^ 64 -> u64 x = x.
Proof. apply wrap_small. Qed.

(** The budget is exceeded unless the clock shows a time from the start to the
    deadline. *)
Lemma elapsed_budget now start d : - 2 ^ 63 <= now < 2 ^ 63 -> - 2 ^ 63 <= start < 2 ^ 63 -> 0 < d < 2 ^ 63 ->
  (u64 d <? s195_elapsed now start) = false <-> 0 <= start <= now /\ now - start <= d.
Proof.
  intros Hn Hs Hd. unfold s195_elapsed. rewrite (u64_small d) by lia.
  destruct (Z.ltb_spec now 0), (Z.ltb_spec start 0), (Z.ltb_spec now start); cbn [orb];
    try (split; [intros H'; exfalso; revert H'; rewrite Z.ltb_ge; lia | lia]).
  rewrite (u64_small now), (u64_small start), u64_small, Z.ltb_ge by lia. lia.
Qed.

(** The budget and the time report are exact and saturate: [s195_budget] is
    [hz * seconds] up to [INT64_MAX], [s195_ticks_to_us] is the whole number of
    microseconds in [ticks] up to [UINT64_MAX] for every clock below 18 THz, and no
    intermediate product overflows. *)
Theorem time_exact hz : 0 < hz <= UINT64_MAX / 1000000 ->
  (forall seconds, 0 < seconds < 2 ^ 64 -> s195_budget hz seconds = Z.min INT64_MAX (hz * seconds)) /\
  (forall ticks, 0 < ticks < 2 ^ 63 -> s195_ticks_to_us ticks hz = Z.min UINT64_MAX (ticks * 1000000 / hz)).
Proof.
  intros Hh. change (UINT64_MAX / 1000000) with 18446744073709 in *. split.
  - intros sec Hs. unfold s195_budget. rewrite (proj2 (Z.leb_gt hz 0)), (proj2 (Z.eqb_neq sec 0)) by lia. cbn [orb].
    rewrite (u64_small hz) by lia. unfold INT64_MAX. set (m := 2 ^ 63 - 1).
    destruct (Z.ltb_spec (m / sec) hz).
    + rewrite Z.min_l; [done |]. pose proof (Z.mul_div_le m sec ltac:(lia)). pose proof (Z.mul_succ_div_gt m sec ltac:(lia)). nia.
    + assert (hz * sec <= m) by (pose proof (Z.mul_div_le m sec ltac:(lia)); nia). assert (0 < hz * sec) by nia.
      rewrite Z.min_r by done. unfold i64. cbv zeta. rewrite !wrap_wrap, !u64_small by (unfold m in *; lia).
      rewrite (proj2 (Z.ltb_lt _ _)) by (unfold m in *; lia). done.
  - intros t Ht. unfold s195_ticks_to_us. rewrite (proj2 (Z.leb_gt hz 0)), (proj2 (Z.leb_gt t 0)) by lia. cbn [orb].
    rewrite (u64_small t), (u64_small hz) by lia. change (UINT64_MAX / 1000000) with 18446744073709.
    pose proof (Z.div_mod t hz ltac:(lia)) as E. pose proof (Z.mod_pos_bound t hz ltac:(lia)) as Hr.
    set (q := t / hz) in *. set (r := t mod hz) in *. assert (Hq : 0 <= q) by (apply Z.div_pos; lia).
    assert (Hus : t * 1000000 / hz = q * 1000000 + r * 1000000 / hz).
    { rewrite E. replace ((hz * q + r) * 1000000) with (r * 1000000 + (q * 1000000) * hz) by lia.
      rewrite Z.div_add by lia. lia. }
    rewrite Hus. assert (0 <= r * 1000000 / hz < 1000000).
    { split; [apply Z.div_pos; lia |]. apply Z.div_lt_upper_bound; lia. }
    destruct (Z.ltb_spec 18446744073709 q); cbn [orb].
    { rewrite Z.min_l by lia. done. }
    rewrite (proj2 (Z.ltb_ge 18446744073709 r)) by lia. rewrite (u64_small (q * 1000000)), (u64_small (r * 1000000)) by lia.
    destruct (Z.ltb_spec (UINT64_MAX - r * 1000000 / hz) (q * 1000000)).
    + rewrite Z.min_l by lia. done.
    + rewrite Z.min_r by lia. apply u64_small. lia.
Qed.

(** ** The pattern *)

Lemma xorshift_inj k a b : 0 < k -> in_w 64 a -> in_w 64 b -> a .^ (a .>> k) = b .^ (b .>> k) -> a = b.
Proof.
  intros Hk Ha Hb H. apply Z.bits_inj'. intros i Hi.
  assert (G : forall n i, 64 - Z.of_nat n <= i -> Z.testbit a i = Z.testbit b i).
  { induction n as [| n IH]; intros j Hj; [by rewrite !(testbit_in_w 64) by (done || lia) |].
    destruct (Z.lt_ge_cases j 0) as [Hneg | Hpos]; [by rewrite !Z.testbit_neg_r |].
    apply (f_equal (fun z => Z.testbit z j)) in H. rewrite !Z.lxor_spec, !Z.shiftr_spec in H by lia.
    rewrite (IH (j + k)) in H by lia. by destruct (Z.testbit a j), (Z.testbit b j), (Z.testbit b (j + k)). }
  apply (G 64%nat). lia.
Qed.

(** Multiplication by an odd constant, given its inverse. *)
Lemma mul_odd_inj m inv a b : u64 (m * inv) = 1 -> in_w 64 a -> in_w 64 b -> u64 (a * m) = u64 (b * m) -> a = b.
Proof.
  intros Hm Ha Hb H. assert (G : forall x, in_w 64 x -> u64 (u64 (x * m) * inv) = x).
  { intros x Hx. unfold wrap in *. rewrite Zmult_mod_idemp_l. replace (x * m * inv) with (m * inv * x) by lia.
    rewrite <- Zmult_mod_idemp_l, Hm, Z.mul_1_l. by apply wrap_small. }
  rewrite <- (G a), <- (G b), H by done. done.
Qed.

Lemma in_w_xorshift k a : 0 <= k -> in_w 64 a -> in_w 64 (a .^ (a .>> k)).
Proof.
  intros Hk Ha. apply in_w_testbit; [done | |].
  - apply Z.lxor_nonneg. split; intros _; [apply Z.shiftr_nonneg, Ha | apply Ha].
  - intros i Hi. by rewrite Z.lxor_spec, Z.shiftr_spec, !(testbit_in_w 64 a) by (done || lia).
Qed.

Lemma xor_const_inj c a b : a .^ c = b .^ c -> a = b.
Proof. intros H. apply (f_equal (fun z => z .^ c)) in H. by rewrite !Z.lxor_assoc, Z.lxor_nilpotent, !Z.lxor_0_r in H. Qed.

Lemma in_w_xor_const a : in_w 64 a -> in_w 64 (a .^ 0xd1b54a32d192ed03).
Proof.
  intros Ha. apply in_w_testbit; [done | |].
  - apply Z.lxor_nonneg. split; intros _; [done | apply Ha].
  - intros i Hi. by rewrite Z.lxor_spec, !(testbit_in_w 64) by (done || lia || split; done).
Qed.

(** No two offsets have the same pattern: data read from the wrong place never
    passes for the right one. *)
Theorem pattern_injective a b : in_w 64 a -> in_w 64 b -> a <> b -> s195_pattern a <> s195_pattern b.
Proof.
  intros Ha Hb Hne. contradict Hne. revert Hne. unfold s195_pattern. cbv zeta.
  pose proof (in_w_xor_const a Ha). pose proof (in_w_xor_const b Hb).
  set (xa := a .^ _) in *. set (xb := b .^ _) in *. intros E.
  apply xorshift_inj in E; [| done | by apply wrap_range | by apply wrap_range].
  apply (mul_odd_inj _ 0x319642b2d24d8ec3) in E; [| done | by apply in_w_xorshift, wrap_range | by apply in_w_xorshift, wrap_range].
  apply xorshift_inj in E; [| done | by apply wrap_range | by apply wrap_range].
  apply (mul_odd_inj _ 0x96de1b173f119089) in E; [| done | by apply in_w_xorshift | by apply in_w_xorshift].
  apply xorshift_inj in E; [| done | done | done]. by apply xor_const_inj in E.
Qed.

(** ** The course of a run *)

Section course.
Context (verify : bool) (total block start deadline_ticks : Z).
Notation n := (Z.to_nat (block / 8)).

Definition in_time (now : Z) : Prop := 0 <= start <= now /\ now - start <= deadline_ticks.

(** Complete blocks from the first offset to the second: each transfer in time, of
    full size, and of the pattern. *)
Inductive passed : Z -> Z -> list io_event -> Prop :=
| passed_nil at_ : passed at_ at_ []
| passed_block at_ at1 t1 before after t2 l :
    in_time t1 -> in_time t2 ->
    take n (if verify then after else before) = pattern_words at_ n ->
    passed (at_ + block) at1 l ->
    passed at_ at1 (EvClock t1 :: EvTransfer before true after block :: EvClock t2 :: l).

(** How the run with result [r] ended, the blocks before [at_] being complete. *)
Definition ended (r : s195_result) (at_ : Z) (l : list io_event) : Prop :=
  match code r with
  | S195_OK => at_ = total /\ exists e, l = [EvClock e]
  | S195_TIMEOUT => exists late e, ~ in_time late /\
      (l = [EvClock late; EvClock e] /\ offset r = at_ \/
       exists t b a, in_time t /\ l = [EvClock t; EvTransfer b true a block; EvClock late; EvClock e] /\
         offset r = at_ + block)
  | S195_API_FAIL => exists t b a e, in_time t /\
      l = [EvClock t; EvTransfer b false a (done_ r); EvClock e] /\ offset r = at_
  | S195_SHORT_IO => exists t b a e, in_time t /\
      l = [EvClock t; EvTransfer b true a (done_ r); EvClock e] /\ offset r = at_ /\ done_ r <> block
  | S195_MISMATCH => verify = true /\ exists t b a t2 e w, in_time t /\ in_time t2 /\
      l = [EvClock t; EvTransfer b true a block; EvClock t2; EvClock e] /\ (w < n)%nat /\
      take w a = pattern_words at_ w /\ a !! w = Some (actual r) /\
      offset r = at_ + 8 * Z.of_nat w /\ expected r = s195_pattern (offset r) /\ expected r <> actual r
  | S195_BAD_ARGS => False
  end.

Lemma passed_snoc at_ at1 l t1 b a t2 : passed at_ at1 l -> in_time t1 -> in_time t2 ->
  take n (if verify then a else b) = pattern_words at1 n ->
  passed at_ (at1 + block) (l ++ [EvClock t1; EvTransfer b true a block; EvClock t2]).
Proof.
  intros Hp. induction Hp as [x | x at1' s1 b' a' s2 l' ? ? ? _ IH]; intros; cbn [app].
  - apply passed_block; try done. apply passed_nil.
  - apply passed_block; try done. by apply IH.
Qed.
End course.

(** *** The word loop *)

(** [a] agrees with the pattern on its first [m] words. *)
Definition agrees (a : list Z) (m : nat) (at_ : Z) : Prop :=
  forall j, (j < m)%nat -> a !! j = Some (s195_pattern (at_ + 8 * Z.of_nat j)).

Lemma pattern_lookup at_ m j : 0 <= at_ -> at_ + 8 * Z.of_nat m < 2 ^ 64 -> (j < m)%nat ->
  pattern_words at_ m !! j = Some (s195_pattern (at_ + 8 * Z.of_nat j)).
Proof.
  intros H1 H2 Hj. unfold pattern_words. rewrite list_lookup_fmap, lookup_seq_lt by done. cbn. do 2 f_equal.
  rewrite u64_small by lia. lia.
Qed.

Lemma length_pattern at_ m : length (pattern_words at_ m) = m.
Proof. unfold pattern_words. by rewrite length_fmap, length_seq. Qed.

Lemma agrees_take a m at_ : 0 <= at_ -> at_ + 8 * Z.of_nat m < 2 ^ 64 -> agrees a m at_ <-> take m a = pattern_words at_ m.
Proof.
  intros H1 H2. split; intros H.
  - apply list_eq. intros j. destruct (decide (j < m)%nat) as [Hj | Hj].
    + rewrite lookup_take_lt, H, pattern_lookup by done. done.
    + rewrite !lookup_ge_None_2; [done | rewrite length_pattern; lia | rewrite length_take; lia].
  - intros j Hj. rewrite <- (lookup_take_lt a m j), H by done. by apply pattern_lookup.
Qed.

Definition set_words (v : Z) (r : s195_result) : s195_result :=
  mk_result (code r) (offset r) (done_ r) (error r) (expected r) (actual r) (bytes r) v (elapsed r).
Definition mismatch_at (off want got words : Z) (r : s195_result) : s195_result :=
  mk_result S195_MISMATCH off (done_ r) (error r) want got (bytes r) words (elapsed r).

(** The check ends at the first word that differs. *)
Lemma check_words_from a m k at_ r words : 0 <= at_ -> at_ + 8 * Z.of_nat (k + m) < 2 ^ 64 -> length a = m ->
  0 <= words -> words + Z.of_nat m < 2 ^ 64 ->
  let res := check_words a m (Z.of_nat k) at_ (set_words words r) in
  let pat j := s195_pattern (at_ + 8 * Z.of_nat (k + j)) in
  (res = set_words (words + Z.of_nat m) r /\ forall j, (j < m)%nat -> a !! j = Some (pat j)) \/
  exists w got, (w < m)%nat /\ (forall j, (j < w)%nat -> a !! j = Some (pat j)) /\ a !! w = Some got /\ got <> pat w /\
    res = mismatch_at (at_ + 8 * Z.of_nat (k + w)) (pat w) got (words + Z.of_nat w) r.
Proof.
  intros Ha. revert a k words. induction m as [| m IH]; intros [| got a] k words Hb Hl Hw Hm; try discriminate Hl.
  { left. split; [by rewrite Z.add_0_r | lia]. }
  cbn [check_words]. rewrite (u64_small (at_ + Z.of_nat k * 8)) by lia.
  replace (at_ + Z.of_nat k * 8) with (at_ + 8 * Z.of_nat (k + 0)) by lia.
  destruct (Z.eqb_spec got (s195_pattern (at_ + 8 * Z.of_nat (k + 0)))) as [E | E]; cbn [negb].
  2: { right. exists 0%nat, got. split_and!; [lia | lia | done | done |]. unfold mismatch_at, set_words.
    cbn. by rewrite Z.add_0_r. }
  injection Hl as Hl. change (words_verified (set_words words r)) with words. rewrite (u64_small (words + 1)) by lia.
  change (check_words a m (Z.of_nat k + 1) at_ _) with (check_words a m (Z.of_nat k + 1) at_ (set_words (words + 1) r)).
  replace (Z.of_nat k + 1) with (Z.of_nat (S k)) by lia.
  destruct (IH a (S k) (words + 1) ltac:(lia) Hl ltac:(lia) ltac:(lia)) as [[E1 E2] | (w & g & H1 & H2 & H3 & H4 & H5)].
  - left. split; [rewrite E1; f_equal; lia |]. intros [| j] Hj; [by rewrite E |]. cbn. rewrite E2 by lia. do 3 f_equal. lia.
  - right. exists (S w), g. replace (k + S w)%nat with (S k + w)%nat by lia. split_and!; [lia | | done | done |].
    + intros [| j] Hj; [by rewrite E |]. cbn. rewrite H2 by lia. do 3 f_equal. lia.
    + rewrite H5. f_equal. lia.
Qed.

Lemma check_words_extra a m k at_ r : (m <= length a)%nat ->
  check_words a m k at_ r = check_words (take m a) m k at_ r.
Proof.
  revert a k r. induction m as [| m IH]; intros [| got a] k r Hl; cbn in *; try lia; try done.
  destruct (negb _); [done |]. apply IH. lia.
Qed.

(** What the check of a block finds. *)
Lemma check_words_spec a m at_ r : 0 <= at_ -> at_ + 8 * Z.of_nat m < 2 ^ 64 -> (m <= length a)%nat ->
  0 <= words_verified r -> words_verified r + Z.of_nat m < 2 ^ 64 ->
  let res := check_words a m 0 at_ r in
  (res = set_words (words_verified r + Z.of_nat m) r /\ take m a = pattern_words at_ m) \/
  exists w got, (w < m)%nat /\ take w a = pattern_words at_ w /\ a !! w = Some got /\
    got <> s195_pattern (at_ + 8 * Z.of_nat w) /\
    res = mismatch_at (at_ + 8 * Z.of_nat w) (s195_pattern (at_ + 8 * Z.of_nat w)) got (words_verified r + Z.of_nat w) r.
Proof.
  intros Ha Hb Hl Hw Hm res. unfold res. rewrite check_words_extra by done.
  assert (Er : r = set_words (words_verified r) r) by by destruct r.
  destruct (check_words_from (take m a) m 0 at_ r (words_verified r) Ha ltac:(lia) ltac:(rewrite length_take; lia) Hw Hm)
    as [[E1 E2] | (w & g & H1 & H2 & H3 & H4 & H5)].
  - rewrite <- Er in E1. left. split; [exact E1 |]. apply (agrees_take a); [done | done |]. intros j Hj. pose proof (E2 j Hj) as E.
    by rewrite lookup_take_lt in E by lia.
  - rewrite <- Er in H5. right. exists w, g. split_and!; [done | | | done | exact H5].
    + apply agrees_take; [done | lia |]. intros j Hj. pose proof (H2 j Hj) as E. by rewrite lookup_take_lt in E by lia.
    + by rewrite lookup_take_lt in H3 by lia.
Qed.

(** *** The blocks *)

(** The arguments as the C types bound them, with a buffer of a block. *)
Record args_ok (total block start deadline_ticks : Z) (buffer : list Z) : Prop := {
  ao_total : 0 < total < 2 ^ 64;
  ao_block : 0 < block < 2 ^ 32 /\ block mod 8 = 0 /\ total mod block = 0;
  ao_start : - 2 ^ 63 <= start < 2 ^ 63;
  ao_deadline : 0 < deadline_ticks < 2 ^ 63;
  ao_buffer : (Z.to_nat (block / 8) <= length buffer)%nat;
}.

Lemma good_args total block d : 0 <= total -> 0 <= block -> bad_args total block d = false ->
  0 < total /\ 0 < block < 2 ^ 32 /\ block mod 8 = 0 /\ total mod block = 0 /\ 0 < d.
Proof.
  intros H1 H2. unfold bad_args. intros H. bool_props. rewrite (land_ones_mod 3) in * by done.
  change (2 ^ 3) with 8 in *. lia.
Qed.

Section run_spec.
Context {S : Type} {io : s195_io S} {events : S -> list io_event} `{!IoEnv io events}.
Context (total block start deadline_ticks : Z) (buf0 : list Z).
Context (Hargs : args_ok total block start deadline_ticks buf0).
Notation n := (Z.to_nat (block / 8)).
Notation in_time := (in_time start deadline_ticks).

Lemma mwp_clock (Q : Z -> S -> Prop) s :
  (forall now s', events s' = events s ++ [EvClock now] -> - 2 ^ 63 <= now < 2 ^ 63 -> Q now s') -> mwp (clock io) Q s.
Proof. intros HQ. rewrite mwp_iff. apply HQ; apply ie_clock. Qed.

Lemma mwp_transfer b len (Q : bool * list Z * Z * Z -> S -> Prop) s :
  (forall ok a done err s', events s' = events s ++ [EvTransfer b ok a done] -> length a = length b ->
    Q (ok, a, done, err) s') -> mwp (transfer io b len) Q s.
Proof.
  intros HQ. rewrite mwp_iff. pose proof (ie_transfer b len s) as [H1 H2].
  destruct (transfer io b len s) as [[[[ok a] done] err] s']. by apply HQ.
Qed.

(** The last call of the clock. *)
Lemma wp_finish {A} rs r (Q : s195_result + A -> S -> Prop) s :
  (forall e now s', events s' = events s ++ [EvClock now] -> Q (inl (r <| elapsed := e |>)) s') -> wp (finish io rs r) Q s.
Proof. intros HQ. unfold finish. apply wp_bind, wp_call, mwp_clock. intros now s' E _. apply wp_exit. by apply (HQ _ now). Qed.

Lemma wp_over_budget (Q : s195_result + bool -> S -> Prop) s :
  (forall now s', events s' = events s ++ [EvClock now] -> in_time now -> Q (inr false) s') ->
  (forall now s', events s' = events s ++ [EvClock now] -> ~ in_time now -> Q (inr true) s') ->
  wp (over_budget io start deadline_ticks) Q s.
Proof.
  intros H1 H2. unfold over_budget. apply wp_bind, wp_call, mwp_clock. intros now s' E Hr. apply wp_ret.
  pose proof (elapsed_budget now start deadline_ticks Hr (ao_start _ _ _ _ _ Hargs) (ao_deadline _ _ _ _ _ Hargs)) as Hb.
  destruct (_ <? _); [apply (H2 now) | apply (H1 now)]; try done; unfold in_time; intuition congruence.
Qed.

(** The result while the loop runs. *)
Record running (verify : bool) (at_ : Z) (r : s195_result) : Prop := {
  ru_code : code r = S195_OK;
  ru_bytes : bytes r = at_;
  ru_words : words_verified r = if verify then at_ / 8 else 0;
}.

Definition block_result (verify : bool) (at_ : Z) (buffer : list Z) (o : s195_result + list Z * s195_result) (l : list io_event) : Prop :=
  match o with
  | inl r => ended verify total block start deadline_ticks r at_ l /\ code r <> S195_OK /\ bytes r = at_
  | inr (b', r) => running verify (at_ + block) r /\ length b' = length buffer /\
      exists t1 b a t2, l = [EvClock t1; EvTransfer b true a block; EvClock t2] /\ in_time t1 /\ in_time t2 /\
        take n (if verify then a else b) = pattern_words at_ n
  end.

Lemma wp_run_block verify rs at_ buffer r (Q : s195_result + list Z * s195_result -> S -> Prop) s :
  0 <= at_ -> at_ + block <= total -> at_ mod 8 = 0 -> (n <= length buffer)%nat -> running verify at_ r ->
  (forall o s' l, events s' = events s ++ l -> block_result verify at_ buffer o l -> Q o s') ->
  wp (run_block io verify block start deadline_ticks rs at_ buffer r) Q s.
Proof.
  intros Ha Hb H8 Hlen [Hc Hby Hw] HQ. destruct Hargs as [Ht (Hbl & Hbl8 & _) _ _ _].
  assert (Hn : Z.of_nat n * 8 = block) by (rewrite Z2Nat.id by (apply Z.div_pos; lia); dlia).
  unfold run_block. apply wp_bind, wp_over_budget; intros t1 s1 E1 Hi1.
  2: { apply wp_bind, wp_when; [intros _ | done]. apply wp_finish. intros e now s2 E2. rewrite E1, <- app_assoc in E2.
    apply (HQ _ _ _ E2). split; [| done]. exists t1, now. split; [done |]. by left. }
  apply wp_bind, wp_when; [done | intros _]. cbv zeta. set (b := if verify then buffer else s195_fill buffer at_ block).
  assert (Hlb : length b = length buffer).
  { unfold b, s195_fill. destruct verify; [done |]. rewrite length_app, length_pattern, length_drop. lia. }
  apply wp_bind, wp_call, mwp_transfer. intros ok a done err s2 E2 Hla. rewrite E1, <- app_assoc in E2. cbn [app] in E2.
  apply wp_bind, wp_when; intros Hok.
  { destruct ok; [done |]. apply wp_finish. intros e now s3 E3. rewrite E2, <- app_assoc in E3. apply (HQ _ _ _ E3).
    split; [| done]. by exists t1, b, a, now. }
  destruct ok; [clear Hok | done]. apply wp_bind, wp_when; intros Hdone; bool_props.
  { apply wp_finish. intros e now s3 E3. rewrite E2, <- app_assoc in E3. apply (HQ _ _ _ E3).
    split; [| done]. by exists t1, b, a, now. }
  subst done. apply wp_bind, wp_over_budget; intros t2 s3 E3 Hi2; rewrite E2, <- app_assoc in E3; cbn [app] in E3.
  2: { apply wp_bind, wp_when; [intros _ | done]. apply wp_finish. intros e now s4 E4. rewrite E3, <- app_assoc in E4.
    apply (HQ _ _ _ E4). split; [| done]. exists t2, now. split; [done |]. right. exists t1, b, a. split; [done |].
    split; [done |]. cbn. apply u64_small. lia. }
  apply wp_bind, wp_when; [done | intros _].
  destruct verify eqn:Hv.
  - match goal with |- context [check_words a n 0 at_ ?x] => set (r0 := x) end.
    destruct (check_words_spec a n at_ r0) as [[-> Hp] | (w & got & H1 & H2 & H3 & H4 & ->)];
      [done | lia | rewrite Hla; lia | cbn; rewrite Hw; apply Z.div_pos; lia |
       cbn; rewrite Hw; assert (at_ / 8 * 8 <= at_) by (pose proof (Z.mul_div_le at_ 8); lia); lia | |].
    + apply wp_bind, wp_when; [intros Hm; cbn in Hm; by rewrite Hc in Hm | intros _]. apply wp_ret.
      apply (HQ _ _ _ E3). split; [| split; [by rewrite Hla | exists t1, b, a, t2; by split_and!]].
      split; [done | cbn; rewrite Hby; apply u64_small; lia |]. cbn. rewrite Hw. dlia.
    + apply wp_bind, wp_when; [intros _ | done]. apply wp_finish. intros e now s4 E4. rewrite E3, <- app_assoc in E4.
      apply (HQ _ _ _ E4). split; [| done]. split; [done |]. exists t1, b, a, t2, now, w. by split_and!.
  - apply wp_bind, wp_when; [intros Hm; cbn in Hm; by rewrite Hc in Hm | intros _]. apply wp_ret.
    apply (HQ _ _ _ E3). split; [| split; [by rewrite Hla |]].
    + split; [done | cbn; rewrite Hby; apply u64_small; lia | done].
    + exists t1, b, a, t2. split_and!; try done. unfold b, s195_fill. by rewrite take_app_length' by (by rewrite length_pattern).
Qed.

(** The loop from [at_], which is [m] blocks before the end. *)
Definition loop_result (verify : bool) (at_ : Z) (o : s195_result + s195_result) (l : list io_event) : Prop :=
  match o with
  | inl r => exists at1 l1 l2, l = l1 ++ l2 /\ passed verify block start deadline_ticks at_ at1 l1 /\
      ended verify total block start deadline_ticks r at1 l2 /\ code r <> S195_OK /\ bytes r = at1
  | inr r => running verify total r /\ passed verify block start deadline_ticks at_ total l
  end.

Lemma wp_run_loop verify m rs at_ buffer r (Q : s195_result + s195_result -> S -> Prop) s :
  0 <= at_ -> at_ + Z.of_nat m * block = total -> at_ mod 8 = 0 -> (n <= length buffer)%nat -> running verify at_ r ->
  (forall o s' l, events s' = events s ++ l -> loop_result verify at_ o l -> Q o s') ->
  wp (run_loop io verify total block start deadline_ticks m rs at_ buffer r) Q s.
Proof.
  destruct Hargs as [Ht (Hbl & Hbl8 & _) _ _ _].
  revert at_ buffer r s. induction m as [| m IH]; intros at_ buffer r s Ha Hm H8 Hlen Hr HQ; cbn [run_loop].
  { apply wp_ret. assert (Hat : at_ = total) by lia. rewrite Hat in Hr.
    apply (HQ _ _ []); [by rewrite app_nil_r |]. split; [done |]. rewrite Hat. apply passed_nil. }
  rewrite (proj2 (Z.ltb_lt at_ total)) by nia. cbn [negb].
  apply wp_bind, wp_run_block; [done | nia | done | done | done |]. intros [r' | [b' r']] s1 l1 E1 Hb.
  { destruct Hb as (He & Hne & Hby). apply (HQ _ _ _ E1). exists at_, [], l1. split_and!; try done. apply passed_nil. }
  destruct Hb as (Hr' & Hl' & t1 & b & a & t2 & -> & Hi1 & Hi2 & Hp). cbn [fst snd]. rewrite u64_small by nia.
  apply IH; [lia | nia | dlia | by rewrite Hl' | done |]. intros o s2 l2 E2 Ho. rewrite E1, <- app_assoc in E2.
  apply (HQ _ _ _ E2). destruct o as [r2 | r2].
  - destruct Ho as (at1 & k1 & k2 & -> & Hp1 & He & Hne & Hby).
    exists at1, (EvClock t1 :: EvTransfer b true a block :: EvClock t2 :: k1), k2. split_and!; try done.
    by apply passed_block.
  - destruct Ho as [Hr2 Hp2]. split; [done |]. by apply passed_block.
Qed.

(** The whole run. *)
Lemma mwp_run_checked verify buffer (Q : s195_result -> S -> Prop) s : (n <= length buffer)%nat ->
  (forall r s' at_ t0 l1 l2, events s' = events s ++ EvClock t0 :: l1 ++ l2 ->
    passed verify block start deadline_ticks 0 at_ l1 -> ended verify total block start deadline_ticks r at_ l2 ->
    bytes r = at_ -> (code r = S195_OK -> verify = true -> s195_pass r total = true) -> Q r s') ->
  mwp (run_checked io verify total block start deadline_ticks buffer) Q s.
Proof.
  intros Hlen HQ. destruct Hargs as [Ht (Hbl & Hbl8 & Hbt) _ _ _]. unfold run_checked.
  apply mwp_body, wp_bind, wp_call, mwp_clock. intros t0 s1 E1 _. apply wp_bind, wp_run_loop.
  - done.
  - rewrite Z2Nat.id by (apply Z.div_pos; lia). dlia.
  - done.
  - done.
  - split; [done | done | by destruct verify].
  - intros [r | r] s2 l E2 Ho; rewrite E1, <- app_assoc in E2.
    + destruct Ho as (at1 & l1 & l2 & -> & Hp & He & Hne & Hby). by apply (HQ r s2 at1 t0 l1 l2 E2).
    + destruct Ho as [[Hc Hby Hw] Hp]. apply wp_finish. intros e now s3 E3. rewrite E2, <- app_assoc in E3.
      cbn [app] in E3. apply (HQ _ s3 total t0 l [EvClock now] E3); [done | | done |].
      * unfold ended. cbn. rewrite Hc. split; [done |]. by exists now.
      * intros _ ->. unfold s195_pass. cbn. by rewrite Hc, Hby, Hw, !Z.eqb_refl.
Qed.
End run_spec.

Lemma args_good total block start d buffer : args_ok total block start d buffer -> bad_args total block d = false.
Proof.
  intros [H1 (H2 & H3 & H4) _ H5 _]. unfold bad_args. pose proof (land_ones_mod 3 block ltac:(done)) as E.
  change (2 ^ 3 - 1) with 7 in E. change (2 ^ 3) with 8 in E. rewrite E, H3, H4. change (truthy 0) with false. rewrite Z.eqb_refl.
  rewrite (proj2 (Z.eqb_neq total 0)), (proj2 (Z.eqb_neq block 0)), (proj2 (Z.ltb_ge _ block)), (proj2 (Z.leb_gt d 0)) by lia.
  done.
Qed.

(** What a run reports is what happened: the calls made are a clock reading,
    complete blocks from offset 0 to some [at_], each within the budget, of full
    size and of the pattern, then the calls of the ending that the code names (a late
    clock, a failed or short transfer, the first word that is not the pattern with its
    offset, or the end of the region); [bytes] is [at_], and a read run passes exactly
    when it ends with [S195_OK]. *)
Theorem run_report {S} (io : s195_io S) (events : S -> list io_event) `{!IoEnv io events}
    verify total block start d buffer s : args_ok total block start d buffer ->
  let res := s195_run (Some io) verify (Some buffer) total block start d s in
  exists at_ t0 l1 l2, events res.2 = events s ++ EvClock t0 :: l1 ++ l2 /\
    passed verify block start d 0 at_ l1 /\ ended verify total block start d res.1 at_ l2 /\ bytes res.1 = at_ /\
    (verify = true -> s195_pass res.1 total = bool_decide (code res.1 = S195_OK)).
Proof.
  intros Ha res. pose proof (args_good _ _ _ _ _ Ha) as Hb.
  assert (Hres : res = run_checked io verify total block start d buffer s) by (unfold res, s195_run; by rewrite Hb).
  rewrite Hres. pose proof (mwp_run_checked (io := io) (events := events) total block start d buffer Ha verify buffer
    (fun r s' => exists at_ t0 l1 l2, events s' = events s ++ EvClock t0 :: l1 ++ l2 /\
    passed verify block start d 0 at_ l1 /\ ended verify total block start d r at_ l2 /\ bytes r = at_ /\
    (verify = true -> s195_pass r total = bool_decide (code r = S195_OK))) s (ao_buffer _ _ _ _ _ Ha)) as H.
  rewrite mwp_iff in H. apply H. clear H. intros r s' at_ t0 l1 l2 E Hp He Hby Hpass. exists at_, t0, l1, l2. split_and!; try done.
  intros ->. destruct (decide (code r = S195_OK)) as [Hc | Hc].
  - rewrite bool_decide_eq_true_2, Hpass by done. done.
  - rewrite bool_decide_eq_false_2 by done. unfold s195_pass. by rewrite bool_decide_eq_false_2.
Qed.

(** ** A medium that keeps its data *)

(** [cells] are the words of the medium, [wpos] and [rpos] the positions of the
    two handles in words; the clock stays within the budget. *)
Class Medium {S} (wio rio : s195_io S) (cells : S -> list Z) (wpos rpos : S -> nat) (start d : Z) : Prop := {
  md_clock io s : io = wio \/ io = rio -> let r := clock io s in
    - 2 ^ 63 <= r.1 < 2 ^ 63 /\ in_time start d r.1 /\ cells r.2 = cells s /\ wpos r.2 = wpos s /\ rpos r.2 = rpos s;
  md_write b n s : (wpos s + n <= length (cells s))%nat -> (n <= length b)%nat ->
    let len := 8 * Z.of_nat n in let r := transfer wio b len s in
    (exists err, r.1 = (true, b, len, err)) /\ rpos r.2 = rpos s /\ wpos r.2 = (wpos s + n)%nat /\
    cells r.2 = take (wpos s) (cells s) ++ take n b ++ drop (wpos s + n) (cells s);
  md_read b n s : (rpos s + n <= length (cells s))%nat -> (n <= length b)%nat ->
    let len := 8 * Z.of_nat n in let r := transfer rio b len s in
    (exists err, r.1 = (true, take n (drop (rpos s) (cells s)) ++ drop n b, len, err)) /\
    wpos r.2 = wpos s /\ rpos r.2 = (rpos s + n)%nat /\ cells r.2 = cells s;
}.

Lemma pattern_words_app at_ m k : 0 <= at_ -> at_ + 8 * Z.of_nat (m + k) < 2 ^ 64 ->
  pattern_words at_ m ++ pattern_words (at_ + 8 * Z.of_nat m) k = pattern_words at_ (m + k).
Proof.
  intros H1 H2. unfold pattern_words. rewrite seq_app, fmap_app. f_equal. apply list_eq. intros i.
  rewrite !list_lookup_fmap. destruct (decide (i < k)%nat).
  - rewrite !lookup_seq_lt by done. cbn. do 2 f_equal. rewrite !u64_small by lia. lia.
  - by rewrite !lookup_seq_ge by lia.
Qed.

Section medium.
Context {S : Type} {wio rio : s195_io S} {cells : S -> list Z} {wpos rpos : S -> nat} {start d : Z}.
Context `{!Medium wio rio cells wpos rpos start d}.
Context (total block : Z) (buf0 : list Z) (Hargs : args_ok total block start d buf0).
Notation n := (Z.to_nat (block / 8)).
Notation N := (Z.to_nat (total / 8)).

Definition same_medium (s s' : S) : Prop := cells s' = cells s /\ wpos s' = wpos s /\ rpos s' = rpos s.

Lemma mwp_clock_live io (Q : Z -> S -> Prop) s : io = wio \/ io = rio ->
  (forall now s', same_medium s s' -> - 2 ^ 63 <= now < 2 ^ 63 -> in_time start d now -> Q now s') -> mwp (clock io) Q s.
Proof. intros Hio HQ. rewrite mwp_iff. destruct (md_clock io s Hio) as (H1 & H2 & H3). by apply HQ. Qed.

Lemma wp_budget_live io (Q : s195_result + bool -> S -> Prop) s : io = wio \/ io = rio ->
  (forall s', same_medium s s' -> Q (inr false) s') -> wp (over_budget io start d) Q s.
Proof.
  intros Hio HQ. unfold over_budget. apply wp_bind, wp_call, mwp_clock_live; [done |]. intros now s' Hs Hr Ht. apply wp_ret.
  pose proof (elapsed_budget now start d Hr (ao_start _ _ _ _ _ Hargs) (ao_deadline _ _ _ _ _ Hargs)) as Hb.
  rewrite (proj2 Hb Ht). by apply HQ.
Qed.

Lemma wp_finish_live {A} io rs r (Q : s195_result + A -> S -> Prop) s : io = wio \/ io = rio ->
  (forall e s', same_medium s s' -> Q (inl (r <| elapsed := e |>)) s') -> wp (finish io rs r) Q s.
Proof. intros Hio HQ. unfold finish. apply wp_bind, wp_call, mwp_clock_live; [done |]. intros now s' E _ _. apply wp_exit. by apply HQ. Qed.

Lemma same_trans s1 s2 s3 : same_medium s1 s2 -> same_medium s2 s3 -> same_medium s1 s3.
Proof. unfold same_medium. intuition congruence. Qed.

Lemma block_words : block = 8 * Z.of_nat n /\ u32 block = 8 * Z.of_nat n.
Proof.
  destruct Hargs as [_ (Hb & Hb8 & _) _ _ _]. assert (block = 8 * Z.of_nat n) as E by (rewrite Z2Nat.id by (apply Z.div_pos; lia); dlia).
  split; [done |]. rewrite wrap_small by (unfold in_w; lia). done.
Qed.

(** *** Writing *)

(** The words before the position are the pattern. *)
Definition filled (s : S) : Prop := take (wpos s) (cells s) = pattern_words 0 (wpos s) /\ (N <= length (cells s))%nat.

Lemma wp_write_block rs at_ buffer r (Q : s195_result + list Z * s195_result -> S -> Prop) s :
  at_ = 8 * Z.of_nat (wpos s) -> (wpos s + n <= N)%nat -> (n <= length buffer)%nat -> code r = S195_OK -> filled s ->
  (forall b' r' s', length b' = length buffer -> code r' = S195_OK -> filled s' -> wpos s' = (wpos s + n)%nat ->
    Q (inr (b', r')) s') ->
  wp (run_block wio false block start d rs at_ buffer r) Q s.
Proof.
  intros Hat Hle Hlen Hc [Hfill HN] HQ. destruct block_words as [Eb Eu]. pose proof (ao_total _ _ _ _ _ Hargs) as Ht.
  assert (HNt : 8 * Z.of_nat N <= total) by (rewrite Z2Nat.id by (apply Z.div_pos; lia); apply Z.mul_div_le; lia).
  unfold run_block. apply wp_bind, wp_budget_live; [by left |]. intros s1 (C1 & W1 & R1).
  apply wp_bind, wp_when; [done | intros _]. cbv zeta. set (b := s195_fill buffer at_ block).
  assert (Hb : length b = length buffer) by (unfold b, s195_fill; rewrite length_app, length_pattern, length_drop; lia).
  assert (Htb : take n b = pattern_words at_ n) by (unfold b, s195_fill; by rewrite take_app_length' by (by rewrite length_pattern)).
  rewrite Eu. apply wp_bind, wp_call. rewrite mwp_iff.
  destruct (md_write b n s1 ltac:(rewrite C1, W1; lia) ltac:(by rewrite Hb)) as ([err E] & R2 & W2 & C2).
  destruct (transfer wio b _ s1) as [t s2]. cbn [fst snd] in *. subst t.
  apply wp_bind, wp_when; [done | intros _]. rewrite <- Eb, Z.eqb_refl. apply wp_bind, wp_when; [done | intros _].
  apply wp_bind, wp_budget_live; [by left |]. intros s3 (C3 & W3 & R3). apply wp_bind, wp_when; [done | intros _].
  apply wp_bind, wp_when; [intros Hm; cbn in Hm; by rewrite Hc in Hm | intros _]. apply wp_ret.
  rewrite W1, C1 in *.
  assert (Hcells : cells s3 = pattern_words 0 (wpos s + n) ++ drop (wpos s + n) (cells s)).
  { rewrite C3, C2, Hfill, Htb, app_assoc, Hat. f_equal. apply (pattern_words_app 0); lia. }
  assert (Hw3 : wpos s3 = (wpos s + n)%nat) by congruence.
  apply HQ; [done | done | | done]. split.
  - rewrite Hw3, Hcells. apply take_app_length'. by rewrite length_pattern.
  - rewrite Hcells, length_app, length_pattern, length_drop. lia.
Qed.

Lemma wp_write_loop m rs at_ buffer r (Q : s195_result + s195_result -> S -> Prop) s :
  at_ = 8 * Z.of_nat (wpos s) -> at_ + Z.of_nat m * block = total -> (n <= length buffer)%nat -> code r = S195_OK -> filled s ->
  (forall r' s', code r' = S195_OK -> take N (cells s') = pattern_words 0 N -> Q (inr r') s') ->
  wp (run_loop wio false total block start d m rs at_ buffer r) Q s.
Proof.
  pose proof (ao_total _ _ _ _ _ Hargs) as Ht. destruct block_words as [Eb Eu].
  revert at_ buffer r s. induction m as [| m IH]; intros at_ buffer r s Hat Hm Hlen Hc Hf HQ; cbn [run_loop].
  { apply wp_ret, HQ; [done |]. destruct Hf as [Hf _]. replace N with (wpos s); [done |].
    replace total with (Z.of_nat (wpos s) * 8) by lia. rewrite Z.div_mul by done. lia. }
  destruct (ao_block _ _ _ _ _ Hargs) as (Hb & _ & _).
  rewrite (proj2 (Z.ltb_lt at_ total)) by nia. cbn [negb].
  assert (HNt : total / 8 * 8 = total) by (rewrite <- Hm, Hat, Eb; replace (8 * Z.of_nat (wpos s) + Z.of_nat (Datatypes.S m) * (8 * Z.of_nat n))
    with ((Z.of_nat (wpos s) + Z.of_nat (Datatypes.S m) * Z.of_nat n) * 8) by lia; by rewrite Z.div_mul).
  apply wp_bind, wp_write_block; [done | nia | done | done | done |]. intros b' r' s' Hl' Hc' Hf' Hw'. cbn [fst snd].
  rewrite u64_small by nia. apply IH; try done; [rewrite Hw'; lia | nia | by rewrite Hl'].
Qed.

(** *** Reading *)

(** The words read so far are the pattern. *)
Definition read_ok (at_ : Z) (r : s195_result) (s : S) : Prop :=
  at_ = 8 * Z.of_nat (rpos s) /\ take (rpos s) (cells s) = pattern_words 0 (rpos s) /\ (N <= length (cells s))%nat /\
  running true at_ r.

Lemma wp_read_block rs at_ buffer r (Q : s195_result + list Z * s195_result -> S -> Prop) s :
  (rpos s + n <= N)%nat -> (n <= length buffer)%nat -> read_ok at_ r s ->
  (forall b' r' s', cells s' = cells s -> length b' = length buffer -> read_ok (at_ + block) r' s' ->
    rpos s' = (rpos s + n)%nat -> Q (inr (b', r')) s') ->
  (forall r' s', cells s' = cells s -> code r' = S195_MISMATCH -> take N (cells s) <> pattern_words 0 N -> Q (inl r') s') ->
  wp (run_block rio true block start d rs at_ buffer r) Q s.
Proof.
  intros Hle Hlen (Hat & Hpre & HN & [Hc Hby Hw]) HQ HQbad. destruct block_words as [Eb Eu]. pose proof (ao_total _ _ _ _ _ Hargs) as Ht.
  assert (HNt : 8 * Z.of_nat N <= total) by (rewrite Z2Nat.id by (apply Z.div_pos; lia); apply Z.mul_div_le; lia).
  unfold run_block. apply wp_bind, wp_budget_live; [by right |]. intros s1 (C1 & W1 & R1).
  apply wp_bind, wp_when; [done | intros _]. cbv zeta. rewrite Eu. apply wp_bind, wp_call. rewrite mwp_iff.
  destruct (md_read buffer n s1 ltac:(rewrite C1, R1; lia) Hlen) as ([err E] & W2 & R2 & C2).
  rewrite R1, C1 in *. set (a := take n (drop (rpos s) (cells s)) ++ drop n buffer) in *.
  assert (Hta : length (take n (drop (rpos s) (cells s))) = n) by (rewrite length_take, length_drop; lia).
  assert (Hla : length a = length buffer) by (unfold a; rewrite length_app, Hta, length_drop; lia).
  assert (Ha : take n a = take n (drop (rpos s) (cells s))) by (unfold a; by rewrite take_app_length' by done).
  destruct (transfer rio buffer _ s1) as [t s2]. cbn [fst snd] in *. subst t.
  apply wp_bind, wp_when; [done | intros _]. rewrite <- Eb, Z.eqb_refl. apply wp_bind, wp_when; [done | intros _].
  apply wp_bind, wp_budget_live; [by right |]. intros s3 (C3 & W3 & R3). apply wp_bind, wp_when; [done | intros _].
  assert (C3' : cells s3 = cells s) by congruence. assert (R3' : rpos s3 = (rpos s + n)%nat) by congruence.
  match goal with |- context [check_words a n 0 at_ ?x] => set (r0 := x) end.
  assert (Hw8 : words_verified r0 = Z.of_nat (rpos s)).
  { cbn. rewrite Hw, Hat. replace (8 * Z.of_nat (rpos s)) with (Z.of_nat (rpos s) * 8) by lia. by rewrite Z.div_mul. }
  destruct (check_words_spec a n at_ r0) as [[-> Hp] | (w & got & H1 & H2 & H3 & H4 & ->)]; [lia | lia | lia | lia | lia | |].
  - apply wp_bind, wp_when; [intros Hm; cbn in Hm; by rewrite Hc in Hm | intros _]. apply wp_ret.
    apply HQ; [done | done | | done]. unfold read_ok. rewrite R3', C3'. split_and!; [lia | | done |].
    + rewrite <- (pattern_words_app 0) by lia. rewrite <- Hpre, <- take_take_drop. f_equal. rewrite <- Ha, Hp, Hat. done.
    + split; [done | cbn; rewrite Hby; apply u64_small; lia |].
      change (words_verified _) with (words_verified r0 + Z.of_nat n). rewrite Hw8. clear -Hat Eb. dlia.
  - apply wp_bind, wp_when; [intros _ | done]. apply wp_finish_live; [by right |]. intros e s4 (C4 & _ & _).
    apply HQbad; [congruence | done |]. intros Hbad. apply H4.
    assert (Hg : cells s !! (rpos s + w)%nat = Some got).
    { rewrite <- lookup_drop, <- (lookup_take_lt _ n) by done. rewrite <- Ha, lookup_take_lt by done. done. }
    assert (Hp : pattern_words 0 N !! (rpos s + w)%nat = Some got) by (rewrite <- Hbad, lookup_take_lt by lia; done).
    rewrite pattern_lookup in Hp by lia. injection Hp as <-. f_equal. lia.
Qed.

Lemma wp_read_loop m rs at_ buffer r (Q : s195_result + s195_result -> S -> Prop) s :
  at_ + Z.of_nat m * block = total -> (n <= length buffer)%nat -> read_ok at_ r s ->
  (forall r' s', running true total r' -> take N (cells s) = pattern_words 0 N -> Q (inr r') s') ->
  (forall r' s', code r' = S195_MISMATCH -> take N (cells s) <> pattern_words 0 N -> Q (inl r') s') ->
  wp (run_loop rio true total block start d m rs at_ buffer r) Q s.
Proof.
  pose proof (ao_total _ _ _ _ _ Hargs) as Ht. destruct block_words as [Eb Eu]. destruct (ao_block _ _ _ _ _ Hargs) as (Hb & _ & _).
  revert at_ buffer r s. induction m as [| m IH]; intros at_ buffer r s Hm Hlen Hr HQ HQbad; cbn [run_loop].
  { destruct Hr as (Hat & Hpre & _ & Hrun). assert (E : at_ = total) by lia. rewrite E in Hrun. apply wp_ret, HQ; [done |].
    replace N with (rpos s); [done |]. replace total with (Z.of_nat (rpos s) * 8) by lia. rewrite Z.div_mul by done. lia. }
  pose proof Hr as (Hat & _). rewrite (proj2 (Z.ltb_lt at_ total)) by nia. cbn [negb].
  assert (HNt : total / 8 * 8 = total).
  { rewrite <- Hm, Hat, Eb. replace (8 * Z.of_nat (rpos s) + Z.of_nat (Datatypes.S m) * (8 * Z.of_nat n))
      with ((Z.of_nat (rpos s) + Z.of_nat (Datatypes.S m) * Z.of_nat n) * 8) by lia. by rewrite Z.div_mul. }
  apply wp_bind, wp_read_block; [nia | done | done | |].
  - intros b' r' s' C' Hl' Hr' _. cbn [fst snd]. rewrite u64_small by nia.
    apply IH; [nia | by rewrite Hl' | done | by rewrite C' | by rewrite C'].
  - intros r' s' _. apply HQbad.
Qed.
End medium.

Lemma run_is_checked {S} (io : s195_io S) verify total block start d buffer s : args_ok total block start d buffer ->
  s195_run (Some io) verify (Some buffer) total block start d s = run_checked io verify total block start d buffer s.
Proof. intros Ha. unfold s195_run. by rewrite (args_good _ _ _ _ _ Ha). Qed.

(** C31. On a medium that keeps what is written, within the budget: the write run
    succeeds and leaves the pattern on the whole region, and a read run of any later
    state passes if and only if every word of the region is still the pattern. *)
Theorem write_read_back {S} (wio rio : s195_io S) cells wpos rpos start d `{!Medium wio rio cells wpos rpos start d}
    total block buffer s :
  args_ok total block start d buffer -> wpos s = 0%nat -> (Z.to_nat (total / 8) <= length (cells s))%nat ->
  let N := Z.to_nat (total / 8) in
  let w := s195_run (Some wio) false (Some buffer) total block start d s in
  code w.1 = S195_OK /\ take N (cells w.2) = pattern_words 0 N /\
  forall s', rpos s' = 0%nat -> (N <= length (cells s'))%nat ->
    s195_pass (s195_run (Some rio) true (Some buffer) total block start d s').1 total = true <->
    take N (cells s') = pattern_words 0 N.
Proof.
  intros Ha Hw HN N w. pose proof (ao_total _ _ _ _ _ Ha) as Ht. destruct (ao_block _ _ _ _ _ Ha) as (Hb & _ & Hbt).
  assert (Hm : 0 + Z.of_nat (Z.to_nat (total / block)) * block = total).
  { rewrite Z2Nat.id by (apply Z.div_pos; lia). dlia. }
  assert (Hwrite : mwp (run_checked wio false total block start d buffer)
    (fun r s' => code r = S195_OK /\ take N (cells s') = pattern_words 0 N) s).
  { unfold run_checked. apply mwp_body, wp_bind, wp_call, mwp_clock_live; [by left |]. intros t0 s1 (C1 & W1 & _) _ _.
    apply wp_bind, (wp_write_loop total block buffer Ha); [by rewrite W1, Hw | done | apply Ha | done | |].
    - split; [by rewrite W1, Hw | by rewrite C1].
    - intros r' s2 Hc Hf. apply wp_finish_live; [by left |]. intros e s3 (C3 & _). cbn. by rewrite C3. }
  unfold w. rewrite run_is_checked by done. rewrite mwp_iff in Hwrite. destruct Hwrite as [H1 H2]. split_and!; [done | done |].
  intros s' Hr HN'. rewrite run_is_checked by done.
  assert (Hread : mwp (run_checked rio true total block start d buffer)
    (fun r s2 => s195_pass r total = true <-> take N (cells s') = pattern_words 0 N) s').
  { unfold run_checked. apply mwp_body, wp_bind, wp_call, mwp_clock_live; [by right |]. intros t0 s1 (C1 & _ & R1) _ _.
    apply wp_bind, (wp_read_loop total block buffer Ha); [done | apply Ha | | |].
    - unfold read_ok. rewrite R1, C1, Hr. split_and!; [done | done | done | by split].
    - intros r' s2 [Hc Hby Hwv] Hf. apply wp_finish_live; [by right |]. intros e s3 _. rewrite C1 in Hf. split; [done |].
      intros _. unfold s195_pass. cbn. by rewrite Hc, Hby, Hwv, !Z.eqb_refl.
    - intros r' s2 Hc Hf. rewrite C1 in Hf. split; [| done]. unfold s195_pass. by rewrite Hc. }
  by rewrite mwp_iff in Hread.
Qed.

(** ** Witnesses *)

Lemma time_exact_witness :
  (forall seconds, 0 < seconds < 2 ^ 64 -> s195_budget 24000000 seconds = Z.min INT64_MAX (24000000 * seconds)) /\
  (forall ticks, 0 < ticks < 2 ^ 63 -> s195_ticks_to_us ticks 24000000 = Z.min UINT64_MAX (ticks * 1000000 / 24000000)).
Proof. apply (time_exact 24000000). split; [reflexivity | discriminate]. Defined.

Lemma pattern_injective_witness : s195_pattern 0 <> s195_pattern 8.
Proof. apply (pattern_injective 0 8); [by split | by split | discriminate]. Defined.

(** A file that takes everything, and its log. *)
Definition log_io : s195_io (list io_event) := {|
  transfer := fun b n l => ((true, b, n, 0), l ++ [EvTransfer b true b n]);
  clock := fun l => (7, l ++ [EvClock 7]);
|}.
#[export] Instance log_env : IoEnv log_io id.
Proof. by split. Qed.

Lemma small_args : args_ok 32 16 5 10 [0; 0].
Proof. split; [lia | by split_and! | lia | lia | by vm_compute; lia]. Qed.

Lemma run_report_witness :
  let res := s195_run (Some log_io) false (Some [0; 0]) 32 16 5 10 [] in
  exists at_ t0 l1 l2, id res.2 = id [] ++ EvClock t0 :: l1 ++ l2 /\
    passed false 16 5 10 0 at_ l1 /\ ended false 32 16 5 10 res.1 at_ l2 /\ bytes res.1 = at_ /\
    (false = true -> s195_pass res.1 32 = bool_decide (code res.1 = S195_OK)).
Proof. exact (run_report log_io id false 32 16 5 10 [0; 0] [] small_args). Defined.

(** A tape with a writing and a reading position. *)
Record tape := mk_tape { t_cells : list Z; t_w : nat; t_r : nat }.
Definition tape_write : s195_io tape := {|
  transfer := fun b len t => let n := Z.to_nat (len / 8) in
    ((true, b, len, 0), mk_tape (take (t_w t) (t_cells t) ++ take n b ++ drop (t_w t + n) (t_cells t)) (t_w t + n) (t_r t));
  clock := fun t => (7, t);
|}.
Definition tape_read : s195_io tape := {|
  transfer := fun b len t => let n := Z.to_nat (len / 8) in
    ((true, take n (drop (t_r t) (t_cells t)) ++ drop n b, len, 0), mk_tape (t_cells t) (t_w t) (t_r t + n));
  clock := fun t => (7, t);
|}.
#[export] Instance tape_medium : Medium tape_write tape_read t_cells t_w t_r 5 10.
Proof.
  assert (E : forall n, Z.to_nat (8 * Z.of_nat n / 8) = n).
  { intros n. replace (8 * Z.of_nat n) with (Z.of_nat n * 8) by lia. rewrite Z.div_mul by done. lia. }
  split.
  - intros io s [-> | ->]; cbn; unfold in_time; lia || (split_and!; done || lia).
  - intros b n s _ _. cbn. rewrite E. split_and!; [by eexists | done | done | done].
  - intros b n s _ _. cbn. rewrite E. split_and!; [by eexists | done | done | done].
Qed.

Definition tape0 : tape := mk_tape [9; 9; 9; 9; 9] 0 0.
Lemma write_read_back_witness :
  let w := s195_run (Some tape_write) false (Some [0; 0]) 32 16 5 10 tape0 in
  code w.1 = S195_OK /\ take 4 (t_cells w.2) = pattern_words 0 4 /\
  forall s', t_r s' = 0%nat -> (4 <= length (t_cells s'))%nat ->
    s195_pass (s195_run (Some tape_read) true (Some [0; 0]) 32 16 5 10 s').1 32 = true <->
    take 4 (t_cells s') = pattern_words 0 4.
Proof.
  apply (write_read_back tape_write tape_read t_cells t_w t_r 5 10 32 16 [0; 0] tape0);
    [exact small_args | reflexivity | vm_compute; lia].
Defined.

(** The run of the witness, and one with a damaged word. *)
Example tape_pass :
  s195_pass (s195_run (Some tape_read) true (Some [0; 0]) 32 16 5 10
    (mk_tape (pattern_words 0 4) 0 0)).1 32 = true.
Proof. vm_compute. reflexivity. Qed.
Example tape_damaged :
  let r := (s195_run (Some tape_read) true (Some [0; 0]) 32 16 5 10
    (mk_tape (<[3%nat := 1]> (pattern_words 0 4)) 0 0)).1 in
  (code r, offset r, words_verified r) = (S195_MISMATCH, 24, 3).
Proof. vm_compute. reflexivity. Qed.
