(* ===== verification/HandoffLayout.v ===== *)
(** * Placement of the guest image ([loader-s215/handoff_layout.h, payload-s215.c])

    [nwoas_handoff_layout] chooses where the loader puts the firmware image, above
    the boot arguments and the device tree at their fixed addresses; [load_kernel]
    allocates that place from the loader's heap.  The heap functions are not part of
    the repository: they are arguments, with the behaviour of a bump allocator as the
    hypothesis of the theorem that the placement always gets the address it chose. *)

From S2P Require Import Prelude.

Definition NWOAS_BOOTARGS_COPY : Z := 0x840000000.
Definition NWOAS_ADT_COPY : Z := 0x840004000.
Definition NWOAS_IMAGE_ALIGN : Z := 0x200000.
Definition KERNEL_ALIGN : Z := 2 * 2 ^ 20.

(** [outs] tells whether both output pointers are non-null; the value is
    the pair of the image base and the handoff end when the function returns 1. *)
Definition nwoas_handoff_layout (ram_base ram_size adt_size prefix_base prefix_end heap image_size : Z) (outs : bool) :
    option (Z * Z) :=
  let max := UINT64_MAX in
  if negb outs || negb (truthy adt_size) || negb (truthy image_size) ||
     (max - ram_base <? ram_size) || (max - NWOAS_ADT_COPY <? adt_size) then None
  else
    let end_ := u64 (NWOAS_ADT_COPY + adt_size) in
    if max - 0x3fff <? end_ then None
    else
      let end_ := u64 (end_ + 0x3fff) .& cnot 64 0x3fff in
      let ram_end := u64 (ram_base + ram_size) in
      if (NWOAS_BOOTARGS_COPY <? ram_base) || (ram_end <? end_) || (prefix_end <? prefix_base) ||
         ((prefix_base <? end_) && (NWOAS_BOOTARGS_COPY <? prefix_end)) ||
         (heap <? ram_base) || (ram_end <? heap) then None
      else
        let base := if end_ <? heap then heap else end_ in
        if max - (NWOAS_IMAGE_ALIGN - 1) <? base then None
        else
          let base := u64 (base + NWOAS_IMAGE_ALIGN - 1) .& cnot 64 (NWOAS_IMAGE_ALIGN - 1) in
          if (ram_end <? base) || (ram_end - base <? image_size) then None else Some (base, end_).

(** ** The loader *)

Record boot_args := mk_boot_args { phys_base : Z; mem_size : Z; devtree_size : Z }.

(** The heap: [heapblock_alloc], [heapblock_alloc_aligned]. *)
Record heap_ops (S : Type) := {
  heapblock_alloc : Z -> M S Z;
  heapblock_alloc_aligned : Z -> Z -> M S Z;
}.
#[global] Arguments heapblock_alloc {S} _. #[global] Arguments heapblock_alloc_aligned {S} _.

(** The placement in [load_kernel]: the address of the image and the end of the
    handoff copies, [None] when an assertion fails. *)
Definition place_kernel {S} (h : heap_ops S) (a : boot_args) (base_ end_ image_size : Z) : M S (option (Z * Z)) :=
  heap ← heapblock_alloc_aligned h 0 KERNEL_ALIGN;
  match nwoas_handoff_layout (phys_base a) (mem_size a) (devtree_size a) base_ end_ heap image_size true with
  | None => mret None
  | Some (dest, handoff_end) =>
      (if heap <? dest then heapblock_alloc h (dest - heap);; mret tt else mret tt);;
      new_addr ← heapblock_alloc_aligned h image_size KERNEL_ALIGN;
      mret (if new_addr =? dest then Some (new_addr, handoff_end) else None)
  end.

(** ** Specification *)

(** Rounding up in unbounded arithmetic. *)
Definition align_up (a x : Z) : Z := (x + (a - 1)) / a * a.
Definition handoff_end (adt_size : Z) : Z := align_up 0x4000 (NWOAS_ADT_COPY + adt_size).
Definition image_place (heap adt_size : Z) : Z := align_up NWOAS_IMAGE_ALIGN (Z.max heap (handoff_end adt_size)).

Record placeable (ram_base ram_size adt_size prefix_base prefix_end heap image_size : Z) : Prop := {
  pl_sizes : adt_size <> 0 /\ image_size <> 0;
  pl_ram : ram_base + ram_size < 2 ^ 64 /\ ram_base <= NWOAS_BOOTARGS_COPY /\ handoff_end adt_size <= ram_base + ram_size;
  pl_prefix : prefix_base <= prefix_end /\ (prefix_end <= NWOAS_BOOTARGS_COPY \/ handoff_end adt_size <= prefix_base);
  pl_heap : ram_base <= heap <= ram_base + ram_size;
  pl_image : image_place heap adt_size + image_size <= ram_base + ram_size;
}.

Lemma align_up_bounds a x : 0 < a -> x <= align_up a x < x + a /\ align_up a x mod a = 0.
Proof.
  intros Ha. unfold align_up. split; [| by apply Z.mod_mul; lia].
  pose proof (Z.div_mod (x + (a - 1)) a ltac:(lia)). pose proof (Z.mod_pos_bound (x + (a - 1)) a ltac:(lia)). lia.
Qed.

(** The masked sum is the rounding when it does not wrap. *)
Lemma align_mask k x : 0 <= k <= 64 -> 0 <= x -> x + (2 ^ k - 1) < 2 ^ 64 ->
  u64 (x + (2 ^ k - 1)) .& cnot 64 (2 ^ k - 1) = align_up (2 ^ k) x.
Proof.
  intros Hk Hx Hm. assert (0 < 2 ^ k) by lia. rewrite wrap_small by (unfold in_w; lia).
  apply land_cnot_mask; [done | unfold in_w; lia].
Qed.

(** The placement is computed without wrap-around: it succeeds exactly when the
    copies of the boot arguments and the device tree lie in RAM beside the loader, the
    heap is in RAM and the image fits behind both, and then the image starts at the
    first 2 MiB boundary after the heap and the copies. *)
Theorem handoff_layout_exact ram_base ram_size adt_size prefix_base prefix_end heap image_size :
  in_w 64 ram_base -> in_w 64 ram_size -> in_w 64 adt_size -> in_w 64 prefix_base -> in_w 64 prefix_end ->
  in_w 64 heap -> in_w 64 image_size ->
  let r := nwoas_handoff_layout ram_base ram_size adt_size prefix_base prefix_end heap image_size true in
  (placeable ram_base ram_size adt_size prefix_base prefix_end heap image_size ->
   r = Some (image_place heap adt_size, handoff_end adt_size)) /\
  (~ placeable ram_base ram_size adt_size prefix_base prefix_end heap image_size -> r = None).
Proof.
  intros H1 H2 H3 H4 H5 H6 H7 r. unfold in_w in *. unfold r, nwoas_handoff_layout. clear r. cbn [negb orb]. cbv zeta.
  pose proof (align_up_bounds 0x4000 (NWOAS_ADT_COPY + adt_size) ltac:(done)) as [Be Me]. fold (handoff_end adt_size) in Be, Me.
  pose proof (align_up_bounds NWOAS_IMAGE_ALIGN (Z.max heap (handoff_end adt_size)) ltac:(done)) as [Bi Mi].
  fold (image_place heap adt_size) in Bi, Mi. unfold NWOAS_ADT_COPY, NWOAS_IMAGE_ALIGN in Be, Bi, Mi.
  assert (Hno : forall P : Prop, ~ P -> (P -> @None (Z * Z) = Some (image_place heap adt_size, handoff_end adt_size)) /\ (~ P -> @None (Z * Z) = None))
    by tauto.
  assert (Hyes : forall P : Prop, P -> (P -> Some (image_place heap adt_size, handoff_end adt_size) = Some (image_place heap adt_size, handoff_end adt_size)) /\
    (~ P -> Some (image_place heap adt_size, handoff_end adt_size) = None)) by tauto.
  unfold truthy. destruct (Z.eqb_spec adt_size 0), (Z.eqb_spec image_size 0), (Z.ltb_spec (UINT64_MAX - ram_base) ram_size),
    (Z.ltb_spec (UINT64_MAX - NWOAS_ADT_COPY) adt_size); cbn [negb orb];
    try (apply Hno; intros [[? ?] (? & ? & ?) ? ? ?]; unfold NWOAS_ADT_COPY in *; lia).
  rewrite (wrap_small 64 (NWOAS_ADT_COPY + adt_size)) by (unfold in_w, NWOAS_ADT_COPY in *; lia).
  destruct (Z.ltb_spec (UINT64_MAX - 0x3fff) (NWOAS_ADT_COPY + adt_size)) as [| Hend];
    [apply Hno; intros [? (? & ? & ?) ? ? ?]; unfold NWOAS_ADT_COPY in *; dlia |].
  pose proof (align_mask 14 (NWOAS_ADT_COPY + adt_size) ltac:(lia) ltac:(unfold NWOAS_ADT_COPY; lia)
    ltac:(unfold NWOAS_ADT_COPY in *; lia)) as E1. change (2 ^ 14 - 1) with 0x3fff in E1. change (2 ^ 14) with 0x4000 in E1.
  rewrite E1. fold (handoff_end adt_size).
  assert (Eip : align_up NWOAS_IMAGE_ALIGN (Z.max heap (handoff_end adt_size)) = image_place heap adt_size) by done.
  remember (handoff_end adt_size) as he eqn:Ehe. remember (image_place heap adt_size) as ip eqn:Ei.
  rewrite (wrap_small 64 (ram_base + ram_size)) by (unfold in_w; lia).
  destruct (Z.ltb_spec NWOAS_BOOTARGS_COPY ram_base), (Z.ltb_spec (ram_base + ram_size) he), (Z.ltb_spec prefix_end prefix_base),
    (Z.ltb_spec prefix_base he), (Z.ltb_spec NWOAS_BOOTARGS_COPY prefix_end), (Z.ltb_spec heap ram_base),
    (Z.ltb_spec (ram_base + ram_size) heap); cbn [andb orb];
    try (apply Hno; intros [? (? & ? & ?) (? & ?) ? ?]; lia).
  all: replace (if he <? heap then heap else he) with (Z.max heap he) by (destruct (Z.ltb_spec he heap); lia).
  all: destruct (Z.ltb_spec (UINT64_MAX - (NWOAS_IMAGE_ALIGN - 1)) (Z.max heap he)) as [Hw | Hw]; unfold NWOAS_IMAGE_ALIGN in Hw;
    [apply Hno; intros [(? & ?) (? & ? & ?) ? ? ?]; rewrite <- ?Ehe, <- ?Ei in *; dlia |].
  all: pose proof (align_mask 21 (Z.max heap he) ltac:(lia) ltac:(lia) ltac:(lia)) as E2.
  all: change (2 ^ 21 - 1) with (NWOAS_IMAGE_ALIGN - 1) in E2; change (2 ^ 21) with NWOAS_IMAGE_ALIGN in E2.
  all: rewrite Z.add_sub_assoc in E2; rewrite E2, Eip.
  all: destruct (Z.ltb_spec (ram_base + ram_size) ip), (Z.ltb_spec (ram_base + ram_size - ip) image_size); cbn [orb];
    try (apply Hno; intros [? ? ? ? ?]; lia).
  all: apply Hyes; split; lia.
Qed.

(** ** The loader's heap *)

(** A bump allocator with its top. *)
Class Heap {S} (h : heap_ops S) (top : S -> Z) : Prop := {
  hp_aligned n a s : let r := heapblock_alloc_aligned h n a s in
    r.1 = align_up a (top s) /\ top r.2 = align_up a (top s) + n;
  hp_alloc n s : let r := heapblock_alloc h n s in r.1 = align_up 64 (top s) /\ top r.2 = align_up 64 (top s) + n;
}.

Lemma align_up_id a x : 0 < a -> x mod a = 0 -> align_up a x = x.
Proof.
  intros Ha Hx. pose proof (align_up_bounds a x Ha) as [Hb Hm]. apply Z.mod_divide in Hx as [k ->]; [| lia].
  apply Z.mod_divide in Hm as [j Hj]; [| lia].
  rewrite Hj in Hb |- *. assert (k <= j) by nia. assert (j < k + 1) by nia. f_equal. lia.
Qed.

(** Loading the image: when the image fits, the assertions of [load_kernel]
    hold, the heap hands out exactly the address that was chosen, and the image is in
    RAM, aligned, above everything allocated before and disjoint from the copies of
    the boot arguments and the device tree; when it does not fit, the loader stops. *)
Theorem place_kernel_safe {S} (h : heap_ops S) (top : S -> Z) `{!Heap h top} a base_ end_ image_size s :
  in_w 64 (phys_base a) -> in_w 64 (mem_size a) -> in_w 64 (devtree_size a) -> in_w 64 base_ -> in_w 64 end_ ->
  in_w 64 image_size -> 0 <= top s -> align_up KERNEL_ALIGN (top s) < 2 ^ 64 ->
  let heap := align_up KERNEL_ALIGN (top s) in
  let r := place_kernel h a base_ end_ image_size s in
  let fits := placeable (phys_base a) (mem_size a) (devtree_size a) base_ end_ heap image_size in
  let place := image_place heap (devtree_size a) in
  (fits -> r.1 = Some (place, handoff_end (devtree_size a)) /\ top r.2 = place + image_size /\
     place mod KERNEL_ALIGN = 0 /\ top s <= place /\ handoff_end (devtree_size a) <= place /\
     phys_base a <= place /\ place + image_size <= phys_base a + mem_size a) /\
  (~ fits -> r.1 = None).
Proof.
  intros H1 H2 H3 H4 H5 H6 Ht Hh heap r fits place.
  pose proof (align_up_bounds KERNEL_ALIGN (top s) ltac:(done)) as [Hb Hm]. fold heap in Hb, Hm, Hh.
  destruct (handoff_layout_exact (phys_base a) (mem_size a) (devtree_size a) base_ end_ heap image_size
    H1 H2 H3 H4 H5 ltac:(unfold in_w; lia) H6) as [Hy Hn]. fold fits in Hy, Hn. fold place in Hy.
  unfold r, place_kernel, mbind, M_bind, mret, M_ret. clear r. cbv zeta.
  destruct (hp_aligned 0 KERNEL_ALIGN s) as [E1 T1]. destruct (heapblock_alloc_aligned h 0 KERNEL_ALIGN s) as [x s1].
  cbn [fst snd] in *. subst x. fold heap in T1 |- *. rewrite Z.add_0_r in T1. split; intros Hf; [rewrite Hy by done | by rewrite Hn].
  pose proof (align_up_bounds NWOAS_IMAGE_ALIGN (Z.max heap (handoff_end (devtree_size a))) ltac:(done)) as [Hpb Hpm].
  fold (image_place heap (devtree_size a)) in Hpb, Hpm. fold place in Hpb, Hpm.
  change NWOAS_IMAGE_ALIGN with KERNEL_ALIGN in Hpm.
  assert (Hs : forall s2, top s2 = place -> let r2 := heapblock_alloc_aligned h image_size KERNEL_ALIGN s2 in
    r2.1 = place /\ top r2.2 = place + image_size).
  { intros s2 E. cbv zeta. destruct (hp_aligned image_size KERNEL_ALIGN s2) as [-> ->]. rewrite E, align_up_id by done. done. }
  assert (Hrest : place mod KERNEL_ALIGN = 0 /\ top s <= place /\ handoff_end (devtree_size a) <= place /\
     phys_base a <= place /\ place + image_size <= phys_base a + mem_size a).
  { destruct Hf as [_ _ _ Hheap Himg]. fold place in Himg. repeat split; try done; lia. }
  destruct (Z.ltb_spec heap place) as [Hlt | Hge]; cbn [fst snd].
  - destruct (hp_alloc (place - heap) s1) as [_ T2]. destruct (heapblock_alloc h (place - heap) s1) as [y s2].
    cbn [fst snd] in *. assert (T2' : top s2 = place).
    { rewrite T2, T1, align_up_id; [lia | done |]. unfold KERNEL_ALIGN in Hm. clear -Hm. dlia. }
    destruct (Hs s2 T2') as [-> T3]. rewrite Z.eqb_refl. split; [done |]. split; [done | exact Hrest].
  - assert (Hp : top s1 = place) by lia. destruct (Hs s1 Hp) as [-> T3]. rewrite Z.eqb_refl. split; [done |]. split; [done | exact Hrest].
Qed.

(** ** Witnesses *)

(** The figures of the machine the loader was written for. *)
Lemma handoff_layout_exact_witness :
  let r := nwoas_handoff_layout 0x83c000000 0x2a4fcc000 0x5c000 0x83d000000 0x83d20c000 0x83f900000 0x1e00000 true in
  (placeable 0x83c000000 0x2a4fcc000 0x5c000 0x83d000000 0x83d20c000 0x83f900000 0x1e00000 ->
   r = Some (image_place 0x83f900000 0x5c000, handoff_end 0x5c000)) /\
  (~ placeable 0x83c000000 0x2a4fcc000 0x5c000 0x83d000000 0x83d20c000 0x83f900000 0x1e00000 -> r = None).
Proof. apply handoff_layout_exact; split; reflexivity || discriminate. Defined.
Example demo_place :
  nwoas_handoff_layout 0x83c000000 0x2a4fcc000 0x5c000 0x83d000000 0x83d20c000 0x83f900000 0x1e00000 true =
  Some (0x840200000, 0x840060000).
Proof. vm_compute. reflexivity. Qed.

(** A heap whose state is its top. *)
Definition bump : heap_ops Z := {|
  heapblock_alloc := fun n t => (align_up 64 t, align_up 64 t + n);
  heapblock_alloc_aligned := fun n a t => (align_up a t, align_up a t + n);
|}.
#[export] Instance bump_heap : Heap bump id.
Proof. by split. Qed.

Lemma place_kernel_safe_witness :
  let heap := align_up KERNEL_ALIGN 0x83f812340 in
  let r := place_kernel bump (mk_boot_args 0x83c000000 0x2a4fcc000 0x5c000) 0x83d000000 0x83d20c000 0x1e00000 0x83f812340 in
  let fits := placeable 0x83c000000 0x2a4fcc000 0x5c000 0x83d000000 0x83d20c000 heap 0x1e00000 in
  let place := image_place heap 0x5c000 in
  (fits -> r.1 = Some (place, handoff_end 0x5c000) /\ id r.2 = place + 0x1e00000 /\
     place mod KERNEL_ALIGN = 0 /\ 0x83f812340 <= place /\ handoff_end 0x5c000 <= place /\
     0x83c000000 <= place /\ place + 0x1e00000 <= 0x83c000000 + 0x2a4fcc000) /\
  (~ fits -> r.1 = None).
Proof.
  apply (place_kernel_safe bump id (mk_boot_args 0x83c000000 0x2a4fcc000 0x5c000) 0x83d000000 0x83d20c000 0x1e00000 0x83f812340);
    split || idtac; reflexivity || discriminate || (vm_compute; reflexivity || discriminate).
Defined.
Example demo_fits :
  (place_kernel bump (mk_boot_args 0x83c000000 0x2a4fcc000 0x5c000) 0x83d000000 0x83d20c000 0x1e00000 0x83f812340).1 =
  Some (0x840200000, 0x840060000).
Proof. vm_compute. reflexivity. Qed.
