(* ===== verification/CrcrLatch.v ===== *)
(** * The command-ring latch of the USB bring-up ([usb-s182/crcr_latch.h])

    The command ring pointer of an xHC reads as zero, so the hypervisor keeps a copy
    of the guest's writes to it.  The copy is shown to be the register: a 64-bit word
    whose halves the guest writes, together or one by one, while the controller is
    stopped. *)

From S2P Require Import Prelude.

Record nwoas_crcr_latch := mk_latch { value : Z; seen : Z }.

Definition nwoas_crcr_reset (s : nwoas_crcr_latch) : nwoas_crcr_latch := mk_latch 0 0.

Definition nwoas_crcr_write (s : nwoas_crcr_latch) (offset bytes v : Z) (stopped : bool) : nwoas_crcr_latch :=
  if negb stopped then s
  else if (offset =? 0x18) && (bytes =? 8) then mk_latch v 3
  else if (offset =? 0x18) && (bytes =? 4) then
    mk_latch ((value s .& 0xffffffff00000000) .| u32 v) (seen s .| 1)
  else if (offset =? 0x1c) && (bytes =? 4) then
    mk_latch ((value s .& 0xffffffff) .| (u32 v .<< 32)) (seen s .| 2)
  else s.

(** [None] when the function returns false. *)
Definition nwoas_crcr_pointer (s : nwoas_crcr_latch) : option Z :=
  if negb (seen s =? 3) || negb (truthy (value s .& cnot 64 63)) then None else Some (value s .& cnot 64 63).

(** ** Specification: the two halves of the register, once written *)

Record crcr_write := mk_write { w_offset : Z; w_bytes : Z; w_value : Z; w_stopped : bool }.
Definition write_ok (w : crcr_write) : Prop := in_w (8 * w_bytes w) (w_value w) \/ ~ (w_bytes w = 4 \/ w_bytes w = 8).

(** What a write puts into the low and the high half. *)
Definition low_half (w : crcr_write) : option Z :=
  if w_stopped w && (w_offset w =? 0x18) && ((w_bytes w =? 8) || (w_bytes w =? 4)) then Some (w_value w mod 2 ^ 32) else None.
Definition high_half (w : crcr_write) : option Z :=
  if w_stopped w && (w_offset w =? 0x18) && (w_bytes w =? 8) then Some (w_value w / 2 ^ 32)
  else if w_stopped w && (w_offset w =? 0x1c) && (w_bytes w =? 4) then Some (w_value w mod 2 ^ 32) else None.
Definition latest (f : crcr_write -> option Z) (l : list crcr_write) : option Z :=
  fold_left (fun acc w => match f w with Some x => Some x | None => acc end) l None.
Definition latch_after (l : list crcr_write) : nwoas_crcr_latch :=
  fold_left (fun s w => nwoas_crcr_write s (w_offset w) (w_bytes w) (w_value w) (w_stopped w)) l (nwoas_crcr_reset (mk_latch 0 0)).

(** The latch holds the halves that were written. *)
Definition latch_holds (s : nwoas_crcr_latch) (lo hi : option Z) : Prop :=
  seen s = (if lo then 1 else 0) + (if hi then 2 else 0) /\
  value s = default 0 lo + 2 ^ 32 * default 0 hi /\ in_w 32 (default 0 lo) /\ in_w 32 (default 0 hi).

Lemma land_high x : in_w 64 x -> x .& 0xffffffff00000000 = x / 2 ^ 32 * 2 ^ 32.
Proof. intros Hx. exact (land_cnot_mask 32 x ltac:(done) Hx). Qed.
Lemma land_low x : x .& 0xffffffff = x mod 2 ^ 32.
Proof. exact (land_ones_mod 32 x ltac:(done)). Qed.

Lemma latch_step s lo hi w : write_ok w -> latch_holds s lo hi ->
  latch_holds (nwoas_crcr_write s (w_offset w) (w_bytes w) (w_value w) (w_stopped w))
    (match low_half w with Some x => Some x | None => lo end) (match high_half w with Some x => Some x | None => hi end).
Proof.
  intros Hw (Hs & Hv & Hl & Hh). destruct w as [o b v st]. unfold write_ok, low_half, high_half, nwoas_crcr_write in *. cbn in *.
  destruct st; cbn [negb andb]; [| done].
  assert (Hin : in_w 64 (value s)) by (rewrite Hv; unfold in_w in *; lia).
  assert (Hd : value s / 2 ^ 32 = default 0 hi) by (rewrite Hv; unfold in_w in *; dlia).
  assert (Hm : value s mod 2 ^ 32 = default 0 lo) by (rewrite Hv; unfold in_w in *; dlia).
  destruct (Z.eqb_spec o 0x18) as [Eo |], (Z.eqb_spec b 8) as [Eb |], (Z.eqb_spec b 4) as [Eb' |], (Z.eqb_spec o 0x1c) as [Eo' |];
    cbn [andb orb]; try done; try (exfalso; lia).
  - subst b. destruct Hw as [Hw | Hw]; [| exfalso; by apply Hw; right]. split_and!; cbn; [done | dlia | unfold in_w; dlia | unfold in_w in *; dlia].
  - split_and!; cbn.
    + rewrite Hs. by destruct lo, hi.
    + rewrite land_high, Hd, Z.lor_comm, <- Z.shiftl_mul_pow2, lor_shiftl_add by (done || by apply wrap_range). done.
    + by apply wrap_range.
    + done.
  - split_and!; cbn.
    + rewrite Hs. by destruct lo, hi.
    + rewrite land_low, Hm, lor_shiftl_add by done. done.
    + done.
    + by apply wrap_range.
Qed.

(** The pointer reported is the register without its low six bits, once both halves
    have been written while the controller was stopped, and only if it is not null. *)
Theorem crcr_pointer_exact l : Forall write_ok l ->
  nwoas_crcr_pointer (latch_after l) =
  match latest low_half l, latest high_half l with
  | Some lo, Some hi => let p := (lo + 2 ^ 32 * hi) / 64 * 64 in if p =? 0 then None else Some p
  | _, _ => None
  end.
Proof.
  intros Hl. assert (H : latch_holds (latch_after l) (latest low_half l) (latest high_half l)).
  { unfold latch_after, latest. assert (H0 : latch_holds (nwoas_crcr_reset (mk_latch 0 0)) None None) by (by split_and!).
    revert H0. generalize (nwoas_crcr_reset (mk_latch 0 0)), (@None Z) at 1 3. generalize (@None Z).
    induction Hl as [| w l Hw _ IH]; intros hi s lo H0; [done |]. cbn. apply IH. by apply latch_step. }
  destruct H as (Hs & Hv & Hlo & Hhi). unfold nwoas_crcr_pointer. rewrite Hs.
  destruct (latest low_half l) as [lo |], (latest high_half l) as [hi |]; try done. cbn [default] in *. cbn -[cnot].
  assert (Hin : in_w 64 (value (latch_after l))) by (rewrite Hv; unfold in_w in *; cbn in *; lia).
  pose proof (land_cnot_mask 6 _ ltac:(done) Hin) as E. change (2 ^ 6 - 1) with 63 in E. change (2 ^ 6) with 64 in E.
  rewrite E, Hv. unfold truthy. cbn [negb]. by destruct (_ =? 0).
Qed.

Example crcr_halves :
  nwoas_crcr_pointer (latch_after [mk_write 0x1c 4 8 true; mk_write 0x18 4 0x40001 true; mk_write 0x18 8 0 false]) = Some 0x800040000.
Proof. vm_compute. reflexivity. Qed.
