(* ===== verification/AfkRing.v ===== *)
(** * Ring geometry of the coprocessor link ([.../m1n1_windows/added/src/afk_ring.h])

    Three header blocks of one size precede the data of a ring; the function finds
    the size from the two lengths. *)

From S2P Require Import Prelude.

Definition afk_ring_block_size (total data : Z) : Z :=
  if total <=? data then 0
  else
    let overhead := u64 (total - data) in
    if truthy (overhead mod 3) then 0
    else
      let block := overhead / 3 in
      if (block <? 64) || truthy (block .& u64 (block - 1)) || (data <? block) || truthy (data mod block) then 0
      else block.

(** A number with no bit in common with its predecessor is a power of two. *)
Lemma pow2_test b : 0 < b -> b .& (b - 1) = 0 <-> exists k, 0 <= k /\ b = 2 ^ k.
Proof.
  intros Hb. split.
  - intros H. exists (Z.log2 b). split; [apply Z.log2_nonneg |]. pose proof (Z.log2_spec b Hb) as [Hlo Hhi].
    destruct (Z.eq_dec b (2 ^ Z.log2 b)) as [| Hne]; [done |]. exfalso.
    assert (E : Z.testbit (b .& (b - 1)) (Z.log2 b) = true).
    { rewrite Z.land_spec, Z.bit_log2 by done. rewrite <- (Z.log2_unique' (b - 1) (Z.log2 b) (b - 1 - 2 ^ Z.log2 b)).
      - apply Z.bit_log2. pose proof (Z.pow_pos_nonneg 2 (Z.log2 b) ltac:(lia) ltac:(apply Z.log2_nonneg)). lia.
      - apply Z.log2_nonneg.
      - rewrite Z.pow_succ_r in Hhi by apply Z.log2_nonneg. lia.
      - lia. }
    by rewrite H, Z.bits_0 in E.
  - intros (k & Hk & ->). replace (2 ^ k - 1) with (Z.ones k) by (rewrite Z.ones_equiv; lia).
    apply Z.bits_inj'. intros i Hi. rewrite Z.land_spec, testbit_pow2_eqb, testbit_ones_ltb, Z.bits_0 by lia.
    destruct (Z.eqb_spec i k), (Z.ltb_spec i k); done || lia.
Qed.

(** The result is the block size of the layout when there is one: a power of two of
    at least 64 bytes, three of which make up the overhead and which divides the
    data; otherwise it is 0. *)
Theorem afk_block_exact total data : in_w 64 total -> in_w 64 data ->
  let b := afk_ring_block_size total data in
  let layout b := total = 3 * b + data /\ 64 <= b /\ (exists k, 0 <= k /\ b = 2 ^ k) /\ b <= data /\ (b | data) in
  (b <> 0 -> layout b) /\ forall b', layout b' -> b = b'.
Proof.
  intros Ht Hd b layout. unfold in_w in *.
  assert (G : forall x, 64 <= x -> 3 * x + data = total ->
    (truthy (x .& u64 (x - 1)) || (data <? x) || truthy (data mod x) = false <->
     (exists k, 0 <= k /\ x = 2 ^ k) /\ x <= data /\ (x | data))).
  { intros x Hx Hs. rewrite wrap_small by (unfold in_w; lia). rewrite !orb_false_iff, !truthy_false, Z.ltb_ge, pow2_test, Z.mod_divide by lia.
    tauto. }
  unfold b, afk_ring_block_size. clear b. destruct (Z.leb_spec total data) as [| Hlt].
  { split; [done |]. intros b' (? & ? & _). lia. }
  rewrite (wrap_small 64 (total - data)) by (unfold in_w; lia). cbv zeta. destruct (truthy ((total - data) mod 3)) eqn:E3.
  { split; [done |]. intros b' (E & ? & _). bool_props. exfalso. apply E3. replace (total - data) with (b' * 3) by lia. by apply Z.mod_mul. }
  bool_props. assert (Hs : 3 * ((total - data) / 3) + data = total) by dlia. set (x := (total - data) / 3) in *.
  rewrite <- !orb_assoc. destruct (Z.ltb_spec x 64); cbn [orb].
  { split; [done |]. intros b' (E & ? & _). lia. }
  specialize (G x ltac:(lia) Hs). rewrite <- orb_assoc in G.
  destruct (_ || _) eqn:Eo.
  - split; [done |]. intros b' (E & Hb & Hrest). assert (b' = x) as -> by lia. exfalso. apply G in Hrest. done.
  - split; [intros _ | intros b' (E & _); lia]. destruct G as [G _]. destruct (G eq_refl) as (G1 & G2 & G3). split_and!; done || lia.
Qed.

Example afk_first_ring : afk_ring_block_size 0x4000 0x3e80 = 128.
Proof. vm_compute. reflexivity. Qed.
