(* ===== verification/Bitfield.v ===== *)
(** * Bit fields and mask tests

    A word made of constant bits and fields ([pack]), tested with
    [insn & mask == value] as an instruction decoder does.  [match_sym] decides
    such a test from the positions of the fields alone, whatever their values,
    and [find_sym] decides a chain of tests; a field is read back by shifting
    and masking ([pack_get]).  Everything a proof about a decoder needs is then
    a computation on constants. *)

From S2P Require Import Prelude.

(** Position, length and value. *)
Record field := mk_field { f_lo : Z; f_len : Z; f_val : Z }.
Definition field_ok (f : field) : Prop := 0 <= f_lo f /\ 0 <= f_len f /\ in_w (f_len f) (f_val f).

Definition span (lo len : Z) : Z := (2 ^ len - 1) .<< lo.
Fixpoint pack (fs : list field) : Z :=
  match fs with [] => 0 | f :: fs => (f_val f .<< f_lo f) .| pack fs end.
Fixpoint cover (fs : list field) : Z :=
  match fs with [] => 0 | f :: fs => span (f_lo f) (f_len f) .| cover fs end.

(** The first row of a chain of tests that matches, as [if]/[else if] takes it. *)
Fixpoint first_match {A} (t : list (Z * Z * A)) (insn : Z) : option A :=
  match t with
  | [] => None
  | (mask, value, a) :: t => if insn .& mask =? value then Some a else first_match t insn
  end.

(** The test with [fixed] known and the bits of [free] unknown. *)
Definition match_sym (free fixed mask value : Z) : option bool :=
  if negb (Z.ldiff (fixed .& mask) free =? Z.ldiff value free) then Some false
  else if mask .& free =? 0 then Some (fixed .& mask =? value)
  else None.
Fixpoint find_sym {A} (free fixed : Z) (t : list (Z * Z * A)) : option (option A) :=
  match t with
  | [] => Some None
  | (mask, value, a) :: t =>
      match match_sym free fixed mask value with
      | Some true => Some (Some a)
      | Some false => find_sym free fixed t
      | None => None
      end
  end.

Lemma testbit_low n i : 0 <= n -> 0 <= i -> Z.testbit (2 ^ n - 1) i = (i <? n).
Proof. intros Hn. replace (2 ^ n - 1) with (Z.ones n) by (rewrite Z.ones_equiv; lia). by apply testbit_ones_ltb. Qed.

Lemma testbit_span lo len i : 0 <= lo -> 0 <= len -> Z.testbit (span lo len) i = (lo <=? i) && (i <? lo + len).
Proof.
  intros Hlo Hlen. unfold span. destruct (Z.le_gt_cases 0 i) as [Hi|Hi]; [|rewrite Z.testbit_neg_r by lia; by destruct (lo <=? i) eqn:E; bool_props; [lia|]].
  rewrite Z.shiftl_spec by lia. destruct (Z.leb_spec lo i) as [G|G]; cbn.
  - rewrite testbit_low by lia. replace (i <? lo + len) with (i - lo <? len) by (destruct (i - lo <? len) eqn:E1, (i <? lo + len) eqn:E2; lia).
    done.
  - by rewrite Z.testbit_neg_r by lia.
Qed.

Lemma testbit_field f i : field_ok f -> Z.testbit (f_val f .<< f_lo f) i = true -> Z.testbit (span (f_lo f) (f_len f)) i = true.
Proof.
  intros (Hlo & Hlen & Hv) Ht. rewrite testbit_span by lia.
  destruct (Z.le_gt_cases 0 i) as [Hi|Hi]; [|by rewrite Z.testbit_neg_r in Ht by lia].
  rewrite Z.shiftl_spec in Ht by lia.
  destruct (Z.le_gt_cases 0 (i - f_lo f)) as [G|G]; [|by rewrite Z.testbit_neg_r in Ht by lia].
  destruct (Z.lt_ge_cases (i - f_lo f) (f_len f)) as [L|L]; [|by rewrite (testbit_in_w _ _ _ Hv) in Ht by lia].
  replace (f_lo f <=? i) with true by lia. by replace (i <? f_lo f + f_len f) with true by lia.
Qed.

Lemma pack_cover fs : Forall field_ok fs -> forall i, Z.testbit (pack fs) i = true -> Z.testbit (cover fs) i = true.
Proof.
  induction 1 as [|f fs Hf _ IH]; cbn; intros i; [by rewrite Z.bits_0|].
  rewrite !Z.lor_spec, !orb_true_iff. intros [?|?]; [left; by apply testbit_field | right; auto].
Qed.

Section packed.
Context (fs : list field) (Hfs : Forall field_ok fs).

Lemma pack_outside i : Z.testbit (cover fs) i = false -> Z.testbit (pack fs) i = false.
Proof using Hfs. intros H. destruct (Z.testbit (pack fs) i) eqn:E; [|done]. by rewrite (pack_cover fs Hfs i E) in H. Qed.

Lemma match_sym_sound fixed mask value b : match_sym (cover fs) fixed mask value = Some b ->
  ((fixed .| pack fs) .& mask =? value) = b.
Proof using Hfs.
  unfold match_sym. destruct (Z.eqb_spec (Z.ldiff (fixed .& mask) (cover fs)) (Z.ldiff value (cover fs))) as [He|Hne]; cbn.
  - destruct (Z.eqb_spec (mask .& cover fs) 0) as [Hm|]; [|done]. intros [= <-]. f_equal.
    apply Z.bits_inj'. intros i Hi. rewrite !Z.land_spec, Z.lor_spec.
    pose proof (f_equal (fun z => Z.testbit z i) Hm) as Hb. cbn in Hb. rewrite Z.land_spec, Z.bits_0 in Hb.
    destruct (Z.testbit mask i); [|by rewrite !andb_false_r]. cbn in Hb. by rewrite (pack_outside i Hb), orb_false_r.
  - intros [= <-]. apply Z.eqb_neq. intros Heq. apply Hne. rewrite <- Heq. apply Z.bits_inj'. intros i Hi.
    rewrite !Z.ldiff_spec, !Z.land_spec, Z.lor_spec. destruct (Z.testbit (cover fs) i) eqn:E; [by rewrite !andb_false_r|].
    by rewrite (pack_outside i E), orb_false_r.
Qed.

Lemma find_sym_sound {A} fixed (t : list (Z * Z * A)) r : find_sym (cover fs) fixed t = Some r ->
  first_match t (fixed .| pack fs) = r.
Proof using Hfs.
  induction t as [|[[mask value] a] t IH]; cbn; [by intros [= <-]|].
  destruct (match_sym _ _ _ _) as [[]|] eqn:E; [| |done]; intros Hf; rewrite (match_sym_sound _ _ _ _ E); [by injection Hf|auto].
Qed.

(** Field [k], read back. *)
Lemma pack_get fixed k f : fs !! k = Some f -> (fixed .| cover (delete k fs)) .& span (f_lo f) (f_len f) = 0 ->
  ((fixed .| pack fs) .>> f_lo f) .& (2 ^ f_len f - 1) = f_val f.
Proof using Hfs.
  intros Hk Hdis. pose proof (proj1 (Forall_lookup _ _) Hfs k f Hk) as (Hlo & Hlen & Hv).
  assert (Hsplit : forall l j g i, l !! j = Some g -> Z.testbit (pack l) i = Z.testbit (g.(f_val) .<< g.(f_lo)) i || Z.testbit (pack (delete j l)) i).
  { induction l as [|h l IH]; intros [|j] g i Hj; simplify_eq/=; [by rewrite Z.lor_spec|].
    rewrite !Z.lor_spec, (IH j g i Hj). by destruct (Z.testbit (f_val h .<< f_lo h) i), (Z.testbit (f_val g .<< f_lo g) i). }
  apply Z.bits_inj'. intros i Hi.
  rewrite Z.land_spec, Z.shiftr_spec, Z.lor_spec, (Hsplit fs k f _ Hk), testbit_low by lia.
  pose proof (f_equal (fun z => Z.testbit z (i + f_lo f)) Hdis) as Hb. cbn in Hb.
  rewrite Z.land_spec, Z.lor_spec, Z.bits_0, testbit_span in Hb by lia.
  rewrite Z.shiftl_spec by lia. replace (i + f_lo f - f_lo f) with i by lia.
  destruct (Z.lt_ge_cases i (f_len f)) as [L|L].
  - replace (f_lo f <=? i + f_lo f) with true in Hb by lia. replace (i + f_lo f <? f_lo f + f_len f) with true in Hb by lia.
    rewrite !andb_true_r, orb_false_iff in Hb. destruct Hb as [Hx Hy].
    assert (Hd : Forall field_ok (delete k fs)) by (apply (Forall_delete _ _ k) in Hfs; done).
    assert (Hz : Z.testbit (pack (delete k fs)) (i + f_lo f) = false).
    { destruct (Z.testbit (pack (delete k fs)) (i + f_lo f)) eqn:E; [|done]. by rewrite (pack_cover _ Hd _ E) in Hy. }
    rewrite Hx, Hz, orb_false_r, orb_false_l. replace (i <? f_len f) with true by lia. replace (0 <=? i) with true by lia.
    by rewrite andb_true_r.
  - rewrite (testbit_in_w _ _ _ Hv) by lia. replace (i <? f_len f) with false by lia. by rewrite ?andb_false_r.
Qed.
End packed.
