(* ===== verification/Emulate.v ===== *)
(** * Emulation of a trapped load or store ([nvme-s208/hv_vm-s208.c])

    [emulate_load] and [emulate_store]: the chain of mask tests that recognises
    an AArch64 instruction, and what each branch does to the guest's registers.
    A load is emulated in two passes: with [val] NULL it only says how many
    bytes the access has and where it is; with the bytes read it updates the
    registers.  The vector registers, which m1n1's [get_simd_state] and
    [put_simd_state] copy out of and back into the CPU, are a field of the
    state.  The theorems compare the two functions with the architecture's
    effect of the instructions, encoded from an abstract syntax. *)

From S2P Require Import Prelude Bitfield.

(** ** State *)

(** [union simd_reg], as its [d] member; [s[0]] is the low half of [d[0]]. *)
Definition simd_reg : Type := Z * Z.
(** [ctx->regs] (slot 31 is the zero register, not the stack pointer) and the
    vector registers. *)
Record cpu := mk_cpu { regs : list Z; vregs : list simd_reg }.
#[export] Instance eta_cpu : Eta cpu := fun c => mk_cpu (regs c) (vregs c).

Definition reg (c : cpu) (n : Z) : Z := nth (Z.to_nat n) (regs c) 0.
Definition set_reg (n v : Z) (c : cpu) : cpu := c <| regs := <[Z.to_nat n := v]> (regs c) |>.
Definition vreg (c : cpu) (n : Z) : simd_reg := nth (Z.to_nat n) (vregs c) (0, 0).
Definition set_vreg (n : Z) (v : simd_reg) (c : cpu) : cpu := c <| vregs := <[Z.to_nat n := v]> (vregs c) |>.
Definition simd_s0 (v : simd_reg) : Z := u32 v.1.

(** The buffer [u64 *val]. *)
Definition val_at (val : list Z) (k : nat) : Z := nth k val 0.

(** [EXT(n, b)]: the low [b] bits of [n] as a signed [int]; the shift count
    [32 - b] is defined by C for [b] from 1 to 32 only. *)
Definition s32 (x : Z) : Z := if x <? 2 ^ 31 then x else x - 2 ^ 32.
Definition EXT (n b : Z) : Z := s32 (u32 (u32 n .<< (32 - b))) .>> (32 - b).
Definition EXT_defined (b : Z) : bool := (1 <=? b) && (b <=? 32).

(** ** Fields of the instruction word *)

Definition Rt (insn : Z) : Z := insn .& 0x1f.
Definition Rn (insn : Z) : Z := (insn .>> 5) .& 0x1f.
Definition Rt2 (insn : Z) : Z := (insn .>> 10) .& 0x1f.
Definition uimm12 (insn : Z) : Z := (insn .>> 10) .& 0xfff.
Definition imm9 (insn : Z) : Z := u64 (EXT ((insn .>> 12) .& 0x1ff) 9).
Definition imm7 (insn : Z) : Z := u64 (EXT ((insn .>> 15) .& 0x7f) 7).
(** The initial [*width = insn >> 30]. *)
Definition insn_width (insn : Z) : Z := insn .>> 30.

(** How a call ends: the access is emulated, with [*width] and [*vaddr]; the
    function returns false; or C leaves the behaviour undefined. *)
Inductive outcome := Emulated (width vaddr : Z) | Refused | Undefined.

(** [CHECK_RN], before a branch goes on. *)
Definition CHECK_RN (insn : Z) (o : outcome) : outcome := if Rn insn =? 31 then Refused else o.

(** ** Loads *)

(** The branches of [emulate_load], in order. *)
Inductive load_op :=
  | LDR_pp | LDR_uoff | LDRS_pp | LDRS_uoff | LDRSB_w | LDR_reg | LDRS_reg | LDUR | LDURS
  | LDP_32 | LDP_64 | LDP_64_pp | LDP_128
  | LDR_v_uoff | LDUR_v | LDR_q_uoff | LDUR_q | LDR_v_pp | LDR_q_pp | LDR_v_reg | LDR_q_reg
  | LD1_d | LDAR.

Definition load_table : list (Z * Z * load_op) :=
  [ (0x3fe00400, 0x38400400, LDR_pp);
    (0x3fc00000, 0x39400000, LDR_uoff);
    (0x3fa00400, 0x38800400, LDRS_pp);
    (0x3fa00000, 0x39800000, LDRS_uoff);
    (0x3fc00000, 0x39c00000, LDRSB_w);
    (0x3fe04c00, 0x38604800, LDR_reg);
    (0x3fa04c00, 0x38a04800, LDRS_reg);
    (0x3fe00c00, 0x38400000, LDUR);
    (0x3fa00c00, 0x38a00000, LDURS);
    (0xfec00000, 0x28400000, LDP_32);
    (0xfec00000, 0xa8400000, LDP_64);
    (0xfec00000, 0xa8c00000, LDP_64_pp);
    (0xfec00000, 0xac400000, LDP_128);
    (0x3fc00000, 0x3d400000, LDR_v_uoff);
    (0x3fe00c00, 0x3c400000, LDUR_v);
    (0xffc00000, 0x3dc00000, LDR_q_uoff);
    (0xffe00c00, 0x3cc00000, LDUR_q);
    (0x3fe00400, 0x3c400400, LDR_v_pp);
    (0xffe00400, 0x3cc00400, LDR_q_pp);
    (0x3fe04c00, 0x3c604800, LDR_v_reg);
    (0xffe04c00, 0x3ce04800, LDR_q_reg);
    (0xbffffc00, 0x0d408400, LD1_d);
    (0x3ffffc00, 0x08dffc00, LDAR) ].

(** The part of a branch before [DECODE_OK]. *)
Definition load_decode (op : load_op) (c : cpu) (insn vaddr : Z) : outcome :=
  let base := reg c (Rn insn) in
  match op with
  | LDR_pp | LDRS_pp | LDR_v_pp => CHECK_RN insn (Emulated (insn_width insn) vaddr)
  | LDR_q_pp => CHECK_RN insn (Emulated 4 vaddr)
  | LDR_uoff | LDRS_uoff | LDRSB_w | LDR_reg | LDRS_reg | LDUR | LDURS | LDR_v_reg | LDAR =>
      Emulated (insn_width insn) vaddr
  | LDP_32 => Emulated 3 (u64 (base + imm7 insn * 4))
  | LDP_64 => Emulated 4 (u64 (base + imm7 insn * 8))
  | LDP_64_pp => Emulated 4 (u64 (base + if truthy (insn .& 2 ^ 24) then imm7 insn * 8 else 0))
  | LDP_128 => Emulated 5 (u64 (base + imm7 insn * 16))
  | LDR_v_uoff => Emulated (insn_width insn) (u64 (base + (uimm12 insn .<< insn_width insn)))
  | LDUR_v => Emulated (insn_width insn) (u64 (base + imm9 insn))
  | LDR_q_uoff => Emulated 4 (u64 (base + (uimm12 insn .<< 4)))
  | LDUR_q => Emulated 4 (u64 (base + imm9 insn))
  | LDR_q_reg => Emulated 4 vaddr
  | LD1_d => Emulated 3 vaddr
  end.

(** [regs[Rn] += imm]. *)
Definition add_base (insn imm : Z) (c : cpu) : cpu := set_reg (Rn insn) (u64 (reg c (Rn insn) + imm)) c.

(** [regs[Rt] = (s64)EXT( *val, 8 << *width )], then [&= 0xffffffff] when [low]. *)
Definition load_signed (insn : Z) (low : bool) (val : list Z) (c : cpu) : option cpu :=
  let b := 8 .<< insn_width insn in
  if EXT_defined b then
    let c := set_reg (Rt insn) (u64 (EXT (val_at val 0) b)) c in
    Some (if low then set_reg (Rt insn) (reg c (Rt insn) .& 0xffffffff) c else c)
  else None.

(** The part after it, for the general registers. *)
Definition load_gpr (op : load_op) (insn : Z) (val : list Z) (c : cpu) : option cpu :=
  match op with
  | LDR_pp => Some (set_reg (Rt insn) (val_at val 0) (add_base insn (imm9 insn) c))
  | LDRS_pp => load_signed insn (truthy (insn .& (1 .<< 22))) val (add_base insn (imm9 insn) c)
  | LDRS_uoff | LDRS_reg | LDURS => load_signed insn (truthy (insn .& (1 .<< 22))) val c
  | LDRSB_w => load_signed insn true val c
  | _ => Some (set_reg (Rt insn) (val_at val 0) c)
  end.

(** The same for a pair of registers. *)
Definition load_pair (op : load_op) (insn : Z) (val : list Z) (c : cpu) : cpu :=
  match op with
  | LDP_32 => set_reg (Rt2 insn) (val_at val 0 .>> 32) (set_reg (Rt insn) (val_at val 0 .& 0xffffffff) c)
  | LDP_64_pp => set_reg (Rt2 insn) (val_at val 1) (set_reg (Rt insn) (val_at val 0) (add_base insn (u64 (imm7 insn * 8)) c))
  | _ => set_reg (Rt2 insn) (val_at val 1) (set_reg (Rt insn) (val_at val 0) c)
  end.

(** The same for the vector registers. *)
Definition load_simd (op : load_op) (insn : Z) (val : list Z) (c : cpu) : cpu :=
  match op with
  | LDP_128 => set_vreg (Rt2 insn) (val_at val 2, val_at val 3) (set_vreg (Rt insn) (val_at val 0, val_at val 1) c)
  | LDR_v_uoff | LDR_v_reg => set_vreg (Rt insn) (val_at val 0, 0) c
  | LDR_v_pp => set_vreg (Rt insn) (val_at val 0, 0) (add_base insn (imm9 insn) c)
  | LDR_q_pp => set_vreg (Rt insn) (val_at val 0, val_at val 1) (add_base insn (imm9 insn) c)
  | LD1_d =>
      let v := vreg c (Rt insn) in
      let index := (insn .>> 30) .& 1 in
      set_vreg (Rt insn) (if index =? 0 then (val_at val 0, v.2) else (v.1, val_at val 0)) c
  | _ => set_vreg (Rt insn) (val_at val 0, val_at val 1) c
  end.

Definition load_commit (op : load_op) (insn : Z) (val : list Z) (c : cpu) : option cpu :=
  match op with
  | LDR_pp | LDR_uoff | LDRS_pp | LDRS_uoff | LDRSB_w | LDR_reg | LDRS_reg | LDUR | LDURS | LDAR => load_gpr op insn val c
  | LDP_32 | LDP_64 | LDP_64_pp => Some (load_pair op insn val c)
  | _ => Some (load_simd op insn val c)
  end.

(** [val] is [None] for the NULL of the first pass. *)
Definition emulate_load (c : cpu) (insn : Z) (val : option (list Z)) (vaddr : Z) : outcome * cpu :=
  match first_match load_table insn with
  | None => (Refused, c)
  | Some op =>
      match load_decode op c insn vaddr, val with
      | Emulated width va, Some val =>
          match load_commit op insn val c with
          | Some c' => (Emulated width va, c')
          | None => (Undefined, c)
          end
      | o, _ => (o, c)
      end
  end.

(** ** Stores *)

Inductive store_op :=
  | STR_pp | STR_uoff | STR_reg | STP_32 | STP_64 | STP_64_pp
  | STR_v_uoff | STR_v_reg | STR_q_reg | STR_q_uoff | STUR_s | STUR_d | STUR_q | STP_s | STP_q
  | STUR | DC_ZVA | STLR.

Definition store_table : list (Z * Z * store_op) :=
  [ (0x3fe00400, 0x38000400, STR_pp);
    (0x3fc00000, 0x39000000, STR_uoff);
    (0x3fe04c00, 0x38204800, STR_reg);
    (0xfec00000, 0x28000000, STP_32);
    (0xfec00000, 0xa8000000, STP_64);
    (0xfec00000, 0xa8800000, STP_64_pp);
    (0x3fc00000, 0x3d000000, STR_v_uoff);
    (0x3fe04c00, 0x3c204800, STR_v_reg);
    (0xffe04c00, 0x3ca04800, STR_q_reg);
    (0xffc00000, 0x3d800000, STR_q_uoff);
    (0xffe00000, 0xbc000000, STUR_s);
    (0xffe00000, 0xfc000000, STUR_d);
    (0xffe00000, 0x3c800000, STUR_q);
    (0xffc00000, 0x2d000000, STP_s);
    (0xffc00000, 0xad000000, STP_q);
    (0x3fe00c00, 0x38000000, STUR);
    (0xffffffe0, 0xd50b7420, DC_ZVA);
    (0x3ffffc00, 0x089ffc00, STLR) ].

Definition store_mask (insn : Z) : Z :=
  if insn_width insn <? 3 then (1 .<< (8 .<< insn_width insn)) - 1 else 0xffffffffffffffff.

(** [val[0] = a], [val[1] = b] and so on. *)
Definition put_val (ws val : list Z) : list Z := ws ++ drop (length ws) val.

(** The words a branch stores in [val]; the registers are those it reads them from. *)
Definition store_value (op : store_op) (insn : Z) (c : cpu) : list Z :=
  let r := reg c (Rt insn) in
  let r2 := reg c (Rt2 insn) in
  let v := vreg c (Rt insn) in
  let v2 := vreg c (Rt2 insn) in
  match op with
  | STR_pp | STR_uoff | STR_reg | STUR | STLR => [r .& store_mask insn]
  | STP_32 => [(r .& 0xffffffff) .| u64 (r2 .<< 32)]
  | STP_64 | STP_64_pp => [r; r2]
  | STR_v_uoff | STR_v_reg | STUR_d => [v.1]
  | STR_q_reg | STR_q_uoff | STUR_q => [v.1; v.2]
  | STUR_s => [simd_s0 v]
  | STP_s => [simd_s0 v .| (simd_s0 v2 .<< 32)]
  | STP_q => [v.1; v.2; v2.1; v2.2]
  | DC_ZVA => replicate 8 0
  end.

(** [*width] and [*vaddr]; [CHECK_RN] comes first in its branches. *)
Definition store_place (op : store_op) (c : cpu) (insn vaddr : Z) : outcome :=
  let base := reg c (Rn insn) in
  match op with
  | STR_pp => CHECK_RN insn (Emulated (insn_width insn) vaddr)
  | STR_uoff | STR_reg | STR_v_uoff | STR_v_reg | STUR | STLR => Emulated (insn_width insn) vaddr
  | STP_32 => Emulated 3 (u64 (base + imm7 insn * 4))
  | STP_64 => Emulated 4 (u64 (base + imm7 insn * 8))
  | STP_64_pp => CHECK_RN insn (Emulated 4 (u64 (base + if truthy (insn .& 2 ^ 24) then imm7 insn * 8 else 0)))
  | STR_q_reg | STR_q_uoff | STUR_q => Emulated 4 vaddr
  | STUR_s => Emulated 2 vaddr
  | STUR_d => Emulated 3 vaddr
  | STP_s => Emulated 3 (u64 (base + imm7 insn * 4))
  | STP_q => Emulated 5 (u64 (base + imm7 insn * 16))
  | DC_ZVA => Emulated 6 (reg c (Rt insn))
  end.

(** The write-back of a branch. *)
Definition store_base (op : store_op) (insn : Z) (c : cpu) : cpu :=
  match op with
  | STR_pp => add_base insn (imm9 insn) c
  | STP_64_pp => add_base insn (u64 (imm7 insn * 8)) c
  | _ => c
  end.

Definition emulate_store (c : cpu) (insn : Z) (val : list Z) (vaddr : Z) : (outcome * list Z) * cpu :=
  let c := set_reg 31 0 c in
  match first_match store_table insn with
  | None => ((Refused, val), c)
  | Some op =>
      match store_place op c insn vaddr with
      | Emulated width va =>
          let c := store_base op insn c in
          ((Emulated width va, put_val (store_value op insn c) val), c)
      | o => ((o, val), c)
      end
  end.

(** ** The instructions, as the architecture encodes them *)

(** The addressing modes of a single register: scaled unsigned offset, unscaled
    offset, pre- and post-index, register offset (with the bits of the option
    field around the one that is always set, and the scale bit). *)
Inductive offset := UOff (imm : Z) | Unscaled (imm : Z) | Pre (imm : Z) | Post (imm : Z) | RegOff (rm hi lo s : Z).
(** Those of a pair: no-allocate and signed offset, pre- and post-index. *)
Inductive poffset := NoAlloc (imm : Z) | Signed (imm : Z) | PPre (imm : Z) | PPost (imm : Z).

Definition imm_ok (n imm : Z) : Prop := - 2 ^ (n - 1) <= imm < 2 ^ (n - 1).
Definition offset_ok (a : offset) : Prop :=
  match a with
  | UOff imm => in_w 12 imm
  | Unscaled imm | Pre imm | Post imm => imm_ok 9 imm
  | RegOff rm hi lo s => in_w 5 rm /\ in_w 1 hi /\ in_w 1 lo /\ in_w 1 s
  end.
Definition poffset_ok (a : poffset) : Prop :=
  match a with NoAlloc imm | Signed imm | PPre imm | PPost imm => imm_ok 7 imm end.

Definition offset_bits (a : offset) : Z :=
  match a with UOff _ => 0x01000000 | Unscaled _ => 0 | Pre _ => 0xc00 | Post _ => 0x400 | RegOff _ _ _ _ => 0x00204800 end.
Definition offset_fields (a : offset) : list field :=
  match a with
  | UOff imm => [mk_field 10 12 imm]
  | Unscaled imm | Pre imm | Post imm => [mk_field 12 9 (wrap 9 imm)]
  | RegOff rm hi lo s => [mk_field 16 5 rm; mk_field 15 1 hi; mk_field 13 1 lo; mk_field 12 1 s]
  end.
Definition poffset_bits (a : poffset) : Z :=
  match a with NoAlloc _ => 0 | Signed _ => 0x01000000 | PPre _ => 0x01800000 | PPost _ => 0x00800000 end.
Definition poffset_imm (a : poffset) : Z := match a with NoAlloc imm | Signed imm | PPre imm | PPost imm => imm end.

(** Loads: LDRB/LDRH/LDR, LDRSB/LDRSH/LDRSW ([w] when the target is a W
    register), LDP of W or X registers, LDP of Q registers, LDR of B/H/S/D and of
    Q registers, LD1 into a lane of a V register, LDARB/LDARH/LDAR. *)
Inductive load :=
  | Ldr (size : Z) (a : offset) | Ldrs (size : Z) (w : bool) (a : offset)
  | Ldp (x : bool) (a : poffset) (rt2 : Z) | LdpQ (a : poffset) (rt2 : Z)
  | LdrV (size : Z) (a : offset) | LdrQ (a : offset) | Ld1D (index : Z) | Ldar (size : Z).
(** Stores, the same way, and DC ZVA. *)
Inductive store :=
  | Str (size : Z) (a : offset) | Stp (x : bool) (a : poffset) (rt2 : Z)
  | StpS (a : poffset) (rt2 : Z) | StpQ (a : poffset) (rt2 : Z)
  | StrV (size : Z) (a : offset) | StrQ (a : offset) | Stlr (size : Z).

Definition load_bits (i : load) : Z :=
  match i with
  | Ldr _ a => 0x38400000 .| offset_bits a
  | Ldrs _ w a => (if w then 0x38c00000 else 0x38800000) .| offset_bits a
  | Ldp x a _ => (if x then 0xa8400000 else 0x28400000) .| poffset_bits a
  | LdpQ a _ => 0xac400000 .| poffset_bits a
  | LdrV _ a => 0x3c400000 .| offset_bits a
  | LdrQ a => 0x3cc00000 .| offset_bits a
  | Ld1D _ => 0x0d408400
  | Ldar _ => 0x08dffc00
  end.
Definition pair_fields (a : poffset) (rt2 : Z) : list field :=
  [mk_field 10 5 rt2; mk_field 15 7 (wrap 7 (poffset_imm a))].
Definition load_fields (i : load) : list field :=
  match i with
  | Ldr size a | Ldrs size _ a | LdrV size a => mk_field 30 2 size :: offset_fields a
  | Ldp _ a rt2 | LdpQ a rt2 => pair_fields a rt2
  | LdrQ a => offset_fields a
  | Ld1D index => [mk_field 30 1 index]
  | Ldar size => [mk_field 30 2 size]
  end.
Definition store_bits (i : store) : Z :=
  match i with
  | Str _ a => 0x38000000 .| offset_bits a
  | Stp x a _ => (if x then 0xa8000000 else 0x28000000) .| poffset_bits a
  | StpS a _ => 0x2c000000 .| poffset_bits a
  | StpQ a _ => 0xac000000 .| poffset_bits a
  | StrV _ a => 0x3c000000 .| offset_bits a
  | StrQ a => 0x3c800000 .| offset_bits a
  | Stlr _ => 0x089ffc00
  end.
Definition store_fields (i : store) : list field :=
  match i with
  | Str size a | StrV size a => mk_field 30 2 size :: offset_fields a
  | Stp _ a rt2 | StpS a rt2 | StpQ a rt2 => pair_fields a rt2
  | StrQ a => offset_fields a
  | Stlr size => [mk_field 30 2 size]
  end.

(** The instruction word. *)
Definition encode (bits : Z) (fields : list field) (rt rn : Z) : Z :=
  bits .| pack (mk_field 0 5 rt :: mk_field 5 5 rn :: fields).
Definition encode_load (i : load) : Z -> Z -> Z := encode (load_bits i) (load_fields i).
Definition encode_store (i : store) : Z -> Z -> Z := encode (store_bits i) (store_fields i).

(** The encodings that [emulate_load] supports: no unscaled signed loads, no
    signed load into an X register with an offset of 2048 units or more, no
    write-back in 32-bit and 128-bit pairs; and in all of them the base of a
    write-back is neither the stack pointer nor a register that is loaded. *)
Definition writes_back (a : offset) : bool := match a with Pre _ | Post _ => true | _ => false end.
Definition pwrites_back (a : poffset) : bool := match a with PPre _ | PPost _ => true | _ => false end.
Definition load_wf (i : load) : Prop :=
  match i with
  | Ldr size a | LdrV size a => in_w 2 size /\ offset_ok a
  | Ldrs size w a => in_w 2 size /\ offset_ok a
  | Ldp _ a rt2 | LdpQ a rt2 => poffset_ok a /\ in_w 5 rt2
  | LdrQ a => offset_ok a
  | Ld1D index => in_w 1 index
  | Ldar size => in_w 2 size
  end.
Definition load_supported (i : load) (rt rn : Z) : Prop :=
  match i with
  | Ldr _ a => writes_back a = true -> rn <> 31 /\ rn <> rt
  | Ldrs size w a =>
      size + b2z w <= 2 /\ match a with Unscaled _ => False | UOff imm => w = true \/ imm < 2048 | _ => True end /\
      (writes_back a = true -> rn <> 31 /\ rn <> rt)
  | Ldp x a rt2 => pwrites_back a = true -> x = true /\ rn <> 31 /\ rn <> rt /\ rn <> rt2
  | LdpQ a _ => pwrites_back a = false
  | LdrV _ a | LdrQ a => writes_back a = true -> rn <> 31
  | Ld1D _ | Ldar _ => True
  end.

(** ** What the architecture does *)

Definition set_X (n v : Z) (c : cpu) : cpu := if n =? 31 then c else set_reg n v c.
Definition X (c : cpu) (n : Z) : Z := if n =? 31 then 0 else reg c n.
Definition write_back (a : offset) (rn : Z) (c : cpu) : cpu :=
  match a with Pre imm | Post imm => set_X rn (u64 (reg c rn + imm)) c | _ => c end.
Definition pwrite_back (a : poffset) (scale rn : Z) (c : cpu) : cpu :=
  match a with PPre imm | PPost imm => set_X rn (u64 (reg c rn + imm * scale)) c | _ => c end.

(** [n] bits of [v] as a signed number. *)
Definition signed (n v : Z) : Z := if v <? 2 ^ (n - 1) then v else v - 2 ^ n.
Definition quad (m : list Z) : simd_reg := (le_val (take 8 m), le_val (drop 8 m)).

(** The number of bytes, as a power of two. *)
Definition load_size (i : load) : Z :=
  match i with
  | Ldr size _ | Ldrs size _ _ | LdrV size _ | Ldar size => size
  | Ldp x _ _ => if x then 4 else 3
  | LdpQ _ _ => 5 | LdrQ _ => 4 | Ld1D _ => 3
  end.

(** The registers after the load of the bytes [m]. *)
Definition arch_load (i : load) (rt rn : Z) (m : list Z) (c : cpu) : cpu :=
  match i with
  | Ldr _ a => set_X rt (le_val m) (write_back a rn c)
  | Ldrs size w a => set_X rt (wrap (if w then 32 else 64) (signed (8 * 2 ^ size) (le_val m))) (write_back a rn c)
  | Ldp x a rt2 =>
      let n := if x then 8%nat else 4%nat in
      set_X rt2 (le_val (drop n m)) (set_X rt (le_val (take n m)) (pwrite_back a (if x then 8 else 4) rn c))
  | LdpQ a rt2 => set_vreg rt2 (quad (drop 16 m)) (set_vreg rt (quad (take 16 m)) (pwrite_back a 16 rn c))
  | LdrV _ a => set_vreg rt (le_val m, 0) (write_back a rn c)
  | LdrQ a => set_vreg rt (quad m) (write_back a rn c)
  | Ld1D index => let v := vreg c rt in set_vreg rt (if index =? 0 then (le_val m, v.2) else (v.1, le_val m)) c
  | Ldar _ => set_X rt (le_val m) c
  end.

(** *** Effective addresses *)

(** The base register: 31 is the stack pointer [sp], which is not among the
    registers of [cpu]. *)
Definition Xsp (c : cpu) (sp rn : Z) : Z := if rn =? 31 then sp else reg c rn.
(** UXTW, LSL, SXTW and SXTX, by the high and the low bit of the option field. *)
Definition extend (hi lo v : Z) : Z :=
  if lo =? 1 then v else if hi =? 1 then signed 32 (u32 v) else u32 v.
Definition offset_addr (a : offset) (size base : Z) (c : cpu) : Z :=
  match a with
  | UOff imm => u64 (base + imm * 2 ^ size)
  | Unscaled imm | Pre imm => u64 (base + imm)
  | Post _ => base
  | RegOff rm hi lo s => u64 (base + extend hi lo (X c rm) * if s =? 1 then 2 ^ size else 1)
  end.
Definition pair_addr (a : poffset) (scale base : Z) : Z :=
  u64 (base + match a with PPost _ => 0 | NoAlloc imm | Signed imm | PPre imm => imm * scale end).

(** The address of a load with base register [rn]. *)
Definition load_ea (i : load) (rn sp : Z) (c : cpu) : Z :=
  let base := Xsp c sp rn in
  match i with
  | Ldr size a | Ldrs size _ a | LdrV size a => offset_addr a size base c
  | LdrQ a => offset_addr a 4 base c
  | Ldp x a _ => pair_addr a (if x then 8 else 4) base
  | LdpQ a _ => pair_addr a 16 base
  | Ld1D _ | Ldar _ => base
  end.

(** The code computes the address of pairs and of vector loads with an immediate
    offset, from the slot of the base register; for the others it takes the
    faulting address. *)
Definition load_computed (i : load) : bool :=
  match i with
  | Ldp _ _ _ | LdpQ _ _ | LdrV _ (UOff _ | Unscaled _) | LdrQ (UOff _ | Unscaled _) => true
  | _ => false
  end.
Definition load_taken (i : load) (base far : Z) : Z :=
  match i with
  | Ldp x a _ => pair_addr a (if x then 8 else 4) base
  | LdpQ a _ => pair_addr a 16 base
  | LdrV size (UOff imm) => u64 (base + imm * 2 ^ size)
  | LdrQ (UOff imm) => u64 (base + imm * 2 ^ 4)
  | LdrV _ (Unscaled imm) | LdrQ (Unscaled imm) => u64 (base + imm)
  | _ => far
  end.
(** When that is the address of the instruction: a computed one with a base other
    than the stack pointer; any other one when the fault is at the first byte. *)
Definition load_addressed (i : load) (rn sp : Z) (c : cpu) (far : Z) : Prop :=
  if load_computed i then rn <> 31 else far = load_ea i rn sp c.

(** Stores: the encodings that [emulate_store] supports, the bytes stored and the
    registers after it. *)
Definition store_wf (i : store) : Prop :=
  match i with
  | Str size a | StrV size a => in_w 2 size /\ offset_ok a
  | Stp _ a rt2 | StpS a rt2 | StpQ a rt2 => poffset_ok a /\ in_w 5 rt2
  | StrQ a => offset_ok a
  | Stlr size => in_w 2 size
  end.
Definition store_supported (i : store) (rt rn : Z) : Prop :=
  match i with
  | Str _ a => writes_back a = true -> rn <> 31 /\ rn <> rt
  | Stp x a rt2 => pwrites_back a = true -> x = true /\ rn <> 31 /\ rn <> rt /\ rn <> rt2
  | StpS a _ | StpQ a _ => match a with Signed _ => True | _ => False end
  | StrV size a => match a with Unscaled _ => 2 <= size | Pre _ | Post _ => False | _ => True end
  | StrQ a => writes_back a = false
  | Stlr _ => True
  end.
Definition store_size (i : store) : Z :=
  match i with
  | Str size _ | StrV size _ | Stlr size => size
  | Stp x _ _ => if x then 4 else 3
  | StpS _ _ => 3 | StpQ _ _ => 5 | StrQ _ => 4
  end.
Definition quad_bytes (v : simd_reg) : list Z := le_bytes 8 v.1 ++ le_bytes 8 v.2.
Definition arch_store (i : store) (rt : Z) (c : cpu) : list Z :=
  match i with
  | Str size _ | Stlr size => le_bytes (Z.to_nat (2 ^ size)) (X c rt)
  | Stp x _ rt2 => let n := if x then 8%nat else 4%nat in le_bytes n (X c rt) ++ le_bytes n (X c rt2)
  | StpS _ rt2 => le_bytes 4 (vreg c rt).1 ++ le_bytes 4 (vreg c rt2).1
  | StpQ _ rt2 => quad_bytes (vreg c rt) ++ quad_bytes (vreg c rt2)
  | StrV size _ => le_bytes (Z.to_nat (2 ^ size)) (vreg c rt).1
  | StrQ _ => quad_bytes (vreg c rt)
  end.
Definition arch_store_base (i : store) (rn : Z) (c : cpu) : cpu :=
  match i with
  | Str _ a => write_back a rn c
  | Stp x a _ => pwrite_back a (if x then 8 else 4) rn c
  | _ => c
  end.
Definition store_ea (i : store) (rn sp : Z) (c : cpu) : Z :=
  let base := Xsp c sp rn in
  match i with
  | Str size a | StrV size a => offset_addr a size base c
  | StrQ a => offset_addr a 4 base c
  | Stp x a _ => pair_addr a (if x then 8 else 4) base
  | StpS a _ => pair_addr a 4 base
  | StpQ a _ => pair_addr a 16 base
  | Stlr _ => base
  end.
(** The code computes the address of pairs, with slot 31 as zero. *)
Definition store_computed (i : store) : bool :=
  match i with Stp _ _ _ | StpS _ _ | StpQ _ _ => true | _ => false end.
Definition store_taken (i : store) (base far : Z) : Z :=
  match i with
  | Stp x a _ => pair_addr a (if x then 8 else 4) base
  | StpS a _ => pair_addr a 4 base
  | StpQ a _ => pair_addr a 16 base
  | _ => far
  end.
Definition store_addressed (i : store) (rn sp : Z) (c : cpu) (far : Z) : Prop :=
  if store_computed i then rn <> 31 else far = store_ea i rn sp c.

(** The buffer as words: the 64 bytes behind [u64 *val]. *)
Definition words (b : list Z) : list Z := map (fun k => le_val (slice (8 * k) 8 b)) (seq 0 8).
Definition unwords (ws : list Z) : list Z := concat (map (le_bytes 8) ws).
Definition padded (m : list Z) : list Z := m ++ zeros (64 - zlen m).

(** The registers a program can see: the general ones but slot 31, and the
    vector registers. *)
Definition agree (c c' : cpu) : Prop := (forall n, 0 <= n < 31 -> reg c n = reg c' n) /\ vregs c = vregs c'.

(** ** Decoding *)

Definition load_op_of (i : load) : load_op :=
  match i with
  | Ldr _ (UOff _) => LDR_uoff | Ldr _ (Unscaled _) => LDUR | Ldr _ (RegOff _ _ _ _) => LDR_reg | Ldr _ _ => LDR_pp
  | Ldrs _ _ (UOff imm) => if imm <? 2048 then LDRS_uoff else LDRSB_w | Ldrs _ _ (RegOff _ _ _ _) => LDRS_reg | Ldrs _ _ _ => LDRS_pp
  | Ldp true (PPre _ | PPost _) _ => LDP_64_pp | Ldp true _ _ => LDP_64 | Ldp false _ _ => LDP_32
  | LdpQ _ _ => LDP_128
  | LdrV _ (UOff _) => LDR_v_uoff | LdrV _ (Unscaled _) => LDUR_v | LdrV _ (RegOff _ _ _ _) => LDR_v_reg | LdrV _ _ => LDR_v_pp
  | LdrQ (UOff _) => LDR_q_uoff | LdrQ (Unscaled _) => LDUR_q | LdrQ (RegOff _ _ _ _) => LDR_q_reg | LdrQ _ => LDR_q_pp
  | Ld1D _ => LD1_d | Ldar _ => LDAR
  end.

Ltac fields_ok :=
  repeat apply Forall_cons_2; try apply Forall_nil_2; unfold field_ok; cbn; split_and!; first [lia | done | apply wrap_range; lia].

Lemma offset_fields_ok a : offset_ok a -> Forall field_ok (offset_fields a).
Proof. destruct a; cbn; intros H; destruct_and?; fields_ok. Qed.

Lemma pair_fields_ok a rt2 : in_w 5 rt2 -> Forall field_ok (pair_fields a rt2).
Proof. intros H. fields_ok. Qed.

Lemma sized_fields_ok size fs : in_w 2 size -> Forall field_ok fs -> Forall field_ok (mk_field 30 2 size :: fs).
Proof. intros ? H. apply Forall_cons_2; [|apply H]. by split_and!. Qed.

Lemma load_fields_ok i : load_wf i -> Forall field_ok (load_fields i).
Proof.
  destruct i; cbn; intros; destruct_and?;
    auto using offset_fields_ok, pair_fields_ok, sized_fields_ok, Forall_nil_2; fields_ok.
Qed.

Lemma reg_fields_ok rt rn fs : in_w 5 rt -> in_w 5 rn -> Forall field_ok fs ->
  Forall field_ok (mk_field 0 5 rt :: mk_field 5 5 rn :: fs).
Proof. intros ?? H. do 2 (apply Forall_cons_2; [by split_and!|]). apply H. Qed.

(** The mask of the signed loads looks at bit 21, the top bit of their offset. *)
Lemma ldrs_split size w imm rt rn : in_w 12 imm ->
  encode_load (Ldrs size w (UOff imm)) rt rn =
  (load_bits (Ldrs size w (UOff imm)) .| (imm .>> 11 .<< 21)) .|
  pack [mk_field 0 5 rt; mk_field 5 5 rn; mk_field 30 2 size; mk_field 10 11 (wrap 11 imm)].
Proof.
  intros Hi. unfold encode_load, encode. cbn [load_fields offset_fields pack f_val f_lo].
  assert (E : imm .<< 10 = (wrap 11 imm .<< 10) .| (imm .>> 11 .<< 21)).
  { apply Z.bits_inj'. intros i Hn. rewrite Z.lor_spec, !Z.shiftl_spec by lia.
    destruct (Z.le_gt_cases 21 i); [|destruct (Z.le_gt_cases 10 i)].
    - rewrite Z.shiftr_spec, testbit_wrap by lia. replace (i - 10 <? 11) with false by lia. cbn. f_equal. lia.
    - rewrite (Z.testbit_neg_r _ (i - 21)), testbit_wrap, orb_false_r by lia. by replace (i - 10 <? 11) with true by lia.
    - by rewrite !Z.testbit_neg_r by lia. }
  rewrite E, !Z.lor_0_r. apply Z.bits_inj'. intros i Hn. rewrite !Z.lor_spec.
  repeat match goal with |- context [Z.testbit ?x i] => destruct (Z.testbit x i) end; done.
Qed.

Section encoded.
Context (rt rn : Z) (Hrt : in_w 5 rt) (Hrn : in_w 5 rn).

Lemma ldrs_decoded size w imm : in_w 2 size -> in_w 12 imm -> w = true \/ imm < 2048 ->
  first_match load_table (encode_load (Ldrs size w (UOff imm)) rt rn) = Some (load_op_of (Ldrs size w (UOff imm))).
Proof using Hrt Hrn.
  intros Hs Hi Hw. rewrite ldrs_split by done. cbn [load_op_of].
  assert (Hf : Forall field_ok [mk_field 0 5 rt; mk_field 5 5 rn; mk_field 30 2 size; mk_field 10 11 (wrap 11 imm)]) by fields_ok.
  assert (Hb : imm .>> 11 = if imm <? 2048 then 0 else 1).
  { rewrite Z.shiftr_div_pow2 by lia. unfold in_w in Hi. destruct (Z.ltb_spec imm 2048); dlia. }
  apply find_sym_sound; [done|]. rewrite Hb. destruct (Z.ltb_spec imm 2048), w; try reflexivity. destruct Hw; [done | lia].
Qed.

Lemma load_decoded i : load_wf i -> load_supported i rt rn ->
  first_match load_table (encode_load i rt rn) = Some (load_op_of i).
Proof using Hrt Hrn.
  intros Hwf Hs. destruct (match i with Ldrs _ _ (UOff _) => true | _ => false end) eqn:Hi.
  { destruct i as [|size w []| | | | | |]; try done. cbn in Hwf, Hs. apply ldrs_decoded; tauto. }
  apply find_sym_sound; [by apply reg_fields_ok, load_fields_ok|].
  destruct i as [? a|? w a|x a ?|a ?|? a|a|?|?]; cbn in Hs; try destruct w; try destruct x; try destruct a; try reflexivity; cbn in Hs; try done.
  all: first [by destruct Hs as (_ & [] & _) | by destruct Hs].
Qed.
End encoded.

(** ** Reading the fields back *)

Lemma pack_in_w w fs : Forall field_ok fs -> Forall (fun f => f_lo f + f_len f <= w) fs -> 0 <= w -> in_w w (pack fs).
Proof.
  intros Hf Hb Hw. induction Hf as [|f fs (Hlo & Hlen & Hv) Hf IH]; cbn; [by apply in_w_0|].
  apply Forall_cons_1 in Hb as [Hb1 Hb2]. apply in_w_lor; [done | | auto]. apply (in_w_shiftl (f_len f)); [done | lia | done].
Qed.

Lemma encode_word bits fs rt rn : in_w 5 rt -> in_w 5 rn -> Forall field_ok fs -> Forall (fun f => f_lo f + f_len f <= 32) fs ->
  in_w 32 bits -> in_w 32 (encode bits fs rt rn).
Proof.
  intros Ht Hn Hf Hb Hbits. apply in_w_lor; [done | done |]. apply pack_in_w; [by apply reg_fields_ok | | done].
  do 2 (apply Forall_cons_2; [done|]). apply Hb.
Qed.

Lemma offset_within a : Forall (fun f => f_lo f + f_len f <= 32) (offset_fields a).
Proof. destruct a; repeat (apply Forall_cons_2; [done|]); apply Forall_nil_2. Qed.

Lemma load_word i rt rn : in_w 5 rt -> in_w 5 rn -> load_wf i -> in_w 32 (encode_load i rt rn).
Proof.
  intros Ht Hn Hwf. apply encode_word; [done | done | by apply load_fields_ok | |].
  - destruct i; cbn; repeat (apply Forall_cons_2; [done|]); auto using offset_within, Forall_nil_2.
  - destruct i as [? a|? w a|x a ?|a ?|? a|a|?|?]; cbn; try destruct w; try destruct x; try destruct a; done.
Qed.

Lemma top_bits insn : in_w 32 insn -> (insn .>> 30) .& 3 = insn_width insn.
Proof. intros H. unfold insn_width. change 3 with (2 ^ 2 - 1). rewrite land_ones_mod, Z.shiftr_div_pow2 by lia. unfold in_w in H. dlia. Qed.

(** Field [k] of an encoding; the disjointness of the fields is a computation. *)
Lemma encode_get bits fs rt rn k f : in_w 5 rt -> in_w 5 rn -> Forall field_ok fs ->
  (mk_field 0 5 rt :: mk_field 5 5 rn :: fs) !! k = Some f ->
  (bits .| cover (delete k (mk_field 0 5 rt :: mk_field 5 5 rn :: fs))) .& span (f_lo f) (f_len f) = 0 ->
  (encode bits fs rt rn .>> f_lo f) .& (2 ^ f_len f - 1) = f_val f.
Proof. intros Ht Hn Hf Hk Hd. apply pack_get with k; [by apply reg_fields_ok | done | done]. Qed.

Ltac each_form i := destruct i as [? []|? [] []|[] [] ?|[] ?|? []|[]|?|?].

Lemma load_regs i rt rn : in_w 5 rt -> in_w 5 rn -> load_wf i ->
  Rt (encode_load i rt rn) = rt /\ Rn (encode_load i rt rn) = rn.
Proof.
  intros Ht Hn Hwf. pose proof (load_fields_ok i Hwf) as Hf. split.
  - unfold Rt. rewrite <- (Z.shiftr_0_r (encode_load i rt rn)). apply (encode_get _ _ _ _ 0%nat (mk_field 0 5 rt)); try done.
    clear Hwf Hf. by each_form i.
  - apply (encode_get _ _ _ _ 1%nat (mk_field 5 5 rn)); try done. clear Hwf Hf. by each_form i.
Qed.

(** ** Values *)

Lemma EXT_signed b v : 1 <= b <= 32 -> in_w b v -> EXT v b = signed b v.
Proof.
  intros Hb Hv. unfold EXT, signed. set (k := 32 - b).
  assert (Hp : 2 ^ 32 = 2 ^ b * 2 ^ k) by (rewrite <- Z.pow_add_r by lia; f_equal; lia).
  assert (Hq : 2 ^ 31 = 2 ^ (b - 1) * 2 ^ k) by (rewrite <- Z.pow_add_r by lia; f_equal; lia).
  assert (Hk : 0 < 2 ^ k) by (apply Z.pow_pos_nonneg; lia).
  assert (Hs : in_w 32 (v .<< k)) by (apply (in_w_shiftl b); [lia | lia | done]).
  rewrite (wrap_small 32 v), (wrap_small 32 (v .<< k)) by (done || (apply (in_w_mono b); [lia | done])).
  unfold s32. rewrite Hq, Hp, Z.shiftl_mul_pow2, Z.shiftr_div_pow2 by lia.
  replace (v * 2 ^ k <? 2 ^ (b - 1) * 2 ^ k) with (v <? 2 ^ (b - 1)).
  2: { destruct (Z.ltb_spec v (2 ^ (b - 1))), (Z.ltb_spec (v * 2 ^ k) (2 ^ (b - 1) * 2 ^ k)); nia. }
  destruct (v <? 2 ^ (b - 1)); [by rewrite Z.div_mul by lia|].
  replace (v * 2 ^ k - 2 ^ b * 2 ^ k) with ((v - 2 ^ b) * 2 ^ k) by lia. by rewrite Z.div_mul by lia.
Qed.

Lemma signed_wrap n imm : 1 <= n -> imm_ok n imm -> signed n (wrap n imm) = imm.
Proof.
  intros Hn [Hl Hh]. unfold signed, wrap.
  assert (Hp : 2 ^ n = 2 * 2 ^ (n - 1)) by (replace n with (1 + (n - 1)) at 1 by lia; rewrite Z.pow_add_r by lia; done).
  destruct (Z.lt_ge_cases imm 0).
  - replace (imm mod 2 ^ n) with (imm + 2 ^ n) by (rewrite <- (Z_mod_plus_full imm 1), Z.mod_small by lia; lia).
    destruct (Z.ltb_spec (imm + 2 ^ n) (2 ^ (n - 1))); lia.
  - rewrite Z.mod_small by lia. destruct (Z.ltb_spec imm (2 ^ (n - 1))); lia.
Qed.

Lemma EXT_imm n imm : 1 <= n <= 32 -> imm_ok n imm -> EXT (wrap n imm) n = imm.
Proof. intros Hn Hi. rewrite EXT_signed by (done || (apply wrap_range; lia)). apply signed_wrap; [lia | done]. Qed.

Lemma wrap_add_r w a b : wrap w (a + wrap w b) = wrap w (a + b).
Proof. unfold wrap. by rewrite Zplus_mod_idemp_r. Qed.
Lemma wrap_add_mul w a b k : wrap w (a + wrap w b * k) = wrap w (a + b * k).
Proof. unfold wrap. rewrite <- Zplus_mod_idemp_r, Zmult_mod_idemp_l. apply Zplus_mod_idemp_r. Qed.

(** *** The buffer *)

Lemma le_val_app a b : bytes_ok a -> bytes_ok b -> le_val (a ++ b) = le_val a + 2 ^ (8 * zlen a) * le_val b.
Proof.
  intros Ha Hb. induction Ha as [|x a Hx Ha IH]; [change (le_val b = 0 + 1 * le_val b); lia|].
  cbn [app le_val]. rewrite IH, (lor_shiftl_add 8 x (_ + _)), (lor_shiftl_add 8 x (le_val a)) by (lia || exact Hx).
  rewrite zlen_cons. replace (8 * (1 + zlen a)) with (8 + 8 * zlen a) by lia.
  rewrite Z.pow_add_r by (try pose proof (zlen_nonneg a); lia). lia.
Qed.

Lemma le_val_zeros n : le_val (zeros n) = 0.
Proof. unfold zeros. induction (Z.to_nat n) as [|k IH]; cbn; [done|]. by rewrite IH. Qed.

Lemma le_val_padded m n : bytes_ok m -> le_val (m ++ zeros n) = le_val m.
Proof. intros Hm. rewrite le_val_app, le_val_zeros by auto using bytes_ok_zeros. lia. Qed.

Lemma word_slice b k : (k < 8)%nat -> val_at (words b) k = le_val (slice (8 * k) 8 b).
Proof.
  intros Hk. unfold val_at, words. rewrite (nth_indep _ _ (le_val (slice (8 * 0) 8 b))) by by rewrite length_map, length_seq.
  rewrite (map_nth (fun k => le_val (slice (8 * k) 8 b))). by rewrite seq_nth by done.
Qed.

(** Word [k] of the buffer that holds the bytes [m]: it is the part of [m] there,
    the last one padded with zeros. *)
Lemma padded_word m k : bytes_ok m -> (k < 8)%nat -> zlen m <= 64 ->
  val_at (words (padded m)) k = le_val (take 8 (drop (8 * k) m)).
Proof.
  intros Hm Hk Hlen. rewrite word_slice by done. unfold slice, padded, zlen in *.
  destruct (le_lt_dec (8 * k) (length m)) as [L|L].
  - rewrite drop_app_le by done. destruct (le_lt_dec 8 (length (drop (8 * k) m))) as [G|G].
    + by rewrite take_app_le by done.
    + rewrite take_app_ge by lia. rewrite (take_ge (drop _ m)) by lia. unfold zeros. rewrite take_replicate.
      replace (Nat.min _ _) with (Z.to_nat (8 - Z.of_nat (length (drop (8 * k) m)))) by (rewrite length_drop in *; lia).
      apply le_val_padded. by apply Forall_drop.
  - rewrite drop_app_ge by lia. rewrite (drop_ge m) by lia. unfold zeros. rewrite drop_replicate, take_replicate, take_nil.
    cbn. etrans; [|apply (le_val_zeros (Z.of_nat (Nat.min 8 (Z.to_nat (64 - Z.of_nat (length m)) - (8 * k - length m)))))].
    unfold zeros. by rewrite Nat2Z.id.
Qed.

Lemma le_val_in_w w m : bytes_ok m -> 8 * zlen m <= w -> in_w w (le_val m).
Proof. intros Hm Hw. apply (in_w_mono (8 * zlen m)); [done | by apply le_val_range]. Qed.

(** ** Registers *)

Definition cpu_ok (c : cpu) : Prop := length (regs c) = 32%nat.

Lemma reg_set n k v c : cpu_ok c -> 0 <= n < 32 -> 0 <= k < 32 -> reg (set_reg n v c) k = if k =? n then v else reg c k.
Proof.
  intros Hc Hn Hk. unfold reg, set_reg, cpu_ok in *. cbn. destruct (Z.eqb_spec k n) as [->|Hne].
  - apply nth_lookup_Some. apply list_lookup_insert_eq. lia.
  - rewrite !nth_lookup. by rewrite list_lookup_insert_ne by (intros E; apply Z2Nat.inj in E; lia).
Qed.

Lemma cpu_ok_set n v c : cpu_ok c -> cpu_ok (set_reg n v c).
Proof. unfold cpu_ok, set_reg. cbn. by rewrite length_insert. Qed.
Lemma cpu_ok_set_v n v c : cpu_ok c -> cpu_ok (set_vreg n v c).
Proof. done. Qed.
#[local] Hint Resolve cpu_ok_set cpu_ok_set_v : core.

Lemma cpu_ok_X n v c : cpu_ok c -> cpu_ok (set_X n v c).
Proof. unfold set_X. destruct (n =? 31); auto. Qed.
#[local] Hint Resolve cpu_ok_X : core.

#[export] Instance agree_equiv : Equivalence agree.
Proof.
  split; [by split | intros c d [Hr Hv]; split; [intros; symmetry; auto | done] |].
  intros c d e [Hr Hv] [Hs Hw]. split; [intros; etrans; auto | congruence].
Qed.

(** Slot 31 takes what the architecture throws away. *)
Lemma agree_set n v c d : cpu_ok c -> cpu_ok d -> 0 <= n < 32 -> agree c d -> agree (set_reg n v c) (set_X n v d).
Proof.
  intros Hc Hd Hn [Hr Hv]. unfold set_X. destruct (Z.eqb_spec n 31) as [->|Hne]; split.
  - intros k Hk. rewrite reg_set by (done || lia). destruct (Z.eqb_spec k 31); [lia | auto].
  - done.
  - intros k Hk. rewrite !reg_set by (done || lia). destruct (k =? n); auto.
  - done.
Qed.

Lemma agree_set_v n v c d : agree c d -> agree (set_vreg n v c) (set_vreg n v d).
Proof. intros [Hr Hv]. split; [auto | unfold set_vreg; cbn; by rewrite Hv]. Qed.

Lemma reg_X n v c : cpu_ok c -> 0 <= n < 32 -> reg (set_reg n v c) n = v.
Proof. intros. rewrite reg_set by done. by rewrite Z.eqb_refl. Qed.

Lemma set_set n v w c : set_reg n v (set_reg n w c) = set_reg n v c.
Proof. unfold set_reg. cbn. by rewrite list_insert_insert_eq. Qed.

(** ** Immediates *)

Section fields.
Context (bits : Z) (fs : list field) (rt rn : Z) (Hrt : in_w 5 rt) (Hrn : in_w 5 rn) (Hfs : Forall field_ok fs).
Let all := mk_field 0 5 rt :: mk_field 5 5 rn :: fs.
Let apart k f := (bits .| cover (delete k all)) .& span (f_lo f) (f_len f) = 0.

Lemma get_imm9 k imm : all !! k = Some (mk_field 12 9 (wrap 9 imm)) -> imm_ok 9 imm -> apart k (mk_field 12 9 0) ->
  imm9 (encode bits fs rt rn) = u64 imm.
Proof using Hrt Hrn Hfs.
  intros Hk Hi Hd. unfold imm9. change 0x1ff with (2 ^ 9 - 1).
  pose proof (encode_get bits fs rt rn k _ Hrt Hrn Hfs Hk Hd) as E. cbn [f_lo f_len f_val] in E. by rewrite E, EXT_imm.
Qed.

Lemma get_imm7 k imm : all !! k = Some (mk_field 15 7 (wrap 7 imm)) -> imm_ok 7 imm -> apart k (mk_field 15 7 0) ->
  imm7 (encode bits fs rt rn) = u64 imm.
Proof using Hrt Hrn Hfs.
  intros Hk Hi Hd. unfold imm7. change 0x7f with (2 ^ 7 - 1).
  pose proof (encode_get bits fs rt rn k _ Hrt Hrn Hfs Hk Hd) as E. cbn [f_lo f_len f_val] in E. by rewrite E, EXT_imm.
Qed.

Lemma get_imm12 k imm : all !! k = Some (mk_field 10 12 imm) -> apart k (mk_field 10 12 0) -> uimm12 (encode bits fs rt rn) = imm.
Proof using Hrt Hrn Hfs. intros Hk Hd. exact (encode_get bits fs rt rn k _ Hrt Hrn Hfs Hk Hd). Qed.

Lemma get_rt2 k n : all !! k = Some (mk_field 10 5 n) -> apart k (mk_field 10 5 0) -> Rt2 (encode bits fs rt rn) = n.
Proof using Hrt Hrn Hfs. intros Hk Hd. exact (encode_get bits fs rt rn k _ Hrt Hrn Hfs Hk Hd). Qed.

Lemma get_width k size : all !! k = Some (mk_field 30 2 size) -> apart k (mk_field 30 2 0) ->
  in_w 32 (encode bits fs rt rn) -> insn_width (encode bits fs rt rn) = size.
Proof using Hrt Hrn Hfs. intros Hk Hd Hw. rewrite <- top_bits by done. exact (encode_get bits fs rt rn k _ Hrt Hrn Hfs Hk Hd). Qed.

(** A constant bit. *)
Lemma get_bit mask b : match_sym (cover all) bits mask 0 = Some (negb b) -> truthy (encode bits fs rt rn .& mask) = b.
Proof using Hrt Hrn Hfs.
  intros H. apply match_sym_sound in H; [|by apply reg_fields_ok]. unfold truthy.
  change (bits .| pack all) with (encode bits fs rt rn) in H.
  rewrite H. by destruct b.
Qed.
End fields.

(** ** Loads *)

Section loads.
Context (rt rn : Z) (Hrt : in_w 5 rt) (Hrn : in_w 5 rn).

Definition load_off (i : load) : option offset :=
  match i with Ldr _ a | Ldrs _ _ a | LdrV _ a | LdrQ a => Some a | _ => None end.
Definition load_pair_of (i : load) : option (poffset * Z) :=
  match i with Ldp _ a rt2 | LdpQ a rt2 => Some (a, rt2) | _ => None end.
Definition offset_imm9 (a : offset) : option Z := match a with Unscaled imm | Pre imm | Post imm => Some imm | _ => None end.

Lemma load_imm9 i a imm : load_wf i -> load_off i = Some a -> offset_imm9 a = Some imm -> imm9 (encode_load i rt rn) = u64 imm.
Proof using Hrt Hrn.
  intros Hwf Ha Hi. pose proof (load_fields_ok i Hwf) as Hf.
  assert (Hok : imm_ok 9 imm) by (destruct i; cbn in Ha; simplify_eq; cbn in Hwf; destruct_and?; destruct a; naive_solver).
  destruct i; cbn in Ha; simplify_eq; destruct a; cbn in Hi; simplify_eq;
    first [by apply (get_imm9 _ _ _ _ Hrt Hrn Hf 3) | by apply (get_imm9 _ _ _ _ Hrt Hrn Hf 2)
          | destruct w; by apply (get_imm9 _ _ _ _ Hrt Hrn Hf 3)].
Qed.

Lemma load_imm7 i a rt2 : load_wf i -> load_pair_of i = Some (a, rt2) ->
  imm7 (encode_load i rt rn) = u64 (poffset_imm a) /\ Rt2 (encode_load i rt rn) = rt2.
Proof using Hrt Hrn.
  intros Hwf Ha. pose proof (load_fields_ok i Hwf) as Hf.
  assert (Hok : imm_ok 7 (poffset_imm a)) by (destruct i; cbn in Ha; simplify_eq; cbn in Hwf; destruct_and?; by destruct a).
  split.
  - destruct i; cbn in Ha; simplify_eq; destruct a; try destruct x; by apply (get_imm7 _ _ _ _ Hrt Hrn Hf 3).
  - destruct i; cbn in Ha; simplify_eq; destruct a; try destruct x; by apply (get_rt2 _ _ _ _ Hrt Hrn Hf 2).
Qed.

Lemma load_insn_width i : load_wf i -> match i with Ldr _ _ | Ldrs _ _ _ | LdrV _ _ | Ldar _ => True | _ => False end ->
  insn_width (encode_load i rt rn) = load_size i.
Proof using Hrt Hrn.
  intros Hwf Hi. pose proof (load_fields_ok i Hwf) as Hf. pose proof (load_word i rt rn Hrt Hrn Hwf) as Hw.
  apply (get_width _ _ _ _ Hrt Hrn Hf 2); [by destruct i | clear Hwf Hf Hw; by each_form i | done].
Qed.

Lemma load_imm12 i imm : load_wf i -> match i with LdrV _ (UOff k) | LdrQ (UOff k) => k = imm | _ => False end ->
  uimm12 (encode_load i rt rn) = imm.
Proof using Hrt Hrn.
  intros Hwf Hi. pose proof (load_fields_ok i Hwf) as Hf.
  destruct i as [| | | |size []|[]| |]; try done; subst; [by apply (get_imm12 _ _ _ _ Hrt Hrn Hf 3) | by apply (get_imm12 _ _ _ _ Hrt Hrn Hf 2)].
Qed.

Lemma check_rn i o : load_wf i -> rn <> 31 -> CHECK_RN (encode_load i rt rn) o = o.
Proof using Hrt Hrn.
  intros Hwf Hn. unfold CHECK_RN. rewrite (proj2 (load_regs i rt rn Hrt Hrn Hwf)). by rewrite (proj2 (Z.eqb_neq rn 31) Hn).
Qed.

(** Bit 24 tells pre-index from post-index. *)
Lemma load_bit24 a rt2 : load_wf (Ldp true a rt2) -> pwrites_back a = true ->
  truthy (encode_load (Ldp true a rt2) rt rn .& 2 ^ 24) = match a with PPre _ => true | _ => false end.
Proof using Hrt Hrn.
  intros Hwf Ha. pose proof (load_fields_ok _ Hwf) as Hf. destruct a; try done; by apply (get_bit _ _ _ _ Hrt Hrn Hf).
Qed.

Lemma scaled a imm size : 0 <= size -> u64 (a + (imm .<< size)) = u64 (a + imm * 2 ^ size).
Proof. intros. by rewrite Z.shiftl_mul_pow2. Qed.

Lemma load_decode_spec i c va : load_wf i -> load_supported i rt rn ->
  load_decode (load_op_of i) c (encode_load i rt rn) va = Emulated (load_size i) (load_taken i (reg c rn) va).
Proof using Hrt Hrn.
  intros Hwf Hs. destruct (load_regs i rt rn Hrt Hrn Hwf) as [_ En].
  pose proof (load_insn_width i Hwf) as Ew. pose proof (fun a imm => load_imm9 i a imm Hwf) as E9.
  pose proof (fun a rt2 => load_imm7 i a rt2 Hwf) as E7. pose proof (fun imm => load_imm12 i imm Hwf) as E12.
  destruct i as [size a|size w a|x a rt2|a rt2|size a|a|index|size]; cbn [load_op_of load_size load_taken] in *.
  - destruct a; cbn [load_decode]; rewrite ?check_rn by (done || by apply Hs); by rewrite Ew.
  - destruct Hs as (_ & Hu & Hb). destruct a; try (by destruct Hu); try destruct (imm <? 2048); cbn [load_decode]; rewrite ?check_rn by (done || by apply Hb); by rewrite Ew.
  - destruct (E7 a rt2 eq_refl) as [E _]. destruct x, a; try (by destruct (Hs eq_refl)); cbn [load_decode];
      rewrite ?load_bit24, ?E, En by done;
      unfold pair_addr; cbn [poffset_imm]; try done; by rewrite wrap_add_mul.
  - destruct (E7 a rt2 eq_refl) as [E _]. destruct a; try done; cbn [load_decode]; rewrite E, En; unfold pair_addr;
      cbn [poffset_imm]; by rewrite wrap_add_mul.
  - destruct a; cbn [load_decode]; rewrite ?check_rn by (done || by apply Hs); rewrite ?Ew, ?En by done; try done.
    + rewrite (E12 imm eq_refl), scaled; [done | apply Hwf].
    + by rewrite (E9 _ imm eq_refl eq_refl), wrap_add_r.
  - destruct a; cbn [load_decode]; rewrite ?check_rn by (done || by apply Hs); rewrite ?En by done; try done.
    + by rewrite (E12 imm eq_refl), scaled.
    + by rewrite (E9 _ imm eq_refl eq_refl), wrap_add_r.
  - done.
  - cbn [load_decode]. by rewrite Ew.
Qed.
Lemma load_bit22 size w a : load_wf (Ldrs size w a) -> truthy (encode_load (Ldrs size w a) rt rn .& (1 .<< 22)) = w.
Proof using Hrt Hrn.
  intros Hwf. pose proof (load_fields_ok _ Hwf) as Hf. destruct w, a; by apply (get_bit _ _ _ _ Hrt Hrn Hf).
Qed.

Lemma load_bit30 index : load_wf (Ld1D index) -> (encode_load (Ld1D index) rt rn .>> 30) .& 1 = index.
Proof using Hrt Hrn.
  intros Hwf. pose proof (load_fields_ok _ Hwf) as Hf. exact (encode_get (load_bits (Ld1D index)) _ _ _ 2 _ Hrt Hrn Hf eq_refl eq_refl).
Qed.

Lemma write_back_eq i a c : load_wf i -> load_off i = Some a -> writes_back a = true -> rn <> 31 ->
  add_base (encode_load i rt rn) (imm9 (encode_load i rt rn)) c = write_back a rn c.
Proof using Hrt Hrn.
  intros Hwf Ha Hw Hn. unfold add_base. rewrite (proj2 (load_regs i rt rn Hrt Hrn Hwf)).
  destruct a; try done; rewrite (load_imm9 i _ imm Hwf Ha eq_refl); cbn [write_back]; unfold set_X;
    by rewrite (proj2 (Z.eqb_neq rn 31) Hn), wrap_add_r.
Qed.

Lemma pwrite_back_eq a rt2 c : load_wf (Ldp true a rt2) -> pwrites_back a = true -> rn <> 31 ->
  add_base (encode_load (Ldp true a rt2) rt rn) (u64 (imm7 (encode_load (Ldp true a rt2) rt rn) * 8)) c = pwrite_back a 8 rn c.
Proof using Hrt Hrn.
  intros Hwf Hw Hn. unfold add_base. rewrite (proj2 (load_regs _ rt rn Hrt Hrn Hwf)).
  destruct (load_imm7 _ a rt2 Hwf eq_refl) as [E _]. rewrite E, wrap_add_r, wrap_add_mul.
  destruct a; try done; cbn [pwrite_back poffset_imm]; unfold set_X; by rewrite (proj2 (Z.eqb_neq rn 31) Hn).
Qed.

Lemma cpu_ok_back a c : cpu_ok c -> cpu_ok (write_back a rn c).
Proof using. destruct a; cbn; auto. Qed.
Lemma cpu_ok_pback a k c : cpu_ok c -> cpu_ok (pwrite_back a k rn c).
Proof using. destruct a; cbn; auto. Qed.

(** The value of the access: the bytes [m] in the buffer. *)
Context (m : list Z) (Hm : bytes_ok m).
Let val := words (padded m).

Lemma word0 : zlen m <= 8 -> val_at val 0 = le_val m.
Proof using Hm. intros Hl. subst val. rewrite padded_word by (done || lia). rewrite drop_0, take_ge; [done|]. unfold zlen in Hl. lia. Qed.

Lemma word1 : zlen m <= 8 -> val_at val 1 = 0.
Proof using Hm. intros Hl. subst val. rewrite padded_word by (done || lia). rewrite drop_ge; [done|]. unfold zlen in Hl. lia. Qed.

Lemma words_pair : zlen m = 16 -> val_at val 0 = le_val (take 8 m) /\ val_at val 1 = le_val (drop 8 m).
Proof using Hm.
  intros Hl. subst val. rewrite !padded_word by (done || lia). rewrite drop_0, (take_ge (drop _ m)); [done|].
  rewrite length_drop. unfold zlen in Hl. lia.
Qed.

Lemma words_quads : zlen m = 32 ->
  (val_at val 0, val_at val 1) = quad (take 16 m) /\ (val_at val 2, val_at val 3) = quad (drop 16 m).
Proof using Hm.
  intros Hl. subst val. rewrite !padded_word by (done || lia). unfold quad. rewrite drop_0, take_take, drop_drop.
  split; f_equal; f_equal.
  - by rewrite take_drop_commute.
  - rewrite take_ge; [done|]. rewrite length_drop. unfold zlen in Hl. lia.
Qed.

Lemma words_halves : zlen m = 8 -> val_at val 0 .& 0xffffffff = le_val (take 4 m) /\ val_at val 0 .>> 32 = le_val (drop 4 m).
Proof using Hm.
  intros Hl. rewrite word0 by lia. rewrite <- (take_drop 4 m) at 1 3.
  assert (Ht : zlen (take 4 m) = 4) by (unfold zlen in *; rewrite length_take; lia).
  rewrite !le_val_app by (by apply Forall_take || by apply Forall_drop).
  assert (Hv : in_w 32 (le_val (take 4 m))) by (apply le_val_in_w; [by apply Forall_take | lia]).
  rewrite Ht. change 0xffffffff with (2 ^ 32 - 1). rewrite land_ones_mod, Z.shiftr_div_pow2 by lia. unfold in_w in Hv.
  change (8 * 4) with 32. split.
  - rewrite Z.mul_comm, Z_mod_plus_full. by apply Z.mod_small.
  - rewrite Z.mul_comm, Z.div_add by lia. rewrite Z.div_small by lia. lia.
Qed.

Lemma load_signed_spec i size w a c : i = Ldrs size w a -> load_wf i -> cpu_ok c -> size + b2z w <= 2 -> zlen m = 2 ^ size ->
  exists c', load_signed (encode_load i rt rn) w val c = Some c' /\
    agree c' (set_X rt (wrap (if w then 32 else 64) (signed (8 * 2 ^ size) (le_val m))) c).
Proof using Hrt Hrn Hm.
  intros -> Hwf Hc Hs Hl. unfold load_signed. rewrite (load_insn_width _ Hwf I), (proj1 (load_regs _ rt rn Hrt Hrn Hwf)).
  cbn [load_size]. assert (H0 : 0 <= size <= 2) by (destruct Hwf as [[? _] _]; destruct w; cbn in Hs; lia).
  assert (Hb : 8 .<< size = 8 * 2 ^ size) by (rewrite Z.shiftl_mul_pow2; lia).
  assert (Hp : size = 0 /\ 2 ^ size = 1 \/ size = 1 /\ 2 ^ size = 2 \/ size = 2 /\ 2 ^ size = 4).
  { assert (size = 0 \/ size = 1 \/ size = 2) as Hd by lia. naive_solver. }
  rewrite Hb. replace (EXT_defined (8 * 2 ^ size)) with true by (unfold EXT_defined; lia).
  rewrite word0, EXT_signed by (lia || (apply le_val_in_w; [done | lia])).
  destruct w; eexists; (split; [done|]); [|by apply agree_set].
  rewrite reg_X, set_set by done. change 0xffffffff with (2 ^ 32 - 1). rewrite land_ones_mod by lia.
  replace (u64 (signed (8 * 2 ^ size) (le_val m)) mod 2 ^ 32) with (u32 (signed (8 * 2 ^ size) (le_val m))); [by apply agree_set|].
  unfold wrap. apply Znumtheory.Zmod_div_mod; [done | done | by exists (2 ^ 32)].
Qed.
Lemma load_commit_spec i c : load_wf i -> load_supported i rt rn -> cpu_ok c -> zlen m = 2 ^ load_size i ->
  exists c', load_commit (load_op_of i) (encode_load i rt rn) val c = Some c' /\ agree c' (arch_load i rt rn m c).
Proof using Hrt Hrn Hm.
  intros Hwf Hs Hc Hl. destruct (load_regs i rt rn Hrt Hrn Hwf) as [Et _].
  assert (H8 : load_size i <= 3 -> zlen m <= 8) by (intros H3; rewrite Hl; change 8 with (2 ^ 3); by apply Z.pow_le_mono_r).
  pose proof (fun a => cpu_ok_back a c Hc) as Hback. pose proof (fun a k => cpu_ok_pback a k c Hc) as Hpback.
  unfold in_w in Hrt.
  destruct i as [size a|size w a|x a rt2|a rt2|size a|a|index|size]; cbn [load_op_of load_size arch_load load_supported] in *.
  - assert (Hv : val_at val 0 = le_val m) by (apply word0, H8; destruct Hwf as [[] _]; lia).
    destruct a; cbn [load_commit load_gpr]; rewrite ?(write_back_eq _ _ c Hwf eq_refl) by (done || by apply Hs);
      eexists; (split; [done|]); rewrite Et, Hv; by apply agree_set.
  - destruct Hs as (H2 & Hu & Hb).
    destruct a; try (by destruct Hu); try (destruct (Z.ltb_spec imm 2048)); cbn [load_commit load_gpr];
      rewrite ?(write_back_eq _ _ c Hwf eq_refl), ?load_bit22 by (done || by apply Hb);
      try (by apply (load_signed_spec _ _ _ _ _ eq_refl); auto).
    destruct Hu as [->|]; [|lia]. by apply (load_signed_spec _ _ true _ _ eq_refl).
  - destruct (load_imm7 _ a rt2 Hwf eq_refl) as [_ E2]. pose proof (proj2 Hwf) as H2. unfold in_w in H2.
    destruct x.
    + destruct (words_pair Hl) as [Ev Ew].
      destruct a; cbn [load_op_of load_commit load_pair]; rewrite ?(pwrite_back_eq _ _ c) by (done || by apply Hs);
        eexists; (split; [done|]); rewrite Et, E2, Ev, Ew; by do 2 (apply agree_set; [auto | auto | lia |]).
    + destruct (words_halves Hl) as [Ev Ew].
      destruct a; try (by destruct (Hs eq_refl)); cbn [load_op_of load_commit load_pair];
        eexists; (split; [done|]); rewrite Et, E2, Ev, Ew; by do 2 (apply agree_set; [auto | auto | lia |]).
  - destruct (load_imm7 _ a rt2 Hwf eq_refl) as [_ E2]. destruct (words_quads Hl) as [Ev Ew].
    destruct a; try done; cbn [load_commit load_simd]; eexists; (split; [done|]); rewrite Et, E2, Ev, Ew; by do 2 apply agree_set_v.
  - assert (H3 : size <= 3) by (destruct Hwf as [[] _]; lia). pose proof (word0 (H8 H3)) as Hv. pose proof (word1 (H8 H3)) as Hz.
    destruct a; cbn [load_commit load_simd]; rewrite ?(write_back_eq _ _ c Hwf eq_refl) by (done || by apply Hs);
      eexists; (split; [done|]); rewrite Et, Hv, ?Hz; by apply agree_set_v.
  - destruct (words_pair Hl) as [Ev Ew].
    destruct a; cbn [load_commit load_simd]; rewrite ?(write_back_eq _ _ c Hwf eq_refl) by (done || by apply Hs);
      eexists; (split; [done|]); rewrite Et, Ev, Ew; by apply agree_set_v.
  - eexists. split; [done|]. cbn [load_simd]. rewrite Et, (word0 (H8 ltac:(lia))), load_bit30 by done. by apply agree_set_v.
  - assert (Hv : val_at val 0 = le_val m) by (apply word0, H8; destruct Hwf; lia).
    eexists. split; [done|]. rewrite Et, Hv. by apply agree_set.
Qed.
End loads.

(** ** Stores *)

Definition store_op_of (i : store) : store_op :=
  match i with
  | Str _ (UOff _) => STR_uoff | Str _ (Unscaled _) => STUR | Str _ (RegOff _ _ _ _) => STR_reg | Str _ _ => STR_pp
  | Stp true (PPre _ | PPost _) _ => STP_64_pp | Stp true _ _ => STP_64 | Stp false _ _ => STP_32
  | StpS _ _ => STP_s | StpQ _ _ => STP_q
  | StrV _ (UOff _) => STR_v_uoff | StrV _ (RegOff _ _ _ _) => STR_v_reg
  | StrV size _ => if size =? 2 then STUR_s else STUR_d
  | StrQ (UOff _) => STR_q_uoff | StrQ (RegOff _ _ _ _) => STR_q_reg | StrQ _ => STUR_q
  | Stlr _ => STLR
  end.

Lemma store_fields_ok i : store_wf i -> Forall field_ok (store_fields i).
Proof.
  destruct i; cbn; intros; destruct_and?;
    auto using offset_fields_ok, pair_fields_ok, sized_fields_ok, Forall_nil_2; fields_ok.
Qed.

Lemma store_word i rt rn : in_w 5 rt -> in_w 5 rn -> store_wf i -> in_w 32 (encode_store i rt rn).
Proof.
  intros Ht Hn Hwf. apply encode_word; [done | done | by apply store_fields_ok | |].
  - destruct i; cbn; repeat (apply Forall_cons_2; [done|]); auto using offset_within, Forall_nil_2.
  - destruct i as [? a|x a ?|a ?|a ?|? a|a|?]; cbn; try destruct x; try destruct a; done.
Qed.

(** The size of an unscaled vector store is part of its test. *)
Lemma size_const bits size rt rn fs : in_w 2 size ->
  encode bits (mk_field 30 2 size :: fs) rt rn = encode (bits .| (size .<< 30)) fs rt rn.
Proof.
  intros Hs. unfold encode. cbn [pack f_val f_lo]. apply Z.bits_inj'. intros i Hi. rewrite !Z.lor_spec.
  repeat match goal with |- context [Z.testbit ?x i] => destruct (Z.testbit x i) end; done.
Qed.

Lemma store_decoded i rt rn : in_w 5 rt -> in_w 5 rn -> store_wf i -> store_supported i rt rn ->
  first_match store_table (encode_store i rt rn) = Some (store_op_of i).
Proof.
  intros Hrt Hrn Hwf Hs. destruct (match i with StrV _ (Unscaled _) => true | _ => false end) eqn:Hi.
  { destruct i as [| | | |size []| |]; try done. cbn in Hwf, Hs. destruct Hwf as [[H0 H1] Hi9].
    unfold encode_store. cbn [store_fields offset_fields]. rewrite size_const by done.
    assert (size = 2 \/ size = 3) as Hd by lia.
    apply find_sym_sound; [apply reg_fields_ok; [done | done | fields_ok]|]. by destruct Hd as [-> | ->]. }
  apply find_sym_sound; [by apply reg_fields_ok, store_fields_ok|].
  destruct i as [? a|x a ?|a ?|a ?|? a|a|?]; cbn in Hs; try destruct x; try destruct a; try reflexivity; cbn in Hs; try done.
  all: by destruct Hs.
Qed.

Section stores.
Context (rt rn : Z) (Hrt : in_w 5 rt) (Hrn : in_w 5 rn).

Lemma store_regs i : store_wf i -> Rt (encode_store i rt rn) = rt /\ Rn (encode_store i rt rn) = rn.
Proof using Hrt Hrn.
  intros Hwf. pose proof (store_fields_ok i Hwf) as Hf. split.
  - unfold Rt. rewrite <- (Z.shiftr_0_r (encode_store i rt rn)). apply (encode_get _ _ _ _ 0%nat (mk_field 0 5 rt)); try done.
    clear Hwf Hf. by destruct i as [? []|[] [] ?|[] ?|[] ?|? []|[]|?].
  - apply (encode_get _ _ _ _ 1%nat (mk_field 5 5 rn)); try done. clear Hwf Hf.
    by destruct i as [? []|[] [] ?|[] ?|[] ?|? []|[]|?].
Qed.

Lemma store_insn_width i : store_wf i -> match i with Str _ _ | StrV _ _ | Stlr _ => True | _ => False end ->
  insn_width (encode_store i rt rn) = store_size i.
Proof using Hrt Hrn.
  intros Hwf Hi. pose proof (store_fields_ok i Hwf) as Hf. pose proof (store_word i rt rn Hrt Hrn Hwf) as Hw.
  apply (get_width _ _ _ _ Hrt Hrn Hf 2); [by destruct i | clear Hwf Hf Hw; by destruct i as [? []|[] [] ?|[] ?|[] ?|? []|[]|?] | done].
Qed.

Lemma store_imm9 size a imm : store_wf (Str size a) -> offset_imm9 a = Some imm ->
  imm9 (encode_store (Str size a) rt rn) = u64 imm.
Proof using Hrt Hrn.
  intros Hwf Ha. pose proof (store_fields_ok _ Hwf) as Hf. destruct Hwf as [_ Hok].
  destruct a; cbn in Ha; simplify_eq; by apply (get_imm9 _ _ _ _ Hrt Hrn Hf 3).
Qed.

Lemma store_imm7 i a rt2 : store_wf i -> match i with Stp _ b k | StpS b k | StpQ b k => b = a /\ k = rt2 | _ => False end ->
  imm7 (encode_store i rt rn) = u64 (poffset_imm a) /\ Rt2 (encode_store i rt rn) = rt2.
Proof using Hrt Hrn.
  intros Hwf Ha. pose proof (store_fields_ok i Hwf) as Hf.
  assert (Hok : imm_ok 7 (poffset_imm a)) by (destruct i; try done; destruct Ha as [-> ->], Hwf as [? _]; by destruct a).
  destruct i; try done; destruct Ha as [-> ->]; destruct a; try destruct x;
    (split; [by apply (get_imm7 _ _ _ _ Hrt Hrn Hf 3) | by apply (get_rt2 _ _ _ _ Hrt Hrn Hf 2)]).
Qed.

Lemma store_check_rn i o : store_wf i -> rn <> 31 -> CHECK_RN (encode_store i rt rn) o = o.
Proof using Hrt Hrn.
  intros Hwf Hn. unfold CHECK_RN. rewrite (proj2 (store_regs i Hwf)). by rewrite (proj2 (Z.eqb_neq rn 31) Hn).
Qed.

Lemma store_bit24 a rt2 : store_wf (Stp true a rt2) -> pwrites_back a = true ->
  truthy (encode_store (Stp true a rt2) rt rn .& 2 ^ 24) = match a with PPre _ => true | _ => false end.
Proof using Hrt Hrn.
  intros Hwf Ha. pose proof (store_fields_ok _ Hwf) as Hf. destruct a; try done; by apply (get_bit _ _ _ _ Hrt Hrn Hf).
Qed.

Lemma store_place_spec i c va : store_wf i -> store_supported i rt rn ->
  store_place (store_op_of i) c (encode_store i rt rn) va = Emulated (store_size i) (store_taken i (reg c rn) va).
Proof using Hrt Hrn.
  intros Hwf Hs. destruct (store_regs i Hwf) as [_ En].
  pose proof (store_insn_width i Hwf) as Ew. pose proof (fun a rt2 => store_imm7 i a rt2 Hwf) as E7.
  destruct i as [size a|x a rt2|a rt2|a rt2|size a|a|size]; cbn [store_op_of store_size store_taken] in *.
  - destruct a; cbn [store_place]; rewrite ?store_check_rn by (done || by apply Hs); by rewrite Ew.
  - destruct (E7 a rt2 ltac:(done)) as [E _]. destruct x, a; try (by destruct (Hs eq_refl)); cbn [store_place];
      rewrite ?store_check_rn by (done || by apply Hs); rewrite ?store_bit24, ?E, En by done;
      unfold pair_addr; cbn [poffset_imm]; try done; by rewrite wrap_add_mul.
  - destruct (E7 a rt2 ltac:(done)) as [E _]. destruct a; try done; cbn [store_place]; rewrite E, En; unfold pair_addr;
      cbn [poffset_imm]; by rewrite wrap_add_mul.
  - destruct (E7 a rt2 ltac:(done)) as [E _]. destruct a; try done; cbn [store_place]; rewrite E, En; unfold pair_addr;
      cbn [poffset_imm]; by rewrite wrap_add_mul.
  - destruct a; try done; cbn [store_place]; [by rewrite Ew | | by rewrite Ew].
    destruct Hwf as [[_ H4] _]. cbn in Hs. assert (size = 2 \/ size = 3) as [-> | ->] by lia; done.
  - by destruct a.
  - cbn [store_place]. by rewrite Ew.
Qed.

Lemma store_base_eq i c : store_wf i -> store_supported i rt rn ->
  store_base (store_op_of i) (encode_store i rt rn) c = arch_store_base i rn c.
Proof using Hrt Hrn.
  intros Hwf Hs. destruct (store_regs i Hwf) as [_ En]. pose proof (store_imm7 i) as E7.
  destruct i as [size a|x a rt2|a rt2|a rt2|size a|a|size]; try done.
  - destruct a; try done; cbn [store_op_of store_base arch_store_base write_back]; unfold add_base, set_X;
      by rewrite En, (store_imm9 _ _ imm Hwf eq_refl), wrap_add_r, (proj2 (Z.eqb_neq rn 31) (proj1 (Hs eq_refl))).
  - destruct (E7 a rt2 Hwf ltac:(done)) as [E _]. destruct x; [|by destruct a; try destruct (Hs eq_refl)].
    destruct a; try done; cbn [store_op_of store_base arch_store_base pwrite_back] in *; unfold add_base, set_X;
      rewrite En, E, wrap_add_r, wrap_add_mul; cbn [poffset_imm];
      by rewrite (proj2 (Z.eqb_neq rn 31) (proj1 (proj2 (Hs eq_refl)))).
  - by destruct a; cbn; try destruct (size =? 2).
  - by destruct a.
Qed.

Lemma zero_slot c n : cpu_ok c -> 0 <= n < 32 -> reg (set_reg 31 0 c) n = X c n.
Proof using. intros Hc Hn. unfold X. by rewrite reg_set by (done || lia). Qed.

Lemma agree_zero c : cpu_ok c -> agree (set_reg 31 0 c) c.
Proof using.
  intros Hc. split; [|done]. intros n Hn. rewrite zero_slot by (done || lia). unfold X.
  by rewrite (proj2 (Z.eqb_neq n 31)) by lia.
Qed.

(** The registers that a store reads are those before its write-back. *)
Lemma store_base_reg i c n : cpu_ok c -> store_supported i rt rn -> 0 <= n < 32 ->
  n = rt \/ match i with Stp _ _ rt2 => n = rt2 | _ => False end ->
  reg (arch_store_base i rn (set_reg 31 0 c)) n = X c n.
Proof using Hrt Hrn.
  intros Hc Hs Hn Hi. rewrite <- zero_slot by done. unfold in_w in Hrn.
  assert (Hset : forall v d, cpu_ok d -> n <> rn -> reg (set_X rn v d) n = reg d n).
  { intros v d Hd Hne. unfold set_X. destruct (rn =? 31); [done|]. rewrite reg_set by (done || lia).
    by rewrite (proj2 (Z.eqb_neq n rn) Hne). }
  pose proof (cpu_ok_set 31 0 c Hc) as Hd.
  destruct i as [size a|x a rt2| | | | |]; try done.
  - destruct a; try done; cbn in *; apply Hset; [done | naive_solver | done | naive_solver].
  - destruct a; try done; cbn in *; apply Hset; [done | naive_solver | done | naive_solver].
Qed.

Lemma store_base_agree i c : cpu_ok c -> store_supported i rt rn ->
  agree (arch_store_base i rn (set_reg 31 0 c)) (arch_store_base i rn c).
Proof using Hrt Hrn.
  intros Hc Hs. pose proof (agree_zero c Hc) as Ha. unfold in_w in Hrn.
  assert (Hset : forall k, rn <> 31 ->
    agree (set_X rn (u64 (reg (set_reg 31 0 c) rn + k)) (set_reg 31 0 c)) (set_X rn (u64 (reg c rn + k)) c)).
  { intros k Hn. rewrite (proj1 Ha rn) by lia. unfold set_X at 1. rewrite (proj2 (Z.eqb_neq rn 31) Hn). by apply agree_set; auto. }
  destruct i as [size a|x a rt2| | | | |]; try done; destruct a; try done; cbn in *; apply Hset; naive_solver.
Qed.

Lemma store_base_vregs i c : vregs (arch_store_base i rn c) = vregs c.
Proof using. destruct i as [size a|x a rt2| | | | |]; try done; destruct a; try done; cbn; unfold set_X; by destruct (rn =? 31). Qed.
End stores.

(** *** The bytes of a word *)

Lemma take_le_bytes k n v : (k <= n)%nat -> take k (le_bytes n v) = le_bytes k v.
Proof.
  intros H. replace n with (k + (n - k))%nat by lia. rewrite le_bytes_app, take_app_le by by rewrite length_le_bytes.
  apply take_ge. by rewrite length_le_bytes.
Qed.

Lemma le_bytes_wrap k w v : 8 * Z.of_nat k <= w -> le_bytes k (wrap w v) = le_bytes k v.
Proof.
  revert w v. induction k as [|k IH]; intros w v Hw; [done|]. cbn [le_bytes]. f_equal.
  - unfold wrap. symmetry. apply Znumtheory.Zmod_div_mod; [done | apply Z.pow_pos_nonneg; lia |].
    exists (2 ^ (w - 8)). rewrite <- Z.pow_add_r by lia. f_equal. lia.
  - replace (wrap w v .>> 8) with (wrap (w - 8) (v .>> 8)); [apply IH; lia|].
    apply Z.bits_inj'. intros i Hi. rewrite Z.shiftr_spec, !testbit_wrap, Z.shiftr_spec by lia.
    by replace (i + 8 <? w) with (i <? w - 8) by (destruct (Z.ltb_spec (i + 8) w), (Z.ltb_spec i (w - 8)); lia).
Qed.

Lemma unwords_put ws val n : (n <= 8 * length ws)%nat -> take n (unwords (put_val ws val)) = take n (concat (map (le_bytes 8) ws)).
Proof.
  intros Hn. unfold unwords, put_val. rewrite map_app, concat_app. apply take_app_le.
  assert (Hl : forall l, length (concat (map (le_bytes 8) l)) = (8 * length l)%nat).
  { induction l as [|w l IH]; [done|]. cbn [map concat]. rewrite length_app, IH, length_le_bytes. cbn [length]. lia. }
  by rewrite Hl.
Qed.

Lemma one_word k v val : (k <= 8)%nat -> take k (unwords (put_val [v] val)) = le_bytes k v.
Proof. intros Hk. rewrite unwords_put by (cbn; lia). cbn [map concat]. by rewrite app_nil_r, take_le_bytes. Qed.

Lemma all_words ws val : take (8 * length ws) (unwords (put_val ws val)) = concat (map (le_bytes 8) ws).
Proof.
  rewrite unwords_put by lia. apply take_ge. induction ws as [|w ws IH]; [done|]. cbn [map concat]. rewrite length_app, length_le_bytes.
  cbn [length]. lia.
Qed.

(** Two halves in one word. *)
Lemma half_words a b : le_bytes 8 (u32 a .| u64 (b .<< 32)) = le_bytes 4 a ++ le_bytes 4 b.
Proof.
  change 8%nat with (4 + 4)%nat. rewrite le_bytes_app. f_equal.
  - rewrite <- (le_bytes_wrap 4 32) by done. rewrite <- (le_bytes_wrap 4 32 a) by done. f_equal.
    apply Z.bits_inj'. intros i Hi. rewrite !testbit_wrap, Z.lor_spec, !testbit_wrap by lia.
    destruct (Z.ltb_spec i 32); [|done]. replace (i <? 64) with true by lia. rewrite Z.shiftl_spec_low by lia. by rewrite orb_false_r.
  - rewrite <- (le_bytes_wrap 4 32) by done. rewrite <- (le_bytes_wrap 4 32 b) by done. f_equal.
    apply Z.bits_inj'. intros i Hi. rewrite !testbit_wrap by lia. destruct (Z.ltb_spec i 32); [|done].
    change (8 * Z.of_nat 4) with 32. rewrite Z.shiftr_spec, Z.lor_spec, !testbit_wrap, Z.shiftl_spec by lia.
    replace (i + 32 <? 32) with false by lia. replace (i + 32 <? 64) with true by lia. cbn. f_equal. lia.
Qed.

Lemma masked insn size v : insn_width insn = size -> 0 <= size <= 3 ->
  le_bytes (Z.to_nat (2 ^ size)) (v .& store_mask insn) = le_bytes (Z.to_nat (2 ^ size)) v.
Proof.
  intros Ew Hs. unfold store_mask. rewrite Ew.
  assert (Hk : 8 .<< size = 8 * 2 ^ size) by (rewrite Z.shiftl_mul_pow2; lia).
  destruct (Z.ltb_spec size 3).
  - rewrite Hk, Z.shiftl_mul_pow2, Z.mul_1_l, land_ones_mod by (pose proof (Z.pow_pos_nonneg 2 size); lia).
    apply le_bytes_wrap. rewrite Z2Nat.id by (apply Z.pow_nonneg; lia). lia.
  - replace size with 3 by lia. change 0xffffffffffffffff with (2 ^ 64 - 1). rewrite land_ones_mod by lia. by apply le_bytes_wrap.
Qed.

Lemma store_bytes_spec i rt rn c val : in_w 5 rt -> in_w 5 rn -> store_wf i -> store_supported i rt rn -> cpu_ok c ->
  let c1 := arch_store_base i rn (set_reg 31 0 c) in
  take (Z.to_nat (2 ^ store_size i)) (unwords (put_val (store_value (store_op_of i) (encode_store i rt rn) c1) val)) = arch_store i rt c.
Proof.
  intros Hrt Hrn Hwf Hs Hc c1. destruct (store_regs rt rn Hrt Hrn i Hwf) as [Et _].
  pose proof (store_insn_width rt rn Hrt Hrn i Hwf) as Ew. pose proof (store_imm7 rt rn Hrt Hrn i) as E7.
  assert (Hr : reg c1 rt = X c rt) by (by apply (store_base_reg rt); auto).
  assert (Hv : forall n, vreg c1 n = vreg c n) by (intros n; unfold vreg; subst c1; by rewrite store_base_vregs).
  assert (Hsm : forall size v, 0 <= size <= 3 -> insn_width (encode_store i rt rn) = size ->
    take (Z.to_nat (2 ^ size)) (unwords (put_val [v .& store_mask (encode_store i rt rn)] val)) = le_bytes (Z.to_nat (2 ^ size)) v).
  { intros size v H3 Hw. rewrite one_word; [by apply masked|]. change 8%nat with (Z.to_nat (2 ^ 3)).
    apply Z2Nat.inj_le; [apply Z.pow_nonneg; lia | done | apply Z.pow_le_mono_r; lia]. }
  destruct i as [size a|x a rt2|a rt2|a rt2|size a|a|size]; cbn [store_op_of store_size arch_store] in *.
  - assert (0 <= size <= 3) by (destruct Hwf as [[] _]; lia). rewrite <- Hr.
    destruct a; cbn [store_value]; rewrite Et; by apply Hsm, Ew.
  - destruct (E7 a rt2 Hwf ltac:(done)) as [_ E2].
    assert (Hr2 : reg c1 rt2 = X c rt2) by (apply (store_base_reg rt); [done | done | done | exact Hs | apply Hwf | by right]).
    rewrite <- Hr, <- Hr2. destruct x.
    + assert (Ho : store_value (store_op_of (Stp true a rt2)) (encode_store (Stp true a rt2) rt rn) c1 = [reg c1 rt; reg c1 rt2])
        by (destruct a; cbn [store_op_of store_value]; by rewrite Et, E2).
      cbn [store_op_of] in Ho. rewrite Ho. rewrite (all_words [_; _]). cbn [map concat]. by rewrite app_nil_r.
    + cbn [store_value]. rewrite Et, E2. change 0xffffffff with (2 ^ 32 - 1). rewrite land_ones_mod by lia.
      rewrite (all_words [_]). cbn [map concat]. rewrite app_nil_r. apply half_words.
  - destruct (E7 a rt2 Hwf ltac:(done)) as [_ E2]. cbn [store_value]. rewrite Et, E2, !Hv. rewrite (all_words [_]).
    cbn [map concat]. rewrite app_nil_r. unfold simd_s0. rewrite <- (le_bytes_wrap 4 32 (vreg c rt).1), <- (le_bytes_wrap 4 32 (vreg c rt2).1) by done.
    rewrite <- half_words. f_equal. rewrite wrap_wrap. f_equal. symmetry. apply wrap_small.
    apply (in_w_shiftl 32); [done | done | by apply wrap_range].
  - destruct (E7 a rt2 Hwf ltac:(done)) as [_ E2]. cbn [store_value]. rewrite Et, E2, !Hv. rewrite (all_words [_; _; _; _]).
    cbn [map concat]. unfold quad_bytes. by rewrite app_nil_r, <- app_assoc.
  - assert (0 <= size <= 3) by (destruct Hwf as [[] _]; lia). rewrite <- (Hv rt).
    assert (H8 : (Z.to_nat (2 ^ size) <= 8)%nat).
    { change 8%nat with (Z.to_nat (2 ^ 3)). apply Z2Nat.inj_le; [apply Z.pow_nonneg; lia | done | apply Z.pow_le_mono_r; lia]. }
    destruct a; try done; cbn [store_value]; rewrite ?Et; try by apply one_word.
    assert (Hd : size = 2 \/ size = 3) by (cbn in Hs; lia).
    destruct Hd as [-> | ->]; [change (2 =? 2) with true | change (3 =? 2) with false]; cbn iota; cbn [store_value]; rewrite Et;
      rewrite one_word by done; [|done].
    by apply le_bytes_wrap.
  - rewrite <- (Hv rt). destruct a; try done; cbn [store_value]; rewrite Et, (all_words [_; _]); cbn [map concat];
      unfold quad_bytes; by rewrite app_nil_r.
  - assert (0 <= size <= 3) by (destruct Hwf; lia). rewrite <- Hr. cbn [store_value]. rewrite Et. by apply Hsm, Ew.
Qed.

(** ** The functions *)

Lemma emulate_load_spec i rt rn c far m :
  in_w 5 rt -> in_w 5 rn -> load_wf i -> load_supported i rt rn -> cpu_ok c -> bytes_ok m -> zlen m = 2 ^ load_size i ->
  let o := Emulated (load_size i) (load_taken i (reg c rn) far) in
  emulate_load c (encode_load i rt rn) None far = (o, c) /\
  exists c', emulate_load c (encode_load i rt rn) (Some (words (padded m))) far = (o, c') /\ agree c' (arch_load i rt rn m c).
Proof.
  intros Ht Hn Hwf Hs Hc Hm Hl o. unfold emulate_load. rewrite load_decoded, load_decode_spec by done. split; [done|].
  destruct (load_commit_spec rt rn Ht Hn m Hm i c Hwf Hs Hc Hl) as (c' & -> & Ha). by exists c'.
Qed.

Lemma emulate_store_spec i rt rn c far val :
  in_w 5 rt -> in_w 5 rn -> store_wf i -> store_supported i rt rn -> cpu_ok c ->
  exists val' c', emulate_store c (encode_store i rt rn) val far = ((Emulated (store_size i) (store_taken i (X c rn) far), val'), c') /\
    take (Z.to_nat (2 ^ store_size i)) (unwords val') = arch_store i rt c /\ agree c' (arch_store_base i rn c).
Proof.
  intros Ht Hn Hwf Hs Hc. unfold emulate_store. rewrite store_decoded, store_place_spec, zero_slot, store_base_eq by done.
  eexists _, _. split; [done|]. split; [by apply store_bytes_spec | by apply (store_base_agree rt)].
Qed.

Lemma load_taken_ea i rn sp c far : load_addressed i rn sp c far ->
  load_taken i (reg c rn) far = load_ea i rn sp c.
Proof.
  unfold load_addressed. destruct (load_computed i) eqn:E; intros H.
  - unfold load_ea, Xsp. rewrite (proj2 (Z.eqb_neq rn 31) H).
    destruct i as [? a|? ? a| | |? a|a| |]; try done; by destruct a.
  - rewrite H. destruct i as [? a|? ? a| | |? a|a| |]; try done; by destruct a.
Qed.

Lemma store_taken_ea i rn sp c far : store_addressed i rn sp c far ->
  store_taken i (X c rn) far = store_ea i rn sp c.
Proof.
  unfold store_addressed. destruct (store_computed i) eqn:E; intros H.
  - unfold store_ea, Xsp, X. rewrite (proj2 (Z.eqb_neq rn 31) H). by destruct i.
  - rewrite H. by destruct i.
Qed.

(** C38. emulate_load does what the architecture says, for every load it supports
    (all sizes, addressing modes and registers; general, signed, vector and pair
    loads) whose address it gets right: pairs and vector loads with an immediate
    offset have a base other than the stack pointer, and the others faulted at
    their first byte.  Then the first pass reports the number of bytes and the
    instruction's effective address, and changes nothing; the second pass, given
    the bytes read, leaves the general and vector registers as the instruction
    would, with write-back, sign extension to 32 or 64 bits, and zeroed upper
    halves. *)
Theorem emulate_load_arch i rt rn sp c far m :
  in_w 5 rt -> in_w 5 rn -> load_wf i -> load_supported i rt rn -> load_addressed i rn sp c far ->
  cpu_ok c -> bytes_ok m -> zlen m = 2 ^ load_size i ->
  let o := Emulated (load_size i) (load_ea i rn sp c) in
  emulate_load c (encode_load i rt rn) None far = (o, c) /\
  exists c', emulate_load c (encode_load i rt rn) (Some (words (padded m))) far = (o, c') /\ agree c' (arch_load i rt rn m c).
Proof. intros. subst o. rewrite <- (load_taken_ea i rn sp c far) by done. by apply emulate_load_spec. Qed.

(** C39. emulate_store does what the architecture says, for every store it supports
    whose address it gets right: a pair has a base other than the stack pointer,
    and the others faulted at their first byte.  Then the number of bytes, the
    address and the first bytes of the buffer are those of the instruction
    (register 31 stores zero, halves are packed in order), and the base register
    is written back where the instruction does so, after the value was taken. *)
Theorem emulate_store_arch i rt rn sp c far val :
  in_w 5 rt -> in_w 5 rn -> store_wf i -> store_supported i rt rn -> store_addressed i rn sp c far -> cpu_ok c ->
  exists val' c', emulate_store c (encode_store i rt rn) val far = ((Emulated (store_size i) (store_ea i rn sp c), val'), c') /\
    take (Z.to_nat (2 ^ store_size i)) (unwords val') = arch_store i rt c /\ agree c' (arch_store_base i rn c).
Proof. intros. rewrite <- (store_taken_ea i rn sp c far) by done. by apply (emulate_store_spec i rt rn). Qed.

(** Whatever the word and whatever happened to the registers in between, the second
    pass of a load does not fail where the first did not, and has its width. *)
Lemma emulate_load_again c insn far w a d val far' : (emulate_load c insn None far).1 = Emulated w a ->
  exists a', (emulate_load d insn None far').1 = Emulated w a' /\
    ((emulate_load d insn (Some val) far').1 = Emulated w a' \/ (emulate_load d insn (Some val) far').1 = Undefined).
Proof.
  unfold emulate_load. destruct (first_match load_table insn) as [op|]; [|done].
  assert (Hd : forall b, load_decode op c insn far = Emulated w b -> exists b', load_decode op d insn far' = Emulated w b').
  { intros b. unfold load_decode, CHECK_RN. destruct op; repeat case_match; intros E; simplify_eq; eauto. }
  destruct (load_decode op c insn far) as [w' b| |] eqn:E; [|done|done]. cbn. intros [= -> ->]. destruct (Hd a eq_refl) as [b' ->].
  exists b'. split; [done|]. destruct (load_commit op insn val d); cbn; tauto.
Qed.

(** A store leaves the buffer at its size. *)
Lemma emulate_store_length c insn val far : length val = 8%nat -> length (emulate_store c insn val far).1.2 = 8%nat.
Proof.
  intros Hl. unfold emulate_store. destruct (first_match store_table insn) as [op|]; [|done].
  destruct (store_place op (set_reg 31 0 c) insn far); [|done|done]. cbn. unfold put_val.
  rewrite length_app, length_drop, Hl. destruct op; cbn [store_value length]; rewrite ?length_replicate; lia.
Qed.

Lemma zlen_unwords ws : zlen (unwords ws) = 8 * zlen ws.
Proof.
  unfold unwords, zlen. induction ws as [|w ws IH]; [done|]. cbn [map concat]. rewrite length_app, length_le_bytes. cbn [length]. lia.
Qed.

Lemma unwords_ok ws : bytes_ok (unwords ws).
Proof. unfold unwords. induction ws as [|w ws IH]; cbn [map concat]; [apply bytes_ok_nil|]. apply bytes_ok_app. split; [apply le_bytes_ok | done]. Qed.

(** The first pass leaves the registers alone. *)
Lemma emulate_load_first c insn far : (emulate_load c insn None far).2 = c.
Proof. unfold emulate_load. by repeat case_match. Qed.

(** The width of a load is at most 32 bytes, that of a store at most 64. *)
Lemma emulate_load_width c insn val far w a : in_w 32 insn -> (emulate_load c insn val far).1 = Emulated w a -> 0 <= w <= 5.
Proof.
  intros Hi. assert (H3 : 0 <= insn_width insn <= 3).
  { unfold insn_width, in_w in *. rewrite Z.shiftr_div_pow2 by lia. dlia. }
  unfold emulate_load. destruct (first_match load_table insn) as [op|]; [|done].
  assert (Hd : forall w a, load_decode op c insn far = Emulated w a -> 0 <= w <= 5).
  { intros w' a'. unfold load_decode, CHECK_RN. destruct op; repeat case_match; intros E; simplify_eq; lia. }
  destruct (load_decode op c insn far) as [w' a'| |] eqn:E; [|done|done].
  repeat case_match; cbn; intros E'; simplify_eq; by apply (Hd _ _ eq_refl).
Qed.

Lemma emulate_store_width c insn val far w a : in_w 32 insn -> (emulate_store c insn val far).1.1 = Emulated w a -> 0 <= w <= 6.
Proof.
  intros Hi. assert (H3 : 0 <= insn_width insn <= 3).
  { unfold insn_width, in_w in *. rewrite Z.shiftr_div_pow2 by lia. dlia. }
  unfold emulate_store. destruct (first_match store_table insn) as [op|]; [|done].
  destruct (store_place op (set_reg 31 0 c) insn far) as [w' a'| |] eqn:E; [|done|done]. cbn. intros [= -> ->].
  revert E. unfold store_place, CHECK_RN. destruct op; repeat case_match; intros E; simplify_eq; lia.
Qed.

(** ** What is not as the architecture has it *)

(** The test of the unscaled signed loads has bit 21 set, which those never have: they
    are refused. *)
Lemma ldurs_refused size w imm rt rn : in_w 5 rt -> in_w 5 rn -> in_w 2 size -> imm_ok 9 imm ->
  first_match load_table (encode_load (Ldrs size w (Unscaled imm)) rt rn) = None.
Proof.
  intros Ht Hn Hs Hi. apply find_sym_sound; [by apply reg_fields_ok, load_fields_ok|]. by destruct w.
Qed.

(** What it matches instead: LDADDA and LDAPR, which are then loads with sign extension. *)
Lemma atomics_as_loads size rs r rt rn : in_w 5 rt -> in_w 5 rn -> in_w 2 size -> in_w 5 rs -> in_w 1 r ->
  first_match load_table (encode 0x38a00000 [mk_field 30 2 size; mk_field 16 5 rs; mk_field 22 1 r] rt rn) = Some LDURS /\
  first_match load_table (encode 0x38bfc000 [mk_field 30 2 size] rt rn) = Some LDURS.
Proof. intros. split; (apply find_sym_sound; [apply reg_fields_ok; [done | done | fields_ok] | done]). Qed.

(** A signed load into an X register with a scaled offset of 2048 units or more. *)
Lemma ldrs_far_refused size imm rt rn : in_w 5 rt -> in_w 5 rn -> in_w 2 size -> 2048 <= imm < 4096 ->
  first_match load_table (encode_load (Ldrs size false (UOff imm)) rt rn) = None.
Proof.
  intros Ht Hn Hs Hi. rewrite ldrs_split by (unfold in_w; lia).
  replace (imm .>> 11) with 1 by (rewrite Z.shiftr_div_pow2 by lia; dlia).
  apply find_sym_sound; [fields_ok | done].
Qed.

(** The tests of the unscaled vector stores ignore bits 10 and 11: stores with
    write-back are taken for them, and the base keeps its value. *)
Definition with_index (bits post : Z) (imm : Z) (rt rn : Z) : Z :=
  encode (bits .| post) [mk_field 12 9 (wrap 9 imm)] rt rn.
Lemma stur_no_write_back post imm rt rn c val far : in_w 5 rt -> in_w 5 rn -> imm_ok 9 imm -> post = 0x400 \/ post = 0xc00 ->
  exists v1 v2 v3,
    emulate_store c (with_index 0xbc000000 post imm rt rn) val far = ((Emulated 2 far, v1), set_reg 31 0 c) /\
    emulate_store c (with_index 0xfc000000 post imm rt rn) val far = ((Emulated 3 far, v2), set_reg 31 0 c) /\
    emulate_store c (with_index 0x3c800000 post imm rt rn) val far = ((Emulated 4 far, v3), set_reg 31 0 c).
Proof.
  intros Ht Hn Hi Hp. assert (Hf : Forall field_ok (mk_field 0 5 rt :: mk_field 5 5 rn :: [mk_field 12 9 (wrap 9 imm)])) by fields_ok.
  assert (Hm : forall bits op, find_sym (cover [mk_field 0 5 rt; mk_field 5 5 rn; mk_field 12 9 (wrap 9 imm)]) (bits .| post) store_table = Some (Some op) ->
    first_match store_table (with_index bits post imm rt rn) = Some op) by (intros; by apply find_sym_sound).
  unfold emulate_store.
  destruct Hp as [-> | ->]; rewrite (Hm 0xbc000000 STUR_s eq_refl), (Hm 0xfc000000 STUR_d eq_refl), (Hm 0x3c800000 STUR_q eq_refl);
    by do 3 eexists.
Qed.

(** The address of a pair, or of a vector load with an immediate offset, whose
    base is the stack pointer: slot 31 of the saved registers, or zero for a
    store, stands in for it. *)
Lemma sp_base_load i rt c far : in_w 5 rt -> load_wf i -> load_supported i rt 31 -> load_computed i = true ->
  emulate_load c (encode_load i rt 31) None far = (Emulated (load_size i) (load_ea i 31 (reg c 31) c), c).
Proof.
  intros Ht Hwf Hs Hc. unfold emulate_load. rewrite load_decoded, load_decode_spec by done. do 2 f_equal.
  destruct i as [? a|? ? a| | |? a|a| |]; try done; by destruct a.
Qed.
Lemma sp_base_store i rt c far val : in_w 5 rt -> store_wf i -> store_supported i rt 31 -> cpu_ok c -> store_computed i = true ->
  (emulate_store c (encode_store i rt 31) val far).1.1 = Emulated (store_size i) (store_ea i 31 0 c).
Proof.
  intros Ht Hwf Hs Hok Hc.
  destruct (emulate_store_spec i rt 31 c far val Ht ltac:(done) Hwf Hs Hok) as (val' & c' & -> & _).
  cbn [fst]. f_equal. by destruct i.
Qed.

(** DC ZVA zeroes the 64 bytes from the address in its register, aligned or not. *)
Lemma dc_zva rt c val far : in_w 5 rt -> cpu_ok c ->
  exists val' c', emulate_store c (0xd50b7420 .| pack [mk_field 0 5 rt]) val far = ((Emulated 6 (X c rt), val'), c') /\
    take 64 (unwords val') = zeros 64.
Proof.
  intros Ht Hc. assert (Hf : Forall field_ok [mk_field 0 5 rt]) by (apply Forall_cons_2; [done | apply Forall_nil_2]).
  unfold emulate_store. rewrite (find_sym_sound _ Hf _ _ (Some DC_ZVA)) by done.
  assert (Et : Rt (0xd50b7420 .| pack [mk_field 0 5 rt]) = rt).
  { unfold Rt. rewrite <- (Z.shiftr_0_r (_ .| _)). exact (pack_get _ Hf 0xd50b7420 0%nat _ eq_refl eq_refl). }
  cbn [store_place]. rewrite Et, zero_slot by done. eexists _, _. split; [done|].
  cbn [store_value]. by rewrite (all_words (replicate 8 0)).
Qed.

(** ** Concrete runs *)

Definition demo_cpu : cpu := mk_cpu (map (fun k => 0x1000 * Z.of_nat k) (seq 0 32)) (map (fun k => (Z.of_nat k, 7)) (seq 0 32)).

(** [ldp x0, x1, [x2], #128], [ldrsh w3, [x4, #2]!]. *)
Lemma emulate_load_arch_witness :
  exists c', emulate_load demo_cpu (encode_load (Ldp true (PPost 16) 1) 0 2) (Some (words (padded (le_bytes 8 5 ++ le_bytes 8 6)))) 0x2000
    = (Emulated 4 0x2000, c') /\ agree c' (arch_load (Ldp true (PPost 16) 1) 0 2 (le_bytes 8 5 ++ le_bytes 8 6) demo_cpu).
Proof.
  apply (emulate_load_arch (Ldp true (PPost 16) 1) 0 2 0 demo_cpu 0x2000 (le_bytes 8 5 ++ le_bytes 8 6)); try done.
  apply Forall_app. split; apply le_bytes_ok.
Defined.
(** [ldr x1, [x2, w3, sxtw #3]], with its own address as the faulting one. *)
Example demo_regoff : load_addressed (Ldr 3 (RegOff 3 1 0 1)) 2 0 demo_cpu (0x2000 + 0x3000 * 8).
Proof. reflexivity. Qed.
Example demo_ldp : (emulate_load demo_cpu 0xa8c80440 (Some (words (padded (le_bytes 8 5 ++ le_bytes 8 6)))) 0x2000).2
  = set_reg 2 0x2080 (set_reg 0 5 (set_reg 1 6 demo_cpu)).
Proof. vm_compute. reflexivity. Qed.
Example demo_ldrsh : (emulate_load demo_cpu 0x78c02c83 (Some (words (padded [0xfe; 0xff]))) 0x4002).2
  = set_reg 4 0x4002 (set_reg 3 0xfffffffe demo_cpu).
Proof. vm_compute. reflexivity. Qed.

(** [stp w5, w6, [x7, #-8]]. *)
Lemma emulate_store_arch_witness :
  exists val' c', emulate_store demo_cpu (encode_store (Stp false (Signed (-2)) 6) 5 7) (zeros 8) 0x6ff8 = ((Emulated 3 0x6ff8, val'), c') /\
    take 8 (unwords val') = le_bytes 4 0x5000 ++ le_bytes 4 0x6000 /\ agree c' demo_cpu.
Proof. apply (emulate_store_arch (Stp false (Signed (-2)) 6) 5 7 0 demo_cpu 0x6ff8 (zeros 8)); done. Defined.
