(* ===== verification/DataAbort.v ===== *)
(** * A trapped guest access ([nvme-s208/hv_vm-s208.c])

    [hv_handle_dabort], from the exception to the guest's registers: the access is
    translated, decoded ([Emulate]), split at a page boundary, and each part is cut
    into naturally aligned chunks by [hv_emulate_rw]; a guest CPU that keeps
    touching unmapped memory is parked; what the boot manager writes to the UART is
    kept in a ring.  The dispatch over the kinds of page-table entry
    ([hv_emulate_rw_aligned]), the translation and the walk are functions of the
    environment, as are the registers of the exception. *)

From S2P Require Import Prelude HvMap.
From S2P Require Import Bitfield Emulate.

(** ** State *)

(** What the handler uses of [struct exc_info], and the static variables of the
    file: per CPU the last faulting instruction and its streak, the UART ring. *)
Record abort_state := mk_abort {
  ctx : cpu;
  elr : Z;
  nwoas_last_unmapped_elr : list Z;
  nwoas_unmapped_streak : list Z;
  bmgfw_uart_ring : list Z;
  bmgfw_uart_idx : Z;
}.
#[export] Instance eta_abort : Eta abort_state := fun s =>
  mk_abort (ctx s) (elr s) (nwoas_last_unmapped_elr s) (nwoas_unmapped_streak s) (bmgfw_uart_ring s) (bmgfw_uart_idx s).

Definition NWOAS_UNMAPPED_PARK_THRESHOLD : Z := 16.
Definition BMGFW_UART_SZ : Z := 65536.
Definition CACHE_LINE_SIZE : Z := 64.

(** The environment.  [hv_translate] returns the address and, through [par], the
    attributes; [hv_emulate_rw_aligned] is given the buffer [aval] and returns it. *)
Record abort_ops (S : Type) := mk_abort_ops {
  hv_get_esr : M S Z;
  hv_get_far : M S Z;
  hv_translate : Z -> bool -> bool -> M S (Z * Z);
  pt_walk : Z -> M S Z;
  read32 : Z -> M S Z;
  smp_id : M S Z;
  hv_pinned_cpu : M S Z;
  hv_exit_cpu : Z -> M S unit;
  hv_emulate_rw_aligned : forall (pte vaddr ipa : Z) (aval : list Z) (is_write : bool) (width elr par : Z), M S (bool * list Z);
}.
Arguments hv_get_esr {S}. Arguments hv_get_far {S}. Arguments hv_translate {S}. Arguments pt_walk {S}.
Arguments read32 {S}. Arguments smp_id {S}. Arguments hv_pinned_cpu {S}. Arguments hv_exit_cpu {S}.
Arguments hv_emulate_rw_aligned {S}.

(** ** Unmapped accesses *)

(** Static arrays, indexed by a CPU below [MAX_CPUS]. *)
Definition nth_cpu (l : list Z) (cpu : Z) : Z := nth (Z.to_nat cpu) l 0.
Definition put_cpu (cpu v : Z) (l : list Z) : list Z := <[Z.to_nat cpu := v]> l.

(** The streak of the CPU after an abort at [pc]. *)
Definition count_unmapped (MAX_CPUS cpu pc : Z) (s : abort_state) : abort_state :=
  if (cpu <? MAX_CPUS) && (pc =? nth_cpu (nwoas_last_unmapped_elr s) cpu) then
    s <| nwoas_unmapped_streak := put_cpu cpu (u32 (nth_cpu (nwoas_unmapped_streak s) cpu + 1)) (nwoas_unmapped_streak s) |>
  else if cpu <? MAX_CPUS then
    s <| nwoas_last_unmapped_elr := put_cpu cpu pc (nwoas_last_unmapped_elr s) |>
      <| nwoas_unmapped_streak := put_cpu cpu 1 (nwoas_unmapped_streak s) |>
  else s.
Definition must_park (MAX_CPUS boot_cpu_idx pinned cpu : Z) (s : abort_state) : bool :=
  (cpu <? MAX_CPUS) && negb (cpu =? boot_cpu_idx) && negb (cpu =? pinned) &&
  (nth_cpu (nwoas_unmapped_streak s) cpu =? NWOAS_UNMAPPED_PARK_THRESHOLD).
Definition clear_streak (cpu : Z) (s : abort_state) : abort_state :=
  s <| nwoas_unmapped_streak := put_cpu cpu 0 (nwoas_unmapped_streak s) |>.

(** One abort of [cpu] at [pc]: whether the CPU is told to leave the guest. *)
Definition unmapped_step (MAX_CPUS boot_cpu_idx pinned : Z) (ev : Z * Z) (s : abort_state) : bool * abort_state :=
  let s := count_unmapped MAX_CPUS ev.1 ev.2 s in
  if must_park MAX_CPUS boot_cpu_idx pinned ev.1 s then (true, clear_streak ev.1 s) else (false, s).

(** ** Chunks *)

(** [HV_MAX_RW_SIZE], the size of the buffers [val] and [aval], is 64 in m1n1. *)
Definition HV_MAX_RW_SIZE : Z := 64.

(** The width of the next chunk: the largest power of two up to 64 bytes that is
    left and to which the address is aligned. *)
Definition rw_width (left ipa : Z) : Z :=
  if (64 <=? left) && (ipa .& 63 =? 0) then 6
  else if (32 <=? left) && (ipa .& 31 =? 0) then 5
  else if (16 <=? left) && (ipa .& 15 =? 0) then 4
  else if (8 <=? left) && (ipa .& 7 =? 0) then 3
  else if (4 <=? left) && (ipa .& 3 =? 0) then 2
  else if (2 <=? left) && (ipa .& 1 =? 0) then 1
  else 0.

(** Hardware and [SPTE_MAP] entries name memory, whose address advances with the
    access; the address in any other entry is that of a hook. *)
Definition advance (pte : Z) : bool := IS_HW pte || IS_SW pte && (SPTE_TYPE pte =? SPTE_MAP).
Definition rw_paddr (pte vaddr : Z) : Z := (pte .& PTE_TARGET_MASK_L4) .| (vaddr .& MASK VADDR_L4_OFFSET_BITS).
Definition retarget (pte paddr : Z) : Z := (paddr .& PTE_TARGET_MASK_L4) .| (pte .& cnot 64 PTE_TARGET_MASK_L4).

Section code.
Context {S : Type} `{L : !Lens S abort_state} (o : abort_ops S).
(** Of m1n1's headers and start-up code. *)
Context (ESR_ISS_DABORT_WnR MAX_CPUS boot_cpu_idx vaddr_bits : Z).

(** The loop of [hv_emulate_rw]; the buffer comes back, whose bytes a read has
    filled.  [None] is running out of fuel; [left] is enough of it. *)
Fixpoint rw_loop (fuel : nat) (adv : bool) (pte vaddr ipa paddr : Z) (val : list Z) (off left : Z) (is_write : bool) (pc par : Z)
  : M S (option (bool * list Z)) :=
  if left <=? 0 then mret (Some (true, val))
  else
    match fuel with
    | O => mret None
    | Datatypes.S fuel =>
        let width := rw_width left ipa in
        let chunk := 1 .<< width in
        let aval := zeros HV_MAX_RW_SIZE in
        let aval := if is_write then overwrite 0 (ztake chunk (zdrop off val)) aval else aval in
        let pte := if adv then retarget pte paddr else pte in
        r ← hv_emulate_rw_aligned o pte vaddr ipa aval is_write width pc par;
        if negb r.1 then mret (Some (false, val))
        else
          let val := if is_write then val else overwrite off (ztake chunk r.2) val in
          rw_loop fuel adv pte (u64 (vaddr + chunk)) (u64 (ipa + chunk)) (if adv then u64 (paddr + chunk) else paddr)
            val (off + chunk) (left - chunk) is_write pc par
    end.

Definition hv_emulate_rw (pte vaddr ipa : Z) (val : list Z) (is_write : bool) (bytes pc par : Z) : M S (option (bool * list Z)) :=
  rw_loop (Z.to_nat bytes) (advance pte) pte vaddr ipa (rw_paddr pte vaddr) val 0 bytes is_write pc par.

(** ** The UART snoop *)

Definition uart_push (b : Z) (s : abort_state) : abort_state :=
  s <| bmgfw_uart_ring := <[Z.to_nat (bmgfw_uart_idx s .& (BMGFW_UART_SZ - 1)) := b]> (bmgfw_uart_ring s) |>
    <| bmgfw_uart_idx := u32 (bmgfw_uart_idx s + 1) |>.
Definition snooped (is_write : bool) (far : Z) : bool :=
  is_write && (far .& cnot 64 0xfff =? 0x235200000) && (far .& 0xfff =? 0x020).

(** ** The handler *)

Definition page (a : Z) : Z := a .& cnot 64 (MASK VADDR_L3_OFFSET_BITS).

(** The result: [None] is undefined behaviour of C in [emulate_load]
    ([EXT] of a 64-bit value), or [hv_emulate_rw] out of fuel. *)
Abbreviation R := (option bool).

Definition unmapped : M S bool :=
  cpu ← smp_id o;
  pc ← lgets elr;
  lmodify (count_unmapped MAX_CPUS cpu pc);;
  pinned ← hv_pinned_cpu o;
  park ← lgets (must_park MAX_CPUS boot_cpu_idx pinned cpu);
  if (park : bool) then
    hv_exit_cpu o cpu;;
    lmodify (clear_streak cpu);;
    mret true
  else mret false.

(** [hv_emulate_rw] for [n] bytes at [val + off], as the handler calls it: a failure
    ends the handler. *)
Definition rw (pte vaddr ipa : Z) (val : list Z) (off n : Z) (is_write : bool) (pc par : Z) : proc S R (list Z) :=
  r ← call (hv_emulate_rw pte vaddr ipa (zdrop off val) is_write n pc par);
  match r with
  | None => exit None
  | Some (false, _) => exit (Some false)
  | Some (true, out) => mret (ztake off val ++ out)
  end.

(** Store or first pass: the width, the address and the buffer. *)
Definition decode (is_write : bool) (insn far : Z) : proc S R (Z * Z * list Z) :=
  c ← call (lgets ctx);
  if is_write then
    let '((res, ws), c') := emulate_store c insn (replicate 8 0) far in
    call (lmodify (fun s => s <| ctx := c' |>));;
    match res with
    | Emulated width vaddr => mret (width, vaddr, unwords ws)
    | _ => exit (Some false)
    end
  else
    match (emulate_load c insn None far).1 with
    | Emulated width vaddr => mret (width, vaddr, zeros HV_MAX_RW_SIZE)
    | _ => exit (Some false)
    end.

(** The access crosses into the page [page (vaddr + bytes - 1)]; the fault was at
    either part. *)
Definition straddle (pte vaddr ipa far par : Z) (val : list Z) (bytes : Z) (is_write : bool) (pc : Z) : proc S R (list Z) :=
  let vaddrp1 := page (u64 (vaddr + bytes - 1)) in
  let off := u64 (vaddrp1 - vaddr) in
  vaddr2 ← (if far =? vaddr then mret vaddrp1
            else if negb (far =? vaddrp1) then exit (Some false)
            else mret vaddr);
  t ← call (hv_translate o vaddr2 true is_write);
  let '(ipa2, par2) := t in
  when (ipa2 =? 0) (exit (Some false));;
  when (2 ^ vaddr_bits <=? ipa2) (exit (Some false));;
  pte2 ← call (pt_walk o ipa2);
  when (pte2 =? 0) (exit (Some false));;
  if far =? vaddr then
    val ← rw pte vaddr ipa val 0 off is_write pc par;
    rw pte2 vaddr2 ipa2 val off (bytes - off) is_write pc par2
  else
    val ← rw pte2 vaddr2 ipa2 val 0 off is_write pc par2;
    rw pte vaddrp1 ipa val off (bytes - off) is_write pc par.

(** The access, in one part or two. *)
Definition access (pte vaddr ipa far par : Z) (val : list Z) (bytes : Z) (is_write : bool) (pc : Z) : proc S R (list Z) :=
  if page vaddr =? page (u64 (vaddr + bytes - 1)) then
    when (negb (far =? vaddr)) (exit (Some false));;
    rw pte vaddr ipa val 0 bytes is_write pc par
  else straddle pte vaddr ipa far par val bytes is_write pc.

(** The emulation of the instruction [insn] at [pc]. *)
Definition emulate (is_write : bool) (pte far ipa par pc insn : Z) : proc S R R :=
  d ← decode is_write insn far;
  let '(width, vaddr, val) := d in
  when (snooped is_write far) (call (lmodify (uart_push (byte_at val 0))));;
  val ← access pte vaddr ipa far par val (1 .<< width) is_write pc;
  if is_write then mret (Some true)
  else
    c ← call (lgets ctx);
    let '(res, c') := emulate_load c insn (Some (words val)) vaddr in
    call (lmodify (fun s => s <| ctx := c' |>));;
    match res with
    | Emulated _ _ => mret (Some true)
    | Refused => mret (Some false)
    | Undefined => mret None
    end.

Definition hv_handle_dabort : M S R := body (
  esr ← call (hv_get_esr o);
  let is_write := truthy (esr .& ESR_ISS_DABORT_WnR) in
  far ← call (hv_get_far o);
  t ← call (hv_translate o far true is_write);
  let '(ipa, par) := t in
  when (ipa =? 0) (exit (Some false));;
  when (2 ^ vaddr_bits <=? ipa) (exit (Some false));;
  pte ← call (pt_walk o ipa);
  if pte =? 0 then
    park ← call unmapped; mret (Some park)
  else if IS_HW pte then
    call (lmodify (fun s => s <| elr := u64 (elr s - 4) |>));;
    mret (Some true)
  else
    pc ← call (lgets elr);
    t ← call (hv_translate o pc false false);
    let '(elr_pa, _) := t in
    when (elr_pa =? 0) (exit (Some false));;
    insn ← call (read32 o elr_pa);
    emulate is_write pte far ipa par pc insn).
End code.

(** [hv_bmgfw_uart_dump]: the lines it prints. *)
Fixpoint uart_lines (bs line : list Z) : list (list Z) :=
  match bs with
  | [] => match line with [] => [] | _ => [line] end
  | c :: bs =>
      if c =? 13 then uart_lines bs line
      else if (c =? 10) || (159 <=? zlen line) then
        line :: (if c =? 10 then uart_lines bs [] else uart_lines bs [c])
      else uart_lines bs (line ++ [c])
  end.
Definition hv_bmgfw_uart_dump (s : abort_state) : list (list Z) :=
  let total := bmgfw_uart_idx s in
  let n := if total <? BMGFW_UART_SZ then total else BMGFW_UART_SZ in
  let start := u32 (total - n) in
  uart_lines (map (fun k => byte_at (bmgfw_uart_ring s) (u32 (start + Z.of_nat k) .& (BMGFW_UART_SZ - 1))) (seq 0 (Z.to_nat n))) [].

(** ** Chunks *)

Lemma rw_width_spec left ipa : 0 < left ->
  let w := rw_width left ipa in 0 <= w <= 6 /\ 2 ^ w <= left /\ ipa mod 2 ^ w = 0.
Proof.
  intros Hl. unfold rw_width.
  assert (H : forall k, 0 <= k -> (2 ^ k <=? left) && (ipa .& (2 ^ k - 1) =? 0) = true -> 2 ^ k <= left /\ ipa mod 2 ^ k = 0).
  { intros k Hk. rewrite land_ones_mod by done. by rewrite andb_true_iff, Z.leb_le, Z.eqb_eq. }
  repeat match goal with |- context [if ?b then _ else _] => destruct b eqn:?E end.
  - by destruct (H 6 ltac:(done) E).
  - by destruct (H 5 ltac:(done) E0).
  - by destruct (H 4 ltac:(done) E1).
  - by destruct (H 3 ltac:(done) E2).
  - by destruct (H 2 ltac:(done) E3).
  - by destruct (H 1 ltac:(done) E4).
  - split_and!; [done | done | change (2 ^ 0) with 1; lia | by rewrite Z.mod_1_r].
Qed.

(** ** The address of a chunk *)

Lemma testbit_target i : Z.testbit PTE_TARGET_MASK_L4 i = (2 <=? i) && (i <? 50).
Proof. change PTE_TARGET_MASK_L4 with (span 2 48). by rewrite testbit_span. Qed.

Lemma testbit_retarget pte p i : 0 <= i -> in_w 64 pte ->
  Z.testbit (retarget pte p) i = if (2 <=? i) && (i <? 50) then Z.testbit p i else Z.testbit pte i.
Proof.
  intros Hi Hp. unfold retarget. rewrite Z.lor_spec, !Z.land_spec, testbit_cnot, testbit_target by lia.
  destruct ((2 <=? i) && (i <? 50)) eqn:E; cbn.
  - by rewrite andb_true_r, !andb_false_r, orb_false_r.
  - rewrite andb_false_r, orb_false_l, andb_true_r. destruct (Z.ltb_spec i 64); [by rewrite andb_true_r|].
    by rewrite (testbit_in_w 64 pte) by (done || lia).
Qed.

Lemma retarget_retarget pte p q : in_w 64 pte -> retarget (retarget pte p) q = retarget pte q.
Proof.
  intros Hp. assert (Hw : in_w 64 (retarget pte p)).
  { apply in_w_lor; [done | | apply in_w_land_r; [done | by apply in_w_cnot]]. apply in_w_land_r; [done|]. done. }
  apply Z.bits_inj'. intros i Hi. rewrite !testbit_retarget by done. by destruct ((2 <=? i) && (i <? 50)).
Qed.

Lemma advance_bits x : advance x = truthy x && (Z.testbit x 0 || (x .>> 50 .& 7 =? 0)).
Proof.
  unfold advance, IS_HW, IS_SW, SPTE_TYPE, SPTE_MAP. change PTE_VALID with 1. rewrite truthy_bit0.
  by destruct (truthy x), (Z.testbit x 0).
Qed.

(** The address that an access through [pte] has on the bus, or what a hook is
    given. *)
Definition target (pte vaddr ipa : Z) : Z := if advance pte then rw_paddr pte vaddr else ipa.

Lemma rw_paddr_value pte vaddr : rw_paddr pte vaddr = pte / 4 mod 2 ^ 48 * 4 + vaddr mod 4.
Proof.
  unfold rw_paddr. rewrite target4_value. change (MASK VADDR_L4_OFFSET_BITS) with (2 ^ 2 - 1). rewrite land_ones_mod by done.
  change (2 ^ 2) with 4. rewrite Z.lor_comm, <- (Z.shiftl_mul_pow2 _ 2), lor_shiftl_add by (done || (unfold in_w; dlia)).
  rewrite Z.shiftl_mul_pow2 by done. change (2 ^ 2) with 4. lia.
Qed.

Lemma retarget_value pte p va : in_w 64 pte -> 0 <= p < 2 ^ 50 -> va mod 4 = p mod 4 -> rw_paddr (retarget pte p) va = p.
Proof.
  intros Hp Hr Hm. unfold rw_paddr. apply Z.bits_inj'. intros i Hi.
  rewrite Z.lor_spec, Z.land_spec, testbit_retarget, testbit_target by done.
  change (MASK VADDR_L4_OFFSET_BITS) with (2 ^ 2 - 1). rewrite land_ones_mod by done. change (2 ^ 2) with 4. rewrite Hm.
  change 4 with (2 ^ 2). destruct (Z.ltb_spec i 2).
  - replace (2 <=? i) with false by lia. cbn. rewrite andb_false_r, orb_false_l. by apply Z.mod_pow2_bits_low.
  - rewrite Z.mod_pow2_bits_high, orb_false_r by lia. replace (2 <=? i) with true by lia. cbn.
    destruct (Z.ltb_spec i 50); [by rewrite andb_true_r|]. rewrite andb_false_r. symmetry. by apply (testbit_in_w 50).
Qed.

Lemma retarget_advance pte p : in_w 64 pte -> advance pte = true -> pte / 4 mod 2 ^ 48 * 4 <= p < 2 ^ 50 -> advance (retarget pte p) = true.
Proof.
  intros Hw Ha Hp. rewrite advance_bits in *. apply andb_true_iff in Ha as [Ht Ha]. apply truthy_spec in Ht.
  apply andb_true_iff. split.
  - apply truthy_spec. unfold retarget. rewrite Z.lor_eq_0_iff. intros [H1 H2]. rewrite target4_value in H1.
    apply Ht. apply Z.bits_inj'. intros i Hi. rewrite Z.bits_0.
    assert (Hn : Z.testbit (pte .& PTE_TARGET_MASK_L4) i = false).
    { rewrite target4_value. change (2 ^ 2) with 4 in *. replace (pte / 4 mod 2 ^ 48 * 4) with 0 by dlia. apply Z.bits_0. }
    pose proof (f_equal (fun z => Z.testbit z i) H2) as Hb. cbn in Hb. rewrite Z.land_spec, testbit_cnot, Z.bits_0 in Hb by lia.
    rewrite Z.land_spec in Hn. destruct (Z.testbit PTE_TARGET_MASK_L4 i); [by rewrite andb_true_r in Hn|].
    rewrite andb_true_r in Hb. destruct (Z.ltb_spec i 64); [by rewrite andb_true_r in Hb|]. by apply (testbit_in_w 64).
  - rewrite testbit_retarget by done. cbn. replace (retarget pte p .>> 50) with (pte .>> 50); [done|].
    apply Z.bits_inj'. intros i Hi. rewrite !Z.shiftr_spec, testbit_retarget by (done || lia).
    by replace ((2 <=? i + 50) && (i + 50 <? 50)) with false by lia.
Qed.

(** ** Memory as bytes *)

Definition peek (m : Z -> Z) (a n : Z) : list Z := (fun k => m (a + Z.of_nat k)) <$> seq 0 (Z.to_nat n).
Definition poke (m : Z -> Z) (a : Z) (bs : list Z) (x : Z) : Z :=
  if (a <=? x) && (x <? a + zlen bs) then byte_at bs (x - a) else m x.

Lemma zlen_peek m a n : 0 <= n -> zlen (peek m a n) = n.
Proof. intros H. unfold zlen, peek. rewrite length_fmap, length_seq. lia. Qed.

Lemma peek_app m a n k : 0 <= n -> 0 <= k -> peek m a (n + k) = peek m a n ++ peek m (a + n) k.
Proof.
  intros Hn Hk. unfold peek. rewrite Z2Nat.inj_add, seq_app, fmap_app by done. f_equal.
  replace (0 + Z.to_nat n)%nat with (Z.to_nat n + 0)%nat by lia. rewrite <- fmap_add_seq, <- list_fmap_compose.
  apply list_fmap_ext. intros j y _. cbn. f_equal. lia.
Qed.

Lemma peek_ext m m' a n : (forall x, m x = m' x) -> peek m a n = peek m' a n.
Proof. intros H. apply list_fmap_ext. auto. Qed.

Lemma poke_nil m a x : poke m a [] x = m x.
Proof. unfold poke. rewrite zlen_nil. by destruct ((a <=? x) && (x <? a + 0)) eqn:E; [lia|]. Qed.

Lemma poke_app m a b c x : poke (poke m a b) (a + zlen b) c x = poke m a (b ++ c) x.
Proof.
  pose proof (zlen_nonneg b). pose proof (zlen_nonneg c). unfold poke. rewrite zlen_app.
  destruct ((a + zlen b <=? x) && (x <? a + zlen b + zlen c)) eqn:E1.
  - replace ((a <=? x) && (x <? a + (zlen b + zlen c))) with true by lia.
    replace (x - a) with (zlen b + (x - (a + zlen b))) by lia. rewrite byte_at_app_r by lia. done.
  - destruct ((a <=? x) && (x <? a + zlen b)) eqn:E2.
    + replace ((a <=? x) && (x <? a + (zlen b + zlen c))) with true by lia. by rewrite byte_at_app_l by lia.
    + by replace ((a <=? x) && (x <? a + (zlen b + zlen c))) with false by lia.
Qed.

Lemma poke_ext m m' a b x : (forall y, m y = m' y) -> poke m a b x = poke m' a b x.
Proof. intros H. unfold poke. by rewrite H. Qed.

Lemma zdrop_past {A} (a b : list A) n : 0 <= n -> zdrop (zlen a + n) (a ++ b) = zdrop n b.
Proof. intros Hn. unfold zdrop, zlen. rewrite Z2Nat.inj_add, Nat2Z.id by lia. apply drop_app_add. Qed.

Lemma overwrite_concat off x y l : 0 <= off -> off + zlen x <= zlen l ->
  overwrite (off + zlen x) y (overwrite off x l) = overwrite off (x ++ y) l.
Proof.
  intros Ho Hl. pose proof (zlen_nonneg x). pose proof (zlen_nonneg y). unfold overwrite.
  rewrite (app_assoc (ztake off l) x).
  assert (Hz : zlen (ztake off l ++ x) = off + zlen x) by (rewrite zlen_app, zlen_ztake by lia; lia).
  rewrite ztake_app by lia. rewrite <- Hz at 1. rewrite zdrop_past, zdrop_zdrop by lia.
  rewrite <- !app_assoc, zlen_app. do 4 f_equal. lia.
Qed.

Lemma overwrite_front bs n l : zlen bs = n -> ztake n (overwrite 0 bs l) = bs.
Proof. intros <-. unfold overwrite. change (ztake 0 l) with (@nil Z). cbn [app]. by apply ztake_app. Qed.

Lemma ztake_split {A} off n k (l : list A) : 0 <= off -> 0 <= n -> 0 <= k ->
  ztake (n + k) (zdrop off l) = ztake n (zdrop off l) ++ ztake k (zdrop (off + n) l).
Proof.
  intros. unfold ztake, zdrop. rewrite !Z2Nat.inj_add by lia. rewrite <- drop_drop. symmetry. apply take_take_drop.
Qed.

(** ** The loop of [hv_emulate_rw] *)

Section device.
Context {S : Type} `{L : !Lens S abort_state} (o : abort_ops S) (mem : S -> Z -> Z).

(** Nothing the theorems look at has changed. *)
Definition same (s s' : S) : Prop := lget s' = lget s /\ forall x, mem s' x = mem s x.
#[export] Instance same_equiv : Equivalence same.
Proof.
  split; [done | intros s t [H1 H2]; split; [done | intros; symmetry; auto] |].
  intros s t u [H1 H2] [H3 H4]. split; [congruence | intros; rewrite H4; auto].
Qed.

(** A device that is memory: an aligned access reads or writes the bytes at its
    address.  Reads of 64 bytes, which no load makes, are not asked for. *)
Class Device : Prop := {
  dev_read pte va ipa w pc par s : 0 <= w <= 5 -> ipa mod 2 ^ w = 0 ->
    0 <= target pte va ipa -> target pte va ipa + 2 ^ w <= 2 ^ 64 -> (forall x, in_w 8 (mem s x)) ->
    mwp (hv_emulate_rw_aligned o pte va ipa (zeros HV_MAX_RW_SIZE) false w pc par)
      (fun r s' => r = (true, overwrite 0 (peek (mem s) (target pte va ipa) (2 ^ w)) (zeros HV_MAX_RW_SIZE)) /\ same s s') s;
  dev_write pte va ipa aval w pc par s : 0 <= w <= 6 -> ipa mod 2 ^ w = 0 -> zlen aval = HV_MAX_RW_SIZE -> bytes_ok aval ->
    0 <= target pte va ipa -> target pte va ipa + 2 ^ w <= 2 ^ 64 ->
    mwp (hv_emulate_rw_aligned o pte va ipa aval true w pc par)
      (fun r s' => r.1 = true /\ lget s' = lget s /\ forall x, mem s' x = poke (mem s) (target pte va ipa) (ztake (2 ^ w) aval) x) s;
}.
Context `{D : !Device}.

(** From here on the loop walks [n] addresses from [a]. *)
Definition walks (adv : bool) (pte va ipa paddr a n : Z) : Prop :=
  in_w 64 pte /\ in_w 64 va /\ in_w 64 ipa /\ in_w 64 paddr /\
  forall k pte', 0 <= k < n -> (if adv then forall p, retarget pte' p = retarget pte p else pte' = pte) ->
    target (if adv then retarget pte' (u64 (paddr + k)) else pte') (u64 (va + k)) (u64 (ipa + k)) = a + k.

Lemma walks_here adv pte va ipa paddr a n : walks adv pte va ipa paddr a n -> 0 < n ->
  target (if adv then retarget pte paddr else pte) va ipa = a.
Proof using.
  intros (Hp & Hv & Hi & Hq & Ht) Hn. specialize (Ht 0 pte ltac:(lia)). rewrite !Z.add_0_r, !wrap_small in Ht by done.
  apply Ht. by destruct adv.
Qed.

Lemma walks_step adv pte va ipa paddr a n c : walks adv pte va ipa paddr a n -> 0 <= c <= n ->
  walks adv (if adv then retarget pte paddr else pte) (u64 (va + c)) (u64 (ipa + c)) (if adv then u64 (paddr + c) else paddr) (a + c) (n - c).
Proof using.
  intros (Hp & Hv & Hi & Hq & Ht) Hc.
  assert (Hadd : forall x k, u64 (u64 (x + c) + k) = u64 (x + (c + k))).
  { intros x k. rewrite Z.add_comm, wrap_add_r. f_equal. lia. }
  split_and!; try by apply wrap_range.
  - destruct adv; [|done]. unfold retarget. apply in_w_lor; [done | | apply in_w_land_r; [done | by apply in_w_cnot]].
    by apply in_w_land_r.
  - destruct adv; [by apply wrap_range | done].
  - intros k pte' Hk Hpte'. rewrite !Hadd. replace (a + c + k) with (a + (c + k)) by lia.
    destruct adv; rewrite ?Hadd.
    + apply (Ht (c + k)); [lia|]. intros p. by rewrite Hpte', retarget_retarget.
    + specialize (Ht (c + k) pte' ltac:(lia) Hpte'). done.
Qed.

Lemma rw_loop_read fuel adv pte va ipa paddr val off left pc par a s :
  walks adv pte va ipa paddr a left -> 0 <= off -> 0 <= left <= 32 -> off + left <= zlen val -> (Z.to_nat left <= fuel)%nat ->
  0 <= a -> a + left <= 2 ^ 64 -> (forall x, in_w 8 (mem s x)) ->
  mwp (rw_loop o fuel adv pte va ipa paddr val off left false pc par)
    (fun r s' => r = Some (true, overwrite off (peek (mem s) a left) val) /\ same s s') s.
Proof using D.
  revert pte va ipa paddr val off left a s. induction fuel as [|fuel IH]; intros pte va ipa paddr val off left a s Hw Ho Hl Hv Hf Ha0 Ha Hb;
    cbn [rw_loop]; (destruct (Z.leb_spec left 0); [replace left with 0 by lia; apply mwp_ret; split;
      [unfold overwrite; cbn [app]; change (peek (mem s) a 0) with (@nil Z); rewrite zlen_nil, Z.add_0_r; cbn [app]; by rewrite ztake_zdrop | done] |]); [lia|].
  destruct (rw_width_spec left ipa ltac:(done)) as (Hw6 & Hle & Hal). set (w := rw_width left ipa) in *.
  assert (H5 : w <= 5).
  { assert (Hn6 : w <> 6) by (intros E; rewrite E in Hle; change (2 ^ 6) with 64 in Hle; lia). lia. }
  rewrite Z.shiftl_mul_pow2, Z.mul_1_l by lia. set (c := 2 ^ w) in *. assert (Hc : 0 < c) by (apply Z.pow_pos_nonneg; lia).
  pose proof (walks_here _ _ _ _ _ _ _ Hw ltac:(lia)) as Hat. apply mwp_bind.
  eapply mwp_mono; [apply (dev_read _ va ipa w pc par); [lia | done | rewrite Hat; lia | rewrite Hat; fold c; lia | done] |]. intros r s1 [-> Hs1]. cbn [fst snd negb]. fold c.
  rewrite Hat, overwrite_front by (apply zlen_peek; lia).
  assert (Hzp : zlen (peek (mem s) a c) = c) by (apply zlen_peek; lia).
  assert (Hzo : zlen (overwrite off (peek (mem s) a c) val) = zlen val) by (apply zlen_overwrite; lia).
  eapply mwp_mono; [apply (IH _ _ _ _ _ _ _ (a + c)); [apply walks_step; [done | lia] | lia | lia | lia | lia | lia | lia | intros x; by rewrite (proj2 Hs1)] |].
  intros r s2 [-> Hs2]. split; [|by etrans]. do 2 f_equal.
  replace left with (c + (left - c)) at 2 by lia. rewrite peek_app, <- overwrite_concat by (rewrite ?Hzp; lia). rewrite Hzp. f_equal.
  apply peek_ext. intros x. apply Hs1.
Qed.

Lemma rw_loop_write fuel adv pte va ipa paddr val off left pc par a s :
  walks adv pte va ipa paddr a left -> 0 <= off -> 0 <= left -> off + left <= zlen val -> (Z.to_nat left <= fuel)%nat ->
  0 <= a -> a + left <= 2 ^ 64 -> bytes_ok val ->
  mwp (rw_loop o fuel adv pte va ipa paddr val off left true pc par)
    (fun r s' => r = Some (true, val) /\ lget s' = lget s /\ forall x, mem s' x = poke (mem s) a (ztake left (zdrop off val)) x) s.
Proof using D.
  revert pte va ipa paddr off left a s. induction fuel as [|fuel IH]; intros pte va ipa paddr off left a s Hw Ho Hl Hv Hf Ha0 Ha Hb;
    cbn [rw_loop]; (destruct (Z.leb_spec left 0); [replace left with 0 by lia; apply mwp_ret; split_and!;
      [done | done | intros x; change (ztake 0 (zdrop off val)) with (@nil Z); by rewrite poke_nil] |]); [lia|].
  destruct (rw_width_spec left ipa ltac:(done)) as (Hw6 & Hle & Hal). set (w := rw_width left ipa) in *.
  rewrite Z.shiftl_mul_pow2, Z.mul_1_l by lia. set (c := 2 ^ w) in *. assert (Hc : 0 < c) by (apply Z.pow_pos_nonneg; lia).
  assert (Hc6 : c <= 64) by (change 64 with (2 ^ 6); apply Z.pow_le_mono_r; lia).
  assert (Hzt : zlen (ztake c (zdrop off val)) = c) by (apply zlen_ztake; rewrite zlen_zdrop; lia).
  pose proof (walks_here _ _ _ _ _ _ _ Hw ltac:(lia)) as Hat. apply mwp_bind.
  eapply mwp_mono; [apply (dev_write _ va ipa _ w pc par);
    [lia | done | rewrite zlen_overwrite; rewrite ?Hzt; [done | lia | done] | auto 6 using bytes_ok_ztake, bytes_ok_zdrop, bytes_ok_overwrite, bytes_ok_zeros | rewrite Hat; lia | rewrite Hat; fold c; lia] |].
  intros r s1 (Hr & Hg1 & Hm1). rewrite Hr. cbn [negb]. fold c in Hm1.
  rewrite Hat, overwrite_front in Hm1 by done.
  eapply mwp_mono; [apply (IH _ _ _ _ _ _ (a + c)); [apply walks_step; [done | lia] | lia | lia | lia | lia | lia | lia | done] |].
  intros r2 s2 (-> & Hg2 & Hm2). split_and!; [done | congruence |]. intros x. rewrite Hm2.
  replace left with (c + (left - c)) at 2 by lia. rewrite ztake_split, <- poke_app, Hzt by lia. by apply poke_ext.
Qed.
(** What an access of [n] bytes through one entry asks of its arguments: no address
    wraps, and memory stays below the 50 bits of an entry. *)
Definition part_ok (pte va ipa n : Z) : Prop :=
  in_w 64 pte /\ in_w 64 va /\ 0 <= ipa /\ ipa + n <= 2 ^ 64 /\ 0 < n /\
  (advance pte = true -> rw_paddr pte va + n <= 2 ^ 50).

Lemma part_walks pte va ipa n : part_ok pte va ipa n -> walks (advance pte) pte va ipa (rw_paddr pte va) (target pte va ipa) n.
Proof using.
  intros (Hp & Hv & Hi & Hin & Hn & Ha).
  assert (Hb : 0 <= pte / 4 mod 2 ^ 48 * 4 <= rw_paddr pte va /\ rw_paddr pte va < 2 ^ 50).
  { rewrite rw_paddr_value. pose proof (Z.mod_pos_bound va 4 ltac:(done)). pose proof (Z.mod_pos_bound (pte / 4) (2 ^ 48) ltac:(done)). lia. }
  split_and!; [done | done | unfold in_w; lia | unfold in_w; lia |].
  intros k pte' Hk Hq. unfold target at 2. destruct (advance pte) eqn:E.
  - specialize (Ha eq_refl). rewrite Hq, (wrap_small 64 (rw_paddr pte va + k)) by (unfold in_w; lia).
    unfold target. rewrite retarget_advance by (done || lia). apply retarget_value; [done | lia |].
    unfold wrap. change (2 ^ 64) with (4 * 2 ^ 62). rewrite <- Znumtheory.Zmod_div_mod by (done || by exists (2 ^ 62)).
    rewrite rw_paddr_value. replace (pte / 4 mod 2 ^ 48 * 4 + va mod 4 + k) with (va mod 4 + k + pte / 4 mod 2 ^ 48 * 4) by lia.
    by rewrite Z_mod_plus_full, Zplus_mod_idemp_l.
  - subst pte'. unfold target. rewrite E. apply wrap_small. unfold in_w. lia.
Qed.

Lemma part_target pte va ipa n : part_ok pte va ipa n -> 0 <= target pte va ipa /\ target pte va ipa + n <= 2 ^ 64.
Proof using.
  intros (Hp & Hv & Hi & Hin & Hn & Ha). unfold target. destruct (advance pte); [|done]. specialize (Ha eq_refl).
  rewrite rw_paddr_value in *. pose proof (Z.mod_pos_bound va 4 ltac:(done)). pose proof (Z.mod_pos_bound (pte / 4) (2 ^ 48) ltac:(done)). lia.
Qed.

(** Reading [n] bytes: the bytes at the target come first in the buffer. *)
Lemma rw_read pte va ipa val n pc par s : part_ok pte va ipa n -> n <= 32 -> n <= zlen val ->
  (forall x, in_w 8 (mem s x)) ->
  mwp (hv_emulate_rw o pte va ipa val false n pc par)
    (fun r s' => r = Some (true, overwrite 0 (peek (mem s) (target pte va ipa) n) val) /\ same s s') s.
Proof using D. intros Hp H32 Hv Hb. pose proof (part_target _ _ _ _ Hp) as [Ht1 Ht2]. apply rw_loop_read; [by apply part_walks | done | destruct Hp as (_ & _ & _ & _ & ? & _); lia | done | done | done | done | done]. Qed.

Lemma rw_write pte va ipa val n pc par s : part_ok pte va ipa n -> n <= zlen val -> bytes_ok val ->
  mwp (hv_emulate_rw o pte va ipa val true n pc par)
    (fun r s' => r = Some (true, val) /\ lget s' = lget s /\ forall x, mem s' x = poke (mem s) (target pte va ipa) (ztake n val) x) s.
Proof using D. intros Hp Hv Hb. pose proof (part_target _ _ _ _ Hp) as [Ht1 Ht2]. apply rw_loop_write; [by apply part_walks | done | destruct Hp as (_ & _ & _ & _ & ? & _); lia | done | done | done | done | done]. Qed.

Lemma rw_read_at pte va ipa val off n pc par s (Q : option bool + list Z -> S -> Prop) :
  part_ok pte va ipa n -> n <= 32 -> 0 <= off -> off + n <= zlen val -> (forall x, in_w 8 (mem s x)) ->
  (forall s', same s s' -> Q (inr (overwrite off (peek (mem s) (target pte va ipa) n) val)) s') ->
  wp (rw o pte va ipa val off n false pc par) Q s.
Proof using D.
  intros Hp H32 Ho Hv Hb HQ. pose proof Hp as (_ & _ & _ & _ & Hn & _). unfold rw. apply wp_bind, wp_call.
  eapply mwp_mono; [apply rw_read; [done | done | rewrite zlen_zdrop; lia | done] |]. intros r s' [-> Hs']. apply wp_ret.
  pose proof (overwrite_skip (ztake off val) (zdrop off val) (peek (mem s) (target pte va ipa) n) off) as E.
  rewrite ztake_zdrop, zlen_ztake, Z.sub_diag in E by lia. rewrite <- E by lia. by apply HQ.
Qed.

Lemma rw_write_at pte va ipa val off n pc par s (Q : option bool + list Z -> S -> Prop) :
  part_ok pte va ipa n -> 0 <= off -> off + n <= zlen val -> bytes_ok val ->
  (forall s', lget s' = lget s -> (forall x, mem s' x = poke (mem s) (target pte va ipa) (ztake n (zdrop off val)) x) -> Q (inr val) s') ->
  wp (rw o pte va ipa val off n true pc par) Q s.
Proof using D.
  intros Hp Ho Hv Hb HQ. pose proof Hp as (_ & _ & _ & _ & Hn & _). unfold rw. apply wp_bind, wp_call.
  eapply mwp_mono; [apply rw_write; [done | rewrite zlen_zdrop; lia | by apply bytes_ok_zdrop] |]. intros r s' (-> & Hg & Hm). apply wp_ret.
  rewrite ztake_zdrop. by apply HQ.
Qed.
End device.

(** ** Pages *)

Lemma page_value a : in_w 64 a -> page a = a / 2 ^ 14 * 2 ^ 14.
Proof. intros Ha. unfold page. change (MASK VADDR_L3_OFFSET_BITS) with (2 ^ 14 - 1). by apply land_cnot_mask. Qed.

(** The second page of an access that has two. *)
Definition upper (va n : Z) : Z := page (u64 (va + n - 1)).
Definition one_page (va n : Z) : bool := page va =? upper va n.

Lemma upper_range va n : in_w 64 va -> 0 < n <= 64 -> va + n <= 2 ^ 64 -> one_page va n = false ->
  0 < upper va n - va < n /\ u64 (upper va n - va) = upper va n - va.
Proof.
  unfold one_page, upper, in_w. intros Hv Hn Hs Hp. rewrite Z.eqb_neq, wrap_small, !page_value in * by (unfold in_w; lia).
  assert (Hu : 0 < (va + n - 1) / 2 ^ 14 * 2 ^ 14 - va < n) by (change (2 ^ 14) with 16384 in *; dlia).
  split; [done | apply wrap_small; unfold in_w; lia].
Qed.

(** ** The exception and the machine around it *)

Section exception.
Context {S : Type} `{L : !Lens S abort_state} (o : abort_ops S) (mem : S -> Z -> Z).
Context (ESR_ISS_DABORT_WnR MAX_CPUS boot_cpu_idx vaddr_bits : Z).
(** The syndrome and the faulting address; the guest's translation of data and
    instruction addresses; the page-table entries; the instructions. *)
Context (esr far : Z) (ipa_of par_of fetch entry code : Z -> Z).

Class Exception : Prop := {
  ex_esr s : mwp (hv_get_esr o) (fun r s' => r = esr /\ same mem s s') s;
  ex_far s : mwp (hv_get_far o) (fun r s' => r = far /\ same mem s s') s;
  ex_data va w s : mwp (hv_translate o va true w) (fun r s' => r = (ipa_of va, par_of va) /\ same mem s s') s;
  ex_fetch pc s : mwp (hv_translate o pc false false) (fun r s' => r.1 = fetch pc /\ same mem s s') s;
  ex_walk ipa s : mwp (pt_walk o ipa) (fun r s' => r = entry ipa /\ same mem s s') s;
  ex_insn pa s : mwp (read32 o pa) (fun r s' => r = code pa /\ same mem s s') s;
  ex_mem a s x : mem (lset a s) x = mem s x;
}.
Context `{E : !Exception} `{D : !Device o mem}.

(** Where the guest's address [va] is, and the bytes of an access of [n] there. *)
Definition place (va : Z) : Z := target (entry (ipa_of va)) va (ipa_of va).
Definition gather (m : Z -> Z) (va n : Z) : list Z :=
  if one_page va n then peek m (place va) n
  else peek m (place va) (upper va n - va) ++ peek m (place (upper va n)) (n - (upper va n - va)).
Definition scatter (m : Z -> Z) (va : Z) (bs : list Z) (x : Z) : Z :=
  let n := zlen bs in
  if one_page va n then poke m (place va) bs x
  else poke (poke m (place va) (ztake (upper va n - va) bs)) (place (upper va n)) (zdrop (upper va n - va) bs) x.

(** An address that the handler can emulate an access to, of [n] bytes. *)
Definition reachable (va n : Z) : Prop :=
  ipa_of va <> 0 /\ ipa_of va < 2 ^ vaddr_bits /\ entry (ipa_of va) <> 0 /\ part_ok (entry (ipa_of va)) va (ipa_of va) n.
(** The access of [n] bytes at [va], with the fault in its first or its second page. *)
Definition accessible (va n : Z) : Prop :=
  va + n <= 2 ^ 64 /\ 0 < n <= 64 /\ in_w 64 va /\
  if one_page va n then far = va /\ reachable va n
  else (far = va \/ far = upper va n) /\ reachable va (upper va n - va) /\ reachable (upper va n) (n - (upper va n - va)).

Lemma wp_data {A} va w (k : Z * Z -> proc S (option bool) A) Q s :
  (forall s', same mem s s' -> wp (k (ipa_of va, par_of va)) Q s') -> wp (t ← call (hv_translate o va true w); k t) Q s.
Proof using E. intros H. apply wp_bind, wp_call. eapply mwp_mono; [apply ex_data |]. intros r s' [-> Hs]. by apply H. Qed.

Lemma wp_walk {A} ipa (k : Z -> proc S (option bool) A) Q s :
  (forall s', same mem s s' -> wp (k (entry ipa)) Q s') -> wp (t ← call (pt_walk o ipa); k t) Q s.
Proof using E. intros H. apply wp_bind, wp_call. eapply mwp_mono; [apply ex_walk |]. intros r s' [-> Hs]. by apply H. Qed.

Lemma wp_guard {A} b r (k : proc S (option bool) A) Q s : b = false -> wp k Q s -> wp (when b (exit r);; k) Q s.
Proof using. intros -> H. by apply wp_bind, wp_ret. Qed.

Lemma overwrite_padded bs : zlen bs <= 64 -> overwrite 0 bs (zeros 64) = padded bs.
Proof using.
  intros Hb. rewrite <- (app_nil_r (zeros 64)), overwrite_zeros by lia. unfold padded. rewrite zeros_0, !app_nil_r. cbn [app].
  by rewrite Z.sub_0_r.
Qed.

(** The second translation and walk of a straddling access. *)
Lemma second_part va2 w n (k : Z -> Z -> Z -> proc S (option bool) (list Z)) Q s : reachable va2 n ->
  (forall s', same mem s s' -> wp (k (ipa_of va2) (par_of va2) (entry (ipa_of va2))) Q s') ->
  wp (t ← call (hv_translate o va2 true w);
      let '(ipa2, par2) := t in
      when (ipa2 =? 0) (exit (Some false));;
      when (2 ^ vaddr_bits <=? ipa2) (exit (Some false));;
      pte2 ← call (pt_walk o ipa2);
      when (pte2 =? 0) (exit (Some false));;
      k ipa2 par2 pte2) Q s.
Proof using E.
  intros (H0 & Hb & He & _) HQ. apply wp_data. intros s1 H1. apply wp_guard; [lia|]. apply wp_guard; [lia|].
  apply wp_walk. intros s2 H2. apply wp_guard; [lia|]. apply HQ. by etrans.
Qed.

Lemma access_read va n pc s (Q : option bool + list Z -> S -> Prop) : accessible va n -> n <= 32 -> (forall x, in_w 8 (mem s x)) ->
  (forall s', same mem s s' -> Q (inr (padded (gather (mem s) va n))) s') ->
  wp (access o vaddr_bits (entry (ipa_of far)) va (ipa_of far) far (par_of far) (zeros 64) n false pc) Q s.
Proof using E D.
  intros (Hs & Hn & Hv & Ha) H32 Hb HQ. unfold access.
  assert (Hbs : forall s', same mem s s' -> forall x, in_w 8 (mem s' x)) by (intros s' [_ M] x; rewrite M; apply Hb). fold (upper va n). fold (one_page va n). unfold gather in HQ.
  destruct (one_page va n) eqn:Ho.
  - destruct Ha as [-> Hr]. apply wp_guard; [by rewrite Z.eqb_refl|].
    apply (rw_read_at o mem); [apply Hr | done | done | rewrite zlen_zeros by done; lia | done |]. intros s' Hs'.
    rewrite overwrite_padded by (rewrite zlen_peek; lia). by apply HQ.
  - destruct (upper_range va n Hv Hn Hs Ho) as [Hk Eu]. destruct Ha as (Hfar & Hr1 & Hr2).
    set (u := upper va n) in *. set (k := u - va) in *.
    assert (Hfin : forall s1 s2, same mem s s1 -> same mem s1 s2 ->
      Q (inr (overwrite k (peek (mem s1) (place u) (n - k)) (overwrite 0 (peek (mem s) (place va) k) (zeros 64)))) s2).
    { intros s1 s2 H1 H2. pose proof (zlen_peek (mem s) (place va) k ltac:(lia)) as Hz.
      rewrite <- Hz at 1. change (zlen (peek (mem s) (place va) k)) with (0 + zlen (peek (mem s) (place va) k)).
      rewrite overwrite_concat by (rewrite ?Hz, ?zlen_zeros by lia; lia).
      rewrite (peek_ext (mem s1) (mem s)) by apply H1.
      rewrite overwrite_padded by (rewrite zlen_app, !zlen_peek by lia; lia). apply HQ. by etrans. }
    unfold straddle. fold (upper va n). fold u. change (u - va) with k. rewrite Eu. apply wp_bind.
    destruct Hfar as [Hfar|Hfar].
    + rewrite Hfar, Z.eqb_refl. apply wp_ret, (second_part _ _ (n - k)); [done|]. intros s1 H1. cbn beta iota.
      apply wp_bind. rewrite <- Hfar at 1 2. apply (rw_read_at o mem); [rewrite Hfar; apply Hr1 | lia | done | rewrite zlen_zeros by done; lia | by apply Hbs |].
      intros s2 H2. rewrite Hfar. apply (rw_read_at o mem); [apply Hr2 | lia | lia | | apply Hbs; by etrans |].
      { rewrite zlen_overwrite; rewrite ?zlen_peek by lia; rewrite ?zlen_zeros by done; lia. }
      intros s3 H3. fold (place va) (place u). rewrite (peek_ext (mem s1) (mem s)) by apply H1. apply (Hfin s2); [by etrans | done].
    + assert (Hne : far =? va = false) by lia. rewrite Hne, Hfar, Z.eqb_refl. cbn [negb].
      apply wp_ret, (second_part _ _ k); [done|]. intros s1 H1. cbn beta iota.
      apply wp_bind. apply (rw_read_at o mem); [apply Hr1 | lia | done | rewrite zlen_zeros by done; lia | by apply Hbs |].
      intros s2 H2. apply (rw_read_at o mem); [apply Hr2 | lia | lia | | apply Hbs; by etrans |].
      { rewrite zlen_overwrite; rewrite ?zlen_peek by lia; rewrite ?zlen_zeros by done; lia. }
      intros s3 H3. fold (place va) (place u). rewrite (peek_ext (mem s1) (mem s)) by apply H1. apply (Hfin s2); [by etrans | done].
Qed.
Lemma access_write va n val pc s (Q : option bool + list Z -> S -> Prop) : accessible va n -> zlen val = 64 -> bytes_ok val ->
  (forall s', lget s' = lget s -> (forall x, mem s' x = scatter (mem s) va (ztake n val) x) -> Q (inr val) s') ->
  wp (access o vaddr_bits (entry (ipa_of far)) va (ipa_of far) far (par_of far) val n true pc) Q s.
Proof using E D.
  intros (Hs & Hn & Hv & Ha) Hval Hb HQ. unfold access. fold (upper va n). fold (one_page va n).
  assert (Hz : zlen (ztake n val) = n) by (apply zlen_ztake; lia). unfold scatter in HQ. rewrite Hz in HQ.
  destruct (one_page va n) eqn:Ho.
  - destruct Ha as [-> Hr]. apply wp_guard; [by rewrite Z.eqb_refl|].
    apply (rw_write_at o mem); [apply Hr | done | lia | done |]. intros s' Hg Hm. by apply HQ.
  - destruct (upper_range va n Hv Hn Hs Ho) as [Hk Eu]. destruct Ha as (Hfar & Hr1 & Hr2).
    set (u := upper va n) in *. set (k := u - va) in *.
    assert (E1 : ztake k (zdrop 0 val) = ztake k (ztake n val)).
    { unfold ztake. rewrite take_take. f_equal. lia. }
    assert (E2 : ztake (n - k) (zdrop k val) = zdrop k (ztake n val)).
    { unfold ztake, zdrop. rewrite take_drop_commute. do 2 f_equal. lia. }
    assert (Hfin : forall s1 s2 s3, same mem s s1 -> lget s2 = lget s1 ->
      (forall x, mem s2 x = poke (mem s1) (place va) (ztake k (zdrop 0 val)) x) -> lget s3 = lget s2 ->
      (forall x, mem s3 x = poke (mem s2) (place u) (ztake (n - k) (zdrop k val)) x) -> Q (inr val) s3).
    { intros s1 s2 s3 [G1 M1] G2 M2 G3 M3. apply HQ; [congruence|]. intros x. rewrite M3, E2. apply poke_ext. intros y.
      rewrite M2, E1. by apply poke_ext. }
    unfold straddle. fold (upper va n). fold u. change (u - va) with k. rewrite Eu. apply wp_bind.
    destruct Hfar as [Hfar|Hfar].
    + rewrite Hfar, Z.eqb_refl. apply wp_ret, (second_part _ _ (n - k)); [done|]. intros s1 H1. cbn beta iota.
      apply wp_bind. rewrite <- Hfar at 1 2. apply (rw_write_at o mem); [rewrite Hfar; apply Hr1 | done | lia | done |].
      intros s2 G2 M2. rewrite ?Hfar in M2. rewrite ?Hfar. apply (rw_write_at o mem); [apply Hr2 | lia | lia | done |].
      intros s3 G3 M3. by apply (Hfin s1 s2).
    + assert (Hne : far =? va = false) by lia. rewrite Hne, Hfar, Z.eqb_refl. cbn [negb].
      apply wp_ret, (second_part _ _ k); [done|]. intros s1 H1. cbn beta iota.
      apply wp_bind. apply (rw_write_at o mem); [apply Hr1 | done | lia | done |].
      intros s2 G2 M2. apply (rw_write_at o mem); [apply Hr2 | lia | lia | done |].
      intros s3 G3 M3. by apply (Hfin s1 s2).
Qed.

(** Without a translation the access is not emulated; on a page that hardware maps
    by now it is tried again. *)
Lemma dabort_untranslated s : ipa_of far = 0 \/ 2 ^ vaddr_bits <= ipa_of far ->
  mwp (hv_handle_dabort o ESR_ISS_DABORT_WnR MAX_CPUS boot_cpu_idx vaddr_bits) (fun r s' => r = Some false /\ same mem s s') s.
Proof using E.
  intros Hbad. unfold hv_handle_dabort. apply mwp_body.
  apply wp_bind, wp_call. eapply mwp_mono; [apply ex_esr |]. intros r s1 [-> H1].
  apply wp_bind, wp_call. eapply mwp_mono; [apply ex_far |]. intros r s2 [-> H2].
  apply wp_data. intros s3 H3. assert (Hall : same mem s s3) by (do 2 (etrans; [eassumption|]); done).
  apply wp_bind. unfold when at 1. destruct (Z.eqb_spec (ipa_of far) 0); [by apply wp_exit|]. apply wp_ret.
  apply wp_bind. unfold when at 1. destruct (Z.leb_spec (2 ^ vaddr_bits) (ipa_of far)); [by apply wp_exit|]. lia.
Qed.

Lemma dabort_mapped s : ipa_of far <> 0 -> ipa_of far < 2 ^ vaddr_bits -> IS_HW (entry (ipa_of far)) = true ->
  mwp (hv_handle_dabort o ESR_ISS_DABORT_WnR MAX_CPUS boot_cpu_idx vaddr_bits)
    (fun r s' => r = Some true /\ lget s' = (lget s) <| elr := u64 (elr (lget s) - 4) |> /\ forall x, mem s' x = mem s x) s.
Proof using E.
  intros H0 Hb Hw. unfold hv_handle_dabort. apply mwp_body.
  apply wp_bind, wp_call. eapply mwp_mono; [apply ex_esr |]. intros r s1 [-> H1].
  apply wp_bind, wp_call. eapply mwp_mono; [apply ex_far |]. intros r s2 [-> H2].
  apply wp_data. intros s3 H3. apply wp_guard; [lia|]. apply wp_guard; [lia|]. apply wp_walk. intros s4 H4.
  assert (Hall : same mem s s4) by (do 3 (etrans; [eassumption|]); done).
  assert (Hne : entry (ipa_of far) =? 0 = false) by (destruct (Z.eqb_spec (entry (ipa_of far)) 0) as [He|]; [by rewrite He in Hw | done]).
  rewrite Hne, Hw. apply wp_bind, wp_call, mwp_lmodify. intros s5 Hs5 G5. apply wp_ret. split_and!; [done | by rewrite G5, (proj1 Hall) |].
  intros x. rewrite Hs5, ex_mem. apply Hall.
Qed.

(** Up to the instruction: the fault is on a page that is mapped in software, and
    the instruction can be read. *)
Definition emulated (s : S) : Prop :=
  ipa_of far <> 0 /\ ipa_of far < 2 ^ vaddr_bits /\ entry (ipa_of far) <> 0 /\ IS_HW (entry (ipa_of far)) = false /\
  fetch (elr (lget s)) <> 0.

Lemma handler_start s Q : emulated s ->
  (forall s', same mem s s' ->
    mwp (body (emulate o vaddr_bits (truthy (esr .& ESR_ISS_DABORT_WnR)) (entry (ipa_of far)) far (ipa_of far) (par_of far)
      (elr (lget s)) (code (fetch (elr (lget s)))))) Q s') ->
  mwp (hv_handle_dabort o ESR_ISS_DABORT_WnR MAX_CPUS boot_cpu_idx vaddr_bits) Q s.
Proof using E.
  intros (H0 & Hb & He & Hw & Hf) HQ. unfold hv_handle_dabort. apply mwp_body.
  apply wp_bind, wp_call. eapply mwp_mono; [apply ex_esr |]. intros r s1 [-> H1].
  apply wp_bind, wp_call. eapply mwp_mono; [apply ex_far |]. intros r s2 [-> H2].
  apply wp_data. intros s3 H3. apply wp_guard; [lia|]. apply wp_guard; [lia|]. apply wp_walk. intros s4 H4.
  rewrite (proj2 (Z.eqb_neq _ 0) He), Hw. assert (Hall : same mem s s4) by (do 3 (etrans; [eassumption|]); done).
  apply wp_bind, wp_call, mwp_lgets. rewrite (proj1 Hall).
  apply wp_bind, wp_call. eapply mwp_mono; [apply ex_fetch |]. intros [pa x] s5 [Hpa H5]. cbn [fst] in Hpa. subst pa.
  apply wp_guard; [lia|]. apply wp_bind, wp_call. eapply mwp_mono; [apply ex_insn |]. intros r s6 [-> H6].
  assert (Hall6 : same mem s s6) by (do 2 (etrans; [eassumption|]); done). specialize (HQ s6 Hall6).
  rewrite mwp_iff in HQ. rewrite wp_iff. unfold body in HQ. by destruct (emulate _ _ _ _ _ _ _ _ _ _) as [[]].
Qed.
Lemma gather_ext m m' va n : (forall x, m x = m' x) -> gather m va n = gather m' va n.
Proof using. intros H. unfold gather. by rewrite !(peek_ext m m') by done. Qed.

Lemma zlen_gather m va n : accessible va n -> zlen (gather m va n) = n.
Proof using.
  intros (Hs & Hn & Hv & _). unfold gather. destruct (one_page va n) eqn:Ho; [apply zlen_peek; lia|].
  destruct (upper_range va n Hv Hn Hs Ho). rewrite zlen_app, !zlen_peek by lia. lia.
Qed.

Lemma peek_ok m a n : (forall x, in_w 8 (m x)) -> bytes_ok (peek m a n).
Proof using. intros H. apply Forall_fmap, Forall_true. intros k. apply H. Qed.

Lemma gather_ok m va n : (forall x, in_w 8 (m x)) -> bytes_ok (gather m va n).
Proof using. intros H. unfold gather. case_match; rewrite ?bytes_ok_app; auto using peek_ok. Qed.

(** The instruction that faulted. *)
Definition at_insn (s : S) (insn : Z) : Prop := code (fetch (elr (lget s))) = insn.

(** A supported load is emulated at the address that the code takes for it. *)
Lemma dabort_load_taken i rt rn s : let c := ctx (lget s) in
  let va := load_taken i (reg c rn) far in let n := 2 ^ load_size i in
  emulated s -> truthy (esr .& ESR_ISS_DABORT_WnR) = false -> at_insn s (encode_load i rt rn) ->
  in_w 5 rt -> in_w 5 rn -> load_wf i -> load_supported i rt rn -> cpu_ok c -> (forall x, in_w 8 (mem s x)) ->
  accessible va n -> n <= 32 ->
  mwp (hv_handle_dabort o ESR_ISS_DABORT_WnR MAX_CPUS boot_cpu_idx vaddr_bits)
    (fun r s' => r = Some true /\ (exists c', lget s' = (lget s) <| ctx := c' |> /\ agree c' (arch_load i rt rn (gather (mem s) va n) c)) /\
      forall x, mem s' x = mem s x) s.
Proof using E D.
  intros c va n Hem Hw Hi Ht Hn Hwf Hs Hc Hb Ha H32. apply handler_start; [done|]. intros s1 [G1 M1]. rewrite Hw, Hi.
  destruct (emulate_load_spec i rt rn c far (gather (mem s) va n) Ht Hn Hwf Hs Hc (gather_ok _ _ _ Hb) (zlen_gather _ _ _ Ha)) as [Hfirst _].
  destruct (emulate_load_spec i rt rn c va (gather (mem s) va n) Ht Hn Hwf Hs Hc (gather_ok _ _ _ Hb) (zlen_gather _ _ _ Ha)) as [_ (c' & Hsecond & Hag)].
  apply mwp_body. unfold emulate, decode. apply wp_bind, wp_bind, wp_call, mwp_lgets. rewrite G1. fold c. rewrite Hfirst. cbn [fst].
  apply wp_ret, wp_bind. unfold snooped. cbn [andb]. unfold when at 1. apply wp_ret.
  rewrite Z.shiftl_mul_pow2, Z.mul_1_l by (destruct i; cbn in Hwf |- *; try destruct x; unfold in_w in *; lia). fold n va. apply wp_bind.
  apply access_read; [done | done | intros x; rewrite M1; apply Hb |]. intros s2 [G2 M2]. rewrite (gather_ext (mem s1) (mem s)) by done.
  apply wp_bind, wp_call, mwp_lgets. rewrite G2, G1. fold c.
  rewrite Hsecond. apply wp_bind, wp_call. apply mwp_lmodify. intros s3 Hs3 G3. apply wp_ret. split_and!; [done | |].
  - exists c'. split; [|done]. by rewrite G3, G2, G1.
  - intros x. rewrite Hs3, ex_mem, M2. apply M1.
Qed.


(** The other loads that have two pages and fault in the second: the bytes come from
    the page boundary on instead of from the instruction's address. *)
Lemma second_page_load i rt rn s : let c := ctx (lget s) in let n := 2 ^ load_size i in
  load_computed i = false ->
  emulated s -> truthy (esr .& ESR_ISS_DABORT_WnR) = false -> at_insn s (encode_load i rt rn) ->
  in_w 5 rt -> in_w 5 rn -> load_wf i -> load_supported i rt rn -> cpu_ok c -> (forall x, in_w 8 (mem s x)) ->
  accessible far n -> n <= 32 ->
  mwp (hv_handle_dabort o ESR_ISS_DABORT_WnR MAX_CPUS boot_cpu_idx vaddr_bits)
    (fun r s' => r = Some true /\ (exists c', lget s' = (lget s) <| ctx := c' |> /\ agree c' (arch_load i rt rn (gather (mem s) far n) c)) /\
      forall x, mem s' x = mem s x) s.
Proof using E D.
  intros c n Hu. assert (Et : load_taken i (reg c rn) far = far).
  { destruct i as [? a|? ? a| | |? a|a| |]; try done; by destruct a. }
  pose proof (dabort_load_taken i rt rn s) as H. cbv zeta in H. fold c n in H. rewrite Et in H. exact H.
Qed.

(** What the UART ring gets of a store. *)
Definition snoop (b : Z) (st : abort_state) : abort_state := if snooped true far then uart_push b st else st.

(** A supported store is emulated at the address that the code takes for it. *)
Lemma dabort_store_taken i rt rn s : let c := ctx (lget s) in
  let va := store_taken i (X c rn) far in let bs := arch_store i rt c in
  emulated s -> truthy (esr .& ESR_ISS_DABORT_WnR) = true -> at_insn s (encode_store i rt rn) ->
  in_w 5 rt -> in_w 5 rn -> store_wf i -> store_supported i rt rn -> cpu_ok c -> accessible va (2 ^ store_size i) ->
  mwp (hv_handle_dabort o ESR_ISS_DABORT_WnR MAX_CPUS boot_cpu_idx vaddr_bits)
    (fun r s' => r = Some true /\
      (exists c', lget s' = snoop (byte_at bs 0) ((lget s) <| ctx := c' |>) /\ agree c' (arch_store_base i rn c)) /\
      forall x, mem s' x = scatter (mem s) va bs x) s.
Proof using E D.
  intros c va bs Hem Hw Hi Ht Hn Hwf Hs Hc Ha. apply handler_start; [done|]. intros s1 [G1 M1]. rewrite Hw, Hi.
  destruct (emulate_store_spec i rt rn c far (replicate 8 0) Ht Hn Hwf Hs Hc) as (ws & c' & Hdec & Hbs & Hag).
  apply mwp_body. unfold emulate, decode. apply wp_bind, wp_bind, wp_call, mwp_lgets. rewrite G1. fold c. rewrite Hdec.
  apply wp_bind, wp_call, mwp_lmodify. intros s2 Hs2 G2. apply wp_ret.
  assert (Hlen : zlen (unwords ws) = 64).
  { pose proof (emulate_store_length c (encode_store i rt rn) (replicate 8 0) far eq_refl) as Hl. rewrite Hdec in Hl. cbn in Hl.
    rewrite zlen_unwords. unfold zlen. by rewrite Hl. }
  pose proof Ha as (_ & [Hpos H64] & _). change (arch_store i rt c) with bs in Hbs.
  assert (Hbs' : ztake (2 ^ store_size i) (unwords ws) = bs) by done.
  assert (Hb0 : byte_at (unwords ws) 0 = byte_at bs 0).
  { rewrite <- (ztake_zdrop (2 ^ store_size i) (unwords ws)), Hbs'. apply byte_at_app_l. rewrite <- Hbs', zlen_ztake by lia. lia. }
  rewrite Hb0. apply wp_bind. fold va.
  assert (Hnext : forall s3, lget s3 = snoop (byte_at bs 0) ((lget s) <| ctx := c' |>) -> (forall x, mem s3 x = mem s x) ->
    wp (access o vaddr_bits (entry (ipa_of far)) va (ipa_of far) far (par_of far) (unwords ws) (1 .<< store_size i) true (elr (lget s)))
      (fun r s' => r = inr (unwords ws) /\ lget s' = snoop (byte_at bs 0) ((lget s) <| ctx := c' |>) /\
        forall x, mem s' x = scatter (mem s) va bs x) s3).
  { intros s3 G3 M3. rewrite Z.shiftl_mul_pow2, Z.mul_1_l by (destruct i; cbn in Hwf |- *; try destruct x; unfold in_w in *; lia).
    apply access_write; [done | done | apply unwords_ok |]. intros s4 G4 M4. split_and!; [done | congruence |]. intros x. rewrite M4, Hbs'.
    unfold scatter. case_match; [by apply poke_ext|]. apply poke_ext. intros y. by apply poke_ext. }
  assert (Hend : forall s3, lget s3 = snoop (byte_at bs 0) ((lget s) <| ctx := c' |>) -> (forall x, mem s3 x = mem s x) ->
    wp (access o vaddr_bits (entry (ipa_of far)) va (ipa_of far) far (par_of far) (unwords ws) (1 .<< store_size i) true (elr (lget s))
      ≫= fun _ => mret (Some true))
      (fun r s' => match r with inl a | inr a => a end = Some true /\
        (exists c'', lget s' = snoop (byte_at bs 0) ((lget s) <| ctx := c'' |>) /\ agree c'' (arch_store_base i rn c)) /\
        forall x, mem s' x = scatter (mem s) va bs x) s3).
  { intros s3 G3 M3. apply wp_bind. eapply wp_mono; [by apply Hnext |]. intros r s4 (-> & G4 & M4). apply wp_ret. split_and!; [done | | done].
    by exists c'. }
  unfold snoop in Hend |- *. unfold when. destruct (snooped true far).
  - apply wp_call, mwp_lmodify. intros s3 Hs3 G3. apply Hend.
    + by rewrite G3, G2, G1.
    + intros x. rewrite Hs3, ex_mem, Hs2, ex_mem. apply M1.
  - apply wp_ret, Hend; [by rewrite G2, G1 |]. intros x. rewrite Hs2, ex_mem. apply M1.
Qed.


(** The other stores that have two pages and fault in the second write all their bytes
    from the page boundary on. *)
Lemma second_page_store i rt rn s : let c := ctx (lget s) in let bs := arch_store i rt c in
  store_computed i = false ->
  emulated s -> truthy (esr .& ESR_ISS_DABORT_WnR) = true -> at_insn s (encode_store i rt rn) ->
  in_w 5 rt -> in_w 5 rn -> store_wf i -> store_supported i rt rn -> cpu_ok c -> accessible far (2 ^ store_size i) ->
  mwp (hv_handle_dabort o ESR_ISS_DABORT_WnR MAX_CPUS boot_cpu_idx vaddr_bits)
    (fun r s' => r = Some true /\
      (exists c', lget s' = snoop (byte_at bs 0) ((lget s) <| ctx := c' |>) /\ agree c' (arch_store_base i rn c)) /\
      forall x, mem s' x = scatter (mem s) far bs x) s.
Proof using E D.
  intros c bs Hu. assert (Et : store_taken i (X c rn) far = far) by (by destruct i).
  pose proof (dabort_store_taken i rt rn s) as H. cbv zeta in H. fold c bs in H. rewrite Et in H. exact H.
Qed.
End exception.

(** ** Parking *)

Section parking.
Context (MAX_CPUS boot_cpu_idx pinned : Z).

(** A series of aborts, and whether each one parked its CPU. *)
Fixpoint aborts (evs : list (Z * Z)) (s : abort_state) : list bool * abort_state :=
  match evs with
  | [] => ([], s)
  | ev :: evs =>
      let r := unmapped_step MAX_CPUS boot_cpu_idx pinned ev s in
      let rs := aborts evs r.2 in
      (r.1 :: rs.1, rs.2)
  end.

(** The latest aborts of [cpu], all at [pc]; [hist] has the last one first. *)
Fixpoint run_length (cpu pc : Z) (hist : list (Z * Z)) : Z :=
  match hist with
  | [] => 0
  | (c, p) :: hist => if c =? cpu then (if p =? pc then 1 + run_length cpu pc hist else 0) else run_length cpu pc hist
  end.
Fixpoint last_pc (cpu : Z) (hist : list (Z * Z)) : Z :=
  match hist with [] => 0 | (c, p) :: hist => if c =? cpu then p else last_pc cpu hist end.
Definition parkable (cpu : Z) : bool := negb (cpu =? boot_cpu_idx) && negb (cpu =? pinned).
Definition streak_of (cpu : Z) (hist : list (Z * Z)) : Z :=
  let n := run_length cpu (last_pc cpu hist) hist in if parkable cpu then n mod 16 else u32 n.

Definition streaks_ok (hist : list (Z * Z)) (s : abort_state) : Prop :=
  zlen (nwoas_last_unmapped_elr s) = MAX_CPUS /\ zlen (nwoas_unmapped_streak s) = MAX_CPUS /\
  forall cpu, 0 <= cpu < MAX_CPUS ->
    nth_cpu (nwoas_last_unmapped_elr s) cpu = last_pc cpu hist /\ nth_cpu (nwoas_unmapped_streak s) cpu = streak_of cpu hist.

Lemma run_other cpu pc hist : last_pc cpu hist <> pc -> run_length cpu pc hist = 0.
Proof using.
  induction hist as [|[c p] hist IH]; cbn; [done|]. destruct (c =? cpu); [|auto]. intros H. by rewrite (proj2 (Z.eqb_neq p pc)).
Qed.

Lemma run_nonneg cpu pc hist : 0 <= run_length cpu pc hist.
Proof using. induction hist as [|[c p] hist IH]; cbn; [done|]. destruct (c =? cpu), (p =? pc); lia. Qed.

Lemma nth_put l cpu k v : 0 <= cpu < zlen l -> 0 <= k < zlen l -> nth_cpu (put_cpu cpu v l) k = if k =? cpu then v else nth_cpu l k.
Proof using.
  intros Hc Hk. unfold nth_cpu, put_cpu, zlen in *. destruct (Z.eqb_spec k cpu) as [->|Hne].
  - apply nth_lookup_Some, list_lookup_insert_eq. lia.
  - rewrite !nth_lookup, list_lookup_insert_ne; [done|]. lia.
Qed.
Lemma zlen_put l cpu v : zlen (put_cpu cpu v l) = zlen l.
Proof using. unfold zlen, put_cpu. by rewrite length_insert. Qed.

(** An abort of [cpu]: how its run and its counter go on. *)
Lemma run_step cpu pc hist : run_length cpu pc ((cpu, pc) :: hist) =
  1 + if last_pc cpu hist =? pc then run_length cpu (last_pc cpu hist) hist else 0.
Proof using.
  cbn. rewrite !Z.eqb_refl. destruct (Z.eqb_spec (last_pc cpu hist) pc) as [->|H]; [done|]. by rewrite (run_other _ _ _ H).
Qed.

Lemma count_exact hist s cpu pc : streaks_ok hist s -> 0 <= cpu < MAX_CPUS ->
  let s' := count_unmapped MAX_CPUS cpu pc s in
  let n := run_length cpu pc ((cpu, pc) :: hist) in
  zlen (nwoas_last_unmapped_elr s') = MAX_CPUS /\ zlen (nwoas_unmapped_streak s') = MAX_CPUS /\
  (forall k, 0 <= k < MAX_CPUS -> nth_cpu (nwoas_last_unmapped_elr s') k = last_pc k ((cpu, pc) :: hist)) /\
  nth_cpu (nwoas_unmapped_streak s') cpu = (if parkable cpu then (n - 1) mod 16 + 1 else u32 n) /\
  (forall k, 0 <= k < MAX_CPUS -> k <> cpu -> nth_cpu (nwoas_unmapped_streak s') k = streak_of k ((cpu, pc) :: hist)).
Proof using.
  intros (Hl1 & Hl2 & Hs) Hc s' n. subst s' n. rewrite run_step. destruct (Hs cpu Hc) as [Hlast Hstreak].
  assert (Hother : forall k, k <> cpu -> last_pc k ((cpu, pc) :: hist) = last_pc k hist /\ streak_of k ((cpu, pc) :: hist) = streak_of k hist).
  { intros k Hk. unfold streak_of. cbn. by rewrite (proj2 (Z.eqb_neq cpu k)) by congruence. }
  unfold count_unmapped. replace (cpu <? MAX_CPUS) with true by lia. rewrite Hlast, (Z.eqb_sym pc). cbn [andb].
  destruct (Z.eqb_spec (last_pc cpu hist) pc) as [He|He]; cbn [nwoas_last_unmapped_elr nwoas_unmapped_streak]; rewrite ?zlen_put; split_and!; try done.
  - intros k Hk. destruct (Z.eq_dec k cpu) as [->|Hne]; [cbn; by rewrite Z.eqb_refl, Hlast|].
    rewrite (proj1 (Hother k Hne)). by apply Hs.
  - rewrite nth_put, Z.eqb_refl, Hstreak by lia. unfold streak_of. pose proof (run_nonneg cpu (last_pc cpu hist) hist) as Hn.
    set (m := run_length cpu (last_pc cpu hist) hist) in *. destruct (parkable cpu).
    + replace (1 + m - 1) with m by lia. apply wrap_small. unfold in_w. dlia.
    + unfold wrap. rewrite Zplus_mod_idemp_l. f_equal. lia.
  - intros k Hk Hne. rewrite nth_put by lia. rewrite (proj2 (Z.eqb_neq k cpu) Hne), (proj2 (Hother k Hne)). by apply Hs.
  - intros k Hk. rewrite nth_put by lia. destruct (Z.eqb_spec k cpu) as [->|Hne]; [cbn; by rewrite Z.eqb_refl|].
    rewrite (proj1 (Hother k Hne)). by apply Hs.
  - rewrite nth_put, Z.eqb_refl by lia. by destruct (parkable cpu).
  - intros k Hk Hne. rewrite nth_put by lia. rewrite (proj2 (Z.eqb_neq k cpu) Hne), (proj2 (Hother k Hne)). by apply Hs.
Qed.

Lemma step_exact hist s cpu pc : streaks_ok hist s -> 0 <= cpu < MAX_CPUS ->
  (unmapped_step MAX_CPUS boot_cpu_idx pinned (cpu, pc) s).1 = parkable cpu && (run_length cpu pc ((cpu, pc) :: hist) mod 16 =? 0) /\
  streaks_ok ((cpu, pc) :: hist) (unmapped_step MAX_CPUS boot_cpu_idx pinned (cpu, pc) s).2.
Proof using.
  intros Hs Hc. destruct (count_exact hist s cpu pc Hs Hc) as (Hl1 & Hl2 & Hlast & Hme & Hothers).
  unfold unmapped_step, must_park. cbn [fst snd]. set (s' := count_unmapped MAX_CPUS cpu pc s) in *.
  replace (cpu <? MAX_CPUS) with true by lia. rewrite Hme. cbn [andb]. fold (parkable cpu).
  set (n := run_length cpu pc ((cpu, pc) :: hist)) in *.
  assert (Hn : 1 <= n) by (unfold n; rewrite run_step; pose proof (run_nonneg cpu (last_pc cpu hist) hist); destruct (last_pc cpu hist =? pc); lia).
  assert (Hst : streak_of cpu ((cpu, pc) :: hist) = if parkable cpu then n mod 16 else u32 n).
  { unfold streak_of. cbn [last_pc]. by rewrite Z.eqb_refl. }
  unfold NWOAS_UNMAPPED_PARK_THRESHOLD. destruct (parkable cpu) eqn:Hp; cbn [andb].
  - replace ((n - 1) mod 16 + 1 =? 16) with (n mod 16 =? 0) by (destruct (Z.eqb_spec (n mod 16) 0), (Z.eqb_spec ((n - 1) mod 16 + 1) 16); done || (exfalso; dlia)).
    destruct (Z.eqb_spec (n mod 16) 0) as [H0|H0]; (split; [done|]); unfold streaks_ok; cbn [snd].
    + unfold clear_streak. cbn [nwoas_last_unmapped_elr nwoas_unmapped_streak]. rewrite zlen_put. split_and!; [done | done |].
      intros k Hk. split; [by apply Hlast|]. rewrite nth_put by lia. destruct (Z.eqb_spec k cpu) as [->|Hne]; [by rewrite Hst | by apply Hothers].
    + split_and!; [done | done |]. intros k Hk. split; [by apply Hlast|]. destruct (Z.eq_dec k cpu) as [->|Hne]; [|by apply Hothers].
      rewrite Hst, Hme. dlia.
  - split; [done|]. unfold streaks_ok. cbn [snd]. split_and!; [done | done |]. intros k Hk. split; [by apply Hlast|].
    destruct (Z.eq_dec k cpu) as [->|Hne]; [by rewrite Hst, Hme | by apply Hothers].
Qed.

Lemma aborts_exact evs hist s : streaks_ok hist s -> Forall (fun ev => 0 <= ev.1 < MAX_CPUS) evs ->
  streaks_ok (rev evs ++ hist) (aborts evs s).2.
Proof using.
  revert hist s. induction evs as [|[cpu pc] evs IH]; intros hist s Hs Hf; [done|]. apply Forall_cons_1 in Hf as [Hc Hf].
  cbn [aborts rev snd]. rewrite <- app_assoc. apply IH; [|done]. by apply step_exact.
Qed.

Lemma aborts_app a b s : aborts (a ++ b) s = ((aborts a s).1 ++ (aborts b (aborts a s).2).1, (aborts b (aborts a s).2).2).
Proof using. revert s. induction a as [|ev a IH]; intros s; cbn; [by destruct (aborts b s)|]. by rewrite IH. Qed.

(** C40. A CPU is parked exactly at every sixteenth abort in a row at the same
    instruction. Whatever the order in which the CPUs fault, the abort of a CPU at
    [pc] parks it if and only if it is neither the boot CPU nor the pinned one and
    the aborts of this CPU since it was last elsewhere, this one included, are a
    multiple of sixteen. *)
Theorem park_exact evs cpu pc s :
  nwoas_last_unmapped_elr s = zeros MAX_CPUS -> nwoas_unmapped_streak s = zeros MAX_CPUS ->
  Forall (fun ev => 0 <= ev.1 < MAX_CPUS) (evs ++ [(cpu, pc)]) ->
  exists before, (aborts (evs ++ [(cpu, pc)]) s).1 = before ++ [parkable cpu && (run_length cpu pc ((cpu, pc) :: rev evs) mod 16 =? 0)].
Proof using.
  intros H1 H2 Hf. apply Forall_app in Hf as [Hf Hc]. apply Forall_cons_1 in Hc as [Hc _].
  assert (H0 : streaks_ok [] s).
  { unfold streaks_ok. rewrite H1, H2, !zlen_zeros by (cbn in Hc; lia). split_and!; [done | done |]. intros k Hk.
    change (nth_cpu (zeros MAX_CPUS) k) with (byte_at (zeros MAX_CPUS) k). rewrite byte_at_zeros. unfold streak_of. cbn. by destruct (parkable k). }
  pose proof (aborts_exact evs [] s H0 Hf) as Hs. rewrite app_nil_r in Hs.
  exists (aborts evs s).1. rewrite aborts_app. cbn [fst aborts]. by rewrite (proj1 (step_exact _ _ cpu pc Hs Hc)).
Qed.
End parking.

(** [unmapped], on a machine that says which CPU it is, is the step. *)
Section unmapped.
Context {S : Type} `{L : !Lens S abort_state} (o : abort_ops S) (MAX_CPUS boot_cpu_idx cpu pinned : Z).

Class OnCpu : Prop := {
  on_id s : mwp (smp_id o) (fun r s' => r = cpu /\ lget s' = lget s) s;
  on_pinned s : mwp (hv_pinned_cpu o) (fun r s' => r = pinned /\ lget s' = lget s) s;
  on_exit k s : mwp (hv_exit_cpu o k) (fun _ s' => lget s' = lget s) s;
}.
Context `{C : !OnCpu}.

Lemma unmapped_is_step s : mwp (unmapped o MAX_CPUS boot_cpu_idx)
  (fun r s' => (r, lget s') = unmapped_step MAX_CPUS boot_cpu_idx pinned (cpu, elr (lget s)) (lget s)) s.
Proof using C.
  unfold unmapped. apply mwp_bind. eapply mwp_mono; [apply on_id |]. intros r s1 [-> G1].
  apply mwp_bind, mwp_lgets, mwp_bind, mwp_lmodify. intros s2 _ G2. apply mwp_bind. eapply mwp_mono; [apply on_pinned |].
  intros r s3 [-> G3]. apply mwp_bind, mwp_lgets. unfold unmapped_step. cbn [fst snd]. rewrite G3, G2, G1.
  destruct (must_park _ _ _ _ _).
  - apply mwp_bind. eapply mwp_mono; [apply on_exit |]. intros u s4 G4. apply mwp_bind, mwp_lmodify. intros s5 Hs5 G5. apply mwp_ret.
    by rewrite G5, G4, G3, G2, G1.
  - apply mwp_ret. by rewrite G3, G2, G1.
Qed.
End unmapped.

(** ** The UART ring *)

Definition pushes (ws : list Z) (s : abort_state) : abort_state := fold_left (fun s b => uart_push b s) ws s.

(** The ring holds the last bytes of [ws]. *)
Definition ring_holds (ws : list Z) (s : abort_state) : Prop :=
  bmgfw_uart_idx s = u32 (zlen ws) /\ zlen (bmgfw_uart_ring s) = BMGFW_UART_SZ /\
  forall j, 0 <= j < zlen ws -> zlen ws - BMGFW_UART_SZ <= j -> byte_at (bmgfw_uart_ring s) (j mod BMGFW_UART_SZ) = byte_at ws j.

Lemma push_holds ws b s : ring_holds ws s -> ring_holds (ws ++ [b]) (uart_push b s).
Proof.
  intros (Hi & Hl & Hr). unfold uart_push. pose proof (zlen_nonneg ws) as Hn.
  assert (Hz : zlen (ws ++ [b]) = zlen ws + 1) by (rewrite zlen_app; done).
  assert (Hx : u32 (zlen ws) .& (BMGFW_UART_SZ - 1) = zlen ws mod BMGFW_UART_SZ).
  { change (BMGFW_UART_SZ - 1) with (2 ^ 16 - 1). rewrite land_ones_mod by done. unfold wrap. change BMGFW_UART_SZ with (2 ^ 16).
    symmetry. apply Znumtheory.Zmod_div_mod; [done | done | by exists (2 ^ 16)]. }
  split_and!; cbn [bmgfw_uart_idx bmgfw_uart_ring].
  - rewrite Hi, Hz. unfold wrap. by rewrite Zplus_mod_idemp_l.
  - unfold zlen. rewrite length_insert. exact Hl.
  - rewrite Hi, Hx, Hz. intros j Hj Hlast. unfold BMGFW_UART_SZ in *.
    pose proof (Z.mod_pos_bound j 65536 ltac:(done)) as Hjm. pose proof (Z.mod_pos_bound (zlen ws) 65536 ltac:(done)) as Hwm.
    unfold zlen in Hl. unfold byte_at at 1. rewrite nth_lookup. destruct (Z.eq_dec j (zlen ws)) as [->|Hne].
    + rewrite list_lookup_insert_eq by lia. cbn. replace (zlen ws) with (zlen ws + 0) by lia. by rewrite byte_at_app_r.
    + rewrite list_lookup_insert_ne by (intros Heq; apply Z2Nat.inj in Heq; dlia). rewrite <- nth_lookup, byte_at_app_l by lia.
      apply Hr; lia.
Qed.

Lemma pushes_hold ws vs s : ring_holds vs s -> ring_holds (vs ++ ws) (pushes ws s).
Proof.
  revert vs s. induction ws as [|b ws IH]; intros vs s H; [by rewrite app_nil_r|]. cbn. rewrite cons_middle, app_assoc.
  by apply IH, push_holds.
Qed.

Lemma uart_lines_concat bs line : concat (uart_lines bs line) = line ++ filter (fun c => c <> 13 /\ c <> 10) bs.
Proof.
  revert line. induction bs as [|c bs IH]; intros line; cbn [uart_lines]; [by destruct line; cbn; rewrite ?app_nil_r|].
  rewrite filter_cons. destruct (Z.eqb_spec c 13) as [->|H13]; [rewrite decide_False by naive_solver; apply IH|].
  destruct (Z.eqb_spec c 10) as [->|H10]; cbn [orb].
  - rewrite decide_False by naive_solver. cbn [concat]. by rewrite IH.
  - rewrite decide_True by done. destruct (159 <=? zlen line); cbn [concat]; rewrite IH; [done | by rewrite <- app_assoc].
Qed.

Lemma uart_lines_bound bs line : zlen line <= 159 -> Forall (fun l => zlen l <= 159) (uart_lines bs line).
Proof.
  revert line. induction bs as [|c bs IH]; intros line Hl; cbn [uart_lines]; [destruct line; auto using Forall_nil_2, Forall_cons_2|].
  destruct (c =? 13); [auto|]. destruct (Z.eqb_spec c 10); cbn [orb].
  - apply Forall_cons_2; [done|]. by apply IH.
  - destruct (Z.leb_spec 159 (zlen line)); [apply Forall_cons_2; [done | by apply IH]|]. apply IH. rewrite zlen_app. change (zlen [c]) with 1. lia.
Qed.

(** The dump prints the last bytes written, up to the size of the ring, in order and
    without carriage returns, in lines that fit its buffer. *)
Lemma uart_dump_spec ws s : bmgfw_uart_idx s = 0 -> zlen (bmgfw_uart_ring s) = BMGFW_UART_SZ -> zlen ws < 2 ^ 32 ->
  let n := Z.min (zlen ws) BMGFW_UART_SZ in
  concat (hv_bmgfw_uart_dump (pushes ws s)) = filter (fun c => c <> 13 /\ c <> 10) (zdrop (zlen ws - n) ws) /\
  Forall (fun l => zlen l <= 159) (hv_bmgfw_uart_dump (pushes ws s)).
Proof.
  intros Hi Hl Hw n.
  assert (H : ring_holds ws (pushes ws s)).
  { change ws with ([] ++ ws) at 1. apply pushes_hold. split_and!; [by rewrite Hi | done |]. intros j Hj. change (zlen (@nil Z)) with 0 in Hj. lia. }
  destruct H as (Hidx & Hlen & Hr). pose proof (zlen_nonneg ws) as Hn. unfold hv_bmgfw_uart_dump.
  rewrite Hidx, (wrap_small 32 (zlen ws)) by (unfold in_w; lia).
  replace (if zlen ws <? BMGFW_UART_SZ then zlen ws else BMGFW_UART_SZ) with n by (unfold n; destruct (Z.ltb_spec (zlen ws) BMGFW_UART_SZ); lia).
  assert (Hn0 : 0 <= n <= zlen ws) by (unfold n, BMGFW_UART_SZ; lia).
  rewrite (wrap_small 32 (zlen ws - n)) by (unfold in_w; lia).
  match goal with |- concat (uart_lines ?l _) = _ /\ _ => assert (E : l = zdrop (zlen ws - n) ws) end.
  { apply list_eq. intros k. change (map ?f ?l) with (f <$> l). rewrite list_lookup_fmap. unfold zdrop. rewrite lookup_drop.
    destruct (decide (k < Z.to_nat n)%nat) as [Hk|Hk].
    - rewrite lookup_seq_lt by done. cbn. rewrite wrap_small by (unfold in_w; lia).
      change (BMGFW_UART_SZ - 1) with (2 ^ 16 - 1). rewrite land_ones_mod by done. change (2 ^ 16) with BMGFW_UART_SZ.
      rewrite Hr by (unfold n in *; lia). unfold byte_at.
      replace (Z.to_nat (zlen ws - n + Z.of_nat k)) with (Z.to_nat (zlen ws - n) + k)%nat by lia.
      destruct (lookup_lt_is_Some_2 ws (Z.to_nat (zlen ws - n) + k)) as [x Hx]; [unfold zlen in *; lia|].
      by rewrite Hx, (nth_lookup_Some _ _ _ x).
    - rewrite lookup_seq_ge by lia. symmetry. apply lookup_ge_None_2. unfold zlen in *. lia. }
  rewrite E. split; [by rewrite uart_lines_concat | by apply uart_lines_bound].
Qed.

(** ** A concrete machine *)

Definition demo_state : abort_state := mk_abort demo_cpu 0x9000 (zeros 4) (zeros 4) (zeros 8) 0.
Definition demo_store : Type := abort_state * (Z -> Z).
#[export] Instance demo_lens : Lens demo_store abort_state := lens_fst.
Definition demo_mem (s : demo_store) : Z -> Z := s.2.

(** Guest addresses are mapped to twice theirs on the bus, page by page, through
    software entries; the instruction at 0x9000 is [insn]. *)
Definition demo_ipa (va : Z) : Z := va + va / 0x4000 * 0x4000.
Definition demo_entry (ipa : Z) : Z := ipa / 4 * 4.
Definition demo_ops (esr far insn : Z) : abort_ops demo_store := {|
  hv_get_esr := mret esr;
  hv_get_far := mret far;
  hv_translate va data w := mret (if data then demo_ipa va else va, 0);
  pt_walk ipa := mret (demo_entry ipa);
  read32 pa := mret insn;
  smp_id := mret 1;
  hv_pinned_cpu := mret 2;
  hv_exit_cpu k := mret tt;
  hv_emulate_rw_aligned pte vaddr ipa aval is_write width pc par := fun s =>
    if is_write then ((true, aval), (s.1, poke s.2 (target pte vaddr ipa) (ztake (2 ^ width) aval)))
    else ((true, overwrite 0 (peek s.2 (target pte vaddr ipa) (2 ^ width)) aval), s);
|}.

#[export] Instance demo_exception esr far insn :
  Exception (demo_ops esr far insn) demo_mem esr far demo_ipa (fun _ => 0) (fun pc => pc) demo_entry (fun _ => insn).
Proof. split; intros; try (rewrite mwp_iff); by split. Qed.
#[export] Instance demo_device esr far insn : Device (demo_ops esr far insn) demo_mem.
Proof. split; intros; rewrite mwp_iff; by split_and!. Qed.

Definition demo_bytes (x : Z) : Z := x mod 256.

(** [ldp x0, x1, [x4, #-8]], whose second half is in the page at 0x4000. *)
Definition demo_ldp_insn : load := Ldp true (Signed (-1)) 1.

(** [ldur x0, [x4, #-4]]: faulting at its first byte, in the page below, it loads the
    four bytes on each side; faulting at 0x4000 it loads the eight bytes there.
    [stur x5, [x4, #-4]] faulting at 0x4000 writes there. *)
Definition demo_ldur_insn : load := Ldr 3 (Unscaled (-4)).
Definition demo_stur_insn : store := Str 3 (Unscaled (-4)).
Example demo_ldur_runs :
  let run far := hv_handle_dabort (demo_ops 0 far (encode_load demo_ldur_insn 0 4)) 64 4 0 36 (demo_state, demo_bytes) in
  load_ea demo_ldur_insn 4 0 demo_cpu = 0x3ffc /\
  ((run 0x3ffc).1, reg (ctx (run 0x3ffc).2.1) 0) = (Some true, 0x03020100fffefdfc) /\
  ((run 0x4000).1, reg (ctx (run 0x4000).2.1) 0) = (Some true, 0x0706050403020100).
Proof. vm_compute. auto. Qed.
Example demo_stur_runs :
  let r := hv_handle_dabort (demo_ops 64 0x4000 (encode_store demo_stur_insn 5 4)) 64 4 0 36 (demo_state, demo_bytes) in
  store_ea demo_stur_insn 4 0 demo_cpu = 0x3ffc /\ r.1 = Some true /\
  peek r.2.2 0x3ffc 4 = peek demo_bytes 0x3ffc 4 /\ peek r.2.2 0x8000 8 = le_bytes 8 0x5000.
Proof. vm_compute. auto. Qed.
Example demo_ldp_runs :
  let r := hv_handle_dabort (demo_ops 0 0x4000 (encode_load demo_ldp_insn 0 4)) 64 4 0 36 (demo_state, demo_bytes) in
  (r.1, reg (ctx r.2.1) 0, reg (ctx r.2.1) 1) = (Some true, 0xfffefdfcfbfaf9f8, 0x0706050403020100).
Proof. vm_compute. reflexivity. Qed.


(** The boot CPU 0 and CPU 1 fault in turns; the sixteenth abort of CPU 1 parks it. *)
Lemma park_exact_witness : exists before,
  (aborts 4 0 2 (concat (replicate 15 [(1, 0x500); (0, 0x600)]) ++ [(1, 0x500)]) demo_state).1 = before ++ [true].
Proof.
  apply (park_exact 4 0 2 (concat (replicate 15 [(1, 0x500); (0, 0x600)])) 1 0x500 demo_state); [done | done |].
  repeat (apply Forall_cons_2; [done|]). apply Forall_nil_2.
Defined.
