(* ===== verification/PaAccess.v ===== *)
(** * Guarded accesses to physical memory ([nvme-s208/hv_vm-s208.c])

    [hv_pa_write], [hv_pa_read] and [hv_pa_rw]: an access of 1 to 64 bytes with
    the exception guard set, so that a fault is counted instead of taken, and reported
    as the guest's own.  A store holds [exc_count], [exc_guard] and the two fields of
    [struct exc_info] that a fault overwrites; the accesses are functions of the
    environment.  The last section is an emulated access ([DataAbort]) whose device
    is memory behind these functions. *)

From S2P Require Import Prelude HvMap.
From S2P Require Import Bitfield Emulate DataAbort.

Inductive guard := GUARD_OFF | GUARD_SKIP.
Record pa_state := mk_pa { exc_count : Z; exc_guard : guard; ctx_esr : Z; ctx_far : Z }.
#[export] Instance eta_pa : Eta pa_state := fun p => mk_pa (exc_count p) (exc_guard p) (ctx_esr p) (ctx_far p).

(** [write8] to [write64] and [read8] to [read64] take the number of bytes. *)
Record pa_ops (S : Type) := mk_pa_ops {
  pa_wr : nat -> Z -> Z -> M S unit;
  pa_rd : nat -> Z -> M S Z;
  pa_esr : M S Z;
  pa_far : M S Z;
}.
Arguments pa_wr {S}. Arguments pa_rd {S}. Arguments pa_esr {S}. Arguments pa_far {S}.

Section code.
Context {S : Type} `{L : !Lens S pa_state} (o : pa_ops S).

(** [for (i = 0; i < n; i++) write64(addr + 8 * i, val[i])] over the first words. *)
Fixpoint write_words (addr : Z) (ws : list Z) : M S unit :=
  match ws with
  | [] => mret tt
  | w :: ws => pa_wr o 8 addr w;; write_words (u64 (addr + 8)) ws
  end.
Fixpoint read_words (n : nat) (addr : Z) : M S (list Z) :=
  match n with
  | O => mret []
  | Datatypes.S n => w ← pa_rd o 8 addr; ws ← read_words n (u64 (addr + 8)); mret (w :: ws)
  end.

Definition start_guard : M S unit := lmodify (fun p => p <| exc_count := 0 |> <| exc_guard := GUARD_SKIP |>).
Definition end_guard : M S unit := lmodify (fun p => p <| exc_guard := GUARD_OFF |>).
(** The end of both functions: a fault becomes the guest's. *)
Definition report : M S bool :=
  count ← lgets exc_count;
  if truthy count then
    e ← pa_esr o; lmodify (fun p => p <| ctx_esr := e |>);;
    f ← pa_far o; lmodify (fun p => p <| ctx_far := f |>);;
    mret false
  else mret true.

Definition hv_pa_write (addr : Z) (val : list Z) (width : Z) : M S bool :=
  start_guard;;
  if (0 <=? width) && (width <=? 3) then
    pa_wr o (Z.to_nat (2 ^ width)) addr (wrap (8 * 2 ^ width) (val_at val 0));;
    end_guard;; report
  else if (4 <=? width) && (width <=? 6) then
    write_words addr (take (Z.to_nat (1 .<< (width - 3))) val);;
    end_guard;; report
  else end_guard;; mret false.

Definition hv_pa_read (addr : Z) (val : list Z) (width : Z) : M S (bool * list Z) :=
  start_guard;;
  if (0 <=? width) && (width <=? 3) then
    v ← pa_rd o (Z.to_nat (2 ^ width)) addr;
    end_guard;; ok ← report; mret (ok, put_val [v] val)
  else if (4 <=? width) && (width <=? 5) then
    ws ← read_words (Z.to_nat (1 .<< (width - 3))) addr;
    end_guard;; ok ← report; mret (ok, put_val ws val)
  else end_guard;; mret (false, val).

Definition hv_pa_rw (addr : Z) (val : list Z) (write : bool) (width : Z) : M S (bool * list Z) :=
  if write then ok ← hv_pa_write addr val width; mret (ok, val) else hv_pa_read addr val width.
End code.

(** ** The guard *)

Section guarded.
Context {S : Type} `{L : !Lens S pa_state} (o : pa_ops S).

(** The accesses do what they like; reading the syndrome changes nothing. *)
Class Guarded : Prop := {
  gd_esr s : mwp (pa_esr o) (fun _ s' => lget s' = lget s) s;
  gd_far s : mwp (pa_far o) (fun _ s' => lget s' = lget s) s;
}.
Context `{G : !Guarded}.

Lemma report_guard s : exc_guard (lget s) = GUARD_OFF ->
  mwp (report o) (fun ok s' => exc_guard (lget s') = GUARD_OFF /\ ok = negb (truthy (exc_count (lget s)))) s.
Proof using G.
  intros Hg. unfold report. apply mwp_bind, mwp_lgets. destruct (truthy (exc_count (lget s))).
  - apply mwp_bind. eapply mwp_mono; [apply gd_esr |]. intros e s1 G1. apply mwp_bind, mwp_lmodify. intros s2 Hs2 G2.
    apply mwp_bind. eapply mwp_mono; [apply gd_far |]. intros f s3 G3. apply mwp_bind, mwp_lmodify. intros s4 Hs4 G4. apply mwp_ret.
    by rewrite G4, G3, G2, G1.
  - by apply mwp_ret.
Qed.

Lemma finish_guard {A} (k : bool -> A) s :
  mwp (end_guard;; ok ← report o; mret (k ok)) (fun _ s' => exc_guard (lget s') = GUARD_OFF) s.
Proof using G.
  apply mwp_bind, mwp_lmodify. intros s1 Hs1 G1. apply mwp_bind. eapply mwp_mono; [apply report_guard; by rewrite G1 |].
  intros ok s2 [Hg _]. by apply mwp_ret.
Qed.

Lemma off_guard {A} (r : A) s : mwp (end_guard;; mret r) (fun _ s' => exc_guard (lget s') = GUARD_OFF) s.
Proof using. apply mwp_bind, mwp_lmodify. intros s1 Hs1 G1. apply mwp_ret. by rewrite G1. Qed.

(** Whatever the access does, and on every path, the guard is off afterwards. *)
Lemma pa_rw_guard addr val write width s :
  mwp (hv_pa_rw o addr val write width) (fun _ s' => exc_guard (lget s') = GUARD_OFF) s.
Proof using G.
  assert (Hany : forall {A B} (m : M S A) (k : A -> M S B) Q t, (forall a t', mwp (k a) Q t') -> mwp (a ← m; k a) Q t).
  { intros A B m k Q t H. apply mwp_bind. rewrite mwp_iff. apply H. }
  unfold hv_pa_rw. destruct write.
  - apply mwp_bind. eapply mwp_mono with (Q := fun _ s' => exc_guard (lget s') = GUARD_OFF); [|intros ok s1 H1; by apply mwp_ret].
    unfold hv_pa_write. apply Hany. intros u1 t1. repeat case_match; [apply Hany; intros u2 t2 | apply Hany; intros u2 t2 | apply off_guard].
    + rewrite mwp_iff. exact (proj1 (mwp_iff _ _ _) (finish_guard (fun ok => ok) t2)).
    + rewrite mwp_iff. exact (proj1 (mwp_iff _ _ _) (finish_guard (fun ok => ok) t2)).
  - unfold hv_pa_read. apply Hany. intros u1 t1. repeat case_match; [apply Hany; intros v t2 | apply Hany; intros v t2 | apply off_guard];
      apply (finish_guard (fun ok => (ok, _))).
Qed.
End guarded.

(** ** On memory *)

Section memory.
Context {S : Type} `{L : !Lens S pa_state} (o : pa_ops S) (mem : S -> Z -> Z).

(** Memory that does not fault. *)
Class PaMemory : Prop := {
  pm_wr n a v s : mwp (pa_wr o n a v) (fun _ s' => lget s' = lget s /\ forall x, mem s' x = poke (mem s) a (le_bytes n v) x) s;
  pm_rd n a s : mwp (pa_rd o n a) (fun r s' => r = le_val (peek (mem s) a (Z.of_nat n)) /\ lget s' = lget s /\ forall x, mem s' x = mem s x) s;
  pm_mem a s x : mem (lset a s) x = mem s x;
}.
Context `{P : !PaMemory}.

(** Nothing but the guard's own variables differs. *)
Definition quiet (s s' : S) : Prop := exc_count (lget s') = 0 /\ exc_guard (lget s') = GUARD_OFF /\
  ctx_esr (lget s') = ctx_esr (lget s) /\ ctx_far (lget s') = ctx_far (lget s).

Lemma start_spec (Q : unit -> S -> Prop) s :
  (forall s', lget s' = (lget s) <| exc_count := 0 |> <| exc_guard := GUARD_SKIP |> -> (forall x, mem s' x = mem s x) -> Q tt s') ->
  mwp start_guard Q s.
Proof using P. intros H. apply mwp_lmodify. intros s' Hs' G'. apply H; [done|]. intros x. by rewrite Hs', pm_mem. Qed.

Lemma pa_finish_spec (Q : bool -> S -> Prop) s : exc_count (lget s) = 0 ->
  (forall s', lget s' = (lget s) <| exc_guard := GUARD_OFF |> -> (forall x, mem s' x = mem s x) -> Q true s') ->
  mwp (end_guard;; report o) Q s.
Proof using P.
  intros Hc H. apply mwp_bind, mwp_lmodify. intros s' Hs' G'. unfold report. apply mwp_bind, mwp_lgets. rewrite G'. cbn.
  rewrite Hc. cbn. apply mwp_ret, H; [done|]. intros x. by rewrite Hs', pm_mem.
Qed.

Lemma write_words_spec ws addr s : in_w 64 addr -> addr + 8 * zlen ws <= 2 ^ 64 ->
  mwp (write_words o addr ws) (fun _ s' => lget s' = lget s /\ forall x, mem s' x = poke (mem s) addr (unwords ws) x) s.
Proof using P.
  revert addr s. induction ws as [|w ws IH]; intros addr s Ha Hb; cbn [write_words].
  - apply mwp_ret. split; [done|]. intros x. change (unwords []) with (@nil Z). by rewrite poke_nil.
  - rewrite zlen_cons in Hb. pose proof (zlen_nonneg ws). unfold in_w in Ha.
    apply mwp_bind. eapply mwp_mono; [apply pm_wr |]. intros u s1 [G1 M1].
    destruct ws as [|w' ws'].
    { apply mwp_ret. split; [done|]. intros x. rewrite M1. unfold unwords. cbn [map concat]. by rewrite app_nil_r. }
    rewrite zlen_cons in *. pose proof (zlen_nonneg ws'). rewrite (wrap_small 64 (addr + 8)) by (unfold in_w; lia).
    eapply mwp_mono; [apply IH; [unfold in_w; lia | lia] |]. intros v s2 [G2 M2]. split; [congruence|]. intros x.
    rewrite M2. unfold unwords at 2. cbn [map concat]. fold (unwords (w' :: ws')).
    rewrite <- poke_app, zlen_le_bytes. by apply poke_ext.
Qed.

Lemma pa_read_words_spec n addr s : in_w 64 addr -> addr + 8 * Z.of_nat n <= 2 ^ 64 ->
  mwp (read_words o n addr) (fun ws s' => ws = map (fun k => le_val (peek (mem s) (addr + 8 * Z.of_nat k) 8)) (seq 0 n) /\
    lget s' = lget s /\ forall x, mem s' x = mem s x) s.
Proof using P.
  revert addr s. induction n as [|n IH]; intros addr s Ha Hb; cbn [read_words]; [by apply mwp_ret|].
  unfold in_w in Ha. apply mwp_bind. eapply mwp_mono; [apply pm_rd |]. intros w s1 (-> & G1 & M1).
  apply mwp_bind. destruct n as [|n].
  { apply mwp_ret. apply mwp_ret. split; [|done]. cbn. by rewrite Z.add_0_r. }
  rewrite (wrap_small 64 (addr + 8)) by (unfold in_w; lia).
  eapply mwp_mono; [apply IH; [unfold in_w; lia | lia] |]. intros ws s2 (-> & G2 & M2). apply mwp_ret. split_and!; [|congruence|].
  - cbn [seq map]. f_equal; [by rewrite Z.add_0_r|]. rewrite <- (seq_shift n 1), map_map. cbn [seq map]. f_equal.
    + rewrite (peek_ext (mem s1) (mem s)) by done. do 2 f_equal. lia.
    + rewrite <- seq_shift, !map_map. apply map_ext. intros k. rewrite (peek_ext (mem s1) (mem s)) by done. do 2 f_equal. lia.
  - intros x. rewrite M2. apply M1.
Qed.

(** A write of any width puts the first bytes of the buffer at [addr]. *)
Lemma pa_write_spec addr val w s : 0 <= w <= 6 -> length val = 8%nat -> in_w 64 addr -> addr + 2 ^ w <= 2 ^ 64 ->
  mwp (hv_pa_write o addr val w) (fun ok s' => ok = true /\ quiet s s' /\
    forall x, mem s' x = poke (mem s) addr (take (Z.to_nat (2 ^ w)) (unwords val)) x) s.
Proof using P.
  intros Hw Hv Ha Hb. unfold hv_pa_write. apply mwp_bind, start_spec. intros s1 G1 M1.
  assert (Hend : forall s2 bs, lget s2 = lget s1 -> (forall x, mem s2 x = poke (mem s1) addr bs x) ->
    bs = take (Z.to_nat (2 ^ w)) (unwords val) ->
    mwp (end_guard;; report o) (fun ok s' => ok = true /\ quiet s s' /\
      forall x, mem s' x = poke (mem s) addr (take (Z.to_nat (2 ^ w)) (unwords val)) x) s2).
  { intros s2 bs G2 M2 ->. apply pa_finish_spec; [by rewrite G2, G1|]. intros s3 G3 M3. split; [done|].
    unfold quiet. rewrite G3, G2, G1. split; [done|]. intros x. rewrite M3, M2. by apply poke_ext. }
  destruct val as [|v0 vs]; [done|]. assert (Hp : 0 <= 2 ^ w) by (apply Z.pow_nonneg; lia).
  destruct ((0 <=? w) && (w <=? 3)) eqn:E3.
  - assert (H8 : (Z.to_nat (2 ^ w) <= 8)%nat) by (change 8%nat with (Z.to_nat (2 ^ 3)); apply Z2Nat.inj_le; [done | done | apply Z.pow_le_mono_r; lia]).
    apply mwp_bind. eapply mwp_mono; [apply pm_wr |]. intros u s2 [G2 M2]. apply (Hend s2 _ G2 M2).
    cbn [val_at nth]. unfold val_at. cbn [nth]. rewrite le_bytes_wrap by lia. unfold unwords. cbn [map concat].
    rewrite take_app_le by by rewrite length_le_bytes. by rewrite take_le_bytes.
  - replace ((4 <=? w) && (w <=? 6)) with true by lia. rewrite Z.shiftl_mul_pow2, Z.mul_1_l by lia.
    set (n := Z.to_nat (2 ^ (w - 3))). assert (Hn : Z.of_nat n = 2 ^ (w - 3)) by (unfold n; rewrite Z2Nat.id; [done | apply Z.pow_nonneg; lia]).
    assert (H2 : 2 ^ w = 8 * 2 ^ (w - 3)) by (change 8 with (2 ^ 3); rewrite <- Z.pow_add_r by lia; f_equal; lia).
    assert (Hn8 : (n <= 8)%nat) by (apply Nat2Z.inj_le; rewrite Hn; change (Z.of_nat 8) with (2 ^ 3); apply Z.pow_le_mono_r; lia).
    assert (Hl : length (take n (v0 :: vs)) = n) by (rewrite length_take; cbn [length] in *; lia).
    apply mwp_bind. eapply mwp_mono; [apply write_words_spec; [done | unfold zlen; rewrite Hl; lia] |].
    intros u s2 [G2 M2]. apply (Hend s2 _ G2 M2). rewrite <- (take_drop n (v0 :: vs)) at 2.
    pose proof (all_words (take n (v0 :: vs)) (take n (v0 :: vs) ++ drop n (v0 :: vs))) as E. rewrite Hl in E.
    unfold put_val in E. rewrite Hl, drop_app_length' in E by done. replace (Z.to_nat (2 ^ w)) with (8 * n)%nat by lia. symmetry. exact E.
Qed.

Lemma le_bytes_pad m n : bytes_ok m -> (length m <= n)%nat -> le_bytes n (le_val m) = m ++ replicate (n - length m) 0.
Proof using.
  intros Hm Hl. rewrite <- (le_val_padded m (Z.of_nat (n - length m))) by done. unfold zeros. rewrite Nat2Z.id.
  replace n with (length (m ++ replicate (n - length m) 0)) at 1 by (rewrite length_app, length_replicate; lia).
  apply le_bytes_val, bytes_ok_app. split; [done|]. rewrite <- (Nat2Z.id (n - length m)). apply bytes_ok_zeros.
Qed.

Lemma unwords_peek m addr n : (forall x, in_w 8 (m x)) ->
  unwords (map (fun k => le_val (peek m (addr + 8 * Z.of_nat k) 8)) (seq 0 n)) = peek m addr (8 * Z.of_nat n).
Proof using.
  intros Hm. revert addr. induction n as [|n IH]; intros addr; [done|].
  replace (8 * Z.of_nat (Datatypes.S n)) with (8 + 8 * Z.of_nat n) by lia. rewrite peek_app by lia.
  cbn [seq map]. unfold unwords. cbn [map concat]. rewrite Z.add_0_r.
  rewrite le_bytes_pad by (try apply peek_ok; try done). change (replicate _ 0) with (@nil Z). rewrite app_nil_r. f_equal.
  rewrite <- IH. unfold unwords. f_equal. f_equal. rewrite <- (seq_shift n 0), map_map. apply map_ext. intros k. do 2 f_equal. lia.
Qed.

(** A read of up to 32 bytes fills the front of a clear buffer with the bytes at
    [addr]. *)
Lemma pa_read_spec addr w s : 0 <= w <= 5 -> in_w 64 addr -> addr + 2 ^ w <= 2 ^ 64 -> (forall x, in_w 8 (mem s x)) ->
  mwp (hv_pa_read o addr (replicate 8 0) w) (fun r s' => r.1 = true /\ quiet s s' /\ (forall x, mem s' x = mem s x) /\
    unwords r.2 = overwrite 0 (peek (mem s) addr (2 ^ w)) (zeros 64)) s.
Proof using P.
  intros Hw Ha Hb Hm. unfold hv_pa_read. apply mwp_bind, start_spec. intros s1 G1 M1.
  assert (Hend : forall s2 ws, lget s2 = lget s1 -> (forall x, mem s2 x = mem s1 x) ->
    unwords (put_val ws (replicate 8 0)) = overwrite 0 (peek (mem s) addr (2 ^ w)) (zeros 64) ->
    mwp (end_guard;; ok ← report o; mret (ok, put_val ws (replicate 8 0)))
      (fun r s' => r.1 = true /\ quiet s s' /\ (forall x, mem s' x = mem s x) /\
        unwords r.2 = overwrite 0 (peek (mem s) addr (2 ^ w)) (zeros 64)) s2).
  { intros s2 ws G2 M2 Hu. pose proof (pa_finish_spec (fun ok s' => ok = true /\ quiet s s' /\ forall x, mem s' x = mem s x) s2) as Hf.
    rewrite mwp_iff in Hf. rewrite mwp_iff. destruct Hf as (Hok & Hq & Hmm); [by rewrite G2, G1 | |].
    { intros s3 G3 M3. split; [done|]. unfold quiet. rewrite G3, G2, G1. split; [done|]. intros x. by rewrite M3, M2, M1. }
    change ((end_guard;; ok ← report o; mret (ok, put_val ws (replicate 8 0))) s2) with
      (let r := (end_guard;; report o) s2 in ((r.1, put_val ws (replicate 8 0)), r.2)). cbv zeta. cbn [fst snd]. done. }
  destruct ((0 <=? w) && (w <=? 3)) eqn:E3.
  - assert (H8 : 0 < 2 ^ w <= 8) by (change 8 with (2 ^ 3); split; [apply Z.pow_pos_nonneg | apply Z.pow_le_mono_r]; lia).
    apply mwp_bind. eapply mwp_mono; [apply pm_rd |]. intros v s2 (-> & G2 & M2). apply (Hend s2 [_] G2 M2).
    rewrite Z2Nat.id by lia. rewrite (peek_ext (mem s1) (mem s)) by done.
    assert (Hz : zlen (peek (mem s) addr (2 ^ w)) = 2 ^ w) by (apply zlen_peek; lia).
    rewrite overwrite_padded by lia. unfold padded. rewrite Hz. unfold unwords, put_val. cbn [map concat app].
    rewrite le_bytes_pad by (try (by apply peek_ok); unfold zlen in Hz; lia). rewrite <- app_assoc. f_equal.
    change (concat (map (le_bytes 8) (drop (length [le_val (peek (mem s) addr (2 ^ w))]) (replicate 8 0)))) with (replicate 56 0).
    unfold zeros. rewrite <- replicate_add. f_equal. unfold zlen in Hz. lia.
  - replace ((4 <=? w) && (w <=? 5)) with true by lia. rewrite Z.shiftl_mul_pow2, Z.mul_1_l by lia.
    assert (Hc : w = 4 \/ w = 5) by lia.
    set (n := Z.to_nat (2 ^ (w - 3))). assert (Hn : 8 * Z.of_nat n = 2 ^ w) by (unfold n; destruct Hc as [-> | ->]; done).
    apply mwp_bind. eapply mwp_mono; [apply pa_read_words_spec; [done | lia] |]. intros ws s2 (-> & G2 & M2). apply (Hend s2 _ G2 M2).
    rewrite overwrite_padded by (rewrite zlen_peek; destruct Hc as [-> | ->]; done). unfold padded.
    unfold put_val. unfold unwords at 1. rewrite map_app, concat_app. fold (unwords (map (fun k => le_val (peek (mem s1) (addr + 8 * Z.of_nat k) 8)) (seq 0 n))).
    rewrite unwords_peek by (intros; rewrite M1; apply Hm). rewrite Hn. rewrite (peek_ext (mem s1) (mem s)) by done. f_equal.
    rewrite length_map, length_seq, zlen_peek by lia. unfold n. destruct Hc as [-> | ->]; reflexivity.
Qed.
(** What was written is read back. *)
Lemma pa_round_trip addr val w s : 0 <= w <= 5 -> length val = 8%nat -> in_w 64 addr -> addr + 2 ^ w <= 2 ^ 64 ->
  (forall x, in_w 8 (mem s x)) ->
  mwp (hv_pa_write o addr val w;; hv_pa_read o addr (replicate 8 0) w) (fun r _ => r.1 = true /\
    take (Z.to_nat (2 ^ w)) (unwords r.2) = take (Z.to_nat (2 ^ w)) (unwords val)) s.
Proof using P.
  intros Hw Hv Ha Hb Hm. set (bs := take (Z.to_nat (2 ^ w)) (unwords val)).
  assert (Hp : 0 < 2 ^ w <= 32) by (change 32 with (2 ^ 5); split; [apply Z.pow_pos_nonneg | apply Z.pow_le_mono_r]; lia).
  assert (Hl : zlen bs = 2 ^ w).
  { unfold bs. pose proof (zlen_unwords val) as Hu. unfold zlen in *. rewrite length_take. lia. }
  apply mwp_bind. eapply mwp_mono; [apply pa_write_spec; [lia | done | done | done] |]. intros ok s1 (_ & _ & M1).
  eapply mwp_mono; [apply pa_read_spec; [done | done | done |] |].
  { intros x. rewrite M1. unfold poke. case_match; [|apply Hm]. apply byte_at_ok. unfold bs. apply Forall_take, unwords_ok. }
  intros r s2 (Hok & _ & _ & Hu). split; [done|]. rewrite Hu.
  assert (E : peek (mem s1) addr (2 ^ w) = bs).
  { apply list_eq. intros k. unfold peek. rewrite list_lookup_fmap. destruct (decide (k < Z.to_nat (2 ^ w))%nat) as [Hk|Hk].
    - rewrite lookup_seq_lt by done. cbn. rewrite M1. fold bs. unfold poke. rewrite Hl.
      replace ((addr <=? addr + Z.of_nat k) && (addr + Z.of_nat k <? addr + 2 ^ w)) with true by lia.
      destruct (lookup_lt_is_Some_2 bs k) as [x Hx]; [unfold zlen in Hl; lia|]. rewrite Hx. unfold byte_at.
      replace (Z.to_nat (addr + Z.of_nat k - addr)) with k by lia. by rewrite (nth_lookup_Some _ _ _ x).
    - rewrite lookup_seq_ge by lia. symmetry. apply lookup_ge_None_2. unfold zlen in Hl. lia. }
  rewrite E, overwrite_padded by lia. unfold padded. apply take_app_length'. unfold zlen in Hl. lia.
Qed.
End memory.

(** ** The device of an emulated access *)

(** A machine whose page-table entries all name memory behind [hv_pa_rw]. *)
Record machine := mk_machine { m_abort : abort_state; m_pa : pa_state; m_mem : Z -> Z }.
#[export] Program Instance machine_abort : Lens machine abort_state :=
  {| lget := m_abort; lset a m := mk_machine a (m_pa m) (m_mem m) |}.
Solve All Obligations with (intros; by repeat match goal with m : machine |- _ => destruct m end).
#[export] Program Instance machine_pa : Lens machine pa_state :=
  {| lget := m_pa; lset p m := mk_machine (m_abort m) p (m_mem m) |}.
Solve All Obligations with (intros; by repeat match goal with m : machine |- _ => destruct m end).
Definition m_read (m : machine) : Z -> Z := m_mem m.

Definition plain_pa : pa_ops machine := {|
  pa_wr n a v := fun m => (tt, mk_machine (m_abort m) (m_pa m) (poke (m_mem m) a (le_bytes n v)));
  pa_rd n a := fun m => (le_val (peek (m_mem m) a (Z.of_nat n)), m);
  pa_esr := mret 0;
  pa_far := mret 0;
|}.
#[export] Instance plain_memory : PaMemory plain_pa m_read.
Proof. split; intros; try (rewrite mwp_iff); by split_and?. Qed.
#[export] Instance plain_guarded : Guarded plain_pa.
Proof. split; intros; by rewrite mwp_iff. Qed.

(** What [hv_emulate_rw_aligned] comes to there, the buffer being bytes. *)
Definition memory_access (pte vaddr ipa : Z) (aval : list Z) (is_write : bool) (width pc par : Z) : M machine (bool * list Z) :=
  r ← hv_pa_rw plain_pa (target pte vaddr ipa) (words aval) is_write width;
  mret (r.1, unwords r.2).

Lemma keeps_words ws a : keeps m_abort (write_words plain_pa a ws).
Proof. revert a. induction ws as [|w ws IH]; intros a; [done|]. apply keeps_bind; [done | intros; apply IH]. Qed.
Lemma keeps_read n a : keeps m_abort (read_words plain_pa n a).
Proof.
  revert a. induction n as [|n IH]; intros a; [done|]. apply keeps_bind; [done|]. intros w. apply keeps_bind; [apply IH | done].
Qed.
Lemma keeps_modify (f : pa_state -> pa_state) : keeps m_abort (lmodify (S := machine) f).
Proof. done. Qed.
#[export] Hint Resolve keeps_modify : keeps.
Lemma keeps_report : keeps m_abort (report plain_pa).
Proof. unfold report. keeps_run; done. Qed.
Lemma keeps_start : keeps m_abort (start_guard (S := machine)).
Proof. done. Qed.
Lemma keeps_end : keeps m_abort (end_guard (S := machine)).
Proof. done. Qed.
Lemma keeps_wr n a v : keeps m_abort (pa_wr plain_pa n a v).
Proof. done. Qed.
Lemma keeps_rd n a : keeps m_abort (pa_rd plain_pa n a).
Proof. done. Qed.
#[export] Hint Resolve keeps_words keeps_read keeps_report keeps_start keeps_end keeps_wr keeps_rd : keeps.

Lemma keeps_pa a val write w : keeps m_abort (hv_pa_rw plain_pa a val write w).
Proof. unfold hv_pa_rw, hv_pa_write, hv_pa_read. keeps_run. Qed.

Lemma concat_slices b n : (8 * n <= length b)%nat -> concat (map (fun k => slice (8 * k) 8 b) (seq 0 n)) = take (8 * n) b.
Proof.
  induction n as [|n IH]; intros Hn; [done|]. rewrite seq_S, map_app, concat_app, IH by lia. cbn [map concat]. rewrite app_nil_r.
  unfold slice. replace (8 * Datatypes.S n)%nat with (8 * n + 8)%nat by lia. by rewrite <- take_take_drop.
Qed.

Lemma unwords_words b : bytes_ok b -> zlen b = 64 -> unwords (words b) = b.
Proof.
  intros Hb Hl. unfold zlen in Hl. unfold unwords, words. rewrite map_map.
  rewrite (map_ext_in _ (fun k => slice (8 * k) 8 b)).
  - rewrite concat_slices by lia. apply take_ge. lia.
  - intros k Hk. apply in_seq in Hk. assert (Hs : length (slice (8 * k) 8 b) = 8%nat) by (unfold slice; rewrite length_take, length_drop; lia).
    rewrite <- Hs at 1. apply le_bytes_val. unfold slice. by apply Forall_take, Forall_drop.
Qed.

Lemma words_zeros : words (zeros HV_MAX_RW_SIZE) = replicate 8 0.
Proof. reflexivity. Qed.

(** So the device of the emulated accesses is memory. *)
Section pa_device.
Context (esr far insn : Z).
Definition pa_machine_ops : abort_ops machine := {|
  hv_get_esr := mret esr;
  hv_get_far := mret far;
  hv_translate va data w := mret (if data then demo_ipa va else va, 0);
  pt_walk ipa := mret (demo_entry ipa);
  read32 pa := mret insn;
  smp_id := mret 1;
  hv_pinned_cpu := mret 2;
  hv_exit_cpu k := mret tt;
  hv_emulate_rw_aligned := memory_access;
|}.

#[export] Instance pa_device : Device pa_machine_ops m_read.
Proof.
  split.
  - intros pte va ipa w pc par s Hw Hal H0 Ht Hb. cbn [hv_emulate_rw_aligned pa_machine_ops]. unfold memory_access.
    rewrite words_zeros. pose proof (keeps_pa (target pte va ipa) (replicate 8 0) false w s) as Hk. unfold hv_pa_rw in *.
    assert (Hp : 0 < 2 ^ w) by (apply Z.pow_pos_nonneg; lia).
    pose proof (pa_read_spec plain_pa m_read (target pte va ipa) w s Hw ltac:(unfold in_w; lia) Ht Hb) as Hr.
    rewrite mwp_iff in Hr. destruct Hr as (Hok & _ & Hm & Hu). rewrite mwp_iff.
    change (((r ← hv_pa_read plain_pa (target pte va ipa) (replicate 8 0) w; mret (r.1, unwords r.2)) s)) with
      (let r := hv_pa_read plain_pa (target pte va ipa) (replicate 8 0) w s in ((r.1.1, unwords r.1.2), r.2)).
    cbv zeta. cbn [fst snd]. rewrite Hok, Hu. by split_and!.
  - intros pte va ipa aval w pc par s Hw Hal Hz Hb H0 Ht. cbn [hv_emulate_rw_aligned pa_machine_ops]. unfold memory_access.
    pose proof (keeps_pa (target pte va ipa) (words aval) true w s) as Hk. unfold hv_pa_rw in *.
    assert (Hp : 0 < 2 ^ w) by (apply Z.pow_pos_nonneg; lia).
    pose proof (pa_write_spec plain_pa m_read (target pte va ipa) (words aval) w s Hw eq_refl ltac:(unfold in_w; lia) Ht) as Hr.
    rewrite mwp_iff in Hr. destruct Hr as (Hok & _ & Hm). rewrite mwp_iff.
    match goal with |- (?m s).1.1 = _ /\ _ =>
      change (m s) with (let r := hv_pa_write plain_pa (target pte va ipa) (words aval) w s in ((r.1, unwords (words aval)), r.2)) end.
    cbv zeta. cbn [fst snd]. split_and!; [done | exact Hk |]. intros x. rewrite Hm.
    by rewrite unwords_words.
Qed.
End pa_device.

(** [ldp x0, x1, [x4, #-8]] again, through the guarded accesses. *)
Example pa_ldp_runs :
  let m := mk_machine demo_state (mk_pa 0 GUARD_OFF 0 0) demo_bytes in
  let r := hv_handle_dabort (pa_machine_ops 0 0x4000 (encode_load demo_ldp_insn 0 4)) 64 4 0 36 m in
  (r.1, reg (ctx (m_abort r.2)) 0, reg (ctx (m_abort r.2)) 1, exc_guard (m_pa r.2)) = (Some true, 0xfffefdfcfbfaf9f8, 0x0706050403020100, GUARD_OFF).
Proof. vm_compute. reflexivity. Qed.
