(* ===== verification/UploadReceiver.v ===== *)
(** * The host's receiver of an uploaded file ([file-upload-s169/receiver.py])

    [Receiver] behind the blocks 160..175 (writes) and 176 (the acknowledgement) of
    the virtual disk.  A frame is one write of the sixteen blocks.  The file the
    receiver writes and the two paths it uses are fields of the record; what the
    host's file system may refuse is an argument of [accept], so the theorems hold
    for every pattern of failures but one: [close], in the [except] block, is taken to
    succeed (Python closes a buffered file by flushing it, which may raise again and
    then leaves [accept] altogether).  [hashlib.sha256] is the parameter
    [sha256_digest]; the running hash is kept as the bytes fed to it. *)

From S2P Require Import Prelude Wire Channel.

(** ** Constants *)

Definition BLOCK : Z := 4096.
Definition WINDOW : Z := 65536.
Definition HEADER : Z := 128.
Definition CAP : Z := WINDOW - HEADER.
Definition WRITE_LBA : Z := 160.
Definition ACK_LBA : Z := 176.
Definition MAGIC : list Z := chars "NWOAS-S169-UPLD!".
Definition ACK_MAGIC : list Z := chars "NWOAS-S169-UACK!".
Definition BEGIN : Z := 0.
Definition DATA : Z := 1.
Definition END : Z := 2.

(** ** State *)

(** [file] says that the partial file is open; [part] and [dest] are what the two
    paths name. *)
Record Receiver := mk_receiver {
  token : list Z; size : Z; digest : list Z;
  received : Z; hash : list Z; seq : Z; last : option (list Z);
  file : bool; done : bool; failed : bool; ack : list Z;
  part : option (list Z); dest : option (list Z);
}.
#[export] Instance eta_receiver : Eta Receiver := fun r => mk_receiver (token r) (size r) (digest r)
  (received r) (hash r) (seq r) (last r) (file r) (done r) (failed r) (ack r) (part r) (dest r).

(** [_ack]. *)
Definition ack_status (r : Receiver) : Z := if failed r then 2 else if done r then 1 else 0.
Definition make_ack (r : Receiver) : list Z :=
  let b := zeros BLOCK in
  let b := overwrite 0 ACK_MAGIC b in
  let b := overwrite 16 (token r) b in
  let b := pack_I 32 (seq r) b in
  let b := pack_I 36 (ack_status r) b in
  let b := pack_Q 40 (received r) b in
  let b := pack_Q 48 (size r) b in
  let b := overwrite 64 (digest r) b in
  pack_I 124 (wire_crc32 b 124) b.
Definition set_ack (r : Receiver) : Receiver := r <| ack := make_ack r |>.

(** The constructor, over what the two paths name; [None] is the [ValueError]. *)
Definition receiver_init (tok : list Z) (sz : Z) (dg : list Z) (p d : option (list Z)) : option Receiver :=
  if negb (zlen tok =? 16) || (sz <? 1) || negb (zlen dg =? 32) then None
  else Some (set_ack (mk_receiver tok sz dg 0 [] 0 None false false false [] p d)).

(** ** Frames *)

Record frame := mk_frame { f_seq : Z; f_kind : Z; f_offset : Z; f_size : Z; f_n : Z; f_crc : Z }.
Definition frame_of (b : list Z) : frame :=
  mk_frame (le_val (piece 32 4 b)) (le_val (piece 36 4 b)) (le_val (piece 40 8 b)) (le_val (piece 48 8 b))
    (le_val (piece 56 4 b)) (le_val (piece 60 4 b)).
#[global] Arguments frame_of _ : simpl never.
Definition payload (b : list Z) : list Z := piece HEADER (f_n (frame_of b)) b.

(** The tests on the frame alone. *)
Definition well_formed (r : Receiver) (b : list Z) : bool :=
  let f := frame_of b in
  if negb (zlen b =? WINDOW) || negb (bool_decide (piece 0 16 b = MAGIC)) || negb (bool_decide (piece 16 16 b = token r)) then false
  else if negb (bool_decide (piece 64 32 b = digest r)) || existsb truthy (piece 96 28 b) ||
    negb (wire_crc32 b 124 =? le_val (piece 124 4 b)) then false
  else if (CAP <? f_n f) || existsb truthy (zdrop (HEADER + f_n f) b) ||
    negb (wire_crc32 (payload b) (zlen (payload b)) =? f_crc f) then false
  else negb (negb (f_size f =? size r) || (f_seq f =? 0)).

(** The tests of a new frame against the state. *)
Definition expected (r : Receiver) (f : frame) : bool :=
  if failed r || done r || negb (f_seq f =? seq r + 1) || negb (f_offset f =? received r) then false
  else if f_kind f =? BEGIN then negb (truthy (seq r) || truthy (f_n f) || truthy (f_offset f))
  else if f_kind f =? DATA then
    negb (negb (file r) || negb (f_n f =? Z.min CAP (size r - received r)) || negb (truthy (f_n f)))
  else if f_kind f =? END then negb (negb (file r) || truthy (f_n f) || negb (received r =? size r))
  else false.

(** ** Acceptance *)

(** What the file system refuses: the opening of the partial file ([Some b]: it
    exists afterwards iff [b]); a write or the final flush (with the bytes that are
    left in the file); the link to the destination; the removal of the partial. *)
Record faults := mk_faults {
  f_open : option bool; f_write : option Z; f_flush : option Z; f_link : bool; f_unlink : bool;
}.
Definition no_faults : faults := mk_faults None None None false false.

(** How the [try] block ends. *)
Inductive verdict := Rejected | Raised (r : Receiver) | Performed (r : Receiver).

Definition content (r : Receiver) : list Z := default [] (part r).

Section receiver.
Context (sha256_digest : list Z -> list Z).

Definition begin (fl : faults) (r : Receiver) : verdict :=
  match dest r, part r, f_open fl with
  | Some _, _, _ => Rejected
  | None, Some _, _ => Raised r
  | None, None, Some created => Raised (r <| part := if created then Some (@nil Z) else None |>)
  | None, None, None => Performed (r <| part := Some (@nil Z) |> <| file := true |>)
  end.
Definition data (fl : faults) (bs : list Z) (n : Z) (r : Receiver) : verdict :=
  match f_write fl with
  | Some k => Raised (r <| part := Some (ztake k (content r ++ bs)) |>)
  | None => Performed (r <| part := Some (content r ++ bs) |> <| hash := hash r ++ bs |> <| received := received r + n |>)
  end.
Definition finish (fl : faults) (r : Receiver) : verdict :=
  if negb (bool_decide (sha256_digest (hash r) = digest r)) then Raised r
  else
    match f_flush fl, dest r, f_link fl with
    | Some k, _, _ => Raised (r <| part := Some (ztake k (content r)) |>)
    | None, Some _, _ | None, None, true => Raised (r <| file := false |>)
    | None, None, false =>
        let r := r <| file := false |> <| dest := part r |> in
        if f_unlink fl then Raised r else Performed (r <| part := @None (list Z) |> <| done := true |>)
    end.
Definition perform (fl : faults) (b : list Z) (r : Receiver) : verdict :=
  let f := frame_of b in
  if f_kind f =? BEGIN then begin fl r
  else if f_kind f =? DATA then data fl (payload b) (f_n f) r
  else finish fl r.

(** The [except] block; [close] of the file is part of it. *)
Definition fail (r : Receiver) : Receiver := set_ack (r <| failed := true |> <| file := false |>).

Definition accept (fl : faults) (b : list Z) (r : Receiver) : bool * Receiver :=
  if negb (well_formed r b) then (false, r)
  else
    let f := frame_of b in
    let signature := sha256_digest b in
    if f_seq f =? seq r then (bool_decide (Some signature = last r), r)
    else if negb (expected r f) then (false, r)
    else
      match perform fl b r with
      | Rejected => (false, r)
      | Raised r => (false, fail r)
      | Performed r => (true, set_ack (r <| seq := f_seq f |> <| last := Some signature |>))
      end.
End receiver.

(** A read of [n] blocks at [lba]; [None] is the [ValueError]. *)
Definition overlay (r : Receiver) (lba n : Z) (original : list Z) : option (list Z) :=
  if negb (zlen original =? n * BLOCK) || (n <? 1) then None
  else if negb ((lba <=? ACK_LBA) && (ACK_LBA <? lba + n)) then Some original
  else Some (overwrite ((ACK_LBA - lba) * BLOCK) (ack r) original).

(** ** What is true of a receiver *)

Lemma set_ack_ok r : ack (set_ack r) = make_ack (set_ack r).
Proof. done. Qed.

Section invariant.
#[local] Opaque make_ack.
Context (sha256_digest : list Z -> list Z) (dest0 : option (list Z)).

(** The published file is the complete artifact with the registered digest, or what
    was there before. *)
Definition published (r : Receiver) : Prop :=
  dest0 = None /\ dest r = Some (hash r) /\ sha256_digest (hash r) = digest r /\ zlen (hash r) = size r.

Record receiver_ok (r : Receiver) : Prop := {
  rc_ids : zlen (token r) = 16 /\ zlen (digest r) = 32 /\ 1 <= size r;
  rc_seq : 0 <= seq r /\ (last r = None <-> seq r = 0);
  rc_hash : zlen (hash r) = received r /\ received r <= size r;
  rc_open : file r = true -> part r = Some (hash r) /\ failed r = false /\ done r = false /\ 1 <= seq r;
  rc_dest : dest r = dest0 /\ done r = false \/ published r /\ (done r = true \/ failed r = true);
  rc_ack : ack r = make_ack r;
}.

Lemma init_ok tok sz dg p r : receiver_init tok sz dg p dest0 = Some r -> receiver_ok r.
Proof.
  unfold receiver_init. destruct (_ || _) eqn:E; [done|]. intros [= <-]. bool_props.
  split; try apply set_ack_ok; cbn; try done; [split; [done | lia] | by left].
Qed.

Lemma published_mono r r' : hash r' = hash r -> dest r' = dest r -> digest r' = digest r -> size r' = size r ->
  published r -> published r'.
Proof. unfold published. by intros -> -> -> ->. Qed.

(** A failure leaves what was published. *)
Lemma ok_fail r r' : receiver_ok r -> seq r' = seq r -> last r' = last r -> hash r' = hash r -> received r' = received r ->
  token r' = token r -> digest r' = digest r -> size r' = size r ->
  dest r' = dest0 /\ done r' = false \/ published r' -> receiver_ok (fail r').
Proof.
  intros [H1 H2 H3 H4 H5 H6] E1 E2 E3 E4 E5 E6 E7 Hd. split; try apply set_ack_ok; cbn; rewrite ?E1, ?E2, ?E3, ?E4, ?E5, ?E6, ?E7; try done.
  destruct Hd as [Hd|Hd]; [by left | right]. split; [|by right]. by apply (published_mono r').
Qed.

(** Only [seq], [last] and [ack] change. *)
Lemma ok_seal r k l : zlen (token r) = 16 /\ zlen (digest r) = 32 /\ 1 <= size r -> 1 <= k ->
  zlen (hash r) = received r /\ received r <= size r ->
  (file r = true -> part r = Some (hash r) /\ failed r = false /\ done r = false) ->
  dest r = dest0 /\ done r = false \/ published r /\ (done r = true \/ failed r = true) ->
  receiver_ok (set_ack (r <| seq := k |> <| last := Some l |>)).
Proof.
  intros H1 Hk H3 H4 H5. split; try apply set_ack_ok; cbn; try done.
  - split; [lia|]. split; [done | lia].
  - intros Hf. destruct (H4 Hf) as (? & ? & ?). by split_and!.
Qed.

Lemma frame_n_range b : bytes_ok b -> 0 <= f_n (frame_of b).
Proof. intros Hb. apply (le_val_range _ (bytes_ok_piece 56 4 b Hb)). Qed.

Lemma frame_seq_range b : bytes_ok b -> 0 <= f_seq (frame_of b).
Proof. intros Hb. apply (le_val_range _ (bytes_ok_piece 32 4 b Hb)). Qed.

(** What the tests of a frame give. *)
Lemma well_formed_facts r b : bytes_ok b -> well_formed r b = true ->
  zlen b = WINDOW /\ f_size (frame_of b) = size r /\ 1 <= f_seq (frame_of b) /\ 0 <= f_n (frame_of b) <= CAP /\
  zlen (payload b) = f_n (frame_of b).
Proof.
  intros Hb. pose proof (frame_n_range b Hb) as Hn. pose proof (frame_seq_range b Hb) as Hq. unfold well_formed.
  do 3 (match goal with |- (if ?b then _ else _) = true -> _ => destruct b eqn:?E; [done|] end).
  intros E4. bool_props. assert (zlen (payload b) = f_n (frame_of b)); [|split_and!; done || lia].
  unfold payload. apply zlen_piece; unfold CAP, HEADER, WINDOW in *; lia.
Qed.

(** The tests of a frame in sequence. *)
Lemma expected_facts r f : expected r f = true -> failed r = false /\ done r = false /\ f_seq f = seq r + 1 /\ f_offset f = received r /\
  (f_kind f = BEGIN /\ received r = 0 /\ f_n f = 0 \/
   f_kind f = DATA /\ file r = true /\ f_n f = Z.min CAP (size r - received r) \/
   f_kind f = END /\ file r = true /\ f_n f = 0 /\ received r = size r).
Proof.
  unfold expected. match goal with |- (if ?b then _ else _) = true -> _ => destruct b eqn:E1; [done|] end. bool_props.
  destruct (Z.eqb_spec (f_kind f) BEGIN); [|destruct (Z.eqb_spec (f_kind f) DATA); [|destruct (Z.eqb_spec (f_kind f) END); [|done]]];
    intros E; bool_props; (split_and!; [done | done | done | done |]); [left | right; left | right; right]; split_and!; congruence.
Qed.

Ltac raises r := apply (ok_fail r); [assumption | reflexivity .. |].

(** The three branches of the [try] block, whatever the file system refuses. *)
Definition ended (k : Z) (sg : list Z) (r : Receiver) (v : verdict) : Receiver :=
  match v with
  | Rejected => r
  | Raised r => fail r
  | Performed r => set_ack (r <| seq := k |> <| last := Some sg |>)
  end.

Lemma begin_ok fl r k sg : receiver_ok r -> dest r = dest0 -> done r = false -> failed r = false -> received r = 0 -> 1 <= k ->
  receiver_ok (ended k sg r (begin fl r)).
Proof.
  intros Hr Hd0 Hd Hf H0 Hk. unfold begin.
  destruct (dest r) eqn:Ed, (part r) eqn:Ep, (f_open fl) as [created|]; cbn [ended]; try exact Hr.
  1,2,3: raises r; left; cbn; split; congruence.
  destruct Hr as [H1 _ [H3 H3'] _ _ _]. apply ok_seal; [exact H1 | exact Hk | by split | | left; cbn; split; congruence].
  intros _. cbn. split_and!; [|done | done]. f_equal. symmetry. apply length_zero_iff_nil. unfold zlen in H3. lia.
Qed.

Lemma data_ok fl r bs n k sg : receiver_ok r -> dest r = dest0 -> file r = true -> zlen bs = n -> received r + n <= size r -> 1 <= k ->
  receiver_ok (ended k sg r (data fl bs n r)).
Proof.
  intros Hr Hd0 Hfile Hn Hle Hk. pose proof Hr as [H1 _ [H3 H3'] H4 _ _]. destruct (H4 Hfile) as (Hpart & Hf & Hd & _).
  unfold data, content. destruct (f_write fl); cbn [ended]; [raises r; left; by split|]. apply ok_seal; [exact H1 | exact Hk | | | left; by split].
  - cbn. rewrite zlen_app. lia.
  - intros _. cbn. split_and!; [|done | done]. by rewrite Hpart.
Qed.

Lemma finish_ok fl r k sg : receiver_ok r -> dest r = dest0 -> file r = true -> received r = size r -> 1 <= k ->
  receiver_ok (ended k sg r (finish sha256_digest fl r)).
Proof.
  intros Hr Hd0 Hfile Hsz Hk. pose proof Hr as [H1 _ [H3 H3'] H4 _ _]. destruct (H4 Hfile) as (Hpart & Hf & Hd & _). unfold finish.
  destruct (bool_decide_reflect (sha256_digest (hash r) = digest r)) as [Hsha|]; cbn [negb]; [|raises r; left; by split].
  destruct (f_flush fl); [raises r; left; by split|]. destruct (dest r) as [d|] eqn:Ed; [raises r; left; cbn; split; congruence|].
  destruct (f_link fl); [raises r; left; cbn; split; congruence|].
  assert (Hpub : published (r <| file := false |> <| dest := part r |>)) by (split_and!; cbn; congruence).
  destruct (f_unlink fl); cbn [ended]; [raises r; by right|].
  apply ok_seal; [exact H1 | exact Hk | by split | done | right; split; [exact Hpub | by left]].
Qed.

(** One frame. *)
Lemma accept_ok fl b r : bytes_ok b -> receiver_ok r -> receiver_ok (accept sha256_digest fl b r).2.
Proof.
  intros Hb Hr. unfold accept. destruct (well_formed r b) eqn:Hw; [|exact Hr]. cbn [negb].
  destruct (well_formed_facts r b Hb Hw) as (_ & _ & Hseq & Hn & Hp).
  destruct (Z.eqb_spec (f_seq (frame_of b)) (seq r)); [exact Hr|].
  destruct (expected r (frame_of b)) eqn:He; [|exact Hr]. cbn [negb].
  destruct (expected_facts r _ He) as (Hf & Hd & _ & _ & Hkind).
  assert (Hd0 : dest r = dest0) by (destruct (rc_dest r Hr) as [[? _]|[_ [?|?]]]; congruence).
  set (sg := sha256_digest b). pose proof (rc_hash r Hr) as [_ Hle].
  assert (E : forall v, receiver_ok (ended (f_seq (frame_of b)) sg r v) -> receiver_ok (match v with
    | Rejected => (false, r) | Raised r => (false, fail r)
    | Performed r => (true, set_ack (r <| seq := f_seq (frame_of b) |> <| last := Some sg |>)) end).2) by (by intros []).
  apply E. unfold perform. destruct Hkind as [(-> & H0 & _) | [(-> & Hfile & Hnn) | (-> & Hfile & _ & Hsz)]].
  - by apply begin_ok.
  - apply data_ok; try done. lia.
  - by apply finish_ok.
Qed.

(** Any frames, each with its failures. *)
Definition accepts (l : list (faults * list Z)) (r : Receiver) : Receiver :=
  fold_left (fun r e => (accept sha256_digest e.1 e.2 r).2) l r.

Lemma accepts_ok l r : Forall (fun e => bytes_ok e.2) l -> receiver_ok r -> receiver_ok (accepts l r).
Proof. intros Hl. revert r. induction Hl as [|e l He _ IH]; intros r Hr; [done|]. by apply IH, accept_ok. Qed.
End invariant.

(** The registration is fixed. *)
Definition ids (r : Receiver) : list Z * Z * list Z := (token r, size r, digest r).

Lemma perform_ids sha fl b r k sg : ids (ended k sg r (perform sha fl b r)) = ids r.
Proof.
  unfold perform. destruct (_ =? BEGIN); [|destruct (_ =? DATA)].
  - unfold begin. by destruct (dest r), (part r), (f_open fl).
  - unfold data. by destruct (f_write fl).
  - unfold finish. destruct (negb _), (f_flush fl), (dest r), (f_link fl); try reflexivity. by destruct (f_unlink fl).
Qed.

Lemma accept_ids sha fl b r : ids (accept sha fl b r).2 = ids r.
Proof.
  unfold accept. destruct (negb _); [done|]. destruct (_ =? seq r); [done|]. destruct (negb _); [done|].
  pose proof (perform_ids sha fl b r (f_seq (frame_of b)) (sha b)) as H. by destruct (perform sha fl b r).
Qed.

Lemma accepts_ids sha l r : ids (accepts sha l r) = ids r.
Proof.
  revert r. induction l as [|e l IH]; intros r; [done|].
  change (accepts sha (e :: l) r) with (accepts sha l (accept sha e.1 e.2 r).2). by rewrite IH, accept_ids.
Qed.

(** C34. Nothing but the whole artifact is ever published. After any frames, valid or
    not, and whatever the file system refuses, the destination is what it was or,
    where there was nothing, a file of the registered size and digest, the bytes
    received in sequence; it is that file once the receiver reports completion. *)
Theorem receiver_publishes sha256_digest tok sz dg p d r l :
  receiver_init tok sz dg p d = Some r -> Forall (fun e => bytes_ok e.2) l ->
  let r' := accepts sha256_digest l r in
  let complete := d = None /\ exists art, dest r' = Some art /\ sha256_digest art = dg /\ zlen art = sz /\ received r' = sz in
  (dest r' = d \/ complete) /\ (done r' = true -> complete) /\ 0 <= received r' <= sz.
Proof.
  intros Hi Hl r' complete.
  assert (Hids : ids r' = (tok, sz, dg)).
  { unfold r'. rewrite accepts_ids. unfold receiver_init in Hi. destruct (_ || _); by simplify_eq. }
  pose proof (accepts_ok sha256_digest d l r Hl (init_ok sha256_digest d _ _ _ _ _ Hi)) as [_ _ [H3 H3'] _ H5 _].
  fold r' in H3, H3', H5. unfold ids in Hids. injection Hids as Ht Hs Hd. rewrite Hs in H3'.
  assert (Hc : published sha256_digest d r' -> complete).
  { intros (P1 & P2 & P3 & P4). split; [done|]. exists (hash r'). rewrite <- Hs, <- Hd. split_and!; congruence. }
  pose proof (zlen_nonneg (hash r')). split_and!; [destruct H5 as [[? _]|[? _]]; auto | | lia | done].
  intros Hdone. destruct H5 as [[_ Hn]|[Hp _]]; [congruence | by apply Hc].
Qed.

Lemma accept_again sha256_digest fl fl' b r r' :
  accept sha256_digest fl b r = (true, r') -> accept sha256_digest fl' b r' = (true, r').
Proof.
  intros H. pose proof (accept_ids sha256_digest fl b r) as Hids. rewrite H in Hids. cbn in Hids. injection Hids as Ht Hs Hd.
  assert (Hw : well_formed r' b = well_formed r b) by (unfold well_formed; by rewrite Ht, Hs, Hd).
  revert H. unfold accept at 1. destruct (well_formed r b) eqn:E; [|done]. cbn [negb].
  unfold accept. rewrite Hw. cbn [negb].
  destruct (Z.eqb_spec (f_seq (frame_of b)) (seq r)) as [Es|].
  { intros [= Hb <-]. by rewrite Es, Z.eqb_refl, Hb. }
  destruct (expected r (frame_of b)); [|done]. cbn [negb]. destruct (perform _ _ _ _); [done | done|]. intros [= <-].
  cbn [set_ack seq last]. by rewrite Z.eqb_refl, bool_decide_eq_true_2.
Qed.

(** C35. A frame that was accepted is accepted again, and nothing happens: a client
    that lost the acknowledgement may repeat it. *)
Theorem receiver_retry sha256_digest fl fl' b r r' :
  accept sha256_digest fl b r = (true, r') -> accept sha256_digest fl' b r' = (true, r').
Proof. apply accept_again. Qed.

(** ** The wire format *)

(** The first 124 bytes of a frame, and the whole. *)
Definition frame_head (tok : list Z) (f : frame) (dg : list Z) : list Z :=
  MAGIC ++ tok ++ le_bytes 4 (f_seq f) ++ le_bytes 4 (f_kind f) ++ le_bytes 8 (f_offset f) ++ le_bytes 8 (f_size f) ++
  le_bytes 4 (f_n f) ++ le_bytes 4 (f_crc f) ++ dg ++ zeros 28.
Definition encode_frame (tok : list Z) (f : frame) (dg pl : list Z) : list Z :=
  let h := frame_head tok f dg in h ++ le_bytes 4 (wire_crc32 h 124) ++ pl ++ zeros (CAP - zlen pl).

Record frame_ok (f : frame) (pl : list Z) : Prop := {
  fo_seq : 1 <= f_seq f < 2 ^ 32;
  fo_kind : in_w 32 (f_kind f);
  fo_offset : in_w 64 (f_offset f);
  fo_size : in_w 64 (f_size f);
  fo_n : f_n f = zlen pl /\ zlen pl <= CAP;
  fo_crc : f_crc f = wire_crc32 pl (zlen pl);
}.

Lemma zlen_frame_head tok f dg : zlen tok = 16 -> zlen dg = 32 -> zlen (frame_head tok f dg) = 124.
Proof. intros Ht Hd. unfold frame_head. rewrite !zlen_app, !zlen_le_bytes, Ht, Hd, zlen_zeros by done. done. Qed.

Lemma frame_pieces tok f dg pl : zlen tok = 16 -> zlen dg = 32 -> zlen pl <= CAP ->
  let b := encode_frame tok f dg pl in
  zlen b = WINDOW /\ piece 0 16 b = MAGIC /\ piece 16 16 b = tok /\ piece 64 32 b = dg /\ piece 96 28 b = zeros 28 /\
  piece 124 4 b = le_bytes 4 (wire_crc32 b 124) /\ piece HEADER (zlen pl) b = pl /\ zdrop (HEADER + zlen pl) b = zeros (CAP - zlen pl) /\
  piece 32 4 b = le_bytes 4 (f_seq f) /\ piece 36 4 b = le_bytes 4 (f_kind f) /\ piece 40 8 b = le_bytes 8 (f_offset f) /\
  piece 48 8 b = le_bytes 8 (f_size f) /\ piece 56 4 b = le_bytes 4 (f_n f) /\ piece 60 4 b = le_bytes 4 (f_crc f).
Proof.
  intros Ht Hd Hp b. assert (HM : zlen MAGIC = 16) by done. assert (HZ : zlen (zeros 28) = 28) by done. pose proof (zlen_nonneg pl) as Hp0.
  assert (Hc : wire_crc32 b 124 = wire_crc32 (frame_head tok f dg) 124) by (by apply crc_prefix, zlen_frame_head).
  rewrite Hc. unfold b, encode_frame. clear b Hc. set (c := wire_crc32 _ _). clearbody c. unfold frame_head.
  rewrite <- !app_assoc. set (M := MAGIC) in *. clearbody M. unfold HEADER.
  split_and!; try (by find_piece).
  - rewrite !zlen_app, !zlen_le_bytes, !zlen_zeros, HM, Ht, Hd by (done || lia). unfold CAP, WINDOW, HEADER. lia.
  - rewrite !app_assoc. apply zdrop_app. rewrite !zlen_app, !zlen_le_bytes, HM, Ht, Hd. rewrite zlen_zeros by done. lia.
Qed.

Lemma frame_decodes tok f dg pl : zlen tok = 16 -> zlen dg = 32 -> frame_ok f pl ->
  let b := encode_frame tok f dg pl in frame_of b = f /\ payload b = pl.
Proof.
  intros Ht Hd [H1 H2 H3 H4 [H5 H5'] H6]. cbv zeta. pose proof (zlen_nonneg pl).
  destruct (frame_pieces tok f dg pl Ht Hd H5') as (_ & _ & _ & _ & _ & _ & Pp & _ & P1 & P2 & P3 & P4 & P5 & P6).
  set (b := encode_frame _ _ _ _) in *. clearbody b. assert (E : frame_of b = f).
  { unfold frame_of. rewrite P1, P2, P3, P4, P5, P6, !le_val_bytes. change (8 * Z.of_nat 4) with 32. change (8 * Z.of_nat 8) with 64.
    rewrite H6 in *. rewrite H5, !wrap_small by (first [done | apply crc_range32 | unfold in_w, CAP, WINDOW, HEADER in *; lia]).
    destruct f; cbn in *. congruence. }
  split; [exact E|]. unfold payload. by rewrite E, H5.
Qed.

Lemma frame_accepted tok f dg pl r : frame_ok f pl -> zlen tok = 16 -> zlen dg = 32 ->
  ids r = (tok, f_size f, dg) -> well_formed r (encode_frame tok f dg pl) = true.
Proof.
  intros Hf Ht Hd Hi. destruct (frame_decodes tok f dg pl Ht Hd Hf) as [E1 E2]. pose proof Hf as [H1 H2 H3 H4 [H5 H5'] H6].
  destruct (frame_pieces tok f dg pl Ht Hd H5') as (P0 & P1 & P2 & P3 & P4 & P5 & _ & P7 & _).
  unfold ids in Hi. injection Hi as I1 I2 I3. unfold well_formed. rewrite E1, E2, P0, P1, P2, P3, P4, P5, H5, H6, I1, I2, I3, P7.
  rewrite !bool_decide_eq_true_2, !existsb_zeros, le_val_bytes, wrap_small, !Z.eqb_refl by (done || apply crc_range32). cbn [negb orb].
  rewrite (proj2 (Z.ltb_ge _ _)), (proj2 (Z.eqb_neq (f_seq f) 0)) by lia. done.
Qed.

(** The acknowledgement. *)
Definition ack_head (r : Receiver) : list Z :=
  ACK_MAGIC ++ token r ++ le_bytes 4 (seq r) ++ le_bytes 4 (ack_status r) ++ le_bytes 8 (received r) ++ le_bytes 8 (size r) ++
  zeros 8 ++ digest r ++ zeros 28.

Lemma make_ack_bytes r : zlen (token r) = 16 -> zlen (digest r) = 32 ->
  make_ack r = ack_head r ++ le_bytes 4 (wire_crc32 (ack_head r) 124) ++ zeros (BLOCK - 128).
Proof.
  intros Ht Hd. assert (HM : zlen ACK_MAGIC = 16) by done. unfold make_ack, pack_I, pack_Q, ack_head, BLOCK. set (M := ACK_MAGIC) in *. clearbody M.
  set (st := ack_status r). clearbody st. change (zeros 4096) with ([] ++ zeros 4096).
  rewrite (overwrite_next [] M) by (rewrite ?HM; done). cbn [app]. rewrite (overwrite_next M (token r)) by (rewrite ?HM, ?Ht; done).
  rewrite !(overwrite_next _ (le_bytes _ _)) by (rewrite ?zlen_app, ?zlen_le_bytes, ?HM, ?Ht; done). rewrite !zlen_le_bytes, Ht, HM.
  change (zeros (4096 - 16 - 16 - Z.of_nat 4 - Z.of_nat 4 - Z.of_nat 8 - Z.of_nat 8)) with (zeros (8 + 4032)).
  rewrite <- zeros_app, !app_assoc by done. set (a := ((((((M ++ token r) ++ _) ++ _) ++ _) ++ _) ++ zeros 8)).
  assert (Ha : zlen a = 64) by (unfold a; by rewrite !zlen_app, !zlen_le_bytes, HM, Ht).
  rewrite (overwrite_next a (digest r)) by (rewrite ?Ha, ?Hd; done). rewrite Hd. change (zeros (4032 - 32)) with (zeros (28 + 3972)).
  rewrite <- zeros_app by done. assert (Hl : zlen ((a ++ digest r) ++ zeros 28) = 124) by (by rewrite !zlen_app, Ha, Hd).
  rewrite (app_assoc (a ++ digest r)), crc_prefix by done. rewrite (overwrite_next _ (le_bytes 4 _)) by (rewrite ?Hl, ?zlen_le_bytes; done).
  rewrite zlen_le_bytes. by rewrite <- !app_assoc.
Qed.

Lemma ack_pieces r : zlen (token r) = 16 -> zlen (digest r) = 32 -> let b := make_ack r in
  zlen b = BLOCK /\ piece 0 16 b = ACK_MAGIC /\ piece 16 16 b = token r /\ piece 32 4 b = le_bytes 4 (seq r) /\
  piece 36 4 b = le_bytes 4 (ack_status r) /\ piece 40 8 b = le_bytes 8 (received r) /\ piece 48 8 b = le_bytes 8 (size r) /\
  piece 64 32 b = digest r /\ piece 124 4 b = le_bytes 4 (wire_crc32 b 124).
Proof.
  intros Ht Hd. cbv zeta. assert (HM : zlen ACK_MAGIC = 16) by done. assert (HZ : zlen (zeros 28) = 28) by done. assert (H8 : zlen (zeros 8) = 8) by done.
  assert (Hl : zlen (ack_head r) = 124) by (unfold ack_head; by rewrite !zlen_app, !zlen_le_bytes, HM, Ht, Hd).
  rewrite make_ack_bytes, crc_prefix by done. set (c := wire_crc32 _ _). clearbody c.
  split; [rewrite !zlen_app, Hl, zlen_le_bytes, zlen_zeros; done|]. clear Hl. unfold ack_head. rewrite <- !app_assoc. set (M := ACK_MAGIC) in *. clearbody M.
  split_and!; by find_piece.
Qed.

Lemma overlay_ack r original : zlen original = BLOCK -> zlen (ack r) = BLOCK -> overlay r ACK_LBA 1 original = Some (ack r).
Proof.
  intros Ho Ha. unfold overlay. rewrite Ho. change (BLOCK =? 1 * BLOCK) with true. cbn. f_equal. apply overwrite_all. congruence.
Qed.

Lemma overlay_other r lba original : zlen original = BLOCK -> lba <> ACK_LBA -> overlay r lba 1 original = Some original.
Proof.
  intros Ho Hl. unfold overlay. rewrite Ho. change (BLOCK =? 1 * BLOCK) with true. cbn.
  by destruct ((lba <=? ACK_LBA) && (ACK_LBA <? lba + 1)) eqn:E; [bool_props; lia|].
Qed.

(** ** One frame in sequence, possibly repeated *)

Section sequence.
Context (sha256_digest : list Z -> list Z).
Implicit Types (fl : faults) (b : list Z) (r : Receiver).

(** What the frame [b] may have made of [r0] after any number of deliveries. *)
Definition refused r0 r : Prop := seq r = seq r0 /\ failed r = true /\ ids r = ids r0 /\ ack r = make_ack r.
Definition pending b r0 r : Prop :=
  r = r0 \/ (exists fl, accept sha256_digest fl b r0 = (true, r)) \/ refused r0 r.

Lemma perform_seq fl b r : match perform sha256_digest fl b r with Rejected => True | Raised r' | Performed r' => seq r' = seq r end.
Proof.
  unfold perform. destruct (_ =? BEGIN); [|destruct (_ =? DATA)].
  - unfold begin. by destruct (dest r), (part r), (f_open fl).
  - unfold data. by destruct (f_write fl).
  - unfold finish. destruct (negb _), (f_flush fl), (dest r), (f_link fl); try reflexivity. by destruct (f_unlink fl).
Qed.

Lemma accept_false fl b r r' : accept sha256_digest fl b r = (false, r') -> r' = r \/ refused r r'.
Proof.
  pose proof (accept_ids sha256_digest fl b r) as Hi. pose proof (perform_seq fl b r) as Hs. intros H. rewrite H in Hi. cbn in Hi. revert H.
  unfold accept. destruct (negb _); [intros [= <-]; by left|]. destruct (_ =? seq r); [intros [= _ <-]; by left|].
  destruct (negb _); [intros [= <-]; by left|]. destruct (perform _ _ _ _) as [|x|x]; [intros [= <-]; by left | | done].
  intros [= <-]. right. split_and!; [done | done | done | apply set_ack_ok].
Qed.

Lemma accept_true fl b r r' : f_seq (frame_of b) <> seq r -> accept sha256_digest fl b r = (true, r') ->
  expected r (frame_of b) = true /\
  exists x, perform sha256_digest fl b r = Performed x /\
    r' = set_ack (x <| seq := f_seq (frame_of b) |> <| last := Some (sha256_digest b) |>).
Proof.
  intros Hs. unfold accept. destruct (negb (well_formed r b)); [done|]. rewrite (proj2 (Z.eqb_neq _ _) Hs).
  destruct (expected r (frame_of b)); [|done]. cbn [negb]. destruct (perform _ _ _ _) as [|x|x] eqn:E; [done | done|].
  intros [= <-]. split; [done|]. by exists x.
Qed.

Lemma accept_next fl b r x : well_formed r b = true -> f_seq (frame_of b) <> seq r -> expected r (frame_of b) = true ->
  perform sha256_digest fl b r = Performed x -> (accept sha256_digest fl b r).1 = true.
Proof. intros Hw Hs He Hp. unfold accept. by rewrite Hw, (proj2 (Z.eqb_neq _ _) Hs), He, Hp. Qed.

Lemma pending_closed fl b r0 r : f_seq (frame_of b) <> seq r0 -> pending b r0 r -> pending b r0 (accept sha256_digest fl b r).2.
Proof.
  intros Hne [-> | [[fl' H] | Hr]].
  - destruct (accept sha256_digest fl b r0) as [[] r'] eqn:E; [right; left; by exists fl|].
    destruct (accept_false _ _ _ _ E) as [->|?]; [by left | by right; right].
  - right. left. exists fl'. by rewrite (accept_again sha256_digest fl' fl b r0 r H).
  - right. right. destruct Hr as (Hs & Hf & Hi & Ha). unfold accept. destruct (negb _); [by split_and!|].
    rewrite Hs, (proj2 (Z.eqb_neq _ _) Hne). assert (E : expected r (frame_of b) = false) by (unfold expected; by rewrite Hf).
    rewrite E. by split_and!.
Qed.

(** An acknowledgement with the frame's number says that it was accepted. *)
Lemma pending_acked b r0 r : f_seq (frame_of b) <> seq r0 -> pending b r0 r -> seq r = f_seq (frame_of b) ->
  exists fl, accept sha256_digest fl b r0 = (true, r).
Proof. intros Hne [-> | [? | (Hs & _)]] Hq; [congruence | done | congruence]. Qed.

Lemma pending_ack b r0 r : ack r0 = make_ack r0 -> pending b r0 r -> ack r = make_ack r /\ ids r = ids r0.
Proof.
  intros Ha [-> | [[fl H] | (_ & _ & ? & ?)]]; [done | | done].
  pose proof (accept_ids sha256_digest fl b r0) as Hi. rewrite H in Hi. split; [|done]. cbn in Hi.
  destruct (Z.eq_dec (f_seq (frame_of b)) (seq r0)) as [E|E].
  - revert H. unfold accept. destruct (negb _); [done|]. rewrite E, Z.eqb_refl. by intros [= _ <-].
  - destruct (accept_true _ _ _ _ E H) as (_ & x & _ & ->). apply set_ack_ok.
Qed.

(** The receiver in the middle of an upload of which it has [bs]. *)
Record holding (k : Z) (bs : list Z) r : Prop := {
  hl_seq : seq r = k /\ 1 <= k;
  hl_received : received r = zlen bs;
  hl_state : file r = true /\ done r = false /\ failed r = false;
  hl_files : part r = Some bs /\ hash r = bs /\ dest r = None;
  hl_ack : ack r = make_ack r;
}.
(** Before the first frame. *)
Record waiting r : Prop := {
  wt_seq : seq r = 0 /\ received r = 0 /\ hash r = [];
  wt_state : file r = false /\ done r = false /\ failed r = false;
  wt_files : dest r = None;
  wt_ack : ack r = make_ack r;
}.

Lemma begin_step fl b r r' : waiting r -> f_seq (frame_of b) = 1 -> f_kind (frame_of b) = BEGIN ->
  accept sha256_digest fl b r = (true, r') -> holding 1 [] r'.
Proof.
  intros [(Hs & Hr & Hh) (Hf & Hd & Hx) Hdest _] E1 E2 H. destruct (accept_true fl b r r' ltac:(lia) H) as (_ & x & Hp & ->).
  unfold perform, begin in Hp. rewrite E2, Z.eqb_refl, Hdest in Hp. destruct (part r), (f_open fl); simplify_eq.
  split; [| | | |apply set_ack_ok]; cbn; by rewrite ?E1, ?Hr.
Qed.

Lemma begin_accepted b r : waiting r -> part r = None -> well_formed r b = true ->
  frame_of b = mk_frame 1 BEGIN 0 (size r) 0 (f_crc (frame_of b)) -> (accept sha256_digest no_faults b r).1 = true.
Proof.
  intros [(Hs & Hr & Hh) (Hf & Hd & Hx) Hdest _] Hp Hw E. eapply accept_next; [done | rewrite E, Hs; done | |].
  - unfold expected. rewrite E. cbn. by rewrite Hs, Hr, Hd, Hx.
  - unfold perform, begin. rewrite E, Hdest, Hp. done.
Qed.

Lemma data_step fl b bs k r r' : holding k bs r -> f_seq (frame_of b) = k + 1 -> f_kind (frame_of b) = DATA ->
  f_n (frame_of b) = zlen (payload b) -> accept sha256_digest fl b r = (true, r') -> holding (k + 1) (bs ++ payload b) r'.
Proof.
  intros [[Hs Hk] Hr (Hf & Hd & Hx) (Hp & Hh & Hdest) _] E1 E2 E3 H. destruct (accept_true fl b r r' ltac:(lia) H) as (_ & x & Hx' & ->).
  unfold perform, data, content in Hx'. rewrite E2, Hp in Hx'. change (DATA =? BEGIN) with false in Hx'. change (DATA =? DATA) with true in Hx'.
  rewrite E3 in Hx'. set (q := f_seq (frame_of b)) in *. clearbody q. destruct (f_write fl); simplify_eq.
  split; [| | | |apply set_ack_ok]; cbn; rewrite ?E1, ?Hr, ?zlen_app; split_and?; done || lia.
Qed.

Lemma data_accepted b bs k r : holding k bs r -> well_formed r b = true -> f_seq (frame_of b) = k + 1 -> f_kind (frame_of b) = DATA ->
  f_offset (frame_of b) = zlen bs -> f_n (frame_of b) = Z.min CAP (size r - zlen bs) -> f_n (frame_of b) <> 0 ->
  (accept sha256_digest no_faults b r).1 = true.
Proof.
  intros [[Hs Hk] Hr (Hf & Hd & Hx) (Hp & Hh & Hdest) _] Hw E1 E2 E3 E4 E5. eapply accept_next; [done | lia | |].
  - unfold expected. rewrite Hd, Hx, Hf, Hs, Hr, E1, E2, E3, E4, !Z.eqb_refl. rewrite E4 in E5. cbn. unfold truthy. by rewrite (proj2 (Z.eqb_neq _ 0)).
  - unfold perform, data. by rewrite E2.
Qed.

Lemma end_step fl b bs k r r' : holding k bs r -> f_seq (frame_of b) = k + 1 -> f_kind (frame_of b) = END ->
  accept sha256_digest fl b r = (true, r') -> dest r' = Some bs /\ done r' = true /\ failed r' = false /\ seq r' = k + 1 /\ received r' = zlen bs.
Proof.
  intros [[Hs Hk] Hr (Hf & Hd & Hx) (Hp & Hh & Hdest) _] E1 E2 H. destruct (accept_true fl b r r' ltac:(lia) H) as (_ & x & Hx' & ->).
  unfold perform, finish in Hx'. rewrite E2, Hdest in Hx'. change (END =? BEGIN) with false in Hx'. change (END =? DATA) with false in Hx'.
  destruct (negb _), (f_flush fl), (f_link fl), (f_unlink fl); simplify_eq. cbn. by rewrite E1, Hp, Hx, Hr.
Qed.

Lemma end_accepted b bs k r : holding k bs r -> well_formed r b = true -> f_seq (frame_of b) = k + 1 -> f_kind (frame_of b) = END ->
  f_offset (frame_of b) = zlen bs -> f_n (frame_of b) = 0 -> zlen bs = size r -> sha256_digest bs = digest r ->
  (accept sha256_digest no_faults b r).1 = true.
Proof.
  intros [[Hs Hk] Hr (Hf & Hd & Hx) (Hp & Hh & Hdest) _] Hw E1 E2 E3 E4 E5 E6. eapply accept_next; [done | lia | |].
  - unfold expected. rewrite Hd, Hx, Hf, Hs, Hr, E1, E2, E3, E4, E5, !Z.eqb_refl. done.
  - unfold perform, finish. rewrite E2, Hh, E6, Hdest, bool_decide_eq_true_2 by done. done.
Qed.
End sequence.

(** ** Witnesses

    A file of three bytes in three frames, over a digest that keeps the first 32
    bytes. *)

Definition toy_token : list Z := [1; 2; 3; 4; 5; 6; 7; 8; 9; 10; 11; 12; 13; 14; 15; 16].
Definition toy_file : list Z := [7; 255; 0].
Definition toy_sha (l : list Z) : list Z := ztake 32 (l ++ zeros 32).
Definition toy_receiver : Receiver :=
  set_ack (mk_receiver toy_token 3 (toy_sha toy_file) 0 [] 0 None false false false [] None None).
Definition toy_frame (k kind off : Z) (pl : list Z) : list Z :=
  encode_frame toy_token (mk_frame k kind off 3 (zlen pl) (wire_crc32 pl (zlen pl))) (toy_sha toy_file) pl.
(** The transfer with one frame sent twice, the publication possibly refused. *)
Definition toy_frames (fl : faults) : list (faults * list Z) :=
  [(no_faults, toy_frame 1 BEGIN 0 []); (no_faults, toy_frame 2 DATA 0 toy_file);
   (no_faults, toy_frame 2 DATA 0 toy_file); (fl, toy_frame 3 END 3 [])].

Lemma bytes_ok_frame tok f dg pl : bytes_ok tok -> bytes_ok dg -> bytes_ok pl -> bytes_ok (encode_frame tok f dg pl).
Proof.
  intros Ht Hd Hp. assert (HM : bytes_ok MAGIC) by by apply bytes_ok_check. unfold encode_frame, frame_head.
  rewrite !bytes_ok_app. split_and!; first [assumption | apply le_bytes_ok | apply bytes_ok_zeros].
Qed.

Lemma toy_frames_bytes fl : Forall (fun e => bytes_ok e.2) (toy_frames fl).
Proof.
  assert (H : forall k kind off pl, bytes_ok pl -> bytes_ok (toy_frame k kind off pl)).
  { intros k kind off pl Hp. assert (Ht : bytes_ok toy_token) by (apply bytes_ok_check; vm_compute; reflexivity).
    assert (Hd : bytes_ok (toy_sha toy_file)) by (apply bytes_ok_check; vm_compute; reflexivity).
    exact (bytes_ok_frame _ _ _ _ Ht Hd Hp). }
  assert (H0 : bytes_ok []) by constructor. assert (Hf : bytes_ok toy_file) by (apply bytes_ok_check; vm_compute; reflexivity).
  unfold toy_frames. do 4 (apply Forall_cons_2; [apply H; assumption|]). apply Forall_nil_2.
Qed.

Lemma receiver_publishes_witness :
  let r := accepts toy_sha (toy_frames no_faults) toy_receiver in
  let complete := @None (list Z) = None /\ exists art, dest r = Some art /\ toy_sha art = toy_sha toy_file /\ zlen art = 3 /\ received r = 3 in
  (dest r = None \/ complete) /\ (done r = true -> complete) /\ 0 <= received r <= 3.
Proof. exact (receiver_publishes toy_sha toy_token 3 (toy_sha toy_file) None None toy_receiver (toy_frames no_faults) eq_refl (toy_frames_bytes _)). Defined.

Lemma receiver_retry_witness :
  let b := toy_frame 1 BEGIN 0 [] in let r := (accept toy_sha no_faults b toy_receiver).2 in accept toy_sha no_faults b r = (true, r).
Proof. apply (receiver_retry toy_sha no_faults no_faults (toy_frame 1 BEGIN 0 []) toy_receiver). vm_compute. reflexivity. Defined.

(** The transfer publishes the file; where the link is refused it fails for good. *)
Example toy_done : let r := accepts toy_sha (toy_frames no_faults) toy_receiver in (done r, dest r, part r) = (true, Some toy_file, None).
Proof. vm_compute. reflexivity. Qed.

Example toy_refused : let r := accepts toy_sha (toy_frames (mk_faults None None None true false)) toy_receiver in
  (ack_status r, dest r, part r) = (2, None, Some toy_file).
Proof. vm_compute. reflexivity. Qed.
