(* ===== verification/Upload.v ===== *)
(** * The upload client ([file-upload-s169/client/nwput.c])

    A program without a C runtime that sends one known file to the host, in frames
    of sixteen blocks; after each it reads the acknowledgement, and repeats the frame
    up to three times.  The store is the program's statics with the operating
    system's state; the Win32 functions are those of [Delivery] and three more.  Output
    to the console, which includes the progress report, is dropped. *)

From S2P Require Import Prelude Wire Delivery.

(** ** Constants *)

Definition BAD : H := INVALID_H.
Definition SIZE : Z := 3987720636.
Definition CAP : Z := 65408.
Definition digest : list Z := [
  0x81;0x18;0xbf;0xe1;0x17;0x3b;0x8f;0x72;0x16;0x1d;0x1e;0xec;0xe7;0xeb;0x76;0xb0;
  0x9c;0xaa;0x7b;0x30;0xb3;0x33;0xf7;0x8a;0xe0;0x39;0xd3;0x90;0xbb;0x04;0xbc;0x8c].
Definition magic : list Z := chars "NWOAS-S169-UPLD!".
Definition ackmagic : list Z := chars "NWOAS-S169-UACK!".
Definition portmagic : list Z := chars "NWOAS-S123-LINK!".
Definition dir_path : list Z := chars "C:\S117SRC".
Definition source_path : list Z := chars "C:\S117SRC\install.swm".

(** ** The operating system *)

(** [GetFileInformationByHandle] returns the attributes, [info[0]]. *)
Record upload32 (W : Type) := {
  base :> win32 W;
  GetFileAttributesW : list Z -> M W Z;
  GetFileInformationByHandle : H -> M W (bool * Z);
  GetFileSizeEx : H -> M W (bool * Z);
}.
#[global] Arguments base {W} _. #[global] Arguments GetFileAttributesW {W} _.
#[global] Arguments GetFileInformationByHandle {W} _. #[global] Arguments GetFileSizeEx {W} _.

(** ** The statics *)

Record uploader := mk_uploader {
  disk : H; source : H; frame : list Z; ack : list Z; idbuf : list Z; token : list Z;
}.
#[export] Instance eta_uploader : Eta uploader := fun u =>
  mk_uploader (disk u) (source u) (frame u) (ack u) (idbuf u) (token u).
Definition uploader_init : uploader := mk_uploader BAD BAD [] [] [] (zeros 16).

(** ** Frames *)

(** [header]: the first 128 bytes around the payload that is already in place, and
    zeros after it. *)
Definition header (tok : list Z) (seq kind offset n : Z) (f : list Z) : list Z :=
  let f := overwrite 0 (zeros 128) f in
  let f := overwrite 0 magic f in
  let f := overwrite 16 tok f in
  let f := wire_wr32 32 seq f in
  let f := wire_wr32 36 kind f in
  let f := wire_wr64 40 offset f in
  let f := wire_wr64 48 SIZE f in
  let f := wire_wr32 56 n f in
  let f := wire_wr32 60 (wire_crc32 (zdrop 128 f) n) f in
  let f := overwrite 64 digest f in
  let f := wire_wr32 124 (wire_crc32 f 124) f in
  overwrite (128 + n) (zeros (65536 - (128 + n))) f.

Definition ack_ok (tok a : list Z) (seq kind expected : Z) : bool :=
  if negb (match_at a 0 ackmagic) || negb (match_at a 16 tok) || negb (wire_crc32 a 124 =? wire_rd32 a 124) then false
  else
    (wire_rd32 a 32 =? seq) && (wire_rd32 a 36 =? (if kind =? 2 then 1 else 0)) && (wire_rd64 a 40 =? expected) &&
    (wire_rd64 a 48 =? SIZE) && match_at a 64 digest.

Section client.
Context {W : Type} (env : upload32 W).
Notation st := (uploader * W)%type.

(** ** Blocks *)

Definition rd (h : H) (at_ : Z) (b : list Z) (n : Z) : M W (bool * list Z) :=
  ok ← SetFilePointerEx env h at_;
  if negb ok then mret (false, b)
  else
    r ← ReadFile env h b n;
    let '(ok, got, b) := r in mret (ok && (got =? n), b).

(** [rd(h, at, idbuf, 4096)] and [rd(h, at, ack, 4096)]. *)
Definition rd_idbuf (h : H) (at_ : Z) : M st bool :=
  b ← get idbuf; r ← os (rd h at_ b 4096); put (fun u => u <| idbuf := r.2 |>);; mret r.1.
Definition rd_ack (h : H) (at_ : Z) : M st bool :=
  b ← get ack; r ← os (rd h at_ b 4096); put (fun u => u <| ack := r.2 |>);; mret r.1.

Definition identify (h : H) : M st bool := body (
  r ← call (os (DeviceIoControl env h));
  let '(ok, n, got) := r in
  when (negb ok || negb (got =? 8) || negb (n =? 8448 * 4096)) (exit false);;
  ok ← call (rd_idbuf h 0);
  b ← call (get idbuf);
  when (negb ok || negb (wire_rd32 b 440 =? 0x53313233) || negb (byte_at b 510 =? 0x55) ||
        negb (byte_at b 511 =? 0xaa)) (exit false);;
  ok ← call (rd_idbuf h (128 * 4096));
  b ← call (get idbuf);
  mret (ok && match_at b 0 portmagic)).

(** ** Sending a frame *)

(** The frame is written from the block 160 on. *)
Definition write_frame : M st bool :=
  d ← get disk;
  ok ← os (SetFilePointerEx env d (160 * 4096));
  if negb ok then mret false
  else
    f ← get frame;
    r ← os (WriteFile env d f);
    mret (r.1 && (r.2 =? 65536)).

(** One attempt after the pause. *)
Definition attempt (seq kind offset n : Z) : M st bool :=
  ok ← write_frame;
  if negb ok then mret false
  else
    d ← get disk;
    ok ← rd_ack d (176 * 4096);
    if negb ok then mret false
    else
      u ← get (fun u => u);
      mret (ack_ok (token u) (ack u) seq kind (u64 (offset + n))).

Fixpoint attempts (k : nat) (first : bool) (seq kind offset n : Z) : M st bool :=
  match k with
  | O => mret false
  | S k =>
      (if first then mret tt else os (Sleep env 100));;
      ok ← attempt seq kind offset n;
      if (ok : bool) then mret true else attempts k false seq kind offset n
  end.

Definition send (seq kind offset n : Z) : M st bool :=
  put (fun u => u <| frame := header (token u) seq kind offset n (frame u) |>);;
  attempts 3 true seq kind offset n.

(** ** The program

    The value is the code passed to [ExitProcess], [None] when the fuel of the loop
    ran out. *)

Definition stop {A} (rc : Z) : proc st (option Z) A :=
  u ← call (get (fun u => u));
  when (negb (source u =? BAD)) (call (os (CloseHandle env (source u))));;
  when (negb (disk u =? BAD)) (call (os (CloseHandle env (disk u))));;
  exit (Some rc).

(** The drive once more, for writing. *)
Definition reopen (i : Z) : proc st bool bool :=
  h ← call (os (CreateFileW env (drive_path i) 0xc0000000 3 3 0x20000000));
  when (h =? BAD) (exit false);;
  ok ← call (identify h);
  u ← call (get (fun u => u));
  when (negb ok || negb (match_at (idbuf u) 16 (token u))) (call (os (CloseHandle env h));; exit false);;
  call (put (fun u => u <| disk := h |>));;
  mret true.

(** One turn of the search for the disk: true when [disk] has been set. *)
Definition probe (i : Z) : M st bool := body (
  h ← call (os (CreateFileW env (drive_path i) 0x80000000 3 3 0x20000000));
  when (h =? BAD) (exit false);;
  found ← call (identify h);
  when found (call (put (fun u => u <| token := ztake 16 (zdrop 16 (idbuf u)) |>)));;
  call (os (CloseHandle env h));;
  when (negb found) (exit false);;
  reopen i).

Fixpoint find_disk (n : nat) (i : Z) : M st unit :=
  match n with
  | O => mret tt
  | S n =>
      found ← probe i;
      if (found : bool) then mret tt else find_disk n (i + 1)
  end.

Definition alloc_buffers : M st bool :=
  f ← os (VirtualAlloc env 65536);
  a ← os (VirtualAlloc env 4096);
  b ← os (VirtualAlloc env 4096);
  match f, a, b with
  | Some f, Some a, Some b => put (fun u => mk_uploader (disk u) (source u) f a b (token u));; mret true
  | _, _, _ => mret false
  end.

(** [ReadFile(source, frame + 128, n)] in full. *)
Definition read_source (n : Z) : M st bool :=
  u ← get (fun u => u);
  r ← os (ReadFile env (source u) (zdrop 128 (frame u)) n);
  let '(ok, got, b) := r in
  put (fun u => u <| frame := ztake 128 (frame u) ++ b |>);;
  mret (ok && (got =? n)).

(** The transfer; falls through with the final offset and sequence number. *)
Fixpoint transfer (fuel : nat) (offset seq : Z) : proc st (option Z) (Z * Z) :=
  match fuel with
  | O => exit None
  | S fuel =>
      if negb (offset <? SIZE) then mret (offset, seq)
      else
        let n := if SIZE - offset <? CAP then SIZE - offset else CAP in
        ok ← call (read_source n);
        when (negb ok) (stop 6);;
        ok ← call (send seq 1 offset n);
        when (negb ok) (stop 7);;
        transfer fuel (u64 (offset + n)) (u32 (seq + 1))
  end.
(** One iteration per full payload, one for the rest and one to leave. *)
Definition TRANSFER_FUEL : nat := Z.to_nat (SIZE / CAP + 2).

(** The source directory and file, up to the length. *)
Definition open_source : proc st (option Z) unit :=
  attr ← call (os (GetFileAttributesW env dir_path));
  when ((attr =? 0xffffffff) || truthy (attr .& 0x400) || negb (truthy (attr .& 0x10))) (stop 2);;
  h ← call (os (CreateFileW env source_path 0x80000000 1 3 0x08200000));
  call (put (fun u => u <| source := h |>));;
  when (h =? BAD) (stop 2);;
  r ← call (os (GetFileInformationByHandle env h));
  let '(ok, info) := r in
  when (negb ok || truthy (info .& (0x400 .| 0x10))) (stop 2);;
  r ← call (os (GetFileSizeEx env h));
  let '(ok, size) := r in
  when (negb ok || negb (size =? SIZE)) (stop 2).

(** From the first frame on. *)
Definition upload : proc st (option Z) (option Z) :=
  ok ← call (send 1 0 0 0);
  when (negb ok) (stop 5);;
  r ← transfer TRANSFER_FUEL 0 2;
  let '(offset, seq) := r in
  ok ← call (send seq 2 offset 0);
  when (negb ok) (stop 8);;
  stop 0.

Definition mainCRTStartup : M st (option Z) := body (
  open_source;;
  ok ← call alloc_buffers;
  when (negb ok) (stop 3);;
  call (find_disk 10 0);;
  d ← call (get disk);
  when (d =? BAD) (stop 4);;
  upload).
End client.
