(* ===== verification/UploadLink.v ===== *)
(** * The upload client against the host's receiver

    [UploadMachine] describes the machine the client is made for: the host's disk is one
    of the physical drives, a write of sixteen blocks at 160 is a frame for the
    receiver, block 176 shows its acknowledgement.  Any system call may fail, a frame
    may be lost or its result reported wrongly; a machine where none of this happens is
    [reliable].  The client ends; when it reports success the host has published the
    source file; and on a reliable machine it does report success. *)

From stdpp Require Import gmap.
From S2P Require Import Prelude Wire Channel Delivery DeliveryLink.
From S2P Require Import UploadReceiver Upload.

(** ** The two sides of the wire *)

Lemma over_next a bs o k t : o = zlen a -> zlen bs <= k -> overwrite o bs (a ++ zeros k ++ t) = (a ++ bs) ++ zeros (k - zlen bs) ++ t.
Proof. intros -> Hk. by rewrite overwrite_skip, Z.sub_diag, overwrite_zeros, zeros_0, Z.sub_0_r, <- app_assoc by lia. Qed.

Lemma wr32_next a o v k t : o = zlen a -> 4 <= k -> wire_wr32 o v (a ++ zeros k ++ t) = (a ++ le_bytes 4 v) ++ zeros (k - 4) ++ t.
Proof. intros -> Hk. unfold wire_wr32. by rewrite wr_bytes4, over_next by (rewrite ?zlen_le_bytes; lia). Qed.

Lemma wr64_next a o v k t : o = zlen a -> 8 <= k -> wire_wr64 o v (a ++ zeros k ++ t) = (a ++ le_bytes 8 v) ++ zeros (k - 8) ++ t.
Proof.
  intros -> Hk. unfold wire_wr64. rewrite wr32_next, wr32_next by (rewrite ?zlen_app, ?zlen_le_bytes; lia).
  rewrite le_bytes_8, (app_assoc a). by replace (k - 4 - 4) with (k - 8) by lia.
Qed.

(** The frame that a payload [pl] makes. *)
Definition frame_for (k kind off : Z) (pl : list Z) : UploadReceiver.frame :=
  mk_frame k kind off SIZE (zlen pl) (wire_crc32 pl (zlen pl)).

Lemma header_encodes tok k kind off n f : zlen tok = 16 -> zlen f = WINDOW -> 0 <= n <= CAP ->
  let pl := ztake n (zdrop 128 f) in header tok k kind off n f = encode_frame tok (frame_for k kind off pl) digest pl.
Proof.
  intros Ht Hf Hn pl. unfold WINDOW, CAP in *. assert (HM : zlen magic = 16) by done. assert (HD : zlen digest = 32) by done.
  assert (Hpl : zlen pl = n) by (unfold pl; apply zlen_ztake; rewrite zlen_zdrop; lia).
  unfold header, encode_frame, frame_head, frame_for. change MAGIC with magic.
  cbn [f_seq f_kind f_offset f_size f_n f_crc]. set (M := magic) in *. clearbody M. set (D := digest) in *. clearbody D.
  assert (E0 : overwrite 0 (zeros 128) f = [] ++ zeros 128 ++ zdrop 128 f) by done. rewrite E0. set (t := zdrop 128 f) in *.
  rewrite (over_next [] M) by (rewrite ?HM; done). rewrite (over_next _ tok) by (rewrite ?HM, ?Ht; done).
  rewrite HM, Ht. change ([] ++ M) with M.
  do 2 rewrite wr32_next by (rewrite ?zlen_app, ?zlen_le_bytes, ?HM, ?Ht; done).
  do 2 rewrite wr64_next by (rewrite ?zlen_app, ?zlen_le_bytes, ?HM, ?Ht; done).
  rewrite wr32_next by (rewrite ?zlen_app, ?zlen_le_bytes, ?HM, ?Ht; done).
  match goal with |- context [zdrop 128 (?a ++ zeros ?z ++ t)] =>
    assert (Ed : zdrop 128 (a ++ zeros z ++ t) = t) by (rewrite app_assoc; apply zdrop_app; rewrite !zlen_app, !zlen_le_bytes, HM, Ht; done)
  end.
  rewrite Ed. assert (Ec : wire_crc32 t n = wire_crc32 pl (zlen pl)).
  { rewrite <- (ztake_zdrop n t) at 1. fold pl. rewrite Hpl. by apply crc_prefix. }
  rewrite Ec. rewrite wr32_next by (rewrite ?zlen_app, ?zlen_le_bytes, ?HM, ?Ht; done).
  rewrite over_next by (rewrite ?zlen_app, ?zlen_le_bytes, ?HM, ?Ht, ?HD; done). rewrite HD, Hpl.
  match goal with |- context [wire_wr32 124 _ (?a ++ zeros ?z ++ t)] => set (h := a); change z with (28 + 4) end.
  rewrite <- (zeros_app 28 4), <- (app_assoc (zeros 28)), (app_assoc h) by done.
  assert (Eh : zlen (h ++ zeros 28) = 124) by (unfold h; by rewrite !zlen_app, !zlen_le_bytes, HM, Ht, HD).
  rewrite crc_prefix, wr32_next by (rewrite ?Eh; done). change (zeros (4 - 4) ++ t) with t.
  assert (Et : t = pl ++ zdrop n t) by (symmetry; apply ztake_zdrop). rewrite Et at 1.
  assert (Er : overwrite (128 + n) (zeros (65536 - (128 + n))) (((h ++ zeros 28) ++ le_bytes 4 (wire_crc32 (h ++ zeros 28) 124)) ++ pl ++ zdrop n t) =
    ((h ++ zeros 28) ++ le_bytes 4 (wire_crc32 (h ++ zeros 28) 124)) ++ pl ++ zeros (65536 - (128 + n))).
  { rewrite !(app_assoc _ pl). match goal with |- overwrite ?o ?z (?a ++ ?b) = _ => pose proof (overwrite_app a b [] z o) as P end.
    rewrite !app_nil_r in P. apply P.
    - rewrite zlen_app, (zlen_app _ (le_bytes 4 _)), Eh, zlen_le_bytes, Hpl. lia.
    - assert (Hzt : zlen t = 65408) by (unfold t; rewrite zlen_zdrop; lia). rewrite zlen_zdrop, zlen_zeros by lia. lia. }
  rewrite Er. unfold h. rewrite <- !app_assoc. unfold UploadReceiver.CAP, UploadReceiver.WINDOW, UploadReceiver.HEADER.
  replace (65536 - 128 - n) with (65536 - (128 + n)) by lia. done.
Qed.

(** What the client reads in an acknowledgement. *)
Lemma ack_seen tok r k kind expected : zlen tok = 16 -> ids r = (tok, SIZE, digest) ->
  ack_ok tok (make_ack r) k kind expected =
  (u32 (seq r) =? k) && (ack_status r =? (if kind =? 2 then 1 else 0)) && (u64 (received r) =? expected).
Proof.
  intros Ht Hi. unfold ids in Hi. injection Hi as I1 I2 I3.
  destruct (ack_pieces r) as (P0 & P1 & P2 & P3 & P4 & P5 & P6 & P7 & P8); [by rewrite I1 | by rewrite I3|]. unfold ack_ok.
  set (b := make_ack r) in *. clearbody b. assert (Hm : forall o m, 0 <= o -> o + zlen m <= 4096 -> piece o (zlen m) b = m -> match_at b o m = true).
  { intros o m Ho Hl E. apply match_at_piece; [done | by rewrite P0 | done]. }
  rewrite (Hm 0 ackmagic) by first [done | exact P1]. rewrite (Hm 64 digest) by first [done | exact (eq_trans P7 I3)].
  rewrite (Hm 16 tok) by (rewrite ?Ht; first [done | exact (eq_trans P2 I1)]).
  rewrite !rd32_piece, !rd64_piece by (rewrite ?P0; done). rewrite P3, P4, P5, P6, P8, !le_val_bytes, I2.
  change (8 * Z.of_nat 4) with 32. change (8 * Z.of_nat 8) with 64.
  rewrite (wrap_small 32 (wire_crc32 _ _)), Z.eqb_refl by apply crc_range32. cbn [negb orb].
  rewrite (wrap_small 32 (ack_status r)) by (unfold ack_status; by destruct (failed r), (done r)).
  rewrite (wrap_small 64 SIZE), Z.eqb_refl, !andb_true_r by done. done.
Qed.

(** ** The machine *)

(** What an open handle stands for: a drive or the source file, and a position. *)
Inductive place := OnDrive (i pos : Z) | OnSource (pos : Z).

(** The views of the system's state: the receiver, the open handles, the disk's own
    blocks.  [uns2] is the number of the host's disk. *)
Record uviews (W : Type) := {
  rcv : W -> Receiver;
  uhnd : W -> Z -> option place;
  uraw : W -> Z -> list Z;
  uns2 : Z;
}.
#[global] Arguments rcv {W} _. #[global] Arguments uhnd {W} _. #[global] Arguments uraw {W} _. #[global] Arguments uns2 {W} _.

(** A step that touches none of the views but the handles. *)
Definition ukept {W} (v : uviews W) (h : Z -> option place) (w w' : W) : Prop :=
  rcv v w' = rcv v w /\ forall x, uhnd v w' x = h x.

Class UploadMachine {W} (env : upload32 W) (v : uviews W) (tok : list Z) (sha256_digest : list Z -> list Z) (src : list Z)
  (reliable : Prop) : Prop := {
  um_ns2 : 0 <= uns2 v < 10;
  um_disk w : disk_ok tok (uraw v w);
  um_attr w : let r := GetFileAttributesW env dir_path w in
    ukept v (uhnd v w) w r.2 /\ (reliable -> r.1 <> 0xffffffff /\ r.1 .& 0x400 = 0 /\ r.1 .& 0x10 <> 0);
  um_open w : let r := CreateFileW env source_path 0x80000000 1 3 0x08200000 w in
    (r.1 = BAD /\ ~ reliable /\ ukept v (uhnd v w) w r.2) \/
    (r.1 <> BAD /\ uhnd v w r.1 = None /\ ukept v (upd r.1 (Some (OnSource 0)) (uhnd v w)) w r.2);
  um_info h p w : uhnd v w h = Some (OnSource p) -> let r := GetFileInformationByHandle env h w in
    ukept v (uhnd v w) w r.2 /\ (reliable -> r.1.1 = true /\ r.1.2 .& 0x410 = 0);
  um_size h p w : uhnd v w h = Some (OnSource p) -> let r := GetFileSizeEx env h w in
    ukept v (uhnd v w) w r.2 /\ (r.1.1 = true -> r.1.2 = zlen src) /\ (reliable -> r.1.1 = true);
  um_alloc n w : let r := VirtualAlloc env n w in
    ukept v (uhnd v w) w r.2 /\ (r.1 = Some (zeros n) \/ r.1 = None /\ ~ reliable);
  um_drive i acc w : 0 <= i < 10 -> let r := CreateFileW env (drive_path i) acc 3 3 0x20000000 w in
    (r.1 = BAD /\ (reliable -> i <> uns2 v) /\ ukept v (uhnd v w) w r.2) \/
    (r.1 <> BAD /\ uhnd v w r.1 = None /\ ukept v (upd r.1 (Some (OnDrive i 0)) (uhnd v w)) w r.2);
  um_ioctl h i p w : uhnd v w h = Some (OnDrive i p) -> let r := DeviceIoControl env h w in
    ukept v (uhnd v w) w r.2 /\
    if decide (i = uns2 v) then reliable -> r.1 = (true, NS2_LENGTH, 8) else r.1.1.1 = true -> r.1.1.2 <> NS2_LENGTH;
  um_seek h i p at_ w : uhnd v w h = Some (OnDrive i p) -> let r := SetFilePointerEx env h at_ w in
    (exists p', ukept v (upd h (Some (OnDrive i p')) (uhnd v w)) w r.2 /\ (r.1 = true -> p' = at_)) /\ (reliable -> r.1 = true);
  um_read h lba dst w : uhnd v w h = Some (OnDrive (uns2 v) (lba * BLOCK)) -> lba = 0 \/ lba = WIRE_PORT_LBA \/ lba = ACK_LBA ->
    zlen dst = BLOCK -> let r := ReadFile env h dst BLOCK w in
    zlen r.1.2 = BLOCK /\ (exists p', ukept v (upd h (Some (OnDrive (uns2 v) p')) (uhnd v w)) w r.2) /\
    (forall out, overlay (rcv v w) lba 1 (uraw v w lba) = Some out -> zlen out = BLOCK ->
      (r.1.1 = (true, BLOCK) -> r.1.2 = out) /\ (reliable -> r.1.1 = (true, BLOCK)));
  um_write h bs w : uhnd v w h = Some (OnDrive (uns2 v) (WRITE_LBA * BLOCK)) -> zlen bs = WINDOW ->
    let r := WriteFile env h bs w in
    (exists p', forall x, uhnd v r.2 x = upd h (Some (OnDrive (uns2 v) p')) (uhnd v w) x) /\
    (rcv v r.2 = rcv v w \/ exists fl, rcv v r.2 = (accept sha256_digest fl bs (rcv v w)).2) /\
    (reliable -> let c := accept sha256_digest no_faults bs (rcv v w) in
      rcv v r.2 = c.2 /\ r.1 = if c.1 then (true, WINDOW) else (false, 0));
  um_source h p dst n w : uhnd v w h = Some (OnSource p) -> 0 <= p -> 0 < n <= zlen dst -> let r := ReadFile env h dst n w in
    zlen r.1.2 = zlen dst /\
    (exists p', ukept v (upd h (Some (OnSource p')) (uhnd v w)) w r.2 /\
      (r.1.1 = (true, n) -> p' = p + n /\ p + n <= zlen src /\ ztake n r.1.2 = piece p n src)) /\
    (reliable -> p + n <= zlen src -> r.1.1 = (true, n));
  um_close h w : ukept v (upd h None (uhnd v w)) w (CloseHandle env h w).2;
  um_sleep n w : ukept v (uhnd v w) w (Sleep env n w).2;
}.

Section link.
Context {W : Type} {env : upload32 W} {v : uviews W} {tok : list Z} {sha256_digest : list Z -> list Z} {src : list Z} {reliable : Prop}.
Context `{U : !UploadMachine env v tok sha256_digest src reliable} (Ht : zlen tok = 16).
Implicit Types (u : uploader) (w : W).

(** The client set up on its disk, the source open at [p]. *)
Record attached (p : Z) u w : Prop := {
  at_frame : zlen (Upload.frame u) = WINDOW;
  at_bufs : zlen (Upload.ack u) = BLOCK /\ zlen (idbuf u) = BLOCK;
  at_token : Upload.token u = tok;
  at_disk : disk u <> BAD /\ exists q, uhnd v w (disk u) = Some (OnDrive (uns2 v) q);
  at_source : source u <> BAD /\ uhnd v w (source u) = Some (OnSource p);
  at_ids : ids (rcv v w) = (tok, SIZE, digest);
}.

Lemma upd_same {A} h (x : A) f : upd h x f h = x.
Proof. unfold upd. by rewrite Z.eqb_refl. Qed.
Lemma upd_other {A} h (x : A) f h' : h' <> h -> upd h x f h' = f h'.
Proof. intros H. unfold upd. by rewrite (proj2 (Z.eqb_neq _ _) H). Qed.

(** A step of the disk's handle alone. *)
Lemma attached_disk p q u w w' : attached p u w -> ids (rcv v w') = ids (rcv v w) ->
  (forall x, uhnd v w' x = upd (disk u) (Some (OnDrive (uns2 v) q)) (uhnd v w) x) -> attached p u w'.
Proof.
  intros [H1 H2 H3 [H4 [q0 H4']] [H5 H5'] H6] Hi Hh. split; try done.
  - split; [done|]. exists q. by rewrite Hh, upd_same.
  - split; [done|]. rewrite Hh, upd_other; [done|]. intros E. rewrite E in H5'. congruence.
  - congruence.
Qed.

(** *** One frame *)

Lemma spec_write_frame p r0 Q u w : attached p u w -> let F := Upload.frame u in
  f_seq (frame_of F) <> seq r0 -> pending sha256_digest F r0 (rcv v w) ->
  (forall ok w', attached p u w' -> pending sha256_digest F r0 (rcv v w') ->
    (reliable -> let c := accept sha256_digest no_faults F (rcv v w) in rcv v w' = c.2 /\ ok = c.1) -> Q ok (u, w')) ->
  mwp (write_frame env) Q (u, w).
Proof.
  intros Ha F Hne Hp HQ. unfold write_frame. cl_go. apply mwp_os. destruct (at_disk _ _ _ Ha) as [_ [q Hq]].
  destruct (um_seek _ _ _ (160 * 4096) w Hq) as [(q1 & [K1 K2] & K3) K4].
  destruct (SetFilePointerEx env (disk u) (160 * 4096) w) as [ok w1]. cbn [fst snd] in *.
  assert (Ha1 : attached p u w1) by (apply (attached_disk p q1 u w w1 Ha); [by rewrite K1 | done]). rewrite <- K1 in Hp.
  destruct ok; cbn [negb]; cl_go.
  - rewrite K3 in K2 by done. apply mwp_os. fold F.
    destruct (um_write (disk u) F w1) as ([q2 W1] & W2 & W3); [by rewrite K2, upd_same | apply Ha|].
    destruct (WriteFile env (disk u) F w1) as [[ok n] w2]. cbn [fst snd] in *.
    assert (Hp2 : pending sha256_digest F r0 (rcv v w2)) by (destruct W2 as [->|[fl ->]]; [done | by apply pending_closed]).
    cl_go. apply HQ; [| done |].
    + apply (attached_disk p q2 u w1 w2 Ha1); [|done]. destruct W2 as [->|[fl ->]]; [done | apply accept_ids].
    + intros Hr. destruct (W3 Hr) as [E1 E2]. rewrite K1 in *. split; [done|]. by destruct (accept _ _ _ _).1; injection E2 as -> ->.
  - apply HQ; [done | done |]. intros Hr. by specialize (K4 Hr).
Qed.

(** What an acknowledgement of the frame says. *)
Definition acknowledges (k kind expected : Z) (r : Receiver) : Prop :=
  u32 (seq r) = k /\ ack_status r = (if kind =? 2 then 1 else 0) /\ u64 (received r) = expected.

Lemma spec_rd_ack p Q u w : attached p u w -> UploadReceiver.ack (rcv v w) = make_ack (rcv v w) ->
  (forall ok a w', attached p (u <| Upload.ack := a |>) w' -> rcv v w' = rcv v w -> (ok = true -> a = make_ack (rcv v w)) ->
    (reliable -> ok = true) -> Q ok (u <| Upload.ack := a |>, w')) ->
  mwp (rd_ack env (disk u) (176 * 4096)) Q (u, w).
Proof.
  intros Ha Hack HQ. unfold rd_ack. cl_go. apply mwp_os. cl_go. unfold rd, mbind, M_bind, mret, M_ret. cbv zeta.
  destruct (at_disk _ _ _ Ha) as [_ [q Hq]]. destruct (um_seek _ _ _ (176 * 4096) w Hq) as [(q1 & [K1 K2] & K3) K4].
  destruct (SetFilePointerEx env (disk u) (176 * 4096) w) as [ok w1]. cbn [fst snd] in *.
  assert (Ha1 : attached p u w1) by (apply (attached_disk p q1 u w w1 Ha); [by rewrite K1 | done]).
  destruct ok; cbn [negb fst snd].
  - rewrite K3 in K2 by done. change 4096 with BLOCK.
    destruct (um_read (disk u) ACK_LBA (Upload.ack u) w1) as (R1 & [q2 [R2 R2']] & R3); [by rewrite K2, upd_same | auto | apply Ha|].
    pose proof (at_ids _ _ _ Ha) as Hi. unfold ids in Hi. injection Hi as I1 _ I3.
    assert (Hz : zlen (make_ack (rcv v w)) = BLOCK) by (apply ack_pieces; [by rewrite I1 | by rewrite I3]).
    assert (Hov : overlay (rcv v w1) ACK_LBA 1 (uraw v w1 ACK_LBA) = Some (make_ack (rcv v w))).
    { rewrite overlay_ack, K1, Hack; [done | apply (do_size _ _ (um_disk (v := v) w1)) |]. by rewrite K1, Hack. }
    destruct (R3 _ Hov Hz) as [R4 R5]. clear R3. destruct (ReadFile env (disk u) (Upload.ack u) BLOCK w1) as [[[ok n] b] w2]. cbn [fst snd] in *.
    apply HQ.
    + apply (attached_disk p q2 u w1 w2) in Ha1; [| by rewrite R2 | done]. destruct Ha1 as [? [? ?] ? ? ? ?]. by split.
    + congruence.
    + intros E. apply andb_true_iff in E as [-> E]. apply Z.eqb_eq in E as ->. by apply R4.
    + intros Hr. by injection (R5 Hr) as -> ->.
  - apply HQ; [| done | done | by intros Hr; specialize (K4 Hr)]. destruct Ha1 as [? [? ?] ? ? ? ?]. by split.
Qed.
Lemma acknowledged r k kind expected : ids r = (tok, SIZE, digest) ->
  ack_ok tok (make_ack r) k kind expected = true <-> acknowledges k kind expected r.
Proof using Ht. intros Hi. rewrite ack_seen by done. rewrite !andb_true_iff, !Z.eqb_eq. unfold acknowledges. tauto. Qed.

(** The frame that is being sent, and what the receiver had before it. *)
Record sending (p k : Z) (F : list Z) (r0 : Receiver) u w : Prop := {
  sn_attached : attached p u w;
  sn_frame : Upload.frame u = F /\ f_seq (frame_of F) = k;
  sn_before : 0 <= seq r0 < k /\ k < 2 ^ 32 /\ UploadReceiver.ack r0 = make_ack r0;
  sn_pending : pending sha256_digest F r0 (rcv v w);
}.
Definition done_with (k kind expected : Z) (F : list Z) (r0 : Receiver) w : Prop :=
  (exists fl, accept sha256_digest fl F r0 = (true, rcv v w)) /\ acknowledges k kind expected (rcv v w).
(** The frame will be accepted and acknowledged where nothing fails. *)
Definition expected_by (k kind expected : Z) (F : list Z) (r0 : Receiver) : Prop :=
  exists r1, accept sha256_digest no_faults F r0 = (true, r1) /\ acknowledges k kind expected r1.

Lemma spec_attempt p k kind off n F r0 Q u w : sending p k F r0 u w ->
  (forall ok a w', sending p k F r0 (u <| Upload.ack := a |>) w' ->
    (ok = true -> done_with k kind (u64 (off + n)) F r0 w') ->
    (reliable -> rcv v w = r0 -> expected_by k kind (u64 (off + n)) F r0 -> ok = true) -> Q ok (u <| Upload.ack := a |>, w')) ->
  mwp (attempt env k kind off n) Q (u, w).
Proof using U Ht.
  intros [Ha [Hf Hk] (Hs & Hk2 & Hack) Hp] HQ. unfold attempt. apply mwp_bind.
  assert (Hself : u = u <| Upload.ack := Upload.ack u |>) by by destruct u.
  apply (spec_write_frame p r0); [done | rewrite Hf, Hk; lia | by rewrite Hf|]. rewrite Hf. intros ok w1 Ha1 Hp1 Hr1.
  destruct ok; cbn [negb]; cl_go.
  2: { rewrite Hself. apply HQ; [rewrite <- Hself; by split | done |]. intros Hr E (r1 & E1 & _). rewrite <- E in E1.
    destruct (Hr1 Hr) as [_ E2]. by rewrite E1 in E2. }
  destruct (pending_ack sha256_digest F r0 (rcv v w1) Hack Hp1) as [Hack1 _].
  apply (spec_rd_ack p); [done | done |]. intros ok a w2 Ha2 Er Hb Hr2. pose proof (at_ids _ _ _ Ha2) as Hi2. rewrite <- Er in Hp1.
  destruct ok; cbn [negb]; cl_go.
  2: { apply HQ; [by split | done |]. intros Hr. by specialize (Hr2 Hr). }
  cbn [Upload.token Upload.ack].
  assert (Eb : ack_ok (Upload.token u) a k kind (u64 (off + n)) = ack_ok tok (make_ack (rcv v w2)) k kind (u64 (off + n)))
    by (by rewrite (at_token _ _ _ Ha), (Hb eq_refl), Er).
  rewrite Eb. apply HQ; [by split | |].
  - intros E. apply acknowledged in E; [|done]. split; [|done]. apply pending_acked; [rewrite Hk; lia | done |].
    rewrite Hk. destruct E as (E & _). destruct Hp1 as [Hp1 | [[fl Hp1] | (Hp1 & _)]].
    + rewrite Hp1, wrap_small in E by (unfold in_w; lia). lia.
    + destruct (accept_true sha256_digest fl F r0 _ ltac:(lia) Hp1) as (_ & x & _ & ->). exact Hk.
    + rewrite Hp1, wrap_small in E by (unfold in_w; lia). lia.
  - intros Hr E (r1 & E1 & E2). apply acknowledged; [done|]. destruct (Hr1 Hr) as [E3 _]. rewrite E, E1 in E3. by rewrite Er, E3.
Qed.

Lemma spec_attempts m first p k kind off n F r0 Q u w : sending p k F r0 u w ->
  (forall ok a w', sending p k F r0 (u <| Upload.ack := a |>) w' ->
    (ok = true -> done_with k kind (u64 (off + n)) F r0 w') ->
    (reliable -> rcv v w = r0 -> (0 < m)%nat -> expected_by k kind (u64 (off + n)) F r0 -> ok = true) -> Q ok (u <| Upload.ack := a |>, w')) ->
  mwp (attempts env m first k kind off n) Q (u, w).
Proof using U Ht.
  revert first u w. induction m as [|m IH]; intros first u w Hs HQ; cbn [attempts].
  { cl_go. assert (Hself : u = u <| Upload.ack := Upload.ack u |>) by by destruct u. rewrite Hself.
    apply HQ; [by rewrite <- Hself | done | lia]. }
  assert (Hgo : forall w0, sending p k F r0 u w0 -> rcv v w0 = rcv v w ->
    mwp (ok ← attempt env k kind off n; if (ok : bool) then mret true else attempts env m false k kind off n) Q (u, w0)).
  { intros w0 Hs0 E0. apply mwp_bind. apply (spec_attempt p k kind off n F r0 _ u w0 Hs0). intros ok a w' Hs' Hd Hr. destruct ok.
    - apply mwp_ret. apply HQ; [done | auto | done].
    - apply IH; [done|]. intros ok a' w'' Hs'' Hd' _. cbn. apply (HQ ok a'); [done | done |]. intros H1 H2 H3 H4.
      rewrite <- E0 in H2. by specialize (Hr H1 H2 H4). }
  apply mwp_bind. destruct first; [apply mwp_ret; by apply Hgo|]. apply mwp_os. destruct (um_sleep 100 w) as [K1 K2].
  apply Hgo; [|done]. destruct Hs as [[A1 A2 A3 [A4 [q A4']] [A5 A5'] A6] B C D]. split; try done; [|by rewrite K1].
  split; try done; [split; [done|]; exists q; by rewrite K2 | split; [done|]; by rewrite K2 | by rewrite K1].
Qed.

(** [send]: afterwards the receiver has taken the frame, or the client knows that it
    may not have. *)
Lemma spec_send p k kind off n Q u w : attached p u w -> 0 <= n <= CAP -> seq (rcv v w) = k - 1 -> 1 <= k < 2 ^ 32 ->
  in_w 32 kind -> in_w 64 off -> UploadReceiver.ack (rcv v w) = make_ack (rcv v w) ->
  let pl := ztake n (zdrop 128 (Upload.frame u)) in
  let F := encode_frame tok (frame_for k kind off pl) digest pl in
  (forall ok u' w', attached p u' w' -> (ok = true -> done_with k kind (u64 (off + n)) F (rcv v w) w') ->
    (reliable -> expected_by k kind (u64 (off + n)) F (rcv v w) -> ok = true) -> Q ok (u', w')) ->
  mwp (send env k kind off n) Q (u, w).
Proof using U Ht.
  intros Ha Hn Hs Hk Hkind Hoff Hack pl F HQ. unfold send. cl_go. rewrite (at_token _ _ _ Ha).
  rewrite (header_encodes tok k kind off n) by (done || apply Ha). fold pl. fold F.
  assert (Hpl : zlen pl = n).
  { unfold pl. apply zlen_ztake. pose proof (at_frame _ _ _ Ha). rewrite zlen_zdrop; unfold WINDOW, CAP in *; lia. }
  assert (HF : frame_ok (frame_for k kind off pl) pl).
  { split; cbn; try done. split; [done | unfold UploadReceiver.CAP, WINDOW, HEADER, CAP in *; lia]. }
  destruct (frame_decodes tok _ digest pl Ht eq_refl HF) as [Hdec _]. fold F in Hdec.
  apply (spec_attempts 3 true p k kind off n F (rcv v w)).
  - split; [| by rewrite Hdec | split_and!; [lia | lia | lia | done] | by left].
    destruct Ha as [A1 A2 A3 A4 A5 A6]. split; try done. apply (frame_pieces tok _ digest pl); [done | done | apply HF].
  - intros ok a w' [Ha' _ _ _] Hd Hr. apply HQ; [done | done |]. intros H1 H2. apply Hr; [done | done | lia | done].
Qed.
(** *** The transfer *)

Lemma upload_stop {A} rc Q u w : (forall w', rcv v w' = rcv v w -> Q (inl (Some rc)) (u, w')) -> wp (stop env (A := A) rc) Q (u, w).
Proof using U.
  intros HQ. unfold stop. apply wp_bind, wp_call, mwp_get.
  assert (Hc : forall (b : bool) h Q' w0, rcv v w0 = rcv v w -> (forall w1, rcv v w1 = rcv v w -> Q' (inr tt) (u, w1)) ->
    wp (R := option Z) (when b (call (os (CloseHandle env h)))) Q' (u, w0)).
  { intros b h Q' w0 E H. apply wp_when; [intros _ | intros _; by apply H]. apply wp_call, mwp_os. destruct (um_close (v := v) h w0) as [K _].
    destruct (CloseHandle env h w0).1. apply H. congruence. }
  apply wp_bind, Hc; [done|]. intros w1 E1. apply wp_bind, Hc; [done|]. intros w2 E2. apply wp_exit. by apply HQ.
Qed.

Lemma spec_read_source p n Q u w : attached p u w -> 0 <= p -> 0 < n <= CAP ->
  (forall ok u' w', rcv v w' = rcv v w ->
    (ok = true -> attached (p + n) u' w' /\ p + n <= zlen src /\ ztake n (zdrop 128 (Upload.frame u')) = piece p n src) ->
    (reliable -> p + n <= zlen src -> ok = true) -> Q ok (u', w')) ->
  mwp (read_source env n) Q (u, w).
Proof using U.
  intros Ha Hp0 Hn HQ. unfold read_source. cl_go. apply mwp_os. pose proof Ha as [A1 [A2 A2'] A3 [A4 [q A4']] [A5 A5'] A6].
  assert (Hz : zlen (zdrop 128 (Upload.frame u)) = CAP) by (rewrite zlen_zdrop by (rewrite A1; done); rewrite A1; done).
  destruct (um_source (source u) p (zdrop 128 (Upload.frame u)) n w A5' Hp0 ltac:(lia)) as (S1 & (p' & [S2 S3] & S4) & S5).
  destruct (ReadFile env _ _ n w) as [[[ok got] b] w1]. cbn [fst snd] in *. cl_go. apply HQ; [done | |].
  - intros E. apply andb_true_iff in E as [-> E]. apply Z.eqb_eq in E as ->. destruct (S4 eq_refl) as (-> & Hle & Hb).
    assert (Hh : zlen (ztake 128 (Upload.frame u)) = 128) by (by apply zlen_ztake; rewrite A1).
    split_and!; [|done | cbn; by rewrite zdrop_app by (symmetry; exact Hh)].
    split; cbn [Upload.frame Upload.ack idbuf Upload.token disk source]; try done; [by rewrite zlen_app, Hh, S1, Hz | | | by rewrite S2].
    + split; [done|]. exists q. rewrite S3, upd_other; [done|]. intros E. rewrite E in A4'. congruence.
    + split; [done|]. by rewrite S3, upd_same.
  - intros Hr Hle. injection (S5 Hr Hle) as -> ->. apply Z.eqb_refl.
Qed.

Lemma holding_acked k kind expected bs r : holding k bs r -> k < 2 ^ 32 -> zlen bs = expected -> expected <= SIZE -> kind <> 2 ->
  acknowledges k kind (u64 expected) r.
Proof using.
  intros [[Hs Hk] Hr (_ & Hd & Hf) _ _] Hk2 <- He Hkind. unfold acknowledges, ack_status. rewrite Hs, Hr, Hd, Hf, (proj2 (Z.eqb_neq kind 2)) by done.
  split_and!; [|done | done]. apply wrap_small. unfold in_w. lia.
Qed.

(** The facts on a frame for the receiver of the machine. *)
Lemma frame_facts k kind off n f r : zlen f = WINDOW -> 0 <= n <= CAP -> 1 <= k < 2 ^ 32 -> in_w 32 kind -> in_w 64 off ->
  ids r = (tok, SIZE, digest) -> let pl := ztake n (zdrop 128 f) in let F := encode_frame tok (frame_for k kind off pl) digest pl in
  zlen pl = n /\ frame_of F = frame_for k kind off pl /\ payload F = pl /\ well_formed r F = true.
Proof using Ht.
  intros Hf Hn Hk Hkind Hoff Hi pl F. assert (Hpl : zlen pl = n) by (unfold pl; apply zlen_ztake; rewrite zlen_zdrop; unfold WINDOW, CAP in *; lia).
  assert (HF : frame_ok (frame_for k kind off pl) pl).
  { split; cbn; try done. split; [done | unfold UploadReceiver.CAP, WINDOW, HEADER, CAP in *; lia]. }
  destruct (frame_decodes tok _ digest pl Ht eq_refl HF) as [H1 H2]. split_and!; [done | exact H1 | exact H2 |].
  by apply frame_accepted.
Qed.

(** One payload. *)
Lemma spec_payload k off n Q u w : let pl := ztake n (zdrop 128 (Upload.frame u)) in
  attached (off + n) u w -> holding (k - 1) (ztake off src) (rcv v w) -> zlen src = SIZE -> 0 <= off -> off + n <= SIZE ->
  0 < n -> n = Z.min CAP (SIZE - off) -> k < 2 ^ 32 -> pl = piece off n src ->
  (forall ok u' w', (ok = true -> attached (off + n) u' w' /\ holding k (ztake (off + n) src) (rcv v w')) -> (reliable -> ok = true) -> Q ok (u', w')) ->
  mwp (send env k 1 off n) Q (u, w).
Proof using U Ht.
  intros pl Ha Hh Hsrc Ho Hle Hn Hmin Hk Hpl HQ. assert (Hcap : n <= CAP) by lia. pose proof (hl_seq _ _ _ Hh) as [Hs Hk1].
  assert (Hoff : in_w 64 off) by (unfold in_w, SIZE in *; lia).
  apply (spec_send (off + n) k 1 off n); try done; [lia | lia | apply Hh |].
  destruct (frame_facts k 1 off n (Upload.frame u) (rcv v w) (at_frame _ _ _ Ha) ltac:(lia) ltac:(lia) ltac:(done) Hoff (at_ids _ _ _ Ha))
    as (F1 & F2 & F3 & F4). fold pl in F1, F2, F3, F4 |- *.
  set (F := encode_frame tok (frame_for k 1 off pl) digest pl) in *. clearbody F.
  assert (Hz : zlen (ztake off src) = off) by (apply zlen_ztake; lia).
  assert (Ep : ztake off src ++ payload F = ztake (off + n) src).
  { rewrite F3, Hpl. exact (piece_app 0 off n src ltac:(done) Ho ltac:(lia)). }
  assert (Hstep : forall fl r1, accept sha256_digest fl F (rcv v w) = (true, r1) -> holding k (ztake (off + n) src) r1).
  { intros fl r1 E. rewrite <- Ep. replace k with (k - 1 + 1) by lia. apply (data_step sha256_digest fl F _ (k - 1) (rcv v w)); [done | | | | done].
    - rewrite F2. cbn. lia.
    - by rewrite F2.
    - by rewrite F2, F3. }
  intros ok u' w' Ha' Hd Hr. apply HQ.
  - intros E. split; [done|]. destruct (Hd E) as [[fl Hacc] _]. by apply (Hstep fl).
  - intros Hrel. apply Hr; [done|].
    assert (Hb : (accept sha256_digest no_faults F (rcv v w)).1 = true).
    { apply (data_accepted sha256_digest F (ztake off src) (k - 1)); try done; rewrite ?F2, ?Hz; cbn; try done; try lia.
      pose proof (at_ids _ _ _ Ha) as Hi. unfold ids in Hi. injection Hi as _ Hi _. rewrite F1, Hi. exact Hmin. }
    destruct (accept sha256_digest no_faults F (rcv v w)) as [ok1 r1] eqn:E. cbn in Hb. subst ok1. exists r1. split; [done|].
    apply (holding_acked k 1 (off + n) (ztake (off + n) src)); [by apply (Hstep no_faults) | done | apply zlen_ztake; lia | lia | done].
Qed.
(** How the program ends: with a code, which is 0 only when [done], and is 0 on a
    reliable machine. *)
Definition fails (o : option Z) : Prop := exists c, o = Some c /\ c <> 0 /\ ~ reliable.

Lemma spec_stop_fails {A} rc Q u w : rc <> 0 -> ~ reliable -> (forall o s', fails o -> Q (inl o) s') -> wp (stop env (A := A) rc) Q (u, w).
Proof using U. intros Hrc Hr HQ. apply upload_stop. intros w' _. apply HQ. by exists rc. Qed.

(** A check that only an unreliable machine fails. *)
Lemma spec_check ok rc Q u w : rc <> 0 -> (reliable -> ok = true) -> (forall o s', fails o -> Q (inl o) s') -> (ok = true -> Q (inr tt) (u, w)) ->
  wp (when (negb ok) (stop env rc)) Q (u, w).
Proof using U.
  intros Hrc Hok Hf HQ. apply wp_when; [|intros E; bool_props; by apply HQ]. intros E. apply spec_stop_fails; [done | | done].
  intros Hr. by rewrite Hok in E.
Qed.

Lemma spec_transfer fuel off k Q u w : zlen src = SIZE ->
  attached off u w -> holding (k - 1) (ztake off src) (rcv v w) -> 0 <= off <= SIZE ->
  SIZE - off <= CAP * (Z.of_nat fuel - 1) -> (off < SIZE -> CAP * (k - 2) <= off) -> CAP * (k - 2) < off + CAP ->
  (forall o s', fails o -> Q (inl o) s') ->
  (forall k' u' w', attached SIZE u' w' -> holding (k' - 1) src (rcv v w') -> k' < 2 ^ 31 -> Q (inr (SIZE, k')) (u', w')) ->
  wp (transfer env fuel off k) Q (u, w).
Proof using U Ht.
  intros Hsrc. revert off k u w. induction fuel as [|fuel IH]; intros off k u w Ha Hh Ho Hfuel Hk1 Hk2 Hf HQ.
  { exfalso. unfold CAP in *. lia. }
  pose proof (hl_seq _ _ _ Hh) as [_ Hk0]. assert (Hk : k < 2 ^ 31) by (unfold CAP, SIZE in *; lia).
  cbn [transfer]. destruct (Z.ltb_spec off SIZE) as [Hlt|Hge]; cbn [negb].
  2: { assert (off = SIZE) as -> by lia. apply wp_ret. apply HQ; [done | | done]. rewrite <- Hsrc in Hh at 1. unfold ztake, zlen in Hh.
    rewrite Nat2Z.id, take_ge in Hh; [exact Hh | done]. }
  set (n := if SIZE - off <? CAP then SIZE - off else CAP).
  assert (Hn : n = Z.min CAP (SIZE - off)) by (unfold n; destruct (Z.ltb_spec (SIZE - off) CAP); lia). clearbody n.
  assert (Hn0 : 0 < n <= CAP) by (unfold CAP in *; lia).
  apply wp_bind, wp_call, (spec_read_source off n); [done | lia | done |]. intros ok u1 w1 E1 Hok Hrel1. rewrite <- E1 in Hh.
  apply wp_bind, spec_check; [done | intros Hr; apply Hrel1; [done | lia] | done |]. intros ->. destruct (Hok eq_refl) as (Ha1 & _ & Hpl).
  apply wp_bind, wp_call. apply (spec_payload k off n); try done; [lia | lia | lia | lia |].
  intros ok u2 w2 Hok2 Hrel2. apply wp_bind, spec_check; [done | done | done |]. intros ->. destruct (Hok2 eq_refl) as [Ha2 Hh2].
  rewrite (wrap_small 64) by (unfold in_w, SIZE in *; lia). rewrite (wrap_small 32) by (unfold in_w; lia).
  apply IH; try done; try (replace (k + 1 - 1) with k by lia); try done; unfold CAP in *; lia.
Qed.

(** The first and the last frame. *)
Lemma spec_first Q u w : attached 0 u w -> waiting (rcv v w) ->
  (forall ok u' w', (ok = true -> attached 0 u' w' /\ holding 1 [] (rcv v w')) -> (reliable -> part (rcv v w) = None -> ok = true) -> Q ok (u', w')) ->
  mwp (send env 1 0 0 0) Q (u, w).
Proof using U Ht.
  intros Ha Hw HQ. pose proof (wt_seq _ Hw) as (Hs & _ & _). apply (spec_send 0 1 0 0 0); try done; [apply Hw |].
  destruct (frame_facts 1 0 0 0 (Upload.frame u) (rcv v w) (at_frame _ _ _ Ha) ltac:(done) ltac:(done) ltac:(done) ltac:(done) (at_ids _ _ _ Ha))
    as (F1 & F2 & F3 & F4). set (pl := ztake 0 _) in *. set (F := encode_frame tok (frame_for 1 0 0 pl) digest pl) in *. clearbody F.
  assert (Hstep : forall fl r1, accept sha256_digest fl F (rcv v w) = (true, r1) -> holding 1 [] r1).
  { intros fl r1 E. apply (begin_step sha256_digest fl F (rcv v w)); [done | by rewrite F2 | by rewrite F2 | done]. }
  intros ok u' w' Ha' Hd Hr. apply HQ.
  - intros E. split; [done|]. destruct (Hd E) as [[fl Hacc] _]. by apply (Hstep fl).
  - intros Hrel Hpart. apply Hr; [done|]. assert (Hb : (accept sha256_digest no_faults F (rcv v w)).1 = true).
    { apply begin_accepted; try done. rewrite F2. pose proof (at_ids _ _ _ Ha) as Hi. unfold ids in Hi. injection Hi as _ -> _. done. }
    destruct (accept sha256_digest no_faults F (rcv v w)) as [ok1 r1] eqn:E. cbn in Hb. subst ok1. exists r1. split; [done|].
    by apply (holding_acked 1 0 0 []); [apply (Hstep no_faults) | ..].
Qed.

Lemma spec_last k Q u w : attached SIZE u w -> holding (k - 1) src (rcv v w) -> zlen src = SIZE -> k < 2 ^ 31 ->
  (forall ok u' w', (ok = true -> dest (rcv v w') = Some src) -> (reliable -> sha256_digest src = digest -> ok = true) -> Q ok (u', w')) ->
  mwp (send env k 2 SIZE 0) Q (u, w).
Proof using U Ht.
  intros Ha Hh Hsrc Hk HQ. pose proof (hl_seq _ _ _ Hh) as [Hs Hk1].
  apply (spec_send SIZE k 2 SIZE 0); try done; [lia | apply Hh |].
  destruct (frame_facts k 2 SIZE 0 (Upload.frame u) (rcv v w) (at_frame _ _ _ Ha) ltac:(done) ltac:(lia) ltac:(done) ltac:(done) (at_ids _ _ _ Ha))
    as (F1 & F2 & F3 & F4). set (pl := ztake 0 _) in *. set (F := encode_frame tok (frame_for k 2 SIZE pl) digest pl) in *. clearbody F.
  assert (Hstep : forall fl r1, accept sha256_digest fl F (rcv v w) = (true, r1) ->
    dest r1 = Some src /\ done r1 = true /\ failed r1 = false /\ seq r1 = k /\ received r1 = SIZE).
  { intros fl r1 E. destruct (end_step sha256_digest fl F src (k - 1) (rcv v w) r1) as (? & ? & ? & ? & ?);
      [done | rewrite F2; cbn; lia | by rewrite F2 | done | split_and!; done || lia]. }
  intros ok u' w' Ha' Hd Hr. apply HQ.
  - intros E. destruct (Hd E) as [[fl Hacc] _]. by apply (Hstep fl).
  - intros Hrel Hsha. apply Hr; [done|]. pose proof (at_ids _ _ _ Ha) as Hi. unfold ids in Hi. injection Hi as _ I2 I3.
    assert (Hb : (accept sha256_digest no_faults F (rcv v w)).1 = true).
    { apply (end_accepted sha256_digest F src (k - 1)); try done; rewrite ?F2; cbn; try done; [lia | congruence | congruence]. }
    destruct (accept sha256_digest no_faults F (rcv v w)) as [ok1 r1] eqn:E. cbn in Hb. subst ok1. exists r1. split; [done|].
    destruct (Hstep _ _ E) as (_ & H1 & H2 & H3 & H4). unfold acknowledges, ack_status. rewrite H1, H2, H3, H4.
    split_and!; [apply wrap_small; unfold in_w; lia | done | done].
Qed.

(** The program's result. *)
Definition ends (ok : Prop) (o : option Z) w : Prop :=
  exists c, o = Some c /\ (c = 0 -> dest (rcv v w) = Some src /\ zlen src = SIZE) /\ (reliable -> ok -> c = 0).

Lemma fails_ends ok o w : fails o -> ends ok o w.
Proof. intros (c & -> & Hc & Hr). exists c. by split_and!. Qed.

Lemma transfer_fuel : SIZE - 0 <= CAP * (Z.of_nat TRANSFER_FUEL - 1).
Proof.
  unfold TRANSFER_FUEL. rewrite Z2Nat.id by done. unfold CAP. pose proof (Z.mul_succ_div_gt SIZE 65408 ltac:(done)) as H. lia.
Qed.

Lemma spec_upload u w : attached 0 u w -> waiting (rcv v w) -> zlen src = SIZE ->
  wp (upload env) (fun o s' => ends (part (rcv v w) = None /\ sha256_digest src = digest) (match o with inl o | inr o => o end) s'.2) (u, w).
Proof using U Ht.
  intros Ha Hw Hsrc. unfold upload. apply wp_bind, wp_call, spec_first; [done | done |]. intros ok u1 w1 Hok1 Hrel1.
  apply wp_bind, wp_when.
  { intros E. apply upload_stop. intros w' _. exists 5. split_and!; [done | done |]. intros Hr [Hp _]. by rewrite Hrel1 in E. }
  intros E. bool_props. destruct (Hok1 E) as [Ha1 Hh1]. pose proof transfer_fuel as Hfuel.
  apply wp_bind, (spec_transfer TRANSFER_FUEL 0 2); try done; [intros; by apply fails_ends|].
  intros k u2 w2 Ha2 Hh2 Hk. apply wp_bind, wp_call, spec_last; [done | done | done | done |]. intros ok3 u3 w3 Hok3 Hrel3.
  apply wp_bind, wp_when.
  { intros E3. apply upload_stop. intros w' _. exists 8. split_and!; [done | done |]. intros Hr [_ Hsha]. by rewrite Hrel3 in E3. }
  intros E3. bool_props. apply upload_stop. intros w' Er. exists 0. split_and!; [done | | done]. intros _. split; [|done]. cbn. rewrite Er. auto.
Qed.
(** *** Finding the disk *)

Lemma ukept_trans h1 h2 w w1 w2 : ukept v h1 w w1 -> ukept v h2 w1 w2 -> rcv v w2 = rcv v w.
Proof. intros [E1 _] [E2 _]. congruence. Qed.

Definition put_idbuf b u : uploader := u <| idbuf := b |>.

Lemma upload_rd_idbuf h lba p Q u w : uhnd v w h = Some (OnDrive (uns2 v) p) -> lba = 0 \/ lba = WIRE_PORT_LBA -> zlen (idbuf u) = BLOCK ->
  (forall ok b w' p', ukept v (upd h (Some (OnDrive (uns2 v) p')) (uhnd v w)) w w' -> zlen b = BLOCK ->
    (ok = true -> exists r, disk_ok tok r /\ b = r lba) -> (reliable -> ok = true) -> Q ok (put_idbuf b u, w')) ->
  mwp (rd_idbuf env h (lba * BLOCK)) Q (u, w).
Proof using U.
  intros Hh Hlba Hz HQ. unfold rd_idbuf. cl_go. apply mwp_os. cl_go. unfold rd, mbind, M_bind, mret, M_ret. cbv zeta.
  destruct (um_seek _ _ _ (lba * BLOCK) w Hh) as [(q1 & [K1 K2] & K3) K4].
  destruct (SetFilePointerEx env h (lba * BLOCK) w) as [ok w1]. cbn [fst snd] in *.
  destruct ok; cbn [negb fst snd]; [|apply (HQ _ _ _ q1); [done | done | done | by intros Hr; specialize (K4 Hr)]].
  rewrite K3 in K2 by done. change 4096 with BLOCK.
  destruct (um_read h lba (idbuf u) w1) as (R1 & [q2 [R2 R2']] & R3); [by rewrite K2, upd_same | tauto | done|].
  pose proof (um_disk (v := v) w1) as Hd. destruct (R3 (uraw v w1 lba)) as [R4 R5].
  { apply overlay_other; [apply (do_size _ _ Hd) | by destruct Hlba as [->| ->]]. }
  { apply (do_size _ _ Hd). }
  clear R3. destruct (ReadFile env h (idbuf u) BLOCK w1) as [[[ok n] b] w2]. cbn [fst snd] in *. apply (HQ _ _ _ q2).
  - split; [congruence|]. intros x. rewrite R2'. destruct (Z.eq_dec x h) as [->|Hne]; [by rewrite !upd_same|].
    by rewrite !upd_other, K2, upd_other by done.
  - done.
  - intros E. apply andb_true_iff in E as [-> E]. apply Z.eqb_eq in E as ->. exists (uraw v w1). split; [done | by apply R4].
  - intros Hr. by injection (R5 Hr) as -> ->.
Qed.

(** The host's disk. *)
Lemma upload_identify h p Q u w : uhnd v w h = Some (OnDrive (uns2 v) p) -> zlen (idbuf u) = BLOCK ->
  (forall ok b w' p', ukept v (upd h (Some (OnDrive (uns2 v) p')) (uhnd v w)) w w' -> zlen b = BLOCK ->
    (ok = true -> piece 16 16 b = tok) -> (reliable -> ok = true) -> Q ok (put_idbuf b u, w')) ->
  mwp (identify env h) Q (u, w).
Proof using U.
  intros Hh Hz HQ. assert (Hself : u = put_idbuf (idbuf u) u) by by destruct u.
  unfold identify. apply mwp_body, wp_bind, wp_call, mwp_os. destruct (um_ioctl h _ _ w Hh) as [[K1 K2] Hr]. rewrite decide_True in Hr by done.
  destruct (DeviceIoControl env h w) as [[[ok n] got] w1]. cbn [fst snd] in *. apply wp_bind, wp_when.
  { intros E. apply wp_exit. rewrite Hself. apply (HQ _ _ _ p); [|done | done |].
    - split; [done|]. intros x. rewrite K2. destruct (Z.eq_dec x h) as [->|Hne]; [by rewrite upd_same | by rewrite upd_other].
    - intros Hrel. by injection (Hr Hrel) as -> -> ->. }
  intros _. rewrite <- (K2 h) in Hh. apply wp_bind, wp_call. change (rd_idbuf env h 0) with (rd_idbuf env h (0 * BLOCK)).
  apply (upload_rd_idbuf h 0 p); [done | by left | done |]. intros ok1 b1 w2 p1 [L1 L2] Hb1 Hd1 Hr1.
  apply wp_bind, wp_call, mwp_get. cbn [idbuf put_idbuf]. apply wp_bind, wp_when.
  { intros E. apply wp_exit. apply (HQ _ _ _ p1); [|done | done |].
    - split; [congruence|]. intros x. rewrite L2. unfold upd. by rewrite K2.
    - intros Hrel. destruct (Hd1 (Hr1 Hrel)) as (r & Hd & ->). destruct (do_sig _ _ Hd) as (S1 & S2 & S3).
      change 0x53313233 with MBR_SIG in E. by rewrite Hr1, S1, S2, S3 in E. }
  intros _. apply wp_bind, wp_call. change (128 * 4096) with (WIRE_PORT_LBA * BLOCK).
  apply (upload_rd_idbuf h WIRE_PORT_LBA p1); [by rewrite L2, upd_same | by right | done |]. intros ok2 b2 w3 p2 [M1 M2] Hb2 Hd2 Hr2.
  apply wp_bind, wp_call, mwp_get, wp_ret. cbn [idbuf put_idbuf]. apply (HQ _ b2 _ p2); [|done | |].
  - split; [congruence|]. intros x. rewrite M2. unfold upd. destruct (x =? h) eqn:Ex; [done|]. rewrite L2. unfold upd. by rewrite Ex, K2.
  - intros E. apply andb_true_iff in E as [-> _]. destruct (Hd2 eq_refl) as (r & Hd & ->). apply (do_port _ _ Hd).
  - intros Hrel. rewrite (Hr2 Hrel). destruct (Hd2 (Hr2 Hrel)) as (r & Hd & ->). apply match_at_piece; [done | by rewrite Hb2 |].
    apply (do_port _ _ Hd).
Qed.

(** The client that looks for its disk. *)
Record searching u w : Prop := {
  se_frame : zlen (Upload.frame u) = WINDOW;
  se_bufs : zlen (Upload.ack u) = BLOCK /\ zlen (idbuf u) = BLOCK;
  se_source : source u <> BAD /\ uhnd v w (source u) = Some (OnSource 0);
  se_ids : ids (rcv v w) = (tok, SIZE, digest);
}.
Definition found_it u w : Prop :=
  disk u <> BAD /\ Upload.token u = tok /\ exists q, uhnd v w (disk u) = Some (OnDrive (uns2 v) q).

Lemma searching_step u w w' h : searching u w -> h <> source u -> rcv v w' = rcv v w ->
  (forall x, x <> h -> uhnd v w' x = uhnd v w x) -> searching u w'.
Proof. intros [H1 H2 [H3 H3'] H4] Hne E Hx. split; try done; [split; [done|]; by rewrite Hx | by rewrite E]. Qed.

Lemma fresh_source u w h : searching u w -> uhnd v w h = None -> h <> source u.
Proof. intros Hs Hn ->. destruct (se_source _ _ Hs) as [_ H]. congruence. Qed.

Lemma upload_close h Q u w : (forall w', ukept v (upd h None (uhnd v w)) w w' -> Q tt (u, w')) -> mwp (os (CloseHandle env h)) Q (u, w).
Proof using U. intros HQ. apply mwp_os. destruct (CloseHandle env h w).1. apply HQ, um_close. Qed.

Lemma upload_probe_other i Q u w : 0 <= i < 10 -> i <> uns2 v -> searching u w ->
  (forall w', searching u w' -> rcv v w' = rcv v w -> Q false (u, w')) -> mwp (probe env i) Q (u, w).
Proof using U.
  intros Hi Hne Hs HQ. unfold probe. apply mwp_body, wp_bind, wp_call, mwp_os.
  destruct (um_drive i 0x80000000 w Hi) as [(E & _ & [K1 K2]) | (E & Hn & [K1 K2])];
    destruct (CreateFileW env (drive_path i) _ _ _ _ w) as [h w1]; cbn [fst snd] in *.
  { rewrite E, Z.eqb_refl. apply wp_bind, wp_when; [intros _ | done]. apply wp_exit. apply HQ; [|done].
    destruct Hs as [? ? [? ?] ?]. split; try done; [split; [done|]; by rewrite K2 | by rewrite K1]. }
  rewrite (proj2 (Z.eqb_neq h BAD)) by done. apply wp_bind, wp_when; [done | intros _].
  pose proof (fresh_source u w h Hs Hn) as Hsrc. assert (Hh : uhnd v w1 h = Some (OnDrive i 0)) by by rewrite K2, upd_same.
  apply wp_bind, wp_call. unfold identify. apply mwp_body, wp_bind, wp_call, mwp_os.
  destruct (um_ioctl h _ _ w1 Hh) as [[L1 L2] Hr]. rewrite decide_False in Hr by done.
  destruct (DeviceIoControl env h w1) as [[[ok len] got] w2]. cbn [fst snd] in *.
  assert (Eb : negb ok || negb (got =? 8) || negb (len =? 8448 * 4096) = true).
  { destruct ok; [| done]. specialize (Hr eq_refl). rewrite (proj2 (Z.eqb_neq len _)) by exact Hr. by rewrite orb_true_r. }
  rewrite Eb. apply wp_bind, wp_when; [intros _ | done]. apply wp_exit. apply wp_bind, wp_when; [done | intros _].
  apply wp_bind, wp_call, upload_close. intros w3 [M1 M2]. apply wp_bind, wp_when; [intros _ | done]. apply wp_exit.
  apply HQ; [|congruence]. apply (searching_step u w w3 h); [done | done | congruence |]. intros x Hx.
  by rewrite M2, upd_other, L2, K2, upd_other by done.
Qed.

Lemma spec_reopen (Q : bool + bool -> uploader * W -> Prop) u w : searching u w -> Upload.token u = tok ->
  (forall (found : bool) u' w', searching u' w' -> rcv v w' = rcv v w -> (if found then found_it u' w' else disk u' = disk u) ->
    (reliable -> found = true) -> Q (if found then inr true else inl false) (u', w')) -> wp (reopen env (uns2 v)) Q (u, w).
Proof using U Ht.
  intros Hs Htok HQ. pose proof (um_ns2 (v := v)) as Hns. unfold reopen. apply wp_bind, wp_call, mwp_os.
  destruct (um_drive (uns2 v) 0xc0000000 w Hns) as [(E & Hr & [K1 K2]) | (E & Hn & [K1 K2])];
    destruct (CreateFileW env (drive_path _) _ _ _ _ w) as [h w1]; cbn [fst snd] in *.
  { rewrite E, Z.eqb_refl. apply wp_bind, wp_when; [intros _ | done]. apply wp_exit. apply (HQ false); [|done | done | intros Hrel; by specialize (Hr Hrel)].
    destruct Hs as [? ? [? ?] ?]. split; try done; [split; [done|]; by rewrite K2 | by rewrite K1]. }
  rewrite (proj2 (Z.eqb_neq h BAD)) by done. apply wp_bind, wp_when; [done | intros _].
  pose proof (fresh_source u w h Hs Hn) as Hsrc. assert (Hh : uhnd v w1 h = Some (OnDrive (uns2 v) 0)) by by rewrite K2, upd_same.
  apply wp_bind, wp_call, (upload_identify h 0); [done | apply Hs |]. intros ok b w2 p2 [L1 L2] Hb Hd Hr.
  assert (Hs2 : forall w', rcv v w' = rcv v w -> (forall x, x <> h -> uhnd v w' x = uhnd v w x) -> searching (put_idbuf b u) w').
  { intros w' E1 E2. apply (searching_step _ w w' h); [|done | done | done]. by destruct Hs as [? [? ?] ? ?]. }
  apply wp_bind, wp_call, mwp_get. cbn [idbuf Upload.token put_idbuf].
  assert (Hm : ok = true -> match_at b 16 (Upload.token u) = true).
  { intros E'. apply match_at_piece; [done | by rewrite Htok, Ht, Hb | rewrite Htok, Ht; by apply Hd]. }
  apply wp_bind, wp_when.
  - intros Ef. apply wp_bind, wp_call, upload_close. intros w3 [M1 M2]. apply wp_exit. apply (HQ false); [|congruence | done |].
    + apply Hs2; [congruence|]. intros x Hx. by rewrite M2, upd_other, L2, upd_other, K2, upd_other by done.
    + intros Hrel. specialize (Hr Hrel). subst ok. by rewrite Hm in Ef.
  - intros Ef. apply wp_bind, wp_call, mwp_put, wp_ret. apply (HQ true); [|congruence | |done].
    + destruct (Hs2 w2) as [? [? ?] ? ?]; [congruence | intros x Hx; by rewrite L2, upd_other, K2, upd_other by done | by split].
    + split_and!; [done | done |]. exists p2. cbn. by rewrite L2, upd_same.
Qed.

Lemma upload_probe_ns2 Q u w : searching u w ->
  (forall (found : bool) u' w', searching u' w' -> rcv v w' = rcv v w -> (if found then found_it u' w' else disk u' = disk u) ->
    (reliable -> found = true) -> Q found (u', w')) -> mwp (probe env (uns2 v)) Q (u, w).
Proof using U Ht.
  intros Hs HQ. pose proof (um_ns2 (v := v)) as Hns. unfold probe. apply mwp_body, wp_bind, wp_call, mwp_os.
  destruct (um_drive (uns2 v) 0x80000000 w Hns) as [(E & Hr & [K1 K2]) | (E & Hn & [K1 K2])];
    destruct (CreateFileW env (drive_path _) _ _ _ _ w) as [h w1]; cbn [fst snd] in *.
  { rewrite E, Z.eqb_refl. apply wp_bind, wp_when; [intros _ | done]. apply wp_exit. apply HQ; [|done | done | intros Hrel; by specialize (Hr Hrel)].
    destruct Hs as [? ? [? ?] ?]. split; try done; [split; [done|]; by rewrite K2 | by rewrite K1]. }
  rewrite (proj2 (Z.eqb_neq h BAD)) by done. apply wp_bind, wp_when; [done | intros _].
  pose proof (fresh_source u w h Hs Hn) as Hsrc. assert (Hh : uhnd v w1 h = Some (OnDrive (uns2 v) 0)) by by rewrite K2, upd_same.
  apply wp_bind, wp_call, (upload_identify h 0); [done | apply Hs |]. intros found b w2 p2 [L1 L2] Hb Hd Hr.
  set (u2 := if found then (put_idbuf b u) <| Upload.token := ztake 16 (zdrop 16 b) |> else put_idbuf b u).
  assert (Hs2 : forall w', rcv v w' = rcv v w -> (forall x, x <> h -> uhnd v w' x = uhnd v w x) -> searching u2 w').
  { intros w' E1 E2. apply (searching_step u2 w w' h); [|by destruct found | done | done].
    destruct Hs as [? [? ?] ? ?]. by destruct found. }
  assert (Hd2 : disk u2 = disk u) by by destruct found. 
  assert (Hcl : forall w3 w', ukept v (upd h None (uhnd v w2)) w3 w' -> rcv v w3 = rcv v w2 -> forall x, x <> h -> uhnd v w' x = uhnd v w x).
  { intros w3 w' [_ M2] _ x Hx. by rewrite M2, upd_other, L2, upd_other, K2, upd_other by done. }
  apply wp_bind. assert (Hput : forall Q', Q' (inr tt) (u2, w2) ->
    wp (R := bool) (when found (call (put (fun u => u <| Upload.token := ztake 16 (zdrop 16 (idbuf u)) |>)))) Q' (put_idbuf b u, w2)).
  { intros Q' HQ'. unfold u2 in HQ'. apply wp_when; intros ->; [by apply wp_call, mwp_put | done]. }
  apply Hput. apply wp_bind, wp_call, upload_close. intros w3 M. pose proof (Hcl w2 w3 M eq_refl) as M2. pose proof (proj1 M) as M1.
  assert (E3 : rcv v w3 = rcv v w) by congruence.
  apply wp_bind, wp_when; [intros Ef | intros Ef; bool_props].
  { apply wp_exit. apply HQ; [by apply Hs2 | done | done |]. intros Hrel. by rewrite (Hr Hrel) in Ef. }
  assert (Ht2 : Upload.token u2 = tok) by (unfold u2; rewrite Ef; by apply Hd).
  apply spec_reopen; [by apply Hs2 | done |]. intros [] u' w' S1 S2 S3 S4; apply HQ; try done; congruence.
Qed.

Lemma spec_find n i Q u w : i + Z.of_nat n = 10 -> 0 <= i -> searching u w -> disk u = BAD ->
  (forall u' w', searching u' w' -> rcv v w' = rcv v w -> disk u' = BAD \/ found_it u' w' ->
    (reliable -> i <= uns2 v -> found_it u' w') -> Q tt (u', w')) -> mwp (find_disk env n i) Q (u, w).
Proof using U Ht.
  pose proof (um_ns2 (v := v)) as Hns. revert i u w. induction n as [|n IH]; intros i u w Hn Hi Hs Hd HQ; cbn [find_disk].
  { apply mwp_ret. apply HQ; [done | done | by left | lia]. }
  apply mwp_bind. destruct (Z.eq_dec i (uns2 v)) as [->|Hne].
  - apply upload_probe_ns2; [done|]. intros found u1 w1 S1 E1 Hf Hr. destruct found.
    + apply mwp_ret. apply HQ; [done | done | by right | done].
    + apply IH; [lia | lia | done | congruence |]. intros u' w' S2 E2 Hf2 _. apply HQ; [done | congruence | done |]. intros Hrel. by specialize (Hr Hrel).
  - apply upload_probe_other; [lia | done | done |]. intros w1 S1 E1. apply IH; [lia | lia | done | done |].
    intros u' w' S2 E2 Hf2 Hr2. apply HQ; [done | congruence | done |]. intros Hrel Hle. apply Hr2; [done | lia].
Qed.
(** *** The whole run *)

(** The source is open and as long as the client expects. *)
Definition opened u w : Prop :=
  disk u = BAD /\ source u <> BAD /\ uhnd v w (source u) = Some (OnSource 0) /\ zlen src = SIZE.

Lemma spec_open_source Q w : (forall o s', rcv v s'.2 = rcv v w -> (exists c, o = Some c /\ c <> 0 /\ (reliable -> zlen src <> SIZE)) -> Q (inl o) s') ->
  (forall u' w', opened u' w' -> rcv v w' = rcv v w -> Q (inr tt) (u', w')) -> wp (open_source env) Q (uploader_init, w).
Proof using U.
  intros HF HQ. unfold open_source.
  assert (Hstop : forall u w0 (Q' : option Z + unit -> uploader * W -> Prop), rcv v w0 = rcv v w -> (reliable -> zlen src <> SIZE) ->
    (forall o s', rcv v s'.2 = rcv v w -> (exists c, o = Some c /\ c <> 0 /\ (reliable -> zlen src <> SIZE)) -> Q' (inl o) s') ->
    wp (stop env 2) Q' (u, w0)).
  { intros u w0 Q' E Hr H. apply upload_stop. intros w' E'. apply H; [cbn; congruence|]. by exists 2. }
  apply wp_bind, wp_call, mwp_os. destruct (um_attr (v := v) w) as [[K1 K2] Kr].
  destruct (GetFileAttributesW env dir_path w) as [attr w1]. cbn [fst snd] in *.
  apply wp_bind, wp_when.
  { intros E. apply Hstop; [done | | done]. intros Hrel. destruct (Kr Hrel) as (A1 & A2 & A3). exfalso.
    rewrite A2, (proj2 (Z.eqb_neq _ _) A1) in E. unfold truthy in E. by rewrite (proj2 (Z.eqb_neq _ _) A3) in E. }
  intros _. apply wp_bind, wp_call, mwp_os.
  destruct (um_open (v := v) w1) as [(E & Hr & [L1 L2]) | (E & Hn & [L1 L2])];
    destruct (CreateFileW env source_path _ _ _ _ w1) as [h w2]; cbn [fst snd] in *.
  { apply wp_bind, wp_call, mwp_put, wp_bind, wp_when; [intros _ | by rewrite E]. apply Hstop; [congruence | by intros | done]. }
  apply wp_bind, wp_call, mwp_put, wp_bind, wp_when; [intros Eb; by bool_props | intros _].
  assert (Hh : uhnd v w2 h = Some (OnSource 0)) by by rewrite L2, upd_same.
  apply wp_bind, wp_call, mwp_os. destruct (um_info h 0 w2 Hh) as [[M1 M2] Mr].
  destruct (GetFileInformationByHandle env h w2) as [[ok info] w3]. cbn [fst snd] in *.
  apply wp_bind, wp_when.
  { intros Eb. apply Hstop; [congruence | | done]. intros Hrel. destruct (Mr Hrel) as [-> A]. change (0x400 .| 0x10) with 0x410 in Eb. by rewrite A in Eb. }
  intros _. rewrite <- (M2 h) in Hh. apply wp_bind, wp_call, mwp_os. destruct (um_size h 0 w3 Hh) as ([N1 N2] & Nsz & Nr).
  destruct (GetFileSizeEx env h w3) as [[ok2 sz] w4]. cbn [fst snd] in *. rewrite <- (N2 h) in Hh.
  apply wp_when.
  - intros Eb. apply Hstop; [congruence | | done]. intros Hrel Hsz. by rewrite (Nr Hrel), (Nsz (Nr Hrel)), Hsz in Eb.
  - intros Eb. bool_props. apply HQ; [|congruence]. unfold opened. split_and!; [done | done | done | by rewrite <- Nsz].
Qed.

Lemma upload_alloc Q u w : opened u w -> ids (rcv v w) = (tok, SIZE, digest) ->
  (forall ok u' w', rcv v w' = rcv v w -> (ok = true -> searching u' w' /\ disk u' = BAD) -> (reliable -> ok = true) -> Q ok (u', w')) ->
  mwp (alloc_buffers env) Q (u, w).
Proof using U.
  intros (Hd & Hs & Hh & _) Hi HQ. unfold alloc_buffers. cl_go. apply mwp_os.
  destruct (um_alloc (v := v) 65536 w) as [[K1 K2] K3]. destruct (VirtualAlloc env 65536 w) as [f w1]. cbn [fst snd] in *. cl_go. apply mwp_os.
  destruct (um_alloc (v := v) 4096 w1) as [[L1 L2] L3]. destruct (VirtualAlloc env 4096 w1) as [a w2]. cbn [fst snd] in *. cl_go. apply mwp_os.
  destruct (um_alloc (v := v) 4096 w2) as [[M1 M2] M3]. destruct (VirtualAlloc env 4096 w2) as [b w3]. cbn [fst snd] in *.
  assert (E : rcv v w3 = rcv v w) by congruence.
  destruct K3 as [-> | [-> Hr]], L3 as [-> | [-> Hr2]], M3 as [-> | [-> Hr3]]; cl_go; apply HQ; try done.
  intros _. split; [|done]. split; cbn [Upload.frame Upload.ack idbuf source]; [by apply zlen_zeros | split; by apply zlen_zeros | | by rewrite E].
  split; [done|]. by rewrite M2, L2, K2.
Qed.

(** The receiver as registered for the artifact, with nothing at the destination. *)
Lemma init_waiting r p : receiver_init tok SIZE digest p None = Some r -> waiting r /\ ids r = (tok, SIZE, digest) /\ part r = p.
Proof using.
  unfold receiver_init. destruct (_ || _); [done|]. intros [= <-]. split_and!; [|done | done].
  split; try apply set_ack_ok; by split_and?.
Qed.

Lemma upload_main p w : receiver_init tok SIZE digest p None = Some (rcv v w) ->
  mwp (mainCRTStartup env) (fun o s' => ends (p = None /\ zlen src = SIZE /\ sha256_digest src = digest) o s'.2) (uploader_init, w).
Proof using U Ht.
  intros Hinit. destruct (init_waiting _ _ Hinit) as (Hw & Hi & Hp). unfold mainCRTStartup. apply mwp_body, wp_bind.
  assert (Hbad : forall c (w' : W) (R : Prop), c <> 0 -> (reliable -> R -> False) -> ends R (Some c) w').
  { intros c w' R Hc HR. exists c. split_and!; [done | done |]. intros Hrel Hok. by destruct (HR Hrel Hok). }
  apply spec_open_source.
  { intros o s' E (c & -> & Hc & Hr). apply Hbad; [done|]. intros Hrel (_ & Hsz & _). by apply Hr. }
  intros u1 w1 Ho1 E1. apply wp_bind, wp_call. apply upload_alloc; [done | by rewrite E1 |]. intros ok u2 w2 E2 Hok Hr2.
  apply wp_bind, wp_when.
  { intros Eb. apply upload_stop. intros w' _. apply Hbad; [done|]. intros Hrel _. by rewrite Hr2 in Eb. }
  intros Eb. bool_props. destruct (Hok Eb) as [Hs2 Hd2].
  apply wp_bind, wp_call, spec_find; [done | done | done | done |]. intros u3 w3 Hs3 E3 Hf3 Hr3.
  apply wp_bind, wp_call, mwp_get, wp_bind, wp_when.
  { intros Ed. apply upload_stop. intros w' _. apply Hbad; [done|]. intros Hrel _. destruct (Hr3 Hrel) as [Hne _]; [apply (um_ns2 (v := v))|].
    by bool_props. }
  intros Ed. bool_props. destruct Hf3 as [?|(Hd3 & Ht3 & q & Hq3)]; [done|].
  assert (Hrcv : rcv v w3 = rcv v w) by congruence.
  eapply wp_mono; [apply spec_upload; [by destruct Hs3; split; try done; split; [done | by exists q] | by rewrite Hrcv | apply Ho1]|].
  rewrite Hrcv, Hp. intros o s' (c & Hc & H1 & H2). assert (E : match o with inl a | inr a => a end = Some c) by by destruct o.
  rewrite E. exists c. split_and!; [done | done |]. intros Hrel (? & _ & ?). by apply H2.
Qed.

(** C33. The client ends, and its success means that the host has the file. Over a
    receiver registered for the artifact, with nothing at its destination, and
    whatever system calls fail and frames or acknowledgements are lost, the program
    calls ExitProcess; with code 0 only if the host has published the bytes of the
    source file, of the expected length. When nothing fails and the source is the
    artifact, the code is 0. *)
Theorem upload_exact p w : receiver_init tok SIZE digest p None = Some (rcv v w) ->
  let r := mainCRTStartup env (uploader_init, w) in
  exists code, r.1 = Some code /\ (code = 0 -> dest (rcv v r.2.2) = Some src /\ zlen src = SIZE) /\
    (reliable -> p = None -> zlen src = SIZE -> sha256_digest src = digest -> code = 0).
Proof using U Ht.
  intros Hi r. pose proof (upload_main p w Hi) as H. rewrite mwp_iff in H. destruct H as (c & H1 & H2 & H3).
  exists c. split_and!; [done | done |]. intros. by apply H3.
Qed.
End link.

(** ** A concrete machine

    Two drives, the second one the host's, and nothing that fails.  The state is the
    receiver and the open handles. *)

Lemma demo_source_exists : { l : list Z | zlen l = SIZE }.
Proof. exists (zeros SIZE). by apply zlen_zeros. Qed.
Definition demo_source : list Z := proj1_sig demo_source_exists.
Definition demo_sha (l : list Z) : list Z := digest.

Record upload_world := mk_upload_world { d_rcv : Receiver; d_hnd : gmap Z place }.
Definition set_place (h : Z) (p : place) (w : upload_world) : upload_world := mk_upload_world (d_rcv w) (<[h := p]> (d_hnd w)).
Definition next_handle (w : upload_world) : Z := fresh ({[BAD]} ∪ dom (d_hnd w)).
Definition drive_of (path : list Z) : place :=
  if decide (path = source_path) then OnSource 0 else OnDrive (byte_at path 17 - 0x30) 0.

Definition upload_base : win32 upload_world := {|
  GetDiskFreeSpaceExW := fun w => ((false, 0), w);
  VirtualAlloc := fun n w => (Some (zeros n), w);
  CreateFileW := fun path _ _ _ _ w =>
    let p := drive_of path in
    if match p with OnDrive i _ => i <? 2 | OnSource _ => true end
    then (next_handle w, set_place (next_handle w) p w) else (BAD, w);
  DeviceIoControl := fun h w =>
    ((true, match d_hnd w !! h with Some (OnDrive 1 _) => NS2_LENGTH | _ => 512 end, 8), w);
  SetFilePointerEx := fun h at_ w =>
    match d_hnd w !! h with Some (OnDrive i _) => (true, set_place h (OnDrive i at_) w) | _ => (false, w) end;
  ReadFile := fun h dst n w =>
    match d_hnd w !! h with
    | Some (OnDrive 1 p) =>
        match overlay (d_rcv w) (p / BLOCK) 1 (demo_raw (p / BLOCK)) with
        | Some out => if zlen out =? zlen dst then ((true, n, out), set_place h (OnDrive 1 (p + n)) w) else ((false, 0, dst), w)
        | None => ((false, 0, dst), w)
        end
    | Some (OnSource p) =>
        if p + n <=? zlen demo_source then ((true, n, overwrite 0 (piece p n demo_source) dst), set_place h (OnSource (p + n)) w)
        else ((false, 0, dst), w)
    | _ => ((false, 0, dst), w)
    end;
  WriteFile := fun h bs w =>
    match d_hnd w !! h with
    | Some (OnDrive 1 _) =>
        let c := accept demo_sha no_faults bs (d_rcv w) in
        (if c.1 then (true, WINDOW) else (false, 0), mk_upload_world c.2 (d_hnd w))
    | _ => ((false, 0), w)
    end;
  FlushFileBuffers := fun _ w => (false, w);
  CloseHandle := fun h w => (tt, mk_upload_world (d_rcv w) (delete h (d_hnd w)));
  Sleep := fun _ w => (tt, w);
|}.
Definition upload_env : upload32 upload_world := {|
  base := upload_base;
  GetFileAttributesW := fun _ w => (0x10, w);
  GetFileInformationByHandle := fun _ w => ((true, 0x20), w);
  GetFileSizeEx := fun _ w => ((true, zlen demo_source), w);
|}.
Definition upload_views : uviews upload_world := {|
  rcv := d_rcv; uhnd := fun w h => d_hnd w !! h; uraw := fun _ => demo_raw; uns2 := 1;
|}.

Lemma next_handle_spec w : next_handle w <> BAD /\ d_hnd w !! next_handle w = None.
Proof.
  pose proof (is_fresh ({[BAD]} ∪ dom (d_hnd w) : gset Z)) as H. fold (next_handle w) in H.
  split; [set_solver|]. apply not_elem_of_dom. set_solver.
Qed.

Lemma set_place_kept h p w : ukept upload_views (upd h (Some p) (uhnd upload_views w)) w (set_place h p w).
Proof.
  split; [done|]. intros x. cbn. destruct (decide (x = h)) as [->|]; [by rewrite lookup_insert_eq, upd_same | by rewrite lookup_insert_ne, upd_other].
Qed.

Lemma same_kept h p w : d_hnd w !! h = Some p -> ukept upload_views (upd h (Some p) (uhnd upload_views w)) w w.
Proof. intros E. split; [done|]. intros x. unfold upd. by destruct (Z.eqb_spec x h) as [->|]. Qed.

Lemma drive_of_path i : 0 <= i < 10 -> drive_of (drive_path i) = OnDrive i 0.
Proof.
  intros Hi. assert (H : forall k, (k < 10)%nat -> drive_of (drive_path (Z.of_nat k)) = OnDrive (Z.of_nat k) 0).
  { intros k Hk. do 10 (destruct k as [|k]; [by vm_compute|]). lia. }
  rewrite <- (Z2Nat.id i) by lia. apply H. lia.
Qed.

#[export] Instance upload_machine : UploadMachine upload_env upload_views demo_token demo_sha demo_source True.
Proof.
  assert (K0 : forall w, ukept upload_views (uhnd upload_views w) w w) by (by split).
  split.
  - done.
  - intros w. apply demo_disk.
  - intros w. by split.
  - intros w. right. destruct (next_handle_spec w). split; [done|]. split; [done|]. apply set_place_kept.
  - intros h p w Hh. by split.
  - intros h p w Hh. by split_and!.
  - intros n w. split; [apply K0 | by left].
  - intros i acc w Hi. cbn [upload_env upload_base base CreateFileW]. rewrite drive_of_path by done. cbv zeta.
    destruct (Z.ltb_spec i 2); [right | left; split_and!; [done | cbn; lia | apply K0]].
    destruct (next_handle_spec w). split; [done|]. split; [done|]. apply set_place_kept.
  - intros h i p w Hh. cbn in Hh. cbn [upload_env upload_base base DeviceIoControl fst snd]. cbv zeta. split; [apply K0|]. rewrite Hh.
    destruct (decide _) as [->|Hne]; [done|]. intros _. cbn in Hne. by repeat case_match.
  - intros h i p at_ w Hh. cbn in Hh. cbn [upload_env upload_base base SetFilePointerEx]. rewrite Hh. cbv zeta.
    split; [|done]. exists at_. split; [apply set_place_kept | done].
  - intros h lba dst w Hh Hl Hd. cbn in Hh. cbn [upload_env upload_base base ReadFile]. rewrite Hh, Z.div_mul by done. cbv zeta.
    cbn [rcv uraw upload_views]. destruct (overlay _ _ _ _) as [out|]; [destruct (Z.eqb_spec (zlen out) (zlen dst)) as [E|E]|]; cbn [fst snd].
    + split; [congruence|]. split; [eexists; apply set_place_kept|]. by intros ? [= <-] _.
    + split; [done|]. split; [eexists; by apply same_kept|]. intros ? [= <-] ?. congruence.
    + split; [done|]. split; [eexists; by apply same_kept | done].
  - intros h bs w Hh Hz. cbn in Hh. cbn [upload_env upload_base base WriteFile]. rewrite Hh. cbv zeta. cbn [fst snd rcv upload_views d_rcv].
    split; [|split; [right; by exists no_faults | done]]. exists (WRITE_LBA * BLOCK). apply (same_kept h _ w Hh).
  - intros h p dst n w Hh Hp Hn. cbn in Hh. cbn [upload_env upload_base base ReadFile]. rewrite Hh. cbv zeta.
    destruct (Z.leb_spec (p + n) (zlen demo_source)) as [Hle|Hle]; cbn [fst snd].
    + assert (Hz : zlen (piece p n demo_source) = n) by (apply zlen_piece; lia).
      split; [rewrite zlen_overwrite; lia|]. split; [|done]. eexists. split; [apply set_place_kept|]. intros _. split_and!; [done | done|].
      apply (ztake_app (piece p n demo_source)). by rewrite Hz.
    + split; [done|]. split; [eexists; split; [by apply same_kept | done] | lia].
  - intros h w. split; [done|]. intros x. cbn. unfold upd. destruct (Z.eqb_spec x h) as [->|]; [apply lookup_delete_eq | by apply lookup_delete_ne].
  - intros n w. apply K0.
Qed.

Definition upload_start : upload_world :=
  mk_upload_world (set_ack (mk_receiver demo_token SIZE digest 0 [] 0 None false false false [] None None)) ∅.

Lemma upload_exact_witness :
  let r := mainCRTStartup upload_env (uploader_init, upload_start) in
  r.1 = Some 0 /\ dest (d_rcv r.2.2) = Some demo_source.
Proof.
  destruct (upload_exact (env := upload_env) (v := upload_views) (tok := demo_token) (sha256_digest := demo_sha) (src := demo_source)
    (reliable := True) eq_refl None upload_start eq_refl) as (code & H1 & H2 & H3).
  pose proof (H3 I eq_refl (proj2_sig demo_source_exists) eq_refl) as E.
  split; [rewrite H1, E; reflexivity | exact (proj1 (H2 E))].
Defined.
